(* ===== verification/_CoqProject ===== *)
-Q . S2P
Prelude.v
NngQueue.v
OptsApi.v
Crc32c.v
Hashmap.v
WebhookCodec.v
NngApi.v
NngModel.v
Acl.v
PubCodec.v
SubHandler.v
UnsubHandler.v
PubHandler.v
Plugin.v
Delivery.v
ServerCb.v
WebhookEvents.v
WebhookAgent.v
RuleEngine.v
RuleSql.v
RuleDb.v
RuleRepub.v
RuleLoop.v
RuleConf.v
RuleClients.v
Bridge.v
BridgeConn.v
BridgeDial.v
BridgeHybrid.v
BridgeQuic.v
MqttApi.v
Iceoryx.v
CmdProc.v
Services.v
RestApi.v
RestJwt.v
RestPublish.v
RestRules.v
RestBridge.v
RestEndpoints.v
RestReports.v
RestMetrics.v
ConfApi.v
ConfBridge.v
RestControl.v
BrokerStart.v
LoadFile.v
ToolTls.v
BrokerCli.v
NngProxy.v
NftpVec.v
CliOpts.v
CliClient.v
BenchOpts.v
BenchRun.v
DdsProxy.v
DdsOpts.v
DdsStart.v
DdsTools.v
CliProxy.v
CliProxyRun.v
NngCat.v
NngCatSock.v
WebServer.v
GatewayRest.v
GatewayParams.v
ZmqGateway.v
RuleCtrl.v
Nftp.v
Process.v
ZephyrClock.v
ZephyrMain.v
AwsBridge.v
HttpService.v
CliWeb.v
Vsomeip.v
CliMain.v
