(* ===== verification/Prelude.v ===== *)
(** * NanoMQ: a verification development

    NanoMQ is an MQTT broker written in C on the asynchronous messaging library
    NNG.  A number of workers ([struct work], src/nanomq/include/broker.h) run
    the completion callback [server_cb] (src/nanomq/apps/broker.c).  A worker
    receives a decoded packet from the protocol layer and hands it to the packet
    handlers: SUBSCRIBE (src/nanomq/sub_handler.c), UNSUBSCRIBE
    (unsub_handler.c), PUBLISH (pub_handler.c).  These share a topic tree with
    the subscriptions, a tree with the retained messages and a table of the
    topics of each client, all from the library nanolib.  A publish passes the
    access control (acl_handler.c), is stored when it is to be retained, and is
    sent to the collected pipes, to bridges (bridge.c), to web hooks
    (webhook_post.c, webhook_inproc.c) and to the rule engine (pub_handler.c),
    which writes matching messages to a data base or publishes them again.  An
    HTTP server (web_server.c) serves a REST API (rest_api.c, conf_api.c).  The
    directory nanomq_cli has the command line tools: clients, a benchmark,
    proxies and gateways.

    ** Files

    The broker's core:
    - [Prelude]: machine integers, bytes and C strings, automation.
      [NngQueue]: the message queue of NNG, as a class with laws.
    - [Crc32c], [Hashmap] model hashmap.c: the CRC-32C hash with its table, and
      the open-addressing hash map.  [hashmap_s] is the record of the same name;
      an operation returns the new record.
    - [NngApi] has a class for each group of library functions, with the laws
      the handlers rely on in classes of their own; NNG and nanolib are
      submodules that are not part of the repository.  [NngModel] is one
      executable instance that meets the laws, for the witnesses.
    - [Acl] models acl_handler.c: [auth_acl] with its loops and placeholders.
    - [PubCodec] models [decode_pub_message] and [encode_pub_message].
    - [SubHandler] and [UnsubHandler] model their C files: decoding,
      registration, acknowledgement, removal of a client.
    - [PubHandler] models [handle_pub] and its parts ([foreach_client],
      [handle_pub_retain], topic aliases, access control, statistics) and
      [check_msg_exp].  [pub_state] is the shared state of broker and worker.
    - [Delivery] composes the handlers the way [server_cb] calls them and states
      the contract of the broker.
    - [ServerCb] is [server_cb] itself: a function from the worker and what the
      callback observes to the worker and the calls it makes.
    - [BrokerStart] is [broker]: the calls of the start and the array of the
      workers; [BrokerCli] its command line, the file with the process id and
      the commands of nanomq.c; [Process] process.c and the log; [CmdProc] the
      command server; [MqttApi] the notification messages of mqtt_api.c;
      [Services] the thread of the web hooks, the client of the command server
      and the signals; [Plugin] the hooks and the plugin of nanomq/plugin.
    - [ZephyrMain] and [ZephyrClock] model the entry points of the Zephyr ports
      (demo/*/src/main.c): configuration, network, clock.

    What messages pass on their way out:
    - [WebhookCodec], [WebhookEvents] and [WebhookAgent] model the encodings and
      the JSON of events and the agent that posts them.
    - [RuleEngine] models [rule_engine_filter] on a class for cJSON; [RuleSql]
      and [RuleDb] the SQL statements for the data bases; [RuleRepub] and
      [RuleLoop] the rules that publish again; [RuleConf] and [RuleClients]
      nanomq_rule.c.
    - [Bridge] models the forwarding of bridge.c, [BridgeConn] its connection
      messages and callbacks, [BridgeDial] the start and reload of its clients,
      [BridgeHybrid] the thread that switches between servers, [BridgeQuic] the
      clients over QUIC; [NngProxy] apps/nng_bridge.c; [AwsBridge] aws_bridge.c;
      [Iceoryx] the packets over shared memory.

    The REST API:
    - [WebServer] is web_server.c: the jobs and workers between the HTTP server
      and the API.
    - [RestApi] models requests, authorization and routes, [RestJwt] the
      authorization with tokens, [HttpService] the composition of server,
      authorization and routes; [RestEndpoints] the
      table of endpoints, [RestPublish], [RestRules], [RestBridge],
      [RestReports], [RestMetrics] and [RestControl] the handlers, [ConfApi] and
      [ConfBridge] the configuration as JSON (conf_api.c).

    The command line tools:
    - [OptsApi] is the parser of options and the numbers that tools read.
    - [CliOpts] and [CliClient] model client.c, [BenchOpts] and [BenchRun] the
      benchmark, [NngCat] and [NngCatSock] nngcat.c, [CliProxy] and
      [CliProxyRun] nng_proxy.c, [RuleCtrl] the command "rules", [Nftp] the file
      transfer; [CliMain] the table of the tools; [LoadFile] and [ToolTls] the
      reading of files and the TLS that the tools have in common.
    - [NftpVec], [DdsProxy], [DdsStart] and [DdsOpts] model the DDS proxy,
      [DdsTools] "dds sub" and "dds pub"; [ZmqGateway] and [Vsomeip] the ZeroMQ
      and SOME/IP gateways; [GatewayRest], [GatewayParams] and [CliWeb] the HTTP
      interface of the gateways.

    ** What is shown

    - The broker's contract ([Delivery]): an abstract broker is a set of pairs
      of a filter and a pipe.  After any sequence of SUBSCRIBE, UNSUBSCRIBE,
      disconnects and PUBLISH the topic tree and the client table represent that
      set, and a publish that is not refused goes to exactly the pipes whose
      filters match and to one member of each share group whose filter does.
    - The handlers: the registry invariant (the client table and the topic tree
      agree) is kept by every operation; the decoder of publishes reads nothing
      outside the packet (its reads are checked, [None] being one that is not in
      the body); decoders end, accept every well-formed packet and reject
      wildcards in publish topics; encoders and decoders are inverse; acknowledgements carry
      one code per topic; retained messages are stored, replaced and deleted;
      topic aliases resolve to the topic they were set to.
    - The worker: every reachable worker re-arms its aio with the operation its
      state waits for, on the context of its protocol, or ends the process in one
      of two ways that are named; it carries nothing over to the next packet, and
      a worker of the broker releases the connection parameters of a packet
      exactly once.  The start refines a list of what the configuration asks for,
      fills the array of the workers without a gap and opens the contexts of each
      before the first is set going.  The Zephyr ports start the broker, once the
      link is there, with what their configuration says, and their clock shows an
      instant of the reading, in the Gregorian count of days.
    - Access control is the first-match reading of the rule list.
    - The hash map represents a finite map and put, get and remove act on it; the
      hash is the bitwise CRC-32C; the encoders compute positional notations.
    - The rule engine: what a rule matches, that the INSERT statement lists the
      selected columns and values, when the fixed arrays are large enough, and
      what republishing rules publish.
    - Web hooks and bridges: every message is posted or counted as dropped, the
      queue is drained, and the objects of the HTTP library are released once;
      the cache of a bridge is a bounded first-in first-out queue; the retries of
      the AWS bridge end; a lone bridge over QUIC subscribes once a session;
      packets over Iceoryx are read back.  Plugin hooks refine a map.
    - The REST API: whatever the interleaving of jobs and workers, each request
      is answered exactly once and with the answer to it; handlers run only for
      authorized requests; every request is answered; a publish request sends
      exactly the messages it asks for; the handlers for rules keep the table of
      rules consistent, two kinds of PUT excepted that break it; a configuration
      that one broker shows is the one another has after it was posted, as far as
      it can be set.  Composed, no answer of a routed handler reaches a client without
      credentials.
    - The tools: options are read without undefined behaviour or the options for
      which that fails are named; a benchmark never exceeds its limit; proxies
      convey each message once and in order, and for the DDS proxy the messages
      that a full queue or a failing send costs are named; formats can be read back; a file
      transfer completes; reading a file returns its bytes, or does not end after
      a read that was interrupted; when the peer of a TLS connection is verified.
    - Where the code departs from what it means to do, a theorem says what it
      does instead; PROJECT.json lists these as findings.

    ** Modelling decisions

    - A C integer is a [Z], with the wrap-around of its width written out
      ([u8], [u16], [u32], [u64], [i32]) where the code can reach it.  A C string
      is the list of its bytes without the NUL.  A NULL dereference, a read
      outside an array, the use of memory that was freed or never set is [None]
      or a constructor of its own ([Undefined], [UseNull], [Overflow]); error
      codes are values.
    - Effects are lists of calls, in the order the code makes them; a start
      routine is a list of calls that an [exec] makes until one fails that is
      checked.  Callbacks are functions from the state and what they observe.
      Objects that the code shares (rules, jobs, workers) are in a list by their
      number, with the freed ones marked.
    - Interleavings: a step relation where callbacks of several threads meet
      ([WebhookAgent], [Bridge], [BridgeHybrid], [BenchRun], [WebServer]), explicit turns of the
      threads in [DdsProxy].  Calls of the packet handlers on different workers
      are not interleaved: the library's locks make each tree and table
      operation atomic, and [Delivery] treats the handling of a packet as one
      step.
    - Loops over arrays and lists are structural.  Fuel: [decode_sub_msg] and
      [decode_unsub_msg] take the payload length plus one (every round consumes
      a byte), the placeholder loops the length of the string, [hashmap_put] 32
      (32 doublings exhaust a 32-bit size), [sbuf_ensure] 65 rounds (64 doublings
      exhaust a size_t), [base62_encode] eight digits per byte, the loops over a
      URI its length, the loops over options one round more than there are
      arguments, [stats_loop] one round more than the stack is high, [load_loop]
      one round more than the file has bytes.  Theorems
      state that the result is reached, not only what it is.
    - Memory that the code frees is represented where a theorem is about it;
      other frees are left out.
    - Compile-time options: in the core files ACL_SUPP, STATISTICS,
      NNG_SUPP_SQLITE and SUPP_RULE_ENGINE are in, and for the tools the option
      that builds them.  The parts for QUIC, Iceoryx, AWS, plugins and JSON Web
      Tokens are in the files named above; FoundationDB is out.

    ** Not modelled

    The connection to FoundationDB (db_cli.c), calls of one library; the set-up
    of coreMQTT in aws_bridge.c, of which only the result matters; QUIC in
    nanomq_cli/client.c; the handlers for subscriptions over HTTP whose routes
    are commented out; the text of addresses of pipes; help texts; tests and
    fuzzers. *)

From stdpp Require Export base option list numbers strings gmap sets.
From Stdlib Require Export Lia.
#[export] Set Default Goal Selector "!".
#[export] Set Warnings "-clear-no-such-hyp".

Declare Scope nmq_scope.
Delimit Scope nmq_scope with nmq.
Open Scope Z_scope.

(** ** Machine integers

    A C integer of width [w] is a [Z]; the wrap-around of the unsigned types
    is the reduction modulo [2^w], and [i32] is the two's complement reading
    of the low 32 bits. *)

Definition u8 (z : Z) : Z := z mod 256.
Definition u16 (z : Z) : Z := z mod 65536.
Definition u32 (z : Z) : Z := z mod 4294967296.
Definition u64 (z : Z) : Z := z mod 18446744073709551616.
Definition i32 (z : Z) : Z := (z + 2147483648) mod 4294967296 - 2147483648.

Lemma u8_range z : 0 <= u8 z < 256.
Proof. unfold u8. apply Z.mod_pos_bound. lia. Qed.

Lemma u16_range z : 0 <= u16 z < 65536.
Proof. unfold u16. apply Z.mod_pos_bound. lia. Qed.

Lemma u32_range z : 0 <= u32 z < 4294967296.
Proof. unfold u32. apply Z.mod_pos_bound. lia. Qed.

Lemma u8_small z : 0 <= z < 256 -> u8 z = z.
Proof. apply Z.mod_small. Qed.

Lemma u16_small z : 0 <= z < 65536 -> u16 z = z.
Proof. apply Z.mod_small. Qed.

Lemma u32_small z : 0 <= z < 4294967296 -> u32 z = z.
Proof. apply Z.mod_small. Qed.

Lemma u32_idemp z : u32 (u32 z) = u32 z.
Proof. apply u32_small, u32_range. Qed.

Lemma i32_small z : -2147483648 <= z < 2147483648 -> i32 z = z.
Proof. intros. unfold i32. rewrite Z.mod_small; lia. Qed.

Lemma u64_small z : 0 <= z < 18446744073709551616 -> u64 z = z.
Proof. apply Z.mod_small. Qed.

(** ** Bytes and C strings

    A byte array is a [list Z] with elements below 256; a C string is the
    list of its characters without the terminating NUL.  [lit] turns a Rocq
    string literal into such a list. *)

Abbreviation bytes := (list Z).

Definition byte_ok (b : Z) : Prop := 0 <= b < 256.
Definition bytes_ok (s : bytes) : Prop := Forall byte_ok s.

Fixpoint lit (s : string) : bytes :=
  match s with
  | EmptyString => []
  | String c s' => Z.of_nat (Ascii.nat_of_ascii c) :: lit s'
  end.

Notation "'c!' s" := (lit s%string) (at level 1, s at level 0, format "'c!' s") : nmq_scope.
Open Scope nmq_scope.

(** The length of an array, as the C code's integers see it. *)
Definition blen {A} (l : list A) : Z := Z.of_nat (length l).

(** [c_str] is what a [char *] into a NUL-terminated buffer denotes. *)
Fixpoint c_str (s : bytes) : bytes :=
  match s with
  | [] => []
  | b :: s' => if b =? 0 then [] else b :: c_str s'
  end.

(** [memcmp(a, b, n) == 0]. *)
Definition memcmp0 (a b : bytes) (n : Z) : bool :=
  bool_decide (take (Z.to_nat n) a = take (Z.to_nat n) b).

(** [strcmp(a, b) == 0] and [strncmp(a, b, n) == 0] on NUL-free strings. *)
Definition strcmp0 (a b : bytes) : bool := bool_decide (a = b).
Definition strncmp0 (a b : bytes) (n : Z) : bool :=
  bool_decide (take (Z.to_nat n) a = take (Z.to_nat n) b).

(** [strchr]: the suffix of [s] that starts at the first [c]. *)
Fixpoint strchr (s : bytes) (c : Z) : option bytes :=
  match s with
  | [] => None
  | b :: s' => if b =? c then Some s else strchr s' c
  end.

(** Index of the last [c] in [s], as [strrchr(s, c) - s]. *)
Fixpoint strrchr_idx (s : bytes) (c : Z) : option nat :=
  match s with
  | [] => None
  | b :: s' =>
      match strrchr_idx s' c with
      | Some i => Some (S i)
      | None => if b =? c then Some 0%nat else None
      end
  end.

Fixpoint is_prefix (p s : bytes) : bool :=
  match p, s with
  | [], _ => true
  | a :: p', b :: s' => (a =? b) && is_prefix p' s'
  | _ :: _, [] => false
  end.

(** [strstr]: the suffix of [s] that starts at the first occurrence of [p]. *)
Fixpoint strstr (s p : bytes) : option bytes :=
  if is_prefix p s then Some s
  else match s with
       | [] => None
       | _ :: s' => strstr s' p
       end.

(** ** Generic lemmas *)

Lemma blen_nonneg {A} (l : list A) : 0 <= blen l.
Proof. unfold blen. lia. Qed.

Lemma blen_app {A} (l k : list A) : blen (l ++ k) = blen l + blen k.
Proof. unfold blen. rewrite length_app. lia. Qed.

Lemma blen_cons {A} (x : A) l : blen (x :: l) = 1 + blen l.
Proof. unfold blen. simpl. lia. Qed.

Lemma blen_nil {A} : blen ([] : list A) = 0.
Proof. reflexivity. Qed.

Lemma is_prefix_spec p s : is_prefix p s = true <-> exists t, s = p ++ t.
Proof.
  revert s; induction p as [|a p IH]; intros [|b s]; simpl.
  - split; eauto.
  - split; eauto.
  - split; [done | intros [t ?]; done].
  - rewrite andb_true_iff, Z.eqb_eq, IH. split.
    + intros [-> [t ->]]. eauto.
    + intros [t [= -> ->]]. eauto.
Qed.

Lemma strstr_Some s p t :
  strstr s p = Some t -> exists pre post, s = pre ++ t /\ t = p ++ post.
Proof.
  revert t; induction s as [|b s IH]; intros t; simpl.
  - destruct p; simpl; [|done]. intros [= <-]. by exists [], [].
  - destruct (is_prefix p (b :: s)) eqn:E.
    + intros [= <-]. apply is_prefix_spec in E as [post ->]. by exists [], post.
    + intros H. destruct (IH _ H) as (pre & post & -> & ->).
      by exists (b :: pre), post.
Qed.

Lemma strchr_Some s c t :
  strchr s c = Some t -> exists pre post, s = pre ++ t /\ t = c :: post /\ c ∉ pre.
Proof.
  revert t; induction s as [|b s IH]; intros t; simpl; [done|].
  destruct (Z.eqb_spec b c) as [->|Hne].
  - intros [= <-]. exists [], s. split_and!; [done..|]. apply not_elem_of_nil.
  - intros H. destruct (IH _ H) as (pre & post & -> & -> & Hn).
    exists (b :: pre), post. split_and!; [done..|]. apply not_elem_of_cons. done.
Qed.

Lemma strchr_None s c : strchr s c = None <-> c ∉ s.
Proof.
  induction s as [|b s IH]; simpl.
  - split; [intros _; apply not_elem_of_nil | done].
  - rewrite not_elem_of_cons. destruct (Z.eqb_spec b c) as [->|Hne].
    + split; [done | intros []; done].
    + rewrite IH. naive_solver.
Qed.

Lemma strncmp0_prefix a b n :
  (length b <= Z.to_nat n)%nat -> length a = Z.to_nat n ->
  strncmp0 a b n = bool_decide (a = b).
Proof.
  intros Hb Ha. unfold strncmp0. rewrite !take_ge by lia. done.
Qed.

(** ** Automation

    [case_if] splits on the innermost test of the goal, [inv_some] inverts
    the equations an error path leaves behind; the database [nmq] carries the
    range facts that the components' arithmetic needs. *)

Create HintDb nmq discriminated.
Create Rewrite HintDb nmq_rw.
#[export] Hint Resolve u8_range u16_range u32_range blen_nonneg : nmq.
#[export] Hint Rewrite @blen_app @blen_cons @blen_nil @length_app : nmq_rw.

Ltac inv_some :=
  repeat match goal with
  | H : Some _ = Some _ |- _ => injection H as H; try subst
  | H : (_, _) = (_, _) |- _ => injection H as H; try subst
  | H : inr _ = inr _ |- _ => injection H as H; try subst
  | H : inl _ = inr _ |- _ => discriminate H
  | H : None = Some _ |- _ => discriminate H
  | H : Some _ = None |- _ => discriminate H
  end.

Ltac case_test :=
  match goal with
  | |- context [if ?b then _ else _] => destruct b eqn:?
  | H : context [if ?b then _ else _] |- _ => destruct b eqn:?
  end.

Ltac bool_hyps :=
  repeat match goal with
  | H : (_ && _)%bool = true |- _ => apply andb_true_iff in H as [? ?]
  | H : (_ || _)%bool = false |- _ => apply orb_false_iff in H as [? ?]
  | H : (_ =? _) = true |- _ => apply Z.eqb_eq in H
  | H : (_ =? _) = false |- _ => apply Z.eqb_neq in H
  | H : (_ <? _) = true |- _ => apply Z.ltb_lt in H
  | H : (_ <? _) = false |- _ => apply Z.ltb_ge in H
  | H : (_ <=? _) = true |- _ => apply Z.leb_le in H
  | H : (_ <=? _) = false |- _ => apply Z.leb_gt in H
  | H : negb _ = true |- _ => apply negb_true_iff in H
  | H : negb _ = false |- _ => apply negb_false_iff in H
  | H : bool_decide _ = true |- _ => apply bool_decide_eq_true in H
  | H : bool_decide _ = false |- _ => apply bool_decide_eq_false in H
  end.

(** Tests of equality that a hypothesis decides. *)
Ltac neq_eqb :=
  repeat match goal with
  | H : ?a <> ?b |- context [?a =? ?b] => rewrite (proj2 (Z.eqb_neq a b) H)
  | H : ?a <> ?b |- context [?b =? ?a] => rewrite (proj2 (Z.eqb_neq b a) (not_eq_sym H))
  end.

(** The lengths of the literals in the goal. *)
Ltac lit_len :=
  repeat match goal with
  | |- context [blen (lit ?s)] =>
      let n := eval vm_compute in (blen (lit s)) in replace (blen (lit s)) with n by reflexivity
  end.
