(* ===== verification/NngQueue.v ===== *)
(** * Message queues of NNG and progress of asynchronous components

    [nng_lmq] is the lightweight message queue of the library: a bounded FIFO
    queue.  Its operations are the fields of a class, what the broker relies on
    is a class of laws, and a list with a capacity is an instance.  The second
    part is the notion of progress that the components driven by completion
    callbacks use. *)

From S2P Require Import Prelude.

(** ** Queues *)

(** [None] is an error code of the C function: an empty queue for [get], a full
    one for [put], lack of memory for [resize]. *)
Class NngLmq (M : Type) := {
  nng_lmq : Type;
  nng_lmq_get : nng_lmq -> option (M * nng_lmq);
  nng_lmq_put : nng_lmq -> M -> option nng_lmq;
  nng_lmq_resize : nng_lmq -> Z -> option nng_lmq;
  nng_lmq_len : nng_lmq -> Z;
  nng_lmq_cap : nng_lmq -> Z;
  nng_lmq_full : nng_lmq -> bool;
  nng_lmq_empty : nng_lmq -> bool
}.

Class NngLmqLaws (M : Type) `{NngLmq M} := {
  lmq_items : nng_lmq -> list M;
  lmq_get_empty q : lmq_items q = [] -> nng_lmq_get q = None;
  lmq_get_head q m l : lmq_items q = m :: l ->
    exists q', nng_lmq_get q = Some (m, q') /\ lmq_items q' = l /\ nng_lmq_cap q' = nng_lmq_cap q;
  lmq_put_full q m : nng_lmq_full q = true -> nng_lmq_put q m = None;
  lmq_put_room q m : nng_lmq_full q = false ->
    exists q', nng_lmq_put q m = Some q' /\ lmq_items q' = lmq_items q ++ [m] /\
      nng_lmq_cap q' = nng_lmq_cap q;
  lmq_resize q c q' : nng_lmq_resize q c = Some q' -> nng_lmq_len q <= c ->
    lmq_items q' = lmq_items q /\ nng_lmq_cap q' = c;
  lmq_len q : nng_lmq_len q = blen (lmq_items q);
  lmq_full q : nng_lmq_full q = (nng_lmq_cap q <=? nng_lmq_len q);
  lmq_empty q : nng_lmq_empty q = bool_decide (nng_lmq_len q = 0)
}.

Section Queue.

Context {M : Type} `{NngLmqLaws M}.

Lemma lmq_get_Some q m q' :
  nng_lmq_get q = Some (m, q') -> lmq_items q = m :: lmq_items q' /\ nng_lmq_cap q' = nng_lmq_cap q.
Proof.
  intros E. destruct (lmq_items q) as [|m1 l] eqn:Hq.
  - by rewrite (lmq_get_empty q Hq) in E.
  - destruct (lmq_get_head q m1 l Hq) as (q1 & E1 & <- & Hc). rewrite E in E1. by injection E1 as <- <-.
Qed.

Lemma lmq_empty_nil q : nng_lmq_empty q = true <-> lmq_items q = [].
Proof.
  rewrite lmq_empty, lmq_len, bool_decide_eq_true. unfold blen.
  destruct (lmq_items q); cbn [length]; split; intros; try done; lia.
Qed.

Lemma lmq_get_None q : nng_lmq_get q = None -> lmq_items q = [].
Proof.
  intros E. destruct (lmq_items q) as [|m l] eqn:Hq; [done|].
  destruct (lmq_get_head q m l Hq) as (q' & E' & _). by rewrite E in E'.
Qed.

End Queue.

(** A list with a capacity. *)
Record list_lmq (M : Type) := ListLmq { ll_items : list M; ll_cap : Z }.
Arguments ListLmq {M}.
Arguments ll_items {M}.
Arguments ll_cap {M}.

#[export] Instance list_lmq_ops (M : Type) : NngLmq M := {|
  nng_lmq := list_lmq M;
  nng_lmq_get q := match ll_items q with [] => None | m :: l => Some (m, ListLmq l (ll_cap q)) end;
  nng_lmq_put q m :=
    if ll_cap q <=? blen (ll_items q) then None
    else Some (ListLmq (ll_items q ++ [m]) (ll_cap q));
  nng_lmq_resize q c := Some (ListLmq (take (Z.to_nat c) (ll_items q)) c);
  nng_lmq_len q := blen (ll_items q);
  nng_lmq_cap := ll_cap;
  nng_lmq_full q := ll_cap q <=? blen (ll_items q);
  nng_lmq_empty q := bool_decide (blen (ll_items q) = 0)
|}.

#[export] Instance list_lmq_laws (M : Type) : NngLmqLaws M.
Proof.
  refine {| lmq_items := ll_items : nng_lmq -> list M |}; cbn; try done.
  - intros q ->. done.
  - intros q m l ->. by eexists.
  - intros q m ->. done.
  - intros q m ->. by eexists.
  - intros q c q' [= <-] Hc. cbn. split; [|done]. apply take_ge. unfold blen in Hc. lia.
Defined.

(** ** Progress

    [eventually P s]: whatever steps are taken from [s], a state with [P] is
    reached, and until then a step can be taken. *)

Section Progress.

Context {S : Type} (step : S -> S -> Prop).

Inductive eventually (P : S -> Prop) (s : S) : Prop :=
  | now : P s -> eventually P s
  | later : (exists s', step s s') -> (forall s', step s s' -> eventually P s') -> eventually P s.

(** A measure that every step decreases until [P] holds. *)
Lemma eventually_measure (I P : S -> Prop) (m : S -> nat) :
  (forall s, I s -> P s \/
     (exists s', step s s') /\ forall s', step s s' -> I s' /\ (m s' < m s)%nat) ->
  forall s, I s -> eventually P s.
Proof.
  intros H s. remember (m s) as n eqn:En. revert s En.
  induction (lt_wf n) as [n _ IH]. intros s -> Hs.
  destruct (H s Hs) as [HP|[Hex Hdec]]; [by apply now|]. apply later; [done|].
  intros s' Hst. destruct (Hdec s' Hst) as [Hs' Hlt]. by apply (IH (m s') Hlt s').
Qed.

End Progress.
