(* ===== verification/OptsApi.v ===== *)
(** * The parser of options of NNG

    The programs of the repository read their arguments with nng_opts_parse.
    Its table of options, its results and what the programs rely on; and the
    numbers that strtol and its relatives of the C library read. *)

From S2P Require Import Prelude.

(** nng_optspec *)
Record optspec := OptSpec { o_name : bytes; o_short : Z; o_val : Z; o_arg : bool }.

(** A call of nng_opts_parse: its result, and the option, its argument and the
    next index when that is 0. *)
Record parsed := Parsed { pa_rv : Z; pa_val : Z; pa_arg : option bytes; pa_idx : nat }.

(** nng_opts_parse on the arguments from an index on. *)
Class OptsParse := { nng_opts_parse : list optspec -> list bytes -> nat -> parsed }.

(** It returns -1 behind the last argument, moves on otherwise, and gives the
    options that need one their argument. *)
Class OptsParseLaws `{OptsParse} : Prop := {
  opts_stop opts argv idx : (length argv <= idx)%nat -> pa_rv (nng_opts_parse opts argv idx) = -1;
  opts_next opts argv idx : pa_rv (nng_opts_parse opts argv idx) = 0 ->
    (idx < pa_idx (nng_opts_parse opts argv idx))%nat;
  opts_arg opts argv idx : pa_rv (nng_opts_parse opts argv idx) = 0 ->
    exists o, o ∈ opts /\ o_val o = pa_val (nng_opts_parse opts argv idx) /\
      (o_arg o = true -> is_Some (pa_arg (nng_opts_parse opts argv idx)))
}.

(** ** The loop over the options *)

(** How a program ends while it reads its options: with a status, or by
    undefined behaviour, the use of a pointer without a value or the overflow of
    an int. *)
Inductive stop := ExitWith (status : Z) | UseNull | Overflow.

(** [while ((rv = nng_opts_parse(..)) == 0) { body }]: the state and the result
    that ended the loop.  [None] is that [fuel] rounds were not enough. *)
Section Loop.

Context `{OP : OptsParse} {A : Type} (table : list optspec) (body : Z -> option bytes -> A -> A + stop).

Fixpoint parse_loop (fuel : nat) (argv : list bytes) (idx : nat) (st : A) : option (A * Z + stop) :=
  match fuel with
  | O => None
  | S fuel =>
      let p := nng_opts_parse table argv idx in
      if pa_rv p =? 0 then
        match body (pa_val p) (pa_arg p) st with
        | inl st => parse_loop fuel argv (pa_idx p) st
        | inr e => Some (inr e)
        end
      else Some (inl (st, pa_rv p))
  end.

Lemma parse_loop_keeps (I : A -> Prop) fuel argv idx st st' rv :
  (forall v a st st', I st -> body v a st = inl st' -> I st') -> I st ->
  parse_loop fuel argv idx st = Some (inl (st', rv)) -> I st' /\ rv <> 0.
Proof.
  intros Hb. revert idx st. induction fuel as [|fuel IH]; intros idx st HI; cbn [parse_loop]; [done|].
  destruct (Z.eqb_spec (pa_rv (nng_opts_parse table argv idx)) 0) as [E|E]; [|by intros [= <- <-]].
  destruct (body _ _ st) as [st1|] eqn:Eb; [|done]. apply IH. by eapply Hb.
Qed.

Context `{OL : !OptsParseLaws}.

(** One round more than there are arguments is enough. *)
Lemma parse_loop_ends k argv idx st : (length argv <= k + idx)%nat -> is_Some (parse_loop (S k) argv idx st).
Proof.
  revert idx st. induction k as [|k IH]; intros idx st H; cbn [parse_loop].
  - rewrite (opts_stop table argv idx) by lia. done.
  - destruct (Z.eqb_spec (pa_rv (nng_opts_parse table argv idx)) 0) as [E|E]; [|done].
    pose proof (opts_next _ _ _ E). destruct (body _ _ st); [|done]. apply IH. lia.
Qed.

(** When the body uses only the arguments that the options of the table have,
    no NULL pointer is used. *)
Lemma parse_loop_args fuel argv idx st :
  (forall o a st, o ∈ table -> (o_arg o = true -> is_Some a) -> body (o_val o) a st <> inr UseNull) ->
  parse_loop fuel argv idx st <> Some (inr UseNull).
Proof.
  intros Hb. revert idx st. induction fuel as [|fuel IH]; intros idx st; cbn [parse_loop]; [done|].
  destruct (Z.eqb_spec (pa_rv (nng_opts_parse table argv idx)) 0) as [E|E]; [|done].
  destruct (opts_arg _ _ _ E) as (o & Ho & <- & Ha).
  specialize (Hb o (pa_arg (nng_opts_parse table argv idx)) st Ho Ha).
  destruct (body _ _ st); [apply IH|congruence].
Qed.

End Loop.

(** A parser with these laws: long options in full, their argument behind them. *)
Definition long_opts : OptsParse := {|
  nng_opts_parse opts argv idx :=
    match argv !! idx with
    | None => Parsed (-1) 0 None idx
    | Some a =>
        match List.find (fun o => bool_decide (a = lit "--" ++ o_name o)) opts with
        | None => Parsed 3 0 None idx
        | Some o =>
            if o_arg o then
              match argv !! S idx with
              | Some v => Parsed 0 (o_val o) (Some v) (S (S idx))
              | None => Parsed 1001 0 None idx
              end
            else Parsed 0 (o_val o) None (S idx)
        end
    end
|}.

Lemma long_opts_laws : @OptsParseLaws long_opts.
Proof.
  split; intros opts argv idx; cbn.
  - intros H. by rewrite (proj2 (lookup_ge_None _ _) H).
  - destruct (argv !! idx) as [a|]; [|done]. destruct (List.find _ _) as [o|]; [|done].
    destruct (o_arg o); [destruct (argv !! S idx)|]; cbn; try done; lia.
  - destruct (argv !! idx) as [a|]; [|done]. destruct (List.find _ opts) as [o|] eqn:E; [|done].
    apply find_some in E as [Ho _]. intros H. exists o. split; [by apply list_elem_of_In|].
    destruct (o_arg o); [destruct (argv !! S idx)|]; cbn in *; done.
Qed.

(** ** Numbers *)

Definition is_digit (c : Z) : bool := (48 <=? c) && (c <=? 57).

Fixpoint skip_spaces (s : bytes) : bytes :=
  match s with
  | c :: s' => if (c =? 32) || ((9 <=? c) && (c <=? 13)) then skip_spaces s' else s
  | [] => []
  end.

Fixpoint lead_digits (s : bytes) : bytes :=
  match s with c :: s' => if is_digit c then c :: lead_digits s' else [] | [] => [] end.

Definition digits_value (l : bytes) : Z := foldl (fun a c => a * 10 + (c - 48)) 0 l.

(** The number that strtol and strtoul read: its sign and its absolute value,
    or nothing without a digit. *)
Definition read_number (s : bytes) : option (bool * Z) :=
  let s := skip_spaces s in
  let '(neg, d) :=
    match s with
    | c :: s' => if c =? 45 then (true, s') else if c =? 43 then (false, s') else (false, s)
    | [] => (false, [])
    end in
  match lead_digits d with [] => None | l => Some (neg, digits_value l) end.

(** atoi: a long, which saturates, as an int *)
Definition atoi (s : bytes) : Z :=
  match read_number s with
  | None => 0
  | Some (neg, n) => i32 (if neg then Z.max (- 2 ^ 63) (- n) else Z.min (2 ^ 63 - 1) n)
  end.

(** ** Integer arguments *)

(** The loop of [intarg] of the tools: the value of the digits as an int, at
    most [maxv]; [fatal] ends the program with 1. *)
Fixpoint int_loop (val : bytes) (v maxv : Z) : Z + stop :=
  match val with
  | [] => if v <? 0 then inr (ExitWith 1) else inl v
  | c :: val =>
      if is_digit c then
        let v := v * 10 + (c - 48) in
        if 2147483647 <? v then inr Overflow
        else if maxv <? v then inr (ExitWith 1) else int_loop val v maxv
      else inr (ExitWith 1)
  end.

Definition intarg (val : bytes) (maxv : Z) : Z + stop :=
  match val with [] => inr (ExitWith 1) | _ => int_loop val 0 maxv end.

Lemma int_loop_range val v maxv n : int_loop val v maxv = inl n -> v <= maxv -> 0 <= n <= maxv.
Proof.
  revert v. induction val as [|c val IH]; intros v; cbn [int_loop].
  - destruct (Z.ltb_spec v 0); [done|]. intros [= <-]. lia.
  - destruct (is_digit c); [|done]. destruct (2147483647 <? _); [done|].
    destruct (Z.ltb_spec maxv (v * 10 + (c - 48))); [done|]. intros H' _. by eapply IH.
Qed.

Lemma intarg_range val maxv n : 0 <= maxv -> intarg val maxv = inl n -> 0 <= n <= maxv.
Proof. intros Hm. unfold intarg. destruct val; [done|]. intros H. by eapply int_loop_range. Qed.

(** Below a tenth of the range of an int nothing overflows: the argument is
    refused, or it is a number up to the bound. *)
Lemma intarg_defined val maxv : 0 <= maxv <= 214748363 ->
  intarg val maxv = inr (ExitWith 1) \/ exists n, intarg val maxv = inl n /\ 0 <= n <= maxv.
Proof.
  intros Hm. destruct (intarg val maxv) as [n|e] eqn:E.
  - right. exists n. split; [done|]. eapply intarg_range; [|exact E]. lia.
  - left. unfold intarg in E. destruct val as [|c val]; [done|].
    enough (forall l v e, 0 <= v <= maxv -> int_loop l v maxv = inr e -> e = ExitWith 1) as H.
    { f_equal. eapply H; [|exact E]. lia. }
    clear -Hm. intros l. induction l as [|x l IH]; intros v e Hv; cbn [int_loop]; [destruct (Z.ltb_spec v 0); [congruence|done]|].
    destruct (is_digit x) eqn:Ex; [|congruence]. unfold is_digit in Ex. apply andb_prop in Ex as [E1%Z.leb_le E2%Z.leb_le].
    destruct (Z.ltb_spec 2147483647 (v * 10 + (x - 48))); [lia|].
    destruct (Z.ltb_spec maxv (v * 10 + (x - 48))); [congruence|]. apply IH. lia.
Qed.

(** ** Options by number *)

(** The values of an enumeration that starts at 1. *)
Fixpoint before_elem {A} `{EqDecision A} (x : A) (l : list A) : nat :=
  match l with [] => 0%nat | y :: l => if decide (y = x) then 0%nat else S (before_elem x l) end.

Definition enum_val {A} `{EqDecision A} (all : list A) (x : A) : Z := 1 + Z.of_nat (before_elem x all).
Definition enum_of {A} (all : list A) (v : Z) : option A := if 1 <=? v then all !! Z.to_nat (v - 1) else None.

(** A switch over the values of an enumeration, without a default. *)
Definition switch {A O} (all : list O) (body : O -> option bytes -> A -> A + stop) (val : Z) (arg : option bytes) (st : A) : A + stop :=
  match enum_of all val with Some o => body o arg st | None => inl st end.

(** ** getopt_long *)

(** struct option: the name and whether it has an argument *)
Record longopt := LongOpt { lo_name : bytes; lo_arg : bool }.

(** A result of getopt_long: the character, 0 for a long option, the index of
    that option, and the argument. *)
Record got := Got { g_c : Z; g_index : nat; g_arg : option bytes }.

(** Whether [c] is an option of the string, and whether it has an argument:
    then a colon follows. *)
Fixpoint short_opt (s : bytes) (c : Z) : option bool :=
  match s with
  | [] => None
  | x :: s => if (x =? c) && negb (x =? 58) then Some (match s with y :: _ => y =? 58 | [] => false end) else short_opt s c
  end.

(** The results of the calls of getopt_long until it returns -1, and [optind]
    then. *)
Class GetoptLong := { getopt_long : bytes -> list longopt -> list bytes -> list got * nat }.

(** A result is a long option of the table, a character of the string, or '?',
    and options that need an argument have it. *)
Class GetoptLongLaws `{GetoptLong} : Prop := {
  getopt_known s longs argv g : g ∈ fst (getopt_long s longs argv) ->
    (g_c g = 0 /\ exists l, longs !! g_index g = Some l /\ (lo_arg l = true -> is_Some (g_arg g))) \/
    (g_c g <> 0 /\ g_c g = 63) \/
    (g_c g <> 0 /\ exists a, short_opt s (g_c g) = Some a /\ (a = true -> is_Some (g_arg g)))
}.

(** A function with this law: long options in full and single characters, their
    argument behind them, up to the first argument that is no option. *)
Definition is_short (a : bytes) : option Z :=
  match a with [x; c] => if (x =? 45) && negb (c =? 0) then Some c else None | _ => None end.

Definition opt_of_arg (s : bytes) (longs : list longopt) (a : bytes) : option (Z * nat * bool) :=
  match is_short a with
  | Some c => arg ← short_opt s c; Some (c, 0%nat, arg)
  | None => '(i, l) ← list_find (fun l => a = lit "--" ++ lo_name l) longs; Some (0, i, lo_arg l)
  end.

Fixpoint getopt_from (fuel : nat) (s : bytes) (longs : list longopt) (argv : list bytes) (idx : nat) : list got * nat :=
  match fuel, argv !! idx with
  | S fuel, Some a =>
      match opt_of_arg s longs a with
      | Some (c, i, true) =>
          match argv !! S idx with
          | Some v => let '(l, k) := getopt_from fuel s longs argv (S (S idx)) in (Got c i (Some v) :: l, k)
          | None => ([Got 63 0 None], S idx)
          end
      | Some (c, i, false) => let '(l, k) := getopt_from fuel s longs argv (S idx) in (Got c i None :: l, k)
      | None => if bool_decide (head a = Some 45) then ([Got 63 0 None], S idx) else ([], idx)
      end
  | _, _ => ([], idx)
  end.

Definition plain_getopt : GetoptLong :=
  {| getopt_long s longs argv := getopt_from (length argv) s longs argv 1 |}.

Definition got_known (s : bytes) (longs : list longopt) (g : got) : Prop :=
  (g_c g = 0 /\ exists l, longs !! g_index g = Some l /\ (lo_arg l = true -> is_Some (g_arg g))) \/
  (g_c g <> 0 /\ g_c g = 63) \/
  (g_c g <> 0 /\ exists a, short_opt s (g_c g) = Some a /\ (a = true -> is_Some (g_arg g))).

Lemma opt_of_arg_known s longs a c i arg v :
  opt_of_arg s longs a = Some (c, i, arg) -> (arg = true -> is_Some v) -> got_known s longs (Got c i v).
Proof.
  unfold opt_of_arg, is_short, got_known. intros H Hv.
  assert (forall x : option (nat * longopt), x = list_find (fun l => a = lit "--" ++ lo_name l) longs ->
    ('(i, l) ← x; Some (0, i, lo_arg l)) = Some (c, i, arg) ->
    c = 0 /\ exists l, longs !! i = Some l /\ (lo_arg l = true -> is_Some v)) as Hl.
  { intros [[j l]|] E; [|done]. cbn. intros [= <- <- <-]. symmetry in E. apply list_find_Some in E as (E & _ & _). by split; [|exists l]. }
  destruct a as [|x [|y [|]]]; try (left; by apply (Hl _ eq_refl)).
  destruct ((x =? 45) && negb (y =? 0)) eqn:Ec; [|left; by apply (Hl _ eq_refl)].
  apply andb_prop in Ec as [_ Ec]. apply negb_true_iff, Z.eqb_neq in Ec.
  destruct (short_opt s y) as [b|] eqn:E; [|done]. cbn in H. injection H as <- <- <-. right. right. cbn. eauto.
Qed.

Lemma plain_getopt_laws : @GetoptLongLaws plain_getopt.
Proof.
  split. intros s longs argv g. change (g ∈ fst (getopt_from (length argv) s longs argv 1) -> got_known s longs g).
  generalize 1%nat. generalize (length argv).
  intros fuel. induction fuel as [|fuel IH]; intros idx; cbn [getopt_from]; [by rewrite elem_of_nil|].
  destruct (argv !! idx) as [a|]; [|by rewrite elem_of_nil].
  assert (forall k : nat, g ∈ fst ([Got 63 0 None], k) -> got_known s longs g) as Hq.
  { intros k H. apply list_elem_of_singleton in H as ->. right. by left. }
  destruct (opt_of_arg s longs a) as [[[c i] []]|] eqn:E.
  - destruct (argv !! S idx) as [v|]; [|apply Hq].
    specialize (IH (S (S idx))). destruct (getopt_from fuel s longs argv (S (S idx))) as [l k].
    intros [->|H]%elem_of_cons; [by eapply opt_of_arg_known|by apply IH].
  - specialize (IH (S idx)). destruct (getopt_from fuel s longs argv (S idx)) as [l k].
    intros [->|H]%elem_of_cons; [by eapply opt_of_arg_known|by apply IH].
  - case_bool_decide; [apply Hq|by rewrite elem_of_nil].
Qed.
