(* ===== verification/Crc32c.v ===== *)
(** * CRC-32C of the client-id hash map (nanomq/hashmap.c)

    [hashmap_crc32_helper] is the portable, table-driven branch of the
    function of that name (the [HASHMAP_SSE42] branch is one machine
    instruction per byte).  The bitwise definition [crc32c_bitwise] of the
    CRC with the reflected polynomial 0x82F63B78 (0x11EDC6F41 in the comment's
    notation) is its specification. *)

From S2P Require Import Prelude.

Module Crc.

(** static const unsigned crc32_tab[256] *)
Definition crc32_tab : list Z :=
  [
   0x00000000; 0xF26B8303; 0xE13B70F7; 0x1350F3F4; 0xC79A971F; 0x35F1141C;
   0x26A1E7E8; 0xD4CA64EB; 0x8AD958CF; 0x78B2DBCC; 0x6BE22838; 0x9989AB3B;
   0x4D43CFD0; 0xBF284CD3; 0xAC78BF27; 0x5E133C24; 0x105EC76F; 0xE235446C;
   0xF165B798; 0x030E349B; 0xD7C45070; 0x25AFD373; 0x36FF2087; 0xC494A384;
   0x9A879FA0; 0x68EC1CA3; 0x7BBCEF57; 0x89D76C54; 0x5D1D08BF; 0xAF768BBC;
   0xBC267848; 0x4E4DFB4B; 0x20BD8EDE; 0xD2D60DDD; 0xC186FE29; 0x33ED7D2A;
   0xE72719C1; 0x154C9AC2; 0x061C6936; 0xF477EA35; 0xAA64D611; 0x580F5512;
   0x4B5FA6E6; 0xB93425E5; 0x6DFE410E; 0x9F95C20D; 0x8CC531F9; 0x7EAEB2FA;
   0x30E349B1; 0xC288CAB2; 0xD1D83946; 0x23B3BA45; 0xF779DEAE; 0x05125DAD;
   0x1642AE59; 0xE4292D5A; 0xBA3A117E; 0x4851927D; 0x5B016189; 0xA96AE28A;
   0x7DA08661; 0x8FCB0562; 0x9C9BF696; 0x6EF07595; 0x417B1DBC; 0xB3109EBF;
   0xA0406D4B; 0x522BEE48; 0x86E18AA3; 0x748A09A0; 0x67DAFA54; 0x95B17957;
   0xCBA24573; 0x39C9C670; 0x2A993584; 0xD8F2B687; 0x0C38D26C; 0xFE53516F;
   0xED03A29B; 0x1F682198; 0x5125DAD3; 0xA34E59D0; 0xB01EAA24; 0x42752927;
   0x96BF4DCC; 0x64D4CECF; 0x77843D3B; 0x85EFBE38; 0xDBFC821C; 0x2997011F;
   0x3AC7F2EB; 0xC8AC71E8; 0x1C661503; 0xEE0D9600; 0xFD5D65F4; 0x0F36E6F7;
   0x61C69362; 0x93AD1061; 0x80FDE395; 0x72966096; 0xA65C047D; 0x5437877E;
   0x4767748A; 0xB50CF789; 0xEB1FCBAD; 0x197448AE; 0x0A24BB5A; 0xF84F3859;
   0x2C855CB2; 0xDEEEDFB1; 0xCDBE2C45; 0x3FD5AF46; 0x7198540D; 0x83F3D70E;
   0x90A324FA; 0x62C8A7F9; 0xB602C312; 0x44694011; 0x5739B3E5; 0xA55230E6;
   0xFB410CC2; 0x092A8FC1; 0x1A7A7C35; 0xE811FF36; 0x3CDB9BDD; 0xCEB018DE;
   0xDDE0EB2A; 0x2F8B6829; 0x82F63B78; 0x709DB87B; 0x63CD4B8F; 0x91A6C88C;
   0x456CAC67; 0xB7072F64; 0xA457DC90; 0x563C5F93; 0x082F63B7; 0xFA44E0B4;
   0xE9141340; 0x1B7F9043; 0xCFB5F4A8; 0x3DDE77AB; 0x2E8E845F; 0xDCE5075C;
   0x92A8FC17; 0x60C37F14; 0x73938CE0; 0x81F80FE3; 0x55326B08; 0xA759E80B;
   0xB4091BFF; 0x466298FC; 0x1871A4D8; 0xEA1A27DB; 0xF94AD42F; 0x0B21572C;
   0xDFEB33C7; 0x2D80B0C4; 0x3ED04330; 0xCCBBC033; 0xA24BB5A6; 0x502036A5;
   0x4370C551; 0xB11B4652; 0x65D122B9; 0x97BAA1BA; 0x84EA524E; 0x7681D14D;
   0x2892ED69; 0xDAF96E6A; 0xC9A99D9E; 0x3BC21E9D; 0xEF087A76; 0x1D63F975;
   0x0E330A81; 0xFC588982; 0xB21572C9; 0x407EF1CA; 0x532E023E; 0xA145813D;
   0x758FE5D6; 0x87E466D5; 0x94B49521; 0x66DF1622; 0x38CC2A06; 0xCAA7A905;
   0xD9F75AF1; 0x2B9CD9F2; 0xFF56BD19; 0x0D3D3E1A; 0x1E6DCDEE; 0xEC064EED;
   0xC38D26C4; 0x31E6A5C7; 0x22B65633; 0xD0DDD530; 0x0417B1DB; 0xF67C32D8;
   0xE52CC12C; 0x1747422F; 0x49547E0B; 0xBB3FFD08; 0xA86F0EFC; 0x5A048DFF;
   0x8ECEE914; 0x7CA56A17; 0x6FF599E3; 0x9D9E1AE0; 0xD3D3E1AB; 0x21B862A8;
   0x32E8915C; 0xC083125F; 0x144976B4; 0xE622F5B7; 0xF5720643; 0x07198540;
   0x590AB964; 0xAB613A67; 0xB831C993; 0x4A5A4A90; 0x9E902E7B; 0x6CFBAD78;
   0x7FAB5E8C; 0x8DC0DD8F; 0xE330A81A; 0x115B2B19; 0x020BD8ED; 0xF0605BEE;
   0x24AA3F05; 0xD6C1BC06; 0xC5914FF2; 0x37FACCF1; 0x69E9F0D5; 0x9B8273D6;
   0x88D28022; 0x7AB90321; 0xAE7367CA; 0x5C18E4C9; 0x4F48173D; 0xBD23943E;
   0xF36E6F75; 0x0105EC76; 0x12551F82; 0xE03E9C81; 0x34F4F86A; 0xC69F7B69;
   0xD5CF889D; 0x27A40B9E; 0x79B737BA; 0x8BDCB4B9; 0x988C474D; 0x6AE7C44E;
   0xBE2DA0A5; 0x4C4623A6; 0x5F16D052; 0xAD7D5351].

(** One turn of the loop: the table index is the xor of the low byte of the
    accumulator and the character. *)
Definition crc32_step (crc32val c : Z) : Z :=
  Z.lxor (nth (Z.to_nat (Z.lxor (u8 crc32val) (u8 c))) crc32_tab 0)
         (Z.shiftr crc32val 8).

(** [hashmap_crc32_helper(s, len)], [s] read up to [len]. *)
Definition hashmap_crc32_helper (s : bytes) (len : Z) : Z :=
  fold_left crc32_step (take (Z.to_nat len) s) 0.

(** ** Specification: bit-serial CRC *)

Definition poly : Z := 0x82F63B78.

(** Shift one bit out of the register. *)
Definition crc_bit (r : Z) : Z :=
  if Z.odd r then Z.lxor (Z.shiftr r 1) poly else Z.shiftr r 1.

Fixpoint crc_bits (n : nat) (r : Z) : Z :=
  match n with
  | O => r
  | S n' => crc_bits n' (crc_bit r)
  end.

Definition crc32c_bitwise (s : bytes) : Z :=
  fold_left (fun r c => crc_bits 8 (Z.lxor r c)) s 0.

(** ** Linearity of the register over xor *)

Lemma crc_bit_lxor a b : crc_bit (Z.lxor a b) = Z.lxor (crc_bit a) (crc_bit b).
Proof.
  unfold crc_bit. rewrite <- !Z.bit0_odd, Z.lxor_spec, Z.shiftr_lxor.
  set (x := Z.shiftr a 1). set (y := Z.shiftr b 1).
  destruct (Z.testbit a 0), (Z.testbit b 0); simpl xorb; cbv iota.
  - rewrite (Z.lxor_comm y poly), Z.lxor_assoc.
    rewrite <- (Z.lxor_assoc poly poly), Z.lxor_nilpotent, Z.lxor_0_l. done.
  - rewrite !Z.lxor_assoc. f_equal. apply Z.lxor_comm.
  - rewrite !Z.lxor_assoc. done.
  - done.
Qed.

Lemma crc_bits_lxor n a b : crc_bits n (Z.lxor a b) = Z.lxor (crc_bits n a) (crc_bits n b).
Proof.
  revert a b; induction n as [|n IH]; intros; simpl; [done|].
  rewrite crc_bit_lxor. apply IH.
Qed.

(** A register whose low [n] bits are clear is only shifted. *)
Lemma crc_bits_shiftl n x : 0 <= x -> crc_bits n (Z.shiftl x (Z.of_nat n)) = x.
Proof.
  induction n as [|n IH] in x |- *; intros Hx.
  { apply Z.shiftl_0_r. }
  cbn [crc_bits].
  assert (crc_bit (Z.shiftl x (Z.of_nat (S n))) = Z.shiftl x (Z.of_nat n)) as ->;
    [|by apply IH].
  unfold crc_bit. rewrite <- Z.bit0_odd, Z.shiftl_spec_low by lia.
  rewrite Z.shiftr_shiftl_l by lia. f_equal. lia.
Qed.

(** The table holds eight turns of the register for every byte. *)
Lemma crc32_tab_spec :
  forallb (fun i => nth i crc32_tab 0 =? crc_bits 8 (Z.of_nat i)) (seq 0 256) = true.
Proof. vm_compute. reflexivity. Qed.

Lemma crc32_tab_nth b : 0 <= b < 256 -> nth (Z.to_nat b) crc32_tab 0 = crc_bits 8 b.
Proof.
  intros Hb. pose proof crc32_tab_spec as H. rewrite forallb_forall in H.
  specialize (H (Z.to_nat b)). rewrite Z.eqb_eq in H. rewrite H.
  - rewrite Z2Nat.id by lia. done.
  - apply in_seq. lia.
Qed.

Lemma split_low_byte r : 0 <= r -> r = Z.lxor (u8 r) (Z.shiftl (Z.shiftr r 8) 8).
Proof.
  intros Hr. unfold u8. change 256 with (2 ^ 8).
  apply Z.bits_inj'. intros i Hi. rewrite Z.lxor_spec.
  destruct (Z.ltb_spec i 8).
  - rewrite Z.shiftl_spec_low, Z.mod_pow2_bits_low, xorb_false_r by lia. done.
  - rewrite Z.mod_pow2_bits_high, Z.shiftl_spec_high, Z.shiftr_spec by lia.
    simpl. f_equal. lia.
Qed.

Lemma lxor_byte_range a b : 0 <= a < 256 -> 0 <= b < 256 -> 0 <= Z.lxor a b < 256.
Proof.
  intros Ha Hb. rewrite <- (u8_small a), <- (u8_small b) by done.
  unfold u8. change 256 with (2 ^ 8).
  assert (Z.lxor (a mod 2 ^ 8) (b mod 2 ^ 8) = Z.lxor a b mod 2 ^ 8) as ->.
  { rewrite <- !Z.land_ones by lia. apply Z.bits_inj'. intros i Hi.
    rewrite !Z.land_spec, !Z.lxor_spec, !Z.land_spec.
    destruct (Z.testbit a i), (Z.testbit b i), (Z.testbit (Z.ones 8) i); done. }
  apply Z.mod_pos_bound. lia.
Qed.

Lemma crc32_step_spec r c :
  0 <= r -> byte_ok c -> crc32_step r c = crc_bits 8 (Z.lxor r c).
Proof.
  intros Hr Hc. unfold crc32_step.
  rewrite crc32_tab_nth by (apply lxor_byte_range; apply u8_range).
  rewrite (u8_small c) by done.
  assert (Z.lxor r c = Z.lxor (Z.lxor (u8 r) c) (Z.shiftl (Z.shiftr r 8) (Z.of_nat 8)))
    as ->.
  { rewrite (split_low_byte r Hr) at 1.
    rewrite !Z.lxor_assoc. f_equal. apply Z.lxor_comm. }
  rewrite (crc_bits_lxor 8 (Z.lxor _ _)), crc_bits_shiftl by (apply Z.shiftr_nonneg; lia). done.
Qed.

Lemma crc_bit_nonneg r : 0 <= r -> 0 <= crc_bit r.
Proof.
  intros Hr. unfold crc_bit. destruct (Z.odd r).
  - apply Z.lxor_nonneg. split; intros _; [unfold poly; lia | apply Z.shiftr_nonneg; lia].
  - apply Z.shiftr_nonneg; lia.
Qed.

Lemma crc_bits_nonneg n r : 0 <= r -> 0 <= crc_bits n r.
Proof. induction n in r |- *; simpl; auto using crc_bit_nonneg. Qed.

Lemma crc_fold_spec s r :
  0 <= r -> bytes_ok s ->
  fold_left crc32_step s r = fold_left (fun r c => crc_bits 8 (Z.lxor r c)) s r.
Proof.
  intros Hr Hs; induction Hs as [|c s Hc Hs IH] in r, Hr |- *; [done|].
  cbn [fold_left]. rewrite crc32_step_spec by done. apply IH.
  apply crc_bits_nonneg. apply Z.lxor_nonneg. unfold byte_ok in Hc. lia.
Qed.

(** The accumulator never leaves 32 bits. *)
Lemma crc32_tab_range : forallb (fun v => (0 <=? v) && (v <? 4294967296)) crc32_tab = true.
Proof. vm_compute. reflexivity. Qed.

Lemma lxor_u32_range a b :
  0 <= a < 4294967296 -> 0 <= b < 4294967296 -> 0 <= Z.lxor a b < 4294967296.
Proof.
  intros Ha Hb. split; [apply Z.lxor_nonneg; lia|].
  change 4294967296 with (2 ^ 32).
  destruct (Z.eq_dec (Z.lxor a b) 0) as [->|Hn]; [lia|].
  apply Z.log2_lt_pow2; [pose proof (proj2 (Z.lxor_nonneg a b)); lia|].
  eapply Z.le_lt_trans; [apply Z.log2_lxor; lia|].
  apply Z.max_lub_lt.
  - destruct (Z.eq_dec a 0) as [->|]; [done|]. apply Z.log2_lt_pow2; lia.
  - destruct (Z.eq_dec b 0) as [->|]; [done|]. apply Z.log2_lt_pow2; lia.
Qed.

Lemma crc32_step_range r c : 0 <= r < 4294967296 -> 0 <= crc32_step r c < 4294967296.
Proof.
  intros Hr. unfold crc32_step. apply lxor_u32_range.
  - pose proof crc32_tab_range as H. rewrite forallb_forall in H.
    destruct (nth_in_or_default
                (Z.to_nat (Z.lxor (u8 r) (u8 c))) crc32_tab 0) as [Hin | ->]; [|lia].
    specialize (H _ Hin). bool_hyps. lia.
  - rewrite Z.shiftr_div_pow2 by lia. split; [apply Z.div_pos; lia|].
    apply Z.div_lt_upper_bound; lia.
Qed.

Lemma hashmap_crc32_helper_range s len : 0 <= hashmap_crc32_helper s len < 4294967296.
Proof.
  unfold hashmap_crc32_helper.
  assert (forall l r, 0 <= r < 4294967296 -> 0 <= fold_left crc32_step l r < 4294967296) as H.
  { induction l as [|c l IH]; intros r Hr; [done|]. apply IH, crc32_step_range, Hr. }
  apply H. lia.
Qed.

(** The table-driven [hashmap_crc32_helper] computes the CRC-32C of the
    first [len] bytes of the key: it agrees with the bit-serial definition
    for the reflected polynomial 0x82F63B78. *)
Theorem hashmap_crc32_helper_correct s len :
  bytes_ok s ->
  hashmap_crc32_helper s len = crc32c_bitwise (take (Z.to_nat len) s).
Proof.
  intros Hs. apply crc_fold_spec; [lia|]. by apply Forall_take.
Qed.

Lemma hashmap_crc32_helper_correct_witness :
  bytes_ok (c!"123456789") /\
  hashmap_crc32_helper (c!"123456789") 9 = crc32c_bitwise (take 9 (c!"123456789")).
Proof.
  assert (bytes_ok (c!"123456789")) as H by (repeat constructor; unfold byte_ok; simpl; lia).
  split; [exact H|]. exact (hashmap_crc32_helper_correct (c!"123456789") 9 H).
Defined.

End Crc.
