(* ===== verification/Hashmap.v ===== *)
(** * The client-id hash map (nanomq/hashmap.c, nanomq/include/hashmap.h)

    An open-addressing table with linear probing over at most
    [HASHMAP_MAX_CHAIN_LENGTH] slots that doubles until the probe chain of a
    key has room.  [hashmap_s] and [hashmap_element_s] are the C structs, one
    definition per function.  The theorems relate a table to the finite map
    it stands for ([represents]). *)

From S2P Require Import Prelude Crc32c.
Import Crc.

Module Hashmap.

(** ** Data *)

(** [key] points to the caller's string: the model keeps the pointed-to
    bytes, which the interface requires to stay valid and unchanged.  The
    NULL of a blank slot is the empty array; it is never read. *)
Record hashmap_element_s := Elem {
  e_key : bytes;
  e_key_len : Z;
  e_in_use : Z;
  e_data : Z
}.

Record hashmap_s := Hm {
  hm_table_size : Z;
  hm_size : Z;
  hm_data : list hashmap_element_s
}.

Definition HASHMAP_MAX_CHAIN_LENGTH : nat := 8.

(** memset(&m->data[curr], 0, sizeof(struct hashmap_element_s)) *)
Definition zero_elem : hashmap_element_s := Elem [] 0 0 0.

Definition elt (m : hashmap_s) (i : Z) : hashmap_element_s :=
  nth (Z.to_nat i) (hm_data m) zero_elem.

Definition set_elt (m : hashmap_s) (i : Z) (e : hashmap_element_s) (sz : Z) : hashmap_s :=
  Hm (hm_table_size m) sz (<[Z.to_nat i := e]> (hm_data m)).

(** ** Operations *)

(** Robert Jenkins' mix of the CRC, Knuth's multiplication, modulo the size. *)
Definition hashmap_hash_helper_int_helper (m : hashmap_s) (keystring : bytes) (len : Z) : Z :=
  let key := hashmap_crc32_helper keystring len in
  let key := u32 (key + u32 (Z.shiftl key 12)) in
  let key := Z.lxor key (Z.shiftr key 22) in
  let key := u32 (key + u32 (Z.shiftl key 4)) in
  let key := Z.lxor key (Z.shiftr key 9) in
  let key := u32 (key + u32 (Z.shiftl key 10)) in
  let key := Z.lxor key (Z.shiftr key 2) in
  let key := u32 (key + u32 (Z.shiftl key 7)) in
  let key := Z.lxor key (Z.shiftr key 12) in
  let key := u32 (Z.shiftr key 3 * 2654435761) in
  key mod hm_table_size m.

Definition hashmap_match_helper (element : hashmap_element_s) (key : bytes) (len : Z) : bool :=
  (e_key_len element =? len) && memcmp0 (e_key element) key len.

(** curr = (curr + 1) % m->table_size *)
Definition next_slot (m : hashmap_s) (curr : Z) : Z := u32 (curr + 1) mod hm_table_size m.

(** The probe loop of [hashmap_get], [hashmap_remove] and of the second pass
    of [hashmap_hash_helper]: the first of [n] slots from [curr] that [p]
    accepts. *)
Fixpoint probe (p : hashmap_element_s -> bool) (n : nat) (m : hashmap_s) (curr : Z) : option Z :=
  match n with
  | O => None
  | S n' => if p (elt m curr) then Some curr else probe p n' m (next_slot m curr)
  end.

Definition used_match (key : bytes) (len : Z) (e : hashmap_element_s) : bool :=
  negb (e_in_use e =? 0) && hashmap_match_helper e key len.

Definition unused (e : hashmap_element_s) : bool := e_in_use e =? 0.

(** First pass of [hashmap_hash_helper]: the slot that already holds the key,
    or the number of used slots met. *)
Fixpoint first_probe (n : nat) (m : hashmap_s) (key : bytes) (len curr total_in_use : Z)
  : Z + Z :=
  match n with
  | O => inr total_in_use
  | S n' =>
      let e := elt m curr in
      let total_in_use := total_in_use + e_in_use e in
      if used_match key len e then inl curr
      else first_probe n' m key len (next_slot m curr) total_in_use
  end.

(** Some index when the C function returns 1 with that out_index. *)
Definition hashmap_hash_helper (m : hashmap_s) (key : bytes) (len : Z) : option Z :=
  if hm_table_size m <=? hm_size m then None
  else
    let start := hashmap_hash_helper_int_helper m key len in
    match first_probe HASHMAP_MAX_CHAIN_LENGTH m key len start 0 with
    | inl curr => Some curr
    | inr total_in_use =>
        if total_in_use <? Z.of_nat HASHMAP_MAX_CHAIN_LENGTH
        then probe unused HASHMAP_MAX_CHAIN_LENGTH m start
        else None
    end.

Definition hashmap_get (m : hashmap_s) (key : bytes) (len : Z) : Z :=
  match probe (used_match key len) HASHMAP_MAX_CHAIN_LENGTH m
          (hashmap_hash_helper_int_helper m key len) with
  | Some curr => e_data (elt m curr)
  | None => 0
  end.

Definition hashmap_remove (m : hashmap_s) (key : bytes) (len : Z) : Z * hashmap_s :=
  match probe (used_match key len) HASHMAP_MAX_CHAIN_LENGTH m
          (hashmap_hash_helper_int_helper m key len) with
  | Some curr => (0, set_elt m curr zero_elem (u32 (hm_size m - 1)))
  | None => (1, m)
  end.

(** [hashmap_iterate_pairs(hashmap, f, context)] from slot [i] on; the
    callback threads the context and [None] is a callback that runs out of
    fuel. *)
Fixpoint hashmap_iterate_from {C} (f : C -> hashmap_element_s -> option (Z * C))
    (n : nat) (i : Z) (hashmap : hashmap_s) (context : C)
  : option (Z * hashmap_s * C) :=
  match n with
  | O => Some (0, hashmap, context)
  | S n' =>
      let p := elt hashmap i in
      if e_in_use p =? 0 then hashmap_iterate_from f n' (i + 1) hashmap context
      else
        match f context p with
        | None => None
        | Some (r, context) =>
            if r =? -1 then
              hashmap_iterate_from f n' (i + 1)
                (set_elt hashmap i zero_elem (u32 (hm_size hashmap - 1))) context
            else if r =? 0 then hashmap_iterate_from f n' (i + 1) hashmap context
            else Some (1, hashmap, context)
        end
  end.

Definition hashmap_iterate_pairs {C} (hashmap : hashmap_s)
    (f : C -> hashmap_element_s -> option (Z * C)) (context : C)
  : option (Z * hashmap_s * C) :=
  hashmap_iterate_from f (Z.to_nat (hm_table_size hashmap)) 0 hashmap context.

Definition hashmap_num_entries (m : hashmap_s) : Z := hm_size m.

(** free(m->data) and memset: the table is gone. *)
Definition hashmap_destroy (_ : hashmap_s) : hashmap_s := Hm 0 0 [].

Section Ops.

(** [calloc(n, sizeof(struct hashmap_element_s))] succeeds. *)
Context (calloc_ok : Z -> bool).

(** The returned status and [*out_hashmap] (whose [data] is unspecified, here
    empty, when the status is not 0). *)
Definition hashmap_create (initial_size : Z) : Z * hashmap_s :=
  if (initial_size =? 0) || negb (Z.land initial_size (u32 (initial_size - 1)) =? 0)
  then (1, Hm initial_size 0 [])
  else if negb (calloc_ok initial_size) then (1, Hm initial_size 0 [])
  else (0, Hm initial_size 0 (repeat zero_elem (Z.to_nat initial_size))).

Definition hashmap_rehash_iterator
    (put : hashmap_s -> bytes -> Z -> Z -> option (Z * hashmap_s))
    (new_hash : hashmap_s) (e : hashmap_element_s) : option (Z * hashmap_s) :=
  match put new_hash (e_key e) (e_key_len e) (e_data e) with
  | None => None
  | Some (temp, new_hash) => if 0 <? temp then Some (1, new_hash) else Some (-1, new_hash)
  end.

(** The status and the resulting [*m]; on a failed copy the entries moved so
    far are gone from [*m]. *)
Definition hashmap_rehash_helper
    (put : hashmap_s -> bytes -> Z -> Z -> option (Z * hashmap_s)) (m : hashmap_s)
  : option (Z * hashmap_s) :=
  let new_size := u32 (2 * hm_table_size m) in
  let '(flag, new_hash) := hashmap_create new_size in
  if negb (flag =? 0) then Some (flag, m)
  else
    match hashmap_iterate_pairs m (hashmap_rehash_iterator put) new_hash with
    | None => None
    | Some (flag, m, new_hash) => if negb (flag =? 0) then Some (flag, m) else Some (0, new_hash)
    end.

(** Set the fields of the slot found, and count it when it was free. *)
Definition store_at (m : hashmap_s) (index : Z) (key : bytes) (len value : Z) : hashmap_s :=
  set_elt m index (Elem key len 1 value)
    (if e_in_use (elt m index) =? 0 then u32 (hm_size m + 1) else hm_size m).

(** [hashmap_put] and the mutual recursion through the rehash.  The fuel
    bounds the number of doublings. *)
Fixpoint hashmap_put (fuel : nat) (m : hashmap_s) (key : bytes) (len value : Z)
  : option (Z * hashmap_s) :=
  match hashmap_hash_helper m key len with
  | Some index => Some (0, store_at m index key len value)
  | None =>
      match fuel with
      | O => None
      | S fuel' =>
          match hashmap_rehash_helper (hashmap_put fuel') m with
          | None => None
          | Some (flag, m) =>
              if negb (flag =? 0) then Some (1, m) else hashmap_put fuel' m key len value
          end
      end
  end.

End Ops.

(** ** Well-formed tables and the map they represent *)

Definition elem_ok (e : hashmap_element_s) : Prop :=
  e_in_use e = 0 \/ e_in_use e = 1 /\ e_key_len e = blen (e_key e).

Definition is_used (e : hashmap_element_s) : Prop := e_in_use e = 1.

#[export] Instance is_used_dec e : Decision (is_used e) := decide (e_in_use e = 1).

Definition used (l : list hashmap_element_s) : nat := length (filter is_used l).

Definition hash_of (m : hashmap_s) (k : bytes) : Z := hashmap_hash_helper_int_helper m k (blen k).

(** Slot [i] is one of the eight that the probes for [k] visit. *)
Definition in_chain (m : hashmap_s) (k : bytes) (i : nat) : Prop :=
  exists j, 0 <= j < 8 /\ Z.of_nat i = (hash_of m k + j) mod hm_table_size m.

Record hm_wf (m : hashmap_s) : Prop := HmWf {
  wf_pow : exists k, 0 <= k <= 31 /\ hm_table_size m = 2 ^ k;
  wf_len : Z.of_nat (length (hm_data m)) = hm_table_size m;
  wf_elem : Forall elem_ok (hm_data m);
  wf_chain : forall i e, hm_data m !! i = Some e -> is_used e -> in_chain m (e_key e) i;
  wf_uniq : forall i j e e', hm_data m !! i = Some e -> hm_data m !! j = Some e' ->
      is_used e -> is_used e' -> e_key e = e_key e' -> i = j;
  wf_size : hm_size m = Z.of_nat (used (hm_data m))
}.

Definition has_entry (l : list hashmap_element_s) (k : bytes) (v : Z) : Prop :=
  exists i e, l !! i = Some e /\ is_used e /\ e_key e = k /\ e_data e = v.

Definition represents (m : hashmap_s) (M : gmap (list Z) Z) : Prop :=
  hm_wf m /\ forall k v, M !! k = Some v <-> has_entry (hm_data m) k v.

(** ** Basic facts *)

Lemma wf_ts_range m : hm_wf m -> 1 <= hm_table_size m <= 2 ^ 31.
Proof.
  intros [(k & Hk & ->) _ _ _ _ _].
  split; [pose proof (Z.pow_pos_nonneg 2 k); lia | apply Z.pow_le_mono_r; lia].
Qed.

Lemma hash_range m key len :
  0 < hm_table_size m ->
  0 <= hashmap_hash_helper_int_helper m key len < hm_table_size m.
Proof. intros H. apply Z.mod_pos_bound, H. Qed.

(** The hash depends on the table through its size only. *)
Lemma hash_table_size m m' key len :
  hm_table_size m = hm_table_size m' ->
  hashmap_hash_helper_int_helper m key len = hashmap_hash_helper_int_helper m' key len.
Proof. intros H. unfold hashmap_hash_helper_int_helper. rewrite H. reflexivity. Qed.

#[global] Opaque hashmap_hash_helper_int_helper.

Lemma in_chain_table_size m m' k i :
  hm_table_size m = hm_table_size m' -> in_chain m k i -> in_chain m' k i.
Proof.
  intros H (j & Hj & E). exists j. split; [done|].
  unfold hash_of in *. by rewrite <- H, <- (hash_table_size m m' k _ H).
Qed.

Lemma next_slot_range m curr :
  0 < hm_table_size m -> 0 <= next_slot m curr < hm_table_size m.
Proof. intros. apply Z.mod_pos_bound. done. Qed.

Lemma next_slot_eq m curr j :
  0 <= curr < hm_table_size m -> hm_table_size m <= 2 ^ 31 ->
  (next_slot m curr + j) mod hm_table_size m = (curr + (j + 1)) mod hm_table_size m.
Proof.
  intros Hc Ht. unfold next_slot. rewrite u32_small by lia.
  rewrite Zplus_mod_idemp_l. f_equal. lia.
Qed.

Lemma elt_lookup m i e : hm_data m !! i = Some e -> elt m (Z.of_nat i) = e.
Proof. intros H. unfold elt. rewrite Nat2Z.id. by apply nth_lookup_Some. Qed.

Lemma lookup_elt m i :
  Z.of_nat (length (hm_data m)) = hm_table_size m -> 0 <= i < hm_table_size m ->
  hm_data m !! Z.to_nat i = Some (elt m i).
Proof.
  intros Hl Hi. destruct (lookup_lt_is_Some_2 (hm_data m) (Z.to_nat i)) as [e He]; [lia|].
  rewrite He. f_equal. rewrite <- (elt_lookup _ _ _ He). f_equal. lia.
Qed.

(** ** The probe loops *)

Lemma probe_Some p n m curr i :
  0 <= curr < hm_table_size m -> hm_table_size m <= 2 ^ 31 ->
  probe p n m curr = Some i ->
  p (elt m i) = true /\ 0 <= i < hm_table_size m /\
  exists j, 0 <= j < Z.of_nat n /\ i = (curr + j) mod hm_table_size m.
Proof.
  intros Hc Ht; induction n as [|n IH] in curr, Hc |- *; simpl; [done|].
  destruct (p (elt m curr)) eqn:E; intros H.
  - inv_some. split_and!; [done | lia.. |]. exists 0. rewrite Z.mod_small; lia.
  - destruct (IH (next_slot m curr)) as (Hp & Hi & j & Hj & ->); [|done|].
    { apply next_slot_range; lia. }
    split_and!; [done | lia.. |]. exists (j + 1). rewrite next_slot_eq by done. lia.
Qed.

Lemma probe_None p n m curr j :
  0 <= curr < hm_table_size m -> hm_table_size m <= 2 ^ 31 ->
  probe p n m curr = None -> 0 <= j < Z.of_nat n ->
  p (elt m ((curr + j) mod hm_table_size m)) = false.
Proof.
  intros Hc Ht; induction n as [|n IH] in curr, Hc, j |- *; simpl; [lia|].
  destruct (p (elt m curr)) eqn:E; intros H Hj; [done|].
  destruct (Z.eq_dec j 0) as [->|].
  - rewrite Z.add_0_r, Z.mod_small by lia. done.
  - replace j with (j - 1 + 1) by lia. rewrite <- next_slot_eq by done.
    apply IH; [apply next_slot_range; lia | done | lia].
Qed.

Lemma first_probe_inl n m key len curr t i :
  first_probe n m key len curr t = inl i -> probe (used_match key len) n m curr = Some i.
Proof.
  induction n as [|n IH] in curr, t |- *; simpl; [done|].
  destruct (used_match _ _ _); [by intros [= ->] | apply IH].
Qed.

Lemma first_probe_inr n m key len curr t t' :
  first_probe n m key len curr t = inr t' -> probe (used_match key len) n m curr = None.
Proof.
  induction n as [|n IH] in curr, t |- *; simpl; [done|].
  destruct (used_match _ _ _); [done | apply IH].
Qed.

Lemma used_match_spec e k :
  elem_ok e -> used_match k (blen k) e = true <-> is_used e /\ e_key e = k.
Proof.
  unfold used_match, hashmap_match_helper, memcmp0, is_used.
  intros [H|[H Hl]]; rewrite H; simpl; [split; [done | intros [? _]; done]|].
  rewrite andb_true_iff, Z.eqb_eq, bool_decide_eq_true, Hl. unfold blen. split.
  - intros [Hn E]. split; [done|]. rewrite !take_ge in E by lia. done.
  - intros [_ ->]. done.
Qed.

Lemma elt_ok m i : Forall elem_ok (hm_data m) -> elem_ok (elt m i).
Proof.
  intros H. unfold elt. destruct (nth_lookup_or_length (hm_data m) (Z.to_nat i) zero_elem) as [E|E].
  - eapply Forall_lookup_1; [done|]. exact E.
  - rewrite nth_overflow by done. by left.
Qed.

(** The key is stored nowhere outside its probe chain. *)
Lemma probe_key_Some m k i :
  hm_wf m -> probe (used_match k (blen k)) 8 m (hash_of m k) = Some i ->
  exists e, hm_data m !! Z.to_nat i = Some e /\ 0 <= i < hm_table_size m /\
    elt m i = e /\ is_used e /\ e_key e = k.
Proof.
  intros Hw H. pose proof (wf_ts_range m Hw) as Ht.
  apply probe_Some in H as (Hp & Hi & _); [|apply hash_range; lia | lia].
  exists (elt m i). apply used_match_spec in Hp; [|apply elt_ok, Hw].
  split_and!; [apply lookup_elt; [apply Hw | lia] | lia | lia | done | apply Hp | apply Hp].
Qed.

Lemma probe_key_None m k i e :
  hm_wf m -> probe (used_match k (blen k)) 8 m (hash_of m k) = None ->
  hm_data m !! i = Some e -> is_used e -> e_key e <> k.
Proof.
  intros Hw H He Hu <-. pose proof (wf_ts_range m Hw) as Ht.
  destruct (wf_chain m Hw i e He Hu) as (j & Hj & Hij).
  apply (probe_None _ _ _ _ j) in H; [|apply hash_range; lia | lia | lia].
  rewrite <- Hij, (elt_lookup _ _ _ He) in H.
  apply not_true_iff_false in H. apply H, used_match_spec; [|done].
  eapply Forall_lookup_1; [apply Hw | done].
Qed.

Lemma represents_lookup_None m M k :
  represents m M -> (forall i e, hm_data m !! i = Some e -> is_used e -> e_key e <> k) ->
  M !! k = None.
Proof.
  intros [_ HM] H. destruct (M !! k) eqn:E; [|done].
  apply HM in E as (i & e & He & Hu & Hk & _). by apply H in He.
Qed.

(** ** Counting used slots *)

Lemma used_insert l i e e' :
  l !! i = Some e ->
  (used (<[i:=e']> l) + (if decide (is_used e) then 1 else 0)
   = used l + (if decide (is_used e') then 1 else 0))%nat.
Proof.
  unfold used. induction l as [|x l IH] in i |- *; [done|].
  destruct i as [|i]; cbn [lookup list_lookup].
  - intros [= ->]. cbn [insert list_insert]. rewrite !filter_cons.
    destruct (decide (is_used e)), (decide (is_used e')); cbn [length]; lia.
  - intros H. specialize (IH _ H).
    change (<[S i:=e']> (x :: l)) with (x :: <[i:=e']> l). rewrite !filter_cons.
    destruct (decide (is_used x)); cbn [length]; lia.
Qed.

Lemma used_bound l : (used l <= length l)%nat.
Proof. unfold used. apply length_filter. Qed.

(** ** Updating one slot *)

(** Slot [i] receives [e']: if the key of [e'] occurs at most at [i], and
    what [i] held had the same key, the table stays well formed. *)
Lemma store_at_wf m i k v :
  hm_wf m -> (i < length (hm_data m))%nat -> in_chain m k i ->
  (forall j e, hm_data m !! j = Some e -> is_used e -> e_key e = k -> j = i) ->
  hm_wf (store_at m (Z.of_nat i) k (blen k) v).
Proof.
  intros Hw Hi Hc Hu. pose proof (wf_ts_range m Hw) as Ht.
  destruct (lookup_lt_is_Some_2 _ _ Hi) as [e0 He0].
  pose proof (used_insert _ _ _ (Elem k (blen k) 1 v) He0) as Hcnt.
  pose proof (elt_ok m (Z.of_nat i) (wf_elem m Hw)) as Hok.
  unfold store_at, set_elt. rewrite (elt_lookup _ _ _ He0) in *. rewrite Nat2Z.id.
  set (l' := <[i:=_]> (hm_data m)) in *.
  assert (forall j e, l' !! j = Some e ->
            j = i /\ e = Elem k (blen k) 1 v \/ j <> i /\ hm_data m !! j = Some e) as Hl'.
  { intros j e. unfold l'. rewrite list_lookup_insert_Some.
    intros [(-> & -> & _)|[? ?]]; auto. }
  constructor; cbn [hm_table_size hm_data hm_size].
  - apply Hw.
  - unfold l'. rewrite length_insert. apply Hw.
  - apply Forall_insert; [apply Hw | by right].
  - intros j e Hj Hue. destruct (Hl' _ _ Hj) as [[-> ->]|[Hne Hj']];
      apply (in_chain_table_size m); [done | exact Hc | done | exact (wf_chain m Hw _ _ Hj' Hue)].
  - intros j1 j2 e1 e2 H1 H2 Hu1 Hu2 Hk.
    destruct (Hl' _ _ H1) as [[-> ->]|[Hn1 H1']], (Hl' _ _ H2) as [[-> ->]|[Hn2 H2']];
      cbn [e_key] in Hk.
    + done.
    + symmetry. by apply (Hu j2 e2).
    + by apply (Hu j1 e1).
    + by eapply (wf_uniq m Hw).
  - rewrite (wf_size m Hw).
    destruct (decide (is_used (Elem _ _ _ _))) as [_|Hn]; [|by destruct Hn].
    pose proof (used_bound (hm_data m)). pose proof (wf_len m Hw).
    unfold is_used in Hcnt.
    destruct Hok as [Hz|[Hz _]]; rewrite Hz in *; cbn [Z.eqb];
      case_decide; try lia; rewrite ?u32_small; lia.
Qed.

Lemma store_at_represents m M i k v :
  represents m M -> (i < length (hm_data m))%nat -> in_chain m k i ->
  (forall j e, hm_data m !! j = Some e -> is_used e -> e_key e = k -> j = i) ->
  (is_used (elt m (Z.of_nat i)) -> e_key (elt m (Z.of_nat i)) = k) ->
  represents (store_at m (Z.of_nat i) k (blen k) v) (<[k:=v]> M).
Proof.
  intros [Hw HM] Hi Hc Hu Hold. split; [by apply store_at_wf|].
  destruct (lookup_lt_is_Some_2 _ _ Hi) as [e0 He0].
  rewrite (elt_lookup _ _ _ He0) in Hold.
  intros k' v'. unfold store_at, set_elt; cbn [hm_data]. rewrite Nat2Z.id.
  rewrite lookup_insert_Some, HM. unfold has_entry. split.
  - intros [[<- <-]|[Hne (j & e & Hj & Hue & Hke & Hv)]].
    + exists i, (Elem k (blen k) 1 v). split_and!; [|done..].
      apply list_lookup_insert_eq. done.
    + exists j, e. split_and!; [|done..]. rewrite list_lookup_insert_ne; [done|].
      intros <-. rewrite He0 in Hj. inv_some. apply Hne. symmetry. auto.
  - intros (j & e & Hj & Hue & Hke & Hv).
    apply list_lookup_insert_Some in Hj as [(<- & <- & _)|[Hne Hj]]; cbn in *.
    + left. done.
    + right. split; [|by exists j, e]. intros <-. apply Hne. symmetry. by eapply Hu.
Qed.

(** ** The slot chosen by [hashmap_hash_helper] *)

Lemma hash_helper_Some m k index :
  hm_wf m -> hashmap_hash_helper m k (blen k) = Some index ->
  exists i, index = Z.of_nat i /\ (i < length (hm_data m))%nat /\ in_chain m k i /\
    (forall j e, hm_data m !! j = Some e -> is_used e -> e_key e = k -> j = i) /\
    (is_used (elt m index) -> e_key (elt m index) = k).
Proof.
  intros Hw. pose proof (wf_ts_range m Hw) as Ht. pose proof (wf_len m Hw) as Hl.
  unfold hashmap_hash_helper. case_test; [done|].
  assert (0 <= hash_of m k < hm_table_size m) as Hh by (apply hash_range; lia).
  cbv zeta. fold (hash_of m k). destruct (first_probe _ _ _ _ _ _) as [c|t] eqn:E.
  - intros [= ->]. apply first_probe_inl in E.
    pose proof E as E'. apply probe_Some in E' as (_ & Hi & j & Hj & Hij); [|lia..].
    destruct (probe_key_Some m k index Hw E) as (e & He & _ & He' & Hu & Hk).
    exists (Z.to_nat index). rewrite Z2Nat.id by lia. split_and!; [done | lia | | |].
    + exists j. rewrite Z2Nat.id by lia. split; [unfold HASHMAP_MAX_CHAIN_LENGTH in Hj; lia | done].
    + intros j' e' Hj' Hu' Hk'. eapply (wf_uniq m Hw); [exact Hj' | exact He | done..|]. congruence.
    + rewrite He'. done.
  - case_test; [|done]. apply first_probe_inr in E. intros Hp.
    apply probe_Some in Hp as (Hp & Hi & j & Hj & Hij); [|lia..].
    exists (Z.to_nat index). rewrite Z2Nat.id by lia. split_and!; [done | lia | | |].
    + exists j. rewrite Z2Nat.id by lia. split; [unfold HASHMAP_MAX_CHAIN_LENGTH in Hj; lia | done].
    + intros j' e' Hj' Hu' Hk'. exfalso. by eapply probe_key_None.
    + unfold unused in Hp. bool_hyps. unfold is_used. lia.
Qed.

(** The table has room for [k]: it is not full, and one of the slots that are
    probed is free or holds [k] already. *)
Definition has_room (m : hashmap_s) (k : bytes) : Prop :=
  hm_size m < hm_table_size m /\
  exists i e, hm_data m !! i = Some e /\ in_chain m k i /\ (is_used e -> e_key e = k).

Lemma first_probe_total n m key len curr t t' :
  Forall elem_ok (hm_data m) -> first_probe n m key len curr t = inr t' ->
  t' <= t + Z.of_nat n /\ (probe unused n m curr <> None -> t' < t + Z.of_nat n).
Proof.
  intros Hok. induction n as [|n IH] in curr, t |- *; cbn [first_probe probe]; [intros [= ->]; split; [lia|done]|].
  destruct (used_match _ _ _); [done|]. intros H. apply IH in H as [H1 H2]. unfold unused.
  destruct (elt_ok m curr Hok) as [E|[E _]]; rewrite E in *; cbn [Z.eqb]; [split; [|intros _]; lia|].
  split; [lia|]. intros H. apply H2 in H. lia.
Qed.

Lemma hash_helper_room m k :
  hm_wf m -> has_room m k -> hashmap_hash_helper m k (blen k) <> None.
Proof.
  intros Hw (Hsz & i & e & He & (j & Hj & Hij) & Hk). pose proof (wf_ts_range m Hw) as Ht.
  assert (0 <= hash_of m k < hm_table_size m) as Hh by (apply hash_range; lia).
  unfold hashmap_hash_helper. case_test; [lia|]. cbv zeta. fold (hash_of m k).
  destruct (first_probe _ _ _ _ _ _) as [c|t] eqn:E; [done|].
  pose proof (first_probe_total _ _ _ _ _ _ _ (wf_elem m Hw) E) as [_ Hlt].
  apply first_probe_inr in E.
  assert (probe unused HASHMAP_MAX_CHAIN_LENGTH m (hash_of m k) <> None) as Hp.
  { intros Hn. apply (probe_None _ _ _ _ j) in Hn; [|lia|lia|unfold HASHMAP_MAX_CHAIN_LENGTH; lia].
    rewrite <- Hij, (elt_lookup _ _ _ He) in Hn. apply Z.eqb_neq in Hn.
    assert (is_used e) as Hu.
    { destruct (Forall_lookup_1 _ _ _ _ (wf_elem m Hw) He) as [?|[? _]]; [lia|done]. }
    by apply (probe_key_None m k i e Hw E He Hu), Hk. }
  specialize (Hlt Hp). case_test; [done|lia].
Qed.

(** ** Lookup, removal, creation *)

(** C14. On a table that represents the map [M], [hashmap_get] returns the
    value stored under the key, and 0 when the key is absent. *)
Theorem hashmap_get_correct m M k :
  represents m M -> hashmap_get m k (blen k) = default 0 (M !! k).
Proof.
  intros HR. pose proof HR as [Hw HM]. unfold hashmap_get. fold (hash_of m k).
  unfold HASHMAP_MAX_CHAIN_LENGTH. destruct (probe _ _ _ _) as [i|] eqn:E.
  - destruct (probe_key_Some m k i Hw E) as (e & He & _ & He' & Hu & Hk).
    assert (M !! k = Some (e_data e)) as ->; [|by rewrite He'].
    apply HM. by exists (Z.to_nat i), e.
  - rewrite (represents_lookup_None m M k HR); [done|]. intros. by eapply probe_key_None.
Qed.

Lemma clear_wf m i :
  hm_wf m -> (i < length (hm_data m))%nat -> is_used (elt m (Z.of_nat i)) ->
  hm_wf (set_elt m (Z.of_nat i) zero_elem (u32 (hm_size m - 1))).
Proof.
  intros Hw Hi Hu. pose proof (wf_ts_range m Hw) as Ht.
  destruct (lookup_lt_is_Some_2 _ _ Hi) as [e0 He0].
  rewrite (elt_lookup _ _ _ He0) in Hu.
  pose proof (used_insert _ _ _ zero_elem He0) as Hcnt.
  unfold set_elt. rewrite Nat2Z.id.
  assert (forall j e, <[i:=zero_elem]> (hm_data m) !! j = Some e -> is_used e ->
            hm_data m !! j = Some e) as Hl'.
  { intros j e. rewrite list_lookup_insert_Some. intros [(_ & <- & _)|[? ?]]; done. }
  constructor; cbn [hm_table_size hm_data hm_size].
  - apply Hw.
  - rewrite length_insert. apply Hw.
  - apply Forall_insert; [apply Hw | by left].
  - intros j e Hj Hue. apply (in_chain_table_size m); [done|].
    apply (wf_chain m Hw); auto.
  - intros j1 j2 e1 e2 H1 H2 Hu1 Hu2. apply (wf_uniq m Hw); auto.
  - rewrite (wf_size m Hw). pose proof (used_bound (hm_data m)). pose proof (wf_len m Hw).
    destruct (decide (is_used e0)); [|done]. destruct (decide (is_used zero_elem)); [done|].
    rewrite u32_small; lia.
Qed.

(** [hashmap_remove] returns 0 exactly when the key is present; the table
    then represents the map without the key, and is unchanged otherwise. *)
Theorem hashmap_remove_correct m M k r m' :
  represents m M -> hashmap_remove m k (blen k) = (r, m') ->
  (r = 0 /\ is_Some (M !! k) /\ represents m' (delete k M)) \/
  (r = 1 /\ M !! k = None /\ m' = m).
Proof.
  intros HR. pose proof HR as [Hw HM]. unfold hashmap_remove. fold (hash_of m k).
  unfold HASHMAP_MAX_CHAIN_LENGTH. destruct (probe _ _ _ _) as [i|] eqn:E; intros H; inv_some.
  - left. destruct (probe_key_Some m k i Hw E) as (e & He & Hi & He' & Hu & Hk).
    split_and!; [done | exists (e_data e); apply HM; by exists (Z.to_nat i), e |].
    pose proof (wf_len m Hw). replace i with (Z.of_nat (Z.to_nat i)) in * by lia.
    set (n := Z.to_nat i) in *. rewrite Nat2Z.id in He. split.
    { apply clear_wf; [done | lia | by rewrite He']. }
    intros k' v'. unfold set_elt, has_entry; cbn [hm_data]. rewrite Nat2Z.id.
    rewrite lookup_delete_Some, HM. split.
    + intros [Hne (j & e' & Hj & Hu' & Hk' & Hv')]. exists j, e'. split_and!; [|done..].
      rewrite list_lookup_insert_ne; [done|]. intros <-. congruence.
    + intros (j & e' & Hj & Hu' & Hk' & Hv').
      apply list_lookup_insert_Some in Hj as [(_ & <- & _)|[Hne Hj]]; [done|].
      split; [|by exists j, e']. intros <-. apply Hne. apply (wf_uniq m Hw n j e e'); [done..|congruence].
  - right. split_and!; [done | | done].
    apply (represents_lookup_None m' M k HR). intros. by eapply probe_key_None.
Qed.

Lemma pow2_land n :
  0 < n < 4294967296 -> Z.land n (u32 (n - 1)) = 0 -> exists k, 0 <= k <= 31 /\ n = 2 ^ k.
Proof.
  intros Hn H. rewrite u32_small in H by lia.
  exists (Z.log2 n). pose proof (Z.log2_spec n ltac:(lia)) as Hl.
  pose proof (Z.log2_nonneg n).
  assert (Z.log2 n <= 31) by (apply Z.lt_succ_r, Z.log2_lt_pow2; lia).
  split; [lia|]. destruct (Z.eq_dec n (2 ^ Z.log2 n)) as [|Hne]; [done|exfalso].
  assert (Z.testbit (Z.land n (n - 1)) (Z.log2 n) = true) as Hb; [|by rewrite H, Z.bits_0 in Hb].
  rewrite Z.land_spec, Z.bit_log2 by lia. simpl.
  rewrite <- (Z.bit_log2 (n - 1)) by lia. f_equal. symmetry. apply Z.log2_unique; lia.
Qed.

Lemma land_pow2_pred k : 0 <= k -> Z.land (2 ^ k) (2 ^ k - 1) = 0.
Proof.
  intros Hk. replace (2 ^ k - 1) with (Z.ones k) by (rewrite Z.ones_equiv; lia).
  rewrite Z.land_ones by lia. apply Z.mod_same. pose proof (Z.pow_pos_nonneg 2 k). lia.
Qed.

Lemma used_zero n : used (repeat zero_elem n) = 0%nat.
Proof.
  unfold used. induction n as [|n IH]; simpl repeat; [done|].
  rewrite filter_cons. case_decide; [done | apply IH].
Qed.

Section Ops2.

Context (calloc_ok : Z -> bool).
Local Abbreviation create := (hashmap_create calloc_ok).
Local Abbreviation put := (hashmap_put calloc_ok).

Lemma hashmap_create_ok n m :
  0 <= n < 4294967296 -> create n = (0, m) ->
  represents m ∅ /\ hm_table_size m = n.
Proof.
  intros Hn. unfold hashmap_create.
  destruct ((n =? 0) || _) eqn:E; [done|]. case_test; [done|]. intros [= <-].
  apply orb_false_iff in E as [E1 E2]. bool_hyps. split; [|done].
  assert (forall i e, repeat zero_elem (Z.to_nat n) !! i = Some e -> ~ is_used e) as Hz.
  { intros i e Hi. apply list_elem_of_lookup_2, list_elem_of_In, repeat_spec in Hi as ->. done. }
  split.
  - constructor; cbn [hm_table_size hm_data hm_size].
    + apply pow2_land; [lia | done].
    + rewrite repeat_length. lia.
    + apply Forall_forall. intros e He. apply list_elem_of_In, repeat_spec in He as ->. by left.
    + intros i e Hi Hu. by apply Hz in Hi.
    + intros i j e e' Hi _ Hu. by apply Hz in Hi.
    + rewrite used_zero. done.
  - intros k v. rewrite lookup_empty. split; [done|]. intros (i & e & Hi & Hu & _).
    by apply Hz in Hi.
Qed.

(** ** Rehashing *)

(** What copying one slot into a new table does to the represented map. *)
Definition ins (N : gmap (list Z) Z) (e : hashmap_element_s) : gmap (list Z) Z :=
  if e_in_use e =? 0 then N else <[e_key e := e_data e]> N.

Definition uniq_keys (l : list hashmap_element_s) : Prop :=
  forall i j e e', l !! i = Some e -> l !! j = Some e' ->
    is_used e -> is_used e' -> e_key e = e_key e' -> i = j.

Lemma uniq_keys_cons e l :
  uniq_keys (e :: l) ->
  uniq_keys l /\ (is_used e -> forall v, ~ has_entry l (e_key e) v).
Proof.
  intros H. split.
  - intros i j a b Hi Hj Ha Hb Hk.
    specialize (H (S i) (S j) a b Hi Hj Ha Hb Hk). lia.
  - intros He v (i & e' & Hi & Hu & Hk & _).
    specialize (H 0%nat (S i) e e' eq_refl Hi He Hu (eq_sym Hk)). lia.
Qed.

Lemma has_entry_cons e l k v :
  has_entry (e :: l) k v <-> (is_used e /\ e_key e = k /\ e_data e = v) \/ has_entry l k v.
Proof.
  split.
  - intros ([|i] & e' & Hi & H); cbn in Hi; [inv_some; by left | right; by exists i, e'].
  - intros [H|(i & e' & Hi & H)]; [by exists 0%nat, e | by exists (S i), e'].
Qed.

Lemma fold_ins l N k v :
  Forall elem_ok l -> uniq_keys l ->
  fold_left ins l N !! k = Some v <->
  has_entry l k v \/ (~ (exists v', has_entry l k v') /\ N !! k = Some v).
Proof.
  intros Hok; induction Hok as [|e l He Hok IH] in N |- *; intros Hq; cbn [fold_left].
  { split; [right; split; [intros (v' & i & e & Hi & _); done | done]|].
    intros [(i & e & Hi & _)|[_ ?]]; done. }
  destruct (uniq_keys_cons _ _ Hq) as [Hq' Hne]. rewrite (IH _ Hq').
  setoid_rewrite has_entry_cons. unfold ins.
  destruct He as [Hz|[Hz _]]; unfold is_used in *; rewrite Hz in *; cbn [Z.eqb].
  - split; intros [H|[Hn H]].
    + by left; right.
    + right. split; [|done]. intros [v' [[? _]|?]]; [lia | eauto].
    + destruct H as [[? _]|?]; [lia | by left].
    + right. split; [|done]. intros [v' ?]; eauto.
  - specialize (Hne eq_refl). rewrite lookup_insert_Some.
    split; intros [H|[Hn H]].
    + by left; right.
    + destruct H as [[? ?]|[Hk ?]]; [by left; left|].
      right. split; [|done]. intros [v' [(_ & ? & _)|?]]; [done | eauto].
    + destruct H as [(_ & <- & <-)|?]; [|by left].
      right. split; [|auto]. intros [v' ?]. by eapply Hne.
    + right. split; [intros [v' ?]; eauto|]. right. split; [|done]. intros <-. eauto 6.
Qed.

(** Every well-formed table represents a map. *)
Lemma wf_represents m : hm_wf m -> represents m (fold_left ins (hm_data m) ∅).
Proof.
  intros Hw. split; [done|]. intros k v.
  rewrite fold_ins by (apply Hw || exact (wf_uniq m Hw)).
  rewrite lookup_empty. split; [intros [?|[_ ?]]; done | by left].
Qed.

Lemma represents_unique m M M' : represents m M -> represents m M' -> M = M'.
Proof.
  intros [_ H] [_ H']. apply map_eq. intros k. apply option_eq. intros v.
  by rewrite H, H'.
Qed.

(** The table cannot grow: a larger power of two cannot be allocated or leaves
    the 32-bit range. *)
Definition growth_fails (m : hashmap_s) : Prop :=
  exists k, hm_table_size m < 2 ^ k /\ (k <= 31 /\ calloc_ok (2 ^ k) = false \/ k = 32).

Lemma growth_fails_mono m m' :
  hm_table_size m <= hm_table_size m' -> growth_fails m' -> growth_fails m.
Proof. intros H (k & Hk & Ha). exists k. split; [lia|done]. Qed.

(** Doubling fails only for these reasons. *)
Lemma create_double_fails m :
  hm_wf m -> fst (create (u32 (2 * hm_table_size m))) <> 0 -> growth_fails m.
Proof.
  intros [(k & Hk & Et) _ _ _ _ _]. rewrite Et, <- Z.pow_succ_r by lia. unfold hashmap_create.
  pose proof (Z.pow_lt_mono_r 2 k (Z.succ k)). destruct (Z.eq_dec k 31) as [->|Hne].
  { intros _. exists 32. rewrite Et. split; [lia|by right]. }
  assert (2 ^ Z.succ k <= 2 ^ 31) by (apply Z.pow_le_mono_r; lia).
  pose proof (Z.pow_pos_nonneg 2 (Z.succ k)). rewrite !u32_small by lia.
  rewrite land_pow2_pred by lia. destruct (Z.eqb_spec (2 ^ Z.succ k) 0); [lia|]. cbn [orb negb Z.eqb].
  destruct (calloc_ok (2 ^ Z.succ k)) eqn:Ea; cbn [negb]; [done|]. intros _.
  exists (Z.succ k). rewrite Et. split; [lia|left; split; [lia|done]].
Qed.

(** What the rehash needs of the nested [hashmap_put]. *)
Definition put_spec (f : hashmap_s -> bytes -> Z -> Z -> option (Z * hashmap_s)) : Prop :=
  forall m M k v r m', represents m M -> f m k (blen k) v = Some (r, m') ->
    r = 1 /\ growth_fails m \/ (r = 0 /\ represents m' (<[k:=v]> M) /\ hm_table_size m <= hm_table_size m').

Lemma rehash_iterate f n i m new N r m' new' :
  put_spec f -> represents new N -> Forall elem_ok (hm_data m) ->
  length (hm_data m) = (i + n)%nat ->
  hashmap_iterate_from (hashmap_rehash_iterator f) n (Z.of_nat i) m new = Some (r, m', new') ->
  r = 1 /\ growth_fails new \/ (r = 0 /\ represents new' (fold_left ins (drop i (hm_data m)) N) /\
           hm_table_size new <= hm_table_size new').
Proof.
  intros Hf; induction n as [|n IH] in i, m, new, N |- *; intros HN Hok Hlen; cbn [hashmap_iterate_from].
  { intros [= <- <- <-]. right. rewrite drop_ge by lia. done. }
  destruct (lookup_lt_is_Some_2 (hm_data m) i ltac:(lia)) as [e He].
  rewrite (elt_lookup _ _ _ He), (drop_S _ _ _ He). cbn [fold_left].
  replace (Z.of_nat i + 1) with (Z.of_nat (S i)) by lia.
  pose proof (Forall_lookup_1 _ _ _ _ Hok He) as Heok.
  unfold ins at 2. case_test; [apply IH; [done..|lia]|].
  destruct Heok as [Hz|[Hz Hkl]]; [rewrite Hz in *; done|].
  unfold hashmap_rehash_iterator at 1. rewrite Hkl.
  destruct (f new (e_key e) _ (e_data e)) as [[t new1]|] eqn:Ef; [|done].
  destruct (Hf _ _ _ _ _ _ HN Ef) as [[-> Hg]|(-> & HR & Hts)]; cbn [Z.ltb Z.compare Z.eqb].
  { intros [= <- <- <-]. by left. }
  intros Hit. apply IH with (N := <[e_key e:=e_data e]> N) in Hit.
  - unfold set_elt in Hit; cbn [hm_data] in Hit.
    rewrite Nat2Z.id, drop_insert_lt in Hit by lia.
    destruct Hit as [[? ?]|(? & ? & ?)]; [left; split; [done|by eapply growth_fails_mono] | right; split_and!; [done..|lia]].
  - done.
  - apply Forall_insert; [done | by left].
  - unfold set_elt; cbn [hm_data]. rewrite length_insert. lia.
Qed.

Lemma rehash_correct f m M r m' :
  put_spec f -> represents m M -> hashmap_rehash_helper calloc_ok f m = Some (r, m') ->
  r <> 0 /\ growth_fails m \/ (r = 0 /\ represents m' M /\ 2 * hm_table_size m <= hm_table_size m').
Proof.
  intros Hf HR. pose proof HR as [Hw _]. pose proof (wf_ts_range m Hw) as Ht.
  unfold hashmap_rehash_helper.
  destruct (hashmap_create calloc_ok _) as [flag new] eqn:Ec.
  destruct (Z.eqb_spec flag 0) as [->|Hne]; cbn [negb];
    [|intros [= <- _]; left; split; [done|]; apply create_double_fails; [done|by rewrite Ec]].
  apply hashmap_create_ok in Ec as [HN Hsz]; [|apply u32_range].
  assert (2 * hm_table_size m <= hm_table_size new) as Hdbl.
  { pose proof (wf_ts_range new (proj1 HN)) as Hn. rewrite Hsz in *.
    destruct (Z.eq_dec (hm_table_size m) (2 ^ 31)) as [E|]; [|rewrite u32_small; lia].
    rewrite E in Hn. destruct Hn as [Hn _]. by vm_compute in Hn. }
  unfold hashmap_iterate_pairs.
  destruct (hashmap_iterate_from _ _ _ _ _) as [[[flag m1] new1]|] eqn:Ei; [|done].
  change 0 with (Z.of_nat 0) in Ei.
  eapply rehash_iterate in Ei; [|done | exact HN | apply Hw | pose proof (wf_len m Hw); lia].
  rewrite drop_0 in Ei. destruct Ei as [[-> Hg]|(-> & HR' & Hts)]; intros [= <- <-].
  - left. split; [done|]. apply (growth_fails_mono m new); [lia|done].
  - right. split_and!; [done | |lia]. by rewrite (represents_unique _ _ _ HR (wf_represents m Hw)).
Qed.

(** [hashmap_put] meets the contract, whatever its fuel. *)
Lemma put_meets_spec fuel : put_spec (put fuel).
Proof.
  induction fuel as [|fuel IH]; intros m M k v r m' HR; cbn [hashmap_put];
    destruct (hashmap_hash_helper m k (blen k)) as [index|] eqn:E.
  2: done.
  3: { destruct (hashmap_rehash_helper _ _ _) as [[flag m1]|] eqn:Er; [|done].
       pose proof (wf_ts_range m (proj1 HR)).
       apply (rehash_correct _ _ M) in Er as [[Hf Hg]|(-> & HR1 & Hts)]; [|..|done|done].
       - destruct (Z.eqb_spec flag 0); [done|]. cbn. intros [= <- _]. by left.
       - cbn. intros Hp. destruct (IH _ _ _ _ _ _ HR1 Hp) as [[? Hg]|(? & ? & ?)].
         + left. split; [done|]. apply (growth_fails_mono m m1); [lia|done].
         + right. split_and!; [done..|lia]. }
  all: intros [= <- <-]; right;
    destruct (hash_helper_Some m k index (proj1 HR) E) as (i & -> & Hi & Hc & Hu & Ho);
    split_and!; [done | by apply store_at_represents | done].
Qed.

(** ** Termination *)

(** [fuel] doublings of [m] leave the 32-bit range. *)
Definition enough (fuel : nat) (m : hashmap_s) : Prop :=
  2 ^ 32 <= hm_table_size m * 2 ^ Z.of_nat fuel.

Lemma enough_mono fuel m m' :
  enough fuel m -> hm_table_size m <= hm_table_size m' -> enough fuel m'.
Proof. unfold enough. pose proof (Z.pow_pos_nonneg 2 (Z.of_nat fuel)). nia. Qed.

Lemma enough_step fuel m n :
  enough (S fuel) m -> 2 * hm_table_size m <= hm_table_size n -> enough fuel n.
Proof.
  unfold enough. rewrite Nat2Z.inj_succ, Z.pow_succ_r by lia.
  pose proof (Z.pow_pos_nonneg 2 (Z.of_nat fuel)). nia.
Qed.

Lemma rehash_iterate_total fuel n i m new :
  (forall m k v, hm_wf m -> enough fuel m -> put fuel m k (blen k) v <> None) ->
  hm_wf new -> enough fuel new -> Forall elem_ok (hm_data m) ->
  hashmap_iterate_from (hashmap_rehash_iterator (put fuel)) n i m new <> None.
Proof.
  intros Hp; induction n as [|n IH] in i, m, new |- *; intros Hw He Hok;
    cbn [hashmap_iterate_from]; [done|].
  case_test; [by apply IH|].
  destruct (elt_ok m i Hok) as [Hz|[_ Hkl]]; [by rewrite Hz in *|].
  unfold hashmap_rehash_iterator at 1. rewrite Hkl.
  specialize (Hp new (e_key (elt m i)) (e_data (elt m i)) Hw He).
  destruct (put fuel new _ _ _) as [[t new1]|] eqn:E; [clear Hp|done].
  destruct (put_meets_spec _ _ _ _ _ _ _ (wf_represents new Hw) E) as [[-> _]|(-> & [Hw1 _] & Hts)];
    cbn [Z.ltb Z.compare Z.eqb]; [done|].
  apply IH; [done | by eapply enough_mono | apply Forall_insert; [done | by left]].
Qed.

Lemma put_total fuel m k v :
  hm_wf m -> enough fuel m -> put fuel m k (blen k) v <> None.
Proof.
  induction fuel as [|fuel IH] in m, k, v |- *; intros Hw He; cbn [hashmap_put];
    destruct (hashmap_hash_helper _ _ _) eqn:E; try done.
  { pose proof (wf_ts_range m Hw). unfold enough in He. lia. }
  destruct (hashmap_rehash_helper calloc_ok (put fuel) m) as [[flag m1]|] eqn:Er.
  - apply (rehash_correct _ _ _ _ _ (put_meets_spec fuel) (wf_represents m Hw)) in Er
      as [[Hf _]|(-> & HR & Hts)].
    + destruct (Z.eqb_spec flag 0); done.
    + apply IH; [apply HR | by eapply enough_step].
  - exfalso. revert Er. unfold hashmap_rehash_helper.
    destruct (create _) as [flag new] eqn:Ec.
    destruct (Z.eqb_spec flag 0) as [->|]; cbn [negb]; [|done].
    apply hashmap_create_ok in Ec as [[Hwn _] Hsz]; [|apply u32_range].
    pose proof (wf_ts_range m Hw) as Ht. pose proof (wf_ts_range new Hwn) as Htn.
    destruct (hashmap_iterate_pairs _ _ _) as [[[f1 m1] n1]|] eqn:Ei;
      [destruct (Z.eqb_spec f1 0); done|].
    exfalso. revert Ei. apply rehash_iterate_total; [exact IH | done | | apply Hw].
    eapply enough_step; [done|]. rewrite Hsz in *.
    destruct (Z.eq_dec (hm_table_size m) (2 ^ 31)) as [E31|].
    { rewrite E31 in Htn. destruct Htn as [Htn _]. by vm_compute in Htn. }
    rewrite u32_small; lia.
Qed.

Lemma put_in_place fuel m k v index :
  hashmap_hash_helper m k (blen k) = Some index ->
  put fuel m k (blen k) v = Some (0, store_at m index k (blen k) v).
Proof. intros E. destruct fuel; cbn [hashmap_put]; by rewrite E. Qed.


(** [hashmap_create] succeeds exactly for the powers of two of the 32-bit
    range when the allocation succeeds, and then yields the empty map. *)
Theorem hashmap_create_correct n :
  0 <= n < 4294967296 ->
  (fst (create n) = 0 <-> (exists k, 0 <= k <= 31 /\ n = 2 ^ k) /\ calloc_ok n = true) /\
  (fst (create n) = 0 -> represents (snd (create n)) ∅).
Proof.
  intros Hn. split.
  - unfold hashmap_create. split.
    + destruct ((n =? 0) || _) eqn:E; [done|]. case_test; [done|]. intros _.
      apply orb_false_iff in E as [E1 E2]. bool_hyps.
      split; [apply pow2_land; [lia | done] | done].
    + intros [(k & Hk & ->) ->]. cbn [negb].
      pose proof (Z.pow_pos_nonneg 2 k). rewrite u32_small by lia.
      rewrite land_pow2_pred by lia. destruct (Z.eqb_spec (2 ^ k) 0); [lia|]. done.
  - destruct (create n) as [r m] eqn:E. cbn [fst snd]. intros ->.
    apply hashmap_create_ok in E as [? _]; done.
Qed.

End Ops2.

(** ** Witnesses: a four-slot table after two insertions and a rehash *)

Definition all_ok : Z -> bool := fun _ => true.
Definition table4 : hashmap_s := snd (hashmap_create all_ok 4).

Lemma table4_empty : represents table4 ∅.
Proof. apply (hashmap_create_ok all_ok 4); [lia | reflexivity]. Qed.

Definition put_or (m : hashmap_s) (k : bytes) (v : Z) : hashmap_s :=
  match hashmap_put all_ok 32 m k (blen k) v with Some (_, m') => m' | None => m end.

Definition table_ab : hashmap_s := put_or (put_or table4 (c!"a") 7) (c!"b") 9.

#[local] Transparent hashmap_hash_helper_int_helper.

Lemma table_ab_represents :
  represents table_ab (<[c!"b" := 9]> (<[c!"a" := 7]> ∅)).
Proof.
  assert (represents (put_or table4 (c!"a") 7) (<[c!"a" := 7]> ∅)) as H1.
  { destruct (put_meets_spec all_ok 32 table4 ∅ (c!"a") 7 0 (put_or table4 (c!"a") 7))
      as [[? _]|(_ & ? & _)]; [apply table4_empty | reflexivity | done | done]. }
  destruct (put_meets_spec all_ok 32 _ _ (c!"b") 9 0 table_ab H1) as [[? _]|(_ & ? & _)];
    [reflexivity | done | done].
Qed.

Lemma hashmap_get_correct_witness :
  hashmap_get table_ab (c!"a") (blen (c!"a")) = 7.
Proof.
  rewrite (hashmap_get_correct table_ab _ (c!"a") table_ab_represents).
  vm_compute. reflexivity.
Defined.

Lemma hashmap_remove_correct_witness :
  exists m', hashmap_remove table_ab (c!"a") (blen (c!"a")) = (0, m') /\
    represents m' (delete (c!"a") (<[c!"b" := 9]> (<[c!"a" := 7]> ∅))).
Proof.
  destruct (hashmap_remove table_ab (c!"a") (blen (c!"a"))) as [r m'] eqn:E.
  destruct (hashmap_remove_correct table_ab _ (c!"a") r m' table_ab_represents E)
    as [(-> & _ & H)|(-> & H & _)].
  - exists m'. split; [reflexivity | exact H].
  - vm_compute in H. discriminate H.
Defined.

(** A table with one slot, which is taken. *)
Definition table1 : hashmap_s := snd (hashmap_create all_ok 1).
Definition table_a : hashmap_s := put_or table1 (c!"a") 7.

Lemma table_a_represents : represents table_a (<[c!"a" := 7]> ∅).
Proof.
  assert (represents table1 ∅) as H1 by (by apply (hashmap_create_ok all_ok 1)).
  destruct (put_meets_spec all_ok 32 table1 ∅ (c!"a") 7 0 table_a H1) as [[? _]|(_ & ? & _)];
    [reflexivity | done | done].
Qed.


Lemma hashmap_create_correct_witness :
  (fst (hashmap_create all_ok 16) = 0 <->
     (exists k, 0 <= k <= 31 /\ 16 = 2 ^ k) /\ all_ok 16 = true) /\
  (fst (hashmap_create all_ok 16) = 0 -> represents (snd (hashmap_create all_ok 16)) ∅).
Proof. apply (hashmap_create_correct all_ok 16). lia. Defined.

End Hashmap.
