(* ===== verification/WebhookCodec.v ===== *)
(** * Payload encodings of the web hook (nanomq/webhook_post.c)

    [base62_encode] (repeated division of the payload, read as a big-endian
    integer, by 62) and [base64_no_padding_encode] (a bit accumulator with the
    letter substitution of [set_char]), with the macros that size their output
    buffers.  The encoders return the characters written to [out]; the C
    functions return their number. *)

From S2P Require Import Prelude.

Module Base62.

(** BASE62_ENCODE_OUT_SIZE(s), on a [uint32_t] length *)
Definition BASE62_ENCODE_OUT_SIZE (s : Z) : Z := u32 (u32 (s * 135) / 100 + 4).

Definition alphabet : bytes :=
  c!"0123456789ABCDEFGHIJKLMNOPQRSTUVWXYZabcdefghijklmnopqrstuvwxyz".

Definition char_of (d : Z) : Z := nth (Z.to_nat d) alphabet 0.

(** while (i < inlen && a[i] == 0) i++, from the start of the slice *)
Fixpoint skip_zeros (l : bytes) : nat :=
  match l with
  | [] => 0
  | b :: l' => if b =? 0 then S (skip_zeros l') else 0
  end.

(** for (i = start_idx; i < inlen; i++): the division of the slice by 62 *)
Fixpoint div62 (l : bytes) (remainder : Z) : bytes * Z :=
  match l with
  | [] => ([], remainder)
  | b :: l' =>
      let dividend := Z.lor (Z.shiftl remainder 8) b in
      let '(q, r) := div62 l' (dividend mod 62) in
      (u8 (dividend / 62) :: q, r)
  end.

(** while (start_idx < inlen): one digit per turn, least significant first *)
Fixpoint digit_loop (fuel : nat) (inlen : nat) (tmp : bytes) (start_idx : nat) (out : bytes)
  : option bytes :=
  if (start_idx <? inlen)%nat then
    match fuel with
    | O => None
    | S fuel' =>
        let '(q, remainder) := div62 (drop start_idx tmp) 0 in
        let tmp := take start_idx tmp ++ q in
        digit_loop fuel' inlen tmp (start_idx + skip_zeros (drop start_idx tmp))
          (out ++ [char_of remainder])
    end
  else Some out.

(** for (i = 0; i < out_idx / 2; i++): swap out[i] and out[out_idx - 1 - i] *)
Fixpoint swap_loop (n i : nat) (out_idx : nat) (out : bytes) : bytes :=
  match n with
  | O => out
  | S n' =>
      let t := nth i out 0 in
      let out := <[i := nth (out_idx - 1 - i) out 0]> out in
      let out := <[(out_idx - 1 - i)%nat := t]> out in
      swap_loop n' (S i) out_idx out
  end.

(** The characters left in [out]; [None] if the loop ran out of fuel.  The
    result is empty (the C function returns 0) for an empty payload or when
    the scratch buffer cannot be allocated. *)
Definition base62_encode (alloc_ok : bool) (fuel : nat) (input : bytes) : option bytes :=
  let inlen := length input in
  if (inlen =? 0)%nat then Some []
  else
    let zeros := skip_zeros input in
    if negb alloc_ok then Some []
    else
      match digit_loop fuel inlen input zeros [] with
      | None => None
      | Some out =>
          let out := out ++ repeat (char_of 0) zeros in
          Some (swap_loop (length out / 2) 0 (length out) out)
      end.

(** ** Numbers in base 256 and base 62 *)

Definition be_value (l : bytes) : Z := fold_left (fun a b => a * 256 + b) l 0.

(** Digits, least significant first. *)
Fixpoint le62 (ds : list Z) : Z :=
  match ds with
  | [] => 0
  | d :: ds' => d + 62 * le62 ds'
  end.

Definition digit_ok (d : Z) : Prop := 0 <= d < 62.

Lemma be_fold l a :
  fold_left (fun a b => a * 256 + b) l a = a * 256 ^ blen l + be_value l.
Proof.
  unfold be_value. revert a; induction l as [|b l IH]; intros a.
  - rewrite blen_nil. simpl fold_left. rewrite Z.pow_0_r. lia.
  - cbn [fold_left]. rewrite IH, (IH (0 * 256 + b)), blen_cons.
    rewrite Z.pow_add_r by (try lia; apply blen_nonneg). nia.
Qed.

Lemma be_value_cons b l : be_value (b :: l) = b * 256 ^ blen l + be_value l.
Proof. unfold be_value at 1. cbn [fold_left]. rewrite be_fold. ring. Qed.

Lemma be_value_range l : bytes_ok l -> 0 <= be_value l < 256 ^ blen l.
Proof.
  induction 1 as [|b l Hb _ IH]; [split; vm_compute; congruence|].
  rewrite be_value_cons, blen_cons, Z.pow_add_r by (try lia; apply blen_nonneg).
  unfold byte_ok in Hb. nia.
Qed.

Lemma be_value_repeat0 n l : be_value (repeat 0 n ++ l) = be_value l.
Proof. induction n as [|n IH]; [done|]. cbn [repeat app]. rewrite be_value_cons. lia. Qed.

(** ** Division by 62 *)

Lemma lor_shiftl_add r b : 0 <= r -> byte_ok b -> Z.lor (Z.shiftl r 8) b = r * 256 + b.
Proof.
  intros Hr Hb.
  assert (Z.land (Z.shiftl r 8) b = 0) as H0.
  { apply Z.bits_inj'. intros i Hi. rewrite Z.land_spec, Z.bits_0.
    destruct (Z.ltb_spec i 8); [rewrite Z.shiftl_spec_low by lia; done|].
    rewrite andb_comm. unfold byte_ok in Hb.
    rewrite (Z.bits_above_log2 b); [done | lia |].
    destruct (Z.eq_dec b 0) as [->|]; [cbn; lia|].
    apply Z.log2_lt_pow2; [lia|].
    assert (2 ^ 8 <= 2 ^ i) by (apply Z.pow_le_mono_r; lia). lia. }
  rewrite <- Z.lxor_lor, <- Z.add_nocarry_lxor, Z.shiftl_mul_pow2 by done. lia.
Qed.

Lemma div62_spec l r :
  bytes_ok l -> digit_ok r ->
  let '(q, r') := div62 l r in
  length q = length l /\ bytes_ok q /\ digit_ok r' /\
  r * 256 ^ blen l + be_value l = 62 * be_value q + r'.
Proof.
  intros Hl; induction Hl as [|b l Hb Hl IH] in r |- *; intros Hr; cbn [div62].
  { split_and!; [done | constructor | done |].
    change (r * 256 ^ 0 + 0 = 62 * 0 + r). lia. }
  rewrite lor_shiftl_add by (unfold digit_ok in Hr; lia || done).
  set (dd := r * 256 + b).
  assert (digit_ok (dd mod 62)) as Hm by (apply Z.mod_pos_bound; lia).
  specialize (IH _ Hm). destruct (div62 l (dd mod 62)) as [q r'].
  destruct IH as (Hq & Hok & Hr' & Hv).
  unfold digit_ok, byte_ok in *. pose proof (Z.div_mod dd 62 ltac:(lia)) as Hdm.
  assert (0 <= dd / 62 < 256) by (unfold dd in *; split; [apply Z.div_pos | apply Z.div_lt_upper_bound]; lia).
  rewrite u8_small by done. split_and!; [simpl; lia | by constructor | lia.. |].
  rewrite !be_value_cons, blen_cons, Z.pow_add_r by (try lia; apply blen_nonneg).
  unfold blen in *. rewrite Hq. unfold dd in *. nia.
Qed.

(** ** Leading zeros *)

Lemma skip_zeros_split l :
  l = repeat 0 (skip_zeros l) ++ drop (skip_zeros l) l /\ (skip_zeros l <= length l)%nat.
Proof.
  induction l as [|b l [IH IHl]]; [done|]. simpl.
  destruct (Z.eqb_spec b 0) as [->|]; simpl; [|split; [done | lia]].
  split; [by f_equal | lia].
Qed.

(** The slice left by [skip_zeros] is empty or starts with a non-zero byte. *)
Definition head_nz (l : bytes) : Prop := match l with [] => True | b :: _ => b <> 0 end.

Lemma skip_zeros_head l : head_nz (drop (skip_zeros l) l).
Proof.
  induction l as [|b l IH]; [done|]. simpl. destruct (Z.eqb_spec b 0); simpl; [apply IH | done].
Qed.

Lemma be_value_skip l : be_value (drop (skip_zeros l) l) = be_value l.
Proof.
  destruct (skip_zeros_split l) as [H _]. rewrite H at 3. by rewrite be_value_repeat0.
Qed.

Lemma be_value_head_nz l :
  bytes_ok l -> head_nz l -> l <> [] -> 256 ^ (blen l - 1) <= be_value l.
Proof.
  intros Hl Hh Hn. destruct l as [|b l]; [done|]. cbn in Hh.
  apply Forall_cons in Hl as [Hb Hl]. pose proof (be_value_range l Hl).
  rewrite be_value_cons, blen_cons. replace (1 + blen l - 1) with (blen l) by lia.
  unfold byte_ok in Hb. pose proof (Z.pow_pos_nonneg 256 (blen l)). pose proof (blen_nonneg l). nia.
Qed.

(** ** The digit loop *)

(** Most significant digit not 0. *)
Definition no_lead (ds : list Z) : Prop := head_nz (rev ds).

Lemma no_lead_cons d ds : no_lead ds -> (ds = [] -> d <> 0) -> no_lead (d :: ds).
Proof.
  unfold no_lead. simpl. intros H Hd. destruct (rev ds) eqn:E; simpl in *; [|done].
  apply Hd. apply (f_equal (@rev Z)) in E. by rewrite rev_involutive in E.
Qed.

Lemma digit_loop_spec fuel inlen tmp start out :
  bytes_ok tmp -> length tmp = inlen -> (start <= inlen)%nat ->
  head_nz (drop start tmp) -> be_value (drop start tmp) < 2 ^ Z.of_nat fuel ->
  exists ds, digit_loop fuel inlen tmp start out = Some (out ++ map char_of ds) /\
    Forall digit_ok ds /\ le62 ds = be_value (drop start tmp) /\ no_lead ds.
Proof.
  induction fuel as [|fuel IH] in tmp, start, out |- *; intros Hok Hlen Hs Hh Hv;
    cbn [digit_loop]; destruct (Nat.ltb_spec start inlen) as [Hlt|Hge];
    try (exists []; rewrite drop_ge, app_nil_r by lia; done);
    assert (bytes_ok (drop start tmp)) as Hokd by (by apply Forall_drop);
    assert (drop start tmp <> []) as Hne
      by (intros E; apply (f_equal length) in E; rewrite length_drop in E; simpl in E; lia);
    pose proof (be_value_head_nz _ Hokd Hh Hne) as Hpos.
  { assert (0 < 256 ^ (blen (drop start tmp) - 1)); [|change (2 ^ Z.of_nat 0) with 1 in Hv; lia].
    apply Z.pow_pos_nonneg; [lia|]. unfold blen. destruct (drop start tmp); simpl; [done | lia]. }
  pose proof (div62_spec (drop start tmp) 0 Hokd ltac:(unfold digit_ok; lia)) as Hd.
  destruct (div62 (drop start tmp) 0) as [q r]. destruct Hd as (Hq & Hqok & Hr & Heq).
  assert (length (take start tmp) = start) as Hts by (rewrite length_take; lia).
  assert (drop start (take start tmp ++ q) = q) as Hdq by (by rewrite drop_app_length').
  rewrite Hdq.
  assert (drop (start + skip_zeros q) (take start tmp ++ q) = drop (skip_zeros q) q) as Hdr.
  { rewrite <- drop_drop, Hdq. done. }
  destruct (IH (take start tmp ++ q) (start + skip_zeros q)%nat (out ++ [char_of r]))
    as (ds & E & Hds & Hval & Hl).
  - apply Forall_app. split; [by apply Forall_take | done].
  - rewrite length_app, Hts, Hq, length_drop. lia.
  - pose proof (proj2 (skip_zeros_split q)). rewrite Hq, length_drop in *. lia.
  - rewrite Hdr. apply skip_zeros_head.
  - rewrite Hdr, be_value_skip. unfold digit_ok in Hr.
    rewrite Nat2Z.inj_succ, Z.pow_succ_r in Hv by lia.
    pose proof (proj1 (be_value_range q Hqok)). lia.
  - exists (r :: ds). rewrite E. cbn [map le62]. rewrite <- app_assoc. rewrite Hdr, be_value_skip in Hval.
    split_and!; [done | by constructor | lia |].
    apply no_lead_cons; [done|]. intros ->. cbn in Hval.
    assert (0 < 256 ^ (blen (drop start tmp) - 1)); [|lia].
    apply Z.pow_pos_nonneg; [lia|]. unfold blen. destruct (drop start tmp); simpl; [done | lia].
Qed.

(** ** The reversal *)

Lemma nth_lookup_total (l : bytes) i x : l !! i = Some x -> nth i l 0 = x.
Proof. apply nth_lookup_Some. Qed.

Lemma swap_loop_spec n i len l j :
  length l = len -> (2 * (i + n) <= len)%nat -> (j < len)%nat ->
  swap_loop n i len l !! j =
    if decide ((i <= j < i + n) \/ (len - (i + n) <= j < len - i))%nat
    then l !! (len - 1 - j)%nat else l !! j.
Proof.
  induction n as [|n IH] in i, l |- *; intros Hl Hb Hj; cbn [swap_loop].
  { rewrite decide_False by lia. done. }
  destruct (lookup_lt_is_Some_2 l i ltac:(lia)) as [a Ha].
  destruct (lookup_lt_is_Some_2 l (len - 1 - i)%nat ltac:(lia)) as [b Hb'].
  rewrite (nth_lookup_total _ _ _ Ha), (nth_lookup_total _ _ _ Hb').
  rewrite IH by (rewrite ?length_insert; lia).
  assert (forall p, <[(len - 1 - i)%nat := a]> (<[i := b]> l) !! p =
            if decide (p = i) then Some b else if decide (p = len - 1 - i)%nat then Some a
            else l !! p) as Hlk.
  { intros p. rewrite !list_lookup_insert, length_insert.
    repeat case_decide; try lia; done. }
  rewrite !Hlk.
  destruct (decide (j = i)) as [->|];
    [|destruct (decide (j = len - 1 - i)%nat) as [->|]];
    repeat case_decide; try lia; try done.
  replace (len - 1 - (len - 1 - i))%nat with i by lia. done.
Qed.

Lemma swap_loop_rev l : swap_loop (length l / 2) 0 (length l) l = rev l.
Proof.
  pose proof (Nat.div_mod_eq (length l) 2) as Hdm.
  pose proof (Nat.mod_upper_bound (length l) 2 ltac:(lia)).
  apply list_eq. intros j. rewrite rev_alt. change (rev_append l []) with (reverse l).
  destruct (decide (j < length l)%nat) as [Hj|Hj].
  - rewrite swap_loop_spec, reverse_lookup by lia.
    case_decide; [f_equal; lia|].
    assert (j = length l - S j)%nat as E by lia. rewrite E at 1. done.
  - rewrite !lookup_ge_None_2; [done | rewrite length_reverse; lia |].
    assert (forall n i len k, length (swap_loop n i len k) = length k) as ->; [|lia].
    induction n as [|n IH]; intros; cbn [swap_loop]; [done|]. by rewrite IH, !length_insert.
Qed.

(** ** The whole encoder *)

Definition zero_char : Z := char_of 0.

Lemma base62_encode_digits input :
  bytes_ok input ->
  exists ds, base62_encode true (8 * length input) input
             = Some (map char_of (repeat 0 (skip_zeros input) ++ rev ds)) /\
    Forall digit_ok ds /\ le62 ds = be_value input /\ no_lead ds.
Proof.
  intros Hok. unfold base62_encode. destruct (Nat.eqb_spec (length input) 0) as [E|E].
  { destruct input; [|done]. exists []. done. }
  cbn [negb].
  destruct (digit_loop_spec (8 * length input) (length input) input (skip_zeros input) [])
    as (ds & -> & Hds & Hv & Hl); [done | done | apply skip_zeros_split | apply skip_zeros_head | |].
  - rewrite be_value_skip. pose proof (be_value_range input Hok) as Hr. unfold blen in Hr.
    replace (Z.of_nat (8 * length input)) with (8 * Z.of_nat (length input)) by lia.
    rewrite Z.pow_mul_r by lia. apply Hr.
  - exists ds. rewrite be_value_skip in Hv. split_and!; [|done..].
    rewrite swap_loop_rev, app_nil_l, rev_app_distr, map_app, map_rev. do 2 f_equal.
    generalize (skip_zeros input). induction n as [|n IH]; [done|].
    simpl. rewrite IH. clear. induction n as [|n IH]; simpl; [done | by f_equal].
Qed.

(** [base62_encode] terminates on every payload, and what it writes is the
    base-62 numeral of the payload read as a big-endian number, most
    significant digit first and without a leading zero digit, preceded by one
    '0' for every leading zero byte. *)
Theorem base62_encode_correct input :
  bytes_ok input ->
  exists ds, base62_encode true (8 * length input) input
             = Some (repeat zero_char (skip_zeros input) ++ map char_of (rev ds)) /\
    Forall digit_ok ds /\ le62 ds = be_value input /\ head_nz (rev ds).
Proof.
  intros Hok. destruct (base62_encode_digits input Hok) as (ds & E & Hds & Hv & Hl).
  exists ds. split_and!; [|done..]. rewrite E, map_app. do 2 f_equal.
  generalize (skip_zeros input). induction n as [|n IH]; [done|]. simpl. by f_equal.
Qed.

(** ** Injectivity *)

Lemma alphabet_inj_table :
  forallb (fun i => forallb (fun j => (i =? j)%nat || negb (nth i alphabet 0 =? nth j alphabet 0))
                      (seq 0 62)) (seq 0 62) = true.
Proof. vm_compute. reflexivity. Qed.

Lemma char_of_inj d d' : digit_ok d -> digit_ok d' -> char_of d = char_of d' -> d = d'.
Proof.
  unfold digit_ok, char_of. intros Hd Hd' E.
  pose proof alphabet_inj_table as H. rewrite forallb_forall in H.
  specialize (H (Z.to_nat d) ltac:(apply in_seq; lia)). cbv beta in H.
  rewrite forallb_forall in H. specialize (H (Z.to_nat d') ltac:(apply in_seq; lia)).
  cbv beta in H. apply orb_true_iff in H as [H|H].
  - apply Nat.eqb_eq in H. lia.
  - bool_hyps. done.
Qed.

Lemma map_char_inj l l' :
  Forall digit_ok l -> Forall digit_ok l' -> map char_of l = map char_of l' -> l = l'.
Proof.
  intros Hl; induction Hl as [|d l Hd Hl IH] in l' |- *; intros Hl' E.
  - by destruct l'.
  - destruct Hl' as [|d' l' Hd' Hl']; [done|]. simpl in E. injection E as E1 E2.
    f_equal; [by apply char_of_inj | by apply IH].
Qed.

Lemma skip_zeros_app n l : head_nz l -> skip_zeros (repeat 0 n ++ l) = n.
Proof. intros H. induction n as [|n IH]; simpl; [destruct l; simpl in *; [done|]|by rewrite IH].
  destruct (Z.eqb_spec z 0); done. Qed.

(** A big-endian byte string without leading zeros is determined by its value. *)
Lemma be_value_inj_len l l' :
  bytes_ok l -> bytes_ok l' -> length l = length l' -> be_value l = be_value l' -> l = l'.
Proof.
  intros Hl; induction Hl as [|b l Hb Hl IH] in l' |- *; intros Hl' Hlen E.
  - by destruct l'.
  - destruct Hl' as [|b' l' Hb' Hl']; [done|]. simpl in Hlen.
    rewrite !be_value_cons in E.
    assert (blen l = blen l') as Hbl by (unfold blen; lia). rewrite Hbl in E.
    pose proof (be_value_range l Hl) as H1. pose proof (be_value_range l' Hl') as H2.
    rewrite Hbl in H1. pose proof (Z.pow_pos_nonneg 256 (blen l')). pose proof (blen_nonneg l').
    assert (b = b') as -> by nia. f_equal. apply IH; [done | lia | lia].
Qed.

Lemma be_value_inj l l' :
  bytes_ok l -> bytes_ok l' -> head_nz l -> head_nz l' -> be_value l = be_value l' -> l = l'.
Proof.
  assert (forall l l', bytes_ok l -> bytes_ok l' -> head_nz l' ->
            be_value l = be_value l' -> (length l' <= length l)%nat) as Hle.
  { intros k k' Hk Hk' Hh E. destruct (decide (k' = [])) as [->|Hn]; [simpl; lia|].
    pose proof (be_value_head_nz k' Hk' Hh Hn) as H1. pose proof (be_value_range k Hk) as H2.
    destruct (Nat.le_gt_cases (length k') (length k)) as [|Hlt]; [done|exfalso].
    assert (256 ^ blen k <= 256 ^ (blen k' - 1)); [|lia].
    apply Z.pow_le_mono_r; unfold blen; lia. }
  intros Hl Hl' Hh Hh' E. apply be_value_inj_len; [done..| |done].
  apply Nat.le_antisymm; eauto using eq_sym.
Qed.

(** [base62_encode] loses nothing: two payloads with the same encoding are
    the same payload. *)
Lemma base62_encode_inj a b :
  bytes_ok a -> bytes_ok b ->
  base62_encode true (8 * length a) a = base62_encode true (8 * length b) b -> a = b.
Proof.
  intros Ha Hb E.
  destruct (base62_encode_digits a Ha) as (da & Ea & Hda & Hva & Hla).
  destruct (base62_encode_digits b Hb) as (db & Eb & Hdb & Hvb & Hlb).
  assert (forall z ds, Forall digit_ok ds -> Forall digit_ok (repeat 0 z ++ rev ds)) as Hdig.
  { intros z ds H. apply Forall_app. split; [|by apply Forall_rev].
    apply Forall_forall. intros d Hd. apply list_elem_of_In, repeat_spec in Hd as ->.
    unfold digit_ok. lia. }
  rewrite Ea, Eb in E. injection E as E. apply map_char_inj in E; [|by apply Hdig..].
  assert (skip_zeros a = skip_zeros b) as Hz.
  { apply (f_equal skip_zeros) in E. by rewrite !skip_zeros_app in E. }
  rewrite Hz in E. apply app_inv_head in E. apply (f_equal (@rev Z)) in E.
  rewrite !rev_involutive in E. subst db.
  destruct (skip_zeros_split a) as [Sa _], (skip_zeros_split b) as [Sb _].
  rewrite Sa, Sb, Hz. f_equal. rewrite <- Hz at 1.
  apply be_value_inj; [by apply Forall_drop | by apply Forall_drop | apply skip_zeros_head.. |].
  rewrite !be_value_skip. congruence.
Qed.

Lemma base62_encode_inj_witness :
  base62_encode true 16 [0; 1] = base62_encode true 16 [0; 1] -> [0; 1] = [0; 1].
Proof.
  apply (base62_encode_inj [0; 1] [0; 1]); repeat constructor; unfold byte_ok; lia.
Defined.

Lemma base62_encode_correct_witness :
  exists ds, base62_encode true 24 [0; 255; 255]
             = Some (repeat zero_char (skip_zeros [0; 255; 255]) ++ map char_of (rev ds)) /\
    Forall digit_ok ds /\ le62 ds = be_value [0; 255; 255] /\ head_nz (rev ds).
Proof.
  apply (base62_encode_correct [0; 255; 255]). repeat constructor; unfold byte_ok; lia.
Defined.

(** ** Size of the output buffer *)

Lemma le62_lower ds : Forall digit_ok ds -> no_lead ds -> ds <> [] ->
  62 ^ (blen ds - 1) <= le62 ds.
Proof.
  intros Hds; induction Hds as [|d ds Hd Hds IH]; [done|]. intros Hl _.
  rewrite blen_cons. cbn [le62]. unfold digit_ok in Hd.
  destruct (decide (ds = [])) as [->|Hn].
  - cbn in Hl. change (62 ^ (1 + blen [] - 1)) with 1. cbn. lia.
  - assert (no_lead ds) as Hl'.
    { unfold no_lead in *. simpl in Hl. destruct (rev ds) eqn:E; [done | exact Hl]. }
    specialize (IH Hl' Hn). assert (1 <= blen ds) by (unfold blen; destruct ds; simpl; [done|lia]).
    replace (1 + blen ds - 1) with (1 + (blen ds - 1)) by lia.
    rewrite Z.pow_add_r by lia. lia.
Qed.

Lemma le62_upper ds : Forall digit_ok ds -> 0 <= le62 ds < 62 ^ blen ds.
Proof.
  induction 1 as [|d ds Hd Hds IH]; [split; vm_compute; congruence|].
  rewrite blen_cons, Z.pow_add_r by (try lia; apply blen_nonneg). cbn [le62].
  unfold digit_ok in Hd. lia.
Qed.

(** 100 bytes need at most 135 digits. *)
Lemma digits_le n d : 0 <= n -> 0 <= d -> 62 ^ d < 256 ^ n -> 100 * d < 135 * n.
Proof.
  intros Hn Hd H. apply Z.nle_gt. intros Hc.
  assert (62 ^ (135 * n) <= 62 ^ (100 * d)) as H1 by (apply Z.pow_le_mono_r; lia).
  assert (62 ^ (100 * d) < 256 ^ (100 * n)) as H2.
  { rewrite (Z.mul_comm 100 d), (Z.mul_comm 100 n), !Z.pow_mul_r by lia.
    apply Z.pow_lt_mono_l; [lia|]. split; [apply Z.pow_nonneg; lia | done]. }
  assert (256 ^ (100 * n) <= 62 ^ (135 * n)) as H3.
  { rewrite !Z.pow_mul_r by lia. apply Z.pow_le_mono_l. split; [lia|]. vm_compute. congruence. }
  lia.
Qed.

(** The length of the encoding is between the payload's and 1.35 times it. *)
Lemma base62_length input out :
  bytes_ok input -> base62_encode true (8 * length input) input = Some out ->
  blen input <= blen out /\ 100 * (blen out - 1) <= 135 * blen input.
Proof.
  intros Hok E. destruct (base62_encode_digits input Hok) as (ds & E' & Hds & Hv & Hl).
  rewrite E' in E. injection E as <-.
  destruct (skip_zeros_split input) as [Hs Hsl]. set (z := skip_zeros input) in *.
  assert (blen (map char_of (repeat 0 z ++ rev ds)) = Z.of_nat z + blen ds) as ->.
  { unfold blen. rewrite length_map, length_app, repeat_length, length_rev. lia. }
  assert (blen input = Z.of_nat z + blen (drop z input)) as Hbi.
  { unfold blen. rewrite length_drop. lia. }
  assert (bytes_ok (drop z input)) as Hokd by by apply Forall_drop.
  assert (be_value (drop z input) = le62 ds) as Hvd by (unfold z; by rewrite be_value_skip).
  pose proof (be_value_range _ Hokd) as Hr. rewrite Hvd in Hr.
  rewrite Hbi. pose proof (blen_nonneg ds). pose proof (blen_nonneg (drop z input)).
  split.
  - destruct (decide (drop z input = [])) as [->|Hn]; [rewrite blen_nil; lia|].
    pose proof (be_value_head_nz _ Hokd (skip_zeros_head input) Hn) as Hlow.
    rewrite Hvd in Hlow. pose proof (le62_upper ds Hds) as Hu.
    assert (~ blen ds <= blen (drop z input) - 1) as Hnot; [|lia]. intros Hle.
    assert (62 ^ blen ds <= 256 ^ (blen (drop z input) - 1)); [|lia].
    etransitivity; [apply Z.pow_le_mono_r; [lia | exact Hle]|].
    apply Z.pow_le_mono_l. lia.
  - destruct (decide (ds = [])) as [->|Hn]; [rewrite blen_nil; lia|].
    pose proof (le62_lower ds Hds Hl Hn).
    assert (1 <= blen ds) by (unfold blen; destruct ds; simpl; [done|lia]).
    pose proof (digits_le (blen (drop z input)) (blen ds - 1) ltac:(lia) ltac:(lia) ltac:(lia)). lia.
Qed.

(** For payloads whose length times 135 fits in 32 bits, the buffer of
    [BASE62_ENCODE_OUT_SIZE] bytes holds the encoding and its NUL. *)
Theorem base62_buffer_fits input out :
  bytes_ok input -> blen input * 135 < 4294967296 ->
  base62_encode true (8 * length input) input = Some out ->
  blen out + 1 <= BASE62_ENCODE_OUT_SIZE (blen input).
Proof.
  intros Hok Hlen E. destruct (base62_length input out Hok E) as [_ Hu].
  unfold BASE62_ENCODE_OUT_SIZE. pose proof (blen_nonneg input).
  rewrite (u32_small (_ * _)) by lia.
  pose proof (Z.div_mod (blen input * 135) 100 ltac:(lia)).
  pose proof (Z.mod_pos_bound (blen input * 135) 100 ltac:(lia)).
  rewrite u32_small; lia.
Qed.

(** Beyond that the multiplication wraps: a payload of 31,814,573 bytes,
    below the MQTT limit, gets a 4-byte buffer although its encoding is at
    least as long as the payload. *)
Theorem base62_buffer_overflow input out :
  bytes_ok input -> blen input = 31814573 ->
  base62_encode true (8 * length input) input = Some out ->
  BASE62_ENCODE_OUT_SIZE (blen input) = 4 /\ blen input <= blen out.
Proof.
  intros Hok Hlen E. destruct (base62_length input out Hok E) as [Hl _].
  split; [rewrite Hlen; reflexivity | done].
Qed.

Lemma base62_buffer_fits_witness :
  exists out, base62_encode true 16 [1; 2] = Some out /\
    blen out + 1 <= BASE62_ENCODE_OUT_SIZE (blen [1; 2]).
Proof.
  eexists. split; [reflexivity|].
  apply (base62_buffer_fits [1; 2]);
    [repeat constructor; unfold byte_ok; lia | vm_compute; reflexivity | reflexivity].
Defined.

Lemma base62_buffer_overflow_witness :
  let input := repeat 0 (Z.to_nat 31814573) in
  exists out, base62_encode true (8 * length input) input = Some out /\
    BASE62_ENCODE_OUT_SIZE (blen input) = 4 /\ blen input <= blen out.
Proof.
  intros input.
  assert (bytes_ok input) as Hok.
  { apply Forall_forall. intros x Hx. apply list_elem_of_In, repeat_spec in Hx as ->.
    unfold byte_ok. lia. }
  destruct (base62_encode_digits input Hok) as (ds & E & _).
  eexists. split; [exact E|].
  apply (base62_buffer_overflow input _ Hok); [|exact E].
  unfold blen, input. rewrite repeat_length. apply Z2Nat.id. lia.
Defined.

End Base62.

Module Base64NoPadding.
Import Base62.

(** BASE64_NO_PADDING_ENCODE_OUT_SIZE(s), on a [uint32_t] length *)
Definition BASE64_NO_PADDING_ENCODE_OUT_SIZE (s : Z) : Z := u32 (u32 (s * 8) / 6 + 2).

Definition base62en : bytes :=
  c!"ABCDEFGHIJKLMNOPQRSTUVWXYZabcdefghijklmnopqrstuvwxyz0123456789+/".

(** The character [set_char] stores for [c]: 'i' is kept, '+' becomes 'A' and
    '/' becomes 'B'. *)
Definition set_char (out : bytes) (c : Z) : bytes :=
  if c =? 105 then out ++ [105]
  else if c =? 43 then out ++ [65]
  else if c =? 47 then out ++ [66]
  else out ++ [c].

(** while (pos > 5) *)
Fixpoint emit_loop (fuel : nat) (val pos : Z) (out : bytes) : option (Z * Z * bytes) :=
  if 5 <? pos then
    match fuel with
    | O => None
    | S fuel' =>
        let pos := pos - 6 in
        let c := nth (Z.to_nat (Z.shiftr val pos)) base62en 0 in
        let out := set_char out c in
        emit_loop fuel' (Z.land val (Z.shiftl 1 pos - 1)) pos out
    end
  else Some (val, pos, out).

(** for (i = 0; i < inlen; i++); the inner loop turns at most twice *)
Fixpoint byte_loop (input : bytes) (val pos : Z) (out : bytes) : option (Z * Z * bytes) :=
  match input with
  | [] => Some (val, pos, out)
  | b :: input' =>
      let val := u32 (Z.lor (Z.shiftl val 8) (Z.land b 0xFF)) in
      let pos := pos + 8 in
      match emit_loop 2 val pos out with
      | None => None
      | Some (val, pos, out) => byte_loop input' val pos out
      end
  end.

Definition base64_no_padding_encode (input : bytes) : option bytes :=
  match byte_loop input 0 0 [] with
  | None => None
  | Some (val, pos, out) =>
      if 0 <? pos then Some (set_char out (nth (Z.to_nat (Z.shiftl val (6 - pos))) base62en 0))
      else Some out
  end.

(** ** Specification: base-64 digits, most significant first *)

Fixpoint digits64 (k : nat) (v : Z) : list Z :=
  match k with
  | O => []
  | S k' => digits64 k' (v / 64) ++ [v mod 64]
  end.

(** The character of a digit after the substitution. *)
Definition subst_char (d : Z) : Z := nth 0 (set_char [] (nth (Z.to_nat d) base62en 0)) 0.

Lemma set_char_app out c : set_char out c = out ++ set_char [] c.
Proof. unfold set_char. repeat case_test; done. Qed.

Lemma set_char_digit out d :
  set_char out (nth (Z.to_nat d) base62en 0) = out ++ [subst_char d].
Proof.
  rewrite set_char_app. f_equal. unfold subst_char.
  generalize (nth (Z.to_nat d) base62en 0). intros c. unfold set_char.
  repeat case_test; done.
Qed.

Lemma digits64_snoc k h c :
  0 <= c < 64 -> digits64 (S k) (h * 64 + c) = digits64 k h ++ [c].
Proof.
  intros Hc. cbn [digits64]. rewrite Z.div_add_l, (Z.div_small c) by lia.
  rewrite Z.add_0_r. f_equal. f_equal.
  rewrite Z.add_comm, Z.mod_add by lia. apply Z.mod_small. lia.
Qed.

(** [k] digits of the value read so far are out, [pos] bits are pending. *)
Definition pending (v : Z) (k : nat) (val pos : Z) (out : bytes) : Prop :=
  0 <= val < 2 ^ pos /\ exists h, v = h * 2 ^ pos + val /\ out = map subst_char (digits64 k h).

Lemma emit_loop_spec fuel v k val pos out :
  pending v k val pos out -> 0 <= pos <= 5 + 6 * Z.of_nat fuel ->
  exists k' val' pos' out', emit_loop fuel val pos out = Some (val', pos', out') /\
    pending v k' val' pos' out' /\ 0 <= pos' <= 5 /\
    6 * Z.of_nat k' + pos' = 6 * Z.of_nat k + pos.
Proof.
  induction fuel as [|fuel IH] in k, val, pos, out |- *; intros Hp Hpos;
    cbn [emit_loop]; destruct (Z.ltb_spec 5 pos);
    try (exists k, val, pos, out; split_and!; [done | done | lia | lia | done]); try lia.
  destruct Hp as [Hv (h & Hh & ->)].
  rewrite Z.shiftr_div_pow2, Z.shiftl_mul_pow2, Z.mul_1_l by lia.
  replace (2 ^ (pos - 6) - 1) with (Z.ones (pos - 6)) by (rewrite Z.ones_equiv; lia).
  rewrite Z.land_ones by lia.
  set (p := pos - 6). assert (2 ^ pos = 64 * 2 ^ p) as E64.
  { unfold p. change 64 with (2 ^ 6). rewrite <- Z.pow_add_r by lia. f_equal. lia. }
  assert (0 < 2 ^ p) by (apply Z.pow_pos_nonneg; unfold p; lia).
  pose proof (Z.div_mod val (2 ^ p) ltac:(lia)) as Hdm.
  pose proof (Z.mod_pos_bound val (2 ^ p) ltac:(lia)) as Hm.
  assert (0 <= val / 2 ^ p < 64) as Hc.
  { split; [apply Z.div_pos; lia | apply Z.div_lt_upper_bound; lia]. }
  rewrite set_char_digit.
  destruct (IH (S k) (val mod 2 ^ p) p (map subst_char (digits64 k h) ++ [subst_char (val / 2 ^ p)]))
    as (k' & val' & pos' & out' & E & Hpend & Hp' & Hk).
  - split; [done|]. exists (h * 64 + val / 2 ^ p). split; [nia|].
    rewrite digits64_snoc, map_app by done. done.
  - unfold p. lia.
  - exists k', val', pos', out'. split_and!; [done | done | lia | lia | unfold p in Hk; lia].
Qed.

Lemma byte_loop_spec input v k val pos out :
  bytes_ok input -> pending v k val pos out -> 0 <= pos <= 5 ->
  exists k' val' pos' out', byte_loop input val pos out = Some (val', pos', out') /\
    pending (v * 256 ^ blen input + be_value input) k' val' pos' out' /\ 0 <= pos' <= 5 /\
    6 * Z.of_nat k' + pos' = 6 * Z.of_nat k + pos + 8 * blen input.
Proof.
  intros Hok; induction Hok as [|b input Hb Hok IH] in v, k, val, pos, out |- *;
    intros Hp Hpos; cbn [byte_loop].
  { exists k, val, pos, out. rewrite blen_nil, Z.pow_0_r, Z.mul_1_r, Z.add_0_r.
    split_and!; [done | done | lia | lia | lia]. }
  destruct Hp as [Hv (h & Hh & Hout)].
  assert (2 ^ pos <= 2 ^ 5) by (apply Z.pow_le_mono_r; lia).
  change (Z.land b 255) with (Z.land b (Z.ones 8)). rewrite Z.land_ones by lia.
  unfold byte_ok in Hb. change (2 ^ 8) with 256. rewrite (Z.mod_small b 256) by done.
  rewrite lor_shiftl_add, u32_small by (unfold byte_ok; lia).
  assert (2 ^ (pos + 8) = 2 ^ pos * 256) as E8 by (rewrite Z.pow_add_r by lia; done).
  destruct (emit_loop_spec 2 (v * 256 + b) k (val * 256 + b) (pos + 8) out)
    as (k1 & val1 & pos1 & out1 & -> & Hp1 & Hpos1 & Hk1); [|lia|].
  { split; [nia|]. exists h. split; [nia | done]. }
  destruct (IH _ _ _ _ _ Hp1 ltac:(lia)) as (k' & val' & pos' & out' & -> & Hp' & Hpos' & Hk').
  exists k', val', pos', out'. rewrite be_value_cons, blen_cons.
  split_and!; [done | | lia | lia | lia].
  replace (v * 256 ^ (1 + blen input) + (b * 256 ^ blen input + be_value input))
    with ((v * 256 + b) * 256 ^ blen input + be_value input); [done|].
  rewrite Z.pow_add_r by (try lia; apply blen_nonneg). ring.
Qed.

(** [base64_no_padding_encode] always returns, and its output is, digit by
    digit, the base-64 numeral of the payload's bits padded on the right with
    zeros to a multiple of six, each digit through the substituted alphabet;
    its length is the payload's bit length over six, rounded up. *)
Theorem base64_no_padding_correct input :
  bytes_ok input ->
  exists k pad, base64_no_padding_encode input
      = Some (map subst_char (digits64 k (be_value input * 2 ^ pad))) /\
    0 <= pad <= 5 /\ 6 * Z.of_nat k = 8 * blen input + pad.
Proof.
  intros Hok. unfold base64_no_padding_encode.
  destruct (byte_loop_spec input 0 0 0 0 []) as (k & val & pos & out & -> & Hp & Hpos & Hk);
    [done | split; [lia | exists 0; done] | lia |].
  rewrite Z.mul_0_l, Z.add_0_l in Hp. destruct Hp as [Hv (h & Hh & ->)].
  destruct (Z.ltb_spec 0 pos).
  - exists (S k), (6 - pos). rewrite set_char_digit, Z.shiftl_mul_pow2 by lia.
    assert (2 ^ pos * 2 ^ (6 - pos) = 64) as E.
    { rewrite <- Z.pow_add_r by lia. replace (pos + (6 - pos)) with 6 by lia. done. }
    assert (0 < 2 ^ (6 - pos)) by (apply Z.pow_pos_nonneg; lia).
    split_and!; [|lia..]. rewrite Hh.
    rewrite Z.mul_add_distr_r, <- Z.mul_assoc, E.
    rewrite digits64_snoc, map_app by nia. done.
  - exists k, 0. replace pos with 0 in * by lia. split_and!; [|lia..].
    rewrite Hh, !Z.pow_0_r in *. do 3 f_equal. lia.
Qed.

Lemma base64_no_padding_correct_witness :
  exists k pad, base64_no_padding_encode [104; 105]
      = Some (map subst_char (digits64 k (be_value [104; 105] * 2 ^ pad))) /\
    0 <= pad <= 5 /\ 6 * Z.of_nat k = 8 * blen [104; 105] + pad.
Proof.
  apply (base64_no_padding_correct [104; 105]). repeat constructor; unfold byte_ok; lia.
Defined.

(** The substitution of '+' by 'A' and '/' by 'B' makes the encoding
    ambiguous: distinct payloads of the same length have the same encoding, so
    no decoder can restore the payload. *)
Theorem base64_no_padding_ambiguous :
  exists a b, bytes_ok a /\ bytes_ok b /\ a <> b /\ length a = length b /\
    base64_no_padding_encode a = base64_no_padding_encode b /\
    is_Some (base64_no_padding_encode a).
Proof.
  exists [0xF8], [0]. split_and!; [repeat constructor; unfold byte_ok; lia.. | done | done | |].
  - vm_compute. reflexivity.
  - vm_compute. eauto.
Qed.

End Base64NoPadding.
