(* ===== verification/NngApi.v ===== *)
(** * What the broker uses of the NNG / NanoSDK libraries

    The library sources are a git submodule that is not part of the
    repository, so every library type, function and constant the handlers use
    is a field of a class here, and what the handlers rely on is a field of a
    separate class of laws.  Client theorems are proved against these classes;
    [NngModel] gives one instance, used by the witnesses. *)

From S2P Require Import Prelude.

(** ** Constants of the headers

    Reason codes, packet types, command types and protocol versions.  The
    handlers compare them and put them into packets. *)

Class MqttConst := {
  (* enum reason_code *)
  SUCCESS : Z;
  GRANTED_QOS_2 : Z;
  UNSPECIFIED_ERROR : Z;
  MALFORMED_PACKET : Z;
  PROTOCOL_ERROR : Z;
  NOT_AUTHORIZED : Z;
  BANNED : Z;
  NORMAL_DISCONNECTION : Z;
  TOPIC_FILTER_INVALID : Z;
  TOPIC_ALIAS_INVALID : Z;
  PACKET_IDENTIFIER_IN_USE : Z;
  PAYLOAD_FORMAT_INVALID : Z;
  NMQ_AUTH_SUB_ERROR : Z;
  NNG_ENOMEM : Z;
  (* enum mqtt_control_packet_types *)
  PUBLISH : Z;
  PUBACK : Z;
  PUBREC : Z;
  PUBREL : Z;
  PUBCOMP : Z;
  (* command types of an nng_msg, the first byte of a packet *)
  CMD_CONNACK : Z;
  CMD_PUBLISH : Z;
  CMD_PUBLISH_V5 : Z;
  CMD_PUBACK : Z;
  CMD_PUBREC : Z;
  CMD_PUBREL : Z;
  CMD_PUBCOMP : Z;
  CMD_SUBSCRIBE : Z;
  CMD_SUBACK : Z;
  CMD_UNSUBSCRIBE : Z;
  CMD_UNSUBACK : Z;
  CMD_DISCONNECT_EV : Z;
  (* protocol versions *)
  MQTT_PROTOCOL_VERSION_v31 : Z;
  MQTT_PROTOCOL_VERSION_v311 : Z;
  MQTT_PROTOCOL_VERSION_v5 : Z
}.

(** Documented facts about the constants: [SUCCESS] is 0, the failure codes
    are not, and packet types, command types and versions are told apart. *)
Class MqttConstLaws `{MqttConst} : Prop := {
  SUCCESS_0 : SUCCESS = 0;
  failures_nonzero : Forall (fun c => c <> 0)
    [UNSPECIFIED_ERROR; MALFORMED_PACKET; PROTOCOL_ERROR; NOT_AUTHORIZED; BANNED;
     TOPIC_FILTER_INVALID; TOPIC_ALIAS_INVALID; NNG_ENOMEM];
  packet_types_distinct : NoDup [PUBLISH; PUBACK; PUBREC; PUBREL; PUBCOMP];
  packet_types_range : Forall (fun t => 0 <= t < 16) [PUBLISH; PUBACK; PUBREC; PUBREL; PUBCOMP];
  cmd_publish_distinct : CMD_PUBLISH <> CMD_PUBLISH_V5;
  cmd_types_distinct : NoDup [CMD_SUBSCRIBE; CMD_UNSUBSCRIBE; CMD_PUBLISH; CMD_CONNACK;
                              CMD_DISCONNECT_EV];
  versions_distinct : NoDup [MQTT_PROTOCOL_VERSION_v31; MQTT_PROTOCOL_VERSION_v311;
                             MQTT_PROTOCOL_VERSION_v5];
  sub_error_not_granted : NMQ_AUTH_SUB_ERROR <> GRANTED_QOS_2
}.

(** ** Messages, properties and connection parameters *)

Class NngMsg := {
  nng_msg : Type;
  property : Type;
  conn_param : Type;
  (* byte sequences of a message; [nng_msg_len] is the length of the body *)
  nng_msg_header : nng_msg -> bytes;
  nng_msg_body : nng_msg -> bytes;
  nng_msg_header_clear : nng_msg -> nng_msg;
  nng_msg_clear : nng_msg -> nng_msg;
  (* status and message; a status other than 0 is an allocation failure *)
  nng_msg_append : nng_msg -> bytes -> Z * nng_msg;
  nng_msg_header_append : nng_msg -> bytes -> Z * nng_msg;
  nng_msg_append_u16 : nng_msg -> Z -> Z * nng_msg;
  (* the command type *)
  nng_msg_cmd_type : nng_msg -> Z;
  nng_msg_set_cmd_type : nng_msg -> Z -> nng_msg;
  (* the payload pointer: the bytes from it to the end of the body *)
  nng_msg_payload_ptr : nng_msg -> option bytes;
  nng_msg_set_payload_ptr : nng_msg -> Z -> nng_msg;
  (* properties *)
  decode_properties : nng_msg -> Z -> option property * Z * Z;
  check_properties : option property -> nng_msg -> Z;
  encode_properties : nng_msg -> option property -> Z -> Z * nng_msg;
  property_topic_alias : option property -> option Z;
  nng_mqttv5_msg_decode : nng_msg -> nng_msg;
  (* connection parameters *)
  conn_param_get_clientid : conn_param -> option bytes;
  conn_param_get_username : conn_param -> option bytes;
  conn_param_get_password : conn_param -> option bytes;
  conn_param_get_ip_addr_v4 : conn_param -> option bytes
}.

Class NngMsgLaws `{NngMsg} : Prop := {
  append_body m b : fst (nng_msg_append m b) = 0 ->
    nng_msg_body (snd (nng_msg_append m b)) = nng_msg_body m ++ b;
  append_header m b :
    nng_msg_header (snd (nng_msg_append m b)) = nng_msg_header m;
  header_append_header m b : fst (nng_msg_header_append m b) = 0 ->
    nng_msg_header (snd (nng_msg_header_append m b)) = nng_msg_header m ++ b;
  header_append_body m b :
    nng_msg_body (snd (nng_msg_header_append m b)) = nng_msg_body m;
  append_u16_body m v : 0 <= v < 65536 -> fst (nng_msg_append_u16 m v) = 0 ->
    nng_msg_body (snd (nng_msg_append_u16 m v)) = nng_msg_body m ++ [v / 256; v mod 256];
  append_u16_header m v :
    nng_msg_header (snd (nng_msg_append_u16 m v)) = nng_msg_header m;
  clear_body m : nng_msg_body (nng_msg_clear m) = [];
  clear_header m : nng_msg_header (nng_msg_clear m) = nng_msg_header m;
  header_clear_header m : nng_msg_header (nng_msg_header_clear m) = [];
  header_clear_body m : nng_msg_body (nng_msg_header_clear m) = nng_msg_body m;
  set_cmd_body m c : nng_msg_body (nng_msg_set_cmd_type m c) = nng_msg_body m;
  set_cmd_header m c : nng_msg_header (nng_msg_set_cmd_type m c) = nng_msg_header m;
  set_cmd_cmd m c : nng_msg_cmd_type (nng_msg_set_cmd_type m c) = c;
  clear_cmd m : nng_msg_cmd_type (nng_msg_clear m) = nng_msg_cmd_type m;
  header_clear_cmd m : nng_msg_cmd_type (nng_msg_header_clear m) = nng_msg_cmd_type m;
  v5_decode_body m : nng_msg_body (nng_mqttv5_msg_decode m) = nng_msg_body m;
  v5_decode_header m : nng_msg_header (nng_mqttv5_msg_decode m) = nng_msg_header m;
  append_u16_cmd m v : nng_msg_cmd_type (snd (nng_msg_append_u16 m v)) = nng_msg_cmd_type m;
  header_append_cmd m b : nng_msg_cmd_type (snd (nng_msg_header_append m b)) = nng_msg_cmd_type m;
  (* the position only moves forward *)
  decode_properties_pos m pos : 0 <= pos -> pos <= snd (fst (decode_properties m pos))
}.

(** Making a message to keep: [nng_msg_alloc(&m, 0)], the metadata of the
    protocol layer and its decoder, which fails on a malformed packet. *)
Class NngMsgNew `{NngMsg} := {
  new_msg : nng_msg;
  nng_mqtt_msg_proto_data_alloc : nng_msg -> nng_msg;
  nng_msg_set_timestamp : nng_msg -> Z -> nng_msg;
  nng_mqtt_msg_decode : nng_msg -> Z * nng_msg;
  nng_msg_set_pipe : nng_msg -> Z -> nng_msg;
  nng_mqtt_msg_set_publish_proto_version : nng_msg -> Z -> nng_msg
}.

Class NngMsgNewLaws `{NngMsgNew} : Prop := {
  decode_body m : nng_msg_body (snd (nng_mqtt_msg_decode m)) = nng_msg_body m;
  decode_header m : nng_msg_header (snd (nng_mqtt_msg_decode m)) = nng_msg_header m;
  set_pipe_body m p : nng_msg_body (nng_msg_set_pipe m p) = nng_msg_body m;
  set_pipe_header m p : nng_msg_header (nng_msg_set_pipe m p) = nng_msg_header m;
  set_version_body m v :
    nng_msg_body (nng_mqtt_msg_set_publish_proto_version m v) = nng_msg_body m;
  set_version_header m v :
    nng_msg_header (nng_mqtt_msg_set_publish_proto_version m v) = nng_msg_header m
}.

(** The sqlite store of retained messages. *)
Class SqliteRetain `{NngMsg} := {
  sqlite_db : Type;
  nng_mqtt_qos_db_set_retain : sqlite_db -> bytes -> nng_msg -> Z -> sqlite_db;
  nng_mqtt_qos_db_remove_retain : sqlite_db -> bytes -> sqlite_db
}.

(** The property block: [encode_properties] appends its bytes, and
    [decode_properties] at that place reads the properties back. *)
Class PropertyLaws `{NngMsg} := {
  prop_bytes : option property -> bytes;
  prop_ok : option property -> Prop;
  encode_properties_ok m p c : prop_ok p -> fst (encode_properties m p c) = 0;
  encode_properties_body m p c : prop_ok p ->
    nng_msg_body (snd (encode_properties m p c)) = nng_msg_body m ++ prop_bytes p;
  encode_properties_header m p c :
    nng_msg_header (snd (encode_properties m p c)) = nng_msg_header m;
  decode_properties_spec m pre p rest : prop_ok p ->
    nng_msg_body m = pre ++ prop_bytes p ++ rest ->
    exists n, decode_properties m (blen pre) = (p, blen pre + blen (prop_bytes p), n);
  check_properties_ok m p : prop_ok p -> check_properties p m = 0
}.

(** Memory is available for every append. *)
Class NngMsgAlloc `{NngMsg} : Prop := {
  append_ok m b : fst (nng_msg_append m b) = 0;
  header_append_ok m b : fst (nng_msg_header_append m b) = 0;
  append_u16_ok m v : fst (nng_msg_append_u16 m v) = 0
}.

(** ** The byte-level codecs of mqtt_parser.h *)

Class MqttParser := {
  (* NNI_GET16 reads two bytes at the pointer, big-endian *)
  NNI_GET16 : bytes -> Z;
  (* put_var_integer(tmp, v): the bytes written *)
  put_var_integer : Z -> bytes;
  (* mqtt_get_remaining_length(header, len): the value and the bytes used *)
  mqtt_get_remaining_length : bytes -> Z * Z;
  (* copyn_utf8_str(src, &pos, &len, limit): the copy, the new pos, len *)
  copyn_utf8_str : bytes -> Z -> Z -> option bytes * Z * Z;
  (* get_utf8_str(&dest, src, &pos, limit): the string, the new pos, result *)
  get_utf8_str : bytes -> Z -> Z -> bytes * Z * Z;
  (* the option bits of a subscription, struct topic_node's first byte *)
  tn_qos : Z -> Z;
  tn_no_local : Z -> Z;
  tn_rap : Z -> Z;
  tn_retain_handling : Z -> Z;
  (* the strings the UTF-8 check accepts *)
  utf8_valid : bytes -> bool
}.

(** An MQTT string at the front of [src]: two length bytes, then the bytes. *)
Definition mqtt_str (s : bytes) : bytes := [blen s / 256; blen s mod 256] ++ s.

Class MqttParserLaws `{MqttParser} : Prop := {
  get16 a b l : byte_ok a -> byte_ok b -> NNI_GET16 (a :: b :: l) = a * 256 + b;
  (* a well-formed string within the limit is read *)
  copyn_complete pre s rest limit :
    s <> [] -> blen s < 65536 -> utf8_valid s = true -> 2 + blen s <= limit ->
    copyn_utf8_str (pre ++ mqtt_str s ++ rest) (blen pre) limit
    = (Some s, blen pre + 2 + blen s, blen s);
  (* and nothing else is *)
  copyn_sound src pos limit s pos' len :
    copyn_utf8_str src pos limit = (Some s, pos', len) ->
    s <> [] /\ len = blen s /\ len < 65536 /\ pos' = pos + 2 + len /\ 2 + len <= limit /\
    utf8_valid s = true /\
    exists rest, drop (Z.to_nat pos) src = mqtt_str s ++ rest;
  copyn_fail src pos limit pos' len :
    copyn_utf8_str src pos limit = (None, pos', len) ->
    len <= 0 /\ pos <= pos' <= pos + 2;
  getu_complete pre s rest limit :
    blen s < 65536 -> utf8_valid s = true -> blen pre + 2 + blen s <= limit ->
    get_utf8_str (pre ++ mqtt_str s ++ rest) (blen pre) limit
    = (s, blen pre + 2 + blen s, blen s);
  getu_sound src pos limit s pos' len :
    get_utf8_str src pos limit = (s, pos', len) -> len <> -1 ->
    len = blen s /\ pos' = pos + 2 + len /\ pos' <= limit /\
    exists rest, drop (Z.to_nat pos) src = mqtt_str s ++ rest;
  utf8_no_nul s : utf8_valid s = true -> (0 : Z) ∉ s;
  opt_qos b : byte_ok b -> tn_qos b = Z.land b 3;
  opt_no_local b : byte_ok b -> tn_no_local b = Z.land (Z.shiftr b 2) 1;
  opt_rap b : byte_ok b -> tn_rap b = Z.land (Z.shiftr b 3) 1;
  opt_rh b : byte_ok b -> tn_retain_handling b = Z.land (Z.shiftr b 4) 3;
  varint_remaining b v rest : 0 <= v < 268435456 -> byte_ok b ->
    mqtt_get_remaining_length (b :: put_var_integer v ++ rest)
    = (v, blen (put_var_integer v));
  varint_len v : 0 <= v < 268435456 -> 1 <= blen (put_var_integer v) <= 4
}.

(** Consequences the handlers' proofs share. *)

Section Consequences.

Context `{M : NngMsg} `{ML : !NngMsgLaws} `{MA : !NngMsgAlloc}.

Lemma append_step m b :
  exists m', nng_msg_append m b = (0, m') /\ nng_msg_header m' = nng_msg_header m /\
    nng_msg_body m' = nng_msg_body m ++ b.
Proof.
  exists (snd (nng_msg_append m b)). pose proof (append_ok m b) as E.
  rewrite append_header, append_body by done. split; [|done].
  by rewrite (surjective_pairing (nng_msg_append m b)), E.
Qed.

Lemma header_append_step m b :
  exists m', nng_msg_header_append m b = (0, m') /\ nng_msg_header m' = nng_msg_header m ++ b /\
    nng_msg_body m' = nng_msg_body m.
Proof.
  exists (snd (nng_msg_header_append m b)). pose proof (header_append_ok m b) as E.
  rewrite header_append_header, header_append_body by done. split; [|done].
  by rewrite (surjective_pairing (nng_msg_header_append m b)), E.
Qed.

Lemma cleared m : nng_msg_header (nng_msg_clear (nng_msg_header_clear m)) = [] /\
  nng_msg_body (nng_msg_clear (nng_msg_header_clear m)) = [].
Proof. by rewrite clear_header, header_clear_header, clear_body. Qed.

End Consequences.

Lemma get16_be `{MqttParserLaws} v rest :
  0 <= v < 65536 -> NNI_GET16 ([v / 256; v mod 256] ++ rest) = v.
Proof.
  intros Hv. cbn [app]. rewrite get16; [pose proof (Z.div_mod v 256); lia|..].
  - split; [apply Z.div_pos; lia | apply Z.div_lt_upper_bound; lia].
  - apply Z.mod_pos_bound. lia.
Qed.

(** ** Topic matching *)

Class TopicFilter := {
  topic_filter : bytes -> bytes -> bool   (* topic_filter(filter, topic) *)
}.

Fixpoint after_slash (s : bytes) : option bytes :=
  match s with
  | [] => None
  | c :: s' => if c =? 47 then Some s' else after_slash s'
  end.

(** The filter of a shared subscription "$share/<name>/<filter>". *)
Definition share_filter (f : bytes) : option bytes :=
  if bool_decide (take 7 f = c!"$share/") then after_slash (drop 7 f) else None.

(** ** The topic tree, the retained-message tree and the client table

    [dbtree] holds the subscriptions, [dbtree_ret] the retained messages, and
    [dbhash] is the process-wide table of subscriptions and topic aliases per
    client pipe. *)

Class NanoDb `{NngMsg} := {
  dbtree : Type;
  dbtree_ret : Type;
  dbhash : Type;
  dbtree_insert_client : dbtree -> bytes -> Z -> dbtree;
  dbtree_delete_client : dbtree -> bytes -> Z -> dbtree;
  dbtree_find_clients : dbtree -> bytes -> option (list Z);
  (* the choice among a share group may advance *)
  dbtree_find_shared_clients : dbtree -> bytes -> option (list Z) * dbtree;
  dbtree_insert_retain : dbtree_ret -> bytes -> nng_msg -> option nng_msg * dbtree_ret;
  dbtree_delete_retain : dbtree_ret -> bytes -> option nng_msg * dbtree_ret;
  dbtree_find_retain : dbtree_ret -> bytes -> option (list (option nng_msg));
  dbhash_check_topic : dbhash -> Z -> bytes -> bool;
  dbhash_insert_topic : dbhash -> Z -> bytes -> Z -> dbhash;
  dbhash_del_topic : dbhash -> Z -> bytes -> dbhash;
  dbhash_check_id : dbhash -> Z -> bool;
  (* the topics the callback is applied to, and the table without them *)
  dbhash_del_topic_queue : dbhash -> Z -> list bytes * dbhash;
  dbhash_insert_atpair : dbhash -> Z -> Z -> bytes -> dbhash;
  dbhash_find_atpair : dbhash -> Z -> Z -> option bytes;
  dbhash_del_atpair_queue : dbhash -> Z -> dbhash
}.

(** [subscribed t f p]: client [p] is registered under filter [f]. *)
Class NanoDbLaws `{NanoDb} `{TopicFilter} := {
  subscribed : dbtree -> bytes -> Z -> Prop;
  find_clients_spec t topic p :
    p ∈ default [] (dbtree_find_clients t topic) <->
    exists f, subscribed t f p /\ topic_filter f topic = true;
  insert_client_spec t f p f' p' :
    subscribed (dbtree_insert_client t f p) f' p' <-> (f' = f /\ p' = p) \/ subscribed t f' p';
  delete_client_spec t f p f' p' :
    subscribed (dbtree_delete_client t f p) f' p' <-> ~ (f' = f /\ p' = p) /\ subscribed t f' p';
  check_topic_insert h p f q p' f' :
    dbhash_check_topic (dbhash_insert_topic h p f q) p' f' = true <->
    (p' = p /\ f' = f) \/ dbhash_check_topic h p' f' = true;
  check_topic_del h p f p' f' :
    dbhash_check_topic (dbhash_del_topic h p f) p' f' = true <->
    ~ (p' = p /\ f' = f) /\ dbhash_check_topic h p' f' = true;
  del_queue_topics h p f :
    f ∈ fst (dbhash_del_topic_queue h p) <-> dbhash_check_topic h p f = true;
  del_queue_check h p p' f :
    dbhash_check_topic (snd (dbhash_del_topic_queue h p)) p' f = true <->
    p' <> p /\ dbhash_check_topic h p' f = true;
  atpair_insert h p a t p' a' :
    dbhash_find_atpair (dbhash_insert_atpair h p a t) p' a' =
    if decide (p' = p /\ a' = a) then Some t else dbhash_find_atpair h p' a';
  check_id_spec h p :
    dbhash_check_id h p = true <-> exists f, dbhash_check_topic h p f = true;
  del_atpair_check h p p' f :
    dbhash_check_topic (dbhash_del_atpair_queue h p) p' f = dbhash_check_topic h p' f;
  atpair_check h p a t p' f :
    dbhash_check_topic (dbhash_insert_atpair h p a t) p' f = dbhash_check_topic h p' f;
  (* a name without wildcards finds exactly the message kept under it *)
  insert_retain_find t topic m : (43 ∉ topic) -> (35 ∉ topic) ->
    dbtree_find_retain (snd (dbtree_insert_retain t topic m)) topic = Some [Some m];
  delete_retain_find t topic : (43 ∉ topic) -> (35 ∉ topic) ->
    dbtree_find_retain (snd (dbtree_delete_retain t topic)) topic = None;
  (* and the messages of other names stay *)
  insert_retain_other t topic m f : (43 ∉ f) -> (35 ∉ f) -> f <> topic ->
    dbtree_find_retain (snd (dbtree_insert_retain t topic m)) f = dbtree_find_retain t f;
  delete_retain_other t topic f : (43 ∉ f) -> (35 ∉ f) -> f <> topic ->
    dbtree_find_retain (snd (dbtree_delete_retain t topic)) f = dbtree_find_retain t f;
  find_shared_subscribed t topic f p :
    subscribed (snd (dbtree_find_shared_clients t topic)) f p <-> subscribed t f p;
  (* the clients found are members of share groups whose filter matches, and
     every such group has one of its members among them *)
  find_shared_member t topic p :
    p ∈ default [] (fst (dbtree_find_shared_clients t topic)) ->
    exists f g, subscribed t f p /\ share_filter f = Some g /\ topic_filter g topic = true;
  find_shared_group t topic f g p :
    subscribed t f p -> share_filter f = Some g -> topic_filter g topic = true ->
    exists p', subscribed t f p' /\ p' ∈ default [] (fst (dbtree_find_shared_clients t topic))
}.
