(* ===== verification/NngModel.v ===== *)
(** * An instance of the library interface

    A small executable implementation of the classes of [NngApi] that meets
    their laws; the witnesses evaluate the handlers on it.  It is not a model
    of the library's code. *)

From S2P Require Import Prelude NngApi.

Module Model.

#[export] Instance consts : MqttConst := {|
  SUCCESS := 0; GRANTED_QOS_2 := 2; UNSPECIFIED_ERROR := 0x80; MALFORMED_PACKET := 0x81;
  PROTOCOL_ERROR := 0x82; NOT_AUTHORIZED := 0x87; BANNED := 0x8A; NORMAL_DISCONNECTION := 0;
  TOPIC_FILTER_INVALID := 0x8F; TOPIC_ALIAS_INVALID := 0x94; PACKET_IDENTIFIER_IN_USE := 0x91;
  PAYLOAD_FORMAT_INVALID := 0x99; NMQ_AUTH_SUB_ERROR := 0x80; NNG_ENOMEM := 2;
  PUBLISH := 3; PUBACK := 4; PUBREC := 5; PUBREL := 6; PUBCOMP := 7;
  CMD_CONNACK := 0x20; CMD_PUBLISH := 0x30; CMD_PUBLISH_V5 := 0x31; CMD_PUBACK := 0x40;
  CMD_PUBREC := 0x50; CMD_PUBREL := 0x62; CMD_PUBCOMP := 0x70; CMD_SUBSCRIBE := 0x82;
  CMD_SUBACK := 0x90; CMD_UNSUBSCRIBE := 0xA2; CMD_UNSUBACK := 0xB0; CMD_DISCONNECT_EV := 0xE2;
  MQTT_PROTOCOL_VERSION_v31 := 3; MQTT_PROTOCOL_VERSION_v311 := 4; MQTT_PROTOCOL_VERSION_v5 := 5
|}.

#[export] Instance const_laws : MqttConstLaws.
Proof.
  constructor; try done.
  - repeat constructor; cbn; lia.
  - apply (bool_decide_unpack _). vm_compute. exact I.
  - repeat constructor; cbn; lia.
  - apply (bool_decide_unpack _). vm_compute. exact I.
  - apply (bool_decide_unpack _). vm_compute. exact I.
Qed.

Record msg := Msg { m_header : bytes; m_body : bytes; m_cmd : Z; m_payload : option Z }.

(** Properties: only a topic alias, as the bytes of the property block. *)
Record cparam := Cparam {
  cp_clientid : option bytes; cp_username : option bytes; cp_password : option bytes;
  cp_ip : option bytes
}.

Definition prop_bytes (p : option Z) : bytes :=
  match p with
  | None => [0]
  | Some a => [3; 35; a / 256; a mod 256]
  end.

Definition read_props (m : msg) (pos : Z) : option Z * Z * Z :=
  match drop (Z.to_nat pos) (m_body m) with
  | 3 :: 35 :: a :: b :: _ => (Some (a * 256 + b), pos + 4, 3)
  | _ => (None, pos + 1, 0)
  end.

#[export] Instance msgs : NngMsg := {|
  nng_msg := msg; property := Z; conn_param := cparam;
  nng_msg_header := m_header; nng_msg_body := m_body;
  nng_msg_header_clear m := Msg [] (m_body m) (m_cmd m) (m_payload m);
  nng_msg_clear m := Msg (m_header m) [] (m_cmd m) (m_payload m);
  nng_msg_append m b := (0, Msg (m_header m) (m_body m ++ b) (m_cmd m) (m_payload m));
  nng_msg_header_append m b := (0, Msg (m_header m ++ b) (m_body m) (m_cmd m) (m_payload m));
  nng_msg_append_u16 m v :=
    (0, Msg (m_header m) (m_body m ++ [v / 256; v mod 256]) (m_cmd m) (m_payload m));
  nng_msg_cmd_type := m_cmd;
  nng_msg_set_cmd_type m c := Msg (m_header m) (m_body m) c (m_payload m);
  nng_msg_payload_ptr m := (fun off => drop (Z.to_nat off) (m_body m)) <$> m_payload m;
  nng_msg_set_payload_ptr m off := Msg (m_header m) (m_body m) (m_cmd m) (Some off);
  decode_properties := read_props;
  check_properties _ _ := 0;
  encode_properties m p _ :=
    (0, Msg (m_header m) (m_body m ++ prop_bytes p) (m_cmd m) (m_payload m));
  property_topic_alias p := p;
  nng_mqttv5_msg_decode m := m;
  conn_param_get_clientid := cp_clientid; conn_param_get_username := cp_username;
  conn_param_get_password := cp_password; conn_param_get_ip_addr_v4 := cp_ip
|}.

#[export] Instance msg_laws : NngMsgLaws.
Proof.
  constructor; try done. intros m pos Hpos. cbn. unfold read_props.
  repeat case_match; cbn; lia.
Qed.

#[export] Instance msg_alloc : NngMsgAlloc.
Proof. constructor; done. Qed.

#[export] Instance property_laws : PropertyLaws.
Proof.
  refine {| NngApi.prop_bytes := (prop_bytes : option property -> bytes);
            prop_ok := fun p : option property => match p with None => True | Some a => 0 <= a < 65536 end |}.
  - done.
  - done.
  - done.
  - intros m pre p rest Hp Hb. cbn in *. unfold read_props. rewrite Hb.
    replace (Z.to_nat (blen pre)) with (length pre) by (unfold blen; lia).
    rewrite drop_app_length. destruct p as [a|]; cbn; eexists.
    + do 3 f_equal. pose proof (Z.div_mod a 256 ltac:(lia)). lia.
    + done.
  - done.
Defined.

(** ** Byte codecs *)

Definition get16 (l : bytes) : Z :=
  match l with a :: b :: _ => a * 256 + b | _ => 0 end.

Fixpoint put_varint (n : nat) (v : Z) : bytes :=
  match n with
  | O => []
  | S n' => if v <? 128 then [v] else v mod 128 + 128 :: put_varint n' (v / 128)
  end.

Fixpoint get_varint (n : nat) (l : bytes) : Z * Z :=
  match n, l with
  | S n', b :: l' =>
      if b <? 128 then (b, 1)
      else let '(v, k) := get_varint n' l' in (b - 128 + 128 * v, k + 1)
  | _, _ => (0, 5)
  end.

Definition ascii_valid (s : bytes) : bool := forallb (fun b => (1 <=? b) && (b <? 128)) s.

Definition copyn (src : bytes) (pos limit : Z) : option bytes * Z * Z :=
  let l := drop (Z.to_nat pos) src in
  if (limit <? 2) || (length l <? 2)%nat then (None, pos, 0)
  else
    let n := get16 l in
    let s := take (Z.to_nat n) (drop 2 l) in
    if (0 <? n) && (n <? 65536) && (2 + n <=? limit) && (blen s =? n) && ascii_valid s &&
       bool_decide (take 2 l = [n / 256; n mod 256])
    then (Some s, pos + 2 + n, n)
    else (None, pos + 2, if n =? 0 then 0 else -1).

Definition getu (src : bytes) (pos limit : Z) : bytes * Z * Z :=
  let l := drop (Z.to_nat pos) src in
  let n := get16 l in
  let s := take (Z.to_nat n) (drop 2 l) in
  if (2 <=? blen l) && (0 <=? n) && (pos + 2 + n <=? limit) && (blen s =? n) && ascii_valid s &&
     bool_decide (take 2 l = [n / 256; n mod 256])
  then (s, pos + 2 + n, n)
  else ([], pos, -1).

#[export] Instance parser : MqttParser := {|
  NNI_GET16 := get16;
  put_var_integer := put_varint 4;
  mqtt_get_remaining_length l := get_varint 4 (drop 1 l);
  copyn_utf8_str := copyn;
  get_utf8_str := getu;
  tn_qos b := Z.land b 3;
  tn_no_local b := Z.land (Z.shiftr b 2) 1;
  tn_rap b := Z.land (Z.shiftr b 3) 1;
  tn_retain_handling b := Z.land (Z.shiftr b 4) 3;
  utf8_valid := ascii_valid
|}.

Lemma varint_roundtrip n v rest :
  0 <= v < 128 ^ Z.of_nat n -> (0 < n)%nat ->
  get_varint n (put_varint n v ++ rest) = (v, blen (put_varint n v)) /\
  1 <= blen (put_varint n v) <= Z.of_nat n.
Proof.
  induction n as [|n IH] in v |- *; intros Hv Hn; [lia|].
  rewrite Nat2Z.inj_succ, Z.pow_succ_r in Hv by lia.
  cbn [put_varint]. destruct (Z.ltb_spec v 128) as [Hlt|Hge].
  - cbn. destruct (Z.ltb_spec v 128); [|lia]. split; [done | unfold blen; cbn [length]; lia].
  - destruct n as [|n]; [cbn in Hv; lia|].
    pose proof (Z.div_mod v 128 ltac:(lia)). pose proof (Z.mod_pos_bound v 128 ltac:(lia)).
    destruct (IH (v / 128)) as [E Hl]; [split; [apply Z.div_pos; lia | apply Z.div_lt_upper_bound; lia] | lia |].
    rewrite blen_cons. split; [|lia].
    cbn [get_varint app]. destruct (Z.ltb_spec (v mod 128 + 128) 128); [lia|].
    cbn [get_varint] in E. rewrite E. f_equal; lia.
Qed.

Lemma get16_mqtt_str s rest :
  blen s < 65536 ->
  get16 (mqtt_str s ++ rest) = blen s /\ take (Z.to_nat (blen s)) (drop 2 (mqtt_str s ++ rest)) = s.
Proof.
  intros Hs. cbn. pose proof (blen_nonneg s). split.
  - pose proof (Z.div_mod (blen s) 256 ltac:(lia)). lia.
  - unfold blen. rewrite Nat2Z.id. apply take_app_length.
Qed.

Lemma take2_split (l : bytes) n s :
  take 2 l = [n / 256; n mod 256] -> s = take (Z.to_nat n) (drop 2 l) -> blen s = n ->
  exists rest, l = mqtt_str s ++ rest.
Proof.
  intros H Hs Hn. exists (drop (Z.to_nat n) (drop 2 l)).
  unfold mqtt_str. rewrite Hn, <- H, <- app_assoc, Hs, take_drop. by rewrite take_drop.
Qed.

#[export] Instance parser_laws : MqttParserLaws.
Proof.
  constructor; try done.
  - intros pre s rest limit Hne Hlen Hv Hlim. cbn [copyn_utf8_str parser]. unfold copyn.
    cbv zeta.
    replace (Z.to_nat (blen pre)) with (length pre) by (unfold blen; lia). rewrite drop_app_length.
    destruct (get16_mqtt_str s rest Hlen) as [-> Hs]. rewrite Hs.
    assert (0 < blen s) by (unfold blen; destruct s; simpl; [done | lia]).
    destruct (Z.ltb_spec limit 2); [lia|]. cbn [orb length app mqtt_str Nat.ltb Nat.leb].
    rewrite (proj2 (Z.ltb_lt 0 (blen s))), (proj2 (Z.ltb_lt (blen s) 65536)),
      (proj2 (Z.leb_le (2 + blen s) limit)), Z.eqb_refl by lia.
    cbn [utf8_valid parser] in Hv. rewrite Hv. cbn [andb take].
    rewrite bool_decide_true by done. done.
  - intros src pos limit s pos' len. cbn [copyn_utf8_str parser utf8_valid]. unfold copyn.
    case_test; [done|]. case_test; [|done]. intros [= <- <- <-]. bool_hyps.
    split_and!; [|done|done|done|done|done|].
    + intros E. rewrite E in *. change (blen []) with 0 in *. lia.
    + by eapply take2_split.
  - intros src pos limit pos' len. cbn [copyn_utf8_str parser]. unfold copyn.
    case_test; [intros [= <- <-]; lia|]. case_test; [done|].
    intros [= <- <-]. case_test; lia.
  - intros pre s rest limit Hlen Hv Hlim. cbn [get_utf8_str parser]. unfold getu.
    cbv zeta.
    replace (Z.to_nat (blen pre)) with (length pre) by (unfold blen; lia). rewrite drop_app_length.
    destruct (get16_mqtt_str s rest Hlen) as [-> Hs]. rewrite Hs.
    pose proof (blen_nonneg s).
    rewrite (proj2 (Z.leb_le 2 (blen (mqtt_str s ++ rest)))) by (unfold blen; cbn; lia).
    rewrite (proj2 (Z.leb_le 0 (blen s))), (proj2 (Z.leb_le _ limit)), Z.eqb_refl by lia.
    cbn [utf8_valid parser] in Hv. rewrite Hv. cbn [andb take].
    rewrite bool_decide_true by done. done.
  - intros src pos limit s pos' len. cbn [get_utf8_str parser]. unfold getu.
    case_test; [|by intros [= <- <- <-]]. intros [= <- <- <-] _. bool_hyps.
    split_and!; [done..|]. by eapply take2_split.
  - intros s. cbn [utf8_valid parser]. unfold ascii_valid. rewrite forallb_forall.
    intros Hs Hin. apply list_elem_of_In in Hin. specialize (Hs _ Hin). done.
  - intros b v rest Hv Hb. cbn [mqtt_get_remaining_length put_var_integer parser drop].
    apply varint_roundtrip; [cbn; lia | lia].
  - intros v Hv. cbn [put_var_integer parser].
    destruct (varint_roundtrip 4 v [] ltac:(cbn; lia) ltac:(lia)) as [_ Hl]. done.
Qed.

(** ** Topic filters *)

Fixpoint levels (s acc : bytes) : list bytes :=
  match s with
  | [] => [acc]
  | c :: s' => if c =? 47 then acc :: levels s' [] else levels s' (acc ++ [c])
  end.

Fixpoint levels_match (f t : list bytes) : bool :=
  match f, t with
  | [], [] => true
  | l :: f', [] => bool_decide (l = [35]) && bool_decide (f' = [])
  | [], _ :: _ => false
  | l :: f', m :: t' =>
      if bool_decide (l = [35]) then bool_decide (f' = [])
      else (bool_decide (l = [43]) || bool_decide (l = m)) && levels_match f' t'
  end.

#[export] Instance filters : TopicFilter := {|
  topic_filter f t := levels_match (levels f []) (levels t [])
|}.

Fixpoint join (l : list bytes) : bytes :=
  match l with
  | [] => []
  | [x] => x
  | x :: l' => x ++ [47] ++ join l'
  end.

Lemma levels_join s acc : join (levels s acc) = acc ++ s /\ levels s acc <> [].
Proof.
  induction s as [|c s IH] in acc |- *; cbn [levels]; [by rewrite app_nil_r|].
  destruct (Z.eqb_spec c 47) as [->|Hc].
  - destruct (IH []) as [E Hne]. split; [|done]. cbn [join].
    destruct (levels s []) eqn:El; [done|]. by rewrite E.
  - destruct (IH (acc ++ [c])) as [E Hne]. rewrite E, <- app_assoc. done.
Qed.

Lemma levels_char s acc l c : l ∈ levels s acc -> c ∈ l -> c ∈ acc ++ s.
Proof.
  induction s as [|b s IH] in acc |- *; cbn [levels].
  - rewrite list_elem_of_singleton, app_nil_r. by intros ->.
  - case_test.
    + rewrite elem_of_cons. intros [->|Hl] Hc; rewrite elem_of_app, elem_of_cons; [by left|].
      apply IH in Hl; [|done]. auto.
    + intros Hl Hc. apply IH in Hl; [|done]. by rewrite <- app_assoc in Hl.
Qed.

Lemma levels_match_plain l t :
  Forall (fun x => x <> [43] /\ x <> [35]) l -> levels_match l t = true <-> l = t.
Proof.
  induction l as [|x l IH] in t |- *; intros H; destruct t as [|y t]; cbn; try done.
  - rewrite Forall_cons in H. destruct H as [[_ Hx] _]. rewrite bool_decide_false by done. done.
  - rewrite Forall_cons in H. destruct H as [[Hx1 Hx2] H].
    rewrite !(bool_decide_false (x = [_])), andb_true_iff by done. cbn.
    rewrite bool_decide_eq_true, IH by done. naive_solver.
Qed.

Lemma topic_filter_plain f t :
  (43 ∉ f) -> (35 ∉ f) -> levels_match (levels f []) (levels t []) = true <-> f = t.
Proof.
  intros H1 H2. rewrite levels_match_plain.
  - split; [|by intros ->]. intros E. apply (f_equal join) in E.
    by rewrite !(proj1 (levels_join _ _)) in E.
  - apply Forall_forall. intros l Hl. split; intros ->; [apply H1|apply H2];
      apply (levels_char f [] _ _ Hl), list_elem_of_singleton; done.
Qed.

Lemma filter_removed (t : list (bytes * msg)) topic :
  (43 ∉ topic) -> (35 ∉ topic) ->
  filter (fun x => levels_match (levels topic []) (levels (fst x) []) = true)
    (filter (fun x => fst x <> topic) t) = [].
Proof.
  intros H1 H2. induction t as [|[x y] t IH]; [done|]. rewrite filter_cons. case_decide as Hx; [|done].
  rewrite filter_cons_False; [done|]. cbn [fst] in *. rewrite topic_filter_plain by done. congruence.
Qed.

Lemma filter_others (t : list (bytes * msg)) topic f :
  (43 ∉ f) -> (35 ∉ f) -> f <> topic ->
  filter (fun x => levels_match (levels f []) (levels (fst x) []) = true)
    (filter (fun x => fst x <> topic) t) =
  filter (fun x => levels_match (levels f []) (levels (fst x) []) = true) t.
Proof.
  intros H1 H2 Hne. induction t as [|[x y] t IH]; [done|]. rewrite filter_cons. case_decide as Hx; cbn [fst] in Hx.
  - rewrite !filter_cons, IH. done.
  - rewrite IH. rewrite (filter_cons_False _ (x, y)); [done|]. cbn [fst]. rewrite topic_filter_plain by done.
    intros ->. by destruct Hx.
Qed.

(** ** Data base *)

Record hash := Hash { h_topics : list (Z * bytes); h_alias : list (Z * Z * bytes) }.

Definition alias_find (l : list (Z * Z * bytes)) (p a : Z) : option bytes :=
  snd <$> List.find (fun x => (fst (fst x) =? p) && (snd (fst x) =? a)) l.

(** The first member of each share group of which the filter matches. *)
Definition share_matches (topic f : bytes) : bool :=
  match share_filter f with Some g => topic_filter g topic | None => false end.

Fixpoint share_members (t : list (bytes * Z)) (topic : bytes) : list (bytes * Z) :=
  match t with
  | [] => []
  | (f, p) :: t' =>
      let l := share_members t' topic in
      if share_matches topic f && negb (existsb (fun x => bool_decide (fst x = f)) l)
      then (f, p) :: l else l
  end.

Lemma share_members_sound t topic f p :
  (f, p) ∈ share_members t topic -> (f, p) ∈ t /\ share_matches topic f = true.
Proof.
  induction t as [|[f' p'] t IH]; cbn [share_members]; [by intros ?%not_elem_of_nil|].
  destruct (share_matches topic f' && _) eqn:E; rewrite ?elem_of_cons; [|naive_solver].
  apply andb_true_iff in E as [E _]. naive_solver.
Qed.

Lemma share_members_complete t topic f p :
  (f, p) ∈ t -> share_matches topic f = true -> exists p', (f, p') ∈ share_members t topic.
Proof.
  induction t as [|[f' p'] t IH]; cbn [share_members]; [by intros ?%not_elem_of_nil|].
  intros [[= <- <-]|Hin]%elem_of_cons Hm.
  - rewrite Hm. cbn [andb]. destruct (existsb _ _) eqn:E; cbn [negb]; [|exists p; by left].
    apply existsb_exists in E as ([f1 p1] & Hin & E). apply bool_decide_eq_true in E. cbn in E. subst f1.
    exists p1. by apply list_elem_of_In.
  - destruct (IH Hin Hm) as [p1 H1]. exists p1. destruct (_ && _); [by right|done].
Qed.

#[export] Instance db : NanoDb := {|
  dbtree := list (bytes * Z);
  dbtree_ret := list (bytes * msg);
  dbhash := hash;
  dbtree_insert_client t f p := (f, p) :: t;
  dbtree_delete_client t f p := filter (fun x => x <> (f, p)) t;
  dbtree_find_clients t topic :=
    Some (map snd (filter (fun x => topic_filter (fst x) topic = true) t));
  dbtree_find_shared_clients t topic :=
    (match share_members t topic with [] => None | l => Some (map snd l) end, t);
  dbtree_insert_retain t topic m :=
    (snd <$> List.find (fun x => bool_decide (fst x = topic)) t,
     (topic, m) :: filter (fun x => fst x <> topic) t);
  dbtree_delete_retain t topic :=
    (snd <$> List.find (fun x => bool_decide (fst x = topic)) t,
     filter (fun x => fst x <> topic) t);
  dbtree_find_retain t f :=
    match filter (fun x => topic_filter f (fst x) = true) t with
    | [] => None
    | l => Some (map (fun x => Some (snd x)) l)
    end;
  dbhash_check_topic h p f := bool_decide ((p, f) ∈ h_topics h);
  dbhash_insert_topic h p f _ := Hash ((p, f) :: h_topics h) (h_alias h);
  dbhash_del_topic h p f := Hash (filter (fun x => x <> (p, f)) (h_topics h)) (h_alias h);
  dbhash_check_id h p := existsb (fun x => fst x =? p) (h_topics h);
  dbhash_del_topic_queue h p :=
    (map snd (filter (fun x => fst x = p) (h_topics h)),
     Hash (filter (fun x => fst x <> p) (h_topics h)) (h_alias h));
  dbhash_insert_atpair h p a t := Hash (h_topics h) ((p, a, t) :: h_alias h);
  dbhash_find_atpair h p a := alias_find (h_alias h) p a;
  dbhash_del_atpair_queue h p := Hash (h_topics h) (filter (fun x => fst (fst x) <> p) (h_alias h))
|}.

#[export] Instance db_laws : NanoDbLaws.
Proof.
  unshelve refine {| subscribed := fun (t : dbtree) f p => (f, p) ∈ (t : list (bytes * Z)) |}.
  - intros t topic p. cbn. rewrite list_elem_of_In, in_map_iff. split.
    + intros ([f q] & <- & Hin). apply list_elem_of_In, list_elem_of_filter in Hin. naive_solver.
    + intros (f & Hin & Hf). exists (f, p). split; [done|].
      apply list_elem_of_In, list_elem_of_filter. done.
  - intros. cbn. rewrite elem_of_cons. naive_solver.
  - intros. cbn. rewrite list_elem_of_filter. naive_solver.
  - intros. cbn. rewrite !bool_decide_eq_true, elem_of_cons. naive_solver.
  - intros. cbn. rewrite !bool_decide_eq_true, list_elem_of_filter. naive_solver.
  - intros h p f. cbn. rewrite bool_decide_eq_true, list_elem_of_In, in_map_iff. split.
    + intros ([q g] & <- & Hin). apply list_elem_of_In, list_elem_of_filter in Hin. naive_solver.
    + intros Hin. exists (p, f). split; [done|]. apply list_elem_of_In, list_elem_of_filter. done.
  - intros. cbn. rewrite !bool_decide_eq_true, list_elem_of_filter. naive_solver.
  - intros h p a t p' a'. cbn. unfold alias_find. cbn.
    destruct (Z.eqb_spec p p'), (Z.eqb_spec a a'); cbn; case_decide; naive_solver.
  - intros h p. cbn. rewrite existsb_exists. split.
    + intros ([q f] & Hin & E). apply Z.eqb_eq in E. cbn in E. subst q. exists f.
      by apply bool_decide_eq_true, list_elem_of_In.
    + intros [f E]. apply bool_decide_eq_true, list_elem_of_In in E. exists (p, f).
      split; [done|]. apply Z.eqb_refl.
  - done.
  - done.
  - intros t topic m H1 H2.
    cbn [dbtree_find_retain dbtree_insert_retain db snd topic_filter filters].
    rewrite filter_cons_True by (by apply topic_filter_plain). by rewrite filter_removed.
  - intros t topic H1 H2.
    cbn [dbtree_find_retain dbtree_delete_retain db snd topic_filter filters].
    by rewrite filter_removed.
  - intros t topic m f H1 H2 Hne.
    cbn [dbtree_find_retain dbtree_insert_retain db snd topic_filter filters].
    rewrite filter_cons_False by (cbn [fst]; by rewrite topic_filter_plain). by rewrite filter_others.
  - intros t topic f H1 H2 Hne.
    cbn [dbtree_find_retain dbtree_delete_retain db snd topic_filter filters].
    by rewrite filter_others.
  - done.
  - intros t topic p. cbn [dbtree_find_shared_clients db fst]. intros Hp.
    assert (p ∈ map snd (share_members t topic)) as Hin.
    { revert Hp. destruct (share_members t topic); [by intros ?%not_elem_of_nil|done]. }
    apply list_elem_of_In, in_map_iff in Hin as ([f q] & <- & Hin).
    apply list_elem_of_In, share_members_sound in Hin as [Hin Hm]. unfold share_matches in Hm.
    destruct (share_filter f) as [g|] eqn:E; [|done]. eauto.
  - intros t topic f g p Hin E Hm. destruct (share_members_complete t topic f p Hin) as [p' Hp'].
    { unfold share_matches. by rewrite E. }
    exists p'. split; [by apply share_members_sound in Hp' as [? _]|]. cbn [dbtree_find_shared_clients db fst].
    assert (p' ∈ map snd (share_members t topic)) as H
      by (apply list_elem_of_In, in_map_iff; exists (f, p'); by rewrite <- list_elem_of_In).
    by destruct (share_members t topic).
Defined.

(** ** Messages to keep *)

#[export] Instance msg_new : NngMsgNew := {|
  new_msg := Msg [] [] 0 None;
  nng_mqtt_msg_proto_data_alloc m := m;
  nng_msg_set_timestamp m _ := m;
  nng_mqtt_msg_decode m := (0, m);
  nng_msg_set_pipe m _ := m;
  nng_mqtt_msg_set_publish_proto_version m _ := m
|}.

#[export] Instance msg_new_laws : NngMsgNewLaws.
Proof. constructor; done. Qed.

#[export] Instance sqlite : SqliteRetain := {|
  sqlite_db := list (bytes * msg);
  nng_mqtt_qos_db_set_retain db t m _ := (t, m) :: db;
  nng_mqtt_qos_db_remove_retain db t := filter (fun x => fst x <> t) db
|}.

End Model.
