(* ===== verification/Acl.v ===== *)
(** * Access control (nanomq/acl_handler.c)

    [auth_acl] walks the configured rules for a publish or subscribe action
    and decides; placeholders in rule topics are replaced by the client's id
    and user name first.  The specification is the documented first-match
    reading of the rule list ([first_match]). *)

From S2P Require Import Prelude NngApi NngModel.

Module Acl.

(** ** Data (the configuration's structs and enums) *)

Inductive acl_action_type := ACL_PUB | ACL_SUB | ACL_ALL.
Inductive acl_permit := ACL_ALLOW | ACL_DENY.
Inductive acl_rule_type :=
  ACL_NONE | ACL_USERNAME | ACL_CLIENTID | ACL_IPADDR | ACL_AND | ACL_OR.

#[export] Instance acl_action_type_eq_dec : EqDecision acl_action_type.
Proof. solve_decision. Defined.
#[export] Instance acl_permit_eq_dec : EqDecision acl_permit.
Proof. solve_decision. Defined.
#[export] Instance acl_rule_type_eq_dec : EqDecision acl_rule_type.
Proof. solve_decision. Defined.

(** acl_rule_ct: the value type and, for a single string, the value; the
    other value types never match. *)
Inductive acl_rule_ct :=
| ACL_RULE_ALL
| ACL_RULE_SINGLE_STRING (str : bytes)
| ACL_RULE_OTHER.

Record acl_sub_rule := SubRule {
  sr_type : acl_rule_type;
  sr_ct : acl_rule_ct
}.

(** [r_ct] and [r_array] are the two members of the union [rule_ct]. *)
Record acl_rule := Rule {
  r_permit : acl_permit;
  r_type : acl_rule_type;
  r_action : acl_action_type;
  r_ct : acl_rule_ct;
  r_array : list acl_sub_rule;
  r_topics : list (option bytes)
}.

(** The part of [conf] that [auth_acl] reads. *)
Record conf_acl := ConfAcl {
  acl_rules : list acl_rule;
  acl_nomatch : acl_permit
}.

Definition placeholder_clientid : bytes := c!"${clientid}".
Definition placeholder_username : bytes := c!"${username}".

(** ** Placeholders *)

(** First loop of [replace_placeholder]: the length of the result, in
    [size_t] arithmetic. *)
Fixpoint result_len_loop (fuel : nat) (p placeholder replacement : bytes) (resultLen : Z)
  : option Z :=
  match strstr p placeholder with
  | None => Some resultLen
  | Some p =>
      match fuel with
      | O => None
      | S fuel' =>
          result_len_loop fuel' (drop (length placeholder) p) placeholder replacement
            (u64 (resultLen + u64 (blen replacement - blen placeholder)))
      end
  end.

(** Second loop: copy the text before each placeholder, then the replacement. *)
Fixpoint replace_loop (fuel : nat) (p placeholder replacement result : bytes) : option bytes :=
  match strstr p placeholder with
  | None => Some (result ++ p)
  | Some nextPlaceholder =>
      match fuel with
      | O => None
      | S fuel' =>
          let segmentLen := (length p - length nextPlaceholder)%nat in
          replace_loop fuel' (drop (length placeholder) nextPlaceholder) placeholder replacement
            (result ++ take segmentLen p ++ replacement)
      end
  end.

(** The allocated size (without the NUL) and the string written. *)
Definition replace_placeholder (origin placeholder replacement : bytes) : option (Z * bytes) :=
  match result_len_loop (length origin) origin placeholder replacement (blen origin),
        replace_loop (length origin) origin placeholder replacement [] with
  | Some n, Some r => Some (n, r)
  | _, _ => None
  end.

(** [replace_placeholder]'s string; the loops never run out (below). *)
Definition replaced (origin placeholder replacement : bytes) : bytes :=
  match replace_placeholder origin placeholder replacement with
  | Some (_, r) => r
  | None => origin
  end.

Section Auth.

Context `{NngMsg} `{TopicFilter}.

Definition match_rule_content_str (ct : acl_rule_ct) (cmp_str : option bytes) : bool :=
  match ct with
  | ACL_RULE_ALL => true
  | ACL_RULE_SINGLE_STRING str =>
      match cmp_str with
      | Some s => strcmp0 str s
      | None => false
      end
  | ACL_RULE_OTHER => false
  end.

(** The topic after substitution; the pointer is [origin] itself when nothing
    was replaced. *)
Definition replace_topic (origin : option bytes) (param : conn_param) : option bytes :=
  match origin with
  | None => None
  | Some topic =>
      let topic :=
        match conn_param_get_clientid param with
        | Some cid =>
            match strstr topic placeholder_clientid with
            | Some _ => replaced topic placeholder_clientid cid
            | None => topic
            end
        | None => topic
        end in
      let topic :=
        match conn_param_get_username param with
        | Some user =>
            match strstr topic placeholder_username with
            | Some _ => replaced topic placeholder_username user
            | None => topic
            end
        | None => topic
        end in
      Some topic
  end.

(** One condition of an [ACL_AND] or [ACL_OR] rule: [None] for a sub-rule
    type that the switch ignores. *)
Definition sub_rule_match (param : conn_param) (sub_rule : acl_sub_rule) : option bool :=
  match sr_type sub_rule with
  | ACL_USERNAME => Some (match_rule_content_str (sr_ct sub_rule) (conn_param_get_username param))
  | ACL_CLIENTID => Some (match_rule_content_str (sr_ct sub_rule) (conn_param_get_clientid param))
  | ACL_IPADDR => Some (match_rule_content_str (sr_ct sub_rule) (conn_param_get_ip_addr_v4 param))
  | _ => None
  end.

(** The loop of an [ACL_AND] rule over [sub_match]. *)
Fixpoint and_loop (param : conn_param) (rules : list acl_sub_rule) (sub_match : bool) : bool :=
  match rules with
  | [] => sub_match
  | sub_rule :: rules' =>
      let sub_match :=
        match sub_rule_match param sub_rule with
        | Some false => false
        | _ => sub_match
        end in
      if negb sub_match then sub_match else and_loop param rules' sub_match
  end.

(** The loop of an [ACL_OR] rule over [match]. *)
Fixpoint or_loop (param : conn_param) (rules : list acl_sub_rule) (mtch : bool) : bool :=
  match rules with
  | [] => mtch
  | sub_rule :: rules' =>
      let mtch :=
        match sub_rule_match param sub_rule with
        | Some b => mtch || b
        | None => mtch
        end in
      if mtch then mtch else or_loop param rules' mtch
  end.

(** One rule topic against the topic of the packet: '@' asks for equality. *)
Definition topic_match (rule_topic topic : bytes) : bool :=
  if strncmp0 rule_topic (c!"@") 1 && (1 <? blen rule_topic)
  then strcmp0 (drop 1 rule_topic) topic
  else topic_filter rule_topic topic.

(** The loop over the topics of a rule; a NULL topic ends it. *)
Fixpoint topics_loop (param : conn_param) (topics : list (option bytes)) (topic : bytes) : bool :=
  match topics with
  | [] => false
  | t :: topics' =>
      match replace_topic t param with
      | None => false
      | Some rule_topic =>
          if topic_match rule_topic topic then true else topics_loop param topics' topic
      end
  end.

(** The switch on the rule type: the new [match] and [sub_match]. *)
Definition rule_switch (param : conn_param) (rule : acl_rule) (mtch sub_match : bool)
  : bool * bool :=
  match r_type rule with
  | ACL_USERNAME =>
      (match_rule_content_str (r_ct rule) (conn_param_get_username param), sub_match)
  | ACL_CLIENTID =>
      (match_rule_content_str (r_ct rule) (conn_param_get_clientid param), sub_match)
  | ACL_IPADDR =>
      (match_rule_content_str (r_ct rule) (conn_param_get_ip_addr_v4 param), sub_match)
  | ACL_AND =>
      let sub_match := and_loop param (r_array rule) sub_match in
      (if sub_match then true else mtch, sub_match)
  | ACL_OR => (or_loop param (r_array rule) mtch, sub_match)
  | ACL_NONE => (true, sub_match)
  end.

(** The rule loop: final [match] and [result]. *)
Fixpoint rules_loop (act_type : acl_action_type) (param : conn_param) (topic : bytes)
    (rules : list acl_rule) (mtch sub_match result : bool) : bool * bool :=
  match rules with
  | [] => (mtch, result)
  | rule :: rules' =>
      if negb (bool_decide (r_action rule = ACL_ALL)) &&
         negb (bool_decide (r_action rule = act_type))
      then rules_loop act_type param topic rules' mtch sub_match result
      else
        let '(mtch, sub_match) := rule_switch param rule mtch sub_match in
        if negb mtch then rules_loop act_type param topic rules' mtch sub_match result
        else if (0 <? blen (r_topics rule)) && negb (topics_loop param (r_topics rule) topic)
        then rules_loop act_type param topic rules' false sub_match result
        else (mtch, if bool_decide (r_permit rule = ACL_ALLOW) then mtch else negb mtch)
  end.

Definition auth_acl (config : conf_acl) (act_type : acl_action_type) (param : conn_param)
    (topic : bytes) : bool :=
  let '(mtch, result) := rules_loop act_type param topic (acl_rules config) false true false in
  if mtch then result
  else if bool_decide (acl_nomatch config = ACL_ALLOW) then true else result.

(** ** Specification: the first rule that applies decides *)

Definition action_applies (act_type : acl_action_type) (rule : acl_rule) : bool :=
  bool_decide (r_action rule = ACL_ALL) || bool_decide (r_action rule = act_type).

Definition condition_holds (param : conn_param) (sub_rule : acl_sub_rule) : bool :=
  default true (sub_rule_match param sub_rule).

Definition some_condition_holds (param : conn_param) (sub_rule : acl_sub_rule) : bool :=
  default false (sub_rule_match param sub_rule).

(** What a rule says about the client. *)
Definition client_matches (param : conn_param) (rule : acl_rule) : bool :=
  match r_type rule with
  | ACL_NONE => true
  | ACL_USERNAME => match_rule_content_str (r_ct rule) (conn_param_get_username param)
  | ACL_CLIENTID => match_rule_content_str (r_ct rule) (conn_param_get_clientid param)
  | ACL_IPADDR => match_rule_content_str (r_ct rule) (conn_param_get_ip_addr_v4 param)
  | ACL_AND => forallb (condition_holds param) (r_array rule)
  | ACL_OR => existsb (some_condition_holds param) (r_array rule)
  end.

Definition topic_matches (param : conn_param) (topic : bytes) (rule : acl_rule) : bool :=
  (blen (r_topics rule) <=? 0) || topics_loop param (r_topics rule) topic.

Definition rule_applies (act_type : acl_action_type) (param : conn_param) (topic : bytes)
    (rule : acl_rule) : bool :=
  action_applies act_type rule && client_matches param rule && topic_matches param topic rule.

Definition first_match (config : conf_acl) (act_type : acl_action_type) (param : conn_param)
    (topic : bytes) : bool :=
  match List.find (rule_applies act_type param topic) (acl_rules config) with
  | Some rule => bool_decide (r_permit rule = ACL_ALLOW)
  | None => bool_decide (acl_nomatch config = ACL_ALLOW)
  end.

(** An [ACL_AND] rule for this action whose conditions fail for the client. *)
Definition failing_and (act_type : acl_action_type) (param : conn_param) (rule : acl_rule) : bool :=
  bool_decide (r_type rule = ACL_AND) && action_applies act_type rule &&
  negb (client_matches param rule).

(** No [ACL_AND] rule comes after a failing one. *)
Fixpoint and_rules_fresh (act_type : acl_action_type) (param : conn_param)
    (rules : list acl_rule) : bool :=
  match rules with
  | [] => true
  | rule :: rules' =>
      (if failing_and act_type param rule
       then forallb (fun r => negb (bool_decide (r_type r = ACL_AND))) rules'
       else true) && and_rules_fresh act_type param rules'
  end.

(** ** The rule loop *)

Lemma and_loop_false param l : and_loop param l false = false.
Proof. destruct l as [|r l]; simpl; [done|]. by destruct (sub_rule_match param r) as [[]|]. Qed.

Lemma and_loop_spec param l : and_loop param l true = forallb (condition_holds param) l.
Proof.
  induction l as [|r l IH]; simpl; [done|]. unfold condition_holds at 1.
  destruct (sub_rule_match param r) as [[]|]; simpl; done.
Qed.

Lemma or_loop_spec param l : or_loop param l false = existsb (some_condition_holds param) l.
Proof.
  induction l as [|r l IH]; simpl; [done|]. unfold some_condition_holds at 1.
  destruct (sub_rule_match param r) as [[]|]; simpl; done.
Qed.

(** With [match] false and [sub_match] true the switch computes what the rule
    says about the client. *)
Lemma rule_switch_fresh param rule :
  rule_switch param rule false true =
    (client_matches param rule,
     if decide (r_type rule = ACL_AND) then client_matches param rule else true).
Proof.
  unfold rule_switch, client_matches. destruct (r_type rule); simpl; try done.
  - rewrite and_loop_spec. by destruct (forallb _ _).
  - by rewrite or_loop_spec.
Qed.

Lemma rule_switch_stale param rule :
  r_type rule <> ACL_AND ->
  rule_switch param rule false false = (client_matches param rule, false).
Proof.
  unfold rule_switch, client_matches. destruct (r_type rule); simpl; try done.
  intros _. by rewrite or_loop_spec.
Qed.

Definition loop_result (act_type : acl_action_type) (param : conn_param) (topic : bytes)
    (rules : list acl_rule) : bool * bool :=
  match List.find (rule_applies act_type param topic) rules with
  | Some rule => (true, bool_decide (r_permit rule = ACL_ALLOW))
  | None => (false, false)
  end.

(** One turn of the loop, given what the switch yields. *)
Lemma rules_loop_step act_type param topic rule rules sub_match sub_match' :
  rule_switch param rule false sub_match = (client_matches param rule, sub_match') ->
  rules_loop act_type param topic (rule :: rules) false sub_match false =
    if action_applies act_type rule
    then if rule_applies act_type param topic rule
         then (true, bool_decide (r_permit rule = ACL_ALLOW))
         else rules_loop act_type param topic rules false sub_match' false
    else rules_loop act_type param topic rules false sub_match false.
Proof.
  intros Hs. cbn [rules_loop]. unfold rule_applies.
  rewrite <- negb_orb. fold (action_applies act_type rule).
  destruct (action_applies act_type rule); cbn [negb andb]; [|done].
  rewrite Hs. destruct (client_matches param rule); cbn [negb andb]; [|done].
  unfold topic_matches. rewrite Z.leb_antisym.
  destruct (0 <? blen (r_topics rule)), (topics_loop param (r_topics rule) topic);
    cbn [negb andb orb]; try done; by case_bool_decide.
Qed.

Lemma rules_loop_find act_type param topic rules (sub_match : bool) :
  (if sub_match then and_rules_fresh act_type param rules
   else forallb (fun r => negb (bool_decide (r_type r = ACL_AND))) rules) = true ->
  rules_loop act_type param topic rules false sub_match false
  = loop_result act_type param topic rules.
Proof.
  unfold loop_result. induction rules as [|rule rules IH] in sub_match |- *; [done|].
  cbn [List.find]. intros Hf. destruct sub_match.
  - rewrite (rules_loop_step _ _ _ _ _ true _ (rule_switch_fresh param rule)).
    cbn [and_rules_fresh] in Hf. apply andb_true_iff in Hf as [Hf1 Hf2].
    destruct (action_applies act_type rule) eqn:Ea.
    + destruct (rule_applies _ _ _ rule); [done|]. apply IH.
      case_decide as Et; [|done]. destruct (client_matches param rule) eqn:Ec; [done|].
      unfold failing_and in Hf1. rewrite bool_decide_true, Ea, Ec in Hf1 by done. done.
    + unfold rule_applies at 1. rewrite Ea. by apply IH.
  - cbn [forallb] in Hf. apply andb_true_iff in Hf as [Hne Hf]. bool_hyps.
    rewrite (rules_loop_step _ _ _ _ _ false _ (rule_switch_stale param rule Hne)).
    destruct (action_applies act_type rule) eqn:Ea.
    + destruct (rule_applies _ _ _ rule); [done|]. by apply IH.
    + unfold rule_applies at 1. rewrite Ea. by apply IH.
Qed.

(** C15. [auth_acl] implements the first-match reading of the rule list, for
    every client, action and topic, as long as no [ACL_AND] rule follows one
    whose conditions this client fails. *)
Theorem auth_acl_first_match config act_type param topic :
  and_rules_fresh act_type param (acl_rules config) = true ->
  auth_acl config act_type param topic = first_match config act_type param topic.
Proof.
  intros Hf. unfold auth_acl, first_match.
  rewrite (rules_loop_find _ _ _ _ true Hf). unfold loop_result.
  destruct (List.find _ _); [done|]. by case_bool_decide.
Qed.

(** *** The sticky [sub_match] flag *)

Definition not_and (rule : acl_rule) : bool := negb (bool_decide (r_type rule = ACL_AND)).

(** With [sub_match] false an [ACL_AND] rule never matches. *)
Lemma rules_loop_stale act_type param topic rules :
  rules_loop act_type param topic rules false false false
  = loop_result act_type param topic (List.filter not_and rules).
Proof.
  unfold loop_result. induction rules as [|rule rules IH]; [done|].
  cbn [List.filter]. unfold not_and at 1. destruct (bool_decide (r_type rule = ACL_AND)) eqn:E.
  - cbn [negb]. rewrite <- IH. bool_hyps. cbn [rules_loop].
    unfold rule_switch. rewrite E, and_loop_false. cbn. by case_test.
  - cbn [negb List.find]. bool_hyps.
    rewrite (rules_loop_step _ _ _ _ _ false _ (rule_switch_stale param rule E)).
    destruct (action_applies act_type rule) eqn:Ea.
    + destruct (rule_applies _ _ _ rule); [done | exact IH].
    + unfold rule_applies at 1. rewrite Ea. exact IH.
Qed.

(** Once the conditions of an [ACL_AND] rule fail for a client, every
    later [ACL_AND] rule is ignored for that client: [auth_acl] then decides as
    if those rules were not configured, because [sub_match] is never set back
    to true. *)
Theorem auth_acl_and_rules_masked rule rules nomatch act_type param topic :
  failing_and act_type param rule = true ->
  auth_acl (ConfAcl (rule :: rules) nomatch) act_type param topic
  = first_match (ConfAcl (List.filter not_and rules) nomatch) act_type param topic.
Proof.
  intros Hf. unfold failing_and in Hf. bool_hyps.
  unfold auth_acl, first_match. cbn [acl_rules acl_nomatch].
  rewrite (rules_loop_step _ _ _ _ _ true _ (rule_switch_fresh param rule)).
  unfold rule_applies at 1.
  match goal with H : action_applies _ _ = true |- _ => rewrite H end.
  match goal with H : client_matches _ _ = false |- _ => rewrite H end.
  rewrite decide_True by done. cbn [andb]. rewrite rules_loop_stale. unfold loop_result.
  destruct (List.find _ _); [done|]. by case_bool_decide.
Qed.

(** *** Placeholders and wildcards *)

Definition device_rule : acl_rule :=
  Rule ACL_ALLOW ACL_NONE ACL_PUB ACL_RULE_ALL [] [Some (c!"dev/${clientid}/cmd")].

(** The client id is put into the rule topic unescaped, so a client that
    connects with the id "+" is allowed by a rule for "dev/${clientid}/cmd" on
    every topic that the filter "dev/+/cmd" matches. *)
Theorem auth_acl_clientid_wildcard param topic :
  conn_param_get_clientid param = Some (c!"+") ->
  conn_param_get_username param = None ->
  topic_filter (c!"dev/+/cmd") topic = true ->
  auth_acl (ConfAcl [device_rule] ACL_DENY) ACL_PUB param topic = true.
Proof.
  intros Hc Hu Ht. unfold auth_acl, device_rule. cbn -[replaced strstr lit].
  rewrite Hc, Hu.
  change (strstr (c!"dev/${clientid}/cmd") placeholder_clientid) with (Some (c!"${clientid}/cmd")).
  cbv iota beta.
  change (replaced (c!"dev/${clientid}/cmd") placeholder_clientid (c!"+")) with (c!"dev/+/cmd").
  unfold topic_match. cbn -[topic_filter lit]. rewrite Ht. done.
Qed.

End Auth.

(** ** Placeholder substitution *)

(** The leftmost, non-overlapping substitution of [ph] by [repl]. *)
Inductive substitutes (ph repl : bytes) : bytes -> bytes -> Prop :=
| subst_none p : strstr p ph = None -> substitutes ph repl p p
| subst_some pre post r :
    strstr (pre ++ ph ++ post) ph = Some (ph ++ post) ->
    substitutes ph repl post r ->
    substitutes ph repl (pre ++ ph ++ post) (pre ++ repl ++ r).

Lemma replace_loops_spec ph repl fuel p acc L :
  ph <> [] -> (length p <= fuel)%nat -> L = u64 (blen acc + blen p) ->
  exists r, substitutes ph repl p r /\
    replace_loop fuel p ph repl acc = Some (acc ++ r) /\
    result_len_loop fuel p ph repl L = Some (u64 (blen acc + blen r)).
Proof.
  intros Hph; induction fuel as [|fuel IH] in p, acc, L |- *; intros Hfuel ->.
  { destruct p; simpl in Hfuel; [|lia]. exists [].
    assert (strstr [] ph = None) as E by (destruct ph; done).
    split; [by constructor|]. cbn [replace_loop result_len_loop]. by rewrite E. }
  cbn [replace_loop result_len_loop]. destruct (strstr p ph) as [t|] eqn:E.
  2: { exists p. split; [by constructor | done]. }
  pose proof E as E'. apply strstr_Some in E' as (pre & post & -> & ->).
  rewrite drop_app_length, !length_app.
  replace (length pre + (length ph + length post) - (length ph + length post))%nat
    with (length pre) by lia.
  rewrite take_app_length.
  destruct (IH post (acc ++ pre ++ repl)
              (u64 (u64 (blen acc + blen (pre ++ ph ++ post)) + u64 (blen repl - blen ph))))
    as (r & Hr & E1 & E2).
  - rewrite !length_app in Hfuel. destruct ph; simpl in *; [done | lia].
  - unfold u64. rewrite <- Zplus_mod. f_equal. rewrite !blen_app. lia.
  - exists (pre ++ repl ++ r). split; [by constructor|]. rewrite E1, E2, !blen_app.
    rewrite <- !app_assoc. split; [done | do 2 f_equal; lia].
Qed.

(** [replace_placeholder] terminates; the string it writes replaces every
    occurrence of the placeholder from left to right, and the buffer size it
    computes in [size_t] arithmetic is exactly the length of that string. *)
Theorem replace_placeholder_correct origin placeholder replacement :
  placeholder <> [] -> blen origin < 18446744073709551616 ->
  exists r, substitutes placeholder replacement origin r /\
    replace_placeholder origin placeholder replacement = Some (u64 (blen r), r).
Proof.
  intros Hph Hlen. unfold replace_placeholder.
  destruct (replace_loops_spec placeholder replacement (length origin) origin [] (blen origin))
    as (r & Hr & E1 & E2); [done | lia | |].
  - pose proof (blen_nonneg origin). change (blen []) with 0. rewrite u64_small; lia.
  - exists r. rewrite E1, E2. done.
Qed.

Lemma replace_placeholder_correct_witness :
  exists r, substitutes placeholder_clientid (c!"c1") (c!"a/${clientid}/b") r /\
    replace_placeholder (c!"a/${clientid}/b") placeholder_clientid (c!"c1") = Some (u64 (blen r), r).
Proof.
  apply (replace_placeholder_correct (c!"a/${clientid}/b") placeholder_clientid (c!"c1"));
    [discriminate | reflexivity].
Defined.

(** ** Witnesses *)

Import Model.

Definition alice : Model.cparam := Cparam (Some (c!"c1")) (Some (c!"alice")) None None.
Definition plus_client : Model.cparam := Cparam (Some (c!"+")) None None None.

Definition and_rule (user : bytes) : acl_rule :=
  Rule ACL_ALLOW ACL_AND ACL_PUB ACL_RULE_ALL
    [SubRule ACL_USERNAME (ACL_RULE_SINGLE_STRING user)] [Some (c!"t/#")].

Lemma auth_acl_first_match_witness :
  auth_acl (ConfAcl [and_rule (c!"alice"); device_rule] ACL_DENY) ACL_PUB alice (c!"t/1")
  = first_match (ConfAcl [and_rule (c!"alice"); device_rule] ACL_DENY) ACL_PUB alice (c!"t/1")
  /\ first_match (ConfAcl [and_rule (c!"alice"); device_rule] ACL_DENY) ACL_PUB alice (c!"t/1") = true.
Proof. split; [apply auth_acl_first_match; vm_compute; reflexivity | vm_compute; reflexivity]. Defined.

(** alice's own rule is ignored after bob's. *)
Lemma auth_acl_and_rules_masked_witness :
  auth_acl (ConfAcl [and_rule (c!"bob"); and_rule (c!"alice")] ACL_DENY) ACL_PUB alice (c!"t/1")
  = first_match (ConfAcl (List.filter not_and [and_rule (c!"alice")]) ACL_DENY) ACL_PUB alice (c!"t/1")
  /\ first_match (ConfAcl [and_rule (c!"bob"); and_rule (c!"alice")] ACL_DENY) ACL_PUB alice (c!"t/1") = true
  /\ auth_acl (ConfAcl [and_rule (c!"bob"); and_rule (c!"alice")] ACL_DENY) ACL_PUB alice (c!"t/1") = false.
Proof.
  split; [apply auth_acl_and_rules_masked; vm_compute; reflexivity|].
  split; vm_compute; reflexivity.
Defined.

Lemma auth_acl_clientid_wildcard_witness :
  auth_acl (ConfAcl [device_rule] ACL_DENY) ACL_PUB plus_client (c!"dev/victim/cmd") = true.
Proof. apply auth_acl_clientid_wildcard; vm_compute; reflexivity. Defined.

End Acl.
