(* ===== verification/PubCodec.v ===== *)
(** * PUBLISH packets (nanomq/pub_handler.c, nanomq/include/pub_handler.h)

    The packet structs, [decode_pub_message] and [encode_pub_message].  The
    functions work on [work->msg] and [work->pub_packet]; the model passes both
    and returns them, with the packet as far as it was filled on an error.  The
    decoder's own reads of the body are checked: [None] is a read outside it.
    The first byte of the header is always there: its buffer has a fixed size. *)

From S2P Require Import Prelude NngApi NngModel.

Module PubCodec.

(** ** Data *)

(** struct fixed_header: one byte of bit-fields and the remaining length *)
Record fixed_header := FixedHeader {
  fh_retain : Z;
  fh_qos : Z;
  fh_dup : Z;
  fh_packet_type : Z;
  fh_remain_len : Z
}.

(** The first byte of the header seen through the bit-fields
    retain:1, qos:2, dup:1, packet_type:4, and back. *)
Definition header_of_byte (b : Z) : fixed_header :=
  FixedHeader (Z.land b 1) (Z.land (Z.shiftr b 1) 3) (Z.land (Z.shiftr b 3) 1)
    (Z.land (Z.shiftr b 4) 15) 0.

Definition byte_of_header (h : fixed_header) : Z :=
  fh_retain h + 2 * fh_qos h + 8 * fh_dup h + 16 * fh_packet_type h.

Section Codec.

Context `{C : MqttConst} `{M : NngMsg} `{P : MqttParser}.

(** union variable_header: the publish and pub_arrc views begin with the same
    member [packet_id]; the members after it overlap in memory, and no packet
    has one view read after the other was written, so they are kept apart.  A
    topic is a [struct mqtt_string]. *)
Record publish_header := PublishHeader {
  pb_topic : option bytes;
  pb_topic_len : Z;
  pb_properties : option property;
  pb_prop_len : Z
}.

Record pub_arrc_header := PubArrcHeader {
  ar_reason_code : Z;
  ar_properties : option property;
  ar_prop_len : Z
}.

Record pub_packet_struct := PubPacket {
  pp_fixed : fixed_header;
  pp_packet_id : Z;
  pp_publish : publish_header;
  pp_arrc : pub_arrc_header;
  pp_payload : option bytes;
  pp_payload_len : Z
}.

(** nng_zalloc(sizeof(struct pub_packet_struct)) *)
Definition zero_packet : pub_packet_struct :=
  PubPacket (FixedHeader 0 0 0 0 0) 0 (PublishHeader None 0 None 0)
    (PubArrcHeader 0 None 0) None 0.

Definition set_fixed (pp : pub_packet_struct) (h : fixed_header) : pub_packet_struct :=
  PubPacket h (pp_packet_id pp) (pp_publish pp) (pp_arrc pp) (pp_payload pp) (pp_payload_len pp).
Definition set_packet_id (pp : pub_packet_struct) (i : Z) : pub_packet_struct :=
  PubPacket (pp_fixed pp) i (pp_publish pp) (pp_arrc pp) (pp_payload pp) (pp_payload_len pp).
Definition set_publish (pp : pub_packet_struct) (v : publish_header) : pub_packet_struct :=
  PubPacket (pp_fixed pp) (pp_packet_id pp) v (pp_arrc pp) (pp_payload pp) (pp_payload_len pp).
Definition set_arrc (pp : pub_packet_struct) (v : pub_arrc_header) : pub_packet_struct :=
  PubPacket (pp_fixed pp) (pp_packet_id pp) (pp_publish pp) v (pp_payload pp) (pp_payload_len pp).
Definition set_payload (pp : pub_packet_struct) (d : option bytes) (n : Z) : pub_packet_struct :=
  PubPacket (pp_fixed pp) (pp_packet_id pp) (pp_publish pp) (pp_arrc pp) d n.

Definition set_topic (v : publish_header) (t : option bytes) (n : Z) : publish_header :=
  PublishHeader t n (pb_properties v) (pb_prop_len v).
Definition set_props (v : publish_header) (p : option property) (n : Z) : publish_header :=
  PublishHeader (pb_topic v) (pb_topic_len v) p n.

(** [strchr(topic, '+') != NULL || strchr(topic, '#') != NULL] *)
Definition has_wildcard (topic : bytes) : bool :=
  match strchr topic 43, strchr topic 35 with
  | None, None => false
  | _, _ => true
  end.

(** ** Decoding *)

(** [n] bytes at position [pos] of a body *)
Definition read_at (body : bytes) (pos n : Z) : option bytes :=
  if (0 <=? pos) && (0 <=? n) && (pos + n <=? blen body)
  then Some (take (Z.to_nat n) (drop (Z.to_nat pos) body)) else None.

(** The tail of the PUBLISH case, from the properties on. *)
Definition decode_publish_tail (msg : nng_msg) (pp : pub_packet_struct) (proto pos : Z)
  : option (Z * pub_packet_struct * nng_msg) :=
  let msg_body := nng_msg_body msg in
  let msg_len := blen msg_body in
  let '(failed, pp, pos) :=
    if proto =? MQTT_PROTOCOL_VERSION_v5 then
      let '(properties, pos, prop_len) := decode_properties msg pos in
      let pp := set_publish pp (set_props (pp_publish pp) properties prop_len) in
      match properties with
      | Some _ =>
          if negb (check_properties properties msg =? 0)
          then (true, set_publish pp (set_props (pp_publish pp) None 0), pos)
          else (false, pp, pos)
      | None => (false, pp, pos)
      end
    else (false, pp, pos) in
  if (failed : bool) then Some (PROTOCOL_ERROR, pp, msg)
  else if msg_len <? pos then
    Some (PROTOCOL_ERROR,
     match pb_properties (pp_publish pp) with
     | Some _ => set_publish pp (set_props (pp_publish pp) None 0)
     | None => pp
     end, msg)
  else
    let len := u32 (msg_len - pos) in
    let msg := nng_msg_set_payload_ptr msg pos in
    if 0 <? len then
      data ← read_at msg_body pos len;
      Some (SUCCESS, set_payload pp (Some data) len, msg)
    else Some (SUCCESS, set_payload pp (pp_payload pp) len, msg).

(** case PUBLISH *)
Definition decode_publish (msg : nng_msg) (pp : pub_packet_struct) (proto : Z)
  : option (Z * pub_packet_struct * nng_msg) :=
  let msg_body := nng_msg_body msg in
  let msg_len := blen msg_body in
  let '(body, pos, len) := copyn_utf8_str msg_body 0 msg_len in
  let len := u32 len in
  let pp := set_publish pp (set_topic (pp_publish pp) body (pb_topic_len (pp_publish pp))) in
  if negb (0 <=? len) then Some (PROTOCOL_ERROR, pp, msg)
  else
    let pp := set_publish pp (set_topic (pp_publish pp) body len) in
    if match body with Some t => has_wildcard t | None => false end
    then Some (PROTOCOL_ERROR, pp, msg)
    else if 0 <? fh_qos (pp_fixed pp) then
      if msg_len <? pos + 2 then Some (PROTOCOL_ERROR, pp, msg)
      else
        id ← read_at msg_body pos 2;
        let pp := set_packet_id pp (NNI_GET16 id) in
        decode_publish_tail msg pp proto (pos + 2)
    else decode_publish_tail msg pp proto pos.

(** cases PUBACK, PUBREC, PUBREL, PUBCOMP *)
Definition decode_pub_arrc (msg : nng_msg) (pp : pub_packet_struct) (proto : Z)
  : option (Z * pub_packet_struct * nng_msg) :=
  let msg_body := nng_msg_body msg in
  id ← read_at msg_body 0 2;
  let pp := set_packet_id pp (NNI_GET16 id) in
  if proto =? MQTT_PROTOCOL_VERSION_v5 then
    reason ← read_at msg_body 2 1;
    let '(properties, _, prop_len) := decode_properties msg 3 in
    let reason_code := nth 0 reason 0 in
    if negb (check_properties properties msg =? SUCCESS)
    then Some (PROTOCOL_ERROR, set_arrc pp (PubArrcHeader reason_code None 0), msg)
    else Some (SUCCESS, set_arrc pp (PubArrcHeader reason_code properties prop_len), msg)
  else Some (SUCCESS, pp, msg).

Definition decode_pub_message (msg : nng_msg) (pp : pub_packet_struct) (proto : Z)
  : option (Z * pub_packet_struct * nng_msg) :=
  let msg_len := blen (nng_msg_body msg) in
  let h := header_of_byte (nth 0 (nng_msg_header msg) 0) in
  let '(remain_len, remain_used_pos) := mqtt_get_remaining_length (nng_msg_header msg) in
  let pp := set_fixed pp (FixedHeader (fh_retain h) (fh_qos h) (fh_dup h) (fh_packet_type h)
                            remain_len) in
  if (msg_len <? remain_len) || (4 <? remain_used_pos) then Some (PROTOCOL_ERROR, pp, msg)
  else if fh_packet_type (pp_fixed pp) =? PUBLISH then decode_publish msg pp proto
  else if existsb (Z.eqb (fh_packet_type (pp_fixed pp))) [PUBACK; PUBREC; PUBREL; PUBCOMP]
  then decode_pub_arrc msg pp proto
  else Some (SUCCESS, pp, msg).

(** ** Encoding *)

(** case PUBLISH; [proto] is 0 unless the command type is a publish one *)
Definition encode_publish (dest_msg : nng_msg) (pp : pub_packet_struct) (proto : Z)
  : bool * nng_msg * pub_packet_struct :=
  let h := pp_fixed pp in
  let v := pp_publish pp in
  let h := FixedHeader (fh_retain h) (fh_qos h) (fh_dup h) PUBLISH (fh_remain_len h) in
  let pp := set_fixed pp h in
  let dest_msg := snd (nng_msg_header_append dest_msg [byte_of_header h]) in
  let dest_msg :=
    if 0 <? pb_topic_len v then
      let dest_msg := snd (nng_msg_append_u16 dest_msg (u16 (pb_topic_len v))) in
      snd (nng_msg_append dest_msg (take (Z.to_nat (pb_topic_len v)) (default [] (pb_topic v))))
    else dest_msg in
  let dest_msg :=
    if 0 <? fh_qos h then snd (nng_msg_append_u16 dest_msg (pp_packet_id pp)) else dest_msg in
  let '(rv, dest_msg) :=
    if proto =? MQTT_PROTOCOL_VERSION_v5
    then encode_properties dest_msg (pb_properties v) CMD_PUBLISH
    else (0, dest_msg) in
  if negb (rv =? 0) then (false, dest_msg, pp)
  else
    let dest_msg :=
      if 0 <? pp_payload_len pp
      then snd (nng_msg_append dest_msg
                  (take (Z.to_nat (pp_payload_len pp)) (default [] (pp_payload pp))))
      else dest_msg in
    let remain_len := u32 (blen (nng_msg_body dest_msg)) in
    let pp := set_fixed pp (FixedHeader (fh_retain h) (fh_qos h) (fh_dup h) PUBLISH remain_len) in
    let dest_msg := snd (nng_msg_header_append dest_msg (put_var_integer remain_len)) in
    let dest_msg :=
      if proto =? MQTT_PROTOCOL_VERSION_v5 then nng_mqttv5_msg_decode dest_msg else dest_msg in
    (true, dest_msg, pp).

(** cases PUBREL, PUBACK, PUBREC, PUBCOMP: the cases fall through, so the
    command type is set again on the way down *)
Definition encode_pub_arrc (dest_msg : nng_msg) (pp : pub_packet_struct) (cmd : Z)
  : bool * nng_msg * pub_packet_struct :=
  let dest_msg :=
    if cmd =? PUBREL then nng_msg_set_cmd_type dest_msg CMD_PUBREL else dest_msg in
  let dest_msg :=
    if (cmd =? PUBREL) || (cmd =? PUBACK)
    then nng_msg_set_cmd_type dest_msg CMD_PUBACK else dest_msg in
  let dest_msg :=
    if (cmd =? PUBREL) || (cmd =? PUBACK) || (cmd =? PUBREC)
    then nng_msg_set_cmd_type dest_msg CMD_PUBREC else dest_msg in
  let dest_msg := nng_msg_set_cmd_type dest_msg CMD_PUBCOMP in
  let h := FixedHeader 0 0 0 cmd 2 in
  let dest_msg := snd (nng_msg_header_append dest_msg [byte_of_header h]) in
  let dest_msg := snd (nng_msg_header_append dest_msg (put_var_integer (fh_remain_len h))) in
  let dest_msg := snd (nng_msg_append_u16 dest_msg (pp_packet_id pp)) in
  let dest_msg :=
    if 2 <? fh_remain_len h then snd (nng_msg_append dest_msg [0]) else dest_msg in
  (true, dest_msg, pp).

Definition encode_pub_message (dest_msg : option nng_msg) (pp : pub_packet_struct) (cmd : Z)
  : bool * option nng_msg * pub_packet_struct :=
  match dest_msg with
  | None => (false, None, pp)
  | Some dest_msg =>
      let dest_msg := nng_msg_header_clear (nng_msg_clear dest_msg) in
      let proto :=
        if nng_msg_cmd_type dest_msg =? CMD_PUBLISH_V5 then MQTT_PROTOCOL_VERSION_v5
        else if nng_msg_cmd_type dest_msg =? CMD_PUBLISH then MQTT_PROTOCOL_VERSION_v311
        else 0 in
      let '(ok, dest_msg, pp) :=
        if cmd =? PUBLISH then encode_publish dest_msg pp proto
        else if existsb (Z.eqb cmd) [PUBREL; PUBACK; PUBREC; PUBCOMP]
        then encode_pub_arrc dest_msg pp cmd
        else (true, dest_msg, pp) in
      (ok, Some dest_msg, pp)
  end.

(** ** The wire format of a PUBLISH packet *)

Context `{CL : !MqttConstLaws} `{ML : !NngMsgLaws} `{MA : !NngMsgAlloc}.
Context `{PL : !MqttParserLaws} `{PR : !PropertyLaws}.

Lemma body_append m b : nng_msg_body (snd (nng_msg_append m b)) = nng_msg_body m ++ b.
Proof. apply append_body, append_ok. Qed.
Lemma header_header_append m b :
  nng_msg_header (snd (nng_msg_header_append m b)) = nng_msg_header m ++ b.
Proof. apply header_append_header, header_append_ok. Qed.
Lemma body_append_u16 m v : 0 <= v < 65536 ->
  nng_msg_body (snd (nng_msg_append_u16 m v)) = nng_msg_body m ++ [v / 256; v mod 256].
Proof. intros. apply append_u16_body; [done | apply append_u16_ok]. Qed.

Record header_ok (h : fixed_header) : Prop := HeaderOk {
  ho_retain : 0 <= fh_retain h < 2;
  ho_qos : 0 <= fh_qos h < 4;
  ho_dup : 0 <= fh_dup h < 2
}.

(** What a publisher may put into a packet. *)
Record publish_ok (pp : pub_packet_struct) (t : bytes) : Prop := PublishOk {
  po_header : header_ok (pp_fixed pp);
  po_topic : pb_topic (pp_publish pp) = Some t;
  po_topic_len : pb_topic_len (pp_publish pp) = blen t;
  po_topic_range : t <> [] /\ blen t < 65536;
  po_utf8 : utf8_valid t = true;
  po_wildcard : has_wildcard t = false;
  po_id : 0 <= pp_packet_id pp < 65536;
  po_props : prop_ok (pb_properties (pp_publish pp));
  po_payload : pp_payload pp = None /\ pp_payload_len pp = 0 \/
               exists d, d <> [] /\ pp_payload pp = Some d /\ pp_payload_len pp = blen d
}.

Definition id_part (pp : pub_packet_struct) : bytes :=
  let i := pp_packet_id pp in
  if 0 <? fh_qos (pp_fixed pp) then [i / 256; i mod 256] else [].

Definition props_part (pp : pub_packet_struct) (proto : Z) : bytes :=
  if proto =? MQTT_PROTOCOL_VERSION_v5 then prop_bytes (pb_properties (pp_publish pp)) else [].

Definition payload_part (pp : pub_packet_struct) : bytes := default [] (pp_payload pp).

Definition wire (pp : pub_packet_struct) (t : bytes) (proto : Z) : bytes :=
  mqtt_str t ++ id_part pp ++ props_part pp proto ++ payload_part pp.

Definition wire_header (pp : pub_packet_struct) (t : bytes) (proto : Z) : bytes :=
  byte_of_header (FixedHeader (fh_retain (pp_fixed pp)) (fh_qos (pp_fixed pp))
                    (fh_dup (pp_fixed pp)) PUBLISH 0)
  :: put_var_integer (blen (wire pp t proto)).

Lemma publish_range : 0 <= PUBLISH < 16.
Proof. pose proof packet_types_range as H. by inversion H. Qed.

Lemma header_of_byte_of_header h :
  header_ok h -> 0 <= fh_packet_type h < 16 ->
  header_of_byte (byte_of_header h)
  = FixedHeader (fh_retain h) (fh_qos h) (fh_dup h) (fh_packet_type h) 0.
Proof.
  intros [Hr Hq Hd] Ht. unfold header_of_byte, byte_of_header.
  destruct h as [r q d t n]. cbn [fh_retain fh_qos fh_dup fh_packet_type] in *.
  assert (forall x, Z.land x 1 = x mod 2) as E1 by (intros; apply (Z.land_ones x 1); lia).
  assert (forall x, Z.land x 3 = x mod 4) as E2 by (intros; apply (Z.land_ones x 2); lia).
  assert (forall x, Z.land x 15 = x mod 16) as E3 by (intros; apply (Z.land_ones x 4); lia).
  rewrite !E1, E2, E3, !Z.shiftr_div_pow2 by lia.
  change (2 ^ 1) with 2. change (2 ^ 3) with 8. change (2 ^ 4) with 16.
  rewrite <- (Z.div_unique (r + 2 * q + 8 * d + 16 * t) 2 (q + 4 * d + 8 * t) r),
    <- (Z.div_unique (r + 2 * q + 8 * d + 16 * t) 8 (d + 2 * t) (r + 2 * q)),
    <- (Z.div_unique (r + 2 * q + 8 * d + 16 * t) 16 t (r + 2 * q + 8 * d)) by lia.
  rewrite <- (Z.mod_unique _ 2 (q + 4 * d + 8 * t) r), <- (Z.mod_unique _ 4 (d + 2 * t) q),
    <- (Z.mod_unique _ 2 t d), (Z.mod_small t 16) by lia.
  done.
Qed.

Lemma read_at_Some body pos n d :
  read_at body pos n = Some d <->
  0 <= pos /\ 0 <= n /\ pos + n <= blen body /\ d = take (Z.to_nat n) (drop (Z.to_nat pos) body).
Proof.
  unfold read_at. destruct (Z.leb_spec 0 pos), (Z.leb_spec 0 n), (Z.leb_spec (pos + n) (blen body)); cbn;
    (split; [intros [= <-] | intros (? & ? & ? & ->)]); done || lia.
Qed.

(** A read of what a body consists of. *)
Lemma read_at_app pre d post : read_at (pre ++ d ++ post) (blen pre) (blen d) = Some d.
Proof.
  apply read_at_Some. rewrite !blen_app. pose proof (blen_nonneg pre). pose proof (blen_nonneg d).
  pose proof (blen_nonneg post). split_and!; [lia..|].
  unfold blen. by rewrite !Nat2Z.id, drop_app_length, take_app_length.
Qed.

Lemma payload_part_len pp t : publish_ok pp t -> blen (payload_part pp) = pp_payload_len pp.
Proof.
  intros H. unfold payload_part.
  destruct (po_payload pp t H) as [[-> ->]|(d & _ & -> & ->)]; done.
Qed.

(** What [encode_publish] leaves in a cleared message. *)
Lemma encode_publish_wire m pp t proto :
  publish_ok pp t -> nng_msg_header m = [] -> nng_msg_body m = [] ->
  blen (wire pp t proto) < 268435456 ->
  exists m', encode_publish m pp proto
      = (true, m', set_fixed pp (FixedHeader (fh_retain (pp_fixed pp)) (fh_qos (pp_fixed pp))
                                   (fh_dup (pp_fixed pp)) PUBLISH (blen (wire pp t proto)))) /\
    nng_msg_header m' = wire_header pp t proto /\ nng_msg_body m' = wire pp t proto.
Proof.
  intros Hok Hh Hb Hsz. pose proof (payload_part_len pp t Hok) as Hpl.
  destruct Hok as [Hho Ht Htl [Htn Htr] Hu Hw Hid Hp Hpay]. unfold encode_publish.
  rewrite Ht, Htl. cbn [default fh_qos fh_retain fh_dup pp_payload_len pp_payload set_fixed].
  assert (0 < blen t) as Hpos by (unfold blen; destruct t; simpl; [done | lia]).
  rewrite (proj2 (Z.ltb_lt 0 (blen t)) Hpos).
  change (default [] (Some t)) with t. rewrite (take_ge t), u16_small by (unfold blen in *; lia).
  set (m1 := snd (nng_msg_append _ t)).
  assert (nng_msg_body m1 = mqtt_str t) as Hb1.
  { unfold m1. rewrite body_append, body_append_u16, header_append_body, Hb by lia. done. }
  assert (nng_msg_header m1 = [byte_of_header (FixedHeader (fh_retain (pp_fixed pp))
            (fh_qos (pp_fixed pp)) (fh_dup (pp_fixed pp)) PUBLISH 0)]) as Hh1.
  { unfold m1. rewrite append_header, append_u16_header, header_header_append, Hh. done. }
  clearbody m1.
  set (m2 := if 0 <? fh_qos (pp_fixed pp) then _ else m1).
  assert (nng_msg_body m2 = mqtt_str t ++ id_part pp /\ nng_msg_header m2 = nng_msg_header m1)
    as [Hb2 Hh2].
  { unfold m2, id_part. case_test; [|by rewrite app_nil_r].
    rewrite body_append_u16, append_u16_header, Hb1 by done. done. }
  clearbody m2.
  set (e := if proto =? MQTT_PROTOCOL_VERSION_v5 then _ else (0, m2)).
  assert (fst e = 0 /\ nng_msg_body (snd e) = nng_msg_body m2 ++ props_part pp proto /\
          nng_msg_header (snd e) = nng_msg_header m2) as (He & Hb3 & Hh3).
  { unfold e, props_part. case_test; [|by rewrite app_nil_r].
    rewrite encode_properties_ok, encode_properties_body, encode_properties_header by done. done. }
  clearbody e. destruct e as [rv m3]. cbn [fst snd] in *. subst rv. cbn [Z.eqb negb].
  set (m4 := if 0 <? pp_payload_len pp then _ else m3).
  assert (nng_msg_body m4 = wire pp t proto /\ nng_msg_header m4 = nng_msg_header m3) as [Hb4 Hh4].
  { unfold m4, wire. rewrite <- Hpl. destruct (Z.ltb_spec 0 (blen (payload_part pp))).
    - rewrite body_append, append_header, Hb3, Hb2. fold (payload_part pp).
      rewrite take_ge by (unfold blen; lia). by rewrite <- !app_assoc.
    - replace (payload_part pp) with ([] : bytes).
      + rewrite Hb3, Hb2, !app_nil_r, <- app_assoc. done.
      + destruct (payload_part pp); [done|]. rewrite blen_cons in *. pose proof (blen_nonneg l). lia. }
  clearbody m4. rewrite Hb4. pose proof (blen_nonneg (wire pp t proto)).
  rewrite u32_small by lia.
  eexists. split; [reflexivity|].
  set (m5 := snd (nng_msg_header_append m4 _)).
  assert (nng_msg_header m5 = wire_header pp t proto /\ nng_msg_body m5 = wire pp t proto) as [E1 E2].
  { unfold m5. rewrite header_header_append, header_append_body, Hh4, Hh3, Hh2, Hh1. done. }
  destruct (proto =? MQTT_PROTOCOL_VERSION_v5); rewrite ?v5_decode_header, ?v5_decode_body; done.
Qed.

(** What the receiver's packet holds. *)
Definition received (pp : pub_packet_struct) (t : bytes) (proto n : Z) : pub_packet_struct :=
  PubPacket (FixedHeader (fh_retain (pp_fixed pp)) (fh_qos (pp_fixed pp)) (fh_dup (pp_fixed pp))
               PUBLISH (blen (wire pp t proto)))
    (if 0 <? fh_qos (pp_fixed pp) then pp_packet_id pp else 0)
    (PublishHeader (Some t) (blen t)
       (if proto =? MQTT_PROTOCOL_VERSION_v5 then pb_properties (pp_publish pp) else None) n)
    (PubArrcHeader 0 None 0) (pp_payload pp) (pp_payload_len pp).

(** Decoding from the properties on, where the position is after [pre]. *)
Lemma decode_tail_payload m pp0 pp t proto pre :
  publish_ok pp t -> pp_payload pp0 = None ->
  pb_properties (pp_publish pp0) = None ->
  nng_msg_body m = pre ++ props_part pp proto ++ payload_part pp ->
  blen (nng_msg_body m) < 268435456 ->
  exists n m', decode_publish_tail m pp0 proto (blen pre)
    = Some (SUCCESS,
       set_payload (set_publish pp0 (set_props (pp_publish pp0)
          (if proto =? MQTT_PROTOCOL_VERSION_v5 then pb_properties (pp_publish pp) else None) n))
         (pp_payload pp) (pp_payload_len pp), m').
Proof.
  intros Hok H0 H0p Hb Hsz. pose proof (payload_part_len pp t Hok) as Hpl.
  unfold decode_publish_tail.
  set (e := if proto =? MQTT_PROTOCOL_VERSION_v5 then _ else _).
  assert (exists n, e = (false, set_publish pp0 (set_props (pp_publish pp0)
     (if proto =? MQTT_PROTOCOL_VERSION_v5 then pb_properties (pp_publish pp) else None) n),
     blen pre + blen (props_part pp proto))) as [n ->].
  { unfold e, props_part in *. destruct (proto =? MQTT_PROTOCOL_VERSION_v5).
    - destruct (decode_properties_spec m pre _ _ (po_props pp t Hok) Hb) as [n ->]. exists n.
      rewrite check_properties_ok by apply (po_props pp t Hok).
      by destruct (pb_properties (pp_publish pp)).
    - exists (pb_prop_len (pp_publish pp0)). rewrite Z.add_0_r, <- H0p.
      destruct pp0 as [? ? [] ? ? ?]. done. }
  exists n. rewrite <- Hpl.
  assert (blen (nng_msg_body m) = blen pre + blen (props_part pp proto) + blen (payload_part pp))
    as Hlen by (rewrite Hb, !blen_app; lia).
  pose proof (blen_nonneg pre). pose proof (blen_nonneg (props_part pp proto)).
  pose proof (blen_nonneg (payload_part pp)).
  destruct (Z.ltb_spec (blen (nng_msg_body m)) (blen pre + blen (props_part pp proto))); [lia|].
  rewrite u32_small by lia.
  replace (blen (nng_msg_body m) - _) with (blen (payload_part pp)) by lia.
  assert (read_at (nng_msg_body m) (blen pre + blen (props_part pp proto)) (blen (payload_part pp))
          = Some (payload_part pp)) as ->.
  { rewrite Hb, app_assoc, <- blen_app, <- (app_nil_r (payload_part pp)) at 1. apply read_at_app. }
  eexists. cbn [mbind option_bind]. unfold payload_part. destruct (po_payload pp t Hok) as [[-> _]|(d & Hd & -> & _)].
  - destruct pp0. cbn in *. by subst.
  - change (default [] (Some d)) with d. destruct (Z.ltb_spec 0 (blen d)); [reflexivity|].
    destruct d; [done|]. rewrite blen_cons in *. pose proof (blen_nonneg d). lia.
Qed.

Lemma wire_header_read pp t proto m :
  publish_ok pp t -> blen (wire pp t proto) < 268435456 ->
  nng_msg_header m = wire_header pp t proto ->
  header_of_byte (nth 0 (nng_msg_header m) 0)
  = FixedHeader (fh_retain (pp_fixed pp)) (fh_qos (pp_fixed pp)) (fh_dup (pp_fixed pp)) PUBLISH 0 /\
  mqtt_get_remaining_length (nng_msg_header m)
  = (blen (wire pp t proto), blen (put_var_integer (blen (wire pp t proto)))).
Proof.
  intros Hok Hsz ->. pose proof publish_range. pose proof (blen_nonneg (wire pp t proto)).
  destruct (po_header pp t Hok) as [Hr Hq Hd]. unfold wire_header. split.
  - cbn [nth]. by rewrite header_of_byte_of_header.
  - rewrite <- (app_nil_r (put_var_integer _)) at 1.
    apply varint_remaining; [lia|]. unfold byte_of_header, byte_ok. cbn. lia.
Qed.

Lemma decode_publish_wire pp t proto m pp0 :
  publish_ok pp t -> nng_msg_body m = wire pp t proto -> blen (wire pp t proto) < 268435456 ->
  pp_payload pp0 = None -> pp_packet_id pp0 = 0 -> pb_properties (pp_publish pp0) = None ->
  fh_qos (pp_fixed pp0) = fh_qos (pp_fixed pp) ->
  exists n m', decode_publish m pp0 proto
    = Some (SUCCESS, PubPacket (pp_fixed pp0) (if 0 <? fh_qos (pp_fixed pp) then pp_packet_id pp else 0)
        (PublishHeader (Some t) (blen t)
           (if proto =? MQTT_PROTOCOL_VERSION_v5 then pb_properties (pp_publish pp) else None) n)
        (pp_arrc pp0) (pp_payload pp) (pp_payload_len pp), m').
Proof.
  intros Hok Hb Hsz H0 H1 H2 Hq. unfold decode_publish.
  pose proof (po_topic_range pp t Hok) as [Htn Htr]. pose proof (blen_nonneg t).
  assert (blen (wire pp t proto)
          = 2 + blen t + blen (id_part pp ++ props_part pp proto ++ payload_part pp)) as Hl.
  { unfold wire. rewrite blen_app. unfold mqtt_str. rewrite blen_app. done. }
  pose proof (blen_nonneg (id_part pp ++ props_part pp proto ++ payload_part pp)).
  pose proof (copyn_complete [] t (id_part pp ++ props_part pp proto ++ payload_part pp)
    (blen (nng_msg_body m)) Htn Htr (po_utf8 pp t Hok) ltac:(rewrite Hb; lia)) as Hc.
  change ([] ++ mqtt_str t ++ _) with (wire pp t proto) in Hc. change (blen []) with 0 in Hc.
  rewrite <- Hb in Hc. rewrite Hc, u32_small, (po_wildcard pp t Hok) by lia.
  destruct (Z.leb_spec 0 (blen t)); [|lia]. cbn [negb].
  set (pp1 := set_publish (set_publish pp0 _) _).
  change (fh_qos (pp_fixed pp1)) with (fh_qos (pp_fixed pp0)). rewrite Hq.
  assert (0 + 2 + blen t = blen (mqtt_str t)) as -> by (unfold mqtt_str; rewrite blen_app; done).
  unfold wire in Hb. destruct (Z.ltb_spec 0 (fh_qos (pp_fixed pp))) as [Hq0|Hq0].
  - assert (id_part pp = [pp_packet_id pp / 256; pp_packet_id pp mod 256]) as Hid.
    { unfold id_part. by rewrite (proj2 (Z.ltb_lt _ _) Hq0). }
    rewrite Hid in *. clear Hid.
    destruct (Z.ltb_spec (blen (nng_msg_body m)) (blen (mqtt_str t) + 2)) as [Hc2|_].
    { rewrite Hb, !blen_app in Hc2. change (blen [_; _]) with 2 in Hc2.
      pose proof (blen_nonneg (props_part pp proto)). pose proof (blen_nonneg (payload_part pp)). lia. }
    replace (read_at _ _ 2) with (Some [pp_packet_id pp / 256; pp_packet_id pp mod 256])
      by (rewrite Hb; symmetry; apply (read_at_app (mqtt_str t) [_; _])).
    cbn [mbind option_bind].
    pose proof (get16_be (pp_packet_id pp) [] (po_id pp t Hok)) as Hg. rewrite app_nil_r in Hg. rewrite Hg.
    replace (blen (mqtt_str t) + 2) with
      (blen (mqtt_str t ++ [pp_packet_id pp / 256; pp_packet_id pp mod 256]))
      by (rewrite blen_app; done).
    rewrite app_assoc in Hb.
    destruct (decode_tail_payload m (set_packet_id pp1 (pp_packet_id pp)) pp t proto _ Hok H0 H2 Hb)
      as (n & m' & ->).
    + rewrite Hb, <- app_assoc. unfold wire, id_part in Hsz.
      by rewrite (proj2 (Z.ltb_lt _ _) Hq0) in Hsz.
    + by exists n, m'.
  - assert (id_part pp = []) as Hid.
    { unfold id_part. by rewrite (proj2 (Z.ltb_ge _ _) Hq0). }
    assert (blen (nng_msg_body m) < 268435456) by (unfold wire in Hsz; by rewrite Hb).
    rewrite Hid in Hb. cbn [app] in Hb.
    destruct (decode_tail_payload m pp1 pp t proto _ Hok H0 H2 Hb) as (n & m' & ->); [done|].
    exists n, m'. unfold pp1, set_payload, set_publish. cbn. by rewrite H1.
Qed.

(** [encode_pub_message] on any message. *)
Lemma encode_publish_cleared m pp t proto :
  publish_ok pp t ->
  (nng_msg_cmd_type m = CMD_PUBLISH_V5 /\ proto = MQTT_PROTOCOL_VERSION_v5 \/
   nng_msg_cmd_type m = CMD_PUBLISH /\ proto = MQTT_PROTOCOL_VERSION_v311) ->
  blen (wire pp t proto) < 268435456 ->
  exists m' pp', encode_pub_message (Some m) pp PUBLISH = (true, Some m', pp') /\
    nng_msg_header m' = wire_header pp t proto /\ nng_msg_body m' = wire pp t proto.
Proof.
  intros Hok Hproto Hsz. pose proof cmd_publish_distinct as Hcmd.
  set (m0 := nng_msg_header_clear (nng_msg_clear m)).
  destruct (encode_publish_wire m0 pp t proto Hok) as (m' & Henc & Hh & Hb).
  { apply header_clear_header. }
  { unfold m0. by rewrite header_clear_body, clear_body. }
  { done. }
  eexists m', _. split; [|done]. unfold encode_pub_message. fold m0. rewrite Z.eqb_refl.
  replace (if _ =? CMD_PUBLISH_V5 then _ else _) with proto; [by rewrite Henc|].
  unfold m0. rewrite header_clear_cmd, clear_cmd.
  destruct Hproto as [[-> ->]|[-> ->]]; [by rewrite Z.eqb_refl|].
  by rewrite (proj2 (Z.eqb_neq _ _) Hcmd), Z.eqb_refl.
Qed.

(** C6. Round trip: a PUBLISH packet encoded by [encode_pub_message] into a
    message whose command type selects MQTT 3.1.1 or 5 is decoded by
    [decode_pub_message] into the same flags, packet id (when QoS > 0), topic,
    properties (MQTT 5) and payload, with the remaining length on the wire. *)
Theorem publish_round_trip m pp t proto :
  publish_ok pp t ->
  (nng_msg_cmd_type m = CMD_PUBLISH_V5 /\ proto = MQTT_PROTOCOL_VERSION_v5 \/
   nng_msg_cmd_type m = CMD_PUBLISH /\ proto = MQTT_PROTOCOL_VERSION_v311) ->
  blen (wire pp t proto) < 268435456 ->
  exists m' pp' n m'', encode_pub_message (Some m) pp PUBLISH = (true, Some m', pp') /\
    decode_pub_message m' zero_packet proto = Some (SUCCESS, received pp t proto n, m'').
Proof.
  intros Hok Hproto Hsz.
  destruct (encode_publish_cleared m pp t proto Hok Hproto Hsz) as (m' & pp' & Henc & Hh & Hb).
  destruct (wire_header_read pp t proto m' Hok Hsz Hh) as [Hhd Hrl].
  destruct (decode_publish_wire pp t proto m'
    (set_fixed zero_packet (FixedHeader (fh_retain (pp_fixed pp)) (fh_qos (pp_fixed pp))
      (fh_dup (pp_fixed pp)) PUBLISH (blen (wire pp t proto)))) Hok Hb Hsz) as (n & m'' & Hdec); try done.
  exists m', pp', n, m''. split; [done|].
  unfold decode_pub_message. rewrite Hhd, Hrl, Hb, Z.ltb_irrefl.
  destruct (Z.ltb_spec 4 (blen (put_var_integer (blen (wire pp t proto))))) as [Hv|_].
  { pose proof (varint_len (blen (wire pp t proto))). pose proof (blen_nonneg (wire pp t proto)). lia. }
  cbn [orb pp_fixed set_fixed fh_retain fh_qos fh_dup fh_packet_type].
  by rewrite Z.eqb_refl.
Qed.

(** What the tail leaves: it reads nothing outside the body. *)
Lemma decode_tail_safe m pp proto pos :
  0 <= pos -> blen (nng_msg_body m) < 4294967296 ->
  exists rc pp' m', decode_publish_tail m pp proto pos = Some (rc, pp', m') /\
  (rc = SUCCESS ->
  pb_topic (pp_publish pp') = pb_topic (pp_publish pp) /\ pp_packet_id pp' = pp_packet_id pp /\
  pp_fixed pp' = pp_fixed pp /\
  exists pos', pos <= pos' <= blen (nng_msg_body m) /\
    (proto <> MQTT_PROTOCOL_VERSION_v5 -> pos' = pos) /\
    pp_payload_len pp' = blen (nng_msg_body m) - pos' /\
    (pp_payload_len pp' = 0 /\ pp_payload pp' = pp_payload pp \/
     pp_payload pp' = Some (drop (Z.to_nat pos') (nng_msg_body m))) /\
    m' = nng_msg_set_payload_ptr m pos').
Proof.
  intros Hpos Hlen. unfold decode_publish_tail.
  set (e := if proto =? MQTT_PROTOCOL_VERSION_v5 then _ else _).
  assert (pb_topic (pp_publish (snd (fst e))) = pb_topic (pp_publish pp) /\
          pp_packet_id (snd (fst e)) = pp_packet_id pp /\ pp_fixed (snd (fst e)) = pp_fixed pp /\
          pp_payload (snd (fst e)) = pp_payload pp /\ pos <= snd e /\
          (proto <> MQTT_PROTOCOL_VERSION_v5 -> snd e = pos)) as (Ht & Hi & Hf & Hp & Hq & Hv).
  { unfold e. destruct (Z.eqb_spec proto MQTT_PROTOCOL_VERSION_v5) as [E|]; [|done].
    pose proof (decode_properties_pos m pos Hpos).
    destruct (decode_properties m pos) as [[[p|] q] n]; [case_test|]; split_and!; try done; by intros []. }
  destruct e as [[failed pp1] q]. cbn [fst snd] in *.
  pose proof SUCCESS_0 as H0. pose proof failures_nonzero as Hn.
  rewrite !Forall_cons in Hn. destruct Hn as (_ & _ & HP & _).
  destruct failed; [eexists _, _, _; split; [reflexivity|congruence]|].
  case_test; [eexists _, _, _; split; [reflexivity|congruence]|].
  rewrite u32_small by lia. case_test.
  - destruct (read_at (nng_msg_body m) q (blen (nng_msg_body m) - q)) as [d|] eqn:Hr.
    + apply read_at_Some in Hr as (_ & _ & _ & ->). eexists _, _, _. split; [reflexivity|]. intros _.
      split_and!; [done..|]. exists q. split_and!; [lia..|done| |right|done]; [done|].
      cbn. f_equal. rewrite take_ge; [done|]. rewrite length_drop. unfold blen. lia.
    + exfalso. assert (forall d, read_at (nng_msg_body m) q (blen (nng_msg_body m) - q) <> Some d) as Hno
        by (by rewrite Hr).
      eapply Hno. apply read_at_Some. split_and!; [lia..|reflexivity].
  - eexists _, _, _. split; [reflexivity|]. intros _. split_and!; [done..|].
    exists q. split_and!; [lia..|done| |left|done]; [done|]. split; [cbn; lia|done].
Qed.


(** An acknowledgement is not checked that way: the packet id of one that is
    shorter than two bytes is read outside the body.  The callers pass publishes
    only. *)
Theorem decode_ack_unchecked m pp proto :
  fh_packet_type (header_of_byte (nth 0 (nng_msg_header m) 0)) ∈ [PUBACK; PUBREC; PUBREL; PUBCOMP] ->
  fst (mqtt_get_remaining_length (nng_msg_header m)) <= blen (nng_msg_body m) ->
  snd (mqtt_get_remaining_length (nng_msg_header m)) <= 4 ->
  blen (nng_msg_body m) < 2 ->
  decode_pub_message m pp proto = None.
Proof.
  intros Hty Hrl Hu Hlen. unfold decode_pub_message.
  destruct (mqtt_get_remaining_length (nng_msg_header m)) as [rl used]. cbn [fst snd] in *.
  destruct (Z.ltb_spec (blen (nng_msg_body m)) rl); [lia|]. destruct (Z.ltb_spec 4 used); [lia|].
  cbn [orb pp_fixed set_fixed fh_packet_type]. set (ty := fh_packet_type _) in *.
  assert ((ty =? PUBLISH) = false) as ->.
  { apply Z.eqb_neq. intros E. rewrite E in Hty. pose proof packet_types_distinct as Hd.
    rewrite NoDup_cons in Hd. destruct Hd as [Hd _]. apply Hd. rewrite !elem_of_cons in *. naive_solver. }
  assert (existsb (Z.eqb ty) [PUBACK; PUBREC; PUBREL; PUBCOMP] = true) as ->.
  { apply existsb_exists. exists ty. split; [by apply list_elem_of_In | apply Z.eqb_refl]. }
  unfold decode_pub_arrc, read_at. change (0 + 2) with 2.
  destruct (Z.leb_spec 2 (blen (nng_msg_body m))); [lia|]. by rewrite andb_false_r.
Qed.

(** A topic the UTF-8 check rejects is not rejected by the decoder: the
    length is unsigned, so [len >= 0] always holds, and an MQTT 3.1.1 PUBLISH
    with QoS 0 whose topic has the length -1 and no body is accepted with no
    topic and topic length 4294967295. *)
Theorem decode_invalid_topic_accepted m pp pos :
  fh_packet_type (header_of_byte (nth 0 (nng_msg_header m) 0)) = PUBLISH ->
  fh_qos (header_of_byte (nth 0 (nng_msg_header m) 0)) = 0 ->
  fst (mqtt_get_remaining_length (nng_msg_header m)) = blen (nng_msg_body m) ->
  snd (mqtt_get_remaining_length (nng_msg_header m)) <= 4 ->
  copyn_utf8_str (nng_msg_body m) 0 (blen (nng_msg_body m)) = (None, pos, -1) ->
  pos <= blen (nng_msg_body m) ->
  blen (nng_msg_body m) < 4294967296 -> 0 <= pos ->
  exists pp' m', decode_pub_message m pp MQTT_PROTOCOL_VERSION_v311 = Some (SUCCESS, pp', m') /\
    pb_topic (pp_publish pp') = None /\ pb_topic_len (pp_publish pp') = 4294967295.
Proof.
  intros Hty Hq Hrl Hused Hc Hpos Hsz Hpos0. pose proof versions_distinct as Hv.
  rewrite !NoDup_cons in Hv. destruct Hv as (_ & Hv & _). rewrite list_elem_of_singleton in Hv.
  unfold decode_pub_message. destruct (mqtt_get_remaining_length (nng_msg_header m)) as [rl used].
  cbn [fst snd] in *. subst rl. rewrite Z.ltb_irrefl.
  destruct (Z.ltb_spec 4 used); [lia|].
  cbn [orb pp_fixed set_fixed fh_packet_type]. rewrite Hty, Z.eqb_refl.
  unfold decode_publish. rewrite Hc. change (u32 (-1)) with 4294967295.
  cbn [Z.leb Z.compare negb pp_fixed set_fixed set_publish fh_qos]. rewrite Hq. cbn [Z.ltb Z.compare].
  unfold decode_publish_tail. rewrite (proj2 (Z.eqb_neq _ _) Hv).
  destruct (Z.ltb_spec (blen (nng_msg_body m)) pos); [lia|]. rewrite u32_small by lia.
  case_test; [|eexists _, _; by split].
  assert (exists d, read_at (nng_msg_body m) pos (blen (nng_msg_body m) - pos) = Some d) as [d ->]
    by (eexists; apply read_at_Some; split_and!; [lia..|reflexivity]).
  eexists _, _. by split.
Qed.

(** The acknowledgements: for every acknowledgement type the encoder
    writes the type with flag bits 0, remaining length 2 and the packet id, and
    the cases fall through, so that the command type is always PUBCOMP's. *)
Theorem encode_ack_correct m pp cmd :
  cmd ∈ [PUBREL; PUBACK; PUBREC; PUBCOMP] -> 0 <= pp_packet_id pp < 65536 ->
  exists m', encode_pub_message (Some m) pp cmd = (true, Some m', pp) /\
    nng_msg_header m' = 16 * cmd :: put_var_integer 2 /\
    nng_msg_body m' = [pp_packet_id pp / 256; pp_packet_id pp mod 256] /\
    nng_msg_cmd_type m' = CMD_PUBCOMP.
Proof.
  intros Hcmd Hid. unfold encode_pub_message.
  assert ((cmd =? PUBLISH) = false) as ->.
  { apply Z.eqb_neq. intros ->. pose proof packet_types_distinct as Hd.
    rewrite NoDup_cons in Hd. destruct Hd as [Hd _]. apply Hd.
    rewrite !elem_of_cons in *. naive_solver. }
  assert (existsb (Z.eqb cmd) [PUBREL; PUBACK; PUBREC; PUBCOMP] = true) as ->.
  { apply existsb_exists. exists cmd. split; [by apply list_elem_of_In | apply Z.eqb_refl]. }
  unfold encode_pub_arrc. cbn [fh_remain_len]. change (2 <? 2) with false. cbv iota.
  set (m1 := if (cmd =? PUBREL) || (cmd =? PUBACK) || (cmd =? PUBREC) then _ else _).
  assert (nng_msg_header m1 = [] /\ nng_msg_body m1 = []) as [Hh Hb].
  { unfold m1. repeat case_test; rewrite ?set_cmd_header, ?set_cmd_body, header_clear_header,
      header_clear_body, clear_body; done. }
  eexists. split; [reflexivity|].
  rewrite append_u16_header, !header_header_append, set_cmd_header, Hh,
    body_append_u16, !header_append_body, set_cmd_body, Hb by done.
  rewrite append_u16_cmd, !header_append_cmd, set_cmd_cmd. done.
Qed.

End Codec.


(** ** Witnesses on the model of the library *)

Import Model.

Definition sample_packet : pub_packet_struct :=
  PubPacket (FixedHeader 1 1 0 0 0) 258 (PublishHeader (Some (c!"a/b")) 3 (Some (7 : @property msgs)) 3)
    (PubArrcHeader 0 None 0) (Some (c!"hello")) 5.

Lemma sample_packet_ok : publish_ok sample_packet (c!"a/b").
Proof.
  constructor; try done. right. by exists (c!"hello").
Qed.

Definition empty_msg (cmd : Z) : nng_msg := Msg [] [] cmd None.

Lemma publish_round_trip_witness :
  exists m' pp' n m'',
    encode_pub_message (Some (empty_msg CMD_PUBLISH_V5)) sample_packet PUBLISH
      = (true, Some m', pp') /\
    decode_pub_message m' zero_packet MQTT_PROTOCOL_VERSION_v5
      = Some (SUCCESS, received sample_packet (c!"a/b") MQTT_PROTOCOL_VERSION_v5 n, m'').
Proof.
  apply (publish_round_trip (empty_msg CMD_PUBLISH_V5) sample_packet (c!"a/b")
           MQTT_PROTOCOL_VERSION_v5).
  - apply sample_packet_ok.
  - by left.
  - vm_compute. done.
Defined.

(** A QoS 0 PUBLISH on topic "t" with payload "x". *)
Definition sample_msg : nng_msg := Msg [48; 4] [0; 1; 116; 120] CMD_PUBLISH None.


(** A PUBACK of one byte. *)
Lemma decode_ack_unchecked_witness :
  decode_pub_message (Msg [64; 1] [7] CMD_PUBACK None) zero_packet MQTT_PROTOCOL_VERSION_v311 = None.
Proof.
  apply decode_ack_unchecked; [|vm_compute; done..]. cbn. rewrite elem_of_cons. by left.
Defined.

(** The same with the byte 0xC8 as topic, which is not UTF-8. *)
Definition bad_topic_msg : nng_msg := Msg [48; 4] [0; 1; 200; 120] CMD_PUBLISH None.

Lemma decode_invalid_topic_accepted_witness :
  exists pp' m', decode_pub_message bad_topic_msg
      zero_packet MQTT_PROTOCOL_VERSION_v311 = Some (SUCCESS, pp', m') /\
    pb_topic (pp_publish pp') = None /\ pb_topic_len (pp_publish pp') = 4294967295.
Proof.
  apply (decode_invalid_topic_accepted bad_topic_msg zero_packet 2); try reflexivity; vm_compute; done.
Defined.

Lemma encode_ack_correct_witness :
  exists m', encode_pub_message (Some (empty_msg 0)) sample_packet PUBREL
      = (true, Some m', sample_packet) /\
    nng_msg_header m' = [96; 2] /\ nng_msg_body m' = [1; 2] /\ nng_msg_cmd_type m' = CMD_PUBCOMP.
Proof.
  destruct (encode_ack_correct (empty_msg 0) sample_packet PUBREL) as (m' & H1 & H2 & H3 & H4).
  - rewrite elem_of_cons. by left.
  - cbn. lia.
  - by exists m'.
Defined.

End PubCodec.
