(* ===== verification/SubHandler.v ===== *)
(** * SUBSCRIBE packets and the subscription registry
    (nanomq/sub_handler.c, nanomq/include/sub_handler.h)

    [decode_sub_msg] turns a message into the list of topic nodes of
    [work->sub_pkt], [sub_ctx_handle] registers them in the topic tree and the
    client table and collects retained messages, [encode_suback_msg] answers,
    [sub_ctx_del] and [destroy_sub_client] take registrations back.  The
    registry's promise is that the table of a client's topics and the topic
    tree agree ([registry_ok]). *)

From S2P Require Import Prelude NngApi NngModel Acl.

Module SubHandler.

Import Acl.

(** ** Data *)

(** struct topic_node: the byte of subscription options, the topic (a
    [struct mqtt_string]) and the reason code; the [next] pointers are the
    list structure, and NULL is the empty list. *)
Record topic_node := TopicNode {
  tn_options : Z;
  tn_body : option bytes;
  tn_len : Z;
  tn_reason_code : Z
}.

Section Handler.

Context `{C : MqttConst} `{M : NngMsg} `{P : MqttParser}.

(** struct packet_subscribe *)
Record packet_subscribe := PacketSubscribe {
  sp_packet_id : Z;
  sp_prop_len : Z;
  sp_properties : option property;
  sp_node : list topic_node
}.

Definition set_reason (tn : topic_node) (rc : Z) : topic_node :=
  TopicNode (tn_options tn) (tn_body tn) (tn_len tn) rc.

(** FREE_SUB_PROPERTIES *)
Definition FREE_SUB_PROPERTIES (pkt : packet_subscribe) : packet_subscribe :=
  match sp_properties pkt with
  | Some _ => PacketSubscribe (sp_packet_id pkt) 0 None (sp_node pkt)
  | None => pkt
  end.

(** ** Decoding *)

(** Offset of the first [c] in [s], as [strchr(s, c) - s]. *)
Definition strchr_off (s : bytes) (c : Z) : option Z :=
  (fun t => blen s - blen t) <$> strchr s c.

(** The checks on what follows "$share/": the group name ends at the first
    '/', neither it nor the filter after it is empty, no wildcard in it. *)
Definition share_name_error (rest : bytes) : option Z :=
  match strchr rest 47 with
  | None => Some MALFORMED_PACKET
  | Some name_end =>
      let e := blen rest - blen name_end in
      if (e =? 0) || (nth 1 name_end 0 =? 0) then Some MALFORMED_PACKET
      else
        let before mark := match mark with Some k => k <? e | None => false end in
        if before (strchr_off rest 35) || before (strchr_off rest 43)
        then Some PAYLOAD_FORMAT_INVALID
        else None
  end.

(** The checks on a "$share/" topic; the reason code of the failed one. *)
Definition share_error (proto_ver : Z) (options : Z) (body : bytes) (len : Z) : option Z :=
  if strncmp0 body (c!"$share/") 7 then
    if (proto_ver =? MQTT_PROTOCOL_VERSION_v5) && (tn_no_local options =? 1)
    then Some PAYLOAD_FORMAT_INVALID
    else if len <=? 8 then Some PAYLOAD_FORMAT_INVALID
    else share_name_error (drop 7 body)
  else None.

(** The node nng_zalloc returns, with the default reason code. *)
Definition fresh_node : topic_node := TopicNode 0 None 0 GRANTED_QOS_2.

(** The payload loop.  [zalloc k] is whether the [k]-th allocation of a topic
    node succeeds, [done] the nodes already linked before [tn].  [None] is
    running out of fuel. *)
Fixpoint sub_loop (fuel : nat) (zalloc : nat -> bool) (k : nat) (proto_ver : Z)
    (payload : bytes) (payload_len ppos : Z) (linked : list topic_node)
  : option (Z * list topic_node) :=
  match fuel with
  | O => None
  | S fuel' =>
      let tn := fresh_node in
      if payload_len <=? ppos then Some (0, linked ++ [tn])
      else
        let limit := i32 (payload_len - ppos) in
        let '(body, ppos, len) := copyn_utf8_str payload ppos limit in
        let tn := TopicNode 0 body len GRANTED_QOS_2 in
        match body with
        | Some b =>
            if len <? 1 then
              if proto_ver =? MQTT_PROTOCOL_VERSION_v5
              then Some (PROTOCOL_ERROR, linked ++ [set_reason tn MALFORMED_PACKET])
              else Some (UNSPECIFIED_ERROR, linked ++ [set_reason tn UNSPECIFIED_ERROR])
            else if payload_len <=? ppos
            then Some (PROTOCOL_ERROR, linked ++ [set_reason tn MALFORMED_PACKET])
            else
              let options := nth (Z.to_nat ppos) payload 0 in
              let tn := TopicNode options body len GRANTED_QOS_2 in
              if 2 <? tn_retain_handling options
              then Some (PROTOCOL_ERROR, linked ++ [set_reason tn PROTOCOL_ERROR])
              else
                let ppos := ppos + 1 in
                match share_error proto_ver options b len with
                | Some rc => Some (PROTOCOL_ERROR, linked ++ [set_reason tn rc])
                | None =>
                    if ppos <? payload_len then
                      if zalloc k
                      then sub_loop fuel' zalloc (S k) proto_ver payload payload_len ppos
                             (linked ++ [tn])
                      else Some (NNG_ENOMEM, linked ++ [tn])
                    else Some (0, linked ++ [tn])
                end
        | None =>
            if proto_ver =? MQTT_PROTOCOL_VERSION_v5
            then Some (PROTOCOL_ERROR, linked ++ [set_reason tn MALFORMED_PACKET])
            else Some (UNSPECIFIED_ERROR, linked ++ [set_reason tn UNSPECIFIED_ERROR])
        end
  end.

(** decode_sub_msg: [msg] and [sub_pkt] are [work->msg] and [work->sub_pkt].
    A topic takes at least four bytes, so the length of the payload bounds the
    iterations. *)
Definition decode_sub_msg (zalloc : nat -> bool) (msg : option nng_msg) (proto_ver : Z)
    (sub_pkt : option packet_subscribe) : option (Z * option packet_subscribe) :=
  match msg, sub_pkt with
  | Some msg, Some _ =>
      let remaining_len := blen (nng_msg_body msg) in
      let packet_id := NNI_GET16 (nng_msg_body msg) in
      let pkt := PacketSubscribe packet_id 0 None [] in
      if packet_id =? 0 then Some (PROTOCOL_ERROR, Some pkt)
      else
        let '(pkt, bpos, failed) :=
          if proto_ver =? MQTT_PROTOCOL_VERSION_v5 then
            let '(properties, bpos, prop_len) := decode_properties msg 2 in
            (PacketSubscribe packet_id prop_len properties [], bpos,
             negb (check_properties properties msg =? SUCCESS))
          else (pkt, 2, false) in
        if (failed : bool) then Some (PROTOCOL_ERROR, Some (FREE_SUB_PROPERTIES pkt))
        else
          match nng_msg_payload_ptr msg with
          | None => Some (PROTOCOL_ERROR, Some (FREE_SUB_PROPERTIES pkt))
          | Some payload =>
              if negb (zalloc 0%nat) then Some (NNG_ENOMEM, Some (FREE_SUB_PROPERTIES pkt))
              else
                let with_node node :=
                  PacketSubscribe (sp_packet_id pkt) (sp_prop_len pkt) (sp_properties pkt) node in
                if remaining_len <? bpos
                then Some (PROTOCOL_ERROR, Some (with_node [TopicNode 0 None 0 0]))
                else
                  let payload_len := remaining_len - bpos in
                  match sub_loop (S (Z.to_nat payload_len)) zalloc 1 proto_ver payload
                          payload_len 0 [] with
                  | None => None
                  | Some (rc, node) => Some (rc, Some (with_node node))
                  end
          end
  | _, _ => Some (PROTOCOL_ERROR, sub_pkt)
  end.

(** ** SUBACK *)

(** The reason codes appended one by one; stops at the first failure. *)
Fixpoint append_codes (msg : nng_msg) (codes : list Z) : Z * nng_msg :=
  match codes with
  | [] => (0, msg)
  | rc :: codes' =>
      let '(rv, msg) := nng_msg_append msg [u8 rc] in
      if negb (rv =? 0) then (rv, msg) else append_codes msg codes'
  end.

Definition node_code (tn : topic_node) : Z :=
  if tn_reason_code tn =? GRANTED_QOS_2 then tn_qos (tn_options tn) else tn_reason_code tn.

Definition encode_suback_msg (msg : nng_msg) (sub_pkt : option packet_subscribe) (proto_ver : Z)
  : Z * nng_msg :=
  let msg := nng_msg_clear (nng_msg_header_clear msg) in
  match sub_pkt with
  | None => (-1, msg)
  | Some pkt =>
      let id := sp_packet_id pkt in
      let '(rv, msg) := nng_msg_append msg [id / 256; id mod 256] in
      if negb (rv =? 0) then (PROTOCOL_ERROR, msg)
      else
        let msg :=
          if MQTT_PROTOCOL_VERSION_v5 =? proto_ver
          then snd (encode_properties msg None CMD_SUBACK) else msg in
        let '(rv, msg) :=
          append_codes msg (if id =? 0 then [PACKET_IDENTIFIER_IN_USE] else []) in
        if negb (rv =? 0) then (PROTOCOL_ERROR, msg)
        else
          let '(rv, msg) := append_codes msg (map node_code (sp_node pkt)) in
          if negb (rv =? 0) then (PROTOCOL_ERROR, msg)
          else
            let '(rv, msg) :=
              append_codes msg
                (if match sp_node pkt with [] => true | _ => false end && negb (id =? 0)
                 then [UNSPECIFIED_ERROR] else []) in
            if negb (rv =? 0) then (PROTOCOL_ERROR, msg)
            else
              let '(rv, msg) := nng_msg_header_append msg [u8 CMD_SUBACK] in
              if negb (rv =? 0) then (PROTOCOL_ERROR, msg)
              else
                let remaining_len := u32 (blen (nng_msg_body msg)) in
                let '(rv, msg) := nng_msg_header_append msg (put_var_integer remaining_len) in
                if negb (rv =? 0) then (PROTOCOL_ERROR, msg) else (0, msg)
  end.

(** ** What decoding accepts

    A subscription on the wire is a topic filter string and an option byte. *)

Context `{CL : !MqttConstLaws} `{ML : !NngMsgLaws} `{MA : !NngMsgAlloc}.
Context `{PL : !MqttParserLaws} `{PR : !PropertyLaws}.

Definition sub_wire (s : bytes * Z) : bytes := mqtt_str (fst s) ++ [snd s].

(** A shared subscription names a group without wildcards and a filter. *)
Definition share_name_ok (rest : bytes) : Prop :=
  exists name filter, rest = name ++ (47 :: filter) /\ name <> [] /\ filter <> [] /\
    Forall (fun c => c <> 47 /\ c <> 35 /\ c <> 43) name.

Definition share_ok (t : bytes) : Prop :=
  forall rest, t = c!"$share/" ++ rest -> share_name_ok rest.

Record valid_sub (proto_ver : Z) (s : bytes * Z) : Prop := ValidSub {
  vs_nonempty : fst s <> [];
  vs_len : blen (fst s) < 65536;
  vs_utf8 : utf8_valid (fst s) = true;
  vs_rh : tn_retain_handling (snd s) <= 2;
  vs_share : share_ok (fst s);
  vs_no_local : proto_ver = MQTT_PROTOCOL_VERSION_v5 -> tn_no_local (snd s) = 1 ->
                forall rest, fst s <> c!"$share/" ++ rest
}.

(** The node of an accepted subscription. *)
Definition granted (s : bytes * Z) : topic_node :=
  TopicNode (snd s) (Some (fst s)) (blen (fst s)) GRANTED_QOS_2.

Lemma strncmp0_share t :
  strncmp0 t (c!"$share/") 7 = true <-> exists rest, t = c!"$share/" ++ rest.
Proof.
  unfold strncmp0. rewrite bool_decide_eq_true. change (Z.to_nat 7) with 7%nat.
  rewrite (take_ge (c!"$share/")) by (cbn; lia). split.
  - intros H. exists (drop 7 t). by rewrite <- H, take_drop.
  - intros [rest ->]. done.
Qed.

Lemma strchr_off_before s c name rest k :
  s = name ++ (47 :: rest) -> 47 ∉ name -> c <> 47 ->
  (match strchr_off s c with Some i => i <? blen name | None => false end) = k ->
  k = true <-> c ∈ name.
Proof.
  intros -> Hn Hc <-. unfold strchr_off.
  destruct (strchr (name ++ 47 :: rest) c) as [t|] eqn:E.
  - cbn [fmap option_fmap option_map]. rewrite Z.ltb_lt.
    apply strchr_Some in E as (pre & post & E & -> & Hp).
    assert (blen (name ++ 47 :: rest) - blen (c :: post) = blen pre) as ->
      by (rewrite E, blen_app; lia).
    apply app_eq_inv in E as [(l & -> & E)|(l & -> & E)].
    + destruct l as [|x l]; [cbn in E; congruence|]. injection E as <- _.
      rewrite blen_app, blen_cons, elem_of_app, elem_of_cons. pose proof (blen_nonneg l).
      split; [by auto | lia].
    + rewrite blen_app. pose proof (blen_nonneg l). rewrite elem_of_app in Hp.
      split; [lia | naive_solver].
  - apply strchr_None in E. rewrite elem_of_app in E. split; [done | naive_solver].
Qed.

Lemma first_slash_unique (n1 f1 n2 f2 : bytes) :
  n1 ++ (47 :: f1) = n2 ++ (47 :: f2) -> 47 ∉ n1 -> 47 ∉ n2 -> n1 = n2 /\ f1 = f2.
Proof.
  intros E H1 H2. apply app_eq_inv in E as [(l & -> & E)|(l & -> & E)]; destruct l as [|x l];
    cbn in E; injection E as <-; try (rewrite app_nil_r; done); exfalso.
  - apply H1. rewrite elem_of_app, elem_of_cons. auto.
  - apply H2. rewrite elem_of_app, elem_of_cons. auto.
Qed.

Lemma name_chars name :
  Forall (fun c => c <> 47 /\ c <> 35 /\ c <> 43) name <->
  (47 ∉ name) /\ (35 ∉ name) /\ (43 ∉ name).
Proof.
  rewrite Forall_forall. split.
  - intros H. split_and!; intros Hin; apply H in Hin; naive_solver.
  - intros (H1 & H2 & H3) c Hc. split_and!; intros ->; done.
Qed.

Lemma share_name_error_spec rest :
  (0 : Z) ∉ rest -> share_name_error rest = None <-> share_name_ok rest.
Proof.
  intros Hnul. unfold share_name_error, share_name_ok.
  destruct (strchr rest 47) as [name_end|] eqn:Hc.
  2: { split; [done|]. intros (name & f & -> & _). apply strchr_None in Hc.
       rewrite elem_of_app, elem_of_cons in Hc. naive_solver. }
  apply strchr_Some in Hc as (name & f & Hr & -> & Hn47).
  assert (blen rest - blen (47 :: f) = blen name) as -> by (rewrite Hr, blen_app; lia).
  assert ((exists n g, rest = n ++ (47 :: g) /\ n <> [] /\ g <> [] /\
      Forall (fun c => c <> 47 /\ c <> 35 /\ c <> 43) n) <->
      name <> [] /\ f <> [] /\ (35 ∉ name) /\ (43 ∉ name)) as ->.
  { setoid_rewrite name_chars. split.
    - intros (n & g & E & ? & ? & ? & ? & ?). rewrite Hr in E.
      destruct (first_slash_unique name f n g) as [-> ->]; done.
    - intros (? & ? & ? & ?). exists name, f. done. }
  pose proof (strchr_off_before rest 35 name f _ Hr Hn47 ltac:(lia) eq_refl) as H35.
  pose proof (strchr_off_before rest 43 name f _ Hr Hn47 ltac:(lia) eq_refl) as H43.
  assert ((blen name =? 0) || (nth 1 (47 :: f) 0 =? 0) = true <-> name = [] \/ f = []) as H0.
  { rewrite orb_true_iff, !Z.eqb_eq. destruct name; [naive_solver|].
    rewrite blen_cons. pose proof (blen_nonneg name). cbn [nth].
    destruct f as [|x f]; [naive_solver|]. split; [|naive_solver].
    intros [?|Hx]; [lia|]. exfalso. apply Hnul. cbn in Hx. rewrite Hr, Hx.
    rewrite elem_of_app, !elem_of_cons. auto. }
  cbv zeta. destruct (_ || _).
  { split; [done|]. intros (Hn & Hf & _). by destruct (proj1 H0 eq_refl). }
  assert (name <> [] /\ f <> []) as [Hn Hf].
  { split; intros E; discriminate (proj2 H0); auto. }
  destruct (match strchr_off rest 35 with Some _ => _ | None => _ end).
  { split; [done|]. intros (_ & _ & Hx & _). by destruct Hx, H35; auto. }
  destruct (match strchr_off rest 43 with Some _ => _ | None => _ end).
  { split; [done|]. intros (_ & _ & _ & Hx). by destruct Hx, H43; auto. }
  split; [|done]. intros _. split_and!; [done|done|intros Hx; by apply H35 in Hx|].
  intros Hx. by apply H43 in Hx.
Qed.

(** The checks accept exactly the well-formed shared subscriptions. *)
Lemma share_error_spec proto_ver options t :
  (0 : Z) ∉ t ->
  share_error proto_ver options t (blen t) = None <->
  share_ok t /\ (proto_ver = MQTT_PROTOCOL_VERSION_v5 -> tn_no_local options = 1 ->
                 forall rest, t <> c!"$share/" ++ rest).
Proof.
  intros Hnul. unfold share_error. destruct (strncmp0 t (c!"$share/") 7) eqn:Hs.
  2: { assert (forall rest, t <> c!"$share/" ++ rest) as Hn.
       { intros rest E. assert (strncmp0 t (c!"$share/") 7 = true) by (apply strncmp0_share; eauto).
         congruence. }
       split; [|done]. intros _. split; [intros rest E; by destruct (Hn rest) | done]. }
  apply strncmp0_share in Hs as [rest ->].
  assert (share_ok (c!"$share/" ++ rest) <-> share_name_ok rest) as ->.
  { unfold share_ok. split; [intros H; by apply H|].
    intros H r E. apply app_inv_head in E as <-. done. }
  change (drop 7 (c!"$share/" ++ rest)) with rest.
  destruct ((proto_ver =? _) && (tn_no_local options =? 1)) eqn:Hnl.
  { bool_hyps. split; [done|]. intros [_ Hx]. by destruct (Hx ltac:(done) ltac:(done) rest). }
  rewrite <- share_name_error_spec by (rewrite elem_of_app in Hnul; naive_solver).
  rewrite blen_app. change (blen (c!"$share/")) with 7.
  destruct (Z.leb_spec (7 + blen rest) 8) as [Hle|_].
  - split; [done|]. intros [Hx _]. apply share_name_error_spec in Hx;
      [|rewrite elem_of_app in Hnul; naive_solver].
    destruct Hx as (n & f & -> & Hn & Hf & _). destruct n, f; try done.
    rewrite blen_app, !blen_cons in Hle. pose proof (blen_nonneg n). pose proof (blen_nonneg f). lia.
  - split; [|by intros []]. intros Hx. split; [done|]. intros -> E. exfalso.
    rewrite E, !Z.eqb_refl in Hnl. done.
Qed.

Definition subs_wire (subs : list (bytes * Z)) : bytes := concat (map sub_wire subs).

Lemma sub_wire_len s : blen (sub_wire s) = blen (fst s) + 3.
Proof. unfold sub_wire, mqtt_str. rewrite !blen_app. change (blen [_]) with 1. change (blen [_; _]) with 2. lia. Qed.

(** The loop ends within its fuel. *)
Lemma sub_loop_total fuel zalloc k proto_ver payload plen ppos linked :
  0 <= ppos -> plen - ppos < Z.of_nat fuel -> (0 < fuel)%nat ->
  exists r, sub_loop fuel zalloc k proto_ver payload plen ppos linked = Some r.
Proof.
  induction fuel as [|fuel IH] in k, ppos, linked |- *; intros Hp Hf H0; [lia|].
  cbn [sub_loop]. case_test; [eauto|]. bool_hyps.
  destruct (copyn_utf8_str payload ppos _) as [[[b|] ppos'] len] eqn:Hc; [|case_test; eauto].
  apply copyn_sound in Hc as (_ & -> & _ & -> & _). pose proof (blen_nonneg b).
  case_test; [case_test; eauto|]. do 2 (case_test; [eauto|]). destruct (share_error _ _ _ _); [eauto|].
  case_test; [|eauto]. bool_hyps. case_test; [|eauto]. apply IH; lia.
Qed.

(** A string of [valid_sub]s is read back. *)
Lemma sub_loop_complete fuel zalloc k proto_ver pre subs rest plen linked :
  (forall i, zalloc i = true) -> subs <> [] -> Forall (valid_sub proto_ver) subs ->
  plen = blen pre + blen (subs_wire subs) -> plen < 2147483648 ->
  blen (subs_wire subs) < Z.of_nat fuel ->
  sub_loop fuel zalloc k proto_ver (pre ++ subs_wire subs ++ rest) plen (blen pre) linked
  = Some (0, linked ++ map granted subs).
Proof.
  intros Hz Hne Hv -> Hsz Hf.
  induction subs as [|[t o] subs IH] in fuel, k, pre, linked, Hne, Hv, Hsz, Hf |- *; [done|].
  destruct fuel as [|fuel]; [pose proof (blen_nonneg (subs_wire ((t, o) :: subs))); lia|].
  rewrite Forall_cons in Hv. destruct Hv as [[H1 H2 H3 H4 H5 H6] Hv]. cbn [fst snd] in *.
  assert (subs_wire ((t, o) :: subs) = sub_wire (t, o) ++ subs_wire subs) as Ew by done.
  pose proof (sub_wire_len (t, o)) as Hl. cbn [fst] in Hl.
  pose proof (blen_nonneg t). pose proof (blen_nonneg (subs_wire subs)). pose proof (blen_nonneg pre).
  rewrite Ew, blen_app in *. cbn [sub_loop].
  destruct (Z.leb_spec (blen pre + (blen (sub_wire (t, o)) + blen (subs_wire subs))) (blen pre)); [lia|].
  rewrite i32_small by lia.
  assert (pre ++ (sub_wire (t, o) ++ subs_wire subs) ++ rest
          = pre ++ mqtt_str t ++ [o] ++ subs_wire subs ++ rest) as Ep
    by (unfold sub_wire; cbn [fst snd]; by rewrite <- !app_assoc).
  rewrite Ep, copyn_complete by (done || lia).
  destruct (Z.ltb_spec (blen t) 1) as [Hc|_].
  { destruct t; [done|]. rewrite blen_cons in Hc. pose proof (blen_nonneg t). lia. }
  destruct (Z.leb_spec (blen pre + (blen (sub_wire (t, o)) + blen (subs_wire subs)))
              (blen pre + 2 + blen t)); [lia|].
  assert (nth (Z.to_nat (blen pre + 2 + blen t)) (pre ++ mqtt_str t ++ [o] ++ subs_wire subs ++ rest) 0
          = o) as ->.
  { rewrite app_assoc, app_nth2; [|rewrite length_app; unfold mqtt_str, blen; cbn; lia].
    rewrite length_app. replace (_ - _)%nat with 0%nat; [done|]. unfold mqtt_str, blen. cbn. lia. }
  destruct (Z.ltb_spec 2 (tn_retain_handling o)); [lia|].
  assert (share_error proto_ver o t (blen t) = None) as ->
    by (apply share_error_spec; [by apply utf8_no_nul | done]).
  destruct (Z.ltb_spec (blen pre + 2 + blen t + 1)
              (blen pre + (blen (sub_wire (t, o)) + blen (subs_wire subs)))) as [Hlt|Hge].
  - rewrite Hz. replace (blen pre + 2 + blen t + 1) with (blen (pre ++ sub_wire (t, o)))
      by (rewrite blen_app; lia).
    rewrite <- Ep, <- app_assoc, (app_assoc pre).
    replace (blen pre + _) with (blen (pre ++ sub_wire (t, o)) + blen (subs_wire subs))
      by (rewrite blen_app; lia).
    rewrite IH; [by rewrite <- app_assoc | | done | rewrite blen_app; lia | lia].
    intros ->. change (blen (subs_wire [])) with 0 in *. lia.
  - destruct subs as [|s subs]; [done|]. pose proof (sub_wire_len s).
    change (subs_wire (s :: subs)) with (sub_wire s ++ subs_wire subs) in *.
    rewrite blen_app in *. pose proof (blen_nonneg (subs_wire subs)). pose proof (blen_nonneg (fst s)). lia.
Qed.

(** And nothing else is accepted. *)
Lemma sub_loop_sound fuel zalloc k proto_ver payload plen ppos linked nodes :
  0 <= ppos < plen -> plen < 2147483648 -> plen <= blen payload ->
  sub_loop fuel zalloc k proto_ver payload plen ppos linked = Some (0, nodes) ->
  exists subs rest, nodes = linked ++ map granted subs /\ Forall (valid_sub proto_ver) subs /\
    drop (Z.to_nat ppos) payload = subs_wire subs ++ rest /\
    plen = ppos + blen (subs_wire subs).
Proof.
  pose proof failures_nonzero as Hfl. rewrite !Forall_cons in Hfl.
  destruct Hfl as (F1 & _ & F2 & _ & _ & _ & _ & F3 & _).
  induction fuel as [|fuel IH] in k, ppos, linked |- *; intros Hp Hsz Hpl; [done|].
  cbn [sub_loop]. case_test; [bool_hyps; lia|]. rewrite i32_small by lia.
  destruct (copyn_utf8_str payload ppos _) as [[[t|] ppos'] len] eqn:Hc;
    [|case_test; intros [= ? ?]; congruence].
  apply copyn_sound in Hc as (H1 & -> & H2 & -> & Hlim & Hu & rest & Hd). pose proof (blen_nonneg t).
  case_test; [case_test; intros [= ? ?]; congruence|].
  case_test; [intros [= ? ?]; congruence|]. bool_hyps.
  assert (exists o rest', rest = o :: rest' /\ nth (Z.to_nat (ppos + 2 + blen t)) payload 0 = o /\
          drop (Z.to_nat (ppos + 2 + blen t + 1)) payload = rest') as (o & rest' & -> & -> & Hd').
  { pose proof (f_equal length Hd) as El. rewrite length_drop, length_app in El.
    unfold mqtt_str, blen in *. cbn in El.
    destruct rest as [|o rest']; [cbn in El; lia|]. exists o, rest'. split; [done|].
    rewrite <- (take_drop (Z.to_nat ppos) payload), Hd.
    assert (length (take (Z.to_nat ppos) payload) = Z.to_nat ppos) as Et by (rewrite length_take; lia).
    split.
    - rewrite app_nth2, Et by lia.
      rewrite app_nth2 by (cbn; lia). cbn. replace (_ - _)%nat with 0%nat by lia. done.
    - rewrite drop_app_ge, Et by lia. rewrite drop_app_ge by (cbn; lia). cbn [app length].
      replace (_ - _)%nat with 1%nat by lia. done. }
  case_test; [intros [= ? ?]; congruence|]. bool_hyps.
  destruct (share_error proto_ver o t (blen t)) eqn:Hs; [intros [= ? ?]; congruence|].
  apply share_error_spec in Hs as [Hs1 Hs2]; [|by apply utf8_no_nul].
  assert (valid_sub proto_ver (t, o)) as Hv.
  { constructor; cbn [fst snd]; (done || lia). }
  assert (drop (Z.to_nat ppos) payload = sub_wire (t, o) ++ rest') as Hd2
    by (unfold sub_wire; cbn [fst snd]; by rewrite <- app_assoc).
  pose proof (sub_wire_len (t, o)) as Hl. cbn [fst] in Hl.
  case_test; bool_hyps.
  - case_test; [|intros [= ? ?]; congruence]. intros Hr.
    apply IH in Hr as (subs & rest2 & -> & Hvs & Hd3 & ->); [|lia|lia|lia].
    exists ((t, o) :: subs), rest2. rewrite <- app_assoc, Forall_cons. split_and!; [done..| |].
    + rewrite Hd2, <- Hd', Hd3. unfold subs_wire. cbn [map concat]. by rewrite <- app_assoc.
    + change (subs_wire ((t, o) :: subs)) with (sub_wire (t, o) ++ subs_wire subs).
      rewrite blen_app. lia.
  - intros [= <-]. exists [(t, o)], rest'. split_and!; [done|by apply Forall_singleton| |].
    + unfold subs_wire. cbn [map concat]. by rewrite app_nil_r.
    + unfold subs_wire. cbn [map concat]. rewrite app_nil_r. lia.
Qed.

(** Where the payload starts: after the packet id and, in MQTT 5, the
    properties. *)
Definition payload_start (m : nng_msg) (proto_ver : Z) : Z :=
  if proto_ver =? MQTT_PROTOCOL_VERSION_v5 then snd (fst (decode_properties m 2)) else 2.

Lemma payload_start_ge m proto_ver : 2 <= payload_start m proto_ver.
Proof.
  unfold payload_start. case_test; [|lia]. by apply decode_properties_pos.
Qed.

(** [decode_sub_msg] from the payload loop on. *)
Lemma decode_sub_msg_loop zalloc m proto_ver pkt rc pkt' :
  decode_sub_msg zalloc (Some m) proto_ver (Some pkt) = Some (rc, Some pkt') ->
  rc = 0 ->
  sp_packet_id pkt' = NNI_GET16 (nng_msg_body m) /\ sp_packet_id pkt' <> 0 /\
  payload_start m proto_ver <= blen (nng_msg_body m) /\
  exists payload, nng_msg_payload_ptr m = Some payload /\
    sub_loop (S (Z.to_nat (blen (nng_msg_body m) - payload_start m proto_ver))) zalloc 1 proto_ver
      payload (blen (nng_msg_body m) - payload_start m proto_ver) 0 [] = Some (0, sp_node pkt').
Proof.
  pose proof failures_nonzero as Hfl. rewrite !Forall_cons in Hfl.
  destruct Hfl as (F1 & _ & F2 & _ & _ & _ & _ & F3 & _).
  intros H ->. unfold decode_sub_msg in H.
  destruct (Z.eqb_spec (NNI_GET16 (nng_msg_body m)) 0) as [E|Hid]; [injection H as ? _; congruence|].
  set (e := if proto_ver =? _ then _ else _) in H.
  assert (sp_packet_id (fst (fst e)) = NNI_GET16 (nng_msg_body m) /\
          snd (fst e) = payload_start m proto_ver) as [Hi Hb].
  { unfold e, payload_start. case_test; [|done]. by destruct (decode_properties m 2) as [[? ?] ?]. }
  destruct e as [[pkt1 bpos] failed]. cbn [fst snd] in *. subst bpos.
  destruct failed; [injection H as ? _; congruence|].
  destruct (nng_msg_payload_ptr m) as [payload|]; [|injection H as ? _; congruence].
  case_test; [injection H as ? _; congruence|].
  case_test; [injection H as ? _; congruence|]. bool_hyps.
  destruct (sub_loop _ _ _ _ _ _ _ _) as [[rc nodes]|] eqn:Hl; [|done].
  injection H as -> <-. cbn. rewrite Hi. split_and!; [done..|]. by exists payload.
Qed.

(** Whatever arrives, [decode_sub_msg] terminates within its fuel and
    returns a code. *)
Theorem decode_sub_msg_total zalloc msg proto_ver sub_pkt :
  exists rc sub_pkt', decode_sub_msg zalloc msg proto_ver sub_pkt = Some (rc, sub_pkt').
Proof.
  unfold decode_sub_msg. destruct msg as [m|]; [|eauto]. destruct sub_pkt as [pkt|]; [|eauto].
  case_test; [eauto|]. destruct (if proto_ver =? _ then _ else _) as [[pkt1 bpos] failed].
  destruct failed; [eauto|]. destruct (nng_msg_payload_ptr m) as [payload|]; [|eauto].
  do 2 (case_test; [eauto|]). bool_hyps.
  destruct (sub_loop_total (S (Z.to_nat (blen (nng_msg_body m) - bpos))) zalloc 1 proto_ver payload
    (blen (nng_msg_body m) - bpos) 0 []) as [[rc nodes] ->]; [lia|lia|lia|]. eauto.
Qed.

(** C10. What [decode_sub_msg] accepts is valid: the packet id is not zero,
    and the payload is either empty (one node without a topic) or exactly the
    encodings of a list of subscriptions, each with a non-empty UTF-8 filter,
    a retain-handling option of at most 2 and, for "$share/", a group name
    without wildcards followed by a filter; the nodes are these subscriptions
    in order. *)
Theorem decode_sub_msg_sound zalloc m proto_ver pkt pkt' :
  decode_sub_msg zalloc (Some m) proto_ver (Some pkt) = Some (0, Some pkt') ->
  nng_msg_payload_ptr m = Some (drop (Z.to_nat (payload_start m proto_ver)) (nng_msg_body m)) ->
  blen (nng_msg_body m) < 2147483648 ->
  sp_packet_id pkt' <> 0 /\
  (payload_start m proto_ver = blen (nng_msg_body m) /\ sp_node pkt' = [fresh_node] \/
   exists subs, sp_node pkt' = map granted subs /\ Forall (valid_sub proto_ver) subs /\
     drop (Z.to_nat (payload_start m proto_ver)) (nng_msg_body m) = subs_wire subs).
Proof.
  intros H Hptr Hsz. pose proof (payload_start_ge m proto_ver) as Hge.
  apply decode_sub_msg_loop in H as (_ & Hid & Hle & payload & Hp & Hl); [|done].
  split; [done|]. rewrite Hptr in Hp. injection Hp as <-.
  set (st := payload_start m proto_ver) in *. set (body := nng_msg_body m) in *.
  assert (blen (drop (Z.to_nat st) body) = blen body - st) as Hbl
    by (unfold blen in *; rewrite length_drop; lia).
  destruct (Z.eq_dec st (blen body)) as [E|Hne].
  - left. split; [done|]. replace (blen body - st) with 0 in Hl by lia.
    cbn in Hl. by injection Hl as <-.
  - right. apply sub_loop_sound in Hl as (subs & rest & -> & Hv & Hd & Hlen); [|lia|lia|lia].
    exists subs. split_and!; [done..|]. change (Z.to_nat 0) with 0%nat in Hd.
    rewrite drop_0 in Hd. destruct rest; [by rewrite app_nil_r in Hd|]. apply (f_equal blen) in Hd.
    rewrite blen_app, blen_cons in Hd. pose proof (blen_nonneg rest). lia.
Qed.

(** C11. Round trip: a SUBSCRIBE packet built from a packet id, the
    properties (MQTT 5) and any non-empty list of valid subscriptions decodes
    to those subscriptions, in order, each with its options and the code
    "granted". *)
Theorem decode_sub_msg_complete zalloc m proto_ver pkt id props subs :
  (forall i, zalloc i = true) -> 0 < id < 65536 -> prop_ok props ->
  (proto_ver <> MQTT_PROTOCOL_VERSION_v5 -> props = None) ->
  subs <> [] -> Forall (valid_sub proto_ver) subs ->
  nng_msg_body m = [id / 256; id mod 256]
    ++ (if proto_ver =? MQTT_PROTOCOL_VERSION_v5 then prop_bytes props else []) ++ subs_wire subs ->
  nng_msg_payload_ptr m = Some (subs_wire subs) ->
  blen (nng_msg_body m) < 2147483648 ->
  exists n, decode_sub_msg zalloc (Some m) proto_ver (Some pkt)
    = Some (0, Some (PacketSubscribe id n props (map granted subs))).
Proof.
  intros Hz Hid Hp Hp3 Hne Hv Hb Hptr Hsz. unfold decode_sub_msg.
  assert (NNI_GET16 (nng_msg_body m) = id) as -> by (rewrite Hb; apply get16_be; lia).
  destruct (Z.eqb_spec id 0) as [?|_]; [lia|]. rewrite Hptr, Hz. cbn [negb].
  assert (forall (l : bytes) n, blen (nng_msg_body m) = 2 + blen l + blen (subs_wire subs) ->
    (if blen (nng_msg_body m) <? 2 + blen l
     then Some (PROTOCOL_ERROR, Some (PacketSubscribe id n props [TopicNode 0 None 0 0]))
     else match sub_loop (S (Z.to_nat (blen (nng_msg_body m) - (2 + blen l)))) zalloc 1 proto_ver
       (subs_wire subs) (blen (nng_msg_body m) - (2 + blen l)) 0 [] with
     | Some (rc, node) => Some (rc, Some (PacketSubscribe id n props node))
     | None => None end) = Some (0, Some (PacketSubscribe id n props (map granted subs)))) as Hgo.
  { intros l k E. pose proof (blen_nonneg (subs_wire subs)). pose proof (blen_nonneg l).
    destruct (Z.ltb_spec (blen (nng_msg_body m)) (2 + blen l)); [lia|].
    set (plen := blen (nng_msg_body m) - (2 + blen l)).
    assert (plen = blen (subs_wire subs)) by (unfold plen; lia).
    pose proof (sub_loop_complete (S (Z.to_nat plen)) zalloc 1 proto_ver [] subs [] plen []
      Hz Hne Hv ltac:(done) ltac:(lia) ltac:(lia)) as Hc.
    cbn [app] in Hc. rewrite app_nil_r in Hc. change (blen []) with 0 in Hc. by rewrite Hc. }
  destruct (Z.eqb_spec proto_ver MQTT_PROTOCOL_VERSION_v5) as [->|Hn].
  - destruct (decode_properties_spec m [id / 256; id mod 256] props (subs_wire subs) Hp Hb) as [n Hd].
    change (blen [id / 256; id mod 256]) with 2 in Hd. rewrite Hd, check_properties_ok, SUCCESS_0 by done.
    exists n. apply Hgo. rewrite Hb, !blen_app. change (blen [_; _]) with 2. lia.
  - exists 0. rewrite (Hp3 Hn) in *. apply (Hgo []). rewrite Hb, !blen_app. change (blen [_; _]) with 2. lia.
Qed.

(** ** The answer *)

Lemma append_codes_ok m codes :
  exists m', append_codes m codes = (0, m') /\ nng_msg_header m' = nng_msg_header m /\
    nng_msg_body m' = nng_msg_body m ++ map u8 codes.
Proof.
  induction codes as [|c codes IH] in m |- *; cbn [append_codes map].
  - exists m. by rewrite app_nil_r.
  - destruct (append_step m [u8 c]) as (m1 & -> & Hh & Hb). cbn [Z.eqb negb].
    destruct (IH m1) as (m' & -> & Hh' & Hb'). exists m'.
    rewrite Hh', Hb', Hb, <- app_assoc, Hh. done.
Qed.

(** The codes of the answer, in order. *)
Definition suback_codes (pkt : packet_subscribe) : list Z :=
  (if sp_packet_id pkt =? 0 then [PACKET_IDENTIFIER_IN_USE] else [])
  ++ map node_code (sp_node pkt)
  ++ (if match sp_node pkt with [] => true | _ => false end && negb (sp_packet_id pkt =? 0)
      then [UNSPECIFIED_ERROR] else []).

(** The SUBACK has the SUBACK command byte and the remaining length in
    its header, and the packet id, the (empty) properties in MQTT 5 and then
    one code per topic node, in order, in its body: the granted QoS unless the
    node failed. *)
Theorem encode_suback_correct m pkt proto_ver :
  prop_ok None ->
  exists m', encode_suback_msg m (Some pkt) proto_ver = (0, m') /\
    nng_msg_body m' = [sp_packet_id pkt / 256; sp_packet_id pkt mod 256]
      ++ (if MQTT_PROTOCOL_VERSION_v5 =? proto_ver then prop_bytes None else [])
      ++ map u8 (suback_codes pkt) /\
    nng_msg_header m' = u8 CMD_SUBACK :: put_var_integer (u32 (blen (nng_msg_body m'))).
Proof.
  intros Hp. unfold encode_suback_msg.
  set (m0 := nng_msg_clear (nng_msg_header_clear m)).
  destruct (cleared m : nng_msg_header m0 = [] /\ nng_msg_body m0 = []) as [Hh0 Hb0].
  set (idb := [sp_packet_id pkt / 256; sp_packet_id pkt mod 256]).
  destruct (append_step m0 idb) as (m1 & -> & Hh1 & Hb1). cbn [Z.eqb negb].
  set (m2 := if MQTT_PROTOCOL_VERSION_v5 =? proto_ver then _ else m1).
  assert (nng_msg_header m2 = [] /\ nng_msg_body m2 = idb ++
    (if MQTT_PROTOCOL_VERSION_v5 =? proto_ver then prop_bytes None else [])) as [Hh2 Hb2].
  { unfold m2. case_test; rewrite ?encode_properties_header, ?encode_properties_body, ?app_nil_r,
      Hh1, Hb1, Hh0, Hb0 by done; done. }
  clearbody m2.
  edestruct (append_codes_ok m2) as (m3 & -> & Hh3 & Hb3). cbn [Z.eqb negb].
  edestruct (append_codes_ok m3) as (m4 & -> & Hh4 & Hb4). cbn [Z.eqb negb].
  edestruct (append_codes_ok m4) as (m5 & -> & Hh5 & Hb5). cbn [Z.eqb negb].
  destruct (header_append_step m5 [u8 CMD_SUBACK]) as (m6 & -> & Hh6 & Hb6). cbn [Z.eqb negb].
  set (v := put_var_integer _).
  destruct (header_append_step m6 v) as (m7 & -> & Hh7 & Hb7). cbn [Z.eqb negb].
  exists m7. split; [done|]. split.
  - rewrite Hb7, Hb6, Hb5, Hb4, Hb3, Hb2. unfold suback_codes. by rewrite !map_app, <- !app_assoc.
  - rewrite Hh7, Hh6, Hh5, Hh4, Hh3, Hh2. unfold v. by rewrite Hb7.
Qed.

(** A SUBSCRIBE without any topic filter is not refused: it decodes to a
    node without a topic and is answered with the success code 0. *)
Theorem empty_subscribe_acknowledged zalloc m pkt id :
  (forall i, zalloc i = true) -> 0 < id < 65536 ->
  nng_msg_body m = [id / 256; id mod 256] -> nng_msg_payload_ptr m = Some [] ->
  exists pkt', decode_sub_msg zalloc (Some m) MQTT_PROTOCOL_VERSION_v311 (Some pkt) = Some (0, Some pkt') /\
    map u8 (suback_codes pkt') = [0].
Proof.
  intros Hz Hid Hb Hptr. unfold decode_sub_msg. rewrite Hptr, Hz, Hb. cbn [negb].
  assert (NNI_GET16 [id / 256; id mod 256] = id) as -> by (apply (get16_be id []); lia).
  destruct (Z.eqb_spec id 0) as [?|Hid0]; [lia|].
  pose proof versions_distinct as Hv. rewrite !NoDup_cons in Hv. destruct Hv as (_ & Hv & _).
  rewrite list_elem_of_singleton in Hv. rewrite (proj2 (Z.eqb_neq _ _) Hv).
  cbn. eexists. split; [reflexivity|]. unfold suback_codes. cbn.
  rewrite (proj2 (Z.eqb_neq _ _) Hid0). cbn. unfold node_code. cbn.
  rewrite Z.eqb_refl, opt_qos by (unfold byte_ok; lia). done.
Qed.

End Handler.

(** ** Registering subscriptions *)

(** conf.acl_deny_action *)
Inductive deny_action := ACL_IGNORE | ACL_DISCONNECT.

(** What [retain] points to in [sub_ctx_handle]: nothing, the vector that
    [work->msg_ret] points to as well, or a vector of its own. *)
Inductive vec_ptr (A : Type) := VNull | VSame | VOwn (l : list A).
Arguments VNull {A}.
Arguments VSame {A}.
Arguments VOwn {A} l.

Section Registry.

Context `{C : MqttConst} `{M : NngMsg} `{P : MqttParser} `{TF : TopicFilter} `{DB : !NanoDb}.

(** The parts of [work->config] the handler reads, and the library calls on
    them: the topic queue of a node list, the HTTP authentication request, and
    the retained messages of the sqlite data base when it is enabled. *)
Record sub_env := SubEnv {
  se_auth_http_enable : bool;
  se_topic_queue : list topic_node -> option (list bytes);
  se_auth_http : conn_param -> bool -> list bytes -> Z;
  se_acl_enable : bool;
  se_acl : conf_acl;
  se_deny_action : deny_action;
  se_sqlite_retain : option (bytes -> option (list (option nng_msg)))
}.

(** The parts of [work] and of the process the handler changes. *)
Record sub_state := SubState {
  ss_db : dbtree;
  ss_hash : dbhash;
  ss_msg_ret : option (list (option nng_msg));
  ss_retain : vec_ptr (option nng_msg)
}.

(** [cvector_push_back(work->msg_ret, m)] for the messages that are not NULL *)
Definition push_msgs (msg_ret : option (list (option nng_msg))) (l : list (option nng_msg))
  : option (list (option nng_msg)) :=
  match List.filter (fun m => match m with Some _ => true | None => false end) l with
  | [] => msg_ret
  | l' => Some (default [] msg_ret ++ l')
  end.

(** The retained messages of one topic, from [retain = dbtree_find_retain] on. *)
Definition merge_retain (wanted : bool) (found : option (list (option nng_msg)))
    (msg_ret : option (list (option nng_msg))) (retain : vec_ptr (option nng_msg))
  : option (list (option nng_msg)) * vec_ptr (option nng_msg) :=
  let retain :=
    if wanted then match found with Some l => VOwn l | None => VNull end else retain in
  let '(msg_ret, retain) :=
    match msg_ret, retain with
    | None, VOwn l => (Some l, VSame)
    | None, _ => (None, VSame)
    | Some _, _ => (msg_ret, retain)
    end in
  match retain with
  | VOwn l => (push_msgs msg_ret l, VNull)
  | VNull => (msg_ret, VNull)
  | VSame => (msg_ret, VSame)
  end.

(** The body of the loop over the topic nodes. *)
Definition sub_node_step (env : sub_env) (db_ret : dbtree_ret) (pid : Z) (cparam : conn_param)
    (st : sub_state) (tn : topic_node) : sub_state * topic_node :=
  match tn_body tn with
  | None => (st, tn)
  | Some topic_str =>
      let deny := se_acl_enable env && negb (auth_acl (se_acl env) ACL_SUB cparam topic_str) in
      let tn := if deny then set_reason tn NMQ_AUTH_SUB_ERROR else tn in
      if deny && match se_deny_action env with ACL_DISCONNECT => true | ACL_IGNORE => true end
      then (st, tn)
      else
        let topic_exist := dbhash_check_topic (ss_hash st) pid topic_str in
        let '(db, hash) :=
          if negb topic_exist
          then (dbtree_insert_client (ss_db st) topic_str pid,
                dbhash_insert_topic (ss_hash st) pid topic_str (tn_qos (tn_options tn)))
          else (ss_db st, ss_hash st) in
        let rh := tn_retain_handling (tn_options tn) in
        let wanted := (rh =? 0) || ((rh =? 1) && negb topic_exist) in
        match se_sqlite_retain env with
        | Some find =>   (* this branch never reads [retain] *)
            let msg_ret :=
              if wanted then
                match find topic_str with
                | Some msg_vec => push_msgs (ss_msg_ret st) msg_vec
                | None => ss_msg_ret st
                end
              else ss_msg_ret st in
            (SubState db hash msg_ret (ss_retain st), tn)
        | None =>
            let '(msg_ret, retain) :=
              merge_retain wanted (dbtree_find_retain db_ret topic_str) (ss_msg_ret st)
                (ss_retain st) in
            (SubState db hash msg_ret retain, tn)
        end
  end.

Fixpoint sub_nodes (env : sub_env) (db_ret : dbtree_ret) (pid : Z) (cparam : conn_param)
    (st : sub_state) (nodes : list topic_node) : sub_state * list topic_node :=
  match nodes with
  | [] => (st, [])
  | tn :: nodes' =>
      let '(st, tn) := sub_node_step env db_ret pid cparam st tn in
      let '(st, nodes') := sub_nodes env db_ret pid cparam st nodes' in
      (st, tn :: nodes')
  end.

(** The HTTP authentication of all topics at once. *)
Definition auth_http_reject (env : sub_env) (cparam : conn_param) (nodes : list topic_node) : bool :=
  se_auth_http_enable env &&
  match se_topic_queue env nodes with
  | None => false
  | Some tq => negb (se_auth_http env cparam true tq =? 0)
  end.

Definition sub_ctx_handle (env : sub_env) (db_ret : dbtree_ret) (pid : Z) (cparam : conn_param)
    (sub_pkt : option packet_subscribe) (st : sub_state)
  : Z * option packet_subscribe * sub_state :=
  match sub_pkt with
  | None => (-1, sub_pkt, st)
  | Some pkt =>
      match sp_node pkt with
      | [] => (-1, sub_pkt, st)
      | nodes =>
          if sp_packet_id pkt =? 0 then (-2, sub_pkt, st)
          else
            let reject := auth_http_reject env cparam nodes in
            let st := SubState (ss_db st) (ss_hash st) (ss_msg_ret st) VSame in
            let '(st, nodes) :=
              if reject then (st, map (fun tn => set_reason tn NMQ_AUTH_SUB_ERROR) nodes)
              else sub_nodes env db_ret pid cparam st nodes in
            (0, Some (PacketSubscribe (sp_packet_id pkt) (sp_prop_len pkt) (sp_properties pkt) nodes),
             st)
      end
  end.

(** ** Taking registrations back *)

Definition sub_ctx_del (db : dbtree) (hash : dbhash) (topic : bytes) (pid : Z)
  : Z * dbtree * dbhash :=
  (0, dbtree_delete_client db topic pid, dbhash_del_topic hash pid topic).

Definition destroy_sub_client_cb (pid : Z) (db : dbtree) (topic : bytes) : dbtree :=
  dbtree_delete_client db topic pid.

Definition destroy_sub_client (pid : Z) (db : dbtree) (hash : dbhash) : dbtree * dbhash :=
  let '(topics, hash) := dbhash_del_topic_queue hash pid in
  (foldl (destroy_sub_client_cb pid) db topics, hash).

(** sub_pkt_free: what is released, in order: the topic strings and nodes, the
    properties, the packet. *)
Inductive sub_free := FreeBody (b : option bytes) (len : Z) | FreeNode | FreeProps | FreePkt.

Definition sub_pkt_free (sub_pkt : option packet_subscribe) : list sub_free :=
  match sub_pkt with
  | None => []
  | Some pkt =>
      flat_map (fun tn => [FreeBody (tn_body tn) (tn_len tn); FreeNode]) (sp_node pkt)
      ++ match sp_properties pkt with Some _ => [FreeProps] | None => [] end
      ++ [FreePkt]
  end.

(** ** The registry's promise *)

Context `{DL : !NanoDbLaws}.

(** The client table and the topic tree agree. *)
Definition registry_ok (db : dbtree) (hash : dbhash) : Prop :=
  forall f p, subscribed db f p <-> dbhash_check_topic hash p f = true.

(** The topics the access control lets through. *)
Definition denied (env : sub_env) (cparam : conn_param) (tn : topic_node) : bool :=
  match tn_body tn with
  | Some t => se_acl_enable env && negb (auth_acl (se_acl env) ACL_SUB cparam t)
  | None => false
  end.

Definition accepted (env : sub_env) (cparam : conn_param) (nodes : list topic_node) : list bytes :=
  omap tn_body (List.filter (fun tn => negb (denied env cparam tn)) nodes).

(** The answer of the access control in the node. *)
Definition answered (env : sub_env) (cparam : conn_param) (tn : topic_node) : topic_node :=
  if denied env cparam tn then set_reason tn NMQ_AUTH_SUB_ERROR else tn.

Lemma accepted_cons env cparam tn nodes :
  accepted env cparam (tn :: nodes) = accepted env cparam [tn] ++ accepted env cparam nodes.
Proof. unfold accepted. cbn. destruct (negb _); cbn; [by destruct (tn_body tn)|done]. Qed.

Lemma sub_node_step_registry env db_ret pid cparam st tn st' tn' :
  sub_node_step env db_ret pid cparam st tn = (st', tn') ->
  registry_ok (ss_db st) (ss_hash st) ->
  registry_ok (ss_db st') (ss_hash st') /\
  (forall f p, subscribed (ss_db st') f p <->
     subscribed (ss_db st) f p \/ p = pid /\ f ∈ accepted env cparam [tn]) /\
  tn' = answered env cparam tn.
Proof.
  unfold sub_node_step, answered, denied, accepted. intros H Hok. cbn [List.filter].
  unfold denied. destruct (tn_body tn) as [t|] eqn:Hb.
  2: { injection H as <- <-. split; [done|]. split; [|done]. cbn. rewrite Hb. cbn. set_solver. }
  destruct (se_acl_enable env && _) eqn:Hd; cbn [negb omap list_omap].
  { assert (st' = st /\ tn' = set_reason tn NMQ_AUTH_SUB_ERROR) as [-> ->].
    { destruct (se_deny_action env); by injection H as <- <-. }
    split; [done|]. split; [|done]. set_solver. }
  cbn [andb] in H. rewrite Hb.
  assert (registry_ok (if dbhash_check_topic (ss_hash st) pid t then ss_db st
      else dbtree_insert_client (ss_db st) t pid)
    (if dbhash_check_topic (ss_hash st) pid t then ss_hash st
     else dbhash_insert_topic (ss_hash st) pid t (tn_qos (tn_options tn))) /\
    (forall f p, subscribed (if dbhash_check_topic (ss_hash st) pid t then ss_db st
      else dbtree_insert_client (ss_db st) t pid) f p <->
      subscribed (ss_db st) f p \/ p = pid /\ f ∈ [t])) as [Hreg Hsub].
  { destruct (dbhash_check_topic (ss_hash st) pid t) eqn:Hc.
    - split; [done|]. intros f p. rewrite list_elem_of_singleton. apply Hok in Hc. naive_solver.
    - split; intros f p; rewrite insert_client_spec; [rewrite check_topic_insert|];
        rewrite ?list_elem_of_singleton, ?(Hok f p); naive_solver. }
  destruct (dbhash_check_topic (ss_hash st) pid t); cbn [negb] in H;
    (destruct (se_sqlite_retain env); [|destruct (merge_retain _ _ _ _)]);
    injection H as <- <-; done.
Qed.

Lemma sub_nodes_registry env db_ret pid cparam nodes st st' nodes' :
  sub_nodes env db_ret pid cparam st nodes = (st', nodes') ->
  registry_ok (ss_db st) (ss_hash st) ->
  registry_ok (ss_db st') (ss_hash st') /\
  (forall f p, subscribed (ss_db st') f p <->
     subscribed (ss_db st) f p \/ p = pid /\ f ∈ accepted env cparam nodes) /\
  nodes' = map (answered env cparam) nodes.
Proof.
  induction nodes as [|tn nodes IH] in st, nodes' |- *; intros H Hok.
  - injection H as <- <-. split; [done|]. split; [|done]. cbn. set_solver.
  - cbn [sub_nodes] in H. destruct (sub_node_step _ _ _ _ _ _) as [st1 tn1] eqn:H1.
    destruct (sub_nodes _ _ _ _ st1 nodes) as [st2 nodes1] eqn:H2. injection H as <- <-.
    apply sub_node_step_registry in H1 as (Hok1 & Hs1 & ->); [|done].
    apply IH in H2 as (Hok2 & Hs2 & ->); [|done].
    split; [done|]. split; [|done]. intros f p.
    rewrite Hs2, Hs1, (accepted_cons env cparam tn nodes), elem_of_app. naive_solver.
Qed.

(** C4. Subscribing keeps the client table and the topic tree in agreement,
    registers the client under exactly the topics the access control accepts
    (none when the HTTP authentication rejects the packet), leaves every other
    registration alone, and marks exactly the refused nodes with
    NMQ_AUTH_SUB_ERROR. *)
Theorem sub_ctx_handle_correct env db_ret pid cparam pkt st rc pkt' st' :
  sub_ctx_handle env db_ret pid cparam (Some pkt) st = (rc, pkt', st') ->
  sp_node pkt <> [] -> sp_packet_id pkt <> 0 ->
  registry_ok (ss_db st) (ss_hash st) ->
  rc = 0 /\ registry_ok (ss_db st') (ss_hash st') /\
  let reject := auth_http_reject env cparam (sp_node pkt) in
  (forall f p, subscribed (ss_db st') f p <->
     subscribed (ss_db st) f p \/
     reject = false /\ p = pid /\ f ∈ accepted env cparam (sp_node pkt)) /\
  sp_node <$> pkt' = Some (map (fun tn => if reject then set_reason tn NMQ_AUTH_SUB_ERROR
                                          else answered env cparam tn) (sp_node pkt)).
Proof.
  intros H Hne Hid Hok. unfold sub_ctx_handle in H.
  destruct (sp_node pkt) as [|tn nodes] eqn:Hn; [done|].
  rewrite (proj2 (Z.eqb_neq _ _) Hid) in H. cbv zeta.
  destruct (auth_http_reject env cparam (tn :: nodes)).
  - injection H as <- <- <-. split_and!; [done..| |done]. naive_solver.
  - destruct (sub_nodes _ _ _ _ _ (tn :: nodes)) as [st1 nodes1] eqn:H1. injection H as <- <- <-.
    apply sub_nodes_registry in H1 as (Hok1 & Hs1 & ->); [|done].
    split_and!; [done..| |done]. cbn [ss_db] in Hs1. naive_solver.
Qed.

Lemma foldl_delete pid topics db f p :
  subscribed (foldl (destroy_sub_client_cb pid) db topics) f p <->
  subscribed db f p /\ ~ (p = pid /\ f ∈ topics).
Proof.
  induction topics as [|t topics IH] in db |- *; cbn [foldl]; [set_solver|].
  rewrite IH. unfold destroy_sub_client_cb. rewrite delete_client_spec, elem_of_cons. naive_solver.
Qed.

(** When a client disconnects, all of its registrations and no others are
    removed, from the topic tree and from the client table. *)
Lemma destroy_registry pid db hash :
  registry_ok db hash ->
  let '(db', hash') := destroy_sub_client pid db hash in
  registry_ok db' hash' /\
  forall f p, subscribed db' f p <-> subscribed db f p /\ p <> pid.
Proof.
  intros Hok. unfold destroy_sub_client.
  pose proof (del_queue_topics hash pid) as Ht. pose proof (del_queue_check hash pid) as Hc.
  destruct (dbhash_del_topic_queue hash pid) as [topics hash']. cbn [fst snd] in *.
  assert (forall f p, subscribed (foldl (destroy_sub_client_cb pid) db topics) f p <->
                      subscribed db f p /\ p <> pid) as Hs.
  { intros f p. rewrite foldl_delete, Ht. pose proof (Hok f pid). naive_solver. }
  split; [|done]. intros f p. rewrite Hs, Hc, (Hok f p). naive_solver.
Qed.

(** ** Retained messages

    A subscription with retain handling 0 gets the retained messages of its
    topic, with 1 only when the client did not have the subscription before,
    with 2 never. *)

Definition retained_of (v : option (list (option nng_msg))) : list nng_msg :=
  omap id (default [] v).

Fixpoint wanted_retained (env : sub_env) (cparam : conn_param)
    (find : bytes -> option (list (option nng_msg))) (known : bytes -> bool)
    (nodes : list topic_node) : list nng_msg :=
  match nodes with
  | [] => []
  | tn :: nodes' =>
      match tn_body tn with
      | None => wanted_retained env cparam find known nodes'
      | Some t =>
          if denied env cparam tn then wanted_retained env cparam find known nodes'
          else
            let rh := tn_retain_handling (tn_options tn) in
            (if (rh =? 0) || ((rh =? 1) && negb (known t)) then retained_of (find t) else [])
            ++ wanted_retained env cparam find (fun f => bool_decide (f = t) || known f) nodes'
      end
  end.

Lemma wanted_retained_ext env cparam find known known' nodes :
  (forall f, known f = known' f) ->
  wanted_retained env cparam find known nodes = wanted_retained env cparam find known' nodes.
Proof.
  induction nodes as [|tn nodes IH] in known, known' |- *; intros E; [done|]. cbn.
  destruct (tn_body tn) as [t|]; [|by apply IH]. case_test; [by apply IH|].
  rewrite E. f_equal. apply IH. intros f. by rewrite E.
Qed.

Lemma push_msgs_retained v l : retained_of (push_msgs v l) = retained_of v ++ omap id l.
Proof.
  unfold push_msgs, retained_of.
  assert (omap id l = omap id (List.filter (fun m : option nng_msg =>
    match m with Some _ => true | None => false end) l)) as ->.
  { induction l as [|[m|] l IH]; cbn; [done | by rewrite IH | done]. }
  destruct (List.filter _ l) as [|m l'] eqn:E; [by rewrite app_nil_r|].
  cbn [default from_option]. apply omap_app.
Qed.

Definition not_own {A} (r : vec_ptr A) : Prop := match r with VOwn _ => False | _ => True end.

Lemma merge_retain_retained w found v r :
  not_own r ->
  retained_of (fst (merge_retain w found v r)) = retained_of v ++ (if w then retained_of found else []) /\
  not_own (snd (merge_retain w found v r)).
Proof.
  intros Hr. unfold merge_retain. destruct v as [l|], w, r; try done; destruct found as [l'|]; try done;
    cbn [fst snd not_own]; rewrite ?push_msgs_retained, ?app_nil_r; done.
Qed.

Lemma sub_nodes_retained env db_ret pid cparam nodes st st' nodes' :
  sub_nodes env db_ret pid cparam st nodes = (st', nodes') -> not_own (ss_retain st) ->
  retained_of (ss_msg_ret st') = retained_of (ss_msg_ret st) ++
    wanted_retained env cparam (default (dbtree_find_retain db_ret) (se_sqlite_retain env))
      (dbhash_check_topic (ss_hash st) pid) nodes.
Proof.
  induction nodes as [|tn nodes IH] in st, nodes' |- *; intros H Hr.
  { injection H as <- <-. cbn. by rewrite app_nil_r. }
  cbn [sub_nodes wanted_retained] in *.
  destruct (sub_node_step _ _ _ _ _ _) as [st1 tn1] eqn:H1.
  destruct (sub_nodes _ _ _ _ st1 nodes) as [st2 nodes1] eqn:H2. injection H as <- <-.
  unfold sub_node_step in H1. unfold denied.
  destruct (tn_body tn) as [t|]; [|injection H1 as <- <-; by eapply IH].
  destruct (se_acl_enable env && _).
  { assert (st1 = st) as -> by (destruct (se_deny_action env); by injection H1 as <- _).
    by eapply IH. }
  cbn [andb] in H1.
  set (w := (tn_retain_handling _ =? 0) || _) in *.
  set (h := if negb (dbhash_check_topic (ss_hash st) pid t) then _ else (ss_db st, ss_hash st)) in H1.
  assert (forall f, dbhash_check_topic (snd h) pid f
                    = bool_decide (f = t) || dbhash_check_topic (ss_hash st) pid f) as Hk.
  { intros f. apply eq_true_iff_eq. rewrite orb_true_iff, bool_decide_eq_true. unfold h.
    destruct (dbhash_check_topic (ss_hash st) pid t) eqn:E; cbn [negb snd].
    - naive_solver.
    - rewrite check_topic_insert. naive_solver. }
  destruct h as [db1 h1]. cbn [snd] in Hk.
  assert (ss_hash st1 = h1 /\ not_own (ss_retain st1) /\ retained_of (ss_msg_ret st1)
    = retained_of (ss_msg_ret st) ++ (if w then retained_of
        (default (dbtree_find_retain db_ret) (se_sqlite_retain env) t) else [])) as (<- & Hr1 & Hm).
  { destruct (se_sqlite_retain env) as [find|].
    - injection H1 as <- <-. cbn [ss_hash ss_retain ss_msg_ret]. change (default _ (Some find) t) with (find t).
      split_and!; [done..|]. destruct w; [|by rewrite app_nil_r].
      destruct (find t); [by rewrite push_msgs_retained | by rewrite app_nil_r].
    - pose proof (merge_retain_retained w (dbtree_find_retain db_ret t) (ss_msg_ret st)
        (ss_retain st) Hr) as [E1 E2].
      destruct (merge_retain _ _ _ _) as [v r]. injection H1 as <- <-. done. }
  rewrite (IH st1 nodes1 H2 Hr1), Hm, <- app_assoc. do 2 f_equal. by apply wanted_retained_ext.
Qed.

(** After subscribing, the messages to send are those that were there
    followed by the retained messages each accepted subscription asks for, in
    the order of the topics, whether the vectors were shared or merged. *)
Theorem sub_ctx_handle_retained env db_ret pid cparam pkt st rc pkt' st' :
  sub_ctx_handle env db_ret pid cparam (Some pkt) st = (rc, pkt', st') ->
  sp_node pkt <> [] -> sp_packet_id pkt <> 0 ->
  auth_http_reject env cparam (sp_node pkt) = false ->
  retained_of (ss_msg_ret st') = retained_of (ss_msg_ret st) ++
    wanted_retained env cparam (default (dbtree_find_retain db_ret) (se_sqlite_retain env))
      (dbhash_check_topic (ss_hash st) pid) (sp_node pkt).
Proof.
  intros H Hne Hid Hrej. unfold sub_ctx_handle in H.
  destruct (sp_node pkt) as [|tn nodes] eqn:Hn; [done|].
  rewrite (proj2 (Z.eqb_neq _ _) Hid), Hrej in H.
  destruct (sub_nodes _ _ _ _ _ (tn :: nodes)) as [st1 nodes1] eqn:H1. injection H as <- <- <-.
  by apply sub_nodes_retained in H1.
Qed.

End Registry.


(** ** Witnesses on the model of the library *)

Import Model.

Definition no_fail (_ : nat) : bool := true.

(** SUBSCRIBE 258, "a/+" with QoS 1 and "$share/g/t" with options 0. *)
Definition sample_subs : list (bytes * Z) := [(c!"a/+", 1); (c!"$share/g/t", 0)].

Definition sample_sub_msg : nng_msg :=
  Msg [130; 0] ([1; 2] ++ subs_wire sample_subs) CMD_SUBSCRIBE (Some 2).

Lemma sample_subs_valid : Forall (valid_sub MQTT_PROTOCOL_VERSION_v311) sample_subs.
Proof.
  repeat constructor; cbn [fst snd]; try done.
  intros rest [= <-]. exists (c!"g"), (c!"t"). split_and!; try done. by repeat constructor.
Qed.

Definition empty_pkt : packet_subscribe := PacketSubscribe 0 0 None [].

Definition sample_pkt : packet_subscribe := PacketSubscribe 258 0 None (map granted sample_subs).

Lemma decode_sub_msg_complete_witness :
  exists n, decode_sub_msg no_fail (Some sample_sub_msg) MQTT_PROTOCOL_VERSION_v311 (Some empty_pkt)
    = Some (0, Some (PacketSubscribe 258 n None (map granted sample_subs))).
Proof.
  apply (decode_sub_msg_complete no_fail sample_sub_msg MQTT_PROTOCOL_VERSION_v311 empty_pkt 258 None
           sample_subs); try done. apply sample_subs_valid.
Defined.

Lemma decode_sub_msg_sound_witness :
  exists pkt', decode_sub_msg no_fail (Some sample_sub_msg) MQTT_PROTOCOL_VERSION_v311 (Some empty_pkt)
    = Some (0, Some pkt') /\ sp_packet_id pkt' <> 0.
Proof.
  exists sample_pkt. split; [reflexivity|].
  refine (proj1 (decode_sub_msg_sound no_fail sample_sub_msg MQTT_PROTOCOL_VERSION_v311 empty_pkt
    sample_pkt _ _ _)); reflexivity.
Defined.

Lemma encode_suback_correct_witness :
  exists m', encode_suback_msg sample_sub_msg (Some sample_pkt) MQTT_PROTOCOL_VERSION_v5 = (0, m') /\
    nng_msg_body m' = [1; 2; 0; 1; 0].
Proof.
  destruct (encode_suback_correct sample_sub_msg sample_pkt MQTT_PROTOCOL_VERSION_v5)
    as (m' & H1 & H2 & _); [done|]. exists m'. split; [exact H1 | exact H2].
Defined.

Definition empty_sub_msg : nng_msg := Msg [130; 2] [0; 7] CMD_SUBSCRIBE (Some 2).

Lemma empty_subscribe_acknowledged_witness :
  exists pkt', decode_sub_msg no_fail (Some empty_sub_msg)
      MQTT_PROTOCOL_VERSION_v311 (Some empty_pkt) = Some (0, Some pkt') /\
    map u8 (suback_codes pkt') = [0].
Proof.
  apply (empty_subscribe_acknowledged no_fail empty_sub_msg empty_pkt 7); done.
Defined.

(** Clients may subscribe to "a/+" only, and "a/b" has a retained message. *)
Definition sample_env : sub_env :=
  SubEnv false (fun _ => None) (fun _ _ _ => 0) true
    (ConfAcl [Rule ACL_ALLOW ACL_NONE ACL_SUB ACL_RULE_ALL [] [Some (c!"a/+")]] ACL_DENY)
    ACL_IGNORE None.

Definition anonymous : conn_param := Cparam None None None None.

Definition sample_state : sub_state := SubState ([] : list (bytes * Z)) (Hash [] []) None VNull.

Definition retained_msg : nng_msg := Msg [49; 5] [0; 3; 97; 47; 98] CMD_PUBLISH None.

Definition sample_ret : dbtree_ret := [(c!"a/b", retained_msg : Model.msg)].

Lemma empty_registry_ok : registry_ok (ss_db sample_state) (ss_hash sample_state).
Proof. intros f p. cbn. split; [intros H; by apply not_elem_of_nil in H|done]. Qed.

(** Client 3 is registered under "a/+", and the shared topic is refused. *)
Lemma sub_ctx_handle_correct_witness :
  exists pkt' st', sub_ctx_handle sample_env sample_ret 3 anonymous
      (Some sample_pkt) sample_state = (0, pkt', st') /\
    registry_ok (ss_db st') (ss_hash st') /\ subscribed (ss_db st') (c!"a/+") 3 /\
    map tn_reason_code <$> (sp_node <$> pkt') = Some [GRANTED_QOS_2; NMQ_AUTH_SUB_ERROR].
Proof.
  edestruct (sub_ctx_handle_correct sample_env sample_ret 3 anonymous
    sample_pkt sample_state) as (_ & Hok & Hs & Hn);
    [reflexivity | done | done | apply empty_registry_ok |].
  eexists _, _. split; [reflexivity|]. split; [exact Hok|]. split; [|vm_compute; reflexivity].
  apply Hs. right. split_and!; [reflexivity..|]. vm_compute. by left.
Defined.

Lemma sub_ctx_handle_retained_witness :
  exists pkt' st', sub_ctx_handle sample_env sample_ret 3 anonymous
      (Some sample_pkt) sample_state = (0, pkt', st') /\
    retained_of (ss_msg_ret st') = [retained_msg].
Proof.
  eexists _, _. split; [reflexivity|].
  refine (eq_trans (sub_ctx_handle_retained sample_env sample_ret 3 anonymous
    sample_pkt sample_state 0 _ _ _ _ _ _) _); [reflexivity | done | done | reflexivity | reflexivity].
Defined.

Definition two_clients : dbtree := [(c!"a/+", 3); (c!"a/+", 4)].
Definition two_clients_hash : dbhash := Hash [(3, c!"a/+"); (4, c!"a/+")] [].

Lemma two_clients_ok : registry_ok two_clients two_clients_hash.
Proof.
  intros f p. cbn. rewrite bool_decide_eq_true, !elem_of_cons. set_solver.
Qed.

End SubHandler.
