(* ===== verification/UnsubHandler.v ===== *)
(** * UNSUBSCRIBE packets (nanomq/unsub_handler.c)

    [decode_unsub_msg] reads the list of topic filters of [work->unsub_pkt],
    [unsub_ctx_handle] removes the registrations through [sub_ctx_del], and
    [encode_unsuback_msg] answers. *)

From S2P Require Import Prelude NngApi NngModel Acl SubHandler.

Module UnsubHandler.

Import SubHandler.

Section Handler.

Context `{C : MqttConst} `{M : NngMsg} `{P : MqttParser}.

(** struct packet_unsubscribe *)
Record packet_unsubscribe := PacketUnsubscribe {
  up_packet_id : Z;
  up_prop_len : Z;
  up_properties : option property;
  up_node : list topic_node
}.

(** FREE_UNSUB_PROPERTIES *)
Definition FREE_UNSUB_PROPERTIES (pkt : packet_unsubscribe) : packet_unsubscribe :=
  match up_properties pkt with
  | Some _ => PacketUnsubscribe (up_packet_id pkt) 0 None (up_node pkt)
  | None => pkt
  end.

(** ** Decoding *)

(** The payload loop.  [alloc k] is the memory of the [k]-th topic node that
    [nng_alloc] returns, whose contents are not initialised, or [None] when
    the allocation fails; only [next] is set before the node is filled. *)
Fixpoint unsub_loop (fuel : nat) (alloc : nat -> option topic_node) (k : nat) (tn : topic_node)
    (payload : bytes) (payload_len bpos : Z) (linked : list topic_node)
  : option (Z * list topic_node) :=
  match fuel with
  | O => None
  | S fuel' =>
      let '(body, bpos, len_of_topic) := get_utf8_str payload bpos payload_len in
      if negb (len_of_topic =? -1) then
        let tn := TopicNode (tn_options tn) (Some body) len_of_topic (tn_reason_code tn) in
        if bpos <? payload_len then
          match alloc k with
          | None => Some (NNG_ENOMEM, linked ++ [tn])
          | Some tn' => unsub_loop fuel' alloc (S k) tn' payload payload_len bpos (linked ++ [tn])
          end
        else Some (0, linked ++ [tn])
      else Some (PROTOCOL_ERROR, linked ++ [set_reason tn UNSPECIFIED_ERROR])
  end.

(** decode_unsub_msg: the code, [work->unsub_pkt] and [work->msg]. *)
Definition decode_unsub_msg (alloc : nat -> option topic_node) (msg : nng_msg) (proto_ver : Z)
    (unsub_pkt : packet_unsubscribe) : option (Z * packet_unsubscribe * nng_msg) :=
  let remaining_len := blen (nng_msg_body msg) in
  if remaining_len <? 2 then Some (PROTOCOL_ERROR, unsub_pkt, msg)
  else
    let packet_id := NNI_GET16 (nng_msg_body msg) in
    let '(pkt, vpos, failed) :=
      if MQTT_PROTOCOL_VERSION_v5 =? proto_ver then
        let '(properties, vpos, prop_len) := decode_properties msg 2 in
        (PacketUnsubscribe packet_id prop_len properties (up_node unsub_pkt), vpos,
         negb (check_properties properties msg =? SUCCESS))
      else (PacketUnsubscribe packet_id 0 None (up_node unsub_pkt), 2, false) in
    if (failed : bool) then Some (PROTOCOL_ERROR, FREE_UNSUB_PROPERTIES pkt, msg)
    else if remaining_len <? vpos then Some (PROTOCOL_ERROR, pkt, msg)
    else
      let payload := drop (Z.to_nat vpos) (nng_msg_body msg) in
      let msg := nng_msg_set_payload_ptr msg vpos in
      match alloc 0%nat with
      | None => Some (NNG_ENOMEM, FREE_UNSUB_PROPERTIES pkt, msg)
      | Some tn =>
          match unsub_loop (S (Z.to_nat (remaining_len - vpos))) alloc 1 tn payload
                  (remaining_len - vpos) 0 [] with
          | None => None
          | Some (rc, nodes) =>
              let pkt := PacketUnsubscribe (up_packet_id pkt) (up_prop_len pkt)
                           (up_properties pkt) nodes in
              Some (rc, if rc =? 0 then pkt else FREE_UNSUB_PROPERTIES pkt, msg)
          end
      end.

(** ** UNSUBACK *)

Definition encode_unsuback_msg (msg : nng_msg) (pkt : packet_unsubscribe) (proto_ver : Z)
  : Z * nng_msg :=
  let msg := nng_msg_clear (nng_msg_header_clear msg) in
  let id := up_packet_id pkt in
  let '(rv, msg) := nng_msg_append msg [id / 256; id mod 256] in
  if negb (rv =? 0) then (PROTOCOL_ERROR, msg)
  else
    let msg :=
      if MQTT_PROTOCOL_VERSION_v5 =? proto_ver
      then snd (encode_properties msg None CMD_UNSUBACK) else msg in
    let '(rv, msg) :=
      if MQTT_PROTOCOL_VERSION_v5 =? proto_ver
      then append_codes msg (map tn_reason_code (up_node pkt)) else (0, msg) in
    if negb (rv =? 0) then (PROTOCOL_ERROR, msg)
    else
      let '(rv, msg) := nng_msg_header_append msg [u8 CMD_UNSUBACK] in
      if negb (rv =? 0) then (PROTOCOL_ERROR, msg)
      else
        let remaining_len := u32 (blen (nng_msg_body msg)) in
        let '(rv, msg) := nng_msg_header_append msg (put_var_integer remaining_len) in
        if negb (rv =? 0) then (PROTOCOL_ERROR, msg) else (0, msg).

(** ** What decoding accepts *)

Context `{CL : !MqttConstLaws} `{ML : !NngMsgLaws} `{MA : !NngMsgAlloc}.
Context `{PL : !MqttParserLaws} `{PR : !PropertyLaws}.

Definition topics_wire (topics : list bytes) : bytes := concat (map mqtt_str topics).

Lemma mqtt_str_len s : blen (mqtt_str s) = 2 + blen s.
Proof. unfold mqtt_str. rewrite blen_app. done. Qed.

(** The nodes of the topics, over the memory they were allocated in. *)
Fixpoint nodes_from (mem : nat -> topic_node) (k : nat) (topics : list bytes) : list topic_node :=
  match topics with
  | [] => []
  | t :: topics' =>
      TopicNode (tn_options (mem k)) (Some t) (blen t) (tn_reason_code (mem k))
      :: nodes_from mem (S k) topics'
  end.

Lemma unsub_loop_total fuel alloc k tn payload plen bpos linked :
  0 <= bpos -> plen - bpos < Z.of_nat fuel -> (0 < fuel)%nat ->
  exists r, unsub_loop fuel alloc k tn payload plen bpos linked = Some r.
Proof.
  induction fuel as [|fuel IH] in k, tn, bpos, linked |- *; intros Hp Hf H0; [lia|].
  cbn [unsub_loop]. destruct (get_utf8_str payload bpos plen) as [[b bpos'] len] eqn:Hc.
  case_test; [|eauto]. bool_hyps. apply getu_sound in Hc as (-> & -> & _); [|done].
  pose proof (blen_nonneg b). case_test; [|eauto]. bool_hyps.
  destruct (alloc k); [|eauto]. apply IH; lia.
Qed.

Lemma unsub_loop_complete fuel mem k pre topics rest plen linked :
  topics <> [] -> Forall (fun t => blen t < 65536 /\ utf8_valid t = true) topics ->
  plen = blen pre + blen (topics_wire topics) -> blen (topics_wire topics) < Z.of_nat fuel ->
  unsub_loop fuel (fun i => Some (mem i)) (S k) (mem k) (pre ++ topics_wire topics ++ rest) plen
    (blen pre) linked
  = Some (0, linked ++ nodes_from mem k topics).
Proof.
  intros Hne Hv -> Hf.
  induction topics as [|t topics IH] in fuel, k, pre, linked, Hne, Hv, Hf |- *; [done|].
  destruct fuel as [|fuel]; [pose proof (blen_nonneg (topics_wire (t :: topics))); lia|].
  rewrite Forall_cons in Hv. destruct Hv as [[H1 H2] Hv].
  change (topics_wire (t :: topics)) with (mqtt_str t ++ topics_wire topics) in *.
  pose proof (mqtt_str_len t). pose proof (blen_nonneg t). pose proof (blen_nonneg (topics_wire topics)).
  rewrite blen_app in *. cbn [unsub_loop]. rewrite <- app_assoc, getu_complete by (done || lia).
  destruct (Z.eqb_spec (blen t) (-1)); [lia|]. cbn [negb nodes_from].
  destruct (Z.ltb_spec (blen pre + 2 + blen t) (blen pre + (blen (mqtt_str t) + blen (topics_wire topics)))) as [Hlt|Hge].
  - replace (blen pre + 2 + blen t) with (blen (pre ++ mqtt_str t)) by (rewrite blen_app; lia).
    rewrite (app_assoc pre (mqtt_str t)).
    replace (blen pre + _) with (blen (pre ++ mqtt_str t) + blen (topics_wire topics))
      by (rewrite blen_app; lia).
    rewrite IH; [by rewrite <- app_assoc | | done | lia].
    intros ->. change (blen (topics_wire [])) with 0 in *. lia.
  - destruct topics as [|t' topics]; [done|].
    change (topics_wire (t' :: topics)) with (mqtt_str t' ++ topics_wire topics) in *.
    rewrite (blen_app (mqtt_str t')) in Hge. pose proof (mqtt_str_len t'). pose proof (blen_nonneg t').
    pose proof (blen_nonneg (topics_wire topics)). lia.
Qed.

(** Round trip: an UNSUBSCRIBE packet built from a packet id, the
    properties (MQTT 5) and any non-empty list of UTF-8 strings decodes to these
    topics in order; the reason codes of the nodes are what the freshly
    allocated, uninitialised memory holds. *)
Theorem decode_unsub_msg_complete mem m proto_ver pkt id props topics :
  0 <= id < 65536 -> prop_ok props ->
  (proto_ver <> MQTT_PROTOCOL_VERSION_v5 -> props = None) ->
  topics <> [] -> Forall (fun t => blen t < 65536 /\ utf8_valid t = true) topics ->
  nng_msg_body m = [id / 256; id mod 256]
    ++ (if MQTT_PROTOCOL_VERSION_v5 =? proto_ver then prop_bytes props else []) ++ topics_wire topics ->
  exists n m', decode_unsub_msg (fun i => Some (mem i)) m proto_ver pkt
    = Some (0, PacketUnsubscribe id n props (nodes_from mem 0 topics), m').
Proof.
  intros Hid Hp Hp3 Hne Hv Hb. unfold decode_unsub_msg.
  assert (NNI_GET16 (nng_msg_body m) = id) as -> by (rewrite Hb; apply get16_be; lia).
  set (pr := if MQTT_PROTOCOL_VERSION_v5 =? proto_ver then prop_bytes props else []) in Hb.
  assert (blen (nng_msg_body m) = 2 + blen pr + blen (topics_wire topics)) as Hl.
  { rewrite Hb, !blen_app. change (blen [_; _]) with 2. lia. }
  pose proof (blen_nonneg pr). pose proof (blen_nonneg (topics_wire topics)).
  destruct (Z.ltb_spec (blen (nng_msg_body m)) 2); [lia|].
  set (e := if MQTT_PROTOCOL_VERSION_v5 =? proto_ver then _ else _).
  assert (exists n, e = (PacketUnsubscribe id n props (up_node pkt), 2 + blen pr, false)) as [n ->].
  { unfold e. unfold pr in Hb |- *. destruct (MQTT_PROTOCOL_VERSION_v5 =? proto_ver) eqn:Hn.
    - destruct (decode_properties_spec m [id / 256; id mod 256] props (topics_wire topics) Hp Hb) as [n Hd].
      change (blen [id / 256; id mod 256]) with 2 in Hd. exists n.
      by rewrite Hd, check_properties_ok, SUCCESS_0.
    - exists 0. apply Z.eqb_neq in Hn. rewrite Hp3 by congruence. done. }
  destruct (Z.ltb_spec (blen (nng_msg_body m)) (2 + blen pr)); [lia|].
  set (plen := blen (nng_msg_body m) - _).
  assert (plen = blen (topics_wire topics)) as Hpl by (unfold plen; lia).
  assert (drop (Z.to_nat (2 + blen pr)) (nng_msg_body m) = topics_wire topics) as ->.
  { rewrite Hb, app_assoc.
    replace (Z.to_nat (2 + blen pr)) with (length ([id / 256; id mod 256] ++ pr))
      by (rewrite length_app; unfold blen; cbn; lia). apply drop_app_length. }
  pose proof (unsub_loop_complete (S (Z.to_nat plen)) mem 0 [] topics [] plen [] Hne Hv Hpl ltac:(lia)) as Hc.
  cbn [app] in Hc. rewrite app_nil_r in Hc. change (blen []) with 0 in Hc. rewrite Hc.
  cbn [Z.eqb]. eauto.
Qed.

(** The UNSUBACK has the packet id and, in MQTT 5, the (empty)
    properties and one code per topic node in order; its header has the command
    byte and the remaining length. *)
Theorem encode_unsuback_correct m pkt proto_ver :
  prop_ok None ->
  exists m', encode_unsuback_msg m pkt proto_ver = (0, m') /\
    nng_msg_body m' = [up_packet_id pkt / 256; up_packet_id pkt mod 256]
      ++ (if MQTT_PROTOCOL_VERSION_v5 =? proto_ver
          then prop_bytes None ++ map u8 (map tn_reason_code (up_node pkt)) else []) /\
    nng_msg_header m' = u8 CMD_UNSUBACK :: put_var_integer (u32 (blen (nng_msg_body m'))).
Proof.
  intros Hp. unfold encode_unsuback_msg.
  set (m0 := nng_msg_clear (nng_msg_header_clear m)).
  destruct (cleared m : nng_msg_header m0 = [] /\ nng_msg_body m0 = []) as [Hh0 Hb0].
  set (idb := [up_packet_id pkt / 256; up_packet_id pkt mod 256]).
  destruct (append_step m0 idb) as (m1 & -> & Hh1 & Hb1). cbn [Z.eqb negb].
  set (e := if MQTT_PROTOCOL_VERSION_v5 =? proto_ver then append_codes _ _ else _).
  assert (exists m2, e = (0, m2) /\ nng_msg_header m2 = [] /\ nng_msg_body m2 = idb ++
    (if MQTT_PROTOCOL_VERSION_v5 =? proto_ver
     then prop_bytes None ++ map u8 (map tn_reason_code (up_node pkt)) else []))
    as (m2 & -> & Hh2 & Hb2).
  { unfold e. case_test.
    - edestruct (append_codes_ok (snd (encode_properties m1 None CMD_UNSUBACK)))
        as (m2 & E & Hh & Hb). exists m2. split; [exact E|].
      rewrite Hh, Hb, encode_properties_header, encode_properties_body, Hh1, Hb1, Hh0, Hb0 by done.
      by rewrite <- app_assoc.
    - exists m1. by rewrite Hh1, Hb1, Hh0, Hb0, app_nil_r. }
  cbn [Z.eqb negb].
  destruct (header_append_step m2 [u8 CMD_UNSUBACK]) as (m3 & -> & Hh3 & Hb3). cbn [Z.eqb negb].
  set (v := put_var_integer _).
  destruct (header_append_step m3 v) as (m4 & -> & Hh4 & Hb4). cbn [Z.eqb negb].
  exists m4. rewrite Hb4, Hb3, Hb2, Hh4, Hh3, Hh2. split; [done|]. split; [done|].
  unfold v. by rewrite Hb3, Hb2.
Qed.

End Handler.

(** ** Removing the registrations *)

Section Registry.

Context `{C : MqttConst} `{M : NngMsg} `{P : MqttParser} `{TF : TopicFilter} `{DB : !NanoDb}.

(** [nng_strndup(body, len)] *)
Definition nng_strndup (body : bytes) (len : Z) : bytes := take (Z.to_nat len) (c_str body).

Fixpoint unsub_nodes (db : dbtree) (hash : dbhash) (pid : Z) (nodes : list topic_node)
  : dbtree * dbhash * list topic_node :=
  match nodes with
  | [] => (db, hash, [])
  | tn :: nodes' =>
      if tn_len tn =? 0 then
        let '(db, hash, nodes') := unsub_nodes db hash pid nodes' in (db, hash, tn :: nodes')
      else
        let topic_str := nng_strndup (default [] (tn_body tn)) (tn_len tn) in
        let '(rv, db, hash) := sub_ctx_del db hash topic_str pid in
        let tn := if rv =? 0 then set_reason tn 0x00 else set_reason tn 0x11 in
        let '(db, hash, nodes') := unsub_nodes db hash pid nodes' in (db, hash, tn :: nodes')
  end.

Definition unsub_ctx_handle (db : dbtree) (hash : dbhash) (pid : Z) (pkt : packet_unsubscribe)
  : Z * dbtree * dbhash * packet_unsubscribe :=
  let '(db, hash, nodes) := unsub_nodes db hash pid (up_node pkt) in
  (0, db, hash, PacketUnsubscribe (up_packet_id pkt) (up_prop_len pkt) (up_properties pkt) nodes).

Context `{DL : !NanoDbLaws}.

(** The filters a packet names. *)
Definition named (nodes : list topic_node) : list bytes :=
  map (fun tn => nng_strndup (default [] (tn_body tn)) (tn_len tn))
    (List.filter (fun tn => negb (tn_len tn =? 0)) nodes).

Lemma unsub_registry db hash pid pkt :
  registry_ok db hash ->
  let '(rc, db', hash', pkt') := unsub_ctx_handle db hash pid pkt in
  rc = 0 /\ registry_ok db' hash' /\
  (forall f p, subscribed db' f p <->
     subscribed db f p /\ ~ (p = pid /\ f ∈ named (up_node pkt))) /\
  map tn_reason_code (up_node pkt')
  = map (fun tn => if tn_len tn =? 0 then tn_reason_code tn else 0) (up_node pkt).
Proof.
  unfold unsub_ctx_handle, named. generalize (up_node pkt) as nodes. intros nodes Hok.
  assert (let '(db', hash', nodes') := unsub_nodes db hash pid nodes in
    registry_ok db' hash' /\
    (forall f p, subscribed db' f p <-> subscribed db f p /\ ~ (p = pid /\
       f ∈ map (fun tn => nng_strndup (default [] (tn_body tn)) (tn_len tn))
         (List.filter (fun tn => negb (tn_len tn =? 0)) nodes))) /\
    map tn_reason_code nodes'
    = map (fun tn => if tn_len tn =? 0 then tn_reason_code tn else 0) nodes) as H.
  2: { by destruct (unsub_nodes db hash pid nodes) as [[db' hash'] nodes']. }
  induction nodes as [|tn nodes IH] in db, hash, Hok |- *; cbn [unsub_nodes List.filter map].
  { split; [done|]. split; [|done]. set_solver. }
  destruct (Z.eqb_spec (tn_len tn) 0) as [E|Hne]; cbn [negb map].
  - specialize (IH db hash Hok). destruct (unsub_nodes db hash pid nodes) as [[db' hash'] nodes'].
    destruct IH as (H1 & H2 & H3). cbn [map]. by rewrite H3.
  - set (t := nng_strndup _ _). cbn.
    assert (registry_ok (dbtree_delete_client db t pid) (dbhash_del_topic hash pid t)) as Hok1.
    { intros f p. rewrite delete_client_spec, check_topic_del, (Hok f p). naive_solver. }
    specialize (IH _ _ Hok1). destruct (unsub_nodes _ _ pid nodes) as [[db' hash'] nodes'].
    destruct IH as (H1 & H2 & H3). cbn [map]. rewrite H3. split; [done|]. split; [|done].
    intros f p. rewrite H2, delete_client_spec, elem_of_cons. naive_solver.
Qed.

(** C5. Unsubscribing removes exactly the client's registrations under the
    filters the packet names, keeps the client table and the topic tree in
    agreement, and gives every named filter the code 0: the code 0x11 (no
    subscription existed) is never used, because [sub_ctx_del] always returns
    0.  Nodes with an empty topic keep the code they had. *)
Theorem unsub_ctx_handle_correct db hash pid pkt :
  registry_ok db hash ->
  let '(rc, db', hash', pkt') := unsub_ctx_handle db hash pid pkt in
  rc = 0 /\ registry_ok db' hash' /\
  (forall f p, subscribed db' f p <->
     subscribed db f p /\ ~ (p = pid /\ f ∈ named (up_node pkt))) /\
  map tn_reason_code (up_node pkt')
  = map (fun tn => if tn_len tn =? 0 then tn_reason_code tn else 0) (up_node pkt).
Proof. apply unsub_registry. Qed.

End Registry.

(** unsub_pkt_free: what is released; nothing when the packet has no node. *)
Definition unsub_pkt_free `{NngMsg} (unsub_pkt : option packet_unsubscribe) : list sub_free :=
  match unsub_pkt with
  | None => []
  | Some pkt =>
      match up_node pkt with
      | [] => []
      | nodes =>
          match up_properties pkt with Some _ => [FreeProps] | None => [] end
          ++ map (fun _ => FreeNode) nodes ++ [FreePkt]
      end
  end.

(** ** Witnesses on the model of the library *)

Import Model.

(** UNSUBSCRIBE 258 from "a/+" and "", with 0xEE in the allocated memory. *)
Definition sample_topics : list bytes := [c!"a/+"; []].
Definition dirty (_ : nat) : topic_node := TopicNode 0xEE None 0xEE 0xEE.
Definition sample_unsub_msg : nng_msg :=
  Msg [162; 0] ([1; 2] ++ [0] ++ topics_wire sample_topics) CMD_UNSUBSCRIBE None.
Definition empty_unsub : packet_unsubscribe := PacketUnsubscribe 0 0 None [].

Lemma decode_unsub_msg_complete_witness :
  exists n m', decode_unsub_msg (fun i => Some (dirty i)) sample_unsub_msg MQTT_PROTOCOL_VERSION_v5
      empty_unsub
    = Some (0, PacketUnsubscribe 258 n None (nodes_from dirty 0 sample_topics), m').
Proof.
  apply (decode_unsub_msg_complete dirty sample_unsub_msg MQTT_PROTOCOL_VERSION_v5 empty_unsub 258 None
           sample_topics); try done. by repeat constructor.
Defined.

Definition sample_unsub : packet_unsubscribe :=
  PacketUnsubscribe 258 0 None (nodes_from dirty 0 sample_topics).

Lemma encode_unsuback_correct_witness :
  exists m', encode_unsuback_msg sample_unsub_msg sample_unsub MQTT_PROTOCOL_VERSION_v5 = (0, m') /\
    nng_msg_body m' = [1; 2; 0; 0xEE; 0xEE].
Proof.
  destruct (encode_unsuback_correct sample_unsub_msg sample_unsub MQTT_PROTOCOL_VERSION_v5)
    as (m' & H1 & H2 & _); [done|]. exists m'. split; [exact H1 | exact H2].
Defined.

(** Client 5 never subscribed to "a/+" and is told it was removed. *)
Lemma unsub_ctx_handle_correct_witness :
  let '(rc, db', hash', pkt') := unsub_ctx_handle two_clients two_clients_hash 5 sample_unsub in
  rc = 0 /\ registry_ok db' hash' /\ map tn_reason_code (up_node pkt') = [0; 0xEE].
Proof.
  pose proof (unsub_ctx_handle_correct two_clients two_clients_hash 5 sample_unsub two_clients_ok) as H.
  destruct (unsub_ctx_handle _ _ _ _) as [[[rc db'] hash'] pkt'].
  destruct H as (H1 & H2 & _ & H4). split; [exact H1|]. split; [exact H2 | exact H4].
Defined.

End UnsubHandler.
