(* ===== verification/PubHandler.v ===== *)
(** * Publishing (nanomq/pub_handler.c)

    [handle_pub] decodes a PUBLISH, authenticates it, resolves its topic
    alias, asks the access control, collects the subscribers and keeps or
    deletes the retained message.  The model passes [work], the trees, the
    client table and the statistics explicitly; [None] is a NULL dereference. *)

From S2P Require Import Prelude NngApi NngModel Acl PubCodec SubHandler.

Module PubHandler.

Import Acl PubCodec SubHandler.

(** ** Statistics *)

Record msg_statistics := Stats {
  initialed : bool;
  msg_in : Z;
  msg_out : Z;
  msg_drop : Z
}.

Definition msg_statistics_init (m : msg_statistics) : msg_statistics := Stats true 0 0 0.

Definition nanomq_get_message_in (g : msg_statistics) : Z := if initialed g then msg_in g else 0.
Definition nanomq_get_message_out (g : msg_statistics) : Z := if initialed g then msg_out g else 0.
Definition nanomq_get_message_drop (g : msg_statistics) : Z := if initialed g then msg_drop g else 0.

Section Handler.

Context `{C : MqttConst} `{M : NngMsg} `{P : MqttParser} `{TF : TopicFilter}.
Context `{DB : !NanoDb} `{NW : !NngMsgNew} `{SQ : !SqliteRetain}.

(** The parts of [work->config] that are read, with the library calls of the
    HTTP authentication. *)
Record pub_conf := PubConf {
  pc_auth_http_enable : bool;
  pc_topic_queue_init : option bytes -> Z -> option (list bytes);
  pc_auth_http : option conn_param -> bool -> list bytes -> Z;
  pc_max_topic_alias : Z;
  pc_acl_enable : bool;
  pc_acl : conf_acl;
  pc_deny_action : deny_action;
  pc_sqlite_enable : bool
}.

(** The parts of [struct work]; [w_bridge] is [proto == PROTO_MQTT_BRIDGE]. *)
Record pub_work := PubWork {
  w_bridge : bool;
  w_proto_ver : Z;
  w_pid : Z;
  w_cparam : option conn_param;
  w_config : option pub_conf;
  w_msg : nng_msg;
  w_pub_packet : option pub_packet_struct
}.

(** What [handle_pub] changes: the work, the trees, the client table, the
    counters, the sqlite store ([None]: work->sqlite_db is NULL), and the
    pipes of [pipe_ct->msg_infos]. *)
Record pub_state := PubState {
  ps_work : pub_work;
  ps_db : dbtree;
  ps_db_ret : dbtree_ret;
  ps_hash : dbhash;
  ps_stats : msg_statistics;
  ps_sqlite : option sqlite_db;
  ps_msg_infos : list Z
}.

Definition set_msg (w : pub_work) (m : nng_msg) : pub_work :=
  PubWork (w_bridge w) (w_proto_ver w) (w_pid w) (w_cparam w) (w_config w) m (w_pub_packet w).
Definition set_packet (w : pub_work) (pp : pub_packet_struct) : pub_work :=
  PubWork (w_bridge w) (w_proto_ver w) (w_pid w) (w_cparam w) (w_config w) (w_msg w) (Some pp).

Definition set_work (st : pub_state) (w : pub_work) : pub_state :=
  PubState w (ps_db st) (ps_db_ret st) (ps_hash st) (ps_stats st) (ps_sqlite st) (ps_msg_infos st).
Definition set_stats (st : pub_state) (g : msg_statistics) : pub_state :=
  PubState (ps_work st) (ps_db st) (ps_db_ret st) (ps_hash st) g (ps_sqlite st) (ps_msg_infos st).
Definition set_hash (st : pub_state) (h : dbhash) : pub_state :=
  PubState (ps_work st) (ps_db st) (ps_db_ret st) h (ps_stats st) (ps_sqlite st) (ps_msg_infos st).
Definition set_db (st : pub_state) (t : dbtree) : pub_state :=
  PubState (ps_work st) t (ps_db_ret st) (ps_hash st) (ps_stats st) (ps_sqlite st) (ps_msg_infos st).
Definition set_db_ret (st : pub_state) (t : dbtree_ret) : pub_state :=
  PubState (ps_work st) (ps_db st) t (ps_hash st) (ps_stats st) (ps_sqlite st) (ps_msg_infos st).
Definition set_sqlite (st : pub_state) (s : sqlite_db) : pub_state :=
  PubState (ps_work st) (ps_db st) (ps_db_ret st) (ps_hash st) (ps_stats st) (Some s) (ps_msg_infos st).
Definition set_infos (st : pub_state) (l : list Z) : pub_state :=
  PubState (ps_work st) (ps_db st) (ps_db_ret st) (ps_hash st) (ps_stats st) (ps_sqlite st) l.

Definition init_pipe_content (st : pub_state) : pub_state := set_infos st [].

(** foreach_client: one msg_info per pipe that is not 0; every pipe counts. *)
Fixpoint foreach_client (cli_ctx_list : list Z) (st : pub_state) : pub_state :=
  match cli_ctx_list with
  | [] => st
  | pids :: l =>
      let g := ps_stats st in
      let st := set_stats st (Stats (initialed g) (msg_in g) (u64 (msg_out g + 1)) (msg_drop g)) in
      if pids =? 0 then foreach_client l st
      else foreach_client l (set_infos st (ps_msg_infos st ++ [pids]))
  end.

(** ** Retained messages *)

Definition handle_pub_retain_sqlite (st : pub_state) (db : sqlite_db) (pp : pub_packet_struct)
    (topic : bytes) : pub_state :=
  if negb (fh_retain (pp_fixed pp) =? 0) then
    if 0 <? pp_payload_len pp
    then set_sqlite st (nng_mqtt_qos_db_set_retain db topic (w_msg (ps_work st))
                          (w_proto_ver (ps_work st)))
    else set_sqlite st (nng_mqtt_qos_db_remove_retain db topic)
  else st.

(** The message that is kept: [Some] unless the protocol layer cannot decode
    it; [now] is nng_clock(). *)
Definition retain_msg (w : pub_work) (pp : pub_packet_struct) (now : Z)
  : option nng_msg * pub_packet_struct :=
  let ret := nng_msg_set_timestamp (nng_mqtt_msg_proto_data_alloc new_msg) now in
  let finish ret :=
    nng_mqtt_msg_set_publish_proto_version (nng_msg_set_pipe ret (w_pid w)) (w_proto_ver w) in
  if w_proto_ver w =? MQTT_PROTOCOL_VERSION_v5 then
    let ret := nng_msg_set_cmd_type ret CMD_PUBLISH_V5 in
    let '(_, ret', pp) := encode_pub_message (Some ret) pp PUBLISH in
    (finish <$> ret', pp)
  else if (w_proto_ver w =? MQTT_PROTOCOL_VERSION_v311) ||
          (w_proto_ver w =? MQTT_PROTOCOL_VERSION_v31) then
    let ret := nng_msg_set_cmd_type ret CMD_PUBLISH in
    let '(_, ret', pp) := encode_pub_message (Some ret) pp PUBLISH in
    match ret' with
    | None => (None, pp)
    | Some ret =>
        let '(rv, ret) := nng_mqtt_msg_decode ret in
        if negb (rv =? 0) then (None, pp) else (Some (finish ret), pp)
    end
  else (Some (finish ret), pp).

Definition handle_pub_retain (now : Z) (st : pub_state) (pp : pub_packet_struct) (topic : bytes)
  : pub_state :=
  match ps_sqlite st, match w_config (ps_work st) with Some c => pc_sqlite_enable c | None => false end with
  | Some db, true => handle_pub_retain_sqlite st db pp topic
  | _, _ =>
      if negb (fh_retain (pp_fixed pp) =? 0) then
        if 0 <? pp_payload_len pp then
          let '(ret, pp) := retain_msg (ps_work st) pp now in
          let st := set_work st (set_packet (ps_work st) pp) in
          match ret with
          | None => st
          | Some ret => set_db_ret st (snd (dbtree_insert_retain (ps_db_ret st) topic ret))
          end
        else set_db_ret st (snd (dbtree_delete_retain (ps_db_ret st) topic))
      else st
  end.

(** ** handle_pub *)

(** The counter of received messages. *)
Definition count_in (st : pub_state) : pub_state :=
  let g := if initialed (ps_stats st) then ps_stats st else msg_statistics_init (ps_stats st) in
  set_stats st (Stats (initialed g) (u64 (msg_in g + 1)) (msg_out g) (msg_drop g)).

(** Decoding, unless the packet of a bridge was decoded before: the code and
    the state. *)
Definition decode_step (st : pub_state) (proto : Z) (is_event : bool) : option (Z * pub_state) :=
  let w := ps_work st in
  if negb (w_bridge w) || is_event then
    '(result, pp, msg) ← decode_pub_message (w_msg w) zero_packet proto;
    Some (result, set_work st (set_packet (set_msg w msg) pp))
  else Some (SUCCESS, st).

(** The HTTP authentication: is the publish refused? *)
Definition auth_http_refuses (w : pub_work) (topic : option bytes) (len : Z) : bool :=
  match w_config w with
  | Some c =>
      pc_auth_http_enable c &&
      match pc_topic_queue_init c topic len with
      | None => false
      | Some tq => negb (pc_auth_http c (w_cparam w) false tq =? 0)
      end
  | None => false
  end.

(** The topic alias of MQTT 5: an error code, or the packet and the table. *)
Definition topic_alias_step (w : pub_work) (hash : dbhash) (pp : pub_packet_struct) (proto : Z)
  : Z + (pub_packet_struct * dbhash) :=
  let v := pp_publish pp in
  if proto =? MQTT_PROTOCOL_VERSION_v5 then
    match property_topic_alias (pb_properties v) with
    | Some alias_val =>
        let server_max_alias :=
          match w_config w with Some c => pc_max_topic_alias c | None => 0 end in
        if (alias_val =? 0) || (server_max_alias <? alias_val) then inl TOPIC_ALIAS_INVALID
        else
          match pb_topic v with
          | Some topic =>
              if 0 <? pb_topic_len v
              then inr (pp, dbhash_insert_atpair hash (w_pid w) alias_val topic)
              else
                match dbhash_find_atpair hash (w_pid w) alias_val with
                | Some tp => inr (set_publish pp (set_topic v (Some tp) (blen tp)), hash)
                | None => inl TOPIC_ALIAS_INVALID
                end
          | None =>
              match dbhash_find_atpair hash (w_pid w) alias_val with
              | Some tp => inr (set_publish pp (set_topic v (Some tp) (blen tp)), hash)
              | None => inl TOPIC_ALIAS_INVALID
              end
          end
    | None => if pb_topic_len v =? 0 then inl PROTOCOL_ERROR else inr (pp, hash)
    end
  else inr (pp, hash).

(** The access control: [None] when the configuration is NULL, otherwise the
    code of a refused publish. *)
Definition acl_step (w : pub_work) (topic : bytes) (is_event : bool) : option (option Z) :=
  match is_event, w_cparam w with
  | false, Some cparam =>
      match w_config w with
      | None => None
      | Some c =>
          Some (if pc_acl_enable c && negb (auth_acl (pc_acl c) ACL_PUB cparam topic) then
                  match pc_deny_action c with
                  | ACL_DISCONNECT => Some NORMAL_DISCONNECTION
                  | ACL_IGNORE => Some BANNED
                  end
                else None)
      end
  | _, _ => Some None
  end.

(** A message without subscribers counts as dropped. *)
Definition count_drop (cli_ctx_list shared_cli_list : option (list Z)) (st : pub_state) : pub_state :=
  match cli_ctx_list, shared_cli_list with
  | None, None =>
      let g := ps_stats st in
      set_stats st (Stats (initialed g) (msg_in g) (msg_out g) (u64 (msg_drop g + 1)))
  | _, _ => st
  end.

(** Collecting the subscribers. *)
Definition deliver (st : pub_state) (topic : bytes) : pub_state :=
  let cli_ctx_list := dbtree_find_clients (ps_db st) topic in
  let '(shared_cli_list, db) := dbtree_find_shared_clients (ps_db st) topic in
  let st := count_drop cli_ctx_list shared_cli_list (set_db st db) in
  let st := match cli_ctx_list with Some l => foreach_client l st | None => st end in
  match shared_cli_list with Some l => foreach_client l st | None => st end.

Definition handle_pub (now : Z) (st : pub_state) (proto : Z) (is_event : bool)
  : option (Z * pub_state) :=
  let st := count_in (init_pipe_content st) in
  '(result, st) ← decode_step st proto is_event;
  if negb (SUCCESS =? result) then Some (result, st)
  else
    match w_pub_packet (ps_work st) with
    | None => None
    | Some pp =>
        if negb (PUBLISH =? fh_packet_type (pp_fixed pp)) then Some (MALFORMED_PACKET, st)
        else if auth_http_refuses (ps_work st) (pb_topic (pp_publish pp)) (pb_topic_len (pp_publish pp))
        then Some (NOT_AUTHORIZED, st)
        else
          match topic_alias_step (ps_work st) (ps_hash st) pp proto with
          | inl code => Some (code, st)
          | inr (pp, hash) =>
              let st := set_hash (set_work st (set_packet (ps_work st) pp)) hash in
              match pb_topic (pp_publish pp) with
              | None => Some (TOPIC_FILTER_INVALID, st)
              | Some topic =>
                  match acl_step (ps_work st) topic is_event with
                  | None => None
                  | Some (Some code) => Some (code, st)
                  | Some None =>
                      Some (result, handle_pub_retain now (deliver st topic) pp topic)
                  end
              end
          end
    end.

(** ** Releasing a packet *)

(** free_pub_packet: what is released, in order, with the sizes. *)
Inductive pub_free := PFTopic (len : Z) | PFProps | PFPayload (len : Z) | PFPacket.

Definition free_pub_packet (pub_packet : option pub_packet_struct) : list pub_free :=
  match pub_packet with
  | None => []
  | Some pp =>
      (if fh_packet_type (pp_fixed pp) =? PUBLISH then
         match pb_topic (pp_publish pp) with
         | Some _ => [PFTopic (u32 (pb_topic_len (pp_publish pp) + 1))]
         | None => []
         end
         ++ match pb_properties (pp_publish pp) with Some _ => [PFProps] | None => [] end
         ++ match pp_payload pp with
            | Some _ => if 0 <? pp_payload_len pp then [PFPayload (u32 (pp_payload_len pp + 1))] else []
            | None => []
            end
       else match ar_properties (pp_arrc pp) with Some _ => [PFProps] | None => [] end)
      ++ [PFPacket]
  end.

(** append_bytes_with_type *)
Definition append_bytes_with_type (msg : nng_msg) (type : Z) (content : bytes) (len : Z)
  : Z * nng_msg :=
  if 0 <? len then
    let msg := snd (nng_msg_append msg [type]) in
    let msg := snd (nng_msg_append_u16 msg (u16 len)) in
    (0, snd (nng_msg_append msg (take (Z.to_nat len) content)))
  else (1, msg).

(** ** Who receives a publish *)

Definition live (l : list Z) : list Z := List.filter (fun p => negb (p =? 0)) l.

Lemma elem_of_live p l : p ∈ live l <-> p ∈ l /\ p <> 0.
Proof.
  unfold live. rewrite !list_elem_of_In, filter_In, negb_true_iff, Z.eqb_neq. done.
Qed.

(** [st'] differs from [st] at most in the counters and the collected pipes. *)
Record same_but_infos (st st' : pub_state) : Prop := SameBut {
  sb_work : ps_work st' = ps_work st;
  sb_db : ps_db st' = ps_db st;
  sb_ret : ps_db_ret st' = ps_db_ret st;
  sb_hash : ps_hash st' = ps_hash st;
  sb_sqlite : ps_sqlite st' = ps_sqlite st
}.

Lemma foreach_client_spec l st :
  ps_msg_infos (foreach_client l st) = ps_msg_infos st ++ live l /\
  same_but_infos st (foreach_client l st).
Proof.
  induction l as [|p l IH] in st |- *; cbn [foreach_client].
  - unfold live. cbn. by rewrite app_nil_r.
  - unfold live. cbn [List.filter]. destruct (p =? 0); cbn [negb];
      match goal with |- context [foreach_client l ?s] => destruct (IH s) as [E [? ? ? ? ?]] end;
      rewrite E; cbn; rewrite <- ?app_assoc; done.
Qed.

(** The pipes a publish on [topic] goes to. *)
Definition receivers (db : dbtree) (topic : bytes) : list Z :=
  live (default [] (dbtree_find_clients db topic))
  ++ live (default [] (fst (dbtree_find_shared_clients db topic))).

Lemma each_client_spec o st :
  let st' := match o with Some l => foreach_client l st | None => st end in
  ps_msg_infos st' = ps_msg_infos st ++ live (default [] o) /\ same_but_infos st st'.
Proof. destruct o; cbn; [apply foreach_client_spec|by rewrite app_nil_r]. Qed.

Lemma deliver_spec st topic :
  ps_msg_infos (deliver st topic) = ps_msg_infos st ++ receivers (ps_db st) topic /\
  same_but_infos (set_db st (snd (dbtree_find_shared_clients (ps_db st) topic))) (deliver st topic).
Proof.
  unfold deliver, receivers.
  destruct (dbtree_find_shared_clients (ps_db st) topic) as [shared db]. cbn [fst snd].
  set (st1 := count_drop _ _ _).
  assert (ps_msg_infos st1 = ps_msg_infos st /\ same_but_infos (set_db st db) st1) as [E1 [? ? ? ? ?]].
  { unfold st1, count_drop. destruct (dbtree_find_clients (ps_db st) topic), shared; done. }
  destruct (each_client_spec (dbtree_find_clients (ps_db st) topic) st1) as [E2 [? ? ? ? ?]].
  set (st2 := match dbtree_find_clients (ps_db st) topic with Some l => foreach_client l st1 | None => _ end) in *.
  destruct (each_client_spec shared st2) as [E3 [? ? ? ? ?]].
  rewrite E3, E2, E1, <- app_assoc. split; [done|]. constructor; congruence.
Qed.

(** Encoding leaves the variable header alone. *)
Lemma encode_publish_publish m pp proto : pp_publish (snd (encode_publish m pp proto)) = pp_publish pp.
Proof.
  unfold encode_publish. destruct (proto =? _).
  - destruct (encode_properties _ _ _) as [rv m1]. by destruct (negb (rv =? 0)).
  - done.
Qed.

Lemma encode_pub_publish m pp cmd : pp_publish (snd (encode_pub_message m pp cmd)) = pp_publish pp.
Proof.
  unfold encode_pub_message. destruct m as [m|]; [|done].
  set (proto := if _ =? CMD_PUBLISH_V5 then _ else _).
  pose proof (encode_publish_publish (nng_msg_header_clear (nng_msg_clear m)) pp proto) as H.
  destruct (cmd =? PUBLISH); [by destruct (encode_publish _ _ _) as [[? ?] ?]|].
  by destruct (existsb _ _).
Qed.

Lemma retain_msg_publish w pp now : pp_publish (snd (retain_msg w pp now)) = pp_publish pp.
Proof.
  unfold retain_msg. repeat case_test; [| |done].
  - pose proof (encode_pub_publish (Some (nng_msg_set_cmd_type (nng_msg_set_timestamp
      (nng_mqtt_msg_proto_data_alloc new_msg) now) CMD_PUBLISH_V5)) pp PUBLISH) as H.
    by destruct (encode_pub_message _ _ _) as [[? ?] ?].
  - pose proof (encode_pub_publish (Some (nng_msg_set_cmd_type (nng_msg_set_timestamp
      (nng_mqtt_msg_proto_data_alloc new_msg) now) CMD_PUBLISH)) pp PUBLISH) as H.
    destruct (encode_pub_message _ _ _) as [[? [ret|]] ?]; [|done].
    destruct (nng_mqtt_msg_decode ret). by case_test.
Qed.

Lemma handle_pub_retain_packet now st pp topic :
  w_pub_packet (ps_work st) = Some pp ->
  exists pp', w_pub_packet (ps_work (handle_pub_retain now st pp topic)) = Some pp' /\
    pp_publish pp' = pp_publish pp.
Proof.
  intros Hpp. unfold handle_pub_retain, handle_pub_retain_sqlite.
  pose proof (retain_msg_publish (ps_work st) pp now) as Hr.
  destruct (retain_msg (ps_work st) pp now) as [ret pp']. cbn [snd] in Hr.
  destruct (ps_sqlite st) as [db|]; [destruct (match w_config _ with Some _ => _ | None => _ end)|];
    repeat case_test; cbn; eauto; destruct ret; cbn; eauto.
Qed.

Lemma handle_pub_retain_infos now st pp topic :
  ps_msg_infos (handle_pub_retain now st pp topic) = ps_msg_infos st /\
  ps_db (handle_pub_retain now st pp topic) = ps_db st /\
  ps_hash (handle_pub_retain now st pp topic) = ps_hash st.
Proof.
  unfold handle_pub_retain, handle_pub_retain_sqlite.
  destruct (ps_sqlite st) as [db|]; [destruct (match w_config _ with Some _ => _ | None => _ end)|];
    repeat case_test; try done; destruct (retain_msg _ _ _) as [[ret|] pp']; done.
Qed.

(** The first steps leave the trees and the store alone. *)
Lemma decode_step_spec st proto is_event result st' :
  decode_step (count_in (init_pipe_content st)) proto is_event = Some (result, st') ->
  ps_msg_infos st' = [] /\ ps_db st' = ps_db st /\ ps_db_ret st' = ps_db_ret st /\
  ps_hash st' = ps_hash st /\ ps_sqlite st' = ps_sqlite st /\
  w_config (ps_work st') = w_config (ps_work st) /\ w_cparam (ps_work st') = w_cparam (ps_work st).
Proof.
  unfold decode_step. case_test; [|by intros [= _ <-]].
  by destruct (decode_pub_message _ _ _) as [[[rc pp] msg]|]; [intros [= _ <-]|].
Qed.

(** A refused publish: nothing is delivered and nothing is kept. *)
Definition refused (st st' : pub_state) : Prop :=
  ps_msg_infos st' = [] /\ ps_db st' = ps_db st /\ ps_db_ret st' = ps_db_ret st /\
  ps_sqlite st' = ps_sqlite st.

Context `{DL : !NanoDbLaws}.

Lemma topic_alias_step_check w hash pp proto :
  match topic_alias_step w hash pp proto with
  | inl _ => True
  | inr (_, hash') => forall p f, dbhash_check_topic hash' p f = dbhash_check_topic hash p f
  end.
Proof.
  unfold topic_alias_step. repeat case_match; simplify_eq; try done;
    intros p f; by apply atpair_check.
Qed.

Lemma receivers_spec db topic p :
  p ∈ receivers db topic <->
  p <> 0 /\ ((exists f, subscribed db f p /\ topic_filter f topic = true) \/
             p ∈ default [] (fst (dbtree_find_shared_clients db topic))).
Proof.
  unfold receivers. rewrite elem_of_app, !elem_of_live, find_clients_spec. naive_solver.
Qed.

(** A publish is admitted with a topic, its own or its alias's: it decodes as a
    PUBLISH, the HTTP authentication and the access control let it through, and
    its topic alias, if any, is valid. *)
Definition admitted (st : pub_state) (proto : Z) (is_event : bool) (topic : bytes) : Prop :=
  exists st1, decode_step (count_in (init_pipe_content st)) proto is_event = Some (SUCCESS, st1) /\
  exists pp pp' hash, w_pub_packet (ps_work st1) = Some pp /\
    fh_packet_type (pp_fixed pp) = PUBLISH /\
    auth_http_refuses (ps_work st1) (pb_topic (pp_publish pp)) (pb_topic_len (pp_publish pp)) = false /\
    topic_alias_step (ps_work st1) (ps_hash st1) pp proto = inr (pp', hash) /\
    pb_topic (pp_publish pp') = Some topic /\
    acl_step (ps_work st) topic is_event = Some None.

(** What a delivered publish leaves behind. *)
Definition delivered (st st' : pub_state) (topic : bytes) : Prop :=
  (exists pp, w_pub_packet (ps_work st') = Some pp /\ pb_topic (pp_publish pp) = Some topic) /\
  ps_msg_infos st' = receivers (ps_db st) topic /\
  ps_db st' = snd (dbtree_find_shared_clients (ps_db st) topic).

Lemma finish_delivered now st st2 pp topic :
  ps_msg_infos st2 = [] -> ps_db st2 = ps_db st ->
  w_pub_packet (ps_work st2) = Some pp -> pb_topic (pp_publish pp) = Some topic ->
  let st' := handle_pub_retain now (deliver st2 topic) pp topic in
  delivered st st' topic /\ ps_hash st' = ps_hash st2.
Proof.
  intros Hi Hdb Hpp Ht. destruct (deliver_spec st2 topic) as [Hinf [Hw Hdb2 _ Hh2 _]].
  destruct (handle_pub_retain_infos now (deliver st2 topic) pp topic) as (Hi3 & Hdb3 & Hh3).
  destruct (handle_pub_retain_packet now (deliver st2 topic) pp topic) as (pp2 & Hp2 & Ep);
    [by rewrite Hw|].
  split; [|by rewrite Hh3, Hh2]. split_and!.
  - exists pp2. by rewrite Ep.
  - by rewrite Hi3, Hinf, Hi, Hdb.
  - by rewrite Hdb3, Hdb2, Hdb.
Qed.

Lemma handle_pub_admitted now st proto is_event topic :
  admitted st proto is_event topic ->
  exists st', handle_pub now st proto is_event = Some (SUCCESS, st') /\ delivered st st' topic.
Proof.
  unfold admitted, handle_pub.
  intros (st1 & Hd & pp & pp1 & hash & Epp & Ety & Eau & Eal & Ht & Ha). rewrite Hd. cbn [mbind option_bind].
  apply decode_step_spec in Hd as (Hi & Hdb & _ & _ & _ & Hcf & Hcp).
  rewrite Epp, Ety, Eau, Eal, !Z.eqb_refl. cbn [negb].
  rewrite Ht. unfold acl_step in *.
  cbn [ps_work set_hash set_work set_packet w_config w_cparam] in *. rewrite Hcf, Hcp, Ha.
  eexists. split; [reflexivity|]. by apply finish_delivered.
Qed.

(** The two outcomes of [handle_pub]; either way only the alias table of the
    client table changes. *)
Lemma handle_pub_cases now st proto is_event rc st' :
  handle_pub now st proto is_event = Some (rc, st') ->
  (forall p f, dbhash_check_topic (ps_hash st') p f = dbhash_check_topic (ps_hash st) p f) /\
  (refused st st' \/
   exists topic, admitted st proto is_event topic /\ rc = SUCCESS /\ delivered st st' topic).
Proof.
  intros H. unfold handle_pub, admitted in *. pose proof (decode_step_spec st proto is_event) as Hd.
  destruct (decode_step _ proto is_event) as [[result st1]|]; [|done]. cbn [mbind option_bind] in H.
  destruct (Hd result st1 eq_refl) as (Hi & Hdb & Hr & Hh & Hsq & Hcf & Hcp).
  case_test; [injection H as <- <-; rewrite Hh; by split; [|left]|]. bool_hyps. subst result.
  destruct (w_pub_packet (ps_work st1)) as [pp|] eqn:Hpp; [|done].
  destruct (Z.eqb_spec PUBLISH (fh_packet_type (pp_fixed pp))) as [Hty|_]; cbn [negb] in H;
    [|injection H as <- <-; rewrite Hh; by split; [|left]].
  destruct (auth_http_refuses _ _ _) eqn:Hau; [injection H as <- <-; rewrite Hh; by split; [|left]|].
  pose proof (topic_alias_step_check (ps_work st1) (ps_hash st1) pp proto) as Hck.
  destruct (topic_alias_step _ _ pp proto) as [code|[pp1 hash]] eqn:Hal;
    [injection H as <- <-; rewrite Hh; by split; [|left]|].
  rewrite Hh in Hck.
  destruct (pb_topic (pp_publish pp1)) as [topic|] eqn:Ht; [|injection H as <- <-; by split; [|left]].
  destruct (acl_step _ topic is_event) as [[code|]|] eqn:Ha; [injection H as <- <-; by split; [|left]| |done].
  injection H as <- <-. set (st2 := set_hash _ hash).
  destruct (finish_delivered now st st2 pp1 topic) as [Hf Hh2]; [done..|].
  rewrite Hh2. split; [done|]. right. exists topic. split; [|done]. exists st1. split; [done|].
  exists pp, pp1, hash. split_and!; [done..|].
  unfold acl_step in *. cbn in Ha. by rewrite Hcf, Hcp in Ha.
Qed.

(** C3. An admitted publish is delivered: [handle_pub] returns SUCCESS, and
    the pipes it collects are exactly those other than pipe 0 that are
    registered under a filter matching the topic, and the ones chosen from share
    groups.  Any other publish is refused: it has no receiver and the topic
    tree, the retained messages and the sqlite store stay as they were. *)
Theorem handle_pub_delivers now st proto is_event :
  (forall topic, admitted st proto is_event topic ->
    exists st', handle_pub now st proto is_event = Some (SUCCESS, st') /\
      forall p, p ∈ ps_msg_infos st' <->
        p <> 0 /\ ((exists f, subscribed (ps_db st) f p /\ topic_filter f topic = true) \/
                   p ∈ default [] (fst (dbtree_find_shared_clients (ps_db st) topic)))) /\
  (forall rc st', handle_pub now st proto is_event = Some (rc, st') ->
    (forall topic, ~ admitted st proto is_event topic) -> refused st st').
Proof.
  split.
  - intros topic Ha. destruct (handle_pub_admitted now st proto is_event topic Ha) as (st' & E & _ & Hi & _).
    exists st'. split; [done|]. intros p. by rewrite Hi, receivers_spec.
  - intros rc st' H Hn. apply handle_pub_cases in H as [_ [H|(topic & Ha & _)]]; [done|].
    by destruct (Hn topic).
Qed.

(** A publish that the access control denies is refused, but with the
    deny action "disconnect" the code is NORMAL_DISCONNECTION, which has the
    value of SUCCESS: the caller, which closes the connection on any other code
    than SUCCESS, goes on with the packet. *)
Theorem handle_pub_denied now st proto conf cparam pp m topic :
  NORMAL_DISCONNECTION = SUCCESS ->
  w_bridge (ps_work st) = false -> w_config (ps_work st) = Some conf ->
  w_cparam (ps_work st) = Some cparam -> pc_auth_http_enable conf = false ->
  decode_pub_message (w_msg (ps_work st)) zero_packet proto = Some (SUCCESS, pp, m) ->
  proto <> MQTT_PROTOCOL_VERSION_v5 ->
  fh_packet_type (pp_fixed pp) = PUBLISH -> pb_topic (pp_publish pp) = Some topic ->
  pc_acl_enable conf = true -> auth_acl (pc_acl conf) ACL_PUB cparam topic = false ->
  exists st', refused st st' /\ w_pub_packet (ps_work st') = Some pp /\
    handle_pub now st proto false =
      Some (match pc_deny_action conf with ACL_DISCONNECT => SUCCESS | ACL_IGNORE => BANNED end, st').
Proof.
  intros Hn Hbr Hc Hcp Hh Hdec Hp Hty Ht Hen Hacl. unfold handle_pub, decode_step.
  cbn [ps_work count_in init_pipe_content set_infos set_stats]. rewrite Hbr. cbn [negb orb].
  rewrite Hdec. cbn [mbind option_bind]. rewrite Z.eqb_refl. cbn. rewrite Hty, Z.eqb_refl. cbn.
  unfold auth_http_refuses. cbn. rewrite Hc, Hh. cbn.
  unfold topic_alias_step. rewrite (proj2 (Z.eqb_neq _ _) Hp), Ht. cbn.
  unfold acl_step. cbn. rewrite ?Hcp, ?Hc. cbn. rewrite Hen, Hacl. cbn.
  eexists. split; [|split; [|destruct (pc_deny_action conf); rewrite ?Hn; reflexivity]]; done.
Qed.

(** Topic aliases: an MQTT 5 publish that carries a topic and a valid
    alias defines the alias for its client, and a later publish of the same
    client with this alias and no topic is published on that topic; no alias of
    another client or number changes. *)
Theorem topic_alias_round_trip w w' hash pp pp' a topic :
  w_pid w' = w_pid w -> w_config w' = w_config w ->
  property_topic_alias (pb_properties (pp_publish pp)) = Some a ->
  property_topic_alias (pb_properties (pp_publish pp')) = Some a ->
  0 < a <= match w_config w with Some c => pc_max_topic_alias c | None => 0 end ->
  pb_topic (pp_publish pp) = Some topic -> 0 < pb_topic_len (pp_publish pp) ->
  pb_topic (pp_publish pp') = None ->
  exists hash', topic_alias_step w hash pp MQTT_PROTOCOL_VERSION_v5 = inr (pp, hash') /\
    topic_alias_step w' hash' pp' MQTT_PROTOCOL_VERSION_v5
    = inr (set_publish pp' (set_topic (pp_publish pp') (Some topic) (blen topic)), hash') /\
    forall p b, (p, b) <> (w_pid w, a) -> dbhash_find_atpair hash' p b = dbhash_find_atpair hash p b.
Proof.
  intros Hpid Hcf Ha Ha' Hr Ht Hl Ht'. unfold topic_alias_step. rewrite Z.eqb_refl, Ha, Ha', Ht, Ht'.
  destruct (Z.eqb_spec a 0); [lia|]. rewrite Hcf, Hpid.
  destruct (Z.ltb_spec (match w_config w with Some c => pc_max_topic_alias c | None => 0 end) a); [lia|].
  rewrite (proj2 (Z.ltb_lt _ _) Hl). cbn [orb]. eexists. split; [reflexivity|].
  rewrite atpair_insert, decide_True by done. split; [done|].
  intros p b Hne. rewrite atpair_insert. rewrite decide_False; [done|]. intros [-> ->]. done.
Qed.

(** ** Retained messages *)

Context `{CL : !MqttConstLaws} `{ML : !NngMsgLaws} `{MA : !NngMsgAlloc}.
Context `{PL : !MqttParserLaws} `{PR : !PropertyLaws} `{NL : !NngMsgNewLaws}.

(** The encoding of a protocol version: MQTT 3.1 is written as 3.1.1. *)
Definition wire_version (proto_ver : Z) : Z :=
  if proto_ver =? MQTT_PROTOCOL_VERSION_v5 then MQTT_PROTOCOL_VERSION_v5
  else MQTT_PROTOCOL_VERSION_v311.

(** The packet is encoded; unless the version is 5, the protocol layer then
    decodes the message, and only what it can decode is kept. *)
Lemma retain_msg_wire w pp now t :
  publish_ok pp t -> w_proto_ver w ∈ [MQTT_PROTOCOL_VERSION_v31; MQTT_PROTOCOL_VERSION_v311;
                                      MQTT_PROTOCOL_VERSION_v5] ->
  blen (wire pp t (wire_version (w_proto_ver w))) < 268435456 ->
  exists enc, nng_msg_header enc = wire_header pp t (wire_version (w_proto_ver w)) /\
    nng_msg_body enc = wire pp t (wire_version (w_proto_ver w)) /\
    if bool_decide (w_proto_ver w <> MQTT_PROTOCOL_VERSION_v5 /\ fst (nng_mqtt_msg_decode enc) <> 0)
    then fst (retain_msg w pp now) = None
    else exists ret, fst (retain_msg w pp now) = Some ret /\
      nng_msg_header ret = nng_msg_header enc /\ nng_msg_body ret = nng_msg_body enc.
Proof.
  intros Hok Hv Hsz. unfold retain_msg, wire_version in *.
  set (m0 := nng_msg_set_timestamp _ now).
  destruct (Z.eqb_spec (w_proto_ver w) MQTT_PROTOCOL_VERSION_v5) as [E|Hn5].
  - destruct (encode_publish_cleared (nng_msg_set_cmd_type m0 CMD_PUBLISH_V5) pp t
      MQTT_PROTOCOL_VERSION_v5 Hok) as (m' & pp' & -> & Hh & Hb); [rewrite set_cmd_cmd; by left|done|].
    exists m'. split_and!; [done..|]. rewrite bool_decide_false by naive_solver.
    eexists. split; [reflexivity|]. cbv beta. by rewrite set_version_header, set_pipe_header,
      set_version_body, set_pipe_body.
  - destruct (encode_publish_cleared (nng_msg_set_cmd_type m0 CMD_PUBLISH) pp t
      MQTT_PROTOCOL_VERSION_v311 Hok) as (m' & pp' & -> & Hh & Hb); [rewrite set_cmd_cmd; by right|done|].
    assert ((w_proto_ver w =? MQTT_PROTOCOL_VERSION_v311) || (w_proto_ver w =? MQTT_PROTOCOL_VERSION_v31)
            = true) as ->.
    { rewrite orb_true_iff, !Z.eqb_eq. rewrite !elem_of_cons in Hv. set_solver. }
    exists m'. split_and!; [done..|]. pose proof (decode_body m') as Eb. pose proof (decode_header m') as Eh.
    destruct (nng_mqtt_msg_decode m') as [rv ret]. cbn [fst snd] in *.
    destruct (Z.eqb_spec rv 0) as [->|Hrv]; cbn [negb]; [|by rewrite bool_decide_true].
    rewrite bool_decide_false by naive_solver. eexists. split; [reflexivity|].
    by rewrite set_version_header, set_pipe_header, set_version_body, set_pipe_body.
Qed.

(** Is the sqlite store in use? *)
Definition sqlite_store (st : pub_state) : option sqlite_db :=
  match w_config (ps_work st) with
  | Some c => if pc_sqlite_enable c then ps_sqlite st else None
  | None => None
  end.

(** What becomes of a retained message in the tree. *)
Definition retained_in_tree (now : Z) (st st' : pub_state) (pp : pub_packet_struct) (t : bytes) : Prop :=
  let v := w_proto_ver (ps_work st) in
  (pp_payload_len pp = 0 -> dbtree_find_retain (ps_db_ret st') t = None) /\
  (0 < pp_payload_len pp ->
     exists enc, nng_msg_header enc = wire_header pp t (wire_version v) /\
       nng_msg_body enc = wire pp t (wire_version v) /\
       if bool_decide (v <> MQTT_PROTOCOL_VERSION_v5 /\ fst (nng_mqtt_msg_decode enc) <> 0)
       then ps_db_ret st' = ps_db_ret st
       else exists ret, dbtree_find_retain (ps_db_ret st') t = Some [Some ret] /\
              nng_msg_header ret = nng_msg_header enc /\ nng_msg_body ret = nng_msg_body enc) /\
  (forall f, (43 ∉ f) -> (35 ∉ f) -> f <> t ->
     dbtree_find_retain (ps_db_ret st') f = dbtree_find_retain (ps_db_ret st) f).

Lemma handle_pub_retain_store now st pp t :
  handle_pub_retain now st pp t =
  match sqlite_store st with
  | Some db => handle_pub_retain_sqlite st db pp t
  | None =>
      if negb (fh_retain (pp_fixed pp) =? 0) then
        if 0 <? pp_payload_len pp then
          let '(ret, pp) := retain_msg (ps_work st) pp now in
          let st := set_work st (set_packet (ps_work st) pp) in
          match ret with
          | None => st
          | Some ret => set_db_ret st (snd (dbtree_insert_retain (ps_db_ret st) t ret))
          end
        else set_db_ret st (snd (dbtree_delete_retain (ps_db_ret st) t))
      else st
  end.
Proof.
  unfold handle_pub_retain, sqlite_store.
  destruct (w_config (ps_work st)) as [c|]; [destruct (pc_sqlite_enable c)|]; by destruct (ps_sqlite st).
Qed.

(** C16. Retained messages, for the versions 3.1, 3.1.1 and 5 of MQTT: without
    the retain flag nothing changes.  With it, where the sqlite store is not in
    use, a publish with a payload replaces the message kept for the topic by the
    encoding of the packet, unless the version is below 5 and the protocol layer
    cannot decode that encoding: then the tree stays as it was; one with an
    empty payload deletes the message; the messages of other topics stay.  Where
    the store is in use, the received message is stored or removed there instead
    and the tree stays as it was. *)
Theorem handle_pub_retain_correct now st pp t :
  publish_ok pp t ->
  w_proto_ver (ps_work st) ∈ [MQTT_PROTOCOL_VERSION_v31; MQTT_PROTOCOL_VERSION_v311;
                              MQTT_PROTOCOL_VERSION_v5] ->
  blen (wire pp t (wire_version (w_proto_ver (ps_work st)))) < 268435456 ->
  let st' := handle_pub_retain now st pp t in
  (fh_retain (pp_fixed pp) = 0 -> st' = st) /\
  (fh_retain (pp_fixed pp) <> 0 ->
     match sqlite_store st with
     | None => retained_in_tree now st st' pp t /\ ps_sqlite st' = ps_sqlite st
     | Some db =>
         ps_db_ret st' = ps_db_ret st /\
         ps_sqlite st' = Some (if 0 <? pp_payload_len pp
           then nng_mqtt_qos_db_set_retain db t (w_msg (ps_work st)) (w_proto_ver (ps_work st))
           else nng_mqtt_qos_db_remove_retain db t)
     end).
Proof.
  intros Hok Hv Hsz st'. pose proof (po_wildcard pp t Hok) as Hw. unfold has_wildcard in Hw.
  assert ((43 ∉ t) /\ (35 ∉ t)) as [H43 H35].
  { rewrite <- !strchr_None. by destruct (strchr t 43), (strchr t 35). }
  unfold st'. rewrite handle_pub_retain_store. unfold handle_pub_retain_sqlite. split.
  - intros ->. by destruct (sqlite_store st).
  - intros Hr. rewrite (proj2 (Z.eqb_neq _ _) Hr). cbn [negb].
    destruct (sqlite_store st) as [db|]; [by destruct (0 <? pp_payload_len pp)|].
    destruct (Z.ltb_spec 0 (pp_payload_len pp)) as [Hp|Hp].
    + destruct (retain_msg_wire (ps_work st) pp now t Hok Hv Hsz) as (enc & Hh & Hb & Hret).
      destruct (retain_msg (ps_work st) pp now) as [ret pp']. cbn [fst] in Hret.
      split; [|by destruct ret]. unfold retained_in_tree. split_and!; [lia| |].
      * intros _. exists enc. split_and!; [done..|]. destruct (bool_decide _); [by rewrite Hret|].
        destruct Hret as (m & -> & Hm). exists m. split; [|done]. cbn. by apply insert_retain_find.
      * intros f Hf1 Hf2 Hne. destruct ret as [m|]; [|done]. cbn. by apply insert_retain_other.
    + split; [|done]. unfold retained_in_tree. cbn. split_and!; [|lia|].
      * intros _. by apply delete_retain_find.
      * intros f Hf1 Hf2 Hne. by apply delete_retain_other.
Qed.

End Handler.

(** check_msg_exp: has a message of MQTT 5 outlived its expiry interval?  The
    times are milliseconds, the interval is a uint32_t of seconds, and the
    product with 1000 is computed in 32 bits.  [data] is the interval in the
    property passed in, [pub_data] the one in the message's own properties, read
    when the first is absent (NNG_SUPP_SQLITE). *)
Definition check_msg_exp `{MqttConst} (cmd_type rtime ntime : Z) (data pub_data : option Z) : bool :=
  if cmd_type =? CMD_PUBLISH_V5 then
    let data := match data with Some v => Some v | None => pub_data end in
    match data with
    | Some v => negb (u64 (rtime + u32 (v * 1000)) <? ntime)
    | None => true
    end
  else true.

(** bytes_to_str: three characters per byte, as snprintf "%02X " writes. *)
Definition hex_digit (d : Z) : Z := if d <? 10 then 48 + d else 55 + d.

Definition bytes_to_str (src : bytes) : bytes :=
  flat_map (fun b => [hex_digit (b / 16); hex_digit (b mod 16); 32]) src.

(** Message expiry: for intervals up to 4294967 seconds (49 days) a
    message is dropped exactly when more than the interval has passed since it
    was received; beyond, the 32-bit product wraps around. *)
Theorem check_msg_exp_correct `{MqttConst} rtime ntime v pub_data :
  0 <= v <= 4294967 -> 0 <= rtime < 2 ^ 63 ->
  check_msg_exp CMD_PUBLISH_V5 rtime ntime (Some v) pub_data = negb (rtime + v * 1000 <? ntime).
Proof.
  intros Hv Hr. unfold check_msg_exp. rewrite Z.eqb_refl, u32_small, u64_small by lia. done.
Qed.

(** An interval of 4294968 seconds lasts 704 milliseconds. *)
Theorem check_msg_exp_wraps `{MqttConst} rtime ntime pub_data :
  0 <= rtime < 2 ^ 63 -> rtime + 704 < ntime ->
  check_msg_exp CMD_PUBLISH_V5 rtime ntime (Some 4294968) pub_data = false.
Proof.
  intros Hr Hn. unfold check_msg_exp. rewrite Z.eqb_refl.
  change (u32 (4294968 * 1000)) with 704. rewrite u64_small by lia.
  destruct (Z.ltb_spec (rtime + 704) ntime); [done|lia].
Qed.

(** ** Witnesses on the model of the library *)

Import Model.

(** Publishing is allowed on "t" only; refused clients are to be disconnected. *)
Definition sample_conf : pub_conf :=
  PubConf false (fun _ _ => None) (fun _ _ _ => 0) 10 true
    (ConfAcl [Rule ACL_ALLOW ACL_NONE ACL_PUB ACL_RULE_ALL [] [Some (c!"t")]] ACL_DENY)
    ACL_DISCONNECT false.

Definition sample_work (m : nng_msg) : pub_work :=
  PubWork false MQTT_PROTOCOL_VERSION_v311 7 (Some anonymous) (Some sample_conf) m None.

Definition no_hash : dbhash := Hash [] [].

Definition sample_db : dbtree := [(c!"+", 3); (c!"t", 4); (c!"u", 5); (c!"t", 0)].

Definition sample_pub (m : nng_msg) : pub_state :=
  PubState (sample_work m) sample_db ([] : list (bytes * Model.msg)) no_hash
    (Stats false 0 0 0) None [].

Lemma sample_admitted : admitted (sample_pub sample_msg) MQTT_PROTOCOL_VERSION_v311 false (c!"t").
Proof. eexists. split; [reflexivity|]. eexists _, _, _. split_and!; reflexivity. Defined.

Lemma handle_pub_delivers_witness :
  exists st', handle_pub 0 (sample_pub sample_msg) MQTT_PROTOCOL_VERSION_v311 false
      = Some (SUCCESS, st') /\ 3 ∈ ps_msg_infos st' /\ 5 ∉ ps_msg_infos st'.
Proof.
  destruct (proj1 (handle_pub_delivers 0 (sample_pub sample_msg) MQTT_PROTOCOL_VERSION_v311 false)
    (c!"t") sample_admitted) as (st' & E & H).
  exists st'. split; [exact E|]. split.
  - apply H. split; [done|]. left. exists (c!"+"). split; [apply list_elem_of_here|reflexivity].
  - rewrite H. intros [_ [(f & Hs & Hf)|Hs]].
    + apply list_elem_of_In in Hs. cbn in Hs. destruct Hs as [[= <- ]|[[= <-]|[[= <-]|[[= <-]|[]]]]]; done.
    + by apply not_elem_of_nil in Hs.
Defined.

(** A publish on "v". *)
Definition denied_msg : nng_msg := Msg [48; 4] [0; 1; 118; 120] CMD_PUBLISH None.

Definition denied_packet : pub_packet_struct :=
  PubPacket (FixedHeader 0 0 0 3 4) 0 (PublishHeader (Some (c!"v")) 1 (None : option (@property msgs)) 0)
    (PubArrcHeader 0 None 0) (Some (c!"x")) 1.

Lemma handle_pub_denied_witness :
  exists st', refused (sample_pub denied_msg) st' /\ w_pub_packet (ps_work st') = Some denied_packet /\
    handle_pub 0 (sample_pub denied_msg) MQTT_PROTOCOL_VERSION_v311 false = Some (SUCCESS, st').
Proof.
  apply (handle_pub_denied 0 (sample_pub denied_msg) MQTT_PROTOCOL_VERSION_v311 sample_conf anonymous
    denied_packet (Msg [48; 4] [0; 1; 118; 120] CMD_PUBLISH (Some 3)) (c!"v")); try reflexivity. done.
Defined.

Definition alias_packet (t : option bytes) (len : Z) : pub_packet_struct :=
  PubPacket (FixedHeader 0 0 0 3 4) 0 (PublishHeader t len (Some (5 : @property msgs)) 3)
    (PubArrcHeader 0 None 0) None 0.

Lemma topic_alias_round_trip_witness :
  exists hash', topic_alias_step (sample_work sample_msg) no_hash (alias_packet (Some (c!"t")) 1)
      MQTT_PROTOCOL_VERSION_v5 = inr (alias_packet (Some (c!"t")) 1, hash') /\
    topic_alias_step (sample_work sample_msg) hash' (alias_packet None 0) MQTT_PROTOCOL_VERSION_v5
    = inr (alias_packet (Some (c!"t")) 1, hash').
Proof.
  edestruct (topic_alias_round_trip (sample_work sample_msg) (sample_work sample_msg) no_hash
    (alias_packet (Some (c!"t")) 1) (alias_packet None 0) 5 (c!"t")) as (hash' & H1 & H2 & _);
    [reflexivity | reflexivity | reflexivity | reflexivity | split; by vm_compute | reflexivity
    | reflexivity | reflexivity |].
  exists hash'. split; [exact H1 | exact H2].
Defined.

Lemma handle_pub_retain_correct_witness :
  exists ret, dbtree_find_retain (ps_db_ret (handle_pub_retain 0 (sample_pub sample_msg) sample_packet
      (c!"a/b"))) (c!"a/b") = Some [Some ret] /\
    nng_msg_body ret = [0; 3; 97; 47; 98; 1; 2] ++ c!"hello".
Proof.
  destruct (handle_pub_retain_correct 0 (sample_pub sample_msg) sample_packet (c!"a/b")) as (_ & H).
  - apply sample_packet_ok.
  - rewrite !elem_of_cons. cbn. auto.
  - vm_compute. reflexivity.
  - destruct H as [(_ & H & _) _]; [done|]. destruct H as (enc & _ & Hb & ret & H1 & _ & H3); [done|].
    exists ret. split; [exact H1|]. rewrite H3, Hb. reflexivity.
Defined.

Lemma check_msg_exp_correct_witness :
  check_msg_exp CMD_PUBLISH_V5 1000 3001 (Some 2) None = negb (1000 + 2 * 1000 <? 3001).
Proof. apply check_msg_exp_correct; lia. Defined.

Lemma check_msg_exp_wraps_witness :
  check_msg_exp CMD_PUBLISH_V5 1000 2000 (Some 4294968) None = false.
Proof. apply check_msg_exp_wraps; lia. Defined.

End PubHandler.
