(* ===== verification/Plugin.v ===== *)
(** * Plugins (nanomq/plugin)

    A plugin is a shared library whose init function registers callbacks at hook
    points; the broker calls the callback of a point.  The library loader is a
    parameter: for a path it says whether the library opens, whether it has the
    symbol, and which registrations its init function makes before it returns.

    The vector of hooks refines a map from points to callbacks.  The broker calls
    one point, when it encodes a publish (pub_handler.c); the plugin of the
    repository (plugin_user_property.c) adds a user property there. *)

From S2P Require Import Prelude.

Module Plugin.

(** struct plugin_hook; a callback is named by a number. *)
Record plugin_hook := PluginHook { hk_point : Z; hk_cb : nat }.

Definition HOOK_USER_PROPERTY : Z := 0.

(** The globals: g_hooks, and the paths of g_plugins. *)
Record plugins := Plugins { g_hooks : list plugin_hook; g_plugins : list bytes }.

Section Plugins.

Context (NNG_ENOMEM NNG_EINVAL : Z).

(** The loop of plugin_hook_register; [None] when no hook has the point. *)
Fixpoint replace_hook (point : Z) (cb : nat) (l : list plugin_hook) : option (list plugin_hook) :=
  match l with
  | [] => None
  | h :: l =>
      if hk_point h =? point then Some (PluginHook (hk_point h) cb :: l)
      else l' ← replace_hook point cb l; Some (h :: l')
  end.

(** [alloc] is whether nng_alloc succeeds. *)
Definition plugin_hook_register (alloc : bool) (point : Z) (cb : nat) (p : plugins) : Z * plugins :=
  match replace_hook point cb (g_hooks p) with
  | Some l => (0, Plugins l (g_plugins p))
  | None =>
      if alloc then (0, Plugins (g_hooks p ++ [PluginHook point cb]) (g_plugins p)) else (NNG_ENOMEM, p)
  end.

(** The callback that is called, if any; its value is the result. *)
Fixpoint call_loop (point : Z) (l : list plugin_hook) : option nat :=
  match l with
  | [] => None
  | h :: l => if hk_point h =? point then Some (hk_cb h) else call_loop point l
  end.

Definition plugin_hook_call (run : nat -> Z) (point : Z) (p : plugins) : Z :=
  match call_loop point (g_hooks p) with Some cb => run cb | None => 0 end.

(** A library: whether it can be opened and has nano_plugin_init, the
    registrations the function makes, and its result. *)
Record library := Library { lb_opens : bool; lb_symbol : bool; lb_hooks : list (Z * nat); lb_result : Z }.

Definition register_all (alloc : bool) (l : list (Z * nat)) (p : plugins) : plugins :=
  foldl (fun p '(point, cb) => snd (plugin_hook_register alloc point cb p)) p l.

Definition plugin_init (alloc : bool) (lib : library) (p : plugins) : Z * plugins :=
  if negb (lb_opens lib) then (NNG_EINVAL, p)
  else if negb (lb_symbol lib) then (NNG_EINVAL, p)
  else
    let p := register_all alloc (lb_hooks lib) p in
    if negb (lb_result lib =? 0) then (NNG_EINVAL, p) else (0, p).

(** [alloc] for the plugin, for its path and for the hooks. *)
Definition plugin_register (alloc alloc_path alloc_hook : bool) (lib : library) (path : option bytes) (p : plugins)
  : Z * plugins :=
  match path with
  | None => (NNG_EINVAL, p)
  | Some path =>
      if negb alloc then (NNG_ENOMEM, p)
      else if negb alloc_path then (NNG_ENOMEM, p)
      else
        let '(rv, p) := plugin_init alloc_hook lib p in
        if negb (rv =? 0) then (NNG_EINVAL, p) else (0, Plugins (g_hooks p) (g_plugins p ++ [path]))
  end.

(** The plugins are freed; the hooks stay. *)
Definition plugins_clear (p : plugins) : plugins := Plugins (g_hooks p) [].

(** The loop of broker() over the configured paths; failures are logged. *)
Definition register_plugins (alloc alloc_path alloc_hook : bool) (load : bytes -> library) (paths : list bytes) (p : plugins)
  : plugins :=
  foldl (fun p path => snd (plugin_register alloc alloc_path alloc_hook (load path) (Some path) p)) p paths.

(** ** The map *)

Definition hook_map (l : list plugin_hook) : gmap Z nat := list_to_map (map (fun h => (hk_point h, hk_cb h)) l).

Definition hooks_ok (p : plugins) : Prop := NoDup (map hk_point (g_hooks p)).

Lemma hook_map_cons h l : hook_map (h :: l) = <[hk_point h := hk_cb h]> (hook_map l).
Proof. done. Qed.

Lemma call_loop_map point l : call_loop point l = hook_map l !! point.
Proof.
  induction l as [|h l IH]; [done|]. rewrite hook_map_cons. cbn [call_loop].
  destruct (Z.eqb_spec (hk_point h) point) as [->|Hne]; [by rewrite lookup_insert_eq|by rewrite lookup_insert_ne].
Qed.

Lemma replace_hook_spec point cb l :
  match replace_hook point cb l with
  | Some l' => hook_map l' = <[point := cb]> (hook_map l) /\ map hk_point l' = map hk_point l
  | None => point ∉ map hk_point l
  end.
Proof.
  induction l as [|h l IH]; cbn [replace_hook map]; [apply not_elem_of_nil|].
  destruct (Z.eqb_spec (hk_point h) point) as [<-|Hne].
  - split; [|done]. rewrite !hook_map_cons. cbn [hk_point hk_cb]. by rewrite insert_insert_eq.
  - destruct (replace_hook point cb l) as [l'|]; cbn [mbind option_bind].
    + destruct IH as [E1 E2]. split; [|cbn [map]; by rewrite E2]. rewrite !hook_map_cons, E1.
      by rewrite insert_insert_ne.
    + apply not_elem_of_cons. by split.
Qed.

Lemma hook_map_app l h : (hk_point h ∉ map hk_point l) -> hook_map (l ++ [h]) = <[hk_point h := hk_cb h]> (hook_map l).
Proof.
  intros H. induction l as [|x l IH]; [done|]. cbn [map] in H. apply not_elem_of_cons in H as [Hx H].
  cbn [app]. rewrite !hook_map_cons, IH by done. by rewrite insert_insert_ne.
Qed.

Hypothesis enomem : NNG_ENOMEM <> 0.
Hypothesis einval : NNG_EINVAL <> 0.

(** Registering sets the callback of a point, or fails and changes nothing. *)
Lemma hook_register_refines alloc point cb p :
  hooks_ok p ->
  let '(rv, p') := plugin_hook_register alloc point cb p in
  hooks_ok p' /\ g_plugins p' = g_plugins p /\
  hook_map (g_hooks p') = (if rv =? 0 then <[point := cb]> (hook_map (g_hooks p)) else hook_map (g_hooks p)).
Proof.
  intros H. unfold plugin_hook_register. pose proof (replace_hook_spec point cb (g_hooks p)) as R.
  destruct (replace_hook point cb (g_hooks p)) as [l|].
  - destruct R as [E1 E2]. unfold hooks_ok. cbn [g_hooks g_plugins]. by rewrite E2.
  - destruct alloc.
    + unfold hooks_ok in *. cbn [g_hooks g_plugins Z.eqb]. split_and!; [|done|by rewrite hook_map_app].
      rewrite map_app. apply NoDup_app. split_and!; [done| |apply NoDup_singleton].
      by intros x Hx ->%list_elem_of_singleton.
    + by rewrite (proj2 (Z.eqb_neq _ _) enomem).
Qed.

Lemma register_all_refines l p :
  hooks_ok p -> hooks_ok (register_all true l p) /\ g_plugins (register_all true l p) = g_plugins p /\
  hook_map (g_hooks (register_all true l p)) = foldl (fun m '(point, cb) => <[point := cb]> m) (hook_map (g_hooks p)) l.
Proof.
  unfold register_all. revert p. induction l as [|[point cb] l IH]; intros p H; [done|]. cbn [foldl].
  pose proof (hook_register_refines true point cb p H) as R.
  assert (fst (plugin_hook_register true point cb p) = 0) as E0
    by (unfold plugin_hook_register; by destruct (replace_hook _ _ _)).
  destruct (plugin_hook_register true point cb p) as [rv p']. cbn [fst snd] in *. subst rv. destruct R as (H1 & H2 & H3).
  destruct (IH p' H1) as (I1 & I2 & I3). rewrite I2, I3, H2, H3. done.
Qed.

(** A plugin that is registered has its callbacks in place, the later one for a
    point replacing the earlier one, and a call at a point runs the callback
    that is in place. *)
Theorem plugin_registered lib path p p' run :
  hooks_ok p -> plugin_register true true true lib (Some path) p = (0, p') ->
  let m := foldl (fun m '(point, cb) => <[point := cb]> m) (hook_map (g_hooks p)) (lb_hooks lib) in
  hooks_ok p' /\ g_plugins p' = g_plugins p ++ [path] /\
  forall point, plugin_hook_call run point p' = match m !! point with Some cb => run cb | None => 0 end.
Proof.
  intros H E. unfold plugin_register, plugin_init in E. cbn [negb] in E.
  destruct (register_all_refines (lb_hooks lib) p H) as (H1 & H2 & H3).
  destruct (negb (lb_opens lib)); [rewrite (proj2 (Z.eqb_neq _ _) einval) in E; cbn [negb] in E; congruence|].
  destruct (negb (lb_symbol lib)); [rewrite (proj2 (Z.eqb_neq _ _) einval) in E; cbn [negb] in E; congruence|].
  destruct (negb (lb_result lib =? 0)); [rewrite (proj2 (Z.eqb_neq _ _) einval) in E; cbn [negb] in E; congruence|].
  cbn [Z.eqb negb] in E. injection E as <-. split_and!; [done|cbn; by rewrite H2|].
  intros point. unfold plugin_hook_call. cbn [g_hooks]. by rewrite call_loop_map, H3.
Qed.

(** A plugin whose init function fails is not listed, but the callbacks it has
    registered by then stay. *)
Theorem failed_plugin_hooks_stay path p :
  hooks_ok p ->
  let '(rv, p') := plugin_register true true true (Library true true [(HOOK_USER_PROPERTY, 1%nat)] 1) (Some path) p in
  rv = NNG_EINVAL /\ g_plugins p' = g_plugins p /\ forall run, plugin_hook_call run HOOK_USER_PROPERTY p' = run 1%nat.
Proof.
  intros H. unfold plugin_register, plugin_init. cbn [negb lb_opens lb_symbol lb_result lb_hooks Z.eqb].
  rewrite (proj2 (Z.eqb_neq _ _) einval). cbn [negb].
  destruct (register_all_refines [(HOOK_USER_PROPERTY, 1%nat)] p H) as (_ & H2 & H3).
  split_and!; [done|done|]. intros run. unfold plugin_hook_call. rewrite call_loop_map, H3. cbn [foldl].
  by rewrite lookup_insert_eq.
Qed.

(** Plugins that load are all registered, in the order of the configuration. *)
Lemma register_plugins_listed load paths p :
  (forall path, path ∈ paths -> lb_opens (load path) = true /\ lb_symbol (load path) = true /\ lb_result (load path) = 0) ->
  g_plugins (register_plugins true true true load paths p) = g_plugins p ++ paths.
Proof.
  unfold register_plugins. revert p. induction paths as [|path paths IH]; intros p H; cbn [foldl]; [by rewrite app_nil_r|].
  destruct (H path) as (H1 & H2 & H3); [by left|]. rewrite IH by (intros; apply H; by right).
  unfold plugin_register, plugin_init. rewrite H1, H2, H3. cbn [negb Z.eqb g_plugins snd].
  assert (g_plugins (register_all true (lb_hooks (load path)) p) = g_plugins p) as ->; [|by rewrite <- app_assoc].
  unfold register_all. generalize (lb_hooks (load path)) as l. intros l. revert p. clear.
  induction l as [|[point cb] l IH]; intros p; [done|]. cbn [foldl]. rewrite IH. unfold plugin_hook_register.
  by destruct (replace_hook _ _ _).
Qed.

End Plugins.

(** ** The plugin of the repository and the point where the broker calls it *)

(** cb of plugin_user_property.c: what it stores for an array that is not NULL;
    its result is 0. *)
Definition cb : Z * (bytes * bytes) := (0, (lit "alpha", lit "beta")).

(** nano_plugin_init: the registration it makes, and its result. *)
Definition nano_plugin_init (n : nat) : library := Library true true [(HOOK_USER_PROPERTY, n)] 0.

Section Property.

(** The properties of a packet, and those of them that are user properties. *)
Context {P : Type} (property_alloc : P) (property_append : P -> bytes * bytes -> P) (pairs : P -> list (bytes * bytes)).
Hypothesis alloc_pairs : pairs property_alloc = [].
Hypothesis append_pairs : forall l kv, pairs (property_append l kv) = pairs l ++ [kv].

(** The call in encode_pub_message, for MQTT 5: [stores] is what a callback
    leaves in the array.  The result is the properties that are encoded; they
    are those of the packet from then on. *)
Definition hook_properties (stores : nat -> option bytes * option bytes) (p : plugins) (properties : option P) : option P :=
  let uproperty := match call_loop HOOK_USER_PROPERTY (g_hooks p) with Some c => stores c | None => (None, None) end in
  match uproperty with
  | (Some k, Some v) =>
      let properties := match properties with Some l => l | None => property_alloc end in
      Some (property_append properties (k, v))
  | _ => properties
  end.

Definition pairs_of (l : option P) : list (bytes * bytes) := match l with Some l => pairs l | None => [] end.

(** Encoding a packet [n] times leaves the pair of the plugin [n] times in it: a
    publish that is retained is encoded once for the store and once for the
    subscribers, who get the property twice. *)
Theorem user_property_repeated stores p c k v n properties :
  call_loop HOOK_USER_PROPERTY (g_hooks p) = Some c -> stores c = (Some k, Some v) ->
  pairs_of (Nat.iter n (hook_properties stores p) properties) = pairs_of properties ++ replicate n (k, v).
Proof.
  intros Hc Hs. induction n as [|n IH]; [by rewrite app_nil_r|]. rewrite Nat.iter_succ.
  replace (S n) with (n + 1)%nat by lia. rewrite replicate_add, app_assoc, <- IH. unfold hook_properties at 1. rewrite Hc, Hs.
  destruct (Nat.iter n _ properties) as [l|]; cbn [pairs_of]; [apply append_pairs|]. by rewrite append_pairs, alloc_pairs.
Qed.

End Property.

End Plugin.
