(* ===== verification/Delivery.v ===== *)
(** * The broker's contract: who gets what

    An abstract broker is a finite set of (filter, client) pairs; SUBSCRIBE,
    UNSUBSCRIBE, a disconnect and PUBLISH act on it in the obvious way.  The
    handlers, called the way [server_cb] (nanomq/apps/broker.c) calls them,
    refine it: after any sequence of packets from any number of clients the
    topic tree and the client table represent the abstract set, and a publish
    goes to the clients the set names. *)

From S2P Require Import Prelude NngApi NngModel Acl PubCodec SubHandler UnsubHandler PubHandler.

Module Delivery.

Import Acl PubCodec SubHandler UnsubHandler PubHandler.

Section Broker.

Context `{C : MqttConst} `{M : NngMsg} `{P : MqttParser} `{TF : TopicFilter}.
Context `{DB : !NanoDb} `{NW : !NngMsgNew} `{SQ : !SqliteRetain}.

(** The state the workers share. *)
Record broker := Broker {
  b_db : dbtree;
  b_db_ret : dbtree_ret;
  b_hash : dbhash;
  b_stats : msg_statistics;
  b_sqlite : option sqlite_db
}.

(** A decoded packet or an event, with what the handler reads of its [work]. *)
Inductive event :=
  | Subscribe (env : sub_env) (pid : Z) (cparam : conn_param) (pkt : packet_subscribe)
  | Unsubscribe (pid : Z) (pkt : packet_unsubscribe)
  | Publish (now : Z) (w : pub_work) (proto : Z) (is_event : bool)
  | Disconnect (pid : Z).

(** The CMD_DISCONNECT_EV branch: the registrations go when the client has
    any, then its aliases. *)
Definition disconnect_ev (b : broker) (pid : Z) : broker :=
  let '(db, hash) :=
    if dbhash_check_id (b_hash b) pid then destroy_sub_client pid (b_db b) (b_hash b)
    else (b_db b, b_hash b) in
  Broker db (b_db_ret b) (dbhash_del_atpair_queue hash pid) (b_stats b) (b_sqlite b).

(** One event: the broker afterwards and the pipes a publish goes to.  A
    NULL dereference leaves the state alone and delivers nothing. *)
Definition step (b : broker) (e : event) : broker * list Z :=
  match e with
  | Subscribe env pid cparam pkt =>
      let '(_, _, st) :=
        sub_ctx_handle env (b_db_ret b) pid cparam (Some pkt)
          (SubState (b_db b) (b_hash b) None VSame) in
      (Broker (ss_db st) (b_db_ret b) (ss_hash st) (b_stats b) (b_sqlite b), [])
  | Unsubscribe pid pkt =>
      let '(_, db, hash, _) := unsub_ctx_handle (b_db b) (b_hash b) pid pkt in
      (Broker db (b_db_ret b) hash (b_stats b) (b_sqlite b), [])
  | Publish now w proto is_event =>
      match handle_pub now (PubState w (b_db b) (b_db_ret b) (b_hash b) (b_stats b) (b_sqlite b) [])
              proto is_event with
      | None => (b, [])
      | Some (_, st) =>
          (Broker (ps_db st) (ps_db_ret st) (ps_hash st) (ps_stats st) (ps_sqlite st),
           ps_msg_infos st)
      end
  | Disconnect pid => (disconnect_ev b pid, [])
  end.

Definition run (b : broker) (es : list event) : broker := foldl (fun b e => fst (step b e)) b es.

(** ** The abstract broker *)

Abbreviation subs := (gset (bytes * Z)).

Definition pairs (pid : Z) (l : list bytes) : subs := list_to_set (map (fun f => (f, pid)) l).

Definition spec_step (s : subs) (e : event) : subs :=
  match e with
  | Subscribe env pid cparam pkt =>
      if match sp_node pkt with [] => true | _ => false end || (sp_packet_id pkt =? 0) ||
         auth_http_reject env cparam (sp_node pkt)
      then s else s ∪ pairs pid (accepted env cparam (sp_node pkt))
  | Unsubscribe pid pkt => s ∖ pairs pid (named (up_node pkt))
  | Publish _ _ _ _ => s
  | Disconnect pid => filter (fun x => snd x <> pid) s
  end.

Definition spec_run (s : subs) (es : list event) : subs := foldl spec_step s es.

Context `{DL : !NanoDbLaws}.

(** The concrete registry represents the set. *)
Definition refines (b : broker) (s : subs) : Prop :=
  forall f p, (subscribed (b_db b) f p <-> (f, p) ∈ s) /\
              (dbhash_check_topic (b_hash b) p f = true <-> (f, p) ∈ s).

Lemma refines_registry b s : refines b s -> registry_ok (b_db b) (b_hash b).
Proof. intros H f p. destruct (H f p) as [H1 H2]. by rewrite H1, H2. Qed.

Lemma registry_refines b s :
  registry_ok (b_db b) (b_hash b) -> (forall f p, subscribed (b_db b) f p <-> (f, p) ∈ s) ->
  refines b s.
Proof. intros Hr Hs f p. rewrite <- (Hr f p), Hs. done. Qed.

Lemma elem_of_pairs f p pid l : (f, p) ∈ pairs pid l <-> p = pid /\ f ∈ l.
Proof.
  unfold pairs. rewrite elem_of_list_to_set, !list_elem_of_In, in_map_iff. naive_solver.
Qed.

Lemma subscribe_refines b s env pid cparam pkt :
  refines b s ->
  refines (fst (step b (Subscribe env pid cparam pkt))) (spec_step s (Subscribe env pid cparam pkt)).
Proof.
  intros Hb. pose proof (refines_registry b s Hb) as Hreg. cbn [step spec_step].
  unfold sub_ctx_handle. destruct (sp_node pkt) as [|tn nodes]; [done|].
  destruct (sp_packet_id pkt =? 0); [done|]. cbn [orb].
  destruct (auth_http_reject env cparam (tn :: nodes)); [done|].
  destruct (sub_nodes _ _ _ _ _ (tn :: nodes)) as [st nodes'] eqn:H1.
  apply sub_nodes_registry in H1 as (Hok & Hs & _); [|done].
  apply registry_refines; [done|]. intros f p. cbn [fst b_db ss_db] in *.
  rewrite Hs, elem_of_union, elem_of_pairs, (proj1 (Hb f p)). done.
Qed.

Lemma disconnect_refines b s pid :
  refines b s -> refines (disconnect_ev b pid) (filter (fun x => snd x <> pid) s).
Proof.
  intros Hb. pose proof (refines_registry b s Hb) as Hreg. unfold disconnect_ev.
  destruct (dbhash_check_id (b_hash b) pid) eqn:Hid.
  - pose proof (destroy_registry pid (b_db b) (b_hash b) Hreg) as Hd.
    destruct (destroy_sub_client pid (b_db b) (b_hash b)) as [db hash]. destruct Hd as [Hok Hs].
    intros f p. cbn [b_db b_hash]. rewrite del_atpair_check, <- (Hok f p), Hs, elem_of_filter,
      (proj1 (Hb f p)). naive_solver.
  - assert (forall f, (f, pid) ∉ s) as Hno.
    { intros f Hin. apply (proj2 (Hb f pid)) in Hin.
      assert (dbhash_check_id (b_hash b) pid = true) by (apply check_id_spec; eauto). congruence. }
    intros f p. cbn [b_db b_hash]. rewrite del_atpair_check, elem_of_filter. cbn [snd].
    destruct (Hb f p) as [-> ->]. specialize (Hno f). naive_solver.
Qed.

Lemma publish_refines b s now w proto is_event :
  refines b s -> refines (fst (step b (Publish now w proto is_event))) s.
Proof.
  intros Hb. cbn [step]. destruct (handle_pub _ _ _ _) as [[rc st]|] eqn:H; [|done].
  apply handle_pub_cases in H as [Hc Hcase]. intros f p. cbn [fst b_db b_hash] in *. rewrite Hc.
  split; [|by apply Hb]. destruct Hcase as [(_ & -> & _)|(topic & _ & _ & _ & _ & ->)].
  - apply Hb.
  - rewrite find_shared_subscribed. apply Hb.
Qed.

Lemma run_refines es b s : refines b s -> refines (run b es) (spec_run s es).
Proof.
  unfold run, spec_run. induction es as [|e es IH] in b, s |- *; intros Hb; cbn [foldl]; [done|].
  apply IH. destruct e as [env pid cparam pkt|pid pkt|now w proto is_event|pid].
  - by apply subscribe_refines.
  - pose proof (unsub_registry (b_db b) (b_hash b) pid pkt (refines_registry b s Hb)) as Hu.
    cbn [step spec_step]. destruct (unsub_ctx_handle _ _ _ _) as [[[rc db] hash] pkt'].
    destruct Hu as (_ & Hok & Hs & _). apply registry_refines; [done|]. intros f p.
    cbn [fst b_db]. rewrite Hs, elem_of_difference, elem_of_pairs, (proj1 (Hb f p)). done.
  - by apply publish_refines.
  - by apply disconnect_refines.
Qed.

(** C1. Refinement: from an empty broker, after any sequence of subscribes,
    unsubscribes, publishes and disconnects, of any clients and in any order,
    the topic tree and the client table represent exactly the set of
    subscriptions that the abstract broker has. *)
Theorem broker_refines es b :
  refines b ∅ ->
  forall f p, (subscribed (b_db (run b es)) f p <-> (f, p) ∈ spec_run ∅ es) /\
    (dbhash_check_topic (b_hash (run b es)) p f = true <-> (f, p) ∈ spec_run ∅ es).
Proof. apply run_refines. Qed.

(** C2. Delivery: in any state reached from an empty broker, a publish that is
    admitted with a topic is delivered, to exactly the clients that the abstract
    broker has under a filter matching the topic, pipe 0 left out, and those
    chosen from share groups.  The chosen ones are members of their group in the
    abstract broker, and every group with a matching filter has one: so no
    client gets it that unsubscribed or disconnected, and every one whose
    subscription was accepted gets it, or a member of the group it shares. *)
Theorem broker_delivers es b now w proto is_event topic :
  refines b ∅ ->
  let b1 := run b es in
  let st := PubState w (b_db b1) (b_db_ret b1) (b_hash b1) (b_stats b1) (b_sqlite b1) [] in
  admitted st proto is_event topic ->
  exists st', handle_pub now st proto is_event = Some (SUCCESS, st') /\
    let chosen := default [] (fst (dbtree_find_shared_clients (b_db b1) topic)) in
    (forall p, p ∈ ps_msg_infos st' <->
      p <> 0 /\ ((exists f, (f, p) ∈ spec_run ∅ es /\ topic_filter f topic = true) \/ p ∈ chosen)) /\
    (forall p, p ∈ chosen ->
      exists f g, (f, p) ∈ spec_run ∅ es /\ share_filter f = Some g /\ topic_filter g topic = true) /\
    (forall f g p, (f, p) ∈ spec_run ∅ es -> share_filter f = Some g -> topic_filter g topic = true ->
      exists p', (f, p') ∈ spec_run ∅ es /\ p' ∈ chosen).
Proof.
  intros Hb b1 st Ha. pose proof (run_refines es b ∅ Hb) as Hr.
  destruct (handle_pub_admitted now st proto is_event topic Ha) as (st' & E & _ & Hi & _).
  exists st'. split; [done|].
  assert (forall f p, subscribed (b_db b1) f p <-> (f, p) ∈ spec_run ∅ es) as Hs by (intros; apply Hr).
  split_and!.
  - intros p. rewrite Hi, receivers_spec. cbn [ps_db st]. by setoid_rewrite Hs.
  - intros p Hp. apply find_shared_member in Hp as (f & g & Hf & Hg). exists f, g. by rewrite <- Hs.
  - intros f g p Hf E1 E2. apply Hs in Hf.
    destruct (find_shared_group _ topic f g p Hf E1 E2) as (p' & H1 & H2). exists p'. by rewrite <- Hs.
Qed.

End Broker.

(** ** Witnesses on the model of the library *)

Import Model.

Definition empty_broker : broker :=
  Broker ([] : list (bytes * Z)) ([] : list (bytes * Model.msg)) no_hash (Stats false 0 0 0) None.

Lemma empty_broker_refines : refines empty_broker ∅.
Proof.
  intros f p. split; (split; [|set_solver]).
  - intros H. by apply not_elem_of_nil in H.
  - done.
Qed.

Definition open_env : sub_env :=
  SubEnv false (fun _ => None) (fun _ _ _ => 0) false (ConfAcl [] ACL_DENY) ACL_IGNORE None.

Definition sub_to (f : bytes) : packet_subscribe :=
  PacketSubscribe 1 0 None [TopicNode 0 (Some f) (blen f) GRANTED_QOS_2].

(** Clients 3 and 4 subscribe to "+", client 5 to "u", clients 4 and 6 share
    "t"; client 4 leaves. *)
Definition sample_events : list event :=
  [Subscribe open_env 3 anonymous (sub_to (c!"+")); Subscribe open_env 4 anonymous (sub_to (c!"+"));
   Subscribe open_env 5 anonymous (sub_to (c!"u")); Subscribe open_env 6 anonymous (sub_to (c!"$share/g/t"));
   Subscribe open_env 4 anonymous (sub_to (c!"$share/g/t")); Disconnect 4].

Lemma broker_refines_witness :
  subscribed (b_db (run empty_broker sample_events)) (c!"+") 3 /\
  ~ subscribed (b_db (run empty_broker sample_events)) (c!"+") 4.
Proof.
  split.
  - apply (broker_refines sample_events empty_broker empty_broker_refines).
    apply (bool_decide_unpack _). vm_compute. exact I.
  - rewrite (proj1 (broker_refines sample_events empty_broker empty_broker_refines _ _)).
    apply (bool_decide_unpack _). vm_compute. exact I.
Defined.

Definition after_events : pub_state :=
  let b1 := run empty_broker sample_events in
  PubState (sample_work sample_msg) (b_db b1) (b_db_ret b1) (b_hash b1) (b_stats b1) (b_sqlite b1) [].

Lemma left_no_more f : (f, 4) ∉ (spec_run ∅ sample_events).
Proof.
  assert (Forall (fun x : bytes * Z => x.2 <> 4) (elements (spec_run ∅ sample_events))) as Hn
    by (apply (bool_decide_unpack _); vm_compute; exact I).
  rewrite Forall_forall in Hn. intros Hs. by apply (Hn (f, 4)); [apply elem_of_elements|].
Qed.

Lemma broker_delivers_witness :
  exists st', handle_pub 0 after_events MQTT_PROTOCOL_VERSION_v311 false = Some (SUCCESS, st') /\
    3 ∈ ps_msg_infos st' /\ (4 ∉ ps_msg_infos st') /\ 6 ∈ ps_msg_infos st'.
Proof.
  destruct (broker_delivers sample_events empty_broker 0 (sample_work sample_msg)
    MQTT_PROTOCOL_VERSION_v311 false (c!"t") empty_broker_refines) as (st' & E & H & Hc & _).
  { eexists. split; [reflexivity|]. eexists _, _, _. split_and!; reflexivity. }
  exists st'. split; [exact E|]. split_and!.
  - apply H. split; [done|]. left. exists (c!"+"). split; [|reflexivity].
    apply (bool_decide_unpack _). vm_compute. exact I.
  - rewrite H. intros [_ [(f & Hs & _)|Hs]].
    + by apply left_no_more in Hs.
    + apply Hc in Hs as (f & g & Hs & _). by apply left_no_more in Hs.
  - apply H. split; [done|]. right. apply (bool_decide_unpack _). vm_compute. exact I.
Defined.

End Delivery.
