(* ===== verification/ServerCb.v ===== *)
(** * The worker's state machine (nanomq/apps/broker.c, server_cb)

    Every worker ([struct work]) is driven by [server_cb], the completion
    callback of its [nng_aio].  [server_cb] here is the callback as a function
    from the work and what the callback observes to the work afterwards and the
    calls it makes, in order.  The packet handlers are modelled in their own
    files; here a call of one is an action and its result part of the input.
    Iceoryx, AWS and plugin support are compiled out. *)

From S2P Require Import Prelude NngApi NngModel.

Module ServerCb.

(** ** Data *)

Inductive work_state := INIT | RECV | WAIT | SEND | HOOK | END | CLOSE.

(** PROTO_MQTT_BROKER, ... of broker.h *)
Inductive work_proto := MQTT_BROKER | MQTT_BRIDGE | AWS_BRIDGE | HTTP_SERVER | NNG_BRIDGE.

#[export] Instance work_state_eq_dec : EqDecision work_state.
Proof. solve_decision. Defined.
#[export] Instance work_proto_eq_dec : EqDecision work_proto.
Proof. solve_decision. Defined.

(** What the machine reads of a message: the type in its fixed header
    (nng_msg_get_type), its command type, its pipe and protocol version. *)
Record in_msg := InMsg {
  im_type : Z;
  im_cmd : Z;
  im_pipe : Z;
  im_proto_ver : Z
}.

(** The fields of [struct work] that steer it.  [wk_pub_packet] is whether
    pub_packet is not NULL, [wk_infos] is pipe_ct->msg_infos. *)
Record work := Work {
  wk_state : work_state;
  wk_proto : work_proto;
  wk_flag : Z;
  wk_code : Z;
  wk_msg : option in_msg;
  wk_nmsg : bool;
  wk_pub_packet : bool;
  wk_infos : option (list Z)
}.

(** One retained message of work->msg_ret. *)
Record ret_msg := RetMsg {
  rm_unexpired : bool;   (* check_msg_exp *)
  rm_decoded : bool;     (* decode_pub_message is SUCCESS *)
  rm_encoded : bool      (* encode_pub_message *)
}.

(** What one callback observes: the completion, the results of the handlers
    and adapters, the will of the client, the configuration. *)
Record input := Input {
  in_result : Z;                    (* nng_aio_result *)
  in_aio_msg : option in_msg;       (* nng_aio_get_msg *)
  in_connshut : bool;               (* the result is NNG_ECONNSHUT *)
  in_common : option in_msg;        (* decode_common_mqtt_msg *)
  in_adapted : option in_msg;       (* nng_sub0_msg_adapter *)
  in_sub_rv : Z;                    (* decode_sub_msg, then sub_ctx_handle *)
  in_msg_ret : option (list ret_msg);
  in_unsub_rv : Z;
  in_pub_code : Z;                  (* handle_pub *)
  in_pub_infos : option (list Z);   (* pipe_ct->msg_infos after handle_pub *)
  in_encoded : bool;                (* encode_pub_message *)
  in_registered : bool;             (* dbhash_check_id *)
  in_will : bool;                   (* will flag, topic and message present *)
  in_will_flag : bool;              (* conn_param_get_will_flag in END *)
  in_will_msg : option in_msg;      (* nano_encode_publish_msg *)
  in_dismsg : option in_msg;        (* nano_dismsg_composer *)
  in_bridge_mode : bool;
  in_hook : bool;                   (* web_hook.enable *)
  in_rule : bool;                   (* rule_eng.option != RULE_ENG_OFF *)
  in_nng_pub : bool                 (* nng_proxy.pub_enable *)
}.

(** Which context an operation is on. *)
Inductive ctx := Ctx | ExtraCtx.

Inductive action :=
  | Recv (c : ctx)
  | Send (c : ctx) (pipe : option Z)
  | Finish                          (* nng_aio_finish *)
  | SubHandler | UnsubHandler | PubHandler (is_event : bool)
  | BridgeSub | BridgePub | NngPub | HookEntry | RuleEngine
  | BridgeRecode | DestroyClient | DelAliases | SendDisconnect (code : Z)
  | FreeMsg | FreeCparam | CloneCparam | FreeSubPkt
  | NullDeref                       (* a NULL message is read: the process ends *)
  | Fatal.                          (* NANO_NNG_FATAL: the process ends *)

Section Machine.

Context `{C : MqttConst}.

Definition with_state (w : work) (s : work_state) : work :=
  Work s (wk_proto w) (wk_flag w) (wk_code w) (wk_msg w) (wk_nmsg w) (wk_pub_packet w) (wk_infos w).
Definition with_flag (w : work) (f : Z) : work :=
  Work (wk_state w) (wk_proto w) f (wk_code w) (wk_msg w) (wk_nmsg w) (wk_pub_packet w) (wk_infos w).
Definition with_code (w : work) (c : Z) : work :=
  Work (wk_state w) (wk_proto w) (wk_flag w) c (wk_msg w) (wk_nmsg w) (wk_pub_packet w) (wk_infos w).
Definition with_msg (w : work) (m : option in_msg) : work :=
  Work (wk_state w) (wk_proto w) (wk_flag w) (wk_code w) m (wk_nmsg w) (wk_pub_packet w) (wk_infos w).
Definition with_nmsg (w : work) (b : bool) : work :=
  Work (wk_state w) (wk_proto w) (wk_flag w) (wk_code w) (wk_msg w) b (wk_pub_packet w) (wk_infos w).
Definition with_packet (w : work) (b : bool) : work :=
  Work (wk_state w) (wk_proto w) (wk_flag w) (wk_code w) (wk_msg w) (wk_nmsg w) b (wk_infos w).
Definition with_infos (w : work) (l : option (list Z)) : work :=
  Work (wk_state w) (wk_proto w) (wk_flag w) (wk_code w) (wk_msg w) (wk_nmsg w) (wk_pub_packet w) l.

(** free_pub_packet, cvector_free(msg_infos) and both pointers set to NULL *)
Definition cleanup (w : work) : work := with_infos (with_packet w false) None.

Definition own_ctx (w : work) : ctx := if decide (wk_proto w = MQTT_BROKER) then Ctx else ExtraCtx.

(** handle_pub: it allocates the packet and sets msg_infos. *)
Definition call_pub (w : work) (i : input) : work :=
  with_infos (with_packet w true) (in_pub_infos i).

(** The loop over the retained messages, to [c]: it stops at the first one
    that has expired; each earlier one is sent when it can be re-encoded. *)
Fixpoint retain_loop (l : list ret_msg) (pipe : Z) : list action :=
  match l with
  | [] => []
  | m :: l' =>
      if rm_unexpired m then
        (if rm_decoded m && rm_encoded m then [Send Ctx (Some pipe)] else [])
        ++ [FreeMsg] ++ retain_loop l' pipe
      else []
  end.

(** case RECV, flag CMD_SUBSCRIBE *)
Definition on_subscribe (w : work) (i : input) (m : in_msg) : work * list action :=
  let code := if negb (in_sub_rv i =? 0) then in_sub_rv i else wk_code w in
  let w := with_code w code in
  if negb (code =? SUCCESS) then
    (with_state w CLOSE,
     [SubHandler] ++ map (fun _ => FreeMsg) (default [] (in_msg_ret i))
     ++ [FreeSubPkt; FreeCparam; Finish])
  else
    let w :=
      match in_msg_ret i with
      | Some l =>
          if match l with m :: _ => rm_unexpired m | [] => false end then cleanup w else w
      | None => w
      end in
    (with_state (with_msg w None) SEND,
     [SubHandler; BridgeSub; FreeSubPkt]
     ++ match in_msg_ret i with Some l => retain_loop l (im_pipe m) | None => [] end
     ++ [Send Ctx (Some (im_pipe m)); Finish]).

(** case RECV, flag CMD_UNSUBSCRIBE *)
Definition on_unsubscribe (w : work) (i : input) (m : in_msg) : work * list action :=
  (with_state (with_msg w None) SEND,
   [UnsubHandler; BridgeSub; Send Ctx (Some (im_pipe m)); Finish]).

(** case RECV, flag CMD_PUBLISH, when it does not go on to WAIT *)
Definition on_publish (w : work) (i : input) : work * list action * bool :=
  let w := with_code (call_pub w i) (in_pub_code i) in
  match wk_proto w with
  | HTTP_SERVER | AWS_BRIDGE =>
      (with_state w (if wk_code w =? SUCCESS then WAIT else SEND),
       [PubHandler false; Send ExtraCtx None], true)
  | MQTT_BROKER =>
      if negb (wk_code w =? SUCCESS)
      then (with_state (with_packet w false) CLOSE, [PubHandler false; FreeCparam; Finish], true)
      else (w, [PubHandler false], false)
  | _ =>
      if negb (wk_code w =? SUCCESS)
      then (with_state w SEND, [PubHandler false; Finish], true)
      else (w, [PubHandler false], false)
  end.

(** case RECV, flag CMD_CONNACK; nano_msg_notify makes a PUBLISH of the event *)
Definition on_connack (w : work) (i : input) (m : in_msg) : work * list action :=
  let reply := if decide (wk_proto w = MQTT_BROKER) then [Send Ctx (Some (im_pipe m))] else [] in
  let w := with_msg w (Some (InMsg CMD_PUBLISH CMD_PUBLISH (im_pipe m) (im_proto_ver m))) in
  (with_flag (call_pub w i) CMD_PUBLISH, reply ++ [HookEntry; FreeMsg; PubHandler true]).

(** case RECV, flag CMD_DISCONNECT_EV; [true]: it goes to END *)
Definition on_disconnect (w : work) (i : input) (m : in_msg) : work * list action * bool :=
  let w := with_flag (call_pub w i) CMD_PUBLISH in
  let acts := [HookEntry; PubHandler true]
    ++ (if in_registered i then [DestroyClient] else []) ++ [DelAliases] in
  match wk_proto w with
  | MQTT_BRIDGE => (w, acts, false)
  | _ =>
      if in_will i then (with_state w END, acts ++ [Finish], true)
      else (w, acts ++ [FreeCparam], false)
  end.

(** case RECV, from "processing what we got now" on *)
Definition dispatch (w : work) (i : input) (m : in_msg) : work * list action :=
  let w := with_flag (with_msg w (Some m)) (im_cmd m) in
  let to_wait (r : work * list action) : work * list action :=
    (with_state (fst r) WAIT, snd r ++ [Finish]) in
  if wk_flag w =? CMD_SUBSCRIBE then on_subscribe w i m
  else if wk_flag w =? CMD_UNSUBSCRIBE then on_unsubscribe w i m
  else if wk_flag w =? CMD_PUBLISH then
    let '(w, acts, over) := on_publish w i in
    if over then (w, acts) else to_wait (w, acts)
  else if wk_flag w =? CMD_CONNACK then to_wait (on_connack w i m)
  else if wk_flag w =? CMD_DISCONNECT_EV then
    let '(w, acts, over) := on_disconnect w i m in
    if over then (w, acts) else to_wait (w, acts)
  else to_wait (w, []).

(** A message that is not taken re-arms the receive of the extra context. *)
Definition again (w : work) (acts : list action) : work * list action :=
  (with_state w RECV, acts ++ [Recv ExtraCtx]).

(** case RECV, a message [m]: it is adapted to the worker's protocol. *)
Definition on_message (w : work) (i : input) (m : in_msg) : work * list action :=
  match wk_proto w with
  | MQTT_BROKER => dispatch w i m
  | MQTT_BRIDGE =>
      if im_type m =? CMD_CONNACK then dispatch w i m
      else if im_type m =? CMD_PUBLISH then
        let r := dispatch w i m in
        (fst r, (if in_result i =? 0 then [BridgeRecode] else []) ++ snd r)
      else again w [FreeMsg]
  | HTTP_SERVER | AWS_BRIDGE =>
      match in_common i with
      | Some m =>
          if negb (im_type m =? CMD_PUBLISH) then again w [FreeCparam]
          else dispatch w i (InMsg (im_type m) CMD_PUBLISH (im_pipe m) (im_proto_ver m))
      | None => (w, [NullDeref])    (* nng_msg_get_conn_param of NULL *)
      end
  | NNG_BRIDGE =>
      match in_adapted i with
      | None => again w [FreeMsg]
      | Some m =>
          let r := dispatch (with_nmsg w true) i m in
          (fst r, ((if wk_nmsg w then [FreeMsg] else []) ++ [CloneCparam]) ++ snd r)
      end
  end.

(** case RECV; a NULL message without an error would be dereferenced. *)
Definition on_recv (w : work) (i : input) : work * list action :=
  if negb (in_result i =? 0) then
    match wk_proto w with
    | MQTT_BROKER =>
        (with_state w RECV, match in_aio_msg i with Some _ => [FreeMsg] | None => [] end ++ [Recv Ctx])
    | _ =>
        match in_aio_msg i with
        | None => again w []
        | Some m => if negb (in_connshut i) then again w [] else on_message w i m
        end
    end
  else
    match in_aio_msg i with
    | Some m => on_message w i m
    | None => (w, [NullDeref])
    end.

(** case WAIT: the packet goes to the collected pipes, then to the bridges, the
    NNG proxy and, through SEND, to the webhook and the rule engine. *)
Definition on_wait (w : work) (i : input) : work * list action :=
  match wk_msg w with
  | None => (w, [NullDeref])    (* nng_msg_get_type of NULL *)
  | Some m =>
      if negb (im_type m =? CMD_PUBLISH) then (with_state (with_msg w None) RECV, [FreeMsg; Recv Ctx])
      else if negb (in_result i =? 0) then (w, [Fatal])
      else
        let sends := if in_encoded i then map (fun p => Send Ctx (Some p)) (default [] (wk_infos w)) else [] in
        let acts := sends ++ (if in_bridge_mode i then [BridgePub] else [])
          ++ (if in_nng_pub i then NngPub :: (if wk_nmsg w then [FreeMsg] else []) else []) in
        let w := if in_nng_pub i then with_nmsg w false else w in
        if in_hook i || in_rule i then (with_state w SEND, acts ++ [Finish])
        else
          (with_state (cleanup (with_msg w None)) RECV,
           acts ++ [FreeMsg; FreeCparam; Recv (own_ctx w)])
  end.

(** case SEND *)
Definition on_send (w : work) (i : input) : work * list action :=
  let acts :=
    (if (wk_flag w =? CMD_PUBLISH) && in_rule i then [RuleEngine] else [])
    ++ [HookEntry] ++ (match wk_msg w with Some _ => [FreeMsg] | None => [] end)
    ++ [FreeCparam; Recv (own_ctx w)] in
  (with_state (with_flag (cleanup (with_msg w None)) 0) RECV, acts).

(** case END: the disconnect event goes out, then the will, if there is one. *)
Definition on_end (w : work) (i : input) : work * list action :=
  match wk_msg w with
  | Some m =>
      if im_type m =? CMD_PUBLISH then
        let sends := if in_encoded i then map (fun p => Send Ctx (Some p)) (default [] (wk_infos w)) else [] in
        let w := cleanup (with_msg (if in_hook i then with_flag w 0 else w) None) in   (* hook_entry *)
        match (if in_will_flag i then in_will_msg i else None) with
        | Some will =>
            (with_state (call_pub (with_flag (with_msg w (Some will)) CMD_PUBLISH) i) WAIT,
             sends ++ [HookEntry; FreeMsg; PubHandler false; Finish])
        | None => (with_state w RECV, sends ++ [HookEntry; FreeMsg; FreeCparam; Recv (own_ctx w)])
        end
      else (w, [])
  | None => (w, [NullDeref])
  end.

(** case CLOSE *)
Definition on_close (w : work) (i : input) : work * list action :=
  (with_state (with_code (with_msg w (in_dismsg i)) SUCCESS) RECV, [FreeMsg; SendDisconnect (wk_code w); Recv Ctx]).

Definition server_cb (w : work) (i : input) : work * list action :=
  match wk_state w with
  | INIT => (with_state w RECV, [Recv (own_ctx w)])
  | RECV => on_recv w i
  | WAIT => on_wait w i
  | SEND => on_send w i
  | END => on_end w i
  | CLOSE => on_close w i
  | HOOK => (w, [Fatal])
  end.

(** alloc_work and proto_work_init *)
Definition proto_work_init (proto : work_proto) : work :=
  Work INIT proto 0 SUCCESS None false false None.

(** ** Reachable workers *)

Context `{CL : !MqttConstLaws}.

(** What the library and the handlers guarantee: a receive completes with a
    message, publishes and disconnect events have the type PUBLISH in their
    header, a bridge's client hands over CONNACKs, publishes and disconnect
    events under their command types, the adapter of the NNG proxy makes
    publishes, and [handle_pub] collects no pipes when it refuses a packet. *)
Definition msg_ok (m : in_msg) : Prop :=
  im_cmd m = CMD_PUBLISH \/ im_cmd m = CMD_DISCONNECT_EV -> im_type m = CMD_PUBLISH.

Record input_ok (w : work) (i : input) : Prop := InputOk {
  io_recv : wk_state w = RECV -> in_result i = 0 -> in_aio_msg i <> None;
  io_msg m : in_aio_msg i = Some m -> msg_ok m;
  io_bridge m : wk_proto w = MQTT_BRIDGE -> in_aio_msg i = Some m ->
    (im_type m = CMD_CONNACK -> im_cmd m = CMD_CONNACK) /\
    (im_type m = CMD_PUBLISH -> im_cmd m = CMD_PUBLISH \/ im_cmd m = CMD_DISCONNECT_EV);
  io_adapted m : in_adapted i = Some m -> msg_ok m;
  io_nng m : wk_proto w = NNG_BRIDGE -> in_adapted i = Some m -> im_cmd m = CMD_PUBLISH;
  io_will m : in_will_msg i = Some m -> im_type m = CMD_PUBLISH;
  io_refused : in_pub_code i <> SUCCESS -> in_pub_infos i = None
}.

Inductive reachable (proto : work_proto) : work -> Prop :=
  | reach_init : reachable proto (proto_work_init proto)
  | reach_step w i : reachable proto w -> input_ok w i -> reachable proto (fst (server_cb w i)).

(** The context a worker takes its messages from: a broker worker from the one
    on the broker's socket, any other from its extra one. *)
Definition source_ctx (proto : work_proto) : ctx :=
  match proto with MQTT_BROKER => Ctx | MQTT_BRIDGE | AWS_BRIDGE | HTTP_SERVER | NNG_BRIDGE => ExtraCtx end.

(** The worker waits for exactly the completion its state expects: the last
    call re-arms the aio, by a receive on the worker's context in state RECV and
    by finishing it or, for the reply of the HTTP and AWS servers, by a send, in
    the other states. *)
Definition rearmed (proto : work_proto) (s : work_state) (acts : list action) : Prop :=
  match last acts with
  | Some (Recv c) => s = RECV /\ c = source_ctx proto
  | Some Finish => s ∈ [WAIT; SEND; END] \/ s = CLOSE /\ proto = MQTT_BROKER
  | Some (Send ExtraCtx None) => proto ∈ [HTTP_SERVER; AWS_BRIDGE] /\ s ∈ [WAIT; SEND]
  | _ => False
  end.

(** The two ways a callback ends the process: the completion in WAIT failed,
    or there was no memory for the message of the HTTP server. *)
Inductive dies (w : work) (i : input) : list action -> Prop :=
  | dies_wait : wk_state w = WAIT -> in_result i <> 0 -> dies w i [Fatal]
  | dies_common : wk_state w = RECV -> wk_proto w ∈ [HTTP_SERVER; AWS_BRIDGE] ->
      in_common i = None -> dies w i [NullDeref].

(** The message a state relies on.  Only a broker worker waits with a message
    that is not a publish, or closes a connection. *)
Definition msg_inv (w : work) : Prop :=
  match wk_state w with
  | WAIT => exists m, wk_msg w = Some m /\ (wk_proto w <> MQTT_BROKER -> im_type m = CMD_PUBLISH)
  | END => exists m, wk_msg w = Some m /\ im_type m = CMD_PUBLISH
  | CLOSE => wk_proto w = MQTT_BROKER
  | HOOK => False
  | _ => True
  end.

(** A callback of [w] ends well with [r]. *)
Definition goes_on (w : work) (r : work * list action) : Prop :=
  rearmed (wk_proto w) (wk_state (fst r)) (snd r) /\ wk_proto (fst r) = wk_proto w /\ msg_inv (fst r).

Definition outcome (w : work) (i : input) (r : work * list action) : Prop :=
  goes_on w r \/ dies w i (snd r) /\ fst r = w.

Lemma rearmed_app proto s l k : rearmed proto s k -> rearmed proto s (l ++ k).
Proof. unfold rearmed. rewrite last_app. by destruct (last k). Qed.

Lemma rearmed_finish proto s l : s ∈ [WAIT; SEND; END] -> rearmed proto s (l ++ [Finish]).
Proof. intros Hs. apply rearmed_app. by left. Qed.

Lemma rearmed_own w l : rearmed (wk_proto w) RECV (l ++ [Recv (own_ctx w)]).
Proof. apply rearmed_app. unfold rearmed, own_ctx. cbn. by destruct (wk_proto w). Qed.

Lemma goes_on_prefix w acts r : goes_on w r -> goes_on w (fst r, acts ++ snd r).
Proof. intros (H1 & H2 & H3). split; [by apply rearmed_app|done]. Qed.

(** What [dispatch] is given: any packet in a broker worker, publishes and the
    events of a connection in the others. *)
Definition packet_for (w : work) (m : in_msg) : Prop :=
  wk_proto w <> MQTT_BROKER -> im_cmd m ∈ [CMD_PUBLISH; CMD_CONNACK; CMD_DISCONNECT_EV].

Lemma packet_for_broker w m :
  packet_for w m -> im_cmd m ∉ [CMD_PUBLISH; CMD_CONNACK; CMD_DISCONNECT_EV] -> wk_proto w = MQTT_BROKER.
Proof. intros H Hn. destruct (decide (wk_proto w = MQTT_BROKER)) as [|Hp]; [done|]. by destruct (Hn (H Hp)). Qed.

Lemma subscribe_other :
  CMD_SUBSCRIBE ∉ [CMD_PUBLISH; CMD_CONNACK; CMD_DISCONNECT_EV].
Proof.
  pose proof cmd_types_distinct as Hnd. apply NoDup_cons in Hnd as [Hn _].
  intros Hin. apply Hn. set_solver.
Qed.

Lemma dispatch_ok w i m : msg_ok m -> packet_for w m -> goes_on w (dispatch w i m).
Proof.
  intros Hm Hb. unfold dispatch, goes_on, msg_inv. cbn [wk_flag with_flag].
  destruct (Z.eqb_spec (im_cmd m) CMD_SUBSCRIBE) as [Es|_].
  { assert (wk_proto w = MQTT_BROKER) as Hp
      by (apply (packet_for_broker w m Hb); rewrite Es; apply subscribe_other).
    unfold on_subscribe. destruct (negb (_ =? SUCCESS)); cbn [fst snd].
    - split; [do 2 apply rearmed_app; unfold rearmed; cbn; auto|done].
    - split; [apply rearmed_app, rearmed_app; unfold rearmed; cbn; left; set_solver|].
      destruct (in_msg_ret i) as [[|r l]|]; try destruct (rm_unexpired r); done. }
  destruct (im_cmd m =? CMD_UNSUBSCRIBE); [split; [unfold rearmed; cbn; left; set_solver|done]|].
  destruct (Z.eqb_spec (im_cmd m) CMD_PUBLISH) as [Hp|Hn1].
  { assert (im_type m = CMD_PUBLISH) as Ht by (apply Hm; by left).
    unfold on_publish. cbn [wk_proto with_code call_pub with_infos with_packet with_flag with_msg wk_code].
    destruct (wk_proto w) eqn:Epr, (in_pub_code i =? SUCCESS); cbn; rewrite ?Epr;
      (split; [unfold rearmed; cbn; set_solver|split; [done|]]); eauto. }
  destruct (Z.eqb_spec (im_cmd m) CMD_CONNACK) as [Hc|Hn2].
  { unfold on_connack. cbn [fst snd]. split; [by apply rearmed_finish; set_solver|].
    cbn. eauto. }
  destruct (Z.eqb_spec (im_cmd m) CMD_DISCONNECT_EV) as [Hd|Hn3].
  { assert (im_type m = CMD_PUBLISH) as Ht by (apply Hm; by right).
    unfold on_disconnect. cbn [wk_proto call_pub with_infos with_packet with_flag with_msg].
    destruct (wk_proto w) eqn:Epr, (in_will i); cbn [fst snd];
      (split; [apply rearmed_finish; set_solver|]); cbn; eauto. }
  assert (wk_proto w = MQTT_BROKER) as Hp by (apply (packet_for_broker w m Hb); set_solver).
  cbn [fst snd]. split; [apply rearmed_finish; set_solver|]. cbn. split; [done|]. exists m. by rewrite Hp.
Qed.

Lemma again_ok w l : wk_proto w <> MQTT_BROKER -> goes_on w (again w l).
Proof.
  intros Hp. split; [|done]. cbn [again snd fst with_state wk_state].
  apply rearmed_app. unfold rearmed. cbn. by destruct (wk_proto w).
Qed.

Lemma on_message_ok w i m :
  input_ok w i -> wk_state w = RECV -> in_aio_msg i = Some m -> outcome w i (on_message w i m).
Proof.
  intros Hi Hs E. pose proof (io_msg w i Hi m E) as Hm. unfold on_message, outcome.
  destruct (wk_proto w) eqn:Hp.
  - left. apply dispatch_ok; [done|]. by intros [].
  - left. destruct (io_bridge w i Hi m Hp E) as [H1 H2].
    destruct (Z.eqb_spec (im_type m) CMD_CONNACK) as [Ht|_].
    { apply dispatch_ok; [done|]. intros _. rewrite H1 by done. set_solver. }
    destruct (Z.eqb_spec (im_type m) CMD_PUBLISH) as [Ht|_]; [|apply again_ok; by rewrite Hp].
    apply goes_on_prefix, dispatch_ok; [done|]. intros _. destruct (H2 Ht) as [-> | ->]; set_solver.
  - destruct (in_common i) as [m1|] eqn:Ec; [left|right; split; [apply dies_common; rewrite ?Hp; set_solver|done]].
    destruct (Z.eqb_spec (im_type m1) CMD_PUBLISH); [|apply again_ok; by rewrite Hp].
    apply dispatch_ok; [by intros _|]. intros _. cbn. set_solver.
  - destruct (in_common i) as [m1|] eqn:Ec; [left|right; split; [apply dies_common; rewrite ?Hp; set_solver|done]].
    destruct (Z.eqb_spec (im_type m1) CMD_PUBLISH); [|apply again_ok; by rewrite Hp].
    apply dispatch_ok; [by intros _|]. intros _. cbn. set_solver.
  - left. destruct (in_adapted i) as [m1|] eqn:Ea; [|apply again_ok; by rewrite Hp].
    pose proof (io_nng w i Hi m1 Hp Ea) as Hc.
    apply (goes_on_prefix w _ (dispatch (with_nmsg w true) i m1)).
    apply (dispatch_ok (with_nmsg w true)); [by apply (io_adapted w i Hi)|]. intros _. rewrite Hc. set_solver.
Qed.

Lemma on_recv_ok w i : input_ok w i -> wk_state w = RECV -> outcome w i (on_recv w i).
Proof.
  intros Hi Hs. unfold on_recv. destruct (Z.eqb_spec (in_result i) 0) as [E|_]; cbn [negb].
  - destruct (in_aio_msg i) as [m|] eqn:Hm; [|by destruct (io_recv w i Hi Hs E)].
    by apply on_message_ok.
  - destruct (decide (wk_proto w = MQTT_BROKER)) as [Hp|Hp].
    + rewrite Hp. left. split; [|done]. rewrite Hp. by apply rearmed_app.
    + pose proof (on_message_ok w i) as Hk. destruct (in_aio_msg i) as [m|] eqn:Hm.
      * specialize (Hk m Hi Hs eq_refl). pose proof (again_ok w [] Hp) as Ha.
        destruct (wk_proto w); try done; (destruct (in_connshut i); [exact Hk|by left]).
      * left. pose proof (again_ok w [] Hp). by destruct (wk_proto w).
Qed.

Lemma on_wait_ok w i : wk_state w = WAIT -> msg_inv w -> outcome w i (on_wait w i).
Proof.
  intros Hs Hinv. unfold msg_inv in Hinv. rewrite Hs in Hinv. destruct Hinv as (m & Hm & Ht).
  unfold on_wait. rewrite Hm. destruct (Z.eqb_spec (im_type m) CMD_PUBLISH) as [E|Hne]; cbn [negb].
  - destruct (Z.eqb_spec (in_result i) 0) as [_|Hr]; cbn [negb]; [left|right; split; [by apply dies_wait|done]].
    destruct (in_hook i || in_rule i); unfold goes_on; cbn [fst snd].
    + split; [apply rearmed_finish; set_solver|]. by destruct (in_nng_pub i).
    + split; [|by destruct (in_nng_pub i)]. apply rearmed_app.
      replace (wk_proto w) with (wk_proto (if in_nng_pub i then with_nmsg w false else w)) by (by destruct (in_nng_pub i)).
      apply (rearmed_own _ [FreeMsg; FreeCparam]).
  - left. assert (wk_proto w = MQTT_BROKER) as Hp.
    { destruct (decide (wk_proto w = MQTT_BROKER)); [done|]. by destruct (Hne (Ht n)). }
    unfold goes_on. by rewrite Hp.
Qed.

Lemma on_end_ok w i :
  input_ok w i -> wk_state w = END -> msg_inv w -> goes_on w (on_end w i).
Proof.
  intros Hi Hs Hinv. unfold msg_inv in Hinv. rewrite Hs in Hinv. destruct Hinv as (m & Hm & Ht).
  unfold on_end. rewrite Hm, Ht, Z.eqb_refl.
  destruct (if in_will_flag i then in_will_msg i else None) as [will|] eqn:Hw; unfold goes_on; cbn [fst snd].
  - split; [apply (rearmed_app _ _ _ [_; _; _; Finish]); unfold rearmed; cbn; left; set_solver|].
    cbn. split; [by destruct (in_hook i)|]. exists will. split; [done|]. intros _.
    apply (io_will w i Hi). by destruct (in_will_flag i).
  - split; [|cbn; split; [by destruct (in_hook i)|done]]. apply rearmed_app.
    replace (wk_proto w) with
      (wk_proto (cleanup (with_msg (if in_hook i then with_flag w 0 else w) None))) by (by destruct (in_hook i)).
    apply (rearmed_own _ [HookEntry; FreeMsg; FreeCparam]).
Qed.

Lemma server_cb_ok w i : input_ok w i -> msg_inv w -> outcome w i (server_cb w i).
Proof.
  intros Hi Hinv. unfold server_cb. destruct (wk_state w) eqn:Hs.
  - left. split; [apply (rearmed_own w [])|done].
  - by apply on_recv_ok.
  - by apply on_wait_ok.
  - left. unfold on_send, goes_on. cbn [fst snd]. split; [|done].
    do 3 apply rearmed_app. apply (rearmed_own w [FreeCparam]).
  - unfold msg_inv in Hinv. by rewrite Hs in Hinv.
  - left. by apply on_end_ok.
  - unfold msg_inv in Hinv. rewrite Hs in Hinv. left. unfold goes_on. by rewrite Hinv.
Qed.

Lemma reachable_inv proto w : reachable proto w -> msg_inv w /\ wk_proto w = proto.
Proof.
  induction 1 as [|w i _ [IH <-] Hi]; [done|].
  destruct (server_cb_ok w i Hi IH) as [(_ & -> & H)|[_ ->]]; done.
Qed.

Lemma reachable_msg_inv proto w : reachable proto w -> msg_inv w.
Proof. intros H. by apply (reachable_inv proto). Qed.

(** C7. A worker is never lost: whatever a reachable worker of a protocol is
    called with, the callback ends by re-arming the aio with the operation its
    new state waits for, a receive being on the context of the worker's
    protocol, unless it ends the process: with a fatal error when the completion
    in WAIT has failed, or by reading a NULL message when an HTTP or AWS worker
    had no memory for the message.  No other bad state and no other NULL message
    is reached. *)
Theorem server_cb_rearms proto w i :
  reachable proto w -> input_ok w i ->
  wk_proto (fst (server_cb w i)) = proto /\
  (rearmed proto (wk_state (fst (server_cb w i))) (snd (server_cb w i)) \/
   dies w i (snd (server_cb w i))).
Proof.
  intros Hr Hi. destruct (reachable_inv proto w Hr) as [Hm <-].
  destruct (server_cb_ok w i Hi Hm) as [(H1 & H2 & _)|[Hd ->]]; auto.
Qed.

(** ** What a worker carries over *)

(** A broker worker that waits for a packet has no reason code, publish packet
    or pipe list left over from the last one. *)
Definition clean_inv (w : work) : Prop :=
  match wk_state w with
  | INIT | RECV => wk_code w = SUCCESS /\ wk_pub_packet w = false /\ wk_infos w = None
  | WAIT => wk_code w = SUCCESS /\
      forall m, wk_msg w = Some m -> im_type m <> CMD_PUBLISH ->
                wk_pub_packet w = false /\ wk_infos w = None
  | SEND | END => wk_code w = SUCCESS
  | CLOSE => wk_pub_packet w = false /\ wk_infos w = None
  | HOOK => False
  end.

Lemma dispatch_clean w i m :
  wk_proto w = MQTT_BROKER -> wk_state w = RECV -> clean_inv w -> msg_ok m ->
  (in_pub_code i <> SUCCESS -> in_pub_infos i = None) ->
  clean_inv (fst (dispatch w i m)) /\ wk_proto (fst (dispatch w i m)) = MQTT_BROKER.
Proof.
  intros Hp Hs Hc Hm Href. unfold clean_inv in Hc. rewrite Hs in Hc. destruct Hc as (Hcode & Hpk & Hin).
  unfold dispatch. cbn [wk_flag with_flag].
  destruct (im_cmd m =? CMD_SUBSCRIBE).
  { unfold on_subscribe. set (code := if negb (in_sub_rv i =? 0) then _ else _).
    destruct (Z.eqb_spec code SUCCESS) as [E|_]; cbn [negb fst]; [|done].
    destruct (in_msg_ret i) as [[|r l]|]; try destruct (rm_unexpired r); done. }
  destruct (im_cmd m =? CMD_UNSUBSCRIBE); [done|].
  destruct (Z.eqb_spec (im_cmd m) CMD_PUBLISH) as [Hpub|_].
  { unfold on_publish. cbn [wk_proto with_code call_pub with_infos with_packet with_flag with_msg wk_code].
    rewrite Hp. destruct (Z.eqb_spec (in_pub_code i) SUCCESS) as [E|Hne]; cbn.
    - split; [|done]. unfold clean_inv. cbn. split; [done|]. intros m' [= <-] Ht.
      destruct Ht. apply Hm. by left.
    - split; [|done]. unfold clean_inv. cbn. auto. }
  destruct (im_cmd m =? CMD_CONNACK).
  { cbn. split; [|done]. unfold clean_inv. cbn. split; [done|]. by intros m' [= <-]. }
  destruct (Z.eqb_spec (im_cmd m) CMD_DISCONNECT_EV) as [Hd|_].
  { assert (im_type m = CMD_PUBLISH) as Ht by (apply Hm; by right).
    unfold on_disconnect. cbn [wk_proto call_pub with_infos with_packet with_flag with_msg]. rewrite Hp.
    destruct (in_will i); cbn; (split; [|done]); unfold clean_inv; cbn; [done|].
    split; [done|]. by intros m' [= <-]. }
  cbn. split; [|done]. unfold clean_inv. cbn. split; [done|]. by intros m' [= <-].
Qed.

Lemma server_cb_clean w i :
  input_ok w i -> msg_inv w -> wk_proto w = MQTT_BROKER -> clean_inv w ->
  clean_inv (fst (server_cb w i)) /\ wk_proto (fst (server_cb w i)) = MQTT_BROKER.
Proof.
  intros Hi Hmi Hp Hc. unfold server_cb. destruct (wk_state w) eqn:Hs.
  - unfold clean_inv in Hc. by rewrite Hs in Hc.
  - unfold on_recv, on_message. rewrite Hp. destruct (Z.eqb_spec (in_result i) 0) as [E|_]; cbn [negb].
    + destruct (in_aio_msg i) as [m|] eqn:Hm; [|by destruct (io_recv w i Hi Hs E)].
      apply dispatch_clean; try done; [by apply (io_msg w i Hi)|apply (io_refused w i Hi)].
    + unfold clean_inv in Hc. by rewrite Hs in Hc.
  - unfold msg_inv in Hmi. rewrite Hs in Hmi. destruct Hmi as (m & Hm & _).
    unfold clean_inv in Hc. rewrite Hs in Hc. destruct Hc as [Hcode Hcl].
    unfold on_wait. rewrite Hm.
    destruct (Z.eqb_spec (im_type m) CMD_PUBLISH) as [Et|Hne]; cbn [negb].
    + destruct (in_result i =? 0); cbn [negb]; [|split; [by unfold clean_inv; cbn [fst]; rewrite Hs|done]].
      destruct (in_hook i || in_rule i), (in_nng_pub i); done.
    + destruct (Hcl m Hm Hne). done.
  - unfold clean_inv in Hc. rewrite Hs in Hc. done.
  - unfold clean_inv in Hc. by rewrite Hs in Hc.
  - unfold msg_inv in Hmi. rewrite Hs in Hmi. destruct Hmi as (m & Hm & Ht).
    unfold clean_inv in Hc. rewrite Hs in Hc. unfold on_end. rewrite Hm, Ht, Z.eqb_refl.
    destruct (in_hook i); (destruct (in_will_flag i); [destruct (in_will_msg i) as [will|] eqn:Hw|]; cbn; try done);
      (split; [|done]; unfold clean_inv; cbn; split; [done|]; intros m' [= <-] Hn;
       by destruct Hn, (io_will w i Hi will Hw)).
  - unfold clean_inv in Hc. rewrite Hs in Hc. done.
Qed.

Lemma reachable_clean w :
  reachable MQTT_BROKER w -> clean_inv w /\ wk_proto w = MQTT_BROKER.
Proof.
  induction 1 as [|w i Hr [IH1 IH2] Hi]; [done|].
  apply server_cb_clean; try done. by eapply reachable_msg_inv.
Qed.

(** C8. Between two packets a broker worker carries nothing over: whenever
    it waits for the next packet, the reason code is SUCCESS again and neither
    a publish packet nor a pipe list is left. *)
Theorem worker_clean_at_recv w :
  reachable MQTT_BROKER w -> wk_state w = RECV ->
  wk_code w = SUCCESS /\ wk_pub_packet w = false /\ wk_infos w = None.
Proof.
  intros Hr Hs. destruct (reachable_clean w Hr) as [Hc _]. unfold clean_inv in Hc. by rewrite Hs in Hc.
Qed.

(** ** The connection parameters

    Every packet comes with a reference to its client's connection parameters,
    taken by the protocol layer. *)

Definition releases (acts : list action) : nat :=
  length (List.filter (fun a => match a with FreeCparam => true | _ => false end) acts).

Lemma releases_app l k : releases (l ++ k) = (releases l + releases k)%nat.
Proof. unfold releases. by rewrite List.filter_app, length_app. Qed.

Lemma releases_sends l : releases (map (fun p => Send Ctx (Some p)) l) = 0%nat.
Proof. induction l; done. Qed.

Lemma releases_frees {A} (l : list A) : releases (map (fun _ => FreeMsg) l) = 0%nat.
Proof. induction l; done. Qed.

Lemma releases_retain l pipe : releases (retain_loop l pipe) = 0%nat.
Proof.
  induction l as [|m l IH]; [done|]. cbn [retain_loop]. destruct (rm_unexpired m); [|done].
  rewrite !releases_app, IH. by destruct (rm_decoded m && rm_encoded m).
Qed.

(** The references a worker still holds, by its state. *)
Definition owed (w : work) : nat :=
  match wk_state w with WAIT | SEND | END => 1%nat | _ => 0%nat end.

(** The packet a worker carries is a publish when it waits. *)
Definition carries_publish (w : work) : Prop :=
  wk_state w = WAIT -> exists m, wk_msg w = Some m /\ im_type m = CMD_PUBLISH.

(** Handling of a packet: from a state after RECV to the next RECV. *)
Inductive completes : work -> list action -> Prop :=
  | completes_recv w : wk_state w = RECV -> completes w []
  | completes_step w i acts :
      wk_state w <> RECV -> wk_state w <> INIT -> input_ok w i ->
      completes (fst (server_cb w i)) acts -> completes w (snd (server_cb w i) ++ acts).

Ltac count_releases :=
  rewrite ?releases_app, ?releases_sends, ?releases_frees, ?releases_retain; cbn.

Lemma dispatch_owed w i m :
  wk_proto w = MQTT_BROKER -> msg_ok m ->
  im_cmd m ∈ [CMD_SUBSCRIBE; CMD_UNSUBSCRIBE; CMD_PUBLISH; CMD_CONNACK] ->
  let r := dispatch w i m in
  (releases (snd r) + owed (fst r) = 1)%nat /\ carries_publish (fst r).
Proof.
  intros Hp Hm Hin. unfold dispatch, carries_publish. cbn [wk_flag with_flag].
  destruct (Z.eqb_spec (im_cmd m) CMD_SUBSCRIBE).
  { unfold on_subscribe. destruct (negb (_ =? SUCCESS)); cbn [fst snd]; count_releases; [done|].
    destruct (in_msg_ret i); count_releases; done. }
  destruct (Z.eqb_spec (im_cmd m) CMD_UNSUBSCRIBE); [done|].
  destruct (Z.eqb_spec (im_cmd m) CMD_PUBLISH) as [Hpub|?].
  { unfold on_publish. cbn [wk_proto with_code call_pub with_infos with_packet with_flag with_msg wk_code].
    rewrite Hp. destruct (in_pub_code i =? SUCCESS); cbn; [|done].
    split; [done|]. intros _. exists m. split; [done|]. apply Hm. by left. }
  destruct (Z.eqb_spec (im_cmd m) CMD_CONNACK);
    [|rewrite !elem_of_cons, elem_of_nil in Hin; naive_solver].
  unfold on_connack. cbn. destruct (decide _); cbn; eauto.
Qed.

Lemma server_cb_owed w i :
  wk_proto w = MQTT_BROKER -> input_ok w i -> msg_inv w -> carries_publish w ->
  wk_state w <> RECV -> wk_state w <> INIT ->
  let r := server_cb w i in
  (releases (snd r) + owed (fst r) = owed w)%nat /\ carries_publish (fst r).
Proof.
  intros Hp Hi Hmi Hc H1 H2. unfold server_cb, carries_publish, owed in *.
  unfold msg_inv in Hmi. destruct (wk_state w) eqn:Hs; try done.
  - destruct (Hc eq_refl) as (m & Hm & Ht). unfold on_wait. rewrite Hm, Ht, Z.eqb_refl.
    cbn [negb]. destruct (in_result i =? 0); cbn [negb];
      [|cbn; rewrite Hs; split; [done|]; intros _; exists m; done].
    destruct (in_hook i || in_rule i), (in_encoded i), (in_bridge_mode i), (in_nng_pub i), (wk_nmsg w);
      cbn [fst snd]; count_releases; done.
  - unfold on_send. cbn [fst snd]. count_releases.
    destruct (_ && _), (wk_msg w); done.
  - destruct Hmi as (m & Hm & Ht). unfold on_end. rewrite Hm, Ht, Z.eqb_refl.
    destruct (in_will_flag i); [destruct (in_will_msg i) as [will|] eqn:Hw|]; cbn [fst snd];
      destruct (in_encoded i); count_releases; try done;
      (split; [done|]; intros _; exists will; split; [done|]; by apply (io_will w i Hi)).
Qed.

Lemma completes_releases w acts :
  completes w acts -> reachable MQTT_BROKER w -> carries_publish w -> releases acts = owed w.
Proof.
  induction 1 as [w Hs|w i acts H1 H2 Hi _ IH]; intros Hr Hc; [unfold owed; by rewrite Hs|].
  destruct (server_cb_owed w i) as [E Hc'];
    [by apply reachable_clean|done|by eapply reachable_msg_inv|done..|].
  rewrite releases_app, IH; [|by apply reach_step|done]. done.
Qed.

(** C9. The reference to the connection parameters that comes with a
    SUBSCRIBE, UNSUBSCRIBE, PUBLISH or CONNACK packet is released exactly once
    until the worker, one of protocol MQTT_BROKER, receives again, on every path:
    accepted, refused or closed, with or without webhook and rule engine. *)
Theorem cparam_released_once w i m acts :
  reachable MQTT_BROKER w -> wk_state w = RECV -> input_ok w i ->
  in_result i = 0 -> in_aio_msg i = Some m ->
  im_cmd m ∈ [CMD_SUBSCRIBE; CMD_UNSUBSCRIBE; CMD_PUBLISH; CMD_CONNACK] ->
  completes (fst (server_cb w i)) acts ->
  releases (snd (server_cb w i) ++ acts) = 1%nat.
Proof.
  intros Hr Hs Hi E Hm Hin Hcomp. destruct (reachable_clean w Hr) as [_ Hp].
  assert (server_cb w i = dispatch w i m) as Es.
  { unfold server_cb, on_recv, on_message. by rewrite Hs, E, Hm, Hp. }
  destruct (dispatch_owed w i m Hp (io_msg w i Hi m Hm) Hin) as [Ho Hc].
  apply completes_releases in Hcomp; [|by apply reach_step|by rewrite Es].
  rewrite releases_app, Hcomp, Es. done.
Qed.

(** Retained messages are sent up to the first one that has expired:
    the ones after it are neither sent nor released. *)
Theorem retain_loop_stops pre m post pipe :
  Forall (fun r => rm_unexpired r = true /\ rm_decoded r = true /\ rm_encoded r = true) pre ->
  rm_unexpired m = false ->
  retain_loop (pre ++ m :: post) pipe = flat_map (fun _ => [Send Ctx (Some pipe); FreeMsg]) pre.
Proof.
  intros Hpre Hm. induction Hpre as [|r pre (H1 & H2 & H3) _ IH]; cbn [app retain_loop flat_map].
  - by rewrite Hm.
  - by rewrite H1, H2, H3, IH.
Qed.

Lemma on_end_will w i m will :
  wk_msg w = Some m -> im_type m = CMD_PUBLISH -> in_will_flag i = true -> in_will_msg i = Some will ->
  let w1 := fst (on_end w i) in
  wk_state w1 = WAIT /\ wk_msg w1 = Some will /\ wk_infos w1 = in_pub_infos i.
Proof.
  intros Hm Ht Hwf Hw. unfold on_end. rewrite Hm, Ht, Z.eqb_refl, Hwf, Hw. by destruct (in_hook i).
Qed.

(** Without receivers a packet still goes to the bridges. *)
Lemma on_wait_bridged w i m :
  wk_msg w = Some m -> im_type m = CMD_PUBLISH -> wk_infos w = None -> in_result i = 0 ->
  in_bridge_mode i = true ->
  BridgePub ∈ snd (on_wait w i) /\ forall p, Send Ctx (Some p) ∉ snd (on_wait w i).
Proof.
  intros Hm Ht Hin Hr Hb. unfold on_wait. rewrite Hm, Ht, Z.eqb_refl, Hr, Hin, Hb.
  destruct (in_hook i || in_rule i), (in_encoded i), (in_nng_pub i), (wk_nmsg w); cbn;
    (split; [by left|]); intros p Hel; repeat (apply elem_of_cons in Hel as [?|Hel]; [discriminate|]);
    by apply elem_of_nil in Hel.
Qed.

(** A will that the access control refuses is not delivered, but it
    still goes to the bridges: END ignores the code of [handle_pub]. *)
Theorem refused_will_bridged w i i' m will :
  wk_state w = END -> wk_msg w = Some m -> im_type m = CMD_PUBLISH ->
  in_will_flag i = true -> in_will_msg i = Some will -> im_type will = CMD_PUBLISH ->
  in_pub_code i <> SUCCESS -> in_pub_infos i = None ->
  in_result i' = 0 -> in_bridge_mode i' = true ->
  let w1 := fst (server_cb w i) in
  wk_state w1 = WAIT /\ BridgePub ∈ snd (server_cb w1 i') /\
  forall p, Send Ctx (Some p) ∉ snd (server_cb w1 i').
Proof.
  intros Hs Hm Ht Hwf Hw Hwt Hc Hin Hr Hb.
  replace (server_cb w i) with (on_end w i) by (unfold server_cb; by rewrite Hs).
  destruct (on_end_will w i m will Hm Ht Hwf Hw) as (H1 & H2 & H3). rewrite Hin in H3.
  split; [done|]. unfold server_cb. rewrite H1. by apply (on_wait_bridged _ _ will).
Qed.

(** After a CONNACK the worker carries the notification of the connection. *)
Lemma server_cb_connack `{!MqttConstLaws} w i m :
  wk_state w = RECV -> wk_proto w = MQTT_BROKER -> in_result i = 0 -> in_aio_msg i = Some m ->
  im_cmd m = CMD_CONNACK ->
  let w1 := fst (server_cb w i) in
  wk_state w1 = WAIT /\ wk_flag w1 = CMD_PUBLISH /\ exists e, wk_msg w1 = Some e /\ im_type e = CMD_PUBLISH.
Proof.
  intros Hs Hp Hr Hm Hc. unfold server_cb. rewrite Hs. unfold on_recv. rewrite Hr, Hm. unfold on_message.
  rewrite Hp. cbn [Z.eqb negb]. unfold dispatch. cbn [with_flag wk_flag]. rewrite Hc.
  pose proof cmd_types_distinct as Hnd. rewrite !NoDup_cons in Hnd. destruct Hnd as (N1 & N2 & N3 & _).
  assert (CMD_CONNACK <> CMD_SUBSCRIBE /\ CMD_CONNACK <> CMD_UNSUBSCRIBE /\ CMD_CONNACK <> CMD_PUBLISH)
    as (E1 & E2 & E3).
  { repeat split; intros E; [apply N1|apply N2|apply N3]; rewrite E; repeat constructor. }
  rewrite (proj2 (Z.eqb_neq _ _) E1), (proj2 (Z.eqb_neq _ _) E2), (proj2 (Z.eqb_neq _ _) E3), Z.eqb_refl. cbn.
  split; [done|]. split; [done|]. by eexists.
Qed.

(** A PUBLISH passes from WAIT to SEND with its flag when a hook is enabled. *)
Lemma server_cb_hooked w i m :
  wk_state w = WAIT -> wk_msg w = Some m -> im_type m = CMD_PUBLISH -> in_result i = 0 -> in_hook i = true ->
  wk_state (fst (server_cb w i)) = SEND /\ wk_flag (fst (server_cb w i)) = wk_flag w.
Proof.
  intros Hs Hm Ht Hr Hh. unfold server_cb. rewrite Hs. unfold on_wait. rewrite Hm, Ht, Z.eqb_refl, Hr, Hh. cbn.
  by destruct (in_nng_pub i).
Qed.

End Machine.


(** ** Witnesses on the model of the library *)

Import Model.

Definition pub_msg : in_msg := InMsg CMD_PUBLISH CMD_PUBLISH 7 4.

(** A publish arrives and goes to pipes 3 and 4. *)
Definition pub_input : input :=
  Input 0 (Some pub_msg) false None None 0 None 0 0 (Some [3; 4]) true false false false
    (Some pub_msg) None true false false false.

Lemma pub_input_ok w : input_ok w pub_input.
Proof. constructor; try done; intros m; [intros [= <-]; done|intros _ [= <-]; split; [done|by left]|..]; by intros [= <-]. Qed.

Definition worker_recv : work := fst (server_cb (proto_work_init MQTT_BROKER) pub_input).
Definition worker_wait : work := fst (server_cb worker_recv pub_input).
Definition worker_back : work := fst (server_cb worker_wait pub_input).

Lemma worker_recv_reachable : reachable MQTT_BROKER worker_recv.
Proof. apply reach_step; [apply reach_init | apply pub_input_ok]. Qed.

Lemma worker_wait_reachable : reachable MQTT_BROKER worker_wait.
Proof. apply reach_step; [apply worker_recv_reachable | apply pub_input_ok]. Qed.

(** A worker of the HTTP server with a publish, and the memory for it. *)
Definition http_input : input :=
  Input 0 (Some pub_msg) false (Some pub_msg) None 0 None 0 0 (Some [3]) true false false false
    None None false false false false.

Lemma http_input_ok w : input_ok w http_input.
Proof. constructor; try done; intros m; [intros [= <-]; done|intros _ [= <-]; split; [done|by left]|..]; by intros [= <-]. Qed.

Definition http_recv : work := fst (server_cb (proto_work_init HTTP_SERVER) http_input).
Definition http_wait : work := fst (server_cb http_recv http_input).

Lemma http_wait_reachable : reachable HTTP_SERVER http_wait.
Proof. do 2 (apply reach_step; [|apply http_input_ok]). apply reach_init. Qed.

Lemma server_cb_rearms_witness :
  wk_state http_wait = WAIT /\
  rearmed HTTP_SERVER (wk_state (fst (server_cb http_wait http_input))) (snd (server_cb http_wait http_input)) /\
  snd (server_cb http_wait http_input) = [Send Ctx (Some 3); FreeMsg; FreeCparam; Recv ExtraCtx].
Proof.
  split; [reflexivity|]. split; [|reflexivity].
  destruct (server_cb_rearms HTTP_SERVER http_wait http_input) as [_ [H|H]];
    [apply http_wait_reachable | apply http_input_ok | exact H | inversion H].
Defined.

Lemma worker_clean_at_recv_witness :
  wk_pub_packet worker_wait = true /\
  wk_code worker_back = SUCCESS /\ wk_pub_packet worker_back = false /\ wk_infos worker_back = None.
Proof.
  split; [reflexivity|]. apply worker_clean_at_recv; [|reflexivity].
  apply reach_step; [apply worker_wait_reachable | apply pub_input_ok].
Defined.

Lemma cparam_released_once_witness :
  exists acts, completes worker_wait acts /\
    releases (snd (server_cb worker_recv pub_input) ++ acts) = 1%nat.
Proof.
  assert (completes worker_wait (snd (server_cb worker_wait pub_input) ++ [])) as H.
  { apply completes_step; [done | done | apply pub_input_ok |]. by apply completes_recv. }
  eexists. split; [exact H|].
  apply (cparam_released_once worker_recv pub_input pub_msg);
    [apply worker_recv_reachable | reflexivity | apply pub_input_ok | reflexivity | reflexivity | | exact H].
  rewrite !elem_of_cons. cbn. auto.
Defined.

Lemma retain_loop_stops_witness :
  retain_loop ([RetMsg true true true] ++ RetMsg false true true :: [RetMsg true true true]) 7
  = [Send Ctx (Some 7); FreeMsg].
Proof. apply (retain_loop_stops [RetMsg true true true]); [by repeat constructor | reflexivity]. Defined.

(** The will is refused with BANNED. *)
Definition refused_will : input :=
  Input 0 None false None None 0 None 0 BANNED None true false true true (Some pub_msg)
    None true false false false.

Definition worker_end : work := Work END MQTT_BROKER CMD_PUBLISH SUCCESS (Some pub_msg) false true None.

Lemma refused_will_bridged_witness :
  wk_state (fst (server_cb worker_end refused_will)) = WAIT /\
  BridgePub ∈ snd (server_cb (fst (server_cb worker_end refused_will)) pub_input).
Proof.
  destruct (refused_will_bridged worker_end refused_will pub_input pub_msg pub_msg) as (H1 & H2 & _);
    try reflexivity; [done|]. split; [exact H1 | exact H2].
Defined.

End ServerCb.
