(* ===== verification/WebhookEvents.v ===== *)
(** * Events for the web hook (nanomq/webhook_post.c)

    [hook_entry] turns what a worker has just handled into a JSON text and sends
    it to the agent.  The JSON object is built with cJSON, whose operations are
    a class here; the encoders of the payload are those of WebhookCodec.  [None]
    is a NULL pointer that is dereferenced. *)

From S2P Require Import Prelude NngApi NngModel WebhookCodec PubCodec ServerCb.

(** ** Building objects with cJSON *)

Inductive json_value := JNum (n : Z) | JStr (s : bytes) | JBool (b : bool) | JNull.

(** A NULL string cannot be added: the object is left as it is. *)
Class CJsonBuild := {
  cJSON_obj : Type;
  cJSON_CreateObject : cJSON_obj;
  cJSON_AddNumberToObject : cJSON_obj -> bytes -> Z -> cJSON_obj;
  cJSON_AddStringToObject : cJSON_obj -> bytes -> option bytes -> cJSON_obj;
  cJSON_AddBoolToObject : cJSON_obj -> bytes -> bool -> cJSON_obj;
  cJSON_AddNullToObject : cJSON_obj -> bytes -> cJSON_obj;
  cJSON_Print : cJSON_obj -> bytes      (* cJSON_PrintUnformatted *)
}.

Class CJsonBuildLaws `{CJsonBuild} := {
  members : cJSON_obj -> list (bytes * json_value);
  members_create : members cJSON_CreateObject = [];
  members_number o k n : members (cJSON_AddNumberToObject o k n) = members o ++ [(k, JNum n)];
  members_string o k s : members (cJSON_AddStringToObject o k s)
    = members o ++ match s with Some s => [(k, JStr s)] | None => [] end;
  members_bool o k b : members (cJSON_AddBoolToObject o k b) = members o ++ [(k, JBool b)];
  members_null o k : members (cJSON_AddNullToObject o k) = members o ++ [(k, JNull)];
  (* the text determines the members *)
  print_inj o o' : cJSON_Print o = cJSON_Print o' -> members o = members o'
}.

Create Rewrite HintDb json.
#[export] Hint Rewrite @members_create @members_number @members_string @members_bool @members_null : json.

(** Objects as lists of members, printed through an enumeration. *)
#[export] Instance json_value_eq_dec : EqDecision json_value.
Proof. solve_decision. Defined.

#[export] Instance json_value_countable : Countable json_value.
Proof.
  refine (inj_countable'
    (fun v => match v with JNum n => inl (inl n) | JStr s => inl (inr s) | JBool b => inr (inl b) | JNull => inr (inr ()) end)
    (fun x => match x with inl (inl n) => JNum n | inl (inr s) => JStr s | inr (inl b) => JBool b | inr (inr _) => JNull end) _).
  by intros [].
Defined.

#[export] Instance list_json : CJsonBuild := {|
  cJSON_obj := list (bytes * json_value);
  cJSON_CreateObject := [];
  cJSON_AddNumberToObject o k n := o ++ [(k, JNum n)];
  cJSON_AddStringToObject o k s := o ++ match s with Some s => [(k, JStr s)] | None => [] end;
  cJSON_AddBoolToObject o k b := o ++ [(k, JBool b)];
  cJSON_AddNullToObject o k := o ++ [(k, JNull)];
  cJSON_Print o := [Z.pos (encode o)]
|}.

#[export] Instance list_json_laws : CJsonBuildLaws.
Proof.
  refine {| members := (fun o => o) : cJSON_obj -> list (bytes * json_value) |}; cbn; try done.
  intros o o' [= E]. by apply (inj encode) in E.
Defined.

(** Further getters of connection parameters, and nanolib's base64_encode. *)
Class HookParam `{NngMsg} := {
  conn_param_get_protover : conn_param -> Z;
  conn_param_get_keepalive : conn_param -> Z;
  base64_encode : bytes -> bytes
}.

Module WebhookEvents.

Import PubCodec WebhookCodec.

(** ** Configuration *)

(** The events that the functions below name, and the others. *)
Inductive webhook_event := CLIENT_CONNACK | CLIENT_DISCONNECTED | MESSAGE_PUBLISH | other_event (n : Z).

#[export] Instance webhook_event_eq_dec : EqDecision webhook_event.
Proof. solve_decision. Defined.

Inductive hook_payload_type := plain | base64 | base64_no_padding | base62 | other_payload.

Record conf_web_hook_rule := HookRule { hr_event : webhook_event; hr_topic : option bytes }.

Record conf_web_hook := ConfWebHook {
  wh_enable : bool;
  wh_rules : list conf_web_hook_rule;
  wh_encode_payload : hook_payload_type
}.

Section Events.

Context `{C : MqttConst} `{M : NngMsg} `{TF : TopicFilter} `{HP : !HookParam} `{J : CJsonBuild}.

Fixpoint event_filter (rules : list conf_web_hook_rule) (event : webhook_event) : bool :=
  match rules with
  | [] => false
  | r :: rules' => if decide (hr_event r = event) then true else event_filter rules' event
  end.

Fixpoint event_filter_with_topic (rules : list conf_web_hook_rule) (event : webhook_event)
    (topic : option bytes) : option bool :=
  match rules with
  | [] => Some false
  | r :: rules' =>
      if decide (hr_event r = event) then
        match hr_topic r with
        | None => Some true
        | Some filter =>
            topic' ← topic;
            if topic_filter filter topic' then Some true
            else event_filter_with_topic rules' event topic
        end
      else event_filter_with_topic rules' event topic
  end.

(** The switch over encode_payload; [alloc] is whether base62_encode finds its
    scratch memory.  payload.data is NULL for an empty payload and followed by a
    NUL byte otherwise. *)
Definition add_payload (how : hook_payload_type) (alloc : bool) (pp : pub_packet_struct) (obj : cJSON_obj)
  : option cJSON_obj :=
  let data := default [] (pp_payload pp) in
  let add (encode : bytes) (none : cJSON_obj) :=
    if (0 <? blen encode) then cJSON_AddStringToObject obj (lit "payload") (Some encode) else none in
  match how with
  | plain => Some (cJSON_AddStringToObject obj (lit "payload") (c_str <$> pp_payload pp))
  | base64 => Some (add (base64_encode data) (cJSON_AddNullToObject obj (lit "payload")))
  | base64_no_padding =>
      encode ← Base64NoPadding.base64_no_padding_encode data;
      Some (add encode (cJSON_AddNullToObject obj (lit "payload")))
  | base62 =>
      encode ← Base62.base62_encode alloc (8 * length data) data;
      Some (add encode
        (if pp_payload_len pp =? 0 then cJSON_AddStringToObject obj (lit "payload") (Some [])
         else cJSON_AddNullToObject obj (lit "payload")))
  | other_payload => Some obj
  end.

(** The return value and the text given to nng_send; [send] is what nng_send
    returns, [ts] is nng_timestamp(). *)
Definition webhook_msg_publish (hook_conf : conf_web_hook) (alloc : bool) (send ts : Z)
    (pp : pub_packet_struct) (username client_id : option bytes) : option (Z * option bytes) :=
  if negb (wh_enable hook_conf) then Some (-1, None)
  else
    wanted ← event_filter_with_topic (wh_rules hook_conf) MESSAGE_PUBLISH (pb_topic (pp_publish pp));
    if negb wanted then Some (-1, None)
    else
      let obj := cJSON_CreateObject in
      let obj := cJSON_AddNumberToObject obj (lit "ts") ts in
      let obj := cJSON_AddStringToObject obj (lit "topic") (pb_topic (pp_publish pp)) in
      let obj := cJSON_AddBoolToObject obj (lit "retain") (negb (fh_retain (pp_fixed pp) =? 0)) in
      let obj := cJSON_AddNumberToObject obj (lit "qos") (fh_qos (pp_fixed pp)) in
      let obj := cJSON_AddStringToObject obj (lit "action") (Some (lit "message_publish")) in
      let obj := cJSON_AddStringToObject obj (lit "from_username")
        (Some (default (lit "undefined") username)) in
      let obj := match client_id with
        | Some _ => cJSON_AddStringToObject obj (lit "from_client_id") client_id
        | None => cJSON_AddNullToObject obj (lit "from_client_id")
        end in
      obj ← add_payload (wh_encode_payload hook_conf) alloc pp obj;
      Some (send, Some (cJSON_Print obj)).

Definition webhook_client_connack (hook_conf : conf_web_hook) (send proto_ver keepalive reason : Z)
    (username client_id : option bytes) : Z * option bytes :=
  if negb (wh_enable hook_conf) || negb (event_filter (wh_rules hook_conf) CLIENT_CONNACK) then (-1, None)
  else
    let obj := cJSON_CreateObject in
    let obj := cJSON_AddNumberToObject obj (lit "proto_ver") proto_ver in
    let obj := cJSON_AddNumberToObject obj (lit "keepalive") keepalive in
    let obj := cJSON_AddStringToObject obj (lit "conn_ack")
      (Some (if reason =? SUCCESS then lit "success" else lit "fail")) in
    let obj := cJSON_AddStringToObject obj (lit "username") (Some (default (lit "undefined") username)) in
    let obj := cJSON_AddStringToObject obj (lit "clientid") client_id in
    let obj := cJSON_AddStringToObject obj (lit "action") (Some (lit "client_connack")) in
    (send, Some (cJSON_Print obj)).

Definition webhook_client_disconnect (hook_conf : conf_web_hook) (send reason : Z)
    (username client_id : option bytes) : Z * option bytes :=
  if negb (wh_enable hook_conf) || negb (event_filter (wh_rules hook_conf) CLIENT_DISCONNECTED)
  then (-1, None)
  else
    let obj := cJSON_CreateObject in
    let obj := cJSON_AddStringToObject obj (lit "reason")
      (Some (if reason =? SUCCESS then lit "normal" else lit "abnormal")) in
    let obj := cJSON_AddStringToObject obj (lit "username") (Some (default (lit "undefined") username)) in
    let obj := cJSON_AddStringToObject obj (lit "clientid") client_id in
    let obj := cJSON_AddStringToObject obj (lit "action") (Some (lit "client_disconnected")) in
    (send, Some (cJSON_Print obj)).

(** The return value, the text sent and work->flag afterwards. *)
Definition hook_entry (hook_conf : conf_web_hook) (alloc : bool) (send ts : Z) (flag : Z)
    (pp : option pub_packet_struct) (cparam : conn_param) (reason : Z) : option (Z * option bytes * Z) :=
  let username := conn_param_get_username cparam in
  let client_id := conn_param_get_clientid cparam in
  if negb (wh_enable hook_conf) then Some (0, None, flag)
  else
    r ← (if flag =? CMD_CONNACK then
           Some (webhook_client_connack hook_conf send (conn_param_get_protover cparam)
                   (conn_param_get_keepalive cparam) reason username client_id)
         else if flag =? CMD_PUBLISH then
           pp ← pp; webhook_msg_publish hook_conf alloc send ts pp username client_id
         else if flag =? CMD_DISCONNECT_EV then
           Some (webhook_client_disconnect hook_conf send reason username client_id)
         else Some (0, None));
    Some (r, 0).

(** ** What is posted *)

(** The rule of the configuration asks for this event. *)
Definition rule_matches (event : webhook_event) (topic : bytes) (r : conf_web_hook_rule) : bool :=
  bool_decide (hr_event r = event) &&
  match hr_topic r with None => true | Some filter => topic_filter filter topic end.

Lemma event_filter_with_topic_existsb rules event topic :
  event_filter_with_topic rules event (Some topic) = Some (existsb (rule_matches event topic) rules).
Proof.
  induction rules as [|r rules IH]; [done|]. cbn [event_filter_with_topic existsb]. unfold rule_matches at 1.
  destruct (decide (hr_event r = event)) as [E|E].
  - rewrite bool_decide_eq_true_2 by done. destruct (hr_topic r) as [f|]; [|done]. cbn.
    by destruct (topic_filter f topic).
  - rewrite bool_decide_eq_false_2 by done. done.
Qed.

Section Laws.

Context `{CL : !CJsonBuildLaws}.

Definition payload_of (pp : pub_packet_struct) : bytes := default [] (pp_payload pp).

(** The packet as decode_pub_message leaves it. *)
Definition packet_ok (pp : pub_packet_struct) : Prop :=
  bytes_ok (payload_of pp) /\ pp_payload_len pp = blen (payload_of pp).

(** The member "payload", if there is one. *)
Definition payload_member (how : hook_payload_type) (pp : pub_packet_struct)
    (l : list (bytes * json_value)) : Prop :=
  let text e := [(lit "payload", JStr e)] in
  let text_or_null (e : bytes) := if decide (e = []) then [(lit "payload", JNull)] else text e in
  match how with
  | plain => l = match pp_payload pp with Some d => text (c_str d) | None => [] end
  | base64 => l = text_or_null (base64_encode (payload_of pp))
  | base64_no_padding =>
      exists e, Base64NoPadding.base64_no_padding_encode (payload_of pp) = Some e /\ l = text_or_null e
  | base62 =>
      exists e, Base62.base62_encode true (8 * length (payload_of pp)) (payload_of pp) = Some e /\ l = text e
  | other_payload => l = []
  end.

Lemma blen_pos {A} (l : list A) : (0 <? blen l) = true <-> l <> [].
Proof. unfold blen. rewrite Z.ltb_lt. destruct l; cbn [length]; split; intros; try done; lia. Qed.

(** A payload that is not empty has a base-62 text that is not empty. *)
Lemma base62_nil data : bytes_ok data ->
  Base62.base62_encode true (8 * length data) data = Some [] -> data = [].
Proof.
  intros Hok E. apply (Base62.base62_encode_inj data []); [done|constructor|done].
Qed.

Lemma add_payload_ok how pp obj : packet_ok pp ->
  exists obj' l, add_payload how true pp obj = Some obj' /\ members obj' = members obj ++ l /\
    payload_member how pp l.
Proof.
  intros [Hok Hlen]. unfold add_payload, payload_member. fold (payload_of pp).
  assert (forall e none, blen e <> 0 \/ e = [] ->
    members (if 0 <? blen e then cJSON_AddStringToObject obj (lit "payload") (Some e) else none)
    = if decide (e = []) then members none else members obj ++ [(lit "payload", JStr e)]) as Hadd.
  { intros e none _. destruct (decide (e = [])) as [->|Hne]; [done|].
    rewrite (proj2 (blen_pos e) Hne). by rewrite members_string. }
  assert (forall e : bytes, blen e <> 0 \/ e = []) as Hcase by (intros [|? ?]; [by right|left; done]).
  destruct how.
  - eexists _, _. split; [done|]. rewrite members_string. split; [|done]. by destruct (pp_payload pp).
  - eexists _, _. split; [done|]. split; [|done]. rewrite Hadd by done. rewrite members_null. by case_decide.
  - destruct (Base64NoPadding.base64_no_padding_correct (payload_of pp) Hok) as (k & pad & -> & _).
    eexists _, _. split; [done|]. split; [|by eexists]. rewrite Hadd by done. rewrite members_null. by case_decide.
  - destruct (Base62.base62_encode_digits (payload_of pp) Hok) as (ds & E & _). rewrite E.
    eexists _, _. split; [done|]. split; [|by eexists]. rewrite Hadd by done. case_decide as Hn; [|done].
    rewrite Hn in E |- *. apply base62_nil in E; [|done]. rewrite Hlen, E. rewrite blen_nil, Z.eqb_refl. by rewrite members_string.
  - exists obj, []. by rewrite app_nil_r.
Qed.

(** The members before "payload". *)
Definition publish_members (ts : Z) (topic : bytes) (pp : pub_packet_struct)
    (username client_id : option bytes) : list (bytes * json_value) :=
  [(lit "ts", JNum ts); (lit "topic", JStr topic);
   (lit "retain", JBool (negb (fh_retain (pp_fixed pp) =? 0))); (lit "qos", JNum (fh_qos (pp_fixed pp)));
   (lit "action", JStr (lit "message_publish"));
   (lit "from_username", JStr (default (lit "undefined") username));
   (lit "from_client_id", match client_id with Some c => JStr c | None => JNull end)].

Lemma webhook_msg_publish_run hook_conf send ts pp username client_id topic :
  packet_ok pp -> pb_topic (pp_publish pp) = Some topic ->
  exists obj l, members obj = publish_members ts topic pp username client_id ++ l /\
    payload_member (wh_encode_payload hook_conf) pp l /\
    webhook_msg_publish hook_conf true send ts pp username client_id =
      Some (if wh_enable hook_conf && existsb (rule_matches MESSAGE_PUBLISH topic) (wh_rules hook_conf)
            then (send, Some (cJSON_Print obj)) else (-1, None)).
Proof.
  intros Hok Ht. unfold webhook_msg_publish. rewrite Ht, event_filter_with_topic_existsb.
  match goal with |- context [add_payload ?h true pp ?o] =>
    destruct (add_payload_ok h pp o Hok) as (obj & l & -> & Hm & Hl) end.
  exists obj, l. split; [|split; [done|]].
  - rewrite Hm. f_equal. unfold publish_members.
    destruct client_id; autorewrite with json; by rewrite <- ?app_assoc.
  - destruct (wh_enable hook_conf); [|done]. cbn. by destruct (existsb _ _).
Qed.

(** A message is posted exactly when the web hook is enabled and a rule asks for
    published messages with no topic or a filter that matches; the text then has
    the time, topic, flags, user name and client id of the packet and its
    payload in the configured encoding, and every encoder returns. *)
Theorem webhook_msg_publish_correct hook_conf send ts pp username client_id topic :
  packet_ok pp -> pb_topic (pp_publish pp) = Some topic ->
  if wh_enable hook_conf && existsb (rule_matches MESSAGE_PUBLISH topic) (wh_rules hook_conf)
  then exists obj l, members obj = publish_members ts topic pp username client_id ++ l /\
         payload_member (wh_encode_payload hook_conf) pp l /\
         webhook_msg_publish hook_conf true send ts pp username client_id = Some (send, Some (cJSON_Print obj))
  else webhook_msg_publish hook_conf true send ts pp username client_id = Some (-1, None).
Proof.
  intros Hok Ht.
  destruct (webhook_msg_publish_run hook_conf send ts pp username client_id topic Hok Ht) as (obj & l & Hm & Hl & E).
  destruct (_ && _); [by exists obj, l|done].
Qed.

(** With the base-62 encoding the text of an event determines the message:
    equal texts come from packets with the same topic, quality of service,
    retain flag and payload. *)
Theorem base62_event_faithful hook_conf hook_conf' send send' ts ts' pp pp' u u' c c' topic topic' text :
  wh_encode_payload hook_conf = base62 -> wh_encode_payload hook_conf' = base62 ->
  packet_ok pp -> packet_ok pp' ->
  pb_topic (pp_publish pp) = Some topic -> pb_topic (pp_publish pp') = Some topic' ->
  webhook_msg_publish hook_conf true send ts pp u c = Some (send, Some text) ->
  webhook_msg_publish hook_conf' true send' ts' pp' u' c' = Some (send', Some text) ->
  topic = topic' /\ fh_qos (pp_fixed pp) = fh_qos (pp_fixed pp') /\
  (fh_retain (pp_fixed pp) =? 0) = (fh_retain (pp_fixed pp') =? 0) /\ payload_of pp = payload_of pp'.
Proof.
  intros Hb Hb' Hok Hok' Ht Ht' E E'.
  destruct (webhook_msg_publish_run hook_conf send ts pp u c topic Hok Ht) as (o & l & Hm & Hl & R).
  destruct (webhook_msg_publish_run hook_conf' send' ts' pp' u' c' topic' Hok' Ht') as (o' & l' & Hm' & Hl' & R').
  rewrite R in E. rewrite R' in E'. destruct (_ && _) in E; [|done]. destruct (_ && _) in E'; [|done].
  injection E as E. injection E' as E'. rewrite <- E' in E. apply print_inj in E. rewrite Hm, Hm' in E.
  rewrite Hb in Hl. rewrite Hb' in Hl'. destruct Hl as (e & Ee & ->), Hl' as (e' & Ee' & ->).
  assert (e = e' -> payload_of pp = payload_of pp') as Hp.
  { intros <-. apply Base62.base62_encode_inj; [apply Hok|apply Hok'|]. by rewrite Ee, Ee'. }
  clear Ee Ee'. unfold publish_members in E. injection E as _ -> Hr -> _ _ ->.
  split; [done|]. split; [done|]. split; [|by apply Hp].
  by destruct (fh_retain (pp_fixed pp) =? 0), (fh_retain (pp_fixed pp') =? 0).
Qed.

End Laws.

(** ** The worker's hook *)

(** [hook_entry] clears the flag of the worker when the web hook is enabled,
    whatever is posted, and leaves everything alone otherwise. *)
Lemma hook_entry_flag hook_conf alloc send ts flag pp cparam reason r :
  hook_entry hook_conf alloc send ts flag pp cparam reason = Some r ->
  r.2 = if wh_enable hook_conf then 0 else flag.
Proof.
  unfold hook_entry. destruct (wh_enable hook_conf); cbn; [|by intros [= <-]].
  destruct (if flag =? CMD_CONNACK then _ else _); cbn; [|done]. by intros [= <-].
Qed.

(** The notification of a connection is a PUBLISH of the broker's own.  When
    the worker reaches SEND with it, its flag is CMD_PUBLISH again, so the hook
    posts it as a published message, although [hook_entry] had cleared the flag
    for it. *)
Theorem connect_event_posted `{!MqttConstLaws} (w : ServerCb.work) i i' m hook_conf alloc send ts pp cparam :
  ServerCb.wk_state w = ServerCb.RECV -> ServerCb.wk_proto w = ServerCb.MQTT_BROKER ->
  ServerCb.in_result i = 0 -> ServerCb.in_aio_msg i = Some m -> ServerCb.im_cmd m = CMD_CONNACK ->
  ServerCb.in_result i' = 0 -> ServerCb.in_hook i' = true -> wh_enable hook_conf = true ->
  let w1 := fst (ServerCb.server_cb w i) in
  let w2 := fst (ServerCb.server_cb w1 i') in
  ServerCb.wk_state w2 = ServerCb.SEND /\ ServerCb.wk_flag w2 = CMD_PUBLISH /\
  hook_entry hook_conf alloc send ts (ServerCb.wk_flag w2) (Some pp) cparam 0 =
    (fun r => (r, 0)) <$> webhook_msg_publish hook_conf alloc send ts pp
      (conn_param_get_username cparam) (conn_param_get_clientid cparam).
Proof.
  intros Hs Hp Hr Hm Hc Hr' Hh He.
  destruct (ServerCb.server_cb_connack w i m Hs Hp Hr Hm Hc) as (H1 & H2 & e & H3 & H4).
  destruct (ServerCb.server_cb_hooked _ i' e H1 H3 H4 Hr' Hh) as [H5 H6]. cbn zeta.
  rewrite H6, H2. split; [done|]. split; [done|]. unfold hook_entry. rewrite He, Z.eqb_refl.
  assert (CMD_PUBLISH <> CMD_CONNACK) as Hne.
  { pose proof cmd_types_distinct as Hnd. rewrite !NoDup_cons in Hnd. destruct Hnd as (_ & _ & N3 & _).
    intros E. apply N3. rewrite E. repeat constructor. }
  rewrite (proj2 (Z.eqb_neq _ _) Hne). cbn. by destruct (webhook_msg_publish _ _ _ _ _ _ _).
Qed.

End Events.

(** ** A published message *)

Section Witness.

Import Model.

#[local] Instance hook_param : HookParam :=
  {| conn_param_get_protover _ := 4; conn_param_get_keepalive _ := 60; base64_encode l := l |}.

Definition hook_packet (payload : bytes) : pub_packet_struct :=
  PubPacket (FixedHeader 0 1 0 3 0) 7 (PublishHeader (Some (lit "hook/a")) 6 None 0)
    (PubArrcHeader 0 None 0) (Some payload) (blen payload).

Definition hook_on (how : hook_payload_type) : conf_web_hook :=
  ConfWebHook true [HookRule CLIENT_CONNACK None; HookRule MESSAGE_PUBLISH (Some (lit "hook/#"))] how.

Lemma hook_packet_ok : packet_ok (hook_packet [0; 200; 17]).
Proof. split; [|done]. repeat constructor; unfold byte_ok; lia. Qed.

Lemma webhook_msg_publish_correct_witness :
  wh_enable (hook_on base62) &&
    existsb (rule_matches MESSAGE_PUBLISH (lit "hook/a")) (wh_rules (hook_on base62)) = true /\
  exists obj l, members obj = publish_members 5 (lit "hook/a") (hook_packet [0; 200; 17]) None None ++ l /\
    payload_member base62 (hook_packet [0; 200; 17]) l /\
    webhook_msg_publish (hook_on base62) true 0 5 (hook_packet [0; 200; 17]) None None
      = Some (0, Some (cJSON_Print obj)).
Proof.
  split; [vm_compute; reflexivity|].
  exact (webhook_msg_publish_correct (hook_on base62) 0 5 (hook_packet [0; 200; 17]) None None
    (lit "hook/a") hook_packet_ok eq_refl).
Defined.

Lemma base62_event_faithful_witness :
  exists text, webhook_msg_publish (hook_on base62) true 0 5 (hook_packet [0; 200; 17]) None None
    = Some (0, Some text) /\ payload_of (hook_packet [0; 200; 17]) = [0; 200; 17].
Proof.
  eexists. split; [reflexivity|].
  refine (proj2 (proj2 (proj2 (base62_event_faithful (hook_on base62) (hook_on base62) 0 0 5 5
    (hook_packet [0; 200; 17]) (hook_packet [0; 200; 17]) None None None None (lit "hook/a") (lit "hook/a")
    _ eq_refl eq_refl hook_packet_ok hook_packet_ok eq_refl eq_refl eq_refl eq_refl)))).
Defined.

Definition connack_input : ServerCb.input :=
  ServerCb.Input 0 (Some (ServerCb.InMsg CMD_CONNACK CMD_CONNACK 7 4)) false None None 0 None 0 0 None
    false false false false None None false true false false.

Lemma connect_event_posted_witness :
  let w1 := fst (ServerCb.server_cb ServerCb.worker_recv connack_input) in
  let w2 := fst (ServerCb.server_cb w1 connack_input) in
  ServerCb.wk_flag w2 = CMD_PUBLISH.
Proof.
  exact (proj1 (proj2 (connect_event_posted ServerCb.worker_recv connack_input connack_input
    (ServerCb.InMsg CMD_CONNACK CMD_CONNACK 7 4) (hook_on plain) true 0 5 (hook_packet [1]) (Cparam None None None None : conn_param)
    eq_refl eq_refl eq_refl eq_refl eq_refl eq_refl eq_refl eq_refl))).
Defined.

(** The plain encoding ends at the first NUL byte: payloads that differ after
    it give the same text. *)
Theorem plain_payload_truncated :
  webhook_msg_publish (hook_on plain) true 0 5 (hook_packet [1; 0; 2]) None None =
  (webhook_msg_publish (hook_on plain) true 0 5 (hook_packet [1; 0; 3]) None None) /\
  is_Some (webhook_msg_publish (hook_on plain) true 0 5 (hook_packet [1; 0; 2]) None None).
Proof. split; [reflexivity|by eexists]. Qed.

End Witness.

End WebhookEvents.
