(* ===== verification/WebhookAgent.v ===== *)
(** * The web hook agent (nanomq/webhook_inproc.c)

    A worker receives the JSON texts of events from the broker and posts each
    with an HTTP client.  One request is in flight at a time; events that arrive
    meanwhile wait in a queue.  [hook_work_cb] and [send_msg] run in one thread,
    the completion callback [http_aio_cb] in another; the callback holds the
    mutex in two sections, and the definitions are those sections, so that a
    step relation can interleave them.  Constants of the library are parameters. *)

From S2P Require Import Prelude NngQueue.

Module WebhookAgent.

Definition NANO_LMQ_INIT_CAP : Z := 16.

Inductive hook_state := HOOK_INIT | HOOK_RECV | HOOK_WAIT | HOOK_SEND | HOOK_READ_RESPONSE.

(** A message: the JSON text and the command type that marks its progress. *)
Record hook_msg := HookMsg { km_body : bytes; km_cmd : Z }.

(** Where [http_aio] is: without operation, with an operation pending, or in
    the callback, before its second section or about to return. *)
Inductive http_op := OpConnect | OpWrite.
Inductive aio_phase := Idle | Pending (op : http_op) | Draining | Returning.

(** The objects of the HTTP library, by a number per worker: a client and a
    request are allocated, a connection is the output of an operation. *)
Inductive obj_kind := Client | Conn | Req.

#[export] Instance obj_kind_eq_dec : EqDecision obj_kind.
Proof. solve_decision. Defined.

(** What the worker does to the outside; [Done] and [Drop] release a message,
    after its request was written or without.  [New] and [Free] are the
    allocation and the release of an object, [FreeNull] a release of NULL. *)
Inductive hook_out :=
  | RecvAio | Connect (m : hook_msg) | Write (m : hook_msg) | Done (m : hook_msg)
  | Drop (m : hook_msg) | New (k : obj_kind) (n : nat) | Free (k : obj_kind) (n : nat)
  | FreeNull (k : obj_kind) | Fatal.

Section Agent.

Context (CMD_HTTPREQ CMD_HTTPRES : Z) `{Q : NngLmq hook_msg}.

(** [struct hook_work]; [hk_client], [hk_conn] and [hk_req] are the objects the
    pointers point to, [hk_aio_msg] is the message set on http_aio, [hk_next] is
    the number of the next object. *)
Record hook_work := HookWork {
  hk_state : hook_state;
  hk_phase : aio_phase;
  hk_aio_msg : option hook_msg;
  hk_lmq : nng_lmq;
  hk_client : option nat;
  hk_conn : option nat;
  hk_req : option nat;
  hk_next : nat
}.

Definition with_lmq (w : hook_work) (q : nng_lmq) : hook_work :=
  HookWork (hk_state w) (hk_phase w) (hk_aio_msg w) q (hk_client w) (hk_conn w) (hk_req w) (hk_next w).

(** Start to connect for [m]: client allocated, message set on the aio. *)
Definition connect (w : hook_work) (q : nng_lmq) (m : hook_msg) : hook_work :=
  HookWork (hk_state w) (Pending OpConnect) (Some m) q (Some (hk_next w)) (hk_conn w) (hk_req w)
    (S (hk_next w)).

(** nng_aio_busy: an operation is pending or the callback runs. *)
Definition nng_aio_busy (w : hook_work) : bool :=
  match hk_phase w with Idle => false | _ => true end.

(** send_msg; [alloc] is whether nng_http_client_alloc succeeds. *)
Definition send_msg (alloc : bool) (w : hook_work) (msg : option hook_msg)
  : hook_work * list hook_out :=
  match (match msg with Some m => Some (m, hk_lmq w) | None => nng_lmq_get (hk_lmq w) end) with
  | None => (w, [])
  | Some (m, q) =>
      if nng_aio_busy w then
        match (if nng_lmq_full q then nng_lmq_resize q (nng_lmq_cap q + nng_lmq_cap q / 2)
               else Some q) with
        | None => (with_lmq w q, [Fatal])
        | Some q =>
            match nng_lmq_put q m with
            | Some q => (with_lmq w q, [])
            | None => (with_lmq w q, [Drop m])
            end
        end
      else if alloc then (connect w q m, [New Client (hk_next w); Connect m])
      else (with_lmq w q, [])
  end.

(** All three pointers set to NULL, the message taken off the aio. *)
Definition released (w : hook_work) (p : aio_phase) : hook_work :=
  HookWork (hk_state w) p None (hk_lmq w) None None None (hk_next w).

(** The release of an object, with a test for NULL and without. *)
Definition free_if (k : obj_kind) (p : option nat) : list hook_out :=
  match p with Some n => [Free k n] | None => [] end.
Definition free_ptr (k : obj_kind) (p : option nat) : list hook_out :=
  match p with Some n => [Free k n] | None => [FreeNull k] end.
Definition free_all (w : hook_work) : list hook_out :=
  free_ptr Conn (hk_conn w) ++ free_ptr Req (hk_req w) ++ free_ptr Client (hk_client w).

(** http_aio_cb up to the label [drain]; [rv] is nng_aio_result, [conn]
    whether the aio has a connection as output, [req] whether
    nng_http_req_alloc succeeds. *)
Definition http_aio_first (rv : Z) (conn req : bool) (w : hook_work) : hook_work * list hook_out :=
  if negb (rv =? 0) then
    (released w Draining,
     match hk_aio_msg w with Some m => [Drop m] | None => [] end
     ++ free_if Conn (hk_conn w) ++ free_if Req (hk_req w) ++ free_if Client (hk_client w))
  else
    match hk_aio_msg w with
    | Some m =>
        if km_cmd m =? CMD_HTTPREQ then (released w Draining, Done m :: free_all w)
        else if km_cmd m =? CMD_HTTPRES then (released w Draining, Drop m :: free_all w)
        else if negb conn then
          (HookWork (hk_state w) Draining None (hk_lmq w) None None (hk_req w) (hk_next w),
           Drop m :: free_ptr Client (hk_client w))
        else if negb req then
          (HookWork (hk_state w) Draining None (hk_lmq w) None None (hk_req w) (S (hk_next w)),
           [New Conn (hk_next w); Drop m; Free Conn (hk_next w)] ++ free_ptr Client (hk_client w))
        else
          (HookWork (hk_state w) (Pending OpWrite) (Some (HookMsg (km_body m) CMD_HTTPREQ)) (hk_lmq w)
             (hk_client w) (Some (hk_next w)) (Some (S (hk_next w))) (S (S (hk_next w))),
           [New Conn (hk_next w); New Req (S (hk_next w)); Write m])
    | None =>
        (HookWork (hk_state w) Draining None (hk_lmq w) (hk_client w) (hk_conn w) (hk_req w) (hk_next w), [])
    end.

Definition with_phase (w : hook_work) (p : aio_phase) : hook_work :=
  HookWork (hk_state w) p (hk_aio_msg w) (hk_lmq w) (hk_client w) (hk_conn w) (hk_req w) (hk_next w).

(** From the label [drain] on: the next event, or an attempt to shrink the
    queue. *)
Definition http_aio_drain (alloc : bool) (w : hook_work) : hook_work * list hook_out :=
  if negb (nng_lmq_empty (hk_lmq w)) then
    match nng_lmq_get (hk_lmq w) with
    | None => (with_phase w Returning, [])
    | Some (m, q) =>
        if alloc then (connect w q m, [New Client (hk_next w); Connect m])
        else (with_phase (with_lmq w q) Returning, [Drop m])
    end
  else
    let lmq_len := nng_lmq_len (hk_lmq w) in
    let q :=
      if NANO_LMQ_INIT_CAP * 2 <? lmq_len then
        let lmq_cap := nng_lmq_cap (hk_lmq w) in
        if lmq_len * 2 <? lmq_cap then default (hk_lmq w) (nng_lmq_resize (hk_lmq w) (lmq_cap / 2))
        else hk_lmq w
      else hk_lmq w in
    (with_phase (with_lmq w q) Returning, []).

(** hook_work_cb; [rv] and [msg] are the result and the message of [aio]. *)
Definition hook_work_cb (rv : Z) (msg : option hook_msg) (alloc : bool) (w : hook_work)
  : hook_work * list hook_out :=
  let receiving w :=
    HookWork HOOK_RECV (hk_phase w) (hk_aio_msg w) (hk_lmq w) (hk_client w) (hk_conn w) (hk_req w) (hk_next w) in
  match hk_state w with
  | HOOK_INIT => (receiving w, [RecvAio])
  | HOOK_RECV =>
      if negb (rv =? 0) then (w, [Fatal])
      else
        let '(w, outs) := send_msg alloc w msg in
        (receiving w, outs ++ [RecvAio])
  | _ => (w, [Fatal])
  end.

(** alloc_work, with the queue that nng_lmq_alloc returns *)
Definition alloc_work (q : nng_lmq) : hook_work := HookWork HOOK_INIT Idle None q None None None 0.

(** ** Steps *)

(** The steps of the callback; [alloc] is whether drain finds memory. *)
Inductive cb_step (alloc : bool) : hook_work -> hook_work * list hook_out -> Prop :=
  | cb_first w op rv conn req :
      hk_phase w = Pending op -> cb_step alloc w (http_aio_first rv conn req w)
  | cb_drain w : hk_phase w = Draining -> cb_step alloc w (http_aio_drain alloc w)
  | cb_return w : hk_phase w = Returning -> cb_step alloc w (with_phase w Idle, []).

(** An event that finds no client when the aio is idle is neither sent nor
    released. *)
Definition lost (alloc : bool) (w : hook_work) (m : hook_msg) : list hook_msg :=
  if negb (nng_aio_busy w) && negb alloc then [m] else [].

(** A run from the start: the worker, the events received, the outputs and the
    lost events. *)
Inductive agent_run (q0 : nng_lmq) : hook_work -> list hook_msg -> list hook_out -> list hook_msg -> Prop :=
  | run_start : agent_run q0 (fst (hook_work_cb 0 None true (alloc_work q0))) [] [RecvAio] []
  | run_recv w rs os ls m alloc :
      agent_run q0 w rs os ls -> km_cmd m <> CMD_HTTPREQ -> km_cmd m <> CMD_HTTPRES ->
      agent_run q0 (fst (hook_work_cb 0 (Some m) alloc w)) (rs ++ [m])
        (os ++ snd (hook_work_cb 0 (Some m) alloc w)) (ls ++ lost alloc w m)
  | run_cb w rs os ls alloc r :
      agent_run q0 w rs os ls -> cb_step alloc w r -> agent_run q0 (fst r) rs (os ++ snd r) ls.

(** The objects the pointers of the worker point to, by where the aio is. *)
Definition objects_ok (w : hook_work) : Prop :=
  match hk_phase w with
  | Pending OpConnect =>
      (exists m, hk_aio_msg w = Some m /\ km_cmd m <> CMD_HTTPREQ /\ km_cmd m <> CMD_HTTPRES) /\
      (exists c, hk_client w = Some c) /\ hk_conn w = None /\ hk_req w = None
  | Pending OpWrite =>
      (exists m, hk_aio_msg w = Some m /\ km_cmd m = CMD_HTTPREQ) /\
      (exists c, hk_client w = Some c) /\ (exists c, hk_conn w = Some c) /\ (exists c, hk_req w = Some c)
  | _ => hk_aio_msg w = None /\ hk_client w = None /\ hk_conn w = None /\ hk_req w = None
  end.

(** The objects that were made and released, and those that are held. *)
Definition made (os : list hook_out) : list (obj_kind * nat) :=
  flat_map (fun o => match o with New k n => [(k, n)] | _ => [] end) os.
Definition freed (os : list hook_out) : list (obj_kind * nat) :=
  flat_map (fun o => match o with Free k n => [(k, n)] | _ => [] end) os.
Definition held_objects (w : hook_work) : list (obj_kind * nat) :=
  map (pair Client) (option_list (hk_client w)) ++ map (pair Conn) (option_list (hk_conn w))
  ++ map (pair Req) (option_list (hk_req w)).

(** The messages that were released, and the texts that the worker holds. *)
Definition settled (os : list hook_out) : list hook_msg :=
  flat_map (fun o => match o with Done m | Drop m => [m] | _ => [] end) os.

Section Laws.

Context `{L : !NngLmqLaws hook_msg}.

Definition fresh (m : hook_msg) : Prop := km_cmd m <> CMD_HTTPREQ /\ km_cmd m <> CMD_HTTPRES.

Definition queue_ok (q : nng_lmq) : Prop :=
  2 <= nng_lmq_cap q /\ blen (lmq_items q) <= nng_lmq_cap q /\ Forall fresh (lmq_items q).

Definition agent_ok (w : hook_work) : Prop :=
  hk_state w = HOOK_RECV /\ objects_ok w /\ queue_ok (hk_lmq w).

Definition held (w : hook_work) : list bytes :=
  map km_body (option_list (hk_aio_msg w) ++ lmq_items (hk_lmq w)).

(** Every event received was released, lost, or is still held, exactly once. *)
Definition accounted (w : hook_work) (rs : list hook_msg) (os : list hook_out) (ls : list hook_msg)
  : Prop :=
  map km_body rs ≡ₚ map km_body (settled os) ++ map km_body ls ++ held w.

Lemma settled_app os os' : settled (os ++ os') = settled os ++ settled os'.
Proof. apply flat_map_app. Qed.

(** Growing a full queue leaves room for one more. *)
Lemma queue_grow q q' : queue_ok q ->
  (if nng_lmq_full q then nng_lmq_resize q (nng_lmq_cap q + nng_lmq_cap q / 2) else Some q) = Some q' ->
  queue_ok q' /\ lmq_items q' = lmq_items q /\ nng_lmq_full q' = false.
Proof.
  intros (Hc & Hl & Hf) E. pose proof (Z.div_le_lower_bound (nng_lmq_cap q) 2 1 ltac:(lia) ltac:(lia)).
  destruct (nng_lmq_full q) eqn:Hfull.
  - destruct (lmq_resize _ _ _ E) as [Hi Hc']; [rewrite lmq_len; lia|]. unfold queue_ok.
    rewrite lmq_full, lmq_len, Hi, Hc'. repeat split; try lia; done.
  - by injection E as <-.
Qed.

Lemma queue_put q m : queue_ok q -> fresh m -> nng_lmq_full q = false ->
  exists q', nng_lmq_put q m = Some q' /\ lmq_items q' = lmq_items q ++ [m] /\ queue_ok q'.
Proof.
  intros (Hc & Hl & Hf) Hm Hfull. destruct (lmq_put_room q m Hfull) as (q' & E & Hi & Hc').
  exists q'. split; [done|]. split; [done|]. unfold queue_ok.
  rewrite lmq_full, lmq_len in Hfull. rewrite Hi, Hc', blen_app. unfold blen in *. cbn [length].
  repeat split; [lia|lia|]. apply Forall_app. split; [done|]. by apply Forall_singleton.
Qed.

(** An event is queued behind the others, started, lost, or ends the process. *)
Lemma send_msg_ok alloc w m : agent_ok w -> fresh m ->
  let r := send_msg alloc w (Some m) in
  agent_ok (fst r) /\
  (Fatal ∉ snd r ->
   km_body m :: held w ≡ₚ map km_body (settled (snd r)) ++ map km_body (lost alloc w m) ++ held (fst r)).
Proof.
  intros (Hs & Ho & Hq) Hm. unfold send_msg, lost. destruct (nng_aio_busy w) eqn:Hb.
  - destruct (if nng_lmq_full (hk_lmq w) then _ else _) as [q1|] eqn:E1.
    + destruct (queue_grow _ _ Hq E1) as (Hq1 & Hi1 & Hf1).
      destruct (queue_put q1 m Hq1 Hm Hf1) as (q2 & -> & Hi2 & Hq2). cbn.
      split; [by repeat split; try apply Hq2|]. intros _. unfold held. cbn. rewrite Hi2, Hi1, !map_app. cbn.
      rewrite app_assoc. apply Permutation_cons_append.
    + cbn. split; [by repeat split; try apply Hq|]. intros []. by left.
  - destruct (hk_phase w) eqn:Hp; unfold nng_aio_busy in Hb; rewrite Hp in Hb; try done.
    unfold objects_ok in Ho. rewrite Hp in Ho. destruct Ho as (Ha & Hcl & Hco & Hr).
    destruct alloc; cbn.
    + split; [split; [done|]; split; [|done]; cbn; repeat split; try done; [by exists m|by eexists]|].
      intros _. unfold held. by rewrite Ha.
    + split; [|intros _; by rewrite Permutation_cons_append, <- Permutation_cons_append].
      split; [done|]. split; [|done]. unfold objects_ok. cbn. by rewrite Hp.
Qed.

Lemma http_aio_first_ok rv conn req w op : agent_ok w -> hk_phase w = Pending op ->
  let r := http_aio_first rv conn req w in
  agent_ok (fst r) /\ held w ≡ₚ map km_body (settled (snd r)) ++ held (fst r).
Proof.
  intros (Hs & Ho & Hq) Hp. unfold http_aio_first, objects_ok in *. rewrite Hp in Ho. unfold held.
  destruct op; destruct Ho as ((m & Hm & Hf) & [c Hcl] & Hco & Hr); rewrite Hm, Hcl.
  - rewrite Hco, Hr. destruct (rv =? 0); cbn; [|by repeat split; try apply Hq].
    destruct Hf as [Hf1 Hf2]. apply Z.eqb_neq in Hf1, Hf2. rewrite Hf1, Hf2.
    destruct conn; cbn; [|by repeat split; try apply Hq].
    destruct req; cbn; [|by repeat split; try apply Hq].
    split; [|done]. split; [done|]. split; [|done]. cbn. repeat split; try done; by eexists.
  - destruct Hco as [d Hd], Hr as [e He]. unfold free_all. rewrite Hd, He, Hcl.
    destruct (rv =? 0); cbn; [|by repeat split; try apply Hq].
    apply Z.eqb_eq in Hf. rewrite Hf. cbn. by repeat split; try apply Hq.
Qed.

(** With an empty queue the callback only returns: the attempt to shrink the
    queue is under a condition that an empty queue never meets. *)
Lemma http_aio_drain_empty alloc w : lmq_items (hk_lmq w) = [] ->
  http_aio_drain alloc w = (with_phase w Returning, []).
Proof.
  intros Hnil. unfold http_aio_drain. rewrite (proj2 (lmq_empty_nil _) Hnil), lmq_len, Hnil. by destruct w.
Qed.

Lemma http_aio_drain_ok alloc w : agent_ok w -> hk_phase w = Draining ->
  let r := http_aio_drain alloc w in
  agent_ok (fst r) /\ held w ≡ₚ map km_body (settled (snd r)) ++ held (fst r).
Proof.
  intros (Hs & Ho & Hq) Hp. unfold objects_ok in Ho. rewrite Hp in Ho. destruct Ho as (Ha & Hcl & Hco & Hr).
  destruct (nng_lmq_empty (hk_lmq w)) eqn:He; unfold held.
  - pose proof (proj1 (lmq_empty_nil _) He) as Hnil. rewrite (http_aio_drain_empty alloc w Hnil).
    cbn. rewrite Ha. by repeat split; try apply Hq.
  - unfold http_aio_drain. rewrite He, Ha. cbn [negb].
    destruct (nng_lmq_get (hk_lmq w)) as [[m q]|] eqn:Hg; cbn; [|by rewrite Ha; repeat split; try apply Hq].
    destruct (lmq_get_Some _ _ _ Hg) as [Hi Hc]. destruct Hq as (Hq1 & Hq2 & Hq3).
    rewrite Hi in Hq2, Hq3 |- *. apply Forall_cons in Hq3 as [[Hm1 Hm2] Hq3].
    assert (queue_ok q) by (unfold queue_ok; rewrite Hc; unfold blen in *; cbn [length] in Hq2;
      repeat split; [lia|lia|done]).
    destruct alloc; cbn.
    + split; [|done]. split; [done|]. split; [|done]. cbn. repeat split; try done; [by exists m|by eexists].
    + rewrite Ha. cbn. split; [|done]. by repeat split; try apply H.
Qed.

Lemma cb_step_ok alloc w r : agent_ok w -> cb_step alloc w r ->
  agent_ok (fst r) /\ held w ≡ₚ map km_body (settled (snd r)) ++ held (fst r).
Proof.
  intros Hw Hst. destruct Hst as [w op rv conn req Hp|w Hp|w Hp].
  - by eapply http_aio_first_ok.
  - by apply http_aio_drain_ok.
  - destruct Hw as (Hs & Ho & Hq). unfold objects_ok in Ho. rewrite Hp in Ho.
    split; [|done]. split; [done|]. by split.
Qed.

Lemma hook_work_cb_recv alloc w m : hk_state w = HOOK_RECV ->
  let r := hook_work_cb 0 (Some m) alloc w in let r' := send_msg alloc w (Some m) in
  snd r = snd r' ++ [RecvAio] /\ (agent_ok (fst r') -> agent_ok (fst r)) /\ held (fst r) = held (fst r').
Proof.
  intros Hs. unfold hook_work_cb. rewrite Hs. cbn [negb Z.eqb]. destruct (send_msg alloc w (Some m)) as [w' os].
  cbn. repeat split; try done; apply H.
Qed.

Context (q0 : nng_lmq) (Hq0 : lmq_items q0 = []) (Hcap : nng_lmq_cap q0 = NANO_LMQ_INIT_CAP).

Lemma agent_ok_reach w rs os ls : agent_run q0 w rs os ls -> agent_ok w.
Proof.
  induction 1 as [|w rs os ls m alloc _ IH H1 H2|w rs os ls alloc r _ IH Hst].
  - cbn. split; [done|]. split; [done|]. unfold queue_ok. cbn. rewrite Hq0, Hcap. split; [done|]. by split; [|constructor].
  - destruct (hook_work_cb_recv alloc w m) as (_ & Hok & _); [apply IH|].
    apply Hok. by apply send_msg_ok.
  - by eapply cb_step_ok.
Qed.

(** One step: the new objects have new numbers, and what was held or made is
    released or held afterwards. *)
Record step_objects (w w' : hook_work) (o : list hook_out) : Prop := StepObjects {
  so_next : (hk_next w <= hk_next w')%nat;
  so_made : Forall (fun x => hk_next w <= snd x < hk_next w')%nat (made o);
  so_nodup : NoDup (made o);
  so_balance : held_objects w ++ made o ≡ₚ freed o ++ held_objects w';
  so_null k : FreeNull k ∉ o
}.

Lemma step_objects_refl w w' o :
  hk_next w' = hk_next w -> held_objects w' = held_objects w -> made o = [] -> freed o = [] ->
  (forall k, FreeNull k ∉ o) -> step_objects w w' o.
Proof.
  intros Hn Hh Hm Hf Hk. constructor; rewrite ?Hn, ?Hm, ?Hf, ?Hh; try done;
    first [apply Forall_nil_2 | apply NoDup_nil_2 | by rewrite app_nil_r].
Qed.

Lemma send_msg_objects alloc w m :
  agent_ok w -> step_objects w (fst (send_msg alloc w (Some m))) (snd (send_msg alloc w (Some m))).
Proof.
  intros (_ & Ho & _). unfold send_msg. destruct (nng_aio_busy w) eqn:Hb.
  - destruct (if nng_lmq_full (hk_lmq w) then _ else _) as [q1|];
      [destruct (nng_lmq_put q1 m)|]; apply step_objects_refl; try done; intros k; cbn; set_solver.
  - destruct (hk_phase w) eqn:Hp; unfold nng_aio_busy in Hb; rewrite Hp in Hb; try done.
    unfold objects_ok in Ho. rewrite Hp in Ho. destruct Ho as (_ & Hcl & Hco & Hr).
    destruct alloc; [|apply step_objects_refl; try done; intros k; cbn; set_solver].
    constructor; unfold held_objects; cbn; rewrite ?Hcl, ?Hco, ?Hr; cbn; [lia|repeat constructor; cbn; lia| | |].
    + apply NoDup_singleton.
    + done.
    + intros k. set_solver.
Qed.

Lemma http_aio_first_objects rv conn req w op : agent_ok w -> hk_phase w = Pending op ->
  step_objects w (fst (http_aio_first rv conn req w)) (snd (http_aio_first rv conn req w)).
Proof.
  intros (_ & Ho & _) Hp. unfold http_aio_first, objects_ok in *. rewrite Hp in Ho.
  destruct op; destruct Ho as ((m & -> & Hf) & [c Hcl] & Hco & Hr).
  - rewrite Hcl, Hco, Hr. destruct Hf as [Hf1 Hf2]. apply Z.eqb_neq in Hf1, Hf2. rewrite Hf1, Hf2.
    destruct (rv =? 0), conn, req; cbn; (constructor; unfold held_objects; cbn; rewrite ?Hcl, ?Hco, ?Hr; cbn;
      [lia | repeat constructor; cbn; lia | | | intros k; set_solver]); try apply NoDup_nil_2; try done;
      try apply NoDup_singleton; try apply perm_swap.
    apply NoDup_cons. split; [set_solver|apply NoDup_singleton].
  - destruct Hco as [d Hd], Hr as [e He]. apply Z.eqb_eq in Hf. unfold free_all. rewrite Hf, Hcl, Hd, He.
    destruct (rv =? 0); cbn; (constructor; unfold held_objects; cbn; rewrite ?Hcl, ?Hd, ?He; cbn;
      [lia | apply Forall_nil_2 | apply NoDup_nil_2 | | intros k; set_solver]);
      apply (Permutation_cons_append [_; _]).
Qed.

Lemma http_aio_drain_objects alloc w : agent_ok w -> hk_phase w = Draining ->
  step_objects w (fst (http_aio_drain alloc w)) (snd (http_aio_drain alloc w)).
Proof.
  intros (_ & Ho & _) Hp. unfold objects_ok in Ho. rewrite Hp in Ho. destruct Ho as (_ & Hcl & Hco & Hr).
  unfold http_aio_drain. destruct (negb _).
  - destruct (nng_lmq_get (hk_lmq w)) as [[m q]|]; [|apply step_objects_refl; try done; intros k; cbn; set_solver].
    destruct alloc; [|apply step_objects_refl; try done; intros k; cbn; set_solver].
    constructor; unfold held_objects; cbn; rewrite ?Hcl, ?Hco, ?Hr; cbn; [lia|repeat constructor; cbn; lia| | |].
    + apply NoDup_singleton.
    + done.
    + intros k. set_solver.
  - apply step_objects_refl; try done. intros k; cbn; set_solver.
Qed.

(** The account of the objects of a run. *)
Record objects_accounted (w : hook_work) (os : list hook_out) : Prop := ObjectsAccounted {
  oa_fresh : Forall (fun x => snd x < hk_next w)%nat (made os);
  oa_nodup : NoDup (made os);
  oa_balance : made os ≡ₚ freed os ++ held_objects w;
  oa_null k : FreeNull k ∉ os
}.

Lemma made_app os os' : made (os ++ os') = made os ++ made os'.
Proof. apply flat_map_app. Qed.
Lemma freed_app os os' : freed (os ++ os') = freed os ++ freed os'.
Proof. apply flat_map_app. Qed.

Lemma accounted_step w os w' o :
  objects_accounted w os -> step_objects w w' o -> objects_accounted w' (os ++ o).
Proof.
  intros [Hf Hn Hb Hk] [Hx Hm Hd Hbal Hk']. constructor.
  - rewrite made_app. apply Forall_app. split; eapply Forall_impl; [exact Hf| |exact Hm|]; cbn; lia.
  - rewrite made_app. apply NoDup_app. split; [done|]. split; [|done]. intros x H1 H2.
    rewrite Forall_forall in Hf, Hm. specialize (Hf x H1). specialize (Hm x H2). lia.
  - rewrite made_app, freed_app, Hb, <- !app_assoc. f_equiv. exact Hbal.
  - intros k. rewrite not_elem_of_app. by split.
Qed.

Lemma run_objects w rs os ls : agent_run q0 w rs os ls -> objects_accounted w os.
Proof.
  induction 1 as [|w rs os ls m alloc Hr IH H1 H2|w rs os ls alloc r Hr IH Hst].
  - constructor; cbn; try done; [constructor..|]. intros k. set_solver.
  - pose proof (agent_ok_reach _ _ _ _ Hr) as Hok. eapply accounted_step; [done|].
    destruct (send_msg_objects alloc w m Hok) as [A B C D E]. unfold hook_work_cb. rewrite (proj1 Hok). cbn [negb Z.eqb].
    destruct (send_msg alloc w (Some m)) as [w' o]. cbn [fst snd] in *.
    constructor; rewrite ?made_app, ?freed_app; cbn [made freed flat_map]; rewrite ?app_nil_r; try done.
    intros k. specialize (E k). set_solver.
  - pose proof (agent_ok_reach _ _ _ _ Hr) as Hok. eapply accounted_step; [done|].
    destruct Hst as [w op rv conn req Hp|w Hp|w Hp].
    + by eapply http_aio_first_objects.
    + by apply http_aio_drain_objects.
    + apply step_objects_refl; try done. intros k. cbn. set_solver.
Qed.

(** C25. The objects of the HTTP library: whatever the completions, the
    allocations and the order in which events and callbacks interleave, every
    client, connection and request that was made has been released or is held
    by the worker, none was released twice or is held after its release, NULL
    is never released, and what the worker holds belongs to the operation that
    is pending: a client while it connects, all three while it writes, nothing
    otherwise.  The queue stays within its capacity and holds only messages that
    were not sent. *)
Theorem agent_objects w rs os ls : agent_run q0 w rs os ls ->
  made os ≡ₚ freed os ++ held_objects w /\ NoDup (freed os ++ held_objects w) /\
  (forall k, FreeNull k ∉ os) /\ objects_ok w /\
  blen (lmq_items (hk_lmq w)) <= nng_lmq_cap (hk_lmq w) /\ Forall fresh (lmq_items (hk_lmq w)).
Proof.
  intros Hr. destruct (agent_ok_reach _ _ _ _ Hr) as (_ & Ho & _ & Hl & Hf).
  destruct (run_objects w rs os ls Hr) as [_ Hn Hb Hk]. split_and!; try done. by rewrite <- Hb.
Qed.

(** C23. Exactly-once accounting: as long as the process has not ended, the texts
    received are, up to order, those released, those lost for want of a client,
    the one in flight and those queued. *)
Theorem run_accounted w rs os ls : agent_run q0 w rs os ls -> Fatal ∉ os -> accounted w rs os ls.
Proof.
  unfold accounted. intros Hr HF. induction Hr as [|w rs os ls m alloc Hr IH H1 H2|w rs os ls alloc r Hr IH Hst].
  - cbn. unfold held. cbn. by rewrite Hq0.
  - pose proof (agent_ok_reach _ _ _ _ Hr) as Hok.
    destruct (hook_work_cb_recv alloc w m) as (Ho & _ & Hh); [apply Hok|].
    destruct (send_msg_ok alloc w m Hok) as [_ Hb]; [done|].
    rewrite Ho in HF |- *. rewrite !not_elem_of_app in HF. destruct HF as (HF1 & HF2 & _).
    specialize (IH HF1). specialize (Hb HF2). rewrite Hh, !settled_app, !map_app, IH. cbn.
    rewrite app_nil_r. rewrite <- !app_assoc. f_equiv.
    rewrite (app_assoc (map km_body (settled _))), (Permutation_app_comm (map km_body (settled _))).
    rewrite <- !app_assoc. f_equiv. rewrite (app_assoc _ _ (held _)).
    rewrite <- Permutation_cons_append. by rewrite Hb, <- app_assoc.
  - rewrite not_elem_of_app in HF. destruct HF as [HF1 HF2]. rewrite (IH HF1), settled_app, map_app.
    destruct (cb_step_ok alloc w r) as [_ Hb]; [by eapply agent_ok_reach|done|].
    rewrite Hb, <- !app_assoc. f_equiv. by rewrite !app_assoc, (Permutation_app_comm (map km_body ls)).
Qed.

(** ** Progress *)

Definition cb_steps (w w' : hook_work) : Prop := exists os, cb_step true w (w', os).

(** Between its second section and its return the callback no longer looks at
    the queue. *)
Definition watched (w : hook_work) : Prop :=
  agent_ok w /\ match hk_phase w with Idle | Returning => lmq_items (hk_lmq w) = [] | _ => True end.

Definition at_rest (w : hook_work) : Prop :=
  hk_phase w = Idle /\ lmq_items (hk_lmq w) = [] /\ hk_aio_msg w = None /\ hk_client w = None.

Definition work_left (w : hook_work) : nat :=
  4 * length (lmq_items (hk_lmq w)) +
  match hk_phase w with
  | Pending OpConnect => 4 | Pending OpWrite => 3 | Draining => 2 | Returning => 1 | Idle => 0
  end.

Lemma http_aio_first_left rv conn req w op : agent_ok w -> hk_phase w = Pending op ->
  let w' := fst (http_aio_first rv conn req w) in
  (work_left w' < work_left w)%nat /\ (hk_phase w' = Draining \/ hk_phase w' = Pending OpWrite).
Proof.
  intros (Hs & Ho & Hq) Hp. unfold http_aio_first, objects_ok, work_left in *. rewrite Hp in Ho |- *.
  destruct op; destruct Ho as ((m & Hm & Hf) & Hcl & Hco & Hr); rewrite Hm;
    (destruct (rv =? 0); cbn; [|by split; [lia|left]]).
  - destruct Hf as [Hf1 Hf2]. apply Z.eqb_neq in Hf1, Hf2. rewrite Hf1, Hf2.
    destruct conn, req; cbn; split; try lia; tauto.
  - apply Z.eqb_eq in Hf. rewrite Hf. cbn. split; [lia|by left].
Qed.

Lemma http_aio_drain_left w : agent_ok w -> hk_phase w = Draining ->
  let w' := fst (http_aio_drain true w) in
  (work_left w' < work_left w)%nat /\
  (hk_phase w' = Pending OpConnect \/ hk_phase w' = Returning /\ lmq_items (hk_lmq w') = []).
Proof.
  intros Hw Hp. unfold work_left. rewrite Hp. destruct (lmq_items (hk_lmq w)) as [|m l] eqn:Hi.
  - rewrite (http_aio_drain_empty true w Hi). cbn. rewrite Hi. cbn. split; [lia|by right].
  - unfold http_aio_drain. destruct (nng_lmq_empty (hk_lmq w)) eqn:He.
    { apply lmq_empty_nil in He. by rewrite He in Hi. }
    cbn. destruct (lmq_get_head _ _ _ Hi) as (q & -> & <- & _). cbn. split; [lia|by left].
Qed.

Lemma watched_progress w : watched w ->
  at_rest w \/ (exists w', cb_steps w w') /\ forall w', cb_steps w w' -> watched w' /\ (work_left w' < work_left w)%nat.
Proof.
  intros [Hw Hi]. pose proof Hw as (_ & Ho & _). unfold objects_ok in Ho.
  destruct (hk_phase w) eqn:Hp.
  - left. unfold at_rest. tauto.
  - right. split.
    { destruct (http_aio_first 0 true true w) as [w' os] eqn:E. exists w', os. rewrite <- E.
      by eapply cb_first. }
    intros w' [os Hst]. pose proof (cb_step_ok _ _ _ Hw Hst) as [Hw' _].
    inversion Hst as [? op' rv conn req ? E0 E|? Hp' E0 E|? Hp' E0 E]; [|congruence|congruence].
    destruct (http_aio_first_left rv conn req w op Hw Hp) as [Hl Hph].
    rewrite E in Hl, Hph. split; [|done]. split; [done|]. cbn in Hph. by destruct Hph as [-> | ->].
  - right. split.
    { destruct (http_aio_drain true w) as [w' os] eqn:E. exists w', os. rewrite <- E. by apply cb_drain. }
    intros w' [os Hst]. pose proof (cb_step_ok _ _ _ Hw Hst) as [Hw' _].
    inversion Hst as [? op' rv conn req Hp' E0 E|? Hp' E0 E|? Hp' E0 E]; [congruence| |congruence].
    destruct (http_aio_drain_left w Hw Hp) as [Hl Hph].
    rewrite E in Hl, Hph. split; [|done]. split; [done|]. cbn in Hph. by destruct Hph as [-> | [-> ?]].
  - right. split; [by exists (with_phase w Idle), []; apply cb_return|].
    intros w' [os Hst]. pose proof (cb_step_ok _ _ _ Hw Hst) as [Hw' _].
    inversion Hst as [? op' rv conn req Hp' E0 E|? Hp' E0 E|? Hp' E0 E]; [congruence|congruence|].
    subst. unfold work_left, watched. cbn. rewrite Hp. split; [done|lia].
Qed.

(** C24. A worker with a request in flight and a queue comes to rest with the queue
    empty and nothing held, whatever the results of its requests, if memory for
    the clients is found and no further event arrives. *)
Theorem queue_drained w rs os ls op : agent_run q0 w rs os ls -> hk_phase w = Pending op ->
  eventually cb_steps at_rest w.
Proof.
  intros Hr Hp. apply (eventually_measure cb_steps watched at_rest work_left watched_progress).
  split; [by eapply agent_ok_reach|]. by rewrite Hp.
Qed.

End Laws.

End Agent.

Arguments HookWork {_}.

(** ** Runs *)

Section Runs.

#[local] Abbreviation REQ := 0x21.
#[local] Abbreviation RES := 0x22.

Definition q0 : @nng_lmq hook_msg (list_lmq_ops hook_msg) := ListLmq [] NANO_LMQ_INIT_CAP.

(** Three events; the connection of the first is refused after the others were
    queued, and the second is connected. *)
Definition recv (m : hook_msg) (w : hook_work) : hook_work := fst (hook_work_cb 0 (Some m) true w).

Definition two_queued : hook_work :=
  recv (HookMsg [3] 0) (recv (HookMsg [2] 0) (recv (HookMsg [1] 0)
    (fst (hook_work_cb 0 None true (alloc_work q0))))).

Definition first_refused : hook_work := fst (http_aio_first REQ RES 111 false false two_queued).

Lemma two_queued_run : agent_run REQ RES q0 two_queued
  [HookMsg [1] 0; HookMsg [2] 0; HookMsg [3] 0] [RecvAio; New Client 0; Connect (HookMsg [1] 0); RecvAio; RecvAio; RecvAio] [].
Proof.
  pose proof (run_start REQ RES q0) as H0.
  pose proof (run_recv REQ RES q0 _ _ _ _ (HookMsg [1] 0) true H0 ltac:(done) ltac:(done)) as H1.
  pose proof (run_recv REQ RES q0 _ _ _ _ (HookMsg [2] 0) true H1 ltac:(done) ltac:(done)) as H2.
  exact (run_recv REQ RES q0 _ _ _ _ (HookMsg [3] 0) true H2 ltac:(done) ltac:(done)).
Qed.

Lemma refused_run : agent_run REQ RES q0 first_refused
  [HookMsg [1] 0; HookMsg [2] 0; HookMsg [3] 0]
  [RecvAio; New Client 0; Connect (HookMsg [1] 0); RecvAio; RecvAio; RecvAio; Drop (HookMsg [1] 0); Free Client 0] [].
Proof.
  refine (run_cb REQ RES q0 two_queued _ _ _ true (http_aio_first REQ RES 111 false false two_queued)
    two_queued_run _). by eapply cb_first.
Qed.

Lemma agent_objects_witness :
  objects_ok REQ RES two_queued /\ held_objects two_queued = [(Client, 0%nat)] /\
  held_objects first_refused = [] /\ NoDup [(Client, 0%nat)].
Proof.
  split; [|split; [reflexivity|split; [reflexivity|]]].
  - refine (proj1 (proj2 (proj2 (proj2 (agent_objects REQ RES q0 (_ : lmq_items q0 = []) eq_refl _ _ _ _ two_queued_run))))).
    reflexivity.
  - refine (proj1 (proj2 (agent_objects REQ RES q0 (_ : lmq_items q0 = []) eq_refl _ _ _ _ refused_run))).
    reflexivity.
Defined.

Lemma run_accounted_witness : accounted first_refused
  [HookMsg [1] 0; HookMsg [2] 0; HookMsg [3] 0]
  [RecvAio; New Client 0; Connect (HookMsg [1] 0); RecvAio; RecvAio; RecvAio; Drop (HookMsg [1] 0); Free Client 0] [] /\
  held first_refused = [[2]; [3]].
Proof.
  split; [|reflexivity].
  refine (run_accounted REQ RES q0 eq_refl eq_refl _ _ _ _ refused_run _). set_solver.
Defined.

Lemma queue_drained_witness : eventually (cb_steps REQ RES) at_rest two_queued.
Proof. refine (queue_drained REQ RES q0 eq_refl eq_refl _ _ _ _ _ two_queued_run eq_refl). Defined.

(** An event that arrives after the callback has found the queue empty and
    before it returns finds the aio busy: it is queued, the callback returns, and
    nothing is left to send it.  The next event starts its connection first and
    overtakes it. *)
Theorem event_stranded :
  let w0 := recv (HookMsg [1] 0) (fst (hook_work_cb 0 None true (alloc_work q0))) in
  let w1 := fst (http_aio_drain true (fst (http_aio_first REQ RES 111 false false w0))) in
  let w2 := with_phase (recv (HookMsg [2] 0) w1) Idle in
  hk_phase w1 = Returning /\ hk_phase w2 = Idle /\ held w2 = [[2]] /\
  (forall r, ~ cb_step REQ RES true w2 r) /\
  snd (hook_work_cb 0 (Some (HookMsg [3] 0)) true w2) = [New Client 1; Connect (HookMsg [3] 0); RecvAio] /\
  held (recv (HookMsg [3] 0) w2) = [[3]; [2]].
Proof. repeat split; try reflexivity. intros r H. by inversion H. Qed.

(** An event that finds the aio idle and no memory for a client is neither
    sent, queued nor released. *)
Theorem event_leaked (w : hook_work (Q := list_lmq_ops hook_msg)) m :
  hk_state w = HOOK_RECV -> hk_phase w = Idle ->
  let r := hook_work_cb 0 (Some m) false w in
  settled (snd r) = [] /\ held (fst r) = held w /\ lost false w m = [m].
Proof. intros Hs Hp. unfold hook_work_cb, send_msg, lost, nng_aio_busy. by rewrite Hs, Hp. Qed.

End Runs.

End WebhookAgent.
