(* ===== verification/RuleEngine.v ===== *)
(** * The rule engine (nanomq/pub_handler.c, SUPP_RULE_ENGINE)

    [rule_engine_filter] decides whether a publish matches a rule; the SQL part
    builds the INSERT statement for a matching one.  JSON values come from the
    cJSON library and are a class of operations here.  [None] is a NULL
    dereference. *)

From stdpp Require Import pretty.
From S2P Require Import Prelude OptsApi NngApi NngModel PubCodec.

(** ** cJSON, as far as it is used *)

Inductive json_kind := cJSON_Number | cJSON_String | cJSON_Object | cJSON_Other.

Class CJson := {
  cJSON : Type;
  cJSON_ParseWithLength : option bytes -> Z -> option cJSON;
  cJSON_Parse : option bytes -> option cJSON;
  cJSON_GetObjectItem : cJSON -> bytes -> option cJSON;
  cJSON_type : cJSON -> json_kind;
  cJSON_GetNumberValue : cJSON -> Z;     (* converted to long *)
  cJSON_GetStringValue : cJSON -> bytes;
  cJSON_Compare : cJSON -> cJSON -> bool;
  cJSON_PrintUnformatted : cJSON -> bytes
}.

Module RuleFilter.

Import PubCodec.

(** ** Data of the configuration *)

Inductive rule_cmp_type :=
  RULE_CMP_NONE | RULE_CMP_EQUAL | RULE_CMP_UNEQUAL | RULE_CMP_GREATER | RULE_CMP_LESS
| RULE_CMP_GREATER_AND_EQUAL | RULE_CMP_LESS_AND_EQUAL.

(** The fields of a message a rule can name, in the order of the indices. *)
Inductive rule_field :=
  RULE_QOS | RULE_ID | RULE_TOPIC | RULE_CLIENTID | RULE_USERNAME | RULE_PASSWORD
| RULE_TIMESTAMP | RULE_PAYLOAD_ALL | RULE_PAYLOAD_FIELD.

#[export] Instance rule_field_eq_dec : EqDecision rule_field.
Proof. solve_decision. Defined.

Definition rule_fields : list rule_field :=
  [RULE_QOS; RULE_ID; RULE_TOPIC; RULE_CLIENTID; RULE_USERNAME; RULE_PASSWORD; RULE_TIMESTAMP;
   RULE_PAYLOAD_ALL; RULE_PAYLOAD_FIELD].

Section Filter.

Context `{M : NngMsg} `{TF : TopicFilter} `{J : CJson}.

(** The value [payload_filter] stores with its type.  [rp_dangling] is whether
    the object it points to has been deleted since. *)
Inductive payload_value := PNull | PNum (n : Z) | PStr (s : bytes) | PObj (j : cJSON).

Record rule_payload := RulePayload {
  rp_psa : list bytes;
  rp_pas : option bytes;
  rp_filter : option bytes;
  rp_cmp_type : rule_cmp_type;
  rp_is_store : bool;
  rp_value : payload_value;
  rp_dangling : bool
}.

(** [rl_repub] is the client id of the republishing client when the rule
    forwards by republishing. *)
Record rule := Rule {
  rl_repub : option (option bytes);
  rl_topic : bytes;
  rl_filter : option (rule_field -> option bytes);
  rl_cmp_type : rule_field -> rule_cmp_type;
  rl_payload : list rule_payload
}.

(** ** Comparisons *)

Definition cmp_int (value_checked value_seted : Z) (type : rule_cmp_type) : bool :=
  match type with
  | RULE_CMP_EQUAL => if negb (value_checked =? value_seted) then false else true
  | RULE_CMP_UNEQUAL => if value_checked =? value_seted then false else true
  | RULE_CMP_GREATER => if value_checked <=? value_seted then false else true
  | RULE_CMP_LESS => if value_seted <=? value_checked then false else true
  | RULE_CMP_GREATER_AND_EQUAL => if value_checked <? value_seted then false else true
  | RULE_CMP_LESS_AND_EQUAL => if value_seted <? value_checked then false else true
  | RULE_CMP_NONE => true
  end.

Definition cmp_str (value_checked : option bytes) (len : Z) (value_seted : bytes)
    (type : rule_cmp_type) : bool :=
  match value_checked with
  | None => false
  | Some v =>
      match type with
      | RULE_CMP_EQUAL => if negb (strncmp0 v value_seted len) then false else true
      | RULE_CMP_UNEQUAL => if strncmp0 v value_seted len then false else true
      | _ => true
      end
  end.

(** ** The payload *)

(** The walk along the path [psa]. *)
Fixpoint walk (jp : option cJSON) (psa : list bytes) : option cJSON :=
  match psa with
  | [] => jp
  | k :: psa' =>
      match jp with
      | None => None
      | Some j => walk (cJSON_GetObjectItem j k) psa'
      end
  end.

(** The switch on the type of the value: does it pass, and what is stored? *)
Definition payload_switch (p : rule_payload) (jp : cJSON) : bool * rule_payload :=
  let store v := RulePayload (rp_psa p) (rp_pas p) (rp_filter p) (rp_cmp_type p) (rp_is_store p) v false in
  match cJSON_type jp with
  | cJSON_Number =>
      let num := cJSON_GetNumberValue jp in
      match rp_filter p with
      | Some f =>
          if negb (cmp_int (i32 num) (atoi f) (rp_cmp_type p)) then (false, p) else (true, store (PNum num))
      | None => (true, store (PNum num))
      end
  | cJSON_String =>
      let str := cJSON_GetStringValue jp in
      match rp_filter p with
      | Some f =>
          if negb (cmp_str (Some str) (blen str) f (rp_cmp_type p)) then (false, p)
          else (true, store (PStr str))
      | None => (true, store (PStr str))
      end
  | cJSON_Object =>
      match cJSON_Parse (rp_filter p) with
      | Some filter_obj =>
          if negb (rp_is_store p) && negb (cJSON_Compare jp filter_obj) then (false, p)
          else (true, store (PObj jp))
      | None => (true, store (PObj jp))
      end
  | cJSON_Other => (true, p)
  end.

(** The loop of payload_filter over the named values. *)
Fixpoint payload_loop (jp_reset : option cJSON) (l : list rule_payload) (filter : bool)
  : bool * list rule_payload :=
  match l with
  | [] => (filter, [])
  | p :: l' =>
      match walk jp_reset (rp_psa p) with
      | None => (false, p :: l')
      | Some jp =>
          if negb filter then (false, p :: l')
          else
            let '(ok, p) := payload_switch p jp in
            let '(filter, l') := payload_loop jp_reset l' (if ok then filter else false) in
            (filter, p :: l')
      end
  end.

Definition payload_filter (pp : pub_packet_struct) (info : rule) : bool * list rule_payload :=
  payload_loop (cJSON_ParseWithLength (pp_payload pp) (pp_payload_len pp)) (rl_payload info) true.

(** ** The rule *)

(** [strlen(s)] of a string that may be NULL *)
Definition strlen (s : option bytes) : option Z := blen <$> s.

(** One case of the switch over the fields; [now] is time(NULL).  The payload
    may contain NUL bytes, where [strncmp] stops. *)
Definition field_check (pp : pub_packet_struct) (cp : conn_param) (info : rule) (now : Z)
    (j : rule_field) (val : bytes) (pl : list rule_payload) : option (bool * list rule_payload) :=
  let ct := rl_cmp_type info j in
  let str s := len ← strlen s; Some (cmp_str s len val ct, pl) in
  let no_payload := match pp_payload pp with None => true | Some _ => pp_payload_len pp <=? 0 end in
  match j with
  | RULE_QOS => Some (cmp_int (fh_qos (pp_fixed pp)) (atoi val) ct, pl)
  | RULE_ID => Some (cmp_int (pp_packet_id pp) (atoi val) ct, pl)
  | RULE_TOPIC => str (pb_topic (pp_publish pp))
  | RULE_CLIENTID => str (conn_param_get_clientid cp)
  | RULE_USERNAME => str (conn_param_get_username cp)
  | RULE_PASSWORD => str (conn_param_get_password cp)
  | RULE_TIMESTAMP => Some (cmp_int (i32 now) (atoi val) ct, pl)
  | RULE_PAYLOAD_ALL =>
      if no_payload then Some (false, pl)
      else Some (cmp_str (c_str <$> pp_payload pp) (pp_payload_len pp) val ct, pl)
  | RULE_PAYLOAD_FIELD => if no_payload then Some (false, pl) else Some (payload_filter pp info)
  end.

(** The value a field is compared with, when it is looked at: a named one, and
    RULE_PAYLOAD_FIELD in any case, whose values are in [info->payload]. *)
Definition field_val (vals : rule_field -> option bytes) (j : rule_field) : option bytes :=
  if decide (j = RULE_PAYLOAD_FIELD) then Some [] else vals j.

Fixpoint field_loop (pp : pub_packet_struct) (cp : conn_param) (info : rule) (now : Z)
    (vals : rule_field -> option bytes) (js : list rule_field) (pl : list rule_payload)
  : option (bool * list rule_payload) :=
  match js with
  | [] => Some (true, pl)
  | j :: js' =>
      match field_val vals j with
      | None => field_loop pp cp info now vals js' pl
      | Some val =>
          '(filter, pl) ← field_check pp cp info now j val pl;
          if negb filter then Some (false, pl) else field_loop pp cp info now vals js' pl
      end
  end.

(** Does the message come from the client the rule republishes with? *)
Definition repub_loop (cp : conn_param) (info : rule) : option bool :=
  match rl_repub info with
  | None => Some false
  | Some clientid =>
      match clientid with
      | None => Some false
      | Some id =>
          len ← strlen (conn_param_get_clientid cp);
          Some (cmp_str (conn_param_get_clientid cp) len id RULE_CMP_EQUAL)
      end
  end.

Definition rule_engine_filter (pp : pub_packet_struct) (cp : conn_param) (info : rule) (now : Z)
  : option (bool * list rule_payload) :=
  loop ← repub_loop cp info;
  if (loop : bool) then Some (false, rl_payload info)
  else
    match pb_topic (pp_publish pp) with
    | None => None
    | Some topic =>
        if topic_filter (rl_topic info) topic then
          match rl_filter info with
          | Some vals => field_loop pp cp info now vals rule_fields (rl_payload info)
          | None => Some (true, snd (payload_filter pp info))
          end
        else Some (false, rl_payload info)
    end.

(** ** What a rule matches *)

(** String comparison with "=" accepts every value that is a prefix of
    the configured one: [strncmp] compares only as many bytes as the value has,
    so an empty value equals everything. *)
Theorem cmp_str_equal_is_prefix v s :
  cmp_str (Some v) (blen v) s RULE_CMP_EQUAL = is_prefix v s.
Proof.
  unfold cmp_str, strncmp0. replace (Z.to_nat (blen v)) with (length v) by (unfold blen; lia).
  rewrite take_ge by lia. apply eq_true_iff_eq. rewrite is_prefix_spec.
  rewrite if_negb. destruct (bool_decide_reflect (v = take (length v) s)) as [E|Hn].
  - split; [|done]. intros _. exists (drop (length v) s). rewrite E at 1. by rewrite take_drop.
  - split; [done|]. intros [t ->]. destruct Hn. by rewrite take_app_length.
Qed.

(** The comparisons a rule can ask for, on numbers and on strings.  An ordering
    of strings holds always. *)
Definition int_rel (type : rule_cmp_type) (checked seted : Z) : Prop :=
  match type with
  | RULE_CMP_NONE => True
  | RULE_CMP_EQUAL => checked = seted
  | RULE_CMP_UNEQUAL => checked <> seted
  | RULE_CMP_GREATER => seted < checked
  | RULE_CMP_LESS => checked < seted
  | RULE_CMP_GREATER_AND_EQUAL => seted <= checked
  | RULE_CMP_LESS_AND_EQUAL => checked <= seted
  end.

Definition str_rel (type : rule_cmp_type) (checked seted : bytes) : Prop :=
  match type with
  | RULE_CMP_EQUAL => checked `prefix_of` seted
  | RULE_CMP_UNEQUAL => ~ (checked `prefix_of` seted)
  | _ => True
  end.

(** The payload as a string against a configured one: the two agree as far as
    the payload's length, where both end with a NUL. *)
Definition text_rel (type : rule_cmp_type) (len : Z) (data seted : bytes) : Prop :=
  let n := Z.to_nat len in
  match type with
  | RULE_CMP_EQUAL => take n (c_str data) = take n seted
  | RULE_CMP_UNEQUAL => take n (c_str data) <> take n seted
  | _ => True
  end.

(** The value at a path of keys in a JSON object. *)
Inductive at_path : cJSON -> list bytes -> cJSON -> Prop :=
  | at_here j : at_path j [] j
  | at_key j k j' psa v : cJSON_GetObjectItem j k = Some j' -> at_path j' psa v -> at_path j (k :: psa) v.

(** A value of the payload satisfies its condition: a number and a string are
    compared with the configured text, if there is one; an object that is not
    only stored has to equal the configured one; other values always do. *)
Definition value_holds (p : rule_payload) (v : cJSON) : Prop :=
  match cJSON_type v with
  | cJSON_Number =>
      forall f, rp_filter p = Some f -> int_rel (rp_cmp_type p) (i32 (cJSON_GetNumberValue v)) (atoi f)
  | cJSON_String => forall f, rp_filter p = Some f -> str_rel (rp_cmp_type p) (cJSON_GetStringValue v) f
  | cJSON_Object =>
      forall obj, cJSON_Parse (rp_filter p) = Some obj -> rp_is_store p = false -> cJSON_Compare v obj = true
  | cJSON_Other => True
  end.

(** Every value a rule names is in the payload and satisfies its condition. *)
Definition payload_holds (pp : pub_packet_struct) (info : rule) : Prop :=
  Forall (fun p => exists root v,
    cJSON_ParseWithLength (pp_payload pp) (pp_payload_len pp) = Some root /\
    at_path root (rp_psa p) v /\ value_holds p v) (rl_payload info).

(** The message has a payload. *)
Definition has_payload (pp : pub_packet_struct) : Prop :=
  pp_payload pp <> None /\ 0 < pp_payload_len pp.

(** A field of the message satisfies the condition a rule has on it. *)
Definition field_holds (pp : pub_packet_struct) (cp : conn_param) (info : rule) (now : Z)
    (j : rule_field) (val : bytes) : Prop :=
  let ct := rl_cmp_type info j in
  let str s := exists v, s = Some v /\ str_rel ct v val in
  match j with
  | RULE_QOS => int_rel ct (fh_qos (pp_fixed pp)) (atoi val)
  | RULE_ID => int_rel ct (pp_packet_id pp) (atoi val)
  | RULE_TOPIC => str (pb_topic (pp_publish pp))
  | RULE_CLIENTID => str (conn_param_get_clientid cp)
  | RULE_USERNAME => str (conn_param_get_username cp)
  | RULE_PASSWORD => str (conn_param_get_password cp)
  | RULE_TIMESTAMP => int_rel ct (i32 now) (atoi val)
  | RULE_PAYLOAD_ALL =>
      has_payload pp /\ text_rel ct (pp_payload_len pp) (default [] (pp_payload pp)) val
  | RULE_PAYLOAD_FIELD => has_payload pp /\ payload_holds pp info
  end.

Lemma cmp_int_spec a b t : cmp_int a b t = true <-> int_rel t a b.
Proof.
  destruct t; cbn; [done|..];
    match goal with
    | |- context [?x =? ?y] => destruct (Z.eqb_spec x y)
    | |- context [?x <=? ?y] => destruct (Z.leb_spec x y)
    | |- context [?x <? ?y] => destruct (Z.ltb_spec x y)
    end; cbn; split; try done; lia.
Qed.

Lemma prefix_is_prefix (v s : bytes) : v `prefix_of` s <-> is_prefix v s = true.
Proof. rewrite is_prefix_spec. done. Qed.

Lemma cmp_str_spec v s t : cmp_str (Some v) (blen v) s t = true <-> str_rel t v s.
Proof.
  pose proof (cmp_str_equal_is_prefix v s) as E. unfold cmp_str in *.
  destruct t; cbn [str_rel]; rewrite ?prefix_is_prefix, <- ?E; try done.
  by destruct (strncmp0 v s (blen v)); cbn [negb].
Qed.

Lemma cmp_text_spec len d s t :
  cmp_str (Some (c_str d)) len s t = true <-> text_rel t len d s.
Proof.
  unfold cmp_str, strncmp0, text_rel. destruct t; try done;
    by destruct (bool_decide_reflect (take (Z.to_nat len) (c_str d) = take (Z.to_nat len) s)).
Qed.

Lemma walk_spec psa j v : walk (Some j) psa = Some v <-> at_path j psa v.
Proof.
  induction psa as [|k psa IH] in j |- *; cbn [walk].
  - split; [intros [= ->]; constructor|]. by inversion 1.
  - split.
    + destruct (cJSON_GetObjectItem j k) as [j'|] eqn:E; [|by destruct psa].
      intros H. econstructor; [done|]. by apply IH.
    + inversion 1; subst. match goal with H : cJSON_GetObjectItem _ _ = _ |- _ => rewrite H end.
      by apply IH.
Qed.

Lemma payload_switch_spec p v : fst (payload_switch p v) = true <-> value_holds p v.
Proof.
  unfold payload_switch, value_holds. destruct (cJSON_type v).
  - destruct (rp_filter p) as [f|]; [|by split; [intros _ f|]].
    pose proof (cmp_int_spec (i32 (cJSON_GetNumberValue v)) (atoi f) (rp_cmp_type p)) as E.
    destruct (cmp_int _ _ _); cbn; split; [intros _ f' [= <-]; by apply E|done|done|].
    intros H. apply E. by apply H.
  - destruct (rp_filter p) as [f|]; [|by split; [intros _ f|]].
    pose proof (cmp_str_spec (cJSON_GetStringValue v) f (rp_cmp_type p)) as E.
    destruct (cmp_str _ _ _ _); cbn; split; [intros _ f' [= <-]; by apply E|done|done|].
    intros H. apply E. by apply H.
  - destruct (cJSON_Parse (rp_filter p)) as [obj|]; [|by split; [intros _ f|]].
    destruct (rp_is_store p), (cJSON_Compare v obj) eqn:E; cbn; split; try done; try (by intros _ o [= <-]).
    intros H. specialize (H obj eq_refl eq_refl). congruence.
  - done.
Qed.

(** A named payload value passes: its path exists and its comparison holds. *)
Definition entry_ok (jp : option cJSON) (p : rule_payload) : bool :=
  match walk jp (rp_psa p) with
  | None => false
  | Some j => fst (payload_switch p j)
  end.

Lemma payload_loop_spec jp l (b : bool) :
  fst (payload_loop jp l b) = b && forallb (entry_ok jp) l.
Proof.
  induction l as [|p l IH] in b |- *; cbn [payload_loop forallb]; [by rewrite andb_true_r|].
  unfold entry_ok at 1. destruct (walk jp (rp_psa p)) as [j|]; [|by rewrite andb_false_r].
  destruct b; [|done]. cbn [negb]. destruct (payload_switch p j) as [ok p']. cbn [fst].
  specialize (IH (if ok then true else false)).
  destruct (payload_loop jp l _) as [r l']. cbn [fst] in *. rewrite IH. by destruct ok.
Qed.

Lemma walk_missing psa : walk None psa = None.
Proof. by destruct psa. Qed.

Lemma payload_filter_spec pp info : fst (payload_filter pp info) = true <-> payload_holds pp info.
Proof.
  unfold payload_filter, payload_holds. rewrite payload_loop_spec. cbn [andb].
  rewrite forallb_forall, Forall_forall. setoid_rewrite <- list_elem_of_In.
  split; intros H p Hp; specialize (H p Hp); unfold entry_ok in *.
  - destruct (cJSON_ParseWithLength _ _) as [root|]; [|by rewrite walk_missing in H].
    destruct (walk (Some root) (rp_psa p)) as [v|] eqn:E; [|done].
    exists root, v. by rewrite <- walk_spec, <- payload_switch_spec.
  - destruct H as (root & v & -> & E & Hv). apply walk_spec in E. rewrite E. by apply payload_switch_spec.
Qed.

Lemma no_payload_spec pp :
  match pp_payload pp with None => true | Some _ => pp_payload_len pp <=? 0 end = false <-> has_payload pp.
Proof.
  unfold has_payload. destruct (pp_payload pp); [|naive_solver].
  destruct (Z.leb_spec (pp_payload_len pp) 0); split; try done; lia.
Qed.

Lemma field_check_spec pp cp info now j v pl :
  fst <$> field_check pp cp info now j v pl = Some true <-> field_holds pp cp info now j v.
Proof.
  unfold field_check, field_holds, strlen. pose proof (no_payload_spec pp) as Hn.
  destruct j; cbn [fmap option_fmap option_map fst]; rewrite ?(inj_iff Some), ?cmp_int_spec; try done.
  1-4: match goal with |- context [blen <$> ?o] => destruct o as [s|] end;
    cbn [fmap option_fmap option_map mbind option_bind fst];
    [rewrite (inj_iff Some), cmp_str_spec; naive_solver|naive_solver].
  - destruct (match pp_payload pp with None => _ | Some _ => _ end) eqn:E; cbn.
    { split; [done|]. intros [H _]. by apply Hn in H. }
    destruct (proj1 Hn eq_refl) as [Hs Hl]. destruct (pp_payload pp) as [d|] eqn:Ed; [|done].
    change (default [] (Some d)) with d.
    cbn [fmap option_fmap option_map fst]. rewrite (inj_iff Some), cmp_text_spec. unfold has_payload. rewrite Ed. naive_solver.
  - destruct (match pp_payload pp with None => _ | Some _ => _ end) eqn:E; cbn.
    { split; [done|]. intros [H _]. by apply Hn in H. }
    rewrite (inj_iff Some), payload_filter_spec. pose proof (proj1 Hn eq_refl). naive_solver.
Qed.

(** A field of the message passes: it is not named, or its condition holds;
    the values of the payload have to pass in any case. *)
Definition field_passes (pp : pub_packet_struct) (cp : conn_param) (info : rule) (now : Z)
    (vals : rule_field -> option bytes) (j : rule_field) : Prop :=
  match field_val vals j with
  | None => True
  | Some v => field_holds pp cp info now j v
  end.

Lemma field_loop_spec pp cp info now vals js pl b pl' :
  field_loop pp cp info now vals js pl = Some (b, pl') ->
  b = true <-> Forall (field_passes pp cp info now vals) js.
Proof.
  induction js as [|j js IH] in pl |- *; cbn [field_loop]; [intros [= <- <-]; done|].
  rewrite Forall_cons. unfold field_passes at 1.
  destruct (field_val vals j) as [v|]; [|intros H; apply IH in H; naive_solver].
  rewrite <- (field_check_spec pp cp info now j v pl).
  destruct (field_check pp cp info now j v pl) as [[f pl1]|]; cbn; [|done].
  destruct f; cbn [negb]; intros H; [apply IH in H; naive_solver|injection H as <- <-; naive_solver].
Qed.

(** The conditions of a rule: on the fields it names and on the payload. *)
Definition conditions_hold (pp : pub_packet_struct) (cp : conn_param) (info : rule) (now : Z)
    (vals : rule_field -> option bytes) : Prop :=
  (forall j v, j <> RULE_PAYLOAD_FIELD -> vals j = Some v -> field_holds pp cp info now j v) /\
  has_payload pp /\ payload_holds pp info.

Lemma fields_conditions pp cp info now vals :
  Forall (field_passes pp cp info now vals) rule_fields <-> conditions_hold pp cp info now vals.
Proof.
  rewrite Forall_forall. unfold field_passes, field_val, conditions_hold. split.
  - intros H. split.
    + intros j v Hj Hv. specialize (H j). rewrite decide_False, Hv in H by done. apply H. by destruct j; set_solver.
    + apply (H RULE_PAYLOAD_FIELD). unfold rule_fields. set_solver.
  - intros [H1 H2] j _. case_decide as Hj; [by subst|]. destruct (vals j) as [v|] eqn:E; [|done]. by apply H1.
Qed.

(** The message comes from the client the rule republishes with: the client
    id is a prefix of the configured one. *)
Definition own_message (cp : conn_param) (info : rule) : Prop :=
  exists id cid, rl_repub info = Some (Some id) /\ conn_param_get_clientid cp = Some cid /\ cid `prefix_of` id.

Lemma repub_loop_spec cp info b : repub_loop cp info = Some b -> b = true <-> own_message cp info.
Proof.
  unfold repub_loop, own_message, strlen. destruct (rl_repub info) as [[id|]|]; try (intros [= <-]; naive_solver).
  destruct (conn_param_get_clientid cp) as [cid|]; cbn [fmap option_fmap option_map mbind option_bind]; [|done].
  intros [= E]. rewrite <- E. rewrite (cmp_str_spec cid id RULE_CMP_EQUAL).
  cbn [str_rel]. naive_solver.
Qed.

(** The strings a rule may look at are there. *)
Definition names_present (pp : pub_packet_struct) (cp : conn_param) : Prop :=
  is_Some (pb_topic (pp_publish pp)) /\ is_Some (conn_param_get_clientid cp) /\
  is_Some (conn_param_get_username cp) /\ is_Some (conn_param_get_password cp).

Lemma field_loop_total pp cp info now vals js pl :
  names_present pp cp -> is_Some (field_loop pp cp info now vals js pl).
Proof.
  intros (Ht & Hc & Hu & Hp). induction js as [|j js IH] in pl |- *; cbn [field_loop]; [eauto|].
  destruct (field_val vals j) as [v|]; [|apply IH].
  assert (is_Some (field_check pp cp info now j v pl)) as [[b pl'] ->].
  { unfold field_check, strlen. destruct Ht as [? ->], Hc as [? ->], Hu as [? ->], Hp as [? ->].
    destruct j; cbn; try (by eauto); destruct (match pp_payload pp with None => _ | Some _ => _ end);
      by eauto. }
  cbn [mbind option_bind]. destruct b; cbn [negb]; [apply IH|eauto].
Qed.

Lemma rule_engine_filter_total pp cp info now :
  names_present pp cp -> is_Some (rule_engine_filter pp cp info now).
Proof.
  intros Hn. pose proof Hn as ([topic Ht] & [cid Hc] & _). unfold rule_engine_filter.
  assert (is_Some (repub_loop cp info)) as [loop ->].
  { unfold repub_loop, strlen. rewrite Hc. destruct (rl_repub info) as [[id|]|]; by eauto. }
  cbn [mbind option_bind]. rewrite Ht. destruct loop; [by eauto|].
  destruct (topic_filter _ _); [|by eauto].
  destruct (rl_filter info) as [vals|]; [by apply field_loop_total|by eauto].
Qed.

(** C17. The evaluation of a rule ends for every message with topic, client
    id, user name and password, and when it ends it says "match" exactly if the
    message does not come from the rule's own republishing client, its topic
    matches the rule's filter and, when the rule has conditions, the payload is
    not empty, every named field is in the relation to its configured value that
    the rule asks for, and every named payload value is in the JSON and
    satisfies its condition.  Strings "equal" the values they are a prefix of.
    A rule without conditions matches whatever the payload is. *)
Theorem rule_engine_filter_correct pp cp info now :
  (names_present pp cp -> is_Some (rule_engine_filter pp cp info now)) /\
  (forall b pl, rule_engine_filter pp cp info now = Some (b, pl) ->
    b = true <->
    ~ own_message cp info /\
    (exists topic, pb_topic (pp_publish pp) = Some topic /\ topic_filter (rl_topic info) topic = true) /\
    forall vals, rl_filter info = Some vals -> conditions_hold pp cp info now vals).
Proof.
  split; [apply rule_engine_filter_total|]. unfold rule_engine_filter.
  intros b pl. destruct (repub_loop cp info) as [own|] eqn:El; cbn [mbind option_bind]; [|done].
  apply repub_loop_spec in El. destruct own; [intros [= <- <-]; naive_solver|].
  assert (~ own_message cp info) as Hown by (rewrite <- El; done).
  destruct (pb_topic (pp_publish pp)) as [topic|]; [|done].
  destruct (topic_filter (rl_topic info) topic) eqn:Ht; [|intros [= <- <-]; naive_solver].
  destruct (rl_filter info) as [vals|]; [|intros [= <- <-]; naive_solver].
  intros H. apply field_loop_spec in H. rewrite H, fields_conditions. naive_solver.
Qed.

(** A rule with a condition on the user name dereferences NULL for a
    client without one: [strlen(username)] comes before the NULL check. *)
Theorem rule_filter_null_username pp cp info now topic vals v :
  rl_repub info = None -> pb_topic (pp_publish pp) = Some topic ->
  topic_filter (rl_topic info) topic = true -> rl_filter info = Some vals ->
  Forall (fun j => vals j = None) [RULE_QOS; RULE_ID; RULE_TOPIC; RULE_CLIENTID] ->
  vals RULE_USERNAME = Some v -> conn_param_get_username cp = None ->
  rule_engine_filter pp cp info now = None.
Proof.
  intros Hr Ht Hf Hv Hn Hu Hc. rewrite !Forall_cons in Hn. destruct Hn as (H1 & H2 & H3 & H4 & _).
  unfold rule_engine_filter, repub_loop. rewrite Hr. cbn [mbind option_bind]. rewrite Ht, Hf, Hv.
  unfold rule_fields. cbn [field_loop].
  assert (forall j, j <> RULE_PAYLOAD_FIELD -> field_val vals j = vals j) as E
    by (intros j Hj; unfold field_val; by rewrite decide_False).
  rewrite !E, H1, H2, H3, H4, Hu by done. cbn [field_check]. by rewrite Hc.
Qed.

End Filter.

(** ** Witnesses

    JSON texts that are decimal numbers, and nothing else. *)

Fixpoint digits (s : bytes) (acc : Z) : Z :=
  match s with
  | c :: s' => if (48 <=? c) && (c <=? 57) then digits s' (acc * 10 + (c - 48)) else acc
  | [] => acc
  end.

Definition json_number (s : bytes) : option Z :=
  if negb (bool_decide (s = [])) && forallb (fun c => (48 <=? c) && (c <=? 57)) s
  then Some (digits s 0) else None.

Import Model.

#[export] Instance json_numbers : CJson := {|
  cJSON := Z;
  cJSON_ParseWithLength s n := s ← s; json_number (take (Z.to_nat n) s);
  cJSON_Parse s := s ← s; json_number s;
  cJSON_GetObjectItem _ _ := None;
  cJSON_type _ := cJSON_Number;
  cJSON_GetNumberValue n := n;
  cJSON_GetStringValue _ := [];
  cJSON_Compare := Z.eqb;
  cJSON_PrintUnformatted n := lit (pretty n)
|}.

(** SELECT ... FROM "a/+" WHERE payload > 20, and one WHERE username = 'u'. *)
Definition sample_payload (v : payload_value) : rule_payload :=
  RulePayload [] (Some (c!"temp")) (Some (c!"20")) RULE_CMP_GREATER true v false.

Definition payload_rule : rule :=
  Rule None (c!"a/+") (Some (fun _ => None)) (fun _ => RULE_CMP_NONE) [sample_payload PNull].

Definition username_rule : rule :=
  Rule None (c!"a/+") (Some (fun j => if decide (j = RULE_USERNAME) then Some (c!"u") else None))
    (fun _ => RULE_CMP_EQUAL) [].

Definition rule_packet : @pub_packet_struct Model.msgs :=
  PubPacket (FixedHeader 0 0 0 3 7) 0 (PublishHeader (Some (c!"a/b")) 3 None 0)
    (PubArrcHeader 0 None 0) (Some (c!"25")) 2.

Definition no_username : @conn_param Model.msgs := Model.Cparam (Some (c!"c1")) None None None.

Lemma rule_engine_filter_correct_witness :
  rule_engine_filter rule_packet no_username payload_rule 0
    = Some (true, [sample_payload (PNum (25 : Z))]) /\
  payload_holds rule_packet payload_rule.
Proof.
  assert (rule_engine_filter rule_packet no_username payload_rule 0
          = Some (true, [sample_payload (PNum (25 : Z))])) as E by (vm_compute; reflexivity).
  split; [exact E|].
  destruct (proj1 (proj2 (rule_engine_filter_correct rule_packet no_username payload_rule 0) _ _ E) eq_refl)
    as (_ & _ & H).
  exact (proj2 (proj2 (H _ eq_refl))).
Defined.

Lemma rule_filter_null_username_witness :
  rule_engine_filter rule_packet no_username username_rule 0 = None.
Proof.
  eapply (rule_filter_null_username rule_packet no_username username_rule 0 (c!"a/b"));
    try reflexivity. repeat constructor.
Defined.

End RuleFilter.
