(* ===== verification/RuleSql.v ===== *)
(** * SQL statements of the rule engine (nanomq/pub_handler.c)

    The string buffer [sbuf_t], [sql_escape], the clauses that
    [compose_sql_clause] and [compose_sql_clause_new] add for the selected
    fields of a message, and the INSERT statement that
    [rule_engine_insert_sqlite] puts together.  [None] is a NULL dereference. *)

From stdpp Require Import pretty.
From S2P Require Import Prelude NngApi NngModel PubCodec RuleEngine.

(** ** String buffers *)

Module Sbuf.

(** [sb_buf] is the string in the buffer, without the NUL. *)
Record sbuf_t := SBuf {
  sb_buf : bytes;
  sb_len : Z;
  sb_cap : Z
}.

Definition sbuf_init (cap : Z) : sbuf_t := SBuf [] 0 (if cap =? 0 then 256 else cap).

(** while (newcap < need) newcap *= 2; in size_t *)
Fixpoint grow (fuel : nat) (newcap need : Z) : option Z :=
  match fuel with
  | O => None
  | S fuel' => if newcap <? need then grow fuel' (u64 (newcap * 2)) need else Some newcap
  end.

Definition sbuf_ensure (sb : sbuf_t) (extra : Z) : option sbuf_t :=
  if sb_len sb + extra + 1 <=? sb_cap sb then Some sb
  else
    newcap ← grow 65 (u64 (sb_cap sb * 2)) (sb_len sb + extra + 1);
    Some (SBuf (sb_buf sb) (sb_len sb) newcap).

Definition sbuf_append (sb : sbuf_t) (s : bytes) : option sbuf_t :=
  let n := blen s in
  sb ← sbuf_ensure sb n;
  Some (SBuf (sb_buf sb ++ s) (sb_len sb + n) (sb_cap sb)).

(** [s] is the formatted text; it goes through a buffer of 512 bytes or, when
    it is longer, through one of its own size. *)
Definition sbuf_appendf (sb : sbuf_t) (s : bytes) : option sbuf_t :=
  let n := blen s in
  if n <=? 0 then Some sb
  else if 512 <=? n then sbuf_append sb s
  else sbuf_append sb s.

(** The buffer holds its string and the terminating NUL. *)
Record sbuf_ok (sb : sbuf_t) : Prop := SbufOk {
  so_len : sb_len sb = blen (sb_buf sb);
  so_fits : sb_len sb + 1 <= sb_cap sb;
  so_cap : 0 < sb_cap sb < 2 ^ 62
}.

Lemma grow_spec fuel newcap need :
  0 < newcap < 2 ^ 63 -> 0 < need <= 2 ^ 61 -> need <= newcap * 2 ^ (Z.of_nat fuel - 1) -> (0 < fuel)%nat ->
  exists c, grow fuel newcap need = Some c /\ need <= c /\ (c = newcap \/ c < 2 * need).
Proof.
  induction fuel as [|fuel IH] in newcap |- *; intros Hc Hn Hp Hf; [lia|]. cbn [grow].
  destruct (Z.ltb_spec newcap need) as [Hlt|Hge]; [|exists newcap; auto].
  rewrite u64_small by lia. destruct fuel as [|fuel].
  - change (Z.of_nat 1 - 1) with 0 in Hp. cbn in Hp. lia.
  - destruct (IH (newcap * 2)) as (c & -> & H1 & H2); [lia|lia| |lia|].
    + replace (Z.of_nat (S (S fuel)) - 1) with (Z.succ (Z.of_nat (S fuel) - 1)) in Hp by lia.
      rewrite Z.pow_succ_r in Hp by lia. lia.
    + exists c. split; [done|]. split; [done|]. right. destruct H2; lia.
Qed.

Lemma append_ok sb s :
  sbuf_ok sb -> sb_len sb + blen s + 1 <= 2 ^ 60 ->
  exists sb', sbuf_append sb s = Some sb' /\ sbuf_ok sb' /\ sb_buf sb' = sb_buf sb ++ s.
Proof.
  intros [Hl Hf Hc] Hs. pose proof (blen_nonneg s). pose proof (blen_nonneg (sb_buf sb)).
  unfold sbuf_append, sbuf_ensure.
  destruct (Z.leb_spec (sb_len sb + blen s + 1) (sb_cap sb)); cbn [mbind option_bind].
  - eexists. split; [reflexivity|]. split; [|done]. constructor; cbn; rewrite ?blen_app; lia.
  - rewrite u64_small by lia.
    destruct (grow_spec 65 (sb_cap sb * 2) (sb_len sb + blen s + 1)) as (c & -> & Hc1 & Hc2); [lia|lia| |lia|].
    { change (Z.of_nat 65 - 1) with 64. lia. }
    cbn [mbind option_bind]. eexists. split; [reflexivity|]. split; [|done].
    constructor; cbn; rewrite ?blen_app; destruct Hc2; lia.
Qed.

(** Appending never writes past the buffer: the buffer is enlarged by
    doubling until the string, the addition and the NUL fit, the loop ends, and
    the contents are the old contents followed by the addition. *)
Theorem sbuf_append_correct sb s :
  sbuf_ok sb -> sb_len sb + blen s + 1 <= 2 ^ 60 ->
  exists sb', sbuf_append sb s = Some sb' /\ sbuf_ok sb' /\
    sb_buf sb' = sb_buf sb ++ s /\ blen (sb_buf sb') + 1 <= sb_cap sb'.
Proof.
  intros H Hs. destruct (append_ok sb s H Hs) as (sb' & E & Hok & Eb). exists sb'.
  split_and!; [done..|]. rewrite <- (so_len _ Hok). apply (so_fits _ Hok).
Qed.

Lemma sbuf_append_correct_witness :
  exists sb', sbuf_append (sbuf_init 4) (c!"hello") = Some sb' /\ sbuf_ok sb' /\
    sb_buf sb' = c!"hello" /\ blen (sb_buf sb') + 1 <= sb_cap sb'.
Proof.
  apply (sbuf_append_correct (sbuf_init 4) (c!"hello")); [by constructor | vm_compute; done].
Defined.

End Sbuf.

(** ** Escaping *)

Module RuleSql.

Import PubCodec RuleFilter Sbuf.

(** sql_escape: a backslash before every quote and backslash, up to the first
    NUL byte *)
Fixpoint escape_loop (s : bytes) : bytes :=
  match s with
  | [] => []
  | c :: s' =>
      if c =? 0 then []
      else (if (c =? 39) || (c =? 92) then [92] else []) ++ c :: escape_loop s'
  end.

Definition sql_escape (s : option bytes) : option bytes := escape_loop <$> s.

(** How a data base reads a string literal after the opening quote: the value
    and what follows the closing quote.  MySQL takes a backslash as an escape,
    of which only the one before a quote or a backslash is of interest here; in
    SQLite and standard SQL only a doubled quote stands for a quote. *)
Fixpoint mysql_literal (s : bytes) : option (bytes * bytes) :=
  match s with
  | [] => None
  | c :: s' =>
      if c =? 39 then Some ([], s')
      else if c =? 92 then
        match s' with
        | [] => None
        | d :: s'' =>
            if (d =? 39) || (d =? 92) then '(v, rest) ← mysql_literal s''; Some (d :: v, rest)
            else None
        end
      else '(v, rest) ← mysql_literal s'; Some (c :: v, rest)
  end.

Fixpoint sqlite_literal (s : bytes) : option (bytes * bytes) :=
  match s with
  | [] => None
  | c :: s' =>
      if c =? 39 then
        match s' with
        | d :: s'' =>
            if d =? 39 then '(v, rest) ← sqlite_literal s''; Some (39 :: v, rest) else Some ([], s')
        | [] => Some ([], [])
        end
      else '(v, rest) ← sqlite_literal s'; Some (c :: v, rest)
  end.

(** Read the MySQL way, an escaped string between quotes is exactly the
    C string, whatever bytes it has: it cannot leave the literal. *)
Theorem sql_escape_mysql s rest :
  mysql_literal (escape_loop s ++ 39 :: rest) = Some (c_str s, rest).
Proof.
  induction s as [|c s IH]; [done|]. cbn [escape_loop c_str].
  destruct (Z.eqb_spec c 0) as [->|_]; [done|].
  destruct (Z.eqb_spec c 39) as [->|H1]; [cbn; by rewrite IH|].
  destruct (Z.eqb_spec c 92) as [->|H2]; [cbn; by rewrite IH|].
  cbn [orb app mysql_literal]. rewrite (proj2 (Z.eqb_neq c 39) H1), (proj2 (Z.eqb_neq c 92) H2), IH.
  done.
Qed.

(** Read the SQLite way, a quote in a message ends the literal: for a
    text [a'b] the value is [a] and a backslash, and the escaped [b] follows as
    SQL. *)
Theorem sql_escape_sqlite_injection a b rest :
  Forall (fun c => c <> 0 /\ c <> 39 /\ c <> 92) a -> c_str b <> [] -> head b <> Some 39 ->
  sqlite_literal (escape_loop (a ++ 39 :: b) ++ 39 :: rest)
  = Some (a ++ [92], escape_loop b ++ 39 :: rest).
Proof.
  intros Ha Hne Hb. induction Ha as [|c a (H0 & H1 & H2) _ IH]; cbn [app escape_loop].
  - destruct b as [|d b]; [done|]. cbn [head c_str] in *. cbn.
    destruct (d =? 0); [done|]. destruct (Z.eqb_spec d 39) as [->|Hd]; [done|]. cbn [orb].
    destruct (d =? 92); cbn; [done|]. by rewrite (proj2 (Z.eqb_neq d 39) Hd).
  - rewrite (proj2 (Z.eqb_neq c 0) H0), (proj2 (Z.eqb_neq c 39) H1), (proj2 (Z.eqb_neq c 92) H2).
    cbn [orb app sqlite_literal].
    rewrite (proj2 (Z.eqb_neq c 39) H1), IH. done.
Qed.

(** ** The clauses of the selected fields *)

Section Clause.

Context `{M : NngMsg} `{J : CJson}.

Inductive forword_type := FORWORD_SQLITE | FORWORD_MYSQL | FORWORD_POSTGRESQL | FORWORD_TIMESCALEDB
  | FORWORD_REPUB | FORWORD_OTHER.

(** What the SQL part reads of a rule. *)
Record sql_rule := SqlRule {
  sr_forword_type : forword_type;
  sr_sqlite_table : bytes;
  sr_mysql_table : bytes;
  sr_postgresql_table : bytes;
  sr_timescaledb_table : bytes;
  sr_flag : rule_field -> bool;
  sr_as : rule_field -> option bytes;
  sr_payload : list rule_payload
}.

Definition rule_table_name (r : sql_rule) : option bytes :=
  match sr_forword_type r with
  | FORWORD_SQLITE => Some (sr_sqlite_table r)
  | FORWORD_MYSQL => Some (sr_mysql_table r)
  | FORWORD_POSTGRESQL => Some (sr_postgresql_table r)
  | FORWORD_TIMESCALEDB => Some (sr_timescaledb_table r)
  | FORWORD_REPUB | FORWORD_OTHER => None
  end.

(** printf's %d and %ld *)
Definition dec (z : Z) : bytes := lit (pretty z).

Definition quoted (s : bytes) : bytes := c!"'" ++ s ++ c!"'".

(** A text value; [sql_escape(NULL)] is NULL and its length is taken. *)
Definition text (s : option bytes) : option bytes := quoted <$> sql_escape s.

(** A text value that may be absent. *)
Definition text_or_null (s : option bytes) : option bytes :=
  match s with Some v => Some (quoted (escape_loop v)) | None => Some (c!"NULL") end.

Definition payload_text (v : payload_value) : bytes :=
  match v with
  | PNum n => dec n
  | PStr s => quoted (escape_loop s)
  | PObj j => quoted (escape_loop (cJSON_PrintUnformatted j))
  | PNull => c!"NULL"
  end.

(** The columns and values of the stored payload values. *)
Fixpoint payload_columns (l : list rule_payload) : list (bytes * bytes) :=
  match l with
  | [] => []
  | p :: l' =>
      match rp_is_store p, rp_pas p with
      | true, Some pas => (pas, payload_text (rp_value p)) :: payload_columns l'
      | _, _ => payload_columns l'
      end
  end.

(** The columns and values that field [j] contributes. *)
Definition columns (info : sql_rule) (j : rule_field) (pp : pub_packet_struct) (cp : conn_param)
    (now : Z) : option (list (bytes * bytes)) :=
  let named (dflt : bytes) (v : option bytes) :=
    v ← v; Some [(default dflt (sr_as info j), v)] in
  match j with
  | RULE_QOS => named (c!"Qos") (Some (dec (fh_qos (pp_fixed pp))))
  | RULE_ID => named (c!"Id") (Some (dec (pp_packet_id pp)))
  | RULE_TOPIC => named (c!"Topic") (text (pb_topic (pp_publish pp)))
  | RULE_CLIENTID => named (c!"Clientid") (text (conn_param_get_clientid cp))
  | RULE_USERNAME => named (c!"Username") (text_or_null (conn_param_get_username cp))
  | RULE_PASSWORD => named (c!"Password") (text_or_null (conn_param_get_password cp))
  | RULE_TIMESTAMP =>
      named (c!"Timestamp")
        (Some (match sr_forword_type info with
               | FORWORD_TIMESCALEDB => c!"to_timestamp(" ++ dec now ++ c!")"
               | _ => dec now
               end))
  | RULE_PAYLOAD_ALL => named (c!"Payload") (text (pp_payload pp))
  | RULE_PAYLOAD_FIELD =>
      match pp_payload pp with
      | None => None
      | Some _ => Some (payload_columns (sr_payload info))
      end
  end.

(** Every column and every value is written with the format "%s, "; this is
    what the scratch buffers key_sb and val_sb hold in the end. *)
Definition listed (l : list bytes) : bytes := flat_map (fun c => c ++ c!", ") l.

(** "ALTER TABLE %s ADD %s %s;\n" for the columns the table may lack. *)
Definition alter_line (tbl : bytes) (p : rule_payload) : bytes :=
  match rp_pas p with
  | Some pas =>
      c!"ALTER TABLE " ++ tbl ++ c!" ADD " ++ pas
      ++ match rp_value p with PNum _ => c!" INT;" | _ => c!" TEXT;" end ++ [10]
  | None => []
  end.

Definition alter (info : sql_rule) (is_need_set : bool) (exists_col : bytes -> bytes -> bool)
    (j : rule_field) : bytes :=
  match j, rule_table_name info with
  | RULE_PAYLOAD_FIELD, Some tbl =>
      if is_need_set then
        flat_map (fun p => if rp_is_store p && negb (exists_col tbl (default [] (rp_pas p)))
                           then alter_line tbl p else []) (sr_payload info)
      else []
  | _, _ => []
  end.

(** The payload values that were written are released and their type reset. *)
Definition reset_payload (p : rule_payload) : rule_payload :=
  match rp_is_store p, rp_pas p with
  | true, Some _ =>
      RulePayload (rp_psa p) (rp_pas p) (rp_filter p) (rp_cmp_type p) (rp_is_store p) PNull false
  | _, _ => p
  end.

Definition consume (info : sql_rule) (j : rule_field) : sql_rule :=
  match j with
  | RULE_PAYLOAD_FIELD =>
      SqlRule (sr_forword_type info) (sr_sqlite_table info) (sr_mysql_table info)
        (sr_postgresql_table info) (sr_timescaledb_table info) (sr_flag info) (sr_as info)
        (map reset_payload (sr_payload info))
  | _ => info
  end.

(** compose_sql_clause: the rule, [key], [value] and the result afterwards;
    the data base's columns are not looked up.  The strings are appended with
    strcat to buffers of a fixed size. *)
Definition compose_sql_clause (info : sql_rule) (key value : bytes) (is_need_set : bool)
    (j : rule_field) (pp : pub_packet_struct) (cp : conn_param) (now : Z)
  : option (sql_rule * bytes * bytes * option bytes) :=
  if negb (sr_flag info j) then Some (info, key, value, None)
  else
    l ← columns info j pp cp now;
    let a := alter info is_need_set (fun _ _ => false) j in
    Some (consume info j, key ++ listed (map fst l), value ++ listed (map snd l),
          if 0 <? blen a then Some a else None).

(** compose_sql_clause_new: the same into string buffers, leaving out columns
    the sqlite table has. *)
Definition compose_sql_clause_new (info : sql_rule) (key value : sbuf_t) (is_need_set : bool)
    (exists_col : bytes -> bytes -> bool) (j : rule_field) (pp : pub_packet_struct)
    (cp : conn_param) (now : Z) : option (sql_rule * sbuf_t * sbuf_t * option bytes) :=
  if negb (sr_flag info j) then Some (info, key, value, None)
  else
    l ← columns info j pp cp now;
    let a := alter info is_need_set exists_col j in
    key ← sbuf_append key (listed (map fst l));
    value ← sbuf_append value (listed (map snd l));
    Some (consume info j, key, value, if 0 <? blen a then Some a else None).

(** ** The INSERT statement for SQLite *)

(** The loop over the fields.  [first] and [need] are *is_first_time and
    *is_need_set; the statements that sqlite3_exec runs on the way are
    collected. *)
Fixpoint insert_loop (js : list rule_field) (info : sql_rule) (exists_col : bytes -> bytes -> bool)
    (pp : pub_packet_struct) (cp : conn_param) (now : Z) (key value : sbuf_t) (first need : bool)
    (execs : list bytes) : option (sql_rule * sbuf_t * sbuf_t * bool * bool * list bytes) :=
  match js with
  | [] => Some (info, key, value, first, need, execs)
  | j :: js' =>
      let need := if first then true else need in
      '(info, key, value, ret) ← compose_sql_clause_new info key value need exists_col j pp cp now;
      insert_loop js' info exists_col pp cp now key value false need
        (execs ++ match ret with Some r => [r] | None => [] end)
  end.

(** p = strrchr(s, ','); *p = ')'; *)
Definition close_paren (s : bytes) : option bytes :=
  i ← strrchr_idx s 44; Some (<[i := 41]> s).

(** rule_engine_insert_sqlite: the code, the rules, the two flags and the
    statements run, the INSERT last.  [exec] is whether sqlite3_exec succeeds. *)
Definition rule_engine_insert_sqlite (exec : bytes -> bool) (exists_col : bytes -> bytes -> bool)
    (rules : list sql_rule) (i : nat) (pp : pub_packet_struct) (cp : conn_param) (now : Z)
    (first need : bool) : option (Z * list sql_rule * bool * bool * list bytes) :=
  info ← rules !! i;
  key ← sbuf_appendf (sbuf_init 256) (sr_sqlite_table info ++ c!" (");
  value ← sbuf_append (sbuf_init 512) (c!"VALUES (");
  sql_clause ← sbuf_appendf (sbuf_init 1024) (c!"INSERT INTO ");
  '(info, key, value, first, need, execs) ←
    insert_loop rule_fields info exists_col pp cp now key value first need [];
  match close_paren (sb_buf key), close_paren (sb_buf value) with
  | Some k, Some v =>
      sql_clause ← sbuf_append sql_clause k;
      sql_clause ← sbuf_append sql_clause v;
      sql_clause ← sbuf_append sql_clause (c!";");
      Some (if exec (sb_buf sql_clause) then 0 else 1, <[i := info]> rules, first, need,
            execs ++ [sb_buf sql_clause])
  | _, _ => Some (0, <[i := info]> rules, first, need, execs)
  end.

(** The call in rule_engine_insert_sql, for rule number [i]: it passes the
    address of that rule and the number again. *)
Definition insert_sqlite_call (exec : bytes -> bool) (exists_col : bytes -> bytes -> bool)
    (rules : list sql_rule) (i : nat) (pp : pub_packet_struct) (cp : conn_param) (now : Z)
    (first need : bool) : option (Z * list sql_rule * bool * bool * list bytes) :=
  '(rc, rest, first, need, execs) ←
    rule_engine_insert_sqlite exec exists_col (drop i rules) i pp cp now first need;
  Some (rc, take i rules ++ rest, first, need, execs).

(** ** What the statement says *)

(** The selected columns with their values. *)
Fixpoint selected (js : list rule_field) (info : sql_rule) (pp : pub_packet_struct)
    (cp : conn_param) (now : Z) : option (list (bytes * bytes)) :=
  match js with
  | [] => Some []
  | j :: js' =>
      l ← (if sr_flag info j then columns info j pp cp now else Some []);
      l' ← selected js' info pp cp now;
      Some (l ++ l')
  end.

Fixpoint comma_sep (l : list bytes) : bytes :=
  match l with
  | [] => []
  | [x] => x
  | x :: l' => x ++ c!", " ++ comma_sep l'
  end.

Definition insert_statement (tbl : bytes) (l : list (bytes * bytes)) : bytes :=
  c!"INSERT INTO " ++ tbl ++ c!" (" ++ comma_sep (map fst l) ++ c!") VALUES ("
  ++ comma_sep (map snd l) ++ c!") ;".

Lemma listed_app l k : listed (l ++ k) = listed l ++ listed k.
Proof. apply flat_map_app. Qed.

Lemma listed_comma_sep l : l <> [] -> listed l = comma_sep l ++ c!", ".
Proof.
  induction l as [|x l IH]; [done|]. intros _. destruct l as [|y l]; [cbn; by rewrite app_nil_r|].
  change (listed (x :: y :: l)) with ((x ++ c!", ") ++ listed (y :: l)).
  change (comma_sep (x :: y :: l)) with (x ++ c!", " ++ comma_sep (y :: l)).
  rewrite IH by done. by rewrite <- !app_assoc.
Qed.

Lemma strrchr_idx_end s : strrchr_idx (s ++ c!", ") 44 = Some (length s).
Proof. induction s as [|c s IH]; [done|]. cbn [app strrchr_idx length]. by rewrite IH. Qed.

Lemma close_paren_listed pre l :
  l <> [] -> close_paren (pre ++ listed l) = Some (pre ++ comma_sep l ++ c!") ").
Proof.
  intros Hl. unfold close_paren. rewrite listed_comma_sep, app_assoc, strrchr_idx_end by done.
  cbn [mbind option_bind]. f_equal. rewrite app_assoc.
  rewrite insert_app_r_alt, Nat.sub_diag by lia. done.
Qed.

(** Only the payload values are consumed, so the other fields are unchanged. *)
Lemma selected_consume js info j pp cp now :
  RULE_PAYLOAD_FIELD ∉ js -> selected js (consume info j) pp cp now = selected js info pp cp now.
Proof.
  destruct j; try done. induction js as [|k js IH]; [done|].
  rewrite not_elem_of_cons. intros [Hk Hj]. cbn [selected]. rewrite IH by done. by destruct k.
Qed.

Lemma insert_loop_spec js info exists_col pp cp now key value first need execs l :
  NoDup js -> selected js info pp cp now = Some l -> sbuf_ok key -> sbuf_ok value ->
  sb_len key + blen (listed (map fst l)) + 1 <= 2 ^ 60 ->
  sb_len value + blen (listed (map snd l)) + 1 <= 2 ^ 60 ->
  exists info' key' value' first' need' execs',
    insert_loop js info exists_col pp cp now key value first need execs
    = Some (info', key', value', first', need', execs') /\
    sb_buf key' = sb_buf key ++ listed (map fst l) /\
    sb_buf value' = sb_buf value ++ listed (map snd l).
Proof.
  induction js as [|j js IH] in info, key, value, first, need, execs, l |- *;
    cbn [selected insert_loop]; intros Hnd Hs Hk Hv Hbk Hbv.
  { injection Hs as <-. do 6 eexists. split; [reflexivity|]. cbn. by rewrite !app_nil_r. }
  apply NoDup_cons in Hnd as [Hj Hnd].
  unfold compose_sql_clause_new. destruct (sr_flag info j); cbn [negb].
  2: { cbn [mbind option_bind] in Hs. destruct (selected js info pp cp now) as [l'|] eqn:Hl; [|done].
       injection Hs as <-. cbn [mbind option_bind]. apply IH; done. }
  destruct (columns info j pp cp now) as [l1|]; [|done]. cbn [mbind option_bind] in *.
  destruct (selected js info pp cp now) as [l2|] eqn:Hl; [|done]. cbn [mbind option_bind] in Hs.
  injection Hs as <-. rewrite !map_app, !listed_app, !blen_app in *.
  pose proof (blen_nonneg (listed (map fst l2))). pose proof (blen_nonneg (listed (map snd l2))).
  destruct (append_ok key (listed (map fst l1)) Hk ltac:(lia)) as (key1 & -> & Hk1 & Ek).
  destruct (append_ok value (listed (map snd l1)) Hv ltac:(lia)) as (value1 & -> & Hv1 & Ev).
  cbn [mbind option_bind].
  assert (sb_len key1 = sb_len key + blen (listed (map fst l1)) /\
          sb_len value1 = sb_len value + blen (listed (map snd l1))) as [El Elv].
  { rewrite (so_len _ Hk1), (so_len _ Hv1), Ek, Ev, !blen_app, (so_len _ Hk), (so_len _ Hv). done. }
  assert (selected js (consume info j) pp cp now = Some l2) as Hl'.
  { destruct j; try done. by rewrite selected_consume. }
  edestruct (IH (consume info j) key1 value1) as (info' & key' & value' & f' & n' & e' & E & E1 & E2);
    [done|exact Hl'|done|done|lia|lia|].
  eexists info', key', value', f', n', e'. rewrite E, E1, E2, Ek, Ev, <- !app_assoc. done.
Qed.

Lemma rule_fields_NoDup : NoDup rule_fields.
Proof. apply (bool_decide_unpack _). vm_compute. exact I. Qed.

Lemma sbuf_init_ok cap : 0 < cap < 2 ^ 62 -> sbuf_ok (sbuf_init cap).
Proof.
  intros H. unfold sbuf_init. destruct (Z.eqb_spec cap 0); [lia|]. constructor; cbn; [done|lia|lia].
Qed.

Lemma appendf_append sb s : s <> [] -> sbuf_appendf sb s = sbuf_append sb s.
Proof.
  intros Hs. unfold sbuf_appendf. destruct (Z.leb_spec (blen s) 0) as [H|_]; [|by case_match].
  unfold blen in H. destruct s; [done|cbn in H; lia].
Qed.

(** The result of the three strings that open the buffers. *)
Lemma append_init cap s :
  0 < cap < 2 ^ 62 -> blen s + 1 <= 2 ^ 60 ->
  exists sb, sbuf_append (sbuf_init cap) s = Some sb /\ sbuf_ok sb /\ sb_buf sb = s /\ sb_len sb = blen s.
Proof.
  intros Hc Hs. destruct (append_ok (sbuf_init cap) s (sbuf_init_ok cap Hc)) as (sb & E & Hok & Eb).
  { exact Hs. }
  exists sb. split_and!; [done..|]. by rewrite (so_len _ Hok), Eb.
Qed.

Lemma append3 sb a b c :
  sbuf_ok sb -> sb_len sb + blen a + blen b + blen c + 1 <= 2 ^ 60 ->
  exists sb1 sb2 sb3, sbuf_append sb a = Some sb1 /\ sbuf_append sb1 b = Some sb2 /\
    sbuf_append sb2 c = Some sb3 /\ sb_buf sb3 = sb_buf sb ++ a ++ b ++ c.
Proof.
  intros Hok Hs. pose proof (blen_nonneg b). pose proof (blen_nonneg c).
  destruct (append_ok sb a Hok ltac:(lia)) as (s1 & X1 & H1 & E1).
  pose proof (so_len _ H1) as L1. rewrite E1, blen_app, <- (so_len _ Hok) in L1.
  destruct (append_ok s1 b H1 ltac:(lia)) as (s2 & X2 & H2 & E2).
  pose proof (so_len _ H2) as L2. rewrite E2, blen_app, <- (so_len _ H1) in L2.
  destruct (append_ok s2 c H2 ltac:(lia)) as (s3 & X3 & H3 & E3).
  exists s1, s2, s3. split_and!; [done..|]. by rewrite E3, E2, E1, <- !app_assoc.
Qed.

Lemma insert_statement_parts tbl l :
  c!"INSERT INTO " ++ ((tbl ++ c!" (") ++ comma_sep (map fst l) ++ c!") ")
  ++ (c!"VALUES (" ++ comma_sep (map snd l) ++ c!") ") ++ c!";" = insert_statement tbl l.
Proof. unfold insert_statement. rewrite <- !app_assoc. done. Qed.

Lemma insert_statement_len tbl l :
  blen (insert_statement tbl l)
  = blen tbl + blen (comma_sep (map fst l)) + blen (comma_sep (map snd l)) + 27.
Proof.
  unfold insert_statement. rewrite !blen_app. lit_len. lia.
Qed.

(** Every buffer operation succeeds. *)
Lemma insert_sqlite_parts exists_col pp cp now first need info l :
  selected rule_fields info pp cp now = Some l -> l <> [] ->
  blen (sr_sqlite_table info) + blen (comma_sep (map fst l)) + blen (comma_sep (map snd l)) + 27
    <= 2 ^ 59 ->
  exists key value sql info' key' value' first' need' execs sql1 sql2 sql3,
    sbuf_appendf (sbuf_init 256) (sr_sqlite_table info ++ c!" (") = Some key /\
    sbuf_append (sbuf_init 512) (c!"VALUES (") = Some value /\
    sbuf_appendf (sbuf_init 1024) (c!"INSERT INTO ") = Some sql /\
    insert_loop rule_fields info exists_col pp cp now key value first need []
      = Some (info', key', value', first', need', execs) /\
    close_paren (sb_buf key')
      = Some ((sr_sqlite_table info ++ c!" (") ++ comma_sep (map fst l) ++ c!") ") /\
    close_paren (sb_buf value') = Some (c!"VALUES (" ++ comma_sep (map snd l) ++ c!") ") /\
    sbuf_append sql ((sr_sqlite_table info ++ c!" (") ++ comma_sep (map fst l) ++ c!") ")
      = Some sql1 /\
    sbuf_append sql1 (c!"VALUES (" ++ comma_sep (map snd l) ++ c!") ") = Some sql2 /\
    sbuf_append sql2 (c!";") = Some sql3 /\
    sb_buf sql3 = insert_statement (sr_sqlite_table info) l.
Proof.
  intros Hs Hl Hsz.
  pose proof (blen_nonneg (sr_sqlite_table info)).
  pose proof (blen_nonneg (comma_sep (map fst l))). pose proof (blen_nonneg (comma_sep (map snd l))).
  assert (map fst l <> [] /\ map snd l <> []) as [Hl1 Hl2] by (by destruct l).
  rewrite !appendf_append by (by destruct (sr_sqlite_table info)).
  destruct (append_init 256 (sr_sqlite_table info ++ c!" (")) as (key & Ekey & Hk & Ek & Lk); [lia| |].
  { rewrite blen_app. lit_len. lia. }
  destruct (append_init 512 (c!"VALUES (")) as (value & Eval & Hv & Ev & Lv); [lia|by vm_compute|].
  destruct (append_init 1024 (c!"INSERT INTO ")) as (sql & Esql & Hq & Eq & Lq); [lia|by vm_compute|].
  rewrite blen_app in Lk. revert Lk Lv Lq. lit_len. intros Lk Lv Lq.
  destruct (insert_loop_spec rule_fields info exists_col pp cp now key value first need [] l)
    as (info' & key' & value' & f' & n' & execs & Eloop & Ek' & Ev');
    [apply rule_fields_NoDup|done|done|done| | |].
  { rewrite listed_comma_sep, blen_app by done. lit_len. lia. }
  { rewrite listed_comma_sep, blen_app by done. lit_len. lia. }
  destruct (append3 sql ((sr_sqlite_table info ++ c!" (") ++ comma_sep (map fst l) ++ c!") ")
    (c!"VALUES (" ++ comma_sep (map snd l) ++ c!") ") (c!";"))
    as (sql1 & sql2 & sql3 & E1 & E2 & E3 & Eq'); [done| |].
  { rewrite Lq, !blen_app. lit_len. lia. }
  exists key, value, sql, info', key', value', f', n', execs, sql1, sql2, sql3.
  rewrite Ek', Ev', !close_paren_listed, Ek, Ev, Eq', Eq by done.
  split_and!; [exact Ekey|exact Eval|exact Esql|exact Eloop|reflexivity|reflexivity|exact E1|exact E2
    |exact E3|apply insert_statement_parts].
Qed.

(** The run of rule_engine_insert_sqlite when every buffer operation succeeds. *)
Lemma insert_sqlite_run exec exists_col rules i pp cp now first need info key value sql
    info' key' value' first' need' execs k v sql1 sql2 sql3 :
  rules !! i = Some info ->
  sbuf_appendf (sbuf_init 256) (sr_sqlite_table info ++ c!" (") = Some key ->
  sbuf_append (sbuf_init 512) (c!"VALUES (") = Some value ->
  sbuf_appendf (sbuf_init 1024) (c!"INSERT INTO ") = Some sql ->
  insert_loop rule_fields info exists_col pp cp now key value first need []
    = Some (info', key', value', first', need', execs) ->
  close_paren (sb_buf key') = Some k -> close_paren (sb_buf value') = Some v ->
  sbuf_append sql k = Some sql1 -> sbuf_append sql1 v = Some sql2 ->
  sbuf_append sql2 (c!";") = Some sql3 ->
  rule_engine_insert_sqlite exec exists_col rules i pp cp now first need
  = Some (if exec (sb_buf sql3) then 0 else 1, <[i := info']> rules, first', need',
          execs ++ [sb_buf sql3]).
Proof.
  intros H1 H2 H3 H4 H5 H6 H7 H8 H9 H10. unfold rule_engine_insert_sqlite.
  apply bind_Some. exists info. split; [exact H1|].
  apply bind_Some. exists key. split; [exact H2|].
  apply bind_Some. exists value. split; [exact H3|].
  apply bind_Some. exists sql. split; [exact H4|].
  apply bind_Some. eexists. split; [exact H5|]. cbv beta iota. rewrite H6, H7.
  apply bind_Some. exists sql1. split; [exact H8|].
  apply bind_Some. exists sql2. split; [exact H9|].
  apply bind_Some. exists sql3. split; [exact H10|]. reflexivity.
Qed.

(** The statement run for a matching rule is
    [INSERT INTO table (columns) VALUES (values) ;], with the selected columns
    and their values in the same order and number, whatever commas the values
    contain. *)
Theorem insert_sqlite_statement exec exists_col rules i pp cp now first need info l :
  rules !! i = Some info -> selected rule_fields info pp cp now = Some l -> l <> [] ->
  blen (insert_statement (sr_sqlite_table info) l) <= 2 ^ 59 ->
  exists rc rules' first' need' execs,
    rule_engine_insert_sqlite exec exists_col rules i pp cp now first need
    = Some (rc, rules', first', need', execs ++ [insert_statement (sr_sqlite_table info) l]) /\
    (rc = 0 <-> exec (insert_statement (sr_sqlite_table info) l) = true).
Proof.
  intros Hi Hs Hl Hsz. rewrite insert_statement_len in Hsz.
  destruct (insert_sqlite_parts exists_col pp cp now first need info l Hs Hl Hsz)
    as (key & value & sql & info' & key' & value' & f' & n' & execs & s1 & s2 & s3 & H).
  destruct H as (E1 & E2 & E3 & E4 & E5 & E6 & E7 & E8 & E9 & Es).
  erewrite insert_sqlite_run; [|done..]. rewrite Es.
  do 5 eexists. split; [reflexivity|]. by destruct (exec _).
Qed.

(** compose_sql_clause_new does what compose_sql_clause does: on buffers
    with the same contents it dereferences NULL for the same messages and
    otherwise leaves the same key, value, rule and ALTER statements, when the
    table has none of the columns yet. *)
Theorem compose_sql_clause_agree info key value need j pp cp now r :
  sbuf_ok key -> sbuf_ok value ->
  compose_sql_clause info (sb_buf key) (sb_buf value) need j pp cp now = r ->
  (forall i k v a, r = Some (i, k, v, a) -> blen k + 1 <= 2 ^ 60 /\ blen v + 1 <= 2 ^ 60) ->
  (fun '(i, k, v, a) => (i, sb_buf k, sb_buf v, a)) <$>
    compose_sql_clause_new info key value need (fun _ _ => false) j pp cp now = r.
Proof.
  intros Hk Hv Hr Hb. unfold compose_sql_clause, compose_sql_clause_new in *.
  destruct (sr_flag info j); cbn [negb] in *; [|exact Hr].
  destruct (columns info j pp cp now) as [l|]; [|exact Hr]. cbn [mbind option_bind] in *. subst r.
  destruct (Hb _ _ _ _ eq_refl) as [B1 B2]. rewrite blen_app, <- so_len in B1, B2 by done.
  destruct (append_ok key _ Hk B1) as (k' & -> & _ & <-). cbn [mbind option_bind].
  destruct (append_ok value _ Hv B2) as (v' & -> & _ & <-). done.
Qed.

(** The call for rule number [i] indexes the array at [i] a second time:
    it is rule number [2 i] whose fields are read, and for the last of several
    rules that is outside the array. *)
Theorem insert_sqlite_last_rule exec exists_col rules i pp cp now first need :
  (1 <= i)%nat -> length rules = S i ->
  insert_sqlite_call exec exists_col rules i pp cp now first need = None /\
  forall k, drop i rules !! k = rules !! (i + k)%nat.
Proof.
  intros Hi Hl. split; [|intros k; apply lookup_drop].
  unfold insert_sqlite_call, rule_engine_insert_sqlite. rewrite lookup_drop, lookup_ge_None_2 by lia.
  done.
Qed.

Lemma insert_loop_skip j js info exists_col pp cp now key value first need execs :
  sr_flag info j = false ->
  insert_loop (j :: js) info exists_col pp cp now key value first need execs
  = insert_loop js info exists_col pp cp now key value false (if first then true else need)
      (execs ++ []).
Proof. intros H. cbn [insert_loop]. unfold compose_sql_clause_new. by rewrite H. Qed.

(** A rule that selects a payload value dereferences NULL for a message
    without payload, which it matches when it has no conditions. *)
Theorem insert_sqlite_empty_payload exec exists_col rules i pp cp now first need info :
  rules !! i = Some info -> pp_payload pp = None ->
  (forall j, sr_flag info j = true <-> j = RULE_PAYLOAD_FIELD) ->
  rule_engine_insert_sqlite exec exists_col rules i pp cp now first need = None.
Proof.
  intros Hi Hp Hf. destruct (rule_engine_insert_sqlite _ _ _ _ _ _ _ _ _) as [x|] eqn:E; [|done].
  unfold rule_engine_insert_sqlite in E. rewrite Hi in E.
  apply bind_Some in E as (? & [= <-] & E). do 3 (apply bind_Some in E as (? & _ & E)).
  apply bind_Some in E as (y & E & _). revert E.
  generalize x0, x1. intros key value. clear -Hp Hf.
  assert (forall j, j <> RULE_PAYLOAD_FIELD -> sr_flag info j = false) as Hn.
  { intros j Hj. destruct (sr_flag info j) eqn:Ej; [|done]. by apply Hf in Ej. }
  unfold rule_fields. do 8 rewrite insert_loop_skip by (by apply Hn).
  cbn [insert_loop]. unfold compose_sql_clause_new. rewrite (proj2 (Hf RULE_PAYLOAD_FIELD) eq_refl).
  cbn [negb columns]. rewrite Hp. done.
Qed.

End Clause.

(** ** The length of printed numbers *)

Lemma lit_length s : length (lit s) = String.length s.
Proof. induction s as [|c s IH]; cbn; [done|]. by rewrite IH. Qed.

Lemma pretty_N_go_length k x s :
  (x < 10 ^ N.of_nat k)%N -> (String.length (pretty_N_go x s) <= k + String.length s)%nat.
Proof.
  induction k as [|k IH] in x, s |- *.
  { intros Hx. assert (x = 0%N) as -> by (change (10 ^ N.of_nat 0)%N with 1%N in Hx; lia).
    rewrite pretty_N_go_0. lia. }
  intros Hx. destruct (decide (x = 0%N)) as [->|Hz]; [rewrite pretty_N_go_0; lia|].
  rewrite pretty_N_go_step by lia. etrans; [apply IH|cbn; lia].
  rewrite Nat2N.inj_succ, N.pow_succ_r' in Hx. apply N.Div0.div_lt_upper_bound. lia.
Qed.

Lemma pretty_N_length k x : (0 < k)%nat -> (x < 10 ^ N.of_nat k)%N -> (String.length (pretty x) <= k)%nat.
Proof.
  intros Hk Hx. change (pretty x) with (pretty_N x). unfold pretty_N.
  destruct (decide _); [cbn; lia|]. pose proof (pretty_N_go_length k x EmptyString Hx). cbn in *. lia.
Qed.

Lemma dec_length k z : (0 < k)%nat -> Z.abs z < 10 ^ Z.of_nat k -> blen (dec z) <= Z.of_nat k + 1.
Proof.
  intros Hk Hz. assert (forall p, Z.pos p < 10 ^ Z.of_nat k -> (String.length (pretty (N.pos p)) <= k)%nat) as Hp.
  { intros p Hp. apply pretty_N_length; [done|]. apply N2Z.inj_lt. rewrite N2Z.inj_pow, nat_N_Z. exact Hp. }
  unfold blen, dec. rewrite lit_length. destruct z as [|p|p].
  - cbn. lia.
  - change (pretty (Z.pos p)) with (pretty (N.pos p)). specialize (Hp p Hz). lia.
  - change (pretty (Z.neg p)) with ("-" +:+ pretty (N.pos p))%string.
    change (String.length ("-" +:+ pretty (N.pos p))%string) with (S (String.length (pretty (N.pos p)))).
    specialize (Hp p Hz). lia.
Qed.

Lemma i32_range z : -2147483648 <= i32 z < 2147483648.
Proof. unfold i32. pose proof (Z.mod_pos_bound (z + 2147483648) 4294967296). lia. Qed.

(** A 32-bit number takes at most eleven characters. *)
Lemma dec_i32_length z : blen (dec (i32 z)) <= 11.
Proof. pose proof (i32_range z). apply (dec_length 10); lia. Qed.

(** ** Witnesses *)

Lemma sql_escape_sqlite_injection_witness :
  sqlite_literal (escape_loop (c!"a'); DROP TABLE t; --") ++ c!"', 1) ;")
  = Some (c!"a\", c!"); DROP TABLE t; --', 1) ;").
Proof.
  apply (sql_escape_sqlite_injection (c!"a") (c!"); DROP TABLE t; --") (c!", 1) ;")); [|done|done].
  repeat constructor; done.
Defined.

Import Model.

Definition sample_sql (sel : list rule_field) : sql_rule :=
  SqlRule FORWORD_SQLITE (c!"broker") [] [] [] (fun j => bool_decide (j ∈ sel)) (fun _ => None)
    [sample_payload (PNum (25 : Z))].

Lemma insert_sqlite_statement_witness :
  exists rc rules' first' need' execs,
    rule_engine_insert_sqlite (fun _ => true) (fun _ _ => true)
      [sample_sql [RULE_QOS; RULE_TOPIC; RULE_PAYLOAD_FIELD]] 0 rule_packet no_username 0 false false
    = Some (rc, rules', first', need',
            execs ++ [c!"INSERT INTO broker (Qos, Topic, temp) VALUES (0, 'a/b', 25) ;"]).
Proof.
  destruct (insert_sqlite_statement (fun _ => true) (fun _ _ => true)
    [sample_sql [RULE_QOS; RULE_TOPIC; RULE_PAYLOAD_FIELD]] 0 rule_packet no_username 0 false false
    (sample_sql [RULE_QOS; RULE_TOPIC; RULE_PAYLOAD_FIELD])
    [(c!"Qos", c!"0"); (c!"Topic", c!"'a/b'"); (c!"temp", c!"25")])
    as (rc & rules' & f' & n' & execs & H & _); [reflexivity|vm_compute; reflexivity|done|by vm_compute|].
  exists rc, rules', f', n', execs. exact H.
Defined.

Lemma compose_sql_clause_agree_witness :
  (fun '(i, k, v, a) => (i, sb_buf k, sb_buf v, a)) <$>
    compose_sql_clause_new (sample_sql [RULE_TOPIC]) (SBuf (c!"t (") 3 4) (SBuf [] 0 1) true
      (fun _ _ => false) RULE_TOPIC rule_packet no_username 0
  = Some (sample_sql [RULE_TOPIC], c!"t (Topic, ", c!"'a/b', ", None).
Proof.
  apply (compose_sql_clause_agree (sample_sql [RULE_TOPIC]) (SBuf (c!"t (") 3 4) (SBuf [] 0 1) true
    RULE_TOPIC rule_packet no_username 0).
  - by constructor.
  - by constructor.
  - reflexivity.
  - intros i k v a [= <- <- <- <-]. split; by vm_compute.
Defined.

Lemma insert_sqlite_last_rule_witness :
  insert_sqlite_call (fun _ => true) (fun _ _ => true) [sample_sql [RULE_QOS]; sample_sql [RULE_QOS]] 1
    rule_packet no_username 0 false false = None.
Proof. apply insert_sqlite_last_rule; [lia | done]. Defined.

Definition empty_packet : @pub_packet_struct Model.msgs :=
  PubPacket (FixedHeader 0 0 0 3 5) 0 (PublishHeader (Some (c!"a/b")) 3 None 0)
    (PubArrcHeader 0 None 0) None 0.

Lemma insert_sqlite_empty_payload_witness :
  rule_engine_insert_sqlite (fun _ => true) (fun _ _ => true) [sample_sql [RULE_PAYLOAD_FIELD]] 0
    empty_packet no_username 0 false false = None.
Proof.
  eapply insert_sqlite_empty_payload; [reflexivity | reflexivity |].
  intros j. cbn. rewrite bool_decide_eq_true, list_elem_of_singleton. done.
Defined.

End RuleSql.
