(* ===== verification/RuleDb.v ===== *)
(** * MySQL, PostgreSQL and TimescaleDB rules (nanomq/pub_handler.c)

    The three branches of [rule_engine_insert_sql] that build their statement in
    arrays on the stack, [key[128]], [value[800]] and [sql_clause[1024]].
    Writing past an array, a NULL dereference and [exit] end the run; otherwise
    the result is the rule afterwards, the two flags and the statements sent. *)

From S2P Require Import Prelude NngApi NngModel PubCodec RuleEngine RuleSql.

Module RuleDb.

Import PubCodec RuleFilter Sbuf RuleSql.

Inductive run_error := BufferOverflow | NullDeref | UseAfterFree | OutOfBounds | Exit.

(** strcat into an array of [cap] bytes *)
Definition strcat (cap : Z) (dst src : bytes) : run_error + bytes :=
  if blen dst + blen src + 1 <=? cap then inr (dst ++ src) else inl BufferOverflow.

Definition bind_run {A B} (x : run_error + A) (f : A -> run_error + B) : run_error + B :=
  match x with inl e => inl e | inr a => f a end.

(** The loop over the lines of the ALTER statements: a line ends at a newline,
    what follows the last one is not sent. *)
Fixpoint sql_lines (s line : bytes) : list bytes :=
  match s with
  | [] => []
  | c :: s' => if c =? 10 then line :: sql_lines s' [] else sql_lines s' (line ++ [c])
  end.

Section Insert.

Context `{M : NngMsg} `{J : CJson}.

(** compose_sql_clause on arrays: its strcat calls have to stay inside. *)
Definition compose_in_arrays (info : sql_rule) (key value : bytes) (need : bool) (j : rule_field)
    (pp : pub_packet_struct) (cp : conn_param) (now : Z)
  : run_error + (sql_rule * bytes * bytes * option bytes) :=
  match compose_sql_clause info key value need j pp cp now with
  | None => inl NullDeref
  | Some (info, key, value, ret) =>
      if (blen key + 1 <=? 128) && (blen value + 1 <=? 800) then inr (info, key, value, ret)
      else inl BufferOverflow
  end.

(** The loop over the fields; the ALTER statements go out once. *)
Fixpoint array_loop (js : list rule_field) (info : sql_rule) (pp : pub_packet_struct)
    (cp : conn_param) (now : Z) (key value : bytes) (first need : bool) (sent : list bytes)
  : run_error + (sql_rule * bytes * bytes * bool * bool * list bytes) :=
  match js with
  | [] => inr (info, key, value, first, need, sent)
  | j :: js' =>
      let need := if first then true else need in
      bind_run (compose_in_arrays info key value need j pp cp now)
        (fun '(info, key, value, ret) =>
           let '(need, lines) :=
             match ret with
             | Some r => if need then (false, sql_lines r []) else (need, [])
             | None => (need, [])
             end in
           array_loop js' info pp cp now key value false need (sent ++ lines))
  end.

(** The common part of the three branches, for a rule with table [table];
    [query] is whether the data base accepts the INSERT. *)
Definition insert_arrays (query : bytes -> bool) (table : bytes) (info : sql_rule)
    (pp : pub_packet_struct) (cp : conn_param) (now : Z) (first need : bool)
  : run_error + (sql_rule * bool * bool * list bytes) :=
  let key := take 127 (table ++ c!" (") in
  bind_run (array_loop rule_fields info pp cp now key (c!"VALUES (") first need [])
    (fun '(info, key, value, first, need, sent) =>
       match close_paren key, close_paren value with
       | Some key, Some value =>
           bind_run (strcat 1024 (c!"INSERT INTO ") key) (fun sql =>
           bind_run (strcat 1024 sql value) (fun sql =>
           bind_run (strcat 1024 sql (c!";")) (fun sql =>
           if query sql then inr (info, first, need, sent ++ [sql]) else inl Exit)))
       | _, _ => inl NullDeref
       end).

Definition insert_mysql (query : bytes -> bool) (info : sql_rule) (pp : pub_packet_struct)
    (cp : conn_param) (now : Z) (first need : bool)
  : run_error + (sql_rule * bool * bool * list bytes) :=
  insert_arrays query (sr_mysql_table info) info pp cp now first need.

(** [pgconn] is whether the worker has a connection, [connect] whether
    PQconnectdb gives one. *)
Definition insert_postgresql (query : bytes -> bool) (connect pgconn : bool) (info : sql_rule)
    (pp : pub_packet_struct) (cp : conn_param) (now : Z) (first need : bool)
  : run_error + (bool * (sql_rule * bool * bool * list bytes)) :=
  if negb pgconn && negb connect then inl Exit
  else bind_run (insert_arrays query (sr_postgresql_table info) info pp cp now first need)
         (fun r => inr (true, r)).

Definition insert_timescaledb (query : bytes -> bool) (connect tsconn : bool) (info : sql_rule)
    (pp : pub_packet_struct) (cp : conn_param) (now : Z) (first need : bool)
  : run_error + (bool * (sql_rule * bool * bool * list bytes)) :=
  if negb tsconn && negb connect then inl Exit
  else bind_run (insert_arrays query (sr_timescaledb_table info) info pp cp now first need)
         (fun r => inr (true, r)).

(** ** When the arrays are large enough *)

(** The selected columns and values fit into the two arrays. *)
Definition fits (key value : bytes) (l : list (bytes * bytes)) : bool :=
  (blen key + blen (listed (map fst l)) + 1 <=? 128) &&
  (blen value + blen (listed (map snd l)) + 1 <=? 800).

Lemma fits_app key value l k :
  fits key value (l ++ k)
  = fits key value l && fits (key ++ listed (map fst l)) (value ++ listed (map snd l)) k.
Proof.
  unfold fits. rewrite !map_app, !listed_app, !blen_app.
  pose proof (blen_nonneg (listed (map fst k))). pose proof (blen_nonneg (listed (map snd k))).
  apply eq_true_iff_eq. rewrite !andb_true_iff, !Z.leb_le. lia.
Qed.

(** What the loop comes to. *)
Lemma array_loop_spec js info pp cp now key value first need sent l :
  NoDup js -> selected js info pp cp now = Some l -> fits key value [] = true ->
  if fits key value l then
    exists info' first' need' sent',
      array_loop js info pp cp now key value first need sent
      = inr (info', key ++ listed (map fst l), value ++ listed (map snd l), first', need', sent')
  else array_loop js info pp cp now key value first need sent = inl BufferOverflow.
Proof.
  induction js as [|j js IH] in info, key, value, first, need, sent, l |- *;
    cbn [selected array_loop]; intros Hnd Hs Hf.
  { injection Hs as <-. rewrite Hf. do 4 eexists. cbn. by rewrite !app_nil_r. }
  apply NoDup_cons in Hnd as [Hj Hnd].
  unfold compose_in_arrays, compose_sql_clause. destruct (sr_flag info j); cbn [negb].
  2: { cbn [mbind option_bind] in Hs. destruct (selected js info pp cp now) as [l'|] eqn:Hl; [|done].
       injection Hs as <-. unfold fits in Hf. cbn [map listed flat_map] in Hf.
       change (blen []) with 0 in Hf. rewrite !Z.add_0_r in Hf. rewrite Hf. cbn [bind_run].
       apply IH; [done|done|]. unfold fits. cbn [map listed flat_map].
       change (blen []) with 0. by rewrite !Z.add_0_r. }
  destruct (columns info j pp cp now) as [l1|]; [|done]. cbn [mbind option_bind] in *.
  destruct (selected js info pp cp now) as [l2|] eqn:Hl; [|done]. cbn [mbind option_bind] in Hs.
  injection Hs as <-. change ([] ++ l2) with l2 in *. rewrite fits_app.
  assert (selected js (consume info j) pp cp now = Some l2) as Hl'.
  { destruct j; try done. by rewrite selected_consume. }
  assert (fits key value l1 = (blen (key ++ listed (map fst l1)) + 1 <=? 128)
    && (blen (value ++ listed (map snd l1)) + 1 <=? 800)) as E by (unfold fits; by rewrite !blen_app).
  rewrite <- E. destruct (fits key value l1) eqn:Hf1; cbn [andb bind_run]; [|done].
  destruct (match (if 0 <? blen (alter info (if first then true else need) (fun _ _ => false) j)
    then _ else _) with Some _ => _ | None => _ end) as [need' lines].
  rewrite !map_app, !listed_app, !app_assoc. apply IH; [done|done|].
  unfold fits. cbn [map listed flat_map]. change (blen []) with 0. by rewrite !Z.add_0_r, <- E.
Qed.

Lemma strcat_small cap dst src :
  blen dst + blen src + 1 <= cap -> strcat cap dst src = inr (dst ++ src).
Proof. intros H. unfold strcat. by rewrite (proj2 (Z.leb_le _ _) H). Qed.

(** A column takes at least the two characters after it, so a table name that
    is cut to the array leaves no room. *)
Lemma listed_pos l : l <> [] -> 2 <= blen (listed l).
Proof.
  intros Hl. rewrite listed_comma_sep, blen_app by done. pose proof (blen_nonneg (comma_sep l)).
  lit_len. lia.
Qed.

Lemma blen_take127 (s : bytes) : blen (take 127 s) = Z.min 127 (blen s).
Proof. unfold blen. rewrite length_take. lia. Qed.

Lemma fits_cut table l :
  l <> [] ->
  fits (take 127 (table ++ c!" (")) (c!"VALUES (") l = fits (table ++ c!" (") (c!"VALUES (") l.
Proof.
  intros Hl. assert (map fst l <> []) as Hl1 by (by destruct l). apply listed_pos in Hl1.
  unfold fits. f_equal. apply eq_true_iff_eq. rewrite !Z.leb_le, blen_take127. lia.
Qed.

(** C18. The three data bases get the INSERT statement with the selected
    columns and values exactly if the columns fit into 128 bytes and the values
    into 800, table name, commas and terminator included; if not, strcat writes
    past the arrays on the stack.  A statement the data base does not accept
    ends the broker. *)
Theorem insert_arrays_correct query table info pp cp now first need l :
  selected rule_fields info pp cp now = Some l -> l <> [] ->
  if fits (table ++ c!" (") (c!"VALUES (") l then
    exists info' first' need' sent,
      insert_arrays query table info pp cp now first need
      = if query (insert_statement table l)
        then inr (info', first', need', sent ++ [insert_statement table l])
        else inl Exit
  else insert_arrays query table info pp cp now first need = inl BufferOverflow.
Proof.
  intros Hs Hl. unfold insert_arrays.
  assert (map fst l <> [] /\ map snd l <> []) as [Hl1 Hl2] by (by destruct l).
  assert (fits (take 127 (table ++ c!" (")) (c!"VALUES (") [] = true) as H0.
  { unfold fits. cbn [map listed flat_map]. change (blen []) with 0.
    apply andb_true_iff. split; apply Z.leb_le; [|lit_len; lia].
    rewrite blen_take127. lia. }
  pose proof (array_loop_spec rule_fields info pp cp now (take 127 (table ++ c!" (")) (c!"VALUES (")
    first need [] l rule_fields_NoDup Hs H0) as H.
  rewrite fits_cut in H by done. destruct (fits (table ++ c!" (") _ l) eqn:Hf; [|by rewrite H].
  destruct H as (info' & f' & n' & sent & ->). exists info', f', n', sent. cbn [bind_run].
  unfold fits in Hf. apply andb_true_iff in Hf as [H1%Z.leb_le H2%Z.leb_le].
  pose proof (listed_pos _ Hl1). rewrite take_ge by (unfold blen in *; lia).
  rewrite !close_paren_listed by done.
  rewrite !listed_comma_sep in H1, H2 by done. revert H1 H2. rewrite !blen_app. lit_len. intros H1 H2.
  pose proof (blen_nonneg (comma_sep (map fst l))). pose proof (blen_nonneg (comma_sep (map snd l))).
  pose proof (blen_nonneg table).
  rewrite strcat_small by (rewrite !blen_app; lit_len; lia). cbn [bind_run].
  rewrite strcat_small by (rewrite !blen_app; lit_len; lia). cbn [bind_run].
  rewrite strcat_small by (rewrite !blen_app; lit_len; lia). cbn [bind_run].
  rewrite <- insert_statement_parts, <- !app_assoc. done.
Qed.

End Insert.

(** ** Witness *)

Definition mysql_rule : sql_rule :=
  SqlRule FORWORD_MYSQL [] (c!"broker") [] [] (fun j => bool_decide (j ∈ [RULE_QOS; RULE_TOPIC]))
    (fun _ => None) ([] : list (@rule_payload json_numbers)).

Lemma insert_arrays_correct_witness :
  exists info' first' need' sent,
    insert_mysql (fun _ => true) mysql_rule rule_packet no_username 0 true false
    = inr (info', first', need',
           sent ++ [c!"INSERT INTO broker (Qos, Topic) VALUES (0, 'a/b') ;"]).
Proof.
  destruct (insert_arrays_correct (fun _ => true) (c!"broker") mysql_rule rule_packet no_username 0 true
    false [(c!"Qos", c!"0"); (c!"Topic", c!"'a/b'")]) as (info' & f' & n' & sent & H);
    [vm_compute; reflexivity | done |].
  exists info', f', n', sent. exact H.
Defined.

End RuleDb.
