(* ===== verification/RuleRepub.v ===== *)
(** * Republishing rules (nanomq/pub_handler.c, nanomq_rule.c)

    A rule that forwards by republishing builds a JSON object of the selected
    fields ([add_info_to_json]), prints it and publishes the text with the
    client of the rule ([nano_client_publish]).  A payload value that is an
    object is moved into the JSON object and deleted with it, while the rule
    keeps its pointer: [rp_dangling] records that, and using such a pointer is
    [UseAfterFree].  [generate_key] makes the key under which a FoundationDB rule
    stores the same text. *)

From stdpp Require Import pretty.
From S2P Require Import Prelude NngApi NngModel PubCodec RuleEngine RuleSql RuleDb WebhookEvents.

(** ** Adding parsed values to an object *)

Class CJsonItem `{J : CJson} `{B : CJsonBuild} :=
  cJSON_AddItemToObject : cJSON_obj -> bytes -> cJSON -> cJSON_obj.

Class CJsonItemLaws `{I : CJsonItem} := {
  entries : cJSON_obj -> list (bytes * (json_value + cJSON));
  entries_create : entries cJSON_CreateObject = [];
  entries_number o k n : entries (cJSON_AddNumberToObject o k n) = entries o ++ [(k, inl (JNum n))];
  entries_string o k s : entries (cJSON_AddStringToObject o k s)
    = entries o ++ match s with Some s => [(k, inl (JStr s))] | None => [] end;
  entries_item o k j : entries (cJSON_AddItemToObject o k j) = entries o ++ [(k, inr j)]
}.

Create Rewrite HintDb items.
#[export] Hint Rewrite @entries_create @entries_number @entries_string @entries_item : items.

Module RuleRepub.

Import PubCodec RuleFilter RuleSql RuleDb.

(** The member name of a field without an alias. *)
Definition json_name (j : rule_field) : bytes :=
  match j with
  | RULE_QOS => c!"qos" | RULE_ID => c!"id" | RULE_TOPIC => c!"topic" | RULE_CLIENTID => c!"clientid"
  | RULE_USERNAME => c!"username" | RULE_PASSWORD => c!"password" | RULE_TIMESTAMP => c!"timestamp"
  | RULE_PAYLOAD_ALL => c!"payload" | RULE_PAYLOAD_FIELD => []
  end.

(** nano_client_publish: the message given to nng_sendmsg.  The value returned
    is 0 whatever nng_sendmsg returns. *)
Record repub_msg := RepubMsg {
  rm_dup : bool;
  rm_qos : Z;
  rm_payload : bytes;
  rm_topic : bytes
}.

Definition nano_client_publish (topic payload : bytes) (qos : Z) : Z * repub_msg :=
  (0, RepubMsg true qos payload topic).

Section Repub.

Context `{M : NngMsg} `{J : CJson} `{B : CJsonBuild} `{I : !CJsonItem}.

(** ** The object *)

(** The loop over [info->payload] in case RULE_PAYLOAD_FIELD. *)
Fixpoint add_payload_values (jso : cJSON_obj) (l : list rule_payload) : run_error + cJSON_obj :=
  match l with
  | [] => inr jso
  | p :: l' =>
      if rp_is_store p then
        match rp_value p, rp_pas p with
        | PNum n, Some pas => add_payload_values (cJSON_AddNumberToObject jso pas n) l'
        | PStr s, Some pas => add_payload_values (cJSON_AddStringToObject jso pas (Some s)) l'
        | PObj j, Some pas =>
            if rp_dangling p then inl UseAfterFree
            else add_payload_values (cJSON_AddItemToObject jso pas j) l'
        | _, _ => add_payload_values jso l'
        end
      else add_payload_values jso l'
  end.

Definition add_info_to_json (info : sql_rule) (jso : cJSON_obj) (j : rule_field)
    (pp : pub_packet_struct) (cp : conn_param) (now : Z) : run_error + cJSON_obj :=
  if sr_flag info j then
    let name := default (json_name j) (sr_as info j) in
    match j with
    | RULE_QOS => inr (cJSON_AddNumberToObject jso name (fh_qos (pp_fixed pp)))
    | RULE_ID => inr (cJSON_AddNumberToObject jso name (pp_packet_id pp))
    | RULE_TOPIC => inr (cJSON_AddStringToObject jso name (pb_topic (pp_publish pp)))
    | RULE_CLIENTID => inr (cJSON_AddStringToObject jso name (conn_param_get_clientid cp))
    | RULE_USERNAME => inr (cJSON_AddStringToObject jso name (conn_param_get_username cp))
    | RULE_PASSWORD => inr (cJSON_AddStringToObject jso name (conn_param_get_password cp))
    | RULE_TIMESTAMP => inr (cJSON_AddNumberToObject jso name now)
    | RULE_PAYLOAD_ALL =>
        match cJSON_ParseWithLength (pp_payload pp) (pp_payload_len pp) with
        | Some jp => inr (cJSON_AddItemToObject jso name jp)
        | None => inr (cJSON_AddStringToObject jso name (c_str <$> pp_payload pp))
        end
    | RULE_PAYLOAD_FIELD => add_payload_values jso (sr_payload info)
    end
  else inr jso.

Fixpoint add_infos (info : sql_rule) (jso : cJSON_obj) (js : list rule_field)
    (pp : pub_packet_struct) (cp : conn_param) (now : Z) : run_error + cJSON_obj :=
  match js with
  | [] => inr jso
  | j :: js' => bind_run (add_info_to_json info jso j pp cp now)
                  (fun jso => add_infos info jso js' pp cp now)
  end.

(** cJSON_Delete(jso) deletes the objects that were moved into it. *)
Definition moved (p : rule_payload) : bool :=
  match rp_is_store p, rp_value p, rp_pas p with true, PObj _, Some _ => true | _, _, _ => false end.

Definition release (p : rule_payload) : rule_payload :=
  RulePayload (rp_psa p) (rp_pas p) (rp_filter p) (rp_cmp_type p) (rp_is_store p) (rp_value p)
    (rp_dangling p || moved p).

Definition with_payload (info : sql_rule) (l : list rule_payload) : sql_rule :=
  SqlRule (sr_forword_type info) (sr_sqlite_table info) (sr_mysql_table info) (sr_postgresql_table info)
    (sr_timescaledb_table info) (sr_flag info) (sr_as info) l.

Definition delete_json (info : sql_rule) : sql_rule :=
  if sr_flag info RULE_PAYLOAD_FIELD then with_payload info (map release (sr_payload info)) else info.

(** The branch of rule_engine_insert_sql for republishing rules: the message
    that is published, and the rule afterwards. *)
Definition republish (info : sql_rule) (topic : bytes) (pp : pub_packet_struct) (cp : conn_param)
    (now : Z) : run_error + (repub_msg * sql_rule) :=
  bind_run (add_infos info cJSON_CreateObject rule_fields pp cp now) (fun jso =>
    inr (snd (nano_client_publish topic (cJSON_Print jso) 0), delete_json info)).

(** ** What it should hold *)

Definition payload_entries (l : list rule_payload) : list (bytes * (json_value + cJSON)) :=
  flat_map (fun p =>
    match rp_is_store p, rp_pas p, rp_value p with
    | true, Some pas, PNum n => [(pas, inl (JNum n))]
    | true, Some pas, PStr s => [(pas, inl (JStr s))]
    | true, Some pas, PObj j => [(pas, inr j)]
    | _, _, _ => []
    end) l.

(** The members a selected field contributes. *)
Definition field_entries (info : sql_rule) (pp : pub_packet_struct) (cp : conn_param) (now : Z)
    (j : rule_field) : list (bytes * (json_value + cJSON)) :=
  let name := default (json_name j) (sr_as info j) in
  let str (s : option bytes) := match s with Some s => [(name, inl (JStr s))] | None => [] end in
  match j with
  | RULE_QOS => [(name, inl (JNum (fh_qos (pp_fixed pp))))]
  | RULE_ID => [(name, inl (JNum (pp_packet_id pp)))]
  | RULE_TOPIC => str (pb_topic (pp_publish pp))
  | RULE_CLIENTID => str (conn_param_get_clientid cp)
  | RULE_USERNAME => str (conn_param_get_username cp)
  | RULE_PASSWORD => str (conn_param_get_password cp)
  | RULE_TIMESTAMP => [(name, inl (JNum now))]
  | RULE_PAYLOAD_ALL =>
      match cJSON_ParseWithLength (pp_payload pp) (pp_payload_len pp) with
      | Some jp => [(name, inr jp)]
      | None => str (c_str <$> pp_payload pp)
      end
  | RULE_PAYLOAD_FIELD => payload_entries (sr_payload info)
  end.

Definition selected_entries (info : sql_rule) (pp : pub_packet_struct) (cp : conn_param) (now : Z)
  : list (bytes * (json_value + cJSON)) :=
  flat_map (field_entries info pp cp now) (filter (fun j => sr_flag info j) rule_fields).

(** No value to be moved has been deleted. *)
Definition no_dangling (l : list rule_payload) : Prop :=
  Forall (fun p => rp_dangling p = true -> moved p = false) l.

Context `{L : !CJsonItemLaws}.

Lemma add_payload_values_spec jso l :
  no_dangling l ->
  exists o, add_payload_values jso l = inr o /\ entries o = entries jso ++ payload_entries l.
Proof.
  intros Hl. revert jso. induction Hl as [|p l Hp Hl IH]; intros jso; cbn [add_payload_values].
  { exists jso. by rewrite app_nil_r. }
  unfold payload_entries in *. cbn [flat_map]. unfold moved in Hp.
  destruct (rp_is_store p); [|apply IH].
  destruct (rp_value p) as [|n|s|j], (rp_pas p) as [pas|]; try apply IH.
  - destruct (IH (cJSON_AddNumberToObject jso pas n)) as (o & -> & Ho). exists o. split; [done|].
    rewrite Ho. autorewrite with items. by rewrite <- app_assoc.
  - destruct (IH (cJSON_AddStringToObject jso pas (Some s))) as (o & -> & Ho). exists o. split; [done|].
    rewrite Ho. autorewrite with items. by rewrite <- app_assoc.
  - destruct (rp_dangling p); [by specialize (Hp eq_refl)|].
    destruct (IH (cJSON_AddItemToObject jso pas j)) as (o & -> & Ho). exists o. split; [done|].
    rewrite Ho. autorewrite with items. by rewrite <- app_assoc.
Qed.

Lemma add_info_spec info jso j pp cp now :
  no_dangling (sr_payload info) ->
  exists o, add_info_to_json info jso j pp cp now = inr o /\
    entries o = entries jso ++ (if sr_flag info j then field_entries info pp cp now j else []).
Proof.
  intros Hl. unfold add_info_to_json. destruct (sr_flag info j).
  2:{ exists jso. by rewrite app_nil_r. }
  destruct j; cbn [field_entries]; try (eexists; split; [reflexivity|by autorewrite with items]).
  - destruct (cJSON_ParseWithLength _ _) as [jp|]; eexists; (split; [reflexivity|by autorewrite with items]).
  - by apply add_payload_values_spec.
Qed.

Lemma add_infos_spec info js jso pp cp now :
  no_dangling (sr_payload info) ->
  exists o, add_infos info jso js pp cp now = inr o /\
    entries o = entries jso ++ flat_map (field_entries info pp cp now) (filter (fun j => sr_flag info j) js).
Proof.
  intros Hl. revert jso. induction js as [|j js IH]; intros jso; cbn [add_infos].
  { exists jso. by rewrite app_nil_r. }
  destruct (add_info_spec info jso j pp cp now Hl) as (o & -> & Ho). cbn [bind_run].
  destruct (IH o) as (o' & -> & Ho'). exists o'. split; [done|]. rewrite Ho', Ho, <- app_assoc. f_equal.
  rewrite filter_cons. by destruct (sr_flag info j).
Qed.

Lemma republish_ready info topic pp cp now :
  no_dangling (sr_payload info) ->
  exists o, entries o = selected_entries info pp cp now /\
    republish info topic pp cp now = inr (RepubMsg true 0 (cJSON_Print o) topic, delete_json info).
Proof.
  intros Hl. unfold republish.
  destruct (add_infos_spec info rule_fields cJSON_CreateObject pp cp now Hl) as (o & -> & Ho).
  autorewrite with items in Ho. by exists o.
Qed.

(** A republishing rule none of whose payload values has been deleted ends, and
    publishes to the rule's topic at QoS 0 the text of the object that has
    exactly the members of the selected fields, in the order of the fields,
    under their aliases; the DUP flag is set, which MQTT forbids at QoS 0.
    Afterwards every object it held is deleted while the rule still points to
    it. *)
Theorem republish_correct info topic pp cp now :
  no_dangling (sr_payload info) ->
  exists o, entries o = selected_entries info pp cp now /\
    republish info topic pp cp now
    = inr (RepubMsg true 0 (cJSON_Print o) topic, delete_json info) /\
    (sr_flag info RULE_PAYLOAD_FIELD = true ->
     Forall (fun p => moved p = true -> rp_dangling p = true) (sr_payload (delete_json info))).
Proof.
  intros Hl. destruct (republish_ready info topic pp cp now Hl) as (o & Ho & E).
  exists o. split_and!; [done..|]. intros Hf. unfold delete_json. rewrite Hf.
  cbn [sr_payload with_payload]. apply Forall_map, Forall_true. intros p.
  change (moved (release p)) with (moved p). cbn [compose release rp_dangling]. intros ->. apply orb_true_r.
Qed.

(** ** Deleted values *)

Lemma add_payload_uaf jso l :
  Exists (fun p => rp_dangling p = true /\ moved p = true) l -> add_payload_values jso l = inl UseAfterFree.
Proof.
  intros Hl. revert jso. induction Hl as [p l [Hd Hm]|p l Hl IH]; intros jso; cbn [add_payload_values].
  - unfold moved in Hm. destruct (rp_is_store p), (rp_value p), (rp_pas p); try done. by rewrite Hd.
  - destruct (rp_is_store p); [|apply IH].
    destruct (rp_value p), (rp_pas p); try apply IH. destruct (rp_dangling p); [done|apply IH].
Qed.

Lemma add_infos_uaf info js jso pp cp now :
  RULE_PAYLOAD_FIELD ∈ js -> sr_flag info RULE_PAYLOAD_FIELD = true ->
  Exists (fun p => rp_dangling p = true /\ moved p = true) (sr_payload info) ->
  add_infos info jso js pp cp now = inl UseAfterFree.
Proof.
  intros Hj Hf Hl. revert jso. induction js as [|j js IH]; intros jso; [by apply not_elem_of_nil in Hj|].
  cbn [add_infos]. unfold add_info_to_json.
  destruct (decide (j = RULE_PAYLOAD_FIELD)) as [->|Hne].
  { rewrite Hf, add_payload_uaf by done. done. }
  assert (RULE_PAYLOAD_FIELD ∈ js) as Hin
    by (apply elem_of_cons in Hj as [E|?]; [by destruct Hne|done]).
  destruct (sr_flag info j); [|by apply IH].
  destruct j; try done; try (by apply IH). destruct (cJSON_ParseWithLength _ _); by apply IH.
Qed.

(** ** Keys *)

(** The key of a rule: a field and whether a counter is appended. *)
Record rule_key := RuleKey {
  rk_flag : rule_field -> bool;
  rk_auto_inc : bool;
  rk_key_arr : list bytes
}.

(** What is printed before the counter; [None] prints nothing. *)
Definition key_text (key : rule_key) (j : rule_field) (pp : pub_packet_struct) (cp : conn_param)
    (now : Z) : run_error + option bytes :=
  let str (s : option bytes) := match s with Some s => inr (Some s) | None => inl NullDeref end in
  match j with
  | RULE_QOS => inr (Some (dec (fh_qos (pp_fixed pp))))
  | RULE_ID => inr (Some (dec (pp_packet_id pp)))
  | RULE_TOPIC => str (pb_topic (pp_publish pp))
  | RULE_CLIENTID => str (conn_param_get_clientid cp)
  | RULE_USERNAME => str (conn_param_get_username cp)
  | RULE_PASSWORD => str (conn_param_get_password cp)
  | RULE_TIMESTAMP => inr (Some (dec now))
  | RULE_PAYLOAD_ALL => str (c_str <$> pp_payload pp)
  | RULE_PAYLOAD_FIELD =>
      match walk (cJSON_ParseWithLength (pp_payload pp) (pp_payload_len pp)) (rk_key_arr key) with
      | None => inl NullDeref
      | Some jp =>
          match cJSON_type jp with
          | cJSON_String => inr (Some (cJSON_GetStringValue jp))
          | cJSON_Number => inr (Some (dec (cJSON_GetNumberValue jp)))
          | _ => inr None
          end
      end
  end.

(** The key, printed into [char str[64]], and the static counter afterwards. *)
Definition generate_key (index : Z) (key : rule_key) (j : rule_field) (pp : pub_packet_struct)
    (cp : conn_param) (now : Z) : run_error + (option bytes * Z) :=
  let index := if index =? 4294967295 then 0 else index in
  if negb (rk_flag key j) then inr (None, index)
  else
    bind_run (key_text key j pp cp now) (fun t =>
      match t with
      | None => inr (None, index)
      | Some s =>
          let '(str, index) :=
            if rk_auto_inc key then (s ++ dec (i32 index), u32 (index + 1)) else (s, index) in
          if blen str + 1 <=? 64 then inr (if blen str =? 0 then None else Some str, index)
          else inl BufferOverflow
      end).

End Repub.

Section Keys.

Context `{M : NngMsg} `{J : CJson}.

(** The key of a field whose text has at most 52 bytes is written inside
    the array, with the counter appended if there is one, and the counter goes
    on; a text of 64 bytes or more overflows the array, and a client chooses its
    topic, client id and payload. *)
Theorem generate_key_bounds index key j pp cp now s :
  0 <= index < 4294967295 -> rk_flag key j = true -> key_text key j pp cp now = inr (Some s) ->
  (0 < blen s <= 52 -> generate_key index key j pp cp now
     = inr (if rk_auto_inc key then (Some (s ++ dec (i32 index)), index + 1) else (Some s, index))) /\
  (64 <= blen s -> generate_key index key j pp cp now = inl BufferOverflow).
Proof.
  intros Hi Hf Ht. unfold generate_key. rewrite Hf, Ht. cbn [negb bind_run].
  rewrite (proj2 (Z.eqb_neq index 4294967295)), u32_small by lia.
  pose proof (dec_i32_length index) as Hd. assert (0 <= blen (dec (i32 index))) by (unfold blen; lia).
  split; intros Hs; destruct (rk_auto_inc key); rewrite ?blen_app.
  - rewrite (proj2 (Z.leb_le _ _)), (proj2 (Z.eqb_neq _ _)) by lia. done.
  - rewrite (proj2 (Z.leb_le _ _)), (proj2 (Z.eqb_neq _ _)) by lia. done.
  - rewrite (proj2 (Z.leb_gt _ _)) by lia. done.
  - rewrite (proj2 (Z.leb_gt _ _)) by lia. done.
Qed.

(** Keys of one text differ as long as the counter does not repeat. *)
Lemma generate_key_distinct i i' (s : bytes) :
  -2147483648 <= i < 2147483648 -> -2147483648 <= i' < 2147483648 ->
  s ++ dec (i32 i) = s ++ dec (i32 i') -> i = i'.
Proof.
  intros Hi Hi' E. apply app_inv_head in E. rewrite !i32_small in E by lia.
  apply (inj pretty). revert E. unfold dec. generalize (pretty i), (pretty i'). clear.
  intros a. induction a as [|c a IH]; intros [|c' a'] E; try done. cbn in E. injection E as E1 E2.
  f_equal; [|by apply IH]. apply Nat2Z.inj in E1.
  by rewrite <- (Ascii.ascii_nat_embedding c), <- (Ascii.ascii_nat_embedding c'), E1.
Qed.

End Keys.

(** ** Witnesses

    Objects with at most a member "x" as JSON values; of the texts only the
    object whose "x" is the empty object, and numbers, are parsed. *)

Inductive jtree := Leaf (n : Z) | Empty | With_x (t : jtree).

Definition x_object : bytes := [123; 34; 120; 34; 58; 123; 125; 125].

Definition tree_parse (s : bytes) : option jtree :=
  if decide (s = x_object) then Some (With_x Empty) else Leaf <$> json_number s.

Definition tree_item (t : jtree) (k : bytes) : option jtree :=
  match t with
  | Leaf _ | Empty => None
  | With_x t' => if decide (k = c!"x") then Some t' else None
  end.

#[export] Instance jtrees : CJson := {|
  cJSON := jtree;
  cJSON_ParseWithLength s n := s ← s; tree_parse (take (Z.to_nat n) s);
  cJSON_Parse s := s ← s; tree_parse s;
  cJSON_GetObjectItem := tree_item;
  cJSON_type t := match t with Leaf _ => cJSON_Number | _ => cJSON_Object end;
  cJSON_GetNumberValue t := match t with Leaf n => n | _ => 0 end;
  cJSON_GetStringValue _ := [];
  cJSON_Compare t t' := match t, t' with Leaf n, Leaf n' => n =? n' | _, _ => false end;
  cJSON_PrintUnformatted t := match t with Leaf n => dec n | Empty => c!"{}" | With_x _ => x_object end
|}.

(** Objects are lists of members, printed as their names. *)
#[export] Instance tree_build : CJsonBuild := {|
  cJSON_obj := list (bytes * (json_value + jtree));
  cJSON_CreateObject := [];
  cJSON_AddNumberToObject o k n := o ++ [(k, inl (JNum n))];
  cJSON_AddStringToObject o k s := o ++ match s with Some s => [(k, inl (JStr s))] | None => [] end;
  cJSON_AddBoolToObject o k b := o ++ [(k, inl (JBool b))];
  cJSON_AddNullToObject o k := o ++ [(k, inl JNull)];
  cJSON_Print o := flat_map (fun e => fst e ++ c!" ") o
|}.

#[export] Instance tree_items : CJsonItem :=
  fun (o : list (bytes * (json_value + jtree))) k t => o ++ [(k, inr t)].

#[export] Instance tree_laws : CJsonItemLaws.
Proof.
  refine {| entries := (fun o => o) : cJSON_obj -> list (bytes * (json_value + jtree)) |}; done.
Defined.

(** SELECT topic, payload.x AS x FROM ... *)
Definition repub_info (v : payload_value) : sql_rule :=
  SqlRule FORWORD_REPUB [] [] [] [] (fun j => bool_decide (j ∈ [RULE_TOPIC; RULE_PAYLOAD_FIELD])) (fun _ => None)
    [RulePayload [c!"x"] (Some (c!"x")) None RULE_CMP_NONE true v false].

Lemma republish_correct_witness :
  exists o, entries o = [(c!"topic", inl (JStr (c!"a/b"))); (c!"x", inl (JNum 7))] /\
    republish (repub_info (PNum 7)) (c!"out") rule_packet no_username 0
    = inr (RepubMsg true 0 (cJSON_Print o) (c!"out"), delete_json (repub_info (PNum 7))).
Proof.
  destruct (republish_correct (repub_info (PNum 7)) (c!"out") rule_packet no_username 0) as (o & Ho & E & _).
  - by repeat constructor.
  - exists o. split; [rewrite Ho; vm_compute; reflexivity|exact E].
Defined.

Definition topic_key : rule_key := RuleKey (fun j => bool_decide (j = RULE_TOPIC)) true [].

Definition long_packet : @pub_packet_struct Model.msgs :=
  PubPacket (FixedHeader 0 0 0 3 7) 0 (PublishHeader (Some (repeat 97 64)) 64 None 0)
    (PubArrcHeader 0 None 0) (Some (c!"25")) 2.

Lemma generate_key_bounds_witness :
  generate_key 12 topic_key RULE_TOPIC rule_packet no_username 0 = inr (Some (c!"a/b12"), 13) /\
  generate_key 12 topic_key RULE_TOPIC long_packet no_username 0 = inl BufferOverflow.
Proof.
  split.
  - apply (generate_key_bounds 12 topic_key RULE_TOPIC rule_packet no_username 0 (c!"a/b")); [lia|done|done|by vm_compute].
  - apply (generate_key_bounds 12 topic_key RULE_TOPIC long_packet no_username 0 (repeat 97 64)); [lia|done|done|by vm_compute].
Defined.

End RuleRepub.
