(* ===== verification/RuleLoop.v ===== *)
(** * The rule engine's loop over the rules (nanomq/pub_handler.c)

    [rule_engine_insert_sql] evaluates every enabled rule on a message and
    forwards the message by the kind of the rule: it is republished, or written
    to SQLite, MySQL, PostgreSQL or TimescaleDB.  The values a rule has found in
    the payload stay in the rule from one message to the next.  The result is
    the error that ends the run, or the code, the engine afterwards and the
    messages and statements sent. *)

From S2P Require Import Prelude NngApi NngModel PubCodec RuleEngine RuleSql RuleDb WebhookEvents RuleRepub.

Module RuleLoop.

Import PubCodec RuleFilter Sbuf RuleSql RuleDb RuleRepub.

#[export] Instance forword_type_eq_dec : EqDecision forword_type.
Proof. solve_decision. Defined.

(** The next step of a chain of fallible ones has succeeded. *)
Local Ltac next_some :=
  match goal with |- mbind _ ?x = Some _ -> _ => destruct x; cbn [mbind option_bind]; [|done] end.

(** Messages and statements sent. *)
Inductive rule_action := Published (m : repub_msg) | Executed (t : forword_type) (sql : list bytes).

(** What the engine meets: [ee_on] is whether the bit of the kind is set in
    rule_eng.option, [ee_query] whether a data base accepts a statement,
    [ee_connect] whether it accepts a connection. *)
Record engine_env := EngineEnv {
  ee_on : forword_type -> bool;
  ee_exists_col : bytes -> bytes -> bool;
  ee_query : forword_type -> bytes -> bool;
  ee_connect : forword_type -> bool
}.

Section Loop.

Context `{M : NngMsg} `{TF : TopicFilter} `{J : CJson} `{B : CJsonBuild} `{I : !CJsonItem}.

(** [er_repub] is the client id and the topic of the object [repub]. *)
Record engine_rule := EngineRule {
  er_enabled : bool;
  er_topic : bytes;
  er_filter : option (rule_field -> option bytes);
  er_cmp_type : rule_field -> rule_cmp_type;
  er_repub : option (option bytes * bytes);
  er_info : sql_rule
}.

Definition er_type (r : engine_rule) : forword_type := sr_forword_type (er_info r).

Definition with_info (r : engine_rule) (info : sql_rule) : engine_rule :=
  EngineRule (er_enabled r) (er_topic r) (er_filter r) (er_cmp_type r) (er_repub r) info.

(** The rule as [rule_engine_filter] sees it. *)
Definition filter_view (r : engine_rule) : option rule :=
  let view cid := Rule cid (er_topic r) (er_filter r) (er_cmp_type r) (sr_payload (er_info r)) in
  match er_type r with
  | FORWORD_REPUB => '(cid, _) ← er_repub r; Some (view (Some cid))
  | _ => Some (view None)
  end.

(** The rules, the static flags is_first_time, the local ones is_need_set, and
    whether the worker has a connection. *)
Record engine := Engine {
  en_rules : list engine_rule;
  en_first : forword_type -> bool;
  en_need : forword_type -> bool;
  en_conn : forword_type -> bool
}.

Definition set_rules (en : engine) (l : list engine_rule) : engine :=
  Engine l (en_first en) (en_need en) (en_conn en).
Definition set_info (en : engine) (i : nat) (r : engine_rule) (info : sql_rule) : engine :=
  set_rules en (<[i := with_info r info]> (en_rules en)).
Definition set_flags (en : engine) (t : forword_type) (first need conn : bool) : engine :=
  let upd (f : forword_type -> bool) b t' := if decide (t' = t) then b else f t' in
  Engine (en_rules en) (upd (en_first en) first) (upd (en_need en) need) (upd (en_conn en) conn).

(** The forwarding of rule number [i]; the flag is whether the function
    returns 1 at once. *)
Definition forward (e : engine_env) (en : engine) (i : nat) (r : engine_rule)
    (pp : pub_packet_struct) (cp : conn_param) (now : Z) : run_error + (bool * engine * list rule_action) :=
  let t := er_type r in
  let first := en_first en t in
  let need := en_need en t in
  let done_db (res : sql_rule * bool * bool * list bytes) (conn : bool) :=
    let '(info, first, need, sent) := res in
    inr (false, set_flags (set_info en i r info) t first need conn, [Executed t sent]) in
  match t with
  | FORWORD_REPUB =>
      match er_repub r with
      | None => inl NullDeref
      | Some (_, topic) =>
          bind_run (republish (er_info r) topic pp cp now) (fun '(m, info) =>
            inr (false, set_info en i r info, [Published m]))
      end
  | FORWORD_SQLITE =>
      match insert_sqlite_call (ee_query e t) (ee_exists_col e) (map er_info (en_rules en)) i pp cp now
              first need with
      | None => inl OutOfBounds
      | Some (rc, infos, first, need, sent) =>
          inr (negb (rc =? 0),
               set_flags (set_rules en (zip_with with_info (en_rules en) infos)) t first need (en_conn en t),
               [Executed t sent])
      end
  | FORWORD_MYSQL =>
      bind_run (insert_mysql (ee_query e t) (er_info r) pp cp now first need) (fun res =>
        done_db res (en_conn en t))
  | FORWORD_POSTGRESQL =>
      bind_run (insert_postgresql (ee_query e t) (ee_connect e t) (en_conn en t) (er_info r) pp cp now first need)
        (fun '(conn, res) => done_db res conn)
  | FORWORD_TIMESCALEDB =>
      bind_run (insert_timescaledb (ee_query e t) (ee_connect e t) (en_conn en t) (er_info r) pp cp now first need)
        (fun '(conn, res) => done_db res conn)
  | FORWORD_OTHER => inr (false, en, [])
  end.

(** One round of the loop. *)
Definition rule_round (e : engine_env) (en : engine) (i : nat) (pp : pub_packet_struct)
    (cp : conn_param) (now : Z) : run_error + (bool * engine * list rule_action) :=
  match en_rules en !! i with
  | None => inl OutOfBounds
  | Some r =>
      if negb (er_enabled r) then inr (false, en, [])
      else
        match filter_view r ≫= (fun v => rule_engine_filter pp cp v now) with
        | None => inl NullDeref
        | Some (b, pl) =>
            let r := with_info r (with_payload (er_info r) pl) in
            let en := set_rules en (<[i := r]> (en_rules en)) in
            if negb b || negb (ee_on e (er_type r)) then inr (false, en, [])
            else forward e en i r pp cp now
        end
  end.

Fixpoint rule_rounds (e : engine_env) (en : engine) (ixs : list nat) (pp : pub_packet_struct)
    (cp : conn_param) (now : Z) : run_error + (Z * engine * list rule_action) :=
  match ixs with
  | [] => inr (0, en, [])
  | i :: ixs' =>
      bind_run (rule_round e en i pp cp now) (fun '(stop, en, acts) =>
        if (stop : bool) then inr (1, en, acts)
        else bind_run (rule_rounds e en ixs' pp cp now) (fun '(rc, en, acts') =>
               inr (rc, en, acts ++ acts')))
  end.

Definition rule_engine_insert_sql (e : engine_env) (en : engine) (pp : pub_packet_struct)
    (cp : conn_param) (now : Z) : run_error + (Z * engine * list rule_action) :=
  let en := Engine (en_rules en) (en_first en) (fun _ => false) (en_conn en) in
  rule_rounds e en (seq 0 (length (en_rules en))) pp cp now.

(** ** The configuration is not changed *)

Definition conf_of (r : engine_rule) : engine_rule := with_info r (with_payload (er_info r) []).

Lemma consume_conf info j : with_payload (consume info j) [] = with_payload info [].
Proof. by destruct j. Qed.

Lemma insert_loop_conf js info ec pp cp now k v f n ex info' k' v' f' n' ex' :
  insert_loop js info ec pp cp now k v f n ex = Some (info', k', v', f', n', ex') ->
  with_payload info' [] = with_payload info [].
Proof.
  induction js as [|j js IH] in info, k, v, f, n, ex |- *; cbn [insert_loop]; [by intros [= <- <- <- <- <- <-]|].
  destruct (compose_sql_clause_new _ _ _ _ _ _ _ _ _) as [[[[info1 k1] v1] ret]|] eqn:E; cbn [mbind option_bind]; [|done].
  intros ->%IH. unfold compose_sql_clause_new in E.
  destruct (sr_flag info j); cbn [negb] in E; [|by injection E as <- <- <- <-].
  destruct (columns _ _ _ _ _); cbn [mbind option_bind] in E; [|done].
  destruct (sbuf_append k _); cbn [mbind option_bind] in E; [|done].
  destruct (sbuf_append v _); cbn [mbind option_bind] in E; [|done].
  injection E as <- <- <- <-. apply consume_conf.
Qed.

Lemma array_loop_conf js info pp cp now k v f n s info' k' v' f' n' s' :
  array_loop js info pp cp now k v f n s = inr (info', k', v', f', n', s') ->
  with_payload info' [] = with_payload info [].
Proof.
  induction js as [|j js IH] in info, k, v, f, n, s |- *; cbn [array_loop]; [by intros [= <- <- <- <- <- <-]|].
  destruct (compose_in_arrays _ _ _ _ _ _ _ _) as [|[[[info1 k1] v1] ret]] eqn:E; cbn [bind_run]; [done|].
  assert (with_payload info1 [] = with_payload info []) as <-.
  { unfold compose_in_arrays, compose_sql_clause in E.
    destruct (sr_flag info j); cbn [negb] in E.
    - destruct (columns _ _ _ _ _); cbn [mbind option_bind] in E; [|done].
      destruct (_ && _); [|done]. injection E as <- <- <- <-. apply consume_conf.
    - destruct (_ && _); [|done]. by injection E as <- <- <- <-. }
  destruct ret as [r|]; [destruct (if f then true else n)|]; apply IH.
Qed.

Lemma insert_arrays_conf q tb info pp cp now f n info' f' n' s' :
  insert_arrays q tb info pp cp now f n = inr (info', f', n', s') ->
  with_payload info' [] = with_payload info [].
Proof.
  unfold insert_arrays. destruct (array_loop _ _ _ _ _ _ _ _ _ _) as [|[[[[[i1 k1] v1] f1] n1] s1]] eqn:E; cbn [bind_run]; [done|].
  destruct (close_paren k1), (close_paren v1); try done.
  do 3 (destruct (strcat _ _ _); cbn [bind_run]; [done|]). destruct (q _); [|done].
  intros [= <- <- <- <-]. by eapply array_loop_conf.
Qed.

Lemma insert_sqlite_conf q ec infos i pp cp now f n rc infos' f' n' s' :
  insert_sqlite_call q ec infos i pp cp now f n = Some (rc, infos', f', n', s') ->
  map (fun x => with_payload x []) infos' = map (fun x => with_payload x []) infos.
Proof.
  unfold insert_sqlite_call.
  destruct (rule_engine_insert_sqlite _ _ _ _ _ _ _ _ _) as [[[[[rc1 rest] f1] n1] s1]|] eqn:E; cbn [mbind option_bind]; [|done].
  intros [= <- <- <- <- <-]. rewrite map_app. rewrite <- (take_drop i infos) at 2. rewrite map_app. f_equal.
  revert E. unfold rule_engine_insert_sqlite. destruct (drop i infos !! i) as [info|] eqn:Hi; cbn [mbind option_bind]; [|done].
  do 3 next_some.
  destruct (insert_loop _ _ _ _ _ _ _ _ _ _ _) as [[[[[[i1 k1] v1] f2] n2] s3]|] eqn:E; cbn [mbind option_bind]; [|done].
  apply insert_loop_conf in E.
  assert (map (fun x => with_payload x []) (<[i := i1]> (drop i infos)) = map (fun x => with_payload x []) (drop i infos)) as Hm.
  { rewrite list_fmap_insert, E. apply list_insert_id. etrans; [apply list_lookup_fmap|].
    by rewrite Hi. }
  destruct (close_paren (sb_buf k1)), (close_paren (sb_buf v1)); try (by intros [= <- <- <- <- <-]).
  do 3 next_some. by intros [= <- <- <- <- <-].
Qed.

Lemma conf_insert l i r r' :
  l !! i = Some r -> conf_of r' = conf_of r -> map conf_of (<[i := r']> l) = map conf_of l.
Proof.
  intros Hi E. rewrite list_fmap_insert, E. apply list_insert_id. etrans; [apply list_lookup_fmap|].
  by rewrite Hi.
Qed.

Lemma conf_zip l infos :
  map (fun x => with_payload x []) infos = map (fun x => with_payload x []) (map er_info l) ->
  map conf_of (zip_with with_info l infos) = map conf_of l.
Proof.
  induction l as [|r l IH] in infos |- *; destruct infos as [|i infos]; try done.
  cbn [map zip_with]. intros E. pose proof (f_equal head E) as E1. pose proof (f_equal tail E) as E2.
  cbn [head tail] in E1, E2. rewrite IH by done. f_equal.
  unfold conf_of. cbn [er_info with_info]. f_equal. exact (inj Some _ _ E1).
Qed.

Lemma conf_with_info r info :
  with_payload info [] = with_payload (er_info r) [] -> conf_of (with_info r info) = conf_of r.
Proof. intros E. unfold conf_of. cbn [er_info with_info]. by rewrite E. Qed.

Lemma forward_conf e en i r pp cp now stop en' acts :
  en_rules en !! i = Some r -> forward e en i r pp cp now = inr (stop, en', acts) ->
  map conf_of (en_rules en') = map conf_of (en_rules en).
Proof.
  intros Hi. unfold forward.
  assert (forall info, with_payload info [] = with_payload (er_info r) [] ->
    map conf_of (<[i := with_info r info]> (en_rules en)) = map conf_of (en_rules en)) as Hset
    by (intros info E; eapply conf_insert, conf_with_info; done).
  destruct (er_type r).
  - destruct (insert_sqlite_call _ _ _ _ _ _ _ _ _) as [[[[[rc infos] f] n] s]|] eqn:E; [|done].
    intros [= <- <- <-]. cbn. by eapply conf_zip, insert_sqlite_conf.
  - unfold insert_mysql. destruct (insert_arrays _ _ _ _ _ _ _ _) as [|[[[info f] n] s]] eqn:E; [done|].
    intros [= <- <- <-]. cbn. by eapply Hset, insert_arrays_conf.
  - unfold insert_postgresql. destruct (_ && _); [done|].
    destruct (insert_arrays _ _ _ _ _ _ _ _) as [|[[[info f] n] s]] eqn:E; [done|].
    intros [= <- <- <-]. cbn. by eapply Hset, insert_arrays_conf.
  - unfold insert_timescaledb. destruct (_ && _); [done|].
    destruct (insert_arrays _ _ _ _ _ _ _ _) as [|[[[info f] n] s]] eqn:E; [done|].
    intros [= <- <- <-]. cbn. by eapply Hset, insert_arrays_conf.
  - destruct (er_repub r) as [[cid topic]|]; [|done]. unfold republish.
    destruct (add_infos _ _ _ _ _ _) as [|jso]; [done|]. intros [= <- <- <-]. cbn. apply Hset.
    unfold delete_json. by destruct (sr_flag _ _).
  - by intros [= <- <- <-].
Qed.

Lemma round_conf e en i pp cp now stop en' acts :
  rule_round e en i pp cp now = inr (stop, en', acts) ->
  map conf_of (en_rules en') = map conf_of (en_rules en).
Proof.
  unfold rule_round. destruct (en_rules en !! i) as [r|] eqn:Hi; [|done].
  destruct (negb (er_enabled r)); [by intros [= <- <- <-]|].
  destruct (filter_view r ≫= _) as [[b pl]|]; [|done].
  set (r' := with_info r _).
  assert (map conf_of (<[i := r']> (en_rules en)) = map conf_of (en_rules en)) as Hs
    by (eapply conf_insert, conf_with_info; done).
  destruct (_ || _); [by intros [= <- <- <-]|].
  intros E. apply forward_conf in E; [by rewrite E|].
  cbn. rewrite list_lookup_insert_eq; [done|]. by eapply lookup_lt_Some.
Qed.

Lemma rounds_conf e ixs en pp cp now rc en' acts :
  rule_rounds e en ixs pp cp now = inr (rc, en', acts) ->
  map conf_of (en_rules en') = map conf_of (en_rules en).
Proof.
  induction ixs as [|i ixs IH] in en, rc, en', acts |- *; cbn [rule_rounds]; [by intros [= <- <- <-]|].
  destruct (rule_round e en i pp cp now) as [|[[stop en1] a1]] eqn:E1; cbn [bind_run]; [done|].
  apply round_conf in E1. destruct stop; [by intros [= <- <- <-]|].
  destruct (rule_rounds e en1 ixs pp cp now) as [|[[rc2 en2] a2]] eqn:E2; cbn [bind_run]; [done|].
  intros [= <- <- <-]. rewrite <- E1. by eapply IH.
Qed.

(** Whatever the rules are and whatever the data bases answer, a message
    changes nothing of the rules but the payload values they hold: their number,
    order, conditions, selected fields, aliases and tables stay. *)
Theorem engine_config_stable e en pp cp now rc en' acts :
  rule_engine_insert_sql e en pp cp now = inr (rc, en', acts) ->
  map conf_of (en_rules en') = map conf_of (en_rules en).
Proof. intros E. exact (rounds_conf _ _ _ _ _ _ _ _ _ E). Qed.

(** ** What is republished *)

Lemma payload_loop_dangling jp l b b' l' :
  payload_loop jp l b = (b', l') -> no_dangling l -> no_dangling l'.
Proof.
  intros E Hl. revert b b' l' E. induction Hl as [|p l Hp Hl IH]; intros b b' l'; cbn [payload_loop].
  { intros [= <- <-]. constructor. }
  destruct (walk jp (rp_psa p)) as [j|]; [|by intros [= <- <-]; constructor].
  destruct (negb b); [by intros [= <- <-]; constructor|].
  destruct (payload_switch p j) as [ok p'] eqn:Es.
  destruct (payload_loop jp l _) as [f l1] eqn:El. intros [= <- <-]. constructor; [|by eapply IH].
  revert Es. unfold payload_switch. repeat case_match; intros Es; simplify_eq; done.
Qed.

Lemma field_loop_dangling pp cp info now vals js pl b pl' :
  field_loop pp cp info now vals js pl = Some (b, pl') -> no_dangling (rl_payload info) ->
  no_dangling pl -> no_dangling pl'.
Proof.
  intros E Hi. induction js as [|j js IH] in pl, E |- *; cbn [field_loop] in E; [by injection E as <- <-|].
  destruct (field_val vals j) as [v|]; [|by eapply IH]. intros Hp.
  destruct (field_check pp cp info now j v pl) as [[f pl1]|] eqn:Ec; cbn [mbind option_bind] in E; [|done].
  assert (no_dangling pl1) as H1.
  { revert Ec. unfold field_check, strlen, payload_filter. intros Ec.
    destruct j; try (by injection Ec as <- <-); try (by case_match; injection Ec as <- <-).
    - destruct (pb_topic _); [by injection Ec as <- <-|done].
    - destruct (conn_param_get_clientid _); [by injection Ec as <- <-|done].
    - destruct (conn_param_get_username _); [by injection Ec as <- <-|done].
    - destruct (conn_param_get_password _); [by injection Ec as <- <-|done].
    - case_match; [by injection Ec as <- <-|]. injection Ec as Ec. by eapply payload_loop_dangling. }
  destruct f; cbn [negb] in E; [by eapply IH|by injection E as <- <-].
Qed.

Lemma filter_dangling pp cp info now b pl :
  rule_engine_filter pp cp info now = Some (b, pl) -> no_dangling (rl_payload info) -> no_dangling pl.
Proof.
  unfold rule_engine_filter. intros E Hi.
  destruct (repub_loop cp info) as [[]|]; cbn [mbind option_bind] in E; [by injection E as <- <-|..|done].
  destruct (pb_topic _); [|done]. destruct (topic_filter _ _); [|by injection E as <- <-].
  destruct (rl_filter info); [by eapply field_loop_dangling|].
  injection E as <- <-. unfold payload_filter. destruct (payload_loop _ _ _) as [f l1] eqn:El.
  by eapply payload_loop_dangling.
Qed.

(** The value a rule names is in the message, passes, and is of a kind that is
    stored. *)
Definition found (jp : option cJSON) (p : rule_payload) : Prop :=
  exists j, walk jp (rp_psa p) = Some j /\ cJSON_type j <> cJSON_Other /\ fst (payload_switch p j) = true.

Lemma payload_loop_found jp l : Forall (found jp) l -> no_dangling (snd (payload_loop jp l true)).
Proof.
  induction 1 as [|p l (j & Hj & Hk & Hs) Hl IH]; cbn [payload_loop]; [constructor|].
  rewrite Hj. cbn [negb]. destruct (payload_switch p j) as [ok p'] eqn:Es. cbn [fst] in Hs. subst ok.
  destruct (payload_loop jp l true) as [f l']. constructor; [|done]. cbn beta.
  assert (rp_dangling p' = false) as ->; [|done].
  revert Es. unfold payload_switch. repeat case_match; intros Es; simplify_eq; done.
Qed.

Lemma filter_found pp cp info now pl :
  rule_engine_filter pp cp info now = Some (true, pl) ->
  Forall (found (cJSON_ParseWithLength (pp_payload pp) (pp_payload_len pp))) (rl_payload info) ->
  no_dangling pl.
Proof.
  unfold rule_engine_filter. intros E Hf.
  pose proof (payload_loop_found _ _ Hf) as Hp.
  destruct (repub_loop cp info) as [[]|]; cbn [mbind option_bind] in E; [done|..|done].
  destruct (pb_topic _); [|done]. destruct (topic_filter _ _); [|done].
  destruct (rl_filter info) as [vals|]; [|by injection E as <-].
  assert (forall js q, field_loop pp cp info now vals (js ++ [RULE_PAYLOAD_FIELD]) q = Some (true, pl) ->
    no_dangling pl) as Hgo; [|by apply (Hgo (take 8 rule_fields) _ E)].
  clear E. intros js. induction js as [|j js IH]; intros q; cbn [field_loop app].
  - change (field_val vals RULE_PAYLOAD_FIELD) with (Some ([] : bytes)). cbn [field_check].
    case_match; cbn [mbind option_bind negb]; [done|]. unfold payload_filter in *.
    destruct (payload_loop _ _ _) as [[] l1]; cbn [negb field_loop]; [|done]. intros [= <-]. exact Hp.
  - destruct (field_val vals j) as [v|]; [|apply IH].
    destruct (field_check _ _ _ _ _ _ _) as [[[] pl1]|]; cbn [mbind option_bind negb]; [apply IH|done..].
Qed.

(** What a rule has to republish for a message, and to which topic. *)
Definition hit (pp : pub_packet_struct) (cp : conn_param) (now : Z) (r : engine_rule)
  : option (sql_rule * bytes) :=
  if er_enabled r then
    match filter_view r ≫= (fun v => rule_engine_filter pp cp v now) with
    | Some (true, pl) => '(_, topic) ← er_repub r; Some (with_payload (er_info r) pl, topic)
    | _ => None
    end
  else None.

(** A republishing rule whose values are alive, or are all in the message. *)
Definition repub_ready (pp : pub_packet_struct) (r : engine_rule) : Prop :=
  er_type r = FORWORD_REPUB /\ is_Some (er_repub r) /\
  (no_dangling (sr_payload (er_info r)) \/
   Forall (found (cJSON_ParseWithLength (pp_payload pp) (pp_payload_len pp))) (sr_payload (er_info r))).

Definition to_send (h : sql_rule * bytes) (o : cJSON_obj) : rule_action :=
  Published (RepubMsg true 0 (cJSON_Print o) (snd h)).

Context `{L : !CJsonItemLaws}.

Lemma ready_round e en i r pp cp now :
  ee_on e FORWORD_REPUB = true -> names_present pp cp ->
  en_rules en !! i = Some r -> repub_ready pp r ->
  exists r' a, rule_round e en i pp cp now = inr (false, set_rules en (<[i := r']> (en_rules en)), a) /\
    match hit pp cp now r with
    | Some h => exists o, entries o = selected_entries (fst h) pp cp now /\ a = [to_send h o] /\
                 r' = with_info r (delete_json (fst h))
    | None => a = []
    end.
Proof.
  intros He Hn Hi (Ht & [[cid topic] Hr] & Hd). unfold rule_round, hit. rewrite Hi.
  destruct (er_enabled r); cbn [negb].
  2:{ exists r, []. rewrite list_insert_id by done. by destruct en. }
  assert (filter_view r = Some (Rule (Some cid) (er_topic r) (er_filter r) (er_cmp_type r) (sr_payload (er_info r)))) as ->
    by (unfold filter_view; by rewrite Ht, Hr).
  cbn [mbind option_bind].
  destruct (rule_engine_filter_total pp cp (Rule (Some cid) (er_topic r) (er_filter r) (er_cmp_type r)
    (sr_payload (er_info r))) now Hn) as [[b pl] E].
  assert (b = true -> no_dangling pl) as Hpl
    by (intros ->; destruct Hd; [by eapply filter_dangling|by eapply filter_found]). rewrite E.
  change (er_type (with_info r (with_payload (er_info r) pl))) with (er_type r).
  rewrite Ht, He, Hr. cbn [negb]. rewrite orb_false_r. cbn [mbind option_bind].
  destruct b; cbn [negb]; [|by eexists _, []].
  unfold forward. cbn [er_type er_info with_info with_payload sr_forword_type er_repub].
  fold (er_type r). rewrite Ht, Hr.
  destruct (republish_ready (with_payload (er_info r) pl) topic pp cp now (Hpl eq_refl)) as (o & Ho & Eo).
  rewrite Eo. cbn [bind_run]. eexists _, _. split; [|by exists o].
  unfold set_info, set_rules. cbn [en_rules en_first en_need en_conn]. by rewrite list_insert_insert_eq.
Qed.

Lemma ready_rounds e pp cp now l pre en :
  ee_on e FORWORD_REPUB = true -> names_present pp cp ->
  en_rules en = pre ++ l -> Forall (repub_ready pp) l ->
  exists en' objs,
    Forall2 (fun h o => entries o = selected_entries (fst h) pp cp now) (omap (hit pp cp now) l) objs /\
    rule_rounds e en (seq (length pre) (length l)) pp cp now
    = inr (0, en', zip_with to_send (omap (hit pp cp now) l) objs).
Proof.
  intros He Hn. induction l as [|r l IH] in pre, en |- *; intros Hl Hr; cbn [length seq rule_rounds].
  { exists en, []. by split. }
  apply Forall_cons in Hr as [Hr Hrs].
  assert (en_rules en !! length pre = Some r) as Hi by (rewrite Hl; by apply list_lookup_middle).
  destruct (ready_round e en _ r pp cp now He Hn Hi Hr) as (r' & a & -> & Ha). cbn [bind_run].
  destruct (IH (pre ++ [r']) (set_rules en (<[length pre := r']> (en_rules en)))) as (en' & objs & Ho & E); [|done|].
  { cbn [en_rules set_rules]. rewrite Hl, insert_app_r_alt, Nat.sub_diag by done. cbn. by rewrite <- app_assoc. }
  rewrite length_app, Nat.add_comm in E. cbn [length Nat.add] in E. rewrite E. cbn [bind_run omap list_omap].
  destruct (hit pp cp now r) as [h|].
  - destruct Ha as (o & Ho' & -> & _). exists en', (o :: objs). split; [by constructor|done].
  - subst a. by exists en', objs.
Qed.

(** C19. For a message of a client with a user name and a password, republishing
    rules whose values are alive or are all in the message, whatever earlier
    messages left in them, are all evaluated and exactly those that match
    publish, in the order of the rules, one message each to their own topic:
    the text of the object with the selected members. *)
Theorem repub_rules_publish e en pp cp now :
  ee_on e FORWORD_REPUB = true -> names_present pp cp -> Forall (repub_ready pp) (en_rules en) ->
  exists en' objs,
    Forall2 (fun h o => entries o = selected_entries (fst h) pp cp now)
      (omap (hit pp cp now) (en_rules en)) objs /\
    rule_engine_insert_sql e en pp cp now
    = inr (0, en', zip_with to_send (omap (hit pp cp now) (en_rules en)) objs).
Proof. intros He Hn Hr. by apply (ready_rounds e pp cp now (en_rules en) []). Qed.

(** ** A message without the selected values *)

Lemma walk_none ps : walk None ps = None.
Proof. by destruct ps. Qed.

(** A rule without conditions that meets a message that is not JSON matches and
    keeps the values it has. *)
Lemma unparsed_filter pp cp v now topic :
  cJSON_ParseWithLength (pp_payload pp) (pp_payload_len pp) = None ->
  repub_loop cp v = Some false -> pb_topic (pp_publish pp) = Some topic ->
  topic_filter (rl_topic v) topic = true -> rl_filter v = None ->
  rule_engine_filter pp cp v now = Some (true, rl_payload v).
Proof.
  intros Hp Hl Ht Hf Hn. unfold rule_engine_filter. rewrite Hl. cbn [mbind option_bind].
  rewrite Ht, Hf, Hn. unfold payload_filter. rewrite Hp.
  destruct (rl_payload v); cbn [payload_loop]; [done|]. by rewrite walk_none.
Qed.

(** The message reaches the rule but its payload is not JSON. *)
Record unparsed (r : engine_rule) (pp : pub_packet_struct) (cp : conn_param) : Prop := Unparsed {
  un_json : cJSON_ParseWithLength (pp_payload pp) (pp_payload_len pp) = None;
  un_topic : exists t, pb_topic (pp_publish pp) = Some t /\ topic_filter (er_topic r) t = true;
  un_client : (filter_view r ≫= repub_loop cp) = Some false;
  un_filter : er_filter r = None
}.

Lemma unparsed_view r pp cp now :
  unparsed r pp cp ->
  (filter_view r ≫= fun v => rule_engine_filter pp cp v now) = Some (true, sr_payload (er_info r)).
Proof.
  intros [Hj (t & Ht & Hf) Hc Hn]. destruct (filter_view r) as [v|] eqn:E; cbn [mbind option_bind] in *; [|done].
  assert (rl_topic v = er_topic r /\ rl_filter v = er_filter r /\ rl_payload v = sr_payload (er_info r)) as (E1 & E2 & E3).
  { revert E. unfold filter_view. destruct (er_type r); try (by intros [= <-]).
    destruct (er_repub r) as [[cid tp]|]; cbn [mbind option_bind]; [by intros [= <-]|done]. }
  rewrite <- E3. apply (unparsed_filter _ _ _ _ t); [done..| |]; [by rewrite E1|by rewrite E2].
Qed.

(** A rule without conditions republishes the values that an earlier
    message left in it when a message is not JSON: the object it publishes has
    the selected members of the rule as it was before the message. *)
Theorem repub_stale_values e r first need conn pp cp now h :
  ee_on e FORWORD_REPUB = true -> names_present pp cp -> repub_ready pp r -> unparsed r pp cp ->
  hit pp cp now r = Some h ->
  exists en' o, entries o = selected_entries (with_payload (er_info r) (sr_payload (er_info r))) pp cp now /\
    rule_engine_insert_sql e (Engine [r] first need conn) pp cp now = inr (0, en', [to_send h o]).
Proof.
  intros He Hn Hr Hu Hh.
  destruct (ready_rounds e pp cp now [r] [] (Engine [r] first (fun _ => false) conn)) as (en' & objs & Ho & E);
    [done|done|done|by constructor|].
  cbn [omap list_omap] in Ho, E. rewrite Hh in Ho, E. apply Forall2_cons_inv_l in Ho as (o & ? & Ho & Hnil & ->).
  apply Forall2_nil_inv_l in Hnil as ->. exists en', o. split; [|exact E]. rewrite Ho. f_equal.
  revert Hh. unfold hit. rewrite (unparsed_view r pp cp now Hu). destruct (er_enabled r); [|done].
  destruct (er_repub r) as [[cid t]|]; cbn [mbind option_bind]; [by intros [= <-]|done].
Qed.

Lemma unparsed_info r info pp cp :
  sr_forword_type info = er_type r -> unparsed r pp cp -> unparsed (with_info r info) pp cp.
Proof.
  intros Ht [Hj Htp Hc Hn]. split; [done..| |done]. rewrite <- Hc. unfold filter_view.
  change (er_type (with_info r info)) with (sr_forword_type info). rewrite Ht.
  destruct (er_type r); try done. cbn [er_repub with_info]. by destruct (er_repub r) as [[cid t]|].
Qed.

Lemma uaf_round e en i r pp cp now :
  ee_on e FORWORD_REPUB = true -> en_rules en !! i = Some r -> er_enabled r = true ->
  er_type r = FORWORD_REPUB -> is_Some (er_repub r) -> unparsed r pp cp ->
  sr_flag (er_info r) RULE_PAYLOAD_FIELD = true ->
  Exists (fun p => rp_dangling p = true /\ moved p = true) (sr_payload (er_info r)) ->
  rule_round e en i pp cp now = inl UseAfterFree.
Proof.
  intros He Hi Hen Ht [[cid t] Hr] Hu Hf Hd. unfold rule_round. rewrite Hi, Hen. cbn [negb].
  rewrite (unparsed_view r pp cp now Hu).
  change (er_type (with_info r (with_payload (er_info r) (sr_payload (er_info r))))) with (er_type r).
  rewrite Ht, He. cbn [negb orb]. unfold forward.
  change (er_type (with_info r (with_payload (er_info r) (sr_payload (er_info r))))) with (er_type r).
  rewrite Ht. cbn [er_repub with_info er_info]. rewrite Hr. unfold republish. rewrite add_infos_uaf; [done| |done..].
  unfold rule_fields. set_solver.
Qed.

(** When an earlier message left an object in the rule, that object was
    deleted after it was published: the first message is handled and the next
    one that is not JSON makes the engine use deleted memory. *)
Theorem repub_use_after_free e r first need conn pp cp now h pp' cp' now' :
  ee_on e FORWORD_REPUB = true -> names_present pp cp -> repub_ready pp r ->
  hit pp cp now r = Some h -> Exists (fun p => moved p = true) (sr_payload (fst h)) ->
  sr_flag (er_info r) RULE_PAYLOAD_FIELD = true -> unparsed r pp' cp' ->
  exists en' acts,
    rule_engine_insert_sql e (Engine [r] first need conn) pp cp now = inr (0, en', acts) /\
    rule_engine_insert_sql e en' pp' cp' now' = inl UseAfterFree.
Proof.
  intros He Hn Hr Hh Hm Hf Hu.
  destruct (ready_round e (Engine [r] first (fun _ => false) conn) 0 r pp cp now) as (r' & a & E & Ha);
    [done..|]. rewrite Hh in Ha. destruct Ha as (o & _ & -> & ->).
  eexists _, _. split.
  { unfold rule_engine_insert_sql. cbn [en_rules en_first en_conn length seq rule_rounds].
    rewrite E. reflexivity. }
  assert (er_enabled r = true /\ sr_forword_type (fst h) = er_type r /\
    sr_flag (fst h) = sr_flag (er_info r)) as (Hen & Et & Ef).
  { revert Hh. unfold hit. destruct (er_enabled r); [|done].
    destruct (filter_view r ≫= _) as [[[] pl]|]; try done.
    destruct (er_repub r) as [[cid t]|]; cbn [mbind option_bind]; [by intros [= <-]|done]. }
  assert (delete_json (fst h) = with_payload (fst h) (map release (sr_payload (fst h)))) as Ed
    by (unfold delete_json; by rewrite Ef, Hf).
  destruct Hr as (Ht & Hrp & _). unfold rule_engine_insert_sql.
  cbn [en_rules set_rules length insert list_insert seq rule_rounds].
  rewrite (uaf_round _ _ _ (with_info r (delete_json (fst h)))); [done|done|done|done|..].
  - rewrite Ed. by rewrite <- Ht.
  - done.
  - apply unparsed_info; [by rewrite Ed|done].
  - rewrite Ed. cbn. by rewrite Ef.
  - rewrite Ed. cbn [er_info with_info sr_payload with_payload]. apply Exists_map.
    eapply Exists_impl; [exact Hm|]. intros p Hp. cbn beta. change (moved (release p)) with (moved p).
    split; [|done]. cbn [release rp_dangling]. rewrite Hp. apply orb_true_r.
Qed.

End Loop.

(** ** Witnesses *)

Import Model.

Definition x_rule (v : payload_value) : engine_rule :=
  EngineRule true (c!"a/+") None (fun _ => RULE_CMP_NONE) (Some (Some (c!"repub"), c!"out")) (repub_info v).

Definition all_on : engine_env := EngineEnv (fun _ => true) (fun _ _ => true) (fun _ _ => true) (fun _ => true).

Definition new_engine (l : list engine_rule) : engine := Engine l (fun _ => true) (fun _ => false) (fun _ => false).

Definition with_body (s : bytes) : @pub_packet_struct Model.msgs :=
  PubPacket (FixedHeader 0 0 0 3 7) 0 (PublishHeader (Some (c!"a/b")) 3 None 0)
    (PubArrcHeader 0 None 0) (Some s) (blen s).

Definition full_client : @conn_param Model.msgs := Model.Cparam (Some (c!"c1")) (Some (c!"u")) (Some (c!"p")) None.

Lemma full_names s : names_present (with_body s) full_client.
Proof. split_and!; vm_compute; eauto. Qed.

Lemma x_rule_ready s v : repub_ready (with_body s) (x_rule v).
Proof. split_and!; [done|vm_compute; eauto|left; by repeat constructor]. Qed.

Lemma x_unparsed v : unparsed (x_rule v) (with_body (c!"hello")) full_client.
Proof. split; [done|exists (c!"a/b"); by vm_compute|by vm_compute|done]. Qed.

Lemma hit_object :
  hit (with_body x_object) full_client 0 (x_rule PNull) = Some (repub_info (PObj Empty), c!"out").
Proof. reflexivity. Qed.

Lemma hit_text :
  hit (with_body (c!"hello")) full_client 0 (x_rule (PNum 7)) = Some (repub_info (PNum 7), c!"out").
Proof. reflexivity. Qed.

Lemma engine_config_stable_witness :
  exists rc en' acts, rule_engine_insert_sql all_on (new_engine [x_rule PNull]) (with_body x_object) full_client 0
    = inr (rc, en', acts) /\ map conf_of (en_rules en') = map conf_of [x_rule PNull].
Proof.
  destruct (ready_rounds all_on (with_body x_object) full_client 0 [x_rule PNull] [] (new_engine [x_rule PNull]))
    as (en' & objs & _ & E); [done|apply full_names|done|constructor; [apply x_rule_ready|constructor]|].
  eexists _, en', _. split; [exact E|]. apply (engine_config_stable all_on (new_engine [x_rule PNull]) (with_body x_object) full_client 0 _ _ _ E).
Defined.

Lemma repub_rules_publish_witness :
  exists en' objs,
    Forall2 (fun h o => entries o = selected_entries (fst h) (with_body x_object) full_client 0)
      (omap (hit (with_body x_object) full_client 0) [x_rule PNull; x_rule (PNum 7)]) objs /\
    rule_engine_insert_sql all_on (new_engine [x_rule PNull; x_rule (PNum 7)]) (with_body x_object) full_client 0
    = inr (0, en', zip_with to_send (omap (hit (with_body x_object) full_client 0) [x_rule PNull; x_rule (PNum 7)]) objs).
Proof.
  apply (repub_rules_publish all_on (new_engine [x_rule PNull; x_rule (PNum 7)]) (with_body x_object) full_client 0).
  - done.
  - apply full_names.
  - constructor; [apply x_rule_ready|]. constructor; [apply x_rule_ready|constructor].
Defined.

Lemma repub_stale_values_witness :
  exists h en' o, entries o = [(c!"topic", inl (JStr (c!"a/b"))); (c!"x", inl (JNum 7))] /\
    rule_engine_insert_sql all_on (new_engine [x_rule (PNum 7)]) (with_body (c!"hello")) full_client 0
    = inr (0, en', [to_send h o]).
Proof.
  destruct (repub_stale_values all_on (x_rule (PNum 7)) (fun _ => true) (fun _ => false) (fun _ => false)
    (with_body (c!"hello")) full_client 0 (repub_info (PNum 7), c!"out")) as (en' & o & Ho & E).
  - done.
  - apply full_names.
  - apply x_rule_ready.
  - apply x_unparsed.
  - exact hit_text.
  - eexists _, en', o. split; [rewrite Ho; vm_compute; reflexivity|exact E].
Defined.

Lemma repub_use_after_free_witness :
  exists en' acts,
    rule_engine_insert_sql all_on (new_engine [x_rule PNull]) (with_body x_object) full_client 0 = inr (0, en', acts) /\
    rule_engine_insert_sql all_on en' (with_body (c!"hello")) full_client 1 = inl UseAfterFree.
Proof.
  apply (repub_use_after_free all_on (x_rule PNull) (fun _ => true) (fun _ => false) (fun _ => false)
    (with_body x_object) full_client 0 (repub_info (PObj (Empty : @cJSON jtrees)), c!"out") (with_body (c!"hello")) full_client 1).
  - done.
  - apply full_names.
  - apply x_rule_ready.
  - exact hit_object.
  - by constructor.
  - done.
  - apply x_unparsed.
Defined.

End RuleLoop.
