(* ===== verification/RuleConf.v ===== *)
(** * The rules of the rule engine as data (nanomq/nanomq_rule.c, rest_api.c)

    [conf_rule] holds the rules in order, and the objects their pointers name:
    the clients of republishing rules and the data base settings.  What the SQL
    parser of nanolib stores of a statement is an abstract type of which the
    selected fields and their names are used. *)

From S2P Require Import Prelude.

(** What the parser stores: [flag[i]] and [as[i]] for the fields 0 to 7. *)
Class ParsedSql := {
  parsed_sql : Type;
  sql_flag : parsed_sql -> nat -> bool;
  sql_as : parsed_sql -> nat -> option bytes
}.

Module RuleConf.

Inductive forword_type :=
  | RULE_FORWORD_SQLITE | RULE_FORWORD_REPUB | RULE_FORWORD_MYSQL | RULE_FORWORD_POSTGRESQL
  | RULE_FORWORD_TIMESCALEDB | other_forword.

#[export] Instance forword_type_eq_dec : EqDecision forword_type.
Proof. solve_decision. Defined.

(** The client of a republishing rule. *)
Record repub_t := Repub {
  rb_topic : option bytes;
  rb_address : option bytes;
  rb_proto_ver : Z;
  rb_keepalive : Z;
  rb_clientid : option bytes;
  rb_username : option bytes;
  rb_password : option bytes;
  rb_clean_start : bool
}.

(** rule_mysql, rule_postgresql and rule_timescaledb have the same members. *)
Record rule_db := DbConf {
  db_table : option bytes;
  db_username : option bytes;
  db_password : option bytes;
  db_host : option bytes
}.

Inductive db_kind := MYSQL | POSTGRESQL | TIMESCALEDB.

#[export] Instance db_kind_eq_dec : EqDecision db_kind.
Proof. solve_decision. Defined.

Definition kind_type (k : db_kind) : forword_type :=
  match k with
  | MYSQL => RULE_FORWORD_MYSQL
  | POSTGRESQL => RULE_FORWORD_POSTGRESQL
  | TIMESCALEDB => RULE_FORWORD_TIMESCALEDB
  end.

Section Rules.

Context `{PS : ParsedSql}.

(** Pointers are numbers, [None] is NULL. *)
Record rule := Rule {
  ru_sql : parsed_sql;
  ru_type : forword_type;
  ru_repub : option nat;
  ru_mysql : option nat;
  ru_postgresql : option nat;
  ru_timescaledb : option nat;
  ru_sqlite_table : option bytes;
  ru_raw_sql : option bytes;
  ru_enabled : bool;
  ru_rule_id : Z
}.

Definition ru_db (k : db_kind) (r : rule) : option nat :=
  match k with MYSQL => ru_mysql r | POSTGRESQL => ru_postgresql r | TIMESCALEDB => ru_timescaledb r end.

(** [cr_rdb] is whether the SQLite data base is open, [cr_ids] how many rule ids
    were generated. *)
Record conf_rule := ConfRule {
  cr_rules : list rule;
  cr_option : Z;
  cr_rdb : bool;
  cr_repubs : gmap nat repub_t;
  cr_dbs : gmap nat rule_db;
  cr_ids : nat
}.

Definition with_rules (cr : conf_rule) (l : list rule) : conf_rule :=
  ConfRule l (cr_option cr) (cr_rdb cr) (cr_repubs cr) (cr_dbs cr) (cr_ids cr).
Definition with_dbs (cr : conf_rule) (h : gmap nat rule_db) : conf_rule :=
  ConfRule (cr_rules cr) (cr_option cr) (cr_rdb cr) (cr_repubs cr) h (cr_ids cr).
Definition with_repubs (cr : conf_rule) (h : gmap nat repub_t) : conf_rule :=
  ConfRule (cr_rules cr) (cr_option cr) (cr_rdb cr) h (cr_dbs cr) (cr_ids cr).
Definition with_option (cr : conf_rule) (o : Z) : conf_rule :=
  ConfRule (cr_rules cr) o (cr_rdb cr) (cr_repubs cr) (cr_dbs cr) (cr_ids cr).
Definition with_rdb (cr : conf_rule) : conf_rule :=
  ConfRule (cr_rules cr) (cr_option cr) true (cr_repubs cr) (cr_dbs cr) (cr_ids cr).
Definition next_id (cr : conf_rule) : conf_rule :=
  ConfRule (cr_rules cr) (cr_option cr) (cr_rdb cr) (cr_repubs cr) (cr_dbs cr) (S (cr_ids cr)).

(** ** Ownership *)

(** The pointer a rule owns, if its type has one. *)
Definition repub_ptr (r : rule) : option nat :=
  match ru_type r with RULE_FORWORD_REPUB => ru_repub r | _ => None end.
Definition db_ptr (r : rule) : option nat :=
  match ru_type r with
  | RULE_FORWORD_MYSQL => ru_mysql r
  | RULE_FORWORD_POSTGRESQL => ru_postgresql r
  | RULE_FORWORD_TIMESCALEDB => ru_timescaledb r
  | _ => None
  end.

(** The pointers are distinct and name exactly the allocated objects. *)
Definition owns {A} (ps : list nat) (h : gmap nat A) : Prop :=
  NoDup ps /\ forall p, p ∈ ps <-> is_Some (h !! p).

(** A rule has what its type needs. *)
Definition typed (r : rule) : Prop :=
  match ru_type r with
  | RULE_FORWORD_SQLITE => is_Some (ru_sqlite_table r)
  | RULE_FORWORD_REPUB => is_Some (ru_repub r)
  | RULE_FORWORD_MYSQL => is_Some (ru_mysql r)
  | RULE_FORWORD_POSTGRESQL => is_Some (ru_postgresql r)
  | RULE_FORWORD_TIMESCALEDB => is_Some (ru_timescaledb r)
  | other_forword => True
  end.

Definition heap_ok (cr : conf_rule) : Prop :=
  Forall typed (cr_rules cr) /\
  owns (omap repub_ptr (cr_rules cr)) (cr_repubs cr) /\ owns (omap db_ptr (cr_rules cr)) (cr_dbs cr).

Lemma owns_perm {A} ps qs (h : gmap nat A) : ps ≡ₚ qs -> owns ps h -> owns qs h.
Proof. intros Hp [Hn Hd]. split; [by rewrite <- Hp|]. intros p. by rewrite <- Hp. Qed.

Lemma owns_alloc {A} ps (h : gmap nat A) p x : h !! p = None -> owns ps h -> owns (ps ++ [p]) (<[p := x]> h).
Proof.
  intros Hf [Hn Hd]. assert (p ∉ ps) as Hp by (rewrite Hd, Hf; by intros [? ?]). split.
  - apply NoDup_app. split_and!; [done| |apply NoDup_singleton]. intros q Hq Hq'.
    apply list_elem_of_singleton in Hq' as ->. done.
  - intros q. rewrite elem_of_app, list_elem_of_singleton, Hd.
    destruct (decide (q = p)) as [->|Hne].
    + rewrite lookup_insert_eq. naive_solver.
    + rewrite lookup_insert_ne by done. naive_solver.
Qed.

Lemma owns_free {A} ps p (h : gmap nat A) : owns (p :: ps) h -> owns ps (delete p h).
Proof.
  intros [Hn Hd]. apply NoDup_cons in Hn as [Hp Hn]. split; [done|]. intros q.
  destruct (decide (q = p)) as [->|Hne].
  - rewrite lookup_delete_eq. split; [done|]. by intros [? ?].
  - rewrite lookup_delete_ne, <- Hd, elem_of_cons by done. naive_solver.
Qed.

Lemma owns_update {A} ps p (h : gmap nat A) x : is_Some (h !! p) -> owns ps h -> owns ps (<[p := x]> h).
Proof.
  intros Hs [Hn Hd]. split; [done|]. intros q. rewrite Hd. destruct (decide (q = p)) as [->|Hne].
  - rewrite lookup_insert_eq. split; [by eexists|done].
  - by rewrite lookup_insert_ne.
Qed.

Lemma omap_middle {A B} (f : A -> option B) (l1 l2 : list A) x :
  omap f (l1 ++ x :: l2) ≡ₚ match f x with Some y => y :: omap f (l1 ++ l2) | None => omap f (l1 ++ l2) end.
Proof. rewrite <- Permutation_middle. cbn [omap list_omap]. by destruct (f x). Qed.

(** A rule that is erased together with the objects it owns. *)
Definition freed (cr : conf_rule) (r : rule) (l : list rule) : conf_rule :=
  with_rules
    (with_dbs
      (with_repubs cr (match repub_ptr r with Some p => delete p (cr_repubs cr) | None => cr_repubs cr end))
      (match db_ptr r with Some p => delete p (cr_dbs cr) | None => cr_dbs cr end)) l.

Lemma heap_ok_free cr l1 r l2 : heap_ok (with_rules cr (l1 ++ r :: l2)) -> heap_ok (freed cr r (l1 ++ l2)).
Proof.
  intros (Ht & Hr & Hd). cbn in Ht, Hr, Hd. apply Forall_app in Ht as [Ht1 Ht2].
  apply Forall_cons in Ht2 as [_ Ht2]. split_and!; cbn.
  - by apply Forall_app.
  - apply (owns_perm _ _ _ (omap_middle repub_ptr l1 l2 r)) in Hr. destruct (repub_ptr r); [by apply owns_free|done].
  - apply (owns_perm _ _ _ (omap_middle db_ptr l1 l2 r)) in Hd. destruct (db_ptr r); [by apply owns_free|done].
Qed.

Lemma db_ptr_kind k r : ru_type r = kind_type k -> db_ptr r = ru_db k r /\ repub_ptr r = None.
Proof. unfold db_ptr, repub_ptr. intros ->. by destruct k. Qed.

Lemma db_ptr_alive cr r p : heap_ok cr -> r ∈ cr_rules cr -> db_ptr r = Some p -> is_Some (cr_dbs cr !! p).
Proof. intros (_ & _ & _ & Hd) Hr Hp. apply Hd, list_elem_of_omap. eauto. Qed.

Lemma repub_ptr_alive cr r p : heap_ok cr -> r ∈ cr_rules cr -> repub_ptr r = Some p -> is_Some (cr_repubs cr !! p).
Proof. intros (_ & (_ & Hd) & _) Hr Hp. apply Hd, list_elem_of_omap. eauto. Qed.

Lemma typed_db k r : typed r -> ru_type r = kind_type k -> is_Some (ru_db k r).
Proof. unfold typed. intros Ht E. rewrite E in Ht. by destruct k. Qed.

End Rules.

End RuleConf.
