(* ===== verification/RuleClients.v ===== *)
(** * Connecting rules to their data bases (nanomq/nanomq_rule.c)

    For every rule that writes to a data base a table is created when the broker
    starts or the rule is added.  The statements are built in arrays of 256
    bytes; SQLite's with bounds checks, the others with strcat.  A MySQL,
    PostgreSQL or TimescaleDB rule whose data base does not answer is taken out
    of the configuration. *)

From S2P Require Import Prelude NngApi RuleConf RuleDb.

Module RuleClients.

Import RuleConf RuleDb.

Definition key_arr : list bytes :=
  [lit "Qos"; lit "Id"; lit "Topic"; lit "Clientid"; lit "Username"; lit "Password"; lit "Timestamp";
   lit "Payload"].

Definition type_arr : list bytes :=
  [lit " INT"; lit " INT"; lit " TEXT"; lit " TEXT"; lit " TEXT"; lit " TEXT"; lit " INT"; lit " TEXT"].

Definition ts_type_arr : list bytes :=
  [lit " INT"; lit " INT"; lit " TEXT"; lit " TEXT"; lit " TEXT"; lit " TEXT"; lit " TIMESTAMPTZ NOT NULL";
   lit " TEXT"].

Section Clients.

Context `{PS : ParsedSql}.

(** ** Statements *)

(** [as[index] ? as[index] : key_arr[index]] *)
Definition column_name (p : parsed_sql) (index : nat) : bytes := default (nth index key_arr []) (sql_as p index).

(** ** SQLite *)

(** The loop over the columns; [None] is "SQL buffer overflow". *)
Fixpoint sqlite_columns (p : parsed_sql) (ixs : list nat) (table : bytes) : option bytes :=
  match ixs with
  | [] => Some table
  | index :: ixs' =>
      if negb (sql_flag p index) then sqlite_columns p ixs' table
      else
        let column := lit ", " ++ column_name p index ++ nth index type_arr [] in
        if 256 - blen table <=? blen column then None else sqlite_columns p ixs' (table ++ column)
  end.

Definition sqlite_statement (name : bytes) (p : parsed_sql) : option bytes :=
  let head := lit "CREATE TABLE IF NOT EXISTS " ++ name ++ lit "(RowId INTEGER PRIMARY KEY AUTOINCREMENT" in
  if 256 <=? blen head then None
  else
    table ← sqlite_columns p (seq 0 8) head;
    if 256 - blen table <? 3 then None
    else if 256 - blen table <=? 2 then None
    else Some (table ++ lit ");").

(** The loop over the rules from index [i] on: the statements that were executed
    and the return value.  The outer [None] is a NULL table name. *)
Fixpoint sqlite_loop (exec : bytes -> bool) (init_last : bool) (size i : nat) (rules : list rule)
  : option (list bytes * Z) :=
  match rules with
  | [] => Some ([], 0)
  | r :: rules' =>
      if init_last && negb (bool_decide (i = (size - 1)%nat)) then sqlite_loop exec init_last size (S i) rules'
      else if negb (bool_decide (ru_type r = RULE_FORWORD_SQLITE)) then sqlite_loop exec init_last size (S i) rules'
      else
        name ← ru_sqlite_table r;
        match sqlite_statement name (ru_sql r) with
        | None => Some ([], 1)
        | Some sql =>
            if exec sql then
              '(l, rc) ← sqlite_loop exec init_last size (S i) rules';
              Some (sql :: l, rc)
            else Some ([sql], 1)
        end
  end.

(** [opens] is whether sqlite3_open succeeds, [exec] whether sqlite3_exec does. *)
Definition nanomq_client_sqlite (opens : bool) (exec : bytes -> bool) (cr : conf_rule) (init_last : bool)
  : option (conf_rule * Z * list bytes) :=
  if negb (cr_rdb cr) && negb opens then Some (cr, 1, [])
  else
    '(l, rc) ← sqlite_loop exec init_last (length (cr_rules cr)) 0 (cr_rules cr);
    Some (with_rdb cr, rc, l).

(** ** MySQL, PostgreSQL and TimescaleDB *)

Definition serial (k : db_kind) : bytes :=
  match k with
  | MYSQL => lit "(idx INT PRIMARY KEY AUTO_INCREMENT"
  | POSTGRESQL => lit "(idx SERIAL PRIMARY KEY"
  | TIMESCALEDB => lit "(idx BIGSERIAL"
  end.

Definition types_of (k : db_kind) : list bytes :=
  match k with TIMESCALEDB => ts_type_arr | _ => type_arr end.

Fixpoint db_columns (k : db_kind) (p : parsed_sql) (ixs : list nat) (table : bytes) : run_error + bytes :=
  match ixs with
  | [] => inr table
  | index :: ixs' =>
      if negb (sql_flag p index) then db_columns k p ixs' table
      else
        bind_run (strcat 256 table (lit ", ")) (fun table =>
        bind_run (strcat 256 table (column_name p index)) (fun table =>
        bind_run (strcat 256 table (nth index (types_of k) [])) (fun table => db_columns k p ixs' table)))
  end.

(** [snprintf(table, 128, ...)] keeps 127 characters. *)
Definition db_statement (k : db_kind) (name : bytes) (p : parsed_sql) : run_error + bytes :=
  bind_run (db_columns k p (seq 0 8) (take 127 (lit "CREATE TABLE IF NOT EXISTS " ++ name ++ serial k)))
    (fun table => strcat 256 table (lit ");")).

(** [None] is a NULL argument of "%s". *)
Definition conninfo (d : rule_db) : option bytes :=
  u ← db_username d; p ← db_password d; h ← db_host d;
  Some (take 127 (lit "dbname=postgres user=" ++ u ++ lit " password=" ++ p ++ lit " host=" ++ h
                  ++ lit " port=5432")).

Definition hypertable (name : bytes) : bytes :=
  take 127 (lit "SELECT create_hypertable('" ++ name ++ lit "', 'timestamp', if_not_exists => TRUE);").

(** What the client libraries answer. *)
Record db_env := DbEnv {
  my_init : bool;
  my_connect : option bytes -> option bytes -> option bytes -> bool;   (* host, user, password *)
  my_query : bytes -> bool;
  pq_connect : bytes -> bool;
  pq_command : bytes -> bool;                                          (* PGRES_COMMAND_OK *)
  pq_tuples : bytes -> bool                                            (* PGRES_TUPLES_OK *)
}.

(** One rule: whether its data base is connected and has the table. *)
Definition db_start (k : db_kind) (e : db_env) (d : rule_db) (p : parsed_sql) : run_error + bool :=
  match db_table d with
  | None => inl NullDeref
  | Some name =>
      bind_run (db_statement k name p) (fun sql =>
      match k with
      | MYSQL => inr (my_init e && my_connect e (db_host d) (db_username d) (db_password d) && my_query e sql)
      | POSTGRESQL =>
          match conninfo d with
          | None => inl NullDeref
          | Some c => inr (pq_connect e c && pq_command e sql)
          end
      | TIMESCALEDB =>
          match conninfo d with
          | None => inl NullDeref
          | Some c => inr (pq_connect e c && pq_command e sql && pq_tuples e (hypertable name))
          end
      end)
  end.

(** finish_with_error: the rule at the end of [seen] is freed and erased. *)
Definition finish_with_error (cr : conf_rule) (p : nat) : conf_rule := with_dbs cr (delete p (cr_dbs cr)).

(** The loop at index [i], the length of [seen]; [rest] is what is left of the
    array, so that [i != size - 1] says that the tail of [rest] is not empty.
    After an error the index is kept and the rule is gone. *)
Fixpoint client_loop (k : db_kind) (e : db_env) (init_last : bool) (cr : conf_rule) (seen rest : list rule)
    (rc : Z) : run_error + (conf_rule * Z) :=
  match rest with
  | [] => inr (with_rules cr seen, rc)
  | r :: rest' =>
      if init_last && negb (bool_decide (rest' = [])) then client_loop k e init_last cr (seen ++ [r]) rest' rc
      else if negb (bool_decide (ru_type r = kind_type k)) then client_loop k e init_last cr (seen ++ [r]) rest' rc
      else
        match ru_db k r with
        | None => inl NullDeref
        | Some p =>
            match cr_dbs cr !! p with
            | None => inl NullDeref
            | Some d =>
                bind_run (db_start k e d (ru_sql r)) (fun ok : bool =>
                if ok then client_loop k e init_last cr (seen ++ [r]) rest' rc
                else client_loop k e init_last (finish_with_error cr p) seen rest' (-1))
            end
        end
  end.

Definition nanomq_client_db (k : db_kind) (e : db_env) (cr : conf_rule) (init_last : bool)
  : run_error + (conf_rule * Z) :=
  client_loop k e init_last cr [] (cr_rules cr) 0.

Definition nanomq_client_mysql := nanomq_client_db MYSQL.
Definition nanomq_client_postgresql := nanomq_client_db POSTGRESQL.
Definition nanomq_client_timescaledb := nanomq_client_db TIMESCALEDB.

(** ** The client of a republishing rule *)

(** Results of opening the client, creating the dialer and starting it. *)
Record client_env := ClientEnv { ce_open : Z; ce_create : Z; ce_start : Z }.

(** The CONNECT message of the dialer. *)
Record client_connect := ClientConnect {
  cc_keep_alive : Z;
  cc_proto_version : Z;
  cc_clean_session : bool;
  cc_client_id : option bytes;
  cc_user_name : option bytes;
  cc_password : option bytes
}.

(** The return value, and the CONNECT message if it gets that far. *)
Definition nano_client (e : client_env) (repub : repub_t) : Z * option client_connect :=
  if negb (ce_open e =? 0) then (ce_open e, None)
  else if negb (ce_create e =? 0) then (ce_create e, None)
  else
    (ce_start e,
     Some (ClientConnect (rb_keepalive repub) (rb_proto_ver repub) (rb_clean_start repub) (rb_clientid repub)
             (rb_username repub) (rb_password repub))).

(** ** Theorems *)

(** The columns of the selected fields. *)
Definition table_columns (types : list bytes) (p : parsed_sql) (ixs : list nat) : bytes :=
  concat (map (fun i => if sql_flag p i then lit ", " ++ column_name p i ++ nth i types [] else []) ixs).

Lemma sqlite_columns_spec p ixs t : blen t < 256 ->
  sqlite_columns p ixs t =
    if blen (t ++ table_columns type_arr p ixs) <? 256 then Some (t ++ table_columns type_arr p ixs) else None.
Proof.
  revert t. induction ixs as [|i ixs IH]; intros t Ht.
  - cbn [sqlite_columns]. unfold table_columns. cbn [map concat]. rewrite app_nil_r.
    by rewrite (proj2 (Z.ltb_lt _ _) Ht).
  - cbn [sqlite_columns]. unfold table_columns. cbn [map concat]. fold (table_columns type_arr p ixs).
    destruct (sql_flag p i); cbn [negb]; [|by rewrite IH].
    set (c := lit ", " ++ column_name p i ++ nth i type_arr []). rewrite (app_assoc t c).
    destruct (256 - blen t <=? blen c) eqn:E; bool_hyps.
    + destruct (_ <? 256) eqn:E'; [|done]. bool_hyps. autorewrite with nmq_rw in E'.
      pose proof (blen_nonneg (table_columns type_arr p ixs)). lia.
    + apply IH. autorewrite with nmq_rw. lia.
Qed.

(** The statement the code means to send. *)
Definition create_table (name key : bytes) (types : list bytes) (p : parsed_sql) : bytes :=
  lit "CREATE TABLE IF NOT EXISTS " ++ name ++ key ++ table_columns types p (seq 0 8) ++ lit ");".

(** A statement for SQLite that is sent is complete, and it is sent exactly if
    it fits into the 256 bytes with its terminator. *)
Theorem sqlite_statement_correct name p :
  let sql := create_table name (lit "(RowId INTEGER PRIMARY KEY AUTOINCREMENT") type_arr p in
  sqlite_statement name p = if blen sql <? 256 then Some sql else None.
Proof.
  intros sql. unfold sqlite_statement.
  set (head := lit "CREATE TABLE IF NOT EXISTS " ++ name ++ lit "(RowId INTEGER PRIMARY KEY AUTOINCREMENT").
  assert (sql = (head ++ table_columns type_arr p (seq 0 8)) ++ lit ");") as Hs.
  { unfold sql, create_table, head. by rewrite <- !app_assoc. }
  rewrite Hs, blen_app. change (blen (lit ");")) with 2. clearbody sql. clear Hs.
  set (cols := table_columns type_arr p (seq 0 8)).
  assert (blen head <= blen (head ++ cols)) as Hle
    by (rewrite blen_app; pose proof (blen_nonneg cols); lia).
  destruct (256 <=? blen head) eqn:E; bool_hyps.
  { by rewrite (proj2 (Z.ltb_ge _ _)) by lia. }
  rewrite sqlite_columns_spec by done. fold cols.
  destruct (blen (head ++ cols) <? 256) eqn:E1; cbn [mbind option_bind]; bool_hyps.
  - destruct (256 - blen (head ++ cols) <? 3) eqn:E2; bool_hyps.
    + by rewrite (proj2 (Z.ltb_ge _ _)) by lia.
    + rewrite (proj2 (Z.leb_gt _ _)), (proj2 (Z.ltb_lt _ _)) by lia. done.
  - by rewrite (proj2 (Z.ltb_ge _ _)) by lia.
Qed.

(** A run of strcat calls that ends in an overflow. *)
Lemma bind_strcat {A} cap d s (f : bytes -> run_error + A) x :
  x = inl BufferOverflow -> ((blen d + blen s + 1 <=? cap) = true -> f (d ++ s) = x) ->
  bind_run (strcat cap d s) f = x.
Proof. intros -> Hf. unfold strcat. destruct (_ <=? cap); [by apply Hf|done]. Qed.

Lemma db_columns_spec k p ixs t : blen t < 256 ->
  db_columns k p ixs t =
    if blen (t ++ table_columns (types_of k) p ixs) <? 256 then inr (t ++ table_columns (types_of k) p ixs)
    else inl BufferOverflow.
Proof.
  revert t. induction ixs as [|i ixs IH]; intros t Ht.
  - cbn [db_columns]. unfold table_columns. cbn [map concat]. rewrite app_nil_r.
    by rewrite (proj2 (Z.ltb_lt _ _) Ht).
  - cbn [db_columns]. unfold table_columns. cbn [map concat]. fold (table_columns (types_of k) p ixs).
    destruct (sql_flag p i); cbn [negb]; [|by rewrite IH].
    set (rest := table_columns (types_of k) p ixs). pose proof (blen_nonneg rest) as Hr.
    pose proof (blen_nonneg (column_name p i)) as Hn. pose proof (blen_nonneg (nth i (types_of k) [])) as Hy.
    destruct (blen (t ++ _ ++ rest) <? 256) eqn:E; bool_hyps; autorewrite with nmq_rw in E;
      change (blen (lit ", ")) with 2 in E.
    + do 3 (rewrite strcat_small by (autorewrite with nmq_rw; change (blen (lit ", ")) with 2; lia);
            cbn [bind_run]).
      rewrite IH by (autorewrite with nmq_rw; change (blen (lit ", ")) with 2; lia). fold rest.
      rewrite (proj2 (Z.ltb_lt _ _)) by (autorewrite with nmq_rw; change (blen (lit ", ")) with 2; lia).
      by rewrite <- !app_assoc.
    + do 3 (apply bind_strcat; [done|]; intros ?%Z.leb_le); cbn beta. autorewrite with nmq_rw in *.
      change (blen (lit ", ")) with 2 in *.
      rewrite IH by (autorewrite with nmq_rw; change (blen (lit ", ")) with 2; lia). fold rest.
      by rewrite (proj2 (Z.ltb_ge _ _)) by (autorewrite with nmq_rw; change (blen (lit ", ")) with 2; lia).
Qed.

(** The statement of the other data bases: the name is cut to the array, and
    the columns are written past it exactly if they do not fit. *)
Lemma db_statement_spec k name p :
  let sql := (take 127 (lit "CREATE TABLE IF NOT EXISTS " ++ name ++ serial k) ++
    table_columns (types_of k) p (seq 0 8)) ++ lit ");" in
  db_statement k name p = if blen sql <? 256 then inr sql else inl BufferOverflow.
Proof.
  intros sql. unfold db_statement. set (head := take 127 _) in *.
  assert (blen head <= 127) as Hh by (unfold head, blen; rewrite length_take; lia).
  set (cols := table_columns (types_of k) p (seq 0 8)) in *.
  assert (blen sql = blen (head ++ cols) + 2) as Hl by (unfold sql; by rewrite blen_app).
  rewrite db_columns_spec by lia. fold cols. clear Hh.
  destruct (blen (head ++ cols) <? 256) eqn:E; cbn [bind_run]; bool_hyps.
  - unfold strcat. change (blen (lit ");")) with 2. fold sql.
    destruct (_ <=? 256) eqn:E'; destruct (_ <? 256) eqn:E2; try done; bool_hyps; lia.
  - by rewrite (proj2 (Z.ltb_ge _ _)) by lia.
Qed.

Lemma table_columns_le types p ixs : (forall i, sql_as p i = None) ->
  blen (table_columns types p ixs) <=
    foldr (fun i n => 2 + blen (nth i key_arr []) + blen (nth i types []) + n) 0 ixs.
Proof.
  intros Has. induction ixs as [|i ixs IH]; [done|]. unfold table_columns in *. cbn [map concat foldr].
  rewrite blen_app. pose proof (blen_nonneg (nth i key_arr [])). pose proof (blen_nonneg (nth i types [])).
  destruct (sql_flag p i).
  - unfold column_name at 1. rewrite Has. cbn [default]. autorewrite with nmq_rw.
    change (blen (lit ", ")) with 2. lia.
  - rewrite blen_nil. lia.
Qed.

(** Without names of their own the columns always fit, whatever the table is
    called. *)
Theorem default_columns_fit k name p : (forall i, sql_as p i = None) ->
  exists sql, db_statement k name p = inr sql /\ blen sql < 256.
Proof.
  intros Has. rewrite db_statement_spec. cbv zeta.
  pose proof (table_columns_le (types_of k) p (seq 0 8) Has) as Hc.
  set (cols := table_columns (types_of k) p (seq 0 8)) in *.
  assert (foldr (fun i n => 2 + blen (nth i key_arr []) + blen (nth i (types_of k) []) + n) 0 (seq 0 8) <= 120)
    as Hb by (destruct k; vm_compute; discriminate).
  set (head := take 127 _). assert (blen head <= 127) as Hh by (unfold head, blen; rewrite length_take; lia).
  assert (blen ((head ++ cols) ++ lit ");") < 256) as Hl
    by (rewrite !blen_app; change (blen (lit ");")) with 2; lia).
  rewrite (proj2 (Z.ltb_lt _ _) Hl). by eexists.
Qed.

(** *** Rules without a data base are dropped *)

(** Whether the data base of the rule refuses. *)
Definition fails (k : db_kind) (e : db_env) (dbs : gmap nat rule_db) (r : rule) : bool :=
  bool_decide (ru_type r = kind_type k) &&
  match (p ← ru_db k r; dbs !! p) with
  | Some d => match db_start k e d (ru_sql r) with inr b => negb b | inl _ => false end
  | None => false
  end.

(** The rules the loop leaves; with [init_last] only the last one is tried. *)
Fixpoint survivors (k : db_kind) (e : db_env) (init_last : bool) (dbs : gmap nat rule_db) (rest : list rule)
  : list rule :=
  match rest with
  | [] => []
  | r :: rest' =>
      if (negb init_last || bool_decide (rest' = [])) && fails k e dbs r then survivors k e init_last dbs rest'
      else r :: survivors k e init_last dbs rest'
  end.

Lemma survivors_delete k e il dbs p rest : p ∉ omap db_ptr rest ->
  survivors k e il (delete p dbs) rest = survivors k e il dbs rest.
Proof.
  induction rest as [|r rest IH]; [done|]. cbn [survivors omap list_omap]. intros Hp.
  assert (fails k e (delete p dbs) r = fails k e dbs r) as ->.
  { unfold fails. destruct (decide (ru_type r = kind_type k)) as [E|E]; [|by rewrite bool_decide_eq_false_2].
    destruct (db_ptr_kind k r E) as [Hd _]. rewrite Hd in Hp. destruct (ru_db k r) as [q|]; [|done].
    cbn [mbind option_bind]. rewrite lookup_delete_ne; [done|]. set_solver. }
  rewrite IH; [done|]. destruct (db_ptr r); set_solver.
Qed.

Lemma survivors_length k e il dbs rest : (length (survivors k e il dbs rest) <= length rest)%nat.
Proof. induction rest as [|r rest IH]; cbn [survivors length]; [lia|]. case_test; cbn [length]; lia. Qed.

(** No statement is too long and no string is missing. *)
Definition startable (k : db_kind) (e : db_env) (dbs : gmap nat rule_db) (l : list rule) : Prop :=
  forall r p d, r ∈ l -> ru_type r = kind_type k -> ru_db k r = Some p -> dbs !! p = Some d ->
  exists b, db_start k e d (ru_sql r) = inr b.

Lemma client_loop_spec k e il rest cr seen rc :
  heap_ok (with_rules cr (seen ++ rest)) -> startable k e (cr_dbs cr) rest ->
  let l := survivors k e il (cr_dbs cr) rest in
  exists h, client_loop k e il cr seen rest rc
      = inr (with_rules (with_dbs cr h) (seen ++ l), if bool_decide (length l = length rest) then rc else -1) /\
    heap_ok (with_rules (with_dbs cr h) (seen ++ l)).
Proof.
  revert cr seen rc. induction rest as [|r rest IH]; intros cr seen rc Hok Hs.
  { exists (cr_dbs cr). cbn [survivors client_loop]. rewrite app_nil_r in *. by destruct cr. }
  cbn [client_loop survivors].
  assert (heap_ok (with_rules cr ((seen ++ [r]) ++ rest)) /\ startable k e (cr_dbs cr) rest) as [Hok' Hs'].
  { rewrite <- app_assoc. split; [done|]. intros ? ? ? Hr. eapply Hs. by right. }
  assert (Hskip := IH cr (seen ++ [r]) rc Hok' Hs'). destruct Hskip as (h & Hc & Hh).
  rewrite <- app_assoc in Hc, Hh. cbn [app] in Hc, Hh.
  assert (forall X, X = client_loop k e il cr (seen ++ [r]) rest rc ->
    exists h, X = inr (with_rules (with_dbs cr h) (seen ++ r :: survivors k e il (cr_dbs cr) rest),
        if bool_decide (length (r :: survivors k e il (cr_dbs cr) rest) = length (r :: rest)) then rc else -1) /\
      heap_ok (with_rules (with_dbs cr h) (seen ++ r :: survivors k e il (cr_dbs cr) rest))) as Hgo.
  { intros X ->. exists h. split; [|done]. rewrite Hc. do 2 f_equal. cbn [length].
    destruct (decide (length (survivors k e il (cr_dbs cr) rest) = length rest)) as [E|E].
    - by rewrite !bool_decide_eq_true_2 by lia.
    - by rewrite !bool_decide_eq_false_2 by lia. }
  replace (negb il || bool_decide (rest = []))%bool with (negb (il && negb (bool_decide (rest = []))))
    by (by destruct il, (bool_decide (rest = []))).
  destruct (il && negb (bool_decide (rest = []))); cbn [negb andb]; [by apply Hgo|].
  unfold fails. destruct (decide (ru_type r = kind_type k)) as [E|E];
    [rewrite bool_decide_eq_true_2 by done|rewrite bool_decide_eq_false_2 by done]; cbn [negb andb]; [|by apply Hgo].
  destruct (db_ptr_kind k r E) as [Hptr Hnr].
  assert (r ∈ seen ++ r :: rest) as Hin by set_solver.
  destruct (typed_db k r) as [p Hp]; [|done|].
  { destruct Hok as (Ht & _). by apply (proj1 (Forall_forall _ _) Ht). }
  rewrite Hp in Hptr |- *. destruct (db_ptr_alive _ r p Hok Hin Hptr) as [d Hd].
  cbn [mbind option_bind]. change (cr_dbs (with_rules cr (seen ++ r :: rest))) with (cr_dbs cr) in Hd. rewrite Hd.
  destruct (Hs r p d ltac:(by left) E Hp Hd) as [b Hb]. rewrite Hb. cbn [bind_run].
  destruct b; cbn [negb]; [by apply Hgo|].
  apply heap_ok_free in Hok as Hf. unfold freed in Hf. rewrite Hptr, Hnr in Hf.
  assert (p ∉ omap db_ptr rest) as Hnp.
  { destruct Hok as (_ & _ & Hn & _). cbn in Hn. rewrite omap_app in Hn. apply NoDup_app in Hn as (_ & _ & Hn).
    cbn [omap list_omap] in Hn. rewrite Hptr in Hn. by apply NoDup_cons in Hn as [? _]. }
  destruct (IH (finish_with_error cr p) seen (-1)) as (h' & Hc' & Hh').
  - by destruct cr.
  - intros r' p' d' Hr' E' Hp' Hd'. cbn in Hd'. apply lookup_delete_Some in Hd' as [_ Hd']. by apply (Hs r' p' d'); [right|..].
  - cbn [finish_with_error cr_dbs with_dbs] in Hc', Hh'. rewrite survivors_delete in Hc', Hh' by done.
    exists h'. split; [|done]. rewrite Hc'. f_equal. f_equal. cbn [length].
    pose proof (survivors_length k e il (cr_dbs cr) rest).
    rewrite (bool_decide_eq_false_2 (length _ = S _)) by lia. by case_bool_decide.
Qed.

(** Connecting the data bases of one kind keeps the configuration consistent
    and takes out exactly the rules whose data base refuses, with an error if
    there was one. *)
Theorem nanomq_client_db_correct k e cr :
  heap_ok cr -> startable k e (cr_dbs cr) (cr_rules cr) ->
  exists cr' rc, nanomq_client_db k e cr false = inr (cr', rc) /\ heap_ok cr' /\
    cr_rules cr' = List.filter (fun r => negb (fails k e (cr_dbs cr) r)) (cr_rules cr) /\
    cr_repubs cr' = cr_repubs cr /\
    (rc = 0 <-> existsb (fails k e (cr_dbs cr)) (cr_rules cr) = false) /\ (rc <> 0 -> rc = -1).
Proof.
  intros Hok Hs. unfold nanomq_client_db.
  destruct (client_loop_spec k e false (cr_rules cr) cr [] 0) as (h & Hc & Hh); [by destruct cr|done|].
  set (l := survivors k e false (cr_dbs cr) (cr_rules cr)) in *.
  assert (l = List.filter (fun r => negb (fails k e (cr_dbs cr) r)) (cr_rules cr) /\
    (length l = length (cr_rules cr) <-> existsb (fails k e (cr_dbs cr)) (cr_rules cr) = false)) as [Hl Hn].
  { clear Hc Hh Hok Hs. subst l. induction (cr_rules cr) as [|r rest IH]; [done|].
    cbn [survivors List.filter existsb negb orb andb]. pose proof (survivors_length k e false (cr_dbs cr) rest).
    destruct (fails k e (cr_dbs cr) r); cbn [negb length orb]; destruct IH as [IH1 IH2].
    - split; [done|]. split; [lia|done].
    - split; [by rewrite IH1|]. rewrite <- IH2. split; lia. }
  eexists _, _. split; [done|]. split_and!; [done|done|done| |].
  - rewrite <- Hn. case_bool_decide; [done|]. split; [lia|done].
  - case_bool_decide; lia.
Qed.

(** With [init_last]: the last rule stays or goes. *)
Lemma nanomq_client_db_last k e cr l r cr' rc :
  heap_ok cr -> cr_rules cr = l ++ [r] -> ru_type r = kind_type k -> nanomq_client_db k e cr true = inr (cr', rc) ->
  (rc = 0 /\ cr' = cr) \/ (rc = -1 /\ cr' = freed cr r l).
Proof.
  intros Hok Hl E. unfold nanomq_client_db. rewrite Hl.
  assert (forall seen, client_loop k e true cr seen (l ++ [r]) 0 = client_loop k e true cr (seen ++ l) [r] 0) as ->.
  { clear Hl. induction l as [|x l IH]; intros seen; [by rewrite app_nil_r|]. cbn [app client_loop andb].
    rewrite bool_decide_eq_false_2 by (by destruct l). cbn [negb]. rewrite IH, <- app_assoc. done. }
  cbn [app client_loop andb]. rewrite !bool_decide_eq_true_2 by done. cbn [negb].
  destruct (db_ptr_kind k r E) as [Hptr Hnr]. destruct (ru_db k r) as [p|]; [|done].
  destruct (cr_dbs cr !! p); [|done]. destruct (db_start _ _ _ _) as [|[]]; cbn [bind_run]; [done|..];
    intros [= <- <-].
  - left. split; [done|]. rewrite <- Hl. by destruct cr.
  - right. split; [done|]. unfold freed. by rewrite Hptr, Hnr.
Qed.

End Clients.

(** ** Examples *)

Section Witness.

(** The name given to the first field, if any; all fields are selected. *)
#[local] Instance named_sql : ParsedSql := {|
  parsed_sql := option bytes; sql_flag _ _ := true; sql_as p i := if (i =? 0)%nat then p else None
|}.

Definition db_rule (p : nat) : rule := Rule None RULE_FORWORD_MYSQL None (Some p) None None None None true (Z.of_nat p).

Definition two_dbs : conf_rule :=
  ConfRule [db_rule 0; db_rule 1] 0 false ∅
    {[0%nat := DbConf (Some (lit "t")) None None (Some (lit "up"));
      1%nat := DbConf (Some (lit "t")) None None (Some (lit "down"))]} 2.

Definition up_only : db_env :=
  DbEnv true (fun h _ _ => bool_decide (h = Some (lit "up"))) (fun _ => true) (fun _ => true) (fun _ => true)
    (fun _ => true).

Lemma two_dbs_ok : heap_ok two_dbs.
Proof.
  split_and!.
  - repeat constructor; by eexists.
  - split; [constructor|]. intros p. cbn. rewrite lookup_empty. split; [by intros ?%elem_of_nil|by intros [? ?]].
  - split; [by apply (bool_decide_unpack _); vm_compute|]. intros p. cbn. rewrite !elem_of_cons, elem_of_nil.
    destruct (decide (p = 0%nat)) as [-> | H0]; [rewrite lookup_insert_eq; split; [by eexists|auto]|].
    rewrite lookup_insert_ne by done. destruct (decide (p = 1%nat)) as [-> | H1].
    + rewrite lookup_singleton_eq. split; [by eexists|auto].
    + rewrite lookup_singleton_ne by done. split; [naive_solver|by intros [? ?]].
Qed.

Lemma nanomq_client_db_correct_witness :
  exists cr' rc, nanomq_client_db MYSQL up_only two_dbs false = inr (cr', rc) /\ heap_ok cr' /\
    cr_rules cr' = List.filter (fun r => negb (fails MYSQL up_only (cr_dbs two_dbs) r)) (cr_rules two_dbs) /\
    cr_repubs cr' = cr_repubs two_dbs /\
    (rc = 0 <-> existsb (fails MYSQL up_only (cr_dbs two_dbs)) (cr_rules two_dbs) = false) /\ (rc <> 0 -> rc = -1).
Proof.
  apply (nanomq_client_db_correct MYSQL up_only two_dbs two_dbs_ok).
  intros r p d Hr _ Hp Hd. cbn in Hr. rewrite !elem_of_cons, elem_of_nil in Hr.
  destruct Hr as [-> | [-> | []]]; injection Hp as <-; vm_compute in Hd; injection Hd as <-; eexists; vm_compute; reflexivity.
Defined.

(** The first rule stays, the second goes. *)
Theorem unreachable_dropped :
  exists cr', nanomq_client_db MYSQL up_only two_dbs false = inr (cr', -1) /\ map ru_rule_id (cr_rules cr') = [0].
Proof. eexists. split; vm_compute; reflexivity. Qed.

(** A name of 40 characters for one column overflows the array when the table
    name is long. *)
Theorem column_name_overflow :
  db_statement MYSQL (repeat 116 100) (Some (repeat 97 40)) = inl BufferOverflow.
Proof. vm_compute. reflexivity. Qed.

(** A table name of 100 characters cuts the statement before its columns. *)
Theorem table_name_cut :
  exists sql, db_statement MYSQL (repeat 116 100) None = inr sql /\
    take 129 sql = lit "CREATE TABLE IF NOT EXISTS " ++ repeat 116 100 ++ lit ", ".
Proof. eexists. split; vm_compute; reflexivity. Qed.

End Witness.

End RuleClients.
