(* ===== verification/Bridge.v ===== *)
(** * Forwarding to bridges (nanomq/bridge.c)

    A published message goes to every node whose forwards match its topic: the
    topic is rewritten, quality of service and retain flag may be replaced, and
    the message is sent on the worker's aio of the node, cached, or dropped.
    Cached messages are sent again one at a time by the completion callbacks.
    Functions of nanolib and nng are fields of a class.  [None] is a NULL
    pointer that is dereferenced or memory that was not set. *)

From S2P Require Import Prelude NngApi NngModel NngQueue PubCodec.

(** ** Strings of nanolib *)

(** struct topics *)
Record topics := Topics {
  tp_remote_topic : option bytes;
  tp_remote_topic_len : Z;
  tp_local_topic : option bytes;
  tp_local_topic_len : Z;
  tp_prefix : option bytes;
  tp_prefix_len : Z;
  tp_suffix : option bytes;
  tp_suffix_len : Z;
  tp_qos : Z;
  tp_retain : Z;
  tp_retain_as_published : Z;
  tp_retain_handling : Z
}.

Class BridgeApi := {
  NO_QOS : Z;
  NO_RETAIN : Z;
  (* (topics, topic, is it the local topic) *)
  generate_repub_topic : topics -> bytes -> bool -> option bytes;
  nng_strnins : bytes -> bytes -> Z -> Z -> bytes;
  nng_strncat : bytes -> bytes -> Z -> Z -> bytes
}.

Class BridgeApiLaws `{BridgeApi} : Prop := {
  strnins_front s p : nng_strnins s p (blen s) (blen p) = p ++ s;
  strncat_back s t : nng_strncat s t (blen s) (blen t) = s ++ t
}.

Module Bridge.

Import PubCodec.

Section Forward.

Context `{C : MqttConst} `{M : NngMsg} `{TF : TopicFilter} `{BA : BridgeApi}.

(** ** Topic strings

    The body of [topic] is the packet's string or one allocated here, numbered
    in the order of allocation; [ts_marked] is rv == NNG_STAT_STRING. *)

Inductive topic_ptr := PacketTopic | Heap (n : nat).

Record topic_state := TopicState {
  ts_ptr : topic_ptr;
  ts_body : bytes;
  ts_len : Z;
  ts_marked : bool;
  ts_freed : list topic_ptr;
  ts_next : nat
}.

(** A new string replaces the body; the old one is freed if [free]. *)
Definition new_body (s : topic_state) (body : bytes) (free : bool) : topic_state :=
  TopicState (Heap (ts_next s)) body (blen body) true
    (if free then ts_freed s ++ [ts_ptr s] else ts_freed s) (S (ts_next s)).

Definition forward_repub (f : topics) (s : topic_state) : option topic_state :=
  if negb (tp_remote_topic_len f =? 0) then
    new_topic ← generate_repub_topic f (ts_body s) false;
    Some (new_body s new_topic false)
  else Some s.

Definition prefix_step (f : topics) (s : topic_state) : topic_state :=
  match tp_prefix f with
  | Some p => new_body s (nng_strnins (ts_body s) p (ts_len s) (tp_prefix_len f)) (ts_marked s)
  | None => s
  end.

Definition suffix_step (f : topics) (s : topic_state) : topic_state :=
  match tp_suffix f with
  | Some p => new_body s (nng_strncat (ts_body s) p (ts_len s) (tp_suffix_len f)) (ts_marked s)
  | None => s
  end.

Definition forward_topic (f : topics) (body : bytes) (len : Z) : option topic_state :=
  s ← forward_repub f (TopicState PacketTopic body len false [] 0);
  Some (suffix_step f (prefix_step f s)).

(** After the message was built the string is freed if it is marked. *)
Definition forward_freed (s : topic_state) : list topic_ptr :=
  if ts_marked s then ts_freed s ++ [ts_ptr s] else ts_freed s.

(** ** Messages *)

(** What bridge_publish_msg puts into the message and with which version it is
    encoded; a property list is the number of the mqtt_property_dup that made
    it. *)
Record bridge_msg := BridgeMsg {
  bm_topic : bytes;
  bm_payload : option bytes;
  bm_len : Z;
  bm_dup : Z;
  bm_qos : Z;
  bm_retain : Z;
  bm_props : option nat;
  bm_v5 : bool
}.

Definition bridge_publish_msg (topic : bytes) (payload : option bytes) (len dup qos retain : Z)
    (props : option nat) (v5 : bool) : bridge_msg :=
  BridgeMsg topic payload len dup qos retain props v5.

(** ** Nodes *)

Context {L : NngLmq bridge_msg}.

(** conf_bridge_node: the configuration; connected; whether bridge_aio[i] is
    busy; busy and the message on resend_aio; ctx_msgs. *)
Record bridge_node := BridgeNode {
  nd_enable : bool;
  nd_proto_ver : Z;
  nd_forwards : list topics;
  nd_connected : bool;
  nd_aio : list bool;
  nd_busy : bool;
  nd_resend : option bridge_msg;
  nd_ctx_msgs : option nng_lmq
}.

Definition with_aio (n : bridge_node) (l : list bool) : bridge_node :=
  BridgeNode (nd_enable n) (nd_proto_ver n) (nd_forwards n) (nd_connected n) l (nd_busy n) (nd_resend n)
    (nd_ctx_msgs n).
Definition with_ctx_msgs (n : bridge_node) (q : nng_lmq) : bridge_node :=
  BridgeNode (nd_enable n) (nd_proto_ver n) (nd_forwards n) (nd_connected n) (nd_aio n) (nd_busy n)
    (nd_resend n) (Some q).
Definition with_resend (n : bridge_node) (m : option bridge_msg) : bridge_node :=
  BridgeNode (nd_enable n) (nd_proto_ver n) (nd_forwards n) (nd_connected n) (nd_aio n)
    (match m with Some _ => true | None => false end) m (nd_ctx_msgs n).

Inductive bridge_out :=
  | SendAio (index : nat) (m : bridge_msg)
  | ResendAio (m : bridge_msg)
  | FreeMsg (m : bridge_msg).

(** The branches from "what if send qos msg failed?" on. *)
Definition send_or_cache (index : nat) (n : bridge_node) (m : bridge_msg)
  : option (bridge_node * list bridge_out) :=
  busy ← nd_aio n !! index;
  if busy || negb (nd_connected n) then
    if bm_qos m =? 0 then Some (n, [FreeMsg m])
    else
      match nd_ctx_msgs n with
      | None => Some (n, [])
      | Some q =>
          '(q, outs) ← (if nng_lmq_full q then
                          '(tmsg, q) ← nng_lmq_get q; Some (q, [FreeMsg tmsg])
                        else Some (q, []));
          match nng_lmq_put q m with
          | None => Some (with_ctx_msgs n q, outs ++ [FreeMsg m])
          | Some q => Some (with_ctx_msgs n q, outs)
          end
      end
  else Some (with_aio n (<[index := true]> (nd_aio n)), [SendAio index m]).

(** The packet and the version of its sender. *)
Record bridge_work := BridgeWork { bw_packet : pub_packet_struct; bw_proto_ver : Z }.

(** [props] and the number of property lists made so far. *)
Definition dup_props (w : bridge_work) (n : bridge_node) (ps : option nat * nat) : option nat * nat :=
  if (bw_proto_ver w =? MQTT_PROTOCOL_VERSION_v5) && (nd_proto_ver n =? MQTT_PROTOCOL_VERSION_v5)
  then (Some (snd ps), S (snd ps)) else ps.

Definition forward_msg (w : bridge_work) (n : bridge_node) (f : topics) (topic : bytes)
    (props : option nat) : bridge_msg :=
  let pp := bw_packet w in
  bridge_publish_msg topic (pp_payload pp) (pp_payload_len pp) (fh_dup (pp_fixed pp))
    (if tp_qos f =? NO_QOS then fh_qos (pp_fixed pp) else tp_qos f)
    (if tp_retain f =? NO_RETAIN then fh_retain (pp_fixed pp) else tp_retain f)
    props (nd_proto_ver n =? MQTT_PROTOCOL_VERSION_v5).

(** The loop over forwards_list, under the node's mutex. *)
Fixpoint forward_loop (w : bridge_work) (index : nat) (n : bridge_node) (ps : option nat * nat)
    (fs : list topics) : option (bridge_node * (option nat * nat) * list bridge_out) :=
  match fs with
  | [] => Some (n, ps, [])
  | f :: fs' =>
      body ← pb_topic (pp_publish (bw_packet w));
      filter ← tp_local_topic f;
      if topic_filter filter body then
        let ps := dup_props w n ps in
        s ← forward_topic f body (pb_topic_len (pp_publish (bw_packet w)));
        '(n, outs) ← send_or_cache index n (forward_msg w n f (ts_body s) (fst ps));
        '(n, ps, outs') ← forward_loop w index n ps fs';
        Some (n, ps, outs ++ outs')
      else forward_loop w index n ps fs'
  end.

Fixpoint nodes_loop (w : bridge_work) (index : nat) (ps : option nat * nat) (ns : list bridge_node)
  : option (list bridge_node * list (list bridge_out)) :=
  match ns with
  | [] => Some ([], [])
  | n :: ns' =>
      '(n, ps, outs) ← (if nd_enable n then forward_loop w index n ps (nd_forwards n) else Some (n, ps, []));
      '(ns, outss) ← nodes_loop w index ps ns';
      Some (n :: ns, outs :: outss)
  end.

(** The nodes afterwards and what was done for each. *)
Definition bridge_pub_handler (w : bridge_work) (index : nat) (ns : list bridge_node)
  : option (list bridge_node * list (list bridge_out)) :=
  let h := pp_publish (bw_packet w) in
  is_sys ← ((if blen (lit "$SYS") <? pb_topic_len h then
              body ← pb_topic h; Some (strncmp0 body (lit "$SYS") 4)
            else Some false) : option bool);
  if (is_sys : bool) then Some (ns, map (fun _ => []) ns)
  else nodes_loop w index (None, 0%nat) ns.

(** ** Completion callbacks *)

(** The next cached message, onto resend_aio. *)
Definition resend_next (n : bridge_node) : option (bridge_node * list bridge_out) :=
  q ← nd_ctx_msgs n;
  match nng_lmq_get q with
  | Some (m, q) => Some (with_resend (with_ctx_msgs n q) (Some m), [ResendAio m])
  | None => Some (n, [])
  end.

(** bridge_send_cb, of bridge_aio[index], which is free when it returns *)
Definition bridge_send_cb (index : nat) (n : bridge_node) : option (bridge_node * list bridge_out) :=
  let n := with_aio n (<[index := false]> (nd_aio n)) in
  if negb (nd_busy n) then resend_next n else Some (n, []).

Definition bridge_resend_cb (n : bridge_node) : option (bridge_node * list bridge_out) :=
  resend_next (with_resend n None).

(** ** Rewriting of topics *)

(** The lengths of the configuration are those of the strings. *)
Definition topics_ok (f : topics) : Prop :=
  (forall p, tp_prefix f = Some p -> tp_prefix_len f = blen p) /\
  (forall p, tp_suffix f = Some p -> tp_suffix_len f = blen p).

(** Of the strings allocated so far, all but the current one are freed, and the
    current one is marked; the packet's string never is. *)
Definition owned (s : topic_state) : Prop :=
  ts_len s = blen (ts_body s) /\ forward_freed s = map Heap (seq 0 (ts_next s)).

Lemma new_body_owned s body : owned s -> owned (new_body s body (ts_marked s)).
Proof.
  intros [Hl Hf]. split; [done|]. cbn [new_body ts_next]. rewrite seq_S, map_app, <- Hf. done.
Qed.

(** Prefix and suffix; a string that is not marked is still the first one. *)
Lemma rewrite_steps `{!BridgeApiLaws} f s : topics_ok f -> owned s ->
  let s' := suffix_step f (prefix_step f s) in
  ts_body s' = default [] (tp_prefix f) ++ ts_body s ++ default [] (tp_suffix f) /\ owned s' /\
  (ts_marked s' = false -> ts_marked s = false /\ s' = s /\ tp_prefix f = None /\ tp_suffix f = None).
Proof.
  intros [Hp Hs] Ho. set (s2 := prefix_step f s).
  assert (ts_body s2 = default [] (tp_prefix f) ++ ts_body s /\ owned s2) as [Hb2 Ho2].
  { unfold s2, prefix_step. destruct (tp_prefix f) as [p|] eqn:Ep; [|done].
    split; [|by apply new_body_owned]. cbn. destruct Ho as [-> _]. by rewrite (Hp p eq_refl), strnins_front. }
  cbn zeta. unfold suffix_step. destruct (tp_suffix f) as [p|] eqn:Ep; cbn [default from_option].
  - split; [|by split; [apply new_body_owned|]]. cbn. destruct Ho2 as [-> _].
    by rewrite (Hs p eq_refl), strncat_back, Hb2, app_assoc.
  - rewrite app_nil_r. split; [done|]. split; [done|]. unfold s2, prefix_step.
    by destruct (tp_prefix f).
Qed.

(** C22. The topic of the forwarded message is the configured remote topic, or
    the packet's, with the prefix in front and the suffix behind; every string
    that was allocated on the way is freed exactly once, and the packet's string
    is not freed. *)
Theorem forward_topic_correct `{!BridgeApiLaws} f body s :
  topics_ok f -> forward_topic f body (blen body) = Some s ->
  (exists base, (if tp_remote_topic_len f =? 0 then Some body else generate_repub_topic f body false) = Some base /\
     ts_body s = default [] (tp_prefix f) ++ base ++ default [] (tp_suffix f)) /\
  forward_freed s = map Heap (seq 0 (ts_next s)).
Proof.
  intros Hf E. apply bind_Some in E as (s1 & E1 & [= <-]).
  assert (exists base, (if tp_remote_topic_len f =? 0 then Some body else generate_repub_topic f body false)
    = Some base /\ ts_body s1 = base /\ owned s1) as (base & Eb & Hb & Ho).
  { unfold forward_repub in E1. destruct (tp_remote_topic_len f =? 0); cbn in E1.
    - injection E1 as <-. by exists body.
    - apply bind_Some in E1 as (t & Et & [= <-]). by exists t. }
  destruct (rewrite_steps f s1 Hf Ho) as (Hb' & Ho' & _). split; [|apply Ho']. exists base. by rewrite Hb', Hb.
Qed.

(** ** What becomes of a message *)

Section Laws.

Context `{LL : !NngLmqLaws bridge_msg}.

Definition queue (n : bridge_node) : list bridge_msg := from_option lmq_items [] (nd_ctx_msgs n).

Definition sends (outs : list bridge_out) : list bridge_msg :=
  flat_map (fun o => match o with SendAio _ m => [m] | _ => [] end) outs.
Definition resends (outs : list bridge_out) : list bridge_msg :=
  flat_map (fun o => match o with ResendAio m => [m] | _ => [] end) outs.
Definition frees (outs : list bridge_out) : list bridge_msg :=
  flat_map (fun o => match o with FreeMsg m => [m] | _ => [] end) outs.

Lemma sends_app l k : sends (l ++ k) = sends l ++ sends k.
Proof. apply flat_map_app. Qed.
Lemma resends_app l k : resends (l ++ k) = resends l ++ resends k.
Proof. apply flat_map_app. Qed.
Lemma frees_app l k : frees (l ++ k) = frees l ++ frees k.
Proof. apply flat_map_app. Qed.

(** A node with a queue of at least one place; its aio [i] exists. *)
Definition node_ok (i : nat) (n : bridge_node) : Prop :=
  is_Some (nd_aio n !! i) /\
  exists q, nd_ctx_msgs n = Some q /\ 1 <= nng_lmq_cap q /\ blen (lmq_items q) <= nng_lmq_cap q.

Definition capacity (n : bridge_node) : nat := Z.to_nat (from_option nng_lmq_cap 0 (nd_ctx_msgs n)).

Lemma node_ok_room i n : node_ok i n -> (length (queue n) <= capacity n)%nat /\ (1 <= capacity n)%nat.
Proof. intros [_ (q & Hq & Hc & Hl)]. unfold queue, capacity. rewrite Hq. cbn. unfold blen in Hl. lia. Qed.

(** A bounded queue takes a message: what does not fit goes from the front. *)
Definition excess (cap : nat) (all : list bridge_msg) : nat := (length all - cap)%nat.
Definition bounded (cap : nat) (all : list bridge_msg) : list bridge_msg := drop (excess cap all) all.
Definition evicted (cap : nat) (all : list bridge_msg) : list bridge_msg := take (excess cap all) all.

Lemma evicted_bounded cap l : evicted cap l ++ bounded cap l = l.
Proof. apply take_drop. Qed.

Lemma bounded_fits cap l : (length l <= cap)%nat -> bounded cap l = l /\ evicted cap l = [].
Proof. intros H. unfold bounded, evicted, excess. by replace (length l - cap)%nat with 0%nat by lia. Qed.

(** Messages may be put one after the other or all at once. *)
Lemma bounded_app cap l k :
  bounded cap (bounded cap l ++ k) = bounded cap (l ++ k) /\
  evicted cap l ++ evicted cap (bounded cap l ++ k) = evicted cap (l ++ k).
Proof.
  unfold bounded, evicted, excess. rewrite !length_app, length_drop.
  destruct (le_lt_dec (length l) cap) as [H|H].
  - replace (length l - cap)%nat with 0%nat by lia. rewrite drop_0, Nat.sub_0_r. done.
  - replace (length l - (length l - cap) + length k - cap)%nat with (length k) by lia.
    replace (length l + length k - cap)%nat with ((length l - cap) + length k)%nat by lia. split.
    + rewrite <- (drop_app_le l k) by lia. by rewrite drop_drop.
    + rewrite <- (drop_app_le l k), <- (take_app_le l k) by lia. apply take_take_drop.
Qed.

Definition aio_free (i : nat) (n : bridge_node) : bool :=
  nd_connected n && bool_decide (nd_aio n !! i = Some false).

(** The queue after [m] was put, and what it pushed out. *)
Lemma cache_put q m : 1 <= nng_lmq_cap q -> blen (lmq_items q) <= nng_lmq_cap q ->
  exists q1 q2 old, (if nng_lmq_full q then '(tmsg, q) ← nng_lmq_get q; Some (q, [FreeMsg tmsg])
                 else Some (q, [])) = Some (q1, map FreeMsg old) /\
    nng_lmq_put q1 m = Some q2 /\ lmq_items q = old ++ lmq_items q1 /\
    lmq_items q2 = lmq_items q1 ++ [m] /\ nng_lmq_cap q2 = nng_lmq_cap q /\
    blen (lmq_items q2) <= nng_lmq_cap q /\ (old = [] <-> nng_lmq_full q = false) /\ (length old <= 1)%nat.
Proof.
  intros Hc Hl. destruct (nng_lmq_full q) eqn:Hf.
  - rewrite lmq_full, lmq_len in Hf. destruct (lmq_items q) as [|t l] eqn:Hi; [rewrite blen_nil in *; lia|].
    destruct (lmq_get_head _ _ _ Hi) as (q1 & -> & Hi1 & Hc1). rewrite blen_cons in Hl.
    destruct (lmq_put_room q1 m) as (q2 & E2 & Hi2 & Hc2); [rewrite lmq_full, lmq_len, Hi1, Hc1; lia|].
    exists q1, q2, [t]. cbn. rewrite Hi1, Hi2, Hc2, Hc1, Hi1, blen_app. repeat split; try done; unfold blen in *; cbn; lia.
  - destruct (lmq_put_room q m Hf) as (q2 & E2 & Hi2 & Hc2). exists q, q2, []. cbn.
    rewrite lmq_full, lmq_len in Hf. rewrite Hi2, Hc2, blen_app. repeat split; try done; unfold blen in *; cbn; lia.
Qed.

(** One message: sent when the aio is free and the node connected; dropped or
    cached otherwise, and a full cache loses its oldest message. *)
Lemma send_or_cache_ok i n m : node_ok i n ->
  exists n' outs, send_or_cache i n m = Some (n', outs) /\ node_ok i n' /\
    nd_forwards n' = nd_forwards n /\ nd_proto_ver n' = nd_proto_ver n /\
    nd_busy n' = nd_busy n /\ nd_resend n' = nd_resend n /\ resends outs = [] /\
    capacity n' = capacity n /\
    if aio_free i n then sends outs = [m] /\ frees outs = [] /\ queue n' = queue n /\ aio_free i n' = false
    else sends outs = [] /\ aio_free i n' = false /\
      if bm_qos m =? 0 then frees outs = [m] /\ queue n' = queue n
      else queue n' = bounded (capacity n) (queue n ++ [m]) /\
        frees outs = evicted (capacity n) (queue n ++ [m]).
Proof.
  intros [[busy Hb] (q & Hq & Hc & Hl)]. unfold send_or_cache, aio_free, queue, capacity. rewrite Hb, Hq. cbn [mbind option_bind].
  destruct (busy || negb (nd_connected n)) eqn:Hbusy.
  - assert (nd_connected n && bool_decide (Some busy = Some false) = false) as ->.
    { destruct busy, (nd_connected n); done. }
    destruct (bm_qos m =? 0).
    + exists n, [FreeMsg m]. rewrite Hb, Hq.
      split_and!; try done; [split; [by eexists|by exists q]|]. by destruct busy, (nd_connected n).
    + destruct (cache_put q m Hc Hl) as (q1 & q2 & old & -> & E2 & Hi & Hi2 & Hc2 & Hl2 & Hold & Hone).
      assert (length old + (length (lmq_items q1) + length [m]) - Z.to_nat (nng_lmq_cap q) = length old)%nat as Hlen.
      { rewrite Hi2, blen_app in Hl2. rewrite lmq_full, lmq_len in Hold. rewrite Hi, blen_app in Hl, Hold.
        unfold blen in *. destruct old as [|o old]; cbn [length] in *; [lia|].
        destruct (Z.leb_spec (nng_lmq_cap q) (Z.of_nat (S (length old)) + Z.of_nat (length (lmq_items q1))));
          [lia|]. discriminate (proj2 Hold eq_refl). }
      cbn [mbind option_bind]. rewrite E2. exists (with_ctx_msgs n q2), (map FreeMsg old).
      assert (sends (map FreeMsg old) = [] /\ resends (map FreeMsg old) = [] /\ frees (map FreeMsg old) = old)
        as (-> & -> & ->).
      { clear. induction old as [|o old (H1 & H2 & IH)]; [done|]. split_and!; [done|done|]. cbn. by f_equal. }
      cbn. rewrite Hb. split_and!; try done.
      * split; [by eexists|]. exists q2. rewrite Hc2. by split_and!.
      * by rewrite Hc2.
      * by destruct busy, (nd_connected n).
      * rewrite Hi2, Hi. unfold bounded, excess. rewrite <- app_assoc, !length_app, Hlen. by rewrite drop_app_length.
      * rewrite Hi. unfold evicted, excess. rewrite <- app_assoc, !length_app, Hlen. by rewrite take_app_length.
  - destruct busy; [done|]. destruct (nd_connected n) eqn:Hcon; [|done]. cbn.
    assert (<[i := true]> (nd_aio n) !! i = Some true) as Hins
      by (apply list_lookup_insert_eq; by eapply lookup_lt_Some).
    eexists _, _. split; [done|]. cbn. rewrite Hins, Hq, Hcon.
    split_and!; try done. split; [cbn; rewrite Hins; by eexists|by exists q].
Qed.

(** The forward [f] turns the packet into [m]. *)
Definition forwarded (w : bridge_work) (v5 : bool) (body : bytes) (f : topics) (m : bridge_msg) : Prop :=
  let pp := bw_packet w in
  (exists s, forward_topic f body (pb_topic_len (pp_publish pp)) = Some s /\ bm_topic m = ts_body s) /\
  bm_payload m = pp_payload pp /\ bm_len m = pp_payload_len pp /\ bm_dup m = fh_dup (pp_fixed pp) /\
  bm_qos m = (if tp_qos f =? NO_QOS then fh_qos (pp_fixed pp) else tp_qos f) /\
  bm_retain m = (if tp_retain f =? NO_RETAIN then fh_retain (pp_fixed pp) else tp_retain f) /\
  bm_v5 m = v5.

Definition selects (body : bytes) (f : topics) : bool :=
  match tp_local_topic f with Some filter => topic_filter filter body | None => false end.

(** Every forward has a local topic, and the ones that match a remote one. *)
Definition forward_ok (w : bridge_work) (body : bytes) (f : topics) : Prop :=
  is_Some (tp_local_topic f) /\
  (selects body f = true -> is_Some (forward_topic f body (pb_topic_len (pp_publish (bw_packet w))))).

Definition is_qos0 (m : bridge_msg) : bool := bm_qos m =? 0.

(** The fate of the messages [ms] of one node: the first is sent if the aio is
    free and the node connected; of the others those with quality of service 0
    are dropped and the rest enters the cache in order.  Only what exceeds the
    capacity of the cache is lost, from its front. *)
Definition fate (cap : nat) (free : bool) (before after ms sent freed : list bridge_msg) : Prop :=
  let rest := if free then tail ms else ms in
  let all := before ++ List.filter (fun m => negb (is_qos0 m)) rest in
  sent = (if free then take 1 ms else []) /\ after = bounded cap all /\
  freed ≡ₚ evicted cap all ++ List.filter is_qos0 rest.

Lemma fate_nil cap free q : (length q <= cap)%nat -> fate cap free q q [] [] [].
Proof.
  intros H. destruct (bounded_fits cap q H) as [Hb He].
  split; [by destruct free|]. by destruct free; cbn; rewrite app_nil_r, ?Hb, ?He.
Qed.

(** [n'] differs from [n] only in its cache and its aios. *)
Definition same_node (n n' : bridge_node) : Prop :=
  nd_proto_ver n' = nd_proto_ver n /\ nd_busy n' = nd_busy n /\ nd_resend n' = nd_resend n.

Lemma forward_loop_ok w i body fs n ps :
  node_ok i n -> pb_topic (pp_publish (bw_packet w)) = Some body -> Forall (forward_ok w body) fs ->
  exists n' ps' outs ms, forward_loop w i n ps fs = Some (n', ps', outs) /\ node_ok i n' /\ same_node n n' /\
    Forall2 (forwarded w (nd_proto_ver n =? MQTT_PROTOCOL_VERSION_v5) body)
      (List.filter (selects body) fs) ms /\
    resends outs = [] /\ fate (capacity n) (aio_free i n) (queue n) (queue n') ms (sends outs) (frees outs).
Proof.
  intros Hn Hb Hfs. revert n ps Hn. induction Hfs as [|f fs [[lt Hlt] Hf] _ IH]; intros n ps Hn.
  - exists n, ps, [], []. split; [done|]. split_and!; try done. by apply fate_nil, (node_ok_room i).
  - cbn [forward_loop]. rewrite Hb, Hlt. cbn [mbind option_bind List.filter].
    unfold selects in Hf |- * at 1. rewrite Hlt in Hf |- *.
    destruct (topic_filter lt body); [|by apply IH].
    destruct (Hf eq_refl) as [s Es]. rewrite Es. cbn [mbind option_bind].
    set (m := forward_msg w n f (ts_body s) (fst (dup_props w n ps))).
    destruct (send_or_cache_ok i n m Hn) as (n1 & o1 & -> & Hn1 & _ & Hv & Hbu & Hre & Hr1 & Hcap & Hc).
    cbn [mbind option_bind].
    destruct (IH n1 (dup_props w n ps) Hn1) as (n' & ps' & o2 & ms & -> & Hn' & (Hv' & Hbu' & Hre') & HF & Hr2 & Hfate).
    exists n', ps', (o1 ++ o2), (m :: ms). rewrite resends_app, sends_app, frees_app, Hr1, Hr2.
    split; [done|]. split; [done|]. split; [split_and!; congruence|].
    split; [constructor; [|by rewrite Hv in HF]; split_and!; try done; by exists s|]. split; [done|].
    rewrite Hcap in Hfate. destruct (aio_free i n).
    + destruct Hc as (-> & -> & Hq & Hfree). rewrite Hfree in Hfate. destruct Hfate as (-> & E & Hl).
      rewrite Hq in *. done.
    + destruct Hc as (-> & Hfree & Hc). rewrite Hfree in Hfate. destruct Hfate as (-> & E & Hl).
      split; [done|]. cbn [List.filter].
      assert (is_qos0 m = (bm_qos m =? 0)) as -> by done. destruct (bm_qos m =? 0); cbn [negb].
      * destruct Hc as [-> Hq]. rewrite Hq in *. split; [done|]. cbn [app]. by rewrite <- Permutation_middle, Hl.
      * destruct Hc as [Hq ->]. rewrite Hq in *.
        destruct (bounded_app (capacity n) (queue n ++ [m]) (List.filter (fun m => negb (is_qos0 m)) ms)) as [Hb1 Hb2].
        rewrite <- app_assoc in Hb1, Hb2. cbn [app] in Hb1, Hb2. rewrite <- Hb1, <- Hb2. split; [done|].
        by rewrite Hl, app_assoc.
Qed.

(** What one node does with the packet. *)
Definition node_forwards (w : bridge_work) (i : nat) (body : bytes) (n n' : bridge_node)
    (outs : list bridge_out) : Prop :=
  if nd_enable n then
    node_ok i n' /\ same_node n n' /\ resends outs = [] /\
    exists ms, Forall2 (forwarded w (nd_proto_ver n =? MQTT_PROTOCOL_VERSION_v5) body)
        (List.filter (selects body) (nd_forwards n)) ms /\
      fate (capacity n) (aio_free i n) (queue n) (queue n') ms (sends outs) (frees outs)
  else n' = n /\ outs = [].

Lemma nodes_loop_ok w i body ns ps :
  pb_topic (pp_publish (bw_packet w)) = Some body ->
  Forall (fun n => nd_enable n = true -> node_ok i n /\ Forall (forward_ok w body) (nd_forwards n)) ns ->
  exists ns' outss, nodes_loop w i ps ns = Some (ns', outss) /\ Forall3 (node_forwards w i body) ns ns' outss.
Proof.
  intros Hb Hns. revert ps. induction Hns as [|n ns Hn _ IH]; intros ps.
  - exists [], []. split; [done|constructor].
  - cbn [nodes_loop]. unfold node_forwards. destruct (nd_enable n) eqn:He.
    + destruct (Hn eq_refl) as [Hok Hfs].
      destruct (forward_loop_ok w i body (nd_forwards n) n ps Hok Hb Hfs)
        as (n' & ps' & outs & ms & -> & Hn' & Hsame & HF & Hr & Hfate).
      cbn [mbind option_bind]. destruct (IH ps') as (ns' & outss & -> & H3).
      exists (n' :: ns'), (outs :: outss). split; [done|]. constructor; [|done]. rewrite He.
      split_and!; try done. by exists ms.
    + cbn [mbind option_bind]. destruct (IH ps) as (ns' & outss & -> & H3).
      exists (n :: ns'), ([] :: outss). split; [done|]. constructor; [|done]. by rewrite He.
Qed.

(** C20. A packet whose topic is not below "$SYS" goes through every enabled node:
    each matching forward makes a message with the rewritten topic, the packet's
    payload and the configured or original quality of service and retain flag;
    the first is sent if the worker's aio is free and the node connected, the
    others are cached in order or, with quality of service 0, dropped.  A cached
    message is lost only when the cache exceeds its capacity, the oldest first.
    Nodes that are not enabled are left alone. *)
Theorem bridge_pub_handler_correct w i ns body :
  pb_topic (pp_publish (bw_packet w)) = Some body -> is_prefix (lit "$SYS") body = false ->
  Forall (fun n => nd_enable n = true -> node_ok i n /\ Forall (forward_ok w body) (nd_forwards n)) ns ->
  exists ns' outss, bridge_pub_handler w i ns = Some (ns', outss) /\ Forall3 (node_forwards w i body) ns ns' outss.
Proof.
  intros Hb Hp Hns. unfold bridge_pub_handler. rewrite Hb. cbn [mbind option_bind].
  assert (strncmp0 body (lit "$SYS") 4 = false) as ->.
  { unfold strncmp0. apply bool_decide_eq_false. intros E. change (Z.to_nat 4) with 4%nat in E.
    assert (is_prefix (lit "$SYS") body = true); [|congruence].
    apply is_prefix_spec. exists (drop 4 body). rewrite <- (take_drop 4 body) at 1. by rewrite E. }
  destruct (_ <? _); cbn [mbind option_bind]; by apply nodes_loop_ok.
Qed.

(** ** The cache over time *)

(** The operations on one node: a message for worker [i], the completion of an
    aio, a change of the connection.  What they ask of the cache is kept beside
    the outputs. *)
Inductive cache_op := Put (m : bridge_msg) | Take.

Definition put_ops (i : nat) (n : bridge_node) (m : bridge_msg) : list cache_op :=
  if aio_free i n || is_qos0 m then [] else [Put m].

Definition with_connected (n : bridge_node) (b : bool) : bridge_node :=
  BridgeNode (nd_enable n) (nd_proto_ver n) (nd_forwards n) b (nd_aio n) (nd_busy n) (nd_resend n)
    (nd_ctx_msgs n).

Inductive node_run (n0 : bridge_node) : bridge_node -> list cache_op -> list bridge_out -> Prop :=
  | run_init : node_run n0 n0 [] []
  | run_msg n cs os i m n' outs :
      node_run n0 n cs os -> is_Some (nd_aio n !! i) -> send_or_cache i n m = Some (n', outs) ->
      node_run n0 n' (cs ++ put_ops i n m) (os ++ outs)
  | run_sent n cs os i n' outs :
      node_run n0 n cs os -> nd_aio n !! i = Some true -> bridge_send_cb i n = Some (n', outs) ->
      node_run n0 n' (cs ++ (if nd_busy n then [] else [Take])) (os ++ outs)
  | run_resent n cs os m n' outs :
      node_run n0 n cs os -> nd_resend n = Some m -> bridge_resend_cb n = Some (n', outs) ->
      node_run n0 n' (cs ++ [Take]) (os ++ outs)
  | run_connected n cs os b :
      node_run n0 n cs os -> node_run n0 (with_connected n b) cs os.

(** The cache as it should be: a first-in first-out queue of bounded capacity.
    A message put into it when it is full, and only then, pushes the oldest one
    out. *)
Record fifo := Fifo { ff_queue : list bridge_msg; ff_taken : list bridge_msg; ff_lost : list bridge_msg }.

Definition fifo_step (cap : nat) (s : fifo) (o : cache_op) : fifo :=
  match o with
  | Put m =>
      Fifo (bounded cap (ff_queue s ++ [m])) (ff_taken s) (ff_lost s ++ evicted cap (ff_queue s ++ [m]))
  | Take =>
      match ff_queue s with
      | [] => s
      | m :: q => Fifo q (ff_taken s ++ [m]) (ff_lost s)
      end
  end.

Definition fifo_run (cap : nat) (cs : list cache_op) : fifo := foldl (fifo_step cap) (Fifo [] [] []) cs.

Definition puts (cs : list cache_op) : list bridge_msg :=
  flat_map (fun o => match o with Put m => [m] | Take => [] end) cs.

Lemma fifo_run_app cap cs ds : fifo_run cap (cs ++ ds) = foldl (fifo_step cap) (fifo_run cap cs) ds.
Proof. apply foldl_app. Qed.

Lemma puts_app cs ds : puts (cs ++ ds) = puts cs ++ puts ds.
Proof. apply flat_map_app. Qed.

Lemma fifo_order cap cs :
  let s := fifo_run cap cs in
  ff_taken s ++ ff_queue s `sublist_of` puts cs /\ (ff_lost s = [] -> ff_taken s ++ ff_queue s = puts cs).
Proof.
  induction cs as [|o cs [Hs He]] using rev_ind; [done|]. cbn zeta in *.
  rewrite fifo_run_app, puts_app. cbn [foldl]. destruct o as [m|]; cbn [fifo_step puts flat_map].
  - cbn [ff_taken ff_queue ff_lost app]. pose proof (evicted_bounded cap (ff_queue (fifo_run cap cs) ++ [m])) as Eb.
    split.
    + transitivity ((ff_taken (fifo_run cap cs) ++ ff_queue (fifo_run cap cs)) ++ [m]); [|by apply sublist_app].
      rewrite <- app_assoc. apply sublist_app; [done|]. apply sublist_drop.
    + intros [Hl Hv]%app_eq_nil. rewrite Hv in Eb. cbn [app] in Eb. by rewrite Eb, app_assoc, He.
  - rewrite app_nil_r. destruct (ff_queue (fifo_run cap cs)) as [|m q] eqn:Eq; [by rewrite Eq|].
    cbn [ff_taken ff_queue ff_lost]. by rewrite <- app_assoc.
Qed.

Definition cache_ok (n : bridge_node) : Prop :=
  (exists q, nd_ctx_msgs n = Some q /\ 1 <= nng_lmq_cap q /\ blen (lmq_items q) <= nng_lmq_cap q) /\
  nd_busy n = bool_decide (is_Some (nd_resend n)).

(** The next message is taken from the front of the cache. *)
Lemma resend_next_ok n : cache_ok n ->
  exists n' outs, resend_next n = Some (n', outs) /\ cache_ok n' /\ queue n = resends outs ++ queue n' /\
    sends outs = [] /\ frees outs = [] /\ nd_resend n' = match queue n with [] => nd_resend n | m :: _ => Some m end /\
    capacity n' = capacity n /\ resends outs = take 1 (queue n).
Proof.
  intros [(q & Hq & Hc & Hl) Hb]. unfold resend_next, queue, capacity. rewrite Hq. cbn [mbind option_bind from_option].
  destruct (nng_lmq_get q) as [[m q']|] eqn:Hg.
  - destruct (lmq_get_Some _ _ _ Hg) as [Hi Hc']. eexists _, _. split; [done|]. rewrite Hi in Hl |- *. cbn.
    rewrite Hc'. split_and!; try done. split; [|done]. exists q'. rewrite blen_cons in Hl. rewrite Hc'.
    split_and!; [done|lia|lia].
  - apply lmq_get_None in Hg. rewrite Hg. exists n, []. rewrite Hq. cbn. rewrite Hg.
    split_and!; try done. split; [by exists q|done].
Qed.

Lemma bridge_send_cb_busy i n : bridge_send_cb i n =
  let n := with_aio n (<[i := false]> (nd_aio n)) in if nd_busy n then Some (n, []) else resend_next n.
Proof. unfold bridge_send_cb. cbn zeta. by destruct (nd_busy _). Qed.

(** A completion takes one message from the cache, unless the resend aio is
    busy with another. *)
Lemma callback_ok n n' outs :
  cache_ok n ->
  (exists i, bridge_send_cb i n = Some (n', outs) /\ nd_busy n = false) \/ bridge_resend_cb n = Some (n', outs) ->
  cache_ok n' /\ capacity n' = capacity n /\ queue n = resends outs ++ queue n' /\
  resends outs = take 1 (queue n) /\ frees outs = [].
Proof.
  intros Hok [(i & E & Hb)|E].
  - rewrite bridge_send_cb_busy in E. cbn zeta in E. set (n1 := with_aio n _) in E.
    assert (cache_ok n1) as Hok1 by (split; apply Hok). change (nd_busy n1) with (nd_busy n) in E. rewrite Hb in E.
    destruct (resend_next_ok n1 Hok1) as (n2 & o2 & E2 & Hok2 & Hq & _ & Hf & _ & Hc & Hr).
    rewrite E in E2. injection E2 as <- <-. by split_and!.
  - unfold bridge_resend_cb in E. assert (cache_ok (with_resend n None)) as Hok1 by (split; [apply Hok|done]).
    destruct (resend_next_ok _ Hok1) as (n2 & o2 & E2 & Hok2 & Hq & _ & Hf & _ & Hc & Hr).
    rewrite E in E2. injection E2 as <- <-. by split_and!.
Qed.

(** The messages with quality of service above 0 of a list. *)
Definition acked (l : list bridge_msg) : list bridge_msg := List.filter (fun m => negb (is_qos0 m)) l.

(** The node's part of the abstract queue. *)
Definition shows (n : bridge_node) (os : list bridge_out) (s : fifo) : Prop :=
  s = Fifo (queue n) (resends os) (acked (frees os)) /\ Forall (fun m => is_qos0 m = false) (queue n).

Lemma acked_all l : Forall (fun m => is_qos0 m = false) l -> acked l = l.
Proof. induction 1 as [|m l Hm _ IH]; [done|]. unfold acked in *. cbn. rewrite Hm. cbn. by f_equal. Qed.

Lemma msg_shows i n m n' outs os s :
  cache_ok n -> is_Some (nd_aio n !! i) -> send_or_cache i n m = Some (n', outs) -> shows n os s ->
  cache_ok n' /\ capacity n' = capacity n /\
  shows n' (os ++ outs) (foldl (fifo_step (capacity n)) s (put_ops i n m)).
Proof.
  intros Hok Hi E [-> Hq]. unfold shows.
  destruct (send_or_cache_ok i n m) as (n1 & o1 & E1 & [_ Hc] & _ & _ & Hb & Hre & Hr & Hcap & Hf);
    [by split; [|apply Hok]|].
  rewrite E in E1. injection E1 as <- <-. split; [split; [done|]; rewrite Hb, Hre; apply Hok|]. split; [done|].
  unfold acked. rewrite resends_app, frees_app, Hr, app_nil_r, List.filter_app. unfold put_ops.
  change (bm_qos m =? 0) with (is_qos0 m) in Hf.
  destruct (aio_free i n); cbn [orb]; [destruct Hf as (_ & -> & -> & _); cbn; by rewrite app_nil_r|].
  destruct Hf as (_ & _ & Hf). destruct (is_qos0 m) eqn:Em; destruct Hf as [H1 H2].
  - rewrite H1, H2. cbn. rewrite Em. cbn. by rewrite app_nil_r.
  - assert (Forall (fun m => is_qos0 m = false) (queue n ++ [m])) as Hall
      by (apply Forall_app; split; [done|by constructor]).
    assert (acked (evicted (capacity n) (queue n ++ [m])) = evicted (capacity n) (queue n ++ [m])) as Ha
      by (by apply acked_all, Forall_take).
    cbn [foldl fifo_step ff_queue ff_taken ff_lost]. unfold acked in Ha. rewrite H1, H2, Ha.
    split; [done|]. by apply Forall_drop.
Qed.

Lemma take_shows n n' outs os s :
  cache_ok n ->
  (exists i, bridge_send_cb i n = Some (n', outs) /\ nd_busy n = false) \/ bridge_resend_cb n = Some (n', outs) ->
  shows n os s ->
  cache_ok n' /\ capacity n' = capacity n /\ shows n' (os ++ outs) (foldl (fifo_step (capacity n)) s [Take]).
Proof.
  intros Hok E [-> Hq]. destruct (callback_ok n n' outs Hok E) as (Hok' & Hc & Hqq & Hr & Hf).
  split; [done|]. split; [done|]. unfold shows. rewrite resends_app, frees_app, Hf, app_nil_r.
  cbn [foldl fifo_step ff_queue ff_taken ff_lost]. destruct (queue n) as [|m q] eqn:Eq.
  - cbn in Hr. rewrite Hr in *. cbn in Hqq. by rewrite <- Hqq, app_nil_r.
  - cbn in Hr. rewrite Hr in *. cbn in Hqq. injection Hqq as <-. split; [done|]. by apply Forall_cons in Hq as [_ Hq].
Qed.

Context (n0 : bridge_node) (Hn0 : cache_ok n0) (Hempty : queue n0 = []).

Lemma node_run_ok n cs os : node_run n0 n cs os ->
  cache_ok n /\ capacity n = capacity n0 /\ shows n os (fifo_run (capacity n0) cs).
Proof.
  induction 1 as [|n cs os i m n' outs _ (Hok & Hc & Hs) Hi E|n cs os i n' outs _ (Hok & Hc & Hs) Hi E
    |n cs os m n' outs _ (Hok & Hc & Hs) Hr E|n cs os b _ IH].
  - unfold shows. rewrite Hempty. by split_and!.
  - rewrite fifo_run_app, <- Hc. rewrite <- Hc in Hs. by apply (msg_shows i n m n').
  - rewrite fifo_run_app, <- Hc. rewrite <- Hc in Hs. destruct (nd_busy n) eqn:Hb.
    + rewrite bridge_send_cb_busy in E. cbn in E. rewrite Hb in E. injection E as <- <-. rewrite app_nil_r.
      by split_and!.
    + apply (take_shows n n'); [done|left; by exists i|done].
  - rewrite fifo_run_app, <- Hc. rewrite <- Hc in Hs. by apply (take_shows n n'); [|right|].
  - done.
Qed.

(** C21. The cache of a node is a first-in first-out queue of bounded capacity:
    over any run, the cached messages, those sent again and those of quality of
    service above 0 that were freed are exactly what such a queue holds, has
    handed out and has pushed out, so that a message is lost only when one is put
    into a full cache.  In particular cached messages are sent again in the order
    in which they were cached, each at most once, and all of them if none was
    pushed out.  The resend aio is never started while its last operation is
    pending. *)
Theorem resend_fifo n cs os : node_run n0 n cs os ->
  fifo_run (capacity n0) cs = Fifo (queue n) (resends os) (acked (frees os)) /\
  resends os ++ queue n `sublist_of` puts cs /\
  (acked (frees os) = [] -> resends os ++ queue n = puts cs) /\
  (forall i n' outs, bridge_send_cb i n = Some (n', outs) -> resends outs <> [] -> nd_busy n = false /\ nd_resend n = None).
Proof.
  intros Hr. destruct (node_run_ok n cs os Hr) as (Hok & _ & Hs & _).
  pose proof (fifo_order (capacity n0) cs) as [H1 H2]. rewrite Hs in H1, H2. split_and!; [done..|].
  intros i n' outs E Hne. pose proof Hok as [_ Hb]. rewrite bridge_send_cb_busy in E. cbn in E.
  destruct (nd_busy n); [injection E as <- <-; done|]. split; [done|]. symmetry in Hb.
  apply bool_decide_eq_false in Hb. by apply eq_None_not_Some.
Qed.

(** ** Progress of the cache *)

Definition resend_steps (n n' : bridge_node) : Prop :=
  is_Some (nd_resend n) /\ exists outs, bridge_resend_cb n = Some (n', outs).

(** While a message is being sent again, the cache empties by the completions
    of the resend aio alone. *)
Theorem cache_drained n cs os : node_run n0 n cs os -> nd_busy n = true ->
  eventually resend_steps (fun n => queue n = [] /\ nd_busy n = false) n.
Proof.
  intros Hr Hb. destruct (node_run_ok n cs os Hr) as (Hok & _). revert Hok Hb.
  assert (forall n, cache_ok n /\ (nd_busy n = false -> queue n = []) ->
    eventually resend_steps (fun n => queue n = [] /\ nd_busy n = false) n) as H;
    [|intros Hok Hb; apply H; split; [done|congruence]].
  apply (eventually_measure resend_steps _ _ (fun n => length (queue n) + Nat.b2n (nd_busy n))%nat).
  clear n cs os Hr. intros n [Hok Hq]. destruct (nd_busy n) eqn:Hb; [|left; split; [by apply Hq|done]]. right.
  assert (cache_ok (with_resend n None)) as Hok1 by (split; [apply Hok|done]).
  destruct (resend_next_ok _ Hok1) as (n' & outs & E & Hok' & Hqq & _ & _ & Hre & _ & Htk).
  change (queue (with_resend n None)) with (queue n) in Hqq, Hre, Htk.
  pose proof Hok as [_ Hb1]. rewrite Hb in Hb1. symmetry in Hb1. apply bool_decide_eq_true in Hb1.
  split; [by exists n'; split; [|exists outs]|].
  intros n1 [_ [outs1 E1]]. unfold bridge_resend_cb in E1. rewrite E in E1. injection E1 as <- <-.
  assert (nd_busy n' = bool_decide (queue n <> [])) as Hb'.
  { destruct Hok' as [_ ->]. rewrite Hre. by destruct (queue n). }
  destruct (queue n) as [|m l] eqn:Eq.
  - rewrite Hb'. cbn. symmetry in Hqq. apply app_eq_nil in Hqq as [_ ->]. split; [done|cbn; lia].
  - rewrite Hb'. cbn. split; [done|]. cbn in Htk. rewrite Htk in Hqq. injection Hqq as ->. lia.
Qed.

End Laws.

End Forward.

(** ** Concrete nodes *)

Section Nodes.

Import Model.

(** Remote topics are taken from the configuration. *)
#[local] Instance bridge_api : BridgeApi := {|
  NO_QOS := 3; NO_RETAIN := 2;
  generate_repub_topic f _ is_local := if is_local then tp_local_topic f else tp_remote_topic f;
  nng_strnins s p _ _ := p ++ s;
  nng_strncat s t _ _ := s ++ t
|}.

#[local] Instance bridge_api_laws : BridgeApiLaws.
Proof. by split. Qed.

Definition fwd (local : bytes) (prefix : option bytes) : topics :=
  Topics (Some (lit "up")) 2 (Some local) (blen local) prefix (from_option blen 0 prefix) None 0 3 2 0 0.

Definition packet (qos : Z) : pub_packet_struct :=
  PubPacket (FixedHeader 0 qos 0 3 0) 7 (PublishHeader (Some (lit "a/b")) 3 None 0)
    (PubArrcHeader 0 None 0) (Some [1]) 1.

Definition bridge_wk (qos : Z) : bridge_work := BridgeWork (packet qos) MQTT_PROTOCOL_VERSION_v5.

Definition empty_cache : @nng_lmq bridge_msg (list_lmq_ops bridge_msg) := ListLmq [] 2.

Definition node (ver : Z) (connected : bool) (fs : list topics) : bridge_node :=
  BridgeNode true ver fs connected [false; false] false None (Some empty_cache).

Lemma node_is_ok ver connected fs : node_ok 0 (node ver connected fs).
Proof. split; [by eexists|]. exists empty_cache. by split_and!. Qed.

Lemma fwd_ok qos local prefix : forward_ok (bridge_wk qos) (lit "a/b") (fwd local prefix).
Proof. split; [by eexists|]. intros _. by eexists. Qed.

Lemma forward_topic_correct_witness :
  exists s, forward_topic (fwd (lit "#") (Some (lit "pre/"))) (lit "a/b") 3 = Some s /\
    ts_body s = lit "pre/up" /\ forward_freed s = [Heap 0; Heap 1].
Proof.
  exists (TopicState (Heap 1) (lit "pre/up") 6 true [Heap 0] 2). split; [reflexivity|].
  assert (topics_ok (fwd (lit "#") (Some (lit "pre/")))) as Hok by (split; intros p [= <-]; done).
  destruct (forward_topic_correct (BA := bridge_api) (fwd (lit "#") (Some (lit "pre/"))) (lit "a/b")
    (TopicState (Heap 1) (lit "pre/up") 6 true [Heap 0] 2) Hok eq_refl)
    as [(base & [= <-] & E) Hf].
  split; [exact E|exact Hf].
Defined.

Lemma bridge_pub_handler_correct_witness :
  let ns := [node MQTT_PROTOCOL_VERSION_v5 true [fwd (lit "a/#") None; fwd (lit "x") None; fwd (lit "a/b") None]] in
  exists ns' outss, bridge_pub_handler (bridge_wk 1) 0 ns = Some (ns', outss) /\
    Forall3 (node_forwards (bridge_wk 1) 0 (lit "a/b")) ns ns' outss.
Proof.
  refine (bridge_pub_handler_correct (bridge_wk 1) 0 _ (lit "a/b") eq_refl eq_refl _).
  apply Forall_singleton. intros _. split; [apply node_is_ok|]. repeat (apply Forall_cons; split; [apply fwd_ok|]).
  apply Forall_nil_2.
Defined.

(** A message with quality of service 0 that two forwards of a node match: the
    second finds the aio busy with the first and is dropped. *)
Theorem second_forward_dropped :
  exists n', bridge_pub_handler (bridge_wk 0) 0
      [node MQTT_PROTOCOL_VERSION_v5 true [fwd (lit "a/#") None; fwd (lit "a/b") (Some (lit "p/"))]]
    = Some ([n'], [[SendAio 0 (BridgeMsg (lit "up") (Some [1]) 1 0 0 0 (Some 0%nat) true);
                    FreeMsg (BridgeMsg (lit "p/up") (Some [1]) 1 0 0 0 (Some 1%nat) true)]]).
Proof. eexists. reflexivity. Qed.

(** [props] is not reset between nodes: a node of version 3.1.1 after one of
    version 5 is given the property list that the first message owns. *)
Theorem stale_props_shared :
  exists ns', bridge_pub_handler (bridge_wk 1) 0
      [node MQTT_PROTOCOL_VERSION_v5 true [fwd (lit "a/#") None];
       node MQTT_PROTOCOL_VERSION_v311 true [fwd (lit "a/#") None]]
    = Some (ns', [[SendAio 0 (BridgeMsg (lit "up") (Some [1]) 1 0 1 0 (Some 0%nat) true)];
                  [SendAio 0 (BridgeMsg (lit "up") (Some [1]) 1 0 1 0 (Some 0%nat) false)]]).
Proof. eexists. reflexivity. Qed.

(** Without a topic from generate_repub_topic the length of NULL is taken. *)
Theorem repub_topic_null f body len :
  tp_remote_topic_len f <> 0 -> generate_repub_topic f body false = None -> forward_topic f body len = None.
Proof.
  intros Hl E. unfold forward_topic, forward_repub. rewrite (proj2 (Z.eqb_neq _ _) Hl). cbn [negb ts_body].
  by rewrite E.
Qed.

(** ** A run: cached while disconnected, sent again after the next send *)

Definition m1 : bridge_msg := BridgeMsg [1] None 0 0 1 0 None false.
Definition m2 : bridge_msg := BridgeMsg [2] None 0 0 1 0 None false.
Definition m3 : bridge_msg := BridgeMsg [3] None 0 0 1 0 None false.

Definition down : bridge_node := node MQTT_PROTOCOL_VERSION_v311 false [].

Definition after (r : option (bridge_node * list bridge_out)) : bridge_node := from_option fst down r.

Definition two_cached : bridge_node := after (send_or_cache 0 (after (send_or_cache 0 down m1)) m2).
Definition third_sent : bridge_node := after (send_or_cache 1 (with_connected two_cached true) m3).
Definition resending : bridge_node := after (bridge_send_cb 1 third_sent).

Lemma down_cache_ok : cache_ok down.
Proof. split; [|done]. exists empty_cache. by split_and!. Qed.

Lemma two_cached_run : node_run down two_cached [Put m1; Put m2] [].
Proof.
  pose proof (run_init down) as H0.
  pose proof (run_msg down _ _ _ 0 m1 (after (send_or_cache 0 down m1)) [] H0 ltac:(by eexists) eq_refl) as H1.
  exact (run_msg down _ _ _ 0 m2 two_cached [] H1 ltac:(by eexists) eq_refl).
Qed.

Lemma resending_run : node_run down resending [Put m1; Put m2; Take] [SendAio 1 m3; ResendAio m1].
Proof.
  pose proof (run_connected down _ _ _ true two_cached_run) as H0.
  pose proof (run_msg down _ _ _ 1 m3 third_sent [SendAio 1 m3] H0 ltac:(by eexists) eq_refl) as H1.
  exact (run_sent down _ _ _ 1 resending [ResendAio m1] H1 eq_refl eq_refl).
Qed.

Lemma resend_fifo_witness :
  resends [SendAio 1 m3; ResendAio m1] ++ queue resending = [m1; m2].
Proof.
  exact (proj1 (proj2 (proj2 (resend_fifo down down_cache_ok eq_refl resending [Put m1; Put m2; Take] _ resending_run))) eq_refl).
Defined.

Lemma cache_drained_witness :
  eventually resend_steps (fun n => queue n = [] /\ nd_busy n = false) resending.
Proof. exact (cache_drained down down_cache_ok eq_refl resending _ _ resending_run eq_refl). Defined.

(** Messages that were cached while the node was down stay cached when it is
    connected again: no completion is outstanding, so no callback looks at the
    cache before the next message was sent. *)
Theorem cache_waits :
  let n := with_connected two_cached true in
  queue n = [m1; m2] /\ nd_resend n = None /\ (forall i, nd_aio n !! i <> Some true).
Proof. split_and!; [done|done|]. by intros [|[|i]]. Qed.

End Nodes.

End Bridge.
