(* ===== verification/BridgeConn.v ===== *)
(** * Bridge connections (nanomq/bridge.c)

    Messages that come down from a remote broker, the CONNECT message and its
    properties, subscriptions made over a bridge, the start and the hot update of
    a bridge client, and the choice of the next server of a hybrid bridge.  A
    message of the MQTT client library is modelled by what its setters are given. *)

From S2P Require Import Prelude NngApi NngModel NngQueue PubCodec PubHandler Bridge.

(** ** Property lists of nng *)

(** A node of the list, as the mqtt_property_set_value functions make it. *)
Inductive prop_value :=
  | VU8 (v : Z) | VU16 (v : Z) | VU32 (v : Z) | VVarint (v : Z) | VStr (s : bytes) | VPair (k v : bytes).

Class MqttProperties := {
  SUBSCRIPTION_IDENTIFIER : Z;
  USER_PROPERTY : Z;
  PAYLOAD_FORMAT_INDICATOR : Z;
  MESSAGE_EXPIRY_INTERVAL : Z;
  CONTENT_TYPE : Z;
  RESPONSE_TOPIC : Z;
  CORRELATION_DATA : Z;
  WILL_DELAY_INTERVAL : Z;
  MAXIMUM_PACKET_SIZE : Z;
  RECEIVE_MAXIMUM : Z;
  TOPIC_ALIAS_MAXIMUM : Z;
  REQUEST_RESPONSE_INFORMATION : Z;
  REQUEST_PROBLEM_INFORMATION : Z;
  SESSION_EXPIRY_INTERVAL : Z;
  prop_list : Type;
  mqtt_property_alloc : prop_list;
  mqtt_property_append : prop_list -> Z * prop_value -> prop_list
}.

Class MqttPropertiesLaws `{MqttProperties} := {
  entries : prop_list -> list (Z * prop_value);
  entries_alloc : entries mqtt_property_alloc = [];
  entries_append l p : entries (mqtt_property_append l p) = entries l ++ [p]
}.

Module BridgeConn.

Import PubCodec PubHandler Bridge.

(** ** Messages from the remote broker *)

Section Down.

Context `{C : MqttConst} `{M : NngMsg} `{P : MqttParser} `{TF : TopicFilter} `{BA : BridgeApi}.
Context (MQTT_VERSION_V311 MQTT_VERSION_V5 : Z).

Definition downward_repub (f : topics) (s : topic_state) : topic_state :=
  if negb (tp_local_topic_len f =? 0) then
    match generate_repub_topic f (ts_body s) true with
    | None => s
    | Some new_topic => new_body s new_topic false
    end
  else s.

(** The first entry of sub_list whose remote topic matches. *)
Fixpoint first_sub (subs : list topics) (body : bytes) : option topics :=
  match subs with
  | [] => None
  | f :: subs' =>
      match tp_remote_topic f with
      | None => first_sub subs' body
      | Some remote => if topic_filter remote body then Some f else first_sub subs' body
      end
  end.

(** The new topic set on the message, and whether it is encoded as version 5. *)
Record recode := Recode { rc_topic : bytes; rc_len : Z; rc_v5 : option bool }.

(** The packet, the message as decoded, the strings freed, and the topic the
    message is encoded again with. *)
Record down_result := DownResult {
  dn_packet : pub_packet_struct;
  dn_msg : nng_msg;
  dn_freed : list topic_ptr;
  dn_recode : option recode
}.

(** [node] is the node's sub_list, [None] if work->node is NULL. *)
Definition bridge_downward_msg_coding (msg : nng_msg) (proto_ver : Z) (node : option (list topics))
  : option down_result :=
  '(result, pp, msg) ← decode_pub_message msg zero_packet proto_ver;
  Some (if negb (result =? SUCCESS) then DownResult pp msg [] None
  else
    match pb_topic (pp_publish pp), node with
    | Some body, Some subs =>
        match first_sub subs body with
        | None => DownResult pp msg [] None
        | Some f =>
            let s := suffix_step f (prefix_step f (downward_repub f
              (TopicState PacketTopic body (pb_topic_len (pp_publish pp)) false [] 0))) in
            let h := pp_fixed pp in
            let pp := set_fixed pp (FixedHeader (if tp_retain f =? NO_RETAIN then fh_retain h else tp_retain f)
              (fh_qos h) (fh_dup h) (fh_packet_type h) (fh_remain_len h)) in
            if ts_marked s then
              DownResult (set_publish pp (set_topic (pp_publish pp) (Some (ts_body s)) (ts_len s))) msg
                (ts_freed s ++ [PacketTopic])
                (Some (Recode (ts_body s) (ts_len s)
                  (if proto_ver =? MQTT_VERSION_V311 then Some false
                   else if proto_ver =? MQTT_VERSION_V5 then Some true else None)))
            else DownResult pp msg (ts_freed s) None
        end
    | _, _ => DownResult pp msg [] None
    end).

(** The first subscription that matches decides: the message keeps its
    payload and gets the configured local topic (or keeps its own if there is
    none) between prefix and suffix; the packet's old string and every
    intermediate one are freed and the last one is kept. *)
Theorem downward_topic_correct `{!BridgeApiLaws} msg proto_ver subs pp msg' body f :
  decode_pub_message msg zero_packet proto_ver = Some (SUCCESS, pp, msg') ->
  pb_topic (pp_publish pp) = Some body -> pb_topic_len (pp_publish pp) = blen body ->
  first_sub subs body = Some f -> topics_ok f ->
  exists r, bridge_downward_msg_coding msg proto_ver (Some subs) = Some r /\
  let base := if tp_local_topic_len f =? 0 then body else default body (generate_repub_topic f body true) in
  let topic := default [] (tp_prefix f) ++ base ++ default [] (tp_suffix f) in
  pb_topic (pp_publish (dn_packet r)) = Some topic /\ pp_payload (dn_packet r) = pp_payload pp /\
  match dn_recode r with
  | None => topic = body /\ dn_freed r = []
  | Some c => rc_topic c = topic /\ rc_len c = blen topic /\
      exists k, dn_freed r = map Heap (seq 0 k) ++ [PacketTopic]
  end.
Proof.
  intros Hd Hb Hl Hf [Hp Hs]. unfold bridge_downward_msg_coding. rewrite Hd. cbn [mbind option_bind].
  eexists. split; [reflexivity|]. rewrite Z.eqb_refl, Hb, Hf, Hl. cbn [negb].
  set (s0 := TopicState PacketTopic body (blen body) false [] 0). set (s1 := downward_repub f s0).
  assert (ts_body s1 = (if tp_local_topic_len f =? 0 then body else default body (generate_repub_topic f body true)) /\
    owned s1 /\ (ts_marked s1 = false -> s1 = s0)) as (Hb1 & Ho1 & Hm1).
  { unfold s1, downward_repub. destruct (_ =? 0); [done|]. cbn. by destruct (generate_repub_topic f body true). }
  destruct (rewrite_steps f s1 (conj Hp Hs) Ho1) as (Hb2 & Ho2 & Hm2).
  set (s := suffix_step f (prefix_step f s1)) in *. rewrite Hb1 in Hb2.
  destruct (ts_marked s) eqn:Hm; cbn.
  - split; [by f_equal|]. split; [done|]. split; [done|]. rewrite <- Hb2. split; [apply Ho2|].
    destruct Ho2 as [_ Ho2]. unfold forward_freed in Ho2. rewrite Hm in Ho2.
    destruct (ts_next s) as [|k]; [by destruct (ts_freed s)|]. rewrite seq_S, map_app in Ho2.
    apply app_inj_tail in Ho2 as [-> _]. by exists k.
  - destruct (Hm2 eq_refl) as (Hm1' & -> & Ep & Esu). rewrite (Hm1 Hm1') in *. rewrite Hb.
    rewrite <- Hb2. by cbn.
Qed.

End Down.

(** ** Properties of SUBSCRIBE and CONNECT *)

Section Properties.

Context `{C : MqttConst} `{MP : MqttProperties}.

(** The sizes of the user properties go with the arrays. *)
Record conf_bridge_sub_properties := SubProperties {
  sp_identifier : Z;
  sp_user_property : list (bytes * bytes)
}.

Record conf_bridge_conn_will_properties := WillProperties {
  wp_payload_format_indicator : Z;
  wp_message_expiry_interval : Z;
  wp_content_type : option bytes;
  wp_response_topic : option bytes;
  wp_correlation_data : option bytes;
  wp_will_delay_interval : Z;
  wp_user_property : list (bytes * bytes)
}.

Record conf_bridge_conn_properties := ConnProperties {
  cp_maximum_packet_size : Z;
  cp_receive_maximum : Z;
  cp_topic_alias_maximum : Z;
  cp_request_response_info : Z;
  cp_request_problem_info : Z;
  cp_session_expiry_interval : Z;
  cp_user_property : list (bytes * bytes)
}.

Definition add_if (b : bool) (p : Z * prop_value) (l : prop_list) : prop_list :=
  if b then mqtt_property_append l p else l.

Definition add_str (id : Z) (s : option bytes) (l : prop_list) : prop_list :=
  match s with Some s => mqtt_property_append l (id, VStr s) | None => l end.

(** The loop over user_property *)
Fixpoint add_user (us : list (bytes * bytes)) (l : prop_list) : prop_list :=
  match us with
  | [] => l
  | (k, v) :: us' => add_user us' (mqtt_property_append l (USER_PROPERTY, VPair k v))
  end.

Definition sub_property (conf_prop : option conf_bridge_sub_properties) : option prop_list :=
  match conf_prop with
  | None => None
  | Some c =>
      let l := mqtt_property_alloc in
      let l := add_if (negb (sp_identifier c =? 0xffffffff))
        (SUBSCRIPTION_IDENTIFIER, VVarint (sp_identifier c)) l in
      Some (add_user (sp_user_property c) l)
  end.

Definition will_property (will_prop : option conf_bridge_conn_will_properties) : option prop_list :=
  match will_prop with
  | None => None
  | Some c =>
      let l := mqtt_property_alloc in
      let l := add_if (negb (wp_payload_format_indicator c =? 0))
        (PAYLOAD_FORMAT_INDICATOR, VU8 (wp_payload_format_indicator c)) l in
      let l := add_if (negb (wp_message_expiry_interval c =? 0))
        (MESSAGE_EXPIRY_INTERVAL, VU32 (wp_message_expiry_interval c)) l in
      let l := add_str CONTENT_TYPE (wp_content_type c) l in
      let l := add_str RESPONSE_TOPIC (wp_response_topic c) l in
      let l := add_str CORRELATION_DATA (wp_correlation_data c) l in
      let l := add_if (negb (wp_will_delay_interval c =? 0))
        (WILL_DELAY_INTERVAL, VU32 (wp_will_delay_interval c)) l in
      Some (add_user (wp_user_property c) l)
  end.

Definition conn_property (conf_prop : option conf_bridge_conn_properties) : option prop_list :=
  match conf_prop with
  | None => None
  | Some c =>
      let l := mqtt_property_alloc in
      let l := add_if (negb (cp_maximum_packet_size c =? 0))
        (MAXIMUM_PACKET_SIZE, VU32 (cp_maximum_packet_size c)) l in
      let l := add_if (negb (cp_receive_maximum c =? 65535))
        (RECEIVE_MAXIMUM, VU16 (cp_receive_maximum c)) l in
      let l := add_if (negb (cp_topic_alias_maximum c =? 0))
        (TOPIC_ALIAS_MAXIMUM, VU16 (cp_topic_alias_maximum c)) l in
      let l := add_if (negb (cp_request_response_info c =? 0))
        (REQUEST_RESPONSE_INFORMATION, VU8 (cp_request_response_info c)) l in
      let l := add_if (negb (cp_request_problem_info c =? 1))
        (REQUEST_PROBLEM_INFORMATION, VU8 (cp_request_problem_info c)) l in
      let l := add_if (negb (cp_session_expiry_interval c =? 0))
        (SESSION_EXPIRY_INTERVAL, VU32 (cp_session_expiry_interval c)) l in
      Some (add_user (cp_user_property c) l)
  end.

(** What create_connect_msg reads of conf_bridge_node. *)
Record connect_conf := ConnectConf {
  cc_keepalive : Z;
  cc_proto_ver : Z;
  cc_clean_start : bool;
  cc_clientid : option bytes;
  cc_username : option bytes;
  cc_password : option bytes;
  cc_will_flag : bool;
  cc_will_topic : option bytes;
  cc_will_payload : option bytes;
  cc_will_qos : Z;
  cc_will_retain : bool;
  cc_conn_properties : option conf_bridge_conn_properties;
  cc_will_properties : option conf_bridge_conn_will_properties
}.

(** What the setters of the CONNECT message are given; an outer [None] is a
    setter that is not called. *)
Record connect_msg := ConnectMsg {
  cm_keep_alive : Z;
  cm_proto_version : Z;
  cm_clean_session : bool;
  cm_client_id : option bytes;
  cm_user_name : option bytes;
  cm_password : option bytes;
  cm_will : option (option bytes * bytes * Z * bool);
  cm_property : option (option prop_list);
  cm_will_property : option (option prop_list)
}.

(** [None]: the length of a NULL will payload is taken. *)
Definition create_connect_msg (node : connect_conf) : option connect_msg :=
  will ← (if cc_will_flag node then
            payload ← cc_will_payload node;
            Some (Some (cc_will_topic node, payload, cc_will_qos node, cc_will_retain node))
          else Some None);
  let v5 := cc_proto_ver node =? MQTT_PROTOCOL_VERSION_v5 in
  Some (ConnectMsg (cc_keepalive node) (cc_proto_ver node) (cc_clean_start node) (cc_clientid node)
    (cc_username node) (cc_password node) will
    (if v5 then Some (conn_property (cc_conn_properties node)) else None)
    (if v5 && cc_will_flag node then Some (will_property (cc_will_properties node)) else None)).

Section Laws.

Context `{PL : !MqttPropertiesLaws}.

Lemma entries_add_if b p l : entries (add_if b p l) = entries l ++ (if b then [p] else []).
Proof. destruct b; cbn; [apply entries_append|by rewrite app_nil_r]. Qed.

Lemma entries_add_str id s l :
  entries (add_str id s l) = entries l ++ ((fun s => (id, VStr s)) <$> option_list s).
Proof. destruct s; cbn; [apply entries_append|by rewrite app_nil_r]. Qed.

Lemma entries_add_user us l :
  entries (add_user us l) = entries l ++ ((fun '(k, v) => (USER_PROPERTY, VPair k v)) <$> us).
Proof.
  revert l. induction us as [|[k v] us IH]; intros l; cbn; [by rewrite app_nil_r|].
  by rewrite IH, entries_append, <- app_assoc.
Qed.

(** The value of property [id] in a list. *)
Definition prop_get (l : prop_list) (id : Z) : option prop_value :=
  snd <$> List.find (fun p => fst p =? id) (entries l).

Lemma find_opt (b : bool) id id' v k :
  List.find (fun p : Z * prop_value => fst p =? id) ((if b then [(id', v)] else []) ++ k) =
  if b && (id' =? id) then Some (id', v) else List.find (fun p => fst p =? id) k.
Proof. destruct b; [|done]. cbn. by destruct (id' =? id). Qed.

Lemma find_user id us : id <> USER_PROPERTY ->
  List.find (fun p => fst p =? id) ((fun '(k, v) => (USER_PROPERTY, VPair k v)) <$> us) = None.
Proof.
  intros Hid. induction us as [|[k v] us IH]; [done|]. cbn.
  by rewrite (proj2 (Z.eqb_neq USER_PROPERTY id)).
Qed.

(** The identifiers of the CONNECT properties are distinct. *)
Definition conn_ids_distinct : Prop :=
  NoDup [MAXIMUM_PACKET_SIZE; RECEIVE_MAXIMUM; TOPIC_ALIAS_MAXIMUM; REQUEST_RESPONSE_INFORMATION;
         REQUEST_PROBLEM_INFORMATION; SESSION_EXPIRY_INTERVAL; USER_PROPERTY].

(** A property list as the remote broker reads it: a value that is absent
    stands for the default of MQTT 5. *)
Definition read_conn (l : prop_list) : conf_bridge_conn_properties :=
  let num d id := match prop_get l id with Some (VU8 v | VU16 v | VU32 v | VVarint v) => v | _ => d end in
  ConnProperties (num 0 MAXIMUM_PACKET_SIZE) (num 65535 RECEIVE_MAXIMUM) (num 0 TOPIC_ALIAS_MAXIMUM)
    (num 0 REQUEST_RESPONSE_INFORMATION) (num 1 REQUEST_PROBLEM_INFORMATION) (num 0 SESSION_EXPIRY_INTERVAL)
    (omap (fun p => match p with (id, VPair k v) => if id =? USER_PROPERTY then Some (k, v) else None | _ => None end)
       (entries l)).

Definition user_pairs (l : list (Z * prop_value)) : list (bytes * bytes) :=
  omap (fun p => match p with (id, VPair k v) => if id =? USER_PROPERTY then Some (k, v) else None | _ => None end) l.

Lemma user_pairs_app l k : user_pairs (l ++ k) = user_pairs l ++ user_pairs k.
Proof. apply omap_app. Qed.

Lemma user_pairs_user us : user_pairs ((fun '(k, v) => (USER_PROPERTY, VPair k v)) <$> us) = us.
Proof. unfold user_pairs. induction us as [|[k v] us IH]; [done|]. cbn. by rewrite Z.eqb_refl, IH. Qed.

Lemma user_pairs_if (b : bool) id v : (forall k w, v <> VPair k w) -> user_pairs (if b then [(id, v)] else []) = [].
Proof. intros Hv. destruct b; [|done]. destruct v as [| | | | |k w]; try done. by destruct (Hv k w). Qed.

Lemma conn_entries c l : conn_property (Some c) = Some l ->
  entries l =
    (if negb (cp_maximum_packet_size c =? 0) then [(MAXIMUM_PACKET_SIZE, VU32 (cp_maximum_packet_size c))] else []) ++
    (if negb (cp_receive_maximum c =? 65535) then [(RECEIVE_MAXIMUM, VU16 (cp_receive_maximum c))] else []) ++
    (if negb (cp_topic_alias_maximum c =? 0) then [(TOPIC_ALIAS_MAXIMUM, VU16 (cp_topic_alias_maximum c))] else []) ++
    (if negb (cp_request_response_info c =? 0)
     then [(REQUEST_RESPONSE_INFORMATION, VU8 (cp_request_response_info c))] else []) ++
    (if negb (cp_request_problem_info c =? 1)
     then [(REQUEST_PROBLEM_INFORMATION, VU8 (cp_request_problem_info c))] else []) ++
    (if negb (cp_session_expiry_interval c =? 0)
     then [(SESSION_EXPIRY_INTERVAL, VU32 (cp_session_expiry_interval c))] else []) ++
    ((fun '(k, v) => (USER_PROPERTY, VPair k v)) <$> cp_user_property c).
Proof.
  intros [= <-]. rewrite entries_add_user, !entries_add_if, entries_alloc, app_nil_l. by rewrite <- !app_assoc.
Qed.

(** The properties of the CONNECT message carry the configuration: read with
    the defaults of MQTT 5, they give it back, user properties included. *)
Theorem conn_property_round_trip c l :
  conn_ids_distinct -> conn_property (Some c) = Some l -> read_conn l = c.
Proof.
  intros Hd E. pose proof (conn_entries c l E) as He.
  unfold conn_ids_distinct in Hd. rewrite !NoDup_cons, !not_elem_of_cons in Hd. destruct_and? Hd.
  unfold read_conn, prop_get. fold (user_pairs (entries l)).
  rewrite He, !user_pairs_app, user_pairs_user, !find_opt, !find_user by done.
  rewrite !Z.eqb_refl, !andb_true_r. neq_eqb. rewrite !andb_false_r, !user_pairs_if by done. destruct c; cbn.
  f_equal; match goal with |- context [?x =? ?d] => by destruct (Z.eqb_spec x d) end.
Qed.

End Laws.

End Properties.

(** ** Subscriptions *)

Section Subscribe.

Context `{C : MqttConst} `{MP : MqttProperties}.
Context (NNG_MQTT_SUBACK NNG_MQTT_UNSUBACK : Z).

(** One topic of a SUBSCRIBE: filter, quality of service, no local, retain as
    published, retain handling. *)
Record topic_qos := TopicQos {
  tq_topic : option bytes;
  tq_qos : Z;
  tq_nolocal : Z;
  tq_rap : Z;
  tq_retain_handling : Z
}.

(** bridge_tcp_connect_cb: connected afterwards, and the SUBSCRIBE sent with its
    properties, if one is. *)
Definition bridge_tcp_connect_cb (reason proto_ver : Z) (subs : list topics)
    (sub_properties : option conf_bridge_sub_properties)
  : bool * option (list topic_qos * option prop_list) :=
  if (reason =? 0) && (0 <? blen subs) then
    (true,
     Some (map (fun f => TopicQos (tp_remote_topic f) (tp_qos f) 1 (tp_retain_as_published f)
                           (tp_retain_handling f)) subs,
           if proto_ver =? MQTT_PROTOCOL_VERSION_v5 then sub_property sub_properties else None))
  else (true, None).

Definition bridge_tcp_disconnect_cb : bool := false.

(** What the library answers: whether a message can be allocated, the result of
    nng_aio_alloc, the result of the operation, and the packet type and return
    codes of the reply. *)
Record request_env := RequestEnv {
  re_msg_alloc : bool;
  re_aio_alloc : Z;
  re_result : Z;
  re_reply : option (Z * list Z)
}.

(** The loop over the return codes. *)
Fixpoint codes_loop (rc : list Z) (rv : Z) : Z :=
  match rc with
  | [] => rv
  | c :: rc' => codes_loop rc' (if c =? 0x80 then -2 else rv)
  end.

(** The return value and whether reload_lock is still held. *)
Definition bridge_request (ack : Z) (count : Z) (e : request_env) : Z * bool :=
  if count <? 1 then (-1, false)
  else if negb (re_msg_alloc e) then (NNG_ENOMEM, true)
  else if negb (re_aio_alloc e =? 0) then (re_aio_alloc e, false)
  else
    match (if re_result e =? 0 then re_reply e else None) with
    | None => (-3, false)
    | Some (type, rc) => if negb (type =? ack) then (0, false) else (codes_loop rc 0, false)
    end.

Definition bridge_subscribe (sub_count : Z) (e : request_env) : Z * bool :=
  bridge_request NNG_MQTT_SUBACK sub_count e.

Definition bridge_unsubscribe (unsub_count : Z) (e : request_env) : Z * bool :=
  bridge_request NNG_MQTT_UNSUBACK unsub_count e.

Lemma codes_loop_spec rc rv : codes_loop rc rv = if existsb (Z.eqb 0x80) rc then -2 else rv.
Proof.
  revert rv. induction rc as [|c rc IH]; intros rv; [done|]. cbn [codes_loop existsb]. rewrite IH, (Z.eqb_sym c).
  destruct (0x80 =? c); cbn [orb]; [|done]. by destruct (existsb _ rc).
Qed.

(** A request over a bridge that gets its acknowledgement returns -2 when a code
    is 0x80 and 0 otherwise, and every request gives the reload lock back,
    except one whose message cannot be allocated. *)
Theorem bridge_request_correct ack count e :
  let '(rv, locked) := bridge_request ack count e in
  locked = bool_decide (1 <= count /\ re_msg_alloc e = false) /\
  (1 <= count -> re_msg_alloc e = true -> re_aio_alloc e = 0 -> re_result e = 0 ->
   forall rc, re_reply e = Some (ack, rc) -> rv = if existsb (Z.eqb 0x80) rc then -2 else 0).
Proof.
  unfold bridge_request. destruct (Z.ltb_spec count 1).
  { split; [|lia]. symmetry. apply bool_decide_eq_false. lia. }
  destruct (re_msg_alloc e) eqn:Ha; cbn [negb].
  2: { split; [|done]. symmetry. by apply bool_decide_eq_true. }
  assert (false = bool_decide (1 <= count /\ true = false)) as Hl by (symmetry; apply bool_decide_eq_false; naive_solver).
  destruct (Z.eqb_spec (re_aio_alloc e) 0) as [E0|E0]; cbn [negb]; [|by split].
  destruct (Z.eqb_spec (re_result e) 0) as [E1|E1]; [|by split].
  destruct (re_reply e) as [[type rc]|] eqn:Hr; [|by split].
  destruct (Z.eqb_spec type ack) as [->|Hne]; cbn [negb]; (split; [done|]); intros _ _ _ _ rc' E.
  - injection E as <-. apply codes_loop_spec.
  - injection E as E _. by destruct Hne.
Qed.

(** The reason codes of MQTT 5 other than 0x80 pass for success: a SUBSCRIBE
    refused as not authorized (0x87) returns 0. *)
Theorem refused_subscribe_succeeds :
  bridge_subscribe 1 (RequestEnv true 0 0 (Some (NNG_MQTT_SUBACK, [0x87]))) = (0, false).
Proof. unfold bridge_subscribe, bridge_request. cbn. by rewrite Z.eqb_refl. Qed.

(** ** Transparent bridging *)

(** What bridge_sub_handler reads of a node. *)
Record transparent_node := TransparentNode { tr_enable : bool; tr_transparent : bool }.

(** A topic of the packet: filter, quality of service, rap, retain handling. *)
Record sub_topic := SubTopic { st_body : option bytes; st_qos : Z; st_rap : Z; st_rh : Z }.

Inductive sub_call :=
  | SubscribeAsync (node : nat) (t : topic_qos)
  | UnsubscribeAsync (node : nat) (topic : option bytes).

(** The inner loop, from node number [t] on. *)
Fixpoint nodes_calls (sub : bool) (topic : sub_topic) (t : nat) (nodes : list transparent_node) : list sub_call :=
  match nodes with
  | [] => []
  | n :: nodes' =>
      if negb (tr_enable n) || negb (tr_transparent n) then nodes_calls sub topic (S t) nodes'
      else
        (if sub then SubscribeAsync t (TopicQos (st_body topic) (st_qos topic) 1 (st_rap topic) (st_rh topic))
         else UnsubscribeAsync t (st_body topic)) :: nodes_calls sub topic (S t) nodes'
  end.

Fixpoint topics_calls (sub : bool) (l : list sub_topic) (nodes : list transparent_node) : list sub_call :=
  match l with
  | [] => []
  | topic :: l' => nodes_calls sub topic 0 nodes ++ topics_calls sub l' nodes
  end.

Definition bridge_sub_handler (flag : Z) (sub_pkt unsub_pkt : list sub_topic) (nodes : list transparent_node)
  : bool * list sub_call :=
  if flag =? CMD_SUBSCRIBE then (true, topics_calls true sub_pkt nodes)
  else if flag =? CMD_UNSUBSCRIBE then (true, topics_calls false unsub_pkt nodes)
  else (false, []).

Lemma nodes_calls_elem sub topic t nodes c :
  c ∈ nodes_calls sub topic t nodes <->
  exists k n, nodes !! k = Some n /\ tr_enable n = true /\ tr_transparent n = true /\
    c = (if sub then SubscribeAsync (t + k) (TopicQos (st_body topic) (st_qos topic) 1 (st_rap topic) (st_rh topic))
         else UnsubscribeAsync (t + k) (st_body topic)).
Proof.
  revert t. induction nodes as [|n nodes IH]; intros t; cbn [nodes_calls].
  - split; [by intros ?%elem_of_nil|]. by intros (k & n & Hk & _).
  - transitivity ((tr_enable n = true /\ tr_transparent n = true /\
        c = (if sub then SubscribeAsync t (TopicQos (st_body topic) (st_qos topic) 1 (st_rap topic) (st_rh topic))
             else UnsubscribeAsync t (st_body topic))) \/ c ∈ nodes_calls sub topic (S t) nodes).
    { destruct (tr_enable n), (tr_transparent n); cbn [negb orb]; rewrite ?elem_of_cons; naive_solver. }
    rewrite IH. split.
    + intros [(H1 & H2 & ->)|(k & n' & Hk & H1 & H2 & ->)].
      * exists 0%nat, n. rewrite Nat.add_0_r. by split_and!.
      * exists (S k), n'. rewrite Nat.add_succ_r. by split_and!.
    + intros ([|k] & n' & Hk & H1 & H2 & ->).
      * injection Hk as <-. left. rewrite Nat.add_0_r. by split_and!.
      * right. exists k, n'. rewrite Nat.add_succ_r. by split_and!.
Qed.

(** A client's SUBSCRIBE goes to exactly the nodes that are enabled and
    transparent, one request per topic and node, never asking for the bridge's
    own messages. *)
Theorem bridge_sub_handler_correct sub_pkt unsub_pkt nodes c :
  c ∈ snd (bridge_sub_handler CMD_SUBSCRIBE sub_pkt unsub_pkt nodes) <->
  exists topic k n, topic ∈ sub_pkt /\ nodes !! k = Some n /\ tr_enable n = true /\ tr_transparent n = true /\
    c = SubscribeAsync k (TopicQos (st_body topic) (st_qos topic) 1 (st_rap topic) (st_rh topic)).
Proof.
  unfold bridge_sub_handler. rewrite Z.eqb_refl. cbn [snd].
  induction sub_pkt as [|topic l IH]; cbn [topics_calls].
  - split; [by intros ?%elem_of_nil|]. by intros (topic & k & n & ?%elem_of_nil & _).
  - rewrite elem_of_app, nodes_calls_elem, IH. split.
    + intros [(k & n & H)|(t' & k & n & Hin & H)]; [exists topic, k, n|exists t', k, n]; (split; [|done]); [by left|by right].
    + intros (t' & k & n & [->|Hin]%elem_of_cons & H); [left; by exists k, n|right; by exists t', k, n].
Qed.

End Subscribe.

(** ** Concrete inputs *)

Section Witness.

Import Model.

#[local] Instance down_api : BridgeApi := {|
  NO_QOS := 3; NO_RETAIN := 2;
  generate_repub_topic f _ is_local := if is_local then tp_local_topic f else tp_remote_topic f;
  nng_strnins s p _ _ := p ++ s;
  nng_strncat s t _ _ := s ++ t
|}.

#[local] Instance down_api_laws : BridgeApiLaws.
Proof. by split. Qed.

#[local] Instance list_props : MqttProperties := {|
  SUBSCRIPTION_IDENTIFIER := 11; USER_PROPERTY := 38; PAYLOAD_FORMAT_INDICATOR := 1;
  MESSAGE_EXPIRY_INTERVAL := 2; CONTENT_TYPE := 3; RESPONSE_TOPIC := 8; CORRELATION_DATA := 9;
  WILL_DELAY_INTERVAL := 24; MAXIMUM_PACKET_SIZE := 39; RECEIVE_MAXIMUM := 33; TOPIC_ALIAS_MAXIMUM := 34;
  REQUEST_RESPONSE_INFORMATION := 25; REQUEST_PROBLEM_INFORMATION := 23; SESSION_EXPIRY_INTERVAL := 17;
  prop_list := list (Z * prop_value); mqtt_property_alloc := []; mqtt_property_append l p := l ++ [p]
|}.

#[local] Instance list_props_laws : MqttPropertiesLaws.
Proof. by refine {| entries := (fun l => l) : prop_list -> list (Z * prop_value) |}. Defined.

Definition conn_conf : conf_bridge_conn_properties :=
  ConnProperties 1024 65535 0 1 1 60 [(lit "k", lit "v"); (lit "k", lit "w")].

Lemma conn_property_round_trip_witness :
  exists l, conn_property (Some conn_conf) = Some l /\ read_conn l = conn_conf.
Proof.
  eexists. split; [reflexivity|].
  refine (conn_property_round_trip conn_conf _ _ eq_refl).
  apply (bool_decide_unpack _). vm_compute. exact I.
Defined.

(** A PUBLISH "up/a" with payload "x" from the remote broker, for a node that
    maps up/# to "down" with a prefix. *)
Definition up_msg : nng_msg := Msg [0x30; 7] (mqtt_str (lit "up/a") ++ lit "x") CMD_PUBLISH None.

Definition up_sub : topics :=
  Topics (Some (lit "up/#")) 4 (Some (lit "down")) 4 (Some (lit "site/")) 5 None 0 3 2 0 0.

Lemma downward_topic_correct_witness :
  exists r, bridge_downward_msg_coding 4 5 up_msg 4 (Some [up_sub]) = Some r /\
    pb_topic (pp_publish (dn_packet r)) = Some (lit "site/down").
Proof.
  assert (topics_ok up_sub) as Hok by (split; intros p [= <-]; done).
  edestruct (downward_topic_correct 4 5 up_msg 4 [up_sub]) as (r & E & H & _);
    [reflexivity | reflexivity | reflexivity | reflexivity | exact Hok |].
  exists r. split; [exact E | exact H].
Defined.

End Witness.

End BridgeConn.
