(* ===== verification/BridgeDial.v ===== *)
(** * Starting bridge clients (nanomq/bridge.c)

    A bridge opens an MQTT client, creates a dialer for the remote address,
    configures both and starts the dialer.  The three TCP variants (start,
    reload, hybrid) are functions to the return value and the calls they make on
    the library, in order; the variants for QUIC are in [BridgeQuic]. *)

From S2P Require Import Prelude NngApi NngModel Bridge BridgeConn.

Module BridgeDial.

Import Bridge BridgeConn.

Section Client.

Context `{C : MqttConst} `{MP : MqttProperties}.

Definition quic_scheme : bytes := lit "mqtt-quic".
Definition tcp_scheme : bytes := lit "mqtt-tcp".
Definition tls_scheme : bytes := lit "tls+mqtt-tcp".

(** [strncmp(address, scheme, strlen(scheme)) == 0] *)
Definition has_scheme (address scheme : bytes) : bool := strncmp0 address scheme (blen scheme).

(** ** TLS of a dialer *)

Record dial_tls := DialTls {
  dt_enable : bool;
  dt_ca : option bytes;
  dt_cert : option bytes;
  dt_key : option bytes;
  dt_key_password : option bytes;
  dt_sni : option bytes;
  dt_verify_peer : bool
}.

Inductive dial_auth_mode := NNG_TLS_AUTH_MODE_NONE | NNG_TLS_AUTH_MODE_REQUIRED.

(** Calls on the TLS configuration; [TlsServerName None] is the host of the
    dialer's URL. *)
Inductive tls_act :=
  | TlsAuthMode (m : dial_auth_mode)
  | TlsOwnCert (cert key : bytes) (pass : option bytes)
  | TlsCaChain (ca : bytes)
  | TlsServerName (name : option bytes)
  | TlsAttach.

(** The results of the library: nng_tls_config_alloc, then one per call. *)
Record dial_tls_env := DialTlsEnv { dte_alloc : Z; dte_call : tls_act -> Z }.

(** Makes the calls until one fails. *)
Fixpoint tls_calls (e : dial_tls_env) (acts : list tls_act) : Z * list tls_act :=
  match acts with
  | [] => (0, [])
  | a :: acts' =>
      match a with
      | TlsServerName None =>                        (* the result is not checked *)
          let '(rv, l) := tls_calls e acts' in (rv, a :: l)
      | _ =>
          if negb (dte_call e a =? 0) then (dte_call e a, [a])
          else let '(rv, l) := tls_calls e acts' in (rv, a :: l)
      end
  end.

Definition init_dialer_tls (e : dial_tls_env) (t : dial_tls) : Z * list tls_act :=
  if negb (dte_alloc e =? 0) then (dte_alloc e, [])
  else
    tls_calls e
      ([TlsAuthMode (if dt_verify_peer t then NNG_TLS_AUTH_MODE_REQUIRED else NNG_TLS_AUTH_MODE_NONE)] ++
       match dt_cert t, dt_key t with
       | Some cert, Some key => [TlsOwnCert cert key (dt_key_password t)]
       | _, _ => []
       end ++
       match dt_ca t with Some ca => [TlsCaChain ca] | None => [] end ++
       [TlsServerName (dt_sni t)] ++ [TlsAttach]).

(** ** The configuration and the calls *)

Record dial_tcp := DialTcp {
  dc_enable : bool;
  dc_nodelay : Z;
  dc_keepalive : Z;
  dc_bind_interface : option bytes;
  dc_quickack : Z;
  dc_keepidle : Z;
  dc_keepintvl : Z;
  dc_keepcnt : Z;
  dc_sendtimeo : Z;
  dc_recvtimeo : Z
}.

(** What the clients read of conf_bridge_node. *)
Record dial_node := DialNode {
  dn_name : bytes;
  dn_enable : bool;
  dn_address : bytes;
  dn_connect : connect_conf;
  dn_backoff_max : Z;
  dn_tcp : dial_tcp;
  dn_tls : dial_tls;
  dn_resend_interval : Z;
  dn_resend_wait : Z;
  dn_no_local_v4 : bool;
  dn_subs : list topics;
  dn_sub_properties : option conf_bridge_sub_properties
}.

Inductive tcp_opt :=
  NNG_OPT_TCP_QUICKACK | NNG_OPT_TCP_KEEPIDLE | NNG_OPT_TCP_KEEPINTVL | NNG_OPT_TCP_KEEPCNT
| NNG_OPT_TCP_SENDTIMEO | NNG_OPT_TCP_RECVTIMEO.

(** Callbacks: bridge_tcp_connect_cb and bridge_tcp_disconnect_cb, or the
    hybrid ones. *)
Inductive dial_cb := TcpCb | HybridCb.

Inductive dial_act :=
  | OpenClient (v5 : bool)
  | SqliteConfig
  | SetSockName (name : bytes)
  | CreateDialer (address : bytes)
  | SetBackoffMax (ms : Z)
  | SetNodelay (b : bool)
  | SetKeepalive (b : bool)
  | BindDevice (d : bytes)
  | SetTcpOpt (o : tcp_opt) (v : Z)
  | InitTls (acts : list tls_act)
  | AllocClient
  | UseSocket                                     (* client->sock = *sock *)
  | SetRetryInterval (ms : Z)
  | SetRetryWait (ms : Z)
  | DialerConnMsg (m : connect_msg)
  | SocketConnMsg (m : connect_msg)
  | SetNoLocal (b : bool)
  | ReplaceSocket                                 (* nng_sock_replace, nng_close *)
  | SetConnectCb (cb : option dial_cb)
  | SetDisconnectCb (cb : dial_cb)
  | StartDialer
  | SubscribeAsync (l : list topic_qos) (props : option prop_list).

(** Results of the library. *)
Record dial_env := DialEnv { de_open : Z; de_create : Z; de_tls : dial_tls_env; de_start : Z }.

Definition is_v5 (n : dial_node) : bool := cc_proto_ver (dn_connect n) =? MQTT_PROTOCOL_VERSION_v5.

Definition tcp_options (t : dial_tcp) : list dial_act :=
  if negb (dc_enable t) then []
  else
    [SetNodelay (dc_nodelay t =? 1); SetKeepalive (dc_keepalive t =? 1)] ++
    match dc_bind_interface t with Some d => [BindDevice d] | None => [] end ++
    (if dc_keepalive t =? 1 then
       [SetTcpOpt NNG_OPT_TCP_QUICKACK (dc_quickack t); SetTcpOpt NNG_OPT_TCP_KEEPIDLE (dc_keepidle t);
        SetTcpOpt NNG_OPT_TCP_KEEPINTVL (dc_keepintvl t); SetTcpOpt NNG_OPT_TCP_KEEPCNT (dc_keepcnt t);
        SetTcpOpt NNG_OPT_TCP_SENDTIMEO (dc_sendtimeo t); SetTcpOpt NNG_OPT_TCP_RECVTIMEO (dc_recvtimeo t)]
     else []).

(** A step that can fail: its call, then the rest. *)
Definition then_ (rv : Z) (a : dial_act) (rest : option (Z * list dial_act)) : option (Z * list dial_act) :=
  if negb (rv =? 0) then Some (rv, [a])
  else match rest with Some (rv, l) => Some (rv, a :: l) | None => None end.

Definition calls (l : list dial_act) (rest : option (Z * list dial_act)) : option (Z * list dial_act) :=
  match rest with Some (rv, l') => Some (rv, l ++ l') | None => None end.

Definition tls_step (e : dial_env) (n : dial_node) (rest : option (Z * list dial_act)) : option (Z * list dial_act) :=
  if dt_enable (dn_tls n) then
    let '(rv, acts) := init_dialer_tls (de_tls e) (dn_tls n) in then_ rv (InitTls acts) rest
  else rest.

Definition start_step (e : dial_env) (n : dial_node) : Z * list dial_act :=
  if dn_enable n then (de_start e, [StartDialer]) else (0, []).

(** [None]: create_connect_msg dereferences NULL. *)
Definition bridge_tcp_client (e : dial_env) (n : dial_node) : option (Z * list dial_act) :=
  then_ (de_open e) (OpenClient (is_v5 n))
  (calls [SqliteConfig; SetSockName (dn_name n)]
  (then_ (de_create e) (CreateDialer (dn_address n))
  (calls ([SetBackoffMax (i32 (dn_backoff_max n * 1000))] ++ tcp_options (dn_tcp n))
  (tls_step e n
  (calls [AllocClient; SetRetryInterval (dn_resend_interval n); SetRetryWait (dn_resend_wait n)]
  (connmsg ← create_connect_msg (dn_connect n);
   calls [DialerConnMsg connmsg; SetNoLocal (dn_no_local_v4 n); SocketConnMsg connmsg;
          SetConnectCb (Some TcpCb); SetDisconnectCb TcpCb]
   (Some (start_step e n)))))))).

Definition sub_qos (l : list topics) : list topic_qos :=
  map (fun f => TopicQos (tp_remote_topic f) (tp_qos f) 1 (tp_retain_as_published f) (tp_retain_handling f)) l.

(** The result of starting the dialer is only logged. *)
Definition bridge_tcp_reload (e : dial_env) (n : dial_node) : option (Z * list dial_act) :=
  then_ (de_open e) (OpenClient (is_v5 n))
  (calls [SqliteConfig; SetSockName (dn_name n)]
  (then_ (de_create e) (CreateDialer (dn_address n))
  (calls ([SetBackoffMax (i32 (dn_backoff_max n * 1000))] ++ tcp_options (dn_tcp n))
  (tls_step e n
  (calls [UseSocket]
  (connmsg ← create_connect_msg (dn_connect n);
   calls [DialerConnMsg connmsg; SetNoLocal (dn_no_local_v4 n); SocketConnMsg connmsg;
          SetRetryInterval (dn_resend_interval n); SetRetryWait (dn_resend_wait n);
          SetConnectCb None; SetDisconnectCb TcpCb]
   (Some (0, snd (start_step e n) ++
             (if 0 <? blen (dn_subs n) then
                [SubscribeAsync (sub_qos (dn_subs n)) (if is_v5 n then sub_property (dn_sub_properties n) else None)]
              else []))))))))).

(** [tsock] is whether there is a socket to replace. *)
Definition hybrid_tcp_client (e : dial_env) (n : dial_node) (tsock : bool) : option (Z * list dial_act) :=
  then_ (de_open e) (OpenClient (is_v5 n))
  (calls [SqliteConfig; SetSockName (dn_name n)]
  (then_ (de_create e) (CreateDialer (dn_address n))
  (tls_step e n
  (calls [AllocClient]
  (connmsg ← create_connect_msg (dn_connect n);
   calls ((if tsock then [ReplaceSocket] else []) ++
          [DialerConnMsg connmsg; SocketConnMsg connmsg; SetNoLocal (dn_no_local_v4 n);
           SetConnectCb (Some HybridCb); SetDisconnectCb HybridCb])
   (Some (start_step e n))))))).

(** ** A started dialer is configured *)

Lemma then_inv rv a rest rv' l : then_ rv a rest = Some (rv', l) ->
  (rv <> 0 /\ l = [a] /\ rv' = rv) \/ (exists l', rv = 0 /\ rest = Some (rv', l') /\ l = a :: l').
Proof.
  unfold then_. destruct (Z.eqb_spec rv 0) as [-> | E]; cbn [negb].
  - destruct rest as [[rv0 l0]|]; [|done]. intros [= <- <-]. right. eauto.
  - intros [= <- <-]. by left.
Qed.

Lemma calls_inv l rest rv l' : calls l rest = Some (rv, l') -> exists l'', rest = Some (rv, l'') /\ l' = (l ++ l'').
Proof. destruct rest as [[rv0 l0]|]; [|done]. intros [= <- <-]. eauto. Qed.

Lemma tls_step_inv e n rest rv l : tls_step e n rest = Some (rv, l) ->
  (exists acts, l = [InitTls acts]) \/
  (exists pre l', l = (pre ++ l') /\ rest = Some (rv, l') /\
    (dt_enable (dn_tls n) = true -> exists acts, pre = [InitTls acts] /\ init_dialer_tls (de_tls e) (dn_tls n) = (0, acts)) /\
    (dt_enable (dn_tls n) = false -> pre = [])).
Proof.
  unfold tls_step. destruct (dt_enable (dn_tls n)).
  - destruct (init_dialer_tls (de_tls e) (dn_tls n)) as [rv0 acts] eqn:E.
    intros [(_ & -> & _)|(l' & -> & Hr & ->)]%then_inv; [left; eauto|right].
    exists [InitTls acts], l'. split_and!; try done. eauto.
  - right. exists [], l. split_and!; done.
Qed.

(** What has been called before a dialer is started. *)
Definition configured (e : dial_env) (n : dial_node) (pre : list dial_act) : Prop :=
  (exists m, create_connect_msg (dn_connect n) = Some m /\ DialerConnMsg m ∈ pre) /\
  CreateDialer (dn_address n) ∈ pre /\ SetNoLocal (dn_no_local_v4 n) ∈ pre /\
  (exists cb, SetDisconnectCb cb ∈ pre) /\
  (dt_enable (dn_tls n) = true -> exists acts, InitTls acts ∈ pre /\
    init_dialer_tls (de_tls e) (dn_tls n) = (0, acts)).

Lemma tls_calls_ok e acts l : tls_calls e acts = (0, l) -> l = acts.
Proof.
  revert l. induction acts as [|a acts IH]; intros l; cbn [tls_calls]; [by intros [= <-]|].
  destruct a as [| | |[s|]|]; try (destruct (dte_call e _ =? 0) eqn:E; cbn [negb];
    [|intros [= E' _]; apply Z.eqb_neq in E; done]);
    destruct (tls_calls e acts) as [rv l0] eqn:Ec; intros [= -> <-]; by rewrite (IH l0).
Qed.

(** TLS is attached with the verification the configuration asks for. *)
Lemma init_dialer_tls_mode e t acts : init_dialer_tls e t = (0, acts) ->
  TlsAttach ∈ acts /\ (TlsAuthMode NNG_TLS_AUTH_MODE_REQUIRED ∈ acts <-> dt_verify_peer t = true).
Proof.
  unfold init_dialer_tls. destruct (dte_alloc e =? 0) eqn:E; cbn [negb].
  2: { intros [= E' _]. apply Z.eqb_neq in E. done. }
  intros ->%tls_calls_ok. split; [rewrite !elem_of_app; set_solver|].
  destruct (dt_verify_peer t), (dt_cert t), (dt_key t), (dt_ca t); set_solver.
Qed.

Lemma tcp_options_no_start t : StartDialer ∉ tcp_options t.
Proof.
  unfold tcp_options. destruct (dc_enable t), (dc_bind_interface t), (dc_keepalive t =? 1); cbn [negb app];
    rewrite ?not_elem_of_cons; split_and?; try discriminate; apply not_elem_of_nil.
Qed.

(** The calls before the dialer is started do not start it. *)
Ltac no_start :=
  repeat first [rewrite not_elem_of_app | rewrite not_elem_of_cons]; split_and?; try discriminate;
  first [apply not_elem_of_nil | apply tcp_options_no_start | assumption | idtac].

(** A call is among those of a list that is written out. *)
Ltac is_in :=
  match goal with
  | |- _ ∈ _ :: _ => first [apply list_elem_of_here | apply list_elem_of_further; is_in]
  | |- _ ∈ _ ++ _ => apply elem_of_app; first [left; is_in | right; is_in]
  end.

Lemma tls_pre_no_start e n pre :
  (dt_enable (dn_tls n) = true -> exists acts, pre = [InitTls acts] /\ init_dialer_tls (de_tls e) (dn_tls n) = (0, acts)) ->
  (dt_enable (dn_tls n) = false -> pre = []) -> StartDialer ∉ pre.
Proof.
  intros H1 H2. destruct (dt_enable (dn_tls n)).
  - destruct (H1 eq_refl) as (acts & -> & _). no_start.
  - rewrite H2 by done. no_start.
Qed.

(** Either a call fails before, or the rest of the calls is [start_step]. *)
Definition ends_started (e : dial_env) (n : dial_node) (rv : Z) (l : list dial_act) : Prop :=
  StartDialer ∉ l \/
  exists pre, l = (pre ++ snd (start_step e n)) /\ rv = fst (start_step e n) /\ (StartDialer ∉ pre) /\ configured e n pre.

Lemma bridge_tcp_client_shape e n rv l : bridge_tcp_client e n = Some (rv, l) -> ends_started e n rv l.
Proof.
  unfold bridge_tcp_client. intros [(_ & -> & _)|(l1 & _ & H & ->)]%then_inv; [left; no_start|].
  apply calls_inv in H as (l2 & H & ->). apply then_inv in H as [(_ & -> & _)|(l3 & _ & H & ->)]; [left; no_start|].
  apply calls_inv in H as (l4 & H & ->).
  apply tls_step_inv in H as [[acts ->]|(pre & l5 & -> & H & Hon & Hoff)]; [left; no_start|].
  apply calls_inv in H as (l6 & H & ->). destruct (create_connect_msg (dn_connect n)) as [m|] eqn:Em; [|done].
  cbn [mbind option_bind] in H. apply calls_inv in H as (l7 & [= Hst] & ->). right.
  pose proof (tls_pre_no_start e n pre Hon Hoff) as Hpre.
  exists (OpenClient (is_v5 n) :: [SqliteConfig; SetSockName (dn_name n)] ++ CreateDialer (dn_address n) ::
    ([SetBackoffMax (i32 (dn_backoff_max n * 1000))] ++ tcp_options (dn_tcp n)) ++ pre ++
    [AllocClient; SetRetryInterval (dn_resend_interval n); SetRetryWait (dn_resend_wait n)] ++
    [DialerConnMsg m; SetNoLocal (dn_no_local_v4 n); SocketConnMsg m; SetConnectCb (Some TcpCb);
     SetDisconnectCb TcpCb]).
  split; [|split_and!].
  - rewrite Hst. cbn [app snd]. by rewrite <- ?app_assoc.
  - by rewrite Hst.
  - no_start.
  - split_and!; [exists m; split; [done|is_in]|is_in|is_in|exists TcpCb; is_in|].
    intros He. destruct (Hon He) as (acts & -> & Hi). exists acts. split; [is_in|done].
Qed.

Lemma hybrid_tcp_client_shape e n tsock rv l : hybrid_tcp_client e n tsock = Some (rv, l) -> ends_started e n rv l.
Proof.
  unfold hybrid_tcp_client. intros [(_ & -> & _)|(l1 & _ & H & ->)]%then_inv; [left; no_start|].
  apply calls_inv in H as (l2 & H & ->). apply then_inv in H as [(_ & -> & _)|(l3 & _ & H & ->)]; [left; no_start|].
  apply tls_step_inv in H as [[acts ->]|(pre & l5 & -> & H & Hon & Hoff)]; [left; no_start|].
  apply calls_inv in H as (l6 & H & ->). destruct (create_connect_msg (dn_connect n)) as [m|] eqn:Em; [|done].
  cbn [mbind option_bind] in H. apply calls_inv in H as (l7 & [= Hst] & ->). right.
  pose proof (tls_pre_no_start e n pre Hon Hoff) as Hpre.
  exists (OpenClient (is_v5 n) :: [SqliteConfig; SetSockName (dn_name n)] ++ CreateDialer (dn_address n) ::
    pre ++ [AllocClient] ++ (if tsock then [ReplaceSocket] else []) ++
    [DialerConnMsg m; SocketConnMsg m; SetNoLocal (dn_no_local_v4 n); SetConnectCb (Some HybridCb);
     SetDisconnectCb HybridCb]).
  split; [|split_and!].
  - rewrite Hst. destruct tsock; cbn [app snd]; by rewrite <- ?app_assoc.
  - by rewrite Hst.
  - destruct tsock; no_start.
  - split_and!; [exists m; split; [done|is_in]|is_in|is_in|exists HybridCb; is_in|].
    intros He. destruct (Hon He) as (acts & -> & Hi). exists acts. split; [is_in|done].
Qed.

(** Both clients start their dialer last, and only for an enabled bridge; by
    then the dialer has the address and the CONNECT message of the
    configuration, the callbacks are set, and TLS, if it is on, was configured
    without error. *)
Theorem dialer_started_configured e n rv l hybrid tsock :
  (if hybrid : bool then hybrid_tcp_client e n tsock else bridge_tcp_client e n) = Some (rv, l) -> StartDialer ∈ l ->
  dn_enable n = true /\ rv = de_start e /\ exists pre, l = pre ++ [StartDialer] /\ (StartDialer ∉ pre) /\ configured e n pre.
Proof.
  intros H Hin. assert (ends_started e n rv l) as [Hno|(pre & -> & -> & Hpre & Hc)].
  { destruct hybrid; [by eapply hybrid_tcp_client_shape|by apply bridge_tcp_client_shape]. }
  - done.
  - unfold start_step in *. destruct (dn_enable n); cbn [fst snd] in *.
    + split_and!; [done|done|]. by exists pre.
    + rewrite app_nil_r in Hin. done.
Qed.

(** A reload starts the dialer only when the node is enabled, and never sets a
    connect callback. *)
Lemma bridge_tcp_reload_shape e n rv l a :
  bridge_tcp_reload e n = Some (rv, l) -> a ∈ l -> a = StartDialer \/ (exists cb, a = SetConnectCb (Some cb)) ->
  dn_enable n = true /\ a = StartDialer.
Proof.
  intros H Hin Ha. revert H Hin. unfold bridge_tcp_reload.
  intros [(_ & -> & _)|(l1 & _ & H & ->)]%then_inv; [set_solver|].
  apply calls_inv in H as (l2 & H & ->). apply then_inv in H as [(_ & -> & _)|(l3 & _ & H & ->)]; [set_solver|].
  apply calls_inv in H as (l4 & H & ->).
  assert (a ∉ tcp_options (dn_tcp n)) as Ht.
  { unfold tcp_options. destruct (dc_enable _), (dc_bind_interface _), (dc_keepalive _ =? 1); set_solver. }
  apply tls_step_inv in H as [[acts ->]|(pre & l5 & -> & H & Hon & Hoff)]; [set_solver|].
  apply calls_inv in H as (l6 & H & ->). destruct (create_connect_msg (dn_connect n)) as [m|] eqn:Em; [|done].
  cbn [mbind option_bind] in H. apply calls_inv in H as (l7 & [= Hrv <-] & ->).
  assert (a ∉ pre) as Hpre.
  { destruct (dt_enable (dn_tls n)); [destruct (Hon eq_refl) as (acts & -> & _)|rewrite Hoff by done]; set_solver. }
  unfold start_step. destruct (dn_enable n), (0 <? blen (dn_subs n)); set_solver.
Qed.

(** Reloading leaves the socket without a connect callback; only the callbacks
    set [connected], so a bridge that was disconnected before stays so for
    [bridge_pub_handler]. *)
Theorem reload_no_connect_cb e n rv l cb : bridge_tcp_reload e n = Some (rv, l) -> SetConnectCb (Some cb) ∉ l.
Proof. intros H Hin. destruct (bridge_tcp_reload_shape e n rv l _ H Hin) as [_ E]; [right; by eexists|done]. Qed.

(** ** Starting and replacing the client of a node *)

(** node->bridge_arg: whether the memory was freed, whether its client is set. *)
Record stored_arg := StoredArg { sa_freed : bool; sa_client : bool }.

(** [alloc] is whether bridge_arg can be allocated, [node] has no meaning
    without an address.  The result, and what is stored. *)
Definition bridge_client (alloc : bool) (e : dial_env) (address : option bytes) (n : dial_node)
  : option (Z * option stored_arg) :=
  if negb alloc then Some (NNG_ENOMEM, None)
  else
    match address with
    | None => Some (-1, None)
    | Some address =>
        if has_scheme address tcp_scheme || has_scheme address tls_scheme then
          '(rv, acts) ← bridge_tcp_client e n;
          Some (0, Some (StoredArg false (existsb (fun a => match a with AllocClient => true | _ => false end) acts)))
        else Some (0, Some (StoredArg true false))
    end.

(** The return value, and whether the new socket took the place of the old. *)
Definition bridge_reload (alloc : bool) (address : option bytes) : Z * bool :=
  match address with
  | None => (-1, false)
  | Some address =>
      if has_scheme address tcp_scheme || has_scheme address tls_scheme then
        if negb alloc then (-1, false) else (0, true)
      else (-2, false)
  end.

(** The sockets of a node: those that the node, its argument and its client
    point to, whether the node is enabled, and the sockets closed and freed. *)
Record reload_socks := ReloadSocks {
  rs_node : nat; rs_arg : nat; rs_client : nat; rs_enable : bool; rs_closed : list nat; rs_freed : list nat
}.

Definition set_enable (n : dial_node) (b : bool) : dial_node :=
  DialNode (dn_name n) b (dn_address n) (dn_connect n) (dn_backoff_max n) (dn_tcp n) (dn_tls n) (dn_resend_interval n)
    (dn_resend_wait n) (dn_no_local_v4 n) (dn_subs n) (dn_sub_properties n).

(** bridge_reload between lock and unlock, for TCP and TLS: the node is disabled
    while the new client is set up, whose result is not looked at. *)
Definition reload_socket (e : dial_env) (n : dial_node) (new : nat) (s : reload_socks) : option (reload_socks * list dial_act) :=
  let tsock := rs_arg s in
  '(_, acts) ← bridge_tcp_reload e (set_enable n false);
  Some (ReloadSocks new new new (dn_enable n) (rs_closed s ++ [tsock]) (rs_freed s ++ [tsock]), acts).

(** After a reload the node, its argument and its client have the new socket, the
    old one was closed and freed once, and the node is enabled as before. *)
Theorem reload_replaces e n new s s' acts :
  reload_socket e n new s = Some (s', acts) -> rs_arg s <> new -> (rs_arg s ∉ rs_freed s) -> (new ∉ rs_freed s) ->
  rs_node s' = new /\ rs_arg s' = new /\ rs_client s' = new /\ rs_enable s' = dn_enable n /\
  rs_closed s' = rs_closed s ++ [rs_arg s] /\ (new ∉ rs_freed s') /\ (NoDup (rs_freed s) -> NoDup (rs_freed s')).
Proof.
  unfold reload_socket. destruct (bridge_tcp_reload _ _) as [[rv l]|]; [|done]. cbn. intros [= <- <-] Hne Hf Hn. cbn.
  split_and!; try done; [set_solver|]. intros Hd. apply NoDup_app. split_and!; [done|set_solver|apply NoDup_singleton].
Qed.

(** The new client is never dialed: the dialer is started for enabled nodes only,
    and the node is disabled at that moment. *)
Theorem reloaded_bridge_not_dialed e n new s s' acts :
  reload_socket e n new s = Some (s', acts) -> StartDialer ∉ acts.
Proof.
  unfold reload_socket. destruct (bridge_tcp_reload _ _) as [[rv l]|] eqn:E; [|done]. cbn. intros [= <- <-] Hin.
  by destruct (bridge_tcp_reload_shape _ _ _ _ _ E Hin (or_introl eq_refl)).
Qed.

(** A result of 0 says little: it is returned for an address of another scheme,
    with a freed argument left in the node, and for a client that could not be
    opened, with the client never set. *)
Theorem bridge_client_hides_errors e address n :
  (has_scheme address tcp_scheme || has_scheme address tls_scheme = false ->
   bridge_client true e (Some address) n = Some (0, Some (StoredArg true false))) /\
  (has_scheme address tcp_scheme || has_scheme address tls_scheme = true -> de_open e <> 0 ->
   bridge_client true e (Some address) n = Some (0, Some (StoredArg false false))).
Proof.
  unfold bridge_client. cbn [negb]. split; intros ->; [done|]. intros Ho. unfold bridge_tcp_client, then_ at 1.
  by rewrite (proj2 (Z.eqb_neq _ _) Ho).
Qed.

(** ** Hybrid bridging: the next server *)

(** The loop of hybrid_cb, [n] turns: the index of the last turn and the
    addresses tried. *)
Fixpoint hybrid_turns (n : nat) (addrs : list bytes) (idx : Z) : Z * list bytes :=
  match n with
  | O => (idx, [])
  | S n' =>
      let idx := Z.rem (idx + 1) (blen addrs) in
      let '(idx', l) := hybrid_turns n' addrs idx in
      (idx', nth (Z.to_nat idx) addrs [] :: l)
  end.

(** hybrid_cb: the node's own address, then the configured servers *)
Definition hybrid_addrs (address : bytes) (servers : list bytes) : list bytes := address :: servers.

Lemma hybrid_turns_nth n addrs idx k :
  addrs <> [] -> -1 <= idx < blen addrs -> (k < n)%nat ->
  snd (hybrid_turns n addrs idx) !! k = Some (nth (Z.to_nat ((idx + 1 + Z.of_nat k) mod blen addrs)) addrs []).
Proof.
  intros Hne Hidx. assert (0 < blen addrs) as Hpos by (unfold blen; destruct addrs; cbn [length]; [done|lia]).
  revert idx k Hidx. induction n as [|n IH]; intros idx k Hidx Hk; [lia|]. cbn [hybrid_turns].
  rewrite Z.rem_mod_nonneg by lia. set (i := (idx + 1) mod blen addrs).
  assert (0 <= i < blen addrs) as Hi by (apply Z.mod_pos_bound; lia).
  destruct (hybrid_turns n addrs i) as [idx' l] eqn:E. cbn [snd]. destruct k as [|k]; cbn [lookup list_lookup].
  - by rewrite Z.add_0_r.
  - specialize (IH i k ltac:(lia) ltac:(lia)). rewrite E in IH. cbn [snd] in IH.
    change (l !! k = Some (nth (Z.to_nat ((idx + 1 + Z.of_nat (S k)) mod blen addrs)) addrs [])).
    rewrite IH. do 2 f_equal. f_equal. unfold i.
    replace ((idx + 1) mod blen addrs + 1 + Z.of_nat k) with ((idx + 1) mod blen addrs + (1 + Z.of_nat k)) by lia.
    rewrite Zplus_mod_idemp_l. f_equal. lia.
Qed.

(** Whatever server was used last, every server is tried within as many turns
    as there are servers. *)
Theorem hybrid_every_server address servers idx a :
  -1 <= idx < blen (hybrid_addrs address servers) -> a ∈ hybrid_addrs address servers ->
  a ∈ snd (hybrid_turns (length (hybrid_addrs address servers)) (hybrid_addrs address servers) idx).
Proof.
  set (addrs := hybrid_addrs address servers). intros Hidx Ha. apply list_elem_of_lookup_1 in Ha as [j Hj].
  pose proof (lookup_lt_Some _ _ _ Hj) as Hlt. assert (0 < blen addrs) as Hpos by (unfold blen; lia).
  set (k := Z.to_nat ((Z.of_nat j - (idx + 1)) mod blen addrs)).
  pose proof (Z.mod_pos_bound (Z.of_nat j - (idx + 1)) (blen addrs) Hpos) as Hk.
  apply (list_elem_of_lookup_2 _ k).
  rewrite hybrid_turns_nth; [|done|done|unfold k, blen in *; lia].
  f_equal.
  replace ((idx + 1 + Z.of_nat k) mod blen addrs) with (Z.of_nat j).
  - rewrite Nat2Z.id. by apply nth_lookup_Some.
  - unfold k. rewrite Z2Nat.id by lia. rewrite Zplus_mod_idemp_r.
    replace (idx + 1 + (Z.of_nat j - (idx + 1))) with (Z.of_nat j) by lia.
    symmetry. apply Z.mod_small. unfold blen. lia.
Qed.

End Client.

(** ** Concrete inputs *)

Section Witness.

Import Model.

#[local] Existing Instance BridgeConn.list_props.

Definition dial_conf : dial_node :=
  DialNode (lit "n") true (lit "tls+mqtt-tcp://h")
    (ConnectConf 60 4 true (Some (lit "id")) None None false None None 0 false None None) 10
    (DialTcp true 1 0 None 0 0 0 0 0 0) (DialTls true None None None None None true) 0 0 false [] None.

Definition dial_well : dial_env := DialEnv 0 0 (DialTlsEnv 0 (fun _ => 0)) 0.

Definition dial_trace : list (@dial_act list_props) :=
  match bridge_tcp_client dial_well dial_conf with Some (_, l) => l | None => [] end.

Lemma dialer_started_configured_witness :
  InitTls [TlsAuthMode NNG_TLS_AUTH_MODE_REQUIRED; TlsServerName None; TlsAttach] ∈ dial_trace /\
  dn_enable dial_conf = true /\ 0 = de_start dial_well /\
  exists pre, dial_trace = pre ++ [StartDialer] /\ (StartDialer ∉ pre) /\ configured dial_well dial_conf pre.
Proof.
  split; [vm_compute; set_solver|].
  apply (dialer_started_configured dial_well dial_conf 0 dial_trace false false).
  - vm_compute. reflexivity.
  - vm_compute. set_solver.
Defined.

Lemma hybrid_every_server_witness :
  snd (hybrid_turns 2 (hybrid_addrs (lit "a") [lit "b"]) 0) = [lit "b"; lit "a"] /\
  lit "a" ∈ snd (hybrid_turns 2 (hybrid_addrs (lit "a") [lit "b"]) 0).
Proof.
  split; [reflexivity|]. apply (hybrid_every_server (lit "a") [lit "b"] 0 (lit "a")); [unfold blen; cbn; lia|by left].
Defined.

End Witness.

End BridgeDial.
