(* ===== verification/BridgeHybrid.v ===== *)
(** * The thread of a hybrid bridge (nanomq/bridge.c)

    [hybrid_bridge_client] starts a thread and waits until it has a connection;
    the thread [hybrid_cb] tries one server after the other, wakes the starter
    and waits for a disconnect before it goes on to the next server.  Each
    operation on the two mutexes and condition variables is a turn, and turns of
    the starter, the thread and the disconnect callback come in any order.  The
    condition variables are NNG's: a wait releases its mutex and takes it again
    before it returns, a wake that finds nobody waiting has no effect. *)

From S2P Require Import Prelude.

Module BridgeHybrid.

(** The starter, after it has created the thread: lock, wait, asleep, woken and
    in need of the mutex, unlock, free the condition variable, clear the
    pointer, return. *)
Inductive starter_pc := PLock | PWait | PSleep | PWoken | PUnlock | PFree | PClear | PDone.

(** The thread: connect to the next server; look at exec_cv; lock, wake, unlock;
    lock, wait, asleep, woken, unlock; free the client. *)
Inductive thread_pc := TConnect | TCheck | TLock | TWake | TUnlock | TLock2 | TWait2 | TSleep2 | TWoken2 | TUnlock2 | TDrop.

Inductive who := Starter | Thread.

(** exec_cv: allocated, freed but still pointed to, or NULL. *)
Inductive cv_state := Live | Freed | Cleared.

#[export] Instance starter_pc_eq_dec : EqDecision starter_pc.
Proof. solve_decision. Defined.
#[export] Instance thread_pc_eq_dec : EqDecision thread_pc.
Proof. solve_decision. Defined.
#[export] Instance who_eq_dec : EqDecision who.
Proof. solve_decision. Defined.

(** [hy_exec] is the owner of exec_mtx, [hy_tries] the number of servers tried,
    [hy_wakes] how often the thread woke the starter, [hy_client] whether a
    client is allocated and [hy_connected] what the callbacks last said. *)
Record hybrid := Hybrid {
  hy_starter : starter_pc;
  hy_thread : thread_pc;
  hy_exec : option who;
  hy_cv : cv_state;
  hy_tries : nat;
  hy_wakes : nat;
  hy_client : bool;
  hy_connected : bool
}.

(** What the connection to a server does: it is made, it fails, or the protocol
    is not supported. *)
Inductive connect_result := Connected | ConnectFailed | Unsupported.

Inductive turn := StarterTurn | ThreadTurn (r : connect_result) | Disconnect.

Inductive result := Goes (h : hybrid) | Blocked | Undefined.

Definition at_starter (h : hybrid) (p : starter_pc) (o : option who) : hybrid :=
  Hybrid p (hy_thread h) o (hy_cv h) (hy_tries h) (hy_wakes h) (hy_client h) (hy_connected h).

Definition at_thread (h : hybrid) (t : thread_pc) (o : option who) : hybrid :=
  Hybrid (hy_starter h) t o (hy_cv h) (hy_tries h) (hy_wakes h) (hy_client h) (hy_connected h).

(** hybrid_bridge_client from nng_mtx_lock(exec_mtx) on *)
Definition starter_turn (h : hybrid) : result :=
  match hy_starter h with
  | PLock => match hy_exec h with None => Goes (at_starter h PWait (Some Starter)) | Some _ => Blocked end
  | PWait => Goes (at_starter h PSleep None)
  | PSleep => Blocked
  | PWoken => match hy_exec h with None => Goes (at_starter h PUnlock (Some Starter)) | Some _ => Blocked end
  | PUnlock => Goes (at_starter h PFree None)
  | PFree =>
      Goes (Hybrid PClear (hy_thread h) (hy_exec h) Freed (hy_tries h) (hy_wakes h) (hy_client h) (hy_connected h))
  | PClear =>
      Goes (Hybrid PDone (hy_thread h) (hy_exec h) Cleared (hy_tries h) (hy_wakes h) (hy_client h) (hy_connected h))
  | PDone => Blocked
  end.

(** The loop of hybrid_cb *)
Definition hybrid_cb (r : connect_result) (h : hybrid) : result :=
  match hy_thread h with
  | TConnect =>
      let '(t, client) :=
        match r with Connected => (TCheck, true) | ConnectFailed => (TConnect, hy_client h) | Unsupported => (TCheck, hy_client h) end in
      Goes (Hybrid (hy_starter h) t (hy_exec h) (hy_cv h) (S (hy_tries h)) (hy_wakes h) client
        (match r with Connected => true | _ => hy_connected h end))
  | TCheck => Goes (at_thread h (match hy_cv h with Cleared => TLock2 | _ => TLock end) (hy_exec h))
  | TLock => match hy_exec h with None => Goes (at_thread h TWake (Some Thread)) | Some _ => Blocked end
  | TWake =>
      match hy_cv h with
      | Live =>
          Goes (Hybrid (match hy_starter h with PSleep => PWoken | p => p end) TUnlock (hy_exec h) (hy_cv h) (hy_tries h)
            (S (hy_wakes h)) (hy_client h) (hy_connected h))
      | _ => Undefined
      end
  | TUnlock => Goes (at_thread h TLock2 None)
  | TLock2 => Goes (at_thread h TWait2 (hy_exec h))
  | TWait2 => Goes (at_thread h TSleep2 (hy_exec h))
  | TSleep2 => Blocked
  | TWoken2 => Goes (at_thread h TUnlock2 (hy_exec h))
  | TUnlock2 => Goes (at_thread h TDrop (hy_exec h))
  | TDrop =>
      Goes (Hybrid (hy_starter h) TConnect (hy_exec h) (hy_cv h) (hy_tries h) (hy_wakes h) false (hy_connected h))
  end.

(** hybrid_tcp_disconnect_cb; it needs switch_mtx, which the thread holds from
    its lock to its wait and from there to its unlock. *)
Definition hybrid_tcp_disconnect_cb (h : hybrid) : result :=
  match hy_thread h with
  | TWait2 | TUnlock2 => Blocked
  | t =>
      Goes (Hybrid (hy_starter h) (match t with TSleep2 => TWoken2 | _ => t end) (hy_exec h) (hy_cv h) (hy_tries h) (hy_wakes h)
        (hy_client h) false)
  end.

Definition take_turn (t : turn) (h : hybrid) : result :=
  match t with
  | StarterTurn => starter_turn h
  | ThreadTurn r => hybrid_cb r h
  | Disconnect => hybrid_tcp_disconnect_cb h
  end.

Definition started : hybrid := Hybrid PLock TConnect None Live 0 0 false false.

Definition hstep (h h' : hybrid) : Prop := exists t, take_turn t h = Goes h'.

(** Turns one after the other; one that is blocked is passed over. *)
Fixpoint run (l : list turn) (h : hybrid) : result :=
  match l with
  | [] => Goes h
  | t :: l => match take_turn t h with Goes h => run l h | Blocked => run l h | Undefined => Undefined end
  end.

(** ** Properties *)

(** Who is between lock and unlock of exec_mtx. *)
Definition starter_in (p : starter_pc) : bool := bool_decide (p = PWait) || bool_decide (p = PUnlock).
Definition thread_in (t : thread_pc) : bool := bool_decide (t = TWake) || bool_decide (t = TUnlock).

(** Pcs of the starter after a wake. *)
Definition starter_woken (p : starter_pc) : bool :=
  match p with PLock | PWait | PSleep => false | _ => true end.

(** The owner of exec_mtx by the positions. *)
Definition owner (p : starter_pc) (t : thread_pc) : option who :=
  if starter_in p then Some Starter else if thread_in t then Some Thread else None.

Record hybrid_ok (h : hybrid) : Prop := HybridOk {
  ho_owner : hy_exec h = owner (hy_starter h) (hy_thread h);
  ho_exclusive : starter_in (hy_starter h) && thread_in (hy_thread h) = false;
  ho_woken : starter_woken (hy_starter h) = true -> (0 < hy_wakes h)%nat;
  ho_tried : bool_decide (hy_thread h = TConnect) && (hy_wakes h =? 0)%nat = false -> (0 < hy_tries h)%nat
}.

Lemma starter_ok h h' : hybrid_ok h -> starter_turn h = Goes h' -> hybrid_ok h'.
Proof.
  destruct h as [p c o cv tries wakes client conn]. intros [Ho Hx Hw Ht]. cbn [hy_exec hy_starter hy_thread hy_wakes hy_tries] in *.
  subst o. unfold starter_turn. cbn [hy_starter hy_exec].
  destruct p, c; try discriminate Hx; try discriminate; intros [= <-]; split; first [reflexivity|exact Ht|exact Hw|discriminate].
Qed.

Lemma thread_ok r h h' : hybrid_ok h -> hybrid_cb r h = Goes h' -> hybrid_ok h'.
Proof.
  destruct h as [p c o cv tries wakes client conn]. intros [Ho Hx Hw Ht]. cbn [hy_exec hy_starter hy_thread hy_wakes hy_tries] in *.
  subst o. unfold hybrid_cb. cbn [hy_thread hy_exec hy_cv hy_starter].
  destruct c; [destruct r|destruct cv|..|]; try discriminate.
  all: destruct p; try discriminate Hx; try discriminate; try (destruct cv; try discriminate); intros [= <-].
  all: split; cbn [hy_exec hy_starter hy_thread hy_wakes hy_tries]; first [reflexivity|exact Hw|exact Ht|discriminate|intros; lia|idtac].
  all: try (intros _; apply Ht; reflexivity).
Qed.

Lemma disconnect_ok h h' : hybrid_ok h -> hybrid_tcp_disconnect_cb h = Goes h' -> hybrid_ok h'.
Proof.
  destruct h as [p c o cv tries wakes client conn]. intros [Ho Hx Hw Ht]. cbn [hy_exec hy_starter hy_thread hy_wakes hy_tries] in *.
  unfold hybrid_tcp_disconnect_cb. cbn [hy_thread].
  destruct c; try discriminate; intros [= <-]; split; first [exact Ho|exact Hx|exact Hw|exact Ht].
Qed.

Lemma hybrid_reach h : rtc hstep started h -> hybrid_ok h.
Proof.
  assert (hybrid_ok started) as H0 by (split; [reflexivity|reflexivity|discriminate|discriminate]).
  intros H. revert H0. induction H as [|a b c [[|r|] Hs] _ IH]; [done|..]; eauto using starter_ok, thread_ok, disconnect_ok.
Qed.

(** The starter and the thread are never both between lock and unlock, and the
    starter returns only after the thread has tried a server and woken it. *)
Theorem starter_waits h : rtc hstep started h ->
  starter_in (hy_starter h) && thread_in (hy_thread h) = false /\
  (hy_starter h = PDone -> (0 < hy_tries h)%nat /\ (0 < hy_wakes h)%nat).
Proof.
  intros [_ Hx Hw Ht]%hybrid_reach. split; [done|]. intros E. rewrite E in Hw. specialize (Hw eq_refl). split; [|done].
  apply Ht. rewrite (proj2 (Nat.eqb_neq (hy_wakes h) 0)) by lia. apply andb_false_r.
Qed.

(** The wake is lost when it comes before the starter waits: the starter sleeps
    and the thread waits for a disconnect, so the broker does not start. *)
Theorem start_may_hang :
  exists h, run (repeat (ThreadTurn Connected) 8 ++ [StarterTurn; StarterTurn]) started = Goes h /\
    hy_starter h = PSleep /\ hy_thread h = TSleep2 /\ hy_connected h = true /\
    starter_turn h = Blocked /\ forall r, hybrid_cb r h = Blocked.
Proof. eexists. split; [vm_compute; reflexivity|]. by split_and!. Qed.

(** A disconnect between the connection and the wait is lost: the thread waits
    for one that does not come, and the bridge stays without a connection. *)
Theorem switch_may_be_lost :
  exists h, run ([StarterTurn; StarterTurn; ThreadTurn Connected; Disconnect] ++ repeat (ThreadTurn Connected) 7) started = Goes h /\
    hy_thread h = TSleep2 /\ hy_connected h = false /\ hy_tries h = 1%nat /\ forall r, hybrid_cb r h = Blocked.
Proof. eexists. split; [vm_compute; reflexivity|]. by split_and!. Qed.

(** The thread reads exec_cv before it locks: when the starter frees it in
    between, the thread wakes a condition variable that was freed. *)
Theorem freed_cv_woken :
  run ([StarterTurn; StarterTurn] ++ repeat (ThreadTurn Connected) 7 ++ [Disconnect] ++ repeat (ThreadTurn Connected) 5 ++
       [StarterTurn; StarterTurn; StarterTurn] ++ repeat (ThreadTurn Connected) 2) started = Undefined.
Proof. vm_compute. reflexivity. Qed.

(** While servers fail, the thread tries the next at once, without a pause and
    without a word to the starter. *)
Theorem failures_keep_trying n :
  exists h, run (StarterTurn :: StarterTurn :: repeat (ThreadTurn ConnectFailed) n) started = Goes h /\
    hy_tries h = n /\ hy_starter h = PSleep /\ hy_thread h = TConnect.
Proof.
  change (run (StarterTurn :: StarterTurn :: repeat (ThreadTurn ConnectFailed) n) started)
    with (run (repeat (ThreadTurn ConnectFailed) n) (Hybrid PSleep TConnect None Live 0 0 false false)).
  enough (forall k, exists h, run (repeat (ThreadTurn ConnectFailed) n) (Hybrid PSleep TConnect None Live k 0 false false) = Goes h /\
    hy_tries h = (k + n)%nat /\ hy_starter h = PSleep /\ hy_thread h = TConnect) as H by apply (H 0%nat).
  induction n as [|n IH]; intros k; [eexists; split; [reflexivity|]; cbn; split_and!; [lia|done|done]|].
  destruct (IH (S k)) as (h & E & Ht & ? & ?). exists h. split; [exact E|]. split_and!; [lia|done|done].
Qed.

End BridgeHybrid.
