(* ===== verification/BridgeQuic.v ===== *)
(** * Bridges over QUIC (nanomq/bridge.c)

    The parts of bridge.c that are compiled with SUPP_QUIC: the three variants
    of the client (start, reload, hybrid), as functions to how they end and the
    calls they make; the callbacks of the connection with the counter [execone],
    which all bridges share; and the functions for the persistence of messages
    and for fallback addresses. *)

From S2P Require Import Prelude NngApi NngModel Bridge BridgeConn BridgeDial.

Module BridgeQuic.

Import Bridge BridgeConn.

Section Client.

Context `{C : MqttConst} `{MP : MqttProperties}.

(** ** Options *)

Inductive quic_opt :=
  NNG_OPT_QUIC_ENABLE_0RTT | NNG_OPT_QUIC_ENABLE_MULTISTREAM | NNG_OPT_QUIC_IDLE_TIMEOUT | NNG_OPT_QUIC_CONNECT_TIMEOUT
| NNG_OPT_QUIC_DISCONNECT_TIMEOUT | NNG_OPT_QUIC_KEEPALIVE | NNG_OPT_QUIC_SEND_IDLE_TIMEOUT | NNG_OPT_QUIC_INITIAL_RTT_MS
| NNG_OPT_QUIC_MAX_ACK_DELAY_MS | NNG_OPT_QUIC_TLS_KEY_PATH | NNG_OPT_QUIC_TLS_CACERT_PATH | NNG_OPT_QUIC_TLS_KEY_PASSWORD
| NNG_OPT_QUIC_TLS_CA_PATH | NNG_OPT_QUIC_TLS_VERIFY_PEER.

#[local] Instance quic_opt_eq_dec : EqDecision quic_opt.
Proof. solve_decision. Defined.

Inductive opt_value := OBool (b : bool) | OUint64 (v : Z) | OInt (v : Z) | OString (s : bytes).

(** What the clients read of the node besides [dial_node]. *)
Record quic_tls := QuicTls {
  qt_enable : bool; qt_keyfile : option bytes; qt_certfile : option bytes; qt_key_password : option bytes;
  qt_cafile : option bytes; qt_verify_peer : bool
}.

Record quic_conf := QuicConf {
  qc_0rtt : bool;
  qc_multi_stream : bool;
  qc_idle_timeout : Z;
  qc_connect_timeout : Z;
  qc_discon_timeout : Z;
  qc_keepalive : Z;
  qc_send_idle_timeout : Z;
  qc_initial_rtt_ms : Z;
  qc_max_ack_delay_ms : Z;
  qc_tls : quic_tls;
  qc_retry_qos_0 : bool
}.

Inductive quic_cb := QuicCb | HybridQuicCb.

Inductive quic_act :=
  | OpenQuic (v5 : bool)
  | SetRetryQos0 (b : bool)
  | AllocSqlite
  | SetSqliteConf (name : bytes) (proto_ver : Z)
  | InitSqliteDb (db : bytes)
  | SocketSqlite
  | SetSockName (name : bytes)
  | CreateDialer (address : bytes)
  | SetBackoffMax (ms : Z)
  | SetOpt (o : quic_opt) (v : opt_value)
  | SocketMultistream
  | AllocClient
  | UseSocket                                     (* client->sock = *sock *)
  | ResetExecone
  | ReplaceSocket                                 (* nng_sock_replace, nng_close *)
  | SetCancelTimeout (ms : Z)
  | DialerConnMsg (m : connect_msg)
  | SocketConnMsg (m : connect_msg)
  | SetNoLocal (b : bool)
  | SocketBridgeConf
  | SetConnectCb (cb : quic_cb)
  | SetDisconnectCb (cb : quic_cb)
  | StartDialer.

(** A function returns, ends the program, or dereferences NULL. *)
Inductive quic_result := Returned (rv : Z) (l : list quic_act) | Fatal (rv : Z) (l : list quic_act) | UseNull.

Definition calls (l : list quic_act) (rest : quic_result) : quic_result :=
  match rest with
  | Returned rv l' => Returned rv (l ++ l')
  | Fatal rv l' => Fatal rv (l ++ l')
  | UseNull => UseNull
  end.

(** A call whose failure is returned. *)
Definition then_ (rv : Z) (a : quic_act) (rest : quic_result) : quic_result :=
  if negb (rv =? 0) then Returned rv [a] else calls [a] rest.

(** The results of the library. *)
Record quic_env := QuicEnv { qe_open : Z; qe_sqlite_alloc : Z; qe_sqlite_set : Z; qe_create : Z; qe_start : Z }.

Definition apply_sqlite_config (e : quic_env) (n : BridgeDial.dial_node) (q : quic_conf) (db_name : bytes) : quic_result :=
  calls [SetRetryQos0 (qc_retry_qos_0 q); AllocSqlite]
  (if negb (qe_sqlite_alloc e =? 0) then Fatal (qe_sqlite_alloc e) []
   else Returned (qe_sqlite_set e)
          [SetSqliteConf (BridgeDial.dn_name n) (cc_proto_ver (BridgeDial.dn_connect n)); InitSqliteDb db_name; SocketSqlite]).

(** A call of [apply_sqlite_config] whose result is not looked at. *)
Definition sqlite_then (e : quic_env) (n : BridgeDial.dial_node) (q : quic_conf) (rest : quic_result) : quic_result :=
  match apply_sqlite_config e n q (lit "mqtt_quic_client.db") with
  | Returned _ l => calls l rest
  | r => r
  end.

Definition nonempty (s : option bytes) : bool := match s with Some s => 0 <? blen s | None => false end.

Definition set_path (o : quic_opt) (s : option bytes) : list quic_act :=
  if nonempty s then [SetOpt o (OString (default [] s))] else [].

Definition nano_set_quic_config (q : quic_conf) : list quic_act :=
  [SocketBridgeConf;
   SetOpt NNG_OPT_QUIC_ENABLE_0RTT (OBool (qc_0rtt q));
   SetOpt NNG_OPT_QUIC_ENABLE_MULTISTREAM (OBool (qc_multi_stream q));
   SetOpt NNG_OPT_QUIC_IDLE_TIMEOUT (OUint64 (u64 (qc_idle_timeout q)));
   SetOpt NNG_OPT_QUIC_CONNECT_TIMEOUT (OUint64 (u64 (qc_connect_timeout q)));
   SetOpt NNG_OPT_QUIC_DISCONNECT_TIMEOUT (OInt (i32 (qc_discon_timeout q)));
   SetOpt NNG_OPT_QUIC_KEEPALIVE (OInt (i32 (qc_keepalive q)));
   SetOpt NNG_OPT_QUIC_SEND_IDLE_TIMEOUT (OInt (i32 (qc_send_idle_timeout q)));
   SetOpt NNG_OPT_QUIC_INITIAL_RTT_MS (OInt (i32 (qc_initial_rtt_ms q)));
   SetOpt NNG_OPT_QUIC_MAX_ACK_DELAY_MS (OInt (i32 (qc_max_ack_delay_ms q)))] ++
  (if negb (qt_enable (qc_tls q)) then []
   else
     set_path NNG_OPT_QUIC_TLS_KEY_PATH (qt_keyfile (qc_tls q)) ++
     set_path NNG_OPT_QUIC_TLS_CACERT_PATH (qt_certfile (qc_tls q)) ++
     set_path NNG_OPT_QUIC_TLS_KEY_PASSWORD (qt_key_password (qc_tls q)) ++
     set_path NNG_OPT_QUIC_TLS_CA_PATH (qt_cafile (qc_tls q)) ++
     [SetOpt NNG_OPT_QUIC_TLS_VERIFY_PEER (OBool (qt_verify_peer (qc_tls q)))]).

(** ** The clients *)

Definition connmsg_then (n : BridgeDial.dial_node) (rest : connect_msg -> quic_result) : quic_result :=
  match create_connect_msg (BridgeDial.dn_connect n) with Some m => rest m | None => UseNull end.

Definition start_step (e : quic_env) (n : BridgeDial.dial_node) : quic_result :=
  if BridgeDial.dn_enable n then Returned (qe_start e) [StartDialer] else Returned 0 [].

(** The start of the dialer is the last call; its result is the value. *)
Definition bridge_quic_client (e : quic_env) (n : BridgeDial.dial_node) (q : quic_conf) (cancel_timeout : Z) : quic_result :=
  then_ (qe_open e) (OpenQuic (BridgeDial.is_v5 n))
  (sqlite_then e n q
  (calls [SetSockName (BridgeDial.dn_name n)]
  (then_ (qe_create e) (CreateDialer (BridgeDial.dn_address n))
  (calls ([SetBackoffMax (i32 (BridgeDial.dn_backoff_max n * 1000)); SetOpt NNG_OPT_QUIC_ENABLE_0RTT (OBool true)] ++
          (if qc_multi_stream q then [SetOpt NNG_OPT_QUIC_ENABLE_MULTISTREAM (OBool true); SocketMultistream] else []) ++
          [AllocClient; SetCancelTimeout cancel_timeout])
  (connmsg_then n (fun connmsg =>
   calls ([SetCancelTimeout cancel_timeout; DialerConnMsg connmsg; SetNoLocal (BridgeDial.dn_no_local_v4 n);
           SocketConnMsg connmsg] ++ nano_set_quic_config q ++ [SetConnectCb QuicCb; SetDisconnectCb QuicCb])
   (start_step e n))))))).

(** The result of starting the dialer is only logged. *)
Definition bridge_quic_reload (e : quic_env) (n : BridgeDial.dial_node) (q : quic_conf) (cancel_timeout : Z) : quic_result :=
  then_ (qe_open e) (OpenQuic (BridgeDial.is_v5 n))
  (sqlite_then e n q
  (calls [SetSockName (BridgeDial.dn_name n)]
  (then_ (qe_create e) (CreateDialer (BridgeDial.dn_address n))
  (calls [SetBackoffMax (i32 (BridgeDial.dn_backoff_max n * 1000)); UseSocket; SetCancelTimeout cancel_timeout]
  (connmsg_then n (fun connmsg =>
   calls ([SetCancelTimeout cancel_timeout; ResetExecone; DialerConnMsg connmsg; SocketConnMsg connmsg;
           SetNoLocal (BridgeDial.dn_no_local_v4 n)] ++ nano_set_quic_config q ++
          [SetConnectCb QuicCb; SetDisconnectCb QuicCb] ++ (if BridgeDial.dn_enable n then [StartDialer] else []))
   (Returned 0 []))))))).

(** [tsock] is whether there is a socket to replace. *)
Definition hybrid_quic_client (e : quic_env) (n : BridgeDial.dial_node) (q : quic_conf) (cancel_timeout : Z) (tsock : bool)
  : quic_result :=
  then_ (qe_open e) (OpenQuic (BridgeDial.is_v5 n))
  (sqlite_then e n q
  (calls [SetSockName (BridgeDial.dn_name n)]
  (then_ (qe_create e) (CreateDialer (BridgeDial.dn_address n))
  (calls [AllocClient]
  (connmsg_then n (fun connmsg =>
   calls ([ResetExecone] ++ (if tsock then [ReplaceSocket] else []) ++
          [SetCancelTimeout cancel_timeout; DialerConnMsg connmsg; SocketConnMsg connmsg;
           SetNoLocal (BridgeDial.dn_no_local_v4 n)] ++ nano_set_quic_config q ++
          [SetConnectCb HybridQuicCb; SetDisconnectCb HybridQuicCb])
   (start_step e n))))))).

(** ** The callbacks *)

(** execone, and config->connected of each bridge. *)
Record quic := Quic { execone : Z; connected : list bool }.

(** A bridge: its topics, version and properties. *)
Record quic_bridge := QuicBridge {
  qb_subs : list topics; qb_v5 : bool; qb_sub_properties : option conf_bridge_sub_properties
}.

(** One request per topic. *)
Definition sub_requests (b : quic_bridge) : list (topic_qos * option prop_list) :=
  map (fun t => (t, if qb_v5 b then sub_property (qb_sub_properties b) else None)) (BridgeDial.sub_qos (qb_subs b)).

(** The requests that bridge [i] sends when its connection is acknowledged. *)
Definition bridge_quic_connect_cb (reason : Z) (i : nat) (b : quic_bridge) (s : quic)
  : quic * list (topic_qos * option prop_list) :=
  if 0 <? execone s then (s, [])
  else
    let s := Quic (execone s) (<[i := true]> (connected s)) in
    if (reason =? 0) && (0 <? blen (qb_subs b))
    then (Quic (execone s + 1) (connected s), sub_requests b) else (s, []).

Definition hybrid_quic_connect_cb (reason : Z) (i : nat) (b : quic_bridge) (s : quic)
  : quic * list (topic_qos * option prop_list) := bridge_quic_connect_cb reason i b s.

Definition bridge_quic_disconnect_cb (i : nat) (s : quic) : quic :=
  Quic (execone s - 1) (<[i := false]> (connected s)).

(** It also wakes the thread, see [BridgeHybrid]. *)
Definition hybrid_quic_disconnect_cb (i : nat) (s : quic) : quic := Quic (execone s) (<[i := false]> (connected s)).

(** The completion of a request: the codes it logs, and whether it frees the
    message. *)
Definition send_callback (CMD_UNSUBACK : Z) (result : Z) (msg : option (Z * list Z)) : list Z * bool :=
  match msg with
  | Some (type, codes) =>
      if negb (result =? 0) then ([], false)
      else if (type =? CMD_SUBACK) || (type =? CMD_UNSUBACK) then (codes, true) else ([], false)
  | None => ([], false)
  end.

(** ** Fallback addresses *)

(** The first loop: the position behind the last "//". *)
Fixpoint pos_ip_loop (i pos_ip : nat) (url : bytes) : nat :=
  match url with
  | c :: (d :: _) as rest => pos_ip_loop (S i) (if (c =? 47) && (d =? 47) then (i + 2)%nat else pos_ip) rest
  | _ => pos_ip
  end.

(** The second loop: the bytes up to a colon. *)
Fixpoint len_ip_loop (url : bytes) : nat :=
  match url with [] => 0 | c :: url => if c =? 58 then 0 else S (len_ip_loop url) end.

(** The bytes written; no terminating NUL is among them.  The bound of the first
    loop wraps for an empty address ([None]). *)
Definition gen_fallback_url (url : bytes) : option (Z * bytes) :=
  if (length url =? 0)%nat then None
  else
    let pos_ip := pos_ip_loop 0 0 url in
    let len_ip := len_ip_loop (drop pos_ip url) in
    if (len_ip <? 2)%nat then Some (-1, [])
    else Some (0, lit "mqtt-tcp://" ++ take len_ip (drop pos_ip url) ++ lit ":1883").

(** ** A started dialer is configured *)

(** The value an option has after the calls. *)
Definition effective (acc : option opt_value) (l : list quic_act) (o : quic_opt) : option opt_value :=
  foldl (fun acc a => match a with SetOpt o' v => if decide (o' = o) then Some v else acc | _ => acc end) acc l.

(** The value the configuration asks for; [None] leaves it to the library. *)
Definition wanted (q : quic_conf) (o : quic_opt) : option opt_value :=
  let t := qc_tls q in
  let path s := if qt_enable t && nonempty s then Some (OString (default [] s)) else None in
  match o with
  | NNG_OPT_QUIC_ENABLE_0RTT => Some (OBool (qc_0rtt q))
  | NNG_OPT_QUIC_ENABLE_MULTISTREAM => Some (OBool (qc_multi_stream q))
  | NNG_OPT_QUIC_IDLE_TIMEOUT => Some (OUint64 (u64 (qc_idle_timeout q)))
  | NNG_OPT_QUIC_CONNECT_TIMEOUT => Some (OUint64 (u64 (qc_connect_timeout q)))
  | NNG_OPT_QUIC_DISCONNECT_TIMEOUT => Some (OInt (i32 (qc_discon_timeout q)))
  | NNG_OPT_QUIC_KEEPALIVE => Some (OInt (i32 (qc_keepalive q)))
  | NNG_OPT_QUIC_SEND_IDLE_TIMEOUT => Some (OInt (i32 (qc_send_idle_timeout q)))
  | NNG_OPT_QUIC_INITIAL_RTT_MS => Some (OInt (i32 (qc_initial_rtt_ms q)))
  | NNG_OPT_QUIC_MAX_ACK_DELAY_MS => Some (OInt (i32 (qc_max_ack_delay_ms q)))
  | NNG_OPT_QUIC_TLS_KEY_PATH => path (qt_keyfile t)
  | NNG_OPT_QUIC_TLS_CACERT_PATH => path (qt_certfile t)
  | NNG_OPT_QUIC_TLS_KEY_PASSWORD => path (qt_key_password t)
  | NNG_OPT_QUIC_TLS_CA_PATH => path (qt_cafile t)
  | NNG_OPT_QUIC_TLS_VERIFY_PEER => if qt_enable t then Some (OBool (qt_verify_peer t)) else None
  end.

Lemma effective_app acc k l o : effective acc (k ++ l) o = effective (effective acc k o) l o.
Proof. apply foldl_app. Qed.

Lemma effective_path acc o' s o :
  effective acc (set_path o' s) o = if decide (o' = o) then (if nonempty s then Some (OString (default [] s)) else acc) else acc.
Proof. unfold set_path. destruct (nonempty s); cbn; by destruct (decide (o' = o)). Qed.

Lemma effective_config acc q o :
  effective acc (nano_set_quic_config q) o = match wanted q o with Some v => Some v | None => acc end.
Proof.
  unfold nano_set_quic_config. rewrite effective_app. destruct (qt_enable (qc_tls q)) eqn:Et; cbn [negb].
  - rewrite !effective_app, !effective_path. unfold wanted. rewrite Et. cbn [andb].
    destruct (nonempty (qt_keyfile _)), (nonempty (qt_certfile _)), (nonempty (qt_key_password _)), (nonempty (qt_cafile _)), o;
      reflexivity.
  - unfold wanted. rewrite Et. by destruct o.
Qed.

Lemma no_start_config q : StartDialer ∉ nano_set_quic_config q.
Proof.
  unfold nano_set_quic_config, set_path.
  destruct (qt_enable _), (nonempty (qt_keyfile _)), (nonempty (qt_certfile _)), (nonempty (qt_key_password _)),
    (nonempty (qt_cafile _)); set_solver.
Qed.

(** What has been called before a dialer is started. *)
Record configured (n : BridgeDial.dial_node) (q : quic_conf) (pre : list quic_act) : Prop := Configured {
  cf_options : forall o, effective None pre o = wanted q o;
  cf_address : CreateDialer (BridgeDial.dn_address n) ∈ pre;
  cf_connmsg : exists m, create_connect_msg (BridgeDial.dn_connect n) = Some m /\ DialerConnMsg m ∈ pre;
  cf_no_local : SetNoLocal (BridgeDial.dn_no_local_v4 n) ∈ pre;
  cf_callbacks : exists cb, SetConnectCb cb ∈ pre /\ SetDisconnectCb cb ∈ pre
}.

(** Calls before nano_set_quic_config, which set at most options it sets again,
    and calls after it. *)
Lemma configured_around n q m cb pre post :
  create_connect_msg (BridgeDial.dn_connect n) = Some m ->
  (forall o, wanted q o = None -> effective None pre o = None) ->
  (forall acc o, effective acc post o = acc) ->
  CreateDialer (BridgeDial.dn_address n) ∈ pre -> DialerConnMsg m ∈ pre -> SetNoLocal (BridgeDial.dn_no_local_v4 n) ∈ pre ->
  SetConnectCb cb ∈ post -> SetDisconnectCb cb ∈ post ->
  configured n q (pre ++ nano_set_quic_config q ++ post).
Proof.
  intros Em Ho Hp Ha Hm Hn Hc Hd. split; [|set_solver..].
  intros o. rewrite !effective_app, effective_config, Hp. specialize (Ho o). destruct (wanted q o); [done|by apply Ho].
Qed.

Inductive variant := Start | Reload | Hybrid (tsock : bool).

Definition quic_client (v : variant) (e : quic_env) (n : BridgeDial.dial_node) (q : quic_conf) (t : Z) : quic_result :=
  match v with
  | Start => bridge_quic_client e n q t
  | Reload => bridge_quic_reload e n q t
  | Hybrid tsock => hybrid_quic_client e n q t tsock
  end.

(** Everything before the last call. *)
Definition before_start (v : variant) (n : BridgeDial.dial_node) (q : quic_conf) (t : Z) (m : connect_msg) : list quic_act :=
  [OpenQuic (BridgeDial.is_v5 n); SetRetryQos0 (qc_retry_qos_0 q); AllocSqlite;
   SetSqliteConf (BridgeDial.dn_name n) (cc_proto_ver (BridgeDial.dn_connect n)); InitSqliteDb (lit "mqtt_quic_client.db");
   SocketSqlite; SetSockName (BridgeDial.dn_name n); CreateDialer (BridgeDial.dn_address n)] ++
  match v with
  | Start =>
      [SetBackoffMax (i32 (BridgeDial.dn_backoff_max n * 1000)); SetOpt NNG_OPT_QUIC_ENABLE_0RTT (OBool true)] ++
      (if qc_multi_stream q then [SetOpt NNG_OPT_QUIC_ENABLE_MULTISTREAM (OBool true); SocketMultistream] else []) ++
      [AllocClient; SetCancelTimeout t; SetCancelTimeout t; DialerConnMsg m; SetNoLocal (BridgeDial.dn_no_local_v4 n);
       SocketConnMsg m]
  | Reload =>
      [SetBackoffMax (i32 (BridgeDial.dn_backoff_max n * 1000)); UseSocket; SetCancelTimeout t; SetCancelTimeout t;
       ResetExecone; DialerConnMsg m; SocketConnMsg m; SetNoLocal (BridgeDial.dn_no_local_v4 n)]
  | Hybrid tsock =>
      [AllocClient; ResetExecone] ++ (if tsock then [ReplaceSocket] else []) ++
      [SetCancelTimeout t; DialerConnMsg m; SocketConnMsg m; SetNoLocal (BridgeDial.dn_no_local_v4 n)]
  end.

Definition cb_of (v : variant) : quic_cb := match v with Hybrid _ => HybridQuicCb | _ => QuicCb end.

Lemma before_start_ok v n q t m :
  create_connect_msg (BridgeDial.dn_connect n) = Some m ->
  let pre := before_start v n q t m ++ nano_set_quic_config q ++ [SetConnectCb (cb_of v); SetDisconnectCb (cb_of v)] in
  configured n q pre /\ (StartDialer ∉ pre).
Proof.
  intros Em pre. split.
  - apply (configured_around n q m (cb_of v)); [done| |done|..|set_solver|set_solver].
    + intros o Ho. destruct v as [| |[]], (qc_multi_stream q) eqn:E, o; unfold before_start; rewrite ?E;
        first [reflexivity | discriminate Ho].
    + unfold before_start. set_solver.
    + unfold before_start. destruct v as [| |[]]; set_solver.
    + unfold before_start. destruct v as [| |[]]; set_solver.
  - pose proof (no_start_config q). unfold pre, before_start. destruct v as [| |[]]; try destruct (qc_multi_stream q); set_solver.
Qed.

(** Either a call fails before the dialer is reached, or the calls are those
    of [before_start], the configuration and the start. *)
Lemma quic_client_shape v e n q t rv l :
  quic_client v e n q t = Returned rv l ->
  (rv <> 0 /\ (StartDialer ∉ l)) \/
  exists m, create_connect_msg (BridgeDial.dn_connect n) = Some m /\
    l = before_start v n q t m ++ nano_set_quic_config q ++ [SetConnectCb (cb_of v); SetDisconnectCb (cb_of v)] ++
        if BridgeDial.dn_enable n then [StartDialer] else [].
Proof.
  destruct v as [| |tsock]; cbn [quic_client]; unfold bridge_quic_client, bridge_quic_reload, hybrid_quic_client, then_ at 1;
    (destruct (Z.eqb_spec (qe_open e) 0); cbn [negb]; [|intros [= <- <-]; left; split; [done|set_solver]]);
    unfold sqlite_then, apply_sqlite_config; (destruct (Z.eqb_spec (qe_sqlite_alloc e) 0); cbn [negb]; [|done]); cbn [calls];
    unfold then_, connmsg_then, start_step; (destruct (Z.eqb_spec (qe_create e) 0); cbn [negb];
      [|intros [= <- <-]; left; split; [done|set_solver]]);
    (destruct (create_connect_msg _) as [m|]; [|done]); destruct (BridgeDial.dn_enable n); cbn [calls];
    intros [= <- <-]; right; exists m; (split; [done|]); cbn [before_start cb_of app];
    rewrite <- ?app_assoc; cbn [app]; rewrite <- ?app_assoc, ?app_nil_r; done.
Qed.

(** Whatever variant starts a dialer starts it last, only for an enabled bridge,
    and by then every option has the value of the configuration, although some
    are set before to another one, and the dialer has its address, its CONNECT
    message and its callbacks. *)
Theorem quic_dialer_configured v e n q t rv l :
  quic_client v e n q t = Returned rv l -> StartDialer ∈ l ->
  BridgeDial.dn_enable n = true /\ exists pre, l = pre ++ [StartDialer] /\ (StartDialer ∉ pre) /\ configured n q pre.
Proof.
  intros [[_ H]|(m & Em & ->)]%quic_client_shape Hin; [done|]. destruct (before_start_ok v n q t m Em) as [Hc Hs].
  destruct (BridgeDial.dn_enable n).
  - split; [done|]. eexists. split; [|done]. by rewrite <- !app_assoc.
  - rewrite app_nil_r in Hin. by apply Hs in Hin.
Qed.

(** Reloading runs while the bridge is disabled and does not dial. *)
Theorem quic_reload_not_dialed e n q t rv l :
  bridge_quic_reload e (BridgeDial.set_enable n false) q t = Returned rv l -> StartDialer ∉ l.
Proof. intros H Hin. by destruct (quic_dialer_configured Reload e _ q t rv l H Hin) as [Hf _]. Qed.

(** ** The callbacks of several bridges *)

(** A connection of bridge [i] is acknowledged or lost, or a reload or a hybrid
    bridge has made a new client. *)
Inductive quic_event := Connack (reason : Z) (i : nat) | Lost (i : nat) | LostHybrid (i : nat) | NewClient.

Definition on_event (bridges : list quic_bridge) (ev : quic_event) (s : quic) : quic * list (topic_qos * option prop_list) :=
  match ev with
  | Connack reason i =>
      match bridges !! i with Some b => bridge_quic_connect_cb reason i b s | None => (s, []) end
  | Lost i => (bridge_quic_disconnect_cb i s, [])
  | LostHybrid i => (hybrid_quic_disconnect_cb i s, [])
  | NewClient => (Quic 0 (connected s), [])
  end.

Fixpoint run (bridges : list quic_bridge) (evs : list quic_event) (s : quic) : quic * list (topic_qos * option prop_list) :=
  match evs with
  | [] => (s, [])
  | ev :: evs =>
      let '(s, l) := on_event bridges ev s in
      let '(s, l') := run bridges evs s in (s, l ++ l')
  end.

Lemma quic_run_app bridges k l s :
  run bridges (k ++ l) s = (let '(s, a) := run bridges k s in let '(s, b) := run bridges l s in (s, a ++ b)).
Proof.
  revert s. induction k as [|ev k IH]; intros s; cbn [app run]; [by destruct (run bridges l s)|].
  destruct (on_event bridges ev s) as [s1 l1]. rewrite IH. destruct (run bridges k s1) as [s2 l2].
  destruct (run bridges l s2) as [s3 l3]. by rewrite app_assoc.
Qed.

Lemma connack_counted b e c :
  e <= 0 -> 0 < blen (qb_subs b) -> on_event [b] (Connack 0 0) (Quic e [c]) = (Quic (e + 1) [true], sub_requests b).
Proof.
  intros He H. cbn [on_event lookup list_lookup]. unfold bridge_quic_connect_cb. cbn [execone connected].
  destruct (Z.ltb_spec 0 e); [lia|]. change (0 =? 0) with true. by rewrite (proj2 (Z.ltb_lt 0 _) H).
Qed.

(** A session: the library reports the connection once or, with several streams,
    more often. *)
Lemma session_subscribes b k c :
  0 < blen (qb_subs b) -> run [b] (replicate (S k) (Connack 0 0)) (Quic 0 [c]) = (Quic 1 [true], sub_requests b).
Proof.
  intros H. cbn [replicate run]. rewrite connack_counted by done. change (0 + 1) with 1.
  assert (run [b] (replicate k (Connack 0 0)) (Quic 1 [true]) = (Quic 1 [true], [])) as ->.
  { induction k as [|k IH]; [done|]. cbn [replicate run].
    change (on_event [b] (Connack 0 0) (Quic 1 [true])) with (Quic 1 [true], @nil (topic_qos * option prop_list)).
    cbv beta iota. by rewrite IH. }
  by rewrite app_nil_r.
Qed.

(** A single bridge subscribes to its topics exactly once per session, however
    often the connection is reported, and is connected during the session only. *)
Theorem quic_sessions_subscribe b ks :
  0 < blen (qb_subs b) ->
  run [b] (concat (map (fun k => replicate (S k) (Connack 0 0) ++ [Lost 0]) ks)) (Quic 0 [false])
    = (Quic 0 [false], concat (replicate (length ks) (sub_requests b))).
Proof.
  intros H. induction ks as [|k ks IH]; [done|]. cbn [map concat length]. rewrite !quic_run_app, session_subscribes by done.
  cbn [run on_event].
  change (bridge_quic_disconnect_cb 0 (Quic 1 [true])) with (Quic 0 [false]). rewrite IH. cbn [replicate concat]. by rewrite app_nil_r.
Qed.

(** The counter belongs to no bridge: the second of two bridges to connect sends
    no subscription and stays unconnected. *)
Theorem second_quic_bridge_ignored a b :
  0 < blen (qb_subs a) ->
  run [a; b] [Connack 0 0; Connack 0 1] (Quic 0 [false; false]) = (Quic 1 [true; false], sub_requests a).
Proof.
  intros H. cbn [run on_event lookup list_lookup]. unfold bridge_quic_connect_cb at 1. cbn [execone connected Z.ltb Z.compare].
  change (0 =? 0) with true. rewrite (proj2 (Z.ltb_lt 0 _) H). cbn [andb].
  change (bridge_quic_connect_cb 0 1 b _) with (Quic 1 [true; false], @nil (topic_qos * option prop_list)). cbv beta iota.
  by rewrite !app_nil_r.
Qed.

(** A refused connection makes the bridge connected, and since it is not counted
    but its loss is, the reports of the next session are no longer told apart. *)
Theorem quic_refused_counts reason b :
  reason <> 0 -> 0 < blen (qb_subs b) ->
  connected (fst (run [b] [Connack reason 0] (Quic 0 [false]))) = [true] /\
  run [b] [Connack reason 0; Lost 0; Connack 0 0; Connack 0 0] (Quic 0 [false])
    = (Quic 1 [true], sub_requests b ++ sub_requests b).
Proof.
  intros Hr H.
  assert (on_event [b] (Connack reason 0) (Quic 0 [false]) = (Quic 0 [true], [])) as E.
  { cbn [on_event lookup list_lookup]. unfold bridge_quic_connect_cb. by rewrite (proj2 (Z.eqb_neq _ _) Hr). }
  cbn [run]. rewrite E. split; [done|].
  change (on_event [b] (Lost 0) (Quic 0 [true])) with (Quic (-1) [false], @nil (topic_qos * option prop_list)).
  cbv beta iota. rewrite connack_counted by done. change (-1 + 1) with 0. rewrite connack_counted by done.
  cbn [app]. by rewrite app_nil_r.
Qed.

(** ** The fallback address *)

Lemma pos_ip_none i pos url : (47 ∉ url) -> pos_ip_loop i pos url = pos.
Proof.
  revert i pos. induction url as [|c [|d url] IH]; intros i pos H; [done..|]. cbn [pos_ip_loop].
  apply not_elem_of_cons in H as [Hc H]. rewrite (proj2 (Z.eqb_neq c 47)) by done. cbn [andb]. by apply IH.
Qed.

Lemma pos_ip_found i pos scheme rest : (47 ∉ rest) -> pos_ip_loop i pos (scheme ++ [47; 47] ++ rest) = (i + length scheme + 2)%nat.
Proof.
  intros H. revert i pos. induction scheme as [|c scheme IH]; intros i pos.
  - cbn [app pos_ip_loop length]. change ((47 =? 47) && (47 =? 47)) with true. cbn [andb].
    destruct rest as [|d rest]; [lia|]. apply not_elem_of_cons in H as [Hd H].
    rewrite (proj2 (Z.eqb_neq d 47)) by done. cbn [andb]. rewrite andb_false_r, pos_ip_none by (apply not_elem_of_cons; by split).
    lia.
  - specialize (IH (S i)). rewrite <- app_comm_cons. cbn [length]. destruct (scheme ++ [47; 47] ++ rest) as [|d l] eqn:E.
    + by destruct scheme.
    + change (pos_ip_loop i pos (c :: d :: l)) with (pos_ip_loop (S i) (if (c =? 47) && (d =? 47) then (i + 2)%nat else pos) (d :: l)).
      rewrite IH. lia.
Qed.

Lemma len_ip_host host rest : (58 ∉ host) -> len_ip_loop (host ++ 58 :: rest) = length host.
Proof.
  induction host as [|c host IH]; intros H; [done|]. apply not_elem_of_cons in H as [Hc H]. cbn [app len_ip_loop length].
  rewrite (proj2 (Z.eqb_neq c 58)) by done. by rewrite IH.
Qed.

(** The fallback of an address with a host and a port is the host with the port
    1883 of plain MQTT. *)
Theorem fallback_of_host scheme host port :
  (47 ∉ host) -> (58 ∉ host) -> (47 ∉ port) -> (2 <= length host)%nat ->
  gen_fallback_url (scheme ++ lit "//" ++ host ++ lit ":" ++ port) = Some (0, lit "mqtt-tcp://" ++ host ++ lit ":1883").
Proof.
  intros Hh Hc Hp Hl. unfold gen_fallback_url. change (lit "//") with [47; 47]. change (lit ":") with [58].
  destruct (Nat.eqb_spec (length (scheme ++ [47; 47] ++ host ++ [58] ++ port)) 0) as [E|_].
  { rewrite !length_app in E. cbn in E. lia. }
  assert (pos_ip_loop 0 0 (scheme ++ [47; 47] ++ host ++ [58] ++ port) = length (scheme ++ [47; 47])) as ->.
  { rewrite pos_ip_found by set_solver. rewrite length_app. cbn. lia. }
  rewrite (app_assoc scheme), drop_app_length. cbn [app]. rewrite len_ip_host by done.
  destruct (Nat.ltb_spec (length host) 2); [lia|]. by rewrite take_app_length.
Qed.

End Client.

(** ** Concrete inputs *)

Section Witness.

Import Model.

#[local] Existing Instance BridgeConn.list_props.

Definition quic_node : BridgeDial.dial_node :=
  BridgeDial.DialNode (lit "n") true (lit "mqtt-quic://h:14567")
    (ConnectConf 60 4 true (Some (lit "id")) None None false None None 0 false None None) 10
    (BridgeDial.DialTcp false 0 0 None 0 0 0 0 0 0) (BridgeDial.DialTls false None None None None None false) 0 0 false [] None.

Definition quic_sample : quic_conf :=
  QuicConf false true 30000 5000 5000 3000 6000 800 100 (QuicTls true None None None (Some (lit "ca.pem")) true) false.

Definition quic_trace : list (@quic_act list_props) :=
  match bridge_quic_client (QuicEnv 0 0 0 0 0) quic_node quic_sample 1000 with Returned _ l => l | _ => [] end.

Lemma quic_dialer_configured_witness :
  BridgeDial.dn_enable quic_node = true /\
  exists pre, quic_trace = pre ++ [StartDialer] /\ (StartDialer ∉ pre) /\ configured quic_node quic_sample pre.
Proof.
  apply (quic_dialer_configured Start (QuicEnv 0 0 0 0 0) quic_node quic_sample 1000 0 quic_trace).
  - vm_compute. reflexivity.
  - vm_compute. set_solver.
Defined.

Lemma fallback_of_host_witness :
  gen_fallback_url (lit "mqtt-quic:" ++ lit "//" ++ lit "1.2.3.4" ++ lit ":" ++ lit "14567")
    = Some (0, lit "mqtt-tcp://1.2.3.4:1883").
Proof.
  apply (fallback_of_host (lit "mqtt-quic:") (lit "1.2.3.4") (lit "14567")); [vm_compute; set_solver..|cbn; lia].
Defined.

End Witness.

End BridgeQuic.
