(* ===== verification/MqttApi.v ===== *)
(** * Messages between the broker and its helpers (nanomq/mqtt_api.c)

    The HTTP server and the AWS bridge hand packets to the broker in one message
    that also carries the client id and the version; Iceoryx uses a similar
    layout.  The decoders walk a pointer over the body without looking at its
    length: the bytes from the pointer on are a list here, and [None] is a read
    past its end. *)

From S2P Require Import Prelude NngApi NngModel.

(** Big-endian 32-bit numbers *)
Definition be32 (v : Z) : bytes := [v / 16777216; v / 65536 mod 256; v / 256 mod 256; v mod 256].

Class CommonApi `{NngMsg} := {
  NNI_GET32 : bytes -> Z;              (* of the first four bytes *)
  nng_msg_append_u32 : nng_msg -> Z -> Z * nng_msg;
  nng_mqtt_msg_encode : nng_msg -> nng_msg;
  nng_mqttv5_msg_encode : nng_msg -> nng_msg;
  (* conn_param_alloc and the two setters *)
  conn_param_make : bytes -> Z -> conn_param;
  conn_param_proto_ver : conn_param -> Z
}.

Class CommonApiLaws `{CommonApi} : Prop := {
  get32_be v rest : 0 <= v < 4294967296 -> NNI_GET32 (be32 v ++ rest) = v;
  append_u32_ok m v : fst (nng_msg_append_u32 m v) = 0;
  append_u32_body m v : 0 <= v < 4294967296 ->
    nng_msg_body (snd (nng_msg_append_u32 m v)) = nng_msg_body m ++ be32 v;
  append_u32_header m v : nng_msg_header (snd (nng_msg_append_u32 m v)) = nng_msg_header m;
  make_clientid c v : conn_param_get_clientid (conn_param_make c v) = Some c;
  make_proto_ver c v : conn_param_proto_ver (conn_param_make c v) = v
}.

Module MqttApi.

Section Common.

Context `{C : MqttConst} `{M : NngMsg} `{MN : !NngMsgNew} `{CA : !CommonApi}.

(** [n] bytes from the pointer, and the pointer moved behind them. *)
Definition read (ptr : bytes) (n : Z) : option (bytes * bytes) :=
  if n <=? blen ptr then Some (take (Z.to_nat n) ptr, drop (Z.to_nat n) ptr) else None.

Definition read32 (ptr : bytes) : option (Z * bytes) :=
  '(_, ptr') ← read ptr 4; Some (NNI_GET32 ptr, ptr').

Definition create_cparam (clientid : bytes) (proto_ver : Z) : conn_param := conn_param_make clientid proto_ver.

(** [alloc] is the result of nng_mqtt_msg_alloc. *)
Definition decode_common_mqtt_msg (alloc : Z) (src : nng_msg) : option (Z * option (nng_msg * conn_param)) :=
  if negb (alloc =? 0) then Some (alloc, None)
  else
    let msg := new_msg in
    let ptr := nng_msg_body src in
    '(header_len, ptr) ← read32 ptr;
    '(header, ptr) ← read ptr header_len;
    let msg := snd (nng_msg_header_append msg header) in
    '(body_len, ptr) ← read32 ptr;
    '(body, ptr) ← read ptr body_len;
    let msg := snd (nng_msg_append msg body) in
    '(clientid_sz, ptr) ← read32 ptr;
    '(clientid, ptr) ← read ptr clientid_sz;
    '(ver, ptr) ← read ptr 1;
    let proto_ver := nth 0 ver 0 in
    let cparam := create_cparam (c_str clientid) proto_ver in
    let msg := if proto_ver =? MQTT_PROTOCOL_VERSION_v5 then nng_mqttv5_msg_decode msg
               else snd (nng_mqtt_msg_decode msg) in
    Some (0, Some (msg, cparam)).

(** [alloc] is the result of nng_msg_alloc. *)
Definition encode_common_mqtt_msg (alloc : Z) (src : nng_msg) (clientid : bytes) (proto_ver : Z)
  : Z * option nng_msg :=
  let src := if proto_ver =? MQTT_PROTOCOL_VERSION_v5 then nng_mqttv5_msg_encode src
             else nng_mqtt_msg_encode src in
  if negb (alloc =? 0) then (alloc, None)
  else
    let msg := new_msg in
    let msg := snd (nng_msg_append_u32 msg (u32 (blen (nng_msg_header src)))) in
    let msg := snd (nng_msg_append msg (nng_msg_header src)) in
    let msg := snd (nng_msg_append_u32 msg (u32 (blen (nng_msg_body src)))) in
    let msg := snd (nng_msg_append msg (nng_msg_body src)) in
    let msg := snd (nng_msg_append_u32 msg (u32 (blen clientid))) in
    let msg := snd (nng_msg_append msg clientid) in
    let msg := snd (nng_msg_append msg [proto_ver]) in
    (0, Some msg).

(** ** Round trip *)

Context `{ML : !NngMsgLaws} `{MA : !NngMsgAlloc} `{NL : !NngMsgNewLaws} `{CL : !CommonApiLaws}.

Lemma be32_length v : blen (be32 v) = 4.
Proof. done. Qed.

Lemma read_app l rest : read (l ++ rest) (blen l) = Some (l, rest).
Proof.
  unfold read. rewrite blen_app. pose proof (blen_nonneg rest).
  replace (blen l <=? blen l + blen rest) with true by lia.
  replace (Z.to_nat (blen l)) with (length l) by (unfold blen; lia). by rewrite take_app_length, drop_app_length.
Qed.

Lemma read32_app v rest : 0 <= v < 4294967296 -> read32 (be32 v ++ rest) = Some (v, rest).
Proof.
  intros Hv. unfold read32. rewrite <- (be32_length v), read_app. cbn [mbind option_bind]. by rewrite get32_be.
Qed.

(** The layout: header, body and client id, each after its length, then the
    version. *)
Definition common_layout (header body clientid : bytes) (proto_ver : Z) : bytes :=
  be32 (blen header) ++ header ++ be32 (blen body) ++ body ++ be32 (blen clientid) ++ clientid ++ [proto_ver].

Lemma encode_common_body src clientid proto_ver m :
  nng_msg_body new_msg = [] ->
  let src' := if proto_ver =? MQTT_PROTOCOL_VERSION_v5 then nng_mqttv5_msg_encode src else nng_mqtt_msg_encode src in
  blen (nng_msg_header src') < 4294967296 -> blen (nng_msg_body src') < 4294967296 -> blen clientid < 4294967296 ->
  encode_common_mqtt_msg 0 src clientid proto_ver = (0, Some m) ->
  nng_msg_body m = common_layout (nng_msg_header src') (nng_msg_body src') clientid proto_ver.
Proof.
  intros Hnew src' Hh Hb Hc E. unfold encode_common_mqtt_msg in E. fold src' in E. cbn [negb Z.eqb] in E.
  injection E as <-. pose proof (blen_nonneg (nng_msg_header src')). pose proof (blen_nonneg (nng_msg_body src')).
  pose proof (blen_nonneg clientid).
  rewrite !u32_small by lia. rewrite !append_body by apply append_ok. rewrite append_u32_body by lia.
  rewrite append_body by apply append_ok. rewrite append_u32_body by lia.
  rewrite append_body by apply append_ok. rewrite append_u32_body by lia.
  unfold common_layout. by rewrite Hnew, <- !app_assoc.
Qed.

Lemma common_msg_decoded src clientid proto_ver m :
  nng_msg_body new_msg = [] -> nng_msg_header new_msg = [] ->
  let src' := if proto_ver =? MQTT_PROTOCOL_VERSION_v5 then nng_mqttv5_msg_encode src else nng_mqtt_msg_encode src in
  blen (nng_msg_header src') < 4294967296 -> blen (nng_msg_body src') < 4294967296 -> blen clientid < 4294967296 ->
  encode_common_mqtt_msg 0 src clientid proto_ver = (0, Some m) ->
  exists msg cparam, decode_common_mqtt_msg 0 m = Some (0, Some (msg, cparam)) /\
    nng_msg_header msg = nng_msg_header src' /\ nng_msg_body msg = nng_msg_body src' /\
    conn_param_get_clientid cparam = Some (c_str clientid) /\ conn_param_proto_ver cparam = proto_ver.
Proof.
  intros Hnb Hnh src' Hh Hb Hc E. pose proof (encode_common_body src clientid proto_ver m Hnb Hh Hb Hc E) as Hm.
  unfold decode_common_mqtt_msg. cbn [negb Z.eqb]. rewrite Hm. fold src'. unfold common_layout.
  pose proof (blen_nonneg (nng_msg_header src')). pose proof (blen_nonneg (nng_msg_body src')).
  pose proof (blen_nonneg clientid).
  rewrite read32_app by lia. cbn [mbind option_bind]. rewrite read_app. cbn [mbind option_bind].
  rewrite read32_app by lia. cbn [mbind option_bind]. rewrite read_app. cbn [mbind option_bind].
  rewrite read32_app by lia. cbn [mbind option_bind]. rewrite read_app. cbn [mbind option_bind].
  assert (read [proto_ver] 1 = Some ([proto_ver], [])) as -> by done.
  cbn [mbind option_bind nth]. eexists _, _. split; [done|].
  assert (forall x : nng_msg, nng_msg_header (if proto_ver =? MQTT_PROTOCOL_VERSION_v5 then nng_mqttv5_msg_decode x
    else snd (nng_mqtt_msg_decode x)) = nng_msg_header x /\ nng_msg_body (if proto_ver =? MQTT_PROTOCOL_VERSION_v5
    then nng_mqttv5_msg_decode x else snd (nng_mqtt_msg_decode x)) = nng_msg_body x) as Hdec.
  { intros x. destruct (_ =? _); [by rewrite v5_decode_header, v5_decode_body|by rewrite decode_header, decode_body]. }
  match goal with |- context [nng_msg_append ?x ?y] => destruct (Hdec (snd (nng_msg_append x y))) as [-> ->] end.
  rewrite append_header, header_append_header, append_body, header_append_body, Hnh, Hnb
    by (apply append_ok || apply header_append_ok).
  unfold create_cparam. by rewrite make_clientid, make_proto_ver.
Qed.

(** C27. What one side encodes the other decodes: the header and body of the packet,
    its client id and its version, whatever bytes they have. *)
Theorem common_msg_round_trip src clientid proto_ver m :
  nng_msg_body new_msg = [] -> nng_msg_header new_msg = [] ->
  let src' := if proto_ver =? MQTT_PROTOCOL_VERSION_v5 then nng_mqttv5_msg_encode src else nng_mqtt_msg_encode src in
  blen (nng_msg_header src') < 4294967296 -> blen (nng_msg_body src') < 4294967296 -> blen clientid < 4294967296 ->
  encode_common_mqtt_msg 0 src clientid proto_ver = (0, Some m) ->
  exists msg cparam, decode_common_mqtt_msg 0 m = Some (0, Some (msg, cparam)) /\
    nng_msg_header msg = nng_msg_header src' /\ nng_msg_body msg = nng_msg_body src' /\
    conn_param_get_clientid cparam = Some (c_str clientid) /\ conn_param_proto_ver cparam = proto_ver.
Proof. apply common_msg_decoded. Qed.

(** The decoder trusts the lengths: a body shorter than they say is read past
    its end. *)
Theorem decode_common_overread src len :
  nng_msg_body src = be32 len -> 0 < len < 4294967296 -> decode_common_mqtt_msg 0 src = None.
Proof.
  intros Hb Hl. unfold decode_common_mqtt_msg. cbn [negb Z.eqb]. rewrite Hb, <- (app_nil_r (be32 len)).
  rewrite read32_app by lia. cbn [mbind option_bind]. unfold read.
  rewrite (proj2 (Z.leb_gt len (blen (A := Z) []))); [done|]. change (blen (A := Z) []) with 0. lia.
Qed.

End Common.

(** ** TLS of a listener *)

Section Tls.

Inductive tls_mode := NNG_TLS_AUTH_MODE_NONE | NNG_TLS_AUTH_MODE_OPTIONAL | NNG_TLS_AUTH_MODE_REQUIRED.

(** conf_tls, and the results of the library's functions, in order. *)
Record conf_tls := ConfTls {
  tls_verify_peer : bool;
  tls_set_fail : bool;
  tls_cert : bool;         (* cert is not NULL *)
  tls_ca : bool
}.

Record tls_env := TlsEnv {
  tl_alloc : Z; tl_auth_mode : Z; tl_own_cert : Z; tl_ca_chain : Z; tl_set_ptr : Z
}.

Definition tls_mode_of (tls : conf_tls) : tls_mode :=
  if tls_verify_peer tls then
    if tls_set_fail tls then NNG_TLS_AUTH_MODE_REQUIRED else NNG_TLS_AUTH_MODE_OPTIONAL
  else NNG_TLS_AUTH_MODE_NONE.

(** The return value, and whether the configuration was set on the listener. *)
Definition init_listener_tls (tls : conf_tls) (e : tls_env) : Z * bool :=
  if negb (tl_alloc e =? 0) then (tl_alloc e, false)
  else
    let rv := tl_auth_mode e in
    if (rv =? 0) && tls_cert tls && negb (tl_own_cert e =? 0) then (tl_own_cert e, false)
    else if (rv =? 0) && tls_ca tls && negb (tl_ca_chain e =? 0) then (tl_ca_chain e, false)
    else (tl_set_ptr e, true).

(** The listener gets a configuration whose certificate and authorities are
    loaded, or an error is returned, provided the authentication mode could be
    set; when it could not, that error is overwritten and the listener runs
    without certificate, authorities or the mode that was asked for. *)
Theorem init_listener_tls_correct tls e :
  (tl_auth_mode e = 0 -> init_listener_tls tls e = (0, true) ->
   (tls_cert tls = true -> tl_own_cert e = 0) /\ (tls_ca tls = true -> tl_ca_chain e = 0)) /\
  (tl_alloc e = 0 -> tl_auth_mode e <> 0 -> init_listener_tls tls e = (tl_set_ptr e, true)).
Proof.
  unfold init_listener_tls. split.
  - intros -> E. destruct (negb (tl_alloc e =? 0)) eqn:Ha; [done|]. cbn [Z.eqb andb] in E.
    destruct (tls_cert tls), (Z.eqb_spec (tl_own_cert e) 0), (tls_ca tls), (Z.eqb_spec (tl_ca_chain e) 0); done.
  - intros -> Hn. cbn [negb Z.eqb]. by rewrite (proj2 (Z.eqb_neq _ _) Hn).
Qed.

End Tls.

(** ** A packet over the wire *)

Section Witness.

Import Model.

Definition get32 (l : bytes) : Z :=
  match l with a :: b :: c :: d :: _ => ((a * 256 + b) * 256 + c) * 256 + d | _ => 0 end.

#[local] Instance common_api : CommonApi := {|
  NNI_GET32 := get32;
  nng_msg_append_u32 m v := nng_msg_append m (be32 v);
  nng_mqtt_msg_encode m := m; nng_mqttv5_msg_encode m := m;
  conn_param_make c v := Cparam (Some c) (Some [v]) None None;
  conn_param_proto_ver p := match cp_username p with Some [v] => v | _ => 0 end
|}.

#[local] Instance common_api_laws : CommonApiLaws.
Proof.
  constructor; try done. intros v rest Hv. cbn.
  pose proof (Z.div_mod v 256 ltac:(lia)). pose proof (Z.div_mod (v / 256) 256 ltac:(lia)).
  pose proof (Z.div_mod (v / 65536) 256 ltac:(lia)).
  replace (v / 65536) with (v / 256 / 256) in * by (rewrite Z.div_div by lia; done).
  replace (v / 16777216) with (v / 256 / 256 / 256) by (rewrite !Z.div_div by lia; done). lia.
Qed.

Definition wire_src : @nng_msg msgs := Msg [0x30; 5] [0; 1; 97; 0; 255] 0 None.

Definition wire_msg : @nng_msg msgs := default new_msg (snd (encode_common_mqtt_msg 0 wire_src (lit "http") 4)).

Lemma common_msg_round_trip_witness :
  encode_common_mqtt_msg 0 wire_src (lit "http") 4 = (0, Some wire_msg) /\
  exists msg cparam, decode_common_mqtt_msg 0 wire_msg = Some (0, Some (msg, cparam)) /\
    nng_msg_header msg = [0x30; 5] /\ nng_msg_body msg = [0; 1; 97; 0; 255] /\
    conn_param_get_clientid cparam = Some (lit "http") /\ conn_param_proto_ver cparam = 4.
Proof.
  split; [reflexivity|].
  exact (common_msg_round_trip wire_src (lit "http") 4 wire_msg eq_refl eq_refl eq_refl eq_refl eq_refl eq_refl).
Defined.

End Witness.

End MqttApi.
