(* ===== verification/Iceoryx.v ===== *)
(** * Iceoryx (nanomq/mqtt_api.c, nanomq_cli/iceoryx_client.c)

    The broker and the command line client exchange packets over shared memory:
    a byte with the length of the fixed header, the header, four bytes with the
    length of the body, the body.  Decoders trust the lengths: [None] is a read
    past the end of the chunk.  Compiled with SUPP_ICEORYX; the transport is a
    parameter. *)

From S2P Require Import Prelude NngApi NngModel MqttApi.

Module Iceoryx.

Import MqttApi.

(** ** The broker (mqtt_api.c) *)

Section Broker.

Context `{C : MqttConst} `{M : NngMsg} `{MN : !NngMsgNew} `{CA : !CommonApi}.

Definition nano_iceoryx_topic_filter (icetopic : bytes) (topic : option bytes) (topicsz : Z) : bool :=
  match topic with
  | None => false
  | Some topic =>
      if topicsz =? 0 then false
      else if negb (blen icetopic =? topicsz) then false
      else strncmp0 icetopic topic topicsz
  end.

(** The bytes that are appended to the chunk. *)
Definition ice_layout (header body : bytes) : bytes :=
  [u8 (blen header)] ++ header ++ be32 (u32 (blen body)) ++ body.

(** [alloc] and [send] are the results of nng_msg_iceoryx_alloc, with the size
    that is asked for, and of the aio. *)
Definition nano_iceoryx_send_nng_msg (alloc : Z -> Z) (send : Z) (msg : nng_msg) : Z * option bytes :=
  let icehdrlen := blen (nng_msg_header msg) in
  let icelen := blen (nng_msg_body msg) in
  let rv := alloc (i32 (icehdrlen + icelen + 5)) in
  if negb (rv =? 0) then (rv, None) else (send, Some (ice_layout (nng_msg_header msg) (nng_msg_body msg))).

(** [alloc] is the result of nng_mqtt_msg_alloc; a message that is not returned
    is not freed. *)
Definition nano_iceoryx_recv_nng_msg (alloc : Z) (icebuf : bytes) : option (Z * option (nng_msg * conn_param)) :=
  if negb (alloc =? 0) then Some (alloc, None)
  else
    '(len, ptr) ← read icebuf 1;
    let icehdrlen := nth 0 len 0 in
    '(header, ptr) ← read ptr icehdrlen;
    let '(rv, msg) := nng_msg_header_append new_msg header in
    if negb (rv =? 0) then Some (rv, None)
    else
      '(icebodylen, ptr) ← read32 ptr;
      '(body, ptr) ← read ptr icebodylen;
      let '(rv, msg) := nng_msg_append msg body in
      if negb (rv =? 0) then Some (rv, None)
      else
        let cparam := create_cparam (lit "atestclientid") MQTT_PROTOCOL_VERSION_v311 in
        let msg := snd (nng_mqtt_msg_decode msg) in
        Some (0, Some (msg, cparam)).

(** ** The worker (server_cb in apps/broker.c, PROTO_ICEORYX_BRIDGE) *)

Inductive ice_act :=
  | SetSuber                                      (* nng_aio_set_prov_data *)
  | RecvExtra
  | SetCmdPublish
  | FreeIceMsg.

(** INIT and, after a message was handled, SEND *)
Definition ice_receive : list ice_act := [SetSuber; RecvExtra].

(** RECV: the message that is handled as a PUBLISH; without one the worker
    receives again.  [None] is undefined. *)
Definition ice_recv (alloc : Z) (icebuf : bytes) : option (list ice_act * option (nng_msg * conn_param)) :=
  '(rv, m) ← nano_iceoryx_recv_nng_msg alloc icebuf;
  Some (if negb (rv =? 0) then (ice_receive, None) else ([SetCmdPublish; FreeIceMsg], m)).

(** SEND: the chunk of a PUBLISH for the topic of the publisher. *)
Definition ice_forward (alloc : Z -> Z) (send : Z) (publish : bool) (msg : option nng_msg) (topic : option bytes) (len : Z) : option bytes :=
  if publish then
    m ← msg;
    if nano_iceoryx_topic_filter (lit "ice/fwd") topic len then snd (nano_iceoryx_send_nng_msg alloc send m) else None
  else None.

Context `{ML : !NngMsgLaws} `{MA : !NngMsgAlloc} `{NL : !NngMsgNewLaws} `{CL : !CommonApiLaws}.

Lemma layout_decoded header body rest :
  blen header < 256 -> blen body < 4294967296 -> nng_msg_body new_msg = [] -> nng_msg_header new_msg = [] ->
  exists msg cparam, nano_iceoryx_recv_nng_msg 0 (ice_layout header body ++ rest) = Some (0, Some (msg, cparam)) /\
    nng_msg_header msg = header /\ nng_msg_body msg = body.
Proof.
  intros Hh Hb Hnb Hnh. pose proof (blen_nonneg header). pose proof (blen_nonneg body).
  unfold nano_iceoryx_recv_nng_msg, ice_layout. cbn [negb Z.eqb]. rewrite u8_small, u32_small by lia.
  rewrite <- !app_assoc. change 1 with (blen [blen header]) at 1. rewrite read_app. cbn [mbind option_bind nth].
  rewrite read_app. cbn [mbind option_bind].
  pose proof (header_append_ok new_msg header) as Ho.
  destruct (nng_msg_header_append new_msg header) as [rv m1] eqn:E1. cbn [fst] in Ho. subst rv. cbn [negb Z.eqb].
  rewrite read32_app by lia. cbn [mbind option_bind]. rewrite read_app. cbn [mbind option_bind].
  pose proof (append_ok m1 body) as Ho.
  destruct (nng_msg_append m1 body) as [rv m2] eqn:E2. cbn [fst] in Ho. subst rv. cbn [negb Z.eqb].
  eexists _, _. split; [done|]. rewrite decode_header, decode_body.
  assert (m1 = snd (nng_msg_header_append new_msg header)) as -> by (by rewrite E1).
  assert (m2 = snd (nng_msg_append (snd (nng_msg_header_append new_msg header)) body)) as -> by (by rewrite E2).
  rewrite append_header, header_append_header, append_body, header_append_body, Hnh, Hnb
    by (apply append_ok || apply header_append_ok). done.
Qed.

(** What the broker sends to shared memory is what it would receive from it. *)
Theorem iceoryx_round_trip alloc msg chunk :
  blen (nng_msg_header msg) < 256 -> blen (nng_msg_body msg) < 4294967296 ->
  nng_msg_body new_msg = [] -> nng_msg_header new_msg = [] ->
  nano_iceoryx_send_nng_msg alloc 0 msg = (0, Some chunk) ->
  exists msg' cparam, nano_iceoryx_recv_nng_msg 0 chunk = Some (0, Some (msg', cparam)) /\
    nng_msg_header msg' = nng_msg_header msg /\ nng_msg_body msg' = nng_msg_body msg.
Proof.
  intros Hh Hb Hnb Hnh E. unfold nano_iceoryx_send_nng_msg in E. destruct (negb _); [done|]. injection E as <-.
  rewrite <- (app_nil_r (ice_layout _ _)). by apply layout_decoded.
Qed.

(** Exactly the publishes on "ice/fwd" go to shared memory, and a worker that
    receives the chunk handles the same packet and releases the chunk. *)
Theorem ice_forwarded alloc msg topic :
  blen (nng_msg_header msg) < 256 -> blen (nng_msg_body msg) < 4294967296 ->
  nng_msg_body new_msg = [] -> nng_msg_header new_msg = [] -> (forall n, alloc n = 0) ->
  match ice_forward alloc 0 true (Some msg) (Some topic) (blen topic) with
  | None => topic <> lit "ice/fwd"
  | Some chunk => topic = lit "ice/fwd" /\ exists msg' cp,
      ice_recv 0 chunk = Some ([SetCmdPublish; FreeIceMsg], Some (msg', cp)) /\
      nng_msg_header msg' = nng_msg_header msg /\ nng_msg_body msg' = nng_msg_body msg
  end.
Proof.
  intros Hh Hb Hnb Hnh Ha. unfold ice_forward. cbn [mbind option_bind].
  destruct (nano_iceoryx_topic_filter (lit "ice/fwd") (Some topic) (blen topic)) eqn:E.
  - unfold nano_iceoryx_send_nng_msg. rewrite Ha. cbn [negb Z.eqb snd]. split.
    + unfold nano_iceoryx_topic_filter in E. destruct (blen topic =? 0); [done|].
      destruct (Z.eqb_spec (blen (lit "ice/fwd")) (blen topic)) as [Hl|]; [|done]. cbn [negb] in E.
      apply bool_decide_eq_true in E. unfold blen in *. rewrite !take_ge in E by lia. done.
    + destruct (layout_decoded (nng_msg_header msg) (nng_msg_body msg) []) as (m & cp & Hd & H1 & H2); [done..|].
      rewrite app_nil_r in Hd. exists m, cp. unfold ice_recv. rewrite Hd. done.
  - intros ->. revert E. by vm_compute.
Qed.

(** A chunk that is not accepted is not released. *)
Theorem ice_refused_leaks alloc icebuf : alloc <> 0 -> ice_recv alloc icebuf = Some (ice_receive, None) /\ (FreeIceMsg ∉ ice_receive).
Proof.
  intros H. unfold ice_recv, nano_iceoryx_recv_nng_msg. rewrite (proj2 (Z.eqb_neq _ _) H). cbn [negb mbind option_bind].
  rewrite (proj2 (Z.eqb_neq _ _) H). split; [done|]. unfold ice_receive. set_solver.
Qed.

End Broker.

(** ** The client (iceoryx_client.c) *)

(** The chunk of [pubmqtt]: [pld] is what the pointer argv[7] points at, with
    the bytes that follow the string. *)
Definition pubmqtt_chunk (pld : bytes) : option bytes :=
  if blen pld <? 3 then None
  else
    let buf1 := [0x02; 0x30; 0x0a] in
    let buf2 := [0x00; 0x00; 0x00; 0x0a; 0x00; 0x05; 0x74; 0x6f; 0x70; 0x69; 0x63] ++ take 3 pld in
    Some (buf1 ++ buf2).

Definition get32 (l : bytes) : option Z :=
  match l with a :: b :: c :: d :: _ => Some (u32 (a * 16777216 + b * 65536 + c * 256 + d)) | _ => None end.

(** [submqtt]: header and body of msg2, and the topic and payload it prints. *)
Definition submqtt (pld : bytes) : option (bytes * bytes * bytes * bytes) :=
  buf1 ← pld !! 0%nat;
  '(header, _) ← read pld buf1;
  '(_, ptr) ← read pld (1 + buf1);
  buf2 ← get32 ptr;
  '(_, ptr) ← read ptr 4;
  '(body, _) ← read ptr buf2;
  '(sz, ptr) ← read body 2;
  let topicsz := nth 0 sz 0 * 256 + nth 1 sz 0 in
  '(topic, ptr) ← read ptr topicsz;
  let pldsz := u16 (blen body - 2 - topicsz) in
  '(payload, _) ← read ptr pldsz;
  Some (header, body, topic, payload).

(** What a command line asks for. *)
Inductive ice_cmd :=
  | IceHelp
  | IceSub (name service instance event : bytes)
  | IcePub (name service instance event : bytes) (txt : bytes)
  | IceBenchSub
  | IceBenchPub
  | IcePubMqtt (name service instance event : bytes) (pld : bytes)
  | IceSubMqtt (name service instance event : bytes).

Definition iceoryx_start (argv : list bytes) : ice_cmd :=
  let argc := length argv in
  let a i := nth i argv [] in
  if (argc <? 3)%nat then IceHelp
  else if strcmp0 (a 2%nat) (lit "sub") then
    if negb (argc =? 7)%nat then IceHelp else IceSub (a 3%nat) (a 4%nat) (a 5%nat) (a 6%nat)
  else if strcmp0 (a 2%nat) (lit "pub") then
    if negb (argc =? 8)%nat then IceHelp else IcePub (a 3%nat) (a 4%nat) (a 5%nat) (a 6%nat) (a 7%nat)
  else if strcmp0 (a 2%nat) (lit "benchsub") then IceBenchSub
  else if strcmp0 (a 2%nat) (lit "benchpub") then IceBenchPub
  else if strcmp0 (a 2%nat) (lit "pubmqtt") then
    if negb (argc =? 8)%nat then IceHelp else IcePubMqtt (a 3%nat) (a 4%nat) (a 5%nat) (a 6%nat) (a 7%nat)
  else if strcmp0 (a 2%nat) (lit "submqtt") then
    if negb (argc =? 7)%nat then IceHelp else IceSubMqtt (a 3%nat) (a 4%nat) (a 5%nat) (a 6%nat)
  else IceHelp.

(** The calls of the transport. *)
Inductive ice_call :=
  | IceOpen (runtime : bytes)
  | SubNew (name service instance event : bytes)
  | PubNew (name service instance event : bytes)
  | RecvWait
  | FreeRecv
  | SendWait (chunk : bytes)
  | IceClose.

Definition iceoryx_suber (name service instance event : bytes) : list ice_call :=
  [IceOpen (lit "Hello-Iceoryx"); SubNew name service instance event; RecvWait; FreeRecv; IceClose].

Definition iceoryx_puber (name service instance event txt : bytes) : list ice_call :=
  [IceOpen (lit "Hello-NanoMQ"); PubNew name service instance event; SendWait txt; IceClose].

(** The rounds of the benchmark: the one side receives first, the other sends
    first. *)
Definition suber_rounds (n : nat) (txt : bytes) : list ice_call := concat (replicate n [RecvWait; FreeRecv; SendWait txt]).
Definition puber_rounds (n : nat) (txt : bytes) : list ice_call := concat (replicate n [SendWait txt; RecvWait; FreeRecv]).

Definition bench_round_max : nat := Z.to_nat 100000.

Definition iceoryx_bench_suber (n : nat) (service instance eventsend eventrecv txt : bytes) : list ice_call :=
  [IceOpen (lit "Hello-Iceoryx"); SubNew (lit "benchsuber-recver") service instance eventrecv;
   PubNew (lit "benchsuber-sender") service instance eventsend] ++ suber_rounds n txt ++ [IceClose].

Definition iceoryx_bench_puber (n : nat) (service instance eventsend eventrecv txt : bytes) : list ice_call :=
  [IceOpen (lit "Hello-NanoMQ"); PubNew (lit "benchpuber-sender") service instance eventsend;
   SubNew (lit "benchpuber-recver") service instance eventrecv] ++ puber_rounds n txt ++ [IceClose].

(** ** The client with the broker *)

Section Client.

Context `{C : MqttConst} `{M : NngMsg} `{MN : !NngMsgNew} `{CA : !CommonApi}.
Context `{ML : !NngMsgLaws} `{MA : !NngMsgAlloc} `{NL : !NngMsgNewLaws} `{CL : !CommonApiLaws}.

(** The broker decodes what [pubmqtt] sends as a publish on "topic", whatever
    event is named, with the first three bytes behind the pointer as payload. *)
Theorem pubmqtt_decoded pld chunk :
  nng_msg_body new_msg = [] -> nng_msg_header new_msg = [] -> pubmqtt_chunk pld = Some chunk ->
  exists msg cparam, nano_iceoryx_recv_nng_msg 0 chunk = Some (0, Some (msg, cparam)) /\
    nng_msg_header msg = [0x30; 10] /\ nng_msg_body msg = [0; 5] ++ lit "topic" ++ take 3 pld.
Proof.
  intros Hnb Hnh E. unfold pubmqtt_chunk in E. destruct (Z.ltb_spec (blen pld) 3); [done|]. injection E as <-.
  assert (exists a b c, take 3 pld = [a; b; c]) as (a & b & c & ->).
  { destruct pld as [|a [|b [|c pld]]]; cbn in *; try (unfold blen in *; cbn in *; lia). by exists a, b, c. }
  destruct (layout_decoded [0x30; 10] ([0; 5] ++ lit "topic" ++ [a; b; c]) []) as (msg & cp & E & H1 & H2); [done..|].
  exists msg, cp. split; [|done]. rewrite app_nil_r in E. exact E.
Qed.

(** [submqtt] finds body, topic and payload of a publish that the broker sends,
    but takes its header from one byte too early: the length byte is in it and
    the last byte is not. *)
Theorem submqtt_decodes b header topic payload :
  let body := [blen topic / 256; blen topic mod 256] ++ topic ++ payload in
  0 < blen (header ++ [b]) < 256 -> blen topic < 65536 -> blen payload < 65536 ->
  submqtt (ice_layout (header ++ [b]) body)
    = Some (blen (header ++ [b]) :: header, body, topic, payload).
Proof.
  intros body Hh Ht Hp. pose proof (blen_nonneg topic). pose proof (blen_nonneg payload). pose proof (blen_nonneg header).
  assert (blen body = 2 + blen topic + blen payload) as Hb by (unfold body; rewrite !blen_app, !blen_cons, blen_nil; lia).
  unfold submqtt, ice_layout. rewrite u8_small, u32_small by lia. set (h := header ++ [b]) in *.
  change (([blen h] ++ h ++ be32 (blen body) ++ body) !! 0%nat) with (Some (blen h)). cbn [mbind option_bind].
  assert (blen h = blen (blen h :: header)) as Hl by (unfold h; rewrite blen_app, !blen_cons, blen_nil; lia).
  replace ([blen h] ++ h ++ be32 (blen body) ++ body) with ((blen h :: header) ++ [b] ++ be32 (blen body) ++ body) at 1
    by (unfold h; cbn; by rewrite <- app_assoc).
  rewrite Hl at 2. rewrite read_app. cbn [mbind option_bind].
  replace ([blen h] ++ h ++ be32 (blen body) ++ body) with ((blen h :: h) ++ be32 (blen body) ++ body) by done.
  assert (1 + blen h = blen (blen h :: h)) as -> by (by rewrite blen_cons). rewrite read_app. cbn [mbind option_bind].
  assert (get32 (be32 (blen body) ++ body) = Some (blen body)) as ->.
  { unfold be32. cbn [app get32]. f_equal. rewrite u32_small; Z.to_euclidean_division_equations; lia. }
  cbn [mbind option_bind]. change 4 with (blen (be32 (blen body))) at 1. rewrite read_app. cbn [mbind option_bind].
  rewrite <- (app_nil_r body) at 1. rewrite read_app. cbn [mbind option_bind].
  assert (read body 2 = Some ([blen topic / 256; blen topic mod 256], topic ++ payload)) as ->
    by exact (read_app [blen topic / 256; blen topic mod 256] (topic ++ payload)).
  cbn [mbind option_bind nth].
  replace (blen topic / 256 * 256 + blen topic mod 256) with (blen topic) by (Z.to_euclidean_division_equations; lia).
  rewrite read_app. cbn [mbind option_bind].
  replace (blen body - 2 - blen topic) with (blen payload) by lia. rewrite u16_small by lia.
  rewrite <- (app_nil_r payload) at 1. rewrite read_app. reflexivity.
Qed.

End Client.

End Iceoryx.
