(* ===== verification/CmdProc.v ===== *)
(** * The command server (nanomq/cmd_proc.c)

    "nanomq reload" sends a JSON command to the running broker, which reads the
    configuration file again and answers with a text.  [handle_recv] decides,
    [cmd_server_cb] is the state machine of a server context, and
    [encode_client_cmd] is what the client sends. *)

From S2P Require Import Prelude NngApi NngModel WebhookEvents RuleEngine.

(** What a text printed by cJSON is read as: members can be found by name.
    Names are compared without regard to case, so they are lower-case and
    distinct here. *)
Definition names_ok (l : list (bytes * json_value)) : Prop :=
  NoDup (map fst l) /\ forallb (forallb (fun c => negb ((65 <=? c) && (c <=? 90)))) (map fst l) = true.

Class CJsonParsed `{CJsonBuild} `{CJson} `{!CJsonBuildLaws} : Prop := {
  (* the text is sent with its terminating NUL *)
  parse_print o : names_ok (members o) ->
    exists j, cJSON_ParseWithLength (Some (cJSON_Print o ++ [0])) (blen (cJSON_Print o ++ [0])) = Some j /\
      forall k v, (k, v) ∈ members o ->
        exists item, cJSON_GetObjectItem j k = Some item /\
          match v with
          | JNum n => cJSON_type item = cJSON_Number /\ cJSON_GetNumberValue item = n
          | JStr s => cJSON_type item = cJSON_String /\ cJSON_GetStringValue item = s
          | _ => True
          end
}.

Module CmdProc.

Section Cmd.

Context `{JB : CJsonBuild} `{J : CJson} (nng_strcasecmp : bytes -> bytes -> Z).

(** ** Reading members: the macros of rest_api.h *)

Definition getStringValue (obj : option cJSON) (key : bytes) : option bytes :=
  obj ← obj;
  item ← cJSON_GetObjectItem obj key;
  match cJSON_type item with cJSON_String => Some (cJSON_GetStringValue item) | _ => None end.

Definition getNumberValue (obj : option cJSON) (key : bytes) : option Z :=
  obj ← obj;
  item ← cJSON_GetObjectItem obj key;
  match cJSON_type item with cJSON_Number => Some (cJSON_GetNumberValue item) | _ => None end.

(** ** The decision *)

(** Read the file again with the HOCON or the old parser and take its settings
    over, or an error text, and whether a new configuration had been made. *)
Inductive recv_result :=
  | Reload (conf_file : bytes) (hocon : bool)
  | Refuse (err_msg : bytes) (new_conf : bool).

(** [conf_file] is the file of the running configuration, [exists_file] is
    nano_file_exists, [alloc] whether a configuration can be allocated. *)
Definition handle_recv (msg : bytes) (config_file : option bytes) (exists_file : bytes -> bool) (alloc : bool)
  : recv_result :=
  let obj := cJSON_ParseWithLength (Some msg) (blen msg) in
  match getStringValue obj (lit "cmd") with
  | None => Refuse (lit "reload failed, invalid command!") false
  | Some cmd =>
      if negb (nng_strcasecmp cmd (lit "reload") =? 0) then Refuse (lit "reload failed, invalid command!") false
      else
        let conf_file := getStringValue obj (lit "conf_file") in
        match conf_file, config_file with
        | None, None => Refuse (lit "reload failed, conf_file is not specified!") false
        | _, _ =>
            if match conf_file with Some f => negb (exists_file f) | None => false end
            then Refuse (lit "reload failed, conf_file does not exist!") false
            else if negb alloc then Refuse (lit "reload failed, alloc memory failed!") false
            else
              let file := match conf_file with Some f => f | None => default [] config_file end in
              let conf_type := default 2 (getNumberValue obj (lit "conf_type")) in
              if conf_type =? 2 then Reload file true
              else if conf_type =? 3 then Reload file false
              else Refuse (lit "reload failed, wrong conf type!") true
        end
  end.

(** ** The server *)

Inductive cmd_state := INIT | RECV | WAIT | SEND.

Inductive cmd_action :=
  | CtxRecv | CtxSend (body : bytes) | Apply (conf_file : bytes) (hocon : bool) | Fatal.

(** One callback: [result] is nng_aio_result, [msg] the body received. *)
Definition cmd_server_cb (st : cmd_state) (result : Z) (msg : bytes) (config_file : option bytes)
    (exists_file : bytes -> bool) (alloc : bool) : cmd_state * list cmd_action :=
  match st with
  | INIT => (RECV, [CtxRecv])
  | RECV =>
      if negb (result =? 0) then (RECV, [Fatal])
      else
        match handle_recv msg config_file exists_file alloc with
        | Reload f h => (SEND, [Apply f h; CtxSend (lit "reload succeed!" ++ [0])])
        | Refuse err _ => (SEND, [CtxSend (err ++ [0])])
        end
  | SEND => if negb (result =? 0) then (SEND, [Fatal]) else (RECV, [CtxRecv])
  | WAIT => (WAIT, [Fatal])
  end.

(** ** The client *)

Definition encode_client_cmd (conf_file : option bytes) (type : Z) : bytes :=
  let obj := cJSON_CreateObject in
  let obj := cJSON_AddStringToObject obj (lit "cmd") (Some (lit "reload")) in
  let obj := cJSON_AddStringToObject obj (lit "conf_file") conf_file in
  let obj := cJSON_AddNumberToObject obj (lit "conf_type") type in
  cJSON_Print obj.

(** ** What the server does *)

Context `{JL : !CJsonBuildLaws} `{JP : !CJsonParsed}.

Lemma client_cmd_parsed conf_file type :
  let msg := encode_client_cmd conf_file type ++ [0] in
  let obj := cJSON_ParseWithLength (Some msg) (blen msg) in
  getStringValue obj (lit "cmd") = Some (lit "reload") /\
  (forall f, conf_file = Some f -> getStringValue obj (lit "conf_file") = Some f) /\
  getNumberValue obj (lit "conf_type") = Some type.
Proof.
  unfold encode_client_cmd. cbn zeta.
  set (o := cJSON_AddNumberToObject _ _ _).
  assert (members o = (lit "cmd", JStr (lit "reload")) ::
    match conf_file with Some f => [(lit "conf_file", JStr f)] | None => [] end ++ [(lit "conf_type", JNum type)]) as Hm.
  { unfold o. by rewrite members_number, !members_string, members_create. }
  destruct (parse_print o) as (j & -> & Hj).
  { rewrite Hm. split; [apply (bool_decide_unpack _); by destruct conf_file; vm_compute|].
    by destruct conf_file. }
  rewrite Hm in Hj. unfold getStringValue, getNumberValue. cbn [mbind option_bind]. split; [|split].
  - destruct (Hj (lit "cmd") (JStr (lit "reload"))) as (i & -> & H1 & H2); [by left|]. cbn [mbind option_bind]. by rewrite H1, H2.
  - intros f ->. destruct (Hj (lit "conf_file") (JStr f)) as (i & -> & H1 & H2); [right; by left|].
    cbn [mbind option_bind]. by rewrite H1, H2.
  - destruct (Hj (lit "conf_type") (JNum type)) as (i & -> & H1 & H2).
    + destruct conf_file; [do 2 right; by left|right; by left].
    + cbn [mbind option_bind]. by rewrite H1, H2.
Qed.

(** The command a client sends for an existing file is understood: the server
    reads that file with the parser the client asked for, says so, and waits for
    the next command. *)
Theorem reload_round_trip f type config_file exists_file :
  (forall s, nng_strcasecmp s s = 0) -> exists_file f = true -> type = 2 \/ type = 3 ->
  cmd_server_cb RECV 0 (encode_client_cmd (Some f) type ++ [0]) config_file exists_file true
    = (SEND, [Apply f (type =? 2); CtxSend (lit "reload succeed!" ++ [0])]) /\
  cmd_server_cb SEND 0 [] config_file exists_file true = (RECV, [CtxRecv]).
Proof.
  intros Hcmp Hf Ht. split; [|done]. destruct (client_cmd_parsed (Some f) type) as (H1 & H2 & H3).
  unfold cmd_server_cb, handle_recv. cbn [Z.eqb negb]. rewrite H1, Hcmp, (H2 f eq_refl), H3, Hf. cbn [negb default from_option].
  by destruct Ht as [-> | ->].
Qed.

(** Every command is answered exactly once, with a text that ends in NUL, and a
    configuration is applied only when the answer says so. *)
Theorem cmd_answered_once msg config_file exists_file alloc :
  exists answer acts, cmd_server_cb RECV 0 msg config_file exists_file alloc = (SEND, acts ++ [CtxSend (answer ++ [0])]) /\
    (0 ∉ answer) /\
    ((acts = [] /\ answer <> lit "reload succeed!") \/
     exists f h, acts = [Apply f h] /\ answer = lit "reload succeed!" /\
       (exists_file f = true \/ config_file = Some f)).
Proof.
  assert (forall s : bytes, bool_decide (0 ∉ s) = true -> 0 ∉ s) as Hno by (intros s; apply bool_decide_eq_true).
  unfold cmd_server_cb. cbn [Z.eqb negb].
  assert (forall e b, handle_recv msg config_file exists_file alloc = Refuse e b ->
    bool_decide (0 ∉ e) = true /\ e <> lit "reload succeed!") as Hr.
  { intros e b. unfold handle_recv. repeat case_match; intros [= <- <-]; (split; [vm_compute; reflexivity|by vm_compute]). }
  destruct (handle_recv msg config_file exists_file alloc) as [f h|e b] eqn:E.
  - exists (lit "reload succeed!"), [Apply f h]. split; [done|]. split; [by apply Hno; vm_compute|]. right.
    exists f, h. split; [done|]. split; [done|].
    unfold handle_recv in E. destruct (getStringValue _ (lit "cmd")) as [cmd|]; [|done].
    destruct (negb _); [done|]. destruct (getStringValue _ (lit "conf_file")) as [g|], config_file as [c|]; try done.
    all: destruct (exists_file _) eqn:Hex in E || idtac; destruct alloc; cbn in E; try done.
    all: repeat case_match; try done; injection E as <- <-; auto.
  - destruct (Hr e b eq_refl) as [H1 H2]. exists e, []. split; [done|]. split; [by apply Hno|]. by left.
Qed.

End Cmd.

(** ** A reload *)

Section Witness.

(** The reader that goes with [list_json]: an object, or one of its values. *)
Definition item_of (l : list (bytes * json_value)) (k : bytes) : option (list (bytes * json_value) + json_value) :=
  inr ∘ snd <$> List.find (fun p => bool_decide (fst p = k)) l.

#[local] Instance list_reader : CJson := {|
  cJSON := list (bytes * json_value) + json_value;
  cJSON_ParseWithLength s _ := match s with Some [Z.pos p; 0] => inl <$> decode p | _ => None end;
  cJSON_Parse _ := None;
  cJSON_GetObjectItem j k := match j with inl l => item_of l k | inr _ => None end;
  cJSON_type j := match j with inr (JNum _) => cJSON_Number | inr (JStr _) => cJSON_String
                  | inl _ => cJSON_Object | _ => cJSON_Other end;
  cJSON_GetNumberValue j := match j with inr (JNum n) => n | _ => 0 end;
  cJSON_GetStringValue j := match j with inr (JStr s) => s | _ => [] end;
  cJSON_Compare _ _ := false;
  cJSON_PrintUnformatted _ := []
|}.

Lemma item_of_member l k v : NoDup (map fst l) -> (k, v) ∈ l -> item_of l k = Some (inr v).
Proof.
  unfold item_of. induction l as [|[k' v'] l IH]; intros Hnd Hin; [by apply elem_of_nil in Hin|].
  apply NoDup_cons in Hnd as [Hk Hnd]. cbn. destruct (bool_decide_reflect (k' = k)) as [->|Hne].
  - apply elem_of_cons in Hin as [[= <-]|Hin]; [done|]. destruct Hk. apply list_elem_of_fmap. by exists (k, v).
  - apply elem_of_cons in Hin as [[= <- <-]|Hin]; [done|]. by apply IH.
Qed.

#[local] Instance list_parsed : CJsonParsed.
Proof.
  constructor. intros o [Hnd _]. exists (inl o : @cJSON list_reader). cbn. rewrite decode_encode. split; [done|].
  intros k v Hin. exists (inr v : @cJSON list_reader). split; [by apply item_of_member|]. by destruct v.
Qed.

Definition same_text (a b : bytes) : Z := if decide (a = b) then 0 else 1.

Lemma reload_round_trip_witness :
  cmd_server_cb same_text RECV 0 (encode_client_cmd (Some (lit "/etc/nanomq.conf")) 2 ++ [0]) None (fun _ => true) true
    = (SEND, [Apply (lit "/etc/nanomq.conf") true; CtxSend (lit "reload succeed!" ++ [0])]).
Proof.
  refine (proj1 (reload_round_trip same_text (lit "/etc/nanomq.conf") 2 None (fun _ => true) _ eq_refl (or_introl eq_refl))).
  intros t. unfold same_text. by rewrite decide_True.
Defined.

End Witness.

End CmdProc.
