(* ===== verification/Services.v ===== *)
(** * Services and signals of the broker (nanomq)

    What starts and ends the parts that run beside the workers: the thread of
    the web hooks (webhook_inproc.c), the client of the command server
    (cmd_proc.c) and the signals of the broker (apps/broker.c).  The agents of
    the web hooks themselves are in [WebhookAgent], the command server in
    [CmdProc]. *)

From S2P Require Import Prelude.

Module Services.

(** ** The thread of the web hooks *)

Inductive hook_call :=
  | Pull0Open
  | AllocWork (i : nat)
  | Listen (url : bytes)
  | WorkCb (i : nat)                              (* the agent is set going *)
  | FreeWork (i : nat).

Section Hooks.

Context (HOOK_IPC_URL : bytes).

(** How the thread ends: it runs on, or it returns. *)
Inductive hook_end := Serving | Returned.

Definition works_num (enable : bool) (pool_size : nat) : nat := if enable then pool_size else 0.

(** [open] and [listen] are the results of the library; an allocation that fails
    ends the program and is left out. *)
Definition hook_cb (enable : bool) (pool_size : nat) (hook_ipc_url : option bytes) (open listen : Z) : list hook_call * hook_end :=
  let ids := seq 0 (works_num enable pool_size) in
  if negb (open =? 0) then ([Pull0Open], Returned)
  else
    let url := default HOOK_IPC_URL hook_ipc_url in
    let setup := [Pull0Open] ++ map AllocWork ids ++ [Listen url] in
    if negb (listen =? 0) then (setup ++ map FreeWork ids, Returned)
    else (setup ++ map WorkCb ids, Serving).

(** [None] ends the program; the result of the thread is not waited for. *)
Definition start_hook_service (thread : Z) : option Z := if negb (thread =? 0) then None else Some thread.

Definition allocated (l : list hook_call) : list nat := omap (fun c => match c with AllocWork i => Some i | _ => None end) l.
Definition started (l : list hook_call) : list nat := omap (fun c => match c with WorkCb i => Some i | _ => None end) l.
Definition freed (l : list hook_call) : list nat := omap (fun c => match c with FreeWork i => Some i | _ => None end) l.

Lemma omap_hit (f : nat -> hook_call) (g : hook_call -> option nat) (ids : list nat) :
  (forall i, g (f i) = Some i) -> omap g (map f ids) = ids.
Proof. intros H. induction ids as [|i ids IH]; [done|]. cbn [map omap list_omap]. rewrite H. by f_equal. Qed.

Lemma omap_miss (f : nat -> hook_call) (g : hook_call -> option nat) (ids : list nat) :
  (forall i, g (f i) = None) -> omap g (map f ids) = [].
Proof. intros H. induction ids as [|i ids IH]; [done|]. cbn [map omap list_omap]. by rewrite H. Qed.

Lemma omap_setup (g : hook_call -> option nat) (f : nat -> hook_call) ids url :
  g Pull0Open = None -> g (Listen url) = None ->
  omap g (Pull0Open :: (map AllocWork ids ++ [Listen url]) ++ map f ids) = omap g (map AllocWork ids) ++ omap g (map f ids).
Proof.
  intros H1 H2. cbn [omap list_omap]. rewrite H1, !omap_app. cbn [omap list_omap]. rewrite H2. by rewrite app_nil_r.
Qed.

(** Every agent that is allocated is either set going or freed, once and in
    order, and agents are set going only behind a socket that listens. *)
Theorem hook_agents_accounted enable pool url open listen l en :
  hook_cb enable pool url open listen = (l, en) ->
  match en with
  | Serving => open = 0 /\ listen = 0 /\ allocated l = seq 0 (works_num enable pool) /\ started l = allocated l /\
      freed l = [] /\ Listen (default HOOK_IPC_URL url) ∈ l
  | Returned => started l = [] /\ freed l = allocated l
  end.
Proof.
  unfold hook_cb. destruct (Z.eqb_spec open 0); cbn [negb]; [|by intros [= <- <-]].
  destruct (Z.eqb_spec listen 0); cbn [negb]; intros [= <- <-]; unfold allocated, started, freed.
  - rewrite !(omap_setup _ WorkCb) by done.
    rewrite !(omap_miss WorkCb), !(omap_hit AllocWork), !(omap_miss AllocWork), !(omap_hit WorkCb) by done. rewrite app_nil_r.
    split_and!; [done..|by rewrite omap_miss|set_solver].
  - rewrite !(omap_setup _ FreeWork) by done.
    split; [by rewrite (omap_miss AllocWork), (omap_miss FreeWork)|].
    rewrite (omap_miss AllocWork), (omap_hit FreeWork), (omap_hit AllocWork), (omap_miss FreeWork) by done. by rewrite app_nil_r.
Qed.

(** The start reports success although the thread may have returned at once: then
    nothing receives the events of the broker. *)
Theorem hook_failure_unnoticed enable pool url listen :
  start_hook_service 0 = Some 0 /\ hook_cb enable pool url 1 listen = ([Pull0Open], Returned).
Proof. done. Qed.

End Hooks.

(** ** The client of the command server *)

Inductive cmd_call := Req0Open | DialerCreate (url : bytes) | SetResend (ms : Z) | DialerStart | Send (data : bytes) | Recv.

Inductive cmd_end := Printed (text : bytes) | Fatal (rv : Z).

Fixpoint cmd_exec (env : cmd_call -> Z) (l : list cmd_call) (fin : cmd_end) : list cmd_call * cmd_end :=
  match l with
  | [] => ([], fin)
  | SetResend ms :: l => let '(k, e) := cmd_exec env l fin in (SetResend ms :: k, e)
  | c :: l => if negb (env c =? 0) then ([c], Fatal (env c)) else let '(k, e) := cmd_exec env l fin in (c :: k, e)
  end.

(** [reply] is what nng_recv returns. *)
Definition client (env : cmd_call -> Z) (cmd url reply : bytes) : list cmd_call * cmd_end :=
  cmd_exec env [Req0Open; DialerCreate url; SetResend 2000; DialerStart; Send (cmd ++ [0]); Recv]
    (Printed (if 0 <? blen reply then reply ++ [10] else lit "no response from broker" ++ [10])).

(** The answer is printed exactly when the command was sent, with its NUL, and an
    answer was received. *)
Theorem cmd_client_prints env cmd url reply l text :
  client env cmd url reply = (l, Printed text) ->
  l = [Req0Open; DialerCreate url; SetResend 2000; DialerStart; Send (cmd ++ [0]); Recv] /\ env (Send (cmd ++ [0])) = 0 /\
  env Recv = 0 /\ (0 < blen reply -> text = reply ++ [10]).
Proof.
  unfold client. cbn [cmd_exec]. destruct (Z.eqb_spec (env Req0Open) 0); cbn [negb]; [|done].
  destruct (Z.eqb_spec (env (DialerCreate url)) 0); cbn [negb]; [|done].
  destruct (Z.eqb_spec (env DialerStart) 0); cbn [negb]; [|done].
  destruct (Z.eqb_spec (env (Send (cmd ++ [0]))) 0); cbn [negb]; [|done].
  destruct (Z.eqb_spec (env Recv) 0); cbn [negb]; [|done].
  intros [= <- <-]. split_and!; [done..|]. intros H. by rewrite (proj2 (Z.ltb_lt _ _) H).
Qed.

(** ** Signals *)

Inductive signal := SIGHUP | SIGQUIT | SIGTRAP | SIGIO | SIGABRT | SIGFPE | SIGILL | SIGINT | SIGSEGV | SIGTERM.

#[export] Instance signal_eq_dec : EqDecision signal.
Proof. solve_decision. Defined.

Definition all_signals : list signal := [SIGHUP; SIGQUIT; SIGTRAP; SIGIO; SIGABRT; SIGFPE; SIGILL; SIGINT; SIGSEGV; SIGTERM].

(** The do loop of broker(): the signals a handler is installed for; [None] is a
    read past the array. *)
Fixpoint install_loop (l : list signal) : option (list signal) :=
  match l with
  | [] => None
  | s :: l => if decide (s = SIGTERM) then Some [s] else k ← install_loop l; Some (s :: k)
  end.

(** The exit code, or [None] when the handler returns. *)
Definition sig_handler (s : signal) : option Z :=
  match s with
  | SIGINT | SIGABRT | SIGSEGV => Some 1
  | SIGILL | SIGTERM => Some 0
  | _ => None
  end.

(** The loop ends at the end of the array, with a handler for every signal. *)
Theorem signals_installed : install_loop all_signals = Some all_signals /\ NoDup all_signals.
Proof. split; [reflexivity|]. apply (bool_decide_unpack _). reflexivity. Qed.

(** An illegal instruction ends the broker with success, and after a division by
    zero the handler returns to the instruction that failed. *)
Theorem fatal_signals_reported : sig_handler SIGILL = Some 0 /\ sig_handler SIGFPE = None.
Proof. done. Qed.

End Services.
