(* ===== verification/RestApi.v ===== *)
(** * The HTTP interface: requests (nanomq/rest_api.c)

    [process_request] authorizes a request, splits its URI into path segments
    and parameters and calls a handler.  Handlers are named here, with the
    arguments they get; memory is available.  [None] is a loop that ran out of
    fuel, which the theorems exclude. *)

From S2P Require Import Prelude.

Module RestApi.

(** ** URIs *)

Definition REST_URI_ROOT : bytes := lit "/api/v4".

(** One segment of the path; [tr_end] marks the last. *)
Record tree := Tree { tr_node : bytes; tr_end : bool }.

(** One parameter. *)
Record kv := Kv { kv_key : bytes; kv_value : bytes }.

Record uri_content := UriContent { uc_sub_tree : list tree; uc_params : list kv }.

(** [while (NULL != (ret = strchr(str, c)))]: the pieces before each [c], and
    the string that is left. *)
Fixpoint split_loop (c : Z) (fuel : nat) (str : bytes) (pieces : list bytes) : option (list bytes * bytes) :=
  match strchr str c with
  | None => Some (pieces, str)
  | Some ret =>
      match fuel with
      | O => None
      | S fuel' => split_loop c fuel' (tail ret) (pieces ++ [take (length str - length ret) str])
      end
  end.

Definition uri_parse_tree (path : bytes) : option (list tree) :=
  match strstr path REST_URI_ROOT with
  | None => Some []
  | Some str =>
      let str := drop (length REST_URI_ROOT) str in
      '(pieces, str) ← split_loop 47 (length str) str [];
      let root := map (fun p => Tree p false) pieces in
      match pieces with
      | [] => Some root
      | _ =>
          if 0 <? blen str then Some (root ++ [Tree str true])
          else Some (removelast root ++ [Tree (tr_node (List.last root (Tree [] false))) true])
      end
  end.

(** The loop over the pieces "key=value". *)
Fixpoint params_loop (kv_str : list bytes) : list kv :=
  match kv_str with
  | [] => []
  | s :: kv_str' =>
      match strchr s 61 with
      | None => params_loop kv_str'
      | Some eq =>
          if bool_decide (length eq = length s) || bool_decide (tail eq = []) then params_loop kv_str'
          else Kv (take (length s - length eq) s) (tail eq) :: params_loop kv_str'
      end
  end.

Definition uri_param_parse (path : bytes) : option (list kv) :=
  '(pieces, str) ← split_loop 38 (length path) path [];
  match pieces, strchr str 61 with
  | [], None => Some []
  | _, _ => Some (params_loop (pieces ++ [str]))
  end.

Definition uri_parse (uri : bytes) : option uri_content :=
  if bool_decide (uri = REST_URI_ROOT) || bool_decide (uri = REST_URI_ROOT ++ [47]) then Some (UriContent [] [])
  else
    match strchr uri 63 with
    | Some p =>
        let param := tail p in
        params ← (if 3 <=? blen param then uri_param_parse param else Some []);
        sub_tree ← uri_parse_tree (take (length uri - length p) uri);
        Some (UriContent sub_tree params)
    | None => sub_tree ← uri_parse_tree uri; Some (UriContent sub_tree [])
    end.

(** ** Percent decoding *)

Definition hex_digit_of (c : Z) : option Z :=
  if (48 <=? c) && (c <=? 57) then Some (c - 48)
  else if (65 <=? c) && (c <=? 70) then Some (c - 55)
  else if (97 <=? c) && (c <=? 102) then Some (c - 87)
  else None.

(** [strtol(hex, NULL, 16)] of two characters: white space and a sign may
    come first, and the number ends at the first other character. *)
Definition strtol2 (a b : Z) : Z :=
  let blank c := (c =? 32) || ((9 <=? c) && (c <=? 13)) in
  match hex_digit_of a, hex_digit_of b with
  | Some x, Some y => 16 * x + y
  | Some x, None => x
  | None, Some y => if blank a || (a =? 43) then y else if a =? 45 then - y else 0
  | None, None => 0
  end.

Fixpoint url_loop (data : bytes) : bytes :=
  match data with
  | [] => []
  | 37 :: a :: b :: data' => u8 (strtol2 a b) :: url_loop data'
  | c :: data' => (if c =? 43 then 32 else c) :: url_loop data'
  end.

(** The bytes written to the buffer of strlen(data) + 1 bytes. *)
Definition URLDecoding (data : bytes) : bytes := url_loop data.

(** Percent encoding of every byte. *)
Definition hex_char (d : Z) : Z := if d <? 10 then 48 + d else 55 + d.
Definition pct_encode (s : bytes) : bytes := flat_map (fun b => [37; hex_char (b / 16); hex_char (b mod 16)]) s.

Lemma hex_digit_of_char d : 0 <= d < 16 -> hex_digit_of (hex_char d) = Some d.
Proof.
  intros Hd. unfold hex_char, hex_digit_of. destruct (Z.ltb_spec d 10).
  - destruct ((48 <=? 48 + d) && (48 + d <=? 57)) eqn:E; [f_equal; lia|lia].
  - destruct ((48 <=? 55 + d) && (55 + d <=? 57)) eqn:E; [lia|].
    destruct ((65 <=? 55 + d) && (55 + d <=? 70)) eqn:E'; [f_equal; lia|lia].
Qed.

(** Decoding restores every string of bytes from its percent encoding, and
    what is written never exceeds the string it is read from, so it fits the
    buffer. *)
Theorem url_decoding_correct s : bytes_ok s ->
  URLDecoding (pct_encode s) = s /\ forall data, (length (URLDecoding data) <= length data)%nat.
Proof.
  intros Hok. split.
  - unfold URLDecoding. induction Hok as [|b s Hb _ IH]; [done|]. unfold byte_ok in Hb.
    change (pct_encode (b :: s)) with (37 :: hex_char (b / 16) :: hex_char (b mod 16) :: pct_encode s).
    change (url_loop (37 :: hex_char (b / 16) :: hex_char (b mod 16) :: pct_encode s))
      with (u8 (strtol2 (hex_char (b / 16)) (hex_char (b mod 16))) :: url_loop (pct_encode s)).
    rewrite IH. f_equal. unfold strtol2. pose proof (Z.mod_pos_bound b 16 ltac:(lia)).
    assert (0 <= b / 16 < 16) by (split; [apply Z.div_pos; lia|apply Z.div_lt_upper_bound; lia]).
    rewrite !hex_digit_of_char by done. rewrite <- Z.div_mod by lia. apply u8_small. lia.
  - intros data. unfold URLDecoding. induction data as [data IH] using (induction_ltof1 _ (@length Z)). unfold ltof in IH.
    destruct data as [|c data]; [done|]. assert (length (url_loop data) <= length data)%nat as H1 by (apply IH; cbn; lia).
    destruct (decide (c = 37)) as [->|Hc].
    + destruct data as [|a [|b data]]; [cbn; lia|change (url_loop [37; a]) with (37 :: url_loop [a]); cbn [length] in *; lia|].
      assert (length (url_loop data) <= length data)%nat by (apply IH; cbn; lia).
      change (url_loop (37 :: a :: b :: data)) with (u8 (strtol2 a b) :: url_loop data). cbn [length]. lia.
    + assert (url_loop (c :: data) = (if c =? 43 then 32 else c) :: url_loop data) as ->.
      { cbn [url_loop]. destruct c as [|c|c]; try done.
        do 6 (destruct c as [c|c|]; try done). }
      cbn [length]. lia.
Qed.

(** ** Authorization *)

Definition SUCCEED : Z := 0.
Definition UNKNOWN_MISTAKE : Z := 102.
Definition WRONG_USERNAME_OR_PASSWORD : Z := 103.
Definition EMPTY_USERNAME_OR_PASSWORD : Z := 104.
Definition REQ_PARAM_ERROR : Z := 108.

Inductive http_auth_type := BASIC | JWT | NO_AUTH.

Record conf_http_server := ConfHttpServer {
  hs_auth_type : http_auth_type;
  hs_username : bytes;
  hs_password : bytes
}.

(** What process_request reads of an http_msg; a string that is NULL is [None]. *)
Record http_msg := HttpMsg {
  hm_method : bytes;
  hm_uri : option bytes;
  hm_token : option bytes
}.

(** ** Splitting *)

Lemma strchr_app c pre post : (c ∉ pre) -> strchr (pre ++ c :: post) c = Some (c :: post).
Proof.
  induction pre as [|a pre IH]; intros Hn; cbn; [by rewrite Z.eqb_refl|].
  apply not_elem_of_cons in Hn as [Hne Hn]. rewrite (proj2 (Z.eqb_neq a c)) by congruence. by apply IH.
Qed.

Lemma take_before (pre post : bytes) : take (length (pre ++ post) - length post) (pre ++ post) = pre.
Proof. rewrite length_app, Nat.add_sub. apply take_app_length. Qed.

Lemma split_loop_pieces c ps rest fuel acc :
  Forall (fun p => c ∉ p) ps -> (c ∉ rest) -> (length ps <= fuel)%nat ->
  split_loop c fuel (concat (map (fun p => p ++ [c]) ps) ++ rest) acc = Some (acc ++ ps, rest).
Proof.
  intros Hps Hrest. revert fuel acc. induction Hps as [|p ps Hp _ IH]; intros fuel acc Hf.
  - cbn [map concat app]. rewrite app_nil_r. destruct fuel; cbn; by rewrite (proj2 (strchr_None rest c) Hrest).
  - destruct fuel as [|fuel]; [cbn in Hf; lia|]. cbn [map concat split_loop].
    replace (((p ++ [c]) ++ concat (map (fun p => p ++ [c]) ps)) ++ rest)
      with (p ++ c :: (concat (map (fun p => p ++ [c]) ps) ++ rest)) by by rewrite <- !app_assoc.
    rewrite strchr_app by done. rewrite take_before. cbn [tail].
    rewrite IH by (cbn in Hf; lia). by rewrite <- app_assoc.
Qed.

Lemma pieces_length c (ps : list bytes) : (length ps <= length (concat (map (fun p => p ++ [c]) ps)))%nat.
Proof. induction ps as [|p ps IH]; [done|]. cbn. rewrite !length_app. cbn. lia. Qed.

(** Each turn consumes a character, so the length is fuel enough. *)
Lemma split_loop_total c fuel str acc : (length str <= fuel)%nat ->
  exists pieces rest, split_loop c fuel str acc = Some (acc ++ pieces, rest).
Proof.
  revert str acc. induction fuel as [|fuel IH]; intros str acc Hl; cbn [split_loop];
    destruct (strchr str c) as [t|] eqn:E.
  - apply strchr_Some in E as (pre & post & -> & -> & _). rewrite length_app in Hl. cbn in Hl. lia.
  - exists [], str. by rewrite app_nil_r.
  - apply strchr_Some in E as (pre & post & -> & -> & _). rewrite length_app in Hl. cbn in Hl.
    destruct (IH post (acc ++ [take (length (pre ++ c :: post) - length (c :: post)) (pre ++ c :: post)])) as (ps & r & E); [lia|].
    exists (take (length (pre ++ c :: post) - length (c :: post)) (pre ++ c :: post) :: ps), r.
    cbn [tail]. rewrite E. by rewrite <- app_assoc.
  - exists [], str. by rewrite app_nil_r.
Qed.

Lemma uri_parse_tree_total path : exists t, uri_parse_tree path = Some t.
Proof.
  unfold uri_parse_tree. destruct (strstr path REST_URI_ROOT) as [s|]; [|by eexists].
  destruct (split_loop_total 47 (length (drop (length REST_URI_ROOT) s)) (drop (length REST_URI_ROOT) s) []) as (ps & r & E); [done|].
  rewrite E. cbn [mbind option_bind app]. destruct ps; [by eexists|]. destruct (0 <? blen r); by eexists.
Qed.

Lemma uri_param_parse_total path : exists ps, uri_param_parse path = Some ps.
Proof.
  unfold uri_param_parse. destruct (split_loop_total 38 (length path) path []) as (ps & r & E); [done|].
  rewrite E. cbn [mbind option_bind app]. destruct ps, (strchr r 61); by eexists.
Qed.

(** Parsing always ends, whatever the URI. *)
Lemma uri_parse_total uri : exists u, uri_parse uri = Some u.
Proof.
  unfold uri_parse. destruct (_ || _); [by eexists|]. destruct (strchr uri 63) as [p|].
  - destruct (uri_param_parse_total (tail p)) as [ps Ep].
    destruct (uri_parse_tree_total (take (length uri - length p) uri)) as [t Et].
    destruct (3 <=? blen (tail p)); rewrite ?Ep; cbn [mbind option_bind]; rewrite Et; by eexists.
  - destruct (uri_parse_tree_total uri) as [t ->]. by eexists.
Qed.

(** ** Printing a URI and parsing it *)

Definition print_kv (p : kv) : bytes := kv_key p ++ [61] ++ kv_value p.

Fixpoint print_params (ps : list kv) : bytes :=
  match ps with
  | [] => []
  | [p] => print_kv p
  | p :: ps' => print_kv p ++ [38] ++ print_params ps'
  end.

Definition print_uri (segs : list bytes) (params : list kv) : bytes :=
  REST_URI_ROOT ++ concat (map (fun s => [47] ++ s) segs) ++
  match params with [] => [] | _ => [63] ++ print_params params end.

Definition seg_ok (s : bytes) : Prop := s <> [] /\ (47 ∉ s) /\ (63 ∉ s).

Definition kv_ok (p : kv) : Prop :=
  kv_key p <> [] /\ (61 ∉ kv_key p) /\ (38 ∉ kv_key p) /\ kv_value p <> [] /\ (38 ∉ kv_value p).

(** The segments as nodes: an empty one before the first slash, the last one
    marked. *)
Definition nodes_of (segs : list bytes) : list tree :=
  map (fun p => Tree p false) ([] :: removelast segs) ++ [Tree (List.last segs []) true].

Lemma segs_pieces segs : segs <> [] ->
  concat (map (fun s => [47] ++ s) segs) =
  concat (map (fun p => p ++ [47]) ([] :: removelast segs)) ++ List.last segs [].
Proof.
  induction segs as [|s segs IH]; intros Hne; [done|]. destruct segs as [|s' segs]; [cbn; by rewrite app_nil_r|].
  change (concat (map (fun s0 => [47] ++ s0) (s :: s' :: segs))) with
    (([47] ++ s) ++ concat (map (fun s0 => [47] ++ s0) (s' :: segs))).
  rewrite IH by done. change (removelast (s :: s' :: segs)) with (s :: removelast (s' :: segs)).
  cbn [map concat app]. change (List.last (s :: s' :: segs) []) with (List.last (s' :: segs) []).
  by rewrite <- !app_assoc.
Qed.

Lemma removelast_Forall {A} (P : A -> Prop) l : Forall P l -> Forall P (removelast l).
Proof.
  induction 1 as [|a l Ha Hl IH]; [constructor|]. destruct l; [constructor|].
  change (removelast (a :: a0 :: l)) with (a :: removelast (a0 :: l)). by constructor.
Qed.

Lemma last_Forall {A} (P : A -> Prop) l d : Forall P l -> l <> [] -> P (List.last l d).
Proof. induction 1 as [|a l Ha Hl IH]; [done|]. intros _. destruct l; [done|]. by apply IH. Qed.

Lemma uri_parse_tree_print segs : segs <> [] -> Forall seg_ok segs ->
  uri_parse_tree (REST_URI_ROOT ++ concat (map (fun s => [47] ++ s) segs)) = Some (nodes_of segs).
Proof.
  intros Hne Hok. unfold uri_parse_tree.
  assert (strstr (REST_URI_ROOT ++ concat (map (fun s => [47] ++ s) segs)) REST_URI_ROOT
    = Some (REST_URI_ROOT ++ concat (map (fun s => [47] ++ s) segs))) as ->.
  { destruct (REST_URI_ROOT ++ concat (map (fun s => [47] ++ s) segs)) eqn:E; [done|]. rewrite <- E. cbn [strstr].
    assert (is_prefix REST_URI_ROOT (REST_URI_ROOT ++ concat (map (fun s => [47] ++ s) segs)) = true) as Hp
      by (apply is_prefix_spec; by eexists).
    unfold strstr. rewrite E in Hp |- *. by rewrite Hp. }
  rewrite drop_app_length, segs_pieces by done.
  assert (Forall (fun p => 47 ∉ p) ([] :: removelast segs)) as Hps.
  { constructor; [apply not_elem_of_nil|]. apply removelast_Forall. eapply Forall_impl; [exact Hok|]. by intros s (_ & ? & _). }
  destruct (last_Forall seg_ok segs [] Hok Hne) as (Hl1 & Hl2 & _).
  rewrite split_loop_pieces; [|done|done|].
  - cbn [mbind option_bind app]. unfold blen. destruct (List.last segs []) as [|c l] eqn:El; [done|].
    unfold nodes_of. by rewrite El.
  - rewrite length_app. pose proof (pieces_length 47 ([] :: removelast segs)). lia.
Qed.

Lemma print_params_pieces ps : ps <> [] ->
  print_params ps = concat (map (fun p => p ++ [38]) (map print_kv (removelast ps))) ++
    print_kv (List.last ps (Kv [] [])).
Proof.
  induction ps as [|p ps IH]; intros Hne; [done|]. destruct ps as [|p' ps]; [done|].
  change (print_params (p :: p' :: ps)) with (print_kv p ++ [38] ++ print_params (p' :: ps)).
  rewrite IH by done. change (removelast (p :: p' :: ps)) with (p :: removelast (p' :: ps)).
  cbn [map concat]. change (List.last (p :: p' :: ps) (Kv [] [])) with (List.last (p' :: ps) (Kv [] [])).
  by rewrite <- !app_assoc.
Qed.

Lemma print_kv_amp p : kv_ok p -> 38 ∉ print_kv p.
Proof.
  intros (_ & _ & H1 & _ & H2). unfold print_kv. rewrite !not_elem_of_app. split; [done|]. split; [|done].
  apply not_elem_of_cons. split; [done|apply not_elem_of_nil].
Qed.

Lemma params_loop_print ps : Forall kv_ok ps -> params_loop (map print_kv ps) = ps.
Proof.
  induction 1 as [|[k v] ps (H1 & H2 & _ & H4 & _) _ IH]; [done|]. cbn [map params_loop kv_key kv_value] in *.
  unfold print_kv at 1. cbn [kv_key kv_value app]. rewrite strchr_app by done.
  assert (length (61 :: v) <> length (k ++ 61 :: v)) as Hlen.
  { rewrite length_app. destruct k; [done|]. cbn. lia. }
  rewrite (bool_decide_eq_false_2 _ Hlen), (bool_decide_eq_false_2 _ H4). cbn [orb].
  unfold print_kv at 1 2. cbn [kv_key kv_value app]. by rewrite take_before, IH.
Qed.

Lemma uri_param_parse_print ps : ps <> [] -> Forall kv_ok ps -> uri_param_parse (print_params ps) = Some ps.
Proof.
  intros Hne Hok. unfold uri_param_parse. rewrite print_params_pieces by done.
  pose proof (last_Forall kv_ok ps (Kv [] []) Hok Hne) as Hlast.
  rewrite split_loop_pieces; [| |by apply print_kv_amp|].
  - cbn [mbind option_bind app].
    assert (strchr (print_kv (List.last ps (Kv [] []))) 61 <> None) as Heq.
    { destruct Hlast as (_ & H2 & _). unfold print_kv. cbn [app]. by rewrite strchr_app. }
    assert (map print_kv (removelast ps) ++ [print_kv (List.last ps (Kv [] []))] = map print_kv ps) as E.
    { rewrite (app_removelast_last (Kv [] []) Hne) at 3. by rewrite map_app. }
    rewrite E. destruct (strchr (print_kv _) 61); [|done].
    destruct (map print_kv (removelast ps)); by rewrite params_loop_print.
  - apply Forall_forall. intros x Hx. apply list_elem_of_fmap in Hx as (p & -> & Hp).
    apply print_kv_amp. apply (proj1 (Forall_forall _ _) (removelast_Forall _ _ Hok) p Hp).
  - rewrite length_app. pose proof (pieces_length 38 (map print_kv (removelast ps))). lia.
Qed.

Lemma print_params_length ps : ps <> [] -> Forall kv_ok ps -> 3 <= blen (print_params ps).
Proof.
  intros Hne Hok. rewrite print_params_pieces by done.
  destruct (last_Forall kv_ok ps (Kv [] []) Hok Hne) as (H1 & _ & _ & H2 & _).
  unfold print_kv, blen. rewrite !length_app. destruct (kv_key _), (kv_value _); try done. cbn [length]. lia.
Qed.

(** A URI below the root, printed from its segments and parameters, parses back
    to them. *)
Lemma uri_parse_print segs params :
  segs <> [] -> Forall seg_ok segs -> Forall kv_ok params ->
  uri_parse (print_uri segs params) = Some (UriContent (nodes_of segs) params).
Proof.
  intros Hne Hsegs Hps. unfold uri_parse, print_uri. rewrite app_assoc.
  set (path := REST_URI_ROOT ++ concat (map (fun s => [47] ++ s) segs)).
  assert (9 <= blen path) as Hlen.
  { destruct segs as [|s segs]; [done|]. apply Forall_cons in Hsegs as [(Hs & _) _]. unfold path.
    rewrite blen_app. cbn [map concat]. rewrite !blen_app. destruct s; [done|]. rewrite blen_cons.
    pose proof (blen_nonneg s). pose proof (blen_nonneg (concat (map (fun s0 => [47] ++ s0) segs))).
    rewrite blen_cons. change (blen REST_URI_ROOT) with 7. change (blen (A := Z) []) with 0. lia. }
  assert (forall x y, blen (A := Z) x < 9 -> bool_decide (path ++ y = x) = false) as Hno.
  { intros x y Hx. apply bool_decide_eq_false. intros E. apply (f_equal blen) in E. rewrite blen_app in E.
    pose proof (blen_nonneg y). lia. }
  rewrite !Hno by done. cbn [orb].
  assert (63 ∉ path) as Hq.
  { unfold path. rewrite not_elem_of_app. split; [by apply (bool_decide_unpack _); vm_compute|].
    clear -Hsegs. induction Hsegs as [|s segs (_ & _ & Hs) _ IH]; [apply not_elem_of_nil|].
    cbn [map concat]. rewrite !not_elem_of_app. split; [|done]. split; [|done].
    apply not_elem_of_cons. split; [done|apply not_elem_of_nil]. }
  destruct params as [|p params].
  - rewrite app_nil_r, (proj2 (strchr_None path 63) Hq). unfold path. by rewrite uri_parse_tree_print.
  - cbn [app]. rewrite strchr_app by done. cbn [tail]. rewrite take_before.
    pose proof (print_params_length (p :: params) ltac:(done) Hps) as H3.
    rewrite (proj2 (Z.leb_le 3 _) H3), uri_param_parse_print by done. cbn [mbind option_bind].
    unfold path. by rewrite uri_parse_tree_print.
Qed.

Section Requests.

(** Of the library: base64_decode, which writes into [decode], and
    nng_strcasecmp. *)
Context (base64_decode : bytes -> bytes) (nng_strcasecmp : bytes -> bytes -> Z).

(** [decode] after the call and [decode[decode_len - 1] = 0]. *)
Definition decode_buffer (token : bytes) : bytes :=
  let decode_len := (length token * 6 / 8 + 1)%nat in
  take (decode_len - 1) (base64_decode token ++ repeat 0 decode_len) ++ [0].

(** [get_http_server_conf] returns the pointer that [set_http_server_conf] was
    given at the start, &conf->http_server, which is also what the workers have:
    [server] is the [hconfig] of [process_request].  Its memory is allocated here;
    without it the result is UNKNOWN_MISTAKE, and the request is refused. *)
Definition basic_authorize (msg : http_msg) (server : conf_http_server) : Z :=
  match hm_token msg with
  | None => EMPTY_USERNAME_OR_PASSWORD
  | Some token =>
      if (blen token <=? 6) || negb (strncmp0 token (lit "Basic ") 6) then EMPTY_USERNAME_OR_PASSWORD
      else
        let b64_token := drop 6 token in
        if blen b64_token <? 4 then WRONG_USERNAME_OR_PASSWORD
        else
          let auth := hs_username server ++ [58] ++ hs_password server in
          if negb (strcmp0 auth (c_str (decode_buffer b64_token))) then WRONG_USERNAME_OR_PASSWORD
          else SUCCEED
  end.

(** Without SUPP_JWT *)
Definition jwt_authorize (msg : http_msg) : Z := REQ_PARAM_ERROR.

(** ** Handlers *)

Inductive handler :=
  | get_endpoints | get_brokers | get_nodes
  | get_prometheus (params : list kv) | get_metrics (params : list kv)
  | get_clients (params : list kv) (client_id username : option bytes)
  | get_subscriptions (params : list kv) (client_id : option bytes)
  | get_rules (params : list kv) (id : option bytes)
  | get_tree | show_reload_config | get_config (type : option bytes) | get_mqtt_bridge (name : option bytes)
  | get_file_content (path : option bytes)
  | post_ctrl (type : bytes) | post_reload_config | post_config (type : option bytes) | update_config
  | write_file | post_rules | post_mqtt_msg | post_mqtt_bridge_sub (name : bytes)
  | post_mqtt_bridge_unsub (name : bytes) | post_mqtt_msg_batch | put_mqtt_bridge_switch (name : bytes)
  | put_rules (params : list kv) (id : bytes) | put_mqtt_bridge (name : bytes)
  | delete_rules (params : list kv) (id : bytes).

(** A handler's answer, an empty one, or error_response. *)
Inductive response := Handled (h : handler) | Empty | Error (status code : Z).

Definition NNG_HTTP_STATUS_OK : Z := 200.
Definition NNG_HTTP_STATUS_UNAUTHORIZED : Z := 401.
Definition NNG_HTTP_STATUS_NOT_FOUND : Z := 404.
Definition NNG_HTTP_STATUS_METHOD_NOT_ALLOWED : Z := 405.

Definition not_found : response := Error NNG_HTTP_STATUS_NOT_FOUND UNKNOWN_MISTAKE.

(** [uri_ct->sub_count == n && sub_tree[n-1]->end] *)
Definition ends_at (t : list tree) (n : nat) : bool :=
  bool_decide (length t = n) && tr_end (nth (n - 1) t (Tree [] false)).

(** [strcmp(sub_tree[i]->node, s) == 0] *)
Definition node_is (t : list tree) (i : nat) (s : bytes) : bool := strcmp0 (tr_node (nth i t (Tree [] false))) s.

Definition node_at (t : list tree) (i : nat) : bytes := tr_node (nth i t (Tree [] false)).

(** The loop over the parameters of get_file *)
Fixpoint get_file_loop (params : list kv) : response :=
  match params with
  | [] => Empty
  | p :: params' =>
      if strcmp0 (kv_key p) (lit "default") then
        if strcmp0 (kv_value p) (lit "true") then Handled (get_file_content None) else get_file_loop params'
      else if strncmp0 (kv_key p) (lit "path") 4
      then Handled (get_file_content (Some (c_str (URLDecoding (kv_value p)))))
      else get_file_loop params'
  end.

Definition route_get (u : uri_content) : response :=
  let t := uc_sub_tree u in
  let params := uc_params u in
  if bool_decide (length t = 0%nat) then Handled get_endpoints
  else if ends_at t 2 && node_is t 1 (lit "brokers") then Handled get_brokers
  else if ends_at t 2 && node_is t 1 (lit "nodes") then Handled get_nodes
  else if ends_at t 2 && node_is t 1 (lit "prometheus") then Handled (get_prometheus params)
  else if ends_at t 2 && node_is t 1 (lit "metrics") then Handled (get_metrics params)
  else if ends_at t 2 && node_is t 1 (lit "clients") then Handled (get_clients params None None)
  else if ends_at t 3 && node_is t 1 (lit "clients") then Handled (get_clients params (Some (node_at t 2)) None)
  else if ends_at t 4 && node_is t 1 (lit "clients") && node_is t 2 (lit "username")
  then Handled (get_clients params None (Some (node_at t 3)))
  else if ends_at t 2 && node_is t 1 (lit "subscriptions") then Handled (get_subscriptions params None)
  else if ends_at t 3 && node_is t 1 (lit "subscriptions")
  then Handled (get_subscriptions params (Some (node_at t 2)))
  else if ends_at t 2 && node_is t 1 (lit "rules") then Handled (get_rules params None)
  else if ends_at t 3 && node_is t 1 (lit "rules") then Handled (get_rules params (Some (node_at t 2)))
  else if ends_at t 2 && node_is t 1 (lit "topic-tree") then Handled get_tree
  else if ends_at t 2 && node_is t 1 (lit "reload") then Handled show_reload_config
  else if ends_at t 2 && node_is t 1 (lit "configuration") then Handled (get_config None)
  else if ends_at t 3 && node_is t 1 (lit "configuration") then Handled (get_config (Some (node_at t 2)))
  else if ends_at t 2 && node_is t 1 (lit "bridges") then Handled (get_mqtt_bridge None)
  else if ends_at t 3 && node_is t 1 (lit "bridges") then Handled (get_mqtt_bridge (Some (node_at t 2)))
  else if ends_at t 2 && node_is t 1 (lit "get_file") then get_file_loop params
  else not_found.

Definition route_post (u : uri_content) : response :=
  let t := uc_sub_tree u in
  if ends_at t 3 && node_is t 1 (lit "ctrl") then Handled (post_ctrl (node_at t 2))
  else if ends_at t 2 && node_is t 1 (lit "reload") then Handled post_reload_config
  else if ends_at t 2 && node_is t 1 (lit "configuration") then Handled (post_config None)
  else if ends_at t 2 && node_is t 1 (lit "config_update") then Handled update_config
  else if ends_at t 2 && node_is t 1 (lit "write_file") then Handled write_file
  else if ends_at t 3 && node_is t 1 (lit "configuration") then Handled (post_config (Some (node_at t 2)))
  else if ends_at t 2 && node_is t 1 (lit "rules") then Handled post_rules
  else if ends_at t 3 && node_is t 1 (lit "mqtt") && node_is t 2 (lit "publish") then Handled post_mqtt_msg
  else if ends_at t 4 && node_is t 1 (lit "bridges") && node_is t 2 (lit "sub")
  then Handled (post_mqtt_bridge_sub (node_at t 3))
  else if ends_at t 4 && node_is t 1 (lit "bridges") && node_is t 2 (lit "unsub")
  then Handled (post_mqtt_bridge_unsub (node_at t 3))
  else if ends_at t 3 && node_is t 1 (lit "mqtt") && node_is t 2 (lit "publish_batch")
  then Handled post_mqtt_msg_batch
  else if ends_at t 4 && node_is t 2 (lit "switch") && node_is t 1 (lit "bridges")
  then Handled (put_mqtt_bridge_switch (node_at t 3))
  else not_found.

Definition route_put (u : uri_content) : response :=
  let t := uc_sub_tree u in
  if ends_at t 3 && node_is t 1 (lit "rules") then Handled (put_rules (uc_params u) (node_at t 2))
  else if ends_at t 3 && node_is t 1 (lit "bridges") then Handled (put_mqtt_bridge (node_at t 2))
  else not_found.

Definition route_delete (u : uri_content) : response :=
  let t := uc_sub_tree u in
  if ends_at t 3 && node_is t 1 (lit "rules") then Handled (delete_rules (uc_params u) (node_at t 2))
  else not_found.

Definition route (method : bytes) (u : uri_content) : response :=
  if nng_strcasecmp method (lit "GET") =? 0 then route_get u
  else if nng_strcasecmp method (lit "POST") =? 0 then route_post u
  else if nng_strcasecmp method (lit "PUT") =? 0 then route_put u
  else if nng_strcasecmp method (lit "DELETE") =? 0 then route_delete u
  else Error NNG_HTTP_STATUS_METHOD_NOT_ALLOWED UNKNOWN_MISTAKE.

Definition process_request (msg : http_msg) (hconfig : conf_http_server) : option response :=
  let code := match hs_auth_type hconfig with
    | BASIC => basic_authorize msg hconfig
    | JWT => jwt_authorize msg
    | NO_AUTH => SUCCEED
    end in
  if negb (code =? SUCCEED) then Some (Error NNG_HTTP_STATUS_UNAUTHORIZED code)
  else
    match hm_uri msg with
    | None => Some (Error NNG_HTTP_STATUS_OK SUCCEED)
    | Some uri => u ← uri_parse uri; Some (route (hm_method msg) u)
    end.

(** Every request is answered: the loops over its URI and parameters end for
    every input, so a handler is chosen, or an error is returned. *)
Theorem process_request_total msg hconfig : exists r, process_request msg hconfig = Some r.
Proof.
  unfold process_request. destruct (negb _); [by eexists|]. destruct (hm_uri msg) as [uri|]; [|by eexists].
  destruct (uri_parse_total uri) as [u ->]. by eexists.
Qed.

(** ** Who is served *)

Lemma basic_authorize_succeeds msg server :
  basic_authorize msg server = SUCCEED ->
  exists b64, hm_token msg = Some (lit "Basic " ++ b64) /\ 4 <= blen b64 /\
    c_str (decode_buffer b64) = hs_username server ++ [58] ++ hs_password server.
Proof.
  unfold basic_authorize. intros Ha. destruct (hm_token msg) as [token|]; [|done].
  destruct (blen token <=? 6) eqn:Hl; [done|]. cbn [orb] in Ha.
  destruct (strncmp0 token (lit "Basic ") 6) eqn:Hb; [|done]. cbn [negb] in Ha.
  destruct (Z.ltb_spec (blen (drop 6 token)) 4) as [|H4]; [done|].
  destruct (strcmp0 _ _) eqn:Hs; [|done]. apply bool_decide_eq_true in Hb, Hs.
  exists (drop 6 token). split; [|by split]. f_equal. rewrite <- (take_drop 6 token) at 1. f_equal. exact Hb.
Qed.

(** A handler runs only for an authorized request: with basic authentication
    the token decodes to the configured user name and password, and with JWT,
    which is compiled out, no request is served. *)
Theorem handled_authorized msg hconfig r :
  process_request msg hconfig = Some r -> (forall status code, r <> Error status code) ->
  match hs_auth_type hconfig with
  | BASIC => exists b64, hm_token msg = Some (lit "Basic " ++ b64) /\ 4 <= blen b64 /\
      c_str (decode_buffer b64) = hs_username hconfig ++ [58] ++ hs_password hconfig
  | JWT => False
  | NO_AUTH => True
  end.
Proof.
  intros E Hr. unfold process_request in E. destruct (hs_auth_type hconfig); [| |done].
  - destruct (Z.eqb_spec (basic_authorize msg hconfig) SUCCEED) as [Ha|Ha]; cbn [negb] in E;
      [|injection E as <-; by destruct (Hr NNG_HTTP_STATUS_UNAUTHORIZED (basic_authorize msg hconfig))].
    by apply basic_authorize_succeeds.
  - cbn [negb Z.eqb] in E. injection E as <-. by destruct (Hr NNG_HTTP_STATUS_UNAUTHORIZED REQ_PARAM_ERROR).
Qed.

Lemma c_str_app (t rest : bytes) : (0 ∉ t) -> c_str (t ++ 0 :: rest) = t.
Proof.
  induction t as [|b t IH]; intros Hn; [done|]. apply not_elem_of_cons in Hn as [Hb Hn]. cbn.
  rewrite (proj2 (Z.eqb_neq b 0)) by congruence. by rewrite IH.
Qed.

Section Client.

(** What the client encodes with. *)
Context (base64_encode : bytes -> bytes)
  (base64_inverse : forall t, base64_decode (base64_encode t) = t)
  (base64_room : forall t, (length t <= length (base64_encode t) * 6 / 8)%nat).

Lemma decode_buffer_encode t : (0 ∉ t) -> c_str (decode_buffer (base64_encode t)) = t.
Proof.
  intros Hn. unfold decode_buffer. rewrite base64_inverse.
  pose proof (base64_room t) as Hr. set (n := (length (base64_encode t) * 6 / 8)%nat) in *.
  rewrite Nat.add_sub, take_app_ge, <- app_assoc by lia.
  destruct (n - length t)%nat as [|k] eqn:Ek; [rewrite take_0; by apply (c_str_app t [])|].
  rewrite Nat.add_1_r. cbn [repeat take app]. by apply c_str_app.
Qed.

(** C26. The right user name and password open the interface, and the request is
    routed by the segments and parameters of its URI. *)
Theorem authorized_routed hconfig method segs params :
  let auth := hs_username hconfig ++ [58] ++ hs_password hconfig in
  hs_auth_type hconfig = BASIC -> (0 ∉ auth) -> 4 <= blen (base64_encode auth) ->
  segs <> [] -> Forall seg_ok segs -> Forall kv_ok params ->
  process_request (HttpMsg method (Some (print_uri segs params)) (Some (lit "Basic " ++ base64_encode auth))) hconfig
    = Some (route method (UriContent (nodes_of segs) params)).
Proof.
  intros auth Hb Hn H4 Hne Hs Hp. unfold process_request. rewrite Hb.
  assert (basic_authorize (HttpMsg method (Some (print_uri segs params)) (Some (lit "Basic " ++ base64_encode auth)))
    hconfig = SUCCEED) as ->.
  { unfold basic_authorize. cbn [hm_token]. rewrite blen_app. change (blen (lit "Basic ")) with 6.
    replace (6 + blen (base64_encode auth) <=? 6) with false by lia.
    assert (strncmp0 (lit "Basic " ++ base64_encode auth) (lit "Basic ") 6 = true) as ->
      by (unfold strncmp0; by apply bool_decide_eq_true).
    change (drop 6 (lit "Basic " ++ base64_encode auth)) with (base64_encode auth). cbn [orb negb].
    replace (blen (base64_encode auth) <? 4) with false by lia.
    rewrite decode_buffer_encode by done. unfold strcmp0. by rewrite bool_decide_eq_true_2. }
  cbn [negb Z.eqb SUCCEED hm_uri]. rewrite uri_parse_print by done. done.
Qed.

End Client.

(** ** Routes *)

(** The resources that GET knows, by the segments below the root. *)
Definition get_table (params : list kv) (segs : list bytes) : response :=
  match segs with
  | [] => Handled get_endpoints
  | [s] =>
      if bool_decide (s = lit "brokers") then Handled get_brokers
      else if bool_decide (s = lit "nodes") then Handled get_nodes
      else if bool_decide (s = lit "prometheus") then Handled (get_prometheus params)
      else if bool_decide (s = lit "metrics") then Handled (get_metrics params)
      else if bool_decide (s = lit "clients") then Handled (get_clients params None None)
      else if bool_decide (s = lit "subscriptions") then Handled (get_subscriptions params None)
      else if bool_decide (s = lit "rules") then Handled (get_rules params None)
      else if bool_decide (s = lit "topic-tree") then Handled get_tree
      else if bool_decide (s = lit "reload") then Handled show_reload_config
      else if bool_decide (s = lit "configuration") then Handled (get_config None)
      else if bool_decide (s = lit "bridges") then Handled (get_mqtt_bridge None)
      else if bool_decide (s = lit "get_file") then get_file_loop params
      else not_found
  | [s; x] =>
      if bool_decide (s = lit "clients") then Handled (get_clients params (Some x) None)
      else if bool_decide (s = lit "subscriptions") then Handled (get_subscriptions params (Some x))
      else if bool_decide (s = lit "rules") then Handled (get_rules params (Some x))
      else if bool_decide (s = lit "configuration") then Handled (get_config (Some x))
      else if bool_decide (s = lit "bridges") then Handled (get_mqtt_bridge (Some x))
      else not_found
  | [s; x; y] =>
      if bool_decide (s = lit "clients") && bool_decide (x = lit "username") then Handled (get_clients params None (Some y))
      else not_found
  | _ => not_found
  end.

Lemma nodes_of_length segs : length (nodes_of segs) = S (S (length (removelast segs))).
Proof. unfold nodes_of. rewrite length_app, length_map. cbn [length]. lia. Qed.

Lemma ends_at_other segs n : n <> S (S (length (removelast segs))) -> ends_at (nodes_of segs) n = false.
Proof. intros Hn. unfold ends_at. rewrite nodes_of_length. by rewrite bool_decide_eq_false_2. Qed.

Lemma node_is_decide t i s : node_is t i s = bool_decide (node_at t i = s).
Proof. done. Qed.

(** The chain of comparisons for GET is that table. *)
Theorem route_get_table segs params : segs <> [] ->
  route_get (UriContent (nodes_of segs) params) = get_table params segs.
Proof.
  intros Hne. unfold route_get. cbn [uc_sub_tree uc_params]. rewrite nodes_of_length. cbn [bool_decide decide decide_rel].
  destruct segs as [|s [|x [|y l]]]; [done|..].
  - rewrite (ends_at_other [s] 3), (ends_at_other [s] 4) by done. change (ends_at (nodes_of [s]) 2) with true.
    cbn [andb]. rewrite !node_is_decide. change (node_at (nodes_of [s]) 1) with s. done.
  - rewrite (ends_at_other [s; x] 2), (ends_at_other [s; x] 4) by done. change (ends_at (nodes_of [s; x]) 3) with true.
    cbn [andb]. rewrite !node_is_decide. change (node_at (nodes_of [s; x]) 1) with s.
    change (node_at (nodes_of [s; x]) 2) with x. done.
  - rewrite (ends_at_other (s :: x :: y :: l) 2), (ends_at_other (s :: x :: y :: l) 3) by done. cbn [andb].
    destruct l as [|z l].
    + change (ends_at (nodes_of [s; x; y]) 4) with true. rewrite !node_is_decide.
      change (node_at (nodes_of [s; x; y]) 1) with s. change (node_at (nodes_of [s; x; y]) 2) with x.
      change (node_at (nodes_of [s; x; y]) 3) with y. cbn [andb]. done.
    + rewrite (ends_at_other (s :: x :: y :: z :: l) 4) by done. done.
Qed.

End Requests.

(** ** Requests *)

Section Witness.

Definition admin : conf_http_server := ConfHttpServer BASIC (lit "admin") (lit "public").

(** The identity in place of the encoding, with padding to keep its length
    rule. *)
Definition pad_encode (t : bytes) : bytes := t ++ repeat 61 (length t).
Definition pad_decode (t : bytes) : bytes := take (length t / 2) t.

Lemma pad_inverse t : pad_decode (pad_encode t) = t.
Proof.
  unfold pad_decode, pad_encode. rewrite length_app, repeat_length.
  replace ((length t + length t) / 2)%nat with (length t)
    by (replace (length t + length t)%nat with (length t * 2)%nat by lia; by rewrite Nat.div_mul).
  apply take_app_length.
Qed.

Lemma pad_room t : (length t <= length (pad_encode t) * 6 / 8)%nat.
Proof.
  unfold pad_encode. rewrite length_app, repeat_length. apply Nat.div_le_lower_bound; lia.
Qed.

Definition same_word (a b : bytes) : Z := if decide (a = b) then 0 else 1.

Definition client_request : http_msg :=
  HttpMsg (lit "GET") (Some (lit "/api/v4/clients/c1?limit=10"))
    (Some (lit "Basic " ++ pad_encode (lit "admin:public"))).

Lemma authorized_routed_witness :
  process_request pad_decode same_word client_request admin
    = Some (Handled (get_clients [Kv (lit "limit") (lit "10")] (Some (lit "c1")) None)).
Proof.
  refine (eq_trans (authorized_routed pad_decode same_word pad_encode pad_inverse pad_room admin (lit "GET")
    [lit "clients"; lit "c1"] [Kv (lit "limit") (lit "10")] eq_refl _ _ _ _ _) _).
  - apply (bool_decide_unpack _). vm_compute. exact I.
  - vm_compute. discriminate.
  - discriminate.
  - repeat (apply Forall_cons; split); [..|apply Forall_nil_2];
      (split; [discriminate|]); split; apply (bool_decide_unpack _); vm_compute; exact I.
  - apply Forall_singleton. split; [discriminate|]. split; [|split; [|split; [discriminate|]]];
      apply (bool_decide_unpack _); vm_compute; exact I.
  - vm_compute. reflexivity.
Defined.

Lemma handled_authorized_witness :
  exists b64, hm_token client_request = Some (lit "Basic " ++ b64) /\ 4 <= blen b64 /\
    c_str (decode_buffer pad_decode b64) = lit "admin:public".
Proof.
  refine (handled_authorized pad_decode same_word client_request admin
    (Handled (get_clients [Kv (lit "limit") (lit "10")] (Some (lit "c1")) None)) _ _).
  - vm_compute. reflexivity.
  - discriminate.
Defined.

Lemma uri_parse_print_witness :
  print_uri [lit "bridges"; lit "sub"; lit "emqx"] [] = lit "/api/v4/bridges/sub/emqx" /\
  uri_parse (lit "/api/v4/bridges/sub/emqx") =
    Some (UriContent [Tree [] false; Tree (lit "bridges") false; Tree (lit "sub") false; Tree (lit "emqx") true] []).
Proof.
  split; [reflexivity|]. refine (uri_parse_print [lit "bridges"; lit "sub"; lit "emqx"] [] _ _ _); [discriminate| |apply Forall_nil_2].
  repeat (apply Forall_cons; split); [..|apply Forall_nil_2];
    (split; [discriminate|]); split; apply (bool_decide_unpack _); vm_compute; exact I.
Defined.

Lemma url_decoding_correct_witness : URLDecoding (lit "%2Fetc%2fa+b%") = lit "/etc/a b%" /\
  URLDecoding (pct_encode [47; 200; 0]) = [47; 200; 0].
Proof.
  split; [reflexivity|]. apply (url_decoding_correct [47; 200; 0]). repeat constructor; unfold byte_ok; lia.
Defined.

Lemma route_get_table_witness :
  route_get (UriContent (nodes_of [lit "rules"; lit "7"]) []) = Handled (get_rules [] (Some (lit "7"))).
Proof. refine (route_get_table [lit "rules"; lit "7"] [] _). discriminate. Defined.

(** The root is looked for anywhere in the path, what follows it up to the next
    slash is ignored, and a path without it is answered as the root. *)
Theorem root_not_anchored :
  uri_parse (lit "/any/where/api/v4junk/clients") =
    Some (UriContent [Tree (lit "junk") false; Tree (lit "clients") true] []) /\
  route_get (UriContent [Tree (lit "junk") false; Tree (lit "clients") true] []) = Handled (get_clients [] None None) /\
  uri_parse (lit "/no/such/path") = Some (UriContent [] []) /\ route_get (UriContent [] []) = Handled get_endpoints.
Proof. split_and!; vm_compute; reflexivity. Qed.

End Witness.

End RestApi.
