(* ===== verification/RestJwt.v ===== *)
(** * Authorization with JSON Web Tokens (nanomq/rest_api.c, SUPP_JWT)

    A request with the header "Bearer <token>" is authorized by the library
    l8w8jwt, which checks signature, issuer and expiry as it is told in
    [params]; the library is a parameter. *)

From S2P Require Import Prelude RestApi.

Module RestJwt.

Import RestApi.

Definition TOKEN_EXPIRED : Z := 116.

(** struct l8w8jwt_decoding_params, as far as it is set *)
Record decoding_params := DecodingParams {
  dp_alg : Z;
  dp_jwt : bytes;
  dp_iss : option bytes;
  dp_key : bytes;
  dp_validate_iat : bool;
  dp_validate_exp : bool;
  dp_exp_tolerance_seconds : Z
}.

(** A claim: its name and the type of its value. *)
Record claim := Claim { cl_name : bytes; cl_type : Z }.

(** isspace *)
Definition is_space (c : Z) : bool := (c =? 32) || ((9 <=? c) && (c <=? 13)).

Fixpoint skip_space (s : bytes) : bytes :=
  match s with c :: s' => if is_space c then skip_space s' else s | [] => [] end.

Fixpoint word (s : bytes) : bytes :=
  match s with c :: s => if is_space c then [] else c :: word s | [] => [] end.

(** [sscanf(token, "Bearer %s", token)]: what it stores when it returns 1. *)
Definition scan_bearer (token : bytes) : option bytes :=
  if strncmp0 token (lit "Bearer") 6 then
    match word (skip_space (drop 6 token)) with [] => None | w => Some w end
  else None.

Section Jwt.

Context (L8W8JWT_ALG_RS256 L8W8JWT_SUCCESS L8W8JWT_VALID L8W8JWT_EXP_FAILURE : Z).
Context (l8w8jwt_decode : decoding_params -> Z * Z * list claim).

Definition params_of (iss : option bytes) (public_key token : bytes) : decoding_params :=
  DecodingParams L8W8JWT_ALG_RS256 token iss public_key false true 200.

(** l8w8jwt_get_claim *)
Definition get_claim (name : bytes) (l : list claim) : option claim :=
  find (fun c => strcmp0 (cl_name c) name) l.

(** The result and encrypt_data of the message. *)
Definition jwt_authorize (iss : option bytes) (public_key : bytes) (token : bytes) (encrypt_data : bool) : Z * bool :=
  match (if blen token <=? 0 then None else scan_bearer token) with
  | None => (EMPTY_USERNAME_OR_PASSWORD, encrypt_data)
  | Some jwt =>
      let '(rv, validation_result, claims) := l8w8jwt_decode (params_of iss public_key jwt) in
      if (rv =? L8W8JWT_SUCCESS) && (validation_result =? L8W8JWT_VALID) then
        (SUCCEED,
         match get_claim (lit "bodyEncode") claims with Some c => cl_type c =? 1 | None => encrypt_data end)
      else
        (if validation_result =? L8W8JWT_EXP_FAILURE then TOKEN_EXPIRED else WRONG_USERNAME_OR_PASSWORD, encrypt_data)
  end.

(** ** Properties *)

Lemma word_no_space w rest : Forall (fun c => is_space c = false) w -> (rest = [] \/ exists c r, rest = c :: r /\ is_space c = true) ->
  word (w ++ rest) = w.
Proof.
  intros Hw Hr. induction Hw as [|c w Hc Hw IH]; cbn [app word].
  - destruct Hr as [-> |(c & r & -> & Hc)]; [done|]. cbn. by rewrite Hc.
  - by rewrite Hc, IH.
Qed.

(** The header of RFC 6750 yields its token. *)
Lemma scan_bearer_token c w :
  Forall (fun c => is_space c = false) (c :: w) -> scan_bearer (lit "Bearer " ++ c :: w) = Some (c :: w).
Proof.
  intros H. pose proof H as [Hc _]%Forall_cons. unfold scan_bearer.
  assert (strncmp0 (lit "Bearer " ++ c :: w) (lit "Bearer") 6 = true) as -> by reflexivity.
  change (drop 6 (lit "Bearer " ++ c :: w)) with (32 :: c :: w). cbn [skip_space is_space Z.eqb Pos.eqb orb]. rewrite Hc.
  rewrite <- (app_nil_r (c :: w)) at 1. rewrite word_no_space; [done|done|by left].
Qed.

(** A request is let in exactly when its token is accepted by the library under
    the configured key and issuer, with the expiry checked. *)
Theorem jwt_authorized_iff iss public_key c w e :
  Forall (fun c => is_space c = false) (c :: w) ->
  fst (jwt_authorize iss public_key (lit "Bearer " ++ c :: w) e) = SUCCEED <->
  exists claims, l8w8jwt_decode (DecodingParams L8W8JWT_ALG_RS256 (c :: w) iss public_key false true 200)
                   = (L8W8JWT_SUCCESS, L8W8JWT_VALID, claims).
Proof.
  intros H. unfold jwt_authorize.
  destruct (Z.leb_spec (blen (lit "Bearer " ++ c :: w)) 0) as [Hl|_].
  { rewrite blen_app in Hl. pose proof (blen_nonneg (c :: w)). change (blen (lit "Bearer ")) with 7 in Hl. lia. }
  rewrite scan_bearer_token by done. unfold params_of.
  destruct (l8w8jwt_decode _) as [[rv v] claims].
  destruct (Z.eqb_spec rv L8W8JWT_SUCCESS) as [-> |Hr], (Z.eqb_spec v L8W8JWT_VALID) as [-> |Hv]; cbn [andb fst].
  - split; [by exists claims|done].
  - split; [by destruct (v =? L8W8JWT_EXP_FAILURE)|]. intros [k [= E _]]. done.
  - split; [by destruct (L8W8JWT_VALID =? L8W8JWT_EXP_FAILURE)|]. intros [k [= E _]]. done.
  - split; [by destruct (v =? L8W8JWT_EXP_FAILURE)|]. intros [k [= E _]]. done.
Qed.

(** Without the scheme nothing is decoded. *)
Theorem jwt_other_scheme iss public_key token e :
  strncmp0 token (lit "Bearer") 6 = false -> jwt_authorize iss public_key token e = (EMPTY_USERNAME_OR_PASSWORD, e).
Proof. intros H. unfold jwt_authorize, scan_bearer. rewrite H. by destruct (blen token <=? 0). Qed.

(** Whether answers are encrypted depends on the type of the claim bodyEncode,
    not on its value, which is not looked at. *)
Theorem jwt_encrypts_by_type iss public_key c w e claims t :
  Forall (fun c => is_space c = false) (c :: w) ->
  l8w8jwt_decode (params_of iss public_key (c :: w)) = (L8W8JWT_SUCCESS, L8W8JWT_VALID, Claim (lit "bodyEncode") t :: claims) ->
  jwt_authorize iss public_key (lit "Bearer " ++ c :: w) e = (SUCCEED, t =? 1).
Proof.
  intros H Hd. unfold jwt_authorize.
  destruct (Z.leb_spec (blen (lit "Bearer " ++ c :: w)) 0) as [Hl|_].
  { rewrite blen_app in Hl. pose proof (blen_nonneg (c :: w)). change (blen (lit "Bearer ")) with 7 in Hl. lia. }
  rewrite scan_bearer_token by done. rewrite Hd, !Z.eqb_refl. done.
Qed.

End Jwt.

End RestJwt.
