(* ===== verification/RestPublish.v ===== *)
(** * Publishing over HTTP (nanomq/rest_api.c)

    POST mqtt/publish: a JSON object names topics, payload and options, and one
    PUBLISH per topic goes to the broker's socket.  [handle_publish_msg],
    [properties_parse] and [send_publish] are modelled on the operations of
    cJSON; memory is available. *)

From S2P Require Import Prelude NngApi NngModel RestApi.

(** ** Reading JSON values *)

(** A number is a value that a C integer can take; converting one that does not
    fit is undefined and left to the parameters [to_u8] and [to_u32]. *)
Class CJsonTree := {
  json : Type;
  json_item : json -> bytes -> option json;          (* cJSON_GetObjectItem *)
  json_number : json -> option Z;                    (* cJSON_IsNumber and its value *)
  json_string : json -> option bytes;
  json_bool : json -> option bool;
  json_is_object : json -> bool;
  json_children : json -> list (option bytes * json); (* cJSON_ArrayForEach, with item->string *)
  json_g17 : json -> bytes;                          (* the text "%.17g" of a number *)
  to_u8 : Z -> Z;
  to_u32 : Z -> Z
}.

Class CJsonTreeLaws `{CJsonTree} : Prop := {
  to_u8_small n : 0 <= n < 256 -> to_u8 n = n
}.

Module RestPublish.

Import RestApi.

Section Publish.

Context `{C : MqttConst} `{J : CJsonTree}.

(** nanolib and nng: nano_strtok until NULL, base64_encode and base64_decode. *)
Context (strtok : bytes -> bytes -> list bytes) (base64_encode base64_decode : bytes -> bytes).

(** The macros of rest_api.h *)
Definition get_string (obj : json) (key : bytes) : option bytes := item ← json_item obj key; json_string item.
Definition get_number (obj : json) (key : bytes) : option Z := item ← json_item obj key; json_number item.
Definition get_bool (obj : json) (key : bytes) : option bool := item ← json_item obj key; json_bool item.

(** ** Properties *)

Inductive pub_property :=
  | PayloadFormatIndicator (v : Z) | MessageExpiryInterval (v : Z) | ResponseTopic (s : bytes)
  | CorrelationData (s : bytes) | SubscriptionIdentifier (v : Z) | ContentType (s : bytes)
  | UserProperty (k v : bytes).

(** The loop over user_properties; [None] is a number whose text does not fit
    the 64 bytes of number_str. *)
Fixpoint user_loop (items : list (option bytes * json)) : option (list pub_property) :=
  match items with
  | [] => Some []
  | (None, _) :: items' => user_loop items'
  | (Some k, item) :: items' =>
      match json_number item, json_bool item, json_string item with
      | Some _, _, _ =>
          if 64 <=? blen (json_g17 item) then None
          else l ← user_loop items'; Some (UserProperty k (json_g17 item) :: l)
      | None, Some b, _ =>
          l ← user_loop items'; Some (UserProperty k (if b then lit "true" else lit "false") :: l)
      | None, None, Some s => l ← user_loop items'; Some (UserProperty k s :: l)
      | None, None, None => user_loop items'
      end
  end.

(** A property for a value that is there *)
Definition opt_prop {A} (x : option A) (f : A -> pub_property) : list pub_property :=
  match x with Some v => [f v] | None => [] end.

Definition plain_props (obj : json) : list pub_property :=
  opt_prop (get_number obj (lit "payload_format_indicator")) (fun v => PayloadFormatIndicator (to_u8 v)) ++
  opt_prop (get_number obj (lit "message_expiry_interval")) (fun v => MessageExpiryInterval (to_u32 v)) ++
  opt_prop (get_string obj (lit "response_topic")) ResponseTopic ++
  opt_prop (get_string obj (lit "correlation_data")) CorrelationData ++
  opt_prop (get_number obj (lit "subscription_identifier")) (fun v => SubscriptionIdentifier (to_u32 v)) ++
  opt_prop (get_string obj (lit "content_type")) ContentType.

Definition properties_parse (obj : json) : option (list pub_property) :=
  match json_item obj (lit "user_properties") with
  | None => Some (plain_props obj)
  | Some prop_obj =>
      if negb (json_is_object prop_obj) then None
      else us ← user_loop (json_children prop_obj); Some (plain_props obj ++ us)
  end.

(** ** Sending *)

(** A PUBLISH as its setters and encode_common_mqtt_msg are given it. *)
Record http_publish := HttpPublish {
  hp_topic : bytes;
  hp_payload : bytes;
  hp_qos : Z;
  hp_retain : bool;
  hp_props : option (list pub_property);
  hp_clientid : bytes;
  hp_proto_ver : Z
}.

(** [send m] is the result of encoding and sending [m]; the loop stops at the
    first failure.  The messages that were sent and the result. *)
Fixpoint send_loop (send : http_publish -> Z) (make : bytes -> http_publish) (topics : list bytes)
  : list http_publish * Z :=
  match topics with
  | [] => ([], 0)
  | t :: topics' =>
      if negb (send (make t) =? 0) then ([], send (make t))
      else let '(l, rv) := send_loop send make topics' in (make t :: l, rv)
  end.

Definition send_publish (send : http_publish -> Z) (clientid payload : bytes) (topics : list bytes) (qos : Z)
    (retain encode_base64 decode_base64 : bool) (props : option (list pub_property)) : list http_publish * Z :=
  let data := if encode_base64 then base64_encode payload
              else if decode_base64 then base64_decode payload else payload in
  let protover := match props with Some _ => MQTT_PROTOCOL_VERSION_v5 | None => MQTT_PROTOCOL_VERSION_v311 end in
  send_loop send (fun t => HttpPublish t data qos retain props clientid protover) topics.

(** "topic", or the tokens of "topics" *)
Definition request_topics (pub_obj : json) : option (list bytes) :=
  match get_string pub_obj (lit "topic") with
  | Some topic => Some [topic]
  | None => topic ← get_string pub_obj (lit "topics"); Some (strtok topic (lit ","))
  end.

Definition handle_publish_msg (send : http_publish -> Z) (pub_obj : json) : list http_publish * Z :=
  match request_topics pub_obj with
  | None => ([], REQ_PARAM_ERROR)
  | Some topics =>
      let clientid := default (lit "NanoMQ-HTTP-Client") (get_string pub_obj (lit "clientid")) in
      match get_string pub_obj (lit "payload") with
      | None => ([], REQ_PARAM_ERROR)
      | Some payload =>
          let encoding := default (lit "plain") (get_string pub_obj (lit "encoding")) in
          let decoding := default (lit "plain") (get_string pub_obj (lit "decoding")) in
          let qos := from_option to_u8 0 (get_number pub_obj (lit "qos")) in
          let retain := default false (get_bool pub_obj (lit "retain")) in
          let json_prop := match json_item pub_obj (lit "properties") with
            | Some p => if json_is_object p then Some p else None
            | None => None
            end in
          match from_option (fun p => Some <$> properties_parse p) (Some None) json_prop with
          | None => ([], REQ_PARAM_ERROR)
          | Some props =>
              let '(sent, rv) := send_publish send clientid payload topics qos retain
                (strcmp0 encoding (lit "base64")) (strcmp0 decoding (lit "base64")) props in
              (sent, if negb (rv =? SUCCEED) then UNKNOWN_MISTAKE else rv)
          end
      end
  end.

(** ** What is published *)

Lemma send_loop_spec send make topics :
  let '(sent, rv) := send_loop send make topics in
  exists rest, map make topics = sent ++ rest /\ Forall (fun m => send m = 0) sent /\
    match rest with [] => rv = 0 | m :: _ => rv = send m /\ rv <> 0 end.
Proof.
  induction topics as [|t topics IH]; cbn [send_loop map]; [by exists []|].
  destruct (Z.eqb_spec (send (make t)) 0) as [E|E]; cbn [negb]; [|by exists (make t :: map make topics)].
  destruct (send_loop send make topics) as [l rv]. destruct IH as (r & -> & Hd & Hr).
  exists r. split_and!; try done. by constructor.
Qed.

(** The text of a user property's value: of a number, a boolean or a string. *)
Definition user_text (item : json) : option bytes :=
  match json_number item, json_bool item with
  | Some _, _ => Some (json_g17 item)
  | None, Some b => Some (if b then lit "true" else lit "false")
  | None, None => json_string item
  end.

(** The properties that the object [obj] of a request asks for. *)
Definition prop_asked (obj : json) (p : pub_property) : Prop :=
  match p with
  | PayloadFormatIndicator v => exists n, get_number obj (lit "payload_format_indicator") = Some n /\ v = to_u8 n
  | MessageExpiryInterval v => exists n, get_number obj (lit "message_expiry_interval") = Some n /\ v = to_u32 n
  | ResponseTopic s => get_string obj (lit "response_topic") = Some s
  | CorrelationData s => get_string obj (lit "correlation_data") = Some s
  | SubscriptionIdentifier v => exists n, get_number obj (lit "subscription_identifier") = Some n /\ v = to_u32 n
  | ContentType s => get_string obj (lit "content_type") = Some s
  | UserProperty k v => exists users item, json_item obj (lit "user_properties") = Some users /\
      (Some k, item) ∈ json_children users /\ user_text item = Some v
  end.

(** User properties are an object, the numbers in it have short texts. *)
Definition users_ok (items : list (option bytes * json)) : Prop :=
  Forall (fun x => fst x <> None -> json_number (snd x) <> None -> blen (json_g17 (snd x)) < 64) items.

Definition props_ok (obj : json) : Prop :=
  forall users, json_item obj (lit "user_properties") = Some users ->
    json_is_object users = true /\ users_ok (json_children users).

Lemma user_loop_spec items :
  match user_loop items with
  | None => ~ users_ok items
  | Some l => users_ok items /\
      forall p, p ∈ l <-> exists k v item, p = UserProperty k v /\ (Some k, item) ∈ items /\ user_text item = Some v
  end.
Proof.
  unfold users_ok. induction items as [|[[k|] item] items IH]; cbn [user_loop].
  - split; [constructor|]. intros p. set_solver.
  - pose proof (Forall_cons (fun x => fst x <> None -> json_number (snd x) <> None -> blen (json_g17 (snd x)) < 64)
      (Some k, item) items) as Hc. cbn [fst snd] in Hc.
    assert (forall v, user_text item = Some v ->
      (json_number item <> None -> blen (json_g17 item) < 64) ->
      match l ← user_loop items; Some (UserProperty k v :: l) with
      | None => ~ Forall (fun x => fst x <> None -> json_number (snd x) <> None -> blen (json_g17 (snd x)) < 64)
          ((Some k, item) :: items)
      | Some l => Forall (fun x => fst x <> None -> json_number (snd x) <> None -> blen (json_g17 (snd x)) < 64)
          ((Some k, item) :: items) /\
          forall p, p ∈ l <-> exists k' v' item', p = UserProperty k' v' /\ (Some k', item') ∈ (Some k, item) :: items /\
            user_text item' = Some v'
      end) as Hadd.
    { intros v Hv Hlen. destruct (user_loop items) as [l|]; cbn; [|rewrite Hc; naive_solver].
      destruct IH as [H1 H2]. split; [rewrite Hc; by split|]. intros p. rewrite elem_of_cons, H2. split.
      - intros [->|(k' & v' & i' & -> & Hin & Ht)]; [exists k, v, item; set_solver|exists k', v', i'; set_solver].
      - intros (k' & v' & i' & -> & [[= <- <-]|Hin]%elem_of_cons & Ht); [left; congruence|right; by exists k', v', i']. }
    unfold user_text in Hadd at 1. destruct (json_number item) as [n|] eqn:En.
    { destruct (Z.leb_spec 64 (blen (json_g17 item))); [rewrite Hc; intros [H' _]; by specialize (H' ltac:(done) ltac:(done)); lia|].
      by apply Hadd. }
    destruct (json_bool item) as [b|] eqn:Eb; [by apply Hadd|].
    destruct (json_string item) as [s|] eqn:Es; [by apply Hadd|]. clear Hadd.
    destruct (user_loop items) as [l|]; [|rewrite Hc; naive_solver]. destruct IH as [H1 H2].
    split; [rewrite Hc; naive_solver|]. intros p. rewrite H2. split.
    + intros (k' & v' & i' & -> & Hin & Ht). exists k', v', i'. set_solver.
    + intros (k' & v' & i' & -> & [[= <- <-]|Hin]%elem_of_cons & Ht); [|by exists k', v', i'].
      unfold user_text in Ht. by rewrite En, Eb, Es in Ht.
  - destruct (user_loop items) as [l|].
    + destruct IH as [H1 H2]. split; [constructor; [done|done]|]. intros p. rewrite H2.
      split; intros (k' & v' & i' & -> & Hin & Ht); exists k', v', i'; set_solver.
    + rewrite Forall_cons. naive_solver.
Qed.

Lemma elem_of_opt_prop {A} (x : option A) f p : p ∈ opt_prop x f <-> exists v, x = Some v /\ p = f v.
Proof. destruct x as [v|]; cbn; rewrite ?list_elem_of_singleton, ?elem_of_nil; naive_solver. Qed.

Lemma plain_props_spec obj p :
  p ∈ plain_props obj <-> (forall k v, p <> UserProperty k v) /\ prop_asked obj p.
Proof.
  unfold plain_props. rewrite !elem_of_app, !elem_of_opt_prop. split.
  - intros H. repeat destruct H as [H|H]; destruct H as (v & E & ->); cbn; by eauto.
  - intros [Hn H]. destruct p as [v|v|s|s|v|s|k v]; cbn [prop_asked] in H; [..|by destruct (Hn k v)].
    + left. by destruct H as (n & E & ->); eauto.
    + right. left. by destruct H as (n & E & ->); eauto.
    + do 2 right. left. by eauto.
    + do 3 right. left. by eauto.
    + do 4 right. left. by destruct H as (n & E & ->); eauto.
    + do 5 right. by eauto.
Qed.

Lemma properties_parse_spec obj :
  match properties_parse obj with
  | None => ~ props_ok obj
  | Some l => props_ok obj /\ forall p, p ∈ l <-> prop_asked obj p
  end.
Proof.
  unfold properties_parse, props_ok. pose proof (plain_props_spec obj) as Hl.
  destruct (json_item obj (lit "user_properties")) as [users|] eqn:Eu.
  - destruct (json_is_object users) eqn:Eo; cbn [negb];
      [|intros H; destruct (H users eq_refl); congruence].
    pose proof (user_loop_spec (json_children users)) as Hu.
    destruct (user_loop (json_children users)) as [us|]; cbn [mbind option_bind];
      [|intros H; by destruct (H users eq_refl)].
    destruct Hu as [H1 H2]. split; [by intros ? [= <-]|]. intros p. rewrite elem_of_app, Hl, H2. split.
    + intros [[_ H]|(k & v & item & -> & Hin & Ht)]; [done|]. by exists users, item.
    + intros H. destruct p as [v|v|s|s|v|s|k v]; [by left..|]. right. destruct H as (u & item & E & Hin & Ht).
      rewrite Eu in E. injection E as <-. by exists k, v, item.
  - split; [done|]. intros p. rewrite Hl. split; [by intros [_ ?]|]. intros H. split; [|done].
    intros k v ->. destruct H as (u & item & E & _). by rewrite Eu in E.
Qed.

(** The topics a request names: "topic", or else the parts of "topics". *)
Definition topics_asked (obj : json) (topics : list bytes) : Prop :=
  (exists t, get_string obj (lit "topic") = Some t /\ topics = [t]) \/
  (get_string obj (lit "topic") = None /\
   exists ts, get_string obj (lit "topics") = Some ts /\ topics = strtok ts (lit ",")).

(** The properties of the messages: none, unless "properties" is an object. *)
Definition options_asked (obj : json) (props : option (list pub_property)) : Prop :=
  match json_item obj (lit "properties") with
  | Some p =>
      if json_is_object p
      then exists ps, props = Some ps /\ props_ok p /\ forall x, x ∈ ps <-> prop_asked p x
      else props = None
  | None => props = None
  end.

(** The payload as it is sent. *)
Definition data_asked (obj : json) (payload : bytes) : bytes :=
  if decide (get_string obj (lit "encoding") = Some (lit "base64")) then base64_encode payload
  else if decide (get_string obj (lit "decoding") = Some (lit "base64")) then base64_decode payload
  else payload.

(** The messages that a well-formed request asks for, in order. *)
Definition asks (obj : json) (ms : list http_publish) : Prop :=
  exists topics payload props,
    topics_asked obj topics /\ get_string obj (lit "payload") = Some payload /\ options_asked obj props /\
    ms = map (fun t => HttpPublish t (data_asked obj payload)
                (match get_number obj (lit "qos") with Some n => to_u8 n | None => 0 end)
                (match get_bool obj (lit "retain") with Some b => b | None => false end)
                props
                (match get_string obj (lit "clientid") with Some c => c | None => lit "NanoMQ-HTTP-Client" end)
                (match props with Some _ => MQTT_PROTOCOL_VERSION_v5 | None => MQTT_PROTOCOL_VERSION_v311 end)) topics.

Lemma request_topics_spec obj :
  match request_topics obj with
  | Some topics => topics_asked obj topics
  | None => forall topics, ~ topics_asked obj topics
  end.
Proof.
  unfold request_topics, topics_asked. destruct (get_string obj (lit "topic")) as [t|]; [left; by exists t|].
  destruct (get_string obj (lit "topics")) as [ts|]; cbn [mbind option_bind]; [right|]; naive_solver.
Qed.

Lemma base64_named (x : option bytes) :
  strcmp0 (default (lit "plain") x) (lit "base64") = bool_decide (x = Some (lit "base64")).
Proof.
  unfold strcmp0. destruct x as [x|]; [|done]. change (default _ (Some x)) with x.
  apply bool_decide_ext. naive_solver.
Qed.


End Publish.

(** ** A request with two topics *)

Section Witness.

(** An object of named values, or a value. *)
Inductive jval := TNum (n : Z) | TStr (s : bytes).

Definition jt : Type := list (bytes * jval) + jval.

Definition jt_find (l : list (bytes * jval)) (k : bytes) : option jt :=
  inr ∘ snd <$> List.find (fun p => bool_decide (fst p = k)) l.

#[local] Instance jt_tree : CJsonTree := {|
  json := jt;
  json_item j k := match j with inl l => jt_find l k | _ => None end;
  json_number j := match j with inr (TNum n) => Some n | _ => None end;
  json_string j := match j with inr (TStr s) => Some s | _ => None end;
  json_bool _ := None;
  json_is_object j := match j with inl _ => true | _ => false end;
  json_children j := match j with inl l => map (fun '(k, v) => (Some k, inr v)) l | _ => [] end;
  json_g17 _ := lit "0"; to_u8 := u8; to_u32 := u32
|}.

Import Model.

Definition two_topics (s sep : bytes) : list bytes := [lit "a"; lit "b"].

Definition publish_request : @json jt_tree :=
  inl [(lit "topics", TStr (lit "a,b")); (lit "payload", TStr (lit "hi")); (lit "qos", TNum 1)].

Definition b_fails (m : http_publish) : Z := if decide (hp_topic m = lit "b") then 5 else 0.

Definition published : list http_publish * Z :=
  handle_publish_msg two_topics (fun x => x) (fun x => x) b_fails publish_request.


End Witness.

End RestPublish.
