(* ===== verification/RestRules.v ===== *)
(** * Rules over the REST API (nanomq/rest_api.c)

    GET, POST, PUT and DELETE on rules change the rules of the rule engine while
    the broker runs.  A handler returns the configuration it leaves and its
    answer; a NULL dereference, a freed object and an index before the array are
    [inl NullDeref].  Everything is compiled in (SQLite, MySQL, PostgreSQL,
    TimescaleDB). *)

From S2P Require Import Prelude OptsApi NngApi RuleEngine RuleConf RuleDb RuleClients RestApi RestPublish.

(** [item->valueint] *)
Class CJsonInt `{CJsonTree} := json_valueint : json -> Z.

(** Nanolib's part: the SQL parser, which stores the parsed statement in a new
    rule at the end of the array, the generator of rule ids (its [n]-th result),
    the initial settings and the check of a data base. *)
Class RuleLib `{ParsedSql} := {
  rule_sql_parse : list RuleConf.rule -> bytes -> list RuleConf.rule;
  rule_generate_rule_id : nat -> Z;
  rule_repub_init : RuleConf.repub_t;
  rule_db_init : RuleConf.rule_db;
  rule_db_check : RuleConf.rule_db -> bool;
  RULE_ENG_SDB : Z;
  RULE_ENG_RPB : Z;
  RULE_ENG_DB : RuleConf.db_kind -> Z
}.

Class RuleLibLaws `{RuleLib} : Prop := {
  parse_appends l sql : exists r, rule_sql_parse l sql = l ++ [r];
  ids_distinct i j : rule_generate_rule_id i = rule_generate_rule_id j -> i = j
}.

Module RestRules.

Import RuleConf RuleDb RuleClients RestApi RestPublish.

Definition MISSING_KEY_REQUEST_PARAMES : Z := 107.
Definition REQ_PARAMS_JSON_FORMAT_ILLEGAL : Z := 109.
Definition PLUGIN_IS_CLOSED : Z := 111.
Definition NNG_HTTP_STATUS_BAD_REQUEST : Z := 400.

Notation "x ←! e ; f" := (bind_run e (fun x => f)) (at level 20, e at level 100, f at level 200).

Definition or_null {A} (x : option A) : run_error + A := match x with Some a => inr a | None => inl NullDeref end.

Section Rules.

Context `{PS : ParsedSql} `{J : CJsonTree} `{JI : !CJsonInt} `{L : !RuleLib}.
Context (nng_strcasecmp : bytes -> bytes -> Z).

Definition is_key (a b : bytes) : bool := nng_strcasecmp a b =? 0.

(** The children of a value that may be NULL, for cJSON_ArrayForEach. *)
Definition children (j : option json) : list (option bytes * json) :=
  match j with Some j => json_children j | None => [] end.

(** ** The parameters of an action *)

(** One parameter of a republishing rule; the inner [None] is an unknown key.
    The test for clean_start compares the key and not the value. *)
Definition repub_param (key : bytes) (item : json) (r : repub_t) : run_error + option repub_t :=
  let '(Repub t a v k c u p s) := r in
  if is_key key (lit "topic") then x ←! or_null (json_string item); inr (Some (Repub (Some x) a v k c u p s))
  else if is_key key (lit "address") then x ←! or_null (json_string item); inr (Some (Repub t (Some x) v k c u p s))
  else if is_key key (lit "proto_ver") then inr (Some (Repub t a (json_valueint item) k c u p s))
  else if is_key key (lit "keepalive") then inr (Some (Repub t a v (json_valueint item) c u p s))
  else if is_key key (lit "clientid") then x ←! or_null (json_string item); inr (Some (Repub t a v k (Some x) u p s))
  else if is_key key (lit "username") then x ←! or_null (json_string item); inr (Some (Repub t a v k c (Some x) p s))
  else if is_key key (lit "password") then x ←! or_null (json_string item); inr (Some (Repub t a v k c u (Some x) s))
  else if is_key key (lit "clean_start") then inr (Some (Repub t a v k c u p (is_key key (lit "true"))))
  else inr None.

(** POST skips unknown keys, PUT refuses them ([strict]). *)
Fixpoint repub_params (strict : bool) (params : list (option bytes * json)) (r : repub_t)
  : run_error + (repub_t * Z) :=
  match params with
  | [] => inr (r, SUCCEED)
  | (key, item) :: params' =>
      key ←! or_null key;
      x ←! repub_param key item r;
      match x with
      | Some r => repub_params strict params' r
      | None => if strict then inr (r, REQ_PARAM_ERROR) else repub_params strict params' r
      end
  end.

Definition db_param (key : bytes) (item : json) (d : rule_db) : run_error + option rule_db :=
  let '(DbConf t u p h) := d in
  if is_key key (lit "table") then x ←! or_null (json_string item); inr (Some (DbConf (Some x) u p h))
  else if is_key key (lit "username") then x ←! or_null (json_string item); inr (Some (DbConf t (Some x) p h))
  else if is_key key (lit "password") then x ←! or_null (json_string item); inr (Some (DbConf t u (Some x) h))
  else if is_key key (lit "host") then x ←! or_null (json_string item); inr (Some (DbConf t u p (Some x)))
  else inr None.

Fixpoint db_params (params : list (option bytes * json)) (d : rule_db) : run_error + (rule_db * Z) :=
  match params with
  | [] => inr (d, SUCCEED)
  | (key, item) :: params' =>
      key ←! or_null key;
      x ←! db_param key item d;
      match x with
      | Some d => db_params params' d
      | None => inr (d, REQ_PARAM_ERROR)
      end
  end.

Definition put_rules_repub_parse := repub_params true.
Definition put_rules_mysql_parse := db_params.
Definition put_rules_postgresql_parse := db_params.
Definition put_rules_timescaledb_parse := db_params.

(** ** POST *)

(** [cr->rules[cvector_size(cr->rules) - 1]] is changed. *)
Definition set_last (f : rule -> rule) (l : list rule) : run_error + list rule :=
  match last l with
  | Some r => inr (take (length l - 1) l ++ [f r])
  | None => inl NullDeref
  end.

Definition as_repub (p : nat) (rawsql : bytes) (id : Z) (r : rule) : rule :=
  Rule (ru_sql r) RULE_FORWORD_REPUB (Some p) (ru_mysql r) (ru_postgresql r) (ru_timescaledb r)
    (ru_sqlite_table r) (Some rawsql) true id.

Definition as_sqlite (table rawsql : bytes) (id : Z) (r : rule) : rule :=
  Rule (ru_sql r) RULE_FORWORD_SQLITE (ru_repub r) (ru_mysql r) (ru_postgresql r) (ru_timescaledb r)
    (Some table) (Some rawsql) true id.

Definition as_db (k : db_kind) (p : nat) (rawsql : bytes) (id : Z) (r : rule) : rule :=
  let at_ k' old := if decide (k = k') then Some p else old in
  Rule (ru_sql r) (kind_type k) (ru_repub r) (at_ MYSQL (ru_mysql r)) (at_ POSTGRESQL (ru_postgresql r))
    (at_ TIMESCALEDB (ru_timescaledb r)) (ru_sqlite_table r) (Some rawsql) true id.

(** rule_sql_parse and the settings of the new rule, with the next id. *)
Definition add_rule (cr : conf_rule) (rawsql : option bytes) (f : bytes -> Z -> rule -> rule)
  : run_error + conf_rule :=
  sql ←! or_null rawsql;
  l ←! set_last (f sql (rule_generate_rule_id (cr_ids cr))) (rule_sql_parse (cr_rules cr) sql);
  inr (next_id (with_rules cr l)).

(** What the libraries answer to a request. *)
Record rest_env := RestEnv {
  en_client : client_env;
  en_db : db_env;
  en_open : bool;                  (* sqlite3_open *)
  en_exec : bytes -> bool          (* sqlite3_exec *)
}.

Definition post_rules_repub (e : rest_env) (cr : conf_rule) (params : option json) (rawsql : option bytes)
  : run_error + (conf_rule * Z) :=
  x ←! repub_params false (children params) rule_repub_init;
  let repub := fst x in
  match rb_address repub, rb_topic repub with
  | Some _, Some _ =>
      if negb (fst (nano_client (en_client e) repub) =? 0) then inr (cr, MISSING_KEY_REQUEST_PARAMES)
      else
        let p := fresh (dom (cr_repubs cr)) in
        cr ←! add_rule (with_repubs cr (<[p := repub]> (cr_repubs cr))) rawsql (as_repub p);
        inr (with_option cr (Z.lor (cr_option cr) RULE_ENG_RPB), SUCCEED)
  | _, _ => inr (cr, MISSING_KEY_REQUEST_PARAMES)
  end.

Fixpoint sqlite_table_exist (rules : list rule) (name : bytes) : run_error + bool :=
  match rules with
  | [] => inr false
  | r :: rules' =>
      if bool_decide (ru_type r = RULE_FORWORD_SQLITE) then
        t ←! or_null (ru_sqlite_table r);
        if is_key t name then inr true else sqlite_table_exist rules' name
      else sqlite_table_exist rules' name
  end.

(** cvector_pop_back after the rule was freed. *)
Definition pop_back (cr : conf_rule) : conf_rule := with_rules cr (take (length (cr_rules cr) - 1) (cr_rules cr)).

Fixpoint sqlite_params (e : rest_env) (cr : conf_rule) (params : list (option bytes * json))
    (rawsql : option bytes) : run_error + (conf_rule * Z) :=
  match params with
  | [] => inr (cr, SUCCEED)
  | (key, item) :: params' =>
      key ←! or_null key;
      if is_key key (lit "table") then
        table ←! or_null (json_string item);
        exist ←! sqlite_table_exist (cr_rules cr) table;
        if exist : bool then inr (cr, REQ_PARAM_ERROR)
        else
          cr ←! add_rule cr rawsql (as_sqlite table);
          x ←! or_null (nanomq_client_sqlite (en_open e) (en_exec e) cr true);
          let '(cr, rc, _) := x in
          if rc =? 1 then inr (pop_back cr, PLUGIN_IS_CLOSED) else sqlite_params e cr params' rawsql
      else sqlite_params e cr params' rawsql
  end.

Definition post_rules_sqlite (e : rest_env) (cr : conf_rule) (params : option json) (rawsql : option bytes)
  : run_error + (conf_rule * Z) :=
  x ←! sqlite_params e cr (children params) rawsql;
  let '(cr, rc) := x in
  if negb (rc =? SUCCEED) then inr (cr, rc)
  else inr (with_option cr (Z.lor (cr_option cr) RULE_ENG_SDB), SUCCEED).

(** The three functions below have this body. *)
Definition post_rules_db (k : db_kind) (e : rest_env) (cr : conf_rule) (params : option json)
    (rawsql : option bytes) : run_error + (conf_rule * Z) :=
  x ←! db_params (children params) rule_db_init;
  let '(d, rc) := x in
  if negb (rc =? SUCCEED) then inr (cr, rc)
  else if negb (rule_db_check d) then inr (cr, MISSING_KEY_REQUEST_PARAMES)
  else
    let p := fresh (dom (cr_dbs cr)) in
    cr ←! add_rule (with_dbs cr (<[p := d]> (cr_dbs cr))) rawsql (as_db k p);
    y ←! (match k with
          | MYSQL => nanomq_client_mysql (en_db e) cr true
          | POSTGRESQL => nanomq_client_postgresql (en_db e) cr true
          | TIMESCALEDB => nanomq_client_timescaledb (en_db e) cr true
          end);
    let '(cr, rc) := y in
    if rc =? -1 then inr (cr, REQ_PARAM_ERROR)
    else inr (with_option cr (Z.lor (cr_option cr) (RULE_ENG_DB k)), SUCCEED).

Definition post_rules_mysql := post_rules_db MYSQL.
Definition post_rules_postgresql := post_rules_db POSTGRESQL.
Definition post_rules_timescaledb := post_rules_db TIMESCALEDB.

Definition post_action (e : rest_env) (cr : conf_rule) (action : json) (rawsql : option bytes)
  : run_error + (conf_rule * Z) :=
  name ←! or_null (get_string action (lit "name"));
  let params := json_item action (lit "params") in
  if is_key name (lit "repub") then post_rules_repub e cr params rawsql
  else if is_key name (lit "sqlite") then post_rules_sqlite e cr params rawsql
  else if is_key name (lit "mysql") then post_rules_mysql e cr params rawsql
  else if is_key name (lit "postgresql") then post_rules_postgresql e cr params rawsql
  else if is_key name (lit "timescaledb") then post_rules_timescaledb e cr params rawsql
  else inr (cr, PLUGIN_IS_CLOSED).

Fixpoint post_actions (e : rest_env) (cr : conf_rule) (actions : list (option bytes * json))
    (rawsql : option bytes) : run_error + (conf_rule * Z) :=
  match actions with
  | [] => inr (cr, SUCCEED)
  | (_, action) :: actions' =>
      x ←! post_action e cr action rawsql;
      let '(cr, rc) := x in
      if negb (rc =? SUCCEED) then inr (cr, rc) else post_actions e cr actions' rawsql
  end.

(** What get_rules_helper adds for a rule; the name is NULL for other types. *)
Record rule_info := RuleInfo {
  ri_name : option bytes;
  ri_rawsql : option bytes;
  ri_id : Z;
  ri_enabled : bool
}.

(** The answer: "data" of a rule with rawsql, id and enabled, the list or the
    entry of GET, a code alone, or error_response. *)
Inductive rules_reply :=
  | RuleData (rawsql : option bytes) (id : Z) (enabled : bool)
  | RuleEntry (i : rule_info)
  | RuleList (l : list rule_info)
  | CodeReply (code : Z)
  | ErrorReply (status code : Z).

Definition data_of (r : rule) : rules_reply := RuleData (ru_raw_sql r) (ru_rule_id r) (ru_enabled r).

Definition post_rules (e : rest_env) (cr : conf_rule) (req : option json) : run_error + (conf_rule * rules_reply) :=
  match req with
  | None => inr (cr, ErrorReply NNG_HTTP_STATUS_BAD_REQUEST REQ_PARAMS_JSON_FORMAT_ILLEGAL)
  | Some req =>
      if negb (json_is_object req)
      then inr (cr, ErrorReply NNG_HTTP_STATUS_BAD_REQUEST REQ_PARAMS_JSON_FORMAT_ILLEGAL)
      else
        x ←! post_actions e cr (children (json_item req (lit "actions"))) (get_string req (lit "rawsql"));
        let '(cr, rc) := x in
        if negb (rc =? SUCCEED) then inr (cr, ErrorReply NNG_HTTP_STATUS_BAD_REQUEST rc)
        else r ←! or_null (last (cr_rules cr)); inr (cr, data_of r)
  end.

(** ** GET and DELETE *)

(** [sscanf(rule_id, "rule:%d", &id)], [id] being 0 before; a number outside of
    32 bits is undefined in C and reduced here. *)
Definition scan_id (rule_id : bytes) : Z :=
  if is_prefix (lit "rule:") rule_id then u32 (OptsApi.atoi (drop 5 rule_id)) else 0.

(** The index of the first rule with the id, from [i] on. *)
Fixpoint find_rule (id : Z) (rules : list rule) (i : nat) : option nat :=
  match rules with
  | [] => None
  | r :: rules' => if ru_rule_id r =? id then Some i else find_rule id rules' (S i)
  end.

Definition get_rules_helper (r : rule) : rule_info :=
  RuleInfo
    (match ru_type r with
     | RULE_FORWORD_SQLITE => Some (lit "sqlite")
     | RULE_FORWORD_REPUB => Some (lit "repub")
     | RULE_FORWORD_MYSQL => Some (lit "mysql")
     | RULE_FORWORD_POSTGRESQL => Some (lit "postgresql")
     | RULE_FORWORD_TIMESCALEDB => Some (lit "timescaledb")
     | other_forword => None
     end)
    (ru_raw_sql r) (ru_rule_id r) (ru_enabled r).

Definition get_rules (cr : conf_rule) (rule_id : option bytes) : rules_reply :=
  match rule_id with
  | None => RuleList (map get_rules_helper (cr_rules cr))
  | Some rule_id =>
      match find_rule (scan_id rule_id) (cr_rules cr) 0 ≫= (cr_rules cr !!.) with
      | Some r => RuleEntry (get_rules_helper r)
      | None => ErrorReply NNG_HTTP_STATUS_BAD_REQUEST MISSING_KEY_REQUEST_PARAMES
      end
  end.

(** The object of the rule is freed; an object that is not allocated is an
    error. *)
Definition free_target (cr : conf_rule) (r : rule) : run_error + conf_rule :=
  match repub_ptr r, db_ptr r with
  | Some p, _ => _ ←! or_null (cr_repubs cr !! p); inr (with_repubs cr (delete p (cr_repubs cr)))
  | None, Some p => _ ←! or_null (cr_dbs cr !! p); inr (with_dbs cr (delete p (cr_dbs cr)))
  | None, None => inr cr
  end.

Definition delete_rules (cr : conf_rule) (rule_id : option bytes) : run_error + (conf_rule * rules_reply) :=
  let error := ErrorReply NNG_HTTP_STATUS_BAD_REQUEST MISSING_KEY_REQUEST_PARAMES in
  match rule_id with
  | None => inr (cr, error)
  | Some rule_id =>
      match find_rule (scan_id rule_id) (cr_rules cr) 0 with
      | None => inr (cr, error)
      | Some i =>
          r ←! or_null (cr_rules cr !! i);
          cr ←! free_target cr r;
          inr (with_rules cr (delete i (cr_rules cr)), CodeReply SUCCEED)
      end
  end.

(** ** PUT *)

(** [new_rule] points into the array, or behind it: cvector_erase moves the new
    rule to an index below, and the slot the pointer names keeps the copy
    [pt_copy]. *)
Record put_state := PutState {
  pt_cr : conf_rule;
  pt_at : option nat;
  pt_copy : rule
}.

Definition with_cr (s : put_state) (cr : conf_rule) : put_state := PutState cr (pt_at s) (pt_copy s).

(** [*new_rule] *)
Definition new_rule (s : put_state) : run_error + rule :=
  match pt_at s with
  | Some i => or_null (cr_rules (pt_cr s) !! i)
  | None => inr (pt_copy s)
  end.

(** A write through [new_rule] *)
Definition write_new (f : rule -> rule) (s : put_state) : put_state :=
  match pt_at s with
  | Some i => with_cr s (with_rules (pt_cr s) (alter f i (cr_rules (pt_cr s))))
  | None => PutState (pt_cr s) None (f (pt_copy s))
  end.

Definition set_enabled (b : bool) (r : rule) : rule :=
  Rule (ru_sql r) (ru_type r) (ru_repub r) (ru_mysql r) (ru_postgresql r) (ru_timescaledb r) (ru_sqlite_table r)
    (ru_raw_sql r) b (ru_rule_id r).

Definition set_table (t : bytes) (r : rule) : rule :=
  Rule (ru_sql r) (ru_type r) (ru_repub r) (ru_mysql r) (ru_postgresql r) (ru_timescaledb r) (Some t)
    (ru_raw_sql r) (ru_enabled r) (ru_rule_id r).

(** The settings the new rule takes over from the old one. *)
Definition take_over (old : rule) (rawsql : bytes) (id : Z) (r : rule) : rule :=
  Rule (ru_sql r) (ru_type old)
    (if decide (ru_type old = RULE_FORWORD_REPUB) then ru_repub old else ru_repub r)
    (if decide (ru_type old = RULE_FORWORD_MYSQL) then ru_mysql old else ru_mysql r)
    (if decide (ru_type old = RULE_FORWORD_POSTGRESQL) then ru_postgresql old else ru_postgresql r)
    (if decide (ru_type old = RULE_FORWORD_TIMESCALEDB) then ru_timescaledb old else ru_timescaledb r)
    (if decide (ru_type old = RULE_FORWORD_SQLITE) then ru_sqlite_table old else ru_sqlite_table r)
    (Some rawsql) true id.

(** The calls PUT makes: closing the socket of a republishing client, starting
    it again, creating tables. *)
Inductive put_out := CloseSock (p : nat) | StartClient (p : nat) | CreateTables (sqls : list bytes).

Fixpoint put_rules_sqlite_parse (params : list (option bytes * json)) (s : put_state)
  : run_error + (put_state * Z) :=
  match params with
  | [] => inr (s, SUCCEED)
  | (key, item) :: params' =>
      key ←! or_null key;
      if is_key key (lit "table") then
        t ←! or_null (json_string item);
        put_rules_sqlite_parse params' (write_new (set_table t) s)
      else inr (s, REQ_PARAM_ERROR)
  end.

(** The cases of mysql, postgresql and timescaledb: the settings are changed in
    place, and freed after an unknown key. *)
Definition put_db (k : db_kind) (params : list (option bytes * json)) (s : put_state) (r : rule)
  : run_error + (put_state * Z) :=
  if negb (bool_decide (ru_type r = kind_type k)) then inr (s, REQ_PARAM_ERROR)
  else
    p ←! or_null (ru_db k r);
    d ←! or_null (cr_dbs (pt_cr s) !! p);
    x ←! (match k with
          | MYSQL => put_rules_mysql_parse params d
          | POSTGRESQL => put_rules_postgresql_parse params d
          | TIMESCALEDB => put_rules_timescaledb_parse params d
          end);
    let '(d, rc) := x in
    let dbs := if rc =? SUCCEED then <[p := d]> (cr_dbs (pt_cr s)) else delete p (cr_dbs (pt_cr s)) in
    inr (with_cr s (with_dbs (pt_cr s) dbs), rc).

Definition put_repub (params : list (option bytes * json)) (s : put_state) (r : rule)
  : run_error + (put_state * Z) :=
  if negb (bool_decide (ru_type r = RULE_FORWORD_REPUB)) then inr (s, REQ_PARAM_ERROR)
  else
    p ←! or_null (ru_repub r);
    d ←! or_null (cr_repubs (pt_cr s) !! p);
    x ←! put_rules_repub_parse params d;
    let '(d, rc) := x in
    let repubs := if rc =? SUCCEED then <[p := d]> (cr_repubs (pt_cr s)) else delete p (cr_repubs (pt_cr s)) in
    inr (with_cr s (with_repubs (pt_cr s) repubs), rc).

(** [cr->rules[cvector_size(cr->rules) - 1] = *new_rule] *)
Definition put_sqlite (params : list (option bytes * json)) (s : put_state) (r : rule)
  : run_error + (put_state * Z) :=
  if negb (bool_decide (ru_type r = RULE_FORWORD_SQLITE)) then inr (s, REQ_PARAM_ERROR)
  else
    x ←! put_rules_sqlite_parse params s;
    let '(s, rc) := x in
    r ←! new_rule s;
    l ←! set_last (fun _ => r) (cr_rules (pt_cr s));
    inr (with_cr s (with_rules (pt_cr s) l), rc).

Fixpoint put_rules_update_action (actions : list (option bytes * json)) (s : put_state)
  : run_error + (put_state * Z) :=
  match actions with
  | [] => inr (s, SUCCEED)
  | (_, action) :: actions' =>
      name ←! or_null (get_string action (lit "name"));
      let params := children (json_item action (lit "params")) in
      r ←! new_rule s;
      x ←! (if is_key name (lit "repub") then put_repub params s r
            else if is_key name (lit "sqlite") then put_sqlite params s r
            else if is_key name (lit "mysql") then put_db MYSQL params s r
            else if is_key name (lit "postgresql") then put_db POSTGRESQL params s r
            else if is_key name (lit "timescaledb") then put_db TIMESCALEDB params s r
            else inr (s, REQ_PARAM_ERROR));
      let '(s, rc) := x in
      if negb (rc =? SUCCEED) then inr (s, rc) else put_rules_update_action actions' s
  end.

(** The new rule: parsed from "rawsql" to replace rule [i], or rule [i]. *)
Definition put_begin (cr : conf_rule) (i : nat) (old : rule) (req : json)
  : run_error + (put_state * list put_out) :=
  match json_item req (lit "rawsql") with
  | Some jso_sql =>
      rawsql ←! or_null (json_string jso_sql);
      l ←! set_last (take_over old rawsql (ru_rule_id old)) (rule_sql_parse (cr_rules cr) rawsql);
      r ←! or_null (last l);
      inr (PutState (with_rules cr (delete i l)) None r, [])
  | None => inr (PutState cr (Some i) old, match ru_repub old with Some p => [CloseSock p] | None => [] end)
  end.

(** An enabled rule is connected again after its actions were changed; the
    results are ignored. *)
Definition put_connect (e : rest_env) (s : put_state) (r : rule) : run_error + (put_state * list put_out) :=
  if negb (ru_enabled r) then inr (s, [])
  else
    match ru_type r with
    | RULE_FORWORD_REPUB => p ←! or_null (ru_repub r); inr (s, [StartClient p])
    | RULE_FORWORD_SQLITE =>
        x ←! or_null (nanomq_client_sqlite (en_open e) (en_exec e) (pt_cr s) true);
        let '(cr, _, sqls) := x in inr (with_cr s cr, [CreateTables sqls])
    | _ => inr (s, [])
    end.

Definition put_rules (e : rest_env) (cr : conf_rule) (req : option json) (rule_id : bytes)
  : run_error + (conf_rule * list put_out * rules_reply) :=
  match (req ← req; if json_is_object req then Some req else None) with
  | None => inr (cr, [], ErrorReply NNG_HTTP_STATUS_BAD_REQUEST REQ_PARAMS_JSON_FORMAT_ILLEGAL)
  | Some req =>
      let id := scan_id rule_id in
      match (i ← find_rule id (cr_rules cr) 0; old ← cr_rules cr !! i; Some (i, old)) with
      | None => inr (cr, [], ErrorReply NNG_HTTP_STATUS_BAD_REQUEST REQ_PARAM_ERROR)
      | Some (i, old) =>
          x ←! put_begin cr i old req;
          let '(s, outs) := x in
          let s := match json_item req (lit "enabled") with
                   | Some b => write_new (set_enabled (bool_decide (json_bool b = Some true))) s
                   | None => s
                   end in
          match json_item req (lit "actions") with
          | None => r ←! new_rule s; inr (pt_cr s, outs, data_of r)
          | Some actions =>
              y ←! put_rules_update_action (json_children actions) s;
              let '(s, rc) := y in
              if negb (rc =? SUCCEED) then inr (pt_cr s, outs, ErrorReply NNG_HTTP_STATUS_BAD_REQUEST rc)
              else
                r ←! new_rule s;
                z ←! put_connect e s r;
                let '(s, outs') := z in
                r ←! new_rule s;
                inr (pt_cr s, outs ++ outs', data_of r)
          end
      end
  end.

(** ** The configuration stays consistent *)

Definition ids_ok (ids : nat) (l : list rule) : Prop :=
  NoDup (map ru_rule_id l) /\
  Forall (fun r => exists n, (n < ids)%nat /\ ru_rule_id r = rule_generate_rule_id n) l.

(** Every rule has the object its type needs, objects are neither shared nor
    leaked, and the ids are distinct and were generated. *)
Definition rules_ok (cr : conf_rule) : Prop := heap_ok cr /\ ids_ok (cr_ids cr) (cr_rules cr).

Lemma set_last_snoc f (l : list rule) r : set_last f (l ++ [r]) = inr (l ++ [f r]).
Proof.
  unfold set_last. rewrite last_snoc, length_app. cbn [length].
  replace (length l + 1 - 1)%nat with (length l) by lia. by rewrite take_app_length.
Qed.

Lemma bind_inr {A B} (x : run_error + A) (f : A -> run_error + B) b :
  bind_run x f = inr b -> exists a, x = inr a /\ f a = inr b.
Proof. destruct x; [done|]. eauto. Qed.

Lemma or_null_inr {A} (x : option A) a : or_null x = inr a -> x = Some a.
Proof. destruct x; [by intros [= ->]|done]. Qed.

Lemma ids_ok_sub ids l1 r l2 : ids_ok ids (l1 ++ r :: l2) -> ids_ok ids (l1 ++ l2).
Proof.
  intros [Hn Hf]. split.
  - rewrite map_app in *. cbn [map] in Hn. eapply sublist_NoDup; [exact Hn|].
    apply sublist_app; [done|]. by constructor.
  - apply Forall_app in Hf as [H1 H2]. apply Forall_cons in H2 as [_ H2]. by apply Forall_app.
Qed.

Lemma ids_ok_le ids ids' l : (ids <= ids')%nat -> ids_ok ids l -> ids_ok ids' l.
Proof.
  intros Hle [Hn Hf]. split; [done|]. eapply Forall_impl; [exact Hf|]. intros r (n & ? & ?). exists n.
  split; [lia|done].
Qed.

(** ** Finding and deleting *)

Lemma find_rule_Some id l i j : find_rule id l i = Some j ->
  exists l1 r l2, l = l1 ++ r :: l2 /\ j = (i + length l1)%nat /\ ru_rule_id r = id /\
    Forall (fun r => ru_rule_id r <> id) l1.
Proof.
  revert i. induction l as [|r l IH]; intros i; cbn [find_rule]; [done|].
  destruct (Z.eqb_spec (ru_rule_id r) id) as [E|E].
  - intros [= <-]. exists [], r, l. split_and!; [done|cbn; lia|done|constructor].
  - intros (l1 & r' & l2 & -> & -> & Hid & Hf)%IH. exists (r :: l1), r', l2.
    split_and!; [done|cbn; lia|done|by constructor].
Qed.

Lemma find_rule_None id l i : find_rule id l i = None <-> id ∉ map ru_rule_id l.
Proof.
  revert i. induction l as [|r l IH]; intros i; cbn [find_rule map].
  - split; [intros _; apply not_elem_of_nil|done].
  - rewrite not_elem_of_cons. destruct (Z.eqb_spec (ru_rule_id r) id) as [E|E].
    + split; [done|]. intros [? _]. congruence.
    + rewrite IH. naive_solver.
Qed.

(** With distinct ids a rule is found at its own place. *)
Lemma find_rule_at l1 r l2 : NoDup (map ru_rule_id (l1 ++ r :: l2)) ->
  find_rule (ru_rule_id r) (l1 ++ r :: l2) 0 = Some (length l1).
Proof.
  intros Hn. destruct (find_rule _ _ 0) as [j|] eqn:E.
  - apply find_rule_Some in E as (m1 & r' & m2 & Hl & -> & Hid & Hf). f_equal. cbn.
    assert (map ru_rule_id (l1 ++ r :: l2) !! length l1 = Some (ru_rule_id r)) as H1
      by (rewrite map_app, lookup_app_r, length_map, Nat.sub_diag by (by rewrite length_map); done).
    assert (map ru_rule_id (l1 ++ r :: l2) !! length m1 = Some (ru_rule_id r)) as H2
      by (rewrite Hl, map_app, lookup_app_r, length_map, Nat.sub_diag by (by rewrite length_map);
          cbn; by rewrite Hid).
    symmetry. eapply NoDup_lookup; eauto.
  - apply find_rule_None in E. destruct E. rewrite map_app. set_solver.
Qed.

Lemma delete_middle {A} (l1 : list A) x l2 : delete (length l1) (l1 ++ x :: l2) = l1 ++ l2.
Proof. induction l1 as [|y l1 IH]; [done|]. cbn. by f_equal. Qed.

Lemma free_target_freed cr l1 r l2 : heap_ok cr -> cr_rules cr = l1 ++ r :: l2 ->
  exists cr', free_target cr r = inr cr' /\ with_rules cr' (l1 ++ l2) = freed cr r (l1 ++ l2) /\
    cr_rules cr' = cr_rules cr.
Proof.
  intros Hok Hl. assert (r ∈ cr_rules cr) as Hin by (rewrite Hl; set_solver). unfold free_target, freed.
  destruct (repub_ptr r) as [p|] eqn:Er.
  - destruct (repub_ptr_alive _ _ _ Hok Hin Er) as [x ->]. cbn [or_null bind_run]. eexists. split; [done|].
    assert (db_ptr r = None) as -> by (unfold repub_ptr in Er; unfold db_ptr; by destruct (ru_type r)).
    by destruct cr.
  - destruct (db_ptr r) as [p|] eqn:Ed.
    + destruct (db_ptr_alive _ _ _ Hok Hin Ed) as [x ->]. cbn [or_null bind_run]. eexists. split; [done|].
      by destruct cr.
    + eexists. split; [done|]. by destruct cr.
Qed.

(** DELETE answers every request, keeps the configuration consistent, removes
    exactly the rule with the id, and after it the id is not found. *)
Theorem delete_rules_correct cr rule_id : rules_ok cr ->
  exists cr' reply, delete_rules cr (Some rule_id) = inr (cr', reply) /\ rules_ok cr' /\
    cr_rules cr' = List.filter (fun r => negb (ru_rule_id r =? scan_id rule_id)) (cr_rules cr) /\
    reply = (if bool_decide (scan_id rule_id ∈ map ru_rule_id (cr_rules cr)) then CodeReply SUCCEED
             else ErrorReply NNG_HTTP_STATUS_BAD_REQUEST MISSING_KEY_REQUEST_PARAMES) /\
    get_rules cr' (Some rule_id) = ErrorReply NNG_HTTP_STATUS_BAD_REQUEST MISSING_KEY_REQUEST_PARAMES.
Proof using PS L.
  intros [Hh Hi]. unfold delete_rules. set (id := scan_id rule_id). pose proof Hi as [Hn Hb].
  assert (forall l, id ∉ map ru_rule_id l -> List.filter (fun r => negb (ru_rule_id r =? id)) l = l) as Hkeep.
  { induction l as [|r l IH]; cbn; [done|]. rewrite not_elem_of_cons. intros [Hne Hl].
    rewrite (proj2 (Z.eqb_neq _ _) (not_eq_sym Hne)). cbn [negb]. by rewrite IH. }
  assert (forall cr', id ∉ map ru_rule_id (cr_rules cr') -> get_rules cr' (Some rule_id)
    = ErrorReply NNG_HTTP_STATUS_BAD_REQUEST MISSING_KEY_REQUEST_PARAMES) as Hget.
  { intros cr' Hni. unfold get_rules. fold id. by rewrite (proj2 (find_rule_None id _ 0) Hni). }
  destruct (find_rule id (cr_rules cr) 0) as [i|] eqn:Ef.
  - apply find_rule_Some in Ef as (l1 & r & l2 & Hl & -> & Hid & Hf). cbn [Nat.add].
    assert (cr_rules cr !! length l1 = Some r) as -> by (by rewrite Hl, lookup_app_r, Nat.sub_diag).
    cbn [or_null bind_run]. destruct (free_target_freed cr l1 r l2 Hh Hl) as (cr1 & -> & Hfr & Hr1).
    cbn [bind_run]. rewrite Hr1, Hl, delete_middle, Hfr. eexists _, _. split; [done|].
    rewrite Hl in Hn. rewrite map_app in Hn. cbn [map] in Hn. rewrite Hid in Hn.
    apply NoDup_app in Hn as (Hn1 & Hd & Hn2). apply NoDup_cons in Hn2 as [Hn2 _].
    assert (id ∉ map ru_rule_id l1) as Hn1' by (intros ?; eapply Hd; [done|by left]).
    split_and!.
    + split; cbn.
      * apply heap_ok_free. rewrite <- Hl. by destruct cr.
      * apply (ids_ok_sub _ _ r). by rewrite <- Hl.
    + cbn. rewrite List.filter_app. cbn [List.filter]. rewrite Hid, Z.eqb_refl. cbn [negb].
      by rewrite !Hkeep.
    + rewrite bool_decide_eq_true_2; [done|]. rewrite map_app. cbn [map]. rewrite Hid. apply elem_of_app. right. by left.
    + apply Hget. cbn. rewrite map_app, not_elem_of_app. done.
  - apply find_rule_None in Ef. eexists _, _. split; [done|]. split_and!; [done|by rewrite Hkeep| |by apply Hget].
    by rewrite bool_decide_eq_false_2.
Qed.

Section Laws.

Context `{RL : !RuleLibLaws}.

Lemma add_rule_inv cr rawsql f cr' : add_rule cr rawsql f = inr cr' ->
  exists sql r, cr' = next_id (with_rules cr (cr_rules cr ++ [f sql (rule_generate_rule_id (cr_ids cr)) r])).
Proof.
  unfold add_rule. intros (sql & _ & (l & Hl & [= <-])%bind_inr)%bind_inr.
  destruct (parse_appends (cr_rules cr) sql) as [r Hr]. rewrite Hr, set_last_snoc in Hl. injection Hl as <-. eauto.
Qed.

Lemma ids_ok_add ids l r : ids_ok ids l -> ru_rule_id r = rule_generate_rule_id ids -> ids_ok (S ids) (l ++ [r]).
Proof.
  intros [Hn Hf] Hr. split.
  - rewrite map_app. apply NoDup_app. split_and!; [done| |apply NoDup_singleton]. intros i Hi Hi'.
    apply list_elem_of_singleton in Hi' as ->. apply list_elem_of_fmap in Hi as (r' & E & Hr').
    destruct (proj1 (Forall_forall _ _) Hf r' Hr') as (n & Hlt & Hn'). rewrite Hr, Hn' in E.
    apply ids_distinct in E. lia.
  - apply Forall_app. split.
    + eapply Forall_impl; [exact Hf|]. intros r' (n & ? & ?). exists n. split; [lia|done].
    + apply Forall_singleton. exists ids. split; [lia|done].
Qed.

Lemma fresh_none {A} (h : gmap nat A) : h !! fresh (dom h) = None.
Proof. apply not_elem_of_dom, is_fresh. Qed.

Lemma post_rules_repub_ok e cr params rawsql cr' rc :
  rules_ok cr -> post_rules_repub e cr params rawsql = inr (cr', rc) -> rules_ok cr'.
Proof.
  intros [Hh Hi]. unfold post_rules_repub. intros ([repub rv] & _ & H)%bind_inr. cbn [fst] in H.
  destruct (rb_address repub), (rb_topic repub); [|by inv_some..]. destruct (negb _); [by inv_some|].
  apply bind_inr in H as (cr1 & (sql & r & ->)%add_rule_inv & [= <- <-]). destruct Hh as (Ht & Hr & Hd).
  split; cbn.
  - split_and!; cbn.
    + apply Forall_app. split; [done|]. apply Forall_singleton. cbn. by eexists.
    + rewrite omap_app. cbn. apply owns_alloc; [apply fresh_none|done].
    + rewrite omap_app. cbn. by rewrite app_nil_r.
  - by apply ids_ok_add.
Qed.

Lemma pop_back_snoc cr l r : cr_rules cr = l ++ [r] -> pop_back cr = with_rules cr l.
Proof.
  intros Hl. unfold pop_back. rewrite Hl, length_app. cbn [length].
  replace (length l + 1 - 1)%nat with (length l) by lia. by rewrite take_app_length.
Qed.

Lemma add_sqlite_ok cr rawsql table cr' : rules_ok cr -> add_rule cr rawsql (as_sqlite table) = inr cr' ->
  rules_ok cr' /\ rules_ok (pop_back cr').
Proof.
  intros [(Ht & Hr & Hd) Hi] (sql & r & ->)%add_rule_inv. split.
  - split; cbn; [split_and!; cbn|by apply ids_ok_add].
    + apply Forall_app. split; [done|]. apply Forall_singleton. cbn. by eexists.
    + rewrite omap_app. cbn. by rewrite app_nil_r.
    + rewrite omap_app. cbn. by rewrite app_nil_r.
  - erewrite pop_back_snoc by done. split; [done|]. eapply ids_ok_le; [|done]. cbn. lia.
Qed.

Lemma client_sqlite_rules opens exec cr il cr' rc l :
  nanomq_client_sqlite opens exec cr il = Some (cr', rc, l) -> cr' = cr \/ cr' = with_rdb cr.
Proof.
  unfold nanomq_client_sqlite. destruct (_ && _); [intros [= <- _ _]; by left|].
  destruct (sqlite_loop _ _ _ _ _) as [[]|]; [|done]. cbn. intros [= <- _ _]. by right.
Qed.

Lemma sqlite_params_ok e cr params rawsql cr' rc :
  rules_ok cr -> sqlite_params e cr params rawsql = inr (cr', rc) -> rules_ok cr'.
Proof.
  revert cr. induction params as [|[key item] params IH]; intros cr Hok; cbn [sqlite_params].
  { by intros [= <- _]. }
  intros (k & _ & H)%bind_inr. destruct (is_key k (lit "table")); [|by apply (IH cr)].
  apply bind_inr in H as (t & _ & (ex & _ & H)%bind_inr). destruct ex; [by inv_some|].
  apply bind_inr in H as (cr1 & Ha & (x & Hc & H)%bind_inr).
  apply or_null_inr in Hc. destruct x as [[cr2 rc2] l].
  destruct (add_sqlite_ok _ _ _ _ Hok Ha) as [H1 H2].
  assert (rules_ok cr2 /\ rules_ok (pop_back cr2)) as [H3 H4].
  { destruct (client_sqlite_rules _ _ _ _ _ _ _ Hc) as [-> | ->]; [done|]. by split. }
  destruct (rc2 =? 1); [by inv_some|]. by apply (IH cr2).
Qed.

Lemma post_rules_db_ok k e cr params rawsql cr' rc :
  rules_ok cr -> post_rules_db k e cr params rawsql = inr (cr', rc) -> rules_ok cr'.
Proof.
  intros [(Ht & Hr & Hd) Hi]. unfold post_rules_db. intros ([d rv] & _ & H)%bind_inr.
  destruct (negb (rv =? SUCCEED)); [by inv_some|]. destruct (negb (rule_db_check d)); [by inv_some|].
  apply bind_inr in H as (cr1 & (sql & r & ->)%add_rule_inv & ([cr2 rc2] & Hc & H)%bind_inr).
  set (p := fresh (dom (cr_dbs cr))) in *. set (r' := as_db _ _ _ _ _) in *.
  set (cr1 := next_id _) in *. assert (ru_type r' = kind_type k) as Hk by done.
  assert (ru_db k r' = Some p) as Hp by (by destruct k).
  destruct (db_ptr_kind k r' Hk) as [Hptr Hnr].
  assert (rules_ok cr1) as [Hh1 Hi1].
  { split; cbn.
    - split_and!; cbn.
      + apply Forall_app. split; [done|]. apply Forall_singleton. unfold typed. rewrite Hk.
        destruct k; cbn; by eexists.
      + rewrite omap_app. cbn. rewrite Hnr. by rewrite app_nil_r.
      + rewrite omap_app. cbn. rewrite Hptr, Hp. apply owns_alloc; [apply fresh_none|done].
    - by apply ids_ok_add. }
  assert (nanomq_client_db k (en_db e) cr1 true = inr (cr2, rc2)) as Hc' by (by destruct k).
  destruct (nanomq_client_db_last k (en_db e) cr1 (cr_rules cr) r' cr2 rc2) as [[-> ->]|[-> ->]]; [done..| |].
  - cbn in H. by inv_some.
  - change (-1 =? -1) with true in H. injection H as <- _. split.
    + pose proof (heap_ok_free cr1 (cr_rules cr) r' [] Hh1) as Hf. by rewrite app_nil_r in Hf.
    + pose proof (ids_ok_sub _ (cr_rules cr) r' [] Hi1) as Hf. by rewrite app_nil_r in Hf.
Qed.

Lemma post_action_ok e cr action rawsql cr' rc :
  rules_ok cr -> post_action e cr action rawsql = inr (cr', rc) -> rules_ok cr'.
Proof.
  intros Hok. unfold post_action. intros (name & _ & H)%bind_inr.
  destruct (is_key name _); [by eapply post_rules_repub_ok|].
  destruct (is_key name _).
  { unfold post_rules_sqlite in H. apply bind_inr in H as ([cr1 rc1] & Hs & H).
    apply sqlite_params_ok in Hs; [|done]. destruct (negb _); by inv_some. }
  do 3 (destruct (is_key name _); [by eapply post_rules_db_ok|]). by inv_some.
Qed.

Lemma post_actions_ok e cr actions rawsql cr' rc :
  rules_ok cr -> post_actions e cr actions rawsql = inr (cr', rc) -> rules_ok cr'.
Proof.
  revert cr. induction actions as [|[k a] actions IH]; intros cr Hok; cbn [post_actions]; [by intros [= <- _]|].
  intros ([cr1 rc1] & Ha%post_action_ok & H)%bind_inr; [|done]. destruct (negb _); [by inv_some|]. by apply (IH cr1).
Qed.

(** POST keeps the configuration consistent, whatever it answers. *)
Lemma post_rules_ok e cr req cr' reply : rules_ok cr -> post_rules e cr req = inr (cr', reply) -> rules_ok cr'.
Proof.
  intros Hok. unfold post_rules. destruct req as [req|]; [|by intros [= <- _]].
  destruct (negb (json_is_object req)); [by intros [= <- _]|].
  intros ([cr1 rc1] & Ha%post_actions_ok & H)%bind_inr; [|done]. destruct (negb _); [by inv_some|].
  apply bind_inr in H as (r & _ & [= <- _]). done.
Qed.

(** *** PUT *)

(** The same rule as far as ids and objects are concerned. *)
Definition same_owner (r r' : rule) : Prop :=
  ru_type r' = ru_type r /\ repub_ptr r' = repub_ptr r /\ db_ptr r' = db_ptr r /\ ru_rule_id r' = ru_rule_id r.

Lemma omap_replace {A B} (f : A -> option B) (l1 l2 : list A) x y : f y = f x ->
  omap f (l1 ++ y :: l2) = omap f (l1 ++ x :: l2).
Proof. intros E. rewrite !omap_app. cbn [omap list_omap]. by rewrite E. Qed.

Lemma rules_ok_replace cr l1 r l2 r' : rules_ok cr -> cr_rules cr = l1 ++ r :: l2 -> same_owner r r' -> typed r' ->
  rules_ok (with_rules cr (l1 ++ r' :: l2)).
Proof.
  intros [(Ht & Hr & Hd) [Hn Hb]] Hl (Hy & Hpr & Hpd & Hid) Hty. rewrite Hl in *.
  apply Forall_app in Ht as [Ht1 Ht2]. apply Forall_cons in Ht2 as [_ Ht2].
  apply Forall_app in Hb as [Hb1 Hb2]. apply Forall_cons in Hb2 as [Hb Hb2]. split; split_and!; cbn.
  - apply Forall_app. split; [done|]. by constructor.
  - by rewrite (omap_replace _ _ _ r).
  - by rewrite (omap_replace _ _ _ r).
  - rewrite map_app in *. cbn [map] in *. by rewrite Hid.
  - apply Forall_app. split; [done|]. constructor; [by rewrite Hid|done].
Qed.

Lemma rules_ok_move cr l1 r l2 : rules_ok (with_rules cr (l1 ++ r :: l2)) -> rules_ok (with_rules cr ((l1 ++ l2) ++ [r])).
Proof.
  assert (l1 ++ r :: l2 ≡ₚ (l1 ++ l2) ++ [r]) as Hp
    by (rewrite <- app_assoc; apply Permutation_app_head, Permutation_cons_append).
  intros [(Ht & Hr & Hd) [Hn Hb]]. cbn in *. split; split_and!; cbn.
  - by rewrite <- Hp.
  - eapply owns_perm; [|exact Hr]. by rewrite Hp.
  - eapply owns_perm; [|exact Hd]. by rewrite Hp.
  - eapply NoDup_Permutation_proper; [|exact Hn]. by rewrite Hp.
  - by rewrite <- Hp.
Qed.

(** The place of the new rule in the array. *)
Definition live (s : put_state) : nat :=
  match pt_at s with Some i => i | None => (length (cr_rules (pt_cr s)) - 1)%nat end.

(** [new_rule] is a rule of the array or a copy of its last one. *)
Definition put_ok (s : put_state) : Prop :=
  rules_ok (pt_cr s) /\
  exists l1 r0 l2 r, cr_rules (pt_cr s) = l1 ++ r0 :: l2 /\ length l1 = live s /\ new_rule s = inr r /\
    same_owner r0 r /\ typed r.

Lemma same_owner_refl r : same_owner r r.
Proof. by split_and!. Qed.

Lemma write_new_ok f s : (forall r, same_owner r (f r) /\ (typed r -> typed (f r))) -> put_ok s -> put_ok (write_new f s).
Proof.
  intros Hf (Hok & l1 & r0 & l2 & r & Hl & Hlen & Hnew & Ho & Ht). unfold write_new. destruct s as [cr [i|] c].
  - cbn in *. rewrite Hl, <- Hlen in *. rewrite lookup_app_r, Nat.sub_diag in Hnew by done. cbn in Hnew.
    injection Hnew as <-. destruct (Hf r0) as [Hs Hy].
    assert (alter f (length l1) (l1 ++ r0 :: l2) = l1 ++ f r0 :: l2) as -> by (by rewrite alter_app_r_alt, Nat.sub_diag).
    split; cbn.
    + eapply rules_ok_replace; eauto.
    + exists l1, (f r0), l2, (f r0). split_and!; [done|done| |done..|by apply Hy].
      unfold new_rule. cbn. by rewrite lookup_app_r, Nat.sub_diag.
  - cbn in *. injection Hnew as ->. destruct (Hf r) as [(H1 & H2 & H3 & H4) Hy]. destruct Ho as (K1 & K2 & K3 & K4).
    split; [done|]. exists l1, r0, l2, (f r). split_and!; [done..| |by apply Hy]. split_and!; congruence.
Qed.

Lemma set_enabled_owner b r : same_owner r (set_enabled b r) /\ (typed r -> typed (set_enabled b r)).
Proof. by destruct r. Qed.

Lemma set_table_owner t r : same_owner r (set_table t r) /\ (typed r -> typed (set_table t r)).
Proof. destruct r as [? []]; split; try done. intros _. by eexists. Qed.

Lemma take_over_owner old sql r : typed old -> same_owner old (take_over old sql (ru_rule_id old) r) /\
  typed (take_over old sql (ru_rule_id old) r).
Proof. destruct old as [? []]; intros Ht; by split. Qed.

Lemma put_begin_ok cr i old req s outs : rules_ok cr -> cr_rules cr !! i = Some old ->
  put_begin cr i old req = inr (s, outs) ->
  put_ok s /\ match json_item req (lit "rawsql") with Some _ => pt_at s = None | None => pt_at s = Some i end.
Proof.
  intros Hok Hi. apply list_elem_of_split_length in Hi as (l1 & l2 & Hl & ->).
  assert (typed old) as Hty.
  { destruct Hok as [(Ht & _) _]. rewrite Hl in Ht. apply Forall_app in Ht as [_ Ht]. by apply Forall_cons in Ht as [? _]. }
  unfold put_begin. destruct (json_item req (lit "rawsql")) as [j|].
  - intros (sql & _ & (l & Hset & (r & Hlast & [= <- _])%bind_inr)%bind_inr)%bind_inr. split; [|done].
    destruct (parse_appends (cr_rules cr) sql) as [x Hx]. rewrite Hx, set_last_snoc in Hset.
    injection Hset as <-. apply or_null_inr in Hlast. rewrite last_snoc in Hlast. injection Hlast as <-.
    rewrite Hl. change ((l1 ++ old :: l2) ++ ?r) with ((l1 ++ old :: l2) ++ r).
    rewrite <- app_assoc. cbn [app]. rewrite delete_middle, app_assoc.
    destruct (take_over_owner old sql x Hty) as [Ho Ht]. split; cbn.
    + apply rules_ok_move. eapply rules_ok_replace; eauto.
    + eexists (l1 ++ l2), _, [], _. split_and!; [done| |done|apply same_owner_refl|done].
      unfold live. cbn [pt_at pt_cr cr_rules with_rules]. rewrite !length_app. cbn [length]. lia.
  - intros [= <- _]. split; [|done]. split; [done|]. exists l1, old, l2, old. cbn.
    split_and!; [done|done| |apply same_owner_refl|done]. unfold new_rule. cbn.
    by rewrite Hl, lookup_app_r, Nat.sub_diag.
Qed.

(** A SQLite rule that is written back to the end of the array is the last. *)
Definition at_end (s : put_state) : Prop :=
  forall r, new_rule s = inr r -> ru_type r = RULE_FORWORD_SQLITE -> S (live s) = length (cr_rules (pt_cr s)).

Lemma put_ok_cr s cr : put_ok s -> cr_rules cr = cr_rules (pt_cr s) -> rules_ok cr ->
  put_ok (with_cr s cr) /\ (at_end s -> at_end (with_cr s cr)).
Proof.
  intros (_ & l1 & r0 & l2 & r & Hl & Hlen & Hnew & Ho) Hr Hok.
  assert (new_rule (with_cr s cr) = new_rule s) as Hn by (unfold new_rule; cbn; by rewrite Hr).
  assert (live (with_cr s cr) = live s) as Hlv by (unfold live; cbn; by rewrite Hr). split.
  - split; [done|]. exists l1, r0, l2, r. rewrite Hn, Hlv. cbn. by rewrite Hr.
  - intros He r' Hr'. rewrite Hlv. cbn. rewrite Hr. apply He. by rewrite <- Hn.
Qed.

(** A key of a parameter that the parser of the action knows. *)
Definition known_key (keys : list bytes) (param : option bytes * json) : Prop :=
  forall key, fst param = Some key -> exists k, k ∈ keys /\ is_key key k = true.

Definition repub_keys : list bytes :=
  [lit "topic"; lit "address"; lit "proto_ver"; lit "keepalive"; lit "clientid"; lit "username"; lit "password";
   lit "clean_start"].

Definition db_keys : list bytes := [lit "table"; lit "username"; lit "password"; lit "host"].

Lemma repub_param_known key item r : (exists k, k ∈ repub_keys /\ is_key key k = true) ->
  repub_param key item r <> inr None.
Proof.
  intros (k & Hk & Ek). destruct r. unfold repub_param, repub_keys in *.
  repeat match goal with
         | |- context [if ?b then _ else _] => destruct b eqn:?; [try destruct (json_string item); discriminate|]
         end.
  apply list_elem_of_In in Hk. repeat (destruct Hk as [<- | Hk]; [congruence|]). destruct Hk.
Qed.

Lemma db_param_known key item d : (exists k, k ∈ db_keys /\ is_key key k = true) -> db_param key item d <> inr None.
Proof.
  intros (k & Hk & Ek). destruct d. unfold db_param, db_keys in *.
  repeat match goal with
         | |- context [if ?b then _ else _] => destruct b eqn:?; [try destruct (json_string item); discriminate|]
         end.
  apply list_elem_of_In in Hk. repeat (destruct Hk as [<- | Hk]; [congruence|]). destruct Hk.
Qed.

Lemma repub_params_known params r r' rc : Forall (known_key repub_keys) params ->
  put_rules_repub_parse params r = inr (r', rc) -> rc = SUCCEED.
Proof.
  intros Hf. revert r. induction Hf as [|[key item] params Hk _ IH]; intros r; cbn; [by intros [= _ <-]|].
  intros (k & Hkey%or_null_inr & ([x|] & Hx & H)%bind_inr)%bind_inr; [by eapply IH|].
  by destruct (repub_param_known k item r (Hk k Hkey)).
Qed.

Lemma db_params_known params d d' rc : Forall (known_key db_keys) params ->
  db_params params d = inr (d', rc) -> rc = SUCCEED.
Proof.
  intros Hf. revert d. induction Hf as [|[key item] params Hk _ IH]; intros d; cbn; [by intros [= _ <-]|].
  intros (k & Hkey%or_null_inr & ([x|] & Hx & H)%bind_inr)%bind_inr; [by eapply IH|].
  by destruct (db_param_known k item d (Hk k Hkey)).
Qed.

Lemma put_repub_ok params s r s' rc : put_ok s -> new_rule s = inr r -> Forall (known_key repub_keys) params ->
  put_repub params s r = inr (s', rc) -> put_ok s' /\ (at_end s -> at_end s').
Proof.
  intros Hs Hnew Hk. unfold put_repub. destruct (decide (ru_type r = RULE_FORWORD_REPUB)) as [E|E];
    [rewrite bool_decide_eq_true_2 by done|rewrite bool_decide_eq_false_2 by done; by intros [= <- _]].
  cbn [negb]. intros (p & Hp & (d & Hd & ([d' rc'] & Hx & H)%bind_inr)%bind_inr)%bind_inr.
  apply repub_params_known in Hx as ->; [|done]. injection H as <- _. cbn [Z.eqb]. apply or_null_inr in Hd. apply put_ok_cr; [done|done|].
  destruct Hs as ([(Ht & Hr & Hdb) Hi] & _). split; [|done]. split_and!; cbn; [done| |done].
  apply owns_update; [by eexists|done].
Qed.

Lemma put_db_ok k params s r s' rc : put_ok s -> new_rule s = inr r -> Forall (known_key db_keys) params ->
  put_db k params s r = inr (s', rc) -> put_ok s' /\ (at_end s -> at_end s').
Proof.
  intros Hs Hnew Hk. unfold put_db. destruct (decide (ru_type r = kind_type k)) as [E|E];
    [rewrite bool_decide_eq_true_2 by done|rewrite bool_decide_eq_false_2 by done; by intros [= <- _]].
  cbn [negb]. intros (p & Hp & (d & Hd & ([d' rc'] & Hx & H)%bind_inr)%bind_inr)%bind_inr.
  assert (rc' = SUCCEED) as -> by (destruct k; by eapply db_params_known).
  injection H as <- _. cbn [Z.eqb]. apply or_null_inr in Hd. apply put_ok_cr; [done|done|].
  destruct Hs as ([(Ht & Hr & Hdb) Hi] & _). split; [|done]. split_and!; cbn; [done|done|].
  apply owns_update; [by eexists|done].
Qed.

Lemma write_new_shape f s : live (write_new f s) = live s /\
  length (cr_rules (pt_cr (write_new f s))) = length (cr_rules (pt_cr s)).
Proof. destruct s as [cr [i|] c]; cbn; [|done]. split; [done|]. by rewrite length_alter. Qed.

Lemma sqlite_parse_ok params s s' rc : put_ok s -> put_rules_sqlite_parse params s = inr (s', rc) ->
  put_ok s' /\ live s' = live s /\ length (cr_rules (pt_cr s')) = length (cr_rules (pt_cr s)).
Proof.
  revert s. induction params as [|[key item] params IH]; intros s Hs; cbn [put_rules_sqlite_parse].
  { by intros [= <- _]. }
  intros (k & _ & H)%bind_inr. destruct (is_key k _); [|by inv_some].
  apply bind_inr in H as (t & _ & H). destruct (write_new_shape (set_table t) s) as [<- <-]. apply IH; [|done].
  apply write_new_ok; [apply set_table_owner|done].
Qed.

Lemma put_sqlite_ok params s r s' rc : put_ok s -> at_end s -> new_rule s = inr r ->
  put_sqlite params s r = inr (s', rc) -> put_ok s' /\ at_end s'.
Proof.
  intros Hs He Hnew. unfold put_sqlite. destruct (decide (ru_type r = RULE_FORWORD_SQLITE)) as [E|E];
    [rewrite bool_decide_eq_true_2 by done|rewrite bool_decide_eq_false_2 by done; cbn [negb]; by intros [= <- _]].
  cbn [negb]. intros ([s1 rc1] & Hp & (r1 & Hr1 & (l & Hl & [= <- _])%bind_inr)%bind_inr)%bind_inr.
  apply sqlite_parse_ok in Hp as (Hs1 & Hlv1 & Hln1); [|done..].
  pose proof (He r Hnew E) as He1. rewrite <- Hlv1, <- Hln1 in He1.
  destruct Hs1 as (Hok & l1 & r0 & l2 & r2 & Hl1 & Hlen & Hnew1 & Ho & Hty).
  rewrite Hr1 in Hnew1. injection Hnew1 as <-. assert (l2 = []) as ->.
  { apply length_zero_iff_nil. rewrite Hl1, length_app in He1. cbn [length] in He1. lia. }
  rewrite Hl1, set_last_snoc in Hl. injection Hl as <-.
  set (s2 := with_cr s1 (with_rules (pt_cr s1) (l1 ++ [r1]))).
  assert (new_rule s2 = inr r1) as Hn2.
  { unfold new_rule in *. unfold live in Hlen. destruct s1 as [c1 [i|] cp]; cbn in *; [|done].
    by rewrite <- Hlen, lookup_app_r, Nat.sub_diag. }
  assert (live s2 = live s1) as Hlv.
  { unfold live, s2. cbn. destruct (pt_at s1); [done|]. by rewrite Hl1, !length_app. }
  split.
  - split; [eapply rules_ok_replace; eauto|]. exists l1, r1, [], r1. rewrite Hlv.
    split_and!; [done..|apply same_owner_refl|done].
  - intros r' Hr' _. rewrite Hlv, He1, Hl1. cbn. by rewrite !length_app.
Qed.

(** An action whose parameters are all known to the parser that its name
    chooses; the parser of SQLite refuses an unknown key without freeing. *)
Definition known_action (action : option bytes * json) : Prop :=
  forall name, get_string (snd action) (lit "name") = Some name ->
  let params := children (json_item (snd action) (lit "params")) in
  if is_key name (lit "repub") then Forall (known_key repub_keys) params
  else if is_key name (lit "sqlite") then True
  else Forall (known_key db_keys) params.

(** Whether or not the actions are accepted. *)
Lemma put_actions_ok actions s s' rc : put_ok s -> at_end s -> Forall known_action actions ->
  put_rules_update_action actions s = inr (s', rc) -> put_ok s'.
Proof.
  intros Hs He Hf. revert s Hs He.
  induction Hf as [|[k a] actions Hk _ IH]; intros s Hs He; cbn [put_rules_update_action].
  { by intros [= <-]. }
  intros (name & Hname%or_null_inr & (r & Hr & ([s1 rc1] & Hx & H)%bind_inr)%bind_inr)%bind_inr.
  specialize (Hk name Hname). cbn [snd] in Hk.
  enough (put_ok s1 /\ at_end s1) as [H1 H2]
    by (destruct (negb _); [by injection H as <- _|by apply (IH s1)]). revert Hx.
  destruct (is_key name (lit "repub")); [intros [? ?]%put_repub_ok; auto|].
  destruct (is_key name (lit "sqlite")); [by apply put_sqlite_ok|].
  do 3 (destruct (is_key name _); [intros [? ?]%put_db_ok; auto|]). by intros [= <- _].
Qed.

(** A PUT that changes the actions of a SQLite rule and keeps its statement. *)
Definition writes_back (cr : conf_rule) (req : json) (rule_id : bytes) : Prop :=
  json_item req (lit "rawsql") = None /\ is_Some (json_item req (lit "actions")) /\
  exists i r, find_rule (scan_id rule_id) (cr_rules cr) 0 = Some i /\ cr_rules cr !! i = Some r /\
    ru_type r = RULE_FORWORD_SQLITE /\ S i <> length (cr_rules cr).

(** All parameters in the actions of the request are known. *)
Definition known_params (req : json) : Prop :=
  forall actions, json_item req (lit "actions") = Some actions -> Forall known_action (json_children actions).

(** PUT keeps the configuration consistent, refused or not, unless it has an
    unknown parameter or writes a SQLite rule back to a wrong place. *)
Lemma put_rules_ok e cr req rule_id cr' outs reply :
  rules_ok cr -> (forall r, req = Some r -> known_params r /\ ~ writes_back cr r rule_id) ->
  put_rules e cr req rule_id = inr (cr', outs, reply) -> rules_ok cr'.
Proof.
  intros Hok Hreq. destruct req as [req|]; [|by intros [= <- _ _]]. destruct (Hreq req eq_refl) as [Hknown Hw].
  unfold put_rules. cbn [mbind option_bind]. destruct (json_is_object req); [|by intros [= <- _ _]].
  destruct (find_rule _ _ 0) as [i|] eqn:Ef; [|by intros [= <- _ _]]. cbn [mbind option_bind].
  destruct (cr_rules cr !! i) as [old|] eqn:Ei; [|by intros [= <- _ _]]. cbn [mbind option_bind].
  intros ([s outs1] & Hb & H)%bind_inr. destruct (put_begin_ok _ _ _ _ _ _ Hok Ei Hb) as [Hs Hat].
  set (s1 := match json_item req (lit "enabled") with Some _ => _ | None => _ end) in H.
  assert (put_ok s1 /\ live s1 = live s /\ length (cr_rules (pt_cr s1)) = length (cr_rules (pt_cr s)))
    as (Hs1 & Hlv & Hln).
  { unfold s1. destruct (json_item req (lit "enabled")); [|done]. split; [|apply write_new_shape].
    apply write_new_ok; [|done]. intros r. apply set_enabled_owner. }
  destruct (json_item req (lit "actions")) as [acts|] eqn:Ea.
  2: { apply bind_inr in H as (r & _ & [= <- _ _]). by destruct Hs1. }
  apply bind_inr in H as ([s2 rc] & Hact & H). apply put_actions_ok in Hact.
  - destruct (negb _); [injection H as <- _ _; by destruct Hact|]. apply bind_inr in H as (r & _ & ([s3 o3] & Hc & (r3 & _ & [= <- _ _])%bind_inr)%bind_inr).
    destruct Hact as [Hok2 _]. unfold put_connect in Hc. destruct (negb _); [by inv_some|].
    destruct (ru_type r); try (by inv_some).
    + apply bind_inr in Hc as ([[cr3 rc3] sqls] & Hc%or_null_inr%client_sqlite_rules & [= <- _]).
      destruct Hc as [-> | ->]; done.
    + by apply bind_inr in Hc as (p & _ & [= <- _]).
  - done.
  - intros r Hr Hty. rewrite Hlv, Hln. destruct Hs as (_ & l1 & r0 & l2 & r' & Hl & Hlen & Hnew & Ho & _).
    destruct (json_item req (lit "rawsql")) eqn:Eq.
    + unfold live. rewrite Hat, Hl, length_app. cbn [length]. lia.
    + destruct (decide (S i = length (cr_rules cr))) as [E|E].
      * unfold put_begin in Hb. rewrite Eq in Hb. injection Hb as <- _. done.
      * destruct Hw. split_and!; [done|by eexists|]. exists i, old. split_and!; try done.
        unfold put_begin in Hb. rewrite Eq in Hb. injection Hb as <- _. unfold s1 in Hr.
        destruct (json_item req (lit "enabled")); unfold new_rule in Hr; cbn in Hr.
        -- rewrite list_lookup_alter_eq, Ei in Hr. cbn in Hr. injection Hr as <-. by destruct old.
        -- rewrite Ei in Hr. by injection Hr as <-.
  - by apply Hknown.
Qed.

(** After a POST that succeeded, GET with the id of the answer shows the rule of
    the answer. *)
Theorem posted_rule_found e cr req cr' rawsql id enabled rule_id :
  rules_ok cr -> post_rules e cr req = inr (cr', RuleData rawsql id enabled) -> scan_id rule_id = id ->
  exists name, get_rules cr' (Some rule_id) = RuleEntry (RuleInfo name rawsql id enabled).
Proof.
  intros Hok Hp Hid. destruct (post_rules_ok _ _ _ _ _ Hok Hp) as [_ [Hn _]].
  unfold post_rules in Hp. destruct req as [req|]; [|done]. destruct (negb (json_is_object req)); [done|].
  apply bind_inr in Hp as ([cr1 rc1] & _ & Hp). destruct (negb _); [done|].
  apply bind_inr in Hp as (r & Hl & Hd). apply or_null_inr in Hl. injection Hd as -> <- Ei <-.
  apply last_Some in Hl as [l Hl]. unfold get_rules. rewrite Hid, <- Ei, Hl. rewrite Hl in Hn.
  rewrite find_rule_at by done. cbn [mbind option_bind].
  rewrite lookup_app_r, Nat.sub_diag by done. cbn [lookup list_lookup]. by eexists.
Qed.

(** ** Requests in sequence *)

(** Requests that were answered, in any order and with any answer, but for two
    kinds of PUT: one with an unknown parameter in its actions, which frees the
    object of the rule ([put_unknown_key_dangles]), and one that changes the
    actions of a SQLite rule other than the last without a new statement, which
    overwrites the last rule ([put_overwrites_last]). *)
Inductive rules_run (cr0 : conf_rule) : conf_rule -> Prop :=
  | run_start : rules_run cr0 cr0
  | run_post e req cr cr' reply :
      rules_run cr0 cr -> post_rules e cr req = inr (cr', reply) -> rules_run cr0 cr'
  | run_put e req rule_id cr cr' outs reply :
      rules_run cr0 cr -> (forall r, req = Some r -> known_params r /\ ~ writes_back cr r rule_id) ->
      put_rules e cr req rule_id = inr (cr', outs, reply) -> rules_run cr0 cr'
  | run_delete rule_id cr cr' reply :
      rules_run cr0 cr -> delete_rules cr rule_id = inr (cr', reply) -> rules_run cr0 cr'.


End Laws.

End Rules.

(** ** Examples *)

Section Witness.

#[local] Set Warnings "-register-all".

Inductive jv := VObj (l : list (bytes * jv)) | VArr (l : list jv) | VStr (s : bytes) | VNum (n : Z) | VBool (b : bool).

#[local] Instance jv_tree : CJsonTree := {|
  json := jv;
  json_item j k := match j with VObj l => snd <$> List.find (fun p => bool_decide (fst p = k)) l | _ => None end;
  json_number j := match j with VNum n => Some n | _ => None end;
  json_string j := match j with VStr s => Some s | _ => None end;
  json_bool j := match j with VBool b => Some b | _ => None end;
  json_is_object j := match j with VObj _ => true | _ => false end;
  json_children j := match j with
                     | VObj l => map (fun '(k, v) => (Some k, v)) l
                     | VArr l => map (fun v => (None, v)) l
                     | _ => []
                     end;
  json_g17 _ := lit "0"; to_u8 := u8; to_u32 := u32
|}.

#[local] Instance jv_int : CJsonInt := fun j => match j with VNum n => n | _ => 0 end.

#[local] Instance unit_sql : ParsedSql := {|
  parsed_sql := unit; sql_flag _ _ := true; sql_as _ _ := None
|}.

#[local] Instance rule_lib : RuleLib := {|
  rule_sql_parse l sql := l ++ [Rule tt other_forword None None None None None None false 0];
  rule_generate_rule_id n := Z.of_nat n + 1;
  rule_repub_init := Repub None None 4 60 None None None true;
  rule_db_init := DbConf None None None None;
  rule_db_check d := match db_table d, db_host d with Some _, Some _ => true | _, _ => false end;
  RULE_ENG_SDB := 1; RULE_ENG_RPB := 4; RULE_ENG_DB _ := 8
|}.

#[local] Instance rule_lib_laws : RuleLibLaws.
Proof. split; [intros l sql; by eexists|]. intros i j. cbn. lia. Qed.

Definition word_cmp (a b : bytes) : Z := if decide (a = b) then 0 else 1.

Definition all_well : rest_env :=
  RestEnv (ClientEnv 0 0 0) (DbEnv true (fun _ _ _ => true) (fun _ => true) (fun _ => true) (fun _ => true) (fun _ => true))
    true (fun _ => true).

Definition no_rules : conf_rule := ConfRule [] 0 false ∅ ∅ 0.

Definition action (name : bytes) (params : list (bytes * jv)) : bytes * jv :=
  (lit "actions", VArr [VObj [(lit "name", VStr name); (lit "params", VObj params)]]).

Definition post_req (act : bytes * jv) : @json jv_tree := VObj [(lit "rawsql", VStr (lit "SELECT * FROM t")); act].

Definition repub_params_ok : list (bytes * jv) :=
  [(lit "topic", VStr (lit "a")); (lit "address", VStr (lit "mqtt-tcp://h")); (lit "clean_start", VBool true)].

Definition after (cr : conf_rule) (r : run_error + (conf_rule * rules_reply)) : conf_rule :=
  match r with inr (cr', _) => cr' | inl _ => cr end.

(** A republishing rule, and two SQLite rules. *)
Definition one_repub : conf_rule :=
  after no_rules (post_rules word_cmp all_well no_rules (Some (post_req (action (lit "repub") repub_params_ok)))).

Definition sqlite_req (t : bytes) : @json jv_tree := post_req (action (lit "sqlite") [(lit "table", VStr t)]).

Definition one_sqlite : conf_rule := after no_rules (post_rules word_cmp all_well no_rules (Some (sqlite_req (lit "t1")))).
Definition two_sqlite : conf_rule :=
  after one_sqlite (post_rules word_cmp all_well one_sqlite (Some (sqlite_req (lit "t2")))).

Lemma owns_nil {A} : owns (A := A) [] ∅.
Proof.
  split; [constructor|]. intros p. rewrite lookup_empty. split; [by intros ?%elem_of_nil|by intros [? ?]].
Qed.

Lemma no_rules_ok : rules_ok no_rules.
Proof. split; [split_and!|split]; cbn; first [apply owns_nil|constructor]. Qed.

Definition put_req (act : bytes * jv) : @json jv_tree := VObj [act].

(** Another table for the last rule, then an action that does not fit it, which
    is refused. *)
Definition other_table : conf_rule :=
  match put_rules word_cmp all_well two_sqlite (Some (put_req (action (lit "sqlite") [(lit "table", VStr (lit "t3"))])))
          (lit "rule:2") with
  | inr (cr, _, _) => cr
  | inl _ => two_sqlite
  end.


Lemma delete_rules_correct_witness :
  scan_id (lit "rule:1") = 1 /\
  exists cr' reply, delete_rules no_rules (Some (lit "rule:1")) = inr (cr', reply) /\ rules_ok cr' /\
    cr_rules cr' = List.filter (fun r => negb (ru_rule_id r =? scan_id (lit "rule:1"))) (cr_rules no_rules) /\
    reply = (if bool_decide (scan_id (lit "rule:1") ∈ map ru_rule_id (cr_rules no_rules)) then CodeReply SUCCEED
             else ErrorReply NNG_HTTP_STATUS_BAD_REQUEST MISSING_KEY_REQUEST_PARAMES) /\
    get_rules cr' (Some (lit "rule:1")) = ErrorReply NNG_HTTP_STATUS_BAD_REQUEST MISSING_KEY_REQUEST_PARAMES.
Proof. split; [reflexivity|]. exact (delete_rules_correct no_rules (lit "rule:1") no_rules_ok). Defined.

Lemma posted_rule_found_witness :
  exists name, get_rules one_repub (Some (lit "rule:1"))
    = RuleEntry (RuleInfo name (Some (lit "SELECT * FROM t")) 1 true).
Proof.
  apply (posted_rule_found word_cmp all_well no_rules (Some (post_req (action (lit "repub") repub_params_ok)))
    one_repub (Some (lit "SELECT * FROM t")) 1 true (lit "rule:1") no_rules_ok).
  - vm_compute. reflexivity.
  - vm_compute. reflexivity.
Defined.

(** PUT with a new statement and "enabled": false answers that the rule is
    disabled, but changes a copy: the rule stays enabled. *)
Theorem put_enabled_lost :
  exists cr' outs, put_rules word_cmp all_well one_repub
      (Some (VObj [(lit "rawsql", VStr (lit "SELECT")); (lit "enabled", VBool false)])) (lit "rule:1")
    = inr (cr', outs, RuleData (Some (lit "SELECT")) 1 false) /\ map ru_enabled (cr_rules cr') = [true].
Proof. eexists _, _. split; vm_compute; reflexivity. Qed.

(** PUT of another table for the first of two SQLite rules overwrites the last
    rule with it. *)
Theorem put_overwrites_last :
  exists cr' outs reply, put_rules word_cmp all_well two_sqlite
      (Some (VObj [action (lit "sqlite") [(lit "table", VStr (lit "t3"))]])) (lit "rule:1")
    = inr (cr', outs, reply) /\ reply = RuleData (Some (lit "SELECT * FROM t")) 1 true /\
    map ru_rule_id (cr_rules cr') = [1; 1] /\ map ru_sqlite_table (cr_rules cr') = [Some (lit "t3"); Some (lit "t3")].
Proof. eexists _, _, _. split; [vm_compute; reflexivity|]. split_and!; vm_compute; reflexivity. Qed.

(** PUT with an unknown key frees the object of the rule and keeps the rule:
    deleting it then frees the object again. *)
Theorem put_unknown_key_dangles :
  exists cr' outs, put_rules word_cmp all_well one_repub
      (Some (VObj [action (lit "repub") [(lit "qos", VNum 1)]])) (lit "rule:1")
    = inr (cr', outs, ErrorReply NNG_HTTP_STATUS_BAD_REQUEST REQ_PARAM_ERROR) /\
    map ru_repub (cr_rules cr') = [Some 0%nat] /\ cr_repubs cr' !! 0%nat = None /\
    delete_rules cr' (Some (lit "rule:1")) = inl NullDeref.
Proof. eexists _, _. split_and!; vm_compute; reflexivity. Qed.

(** "clean_start" is false whatever the request says. *)
Theorem clean_start_ignored : rb_clean_start <$> cr_repubs one_repub !! 0%nat = Some false.
Proof. vm_compute. reflexivity. Qed.

(** A SQLite action without a table succeeds without adding a rule; the answer
    is then about the rule before, or read in front of the array. *)
Theorem post_without_table :
  post_rules word_cmp all_well no_rules (Some (post_req (action (lit "sqlite") []))) = inl NullDeref /\
  exists cr', post_rules word_cmp all_well one_repub (Some (post_req (action (lit "sqlite") [])))
    = inr (cr', RuleData (Some (lit "SELECT * FROM t")) 1 true) /\ cr_rules cr' = cr_rules one_repub.
Proof. split; [vm_compute; reflexivity|]. eexists. split; vm_compute; reflexivity. Qed.

End Witness.

End RestRules.
