(* ===== verification/RestBridge.v ===== *)
(** * Bridges and batches over the REST API (nanomq/rest_api.c)

    POST bridges/sub and bridges/unsub subscribe a bridge to topics of the
    remote broker while it runs and keep its list of subscriptions; POST
    bridges/switch turns it on and off; PUT bridges replaces its configuration.
    POST mqtt/publish and mqtt/publish_batch hand objects to
    [handle_publish_msg]. *)

From S2P Require Import Prelude NngApi NngModel Bridge BridgeConn BridgeDial RestApi RestPublish RestRules.

Class CJsonArr `{CJsonTree} := json_is_array : json -> bool.

(** nanolib: copying a vector to the end of another one, and reading the
    configuration of a bridge. *)
Class BridgeLib `{CJsonTree} (node : Type) := {
  cvector_copy : list topics -> list topics -> list topics;
  conf_bridge_node_parse : node -> option json -> node
}.

Class BridgeLibLaws `{BridgeLib} : Prop := {
  cvector_copy_appends from to : cvector_copy from to = to ++ from
}.

Module RestBridge.

Import Bridge BridgeConn BridgeDial RestApi RestPublish RestRules.

Definition ILLEGAL_SUBJECT : Z := 115.
Definition NNG_HTTP_STATUS_NO_CONTENT : Z := 204.
Definition NNG_HTTP_STATUS_FORBIDDEN : Z := 403.
Definition NNG_HTTP_STATUS_INTERNAL_SERVER_ERROR : Z := 500.

(** {"code": c}, or error_response. *)
Inductive rest_reply := RestCode (code : Z) | RestError (status code : Z).

(** The members of a bridge that the handlers use. *)
Record rest_node := RestNode {
  rn_name : bytes;
  rn_enable : bool;
  rn_address : option bytes;
  rn_proto_ver : Z;
  rn_sub_list : list topics;
  rn_sub_count : Z;
  rn_sub_properties : option conf_bridge_sub_properties
}.

Definition with_enable (n : rest_node) (b : bool) : rest_node :=
  RestNode (rn_name n) b (rn_address n) (rn_proto_ver n) (rn_sub_list n) (rn_sub_count n) (rn_sub_properties n).
Definition with_subs (n : rest_node) (l : list topics) (count : Z) : rest_node :=
  RestNode (rn_name n) (rn_enable n) (rn_address n) (rn_proto_ver n) l count (rn_sub_properties n).
Definition with_props (n : rest_node) (p : option conf_bridge_sub_properties) : rest_node :=
  RestNode (rn_name n) (rn_enable n) (rn_address n) (rn_proto_ver n) (rn_sub_list n) (rn_sub_count n) p.

Section Handlers.

Context `{C : MqttConst} `{J : CJsonTree} `{JA : !CJsonArr} `{BL : !BridgeLib rest_node}.
Context (NNG_MQTT_SUBACK NNG_MQTT_UNSUBACK MQTT_VERSION_V5 : Z).

(** A member of an object that may be NULL. *)
Definition item_of (j : option json) (key : bytes) : option json := j ← j; json_item j key.

Definition object_only (j : option json) : option json := j ← j; if json_is_object j then Some j else None.
Definition array_only (j : option json) : option json := j ← j; if json_is_array j then Some j else None.

(** ** Subscribing *)

(** One entry of "subscription"; an entry without both topics is skipped. *)
Definition sub_entry (sub_item : json) : option topics :=
  remote ← get_string sub_item (lit "remote_topic");
  local ← get_string sub_item (lit "local_topic");
  Some (Topics (Some remote) (blen remote) (Some local) (blen local) None 0 None 0
          (from_option to_u8 0 (get_number sub_item (lit "qos"))) 0
          (from_option to_u8 1 (get_number sub_item (lit "retain_as_published")))
          (from_option to_u8 0 (get_number sub_item (lit "retain_handling")))).

Fixpoint sub_entries (items : list (option bytes * json)) : list topics :=
  match items with
  | [] => []
  | (_, item) :: items' => match sub_entry item with Some tp => tp :: sub_entries items' | None => sub_entries items' end
  end.

(** The loop over "user_properties" reads the members of the object around it. *)
Definition sub_user_properties (json_prop : json) : list (bytes * bytes) :=
  match json_item json_prop (lit "user_properties") with
  | None => []
  | Some up_array =>
      concat (map (fun _ =>
        match get_string json_prop (lit "key"), get_string json_prop (lit "value") with
        | Some key, Some value => [(key, value)]
        | _, _ => []
        end) (json_children up_array))
  end.

Definition sub_props_of (json_prop : option json) : option conf_bridge_sub_properties :=
  json_prop ← object_only json_prop;
  Some (SubProperties (from_option to_u32 0 (get_number json_prop (lit "identifier")))
          (sub_user_properties json_prop)).

Definition convert_topic_qos (list : list topics) : Datatypes.list topic_qos :=
  map (fun f => TopicQos (tp_remote_topic f) (tp_qos f) 1 (tp_retain_as_published f) (tp_retain_handling f)) list.

(** A SUBSCRIBE or UNSUBSCRIBE that a bridge is asked to send. *)
Inductive bridge_call :=
  | CallSubscribe (node : bytes) (topics : list topic_qos) (props : option (list pub_property))
  | CallUnsubscribe (node : bytes) (topics : list bytes) (props : option (list pub_property)).

(** The loop over the bridges; [None] as the result is that none was found. *)
Fixpoint bridge_sub_loop (e : request_env) (name : bytes) (sub_topics : list topics)
    (sub_props : option conf_bridge_sub_properties) (json_prop : option json) (nodes : list rest_node)
  : list rest_node * option (Z * bridge_call) :=
  match nodes with
  | [] => ([], None)
  | node :: nodes' =>
      if negb (strcmp0 (rn_name node) name) then
        let '(l, r) := bridge_sub_loop e name sub_topics sub_props json_prop nodes' in (node :: l, r)
      else
        let prop_list := if rn_proto_ver node =? MQTT_PROTOCOL_VERSION_v5
                         then (p ← object_only json_prop; properties_parse p) else None in
        let rv := fst (bridge_subscribe NNG_MQTT_SUBACK (blen sub_topics) e) in
        let call := CallSubscribe (rn_name node) (convert_topic_qos sub_topics) prop_list in
        let node :=
          if rv =? 0 then
            let node := if 0 <? blen sub_topics
                        then with_subs node (cvector_copy sub_topics (rn_sub_list node))
                               (rn_sub_count node + blen sub_topics)
                        else node in
            match sub_props with Some _ => with_props node sub_props | None => node end
          else node in
        (node :: nodes', Some (rv, call))
  end.

(** The answer after the loop. *)
Definition found_reply (r : option (Z * bridge_call)) : rest_reply :=
  match r with
  | None => RestError NNG_HTTP_STATUS_NOT_FOUND REQ_PARAM_ERROR
  | Some (rv, _) => if negb (rv =? 0) then RestError NNG_HTTP_STATUS_BAD_REQUEST REQ_PARAM_ERROR else RestCode SUCCEED
  end.

Definition post_mqtt_bridge_sub (e : request_env) (nodes : list rest_node) (req : option json) (name : bytes)
  : list rest_node * option (Z * bridge_call) * rest_reply :=
  match (data_obj ← object_only (item_of (object_only req) (lit "data"));
         sub_array ← array_only (json_item data_obj (lit "subscription"));
         Some (data_obj, sub_array)) with
  | None => (nodes, None, RestError NNG_HTTP_STATUS_BAD_REQUEST REQ_PARAMS_JSON_FORMAT_ILLEGAL)
  | Some (data_obj, sub_array) =>
      let sub_topics := sub_entries (json_children sub_array) in
      let json_prop := json_item data_obj (lit "sub_properties") in
      let '(nodes, r) := bridge_sub_loop e name sub_topics (sub_props_of json_prop) json_prop nodes in
      (nodes, r, found_reply r)
  end.

(** ** Unsubscribing *)

Fixpoint unsub_entries (items : list (option bytes * json)) : list bytes :=
  match items with
  | [] => []
  | (_, item) :: items' =>
      match get_string item (lit "topic") with Some t => t :: unsub_entries items' | None => unsub_entries items' end
  end.

(** The first of the [n] subscriptions with the topic, from index [j] on.  The
    outer [None] is an index behind the array or a NULL topic. *)
Fixpoint find_sub (unsub_topic : bytes) (sub_list : list topics) (n j : nat) : option (option nat) :=
  match n with
  | O => Some None
  | S n' =>
      match sub_list with
      | [] => None
      | f :: sub_list' =>
          remote ← tp_remote_topic f;
          if strcmp0 unsub_topic remote then Some (Some j) else find_sub unsub_topic sub_list' n' (S j)
      end
  end.

Fixpoint erase_subs (unsub_topics : list bytes) (node : rest_node) : option rest_node :=
  match unsub_topics with
  | [] => Some node
  | t :: unsub_topics' =>
      x ← find_sub t (rn_sub_list node) (Z.to_nat (rn_sub_count node)) 0;
      match x with
      | Some j => erase_subs unsub_topics' (with_subs node (delete j (rn_sub_list node)) (rn_sub_count node - 1))
      | None => erase_subs unsub_topics' node
      end
  end.

Fixpoint bridge_unsub_loop (e : request_env) (name : bytes) (unsub_topics : list bytes) (data_obj : json)
    (nodes : list rest_node) : option (list rest_node * option (Z * bridge_call)) :=
  match nodes with
  | [] => Some ([], None)
  | node :: nodes' =>
      if negb (strcmp0 (rn_name node) name) || negb (rn_enable node) then
        '(l, r) ← bridge_unsub_loop e name unsub_topics data_obj nodes';
        Some (node :: l, r)
      else
        let prop_list := if rn_proto_ver node =? MQTT_VERSION_V5
                         then (p ← object_only (json_item data_obj (lit "unsub_properties")); properties_parse p)
                         else None in
        let rv := fst (bridge_unsubscribe NNG_MQTT_UNSUBACK (blen unsub_topics) e) in
        let call := CallUnsubscribe (rn_name node) unsub_topics prop_list in
        if negb (rv =? 0) then Some (node :: nodes', Some (rv, call))
        else node ← erase_subs unsub_topics node; Some (node :: nodes', Some (rv, call))
  end.

Definition post_mqtt_bridge_unsub (e : request_env) (nodes : list rest_node) (req : option json) (name : bytes)
  : option (list rest_node * option (Z * bridge_call) * rest_reply) :=
  match (data_obj ← object_only (item_of (object_only req) (lit "data"));
         unsub_array ← array_only (json_item data_obj (lit "unsubscription"));
         Some (data_obj, unsub_array)) with
  | None => Some (nodes, None, RestError NNG_HTTP_STATUS_BAD_REQUEST REQ_PARAMS_JSON_FORMAT_ILLEGAL)
  | Some (data_obj, unsub_array) =>
      '(nodes, r) ← bridge_unsub_loop e name (unsub_entries (json_children unsub_array)) data_obj nodes;
      Some (nodes, r, found_reply r)
  end.

(** ** Turning a bridge on and off *)

(** [rv] of the C code, [None] while it has no value; [start] and [off] are the
    results of nng_dialer_start and nng_dialer_off. *)
Fixpoint switch_loop (start off : Z) (name : bytes) (conf_data : option json) (nodes : list rest_node)
    (found : bool) (rv : option Z) : list rest_node * bool * option Z :=
  match nodes with
  | [] => ([], found, rv)
  | node :: nodes' =>
      if negb (strcmp0 (rn_name node) name) then
        let '(l, found, rv) := switch_loop start off name conf_data nodes' found rv in (node :: l, found, rv)
      else
        match (j ← conf_data; get_bool j (lit "bridge_switch")) with
        | None =>
            let '(l, found, rv) := switch_loop start off name conf_data nodes' found (Some (-1)) in
            (node :: l, found, rv)
        | Some b =>
            let rv := if b : bool then start else off in
            let node := if rv =? 0 then with_enable node b else node in
            let '(l, found, rv) := switch_loop start off name conf_data nodes' true (Some rv) in
            (node :: l, found, rv)
        end
  end.

(** The last [None]: a value that was never set is used. *)
Definition put_mqtt_bridge_switch (NNG_ESTATE start off : Z) (nodes : list rest_node) (req : option json)
    (name : bytes) : option (list rest_node * rest_reply) :=
  match object_only req with
  | None => Some (nodes, RestError NNG_HTTP_STATUS_BAD_REQUEST REQ_PARAMS_JSON_FORMAT_ILLEGAL)
  | Some req =>
      let '(nodes, found, rv) := switch_loop start off name (json_item req (lit "data")) nodes false None in
      rv ← rv;
      Some (nodes,
        if found && (rv =? 0) then RestCode SUCCEED
        else if rv =? NNG_ESTATE then RestError NNG_HTTP_STATUS_BAD_REQUEST REQ_PARAM_ERROR
        else if negb (rv =? 0) then RestError NNG_HTTP_STATUS_INTERNAL_SERVER_ERROR rv
        else RestError NNG_HTTP_STATUS_NO_CONTENT REQ_PARAM_ERROR)
  end.

(** ** Replacing the configuration of a bridge *)

(** The first bridge with the name: the nodes, whether bridge_reload succeeded,
    its result, and whether the dialer is started. *)
Fixpoint put_bridge_loop (alloc : bool) (name : bytes) (node_obj : option json) (nodes : list rest_node)
  : list rest_node * option (Z * bool) :=
  match nodes with
  | [] => ([], None)
  | node :: nodes' =>
      if negb (strcmp0 (rn_name node) name) then
        let '(l, r) := put_bridge_loop alloc name node_obj nodes' in (node :: l, r)
      else
        let node := conf_bridge_node_parse (with_enable node false) node_obj in
        let rv := fst (bridge_reload alloc (rn_address node)) in
        (node :: nodes', Some (rv, (rv =? 0) && rn_enable node))
  end.

(** The result of nng_dialer_start is only logged. *)
Definition put_mqtt_bridge (alloc : bool) (nodes : list rest_node) (req : option json) (name : bytes)
  : option (list rest_node * bool * rest_reply) :=
  match object_only req with
  | None => Some (nodes, false, RestError NNG_HTTP_STATUS_BAD_REQUEST REQ_PARAMS_JSON_FORMAT_ILLEGAL)
  | Some req =>
      let '(nodes, r) := put_bridge_loop alloc name (json_item req name) nodes in
      '(rv, started) ← r;
      Some (nodes, started,
        if rv =? 0 then RestCode SUCCEED else RestError NNG_HTTP_STATUS_FORBIDDEN REQ_PARAM_ERROR)
  end.

(** ** The list of subscriptions *)

(** The count is the length of the list, and every entry has its topic. *)
Definition subs_ok (n : rest_node) : Prop :=
  rn_sub_count n = blen (rn_sub_list n) /\ Forall (fun f => is_Some (tp_remote_topic f)) (rn_sub_list n).

Lemma sub_entries_remote items : Forall (fun f => is_Some (tp_remote_topic f)) (sub_entries items).
Proof.
  induction items as [|[k item] items IH]; cbn [sub_entries]; [constructor|].
  unfold sub_entry at 1. destruct (get_string item (lit "remote_topic")) as [r|]; [|done]. cbn [mbind option_bind].
  destruct (get_string item (lit "local_topic")); [|done]. cbn [mbind option_bind]. constructor; [by eexists|done].
Qed.

Section Laws.

Context `{BLL : !BridgeLibLaws}.

(** A node before and after a subscription to [ts]. *)
Definition subscribed (ts : list topics) (n n' : rest_node) : Prop :=
  rn_sub_list n' = rn_sub_list n ++ ts /\ rn_sub_count n' = rn_sub_count n + blen ts /\
  rn_name n' = rn_name n /\ rn_enable n' = rn_enable n.

Lemma bridge_sub_loop_spec e name ts props json_prop nodes nodes' r :
  bridge_sub_loop e name ts props json_prop nodes = (nodes', r) ->
  match r with
  | None => nodes' = nodes /\ Forall (fun n => rn_name n <> name) nodes
  | Some (rv, _) =>
      exists l1 n l2 n', nodes = l1 ++ n :: l2 /\ nodes' = l1 ++ n' :: l2 /\ rn_name n = name /\
        Forall (fun n => rn_name n <> name) l1 /\
        rv = fst (bridge_subscribe NNG_MQTT_SUBACK (blen ts) e) /\
        (rv = 0 -> subscribed ts n n') /\ (rv <> 0 -> n' = n)
  end.
Proof.
  revert nodes' r. induction nodes as [|n nodes IH]; intros nodes' r; cbn [bridge_sub_loop].
  { intros [= <- <-]. by split. }
  unfold strcmp0. destruct (decide (rn_name n = name)) as [E|E];
    [rewrite bool_decide_eq_true_2 by done|rewrite bool_decide_eq_false_2 by done]; cbn [negb].
  - intros [= <- <-]. eexists [], n, nodes, _. split_and!; [done..|constructor|done| |].
    + intros ->. cbn [Z.eqb]. change (0 =? 0) with true.
      destruct ts as [|t ts].
      * change (0 <? blen (A := topics) []) with false.
        destruct props; (split; [by rewrite app_nil_r|split; [by rewrite blen_nil, Z.add_0_r|done]]).
      * rewrite (proj2 (Z.ltb_lt 0 (blen (t :: ts)))) by (rewrite blen_cons; pose proof (blen_nonneg ts); lia).
        destruct props; split_and!; cbn; try done; by rewrite cvector_copy_appends.
    + intros Hne. by rewrite (proj2 (Z.eqb_neq _ _) Hne).
  - destruct (bridge_sub_loop e name ts props json_prop nodes) as [l r'] eqn:El. intros [= <- <-].
    specialize (IH l r' eq_refl). destruct r' as [[rv call]|].
    + destruct IH as (l1 & x & l2 & x' & -> & -> & Hn & Hf & Hrest & H0 & H1).
      exists (n :: l1), x, l2, x'. split_and!; try done. by constructor.
    + destruct IH as [-> Hf]. split; [done|by constructor].
Qed.

(** A subscription over the REST API that is answered with 0 was acknowledged by
    the remote broker and adds the given topics to the end of the bridge's
    list; any other answer leaves every bridge as it was.  The counts stay
    those of the lists. *)
Theorem bridge_sub_correct e nodes req name nodes' r reply :
  Forall subs_ok nodes -> post_mqtt_bridge_sub e nodes req name = (nodes', r, reply) ->
  Forall subs_ok nodes' /\
  ((reply = RestCode SUCCEED /\ exists ts l1 n l2 n', ts <> [] /\ nodes = l1 ++ n :: l2 /\ nodes' = l1 ++ n' :: l2 /\
      rn_name n = name /\ subscribed ts n n' /\ fst (bridge_subscribe NNG_MQTT_SUBACK (blen ts) e) = 0) \/
   (nodes' = nodes /\ exists status code, reply = RestError status code)).
Proof.
  intros Hok. unfold post_mqtt_bridge_sub. case_match eqn:Ereq; [|intros [= <- _ <-]; split; [done|right; by eauto]].
  destruct p as [data_obj arr].
  set (ts := sub_entries (json_children arr)). destruct (bridge_sub_loop _ _ _ _ _ _) as [l x] eqn:El.
  intros [= <- <- <-]. apply bridge_sub_loop_spec in El. destruct x as [[rv call]|].
  2: { destruct El as [-> _]. split; [done|]. right. split; [done|]. by eexists _, _. }
  destruct El as (l1 & n & l2 & n' & -> & -> & Hn & Hf & Hrv & H0 & H1). cbn [found_reply].
  destruct (Z.eqb_spec rv 0) as [-> | Hne]; cbn [negb].
  - specialize (H0 eq_refl). split.
    + apply Forall_app in Hok as [Ho1 Ho2]. apply Forall_cons in Ho2 as [[Hc Hr] Ho2]. apply Forall_app.
      split; [done|]. constructor; [|done]. destruct H0 as (Hl & Hc' & _). split.
      * rewrite Hc', Hl, Hc, blen_app. done.
      * rewrite Hl. apply Forall_app. split; [done|apply sub_entries_remote].
    + left. split; [done|]. exists ts, l1, n, l2, n'. split_and!; try done.
      intros Hts. rewrite Hts in Hrv. discriminate Hrv.
  - rewrite (H1 Hne). split; [done|]. right. split; [done|]. by eexists _, _.
Qed.

(** The list without its first entry for the topic. *)
Fixpoint remove_first (t : bytes) (l : list topics) : list topics :=
  match l with
  | [] => []
  | f :: l' => if decide (tp_remote_topic f = Some t) then l' else f :: remove_first t l'
  end.

Lemma find_sub_spec t l j : Forall (fun f => is_Some (tp_remote_topic f)) l ->
  exists x, find_sub t l (length l) j = Some x /\
    match x with
    | Some i => exists k, i = (j + k)%nat /\ delete k l = remove_first t l /\
        blen (remove_first t l) = blen l - 1
    | None => remove_first t l = l
    end.
Proof.
  revert j. induction l as [|f l IH]; intros j Hl; cbn [find_sub length remove_first]; [by eexists|].
  apply Forall_cons in Hl as [[r Hr] Hl]. rewrite Hr. cbn [mbind option_bind]. unfold strcmp0.
  destruct (decide (t = r)) as [-> | E].
  - rewrite bool_decide_eq_true_2 by done. rewrite decide_True by done. eexists. split; [done|]. exists 0%nat.
    rewrite blen_cons. split_and!; [lia|done|lia].
  - rewrite bool_decide_eq_false_2 by done. rewrite decide_False by congruence.
    destruct (IH (S j) Hl) as (x & Hx & Hs). exists x. split; [done|]. destruct x as [i|].
    + destruct Hs as (k & -> & Hd & Hb). exists (S k). rewrite !blen_cons. split_and!; [lia| |lia].
      change (delete (S k) (f :: l)) with (f :: delete k l). by rewrite Hd.
    + by rewrite Hs.
Qed.

Lemma remove_first_remote t l : Forall (fun f => is_Some (tp_remote_topic f)) l ->
  Forall (fun f => is_Some (tp_remote_topic f)) (remove_first t l).
Proof.
  induction 1 as [|f l Hf Hl IH]; cbn [remove_first]; [constructor|]. case_decide; [done|by constructor].
Qed.

Lemma erase_subs_spec ts n : subs_ok n -> exists n', erase_subs ts n = Some n' /\ subs_ok n' /\
  rn_sub_list n' = foldl (fun l t => remove_first t l) (rn_sub_list n) ts /\ rn_name n' = rn_name n.
Proof.
  revert n. induction ts as [|t ts IH]; intros n Hok; cbn [erase_subs foldl]; [by eexists|].
  pose proof Hok as [Hc Hr]. destruct (find_sub_spec t (rn_sub_list n) 0 Hr) as (x & Hx & Hs).
  rewrite Hc. replace (Z.to_nat (blen (rn_sub_list n))) with (length (rn_sub_list n)) by (unfold blen; lia).
  rewrite Hx. cbn [mbind option_bind]. destruct x as [j|].
  - destruct Hs as (k & Hj & Hd & Hb). cbn in Hj. subst k. rewrite Hd.
    destruct (IH (with_subs n (remove_first t (rn_sub_list n)) (blen (rn_sub_list n) - 1))) as (n' & H1 & H2 & H3 & H4).
    + split; cbn; [done|by apply remove_first_remote].
    + exists n'. done.
  - rewrite Hs. by apply IH.
Qed.

(** An unsubscription is answered, and with 0 exactly when the remote broker
    acknowledged it; then the first entry of each topic is gone from the list of
    the first enabled bridge of that name, and nothing else changes. *)
Theorem bridge_unsub_correct e nodes req name : Forall subs_ok nodes ->
  exists nodes' r reply, post_mqtt_bridge_unsub e nodes req name = Some (nodes', r, reply) /\ Forall subs_ok nodes' /\
    ((reply = RestCode SUCCEED /\ exists ts l1 n l2 n', nodes = l1 ++ n :: l2 /\ nodes' = l1 ++ n' :: l2 /\
        rn_name n = name /\ rn_enable n = true /\
        rn_sub_list n' = foldl (fun l t => remove_first t l) (rn_sub_list n) ts /\
        fst (bridge_unsubscribe NNG_MQTT_UNSUBACK (blen ts) e) = 0) \/
     (nodes' = nodes /\ exists status code, reply = RestError status code)).
Proof.
  intros Hok. unfold post_mqtt_bridge_unsub. case_match eqn:Ereq.
  2: { eexists _, _, _. split; [done|]. split; [done|]. right. split; [done|]. by eexists _, _. }
  destruct p as [data_obj arr]. set (ts := unsub_entries (json_children arr)).
  enough (exists nodes' r, bridge_unsub_loop e name ts data_obj nodes = Some (nodes', r) /\ Forall subs_ok nodes' /\
    match r with
    | None => nodes' = nodes
    | Some (rv, _) => exists l1 n l2 n', nodes = l1 ++ n :: l2 /\ nodes' = l1 ++ n' :: l2 /\ rn_name n = name /\
        rn_enable n = true /\ rv = fst (bridge_unsubscribe NNG_MQTT_UNSUBACK (blen ts) e) /\
        (rv = 0 -> rn_sub_list n' = foldl (fun l t => remove_first t l) (rn_sub_list n) ts) /\ (rv <> 0 -> n' = n)
    end) as (nodes' & r & -> & Hok' & Hr).
  { cbn [mbind option_bind]. eexists _, _, _. split; [done|]. split; [done|]. destruct r as [[rv call]|].
    - destruct Hr as (l1 & n & l2 & n' & -> & -> & Hn & He & Hrv & H0 & H1). cbn [found_reply].
      destruct (Z.eqb_spec rv 0) as [-> | Hne]; cbn [negb].
      + left. split; [done|]. exists ts, l1, n, l2, n'. split_and!; auto.
      + right. rewrite (H1 Hne). split; [done|]. by eexists _, _.
    - right. split; [done|]. by eexists _, _. }
  induction nodes as [|n nodes IH]; cbn [bridge_unsub_loop]; [by eexists _, _|].
  apply Forall_cons in Hok as [Hn Hok]. unfold strcmp0.
  destruct (decide (rn_name n = name)) as [E|E];
    [rewrite bool_decide_eq_true_2 by done|rewrite bool_decide_eq_false_2 by done]; cbn [negb orb].
  2: { destruct (IH Hok) as (l & r & -> & Hl & Hr). cbn [mbind option_bind]. eexists _, _. split; [done|].
    split; [by constructor|]. destruct r as [[rv call]|]; [|by rewrite Hr].
    destruct Hr as (l1 & x & l2 & x' & -> & -> & Hrest). by exists (n :: l1), x, l2, x'. }
  destruct (rn_enable n) eqn:Een; cbn [negb].
  2: { destruct (IH Hok) as (l & r & -> & Hl & Hr). cbn [mbind option_bind]. eexists _, _. split; [done|].
    split; [by constructor|]. destruct r as [[rv call]|]; [|by rewrite Hr].
    destruct Hr as (l1 & x & l2 & x' & -> & -> & Hrest). by exists (n :: l1), x, l2, x'. }
  clear IH. destruct (Z.eqb_spec (fst (bridge_unsubscribe NNG_MQTT_UNSUBACK (blen ts) e)) 0) as [E0|E0]; cbn [negb].
  - destruct (erase_subs_spec ts n Hn) as (n' & -> & Hn' & Hl' & _). cbn [mbind option_bind].
    eexists _, _. split; [done|]. split; [by constructor|]. exists [], n, nodes, n'. split_and!; try done.
  - eexists _, _. split; [done|]. split; [by constructor|]. exists [], n, nodes, n. split_and!; try done.
Qed.

(** Subscribing to topics a bridge does not have and unsubscribing from them
    restores its list. *)
Theorem sub_unsub_round_trip n n' ts names : subs_ok n -> subs_ok n' -> subscribed ts n n' ->
  map tp_remote_topic ts = map Some names ->
  Forall (fun t => Some t ∉ map tp_remote_topic (rn_sub_list n)) names ->
  exists n'', erase_subs names n' = Some n'' /\ rn_sub_list n'' = rn_sub_list n /\ rn_sub_count n'' = rn_sub_count n.
Proof.
  intros [Hc _] Hok' (Hl & _) Hts Hnew. destruct (erase_subs_spec names n' Hok') as (n'' & He & [Hc'' _] & Hl'' & _).
  exists n''. split; [done|]. assert (rn_sub_list n'' = rn_sub_list n) as Hs.
  { rewrite Hl'', Hl. clear -Hts Hnew. revert ts Hts. induction names as [|t names IH]; intros [|f ts] Hts; try done.
    - by rewrite app_nil_r.
    - cbn in Hts. injection Hts as Hf Hts. apply Forall_cons in Hnew as [Ht Hnew]. cbn [foldl].
      assert (forall l, Some t ∉ map tp_remote_topic l -> remove_first t (l ++ f :: ts) = l ++ ts) as Hrm.
      { induction l as [|g l IHl]; cbn [app remove_first map]; [by rewrite decide_True|].
        rewrite not_elem_of_cons. intros [Hg Hl']. rewrite decide_False by congruence. by rewrite IHl. }
      rewrite Hrm by done. by apply IH. }
  split; [done|]. by rewrite Hc'', Hs, Hc.
Qed.

(** A name that no bridge has leaves [rv] without a value, which is then used. *)
Theorem unknown_bridge_undefined estate start off alloc nodes req name : json_is_object req = true ->
  Forall (fun n => rn_name n <> name) nodes ->
  put_mqtt_bridge_switch estate start off nodes (Some req) name = None /\
  put_mqtt_bridge alloc nodes (Some req) name = None.
Proof.
  intros Ho Hn. unfold put_mqtt_bridge_switch, put_mqtt_bridge, object_only. cbn [mbind option_bind]. rewrite Ho.
  assert (forall j, switch_loop start off name j nodes false None = (nodes, false, None)) as ->.
  { intros j. induction Hn as [|n l Hne Hl IH]; [done|]. cbn [switch_loop]. unfold strcmp0.
    rewrite bool_decide_eq_false_2 by done. cbn [negb]. by rewrite IH. }
  assert (forall j, put_bridge_loop alloc name j nodes = (nodes, None)) as ->; [|done].
  intros j. induction Hn as [|n l Hne Hl IH]; [done|]. cbn [put_bridge_loop]. unfold strcmp0.
  rewrite bool_decide_eq_false_2 by done. cbn [negb]. by rewrite IH.
Qed.

End Laws.

(** ** Publishing one object or several *)

Section Publish.

(** [cb] is [handle_publish_msg]: the messages that were sent and the code. *)
Context (cb : json -> list http_publish * Z).

Definition post_mqtt_msg (req : option json) : list http_publish * rest_reply :=
  match object_only req with
  | None => ([], RestError NNG_HTTP_STATUS_BAD_REQUEST REQ_PARAMS_JSON_FORMAT_ILLEGAL)
  | Some req => let '(sent, rv) := cb req in (sent, RestCode rv)
  end.

(** The answer of a batch: for each object its topic and code. *)
Inductive batch_reply := BatchData (data : list (option bytes * Z)) | BatchError (status code : Z).

Fixpoint batch_loop (items : list (option bytes * json)) : list http_publish * list (option bytes * Z) :=
  match items with
  | [] => ([], [])
  | (_, item) :: items' =>
      let topic := match get_string item (lit "topics") with
                   | Some t => Some t
                   | None => get_string item (lit "topic")
                   end in
      let '(sent, code) := cb item in
      let '(sent', data) := batch_loop items' in
      (sent ++ sent', (topic, code) :: data)
  end.

Definition post_mqtt_msg_batch (req : option json) : list http_publish * batch_reply :=
  match array_only req with
  | None => ([], BatchError NNG_HTTP_STATUS_BAD_REQUEST REQ_PARAMS_JSON_FORMAT_ILLEGAL)
  | Some req => let '(sent, data) := batch_loop (json_children req) in (sent, BatchData data)
  end.

(** Every object of a batch is handled, in order, whatever became of the ones
    before it; the answer has its code. *)
Theorem batch_all_handled items sent data : batch_loop items = (sent, data) ->
  sent = concat (map (fun i => fst (cb (snd i))) items) /\ map snd data = map (fun i => snd (cb (snd i))) items.
Proof.
  revert sent data. induction items as [|[k item] items IH]; intros sent data; cbn [batch_loop map concat snd].
  - by intros [= <- <-].
  - destruct (cb item) as [s c]. destruct (batch_loop items) as [s' d]. intros [= <- <-].
    destruct (IH s' d eq_refl) as [-> Hd]. cbn. by rewrite Hd.
Qed.

End Publish.

End Handlers.

(** ** Examples *)

Section Witness.

Import Model RestRules.

#[local] Existing Instance RestRules.jv_tree.
#[local] Instance jv_arr : CJsonArr := fun j => match j with VArr _ => true | _ => false end.
#[local] Instance list_lib : BridgeLib rest_node := {| cvector_copy from to := to ++ from; conf_bridge_node_parse n _ := n |}.
#[local] Instance list_lib_laws : BridgeLibLaws.
Proof. by split. Qed.

Definition acked (ack : Z) : request_env := RequestEnv true 0 0 (Some (ack, [0])).

Definition bridge_a : rest_node := RestNode (lit "a") true None 4 [] 0 None.

Definition data_req (key : bytes) (items : list jv) : @json jv_tree :=
  VObj [(lit "data", VObj [(key, VArr items)])].

Definition sub_req : @json jv_tree :=
  data_req (lit "subscription") [VObj [(lit "remote_topic", VStr (lit "r")); (lit "local_topic", VStr (lit "l"))]].

Definition sub_result : list rest_node * option (Z * bridge_call) * rest_reply :=
  post_mqtt_bridge_sub 9 (acked 9) [bridge_a] (Some sub_req) (lit "a").

Definition bridge_a' : rest_node := hd bridge_a (fst (fst sub_result)).

Lemma bridge_a_ok : Forall subs_ok [bridge_a].
Proof. repeat constructor. Qed.

Lemma bridge_sub_correct_witness :
  snd sub_result = RestCode SUCCEED /\ map rn_sub_count (fst (fst sub_result)) = [1] /\
  (Forall subs_ok (fst (fst sub_result)) /\
   ((snd sub_result = RestCode SUCCEED /\ exists ts l1 n l2 n', ts <> [] /\ [bridge_a] = l1 ++ n :: l2 /\
       fst (fst sub_result) = l1 ++ n' :: l2 /\
       rn_name n = lit "a" /\ subscribed ts n n' /\ fst (bridge_subscribe 9 (blen ts) (acked 9)) = 0) \/
    (fst (fst sub_result) = [bridge_a] /\ exists status code, snd sub_result = RestError status code))).
Proof.
  split; [vm_compute; reflexivity|]. split; [vm_compute; reflexivity|].
  apply (bridge_sub_correct 9 (acked 9) [bridge_a] (Some sub_req) (lit "a") (fst (fst sub_result))
    (snd (fst sub_result)) (snd sub_result) bridge_a_ok). vm_compute. reflexivity.
Defined.

Lemma sub_unsub_round_trip_witness :
  map tp_remote_topic (rn_sub_list bridge_a') = [Some (lit "r")] /\
  exists n'', erase_subs [lit "r"] bridge_a' = Some n'' /\ rn_sub_list n'' = rn_sub_list bridge_a /\
    rn_sub_count n'' = rn_sub_count bridge_a.
Proof.
  split; [vm_compute; reflexivity|].
  apply (sub_unsub_round_trip bridge_a bridge_a' (rn_sub_list bridge_a') [lit "r"]).
  - split; [reflexivity|constructor].
  - split; [vm_compute; reflexivity|]. repeat constructor. by eexists.
  - split_and!; vm_compute; reflexivity.
  - vm_compute; reflexivity.
  - constructor; [|constructor]. cbn. apply not_elem_of_nil.
Defined.

Lemma bridge_a'_ok : Forall subs_ok [bridge_a'].
Proof. constructor; [|constructor]. split; [vm_compute; reflexivity|]. repeat constructor. by eexists. Qed.

Definition unsub_req : @json jv_tree := data_req (lit "unsubscription") [VObj [(lit "topic", VStr (lit "r"))]].

Definition unsub_result : option (list rest_node * option (Z * bridge_call) * rest_reply) :=
  post_mqtt_bridge_unsub 11 5 (acked 11) [bridge_a'] (Some unsub_req) (lit "a").

Lemma bridge_unsub_correct_witness :
  snd <$> unsub_result = Some (RestCode SUCCEED) /\
  exists nodes' r reply, unsub_result = Some (nodes', r, reply) /\ Forall subs_ok nodes' /\
    ((reply = RestCode SUCCEED /\ exists ts l1 n l2 n', [bridge_a'] = l1 ++ n :: l2 /\ nodes' = l1 ++ n' :: l2 /\
        rn_name n = lit "a" /\ rn_enable n = true /\
        rn_sub_list n' = foldl (fun l t => remove_first t l) (rn_sub_list n) ts /\
        fst (bridge_unsubscribe 11 (blen ts) (acked 11)) = 0) \/
     (nodes' = [bridge_a'] /\ exists status code, reply = RestError status code)).
Proof.
  split; [vm_compute; reflexivity|].
  exact (bridge_unsub_correct 11 5 (acked 11) [bridge_a'] (Some unsub_req) (lit "a") bridge_a'_ok).
Defined.

(** The user properties of a request are read from the wrong object and lost. *)
Theorem user_properties_lost :
  sub_props_of (Some (VObj [(lit "identifier", VNum 7);
    (lit "user_properties", VArr [VObj [(lit "key", VStr (lit "k")); (lit "value", VStr (lit "v"))]])]))
  = Some (SubProperties 7 []).
Proof. vm_compute. reflexivity. Qed.

End Witness.

End RestBridge.
