(* ===== verification/RestEndpoints.v ===== *)
(** * The endpoints of the REST API (nanomq/rest_api.c)

    The table [api_ep] is what the interface says of itself (GET on the root);
    the requests are routed by [process_request].  The two are compared here. *)

From S2P Require Import Prelude RestApi.

Module RestEndpoints.

Import RestApi.

Record endpoints := Endpoint { ep_path : bytes; ep_name : bytes; ep_method : bytes; ep_descr : bytes }.

Definition api_ep : list endpoints :=
  [
   Endpoint (lit "/brokers/") (lit "list_brokers") (lit "GET")
     (lit "A list of brokers in the cluster");
   Endpoint (lit "/nodes/") (lit "list_nodes") (lit "GET")
     (lit "A list of nodes in the cluster");
   Endpoint (lit "/clients/") (lit "list_clients") (lit "GET")
     (lit "A list of clients on current node");
   Endpoint (lit "/clients/:clientid") (lit "lookup_client") (lit "GET")
     (lit "Lookup a client in the cluster");
   Endpoint (lit "/clients/username/:username") (lit "lookup_client_via_username") (lit "GET")
     (lit "Lookup a client via username in the cluster");
   Endpoint (lit "/subscriptions/") (lit "list_subscriptions") (lit "GET")
     (lit "A list of subscriptions in the cluster");
   Endpoint (lit "/subscriptions/:clientid") (lit "lookup_client_subscriptions") (lit "GET")
     (lit "A list of subscriptions of a client");
   Endpoint (lit "/rules/") (lit "list_rules") (lit "GET")
     (lit "Get rule list");
   Endpoint (lit "/rules/:ruleid") (lit "get_rule_details") (lit "GET")
     (lit "Get the details of a rule");
   Endpoint (lit "/rules/") (lit "create_rule") (lit "POST")
     (lit "Create a rule and return the rule ID");
   Endpoint (lit "/rules/:ruleid") (lit "update_rule") (lit "PUT")
     (lit "Update the rule and return the rule ID");
   Endpoint (lit "/rules/:ruleid") (lit "delete_rule") (lit "DELETE")
     (lit "Delete the rule");
   Endpoint (lit "/mqtt/subscribe") (lit "mqtt_subscribe") (lit "POST")
     (lit "Subscribe a topic");
   Endpoint (lit "/bridges/:bridge_name") (lit "get_mqtt_bridges") (lit "GET")
     (lit "Get the details of bridge");
   Endpoint (lit "/bridges/:bridge_name") (lit "put_mqtt_bridge") (lit "PUT")
     (lit "Edit a bridge client");
   Endpoint (lit "/bridges/switch/:bridge_name") (lit "put_mqtt_bridge_switch") (lit "POST")
     (lit "trun on or off a bridge channel");
   Endpoint (lit "/bridges/:bridge_name") (lit "delete_mqtt_bridge") (lit "DELETE")
     (lit "DELETE a bridge client");
   Endpoint (lit "/mqtt/publish") (lit "mqtt_publish") (lit "POST")
     (lit "Publish a MQTT message");
   Endpoint (lit "/mqtt/unsubscribe") (lit "mqtt_unsubscribe") (lit "POST")
     (lit "Unsubscribe a topic");
   Endpoint (lit "/mqtt/subscribe_batch") (lit "mqtt_subscribe_batch") (lit "POST")
     (lit "Batch subscribes topics");
   Endpoint (lit "/mqtt/publish_batch") (lit "mqtt_publish_batch") (lit "POST")
     (lit "Batch publish MQTT messages");
   Endpoint (lit "/mqtt/unsubscribe_batch") (lit "mqtt_unsubscribe_batch") (lit "POST")
     (lit "Batch unsubscribes topics");
   Endpoint (lit "/write_file") (lit "overwrite config file") (lit "POST")
     (lit "wirte content to specific file path");
   Endpoint (lit "/topic-tree/") (lit "list_topic-tree") (lit "GET")
     (lit "A list of topic-tree in the cluster");
   Endpoint (lit "/reload/") (lit "get_hot_updatable_configuration") (lit "GET")
     (lit "show the configuration that can be hot updated");
   Endpoint (lit "/reload/") (lit "set_hot_updatable_configuration") (lit "POST")
     (lit "set the configuration that can be hot updated");
   Endpoint (lit "/configuration/") (lit "get_broker_configuration") (lit "GET")
     (lit "show all configuration of broker");
   Endpoint (lit "/configuration/basic") (lit "get_basic_configuration") (lit "GET")
     (lit "set broker basic configuration");
   Endpoint (lit "/configuration/tls") (lit "get_tls_configuration") (lit "GET")
     (lit "show broker tls configuration");
   Endpoint (lit "/configuration/http_server") (lit "get_http_server_configuration") (lit "GET")
     (lit "show broker http_server configuration");
   Endpoint (lit "/configuration/websocket") (lit "get_websocket_configuration") (lit "GET")
     (lit "show broker websocket configuration");
   Endpoint (lit "/configuration/webhook") (lit "get_webhook_configuration") (lit "GET")
     (lit "show broker webhook configuration");
   Endpoint (lit "/configuration/auth") (lit "get_auth_configuration") (lit "GET")
     (lit "show broker authorization configuration");
   Endpoint (lit "/configuration/auth_http") (lit "get_auth_http_configuration") (lit "GET")
     (lit "show broker authorization by http configuration");
   Endpoint (lit "/configuration/sqlite") (lit "get_sqlite_configuration") (lit "GET")
     (lit "show broker sqlite configuration");
   Endpoint (lit "/configuration/bridge") (lit "get_bridge_configuration") (lit "GET")
     (lit "show broker bridge configuration");
   Endpoint (lit "/configuration/aws_bridge") (lit "get_aws_bridge_configuration") (lit "GET")
     (lit "show broker aws_bridge configuration");
   Endpoint (lit "/configuration/") (lit "set_broker_configuration") (lit "POST")
     (lit "set broker configuration");
   Endpoint (lit "/config_update") (lit "update_configuration_file") (lit "POST")
     (lit "update configuration file");
   Endpoint (lit "/ctrl/:action") (lit "ctrl_broker") (lit "POST")
     (lit "Control broker stop or restart");
   Endpoint (lit "/metrics") (lit "metrics") (lit "GET")
     (lit "Returns all statistical metrics");
   Endpoint (lit "/prometheus") (lit "prometheus") (lit "GET")
     (lit "Returns all prometheus data")].

(** The answer of [get_endpoints]: a code and the members of every element. *)
Definition get_endpoints : Z * list (list (bytes * bytes)) :=
  (SUCCEED,
   map (fun e => [(lit "path", ep_path e); (lit "name", ep_name e); (lit "method", ep_method e);
                  (lit "descr", ep_descr e)]) api_ep).

(** The URI of an endpoint, with [x] for its last parameter ":name". *)
Definition ep_uri (x : bytes) (e : endpoints) : bytes :=
  REST_URI_ROOT ++
  match strchr (ep_path e) 58 with
  | Some s => take (length (ep_path e) - length s) (ep_path e) ++ x
  | None => ep_path e
  end.

(** The endpoints no handler serves. *)
Definition unserved : list bytes :=
  [lit "mqtt_subscribe"; lit "mqtt_unsubscribe"; lit "mqtt_subscribe_batch"; lit "mqtt_unsubscribe_batch";
   lit "delete_mqtt_bridge"].

(** Letters without their case. *)
Definition lower (c : Z) : Z := if (65 <=? c) && (c <=? 90) then c + 32 else c.

#[export] Instance endpoints_eq_dec : EqDecision endpoints.
Proof. solve_decision. Defined.

#[export] Instance seg_ok_dec s : Decision (seg_ok s).
Proof. unfold seg_ok. apply _. Defined.

(** A decidable proposition that computes to true. *)
Ltac computed := refine (bool_decide_eq_true_1 _ _); by vm_compute.

Section Served.

Context (nng_strcasecmp : bytes -> bytes -> Z)
  (strcasecmp_spec : forall a b, nng_strcasecmp a b = 0 <-> map lower a = map lower b).

Lemma strcasecmp_eqb a b : (nng_strcasecmp a b =? 0) = bool_decide (map lower a = map lower b).
Proof. apply eq_true_iff_eq. rewrite Z.eqb_eq, bool_decide_eq_true. apply strcasecmp_spec. Qed.

(** Comparison without case, computed. *)
Definition casecmp (a b : bytes) : Z := if decide (map lower a = map lower b) then 0 else 1.

Lemma route_casecmp method u : route nng_strcasecmp method u = route casecmp method u.
Proof.
  assert (forall a b, (nng_strcasecmp a b =? 0) = (casecmp a b =? 0)) as E.
  { intros a b. rewrite strcasecmp_eqb. unfold casecmp.
    destruct (decide (map lower a = map lower b)); [by rewrite bool_decide_eq_true_2|by rewrite bool_decide_eq_false_2]. }
  unfold route. by rewrite !E.
Qed.

Definition is_not_found (r : response) : bool :=
  match r with Error s c => (s =? NNG_HTTP_STATUS_NOT_FOUND) && (c =? UNKNOWN_MISTAKE) | _ => false end.

Lemma is_not_found_spec r : is_not_found r = true <-> r = not_found.
Proof.
  split; [|by intros ->]. destruct r as [| |st c]; try done. cbn [is_not_found].
  rewrite andb_true_iff, !Z.eqb_eq. by intros [-> ->].
Qed.

(** The segments of an endpoint's path. *)
Definition ep_segs (x : bytes) (e : endpoints) : list bytes :=
  let pieces := match split_loop 47 (length (ep_path e)) (ep_path e) [] with
                | Some (ps, r) => ps ++ [r]
                | None => []
                end in
  map (fun p => match strchr p 58 with Some _ => x | None => p end) (filter (fun p => p <> []) pieces).

(** What the table and the router say of one endpoint agree. *)
Definition ep_agrees (x : bytes) (e : endpoints) : Prop :=
  uri_parse (ep_uri x e) = Some (UriContent (nodes_of (ep_segs x e)) []) /\
  is_not_found (route casecmp (ep_method e) (UriContent (nodes_of (ep_segs x e)) []))
  = bool_decide (ep_name e ∈ unserved).

Local Ltac agree x Hx :=
  split; [|by vm_compute];
  first
    [ by vm_compute
    | match goal with |- uri_parse (ep_uri x ?e) = _ =>
        let segs := eval vm_compute in (ep_segs x e) in
        change (ep_segs x e) with segs;
        assert (ep_uri x e = print_uri segs []) as ->;
          [unfold print_uri; cbn [map concat]; rewrite !app_nil_r; reflexivity|];
        apply uri_parse_print; [done| |constructor];
        repeat (apply Forall_cons_2; [first [exact Hx | computed]|]);
        apply Forall_nil_2
      end ].

Lemma all_agree x : seg_ok x -> Forall (ep_agrees x) api_ep.
Proof.
  intros Hx. unfold api_ep. repeat (apply Forall_cons_2; [agree x Hx|]). apply Forall_nil_2.
Qed.

(** Every endpoint of the table is served, whatever its parameter, except
    the five of [unserved], which are answered with 404: subscribing and
    unsubscribing over HTTP, and deleting a bridge. *)
Theorem endpoints_served x e :
  seg_ok x -> e ∈ api_ep ->
  exists u, uri_parse (ep_uri x e) = Some u /\
    (route nng_strcasecmp (ep_method e) u = not_found <-> ep_name e ∈ unserved).
Proof.
  intros Hx He. pose proof (proj1 (Forall_forall _ _) (all_agree x Hx) e He) as [Hu Hr].
  eexists. split; [exact Hu|]. by rewrite route_casecmp, <- is_not_found_spec, Hr, bool_decide_eq_true.
Qed.

End Served.

Lemma endpoints_served_witness :
  exists u, uri_parse (lit "/api/v4/bridges/emqx") = Some u /\ route casecmp (lit "DELETE") u = not_found.
Proof.
  destruct (endpoints_served casecmp) with (x := lit "emqx")
    (e := Endpoint (lit "/bridges/:bridge_name") (lit "delete_mqtt_bridge") (lit "DELETE") (lit "DELETE a bridge client"))
    as (u & Hu & Hr).
  - intros a b. unfold casecmp. by destruct (decide (map lower a = map lower b)).
  - computed.
  - computed.
  - exists u. split; [exact Hu|]. apply Hr. computed.
Defined.

End RestEndpoints.
