(* ===== verification/RestReports.v ===== *)
(** * Reports over the REST API (nanomq/rest_api.c)

    Clients with their filters, the subscriptions and the time since the start.
    An element of an answer is the list of its members; [None] is a NULL pointer
    that is dereferenced. *)

From S2P Require Import Prelude NngApi NngModel RuleSql WebhookEvents RestApi RestEndpoints.

(** Further getters of connection parameters.  A will is a pointer to a string
    whose body may be NULL. *)
Class ClientParam `{NngMsg} `{!HookParam} := {
  conn_param_get_pro_name : conn_param -> option bytes;
  conn_param_get_clean_start : conn_param -> bool;
  conn_param_get_will_topic : conn_param -> option (option bytes);
  conn_param_get_will_msg : conn_param -> option (option bytes)
}.

Module RestReports.

Import RuleSql RestApi RestEndpoints.

Abbreviation element := (list (bytes * json_value)).

(** {"code": .., "data": [..]}, or error_response. *)
Inductive report := Report (code : Z) (data : list element) | ReportError (status code : Z).

Definition NNG_HTTP_STATUS_BAD_REQUEST : Z := 400.

(** ** The time since the start *)

(** [get_uptime] prints the three numbers. *)
Definition get_uptime (clock boot_time : Z) : Z * Z * Z :=
  let uptime := clock - boot_time in
  (uptime / 1000 / 3600, uptime / 1000 / 60 mod 60, uptime / 1000 mod 60).

Definition uptime_text (t : Z * Z * Z) : bytes :=
  let '(hours, mins, secs) := t in
  take 99 (dec hours ++ lit " Hours, " ++ dec mins ++ lit " minutes, " ++ dec secs ++ lit " seconds").

(** The three numbers are the whole seconds since the start, split as hours,
    minutes below 60 and seconds below 60. *)
Theorem get_uptime_correct clock boot_time :
  let '(hours, mins, secs) := get_uptime clock boot_time in
  hours * 3600 + mins * 60 + secs = (clock - boot_time) / 1000 /\ 0 <= mins < 60 /\ 0 <= secs < 60.
Proof.
  unfold get_uptime. set (s := (clock - boot_time) / 1000).
  pose proof (Z.div_mod s 60 ltac:(lia)). pose proof (Z.mod_pos_bound s 60 ltac:(lia)).
  pose proof (Z.div_mod (s / 60) 60 ltac:(lia)). pose proof (Z.mod_pos_bound (s / 60) 60 ltac:(lia)).
  rewrite Z.div_div in * by lia. change (60 * 60) with 3600 in *. lia.
Qed.

Section Reports.

Context `{C : MqttConst} `{M : NngMsg} `{HP : !HookParam} `{CP : !ClientParam}.
Context (nng_strcasecmp : bytes -> bytes -> Z).

(** What the broker knows of a pipe: whether it is disconnected, and its
    parameters. *)
Context (nng_pipe_status : Z -> bool) (nng_pipe_cparam : Z -> option conn_param).

(** ** Clients *)

Record client_info := ClientInfo {
  ci_client_id : option bytes;
  ci_username : option bytes;
  ci_conn_state : option bytes;
  ci_has_clean_start : bool;
  ci_clean_start : bool;
  ci_proto_name : option bytes;
  ci_has_proto_ver : bool;
  ci_proto_ver : Z
}.

(** [s] is wanted, or nothing is: strcmp with a filter that may be NULL. *)
Definition wanted (filter s : option bytes) : bool :=
  match filter with
  | None => true
  | Some f => match s with None => false | Some v => strcmp0 f v end
  end.

Definition conn_state (status : bool) : bytes := if status then lit "disconnected" else lit "connected".

(** The members of the element of a client. *)
Definition client_element (status : bool) (cp : conn_param) (cid : bytes) : element :=
  let str k (s : option bytes) := match s with Some s => [(k, JStr s)] | None => [] end in
  [(lit "client_id", JStr cid);
   (lit "username", JStr (default [] (conn_param_get_username cp)));
   (lit "keepalive", JNum (conn_param_get_keepalive cp));
   (lit "conn_state", JStr (conn_state status));
   (lit "clean_start", JBool (conn_param_get_clean_start cp))] ++
  str (lit "proto_name") (conn_param_get_pro_name cp) ++
  [(lit "proto_ver", JNum (conn_param_get_protover cp))] ++
  match conn_param_get_will_topic cp with Some b => str (lit "will_topic") b | None => [] end ++
  match conn_param_get_will_msg cp with Some b => str (lit "will_msg") b | None => [] end.

(** get_client_cb: the element added to the array, if any. *)
Definition get_client_cb (info : client_info) (pipe : Z) : option (list element) :=
  let status := nng_pipe_status pipe in
  cp ← nng_pipe_cparam pipe;
  match conn_param_get_clientid cp with
  | None => Some []
  | Some cid =>
      if negb (wanted (ci_client_id info) (Some cid)) then Some []
      else if negb (wanted (ci_username info) (conn_param_get_username cp)) then Some []
      else if negb (wanted (ci_conn_state info) (Some (conn_state status))) then Some []
      else if ci_has_clean_start info && negb (Bool.eqb (conn_param_get_clean_start cp) (ci_clean_start info)) then Some []
      else if negb (wanted (ci_proto_name info) (conn_param_get_pro_name cp)) then Some []
      else if ci_has_proto_ver info && negb (conn_param_get_protover cp =? ci_proto_ver info) then Some []
      else Some [client_element status cp cid]
  end.

(** sscanf(s, "%d%c", ..) == 1: the number, when nothing follows it. *)
Fixpoint all_digits (s : bytes) (acc : Z) : option Z :=
  match s with
  | [] => Some acc
  | c :: s' => if (48 <=? c) && (c <=? 57) then all_digits s' (acc * 10 + (c - 48)) else None
  end.

Fixpoint skip_blanks (s : bytes) : bytes :=
  match s with
  | c :: s' => if (c =? 32) || ((9 <=? c) && (c <=? 13)) then skip_blanks s' else s
  | [] => []
  end.

(** The number is read as a long, which saturates, and stored as an int. *)
Definition as_int (n : Z) : Z := i32 (Z.max (- 2 ^ 63) (Z.min (2 ^ 63 - 1) n)).

Definition scan_int (s : bytes) : option Z :=
  match skip_blanks s with
  | [] => None
  | c :: s' =>
      let number (d : bytes) := match d with [] => None | _ => all_digits d 0 end in
      if c =? 45 then n ← number s'; Some (as_int (- n))
      else if c =? 43 then n ← number s'; Some (as_int n)
      else n ← number (c :: s'); Some (as_int n)
  end.

Definition known_version (ver : Z) : bool :=
  (ver =? MQTT_PROTOCOL_VERSION_v31) || (ver =? MQTT_PROTOCOL_VERSION_v311) || (ver =? MQTT_PROTOCOL_VERSION_v5).

(** One parameter; [None] is bad_request. *)
Definition client_param (p : kv) (i : client_info) : option client_info :=
  let '(ClientInfo id u st hc cs pn hv pv) := i in
  let v := kv_value p in
  if strcmp0 (kv_key p) (lit "clientid") || strcmp0 (kv_key p) (lit "client_id")
  then Some (ClientInfo (Some v) u st hc cs pn hv pv)
  else if strcmp0 (kv_key p) (lit "username") then Some (ClientInfo id (Some v) st hc cs pn hv pv)
  else if strcmp0 (kv_key p) (lit "conn_state") then
    if nng_strcasecmp v (lit "connected") =? 0 then Some (ClientInfo id u (Some (lit "connected")) hc cs pn hv pv)
    else if nng_strcasecmp v (lit "disconnected") =? 0
    then Some (ClientInfo id u (Some (lit "disconnected")) hc cs pn hv pv)
    else None
  else if strcmp0 (kv_key p) (lit "clean_start") then
    if nng_strcasecmp v (lit "true") =? 0 then Some (ClientInfo id u st true true pn hv pv)
    else if nng_strcasecmp v (lit "false") =? 0 then Some (ClientInfo id u st true false pn hv pv)
    else None
  else if strcmp0 (kv_key p) (lit "proto_name") then Some (ClientInfo id u st hc cs (Some v) hv pv)
  else if strcmp0 (kv_key p) (lit "proto_ver") then
    ver ← scan_int v;
    if (ver <? 0) || (255 <? ver) || negb (known_version ver) then None
    else Some (ClientInfo id u st hc cs pn true (u8 ver))
  else None.

Fixpoint client_params (params : list kv) (i : client_info) : option client_info :=
  match params with
  | [] => Some i
  | p :: params' => i ← client_param p i; client_params params' i
  end.

Fixpoint foreach_pipe (cb : Z -> option (list element)) (pipes : list Z) : option (list element) :=
  match pipes with
  | [] => Some []
  | p :: pipes' => e ← cb p; l ← foreach_pipe cb pipes'; Some (e ++ l)
  end.

(** [pipes] are the keys of the map of pipes, [None] when the socket does not
    give it. *)
Definition get_clients (params : list kv) (client_id username : option bytes) (pipes : option (list Z))
  : option report :=
  match client_params params (ClientInfo client_id username None false false None false 0) with
  | None => Some (ReportError NNG_HTTP_STATUS_BAD_REQUEST REQ_PARAM_ERROR)
  | Some info =>
      match pipes with
      | None => Some (Report SUCCEED [])
      | Some pipes => data ← foreach_pipe (get_client_cb info) pipes; Some (Report SUCCEED data)
      end
  end.

(** *** What the parameters ask for *)

(** The last parameter with one of the keys. *)
Definition param (keys : list bytes) (params : list kv) : option bytes :=
  last (omap (fun p => if decide (kv_key p ∈ keys) then Some (kv_value p) else None) params).

Definition known_number (v : bytes) : option Z :=
  ver ← scan_int v; if (0 <=? ver) && (ver <=? 255) && known_version ver then Some ver else None.

Definition valid_param (p : kv) : bool :=
  if decide (kv_key p ∈ [lit "clientid"; lit "client_id"; lit "username"; lit "proto_name"]) then true
  else if decide (kv_key p = lit "conn_state")
  then bool_decide (map lower (kv_value p) ∈ [lit "connected"; lit "disconnected"])
  else if decide (kv_key p = lit "clean_start")
  then bool_decide (map lower (kv_value p) ∈ [lit "true"; lit "false"])
  else if decide (kv_key p = lit "proto_ver") then bool_decide (is_Some (known_number (kv_value p)))
  else false.

(** [cid] and [cp] are what the request asks for. *)
Definition asked (params : list kv) (client_id username : option bytes) (status : bool) (cp : conn_param)
    (cid : bytes) : bool :=
  let or_path keys (d : option bytes) := match param keys params with Some v => Some v | None => d end in
  wanted (or_path [lit "clientid"; lit "client_id"] client_id) (Some cid) &&
  wanted (or_path [lit "username"] username) (conn_param_get_username cp) &&
  match param [lit "conn_state"] params with
  | Some v => bool_decide (map lower v = conn_state status)
  | None => true
  end &&
  match param [lit "clean_start"] params with
  | Some v => bool_decide (map lower v = if conn_param_get_clean_start cp then lit "true" else lit "false")
  | None => true
  end &&
  wanted (param [lit "proto_name"] params) (conn_param_get_pro_name cp) &&
  match param [lit "proto_ver"] params with
  | Some v => bool_decide (known_number v = Some (conn_param_get_protover cp))
  | None => true
  end.

Context (strcasecmp_spec : forall a b, nng_strcasecmp a b = 0 <-> map lower a = map lower b).

(** The settings after the parameters. *)
Definition applied (params : list kv) (i : client_info) : client_info :=
  let set {A} keys (f : bytes -> A) (d : A) := match param keys params with Some v => f v | None => d end in
  ClientInfo
    (set [lit "clientid"; lit "client_id"] Some (ci_client_id i))
    (set [lit "username"] Some (ci_username i))
    (set [lit "conn_state"] (fun v => Some (map lower v)) (ci_conn_state i))
    (set [lit "clean_start"] (fun _ => true) (ci_has_clean_start i))
    (set [lit "clean_start"] (fun v => bool_decide (map lower v = lit "true")) (ci_clean_start i))
    (set [lit "proto_name"] Some (ci_proto_name i))
    (set [lit "proto_ver"] (fun _ => true) (ci_has_proto_ver i))
    (set [lit "proto_ver"] (fun v => default 0 (known_number v)) (ci_proto_ver i)).

Lemma param_cons keys p params :
  param keys (p :: params) =
  match param keys params with
  | Some v => Some v
  | None => param keys [p]
  end.
Proof.
  unfold param. cbn [omap list_omap]. destruct (decide (kv_key p ∈ keys)).
  - rewrite last_cons. by destruct (last _).
  - by destruct (last _).
Qed.

Lemma applied_cons p params i : applied (p :: params) i = applied params (applied [p] i).
Proof.
  unfold applied. rewrite !(param_cons _ p params). cbn [ci_client_id ci_username ci_conn_state
    ci_has_clean_start ci_clean_start ci_proto_name ci_has_proto_ver ci_proto_ver].
  f_equal; by destruct (param _ params).
Qed.

Lemma casecmp_true a b : (nng_strcasecmp a b =? 0) = bool_decide (map lower a = map lower b).
Proof. apply strcasecmp_eqb, strcasecmp_spec. Qed.

Lemma state_param v i :
  client_param (Kv (lit "conn_state") v) i
  = if valid_param (Kv (lit "conn_state") v) then Some (applied [Kv (lit "conn_state") v] i) else None.
Proof.
  destruct i as [id u st hc cs pn hv pv].
  transitivity (if nng_strcasecmp v (lit "connected") =? 0
    then Some (ClientInfo id u (Some (lit "connected")) hc cs pn hv pv)
    else if nng_strcasecmp v (lit "disconnected") =? 0
    then Some (ClientInfo id u (Some (lit "disconnected")) hc cs pn hv pv) else None); [reflexivity|].
  transitivity (if bool_decide (map lower v ∈ [lit "connected"; lit "disconnected"])
    then Some (ClientInfo id u (Some (map lower v)) hc cs pn hv pv) else None); [|reflexivity].
  rewrite !casecmp_true. change (map lower (lit "connected")) with (lit "connected").
  change (map lower (lit "disconnected")) with (lit "disconnected").
  do 2 (case_bool_decide; [rewrite bool_decide_eq_true_2 by set_solver; by congruence|]).
  rewrite bool_decide_eq_false_2 by set_solver. done.
Qed.

Lemma clean_param v i :
  client_param (Kv (lit "clean_start") v) i
  = if valid_param (Kv (lit "clean_start") v) then Some (applied [Kv (lit "clean_start") v] i) else None.
Proof.
  destruct i as [id u st hc cs pn hv pv].
  transitivity (if nng_strcasecmp v (lit "true") =? 0
    then Some (ClientInfo id u st true true pn hv pv)
    else if nng_strcasecmp v (lit "false") =? 0
    then Some (ClientInfo id u st true false pn hv pv) else None); [reflexivity|].
  transitivity (if bool_decide (map lower v ∈ [lit "true"; lit "false"])
    then Some (ClientInfo id u st true (bool_decide (map lower v = lit "true")) pn hv pv) else None); [|reflexivity].
  rewrite !casecmp_true. change (map lower (lit "true")) with (lit "true").
  change (map lower (lit "false")) with (lit "false").
  case_bool_decide; [by rewrite bool_decide_eq_true_2 by set_solver|].
  case_bool_decide; [by rewrite bool_decide_eq_true_2 by set_solver|].
  rewrite bool_decide_eq_false_2 by set_solver. done.
Qed.

Lemma ver_param v i :
  client_param (Kv (lit "proto_ver") v) i
  = if valid_param (Kv (lit "proto_ver") v) then Some (applied [Kv (lit "proto_ver") v] i) else None.
Proof.
  destruct i as [id u st hc cs pn hv pv].
  transitivity (ver ← scan_int v;
    if (ver <? 0) || (255 <? ver) || negb (known_version ver) then None
    else Some (ClientInfo id u st hc cs pn true (u8 ver))); [reflexivity|].
  transitivity (if bool_decide (is_Some (known_number v))
    then Some (ClientInfo id u st hc cs pn true (default 0 (known_number v))) else None); [|reflexivity].
  unfold known_number. destruct (scan_int v) as [ver|]; cbn [mbind option_bind]; [|done].
  destruct (Z.ltb_spec ver 0); cbn [orb].
  { replace (0 <=? ver) with false by lia. done. }
  destruct (Z.ltb_spec 255 ver); cbn [orb].
  { replace (ver <=? 255) with false by lia. by rewrite andb_false_r. }
  replace (0 <=? ver) with true by lia. replace (ver <=? 255) with true by lia. cbn [andb].
  destruct (known_version ver); cbn [negb]; [|done]. by rewrite u8_small by lia.
Qed.

Lemma client_param_spec p i : client_param p i = if valid_param p then Some (applied [p] i) else None.
Proof.
  destruct p as [k v].
  destruct (decide (k = lit "clientid")) as [->|H1]; [by destruct i|].
  destruct (decide (k = lit "client_id")) as [->|H2]; [by destruct i|].
  destruct (decide (k = lit "username")) as [->|H3]; [by destruct i|].
  destruct (decide (k = lit "proto_name")) as [->|H4]; [by destruct i|].
  destruct (decide (k = lit "conn_state")) as [->|H5]; [apply state_param|].
  destruct (decide (k = lit "clean_start")) as [->|H6]; [apply clean_param|].
  destruct (decide (k = lit "proto_ver")) as [->|H7]; [apply ver_param|].
  unfold client_param, valid_param, strcmp0. cbn [kv_key kv_value].
  rewrite !bool_decide_eq_false_2 by done. rewrite !decide_False by set_solver. by destruct i.
Qed.

Lemma client_params_spec params i :
  client_params params i = if forallb valid_param params then Some (applied params i) else None.
Proof.
  induction params as [|p params IH] in i |- *; cbn [client_params forallb]; [by destruct i|].
  rewrite client_param_spec. destruct (valid_param p); cbn [mbind option_bind andb]; [|done].
  by rewrite IH, (applied_cons p params).
Qed.

Lemma param_valid keys params v :
  forallb valid_param params = true -> param keys params = Some v ->
  exists k, k ∈ keys /\ valid_param (Kv k v) = true.
Proof.
  intros Hv Hp. apply last_Some_elem_of in Hp. apply list_elem_of_omap in Hp as ([k w] & Hin & Ek). cbn in Ek.
  destruct (decide (k ∈ keys)) as [Hk|]; [|done]. injection Ek as ->. exists k. split; [done|].
  rewrite forallb_forall in Hv. apply Hv. by apply list_elem_of_In.
Qed.

(** After valid parameters the callback keeps exactly the clients asked for. *)
Lemma get_client_cb_asked params client_id username pipe cp :
  forallb valid_param params = true -> nng_pipe_cparam pipe = Some cp ->
  get_client_cb (applied params (ClientInfo client_id username None false false None false 0)) pipe =
  Some match conn_param_get_clientid cp with
       | Some cid => if asked params client_id username (nng_pipe_status pipe) cp cid
                     then [client_element (nng_pipe_status pipe) cp cid] else []
       | None => []
       end.
Proof.
  intros Hv Hc. unfold get_client_cb. rewrite Hc. cbn [mbind option_bind].
  destruct (conn_param_get_clientid cp) as [cid|]; [|done].
  unfold applied, asked. cbn [ci_client_id ci_username ci_conn_state ci_has_clean_start ci_clean_start
    ci_proto_name ci_has_proto_ver ci_proto_ver].
  destruct (wanted _ (Some cid)); cbn [negb andb]; [|done].
  destruct (wanted _ (conn_param_get_username cp)); cbn [negb andb]; [|done].
  set (st := nng_pipe_status pipe).
  assert (wanted (match param [lit "conn_state"] params with Some v => Some (map lower v) | None => None end)
      (Some (conn_state st))
    = match param [lit "conn_state"] params with
      | Some v => bool_decide (map lower v = conn_state st) | None => true end) as ->
    by (by destruct (param [lit "conn_state"] params)).
  destruct (match param [lit "conn_state"] params with Some _ => _ | None => _ end); cbn [negb andb]; [|done].
  assert ((match param [lit "clean_start"] params with Some _ => true | None => false end &&
      negb (Bool.eqb (conn_param_get_clean_start cp)
        match param [lit "clean_start"] params with
        | Some v => bool_decide (map lower v = lit "true") | None => false end))
    = negb match param [lit "clean_start"] params with
      | Some v => bool_decide (map lower v = if conn_param_get_clean_start cp then lit "true" else lit "false")
      | None => true end) as ->.
  { destruct (param [lit "clean_start"] params) as [v|] eqn:Ep; [|done]. cbn [andb].
    destruct (param_valid _ _ _ Hv Ep) as (k & Hk & Hkv). apply list_elem_of_singleton in Hk as ->.
    change (valid_param (Kv (lit "clean_start") v)) with (bool_decide (map lower v ∈ [lit "true"; lit "false"])) in Hkv.
    apply bool_decide_eq_true in Hkv. rewrite !elem_of_cons in Hkv.
    destruct Hkv as [->|[->|Hno]]; [by destruct (conn_param_get_clean_start cp)..|by apply not_elem_of_nil in Hno]. }
  destruct (match param [lit "clean_start"] params with Some _ => _ | None => _ end); cbn [negb andb]; [|done].
  assert (wanted (match param [lit "proto_name"] params with Some v => Some v | None => None end) (conn_param_get_pro_name cp)
    = wanted (param [lit "proto_name"] params) (conn_param_get_pro_name cp)) as ->
    by (by destruct (param [lit "proto_name"] params)).
  destruct (wanted _ (conn_param_get_pro_name cp)); cbn [negb andb]; [|done].
  destruct (param [lit "proto_ver"] params) as [v|] eqn:Ep; [|done]. cbn [andb].
  destruct (param_valid _ _ _ Hv Ep) as (k & Hk & Hkv). apply list_elem_of_singleton in Hk as ->.
  change (valid_param (Kv (lit "proto_ver") v)) with (bool_decide (is_Some (known_number v))) in Hkv.
  apply bool_decide_eq_true in Hkv as [ver Ev]. rewrite Ev. change (default 0 (Some ver)) with ver.
  destruct (Z.eqb_spec (conn_param_get_protover cp) ver) as [E|E]; cbn [negb].
  - by rewrite bool_decide_eq_true_2 by congruence.
  - by rewrite bool_decide_eq_false_2 by congruence.
Qed.

(** GET on clients: a request with a parameter it does not know, or with a
    value that is not one of the allowed ones, is refused as a whole; otherwise
    the answer has exactly one element for every client with an id that passes
    all filters, where the last of several equal parameters counts and a
    parameter overrides the id in the path. *)
Theorem get_clients_correct params client_id username pipes :
  Forall (fun p => is_Some (nng_pipe_cparam p)) pipes ->
  get_clients params client_id username (Some pipes) =
  Some (if forallb valid_param params then
          Report SUCCEED (omap (fun pipe =>
            cp ← nng_pipe_cparam pipe;
            cid ← conn_param_get_clientid cp;
            if asked params client_id username (nng_pipe_status pipe) cp cid
            then Some (client_element (nng_pipe_status pipe) cp cid) else None) pipes)
        else ReportError NNG_HTTP_STATUS_BAD_REQUEST REQ_PARAM_ERROR).
Proof.
  intros Hp. unfold get_clients. rewrite client_params_spec.
  destruct (forallb valid_param params) eqn:Hv; [|done].
  match goal with |- (_ ← foreach_pipe ?cb _; _) = _ => set (f := cb) end.
  assert (forall l, Forall (fun p => is_Some (nng_pipe_cparam p)) l -> foreach_pipe f l =
    Some (omap (fun pipe => cp ← nng_pipe_cparam pipe; cid ← conn_param_get_clientid cp;
      if asked params client_id username (nng_pipe_status pipe) cp cid
      then Some (client_element (nng_pipe_status pipe) cp cid) else None) l)) as Hf; [|by rewrite Hf].
  induction 1 as [|p l [cp Hcp] Hl IH]; [done|]. cbn [foreach_pipe omap list_omap].
  pose proof (get_client_cb_asked params client_id username p cp Hv Hcp) as Ecb. fold f in Ecb.
  rewrite Ecb, IH, Hcp. cbn [mbind option_bind].
  destruct (conn_param_get_clientid cp) as [cid|]; cbn [mbind option_bind]; [|done].
  by destruct (asked params client_id username (nng_pipe_status p) cp cid).
Qed.

(** ** Subscriptions *)

(** dbhash_copy_topic_queue: the topics of a pipe with their QoS. *)
Context (dbhash_copy_topic_queue : Z -> list (option bytes * Z)).

Definition subscription (cid topic : option bytes) (qos : Z) : element :=
  [(lit "clientid", JStr (default [] cid)); (lit "topic", JStr (default [] topic)); (lit "qos", JNum qos)].

(** One round of the loop over the pairs that dbhash_get_ptpair_all gives. *)
Definition pair_report (client_id : option bytes) (pipe : Z) : list element :=
  let add cid := map (fun '(topic, qos) => subscription cid topic qos) (dbhash_copy_topic_queue pipe) in
  match nng_pipe_cparam pipe with
  | Some cp =>
      let cid := conn_param_get_clientid cp in
      match client_id with
      | Some id =>
          match cid with
          | None => []
          | Some c => if strcmp0 id c then add cid else []
          end
      | None => add cid
      end
  | None => match client_id with Some _ => [] | None => add None end
  end.

Fixpoint pairs_report (client_id : option bytes) (pt : list Z) : list element :=
  match pt with
  | [] => []
  | p :: pt' => pair_report client_id p ++ pairs_report client_id pt'
  end.

Definition get_subscriptions (client_id : option bytes) (pt : list Z) : report :=
  Report SUCCEED (pairs_report client_id pt).

Section Registered.

(** The table of the registered topics, and its documented reading by the two
    functions above. *)
Context `{NDB : !NanoDb} (h : dbhash) (pt : list Z).
Context (pairs_all : forall p f, dbhash_check_topic h p f = true -> p ∈ pt)
  (queue_topics : forall p f, (exists q, (Some f, q) ∈ dbhash_copy_topic_queue p) <-> dbhash_check_topic h p f = true).

Definition client_of (pipe : Z) : option bytes := cp ← nng_pipe_cparam pipe; conn_param_get_clientid cp.

Lemma pairs_report_elem client_id l e :
  e ∈ pairs_report client_id l <-> exists p, p ∈ l /\ e ∈ pair_report client_id p.
Proof.
  induction l as [|p l IH]; cbn [pairs_report].
  - split; [by intros ?%not_elem_of_nil|]. intros (p & Hp & _). by apply not_elem_of_nil in Hp.
  - rewrite elem_of_app, IH. split.
    + intros [H|(p' & Hp & H)]; [exists p|exists p']; (split; [|done]); [by left|by right].
    + intros (p' & Hp & H). apply elem_of_cons in Hp as [->|Hp]; [by left|right; by exists p'].
Qed.

Lemma pair_report_add client_id p e :
  e ∈ pair_report client_id p <->
  (exists t q, (t, q) ∈ dbhash_copy_topic_queue p /\ e = subscription (client_of p) t q) /\
  wanted client_id (client_of p) = true.
Proof.
  assert (forall c, e ∈ map (fun '(t, q) => subscription c t q) (dbhash_copy_topic_queue p) <->
    exists t q, (t, q) ∈ dbhash_copy_topic_queue p /\ e = subscription c t q) as Hm.
  { intros c. rewrite list_elem_of_fmap. split; [intros ([t q] & -> & H); by exists t, q|].
    intros (t & q & H & ->). by exists (t, q). }
  unfold pair_report, client_of, wanted. destruct (nng_pipe_cparam p) as [cp|]; cbn [mbind option_bind].
  - destruct client_id as [id|]; [|rewrite Hm; naive_solver].
    destruct (conn_param_get_clientid cp) as [c|].
    + destruct (strcmp0 id c); [rewrite Hm; naive_solver|].
      split; [by intros ?%not_elem_of_nil|by intros [_ ?]].
    + split; [by intros ?%not_elem_of_nil|by intros [_ ?]].
  - destruct client_id as [id|]; [|rewrite Hm; naive_solver].
    split; [by intros ?%not_elem_of_nil|by intros [_ ?]].
Qed.

(** GET on subscriptions is the table of the handlers: a topic filter is
    listed for a client id exactly if it is registered for a pipe of a client
    with that id, and if the request names a client, only for that one. *)
Theorem get_subscriptions_registered client_id c f :
  c <> [] -> f <> [] ->
  (exists data q, get_subscriptions client_id pt = Report SUCCEED data /\ subscription (Some c) (Some f) q ∈ data) <->
  (exists p, client_of p = Some c /\ dbhash_check_topic h p f = true) /\ wanted client_id (Some c) = true.
Proof.
  intros Hc Hf. split.
  - intros (data & q & [= <-] & Hin). apply pairs_report_elem in Hin as (p & Hp & Hin).
    apply pair_report_add in Hin as ((t & q' & Ht & Es) & Hw). unfold subscription in Es.
    injection Es as Ec Ef ->. destruct (client_of p) as [c'|] eqn:Hcl; cbn in Ec; [|done].
    destruct t as [f'|]; cbn in Ef; [|done]. subst c' f'. split; [|done]. exists p. split; [done|].
    apply queue_topics. by exists q'.
  - intros ((p & Hcl & Hp) & Hw). pose proof (proj2 (queue_topics p f) Hp) as (q & Hq).
    eexists _, q. split; [done|]. apply pairs_report_elem. exists p. split; [by eapply pairs_all|].
    apply pair_report_add. rewrite Hcl. split; [|done]. by exists (Some f), q.
Qed.

End Registered.

End Reports.

(** ** Witnesses *)

Section Witness.

Import Model.

#[local] Instance report_hook : HookParam :=
  {| conn_param_get_protover _ := 4; conn_param_get_keepalive _ := 60; base64_encode l := l |}.

#[local] Instance report_param : ClientParam :=
  {| conn_param_get_pro_name _ := Some (lit "MQTT"); conn_param_get_clean_start _ := true;
     conn_param_get_will_topic _ := None; conn_param_get_will_msg _ := None |}.

(** Client 1 is connected, client 2 is not. *)
Definition report_clients (p : Z) : option (@conn_param Model.msgs) :=
  Some (Model.Cparam (Some (if p =? 1 then lit "one" else lit "two")) None None None).

Definition connected_only : list kv := [Kv (lit "conn_state") (lit "Connected"); Kv (lit "proto_ver") (lit "4")].

Lemma get_clients_correct_witness :
  exists e, get_clients casecmp (fun p => negb (p =? 1)) report_clients connected_only None None (Some [1; 2])
    = Some (Report SUCCEED [e]) /\ In (lit "client_id", JStr (lit "one")) e.
Proof.
  eexists. split.
  - rewrite (get_clients_correct casecmp (fun p => negb (p =? 1)) report_clients).
    + vm_compute. reflexivity.
    + intros a b. unfold casecmp. by destruct (decide (map lower a = map lower b)).
    + repeat constructor; by eexists.
  - by left.
Defined.

End Witness.

End RestReports.
