(* ===== verification/RestMetrics.v ===== *)
(** * Metrics over the REST API (nanomq/rest_api.c)

    The counters of clients, topics and messages, the load of the process, and
    the two reports on them.  [None] is memory that is read before it was
    written. *)

From S2P Require Import Prelude WebhookEvents RuleSql RestApi.

(** The type [float], as far as it is used: comparison, the quotient
    100.0 * a / b, "%.2f". *)
Class CFloat := {
  float : Type;
  float_zero : float;
  float_minus_one : float;
  float_gt : float -> float -> bool;
  float_percent : Z -> Z -> float;
  float_print2 : float -> bytes
}.

Module RestMetrics.

Import RuleSql RestApi.

Section Metrics.

Context `{F : CFloat}.

Record client_stats := ClientStats {
  cs_connections : Z;
  cs_sessions : Z;
  cs_topics : Z;
  cs_subscribers : Z;
  cs_message_received : Z;
  cs_message_sent : Z;
  cs_message_dropped : Z;
  cs_memory : Z;
  cs_cpu_percent : float
}.

Definition zero_stats : client_stats := ClientStats 0 0 0 0 0 0 0 0 float_zero.

(** ** Counters *)

(** get_conn_count_cb for every pipe. *)
Definition get_conn_count (pipes : list Z) : Z := fold_left (fun count _ => u32 (count + 1)) pipes 0.

(** get_metric_cb; [status] is nng_pipe_status, true for a disconnected pipe. *)
Definition get_metric_cb (status : Z -> bool) (s : client_stats) (pipe : Z) : client_stats :=
  ClientStats (if status pipe then cs_connections s else u32 (cs_connections s + 1)) (u32 (cs_sessions s + 1))
    (cs_topics s) (cs_subscribers s) (cs_message_received s) (cs_message_sent s) (cs_message_dropped s)
    (cs_memory s) (cs_cpu_percent s).

Definition count_pipes (status : Z -> bool) (pipes : list Z) (s : client_stats) : client_stats :=
  fold_left (get_metric_cb status) pipes s.

(** get_topics_count: the nodes of the tree with clients; a node is its topic,
    its number of children and its clients, NULL if there are none. *)
Record dbtree_info := TreeInfo { ti_topic : bytes; ti_cld_cnt : Z; ti_clients : option (list bytes) }.

Fixpoint count_nodes (l : list dbtree_info) (counter : Z) : Z :=
  match l with
  | [] => counter
  | n :: l' => count_nodes l' (match ti_clients n with Some _ => counter + 1 | None => counter end)
  end.

Definition get_topics_count (vn : list (list dbtree_info)) : Z :=
  fold_left (fun counter l => count_nodes l counter) vn 0.

(** get_tree: the members of every node, level by level. *)
Definition get_tree (vn : list (list dbtree_info)) : list (list (bytes * Z * list bytes)) :=
  map (map (fun n => (ti_topic n, ti_cld_cnt n, default [] (ti_clients n)))) vn.

Lemma count_pipes_spec status pipes s :
  Z.of_nat (length pipes) + cs_sessions s < 2 ^ 32 -> 0 <= cs_connections s <= cs_sessions s ->
  cs_sessions (count_pipes status pipes s) = cs_sessions s + blen pipes /\
  cs_connections (count_pipes status pipes s)
  = cs_connections s + blen (filter (fun p => status p = false) pipes).
Proof.
  unfold count_pipes, blen. induction pipes as [|p pipes IH] in s |- *; intros Hl Hs;
    [split; symmetry; apply Z.add_0_r|].
  cbn [fold_left length] in *. rewrite filter_cons.
  destruct (IH (get_metric_cb status s p)) as [-> ->].
  - cbn [cs_sessions get_metric_cb]. rewrite u32_small by lia. lia.
  - cbn [cs_sessions cs_connections get_metric_cb]. rewrite (u32_small (cs_sessions s + 1)) by lia.
    destruct (status p); [lia|]. rewrite u32_small by lia. lia.
  - cbn [cs_sessions cs_connections get_metric_cb]. rewrite (u32_small (cs_sessions s + 1)) by lia.
    split; [lia|]. destruct (status p); [rewrite decide_False by done; lia|].
    rewrite decide_True, u32_small by (done || lia). cbn [length]. lia.
Qed.

(** ** The load of the process *)

(** get_cpu_time: the first line of /proc/stat; the eight numbers are 32 bits
    wide and so is their sum. *)
Definition get_cpu_time (line : option (list Z)) : Z :=
  match line with
  | Some ns => if bool_decide (length ns = 8%nat) then u32 (fold_left (fun a n => u32 (a + n)) (map u32 ns) 0) else -1
  | None => -1
  end.

(** The static variables of update_process_info. *)
Record proc_state := ProcState { ps_last_cpu_time : Z; ps_last_proc_time : Z }.

(** [proc] is what /proc/<pid>/stat says: the four times and the resident set. *)
Definition update_process_info (st : proc_state) (line : option (list Z)) (proc : option (Z * Z * Z * Z * Z))
    (pagesize : Z) (s : client_stats) : Z * proc_state * client_stats :=
  let set_load m c := ClientStats (cs_connections s) (cs_sessions s) (cs_topics s) (cs_subscribers s)
    (cs_message_received s) (cs_message_sent s) (cs_message_dropped s) m c in
  let cpu_time := get_cpu_time line in
  if cpu_time =? -1 then (-1, st, set_load (cs_memory s) float_minus_one)
  else
    match proc with
    | None => (-1, st, s)
    | Some (utime, stime, cutime, cstime, rss) =>
        let proc_time := utime + stime + cutime + cstime in
        let diff := cpu_time - ps_last_cpu_time st in
        let percent := float_percent (proc_time - ps_last_proc_time st) (if diff =? 0 then -1 else diff) in
        (0, ProcState cpu_time proc_time,
         set_load (u64 (rss * pagesize)) (if float_gt percent float_zero then percent else float_zero))
    end.

(** ** Prometheus *)

Definition fmax (a b : float) : float := if float_gt a b then a else b.

(** The macro max_stats(s, ms, field). *)
Definition zmax (a b : Z) : Z := if b <? a then a else b.

Definition update_max_stats (ms s : client_stats) : client_stats :=
  ClientStats (zmax (cs_connections ms) (cs_connections s)) (zmax (cs_sessions ms) (cs_sessions s))
    (zmax (cs_topics ms) (cs_topics s)) (zmax (cs_subscribers ms) (cs_subscribers s))
    (cs_message_received ms) (cs_message_sent ms) (cs_message_dropped ms)
    (zmax (cs_memory ms) (cs_memory s)) (fmax (cs_cpu_percent ms) (cs_cpu_percent s)).

(** One metric of the text. *)
Definition metric (name kind help value : bytes) : bytes :=
  lit "# TYPE nanomq_" ++ name ++ lit " " ++ kind ++ [10] ++ lit "# HELP nanomq_" ++ name ++ help ++ [10] ++
  lit "nanomq_" ++ name ++ lit " " ++ value.

Definition METRICS_DATA_SIZE : Z := 2048.

(** The whole text; %d prints the 32-bit counters as signed numbers and %ld the
    64-bit ones. *)
Definition metrics_text (ms s : client_stats) : bytes :=
  let d n := dec (i32 n) in
  let ld n := dec ((n + 2 ^ 63) mod 2 ^ 64 - 2 ^ 63) in
  let gauge := lit "gauge" in
  let counter := lit "counter" in
  foldr (fun m t => m ++ [10] ++ t) []
    [metric (lit "connections_count") gauge [] (d (cs_connections s));
     metric (lit "connections_max") gauge [] (d (cs_connections ms));
     metric (lit "sessions_count") gauge [] (d (cs_sessions s));
     metric (lit "sessions_max") gauge [] (d (cs_sessions ms));
     metric (lit "topics_count") gauge [] (d (cs_topics s));
     metric (lit "topics_max") gauge [] (d (cs_topics ms));
     metric (lit "subscribers_count") gauge [] (d (cs_subscribers s));
     metric (lit "subscribers_max") gauge [] (d (cs_subscribers ms));
     metric (lit "messages_received") counter [] (d (cs_message_received s));
     metric (lit "messages_sent") counter [] (d (cs_message_sent s));
     metric (lit "messages_dropped") counter [] (d (cs_message_dropped s));
     metric (lit "memory_usage") gauge (lit " (b)") (ld (cs_memory s));
     metric (lit "memory_usage_max") gauge (lit " (b)") (ld (cs_memory ms));
     metric (lit "cpu_usage") gauge (lit " (%)") (float_print2 (cs_cpu_percent s));
     metric (lit "cpu_usage_max") gauge (lit " (%)") (float_print2 (cs_cpu_percent ms))].

(** snprintf(ret, METRICS_DATA_SIZE, ..) *)
Definition compose_metrics (ms s : client_stats) : bytes :=
  take (Z.to_nat METRICS_DATA_SIZE - 1) (metrics_text ms s).

(** get_prometheus: [max_stats] is static; [pipes] is the map of pipes, [None]
    when the socket does not give it.  Then [dest] is read without having been
    initialised. *)
Definition get_prometheus (max_stats : client_stats) (st : proc_state) (status : Z -> bool) (pipes : option (list Z))
    (pipe_cnt : Z) (vn : list (list dbtree_info)) (msg_in msg_out msg_drop : Z) (line : option (list Z))
    (proc : option (Z * Z * Z * Z * Z)) (pagesize : Z)
  : option (bytes * client_stats * client_stats * proc_state) :=
  pipes ← pipes;
  let stats := count_pipes status pipes zero_stats in
  let stats := ClientStats (cs_connections stats) (cs_sessions stats) (u32 (get_topics_count vn)) (u32 pipe_cnt)
    (u32 msg_in) (u32 msg_out) (u32 msg_drop) (cs_memory stats) (cs_cpu_percent stats) in
  let '(_, st, stats) := update_process_info st line proc pagesize stats in
  let max_stats := update_max_stats max_stats stats in
  Some (compose_metrics max_stats stats, stats, max_stats, st).

(** ** Brokers, nodes and bridges *)

(** The members of an element. *)
Abbreviation members := (list (bytes * json_value)).

Definition get_version (major minor patch : Z) (id : bytes) : bytes :=
  take 99 (dec major ++ lit "." ++ dec minor ++ lit "." ++ dec patch ++ lit "-" ++ id).

(** The code and the only element of "data". *)
Definition get_brokers (time_str runtime version : bytes) : Z * members :=
  (SUCCEED, [(lit "datetime", JStr time_str); (lit "node_status", JStr (lit "Running"));
             (lit "sysdescr", JStr (lit "NanoMQ Broker")); (lit "uptime", JStr runtime); (lit "version", JStr version)]).

(** [pipes] is [None] when the socket does not give the map. *)
Definition get_nodes (pipes : option (list Z)) (runtime version : bytes) : Z * members :=
  (SUCCEED, [(lit "connections", JNum (from_option get_conn_count 0 pipes)); (lit "node_status", JStr (lit "Running"));
             (lit "uptime", JStr runtime); (lit "version", JStr version)]).

(** A statistic of the library: its description, its number, its text. *)
Record nng_stat := NngStat { ns_desc : bytes; ns_value : Z; ns_string : bytes }.

(** The statistics of the socket of a bridge that are shown. *)
Definition bridge_stats : list bytes :=
  map lit ["tx_msgs"; "rx_msgs"; "tx_bytes"; "rx_bytes"; "mqtt_client_reconnect"; "mqtt_msg_send_drop"; "mqtt_msg_recv_drop"]%string.

(** [find] is nng_stat_find on the statistics of the socket. *)
Definition bridge_info (find : bytes -> option nng_stat) : members :=
  match find (lit "name") with Some s => [(lit "bridge name", JStr (ns_string s))] | None => [] end ++
  omap (fun name => (fun s => (ns_desc s, JNum (ns_value s))) <$> find name) bridge_stats.

(** Each bridge is whether it is enabled and its statistics.  The values are
    the members of the answer beside "metrics". *)
Definition get_metrics (st : proc_state) (line : option (list Z)) (proc : option (Z * Z * Z * Z * Z)) (pagesize : Z)
    (bridges : list (bool * (bytes -> option nng_stat))) (lc : Z) : list members * members * proc_state :=
  let '(_, st, stats) := update_process_info st line proc pagesize zero_stats in
  (map (fun b => bridge_info (snd b)) (List.filter fst bridges),
   [(lit "cpuinfo", JStr (take 15 (float_print2 (cs_cpu_percent stats) ++ lit "%")));
    (lit "memory", JStr (take 63 (dec (cs_memory stats)))); (lit "connections", JNum lc)], st).

(** ** What is reported *)

(** The number of connections of GET on nodes counts every session, also the
    kept ones of disconnected clients; the metric of the same name counts the
    connected ones. *)
Theorem nodes_count_sessions status pipes :
  blen pipes < 2 ^ 32 ->
  get_conn_count pipes = cs_sessions (count_pipes status pipes zero_stats) /\
  cs_connections (count_pipes status pipes zero_stats) = blen (filter (fun p => status p = false) pipes).
Proof.
  intros Hl. destruct (count_pipes_spec status pipes zero_stats) as [-> ->]; [cbn [cs_sessions zero_stats]; unfold blen in Hl; lia|cbn; lia|].
  split; [|done]. unfold get_conn_count. cbn [cs_sessions zero_stats].
  assert (forall (l : list Z) c, 0 <= c -> c + blen l < 2 ^ 32 -> fold_left (fun count _ => u32 (count + 1)) l c = c + blen l) as H.
  { clear. intros l. induction l as [|p l IH]; intros c Hc Hl; cbn [fold_left]; [unfold blen; cbn; lia|].
    rewrite blen_cons in *. assert (0 <= blen l) by (unfold blen; lia).
    rewrite u32_small by lia. rewrite IH; lia. }
  rewrite H; lia.
Qed.

(** The topics counted are the nodes of the topic tree that have clients. *)
Theorem get_topics_count_correct vn :
  get_topics_count vn = blen (filter (fun n => is_Some (ti_clients n)) (concat vn)).
Proof.
  assert (forall l c, count_nodes l c = c + blen (filter (fun n => is_Some (ti_clients n)) l)) as Hn.
  { intros l. induction l as [|n l IH]; intros c; cbn [count_nodes]; [unfold blen; cbn; lia|].
    rewrite IH, filter_cons. destruct (ti_clients n); case_decide as Hd; rewrite ?blen_cons; try lia;
      [by destruct Hd|by destruct Hd]. }
  unfold get_topics_count. change (blen ?l) with (0 + blen l).
  generalize 0 as c. induction vn as [|l vn IH]; intros c; cbn [fold_left concat]; [unfold blen; cbn; lia|].
  rewrite IH, Hn, filter_app, blen_app. lia.
Qed.

(** The time of the processors is a sum of 32-bit numbers: it wraps around,
    and the load computed after that is zero. *)
Theorem get_cpu_time_wraps ns :
  length ns = 8%nat -> get_cpu_time (Some ns) = u32 (fold_right Z.add 0 ns).
Proof.
  intros Hl. unfold get_cpu_time. rewrite bool_decide_eq_true_2 by done.
  assert (forall l a, u32 (fold_left (fun a n => u32 (a + n)) (map u32 l) a) = u32 (a + fold_right Z.add 0 l)) as H.
  { intros l. induction l as [|n l IH]; intros a; cbn [map fold_left fold_right]; [by rewrite Z.add_0_r|].
    rewrite IH. unfold u32. rewrite Z.add_mod_idemp_l, <- (Z.add_mod_idemp_l (a + n mod 4294967296)) by lia.
    rewrite Z.add_mod_idemp_r, Z.add_mod_idemp_l by lia. f_equal. lia. }
  by rewrite H.
Qed.

(** *** The maxima *)

Lemma zmax_spec a b : zmax a b = Z.max a b.
Proof. unfold zmax. destruct (Z.ltb_spec b a); lia. Qed.

(** The counters whose maximum is kept. *)
Definition kept : list (client_stats -> Z) := [cs_connections; cs_sessions; cs_topics; cs_subscribers; cs_memory].

Lemma update_max_field f ms s : f ∈ kept -> f (update_max_stats ms s) = Z.max (f ms) (f s).
Proof.
  unfold kept. rewrite !elem_of_cons. intros H. rewrite <- zmax_spec. destruct_or! H; try (by subst f).
  by apply not_elem_of_nil in H.
Qed.

(** The maxima are those of all reports since the start: no report has
    been above, and each maximum was reached by one (or is still zero). *)
Theorem max_stats_history f l :
  f ∈ kept ->
  let ms := fold_left update_max_stats l zero_stats in
  Forall (fun s => f s <= f ms) l /\ (f ms = 0 \/ exists s, s ∈ l /\ f ms = f s).
Proof.
  intros Hf. cbv zeta.
  assert (f zero_stats = 0) as H0.
  { revert Hf. unfold kept. rewrite !elem_of_cons. intros H. destruct_or! H; try (by subst f).
    by apply not_elem_of_nil in H. }
  assert (forall m, let ms := fold_left update_max_stats l m in
    f m <= f ms /\ Forall (fun s => f s <= f ms) l /\ (f ms = f m \/ exists s, s ∈ l /\ f ms = f s)) as H.
  { clear H0. induction l as [|s l IH]; intros m; cbn [fold_left]; [split_and!; [done|constructor|by left]|].
    destruct (IH (update_max_stats m s)) as (H1 & H2 & H3). rewrite (update_max_field f m s Hf) in H1, H3.
    split_and!; [lia|constructor; [lia|done]|].
    destruct H3 as [H3|(s' & Hs & H3)]; [|right; exists s'; split; [by right|done]].
    destruct (Z.max_spec (f m) (f s)) as [[_ E]|[_ E]]; rewrite E in H3; [|by left].
    right. exists s. split; [by left|done]. }
  destruct (H zero_stats) as (_ & Ha & Hb). rewrite H0 in Hb. by split.
Qed.

(** *** The text *)

(** The text is never cut: it has at most 2047 bytes for all values of the
    counters, if a percentage takes at most 64 characters (a float
    takes 43). *)
Theorem metrics_fit ms s :
  blen (float_print2 (cs_cpu_percent s)) <= 64 -> blen (float_print2 (cs_cpu_percent ms)) <= 64 ->
  compose_metrics ms s = metrics_text ms s.
Proof.
  intros H1 H2. unfold compose_metrics. apply take_ge.
  assert (blen (metrics_text ms s) <= 2047) as Hb; [|unfold METRICS_DATA_SIZE; unfold blen in Hb; lia].
  assert (forall n, blen (dec ((n + 2 ^ 63) mod 2 ^ 64 - 2 ^ 63)) <= 20) as Hld.
  { intros n. apply (dec_length 19); [lia|]. change (10 ^ Z.of_nat 19) with 10000000000000000000.
    pose proof (Z.mod_pos_bound (n + 2 ^ 63) (2 ^ 64)). lia. }
  assert (forall name kind help v, blen (metric name kind help v)
    = 39 + 3 * blen name + blen kind + blen help + blen v) as Hm.
  { intros name kind help v. unfold metric. rewrite !blen_app.
    change (blen (lit "# TYPE nanomq_")) with 14. change (blen (lit "# HELP nanomq_")) with 14.
    change (blen (lit "nanomq_")) with 7. change (blen (lit " ")) with 1. change (blen [10]) with 1. lia. }
  unfold metrics_text. cbn [foldr]. rewrite !blen_app, !Hm, blen_nil.
  repeat match goal with |- context [blen (lit ?s)] => let n := eval vm_compute in (blen (lit s)) in
    change (blen (lit s)) with n end.
  change (@blen Z []) with 0. change (blen [10]) with 1.
  repeat match goal with |- context [dec (i32 ?n)] => pose proof (dec_i32_length n); generalize dependent (dec (i32 n)); intros end.
  pose proof (Hld (cs_memory s)). pose proof (Hld (cs_memory ms)). lia.
Qed.

End Metrics.

End RestMetrics.
