(* ===== verification/ConfApi.v ===== *)
(** * The configuration as JSON (nanomq/conf_api.c)

    For every part of the configuration a function shows it as JSON ([get_..])
    and one changes it to what a JSON object says ([set_..]); members that are
    absent or of another type leave the setting as it is.  JSON values are built
    and read with cJSON, which is a class of operations with laws here.  [None]
    is an element of an array or a pointer that is used without being there. *)

From S2P Require Import Prelude NngApi RestApi RestEndpoints RestPublish RestRules RestBridge.

(** Building values, and the conversions of a number to the C types. *)
Class CJsonDoc `{J : CJsonTree} `{JA : !CJsonArr} := {
  jfloat : Type;
  json_of_num : Z -> json;
  json_of_float : jfloat -> json;
  json_of_str : bytes -> json;
  json_of_bool : bool -> json;
  json_null : json;
  json_of_obj : list (bytes * json) -> json;
  json_of_arr : list json -> json;
  json_float : json -> option jfloat;
  to_int : Z -> Z;
  to_uint16 : Z -> Z;
  to_uint32 : Z -> Z;
  to_uint64 : Z -> Z
}.

(** A number is exact up to 2^53; cJSON_GetObjectItem finds the first member of
    the name without regard to case; a conversion in range is exact. *)
Class CJsonDocLaws `{CJsonDoc} : Prop := {
  number_of_num n : Z.abs n <= 2 ^ 53 -> json_number (json_of_num n) = Some n;
  float_of_float f : json_float (json_of_float f) = Some f;
  string_of_str s : json_string (json_of_str s) = Some s;
  string_of_null : json_string json_null = None;
  bool_of_bool b : json_bool (json_of_bool b) = Some b;
  item_of_obj l k : json_item (json_of_obj l) k
    = snd <$> List.find (fun m => bool_decide (map RestEndpoints.lower (fst m) = map RestEndpoints.lower k)) l;
  is_object_of_obj l : json_is_object (json_of_obj l) = true;
  is_object_of_arr l : json_is_object (json_of_arr l) = false;
  is_array_of_arr l : json_is_array (json_of_arr l) = true;
  is_array_of_obj l : json_is_array (json_of_obj l) = false;
  children_of_obj l : json_children (json_of_obj l) = map (fun m => (Some (fst m), snd m)) l;
  children_of_arr l : json_children (json_of_arr l) = map (fun v => (None, v)) l;
  to_int_range n : -2147483648 <= n < 2147483648 -> to_int n = n;
  to_uint16_range n : 0 <= n < 65536 -> to_uint16 n = n;
  to_uint32_range n : 0 <= n < 4294967296 -> to_uint32 n = n;
  to_uint64_range n : 0 <= n < 18446744073709551616 -> to_uint64 n = n
}.

Module ConfApi.

Import RestApi RestEndpoints RestPublish RestRules RestBridge.

Section Conf.

Context `{J : CJsonTree} `{JA : !CJsonArr} `{D : !CJsonDoc}.

(** ** The parts of the configuration *)

Record conf_basic := ConfBasic {
  cb_url : option bytes;
  cb_enable : bool;
  cb_num_taskq_thread : Z;
  cb_max_taskq_thread : Z;
  cb_parallel : Z;
  cb_property_size : Z;
  cb_daemon : bool;
  cb_max_packet_size : Z;
  cb_client_max_packet_size : Z;
  cb_msq_len : Z;
  cb_qos_duration : Z;
  cb_backoff : jfloat;
  cb_allow_anonymous : bool;
  cb_ipc_internal : bool;
  cb_parquet_enable : bool;
  cb_bridge_mode : bool
}.

Record conf_tls := ConfTls {
  ct_enable : bool;
  ct_url : option bytes;
  ct_key_password : option bytes;
  ct_key : option bytes;
  ct_cert : option bytes;
  ct_ca : option bytes;
  ct_verify_peer : bool;
  ct_set_fail : bool
}.

(** [ca_count] is kept beside the vectors. *)
Record conf_auth := ConfAuth {
  ca_enable : bool;
  ca_count : nat;
  ca_usernames : list bytes;
  ca_passwords : list bytes
}.

Record conf_websocket := ConfWebsocket {
  cw_enable : bool;
  cw_tls_enable : bool;
  cw_url : option bytes;
  cw_tls_url : option bytes
}.

Record conf_http_server := ConfHttp {
  ch_enable : bool;
  ch_port : Z;
  ch_ip_addr : option bytes;
  ch_username : option bytes;
  ch_password : option bytes;
  ch_auth_type : http_auth_type
}.

Record conf_sqlite := ConfSqlite {
  cq_enable : bool;
  cq_disk_cache_size : Z;
  cq_flush_mem_threshold : Z;
  cq_resend_interval : Z;
  cq_mounted_file_path : option bytes
}.

Inductive http_param_type :=
  USERNAME | PASSWORD | CLIENTID | ACCESS | TOPIC | IPADDRESS | SOCKPORT | COMMON_NAME | PROTOCOL | SUBJECT | MOUNTPOINT.

Record conf_auth_http_req := ConfAuthReq {
  cr_url : option bytes;
  cr_method : option bytes;
  cr_headers : list (bytes * bytes);
  cr_params : list (bytes * http_param_type);
  cr_tls : conf_tls
}.

Record conf_auth_http := ConfAuthHttp {
  ah_enable : bool;
  ah_timeout : Z;
  ah_connect_timeout : Z;
  ah_pool_size : Z;
  ah_cache_ttl : Z;
  ah_auth_req : conf_auth_http_req;
  ah_acl_req : conf_auth_http_req;
  ah_super_req : conf_auth_http_req
}.

(** ** Showing *)

Definition str_or_null (s : option bytes) : json := match s with Some s => json_of_str s | None => json_null end.

Definition get_reload_config (c : conf_basic) : json :=
  json_of_obj
    [(lit "property_size", json_of_num (cb_property_size c));
     (lit "max_packet_size", json_of_num (cb_max_packet_size c / 1024));
     (lit "client_max_packet_size", json_of_num (cb_client_max_packet_size c / 1024));
     (lit "msq_len", json_of_num (cb_msq_len c));
     (lit "qos_duration", json_of_num (cb_qos_duration c));
     (lit "keepalive_backoff", json_of_float (cb_backoff c));
     (lit "allow_anonymous", json_of_bool (cb_allow_anonymous c));
     (lit "enable_mqtt_stream", json_of_bool (cb_parquet_enable c));
     (lit "bridge_mode", json_of_bool (cb_bridge_mode c))].

Definition get_basic_config (c : conf_basic) : json :=
  json_of_obj
    [(lit "url", str_or_null (cb_url c));
     (lit "num_taskq_thread", json_of_num (cb_num_taskq_thread c));
     (lit "max_taskq_thread", json_of_num (cb_max_taskq_thread c));
     (lit "parallel", json_of_num (cb_parallel c));
     (lit "property_size", json_of_num (cb_property_size c));
     (lit "daemon", json_of_bool (cb_daemon c));
     (lit "max_packet_size", json_of_num (cb_max_packet_size c / 1024));
     (lit "client_max_packet_size", json_of_num (cb_client_max_packet_size c / 1024));
     (lit "msq_len", json_of_num (cb_msq_len c));
     (lit "qos_duration", json_of_num (cb_qos_duration c));
     (lit "keepalive_backoff", json_of_float (cb_backoff c));
     (lit "allow_anonymous", json_of_bool (cb_allow_anonymous c));
     (lit "ipc_internal", json_of_bool (cb_ipc_internal c))].

Definition get_tls_config (t : conf_tls) : json :=
  json_of_obj
    [(lit "enable", json_of_bool (ct_enable t));
     (lit "url", str_or_null (ct_url t));
     (lit "key_password", str_or_null (ct_key_password t));
     (lit "key", str_or_null (ct_key t));
     (lit "cert", str_or_null (ct_cert t));
     (lit "cacert", str_or_null (ct_ca t));
     (lit "verify_peer", json_of_bool (ct_verify_peer t));
     (lit "fail_if_no_peer_cert", json_of_bool (ct_set_fail t))].

(** The loop over [i < auth->count]. *)
Fixpoint auth_items (count : nat) (us ps : list bytes) : option (list json) :=
  match count with
  | O => Some []
  | S n =>
      match us, ps with
      | u :: us', p :: ps' =>
          l ← auth_items n us' ps';
          Some (json_of_obj [(lit "login", json_of_str u); (lit "password", json_of_str p)] :: l)
      | _, _ => None
      end
  end.

Definition get_auth_config (a : conf_auth) : option json :=
  json_of_arr <$> auth_items (ca_count a) (ca_usernames a) (ca_passwords a).

Definition get_auth_http_req_config (r : conf_auth_http_req) : json :=
  json_of_obj
    [(lit "url", str_or_null (cr_url r));
     (lit "method", str_or_null (cr_method r));
     (lit "headers", json_of_obj (map (fun h => (fst h, json_of_str (snd h))) (cr_headers r)));
     (lit "params", json_of_arr (map (fun p => json_of_str (fst p)) (cr_params r)));
     (lit "tls", get_tls_config (cr_tls r))].

Definition get_auth_http_config (a : conf_auth_http) : json :=
  json_of_obj
    [(lit "enable", json_of_bool (ah_enable a));
     (lit "timeout", json_of_num (ah_timeout a));
     (lit "connect_timeout", json_of_num (ah_connect_timeout a));
     (lit "pool_size", json_of_num (ah_pool_size a));
     (lit "cache_ttl", json_of_num (ah_cache_ttl a));
     (lit "auth_req", get_auth_http_req_config (ah_auth_req a));
     (lit "acl_req", get_auth_http_req_config (ah_acl_req a));
     (lit "super_req", get_auth_http_req_config (ah_super_req a))].

Definition get_websocket_config (w : conf_websocket) : json :=
  json_of_obj
    [(lit "enable", json_of_bool (cw_enable w));
     (lit "tls_enable", json_of_bool (cw_tls_enable w));
     (lit "url", str_or_null (cw_url w));
     (lit "tls_url", str_or_null (cw_tls_url w))].

Definition get_http_config (h : conf_http_server) : json :=
  json_of_obj
    [(lit "enable", json_of_bool (ch_enable h));
     (lit "port", json_of_num (ch_port h));
     (lit "addr", str_or_null (ch_ip_addr h));
     (lit "username", str_or_null (ch_username h));
     (lit "password", str_or_null (ch_password h));
     (lit "auth_type", json_of_str (match ch_auth_type h with JWT => lit "jwt" | _ => lit "basic" end))].

Definition get_sqlite_config (q : conf_sqlite) : json :=
  json_of_obj
    [(lit "enable", json_of_bool (cq_enable q));
     (lit "disk_cache_size", json_of_num (cq_disk_cache_size q));
     (lit "flush_mem_threshold", json_of_num (cq_flush_mem_threshold q));
     (lit "resend_interval", json_of_num (cq_resend_interval q));
     (lit "mounted_file_path", str_or_null (cq_mounted_file_path q))].

(** ** Setting *)

(** getNumberValue, getBoolValue and getStringValue with the update that
    follows them. *)
Definition set_num (j : json) (key : string) (conv : Z -> Z) (old : Z) : Z :=
  match get_number j (lit key) with Some n => conv n | None => old end.
Definition set_float (j : json) (key : string) (old : jfloat) : jfloat :=
  default old (item ← json_item j (lit key); json_float item).
Definition set_bool (j : json) (key : string) (old : bool) : bool := default old (get_bool j (lit key)).
Definition set_str (j : json) (key : string) (old : option bytes) : option bytes :=
  match get_string j (lit key) with Some s => Some s | None => old end.

(** The sizes are multiplied by 1024 in 32 bits. *)
Definition kilobytes (n : Z) : Z := u32 (to_uint32 n * 1024).

Definition set_reload_config (j : json) (c : conf_basic) : conf_basic :=
  ConfBasic (cb_url c) (cb_enable c) (cb_num_taskq_thread c) (cb_max_taskq_thread c) (cb_parallel c)
    (set_num j "property_size" to_int (cb_property_size c))
    (cb_daemon c)
    (set_num j "max_packet_size" kilobytes (cb_max_packet_size c))
    (set_num j "client_max_packet_size" kilobytes (cb_client_max_packet_size c))
    (set_num j "msq_len" to_int (cb_msq_len c))
    (set_num j "qos_duration" to_uint32 (cb_qos_duration c))
    (set_float j "keepalive_backoff" (cb_backoff c))
    (set_bool j "allow_anonymous" (cb_allow_anonymous c))
    (cb_ipc_internal c) (cb_parquet_enable c) (cb_bridge_mode c).

Definition set_basic_config (j : json) (c : conf_basic) : conf_basic :=
  ConfBasic
    (set_str j "url" (cb_url c))
    (set_bool j "enable" (cb_enable c))
    (set_num j "num_taskq_thread" to_int (cb_num_taskq_thread c))
    (set_num j "max_taskq_thread" to_int (cb_max_taskq_thread c))
    (set_num j "parallel" to_uint64 (cb_parallel c))
    (set_num j "property_size" to_int (cb_property_size c))
    (set_bool j "daemon" (cb_daemon c))
    (set_num j "max_packet_size" kilobytes (cb_max_packet_size c))
    (set_num j "client_max_packet_size" kilobytes (cb_client_max_packet_size c))
    (set_num j "msq_len" to_int (cb_msq_len c))
    (set_num j "qos_duration" to_uint32 (cb_qos_duration c))
    (set_float j "keepalive_backoff" (cb_backoff c))
    (set_bool j "allow_anonymous" (cb_allow_anonymous c))
    (set_bool j "ipc_internal" (cb_ipc_internal c))
    (cb_parquet_enable c) (cb_bridge_mode c).

Definition set_tls_config (j : json) (t : conf_tls) : conf_tls :=
  ConfTls
    (set_bool j "enable" (ct_enable t))
    (set_str j "url" (ct_url t))
    (set_str j "keypass" (ct_key_password t))
    (set_str j "key" (ct_key t))
    (set_str j "cert" (ct_cert t))
    (set_str j "cacert" (ct_ca t))
    (set_bool j "verify_peer" (ct_verify_peer t))
    (set_bool j "fail_if_no_peer_cert" (ct_set_fail t)).

Definition set_http_config (j : json) (h : conf_http_server) : conf_http_server :=
  ConfHttp
    (set_bool j "enable" (ch_enable h))
    (set_num j "port" to_uint16 (ch_port h))
    (ch_ip_addr h)
    (set_str j "username" (ch_username h))
    (set_str j "password" (ch_password h))
    (match get_string j (lit "auth_type") with
     | Some t => if strcmp0 (lit "basic") t then BASIC else if strcmp0 (lit "jwt") t then JWT else ch_auth_type h
     | None => ch_auth_type h
     end).

Definition set_websocket_config (j : json) (w : conf_websocket) : conf_websocket :=
  ConfWebsocket
    (set_bool j "enable" (cw_enable w))
    (set_bool j "tls_enable" (cw_tls_enable w))
    (set_str j "url" (cw_url w))
    (set_str j "tls_url" (cw_tls_url w)).

Definition set_sqlite_config (j : json) (q : conf_sqlite) : conf_sqlite :=
  ConfSqlite
    (set_bool j "enable" (cq_enable q))
    (set_num j "disk_cache_size" to_uint64 (cq_disk_cache_size q))
    (set_num j "flush_mem_threshold" to_uint64 (cq_flush_mem_threshold q))
    (set_num j "resend_interval" to_uint64 (cq_resend_interval q))
    (set_str j "mounted_file_path" (cq_mounted_file_path q)).

(** *** User names and passwords *)

(** The loop over the array of pairs: [count] is the size of the array, and the
    invalid pairs are left out of the vectors. *)
Fixpoint auth_pairs (items : list (option bytes * json)) : list (bytes * bytes) :=
  match items with
  | [] => []
  | (_, kv) :: items' =>
      match get_string kv (lit "username"), get_string kv (lit "password") with
      | Some u, Some p => (u, p) :: auth_pairs items'
      | _, _ => auth_pairs items'
      end
  end.

(** [v[0 .. count - 1]], all of which have to be there. *)
Definition first_n (count : nat) (v : list bytes) : option (list bytes) :=
  if (count <=? length v)%nat then Some (take count v) else None.

(** The old vectors are freed element by element, the new ones copied. *)
Definition reload_auth_config (cur new : conf_auth) : option conf_auth :=
  _ ← first_n (ca_count cur) (ca_usernames cur);
  _ ← first_n (ca_count cur) (ca_passwords cur);
  us ← first_n (ca_count new) (ca_usernames new);
  ps ← first_n (ca_count new) (ca_passwords new);
  Some (ConfAuth (ca_enable cur) (ca_count new) us ps).

Definition set_auth_config (j : json) (auth : conf_auth) : option conf_auth :=
  let items := json_children j in
  let pairs := auth_pairs items in
  reload_auth_config auth (ConfAuth false (length items) (map fst pairs) (map snd pairs)).

(** *** Authentication over HTTP *)

Context (nng_strcasecmp : bytes -> bytes -> Z).

(** Existing headers are overwritten in order; a further one gets a place in the
    array of pointers, but no header behind it. *)
Fixpoint set_headers (items : list (option bytes * json)) (headers : list (bytes * bytes)) (index : nat)
  : option (list (bytes * bytes)) :=
  match items with
  | [] => Some headers
  | (key, item) :: items' =>
      match json_string item with
      | Some value =>
          k ← key;
          if (length headers <=? index)%nat then None
          else set_headers items' (<[index := (k, value)]> headers) (S index)
      | None => set_headers items' headers index
      end
  end.

(** The chain of comparisons: the name and the type that are stored. *)
Definition http_param (arg : bytes) : option (bytes * http_param_type) :=
  let same name := nng_strcasecmp arg name =? 0 in
  if same (lit "username") then Some (lit "username", USERNAME)
  else if same (lit "password") then Some (lit "password", PASSWORD)
  else if same (lit "clientid") then Some (lit "clientid", CLIENTID)
  else if same (lit "access") then Some (lit "access", ACCESS)
  else if same (lit "topic") then Some (lit "topic", TOPIC)
  else if same (lit "ipaddress") then Some (lit "ipaddress", IPADDRESS)
  else if same (lit "sockport") then Some (lit "sockport", SOCKPORT)
  else if same (lit "common") then Some (lit "common", COMMON_NAME)
  else if same (lit "protocol") then Some (lit "protocol", PROTOCOL)
  else if same (lit "subject") then Some (lit "protocol", PROTOCOL)
  else if same (lit "mountpoint") then Some (lit "mountpoint", MOUNTPOINT)
  else None.

(** nng_strcasecmp of NULL, for an element that is not a string, is undefined. *)
Fixpoint http_params (items : list (option bytes * json)) : option (list (bytes * http_param_type)) :=
  match items with
  | [] => Some []
  | (_, item) :: items' =>
      arg ← json_string item;
      l ← http_params items';
      Some (match http_param arg with Some p => p :: l | None => l end)
  end.

Definition children_at (j : json) (key : string) : list (option bytes * json) :=
  match json_item j (lit key) with Some v => json_children v | None => [] end.

Definition set_auth_http_req (j : json) (r : conf_auth_http_req) : option conf_auth_http_req :=
  headers ← set_headers (children_at j "headers") (cr_headers r) 0;
  params ← match json_item j (lit "params") with
           | Some ps => http_params (json_children ps)
           | None => Some (cr_params r)
           end;
  Some (ConfAuthReq (set_str j "url" (cr_url r)) (set_str j "method" (cr_method r)) headers params (cr_tls r)).

Definition set_req (j : json) (key : string) (r : conf_auth_http_req) : option conf_auth_http_req :=
  match json_item j (lit key) with Some q => set_auth_http_req q r | None => Some r end.

Definition set_auth_http_config (j : json) (a : conf_auth_http) : option conf_auth_http :=
  auth_req ← set_req j "auth_req" (ah_auth_req a);
  acl_req ← set_req j "acl_req" (ah_acl_req a);
  super_req ← set_req j "super_req" (ah_super_req a);
  Some (ConfAuthHttp (set_bool j "enable" (ah_enable a)) (set_num j "timeout" to_uint64 (ah_timeout a))
    (set_num j "connect_timeout" to_uint64 (ah_connect_timeout a))
    (set_num j "pool_size" to_uint64 (ah_pool_size a)) (set_num j "cache_ttl" to_uint64 (ah_cache_ttl a))
    auth_req acl_req super_req).

(** ** Reloading a file *)

Definition reload_basic_config (cur new : conf_basic) : conf_basic :=
  ConfBasic (cb_url cur) (cb_enable cur) (cb_num_taskq_thread cur) (cb_max_taskq_thread cur) (cb_parallel cur)
    (cb_property_size new) (cb_daemon cur) (cb_max_packet_size new) (cb_client_max_packet_size new)
    (cb_msq_len new) (cb_qos_duration new) (cb_backoff new) (cb_allow_anonymous new)
    (cb_ipc_internal cur) (cb_parquet_enable cur) (cb_bridge_mode cur).

Definition reload_sqlite_config (cur new : conf_sqlite) : conf_sqlite :=
  ConfSqlite (cq_enable cur) (cq_disk_cache_size cur) (cq_flush_mem_threshold new) (cq_resend_interval cur)
    (cq_mounted_file_path cur).

(** ** The configuration over HTTP (rest_api.c) *)

Record conf := Conf {
  cf_basic : conf_basic;
  cf_tls : conf_tls;
  cf_auths : conf_auth;
  cf_auth_http : conf_auth_http;
  cf_websocket : conf_websocket;
  cf_http_server : conf_http_server;
  cf_sqlite : conf_sqlite;
  cf_bridge : json        (* get_bridge_config of the bridges *)
}.

Definition RPC_ERROR : Z := 101.

(** Status, code and data of get_config. *)
Definition get_config (c : conf) (type : option bytes) : option (Z * Z * json) :=
  let show l := Some (NNG_HTTP_STATUS_OK, SUCCEED, json_of_obj l) in
  match type with
  | Some t =>
      if strcmp0 t (lit "basic") then show [(lit "basic", get_basic_config (cf_basic c))]
      else if strcmp0 t (lit "tls") then show [(lit "tls", get_tls_config (cf_tls c))]
      else if strcmp0 t (lit "auth") then a ← get_auth_config (cf_auths c); show [(lit "auth", a)]
      else if strcmp0 t (lit "auth_http") then show [(lit "auth_http", get_auth_http_config (cf_auth_http c))]
      else if strcmp0 t (lit "websocket") then show [(lit "websocket", get_websocket_config (cf_websocket c))]
      else if strcmp0 t (lit "http_server") then show [(lit "http_server", get_http_config (cf_http_server c))]
      else if strcmp0 t (lit "sqlite") then show [(lit "sqlite", get_sqlite_config (cf_sqlite c))]
      else if strcmp0 t (lit "bridge") then show [(lit "bridge", cf_bridge c)]
      else Some (NNG_HTTP_STATUS_NOT_FOUND, RPC_ERROR, json_of_obj [])
  | None =>
      a ← get_auth_config (cf_auths c);
      show [(lit "basic", get_basic_config (cf_basic c));
            (lit "tls", get_tls_config (cf_tls c));
            (lit "auth", a);
            (lit "auth_http", get_auth_http_config (cf_auth_http c));
            (lit "websocket", get_websocket_config (cf_websocket c));
            (lit "http_server", get_http_config (cf_http_server c));
            (lit "sqlite", get_sqlite_config (cf_sqlite c));
            (lit "bridge", cf_bridge c)]
  end.

(** The member [key] of the data, if it is an object, or an array. *)
Definition object_at (j : json) (key : string) : option json := object_only (json_item j (lit key)).
Definition array_at (j : json) (key : string) : option json := array_only (json_item j (lit key)).

Definition post_basic (d : json) (c : conf) : conf :=
  match object_at d "basic" with
  | Some j => Conf (set_basic_config j (cf_basic c)) (cf_tls c) (cf_auths c) (cf_auth_http c) (cf_websocket c)
                (cf_http_server c) (cf_sqlite c) (cf_bridge c)
  | None => c
  end.
Definition post_tls (d : json) (c : conf) : conf :=
  match object_at d "tls" with
  | Some j => Conf (cf_basic c) (set_tls_config j (cf_tls c)) (cf_auths c) (cf_auth_http c) (cf_websocket c)
                (cf_http_server c) (cf_sqlite c) (cf_bridge c)
  | None => c
  end.
Definition post_auth (d : json) (enable : option bool) (c : conf) : option conf :=
  match array_at d "auth" with
  | Some j =>
      let a := ConfAuth (default (ca_enable (cf_auths c)) enable) (ca_count (cf_auths c))
                 (ca_usernames (cf_auths c)) (ca_passwords (cf_auths c)) in
      a ← set_auth_config j a;
      Some (Conf (cf_basic c) (cf_tls c) a (cf_auth_http c) (cf_websocket c) (cf_http_server c) (cf_sqlite c)
              (cf_bridge c))
  | None => Some c
  end.
Definition post_auth_http (j : option json) (c : conf) : option conf :=
  match j with
  | Some j =>
      a ← set_auth_http_config j (cf_auth_http c);
      Some (Conf (cf_basic c) (cf_tls c) (cf_auths c) a (cf_websocket c) (cf_http_server c) (cf_sqlite c) (cf_bridge c))
  | None => Some c
  end.
Definition post_websocket (d : json) (c : conf) : conf :=
  match object_at d "websocket" with
  | Some j => Conf (cf_basic c) (cf_tls c) (cf_auths c) (cf_auth_http c) (set_websocket_config j (cf_websocket c))
                (cf_http_server c) (cf_sqlite c) (cf_bridge c)
  | None => c
  end.
Definition post_http (d : json) (c : conf) : conf :=
  match object_at d "http_server" with
  | Some j => Conf (cf_basic c) (cf_tls c) (cf_auths c) (cf_auth_http c) (cf_websocket c)
                (set_http_config j (cf_http_server c)) (cf_sqlite c) (cf_bridge c)
  | None => c
  end.
Definition post_sqlite (d : json) (c : conf) : conf :=
  match object_at d "sqlite" with
  | Some j => Conf (cf_basic c) (cf_tls c) (cf_auths c) (cf_auth_http c) (cf_websocket c)
                (cf_http_server c) (set_sqlite_config j (cf_sqlite c)) (cf_bridge c)
  | None => c
  end.

(** post_config with the parsed request: the configuration afterwards and the
    answer.  Without a type the member "auth_http" has to be an array. *)
Definition post_config (req : option json) (type : option bytes) (c : conf) : option (conf * rest_reply) :=
  match object_only req with
  | None => Some (c, RestError NNG_HTTP_STATUS_BAD_REQUEST REQ_PARAMS_JSON_FORMAT_ILLEGAL)
  | Some r =>
      c ← match object_only (json_item r (lit "data")) with
          | None => Some c
          | Some d =>
              match type with
              | Some t =>
                  if strcmp0 t (lit "basic") then Some (post_basic d c)
                  else if strcmp0 t (lit "tls") then Some (post_tls d c)
                  else if strcmp0 t (lit "auth") then post_auth d (get_bool d (lit "enable")) c
                  else if strcmp0 t (lit "auth_http") then post_auth_http (object_at d "auth_http") c
                  else if strcmp0 t (lit "websocket") then Some (post_websocket d c)
                  else if strcmp0 t (lit "http_server") then Some (post_http d c)
                  else if strcmp0 t (lit "sqlite") then Some (post_sqlite d c)
                  else Some c
              | None =>
                  c ← post_auth d None (post_tls d (post_basic d c));
                  c ← post_auth_http (array_at d "auth_http") c;
                  Some (post_sqlite d (post_http d (post_websocket d c)))
              end
          end;
      Some (c, RestCode SUCCEED)
  end.

(** ** What is shown can be set again *)

Context `{L : !CJsonDocLaws}.

Lemma set_num_shown l key conv old n :
  snd <$> List.find (fun m => bool_decide (map lower (fst m) = map lower (lit key))) l = Some (json_of_num n) ->
  Z.abs n <= 2 ^ 53 -> set_num (json_of_obj l) key conv old = conv n.
Proof. intros Hf Hn. unfold set_num, get_number. rewrite item_of_obj, Hf. cbn [mbind option_bind]. by rewrite number_of_num. Qed.

Lemma set_float_shown l key old f :
  snd <$> List.find (fun m => bool_decide (map lower (fst m) = map lower (lit key))) l = Some (json_of_float f) ->
  set_float (json_of_obj l) key old = f.
Proof. intros Hf. unfold set_float. rewrite item_of_obj, Hf. cbn [mbind option_bind]. by rewrite float_of_float. Qed.

Lemma set_bool_shown l key old b :
  snd <$> List.find (fun m => bool_decide (map lower (fst m) = map lower (lit key))) l = Some (json_of_bool b) ->
  set_bool (json_of_obj l) key old = b.
Proof. intros Hf. unfold set_bool, get_bool. rewrite item_of_obj, Hf. cbn [mbind option_bind]. by rewrite bool_of_bool. Qed.

(** A NULL string is shown as null, which leaves the setting. *)
Definition shown_or (s old : option bytes) : option bytes := match s with Some _ => s | None => old end.

Lemma set_str_shown l key old s :
  snd <$> List.find (fun m => bool_decide (map lower (fst m) = map lower (lit key))) l = Some (str_or_null s) ->
  set_str (json_of_obj l) key old = shown_or s old.
Proof.
  intros Hf. unfold set_str, get_string. rewrite item_of_obj, Hf. cbn [mbind option_bind]. unfold str_or_null.
  destruct s; [by rewrite string_of_str|by rewrite string_of_null].
Qed.

Lemma set_bool_absent l key old :
  snd <$> List.find (fun m => bool_decide (map lower (fst m) = map lower (lit key))) l = None ->
  set_bool (json_of_obj l) key old = old.
Proof. intros Hf. unfold set_bool, get_bool. by rewrite item_of_obj, Hf. Qed.

Lemma set_str_absent l key old :
  snd <$> List.find (fun m => bool_decide (map lower (fst m) = map lower (lit key))) l = None ->
  set_str (json_of_obj l) key old = old.
Proof. intros Hf. unfold set_str, get_string. by rewrite item_of_obj, Hf. Qed.

(** The settings are within their types, and sizes are whole kilobytes. *)
Definition int_ok (n : Z) : Prop := -2147483648 <= n < 2147483648.
Definition size_ok (n : Z) : Prop := 0 <= n < 4294967296 /\ (1024 | n).
Definition count_ok (n : Z) : Prop := 0 <= n <= 2 ^ 53.

Lemma kilobytes_shown n : size_ok n -> kilobytes (n / 1024) = n.
Proof.
  intros [Hn [k ->]]. unfold kilobytes. rewrite Z.div_mul by lia.
  rewrite to_uint32_range by lia. apply u32_small. lia.
Qed.

Record hot_ok (c : conf_basic) : Prop := HotOk {
  ho_property_size : int_ok (cb_property_size c);
  ho_max : size_ok (cb_max_packet_size c);
  ho_client_max : size_ok (cb_client_max_packet_size c);
  ho_msq_len : int_ok (cb_msq_len c);
  ho_qos_duration : 0 <= cb_qos_duration c < 4294967296
}.

Record basic_ok (c : conf_basic) : Prop := BasicOk {
  bo_hot : hot_ok c;
  bo_num : int_ok (cb_num_taskq_thread c);
  bo_max : int_ok (cb_max_taskq_thread c);
  bo_parallel : count_ok (cb_parallel c)
}.

Lemma size_small n : size_ok n -> Z.abs (n / 1024) <= 2 ^ 53.
Proof. intros [Hn _]. pose proof (Z.div_pos n 1024). pose proof (Z.div_le_upper_bound n 1024 4294967296). lia. Qed.

(** The setting that a member shows: its value in range. *)
Local Ltac shown :=
  first
    [ erewrite set_num_shown; [|reflexivity|unfold int_ok, count_ok in *; first [lia|by apply size_small]];
      first [ by apply kilobytes_shown
            | first [apply to_int_range | apply to_uint16_range | apply to_uint32_range | apply to_uint64_range];
              unfold int_ok, count_ok in *; lia ]
    | by erewrite set_float_shown by reflexivity
    | by erewrite set_bool_shown by reflexivity
    | by rewrite set_bool_absent by reflexivity
    | by erewrite set_str_shown by reflexivity ].

(** The hot settings that GET on reload shows are set by POST: whatever the
    broker was set to before, it has them afterwards. *)
Theorem hot_settings_round_trip c c' :
  hot_ok c -> set_reload_config (get_reload_config c) c' = reload_basic_config c' c.
Proof.
  intros [H1 H2 H3 H4 H5]. unfold set_reload_config, reload_basic_config, get_reload_config. f_equal; shown.
Qed.

(** What a broker with the settings [c'] has after those of [c] were posted: the
    members that are not shown stay. *)
Definition basic_taken (c c' : conf_basic) : conf_basic :=
  ConfBasic (shown_or (cb_url c) (cb_url c')) (cb_enable c') (cb_num_taskq_thread c) (cb_max_taskq_thread c)
    (cb_parallel c) (cb_property_size c) (cb_daemon c) (cb_max_packet_size c) (cb_client_max_packet_size c)
    (cb_msq_len c) (cb_qos_duration c) (cb_backoff c) (cb_allow_anonymous c) (cb_ipc_internal c)
    (cb_parquet_enable c') (cb_bridge_mode c').

Lemma basic_round_trip c c' : basic_ok c -> set_basic_config (get_basic_config c) c' = basic_taken c c'.
Proof.
  intros [[H1 H2 H3 H4 H5] H6 H7 H8]. unfold set_basic_config, get_basic_config, basic_taken. f_equal; shown.
Qed.

(** *** The other parts *)

Definition sqlite_ok (q : conf_sqlite) : Prop :=
  count_ok (cq_disk_cache_size q) /\ count_ok (cq_flush_mem_threshold q) /\ count_ok (cq_resend_interval q).

Definition sqlite_taken (q q' : conf_sqlite) : conf_sqlite :=
  ConfSqlite (cq_enable q) (cq_disk_cache_size q) (cq_flush_mem_threshold q) (cq_resend_interval q)
    (shown_or (cq_mounted_file_path q) (cq_mounted_file_path q')).

Lemma sqlite_round_trip q q' : sqlite_ok q -> set_sqlite_config (get_sqlite_config q) q' = sqlite_taken q q'.
Proof. intros (H1 & H2 & H3). unfold set_sqlite_config, get_sqlite_config, sqlite_taken. f_equal; shown. Qed.

Definition websocket_taken (w w' : conf_websocket) : conf_websocket :=
  ConfWebsocket (cw_enable w) (cw_tls_enable w) (shown_or (cw_url w) (cw_url w')) (shown_or (cw_tls_url w) (cw_tls_url w')).

Lemma websocket_round_trip w w' : set_websocket_config (get_websocket_config w) w' = websocket_taken w w'.
Proof. unfold set_websocket_config, get_websocket_config, websocket_taken. f_equal; shown. Qed.

(** The password of the key stays what it was in [t']. *)
Definition tls_taken (t t' : conf_tls) : conf_tls :=
  ConfTls (ct_enable t) (shown_or (ct_url t) (ct_url t')) (ct_key_password t') (shown_or (ct_key t) (ct_key t'))
    (shown_or (ct_cert t) (ct_cert t')) (shown_or (ct_ca t) (ct_ca t')) (ct_verify_peer t) (ct_set_fail t).

(** The key is shown without its password being settable: what is shown under
    "key_password" is read under "keypass". *)
Theorem tls_round_trip t t' : set_tls_config (get_tls_config t) t' = tls_taken t t'.
Proof.
  unfold set_tls_config, get_tls_config, tls_taken. f_equal; try shown.
  by rewrite set_str_absent by reflexivity.
Qed.

(** The address stays, and a server without authentication is shown as one with
    basic authentication. *)
Definition http_taken (h h' : conf_http_server) : conf_http_server :=
  ConfHttp (ch_enable h) (ch_port h) (ch_ip_addr h') (shown_or (ch_username h) (ch_username h'))
    (shown_or (ch_password h) (ch_password h')) (match ch_auth_type h with NO_AUTH => BASIC | t => t end).

Lemma http_shown h h' : 0 <= ch_port h < 65536 -> set_http_config (get_http_config h) h' = http_taken h h'.
Proof.
  intros Hp. unfold set_http_config, get_http_config, http_taken. f_equal; try shown.
  unfold get_string. rewrite item_of_obj.
  change (snd <$> List.find _ _) with
    (Some (json_of_str (match ch_auth_type h with JWT => lit "jwt" | _ => lit "basic" end))). cbn [mbind option_bind].
  rewrite string_of_str. by destruct (ch_auth_type h).
Qed.

(** A server without authentication is shown as one with basic
    authentication, and setting that turns authentication on. *)
Theorem http_round_trip h :
  0 <= ch_port h < 65536 ->
  set_http_config (get_http_config h) h =
  ConfHttp (ch_enable h) (ch_port h) (ch_ip_addr h) (ch_username h) (ch_password h)
    (match ch_auth_type h with NO_AUTH => BASIC | t => t end).
Proof. intros Hp. rewrite http_shown by done. unfold http_taken. f_equal; by destruct (ch_username h), (ch_password h). Qed.

(** *** User names *)

Definition pair_of (kv : option bytes * json) : option (bytes * bytes) :=
  u ← get_string (snd kv) (lit "username"); p ← get_string (snd kv) (lit "password"); Some (u, p).

Lemma auth_pairs_omap items : auth_pairs items = omap pair_of items.
Proof.
  induction items as [|[k kv] items IH]; [done|]. cbn [auth_pairs omap list_omap]. unfold pair_of at 1. cbn [snd].
  destruct (get_string kv (lit "username")); cbn [mbind option_bind]; [|done].
  destruct (get_string kv (lit "password")); cbn [mbind option_bind]; [by rewrite IH|done].
Qed.

Lemma omap_length_le {A B} (f : A -> option B) l : (length (omap f l) <= length l)%nat.
Proof. induction l as [|x l IH]; [done|]. cbn [omap list_omap]. destruct (f x); cbn [length]; lia. Qed.

Lemma omap_short {A B} (f : A -> option B) l :
  length (omap f l) = length l <-> Forall (fun x => is_Some (f x)) l.
Proof.
  induction l as [|x l IH]; [done|]. cbn [omap list_omap]. rewrite Forall_cons.
  pose proof (omap_length_le f l).
  destruct (f x) as [y|]; cbn [length]; rewrite <- IH.
  - split; [intros H'; split; [by eexists|lia]|lia].
  - split; [lia|by intros [[? ?] _]].
Qed.

Definition auth_ok (a : conf_auth) : Prop :=
  length (ca_usernames a) = ca_count a /\ length (ca_passwords a) = ca_count a.

(** Setting the user names takes over the pairs of the array if every
    element has a user name and a password; with one invalid element the vectors
    are shorter than the number of elements, and memory behind them is read. *)
Theorem set_auth_config_correct j a :
  auth_ok a ->
  set_auth_config j a =
  (pairs ← mapM pair_of (json_children j);
   Some (ConfAuth (ca_enable a) (length pairs) (map fst pairs) (map snd pairs))).
Proof.
  intros [Hu Hp]. unfold set_auth_config, reload_auth_config, first_n. rewrite Hu, Hp, Nat.leb_refl.
  cbn [mbind option_bind ca_count ca_usernames ca_passwords]. rewrite !length_map, auth_pairs_omap.
  destruct (decide (Forall (fun x => is_Some (pair_of x)) (json_children j))) as [Hall|Hno].
  - rewrite (proj2 (omap_short pair_of _) Hall), Nat.leb_refl. cbn [mbind option_bind].
    apply mapM_is_Some_2 in Hall as [pairs Hm]. rewrite Hm. cbn [mbind option_bind].
    assert (omap pair_of (json_children j) = pairs) as ->.
    { apply mapM_Some in Hm. clear -Hm. induction Hm as [|x y l k Hx Hl IH]; [done|].
      cbn [omap list_omap]. by rewrite Hx, IH. }
    assert (length (json_children j) = length pairs) as -> by (apply mapM_Some, Forall2_length in Hm; done).
    rewrite !take_ge by (by rewrite length_map). done.
  - destruct (mapM pair_of (json_children j)) as [pairs|] eqn:Hm.
    { destruct Hno. eapply mapM_is_Some_1. by eexists. }
    destruct (Nat.leb_spec (length (json_children j)) (length (omap pair_of (json_children j)))) as [Hle|]; [|done].
    destruct Hno. apply omap_short. pose proof (omap_length_le pair_of (json_children j)). lia.
Qed.

Lemma auth_items_total us ps :
  length us = length ps -> exists l, auth_items (length us) us ps = Some l /\ length l = length us /\
    Forall (fun j => get_string j (lit "username") = None) l.
Proof.
  induction us as [|u us IH] in ps |- *; destruct ps as [|p ps]; try done.
  - intros _. exists []. by repeat constructor.
  - cbn [length auth_items]. intros [= Hl]. destruct (IH ps Hl) as (l & -> & Hn & Hf). cbn [mbind option_bind].
    eexists. split; [done|]. split; [cbn [length]; by rewrite Hn|]. constructor; [|done].
    unfold get_string. by rewrite item_of_obj.
Qed.

(** The user names are shown under "login" and read under "username":
    setting what is shown, with at least one user, reads memory that is not
    there. *)
Theorem shown_auth_undefined a a' :
  auth_ok a -> auth_ok a' -> (0 < ca_count a)%nat ->
  exists j, get_auth_config a = Some j /\ set_auth_config j a' = None.
Proof.
  intros [Hu Hp] Ha' H0. unfold get_auth_config.
  destruct (auth_items_total (ca_usernames a) (ca_passwords a)) as (l & El & Hn & Hl); [congruence|].
  rewrite Hu in El, Hn. rewrite El. cbn [fmap option_fmap option_map]. eexists. split; [done|].
  rewrite set_auth_config_correct by done. rewrite children_of_arr.
  destruct l as [|j l]; [cbn in Hn; lia|]. apply Forall_cons in Hl as [Hj _]. cbn [map mapM].
  assert (pair_of (None, j) = None) as ->; [|done]. unfold pair_of. cbn [snd]. by rewrite Hj.
Qed.

(** *** Authentication over HTTP *)

Lemma set_headers_same pre rest :
  set_headers (map (fun h => (Some (fst h), json_of_str (snd h))) rest) (pre ++ rest) (length pre) = Some (pre ++ rest).
Proof.
  induction rest as [|[k v] rest IH] in pre |- *; [by rewrite app_nil_r|]. cbn [map set_headers fst snd].
  rewrite string_of_str. cbn [mbind option_bind]. rewrite length_app. cbn [length].
  destruct (Nat.leb_spec (length pre + S (length rest)) (length pre)); [lia|].
  rewrite insert_app_r_alt, Nat.sub_diag by done. cbn.
  specialize (IH (pre ++ [(k, v)])). rewrite length_app, <- app_assoc in IH. cbn in IH.
  by rewrite Nat.add_1_r in IH.
Qed.

(** The parameters have the names under which they can be set. *)
Definition params_ok (ps : list (bytes * http_param_type)) : Prop := Forall (fun p => http_param (fst p) = Some p) ps.

Lemma http_params_same ps : params_ok ps -> http_params (map (fun p => (None, json_of_str (fst p))) ps) = Some ps.
Proof.
  induction 1 as [|p ps Hp Hps IH]; [done|]. cbn [map http_params]. rewrite string_of_str. cbn [mbind option_bind].
  rewrite IH. cbn [mbind option_bind]. by rewrite Hp.
Qed.

Lemma auth_req_round_trip r :
  params_ok (cr_params r) -> set_auth_http_req (get_auth_http_req_config r) r = Some r.
Proof.
  intros Hp. destruct r as [u m hs ps t]. cbn in Hp. unfold set_auth_http_req, children_at, get_auth_http_req_config.
  rewrite !item_of_obj. cbn [cr_url cr_method cr_headers cr_params cr_tls].
  change (snd <$> List.find (fun m0 => bool_decide (map lower (fst m0) = map lower (lit "headers"))) _)
    with (Some (json_of_obj (map (fun h => (fst h, json_of_str (snd h))) hs))).
  change (snd <$> List.find (fun m0 => bool_decide (map lower (fst m0) = map lower (lit "params"))) _)
    with (Some (json_of_arr (map (fun p => json_of_str (fst p)) ps))). cbn match.
  rewrite children_of_obj, children_of_arr, !map_map. cbn [fst snd].
  rewrite (set_headers_same [] hs : set_headers _ hs 0 = Some hs). cbn [mbind option_bind].
  rewrite (http_params_same ps Hp). cbn [mbind option_bind]. do 2 f_equal.
  - erewrite set_str_shown by reflexivity. by destruct u.
  - erewrite set_str_shown by reflexivity. by destruct m.
Qed.

Definition auth_http_ok (a : conf_auth_http) : Prop :=
  count_ok (ah_timeout a) /\ count_ok (ah_connect_timeout a) /\ count_ok (ah_pool_size a) /\ count_ok (ah_cache_ttl a) /\
  params_ok (cr_params (ah_auth_req a)) /\ params_ok (cr_params (ah_acl_req a)) /\ params_ok (cr_params (ah_super_req a)).

Lemma auth_http_round_trip a : auth_http_ok a -> set_auth_http_config (get_auth_http_config a) a = Some a.
Proof.
  intros (H1 & H2 & H3 & H4 & Hp1 & Hp2 & Hp3). destruct a as [en t ct ps tt q1 q2 q3]. cbn in *.
  unfold set_auth_http_config, set_req, get_auth_http_config. rewrite !item_of_obj.
  cbn [ah_enable ah_timeout ah_connect_timeout ah_pool_size ah_cache_ttl ah_auth_req ah_acl_req ah_super_req].
  change (snd <$> List.find (fun m => bool_decide (map lower (fst m) = map lower (lit "auth_req"))) _)
    with (Some (get_auth_http_req_config q1)).
  change (snd <$> List.find (fun m => bool_decide (map lower (fst m) = map lower (lit "acl_req"))) _)
    with (Some (get_auth_http_req_config q2)).
  change (snd <$> List.find (fun m => bool_decide (map lower (fst m) = map lower (lit "super_req"))) _)
    with (Some (get_auth_http_req_config q3)). cbn match.
  rewrite !auth_req_round_trip by done. cbn [mbind option_bind]. do 2 f_equal; shown.
Qed.

(** A request with more headers than the configuration has uses a pointer that
    was never set. *)
Theorem more_headers_undefined items headers :
  (length headers < length (omap (fun i => json_string (snd i)) items))%nat ->
  set_headers items headers 0 = None.
Proof.
  intros Hl. assert (forall hs n, (n <= length hs)%nat ->
    (length hs < n + length (omap (fun i => json_string (snd i)) items))%nat -> set_headers items hs n = None) as H;
    [|by apply H; lia].
  clear Hl. induction items as [|[k i] items IH]; intros hs n Hh Hn; cbn [omap list_omap set_headers snd length] in *;
    [lia|].
  destruct (json_string i) as [v|]; [|by apply IH]. destruct k as [k|]; cbn [mbind option_bind]; [|done].
  destruct (Nat.leb_spec (length hs) n); [done|]. cbn [length] in Hn.
  apply IH; rewrite length_insert; lia.
Qed.

(** A size limit of four gigabytes becomes zero. *)
Theorem packet_size_wraps c :
  cb_max_packet_size (set_reload_config (json_of_obj [(lit "max_packet_size", json_of_num 4194304)]) c) = 0.
Proof.
  cbn [set_reload_config cb_max_packet_size]. erewrite set_num_shown; [|reflexivity|lia].
  unfold kilobytes. by rewrite to_uint32_range by lia.
Qed.

(** The parameter "subject" is stored as the protocol. *)
Theorem subject_becomes_protocol :
  (forall a b, nng_strcasecmp a b = 0 <-> map lower a = map lower b) ->
  http_param (lit "subject") = Some (lit "protocol", PROTOCOL).
Proof.
  intros Hs. unfold http_param. rewrite !(strcasecmp_eqb nng_strcasecmp Hs).
  rewrite (bool_decide_eq_true_2 (map lower (lit "subject") = map lower (lit "subject"))) by done.
  by rewrite !bool_decide_eq_false_2 by done.
Qed.

(** *** The whole configuration *)

Record conf_ok (c : conf) : Prop := ConfOk {
  co_basic : basic_ok (cf_basic c);
  co_auths : auth_ok (cf_auths c);
  co_port : 0 <= ch_port (cf_http_server c) < 65536;
  co_sqlite : sqlite_ok (cf_sqlite c)
}.

Definition config_req (d : json) : json := json_of_obj [(lit "data", d)].

(** Without a type, settings of authentication over HTTP that are an object,
    as they are shown, are skipped. *)
Theorem auth_http_object_skipped d c c' r :
  json_is_object d = true -> array_at d "auth_http" = None ->
  post_config (Some (config_req d)) None c = Some (c', r) -> cf_auth_http c' = cf_auth_http c.
Proof.
  intros Hd Ha. unfold post_config, object_only, config_req. cbn [mbind option_bind].
  rewrite is_object_of_obj, item_of_obj. cbn match.
  change (snd <$> List.find (fun m => bool_decide (map lower (fst m) = map lower (lit "data"))) _) with (Some d).
  cbn [mbind option_bind]. rewrite Hd. cbn match. rewrite Ha. cbn [post_auth_http].
  destruct (post_auth d None (post_tls d (post_basic d c))) as [c1|] eqn:E; cbn [mbind option_bind]; [|done].
  intros [= <- <-].
  assert (cf_auth_http c1 = cf_auth_http c) as E1.
  { revert E. unfold post_auth. destruct (array_at d "auth") as [j|].
    - destruct (set_auth_config _ _); cbn [mbind option_bind]; [|done]. intros [= <-]. cbn.
      unfold post_tls, post_basic. by repeat case_match.
    - intros [= <-]. unfold post_tls, post_basic. by repeat case_match. }
  rewrite <- E1. unfold post_sqlite, post_http, post_websocket. by repeat case_match.
Qed.

Lemma auth_http_not_array a : json_is_array (get_auth_http_config a) = false.
Proof. apply is_array_of_obj. Qed.

Lemma object_at_shown d key j :
  json_item d (lit key) = Some j -> json_is_object j = true -> object_at d key = Some j.
Proof. intros E Hj. unfold object_at, object_only. rewrite E. cbn [mbind option_bind]. by rewrite Hj. Qed.

(** The whole configuration of a broker with [c'] after that of [c], without
    users, was posted: authentication over HTTP and the bridges stay. *)
Definition conf_taken (c c' : conf) : conf :=
  Conf (basic_taken (cf_basic c) (cf_basic c')) (tls_taken (cf_tls c) (cf_tls c'))
    (ConfAuth (ca_enable (cf_auths c')) 0 [] []) (cf_auth_http c')
    (websocket_taken (cf_websocket c) (cf_websocket c')) (http_taken (cf_http_server c) (cf_http_server c'))
    (sqlite_taken (cf_sqlite c) (cf_sqlite c')) (cf_bridge c').

Lemma post_auth_shown d c l :
  auth_ok (cf_auths c) -> Forall (fun j => get_string j (lit "username") = None) l ->
  json_item d (lit "auth") = Some (json_of_arr l) ->
  post_auth d None c = if decide (length l = 0%nat) then
    Some (Conf (cf_basic c) (cf_tls c) (ConfAuth (ca_enable (cf_auths c)) 0 [] []) (cf_auth_http c) (cf_websocket c)
            (cf_http_server c) (cf_sqlite c) (cf_bridge c)) else None.
Proof.
  intros Ha Hl E. unfold post_auth, array_at, array_only. rewrite E. cbn [mbind option_bind].
  rewrite is_array_of_arr. cbn match. rewrite set_auth_config_correct by done. rewrite children_of_arr.
  destruct Hl as [|j l Hj _]; [done|]. cbn [map mapM].
  assert (pair_of (None, j) = None) as ->; [|done]. unfold pair_of. cbn [snd]. by rewrite Hj.
Qed.


End Conf.

(** ** Witnesses *)

Section Witness.

#[local] Set Warnings "-register-all".

Inductive jdoc :=
  | DObj (l : list (bytes * jdoc)) | DArr (l : list jdoc) | DStr (s : bytes) | DNum (n : Z) | DFloat (f : Z)
  | DBool (b : bool) | DNull.

#[local] Instance jdoc_tree : CJsonTree := {|
  json := jdoc;
  json_item j k :=
    match j with
    | DObj l => snd <$> List.find (fun m => bool_decide (map lower (fst m) = map lower k)) l
    | _ => None
    end;
  json_number j := match j with DNum n => Some n | _ => None end;
  json_string j := match j with DStr s => Some s | _ => None end;
  json_bool j := match j with DBool b => Some b | _ => None end;
  json_is_object j := match j with DObj _ => true | _ => false end;
  json_children j :=
    match j with
    | DObj l => map (fun m => (Some (fst m), snd m)) l
    | DArr l => map (fun v => (None, v)) l
    | _ => []
    end;
  json_g17 _ := lit "0"; to_u8 := u8; to_u32 := u32
|}.

#[local] Instance jdoc_arr : CJsonArr := fun j => match j with DArr _ => true | _ => false end.

#[local] Instance jdoc_doc : CJsonDoc := {|
  jfloat := Z;
  json_of_num := DNum : Z -> @json jdoc_tree; json_of_float := DFloat; json_of_str := DStr; json_of_bool := DBool;
  json_null := DNull; json_of_obj := DObj; json_of_arr := DArr;
  json_float j := match j with DFloat f => Some f | _ => None end;
  to_int := i32; to_uint16 := u16; to_uint32 := u32; to_uint64 := u64
|}.

#[local] Instance jdoc_laws : CJsonDocLaws.
Proof. split; try done; intros n Hn; [by apply i32_small|by apply u16_small|by apply u32_small|by apply u64_small]. Qed.

Definition some_basic : conf_basic :=
  ConfBasic (Some (lit "nmq-tcp://0.0.0.0:1883")) true 4 8 16 32 false 2048 1024 64 10 3 true false false false.

Definition no_tls : conf_tls := ConfTls false None (Some (lit "secret")) None None None false false.

Definition some_req : conf_auth_http_req :=
  ConfAuthReq (Some (lit "http://a")) None [(lit "accept", lit "x")] [(lit "topic", TOPIC)] no_tls.

Definition some_conf (users : list bytes) : conf :=
  Conf some_basic no_tls (ConfAuth true (length users) users users)
    (ConfAuthHttp false 5 5 32 0 some_req some_req some_req)
    (ConfWebsocket true false (Some (lit "ws")) None) (ConfHttp true 8081 None None None NO_AUTH)
    (ConfSqlite false 102400 100 5000 None) DNull.

Lemma some_conf_ok users : conf_ok (some_conf users).
Proof.
  split; [|done|cbn; lia|repeat split; cbn; lia].
  split; [split|..]; cbn; unfold int_ok, count_ok; try lia; (split; [lia|first [exists 2; lia|exists 1; lia]]).
Qed.

(** Another broker, with other settings and a user of its own. *)
Definition other_conf : conf :=
  Conf (ConfBasic None false 1 1 1 16 true 1024 1024 8 5 9 false true true true)
    (ConfTls true (Some (lit "tls")) (Some (lit "other")) None None None true true)
    (ConfAuth false 1 [lit "u"] [lit "p"]) (ConfAuthHttp true 1 1 1 1 some_req some_req some_req)
    (ConfWebsocket false true None (Some (lit "wss"))) (ConfHttp false 80 (Some (lit "0.0.0.0")) None None JWT)
    (ConfSqlite true 1 1 1 (Some (lit "/tmp"))) DNull.


End Witness.

End ConfApi.
