(* ===== verification/ConfBridge.v ===== *)
(** * The bridges as JSON (nanomq/conf_api.c, nanomq/rest_api.c)

    [get_bridge_config] shows the bridges, all or one of them, with the
    connection, the topics and the properties; GET on bridges answers with it.
    Compiled without SUPP_QUIC.  [None] is an index outside the array of
    subscriptions. *)

From S2P Require Import Prelude NngApi Bridge BridgeConn BridgeDial RestApi RestEndpoints RestPublish RestRules RestBridge ConfApi.

Module ConfBridge.

Import Bridge BridgeConn RestApi RestPublish RestRules RestBridge ConfApi.

Section Show.

Context `{C : MqttConst} `{J : CJsonTree} `{JA : !CJsonArr} `{D : !CJsonDoc}.

(** What is shown of a node beside the members the handlers change. *)
Record bridge_view := BridgeView {
  bv_node : rest_node;
  bv_parallel : Z;
  bv_connect : connect_conf;
  bv_forwards : list topics;
  bv_tls : conf_tls
}.

(** cJSON_AddStringToObject adds nothing for NULL. *)
Definition str_member (key : string) (s : option bytes) : list (bytes * json) :=
  match s with Some s => [(lit key, json_of_str s)] | None => [] end.

(** cJSON_AddItemToObject adds nothing for NULL. *)
Definition item_member (key : string) (j : option json) : list (bytes * json) :=
  match j with Some j => [(lit key, j)] | None => [] end.

Definition get_user_properties (up : list (bytes * bytes)) : option json :=
  match up with
  | [] => None
  | _ => Some (json_of_arr (map (fun p => json_of_obj [(lit "key", json_of_str (fst p));
                                                       (lit "value", json_of_str (snd p))]) up))
  end.

Definition nonzero (n : Z) : bool := negb (n =? 0).

Definition show_conn_properties (p : conf_bridge_conn_properties) : json :=
  json_of_obj
    ([(lit "session_expiry_interval", json_of_num (cp_session_expiry_interval p));
      (lit "receive_maximum", json_of_num (cp_receive_maximum p));
      (lit "maximum_packet_size", json_of_num (cp_maximum_packet_size p));
      (lit "topic_alias_maximum", json_of_num (cp_topic_alias_maximum p));
      (lit "request_response_information", json_of_bool (nonzero (cp_request_response_info p)));
      (lit "request_problem_information", json_of_bool (nonzero (cp_request_problem_info p)))] ++
     item_member "user_properties" (get_user_properties (cp_user_property p))).

Definition show_will_properties (p : conf_bridge_conn_will_properties) : json :=
  json_of_obj
    ([(lit "payload_format_indicator", json_of_num (wp_payload_format_indicator p));
      (lit "message_expiry_interval", json_of_num (wp_message_expiry_interval p))] ++
     str_member "content_type" (wp_content_type p) ++
     [(lit "will_delay_interval", json_of_num (wp_will_delay_interval p))] ++
     str_member "response_topic" (wp_response_topic p) ++
     str_member "correlation_data" (wp_correlation_data p) ++
     item_member "user_properties" (get_user_properties (wp_user_property p))).

Definition get_bridge_connector (v : bridge_view) : json :=
  let c := bv_connect v in
  json_of_obj
    (str_member "server" (rn_address (bv_node v)) ++
     [(lit "proto_ver", json_of_num (rn_proto_ver (bv_node v)));
      (lit "clientid", str_or_null (cc_clientid c));
      (lit "clean_start", json_of_bool (cc_clean_start c));
      (lit "username", str_or_null (cc_username c));
      (lit "password", str_or_null (cc_password c));
      (lit "keepalive", json_of_num (cc_keepalive c))] ++
     if rn_proto_ver (bv_node v) =? MQTT_PROTOCOL_VERSION_v5 then
       item_member "conn_properties" (show_conn_properties <$> cc_conn_properties c) ++
       item_member "will_properties" (show_will_properties <$> cc_will_properties c)
     else []).

Definition get_bridge_sub_properties (n : rest_node) : option json :=
  if rn_proto_ver n =? MQTT_PROTOCOL_VERSION_v5 then
    (fun p => json_of_obj
       ((lit "identifier", json_of_num (sp_identifier p)) ::
        item_member "user_properties" (get_user_properties (sp_user_property p)))) <$> rn_sub_properties n
  else None.

(** An entry of "forwards"; a quality of service of 3 or more is not shown. *)
Definition show_forward (t : topics) : json :=
  json_of_obj
    (str_member "prefix" (tp_prefix t) ++ str_member "suffix" (tp_suffix t) ++
     [(lit "remote_topic", str_or_null (tp_remote_topic t)); (lit "local_topic", str_or_null (tp_local_topic t))] ++
     if tp_qos t <? 3 then [(lit "qos", json_of_num (tp_qos t))] else []).

Definition show_sub (t : topics) : json :=
  json_of_obj
    (str_member "prefix" (tp_prefix t) ++ str_member "suffix" (tp_suffix t) ++
     [(lit "remote_topic", str_or_null (tp_remote_topic t)); (lit "local_topic", str_or_null (tp_local_topic t));
      (lit "qos", json_of_num (tp_qos t))]).

(** The body of the loop over the nodes. *)
Definition show_node (v : bridge_view) : option json :=
  let n := bv_node v in
  subs ← (if rn_sub_count n <=? blen (rn_sub_list n) then Some (take (Z.to_nat (rn_sub_count n)) (rn_sub_list n)) else None);
  Some (json_of_obj
    ([(lit "name", json_of_str (rn_name n));
      (lit "enable", json_of_bool (rn_enable n));
      (lit "parallel", json_of_num (bv_parallel v));
      (lit "connector", get_bridge_connector v);
      (lit "forwards", json_of_arr (map show_forward (bv_forwards v)));
      (lit "subscription", json_of_arr (map show_sub subs))] ++
     item_member "sub_properties" (get_bridge_sub_properties n) ++
     [(lit "tls", get_tls_config (bv_tls v))])).

Fixpoint show_nodes (node_name : option bytes) (nodes : list bridge_view) : option (list json) :=
  match nodes with
  | [] => Some []
  | v :: nodes' =>
      if match node_name with Some name => negb (strcmp0 name (rn_name (bv_node v))) | None => false end
      then show_nodes node_name nodes'
      else j ← show_node v; l ← show_nodes node_name nodes'; Some (j :: l)
  end.

Definition get_bridge_config (nodes : list bridge_view) (sqlite : conf_sqlite) (node_name : option bytes) : option json :=
  l ← show_nodes node_name nodes;
  Some (json_of_obj [(lit "nodes", json_of_arr l); (lit "sqlite", get_sqlite_config sqlite)]).

(** The code and the data of the answer. *)
Definition get_mqtt_bridge (nodes : list bridge_view) (sqlite : conf_sqlite) (name : option bytes) : option (Z * json) :=
  b ← get_bridge_config nodes sqlite name; Some (SUCCEED, json_of_obj [(lit "bridge", b)]).

(** ** What is shown *)

Context `{DL : !CJsonDocLaws}.

(** The entries of "subscription" of a shown node. *)
Definition shown_subs (j : json) : list (option bytes * json) :=
  match json_item j (lit "subscription") with Some a => json_children a | None => [] end.

Definition sub_ok (t : topics) : Prop :=
  exists r l, tp_remote_topic t = Some r /\ tp_local_topic t = Some l /\ 0 <= tp_qos t < 256.

(** A topic with the settings that are not shown at their defaults. *)
Definition as_shown (t : topics) : topics :=
  let text o := default [] o in
  Topics (tp_remote_topic t) (blen (text (tp_remote_topic t))) (tp_local_topic t) (blen (text (tp_local_topic t)))
    None 0 None 0 (tp_qos t) 0 1 0.

(** A member found by its name in the parts of an object. *)
Lemma find_item l key j :
  snd <$> List.find (fun m => bool_decide (map RestEndpoints.lower (fst m) = map RestEndpoints.lower key)) l = Some j ->
  json_item (json_of_obj l) key = Some j.
Proof. by rewrite item_of_obj. Qed.

Ltac member := unfold str_member, item_member; repeat case_match; reflexivity.

Context `{TL : !CJsonTreeLaws}.

Lemma show_sub_read t : sub_ok t -> sub_entry (show_sub t) = Some (as_shown t).
Proof.
  intros (r & l & Hr & Hl & Hq). unfold sub_entry, show_sub, get_string, get_number, as_shown. rewrite Hr, Hl.
  erewrite (find_item _ (lit "remote_topic")) by member. erewrite (find_item _ (lit "local_topic")) by member.
  erewrite (find_item _ (lit "qos")) by member. cbn [mbind option_bind snd str_or_null].
  rewrite !string_of_str. cbn [mbind option_bind].
  rewrite number_of_num by lia. cbn [from_option]. rewrite to_u8_small by lia.
  rewrite !item_of_obj. unfold str_member. by destruct (tp_prefix t), (tp_suffix t).
Qed.

Lemma show_subs_read l : Forall sub_ok l -> sub_entries (map (fun v => (None, v)) (map show_sub l)) = map as_shown l.
Proof. induction 1 as [|t l Ht Hl IH]; [done|]. cbn [map sub_entries]. by rewrite show_sub_read, IH. Qed.

(** The subscriptions that are shown of a bridge, posted as new ones, are
    those the bridge has, without prefix and suffix and with the retain
    options at their defaults. *)
Theorem shown_subs_posted v j :
  Forall sub_ok (rn_sub_list (bv_node v)) -> rn_sub_count (bv_node v) = blen (rn_sub_list (bv_node v)) ->
  show_node v = Some j -> sub_entries (shown_subs j) = map as_shown (rn_sub_list (bv_node v)).
Proof.
  intros Hs Hc. unfold show_node. rewrite Hc. destruct (Z.leb_spec (blen (rn_sub_list (bv_node v))) (blen (rn_sub_list (bv_node v)))); [|lia].
  cbn [mbind option_bind]. intros [= <-]. unfold shown_subs.
  erewrite (find_item _ (lit "subscription")) by reflexivity. cbn [snd]. rewrite children_of_arr.
  unfold blen. rewrite Nat2Z.id, firstn_all. by apply show_subs_read.
Qed.

(** Nodes whose array of subscriptions is as long as the count says. *)
Definition counts_ok (nodes : list bridge_view) : Prop :=
  Forall (fun v => rn_sub_count (bv_node v) = blen (rn_sub_list (bv_node v))) nodes.

Lemma show_nodes_spec name nodes :
  counts_ok nodes ->
  exists l, show_nodes (Some name) nodes = Some l /\
    map Some l = map show_node (List.filter (fun v => strcmp0 name (rn_name (bv_node v))) nodes).
Proof.
  induction 1 as [|v nodes Hv Hn IH]; [by exists []|]. destruct IH as (l & Hl & Hm). cbn [show_nodes List.filter].
  destruct (strcmp0 name (rn_name (bv_node v))); cbn [negb]; [|by exists l].
  assert (exists j, show_node v = Some j) as [j Hj].
  { unfold show_node. rewrite Hv. destruct (Z.leb_spec (blen (rn_sub_list (bv_node v))) (blen (rn_sub_list (bv_node v)))); [|lia].
    by eexists. }
  rewrite Hj, Hl. cbn [mbind option_bind map]. exists (j :: l). split; [done|]. cbn. by rewrite Hj, Hm.
Qed.

(** GET on a bridge succeeds with exactly the nodes of that name; for an unknown
    name with none. *)
Theorem get_mqtt_bridge_correct nodes sqlite name :
  counts_ok nodes ->
  exists b a, get_mqtt_bridge nodes sqlite (Some name) = Some (SUCCEED, json_of_obj [(lit "bridge", b)]) /\
    json_item b (lit "nodes") = Some a /\
    map (fun m => Some (snd m)) (json_children a)
      = map show_node (List.filter (fun v => strcmp0 name (rn_name (bv_node v))) nodes).
Proof.
  intros Hc. destruct (show_nodes_spec name nodes Hc) as (l & Hl & Hm).
  unfold get_mqtt_bridge, get_bridge_config. rewrite Hl. cbn [mbind option_bind].
  eexists _, _. split; [done|]. split; [by erewrite find_item by reflexivity|].
  cbn [snd]. rewrite children_of_arr, map_map, <- Hm. done.
Qed.

End Show.

End ConfBridge.
