(* ===== verification/RestControl.v ===== *)
(** * Control and files over the REST API (nanomq/rest_api.c)

    Stopping and restarting the broker through its own command line, writing
    configuration files and changing the hot settings.  [None] is memory that is
    read before it was written, a NULL pointer or the end of an array. *)

From S2P Require Import Prelude NngApi RestApi RestEndpoints RestPublish RestRules RestBridge ConfApi.

Module RestControl.

Import RestApi RestEndpoints RestPublish RestRules RestBridge ConfApi.

Definition WRITE_CONFIG_FAILED : Z := 118.
Definition PARAMS_HOCON_FORMAT_ILLEGAL : Z := 117.

(** ** The command line *)

(** The size of the buffer, and the two strcat per argument. *)
Fixpoint mk_len (n : nat) (str_arr : list bytes) (seperator : bytes) : option Z :=
  match n, str_arr with
  | O, _ => Some 0
  | S n', s :: arr' => l ← mk_len n' arr' seperator; Some (blen s + blen seperator + 2 + l)
  | S _, [] => None
  end.

Fixpoint mk_cat (n : nat) (str_arr : list bytes) (seperator str : bytes) : option bytes :=
  match n, str_arr with
  | O, _ => Some str
  | S n', s :: arr' => mk_cat n' arr' seperator (str ++ s ++ seperator)
  | S _, [] => None
  end.

(** The text and the size of the memory it was written to. *)
Definition mk_str (n : nat) (str_arr : list bytes) (seperator : bytes) : option (bytes * Z) :=
  len ← mk_len n str_arr seperator;
  str ← mk_cat n str_arr seperator [];
  Some (str, len).

Section Control.

Context (nng_strcasecmp : bytes -> bytes -> Z).

(** ctrl_cb: the command given to system().  [argv] are the cached arguments of
    the process, NULL at the start of the library; writing argv[1] is inside
    the array, which ends with a NULL pointer. *)
Definition ctrl_cb (argv : option (list bytes)) (action : bytes) : option (option (bytes * Z)) :=
  match argv with
  | None => Some None
  | Some argv =>
      let set_cmd c := match argv with a0 :: rest => a0 :: c :: tail rest | [] => [] end in
      if nng_strcasecmp action (lit "stop") =? 0 then Some <$> mk_str 2 (set_cmd (lit "stop")) (lit " ")
      else if nng_strcasecmp action (lit "restart") =? 0
      then Some <$> mk_str (length argv) (set_cmd (lit "restart")) (lit " ")
      else Some None
  end.

(** post_ctrl: status, code, and whether the thread runs; [create] is what
    nng_thread_create returns. *)
Definition post_ctrl (type : bytes) (create : Z) : Z * Z * bool :=
  if (nng_strcasecmp type (lit "stop") =? 0) || (nng_strcasecmp type (lit "restart") =? 0) then
    if create =? 0 then (NNG_HTTP_STATUS_OK, SUCCEED, true)
    else (NNG_HTTP_STATUS_INTERNAL_SERVER_ERROR, RPC_ERROR, false)
  else (NNG_HTTP_STATUS_NOT_FOUND, RPC_ERROR, false).

(** ** Files *)

Context `{J : CJsonTree}.
Context (nng_hocon_parse_str : bytes -> option json) (nng_file_put : bytes -> bytes -> Z).

Definition hocon_object (data : bytes) : bool :=
  match nng_hocon_parse_str data with Some j => json_is_object j | None => false end.

(** What is written: the path and the content. *)
Definition file_write : Type := bytes * bytes.

Definition put_file (path data : bytes) : option (option file_write * rest_reply) :=
  if nng_file_put path data =? 0 then Some (Some (path, data), RestCode SUCCEED)
  else Some (None, RestCode WRITE_CONFIG_FAILED).

(** [data] has no value when the request has no "content". *)
Definition write_file (req : option json) : option (option file_write * rest_reply) :=
  match object_only req with
  | None => Some (None, RestError NNG_HTTP_STATUS_BAD_REQUEST REQ_PARAMS_JSON_FORMAT_ILLEGAL)
  | Some r =>
      let conf_data := json_item r (lit "data") in
      match d ← conf_data; get_string d (lit "path") with
      | None => Some (None, RestError NNG_HTTP_STATUS_BAD_REQUEST REQ_PARAM_ERROR)
      | Some path =>
          data ← (d ← conf_data; get_string d (lit "content"));
          if hocon_object data then put_file path data
          else Some (None, RestError NNG_HTTP_STATUS_BAD_REQUEST PARAMS_HOCON_FORMAT_ILLEGAL)
      end
  end.

Definition update_config (conf_file data : bytes) : option (option file_write * rest_reply) :=
  if hocon_object data then put_file conf_file data
  else Some (None, RestError NNG_HTTP_STATUS_BAD_REQUEST PARAMS_HOCON_FORMAT_ILLEGAL).

Definition NNG_HTTP_STATUS_GONE : Z := 410.

(** A file as it is shown: its path and its content, or an error.  [load] is
    file_load_data; when that fails [data] has no value, and a NULL path is
    used when the configuration has no file. *)
Definition get_file_content (exists_file : bytes -> bool) (load : bytes -> option bytes) (conf_file path : option bytes)
  : option ((bytes * bytes) + rest_reply) :=
  path ← match path with Some _ => path | None => conf_file end;
  if exists_file path then data ← load path; Some (inl (path, data))
  else Some (inr (RestError NNG_HTTP_STATUS_GONE REQ_PARAM_ERROR)).

(** ** Hot settings *)

Context `{JA : !CJsonArr} `{D : !CJsonDoc}.

Definition show_reload_config (c : conf) : Z * json := (SUCCEED, get_reload_config (cf_basic c)).

Definition post_reload_config (req : option json) (c : conf_basic) : conf_basic * rest_reply :=
  match object_only req with
  | None => (c, RestError NNG_HTTP_STATUS_BAD_REQUEST REQ_PARAMS_JSON_FORMAT_ILLEGAL)
  | Some r =>
      (match json_item r (lit "data") with Some d => set_reload_config d c | None => c end, RestCode SUCCEED)
  end.

End Control.

(** ** What is run *)

Lemma mk_cat_spec n arr sep str :
  (n <= length arr)%nat -> mk_cat n arr sep str = Some (str ++ concat (map (fun s => s ++ sep) (take n arr))).
Proof.
  induction n as [|n IH] in arr, str |- *; intros Hn; cbn [mk_cat].
  { rewrite take_0. cbn. by rewrite app_nil_r. }
  destruct arr as [|s arr]; [cbn in Hn; lia|]. cbn [length] in Hn. rewrite IH by lia. cbn [take map concat].
  by rewrite <- !app_assoc.
Qed.

Lemma mk_len_spec n arr sep :
  (n <= length arr)%nat ->
  mk_len n arr sep = Some (blen (concat (map (fun s => s ++ sep) (take n arr))) + 2 * Z.of_nat n).
Proof.
  induction n as [|n IH] in arr |- *; intros Hn; cbn [mk_len]; [by rewrite take_0|].
  destruct arr as [|s arr]; [cbn in Hn; lia|]. cbn [length] in Hn. rewrite IH by lia. cbn [mbind option_bind].
  cbn [take map concat]. rewrite !blen_app. f_equal. lia.
Qed.

(** The command is the first [n] arguments, each followed by the separator,
    and fits with its terminator into the memory allocated for it. *)
Theorem mk_str_correct n arr sep :
  (0 < n <= length arr)%nat ->
  exists str len, mk_str n arr sep = Some (str, len) /\ str = concat (map (fun s => s ++ sep) (take n arr)) /\
    blen str + 1 <= len.
Proof.
  intros Hn. unfold mk_str. rewrite mk_len_spec, mk_cat_spec by lia. cbn [mbind option_bind].
  eexists _, _. split_and!; [done|done|]. rewrite app_nil_l. lia.
Qed.

(** A file is written only with a content that parses as a configuration,
    and then the answer says so; but a request with a path and no content makes
    the broker use a string that was never set. *)
Theorem write_file_correct `{J : CJsonTree} hocon put (r d : json) path :
  json_is_object r = true -> json_item r (lit "data") = Some d -> get_string d (lit "path") = Some path ->
  write_file hocon put (Some r) =
  match get_string d (lit "content") with
  | None => None
  | Some data =>
      if hocon_object hocon data then
        if put path data =? 0 then Some (Some (path, data), RestCode SUCCEED)
        else Some (None, RestCode WRITE_CONFIG_FAILED)
      else Some (None, RestError NNG_HTTP_STATUS_BAD_REQUEST PARAMS_HOCON_FORMAT_ILLEGAL)
  end.
Proof.
  intros Hr Hd Hp. unfold write_file, object_only. cbn [mbind option_bind]. rewrite Hr, Hd. cbn [mbind option_bind].
  rewrite Hp. by destruct (get_string d (lit "content")).
Qed.

(** What was written to a file is what is shown of it. *)
Theorem written_file_shown `{J : CJsonTree} hocon put exists_file load conf_file req path data r :
  (forall p d, put p d = 0 -> exists_file p = true /\ load p = Some d) ->
  write_file hocon put req = Some (Some (path, data), r) ->
  get_file_content exists_file load conf_file (Some path) = Some (inl (path, data)).
Proof.
  intros Hput. unfold write_file. destruct (object_only req) as [j|]; [|done].
  destruct (_ ≫= _) as [p|]; [|done].
  destruct (json_item j (lit "data") ≫= fun d => get_string d (lit "content")) as [d|]; [|done]. cbn [mbind option_bind].
  destruct (hocon_object hocon d); [|done]. unfold put_file.
  destruct (Z.eqb_spec (put p d) 0) as [E|_]; [|done]. intros [= <- <- <-].
  unfold get_file_content. cbn [mbind option_bind]. destruct (Hput p d E) as [-> ->]. done.
Qed.

(** A broker that was started without arguments is "restarted" by a command
    that lacks the word: the program is run without arguments. *)
Theorem restart_without_arguments cmp prog :
  (forall a b, cmp a b = 0 <-> map lower a = map lower b) ->
  exists len, ctrl_cb cmp (Some [prog]) (lit "restart") = Some (Some (prog ++ lit " ", len)).
Proof.
  intros Hc. unfold ctrl_cb. rewrite !(strcasecmp_eqb cmp Hc).
  rewrite bool_decide_eq_false_2 by done. rewrite bool_decide_eq_true_2 by done. cbn [length tail].
  unfold mk_str. cbn [mk_len mk_cat mbind option_bind fmap option_fmap option_map]. rewrite app_nil_l.
  by eexists.
Qed.

End RestControl.
