(* ===== verification/BrokerStart.v ===== *)
(** * Starting the broker (broker() in nanomq/apps/broker.c)

    [broker] connects the rules, opens the sockets, computes how many contexts
    and workers the configuration needs, starts the bridges, fills the array of
    workers, starts the listeners and sets the workers going.  It is a list of
    calls, computed from the configuration, that [exec] makes one after the
    other until a checked call fails: that ends the process.  The array of the
    workers is kept with its bounds.

    Compiled with the rule engine and without QUIC, Iceoryx, AWS, plugins and
    FoundationDB. *)

From S2P Require Import Prelude NngApi NngModel SubHandler Delivery ServerCb ConfApi.

Module BrokerStart.

Import SubHandler Delivery ServerCb.

Definition HTTP_CTX_NUM : Z := 4.

(** ** The configuration *)

(** The rules: [cr->option] by its bits, and for each rule whether it
    republishes. *)
Record start_rules := StartRules {
  sr_sdb : bool;
  sr_mdb : bool;
  sr_pdb : bool;
  sr_tdb : bool;
  sr_rpb : bool;
  sr_repubs : list bool
}.

(** conf_session_node *)
Record conf_session := ConfSession { se_idhash : Z; se_sub_list : list bytes }.

(** conf_nng_sub_node and conf_nng_pub_node *)
Record proxy_node := ProxyNode { px_topics : list bytes; px_url : bytes }.

(** What the start reads of [conf]; the lists are the arrays with their
    counts.  [sc_bridges] has the number of contexts of each node. *)
Record start_conf := StartConf {
  sc_url : option bytes;
  sc_enable : bool;
  sc_tcp_list : list (option bytes);
  sc_parallel : Z;
  sc_tls : ConfApi.conf_tls;
  sc_tls_list : list (option bytes);
  sc_websocket : ConfApi.conf_websocket;
  sc_http_enable : bool;
  sc_bridge_mode : bool;
  sc_bridges : list Z;
  sc_web_hook : bool;
  sc_exchange_count : Z;
  sc_sub_enable : bool;
  sc_snodes : list proxy_node;
  sc_pub_enable : bool;
  sc_pnodes : list proxy_node;
  sc_pre_sessions : list conf_session;
  sc_ipc_internal : bool;
  sc_hook_ipc_url : option bytes;
  sc_cmd_ipc_url : option bytes;
  sc_rules : start_rules
}.

(** ** Workers *)

(** The socket an extra context is opened on. *)
Inductive extra_sock := InprocSock | BridgeSock (t : nat) | SubSock (t : nat).

#[export] Instance extra_sock_eq_dec : EqDecision extra_sock.
Proof. solve_decision. Defined.

(** [struct work] after its creation. *)
Record slot := Slot {
  sl_work : work;
  sl_id : Z;
  sl_node : option nat;
  sl_snode : Z
}.

Inductive rule_client := SqliteClient | MysqlClient | PostgresqlClient | TimescaledbClient.

(** The calls.  [OpenCtx i] and [OpenExtraCtx i s] are the [nng_ctx_open] of ctx
    and extra_ctx of the worker for place [i]; [Undef] stands for the use of a
    NULL pointer or of memory outside an array. *)
Inductive start_call :=
  | RuleClient (k : rule_client)
  | NanoClient (rule : nat)
  | OpenBrokerSock
  | OpenInprocSock
  | StartHookService
  | BridgeClient (t : nat) (total_ctx : Z)
  | AllocAio
  | OpenCtx (i : Z)
  | OpenExtraCtx (i : Z) (s : extra_sock)
  | OpenHookSock
  | DialHook (url : bytes)
  | OpenProxySock (sub : bool) (t : nat)
  | SetProxyClient (sub : bool) (t : nat)
  | SubscribeProxy (t : nat) (topic : bytes)
  | ListenProxy (url : bytes)
  | NanoListen (inproc : bool) (url : bytes)
  | CreateListener (url : bytes)
  | SetListenerConf (whole : bool)
  | InitListenerTls
  | StartListener
  | InsertTopic (idhash : Z) (topic : bytes)
  | StartWork (s : slot)
  | StartRestServer
  | OpenCmdSock
  | AllocCmdWork
  | DeleteFile (path : bytes)
  | ListenCmd (url : bytes)
  | StartCmdWork
  | Undef.

(** The calls whose failure is fatal. *)
Definition checked (a : start_call) : bool :=
  match a with
  | OpenBrokerSock | OpenInprocSock | AllocAio | OpenCtx _ | OpenExtraCtx _ _ | OpenHookSock | DialHook _
  | SubscribeProxy _ _ | ListenProxy _
  | NanoListen _ _ | CreateListener _ | StartListener | OpenCmdSock | ListenCmd _ => true
  | _ => false
  end.

Inductive start_end := Started | Fatal | Undefined.

(** Makes the calls; [rv n] is the result of the [n]-th one. *)
Fixpoint exec (rv : nat -> Z) (n : nat) (l : list start_call) : list start_call * start_end :=
  match l with
  | [] => ([], Started)
  | Undef :: _ => ([], Undefined)
  | a :: l' =>
      if checked a && negb (rv n =? 0) then ([a], Fatal)
      else let '(k, r) := exec rv (S n) l' in (a :: k, r)
  end.

(** What the calls of the start meet: whether the array of the workers can be
    allocated, the sockets of the proxies opened, and which files exist. *)
Record start_env := StartEnv {
  en_alloc : bool;
  en_sub_open : nat -> bool;
  en_pub_open : nat -> bool;
  en_exists : bytes -> bool
}.

Section Start.

(** Addresses that nanolib defines. *)
Context (HOOK_IPC_URL CMD_IPC_URL INPROC_SERVER_URL : bytes).
Context `{C : MqttConst}.

Definition hooks (c : start_conf) : bool := sc_web_hook c || (0 <? sc_exchange_count c).

(** Whether and where [proto_work_init] opens the extra context. *)
Definition extra_ctx (c : start_conf) (proto : work_proto) (s : extra_sock) : option extra_sock :=
  if sc_http_enable c && bool_decide (proto = HTTP_SERVER) then Some s
  else if sc_bridge_mode c then
    match proto with MQTT_BRIDGE | AWS_BRIDGE => Some s | _ => None end
  else None.

(** The calls of [alloc_work] and [proto_work_init]. *)
Definition init_calls (c : start_conf) (proto : work_proto) (s : extra_sock) (i : Z) : list start_call :=
  [AllocAio; OpenCtx i] ++
  match extra_ctx c proto s with Some s => [OpenExtraCtx i s] | None => [] end ++
  if hooks c then [OpenHookSock; DialHook (default HOOK_IPC_URL (sc_hook_ipc_url c))] else [].

(** A worker in its place of the array. *)
Definition new_slot (proto : work_proto) (node : option nat) (i : Z) : slot :=
  Slot (proto_work_init proto) i node (-1).

Definition sub_slot (t : nat) (i : Z) : slot := Slot (proto_work_init NNG_BRIDGE) i None (Z.of_nat t).

(** [nng_proxy_sub_init] of the node [snodes[t]] opens the extra context of the
    worker for place [i] on the socket it opened; when that fails it returns. *)
Definition nng_proxy_sub_init (c : start_conf) (e : start_env) (t : nat) (i : Z) : list start_call :=
  match sc_snodes c !! t with
  | None => [Undef]
  | Some node =>
      OpenProxySock true t ::
      if en_sub_open e t then
        [SetProxyClient true t; OpenExtraCtx i (SubSock t)] ++ map (SubscribeProxy t) (px_topics node) ++
        [ListenProxy (px_url node)]
      else []
  end.

Definition nng_proxy_pub_init (e : start_env) (t : nat) (node : proxy_node) : list start_call :=
  OpenProxySock false t :: if en_pub_open e t then [SetProxyClient false t; ListenProxy (px_url node)] else [].

(** [works[i] = w] *)
Definition set_work (works : list (option slot)) (i : Z) (w : slot) : option (list (option slot)) :=
  if (0 <=? i) && (i <? Z.of_nat (length works)) then Some (<[Z.to_nat i := Some w]> works) else None.

(** [for (i = ..; i < bound; i = next i) works[i] = mk i]; a comparison with
    [size_t] converts [i].  One round more than the loop makes. *)
Fixpoint fill (fuel : nat) (next : Z -> Z) (i bound : Z) (mk : Z -> slot) (calls post : Z -> list start_call)
    (works : list (option slot)) : list (option slot) * list start_call :=
  match fuel with
  | O => (works, [Undef])
  | S fuel =>
      if u64 i <? bound then
        match set_work works (u64 i) (mk i) with
        | None => (works, calls i ++ [Undef])
        | Some works =>
            let '(works, l) := fill fuel next (next i) bound mk calls post works in
            (works, calls i ++ post i ++ l)
        end
      else (works, [])
  end.

Definition int_next (i : Z) : Z := i32 (i + 1).
Definition size_next (i : Z) : Z := u64 (i + 1).

(** ** The number of contexts *)

Fixpoint count_bridges (l : list Z) (total_ctx num_work : Z) : Z * Z :=
  match l with
  | [] => (total_ctx, num_work)
  | p :: l => count_bridges l (u64 (total_ctx + p * 2)) (u64 (num_work + p))
  end.

(** [total_ctx] and [num_work] *)
Definition count_ctx (c : start_conf) : Z * Z :=
  let total_ctx := u64 (sc_parallel c) in
  let num_work := u64 (sc_parallel c) in
  let '(total_ctx, num_work) :=
    if sc_http_enable c then (u64 (total_ctx + HTTP_CTX_NUM), u64 (num_work + HTTP_CTX_NUM))
    else (total_ctx, num_work) in
  let '(total_ctx, num_work) :=
    if sc_bridge_mode c then count_bridges (sc_bridges c) total_ctx num_work else (total_ctx, num_work) in
  if sc_sub_enable c then
    (u64 (total_ctx + Z.of_nat (length (sc_snodes c))), u64 (num_work + Z.of_nat (length (sc_snodes c))))
  else (total_ctx, num_work).

(** ** Filling the array *)

(** A part of the filling, from the index [tmp] on: the array, the next index
    and the calls. *)
Definition stage : Type := list (option slot) -> Z -> list (option slot) * Z * list start_call.

Definition skip : stage := fun works tmp => (works, tmp, []).

Definition and_then (s1 s2 : stage) : stage := fun works tmp =>
  let '(works, tmp, k1) := s1 works tmp in
  let '(works, tmp, k2) := s2 works tmp in (works, tmp, k1 ++ k2).

(** [for (i = 0; i < parallel; i++)], then [tmp = parallel] *)
Definition fill_broker (c : start_conf) : stage := fun works _ =>
  let '(works, k) :=
    fill (S (Z.to_nat (sc_parallel c))) int_next 0 (sc_parallel c) (new_slot MQTT_BROKER None)
      (init_calls c MQTT_BROKER InprocSock) (fun _ => []) works in
  (works, u64 (sc_parallel c), k).

(** [for (i = tmp; i < tmp + n; i++)] with an [int], then [tmp += n] *)
Definition fill_int (c : start_conf) (n : Z) (proto : work_proto) (s : extra_sock) (node : option nat) : stage :=
  fun works tmp =>
  let '(works, k) :=
    fill (S (Z.to_nat n)) int_next (i32 tmp) (u64 (tmp + n)) (new_slot proto node)
      (init_calls c proto s) (fun _ => []) works in
  (works, u64 (tmp + n), k).

(** The loop over the bridge nodes, [t] being the next one. *)
Fixpoint fill_bridges (c : start_conf) (l : list Z) (t : nat) : stage :=
  match l with
  | [] => skip
  | p :: l => and_then (fill_int c p MQTT_BRIDGE (BridgeSock t) (Some t)) (fill_bridges c l (S t))
  end.

(** The same with a [size_t], for the proxies. *)
Definition fill_proxies (c : start_conf) (e : start_env) : stage := fun works tmp =>
  let n := Z.of_nat (length (sc_snodes c)) in
  let t i := Z.to_nat (i - tmp) in
  let '(works, k) :=
    fill (S (length (sc_snodes c))) size_next tmp (u64 (tmp + n)) (fun i => sub_slot (t i) i)
      (fun i => init_calls c NNG_BRIDGE (SubSock (t i)) i) (fun i => nng_proxy_sub_init c e (t i) i) works in
  (works, u64 (tmp + n), k).

(** The workers of the broker, of the bridges, of HTTP and of the proxies. *)
Definition fill_works (c : start_conf) (e : start_env) : stage :=
  and_then (fill_broker c)
    (and_then (if sc_bridge_mode c then fill_bridges c (sc_bridges c) 0 else skip)
       (and_then (if sc_http_enable c then fill_int c HTTP_CTX_NUM HTTP_SERVER InprocSock None else skip)
          (if sc_sub_enable c then fill_proxies c e else skip))).

(** ** Listeners *)

(** A URL that is NULL is not one to listen on. *)
Definition listen (url : option bytes) : list start_call :=
  match url with Some url => [NanoListen false url] | None => [Undef] end.

Definition tls_listen (whole : bool) (url : option bytes) : list start_call :=
  match url with
  | Some url => [CreateListener url; SetListenerConf whole; InitListenerTls; StartListener]
  | None => [Undef]
  end.

Definition listeners (c : start_conf) : list start_call :=
  let tls := sc_tls c in
  let ws := sc_websocket c in
  (if sc_enable c then
     match sc_url c with Some url => [NanoListen false url] | None => [] end ++ concat (map listen (sc_tcp_list c))
   else []) ++
  (if ConfApi.cw_enable ws then listen (ConfApi.cw_url ws) else []) ++
  concat (map (tls_listen true) (sc_tls_list c)) ++
  (if ConfApi.ct_enable tls then
     match ConfApi.ct_url tls with Some url => tls_listen true (Some url) | None => [] end ++
     if ConfApi.cw_tls_enable ws then tls_listen false (ConfApi.cw_tls_url ws) else []
   else []) ++
  if sc_http_enable c || sc_bridge_mode c then [NanoListen true INPROC_SERVER_URL] else [].

(** ** Rules, bridges, proxies and the command server *)

Fixpoint repub_calls (l : list bool) (i : nat) : list start_call :=
  match l with
  | [] => []
  | b :: l => (if b then [NanoClient i] else []) ++ repub_calls l (S i)
  end.

Definition rule_calls (r : start_rules) : list start_call :=
  (if sr_sdb r then [RuleClient SqliteClient] else []) ++
  (if sr_mdb r then [RuleClient MysqlClient] else []) ++
  (if sr_pdb r then [RuleClient PostgresqlClient] else []) ++
  (if sr_tdb r then [RuleClient TimescaledbClient] else []) ++
  if sr_rpb r then repub_calls (sr_repubs r) 0 else [].

Definition bridge_calls (c : start_conf) (total_ctx : Z) : list start_call :=
  if sc_bridge_mode c then map (fun t => BridgeClient t total_ctx) (seq 0 (length (sc_bridges c))) else [].

Definition proxy_calls (c : start_conf) (e : start_env) : list start_call :=
  if sc_pub_enable c then concat (imap (nng_proxy_pub_init e) (sc_pnodes c)) else [].

(** The sessions of the configuration are subscribed from the start. *)
Definition preset_calls (c : start_conf) : list start_call :=
  concat (map (fun n => map (InsertTopic (se_idhash n)) (se_sub_list n)) (sc_pre_sessions c)).

(** The address of the command server: hook_ipc_url is asked for. *)
Definition cmd_url (c : start_conf) : option bytes :=
  match sc_hook_ipc_url c with None => Some CMD_IPC_URL | Some _ => sc_cmd_ipc_url c end.

(** What follows the first occurrence of "ipc://" *)
Fixpoint after_ipc (s : bytes) : option bytes :=
  if strncmp0 s (lit "ipc://") (blen (lit "ipc://")) then Some (drop 6 s)
  else match s with [] => None | _ :: s => after_ipc s end.

Definition cmd_calls (c : start_conf) (e : start_env) : list start_call :=
  if sc_ipc_internal c then
    [OpenCmdSock; AllocCmdWork] ++
    match cmd_url c with
    | None => [Undef]
    | Some url =>
        match after_ipc url with
        | None => [Undef]
        | Some path => (if en_exists e path then [DeleteFile path] else []) ++ [ListenCmd url; StartCmdWork]
        end
    end
  else [].

(** [for (i = 0; i < num_work; i++) server_cb(works[i])] *)
Definition start_work (w : option slot) : list start_call :=
  match w with Some s => [StartWork s] | None => [Undef] end.

(** ** The start *)

Definition broker_calls (c : start_conf) (e : start_env) : list (option slot) * list start_call :=
  let '(total_ctx, num_work) := count_ctx c in
  let '(works, _, fills) := fill_works c e (if en_alloc e then replicate (Z.to_nat num_work) None else []) 0 in
  (works,
   rule_calls (sc_rules c) ++ [OpenBrokerSock] ++
   (if sc_http_enable c || sc_bridge_mode c then [OpenInprocSock] else []) ++
   (if hooks c then [StartHookService] else []) ++
   bridge_calls c total_ctx ++ fills ++ proxy_calls c e ++ listeners c ++ preset_calls c ++
   concat (map start_work works) ++ (if en_alloc e then [] else replicate (Z.to_nat num_work) Undef) ++
   (if sc_http_enable c then [StartRestServer] else []) ++ cmd_calls c e).

Definition broker (rv : nat -> Z) (c : start_conf) (e : start_env) : list start_call * start_end :=
  exec rv 0 (snd (broker_calls c e)).

(** ** The array of the workers *)

(** The configuration asks for a number of contexts that an [int] holds. *)
Definition asked_ctx (c : start_conf) : Z :=
  sc_parallel c + (if sc_http_enable c then HTTP_CTX_NUM else 0) +
  (if sc_bridge_mode c then 2 * foldr Z.add 0 (sc_bridges c) else 0) +
  (if sc_sub_enable c then Z.of_nat (length (sc_snodes c)) else 0).

Record conf_fits (c : start_conf) : Prop := ConfFits {
  cf_parallel : 0 <= sc_parallel c;
  cf_bridges : Forall (fun p => 0 <= p) (sc_bridges c);
  cf_total : asked_ctx c < 2147483648
}.

(** The workers by the order of their creation: those of the broker, of each
    bridge, of HTTP, of each proxy. *)
Definition bridge_makers (l : list Z) (t : nat) : list (Z -> slot) :=
  concat (imap (fun k p => replicate (Z.to_nat p) (new_slot MQTT_BRIDGE (Some (t + k)%nat))) l).

Definition makers (c : start_conf) : list (Z -> slot) :=
  replicate (Z.to_nat (sc_parallel c)) (new_slot MQTT_BROKER None) ++
  (if sc_bridge_mode c then bridge_makers (sc_bridges c) 0 else []) ++
  (if sc_http_enable c then replicate (Z.to_nat HTTP_CTX_NUM) (new_slot HTTP_SERVER None) else []) ++
  (if sc_sub_enable c then imap (fun t _ => sub_slot t) (sc_snodes c) else []).

(** The slots from index [i] on. *)
Fixpoint placed (i : Z) (l : list (Z -> slot)) : list (option slot) :=
  match l with [] => [] | mk :: l => Some (mk i) :: placed (i + 1) l end.

Lemma placed_app i l k : placed i (l ++ k) = placed i l ++ placed (i + Z.of_nat (length l)) k.
Proof.
  revert i. induction l as [|mk l IH]; intros i; cbn [app placed length].
  - f_equal. lia.
  - rewrite IH. do 3 f_equal. lia.
Qed.

Lemma placed_length i l : length (placed i l) = length l.
Proof. revert i. induction l as [|mk l IH]; intros i; cbn; [done|]. by rewrite IH. Qed.

Lemma placed_lookup i l k : placed i l !! k = (fun mk => Some (mk (i + Z.of_nat k))) <$> l !! k.
Proof.
  revert i k. induction l as [|mk l IH]; intros i [|k]; cbn; [done..| |].
  - do 3 f_equal. lia.
  - rewrite IH. destruct (l !! k); cbn; do 3 f_equal; lia.
Qed.

Lemma set_work_next done k w :
  set_work (done ++ replicate (S k) None) (Z.of_nat (length done)) w = Some ((done ++ [Some w]) ++ replicate k None).
Proof.
  unfold set_work. rewrite length_app, length_replicate.
  destruct (Z.leb_spec 0 (Z.of_nat (length done))); [|lia].
  destruct (Z.ltb_spec (Z.of_nat (length done)) (Z.of_nat (length done + S k))); [|lia]. cbn [andb].
  rewrite Nat2Z.id, <- (Nat.add_0_r (length done)) at 1. rewrite insert_app_r. by rewrite <- app_assoc.
Qed.

Lemma fill_S fuel next i bound mk calls post works :
  fill (S fuel) next i bound mk calls post works =
  if u64 i <? bound then
    match set_work works (u64 i) (mk i) with
    | None => (works, calls i ++ [Undef])
    | Some works =>
        let '(works, l) := fill fuel next (next i) bound mk calls post works in
        (works, calls i ++ post i ++ l)
    end
  else (works, []).
Proof. done. Qed.

(** A loop that starts at the first free place fills the next [n] ones. *)
Lemma fill_spec n next i mk calls post done k :
  i = Z.of_nat (length done) -> i + Z.of_nat n < 2147483648 -> (n <= k)%nat ->
  (forall j, 0 <= j < 2147483647 -> next j = j + 1) ->
  fst (fill (S n) next i (i + Z.of_nat n) mk calls post (done ++ replicate k None))
    = (done ++ placed i (replicate n mk)) ++ replicate (k - n) None /\
  snd (fill (S n) next i (i + Z.of_nat n) mk calls post (done ++ replicate k None))
    = concat (map (fun j => calls j ++ post j) (seqZ i (Z.of_nat n))).
Proof.
  intros Hi Hn Hk Hnext. revert i done k Hi Hn Hk. induction n as [|n IH]; intros i done k Hi Hn Hk.
  - rewrite fill_S, u64_small by lia. destruct (Z.ltb_spec i (i + Z.of_nat 0)); [lia|].
    cbn. rewrite app_nil_r, Nat.sub_0_r. done.
  - destruct k as [|k]; [lia|]. rewrite fill_S, u64_small by lia.
    destruct (Z.ltb_spec i (i + Z.of_nat (S n))); [|lia]. 
    replace (set_work _ i (mk i)) with (set_work (done ++ replicate (S k) None) (Z.of_nat (length done)) (mk i))
      by (by rewrite <- Hi).
    rewrite set_work_next.
    rewrite (Hnext i) by lia. replace (i + Z.of_nat (S n)) with (i + 1 + Z.of_nat n) by lia.
    destruct (IH (i + 1) (done ++ [Some (mk i)]) k) as [H1 H2];
      [rewrite length_app; cbn [length]; lia|lia|lia|].
    destruct (fill (S n) next (i + 1) (i + 1 + Z.of_nat n) mk calls post _) as [w l].
    cbn [fst snd] in *. subst w l. split.
    + cbn [placed replicate Nat.sub]. by rewrite <- !app_assoc.
    + rewrite Nat2Z.inj_succ, (seqZ_cons i) by lia. cbn [map concat]. rewrite Z.pred_succ, <- app_assoc. done.
Qed.

Lemma int_next_small j : 0 <= j < 2147483647 -> int_next j = j + 1.
Proof. intros. unfold int_next. by rewrite i32_small by lia. Qed.

Lemma size_next_small j : 0 <= j < 2147483647 -> size_next j = j + 1.
Proof. intros. unfold size_next. by rewrite u64_small by lia. Qed.

(** Calls that are defined and neither start a bridge or a worker nor touch the
    registry. *)
Definition plain (a : start_call) : bool :=
  match a with Undef | InsertTopic _ _ | StartWork _ | BridgeClient _ _ => false | _ => true end.
Definition defined (l : list start_call) : Prop := Forall (fun a => plain a = true) l.

Lemma defined_app l k : defined (l ++ k) <-> defined l /\ defined k.
Proof. apply Forall_app. Qed.

Lemma defined_concat {A} (f : A -> list start_call) l : (forall x, x ∈ l -> defined (f x)) -> defined (concat (map f l)).
Proof.
  induction l as [|x l IH]; intros H; [constructor|].
  cbn. rewrite defined_app. split; [apply H; left|]. apply IH. intros y Hy. apply H. by right.
Qed.

Lemma defined_map {A} (f : A -> start_call) l : (forall x, plain (f x) = true) -> defined (map f l).
Proof. intros H. apply Forall_forall. intros a Ha. apply list_elem_of_In, in_map_iff in Ha as (x & <- & _). apply H. Qed.

Ltac plainly := repeat (constructor; [done|]); try constructor.

Lemma init_calls_defined c proto s i : defined (init_calls c proto s i).
Proof. unfold init_calls. destruct (extra_ctx c proto s), (hooks c); plainly. Qed.

Lemma sub_init_defined c e t i : (t < length (sc_snodes c))%nat -> defined (nng_proxy_sub_init c e t i).
Proof.
  intros Ht. unfold nng_proxy_sub_init. destruct (lookup_lt_is_Some_2 _ _ Ht) as [node ->].
  destruct (en_sub_open e t); plainly. apply defined_app. split; [by apply defined_map|plainly].
Qed.

(** ** The contexts that are opened *)

(** The contexts that calls open: the number of the worker, the context and the
    socket, [None] being that of the broker. *)
Definition opens (l : list start_call) : list (Z * ctx * option extra_sock) :=
  omap (fun a => match a with
                 | OpenCtx i => Some (i, Ctx, None)
                 | OpenExtraCtx i s => Some (i, ExtraCtx, Some s)
                 | _ => None
                 end) l.

(** The socket that the extra context of a worker has to be on. *)
Definition extra_of (e : start_env) (s : slot) : option extra_sock :=
  match wk_proto (sl_work s) with
  | MQTT_BROKER => None
  | HTTP_SERVER => Some InprocSock
  | MQTT_BRIDGE | AWS_BRIDGE => BridgeSock <$> sl_node s
  | NNG_BRIDGE => if en_sub_open e (Z.to_nat (sl_snode s)) then Some (SubSock (Z.to_nat (sl_snode s))) else None
  end.

(** The contexts that a worker has to have. *)
Definition contexts (e : start_env) (s : slot) : list (Z * ctx * option extra_sock) :=
  (sl_id s, Ctx, None) :: match extra_of e s with Some k => [(sl_id s, ExtraCtx, Some k)] | None => [] end.

Definition slot_contexts (e : start_env) (w : option slot) : list (Z * ctx * option extra_sock) :=
  match w with Some s => contexts e s | None => [] end.

Lemma opens_app l k : opens (l ++ k) = opens l ++ opens k.
Proof. apply omap_app. Qed.

Lemma opens_concat {A} (f : A -> list start_call) l : opens (concat (map f l)) = concat (map (fun x => opens (f x)) l).
Proof. induction l as [|x l IH]; [done|]. cbn. by rewrite opens_app, IH. Qed.

Lemma opens_init c proto s i : opens (init_calls c proto s i) =
  (i, Ctx, None) :: match extra_ctx c proto s with Some k => [(i, ExtraCtx, Some k)] | None => [] end.
Proof. unfold init_calls. by destruct (extra_ctx c proto s), (hooks c). Qed.

Lemma opens_sub_init c e t i : (t < length (sc_snodes c))%nat ->
  opens (nng_proxy_sub_init c e t i) = if en_sub_open e t then [(i, ExtraCtx, Some (SubSock t))] else [].
Proof.
  intros Ht. unfold nng_proxy_sub_init. destruct (lookup_lt_is_Some_2 _ _ Ht) as [node ->].
  destruct (en_sub_open e t); [|done]. cbn. f_equal. change (opens (map (SubscribeProxy t) (px_topics node) ++ [ListenProxy (px_url node)]) = []).
  rewrite opens_app. by induction (px_topics node).
Qed.

Lemma placed_seqZ i n mk : placed i (replicate n mk) = map (fun j => Some (mk j)) (seqZ i (Z.of_nat n)).
Proof.
  revert i. induction n as [|n IH]; intros i; [done|].
  rewrite Nat2Z.inj_succ, (seqZ_cons i), Z.pred_succ by lia. cbn [replicate placed map]. rewrite IH.
  by rewrite Z.add_1_r.
Qed.

(** A stage places the workers [ms] behind those that are there, and opens the
    contexts of each. *)
Definition places (e : start_env) (s : stage) (ms : list (Z -> slot)) : Prop :=
  forall done k, Z.of_nat (length done) + Z.of_nat (length ms) < 2147483648 -> (length ms <= k)%nat ->
  exists calls, s (done ++ replicate k None) (Z.of_nat (length done))
    = ((done ++ placed (Z.of_nat (length done)) ms) ++ replicate (k - length ms) None,
       Z.of_nat (length done) + Z.of_nat (length ms), calls) /\ defined calls /\
    opens calls = concat (map (slot_contexts e) (placed (Z.of_nat (length done)) ms)).

Lemma skip_places e : places e skip [].
Proof.
  intros done k _ _. exists []. cbn [placed length]. rewrite app_nil_r, Nat.sub_0_r, Z.add_0_r.
  split_and!; [done|constructor|done].
Qed.

Lemma and_then_places e s1 s2 m1 m2 : places e s1 m1 -> places e s2 m2 -> places e (and_then s1 s2) (m1 ++ m2).
Proof.
  intros H1 H2 done k Hn Hk. rewrite length_app in *.
  destruct (H1 done k) as (k1 & E1 & D1 & O1); [lia|lia|]. unfold and_then. rewrite E1.
  set (done' := done ++ placed _ m1).
  assert (length done' = length done + length m1)%nat as Hd by (unfold done'; by rewrite length_app, placed_length).
  replace (Z.of_nat (length done) + Z.of_nat (length m1)) with (Z.of_nat (length done')) by lia.
  destruct (H2 done' (k - length m1)%nat) as (k2 & E2 & D2 & O2); [lia|lia|]. rewrite E2.
  exists (k1 ++ k2). split_and!; [|by apply defined_app|].
  2: { rewrite opens_app, O1, O2, placed_app, map_app, concat_app. do 4 f_equal. lia. }
  f_equal. apply (f_equal2 pair); [|lia].
  unfold done' at 1. rewrite placed_app, <- !app_assoc. do 2 f_equal. f_equal; [f_equal; lia|f_equal; lia].
Qed.

Lemma if_places e (b : bool) s ms : places e s ms -> places e (if b then s else skip) (if b then ms else []).
Proof. intros. destruct b; [done|]. apply skip_places. Qed.

(** [fill] from the first free place. *)
Lemma fill_next e n next mk calls post done k :
  Z.of_nat (length done) + Z.of_nat n < 2147483648 -> (n <= k)%nat ->
  (forall j, 0 <= j < 2147483647 -> next j = j + 1) ->
  (forall j, Z.of_nat (length done) <= j < Z.of_nat (length done) + Z.of_nat n ->
     defined (calls j ++ post j) /\ opens (calls j ++ post j) = contexts e (mk j)) ->
  exists l, fill (S n) next (Z.of_nat (length done)) (Z.of_nat (length done) + Z.of_nat n) mk calls post
      (done ++ replicate k None)
    = ((done ++ placed (Z.of_nat (length done)) (replicate n mk)) ++ replicate (k - n) None, l) /\ defined l /\
    opens l = concat (map (slot_contexts e) (placed (Z.of_nat (length done)) (replicate n mk))).
Proof.
  intros Hn Hk Hnext Hdef. destruct (fill_spec n next _ mk calls post done k eq_refl Hn Hk Hnext) as [H1 H2].
  destruct (fill _ _ _ _ _ _ _ _) as [w l]. cbn [fst snd] in *. subst w. exists l. split; [done|].
  subst l. split.
  - apply defined_concat. intros j Hj%elem_of_seqZ. by apply Hdef.
  - rewrite opens_concat, placed_seqZ, map_map. f_equal. apply map_ext_in. intros j Hj%list_elem_of_In%elem_of_seqZ.
    by apply Hdef.
Qed.

Lemma fill_int_places e c n proto s node :
  0 <= n -> (forall i, extra_ctx c proto s = extra_of e (new_slot proto node i)) ->
  places e (fill_int c n proto s node) (replicate (Z.to_nat n) (new_slot proto node)).
Proof.
  intros Hn Hx done k Hd Hk. rewrite length_replicate in *.
  destruct (fill_next e (Z.to_nat n) int_next (new_slot proto node) (init_calls c proto s) (fun _ => [])
    done k) as (l & H & D); [lia|lia|apply int_next_small| |].
  { intros j _. rewrite app_nil_r, opens_init, (Hx j). split; [apply init_calls_defined|done]. }
  unfold fill_int. rewrite Z2Nat.id in * by lia. rewrite i32_small, u64_small, H by lia. by exists l.
Qed.

Lemma bridge_makers_cons p l t :
  bridge_makers (p :: l) t
    = replicate (Z.to_nat p) (new_slot MQTT_BRIDGE (Some t)) ++ bridge_makers l (S t).
Proof.
  unfold bridge_makers. cbn [imap concat]. rewrite Nat.add_0_r. f_equal. f_equal.
  apply imap_ext. intros i x _. cbn. by rewrite Nat.add_succ_r.
Qed.

Lemma bridge_makers_length l t :
  Forall (fun p => 0 <= p) l -> Z.of_nat (length (bridge_makers l t)) = foldr Z.add 0 l.
Proof.
  intros Hl. revert t. induction Hl as [|p l Hp Hl IH]; intros t; [done|].
  rewrite bridge_makers_cons, length_app, length_replicate. cbn [foldr]. rewrite <- (IH (S t)). lia.
Qed.

Lemma fill_bridges_places e c l t : sc_bridge_mode c = true -> Forall (fun p => 0 <= p) l ->
  places e (fill_bridges c l t) (bridge_makers l t).
Proof.
  intros Hb Hl. revert t. induction Hl as [|p l Hp Hl IH]; intros t; cbn [fill_bridges]; [apply skip_places|].
  rewrite bridge_makers_cons. apply and_then_places; [apply fill_int_places; [done|]|done].
  intros i. unfold extra_ctx. rewrite Hb. by destruct (_ && _).
Qed.

Lemma placed_subs c b :
  placed b (replicate (length (sc_snodes c)) (fun i => sub_slot (Z.to_nat (i - b)) i))
    = placed b (imap (fun t _ => sub_slot t) (sc_snodes c)).
Proof.
  apply list_eq. intros k. rewrite !placed_lookup, list_lookup_imap.
  destruct (sc_snodes c !! k) as [n|] eqn:Hk; cbn [fmap option_fmap option_map].
  - rewrite lookup_replicate_2 by (by eapply lookup_lt_Some). cbn. do 3 f_equal. lia.
  - apply lookup_ge_None in Hk. by rewrite lookup_ge_None_2 by (by rewrite length_replicate).
Qed.

Lemma fill_proxies_places c e : places e (fill_proxies c e) (imap (fun t _ => sub_slot t) (sc_snodes c)).
Proof.
  intros done k Hd Hk. rewrite length_imap in *. set (t i := Z.to_nat (i - Z.of_nat (length done))).
  destruct (fill_next e (length (sc_snodes c)) size_next (fun i => sub_slot (t i) i)
    (fun i => init_calls c NNG_BRIDGE (SubSock (t i)) i) (fun i => nng_proxy_sub_init c e (t i) i) done k)
    as (l & H & D & O); [done|done|apply size_next_small| |].
  - intros j Hj. assert (t j < length (sc_snodes c))%nat by (unfold t; lia).
    rewrite opens_app, opens_init, opens_sub_init by done. split.
    + apply defined_app. split; [apply init_calls_defined|by apply sub_init_defined].
    + unfold contexts, extra_of, extra_ctx. cbn. rewrite Nat2Z.id, andb_false_r.
      by destruct (sc_bridge_mode c), (en_sub_open e (t j)).
  - unfold fill_proxies. cbv zeta beta. unfold t in H, O. cbv beta in H, O.
    rewrite u64_small, H by lia. rewrite placed_subs in *. by exists l.
Qed.

Lemma count_bridges_spec l total num :
  Forall (fun p => 0 <= p) l -> 0 <= total -> 0 <= num ->
  total + 2 * foldr Z.add 0 l < 2147483648 -> num + foldr Z.add 0 l < 2147483648 ->
  count_bridges l total num = (total + 2 * foldr Z.add 0 l, num + foldr Z.add 0 l).
Proof.
  intros Hl. revert total num. induction Hl as [|p l Hp Hl IH]; intros total num Ht Hn H1 H2.
  - cbn. f_equal; lia.
  - assert (0 <= foldr Z.add 0 l) by (clear - Hl; induction Hl; cbn; lia).
    cbn [foldr count_bridges] in *. rewrite !u64_small by lia. rewrite IH by lia. f_equal; lia.
Qed.

Ltac in_range :=
  repeat match goal with
  | |- context [u64 ?x] => lazymatch x with context [u64 _] => fail | _ => rewrite (u64_small x) by lia end
  end.

(** The array has a place for each worker, and there is a context for each. *)
Lemma count_ctx_spec c :
  conf_fits c ->
  count_ctx c = (asked_ctx c, Z.of_nat (length (makers c))) /\ Z.of_nat (length (makers c)) <= asked_ctx c.
Proof.
  intros [Hp Hb Ht]. pose proof (bridge_makers_length (sc_bridges c) 0 Hb) as Hl.
  unfold count_ctx, makers, asked_ctx in *. unfold HTTP_CTX_NUM in *.
  rewrite !length_app, length_replicate.
  destruct (sc_http_enable c), (sc_bridge_mode c), (sc_sub_enable c);
    rewrite ?length_replicate, ?length_imap; cbn [length] in *;
    (split; [|lia]); in_range; rewrite ?count_bridges_spec by (done || lia); in_range; f_equal; lia.
Qed.

Lemma fill_works_places c e : conf_fits c -> exists rest,
  makers c = replicate (Z.to_nat (sc_parallel c)) (new_slot MQTT_BROKER None) ++ rest /\
  places e (and_then (if sc_bridge_mode c then fill_bridges c (sc_bridges c) 0 else skip)
       (and_then (if sc_http_enable c then fill_int c HTTP_CTX_NUM HTTP_SERVER InprocSock None else skip)
          (if sc_sub_enable c then fill_proxies c e else skip))) rest.
Proof.
  intros [Hp Hb Ht]. eexists. split; [done|]. apply and_then_places; [|apply and_then_places].
  - destruct (sc_bridge_mode c) eqn:Hm; [by apply fill_bridges_places|apply skip_places].
  - destruct (sc_http_enable c) eqn:Hh; [|apply skip_places]. apply fill_int_places; [done|]. intros i.
    unfold extra_ctx. by rewrite Hh.
  - apply if_places, fill_proxies_places.
Qed.

(** The whole array is filled, each worker in the place of its number, and its
    contexts are opened. *)
Lemma fill_works_spec c e :
  conf_fits c ->
  exists tmp calls, fill_works c e (replicate (length (makers c)) None) 0 = (placed 0 (makers c), tmp, calls) /\
    defined calls /\ opens calls = concat (map (slot_contexts e) (placed 0 (makers c))).
Proof.
  intros Hfits. destruct (count_ctx_spec c Hfits) as [_ Hlen]. destruct (fill_works_places c e Hfits) as (rest & Hm & Hpl).
  destruct Hfits as [Hp Hb Ht]. set (m1 := replicate (Z.to_nat (sc_parallel c)) (new_slot MQTT_BROKER None)) in Hm.
  assert (Z.of_nat (length m1) = sc_parallel c) as E by (unfold m1; rewrite length_replicate; lia).
  assert (length (makers c) = length m1 + length rest)%nat as El by (by rewrite Hm, length_app).
  destruct (fill_next e (Z.to_nat (sc_parallel c)) int_next (new_slot MQTT_BROKER None)
    (init_calls c MQTT_BROKER InprocSock) (fun _ => []) [] (length (makers c))) as (k1 & H1 & D1 & O1);
    [cbn; lia|lia|apply int_next_small| |].
  { intros j _. rewrite app_nil_r, opens_init. split; [apply init_calls_defined|]. unfold extra_ctx.
    rewrite andb_false_r. by destruct (sc_bridge_mode c). }
  cbn [length app] in H1, O1. change (Z.of_nat 0) with 0 in H1, O1. fold m1 in H1, O1.
  rewrite Z.add_0_l, Z2Nat.id in H1 by lia.
  replace (length (makers c) - Z.to_nat (sc_parallel c))%nat with (length rest) in H1 by lia.
  destruct (Hpl (placed 0 m1) (length rest)) as (k2 & E2 & D2 & O2); [rewrite placed_length; lia|done|].
  rewrite placed_length in E2, O2. unfold fill_works, and_then at 1, fill_broker. rewrite H1, u64_small, <- E, E2 by lia.
  rewrite Nat.sub_diag, Hm, placed_app. cbn [replicate]. rewrite app_nil_r. eexists _, _. split; [done|].
  rewrite Z.add_0_l, map_app, concat_app, opens_app, O1, O2. split; [by apply defined_app|done].
Qed.

(** ** The start succeeds *)

(** The addresses that are used are there. *)
Record urls_ok (c : start_conf) : Prop := UrlsOk {
  uo_tcp : sc_enable c = true -> Forall is_Some (sc_tcp_list c);
  uo_tls : Forall is_Some (sc_tls_list c);
  uo_ws : ConfApi.cw_enable (sc_websocket c) = true -> is_Some (ConfApi.cw_url (sc_websocket c));
  uo_wss : ConfApi.ct_enable (sc_tls c) = true -> ConfApi.cw_tls_enable (sc_websocket c) = true ->
    is_Some (ConfApi.cw_tls_url (sc_websocket c));
  uo_cmd : sc_ipc_internal c = true -> is_Some (cmd_url c ≫= after_ipc)
}.

Lemma exec_defined rv n l : (forall k, rv k = 0) -> Undef ∉ l -> exec rv n l = (l, Started).
Proof.
  intros Hrv. revert n. induction l as [|a l IH]; intros n Hl; [done|].
  apply not_elem_of_cons in Hl as [Ha Hl].
  destruct a; try done; cbn [exec]; rewrite Hrv, ?andb_false_r; cbn [Z.eqb negb andb checked]; by rewrite IH by done.
Qed.

Lemma defined_undef l : defined l -> Undef ∉ l.
Proof. intros H Hin. by specialize (proj1 (Forall_forall _ _) H _ Hin). Qed.

Lemma listen_defined l : Forall is_Some l -> defined (concat (map listen l)).
Proof. intros H. apply defined_concat. intros u Hu. destruct (proj1 (Forall_forall _ _) H u Hu) as [x ->]. plainly. Qed.

Lemma tls_listen_defined w l : Forall is_Some l -> defined (concat (map (tls_listen w) l)).
Proof. intros H. apply defined_concat. intros u Hu. destruct (proj1 (Forall_forall _ _) H u Hu) as [x ->]. plainly. Qed.

Lemma listeners_defined c : urls_ok c -> defined (listeners c).
Proof.
  intros [H1 H2 H3 H4 _]. unfold listeners. rewrite !defined_app. split_and!.
  - destruct (sc_enable c); [|constructor]. apply defined_app. split; [destruct (sc_url c); plainly|].
    by apply listen_defined, H1.
  - destruct (ConfApi.cw_enable _); [|constructor]. destruct H3 as [u ->]; [done|]. plainly.
  - by apply tls_listen_defined.
  - destruct (ConfApi.ct_enable _); [|constructor]. apply defined_app.
    split; [destruct (ConfApi.ct_url _); plainly|].
    destruct (ConfApi.cw_tls_enable _); [|constructor]. destruct H4 as [u ->]; [done..|]. plainly.
  - destruct (_ || _); plainly.
Qed.

Lemma repub_calls_defined l i : defined (repub_calls l i).
Proof. revert i. induction l as [|b l IH]; intros i; cbn; [constructor|]. destruct b; cbn; [constructor; [done|]|]; apply IH. Qed.

Lemma rule_calls_defined r : defined (rule_calls r).
Proof.
  unfold rule_calls. rewrite !defined_app. split_and!.
  1-4: case_match; plainly.
  case_match; [apply repub_calls_defined|constructor].
Qed.

Lemma cmd_calls_defined c e : urls_ok c -> defined (cmd_calls c e).
Proof.
  intros [_ _ _ _ H]. unfold cmd_calls. destruct (sc_ipc_internal c); [|constructor].
  destruct H as [path Hp]; [done|]. destruct (cmd_url c) as [url|]; [|done]. cbn in Hp. rewrite Hp.
  destruct (en_exists e path); plainly.
Qed.

Lemma proxy_calls_defined c e : defined (proxy_calls c e).
Proof.
  unfold proxy_calls. destruct (sc_pub_enable c); [|constructor].
  assert (forall f : nat -> proxy_node -> list start_call, (forall i x, defined (f i x)) ->
    forall l, defined (concat (imap f l))) as H; [|apply H].
  - intros f Hf l. revert f Hf. induction l as [|x l IH]; intros f Hf; cbn; [constructor|].
    apply defined_app. split; [done|]. apply IH. intros i y. apply Hf.
  - intros t node. unfold nng_proxy_pub_init. destruct (en_pub_open e t); plainly.
Qed.

Lemma start_works_placed i l : concat (map start_work (placed i l)) = map StartWork (imap (fun k mk => mk (i + Z.of_nat k)) l).
Proof.
  revert i. induction l as [|mk l IH]; intros i; cbn [placed map concat imap]; [done|].
  cbn [start_work app]. rewrite IH, Z.add_0_r. do 2 f_equal. apply imap_ext. intros k x _. cbn. f_equal. lia.
Qed.

(** The workers in the order of the array. *)
Definition workers (c : start_conf) : list slot := imap (fun k mk => mk (Z.of_nat k)) (makers c).

Lemma placed_workers c : placed 0 (makers c) = map Some (workers c).
Proof.
  apply list_eq. intros k. rewrite placed_lookup. unfold workers. change (map Some ?l) with (Some <$> l).
  rewrite list_lookup_fmap, list_lookup_imap. by destruct (makers c !! k).
Qed.

(** No calls but those of the workers open a context. *)
Lemma opens_none l : Forall (fun a => match a with OpenCtx _ | OpenExtraCtx _ _ => False | _ => True end) l -> opens l = [].
Proof. induction 1 as [|a l Ha _ IH]; [done|]. unfold opens in *. cbn. rewrite IH. by destruct a. Qed.

Lemma opens_flat {A} (f : A -> list start_call) l : (forall x, opens (f x) = []) -> opens (concat (map f l)) = [].
Proof. intros H. rewrite opens_concat. induction l as [|x l IH]; [done|]. cbn. by rewrite H. Qed.

Lemma opens_rules r : opens (rule_calls r) = [].
Proof.
  assert (forall l i, opens (repub_calls l i) = []) as H.
  { intros l. induction l as [|[] l IH]; intros i; cbn; [done|apply IH..]. }
  unfold rule_calls. rewrite !opens_app. by destruct (sr_sdb r), (sr_mdb r), (sr_pdb r), (sr_tdb r), (sr_rpb r); cbn; rewrite ?H.
Qed.

Lemma opens_listeners c : opens (listeners c) = [].
Proof.
  unfold listeners. rewrite !opens_app.
  assert (forall u, opens (listen u) = []) as Hl by (by intros []).
  assert (forall w u, opens (tls_listen w u) = []) as Ht by (by intros w []).
  rewrite opens_flat by done. repeat case_match; rewrite ?opens_app, ?opens_flat, ?Hl, ?Ht by done; done.
Qed.

Lemma opens_proxies c e : opens (proxy_calls c e) = [].
Proof.
  unfold proxy_calls. destruct (sc_pub_enable c); [|done].
  assert (forall (f : nat -> proxy_node -> list start_call) l, (forall i x, opens (f i x) = []) ->
    opens (concat (imap f l)) = []) as H; [|apply H].
  - intros f l. revert f. induction l as [|x l IH]; intros f Hf; cbn; [done|].
    rewrite opens_app, Hf. apply IH. intros. apply Hf.
  - intros t node. unfold nng_proxy_pub_init. by destruct (en_pub_open e t).
Qed.

Lemma opens_map {A} (f : A -> start_call) l : (forall x, opens [f x] = []) -> opens (map f l) = [].
Proof. intros H. induction l as [|x l IH]; [done|]. cbn [map]. change (opens ([f x] ++ map f l) = []). by rewrite opens_app, H. Qed.

Lemma opens_presets c : opens (preset_calls c) = [].
Proof. apply opens_flat. intros n. by apply opens_map. Qed.

Lemma opens_bridges c n : opens (bridge_calls c n) = [].
Proof. unfold bridge_calls. destruct (sc_bridge_mode c); [|done]. by apply opens_map. Qed.

(** The calls up to the start of the first worker, the workers and the rest. *)
Lemma broker_calls_spec c e :
  conf_fits c -> urls_ok c -> en_alloc e = true ->
  exists p1 p2 p3, defined p1 /\ defined p2 /\ defined p3 /\
    opens (p1 ++ bridge_calls c (asked_ctx c) ++ p2 ++ preset_calls c) = concat (map (contexts e) (workers c)) /\
    snd (broker_calls c e) =
      p1 ++ bridge_calls c (asked_ctx c) ++ p2 ++ preset_calls c ++ map StartWork (workers c) ++ p3.
Proof.
  intros Hf Hu Ha. destruct (count_ctx_spec c Hf) as [Hc Hle].
  destruct (fill_works_spec c e Hf) as (tmp & k & Hw & D & O).
  unfold broker_calls. rewrite Hc, Ha, Nat2Z.id, Hw. cbn [snd]. rewrite start_works_placed.
  exists (rule_calls (sc_rules c) ++ [OpenBrokerSock] ++
   (if sc_http_enable c || sc_bridge_mode c then [OpenInprocSock] else []) ++
   (if hooks c then [StartHookService] else [])), (k ++ proxy_calls c e ++ listeners c),
   ((if sc_http_enable c then [StartRestServer] else []) ++ cmd_calls c e).
  rewrite !defined_app. split_and!; [apply rule_calls_defined|plainly|destruct (_ || _); plainly
    |destruct (hooks c); plainly|done|apply proxy_calls_defined|by apply listeners_defined
    |destruct (sc_http_enable c); plainly|by apply cmd_calls_defined| |].
  - rewrite !opens_app, opens_rules, opens_bridges, opens_proxies, opens_listeners, opens_presets, O, placed_workers.
    rewrite map_map. change (fun x => slot_contexts e (Some x)) with (contexts e).
    destruct (_ || _), (hooks c); cbn [opens omap list_omap app]; by rewrite !app_nil_r.
  - by rewrite <- !app_assoc.
Qed.

(** The workers a run of the start has set going, and the number of aios of
    each bridge it has started. *)
Definition started (l : list start_call) : list slot := omap (fun a => match a with StartWork s => Some s | _ => None end) l.
Definition bridge_aios (l : list start_call) : list Z := omap (fun a => match a with BridgeClient _ n => Some n | _ => None end) l.

Lemma omap_plain {A} (f : start_call -> option A) l :
  (forall a, plain a = true -> f a = None) -> defined l -> omap f l = [].
Proof. intros Hf Hl. induction Hl as [|a l Ha Hl IH]; [done|]. cbn. rewrite (Hf a Ha). apply IH. Qed.

Lemma omap_map_all {A B} (f : start_call -> option B) (g : A -> start_call) (h : A -> B) l :
  (forall x, f (g x) = Some (h x)) -> omap f (map g l) = map h l.
Proof. intros H. induction l as [|x l IH]; [done|]. cbn. by rewrite H, IH. Qed.

Lemma omap_map_none {A B} (f : start_call -> option B) (g : A -> start_call) l :
  (forall x, f (g x) = None) -> omap f (map g l) = [].
Proof. intros H. induction l as [|x l IH]; [done|]. cbn. by rewrite H, IH. Qed.

Lemma omap_preset {B} (f : start_call -> option B) c :
  (forall i t, f (InsertTopic i t) = None) -> omap f (preset_calls c) = [].
Proof.
  intros H. unfold preset_calls. induction (sc_pre_sessions c) as [|n l IH]; [done|].
  cbn [map concat]. by rewrite omap_app, omap_map_none, IH.
Qed.

(** The context that the worker receives on is one that the calls [l] opened. *)
Definition listens (l : list start_call) (s : slot) : Prop :=
  exists k, (sl_id s, own_ctx (sl_work s), k) ∈ opens l.

Lemma workers_slot c e i s :
  (forall t, en_sub_open e t = true) -> workers c !! i = Some s ->
  sl_id s = Z.of_nat i /\ sl_work s = proto_work_init (wk_proto (sl_work s)) /\
  exists k, (sl_id s, own_ctx (sl_work s), k) ∈ contexts e s.
Proof.
  intros Hs. unfold workers. rewrite list_lookup_imap. intros [mk [Hmk ->]]%fmap_Some.
  apply list_elem_of_lookup_2 in Hmk. unfold makers in Hmk. rewrite !elem_of_app in Hmk.
  destruct Hmk as [H|[H|[H|H]]].
  - apply elem_of_replicate in H as [-> _]. split_and!; [done..|]. eexists. by left.
  - destruct (sc_bridge_mode c) eqn:Hb; [|by apply elem_of_nil in H].
    unfold bridge_makers in H. apply list_elem_of_In, in_concat in H as (l & Hl & H).
    apply list_elem_of_In, elem_of_lookup_imap in Hl as (t & p & -> & _).
    apply list_elem_of_In, elem_of_replicate in H as [-> _]. split_and!; [done..|]. eexists. right. by left.
  - destruct (sc_http_enable c) eqn:Hh; [|by apply elem_of_nil in H].
    apply elem_of_replicate in H as [-> _]. split_and!; [done..|]. eexists. right. by left.
  - destruct (sc_sub_enable c); [|by apply elem_of_nil in H].
    apply elem_of_lookup_imap in H as (t & p & -> & _). split_and!; [done..|]. eexists.
    unfold contexts, extra_of. cbn [wk_proto sl_work sub_slot proto_work_init]. rewrite Hs. right. by left.
Qed.

Lemma worker_id c i s : workers c !! i = Some s -> sl_id s = Z.of_nat i.
Proof. intros Hi. by apply (workers_slot c (StartEnv true (fun _ => true) (fun _ => true) (fun _ => true)) i s). Qed.

Lemma calls_defined c e : conf_fits c -> urls_ok c -> en_alloc e = true -> Undef ∉ snd (broker_calls c e).
Proof.
  intros Hf Hu Ha. destruct (broker_calls_spec c e Hf Hu Ha) as (p1 & p2 & p3 & D1 & D2 & D3 & _ & ->).
  rewrite !not_elem_of_app. split_and!; try by apply defined_undef.
  - unfold bridge_calls. destruct (sc_bridge_mode c); [|apply not_elem_of_nil].
    by intros (x & H & _)%list_elem_of_In%in_map_iff.
  - unfold preset_calls. intros (l & (n & <- & _)%in_map_iff & (t & H & _)%in_map_iff)%list_elem_of_In%in_concat. done.
  - by intros (x & H & _)%list_elem_of_In%in_map_iff.
Qed.

Lemma started_workers c e :
  conf_fits c -> urls_ok c -> en_alloc e = true -> started (snd (broker_calls c e)) = workers c.
Proof.
  intros Hf Hu Ha. destruct (broker_calls_spec c e Hf Hu Ha) as (p1 & p2 & p3 & D1 & D2 & D3 & _ & ->).
  unfold started. rewrite !omap_app, (omap_plain _ p1), (omap_plain _ p2), (omap_plain _ p3), omap_preset
    by (done || by intros []).
  rewrite (omap_map_all _ StartWork id), map_id by done. unfold bridge_calls.
  destruct (sc_bridge_mode c); rewrite ?omap_map_none by done; cbn [app omap list_omap]; by rewrite app_nil_r.
Qed.

Lemma bridge_aios_spec c e :
  conf_fits c -> urls_ok c -> en_alloc e = true ->
  bridge_aios (snd (broker_calls c e))
    = replicate (if sc_bridge_mode c then length (sc_bridges c) else 0%nat) (asked_ctx c).
Proof.
  intros Hf Hu Ha. destruct (broker_calls_spec c e Hf Hu Ha) as (p1 & p2 & p3 & D1 & D2 & D3 & _ & ->).
  unfold bridge_aios. rewrite !omap_app, (omap_plain _ p1), (omap_plain _ p2), (omap_plain _ p3), omap_preset
    by (done || by intros []).
  rewrite (omap_map_none _ StartWork) by done. unfold bridge_calls.
  destruct (sc_bridge_mode c); [|done]. rewrite (omap_map_all _ _ (fun _ => asked_ctx c)) by done. cbn [app].
  rewrite app_nil_r. generalize 0%nat. induction (length (sc_bridges c)) as [|n IH]; intros k; [done|]. cbn. by rewrite IH.
Qed.

(** C31. A start in which no call fails sets every worker going: the array is
    filled exactly, worker [i] has the number [i] and is in its first state.
    Before the first worker is set going, the start has opened for each worker
    its context on the socket of the broker and, for a worker of a bridge, of HTTP
    or of a proxy, its extra context on the socket of that bridge, of the
    in-process server or of that proxy, each exactly once and nothing else; among
    them is the context the worker receives on.  Every bridge has an aio for each
    worker. *)
Theorem broker_starts rv c e :
  conf_fits c -> urls_ok c -> en_alloc e = true -> (forall t, en_sub_open e t = true) -> (forall n, rv n = 0) ->
  let '(calls, r) := broker rv c e in
  r = Started /\ started calls = workers c /\
  fst (broker_calls c e) = map Some (started calls) /\
  (exists before after, calls = before ++ map StartWork (started calls) ++ after /\
     opens before = concat (map (contexts e) (started calls)) /\
     forall i s, started calls !! i = Some s ->
       sl_id s = Z.of_nat i /\ sl_work s = proto_work_init (wk_proto (sl_work s)) /\ listens before s) /\
  Forall (fun n => Z.of_nat (length (started calls)) <= n) (bridge_aios calls) /\
  length (bridge_aios calls) = (if sc_bridge_mode c then length (sc_bridges c) else 0%nat).
Proof.
  intros Hf Hu Ha Hs Hrv. unfold broker. rewrite exec_defined by (done || by apply calls_defined).
  rewrite started_workers, bridge_aios_spec by done. destruct (count_ctx_spec c Hf) as [Hc Hle].
  split_and!; [done|done| | | |by rewrite length_replicate].
  - unfold broker_calls. rewrite Hc, Ha, Nat2Z.id. destruct (fill_works_spec c e Hf) as (tmp & k & -> & _).
    apply placed_workers.
  - destruct (broker_calls_spec c e Hf Hu Ha) as (p1 & p2 & p3 & D1 & D2 & D3 & O & ->).
    exists (p1 ++ bridge_calls c (asked_ctx c) ++ p2 ++ preset_calls c), p3. split_and!; [by rewrite <- !app_assoc|done|].
    intros i s Hi. destruct (workers_slot c e i s Hs Hi) as (H1 & H2 & k & Hk). split_and!; [done..|].
    exists k. rewrite O. apply list_elem_of_In, in_concat. exists (contexts e s). split; [|by apply list_elem_of_In].
    apply in_map. apply list_elem_of_In. by eapply list_elem_of_lookup_2.
  - apply Forall_replicate. unfold workers. by rewrite length_imap.
Qed.

Lemma exec_undef rv n l : Undef ∈ l -> snd (exec rv n l) <> Started.
Proof.
  revert n. induction l as [|a l IH]; intros n H; [by apply elem_of_nil in H|].
  apply elem_of_cons in H as [<-|H]; [done|].
  destruct a; try done; cbn [exec]; destruct (_ && _); try done;
    specialize (IH (S n) H); by destruct (exec rv (S n) l).
Qed.

(** The address of the command server depends on that of the web hooks: with
    the latter set and its own not, the start uses a NULL pointer. *)
Theorem cmd_url_unset rv c e :
  sc_ipc_internal c = true -> sc_hook_ipc_url c <> None -> sc_cmd_ipc_url c = None ->
  snd (broker rv c e) <> Started.
Proof.
  intros Hi Hh Hc. apply exec_undef. unfold broker_calls. destruct (count_ctx c) as [total num].
  destruct (fill_works _ _ _ _) as [[works tmp] fills]. cbn [snd]. rewrite !elem_of_app. do 11 right.
  unfold cmd_calls, cmd_url. rewrite Hi, Hc. destruct (sc_hook_ipc_url c); [|done]. set_solver.
Qed.

(** When the socket of a proxy cannot be opened, its worker is set going all
    the same, on a context that was never opened. *)
Theorem proxy_unopened rv c e t :
  conf_fits c -> urls_ok c -> en_alloc e = true -> (forall n, rv n = 0) ->
  sc_sub_enable c = true -> (t < length (sc_snodes c))%nat -> en_sub_open e t = false ->
  snd (broker rv c e) = Started /\
  exists s before after, fst (broker rv c e) = before ++ StartWork s :: after /\ ~ listens before s.
Proof.
  intros Hf Hu Ha Hrv Hs Ht Ho. unfold broker. rewrite exec_defined by (done || by apply calls_defined).
  split; [done|]. cbn [fst]. destruct (lookup_lt_is_Some_2 _ _ Ht) as [node Hn].
  assert (sub_slot t ∈ makers c) as (k & Hk)%list_elem_of_lookup.
  { unfold makers. rewrite Hs, !elem_of_app. do 3 right. apply elem_of_lookup_imap. by eexists t, node. }
  assert (workers c !! k = Some (sub_slot t (Z.of_nat k))) as Hw by (unfold workers; by rewrite list_lookup_imap, Hk).
  destruct (broker_calls_spec c e Hf Hu Ha) as (p1 & p2 & p3 & D1 & D2 & D3 & O & ->).
  pose proof Hw as (l1 & l2 & Hl & Hlen)%list_elem_of_split_length.
  exists (sub_slot t (Z.of_nat k)), ((p1 ++ bridge_calls c (asked_ctx c) ++ p2 ++ preset_calls c) ++ map StartWork l1),
    (map StartWork l2 ++ p3). split.
  { rewrite Hl, map_app. cbn [map]. by rewrite <- !app_assoc. }
  intros [x Hx]. rewrite opens_app, O, opens_map, app_nil_r in Hx by done.
  apply list_elem_of_In, in_concat in Hx as (l & (s & <- & Hin)%in_map_iff & Hx).
  apply list_elem_of_In, list_elem_of_lookup in Hin as [j Hj].
  assert (sl_id s = Z.of_nat j) as Hid by (by eapply worker_id).
  assert (sl_id s = Z.of_nat k) as Hid'.
  { unfold contexts in Hx. destruct Hx as [[=]|Hx]. destruct (extra_of e s); [|done].
    by destruct Hx as [[= -> _]|[]]. }
  assert (j = k) as -> by lia. rewrite Hw in Hj. injection Hj as <-. unfold contexts, extra_of in Hx. cbn in Hx.
  rewrite Nat2Z.id, Ho in Hx. by destruct Hx as [[=]|[]].
Qed.

End Start.

(** ** The subscriptions of the configuration *)

Section Sessions.

Context (HOOK_IPC_URL CMD_IPC_URL INPROC_SERVER_URL : bytes).
Context `{C : MqttConst} `{M : NngMsg} `{P : MqttParser} `{TF : TopicFilter}.
Context `{DB : !NanoDb} `{NW : !NngMsgNew} `{SQ : !SqliteRetain} `{DL : !NanoDbLaws}.

(** What a call does to the trees the workers share. *)
Definition preset (b : Delivery.broker) (a : start_call) : Delivery.broker :=
  match a with
  | InsertTopic idhash topic =>
      Broker (dbtree_insert_client (b_db b) topic idhash) (b_db_ret b) (dbhash_insert_topic (b_hash b) idhash topic 2)
        (b_stats b) (b_sqlite b)
  | _ => b
  end.

Definition preset_subs (c : start_conf) : gset (bytes * Z) :=
  list_to_set (concat (map (fun n => map (fun t => (t, se_idhash n)) (se_sub_list n)) (sc_pre_sessions c))).

Lemma preset_plain b l : (forall a, a ∈ l -> forall i t, a <> InsertTopic i t) -> foldl preset b l = b.
Proof.
  induction l as [|a l IH]; intros H; [done|]. cbn [foldl].
  assert (preset b a = b) as ->; [|apply IH; intros; apply H; by right].
  specialize (H a (list_elem_of_here _ _)). destruct a; try done. by edestruct H.
Qed.

Lemma preset_defined b l : defined l -> foldl preset b l = b.
Proof. intros H. apply preset_plain. intros a Ha i t ->. by specialize (proj1 (Forall_forall _ _) H _ Ha). Qed.

Lemma preset_map {A} b (f : A -> start_call) l : (forall x i t, f x <> InsertTopic i t) -> foldl preset b (map f l) = b.
Proof. intros H. apply preset_plain. intros a (x & <- & _)%list_elem_of_In%in_map_iff. apply H. Qed.

Lemma preset_topics b s i l :
  refines b s -> refines (foldl preset b (map (InsertTopic i) l)) (s ∪ list_to_set (map (fun t => (t, i)) l)).
Proof.
  revert b s. induction l as [|t l IH]; intros b s H; cbn [map foldl list_to_set].
  { by rewrite union_empty_r_L. }
  rewrite union_assoc_L. apply IH. intros f p. destruct (H f p) as [H1 H2]. cbn [preset b_db b_hash].
  rewrite insert_client_spec, check_topic_insert, H1, H2. set_solver.
Qed.

Lemma preset_sessions b s l :
  refines b s ->
  refines (foldl preset b (concat (map (fun n => map (InsertTopic (se_idhash n)) (se_sub_list n)) l)))
    (s ∪ list_to_set (concat (map (fun n => map (fun t => (t, se_idhash n)) (se_sub_list n)) l))).
Proof.
  revert b s. induction l as [|n l IH]; intros b s H; cbn [map concat].
  { cbn. by rewrite union_empty_r_L. }
  rewrite foldl_app, list_to_set_app_L, union_assoc_L. by apply IH, preset_topics.
Qed.

(** C30. The broker begins with the sessions of the configuration: after the start
    and any sequence of packets its trees represent exactly the subscriptions
    that the configuration and the packets ask for. *)
Theorem broker_start_refines rv c e b es :
  conf_fits c -> urls_ok CMD_IPC_URL c -> en_alloc e = true -> (forall n, rv n = 0) -> refines b ∅ ->
  let '(calls, r) := broker HOOK_IPC_URL CMD_IPC_URL INPROC_SERVER_URL rv c e in
  r = Started /\ refines (run (foldl preset b calls) es) (spec_run (preset_subs c) es).
Proof.
  intros Hf Hu Ha Hrv Hb. unfold broker. rewrite exec_defined by (done || by apply calls_defined).
  split; [done|]. apply run_refines.
  destruct (broker_calls_spec HOOK_IPC_URL CMD_IPC_URL INPROC_SERVER_URL c e Hf Hu Ha)
    as (p1 & p2 & p3 & D1 & D2 & D3 & _ & ->).
  rewrite !foldl_app, (preset_defined b p1), (preset_defined _ p3), (preset_map _ StartWork) by done.
  assert (foldl preset b (bridge_calls c (asked_ctx c)) = b) as ->.
  { unfold bridge_calls. destruct (sc_bridge_mode c); [|done]. by apply preset_map. }
  rewrite (preset_defined b p2) by done. unfold preset_subs. rewrite <- (union_empty_l_L (list_to_set _)).
  by apply preset_sessions.
Qed.

End Sessions.

(** ** Witnesses *)

Import Model.

Definition no_rules : start_rules := StartRules false false false false false [].
Definition plain_tls : ConfApi.conf_tls := ConfApi.ConfTls false None None None None None false false.
Definition plain_ws : ConfApi.conf_websocket := ConfApi.ConfWebsocket true false (Some (c!"ws://0.0.0.0:8083/mqtt")) None.

(** Three workers for the broker, two bridges, HTTP, a proxy, a preset
    session and the command server. *)
Definition full_conf : start_conf :=
  StartConf (Some (c!"tcp://0.0.0.0:1883")) true [] 3 plain_tls [] plain_ws true true [2; 1] false 0 true
    [ProxyNode [c!"t"] (c!"tcp://0.0.0.0:9000")] false [] [ConfSession 7 [c!"+"; c!"t"]] true None None no_rules.

Definition good_env : start_env := StartEnv true (fun _ => true) (fun _ => true) (fun _ => false).

Lemma full_conf_fits : conf_fits full_conf.
Proof. split; [done| |done]. repeat constructor; done. Qed.

Lemma full_conf_urls : urls_ok (c!"ipc:///tmp/nanomq_cmd.ipc") full_conf.
Proof. split; cbn; try constructor; try done; intros; by eexists. Qed.

Lemma broker_starts_witness :
  let calls := fst (broker (c!"h") (c!"ipc:///tmp/nanomq_cmd.ipc") (c!"i") (fun _ => 0) full_conf good_env) in
  length (started calls) = 11%nat /\
  exists before after, calls = before ++ map StartWork (started calls) ++ after /\ length (opens before) = 19%nat.
Proof.
  pose proof (broker_starts (c!"h") (c!"ipc:///tmp/nanomq_cmd.ipc") (c!"i") (fun _ => 0) full_conf good_env
    full_conf_fits full_conf_urls eq_refl (fun _ => eq_refl) (fun _ => eq_refl)) as H.
  cbv zeta. destruct (broker _ _ _ _ _ _) as [calls r]. destruct H as (_ & H & _ & (l1 & l2 & Hc & Ho & _) & _). cbn [fst].
  split; [by rewrite H|]. exists l1, l2. split; [done|]. by rewrite Ho, H.
Defined.

Lemma broker_start_refines_witness :
  refines (run (foldl preset empty_broker
    (fst (broker (c!"h") (c!"ipc:///tmp/nanomq_cmd.ipc") (c!"i") (fun _ => 0) full_conf good_env))) sample_events)
    (spec_run {[ (c!"+", 7); (c!"t", 7) ]} sample_events).
Proof.
  pose proof (broker_start_refines (c!"h") (c!"ipc:///tmp/nanomq_cmd.ipc") (c!"i") (fun _ => 0) full_conf good_env
    empty_broker sample_events full_conf_fits full_conf_urls eq_refl (fun _ => eq_refl) empty_broker_refines) as H.
  destruct (broker _ _ _ _ _ _) as [calls r]. destruct H as (_ & H). cbn [fst].
  replace ({[ (c!"+", 7); (c!"t", 7) ]} : gset (bytes * Z)) with (preset_subs full_conf); [done|].
  by apply (bool_decide_unpack _).
Defined.

End BrokerStart.
