(* ===== verification/LoadFile.v ===== *)
(** * Reading a file into memory (nanomq_cli)

    client.c, nng_proxy.c, nngcat.c and nnb_opt.c have the same function
    [loadfile]: it reads a file into a buffer that it doubles whenever it is
    full, with one byte more for a NUL.  The models of the options take what it
    returns as a parameter; here is the function itself, on the standard input
    and output of C: [fread] returns fewer bytes than asked for only at the end
    of the file or after an error, and both indicators stay set. *)

From S2P Require Import Prelude.

Module LoadFile.

(** A FILE: the bytes that are still to be read, ferror and feof. *)
Record stream := Stream { st_rest : bytes; st_error : bool; st_eof : bool }.

(** What the system does during a read: it works, or it stores [k] bytes and
    fails with [errno]. *)
Inductive read_event := ReadOk | ReadFails (k : nat) (errno : Z).

(** [fread(ptr, 1, n, f)]: the bytes stored, the stream, and errno. *)
Definition fread (ev : read_event) (n : nat) (f : stream) (errno : Z) : bytes * stream * Z :=
  match ev with
  | ReadOk =>
      (take n (st_rest f),
       Stream (drop n (st_rest f)) (st_error f) (st_eof f || (length (st_rest f) <? n)%nat), errno)
  | ReadFails k e =>
      let k := Nat.min k n in
      (take k (st_rest f), Stream (drop k (st_rest f)) true (st_eof f), e)
  end.

(** The system: the outcome of the [i]-th read, and whether realloc to a size
    succeeds. *)
Record system := System {
  sy_read : nat -> read_event;
  sy_malloc : bool;
  sy_realloc : Z -> bool
}.

Inductive result := Loaded (data : bytes) | Fatal | Overflow.

Definition SIZE_MAX : Z := 18446744073709551615.

Section Load.

Context (EINTR BUFSIZ : Z) (sys : system).

(** The loop: [fdata] are the first total_read bytes of the buffer.  [Overflow]
    is a write past the buffer; [None] when the fuel is used up. *)
Fixpoint load_loop (fuel i : nat) (fdata : bytes) (allocation_size : Z) (f : stream) (errno : Z) : option result :=
  match fuel with
  | O => None
  | S fuel =>
      let n := u64 (allocation_size - blen fdata) in
      let '(got, f, errno) := fread (sy_read sys i) (Z.to_nat n) f errno in
      let fdata := fdata ++ got in
      if allocation_size <? blen fdata then Some Overflow
      else if st_error f then
        if errno =? EINTR then load_loop fuel (S i) fdata allocation_size f errno else Some Fatal
      else if st_eof f then
        Some (if allocation_size + 1 <=? blen fdata then Overflow else Loaded fdata)
      else if blen fdata =? allocation_size then
        if SIZE_MAX / 2 <? allocation_size then Some Fatal
        else
          let allocation_size := u64 (allocation_size * 2) in
          if negb (sy_realloc sys (u64 (allocation_size + 1))) then Some Fatal
          else load_loop fuel (S i) fdata allocation_size f errno
      else load_loop fuel (S i) fdata allocation_size f errno
  end.

(** [files] are the files that can be opened. *)
Definition loadfile (fuel : nat) (stdin : bytes) (files : bytes -> option bytes) (path : bytes) : option result :=
  match (if strcmp0 path (lit "-") then Some stdin else files path) with
  | None => Some Fatal
  | Some content =>
      if negb (sy_malloc sys) then Some Fatal
      else load_loop fuel 0 [] BUFSIZ (Stream content false false) 0
  end.

(** ** Properties *)

Hypothesis bufsiz : 0 < BUFSIZ.

(** As many rounds as there are bytes, and one more, are enough: each round but
    the last fills the buffer. *)
Lemma load_loop_ends fuel i fdata asz rest errno :
  (forall i, sy_read sys i = ReadOk) -> (length rest < fuel)%nat -> blen fdata < asz <= SIZE_MAX ->
  load_loop fuel i fdata asz (Stream rest false false) errno = Some Fatal \/
  load_loop fuel i fdata asz (Stream rest false false) errno = Some (Loaded (fdata ++ rest)).
Proof.
  intros Hok. revert i fdata asz rest. induction fuel as [|fuel IH]; intros i fdata asz rest Hf Ha; [lia|].
  pose proof (blen_nonneg fdata). cbn [load_loop]. unfold SIZE_MAX in *. rewrite Hok, u64_small by lia.
  set (n := Z.to_nat (asz - blen fdata)). unfold fread. cbn [st_rest st_error st_eof orb].
  assert (blen (take n rest) = Z.min (asz - blen fdata) (blen rest)) as Ht.
  { unfold blen. rewrite length_take. unfold n, blen in *. lia. }
  destruct (Z.ltb_spec asz (blen (fdata ++ take n rest))) as [Hb|_]; [rewrite blen_app in Hb; lia|].
  destruct (Nat.ltb_spec (length rest) n) as [He|He].
  - right. rewrite take_ge by lia. destruct (Z.leb_spec (asz + 1) (blen (fdata ++ rest))) as [Hb|_]; [|done].
    rewrite blen_app in Hb. unfold n, blen in *. lia.
  - assert (blen (fdata ++ take n rest) = asz) as Hfull by (rewrite blen_app, Ht; unfold n, blen in *; lia).
    rewrite Hfull, Z.eqb_refl. change (18446744073709551615 / 2) with 9223372036854775807.
    destruct (Z.ltb_spec 9223372036854775807 asz); [by left|]. rewrite (u64_small (asz * 2)) by lia.
    destruct (negb _); [by left|].
    assert (length (drop n rest) < fuel)%nat as Hd by (rewrite length_drop; unfold n, blen in *; lia).
    destruct (IH (S i) (fdata ++ take n rest) (asz * 2) (drop n rest) Hd) as [E|E]; [lia|by left|right].
    rewrite E. by rewrite <- app_assoc, take_drop.
Qed.

(** With memory for it, the file is loaded. *)
Lemma load_loop_loaded fuel i fdata asz rest errno :
  (forall i, sy_read sys i = ReadOk) -> (forall n, sy_realloc sys n = true) -> (length rest < fuel)%nat ->
  blen fdata < asz <= SIZE_MAX -> blen fdata + blen rest <= SIZE_MAX / 2 ->
  load_loop fuel i fdata asz (Stream rest false false) errno <> Some Fatal.
Proof.
  intros Hok Hre. revert i fdata asz rest. induction fuel as [|fuel IH]; intros i fdata asz rest Hf Ha Hl; [lia|].
  pose proof (blen_nonneg fdata). cbn [load_loop]. unfold SIZE_MAX in *. rewrite Hok, u64_small by lia.
  set (n := Z.to_nat (asz - blen fdata)). unfold fread. cbn [st_rest st_error st_eof orb].
  destruct (asz <? _); [done|]. destruct (Nat.ltb_spec (length rest) n) as [He|He]; [by destruct (_ <=? _)|].
  assert (blen (take n rest) = asz - blen fdata) as Ht.
  { unfold blen. rewrite length_take. unfold n, blen in *. lia. }
  assert (blen (fdata ++ take n rest) = asz) as Hfull by (rewrite blen_app; lia).
  assert (blen (drop n rest) = blen rest - (asz - blen fdata)) as Hr by (unfold blen in *; rewrite length_drop; unfold n; lia).
  rewrite Hfull, Z.eqb_refl. destruct (Z.ltb_spec (18446744073709551615 / 2) asz) as [Hb|Hb].
  - unfold n, blen in *. lia.
  - change (18446744073709551615 / 2) with 9223372036854775807 in *. rewrite (u64_small (asz * 2)), Hre by lia. cbn [negb].
    apply IH; [|lia|]; [rewrite length_drop; unfold n, blen in *; lia|]. lia.
Qed.

(** What the parsers of the options assume of [loadfile]: a file that can be
    opened is returned as it is, whatever its length up to half the address
    space and however often the buffer has to grow; otherwise the program ends.
    The buffer never overflows. *)
Theorem loadfile_correct stdin files path :
  sy_malloc sys = true -> (forall i, sy_read sys i = ReadOk) -> (forall n, sy_realloc sys n = true) -> BUFSIZ <= SIZE_MAX ->
  let content := if strcmp0 path (lit "-") then Some stdin else files path in
  (forall c, content = Some c -> blen c <= SIZE_MAX / 2) ->
  loadfile (S (length (default [] content))) stdin files path
    = Some (match content with Some c => Loaded c | None => Fatal end).
Proof.
  intros Hm Hok Hre Hb content Hl. unfold loadfile. fold content. destruct content as [c|]; [|done]. rewrite Hm. cbn [negb default].
  assert (blen (@nil Z) < BUFSIZ <= SIZE_MAX) as Ha by (rewrite blen_nil; lia).
  destruct (load_loop_ends (S (length c)) 0 [] BUFSIZ c 0 Hok ltac:(lia) Ha) as [E|E]; [|exact E].
  exfalso. revert E. apply load_loop_loaded; [done..|lia|done|]. rewrite blen_nil. specialize (Hl c eq_refl). lia.
Qed.

(** Memory that runs out ends the program: with any results of malloc and
    realloc what is loaded is the file. *)
Theorem loadfile_no_memory stdin files path data :
  (forall i, sy_read sys i = ReadOk) -> BUFSIZ <= SIZE_MAX ->
  let content := if strcmp0 path (lit "-") then Some stdin else files path in
  loadfile (S (length (default [] content))) stdin files path = Some (Loaded data) -> content = Some data.
Proof.
  intros Hok Hb content. unfold loadfile. fold content. destruct content as [c|]; [|done]. destruct (negb _); [done|]. change (default [] (Some c)) with c.
  assert (blen (@nil Z) < BUFSIZ <= SIZE_MAX) as Ha by (rewrite blen_nil; lia).
  destruct (load_loop_ends (S (length c)) 0 [] BUFSIZ c 0 Hok ltac:(lia) Ha) as [E|E]; rewrite E; [done|]. by intros [= ->].
Qed.

(** The branch for interrupted reads never gets out: the error indicator stays
    set, and since a read that works does not change errno, every further round
    is taken for interrupted, even at the end of the file. *)
Theorem loadfile_interrupted fuel i fdata asz rest eof :
  (forall j, sy_read sys j = ReadOk \/ exists k, sy_read sys j = ReadFails k EINTR) -> blen fdata <= asz <= SIZE_MAX ->
  load_loop fuel i fdata asz (Stream rest true eof) EINTR = None.
Proof.
  intros H. revert i fdata rest eof. induction fuel as [|fuel IH]; intros i fdata rest eof Ha; [done|].
  pose proof (blen_nonneg fdata). cbn [load_loop]. unfold SIZE_MAX in *. rewrite u64_small by lia.
  set (n := Z.to_nat (asz - blen fdata)).
  assert (forall k, (k <= n)%nat -> blen (fdata ++ take k rest) <= asz) as Hk.
  { intros k Hk. rewrite blen_app. unfold blen at 2. rewrite length_take. unfold n, blen in *. lia. }
  destruct (H i) as [-> |[k ->]]; unfold fread; cbn [st_rest st_error st_eof].
  - destruct (Z.ltb_spec asz (blen (fdata ++ take n rest))) as [Hb|_]; [specialize (Hk n); lia|]. rewrite Z.eqb_refl.
    apply IH. specialize (Hk n). lia.
  - destruct (Z.ltb_spec asz (blen (fdata ++ take (Nat.min k n) rest))) as [Hb|_]; [specialize (Hk (Nat.min k n)); lia|].
    rewrite Z.eqb_refl. apply IH. specialize (Hk (Nat.min k n)). lia.
Qed.

End Load.

(** ** The copies *)

Definition client_loadfile := loadfile.
Definition proxy_loadfile := loadfile.
Definition cat_loadfile := loadfile.
Definition bench_loadfile := loadfile.

(** ** Concrete inputs *)

Definition calm : system := System (fun _ => ReadOk) true (fun _ => true).

Lemma loadfile_correct_witness :
  loadfile 4 2 calm 4 (lit "abc") (fun _ => None) (lit "-") = Some (Loaded (lit "abc")).
Proof.
  refine (loadfile_correct 4 2 calm eq_refl (lit "abc") (fun _ => None) (lit "-") eq_refl (fun _ => eq_refl) (fun _ => eq_refl) _ _).
  - vm_compute. discriminate.
  - intros c [= <-]. vm_compute. discriminate.
Defined.

End LoadFile.
