(* ===== verification/ToolTls.v ===== *)
(** * TLS of the command line tools (nanomq_cli)

    client.c and nng_proxy.c have the same [init_dialer_tls], the DDS proxy has
    one of its own (dds2mqtt/mqtt_client.c), and nngcat.c configures the TLS of
    dialers and listeners with [configtls].  Each makes calls on a
    configuration object until one fails.  What matters is whether the peer is
    verified: the last mode that is set, or the default of the library, which
    for a dialer is to require a valid certificate. *)

From S2P Require Import Prelude.

Module ToolTls.

Inductive auth_mode := NNG_TLS_AUTH_MODE_NONE | NNG_TLS_AUTH_MODE_REQUIRED.

#[export] Instance auth_mode_eq_dec : EqDecision auth_mode.
Proof. solve_decision. Defined.

Inductive tls_call :=
  | AuthMode (m : auth_mode)
  | OwnCert (cert key : bytes) (pass : option bytes)
  | CaChain (ca : bytes)
  | Attach.

(** [env] is the result of a call, [checked] whether the code looks at it. *)
Fixpoint tls_exec (env : tls_call -> Z) (checked : tls_call -> bool) (l : list tls_call) : Z * list tls_call :=
  match l with
  | [] => (0, [])
  | c :: l =>
      if checked c && negb (env c =? 0) then (env c, [c])
      else let '(rv, k) := tls_exec env checked l in (rv, c :: k)
  end.

Definition own_cert (cert key pass : option bytes) : list tls_call :=
  match cert, key with Some c, Some k => [OwnCert c k pass] | _, _ => [] end.

Definition ca_chain (cacert : option bytes) : list tls_call :=
  match cacert with Some ca => [CaChain ca] | None => [] end.

(** client.c; [alloc] is the result of nng_tls_config_alloc. *)
Definition init_dialer_tls (alloc : Z) (env : tls_call -> Z) (cacert cert key pass : option bytes) : Z * list tls_call :=
  if negb (alloc =? 0) then (alloc, [])
  else tls_exec env (fun _ => true) (own_cert cert key pass ++ ca_chain cacert ++ [Attach]).

(** nng_proxy.c *)
Definition proxy_init_dialer_tls := init_dialer_tls.

(** dds2mqtt/mqtt_client.c: the result of setting the mode is not looked at. *)
Definition dds_checked (c : tls_call) : bool := match c with AuthMode _ => false | _ => true end.

Definition dds_init_dialer_tls (alloc : Z) (env : tls_call -> Z) (cacert cert key pass : option bytes) : Z * list tls_call :=
  if negb (alloc =? 0) then (alloc, [])
  else
    tls_exec env dds_checked
      (match cert, key with
       | Some c, Some k => [AuthMode NNG_TLS_AUTH_MODE_REQUIRED; OwnCert c k pass]
       | _, _ => [AuthMode NNG_TLS_AUTH_MODE_NONE]
       end ++ ca_chain cacert ++ [Attach]).

(** nngcat.c: [None] ends the program.  The certificate is also the key when no
    key is given; the configuration object belongs to the dialer already. *)
Definition configtls (env : tls_call -> Z) (insecure : bool) (cacert certfile keyfile : option bytes) : option (list tls_call) :=
  match
    tls_exec env (fun _ => true)
      ((if insecure then [AuthMode NNG_TLS_AUTH_MODE_NONE] else []) ++
       match certfile with Some c => [OwnCert c (default c keyfile) None] | None => [] end ++
       ca_chain cacert)
  with
  | (rv, l) => if negb (rv =? 0) then None else Some l
  end.

(** ** Properties *)

(** The mode after the calls that were made, [d] being the default. *)
Definition mode_after (d : auth_mode) (l : list tls_call) : auth_mode :=
  foldl (fun m c => match c with AuthMode m' => m' | _ => m end) d l.

(** Calls that end without error are all made. *)
Lemma tls_exec_all env checked l k : tls_exec env checked l = (0, k) -> k = l.
Proof.
  revert k. induction l as [|c l IH]; intros k; cbn [tls_exec]; [by intros [= <-]|].
  destruct (checked c && negb (env c =? 0)) eqn:E.
  - intros [= E0 _]. rewrite E0 in E. by rewrite andb_false_r in E.
  - destruct (tls_exec env checked l) as [rv l']. intros [= -> <-]. by rewrite (IH l').
Qed.

(** A TLS configuration that is attached has the certificate and the CA of the
    options, and requires a valid certificate of the peer exactly when: always
    (client.c, nng_proxy.c); unless --insecure is given (nngcat.c); only when
    the client itself has a certificate (DDS proxy). *)
Theorem tls_verification alloc env cacert cert key pass :
  (forall l, init_dialer_tls alloc env cacert cert key pass = (0, l) ->
     mode_after NNG_TLS_AUTH_MODE_REQUIRED l = NNG_TLS_AUTH_MODE_REQUIRED /\
     l = own_cert cert key pass ++ ca_chain cacert ++ [Attach]) /\
  (forall insecure l, configtls env insecure cacert cert key = Some l ->
     mode_after NNG_TLS_AUTH_MODE_REQUIRED l = NNG_TLS_AUTH_MODE_NONE <-> insecure = true) /\
  (forall d l, dds_init_dialer_tls alloc env cacert cert key pass = (0, l) ->
     mode_after d l = NNG_TLS_AUTH_MODE_NONE <-> cert = None \/ key = None).
Proof.
  split_and!.
  - intros l. unfold init_dialer_tls. destruct (Z.eqb_spec alloc 0); cbn [negb]; [|intros [=]; congruence].
    intros ->%tls_exec_all. split; [|done]. by destruct cert, key, cacert.
  - intros insecure l. unfold configtls. destruct (tls_exec _ _ _) as [rv k] eqn:E.
    destruct (Z.eqb_spec rv 0) as [-> |]; cbn [negb]; [|done]. intros [= <-]. apply tls_exec_all in E as ->.
    by destruct insecure, cert, cacert.
  - intros d l. unfold dds_init_dialer_tls. destruct (Z.eqb_spec alloc 0); cbn [negb]; [|intros [=]; congruence].
    intros ->%tls_exec_all. destruct cert, key, cacert; cbn; naive_solver.
Qed.

(** The DDS proxy with a CA but no certificate of its own, the usual
    configuration, does not verify the broker. *)
Corollary dds_tls_unverified env ca d l :
  dds_init_dialer_tls 0 env (Some ca) None None None = (0, l) -> mode_after d l = NNG_TLS_AUTH_MODE_NONE.
Proof.
  intros ->%tls_exec_all. done.
Qed.

End ToolTls.
