(* ===== verification/BrokerCli.v ===== *)
(** * The command line of the broker (nanomq/apps/broker.c, nanomq/nanomq.c)

    [nanomq start|stop|restart|reload]: reading the options, the file with the
    process id, the defaults of the addresses and the commands themselves.  The
    parser of options, the configuration files and the file system belong to NNG
    and nanolib and are parameters; [None] is a buffer that is too small or a NULL
    pointer that is used. *)

From stdpp Require Import pretty.
From S2P Require Import Prelude OptsApi NngApi NngModel WebhookEvents ServerCb ConfApi RuleEngine RuleSql CmdProc BrokerStart.

Module BrokerCli.

Import WebhookEvents BrokerStart.

(** ** Options *)

Definition OPT_HELP : Z := 1.
Definition OPT_HOCONFILE : Z := 2.
Definition OPT_CONFFILE : Z := 3.
Definition OPT_PARALLEL : Z := 4.
Definition OPT_DAEMON : Z := 5.
Definition OPT_THREADS : Z := 6.
Definition OPT_MAX_THREADS : Z := 7.
Definition OPT_PROPERTY_SIZE : Z := 8.
Definition OPT_MSQ_LEN : Z := 9.
Definition OPT_QOS_DURATION : Z := 10.
Definition OPT_URL : Z := 11.
Definition OPT_HTTP_ENABLE : Z := 12.
Definition OPT_HTTP_PORT : Z := 13.
Definition OPT_TLS_CA : Z := 14.
Definition OPT_TLS_CERT : Z := 15.
Definition OPT_TLS_KEY : Z := 16.
Definition OPT_TLS_KEYPASS : Z := 17.
Definition OPT_TLS_VERIFY_PEER : Z := 18.
Definition OPT_TLS_FAIL_IF_NO_PEER_CERT : Z := 19.
Definition OPT_LOG_LEVEL : Z := 20.
Definition OPT_LOG_STDOUT : Z := 21.
Definition OPT_LOG_FILE : Z := 22.
Definition OPT_LOG_SYSLOG : Z := 23.

Definition cmd_opts : list optspec :=
  [OptSpec (lit "help") 104 OPT_HELP false; OptSpec (lit "conf") 0 OPT_HOCONFILE true;
   OptSpec (lit "old_conf") 0 OPT_CONFFILE true; OptSpec (lit "daemon") 100 OPT_DAEMON false;
   OptSpec (lit "tq_thread") 116 OPT_THREADS true; OptSpec (lit "max_tq_thread") 84 OPT_MAX_THREADS true;
   OptSpec (lit "parallel") 110 OPT_PARALLEL true; OptSpec (lit "property_size") 115 OPT_PROPERTY_SIZE true;
   OptSpec (lit "msq_len") 83 OPT_MSQ_LEN true; OptSpec (lit "qos_duration") 68 OPT_QOS_DURATION true;
   OptSpec (lit "url") 0 OPT_URL true; OptSpec (lit "http") 0 OPT_HTTP_ENABLE false;
   OptSpec (lit "port") 112 OPT_HTTP_PORT true; OptSpec (lit "cacert") 0 OPT_TLS_CA true;
   OptSpec (lit "cert") 69 OPT_TLS_CERT true; OptSpec (lit "key") 0 OPT_TLS_KEY true;
   OptSpec (lit "keypass") 0 OPT_TLS_KEYPASS true; OptSpec (lit "verify") 0 OPT_TLS_VERIFY_PEER false;
   OptSpec (lit "fail") 0 OPT_TLS_FAIL_IF_NO_PEER_CERT false; OptSpec (lit "log_level") 0 OPT_LOG_LEVEL true;
   OptSpec (lit "log_stdout") 0 OPT_LOG_STDOUT true; OptSpec (lit "log_syslog") 0 OPT_LOG_SYSLOG true;
   OptSpec (lit "log_file") 0 OPT_LOG_FILE true].

(** Files: reading one gives its content, which is NULL for an empty file;
    writing and removing return an error code. *)
Class Files := {
  fs : Type;
  nng_file_get : fs -> bytes -> option (option bytes);
  nng_file_put : fs -> bytes -> bytes -> Z * fs;
  nng_file_delete : fs -> bytes -> Z * fs
}.

Class FilesLaws `{Files} : Prop := {
  file_put_get f p d : fst (nng_file_put f p d) = 0 -> d <> [] -> nng_file_get (snd (nng_file_put f p d)) p = Some (Some d);
  file_delete_get f p : fst (nng_file_delete f p) = 0 -> nng_file_get (snd (nng_file_delete f p)) p = None
}.

(** ** Numbers *)

(** sscanf(s, "%u", &pid): an unsigned long, stored in an int *)
Definition scan_pid (s : bytes) : option Z :=
  match read_number s with
  | None => None
  | Some (neg, n) => Some (i32 (if 2 ^ 64 <=? n then 2 ^ 64 - 1 else if neg then - n else n))
  end.

(** ** The configuration *)

Record conf_log := ConfLog { lg_level : Z; lg_type : Z; lg_file : option bytes; lg_dir : option bytes }.

Record cli_conf := CliConf {
  cc_start : start_conf;
  cc_num_taskq_thread : Z;
  cc_max_taskq_thread : Z;
  cc_property_size : Z;
  cc_msq_len : Z;
  cc_qos_duration : Z;
  cc_daemon : bool;
  cc_http_port : Z;
  cc_log : conf_log;
  cc_conf_file : option bytes;
  cc_exec_path : bytes
}.

Definition with_start (f : start_conf -> start_conf) (c : cli_conf) : cli_conf :=
  CliConf (f (cc_start c)) (cc_num_taskq_thread c) (cc_max_taskq_thread c) (cc_property_size c) (cc_msq_len c)
    (cc_qos_duration c) (cc_daemon c) (cc_http_port c) (cc_log c) (cc_conf_file c) (cc_exec_path c).

(** The fields of [start_conf] that options set. *)
Definition with_listen (url : option bytes) (enable : bool) (parallel : Z) (tls : ConfApi.conf_tls)
    (ws : ConfApi.conf_websocket) (http : bool) (c : start_conf) : start_conf :=
  StartConf url enable (sc_tcp_list c) parallel tls (sc_tls_list c) ws http (sc_bridge_mode c) (sc_bridges c)
    (sc_web_hook c) (sc_exchange_count c) (sc_sub_enable c) (sc_snodes c) (sc_pub_enable c) (sc_pnodes c)
    (sc_pre_sessions c) (sc_ipc_internal c) (sc_hook_ipc_url c) (sc_cmd_ipc_url c) (sc_rules c).

Definition set_url (url : option bytes) (c : start_conf) : start_conf :=
  with_listen url (sc_enable c) (sc_parallel c) (sc_tls c) (sc_websocket c) (sc_http_enable c) c.
Definition set_enable (b : bool) (c : start_conf) : start_conf :=
  with_listen (sc_url c) b (sc_parallel c) (sc_tls c) (sc_websocket c) (sc_http_enable c) c.
Definition set_parallel (n : Z) (c : start_conf) : start_conf :=
  with_listen (sc_url c) (sc_enable c) n (sc_tls c) (sc_websocket c) (sc_http_enable c) c.
Definition set_tls (f : ConfApi.conf_tls -> ConfApi.conf_tls) (c : start_conf) : start_conf :=
  with_listen (sc_url c) (sc_enable c) (sc_parallel c) (f (sc_tls c)) (sc_websocket c) (sc_http_enable c) c.
Definition set_ws (f : ConfApi.conf_websocket -> ConfApi.conf_websocket) (c : start_conf) : start_conf :=
  with_listen (sc_url c) (sc_enable c) (sc_parallel c) (sc_tls c) (f (sc_websocket c)) (sc_http_enable c) c.
Definition set_http (b : bool) (c : start_conf) : start_conf :=
  with_listen (sc_url c) (sc_enable c) (sc_parallel c) (sc_tls c) (sc_websocket c) b c.

Definition tls_enable (t : ConfApi.conf_tls) : ConfApi.conf_tls :=
  ConfApi.ConfTls true (ConfApi.ct_url t) (ConfApi.ct_key_password t) (ConfApi.ct_key t) (ConfApi.ct_cert t)
    (ConfApi.ct_ca t) (ConfApi.ct_verify_peer t) (ConfApi.ct_set_fail t).
Definition tls_url (u : option bytes) (t : ConfApi.conf_tls) : ConfApi.conf_tls :=
  ConfApi.ConfTls (ConfApi.ct_enable t) u (ConfApi.ct_key_password t) (ConfApi.ct_key t) (ConfApi.ct_cert t)
    (ConfApi.ct_ca t) (ConfApi.ct_verify_peer t) (ConfApi.ct_set_fail t).
Definition ws_url (u : option bytes) (w : ConfApi.conf_websocket) : ConfApi.conf_websocket :=
  ConfApi.ConfWebsocket true (ConfApi.cw_tls_enable w) u (ConfApi.cw_tls_url w).
Definition wss_url (u : option bytes) (w : ConfApi.conf_websocket) : ConfApi.conf_websocket :=
  ConfApi.ConfWebsocket (ConfApi.cw_enable w) true (ConfApi.cw_url w) u.

(** ** Reading the options *)

Section Cli.

Context `{OP : OptsParse} `{MC : MqttConst}.
(** nanolib: prefixes and defaults of addresses, files, logging. *)
Context (BROKER_NMQ_TCP_URL_PREFIX BROKER_TCP_URL_PREFIX BROKER_NMQ_TCP_TLS_URL_PREFIX BROKER_NMQ_WS_URL_PREFIX
  BROKER_WS_URL_PREFIX BROKER_NMQ_WSS_URL_PREFIX BROKER_WSS_URL_PREFIX : bytes).
Context (CONF_TCP_URL_DEFAULT CONF_TLS_URL_DEFAULT CONF_WS_URL_DEFAULT CONF_WSS_URL_DEFAULT : bytes).
Context (PID_PATH_NAME CONF_PATH_NAME CONF_NAME CMD_IPC_URL HOOK_IPC_URL INPROC_SERVER_URL : bytes).
Context (LOG_TO_FILE LOG_TO_CONSOLE : Z) (log_level_num : bytes -> Z).
Context (nng_strcasecmp : bytes -> bytes -> Z).
(** file_load_data: the content of a file, if it could be read. *)
Context (file_load_data : bytes -> option bytes).

Definition has_prefix (prefix url : bytes) : bool := strncmp0 prefix url (blen prefix).

Definition is_tcp (url : bytes) : bool := has_prefix BROKER_NMQ_TCP_URL_PREFIX url || has_prefix BROKER_TCP_URL_PREFIX url.
Definition is_tls (url : bytes) : bool := has_prefix BROKER_NMQ_TCP_TLS_URL_PREFIX url.
Definition is_ws (url : bytes) : bool := has_prefix BROKER_NMQ_WS_URL_PREFIX url || has_prefix BROKER_WS_URL_PREFIX url.
Definition is_wss (url : bytes) : bool := has_prefix BROKER_NMQ_WSS_URL_PREFIX url || has_prefix BROKER_WSS_URL_PREFIX url.

Definition predicate_url (c : start_conf) (url : bytes) : start_conf :=
  let c := if is_tcp url then set_enable true (set_url (Some url) c) else c in
  if is_tls url then set_tls (fun t => tls_url (Some url) (tls_enable t)) c
  else if is_ws url then
    if is_wss url then set_ws (wss_url (Some url)) (set_tls tls_enable c) else set_ws (ws_url (Some url)) c
  else c.

(** The end of the loop over the options.  [Exit0] is the exit of --help. *)
Inductive parse_end (A : Type) := ParseEnd (a : A) (rv : Z) | Exit0 | NoEnd.
Arguments ParseEnd {A}. Arguments Exit0 {A}. Arguments NoEnd {A}.

(** [file_path_parse]: its return value and the file of the last option read;
    [NULL] as an argument of an option that needs one is not given. *)
Fixpoint file_path_loop (fuel : nat) (argv : list bytes) (idx : nat) (file : option bytes) : parse_end (option bytes) :=
  match fuel with
  | O => NoEnd
  | S fuel =>
      let p := nng_opts_parse cmd_opts argv idx in
      if pa_rv p =? 0 then
        if pa_val p =? OPT_HELP then Exit0
        else if (pa_val p =? OPT_HOCONFILE) || (pa_val p =? OPT_CONFFILE) then ParseEnd (pa_arg p) (pa_val p)
        else file_path_loop fuel argv (pa_idx p) file
      else ParseEnd file (if pa_rv p =? -1 then 1 else 0)
  end.

(** Every round moves on by an argument. *)
Definition file_path_parse (argv : list bytes) (file : option bytes) : parse_end (option bytes) :=
  file_path_loop (S (length argv)) argv 2 file.

(** The settings that are numbers. *)
Inductive number := Threads | MaxThreads | PropertySize | MsqLen | QosDuration | HttpPort.

Definition set_number (k : number) (v : Z) (c : cli_conf) : cli_conf :=
  CliConf (cc_start c)
    (match k with Threads => v | _ => cc_num_taskq_thread c end)
    (match k with MaxThreads => v | _ => cc_max_taskq_thread c end)
    (match k with PropertySize => v | _ => cc_property_size c end)
    (match k with MsqLen => v | _ => cc_msq_len c end)
    (match k with QosDuration => v | _ => cc_qos_duration c end) (cc_daemon c)
    (match k with HttpPort => v | _ => cc_http_port c end) (cc_log c) (cc_conf_file c) (cc_exec_path c).

Definition set_daemon (c : cli_conf) : cli_conf :=
  CliConf (cc_start c) (cc_num_taskq_thread c) (cc_max_taskq_thread c) (cc_property_size c) (cc_msq_len c)
    (cc_qos_duration c) true (cc_http_port c) (cc_log c) (cc_conf_file c) (cc_exec_path c).

Definition set_log (f : conf_log -> conf_log) (c : cli_conf) : cli_conf :=
  CliConf (cc_start c) (cc_num_taskq_thread c) (cc_max_taskq_thread c) (cc_property_size c) (cc_msq_len c)
    (cc_qos_duration c) (cc_daemon c) (cc_http_port c) (f (cc_log c)) (cc_conf_file c) (cc_exec_path c).

Inductive tls_file := TlsCa | TlsCert | TlsKey | TlsKeypass.

Definition set_file (k : tls_file) (v : option bytes) (t : ConfApi.conf_tls) : ConfApi.conf_tls :=
  ConfApi.ConfTls (ConfApi.ct_enable t) (ConfApi.ct_url t)
    (match k with TlsKeypass => v | _ => ConfApi.ct_key_password t end)
    (match k with TlsKey => v | _ => ConfApi.ct_key t end)
    (match k with TlsCert => v | _ => ConfApi.ct_cert t end)
    (match k with TlsCa => v | _ => ConfApi.ct_ca t end) (ConfApi.ct_verify_peer t) (ConfApi.ct_set_fail t).

Definition tls_verify (t : ConfApi.conf_tls) : ConfApi.conf_tls :=
  ConfApi.ConfTls (ConfApi.ct_enable t) (ConfApi.ct_url t) (ConfApi.ct_key_password t) (ConfApi.ct_key t)
    (ConfApi.ct_cert t) (ConfApi.ct_ca t) true (ConfApi.ct_set_fail t).
Definition tls_fail (t : ConfApi.conf_tls) : ConfApi.conf_tls :=
  ConfApi.ConfTls (ConfApi.ct_enable t) (ConfApi.ct_url t) (ConfApi.ct_key_password t) (ConfApi.ct_key t)
    (ConfApi.ct_cert t) (ConfApi.ct_ca t) (ConfApi.ct_verify_peer t) true.

(** OPT_LOG_FILE: [file_name] begins with the slash. *)
Definition log_file (arg : bytes) (l : conf_log) : conf_log :=
  let type := Z.lor (lg_type l) LOG_TO_FILE in
  match strrchr_idx arg 47 with
  | Some i => ConfLog (lg_level l) type (Some (drop i arg)) (Some (take i arg))
  | None => ConfLog (lg_level l) type (Some arg) None
  end.

Definition log_stdout (arg : bytes) (l : conf_log) : conf_log :=
  if nng_strcasecmp (lit "true") arg =? 0
  then ConfLog (lg_level l) (Z.lor (lg_type l) LOG_TO_CONSOLE) (lg_file l) (lg_dir l)
  else if nng_strcasecmp (lit "false") arg =? 0
  then ConfLog (lg_level l) (Z.land (lg_type l) (Z.lnot LOG_TO_CONSOLE)) (lg_file l) (lg_dir l)
  else l.

(** What an option sets; [arg] is used where the option has one.  Compiled with
    ENABLE_LOG and without SUPP_SYSLOG. *)
Definition apply_opt (val : Z) (arg : option bytes) (c : cli_conf) : option cli_conf :=
  let num k := a ← arg; Some (set_number k (atoi a) c) in
  let tls f := Some (with_start (set_tls f) c) in
  if val =? OPT_PARALLEL then a ← arg; Some (with_start (set_parallel (atoi a)) c)
  else if val =? OPT_DAEMON then Some (set_daemon c)
  else if val =? OPT_THREADS then num Threads
  else if val =? OPT_MAX_THREADS then num MaxThreads
  else if val =? OPT_PROPERTY_SIZE then num PropertySize
  else if val =? OPT_MSQ_LEN then num MsqLen
  else if val =? OPT_QOS_DURATION then num QosDuration
  else if val =? OPT_URL then a ← arg; Some (with_start (fun s => predicate_url s a) c)
  else if val =? OPT_TLS_CA then a ← arg; tls (set_file TlsCa (file_load_data a))
  else if val =? OPT_TLS_CERT then a ← arg; tls (set_file TlsCert (file_load_data a))
  else if val =? OPT_TLS_KEY then a ← arg; tls (set_file TlsKey (file_load_data a))
  else if val =? OPT_TLS_KEYPASS then a ← arg; tls (set_file TlsKeypass (Some a))
  else if val =? OPT_TLS_VERIFY_PEER then tls tls_verify
  else if val =? OPT_TLS_FAIL_IF_NO_PEER_CERT then tls tls_fail
  else if val =? OPT_HTTP_ENABLE then Some (with_start (set_http true) c)
  else if val =? OPT_HTTP_PORT then num HttpPort
  else if val =? OPT_LOG_LEVEL then
    a ← arg; Some (set_log (fun l => ConfLog (log_level_num a) (lg_type l) (lg_file l) (lg_dir l)) c)
  else if val =? OPT_LOG_FILE then a ← arg; Some (set_log (log_file a) c)
  else if val =? OPT_LOG_STDOUT then a ← arg; Some (set_log (log_stdout a) c)
  else Some c.

(** The loop of [broker_parse_opts]; --log_syslog ends the process ([Exit1]).
    [None] is a missing argument. *)
Inductive opts_end := OptsEnd (c : cli_conf) (rv : Z) | Exit1 | OptsNoEnd | OptsNull.

Fixpoint opts_loop (fuel : nat) (argv : list bytes) (idx : nat) (c : cli_conf) : opts_end :=
  match fuel with
  | O => OptsNoEnd
  | S fuel =>
      let p := nng_opts_parse cmd_opts argv idx in
      if pa_rv p =? 0 then
        if pa_val p =? OPT_LOG_SYSLOG then Exit1
        else
          match apply_opt (pa_val p) (pa_arg p) c with
          | None => OptsNull
          | Some c => opts_loop fuel argv (pa_idx p) c
          end
      else OptsEnd c (if pa_rv p =? -1 then 1 else 0)
  end.

Definition broker_parse_opts (argv : list bytes) (c : cli_conf) : opts_end := opts_loop (S (length argv)) argv 2 c.

(** ** The file with the process id *)

Definition pid_path (env : option bytes) : bytes := default PID_PATH_NAME env.

(** The result, the process id and the file system; [alive pid] is
    [kill(pid, 0) == 0], [env] the path from the environment. *)
Definition status_check `{FS : Files} (alive : Z -> bool) (env : option bytes) (f : fs) (pid : Z) : Z * Z * fs :=
  let remove pid :=
    let '(rv, f') := nng_file_delete f (pid_path env) in
    if rv =? 0 then (1, pid, f') else (-1, pid, f') in
  match nng_file_get f (pid_path env) with
  | None => (1, pid, f)
  | Some None => remove pid
  | Some (Some data) =>
      match scan_pid (c_str data) with
      | None => (1, pid, f)
      | Some pid => if alive pid then (0, pid, f) else remove pid
      end
  end.

(** [pid_c] has 12 bytes, of which snprintf fills at most ten. *)
Definition pid_bytes (pid : Z) : bytes :=
  let s := take 9 (RuleSql.dec pid) in s ++ replicate (12 - length s) 0.

Definition store_pid `{FS : Files} (pid : Z) (env : option bytes) (f : fs) : Z * fs :=
  nng_file_put f (pid_path env) (pid_bytes pid).

(** ** Starting *)

Definition set_file_name (file : option bytes) (c : cli_conf) : cli_conf :=
  CliConf (cc_start c) (cc_num_taskq_thread c) (cc_max_taskq_thread c) (cc_property_size c) (cc_msq_len c)
    (cc_qos_duration c) (cc_daemon c) (cc_http_port c) (cc_log c) file (cc_exec_path c).

(** The configuration beside the program, in an array of 512 bytes. *)
Definition default_conf (c : cli_conf) : option cli_conf :=
  match cc_conf_file c with
  | None =>
      if 7 <? blen (cc_exec_path c) then
        let path := take (length (cc_exec_path c) - 7) (cc_exec_path c) ++ CONF_NAME in
        if blen path <? 512 then Some (set_file_name (Some path) c) else None
      else Some c
  | Some _ => Some c
  end.

Definition set_default (d : bytes) (u : option bytes) : option bytes := Some (default d u).

Definition default_wss (w : ConfApi.conf_websocket) : ConfApi.conf_websocket :=
  ConfApi.ConfWebsocket (ConfApi.cw_enable w) (ConfApi.cw_tls_enable w) (ConfApi.cw_url w)
    (set_default CONF_WSS_URL_DEFAULT (ConfApi.cw_tls_url w)).

Definition default_ws (w : ConfApi.conf_websocket) : ConfApi.conf_websocket :=
  ConfApi.ConfWebsocket (ConfApi.cw_enable w) (ConfApi.cw_tls_enable w)
    (set_default CONF_WS_URL_DEFAULT (ConfApi.cw_url w)) (ConfApi.cw_tls_url w).

(** The defaults for TCP, for TLS and for WebSocket. *)
Definition default_tcp (c : start_conf) : start_conf :=
  if sc_enable c then
    match sc_tcp_list c with [] => set_url (set_default CONF_TCP_URL_DEFAULT (sc_url c)) c | _ => c end
  else c.

Definition default_tls (c : start_conf) : start_conf :=
  if ConfApi.ct_enable (sc_tls c) then
    match sc_tls_list c with
    | [] => set_tls (fun t => tls_url (set_default CONF_TLS_URL_DEFAULT (ConfApi.ct_url t)) t) c
    | _ => c
    end
  else c.

(** As in [broker_start]. *)
Definition url_defaults (c : start_conf) : start_conf :=
  let c := default_tls (default_tcp c) in
  let c := if ConfApi.cw_enable (sc_websocket c) then set_ws default_ws c else c in
  if ConfApi.ct_enable (sc_tls c) && ConfApi.cw_tls_enable (sc_websocket c) then set_ws default_wss c else c.

(** As in [broker_start_with_conf]. *)
Definition url_defaults_with_conf (c : start_conf) : start_conf :=
  let c := default_tls (default_tcp c) in
  if ConfApi.cw_enable (sc_websocket c) then
    let c := set_ws default_ws c in
    if ConfApi.ct_enable (sc_tls c) then set_ws default_wss c else c
  else c.

Inductive cli_end :=
  | Exited (code : Z)
  | LogFatal
  | Ran (c : cli_conf) (r : list start_call * start_end)
  | Overflow
  | NullArg
  | Hangs.

Definition EXIT_SUCCESS : Z := 0.
Definition EXIT_FAILURE : Z := 1.

(** nanolib: the settings of a new configuration, of the environment and of the
    two formats of the file. *)
Context (conf_init : cli_conf) (read_env_conf conf_parse conf_parse_ver2 : cli_conf -> cli_conf).
(** The results of the calls of the start, of log_init, and its surroundings. *)
Context (rv : nat -> Z) (log_init : Z) (e : start_env).

Definition set_exec_path (path : bytes) (c : cli_conf) : cli_conf :=
  CliConf (cc_start c) (cc_num_taskq_thread c) (cc_max_taskq_thread c) (cc_property_size c) (cc_msq_len c)
    (cc_qos_duration c) (cc_daemon c) (cc_http_port c) (cc_log c) (cc_conf_file c) path.

(** From the configuration on: the log, the file of the process id, the
    broker.  A failure to become a daemon or to store the id is only logged. *)
Definition start_conf_run `{FS : Files} (pid : Z) (env : option bytes) (c : cli_conf) (f : fs) : cli_end * fs :=
  if negb (log_init =? 0) then (LogFatal, f)
  else
    let '(_, f) := store_pid pid env f in
    (Ran c (broker HOOK_IPC_URL CMD_IPC_URL INPROC_SERVER_URL rv (cc_start c) e), f).

Definition broker_start `{FS : Files} (argv : list bytes) (exec_path : bytes) (pid : Z) (env : option bytes) (f : fs)
  : cli_end * fs :=
  let c := read_env_conf (set_exec_path exec_path conf_init) in
  match file_path_parse argv (cc_conf_file c) with
  | Exit0 => (Exited 0, f)
  | NoEnd => (Hangs, f)
  | ParseEnd file rc =>
      match default_conf (set_file_name file c) with
      | None => (Overflow, f)
      | Some c =>
          if rc =? 0 then (Exited EXIT_FAILURE, f)
          else
            let c := if rc =? OPT_CONFFILE then conf_parse c else conf_parse_ver2 c in
            match broker_parse_opts argv c with
            | Exit1 => (Exited EXIT_FAILURE, f)
            | OptsNoEnd => (Hangs, f)
            | OptsNull => (NullArg, f)
            | OptsEnd c rc =>
                if rc =? 0 then (Exited EXIT_FAILURE, f)
                else start_conf_run pid env (with_start url_defaults c) f
            end
      end
  end.

Definition broker_start_with_conf `{FS : Files} (alive : Z -> bool) (conf : option cli_conf) (pid : Z)
    (env : option bytes) (f : fs) : cli_end * fs :=
  let '(rc, _, f) := status_check alive env f 0 in
  if rc =? 0 then (Exited EXIT_FAILURE, f)
  else
    let c := match conf with Some c => c | None => read_env_conf conf_init end in
    start_conf_run pid env (with_start url_defaults_with_conf c) f.

(** ** Stopping, restarting, reloading *)

Definition SIGTERM : Z := 15.
Definition SIGKILL : Z := 9.

(** The exit code and the signals sent. *)
Definition broker_stop `{FS : Files} (argv : list bytes) (alive : Z -> bool) (env : option bytes) (f : fs)
  : Z * list (Z * Z) * fs :=
  if 2 <? blen argv then (EXIT_FAILURE, [], f)
  else
    let '(rc, pid, f) := status_check alive env f 0 in
    if rc =? 0 then (EXIT_SUCCESS, [(pid, SIGTERM)], f) else (EXIT_FAILURE, [], f).

(** [while (!status_check(&pid)) kill(pid, SIGKILL)]; [alive k] is what the
    [k]-th check finds. *)
Fixpoint kill_loop `{FS : Files} (fuel k : nat) (alive : nat -> Z -> bool) (env : option bytes) (f : fs) (pid : Z)
  : option (list (Z * Z) * fs) :=
  match fuel with
  | O => None
  | S fuel =>
      let '(rc, pid, f) := status_check (alive k) env f pid in
      if rc =? 0 then
        match kill_loop fuel (S k) alive env f pid with
        | None => None
        | Some (l, f) => Some ((pid, SIGKILL) :: l, f)
        end
      else Some ([], f)
  end.

(** The signals before [broker_start]. *)
Definition broker_restart `{FS : Files} (fuel : nat) (alive : nat -> Z -> bool) (env : option bytes) (f : fs)
  : option (list (Z * Z) * fs) :=
  let '(rc, pid, f) := status_check (alive 0%nat) env f 0 in
  if rc =? 0 then
    match kill_loop fuel 1 alive env f pid with None => None | Some (l, f) => Some ((pid, SIGTERM) :: l, f) end
  else Some ([], f).

(** The message and the address of the command, or the exit code. *)
Definition broker_reload `{FS : Files} `{JB : CJsonBuild} (argv : list bytes) (alive : Z -> bool) (env : option bytes)
    (f : fs) : Z + option (bytes * option bytes) :=
  let '(rc, _, _) := status_check alive env f 0 in
  if negb (rc =? 0) then inl EXIT_FAILURE
  else
    match file_path_parse argv (cc_conf_file conf_init) with
    | Exit0 => inl 0
    | NoEnd => inr None
    | ParseEnd file rc =>
        if rc =? 0 then inl EXIT_FAILURE
        else
          let file := match file with Some _ => file | None => Some CONF_PATH_NAME end in
          let c := conf_parse_ver2 (set_file_name file conf_init) in
          inr (Some (CmdProc.encode_client_cmd (cc_conf_file c) rc, cmd_url CMD_IPC_URL (cc_start c)))
    end.

(** ** main *)

Inductive command := StartCmd | StopCmd | RestartCmd | ReloadCmd | UsageCmd | HelpFailure.

Definition main (argv : list bytes) : command :=
  match argv with
  | _ :: cmd :: _ =>
      if strcmp0 cmd (lit "start") then StartCmd
      else if strcmp0 cmd (lit "stop") then StopCmd
      else if strcmp0 cmd (lit "restart") then RestartCmd
      else if strcmp0 cmd (lit "reload") then ReloadCmd
      else if strcmp0 cmd (lit "--help") then UsageCmd
      else HelpFailure
  | _ => HelpFailure
  end.

(** ** The loops end *)

Context `{OL : !OptsParseLaws}.

(** [k] rounds are enough when [k] arguments are left. *)
Lemma file_path_loop_ends k argv idx file :
  (length argv <= k + idx)%nat -> file_path_loop (S k) argv idx file <> NoEnd.
Proof.
  revert idx. induction k as [|k IH]; intros idx H; cbn [file_path_loop].
  - rewrite (opts_stop cmd_opts argv idx) by lia. done.
  - destruct (Z.eqb_spec (pa_rv (nng_opts_parse cmd_opts argv idx)) 0) as [E|_]; [|done].
    apply opts_next in E. case_match; [done|]. case_match; [done|]. apply IH. lia.
Qed.

Lemma apply_opt_arg o arg c : o ∈ cmd_opts -> (o_arg o = true -> is_Some arg) -> is_Some (apply_opt (o_val o) arg c).
Proof.
  intros Ho Harg. unfold cmd_opts in Ho.
  repeat (apply elem_of_cons in Ho as [->|Ho]; [cbn in *; first [by eexists | destruct Harg as [a ->]; [done|by eexists]]|]).
  by apply elem_of_nil in Ho.
Qed.

Lemma opts_loop_ends k argv idx c :
  (length argv <= k + idx)%nat ->
  opts_loop (S k) argv idx c <> OptsNoEnd /\ opts_loop (S k) argv idx c <> OptsNull.
Proof.
  revert idx c. induction k as [|k IH]; intros idx c H; cbn [opts_loop].
  - rewrite (opts_stop cmd_opts argv idx) by lia. done.
  - destruct (Z.eqb_spec (pa_rv (nng_opts_parse cmd_opts argv idx)) 0) as [E|_]; [|done].
    pose proof (opts_next _ _ _ E). destruct (opts_arg _ _ _ E) as (o & Ho & Hv & Ha).
    case_match; [done|]. rewrite <- Hv. destruct (apply_opt_arg o _ c Ho Ha) as [c' ->]. apply IH. lia.
Qed.

(** Reading the options ends, whatever the arguments, and every option that
    needs an argument has one. *)
Theorem options_read argv c file :
  file_path_parse argv file <> NoEnd /\ broker_parse_opts argv c <> OptsNoEnd /\ broker_parse_opts argv c <> OptsNull.
Proof.
  split; [apply file_path_loop_ends; lia|]. apply opts_loop_ends. lia.
Qed.

(** ** The addresses *)

(** What the lists of the configuration must provide. *)
Record lists_ok (c : start_conf) : Prop := ListsOk {
  lo_tcp : Forall is_Some (sc_tcp_list c);
  lo_tls : Forall is_Some (sc_tls_list c);
  lo_cmd : sc_ipc_internal c = true -> is_Some (cmd_url CMD_IPC_URL c ≫= after_ipc)
}.

(** The defaults change nothing but addresses. *)
Lemma url_defaults_fields c :
  sc_tcp_list (url_defaults c) = sc_tcp_list c /\ sc_tls_list (url_defaults c) = sc_tls_list c /\
  sc_ipc_internal (url_defaults c) = sc_ipc_internal c /\
  cmd_url CMD_IPC_URL (url_defaults c) = cmd_url CMD_IPC_URL c.
Proof.
  assert (forall c c' : start_conf, sc_tcp_list c' = sc_tcp_list c /\ sc_tls_list c' = sc_tls_list c /\
    sc_ipc_internal c' = sc_ipc_internal c /\ cmd_url CMD_IPC_URL c' = cmd_url CMD_IPC_URL c ->
    forall f, sc_tcp_list (set_ws f c') = sc_tcp_list c /\ sc_tls_list (set_ws f c') = sc_tls_list c /\
    sc_ipc_internal (set_ws f c') = sc_ipc_internal c /\ cmd_url CMD_IPC_URL (set_ws f c') = cmd_url CMD_IPC_URL c) as W
    by done.
  assert (sc_tcp_list (default_tls (default_tcp c)) = sc_tcp_list c /\
    sc_tls_list (default_tls (default_tcp c)) = sc_tls_list c /\
    sc_ipc_internal (default_tls (default_tcp c)) = sc_ipc_internal c /\
    cmd_url CMD_IPC_URL (default_tls (default_tcp c)) = cmd_url CMD_IPC_URL c) as H.
  { unfold default_tls, default_tcp. repeat case_match; done. }
  unfold url_defaults. case_match; case_match; auto.
Qed.

Lemma url_defaults_lists c : lists_ok (url_defaults c) <-> lists_ok c.
Proof.
  destruct (url_defaults_fields c) as (E1 & E2 & E3 & E4).
  split; intros [H1 H2 H3]; split; rewrite ?E1, ?E2, ?E3, ?E4 in *; done.
Qed.

Lemma url_defaults_ok c : lists_ok c -> urls_ok CMD_IPC_URL (url_defaults c).
Proof.
  intros Hl. pose proof Hl as [H1 H2 H3]%url_defaults_lists. split; [done|done| | |done].
  - unfold url_defaults. set (c1 := default_tls (default_tcp c)).
    destruct (ConfApi.cw_enable (sc_websocket c1)) eqn:E; [|destruct (_ && _); intros Hw; [change (ConfApi.cw_enable (sc_websocket c1) = true) in Hw|]; congruence].
    case_match; intros _; by eexists.
  - unfold url_defaults. set (c1 := default_tls (default_tcp c)).
    set (c2 := if ConfApi.cw_enable (sc_websocket c1) then set_ws default_ws c1 else c1).
    destruct (ConfApi.ct_enable (sc_tls c2) && ConfApi.cw_tls_enable (sc_websocket c2)) eqn:E.
    + intros _ _. by eexists.
    + intros Ht Hw. by rewrite Ht, Hw in E.
Qed.

(** Whatever the environment, the configuration file and the options say: when
    the start is reached, the numbers of contexts fit and no call fails, all
    workers and listeners are started. *)
Theorem broker_start_runs `{FS : Files} argv exec_path pid env f c r f' :
  broker_start argv exec_path pid env f = (Ran c r, f') ->
  conf_fits (cc_start c) -> lists_ok (cc_start c) -> en_alloc e = true -> (forall n, rv n = 0) ->
  snd r = Started /\ started (fst r) = workers (cc_start c).
Proof.
  intros H Hf Hl Ha Hrv. unfold broker_start in H.
  destruct (file_path_parse _ _) as [file rc| |]; [|done..]. destruct (default_conf _) as [c1|]; [|done].
  destruct (rc =? 0); [done|]. destruct (broker_parse_opts _ _) as [c2 rc2| | |]; [|done..].
  destruct (rc2 =? 0); [done|]. unfold start_conf_run in H. destruct (negb _); [done|].
  destruct (store_pid pid env f) as [? ?]. injection H as <- <- <-. cbn [cc_start with_start] in *.
  apply (proj1 (url_defaults_lists _)), url_defaults_ok in Hl.
  unfold broker. rewrite exec_defined by (done || by apply calls_defined). split; [done|]. by apply started_workers.
Qed.

(** An address given by an option is listened on. *)
Definition listened (c : start_conf) (url : bytes) : Prop :=
  NanoListen false url ∈ listeners INPROC_SERVER_URL c \/ CreateListener url ∈ listeners INPROC_SERVER_URL c.

(** Addresses that are set stay. *)
Lemma url_defaults_keep c u :
  (sc_enable c = true -> sc_url c = Some u ->
     sc_enable (url_defaults c) = true /\ sc_url (url_defaults c) = Some u) /\
  (ConfApi.ct_enable (sc_tls c) = true -> ConfApi.ct_enable (sc_tls (url_defaults c)) = true) /\
  (ConfApi.ct_url (sc_tls c) = Some u -> ConfApi.ct_url (sc_tls (url_defaults c)) = Some u) /\
  (ConfApi.cw_enable (sc_websocket c) = true -> ConfApi.cw_enable (sc_websocket (url_defaults c)) = true) /\
  (ConfApi.cw_url (sc_websocket c) = Some u -> ConfApi.cw_url (sc_websocket (url_defaults c)) = Some u) /\
  (ConfApi.cw_tls_enable (sc_websocket c) = true -> ConfApi.cw_tls_enable (sc_websocket (url_defaults c)) = true) /\
  (ConfApi.cw_tls_url (sc_websocket c) = Some u -> ConfApi.cw_tls_url (sc_websocket (url_defaults c)) = Some u).
Proof.
  unfold url_defaults, default_tls, default_tcp. repeat case_match; cbn;
    split_and!; intros; try split; unfold set_default; try done; try congruence;
    by match goal with E : _ = Some u |- _ => rewrite E end.
Qed.

Lemma listened_tcp c u : sc_enable c = true -> sc_url c = Some u -> listened c u.
Proof. intros H1 H2. left. unfold listeners. rewrite H1, H2. set_solver. Qed.

Lemma listened_tls c u :
  ConfApi.ct_enable (sc_tls c) = true -> ConfApi.ct_url (sc_tls c) = Some u -> listened c u.
Proof. intros H1 H2. right. unfold listeners. rewrite H1, H2. set_solver. Qed.

Lemma listened_ws c u :
  ConfApi.cw_enable (sc_websocket c) = true -> ConfApi.cw_url (sc_websocket c) = Some u -> listened c u.
Proof. intros H1 H2. left. unfold listeners. rewrite H1, H2. set_solver. Qed.

Lemma listened_wss c u :
  ConfApi.ct_enable (sc_tls c) = true -> ConfApi.cw_tls_enable (sc_websocket c) = true ->
  ConfApi.cw_tls_url (sc_websocket c) = Some u -> listened c u.
Proof. intros H1 H2 H3. right. unfold listeners. rewrite H1, H2, H3. set_solver. Qed.

(** Every address given by the option --url that has a known prefix is
    listened on. *)
Theorem url_option_listened c url :
  is_tcp url || is_tls url || is_ws url = true -> listened (url_defaults (predicate_url c url)) url.
Proof.
  intros H. destruct (url_defaults_keep (predicate_url c url) url) as (K1 & K2 & K3 & K4 & K5 & K6 & K7).
  destruct (is_tls url) eqn:Et; [|destruct (is_ws url) eqn:Ew; [destruct (is_wss url) eqn:Es|]].
  - apply listened_tls; [apply K2|apply K3]; unfold predicate_url; by rewrite Et.
  - apply listened_wss; [apply K2|apply K6|apply K7]; unfold predicate_url; by rewrite Et, Ew, Es.
  - apply listened_ws; [apply K4|apply K5]; unfold predicate_url; by rewrite Et, Ew, Es.
  - rewrite !orb_false_r in H. destruct K1 as [E1 E2]; [unfold predicate_url; by rewrite H, Et, Ew..|].
    by apply listened_tcp.
Qed.

(** Started with a configuration that has only secure WebSocket, the broker
    uses an address that is not there. *)
Theorem with_conf_wss_unset c :
  ConfApi.ct_enable (sc_tls c) = true -> ConfApi.cw_tls_enable (sc_websocket c) = true ->
  ConfApi.cw_enable (sc_websocket c) = false -> ConfApi.cw_tls_url (sc_websocket c) = None ->
  snd (broker HOOK_IPC_URL CMD_IPC_URL INPROC_SERVER_URL rv (url_defaults_with_conf c) e) <> Started.
Proof.
  intros H1 H2 H3 H4. apply exec_undef. unfold broker_calls. destruct (count_ctx _) as [total num].
  destruct (fill_works _ _ _ _) as [[works tmp] fills]. cbn [snd]. rewrite !elem_of_app. do 7 right. left.
  set (c' := url_defaults_with_conf c).
  assert (ConfApi.ct_enable (sc_tls c') = true /\ sc_websocket c' = sc_websocket c) as [E1 E2].
  { unfold c', url_defaults_with_conf, default_tls, default_tcp. repeat case_match; cbn in *; try done; congruence. }
  unfold listeners. rewrite E1, E2, H2, H4. set_solver.
Qed.

(** ** The process id *)

Definition digit_step (a c : Z) : Z := a * 10 + (c - 48).

Lemma digit_char d : (d < 10)%N ->
  Z.of_nat (Ascii.nat_of_ascii (pretty_N_char d)) = 48 + Z.of_N d /\
  is_digit (Z.of_nat (Ascii.nat_of_ascii (pretty_N_char d))) = true.
Proof.
  intros Hl.
  assert (d = 0 \/ d = 1 \/ d = 2 \/ d = 3 \/ d = 4 \/ d = 5 \/ d = 6 \/ d = 7 \/ d = 8 \/ d = 9)%N as H by lia.
  repeat (destruct H as [->|H]; [done|]). by subst d.
Qed.

(** The characters of a number printed in decimal, read back. *)
Lemma pretty_go_read x s :
  foldl digit_step 0 (lit (pretty_N_go x s)) = foldl digit_step (Z.of_N x) (lit s) /\
  (Forall (fun c => is_digit c = true) (lit s) -> Forall (fun c => is_digit c = true) (lit (pretty_N_go x s))).
Proof.
  revert s. induction (N.lt_wf_0 x) as [x _ IH]. intros s.
  destruct (decide (x = 0%N)) as [->|Hx]; [by rewrite pretty_N_go_0|].
  rewrite pretty_N_go_step by lia. destruct (IH (x `div` 10)%N) with (s := String (pretty_N_char (x `mod` 10)) s) as [H1 H2].
  { apply N.div_lt; lia. }
  rewrite H1.
  destruct (digit_char (x `mod` 10)%N) as [Hc Hi]; [by apply N.mod_lt|]. cbn [lit foldl]. split.
  - f_equal. unfold digit_step. rewrite Hc. pose proof (N.div_mod x 10). lia.
  - intros Hs. apply H2. cbn [lit]. by constructor.
Qed.

Lemma dec_read n : 0 < n ->
  digits_value (RuleSql.dec n) = n /\ Forall (fun c => is_digit c = true) (RuleSql.dec n).
Proof.
  intros Hn. destruct n as [|p|p]; [done| |done].
  change (RuleSql.dec (Z.pos p)) with (lit (pretty_N_go (N.pos p) EmptyString)).
  destruct (pretty_go_read (N.pos p) EmptyString) as [H1 H2]. split; [done|]. apply H2. constructor.
Qed.

Lemma lead_digits_all l : Forall (fun c => is_digit c = true) l -> lead_digits l = l.
Proof. induction 1 as [|c l Hc Hl IH]; [done|]. cbn. by rewrite Hc, IH. Qed.

Lemma c_str_digits l k : Forall (fun c => is_digit c = true) l -> c_str (l ++ replicate k 0) = l.
Proof.
  induction 1 as [|c l Hc Hl IH]; cbn; [by destruct k|].
  destruct (Z.eqb_spec c 0) as [->|_]; [done|]. by rewrite IH.
Qed.

Lemma scan_pid_dec pid : 0 < pid < 2147483648 -> scan_pid (RuleSql.dec pid) = Some pid.
Proof.
  intros Hp. destruct (dec_read pid) as [Hv Hd]; [lia|].
  unfold scan_pid, read_number. destruct (RuleSql.dec pid) as [|c l] eqn:E; [cbn in Hv; lia|].
  assert (is_digit c = true) as Hc by by inversion Hd. pose proof Hc as Hc'. unfold is_digit in Hc'.
  assert (skip_spaces (c :: l) = c :: l) as ->.
  { cbn. destruct (Z.eqb_spec c 32); [lia|]. cbn. destruct (Z.leb_spec 9 c), (Z.leb_spec c 13); try done; lia. }
  destruct (Z.eqb_spec c 45); [lia|]. destruct (Z.eqb_spec c 43); [lia|].
  rewrite lead_digits_all, Hv by done. destruct (Z.leb_spec (2 ^ 64) pid); [lia|]. by rewrite i32_small by lia.
Qed.

(** A process id of at most nine digits is stored whole. *)
Lemma pid_bytes_scan pid : 0 < pid < 10 ^ 9 -> scan_pid (c_str (pid_bytes pid)) = Some pid.
Proof.
  intros Hp. destruct (dec_read pid) as [_ Hd]; [lia|].
  assert (length (RuleSql.dec pid) <= 9)%nat as Hl.
  { destruct pid as [|p|p]; [lia| |lia]. unfold RuleSql.dec. rewrite RuleSql.lit_length.
    change (pretty (Z.pos p)) with (pretty (N.pos p)). apply RuleSql.pretty_N_length; [lia|].
    apply N2Z.inj_lt. change (Z.of_N (10 ^ N.of_nat 9)) with (10 ^ 9). cbn [Z.of_N]. lia. }
  unfold pid_bytes. rewrite take_ge, c_str_digits by done. apply scan_pid_dec. lia.
Qed.

Context `{FS : Files} `{FL : !FilesLaws}.

(** The process id that a broker stores is the one the other commands find:
    while it runs they see it, and afterwards they remove the file. *)
Theorem pid_round_trip alive pid env f pid0 :
  0 < pid < 10 ^ 9 -> fst (store_pid pid env f) = 0 ->
  let f1 := snd (store_pid pid env f) in
  let '(rc, found, f2) := status_check alive env f1 pid0 in
  found = pid /\
  if alive pid then rc = 0 /\ f2 = f1
  else (rc = 1 /\ nng_file_get f2 (pid_path env) = None) \/ rc = -1.
Proof.
  intros Hp Hs f1. unfold status_check, f1, store_pid in *.
  rewrite (file_put_get _ _ _ Hs) by (unfold pid_bytes; by destruct (take 9 (RuleSql.dec pid))).
  rewrite pid_bytes_scan by done. destruct (alive pid); [done|].
  pose proof (file_delete_get (snd (nng_file_put f (pid_path env) (pid_bytes pid))) (pid_path env)) as Hg.
  destruct (nng_file_delete _ _) as [r f2]. cbn in Hg. destruct (Z.eqb_spec r 0); split; auto.
Qed.

(** The number in the file is not checked: with -1 in it, "stop" sends the
    signal to every process. *)
Theorem stop_kills_all argv alive env f :
  nng_file_get f (pid_path env) = Some (Some (lit "-1")) -> alive (-1) = true -> blen argv <= 2 ->
  fst (broker_stop argv alive env f) = (EXIT_SUCCESS, [(-1, SIGTERM)]).
Proof.
  intros Hf Ha Hn. unfold broker_stop, status_check. destruct (Z.ltb_spec 2 (blen argv)); [lia|].
  rewrite Hf. change (scan_pid (c_str (lit "-1"))) with (Some (-1)). cbn match. by rewrite Ha.
Qed.

(** ** Reloading *)

(** The command as the running broker understands it: the file given is read
    again, by the parser the option asks for; without a file the command names
    the default file but no parser, and is refused. *)
Theorem reload_command `{JB : CJsonBuild} `{J : CJson} `{JL : !CJsonBuildLaws} `{JP : !CJsonParsed}
    argv alive env f file rc config_file exists_file :
  (forall s, nng_strcasecmp s s = 0) -> (forall c, cc_conf_file (conf_parse_ver2 c) = cc_conf_file c) ->
  fst (fst (status_check alive env f 0)) = 0 ->
  file_path_parse argv (cc_conf_file conf_init) = ParseEnd file rc -> rc <> 0 ->
  exists_file (default CONF_PATH_NAME file) = true ->
  exists msg url, broker_reload argv alive env f = inr (Some (msg, url)) /\
    CmdProc.handle_recv nng_strcasecmp (msg ++ [0]) config_file exists_file true =
    if rc =? OPT_HOCONFILE then CmdProc.Reload (default CONF_PATH_NAME file) true
    else if rc =? OPT_CONFFILE then CmdProc.Reload (default CONF_PATH_NAME file) false
    else CmdProc.Refuse (lit "reload failed, wrong conf type!") true.
Proof.
  intros Hcmp Hc Hs Hp Hrc He. unfold broker_reload. destruct (status_check alive env f 0) as [[r pid] f'].
  cbn in Hs. subst r. rewrite Hp. destruct (Z.eqb_spec rc 0); [done|]. cbn [Z.eqb negb].
  eexists _, _. split; [done|]. rewrite Hc. cbn [cc_conf_file set_file_name].
  set (file' := match file with Some _ => file | None => Some CONF_PATH_NAME end).
  assert (file' = Some (default CONF_PATH_NAME file)) as -> by by destruct file.
  destruct (CmdProc.client_cmd_parsed (Some (default CONF_PATH_NAME file)) rc) as (H1 & H2 & H3).
  unfold CmdProc.handle_recv. rewrite H1, Hcmp, (H2 _ eq_refl), H3, He. done.
Qed.

(** ** The default configuration file *)

(** The path beside the program is built in 512 bytes: a long path overflows
    them. *)
Theorem default_conf_overflow c :
  cc_conf_file c = None -> 7 < blen (cc_exec_path c) ->
  (default_conf c = None <-> 519 <= blen (cc_exec_path c) + blen CONF_NAME).
Proof.
  intros Hf Hl. unfold default_conf. rewrite Hf. destruct (Z.ltb_spec 7 (blen (cc_exec_path c))); [|lia].
  rewrite blen_app. unfold blen at 1. rewrite length_take. unfold blen in *.
  destruct (Z.ltb_spec (Z.of_nat (Nat.min (length (cc_exec_path c) - 7) (length (cc_exec_path c))) +
    Z.of_nat (length CONF_NAME)) 512); split; try done; lia.
Qed.

End Cli.

(** ** Witnesses *)

Section Witness.

#[local] Existing Instance long_opts.
#[local] Existing Instance long_opts_laws.

#[local] Instance map_files : Files := {|
  fs := gmap bytes bytes;
  nng_file_get f p := (fun d : bytes => match d with [] => None | _ => Some d end) <$> f !! p;
  nng_file_put f p d := (0, <[p := d]> f);
  nng_file_delete f p := (0, delete p f)
|}.

#[local] Instance map_files_laws : FilesLaws.
Proof.
  split; intros f p; cbn.
  - intros d _ Hd. rewrite lookup_insert_eq. by destruct d.
  - intros _. by rewrite lookup_delete_eq.
Qed.

Definition pid_file : bytes := lit "/tmp/nanomq/nanomq.pid".

Lemma pid_round_trip_witness :
  let f1 := snd (store_pid pid_file 4711 None (∅ : gmap bytes bytes)) in
  let '(rc, found, f2) := status_check pid_file (fun p => p =? 4711) None f1 0 in found = 4711 /\ rc = 0 /\ f2 = f1.
Proof.
  exact (pid_round_trip pid_file (fun p => p =? 4711) 4711 None (∅ : gmap bytes bytes) 0
    (conj eq_refl eq_refl) eq_refl).
Defined.

#[local] Existing Instance CmdProc.list_reader.
#[local] Existing Instance CmdProc.list_parsed.

Definition plain_conf : cli_conf :=
  CliConf full_conf 4 4 32 64 10 false 8081 (ConfLog 0 0 None None) None (lit "/usr/local/bin/nanomq").

Definition running : gmap bytes bytes := snd (store_pid pid_file 4711 None ∅).

Lemma reload_command_witness :
  exists msg url,
    broker_reload pid_file (lit "/etc/nanomq.conf") (lit "ipc:///tmp/nanomq_cmd.ipc") plain_conf id
      [lit "nanomq"; lit "reload"] (fun _ => true) None running = inr (Some (msg, url)) /\
    CmdProc.handle_recv CmdProc.same_text (msg ++ [0]) None (fun _ => true) true
      = CmdProc.Refuse (lit "reload failed, wrong conf type!") true.
Proof.
  refine (reload_command pid_file (lit "/etc/nanomq.conf") (lit "ipc:///tmp/nanomq_cmd.ipc") CmdProc.same_text
    plain_conf id [lit "nanomq"; lit "reload"] (fun _ => true) None running None 1 None (fun _ => true) _ _ eq_refl eq_refl _ eq_refl).
  - intros t. unfold CmdProc.same_text. by rewrite decide_True.
  - done.
  - done.
Defined.

End Witness.

End BrokerCli.
