(* ===== verification/NngProxy.v ===== *)
(** * Forwarding to NNG publishers (nanomq/apps/nng_bridge.c)

    [nng_pub_handler] sends a published message to the NNG sockets of the
    configuration: the message that came from an NNG subscription as it is, any
    other one as topic, delimiter and payload.  [None] is a NULL pointer that is
    dereferenced. *)

From S2P Require Import Prelude NngApi NngModel PubCodec.

Module NngProxy.

Import PubCodec.

Section Proxy.

Context `{M : NngMsg} `{TF : TopicFilter}.

(** An entry of pub_list. *)
Record pub_topic := PubTopic {
  pt_local_topic : bytes;
  pt_remote_topic : bytes;
  pt_remote_topic_len : Z;
  pt_nng_delimiter : bytes;
  pt_nng_delimiter_len : Z
}.

(** What happens to messages; a send that fails leaves the message with the
    caller. *)
Inductive proxy_out :=
  | CloneNmsg | SendNmsg (node : nat) (rv : Z) | FreeNmsg
  | SendMsg (node : nat) (body : bytes) (rv : Z) | FreeMsg (body : bytes).

(** [send node] is the result of nng_sendmsg on the node's socket. *)
Context (send : nat -> Z).

(** The body of a new message. *)
Definition proxy_body (pp : pub_packet_struct) (topic : bytes) (f : pub_topic) : bytes :=
  let '(tmp_topic, tlen) :=
    if 0 <? pt_remote_topic_len f then (pt_remote_topic f, pt_remote_topic_len f)
    else (topic, pb_topic_len (pp_publish pp)) in
  let '(delimiter, dlen) :=
    if 0 <? pt_nng_delimiter_len f then (pt_nng_delimiter f, pt_nng_delimiter_len f) else ([47], 1) in
  take (Z.to_nat tlen) tmp_topic ++ take (Z.to_nat dlen) delimiter
    ++ take (Z.to_nat (pp_payload_len pp)) (default [] (pp_payload pp)).

(** The body of the inner loop. *)
Definition proxy_forward (from_nng : bool) (nmsg : bool) (pp : pub_packet_struct) (node : nat) (f : pub_topic)
  : option (list proxy_out) :=
  topic ← pb_topic (pp_publish pp);
  if negb (topic_filter (pt_local_topic f) topic) then Some []
  else if from_nng then
    if nmsg then
      Some (CloneNmsg :: SendNmsg node (send node) :: if negb (send node =? 0) then [FreeNmsg] else [])
    else None
  else
    let body := proxy_body pp topic f in
    Some (SendMsg node body (send node) :: if negb (send node =? 0) then [FreeMsg body] else []).

Fixpoint forwards_loop (from_nng nmsg : bool) (pp : pub_packet_struct) (node : nat) (fs : list pub_topic)
  : option (list proxy_out) :=
  match fs with
  | [] => Some []
  | f :: fs' =>
      o ← proxy_forward from_nng nmsg pp node f;
      os ← forwards_loop from_nng nmsg pp node fs';
      Some (o ++ os)
  end.

Fixpoint pnodes_loop (from_nng nmsg : bool) (pp : pub_packet_struct) (node : nat) (ns : list (list pub_topic))
  : option (list proxy_out) :=
  match ns with
  | [] => Some []
  | fs :: ns' =>
      o ← forwards_loop from_nng nmsg pp node fs;
      os ← pnodes_loop from_nng nmsg pp (S node) ns';
      Some (o ++ os)
  end.

(** [from_nng] is work->proto == PROTO_NNG_BRIDGE, [nmsg] whether nmsg is not
    NULL. *)
Definition nng_pub_handler (from_nng nmsg : bool) (pp : pub_packet_struct) (ns : list (list pub_topic))
  : option (list proxy_out) :=
  let h := pp_publish pp in
  is_sys ← ((if blen (lit "$SYS") <=? pb_topic_len h then
              body ← pb_topic h; Some (strncmp0 body (lit "$SYS") 4)
            else Some false) : option bool);
  if (is_sys : bool) then Some [] else pnodes_loop from_nng nmsg pp 0 ns.

(** ** References *)

(** References to nmsg that the outputs add: a clone adds one, a send that
    succeeds and a free give one up. *)
Definition nmsg_refs (os : list proxy_out) : Z :=
  fold_right (fun o n => n + match o with
    | CloneNmsg => 1 | SendNmsg _ rv => if rv =? 0 then -1 else 0 | FreeNmsg => -1 | _ => 0 end) 0 os.

(** New messages that are neither sent nor freed. *)
Definition new_refs (os : list proxy_out) : Z :=
  fold_right (fun o n => n + match o with
    | SendMsg _ _ rv => if rv =? 0 then 0 else 1 | FreeMsg _ => -1 | _ => 0 end) 0 os.

Lemma refs_app os os' : nmsg_refs (os ++ os') = nmsg_refs os + nmsg_refs os' /\
  new_refs (os ++ os') = new_refs os + new_refs os'.
Proof. induction os as [|o os [IH1 IH2]]; [done|]. cbn [app]. unfold nmsg_refs, new_refs in *. cbn. lia. Qed.

Lemma proxy_forward_refs from_nng nmsg pp node f os :
  proxy_forward from_nng nmsg pp node f = Some os -> nmsg_refs os = 0 /\ new_refs os = 0.
Proof.
  unfold proxy_forward. destruct (pb_topic (pp_publish pp)) as [topic|]; [|done]. cbn [mbind option_bind].
  destruct (negb (topic_filter _ _)); [by intros [= <-]|]. destruct from_nng; [destruct nmsg; [|done]|]; intros [= <-];
    cbn; destruct (send node =? 0) eqn:E; cbn; rewrite ?E; lia.
Qed.

Lemma forwards_loop_refs from_nng nmsg pp node fs os :
  forwards_loop from_nng nmsg pp node fs = Some os -> nmsg_refs os = 0 /\ new_refs os = 0.
Proof.
  revert os. induction fs as [|f fs IH]; intros os E; cbn in E; [by injection E as <-|].
  apply bind_Some in E as (o & E1 & E). apply bind_Some in E as (os' & E2 & [= <-]).
  destruct (proxy_forward_refs _ _ _ _ _ _ E1), (IH _ E2), (refs_app o os') as [-> ->]. lia.
Qed.

(** Whatever the sockets answer, no message is leaked and none is freed that was
    sent: the references to the received message come out even, and every new
    message is sent or freed. *)
Theorem nng_pub_handler_refs from_nng nmsg pp ns os :
  nng_pub_handler from_nng nmsg pp ns = Some os -> nmsg_refs os = 0 /\ new_refs os = 0.
Proof.
  unfold nng_pub_handler. intros E. apply bind_Some in E as (sys & _ & E). destruct sys; [by injection E as <-|].
  revert E. generalize 0%nat as node. revert os. induction ns as [|fs ns IH]; intros os node E; cbn in E; [by injection E as <-|].
  apply bind_Some in E as (o & E1 & E). apply bind_Some in E as (os' & E2 & [= <-]).
  destruct (forwards_loop_refs _ _ _ _ _ _ E1), (IH _ _ E2), (refs_app o os') as [-> ->]. lia.
Qed.

End Proxy.

(** ** A message for two sockets, one of them blocked *)

Section Witness.

Import Model.

Definition proxy_packet : pub_packet_struct :=
  PubPacket (FixedHeader 0 0 0 3 0) 0 (PublishHeader (Some (lit "a/b")) 3 None 0)
    (PubArrcHeader 0 None 0) (Some (lit "xy")) 2.

Definition proxy_nodes : list (list pub_topic) :=
  [[PubTopic (lit "a/#") [] 0 (lit "|") 1]; [PubTopic (lit "a/b") (lit "up") 2 [] 0]].

Definition second_blocked (node : nat) : Z := if decide (node = 1%nat) then 8 else 0.

Lemma nng_pub_handler_refs_witness :
  let os := [SendMsg 0 (lit "a/b|xy") 0; SendMsg 1 (lit "up/xy") 8; FreeMsg (lit "up/xy")] in
  nng_pub_handler second_blocked false false proxy_packet proxy_nodes = Some os /\ nmsg_refs os = 0 /\ new_refs os = 0.
Proof.
  cbn zeta. split; [vm_compute; reflexivity|].
  apply (nng_pub_handler_refs second_blocked false false proxy_packet proxy_nodes). vm_compute. reflexivity.
Defined.

End Witness.

End NngProxy.
