(* ===== verification/NftpVec.v ===== *)
(** * The queue of the DDS proxy (nanomq_cli/dds2mqtt/vector.c)

    [nftp_vec] is an array of pointers with a first index and a length.  The
    clients of the proxy use it as a queue, pushing at the tail and popping at
    the head; these two operations wrap around the end of the array, the others
    do not.  Lengths and indices are [size_t], positions are [int].  The mutex
    makes each operation atomic.  [None] is an access outside the array. *)

From S2P Require Import Prelude.

Module NftpVec.

Definition NFTP_SIZE : Z := 128.
Definition NFTP_ERR_OVERFLOW : Z := 9.
Definition NFTP_ERR_EMPTY : Z := 10.
Definition NFTP_ERR_FLAG : Z := 15.
Definition NFTP_HEAD : Z := -1.
Definition NFTP_TAIL : Z := 0x7FFFFFFF.

Section Vec.

Context {T : Type} `{EqDecision T}.

(** A pointer; [None] is NULL. *)
Abbreviation entry := (option T).

Record nftp_vec := NftpVec {
  nv_cap : Z;
  nv_len : Z;
  nv_low : Z;
  nv_vec : list entry
}.

(** [v->vec[i]] and [v->vec[i] = e] *)
Definition load (v : nftp_vec) (i : Z) : option entry :=
  if (0 <=? i) then nv_vec v !! Z.to_nat i else None.
Definition store (l : list entry) (i : Z) (e : entry) : option (list entry) :=
  if (0 <=? i) && (i <? blen l) then Some (<[Z.to_nat i := e]> l) else None.

(** [mem] is what malloc returned. *)
Definition nftp_vec_alloc (mem : list entry) : nftp_vec := NftpVec NFTP_SIZE 0 (NFTP_SIZE / 4) mem.

Definition nftp_vec_push (v : nftp_vec) (e : entry) (flag : Z) : option (Z * nftp_vec) :=
  if flag =? NFTP_HEAD then
    if nv_low v =? 0 then Some (NFTP_ERR_OVERFLOW, v)
    else
      let low := nv_low v - 1 in
      vec ← store (nv_vec v) low e;
      Some (0, NftpVec (nv_cap v) (u64 (nv_len v + 1)) low vec)
  else if flag =? NFTP_TAIL then
    if nv_cap v <=? nv_len v then Some (NFTP_ERR_OVERFLOW, v)
    else
      let pos := u64 (nv_low v + nv_len v) mod nv_cap v in
      vec ← store (nv_vec v) pos e;
      Some (0, NftpVec (nv_cap v) (u64 (nv_len v + 1)) (nv_low v) vec)
  else Some (NFTP_ERR_FLAG, v).

Definition nftp_vec_append (v : nftp_vec) (e : entry) : option (Z * nftp_vec) := nftp_vec_push v e NFTP_TAIL.

(** The return value, the entry and the vector. *)
Definition nftp_vec_pop (v : nftp_vec) (flag : Z) : option (Z * entry * nftp_vec) :=
  if nv_len v =? 0 then Some (NFTP_ERR_EMPTY, None, v)
  else
    let take_out pos low :=
      e ← load v pos;
      vec ← store (nv_vec v) pos None;
      Some (0, e, NftpVec (nv_cap v) (nv_len v - 1) low vec) in
    if flag =? NFTP_HEAD then take_out (nv_low v) (u64 (nv_low v + 1) mod nv_cap v)
    else if flag =? NFTP_TAIL then take_out (u64 (nv_low v + nv_len v - 1)) (nv_low v)
    else Some (NFTP_ERR_FLAG, None, v).

(** [idx] is an int: a negative one is above every length. *)
Definition nftp_vec_get (v : nftp_vec) (idx : Z) : option (Z * entry) :=
  if nv_len v <=? u64 idx then Some (NFTP_ERR_OVERFLOW, None)
  else if idx <? 0 then Some (NFTP_ERR_OVERFLOW, None)
  else e ← load v (u64 (nv_low v + idx)); Some (0, e).

(** The loop over the indices from [i] on. *)
Fixpoint getidx_loop (n : nat) (v : nftp_vec) (i : Z) (e : entry) : option (Z * Z) :=
  match n with
  | O => Some (NFTP_ERR_EMPTY, 0)
  | S n' =>
      x ← load v i;
      if decide (x = e) then Some (0, i - nv_low v) else getidx_loop n' v (i + 1) e
  end.

Definition nftp_vec_getidx (v : nftp_vec) (e : entry) : option (Z * Z) :=
  getidx_loop (Z.to_nat (nv_len v)) v (nv_low v) e.

(** [for (i = low + len; i > low + pos; --i) vec[i] = vec[i-1];], from [i] down, [n] turns *)
Fixpoint shift_up (n : nat) (l : list entry) (i : Z) : option (list entry) :=
  match n with
  | O => Some l
  | S n' =>
      x ← (if 0 <=? i - 1 then l !! Z.to_nat (i - 1) else None);
      l ← store l i x;
      shift_up n' l (i - 1)
  end.

Definition nftp_vec_insert (v : nftp_vec) (e : entry) (pos : Z) : option (Z * nftp_vec) :=
  if nv_cap v <? u64 (nv_low v + nv_len v + 1) then Some (NFTP_ERR_OVERFLOW, v)
  else if nv_len v <? u64 pos then nftp_vec_push v e NFTP_TAIL
  else
    vec ← shift_up (Z.to_nat (nv_len v - pos)) (nv_vec v) (nv_low v + nv_len v);
    vec ← store vec (nv_low v + pos) e;
    Some (0, NftpVec (nv_cap v) (nv_len v + 1) (nv_low v) vec).

(** [for (i = low + pos + 1; i < low + len; ++i) vec[i-1] = vec[i];], [n] turns *)
Fixpoint shift_down (n : nat) (l : list entry) (i : Z) : option (list entry) :=
  match n with
  | O => Some l
  | S n' =>
      x ← (if 0 <=? i then l !! Z.to_nat i else None);
      l ← store l (i - 1) x;
      shift_down n' l (i + 1)
  end.

(** [pos > v->len - 1] is a comparison of unsigned numbers. *)
Definition nftp_vec_delete (v : nftp_vec) (pos : Z) : option (Z * entry * nftp_vec) :=
  if (pos <? 0) || (u64 (nv_len v - 1) <? u64 pos) then Some (NFTP_ERR_OVERFLOW, None, v)
  else
    e ← load v (nv_low v + pos);
    vec ← shift_down (Z.to_nat (nv_len v - pos - 1)) (nv_vec v) (nv_low v + pos + 1);
    Some (0, e, NftpVec (nv_cap v) (u64 (nv_len v - 1)) (nv_low v) vec).

(** The loop of nftp_vec_cat, [n] rounds from [i] on. *)
Fixpoint cat_loop (n : nat) (i idx : Z) (sv : nftp_vec) (vec : list entry) : option (list entry) :=
  match n with
  | O => Some vec
  | S n => e ← load sv (nv_low sv + i); vec ← store vec (idx + i) e; cat_loop n (i + 1) idx sv vec
  end.

(** A source that is NULL changes nothing. *)
Definition nftp_vec_cat (dv : nftp_vec) (sv : option nftp_vec) : option (Z * nftp_vec) :=
  match sv with
  | None => Some (0, dv)
  | Some sv =>
      if nv_cap dv <? u64 (nv_low dv + nv_len dv + nv_len sv) then Some (NFTP_ERR_OVERFLOW, dv)
      else
        vec ← cat_loop (Z.to_nat (nv_len sv)) 0 (nv_low dv + nv_len dv) sv (nv_vec dv);
        Some (0, NftpVec (nv_cap dv) (u64 (nv_len dv + nv_len sv)) (nv_low dv) vec)
  end.

Definition nftp_vec_cap (v : nftp_vec) : Z := nv_cap v.
Definition nftp_vec_len (v : nftp_vec) : Z := nv_len v.

(** ** The queue in the array *)

Definition slot (v : nftp_vec) (i : nat) : nat := Z.to_nat ((nv_low v + Z.of_nat i) mod nv_cap v).

(** The entries from the head on, around the end of the array. *)
Definition items (v : nftp_vec) : list entry :=
  map (fun i => default None (nv_vec v !! slot v i)) (seq 0 (Z.to_nat (nv_len v))).

Definition vec_ok (v : nftp_vec) : Prop :=
  0 < nv_cap v < 2 ^ 62 /\ blen (nv_vec v) = nv_cap v /\ 0 <= nv_low v < nv_cap v /\ 0 <= nv_len v <= nv_cap v.

Lemma items_length v : vec_ok v -> blen (items v) = nv_len v.
Proof. intros (_ & _ & _ & Hl). unfold items, blen. rewrite length_map, length_seq. lia. Qed.

Lemma slot_lt v i : vec_ok v -> (slot v i < length (nv_vec v))%nat.
Proof.
  intros (Hc & Hv & _). unfold slot, blen in *. pose proof (Z.mod_pos_bound (nv_low v + Z.of_nat i) (nv_cap v)). lia.
Qed.

Lemma slot_inj v i j : vec_ok v -> (i < Z.to_nat (nv_cap v))%nat -> (j < Z.to_nat (nv_cap v))%nat ->
  slot v i = slot v j -> i = j.
Proof.
  intros (Hc & _ & Hlow & _) Hi Hj E. unfold slot in E.
  pose proof (Z.mod_pos_bound (nv_low v + Z.of_nat i) (nv_cap v) ltac:(lia)).
  pose proof (Z.mod_pos_bound (nv_low v + Z.of_nat j) (nv_cap v) ltac:(lia)).
  assert ((nv_low v + Z.of_nat i) mod nv_cap v = (nv_low v + Z.of_nat j) mod nv_cap v) as Em by lia.
  assert (forall k, 0 <= k < nv_cap v -> (nv_low v + k) mod nv_cap v =
    if nv_low v + k <? nv_cap v then nv_low v + k else nv_low v + k - nv_cap v) as Hm.
  { intros k Hk. destruct (Z.ltb_spec (nv_low v + k) (nv_cap v)); [apply Z.mod_small; lia|].
    rewrite <- (Z.mod_small (nv_low v + k - nv_cap v) (nv_cap v)) by lia.
    rewrite <- (Z.mod_add (nv_low v + k - nv_cap v) 1 (nv_cap v)) by lia. f_equal. lia. }
  rewrite !Hm in Em by lia. destruct (Z.ltb_spec (nv_low v + Z.of_nat i) (nv_cap v)), (Z.ltb_spec (nv_low v + Z.of_nat j) (nv_cap v)); lia.
Qed.

Lemma store_slot v i e : vec_ok v -> store (nv_vec v) (Z.of_nat (slot v i)) e = Some (<[slot v i := e]> (nv_vec v)).
Proof.
  intros Hv. pose proof (slot_lt v i Hv). unfold store, blen.
  replace ((0 <=? Z.of_nat (slot v i)) && (Z.of_nat (slot v i) <? Z.of_nat (length (nv_vec v)))) with true by lia.
  by rewrite Nat2Z.id.
Qed.

(** Pushing at the tail appends to the queue, or reports that it is full. *)
Lemma push_tail_ok v e : vec_ok v ->
  if nv_cap v <=? nv_len v then nftp_vec_push v e NFTP_TAIL = Some (NFTP_ERR_OVERFLOW, v)
  else exists v', nftp_vec_push v e NFTP_TAIL = Some (0, v') /\ vec_ok v' /\ nv_cap v' = nv_cap v /\
    items v' = items v ++ [e].
Proof.
  intros Hv. pose proof Hv as (Hc & Hb & Hlow & Hlen). unfold nftp_vec_push.
  change (NFTP_TAIL =? NFTP_HEAD) with false. change (NFTP_TAIL =? NFTP_TAIL) with true. cbn iota.
  destruct (Z.leb_spec (nv_cap v) (nv_len v)); [done|].
  rewrite !u64_small by lia.
  replace ((nv_low v + nv_len v) mod nv_cap v) with (Z.of_nat (slot v (Z.to_nat (nv_len v)))).
  2: { unfold slot. rewrite !Z2Nat.id; [done|lia|apply Z.mod_pos_bound; lia]. }
  rewrite store_slot by done. cbn [mbind option_bind]. eexists. split; [done|]. split; [|split; [done|]].
  - unfold vec_ok, blen in *. cbn. rewrite length_insert. lia.
  - unfold items. cbn [nv_len]. rewrite Z2Nat.inj_add, Nat.add_1_r, seq_S, map_app by lia. cbn [map Nat.add].
    f_equal.
    + apply map_ext_in. intros i Hi. apply in_seq in Hi. change (slot (NftpVec _ _ _ _) i) with (slot v i). cbn [nv_vec].
      rewrite list_lookup_insert_ne; [done|]. intros E. apply slot_inj in E; [lia|done|lia|lia].
    + change (slot (NftpVec _ _ _ _) (Z.to_nat (nv_len v))) with (slot v (Z.to_nat (nv_len v))). cbn [nv_vec].
      rewrite list_lookup_insert_eq by (by apply slot_lt). done.
Qed.

(** Popping at the head takes the first entry, or reports an empty queue. *)
Lemma pop_head_ok v : vec_ok v ->
  match items v with
  | [] => nftp_vec_pop v NFTP_HEAD = Some (NFTP_ERR_EMPTY, None, v)
  | e :: l => exists v', nftp_vec_pop v NFTP_HEAD = Some (0, e, v') /\ vec_ok v' /\ nv_cap v' = nv_cap v /\ items v' = l
  end.
Proof.
  intros Hv. pose proof Hv as (Hc & Hb & Hlow & Hlen). pose proof (items_length v Hv) as Hil. unfold nftp_vec_pop.
  destruct (Z.eqb_spec (nv_len v) 0) as [E0|E0].
  { destruct (items v); [done|]. rewrite E0, blen_cons in Hil. pose proof (blen_nonneg l). lia. }
  change (NFTP_HEAD =? NFTP_HEAD) with true. cbn iota zeta.
  assert (slot v 0 = Z.to_nat (nv_low v)) as Hs0 by (unfold slot; rewrite Z.add_0_r, Z.mod_small; lia).
  destruct (lookup_lt_is_Some_2 (nv_vec v) (slot v 0) (slot_lt v 0 Hv)) as [e He].
  assert (load v (nv_low v) = Some e) as ->.
  { unfold load. replace (0 <=? nv_low v) with true by lia. by rewrite <- Hs0. }
  assert (store (nv_vec v) (nv_low v) None = Some (<[slot v 0 := None]> (nv_vec v))) as ->.
  { rewrite <- (store_slot v 0 None Hv). f_equal. lia. }
  cbn [mbind option_bind]. rewrite u64_small by lia.
  replace (Z.to_nat (nv_len v)) with (S (Z.to_nat (nv_len v - 1))) in * by lia.
  unfold items. replace (Z.to_nat (nv_len v)) with (S (Z.to_nat (nv_len v - 1))) by lia. cbn [seq map]. rewrite He. cbn [default from_option].
  eexists. split; [done|]. split; [|split; [done|]].
  - unfold vec_ok, blen in *. cbn. rewrite length_insert. pose proof (Z.mod_pos_bound (nv_low v + 1) (nv_cap v)). lia.
  - cbn [nv_len]. rewrite <- (seq_shift (Z.to_nat (nv_len v - 1)) 0), map_map. apply map_ext_in. intros i Hi. apply in_seq in Hi.
    assert (slot (NftpVec (nv_cap v) (nv_len v - 1) ((nv_low v + 1) mod nv_cap v) (<[slot v 0:=None]> (nv_vec v))) i = slot v (S i)) as ->.
    { unfold slot. cbn [nv_low nv_cap]. rewrite Zplus_mod_idemp_l. do 2 f_equal. lia. }
    cbn [nv_vec]. rewrite list_lookup_insert_ne; [done|]. intros E. apply slot_inj in E; [lia|done|lia|lia].
Qed.

(** ** Refinement: a bounded queue *)

Inductive vec_op := Append (e : entry) | PopHead.

(** The result of an operation on the vector, and on a list of at most [cap]
    entries. *)
Definition vec_step (v : nftp_vec) (o : vec_op) : option (Z * entry * nftp_vec) :=
  match o with
  | Append e => '(rv, v) ← nftp_vec_append v e; Some (rv, None, v)
  | PopHead => nftp_vec_pop v NFTP_HEAD
  end.

Definition fifo_step (cap : Z) (l : list entry) (o : vec_op) : Z * entry * list entry :=
  match o, l with
  | Append e, _ => if cap <=? blen l then (NFTP_ERR_OVERFLOW, None, l) else (0, None, l ++ [e])
  | PopHead, [] => (NFTP_ERR_EMPTY, None, l)
  | PopHead, e :: l' => (0, e, l')
  end.

Fixpoint vec_run (v : nftp_vec) (os : list vec_op) : option (list (Z * entry) * nftp_vec) :=
  match os with
  | [] => Some ([], v)
  | o :: os' => '(rv, e, v) ← vec_step v o; '(rs, v) ← vec_run v os'; Some ((rv, e) :: rs, v)
  end.

Fixpoint fifo_run (cap : Z) (l : list entry) (os : list vec_op) : list (Z * entry) * list entry :=
  match os with
  | [] => ([], l)
  | o :: os' =>
      let '(rv, e, l) := fifo_step cap l o in
      let '(rs, l) := fifo_run cap l os' in ((rv, e) :: rs, l)
  end.

Lemma vec_step_refines v o : vec_ok v ->
  exists v', vec_step v o = Some (fst (fifo_step (nv_cap v) (items v) o), v') /\ vec_ok v' /\ nv_cap v' = nv_cap v /\
    items v' = snd (fifo_step (nv_cap v) (items v) o).
Proof.
  intros Hv. destruct o as [e|]; cbn [vec_step fifo_step].
  - pose proof (push_tail_ok v e Hv) as H. unfold nftp_vec_append. rewrite (items_length v Hv).
    destruct (nv_cap v <=? nv_len v).
    + rewrite H. by exists v.
    + destruct H as (v' & -> & Hv' & Hc & Hi). by exists v'.
  - pose proof (pop_head_ok v Hv) as H. destruct (items v) as [|e l] eqn:El.
    + rewrite H. exists v. by rewrite El.
    + destruct H as (v' & -> & Hv' & Hc & Hi). by exists v'.
Qed.

(** As the proxy uses it, the vector is a bounded queue: any sequence of appends
    and pops at the head returns the same codes and entries as on a list, around
    the end of the array as often as needed, and never leaves the array. *)
Theorem vec_refines_fifo v os : vec_ok v ->
  exists v', vec_run v os = Some (fst (fifo_run (nv_cap v) (items v) os), v') /\ vec_ok v' /\
    items v' = snd (fifo_run (nv_cap v) (items v) os).
Proof.
  revert v. induction os as [|o os IH]; intros v Hv; [by exists v|]. cbn [vec_run fifo_run].
  destruct (vec_step_refines v o Hv) as (v1 & -> & Hv1 & Hc & Hi).
  destruct (fifo_step (nv_cap v) (items v) o) as [[rv e] l] eqn:E. cbn [fst snd mbind option_bind] in *.
  destruct (IH v1 Hv1) as (v2 & -> & Hv2 & Hi2). rewrite Hc, Hi in Hi2 |- *. cbn [mbind option_bind].
  destruct (fifo_run (nv_cap v) l os) as [rs l']. by exists v2.
Qed.

(** A fresh vector is an empty queue. *)
Lemma nftp_vec_alloc_ok mem : blen mem = NFTP_SIZE -> vec_ok (nftp_vec_alloc mem) /\ items (nftp_vec_alloc mem) = [].
Proof. intros Hm. split; [|done]. unfold vec_ok. cbn. by repeat split. Qed.

(** ** Access by position *)

(** The entries do not reach around the end. *)
Definition straight (v : nftp_vec) : Prop := nv_low v + nv_len v <= nv_cap v.

(** While the entries do not reach around the end of the array, [nftp_vec_get]
    reads the queue at any position and rejects the others. *)
Theorem vec_get_straight v idx : vec_ok v -> straight v -> -2147483648 <= idx < 2147483648 ->
  nftp_vec_get v idx =
    Some (if (0 <=? idx) && (idx <? nv_len v) then (0, nth (Z.to_nat idx) (items v) None) else (NFTP_ERR_OVERFLOW, None)).
Proof.
  intros Hv Hs Hi. pose proof Hv as (Hc & Hb & Hlow & Hlen). unfold straight in Hs. unfold nftp_vec_get.
  destruct (Z.leb_spec 0 idx); cbn [andb].
  2: { destruct (nv_len v <=? u64 idx); [done|]. by replace (idx <? 0) with true by lia. }
  rewrite (u64_small idx) by lia.
  destruct (Z.leb_spec (nv_len v) idx); [by replace (idx <? nv_len v) with false by lia|].
  replace (idx <? nv_len v) with true by lia. replace (idx <? 0) with false by lia. rewrite u64_small by lia.
  unfold load. replace (0 <=? nv_low v + idx) with true by lia.
  assert (slot v (Z.to_nat idx) = Z.to_nat (nv_low v + idx)) as Hsl.
  { unfold slot. rewrite Z2Nat.id, Z.mod_small by lia. done. }
  destruct (lookup_lt_is_Some_2 (nv_vec v) (slot v (Z.to_nat idx)) (slot_lt v _ Hv)) as [e He].
  rewrite <- Hsl, He. cbn [mbind option_bind]. do 2 f_equal. symmetry. apply nth_lookup_Some.
  unfold items. rewrite list_lookup_fmap, lookup_seq_lt by lia. cbn. by rewrite He.
Qed.

(** ** Concatenation *)

Lemma load_straight v (i : nat) : vec_ok v -> straight v -> Z.of_nat i < nv_len v ->
  load v (nv_low v + Z.of_nat i) = Some (nth i (items v) None).
Proof.
  intros Hv Hs Hi. pose proof Hv as (Hc & Hb & Hlow & Hlen). unfold straight in Hs. unfold load.
  replace (0 <=? nv_low v + Z.of_nat i) with true by lia.
  assert (slot v i = Z.to_nat (nv_low v + Z.of_nat i)) as Hsl by (unfold slot; by rewrite Z.mod_small by lia).
  destruct (lookup_lt_is_Some_2 (nv_vec v) (slot v i) (slot_lt v _ Hv)) as [e He].
  rewrite <- Hsl, He. f_equal. symmetry. apply nth_lookup_Some.
  unfold items. rewrite list_lookup_fmap, lookup_seq_lt by lia. cbn. by rewrite He.
Qed.

(** A store behind the last entry is a push at the tail, while there is room
    before the end of the array. *)
Lemma store_is_push v e : vec_ok v -> nv_low v + nv_len v < nv_cap v ->
  exists vec, store (nv_vec v) (nv_low v + nv_len v) e = Some vec /\
    let v' := NftpVec (nv_cap v) (nv_len v + 1) (nv_low v) vec in vec_ok v' /\ items v' = items v ++ [e].
Proof.
  intros Hv Hr. pose proof Hv as (Hc & Hb & Hlow & Hlen). pose proof (push_tail_ok v e Hv) as H.
  destruct (Z.leb_spec (nv_cap v) (nv_len v)); [lia|]. destruct H as (v' & H & Hv' & _ & Hi). unfold nftp_vec_push in H.
  change (NFTP_TAIL =? NFTP_HEAD) with false in H. change (NFTP_TAIL =? NFTP_TAIL) with true in H. cbn iota in H.
  destruct (Z.leb_spec (nv_cap v) (nv_len v)); [lia|]. rewrite !u64_small in H by lia. rewrite Z.mod_small in H by lia.
  destruct (store (nv_vec v) (nv_low v + nv_len v) e) as [vec|]; [|done]. cbn [mbind option_bind] in H. injection H as <-.
  exists vec. by split.
Qed.

Lemma cat_loop_ok n (i : nat) sv dv low len :
  vec_ok sv -> straight sv -> Z.of_nat (i + n) = nv_len sv -> vec_ok dv ->
  nv_low dv = low -> nv_len dv = len + Z.of_nat i -> low + nv_len dv + Z.of_nat n <= nv_cap dv ->
  exists vec, cat_loop n (Z.of_nat i) (low + len) sv (nv_vec dv) = Some vec /\
    let v' := NftpVec (nv_cap dv) (nv_len dv + Z.of_nat n) low vec in vec_ok v' /\ items v' = items dv ++ drop i (items sv).
Proof.
  intros Hsv Hs. pose proof (items_length sv Hsv) as Hil. unfold blen in Hil.
  revert i dv. induction n as [|n IH]; intros i dv Hn Hdv Hl He Hr; cbn [cat_loop].
  - exists (nv_vec dv). split; [done|]. rewrite Z.add_0_r, drop_ge, app_nil_r by lia. by destruct dv; cbn in *; subst.
  - rewrite load_straight by (done || lia). cbn [mbind option_bind].
    replace (low + len + Z.of_nat i) with (nv_low dv + nv_len dv) by lia.
    destruct (store_is_push dv (nth i (items sv) None) Hdv) as (vec & -> & Hv' & Hi'); [lia|]. cbn [mbind option_bind].
    destruct (IH (S i) (NftpVec (nv_cap dv) (nv_len dv + 1) (nv_low dv) vec)) as (vec' & E & Hv'' & Hi'');
      [lia|done|done|cbn; lia|cbn; lia|].
    cbn [nv_vec nv_cap nv_len] in *. exists vec'. replace (Z.of_nat i + 1) with (Z.of_nat (S i)) by lia. split; [done|].
    replace (nv_len dv + Z.of_nat (S n)) with (nv_len dv + 1 + Z.of_nat n) by lia. split; [done|].
    rewrite Hi'', Hi', <- app_assoc. f_equal. cbn [app]. symmetry. apply drop_S.
    destruct (nth_lookup_or_length (items sv) i None); [done|lia].
Qed.

(** Concatenation appends the one queue to the other, when neither reaches around
    the end of its array and there is room. *)
Theorem vec_cat_appends dv sv :
  vec_ok dv -> vec_ok sv -> straight sv -> nv_low dv + nv_len dv + nv_len sv <= nv_cap dv ->
  exists v', nftp_vec_cat dv (Some sv) = Some (0, v') /\ vec_ok v' /\ items v' = items dv ++ items sv.
Proof.
  intros Hd Hv Hs Hr. pose proof Hd as (Hc & Hb & Hlow & Hlen). pose proof Hv as (_ & _ & _ & Hlen').
  unfold nftp_vec_cat. rewrite u64_small by lia. destruct (Z.ltb_spec (nv_cap dv) (nv_low dv + nv_len dv + nv_len sv)); [lia|].
  destruct (cat_loop_ok (Z.to_nat (nv_len sv)) 0 sv dv (nv_low dv) (nv_len dv)) as (vec & E & H1 & H2); try done; try lia.
  change (Z.of_nat 0) with 0 in E. rewrite E. cbn [mbind option_bind]. rewrite Z2Nat.id in H1, H2 by lia.
  rewrite u64_small by lia. eexists. split; [done|]. by split.
Qed.

End Vec.

(** ** Vectors that wrap *)

Section Witness.

Definition small (low len : Z) (l : list (option Z)) : nftp_vec := NftpVec (blen l) len low l.

Lemma small_ok : vec_ok (small 2 2 [None; None; Some 1; Some 2]).
Proof. unfold vec_ok, small, blen. cbn. lia. Qed.

Lemma vec_refines_fifo_witness :
  exists v', vec_run (small 2 2 [None; None; Some 1; Some 2]) [Append (Some 3); PopHead; Append (Some 4)]
    = Some ([(0, None); (0, Some 1); (0, None)], v') /\ vec_ok v' /\ items v' = [Some 2; Some 3; Some 4].
Proof. exact (vec_refines_fifo _ [Append (Some 3); PopHead; Append (Some 4)] small_ok). Defined.

Lemma vec_get_straight_witness :
  nftp_vec_get (small 2 2 [None; None; Some 1; Some 2]) 1 = Some (0, Some 2).
Proof.
  refine (vec_get_straight _ 1 small_ok _ _); [unfold straight, small, blen; cbn; lia|lia].
Defined.

(** Once the entries reach around the end, access by position and popping at
    the tail leave the array. *)
Theorem vec_wrapped_out_of_bounds :
  let v := small 2 3 [Some 3; None; Some 1; Some 2] in
  items v = [Some 1; Some 2; Some 3] /\ nftp_vec_get v 2 = None /\ nftp_vec_pop v NFTP_TAIL = None.
Proof. split_and!; reflexivity. Qed.

(** Pushing at the head does not look at the length: on a full vector it
    overwrites the entry at the tail and the length exceeds the capacity. *)
Theorem vec_push_head_overwrites :
  let v := small 2 4 [Some 3; Some 4; Some 1; Some 2] in
  items v = [Some 1; Some 2; Some 3; Some 4] /\
  nftp_vec_push v (Some 9) NFTP_HEAD = Some (0, small 1 5 [Some 3; Some 9; Some 1; Some 2]).
Proof. split; reflexivity. Qed.

(** Deleting from an empty vector succeeds, because the length minus one is
    unsigned, and leaves the largest length there is. *)
Theorem vec_delete_empty :
  nftp_vec_delete (small 2 0 [None; None; Some 7; None]) 0 =
    Some (0, Some 7, small 2 (2 ^ 64 - 1) [None; None; Some 7; None]).
Proof. reflexivity. Qed.

End Witness.

End NftpVec.
