(* ===== verification/CliOpts.v ===== *)
(** * The options of the client (nanomq_cli/client.c)

    "nanomq_cli pub|sub|conn": the options of the command line, the MQTT 5
    properties among them and their assignment to the packets.  The parser of
    options and the types of properties belong to NNG and are parameters. *)

From S2P Require Import Prelude OptsApi.

Module CliOpts.

(** ** Options *)

Inductive options :=
  | OPT_HELP | OPT_VERBOSE | OPT_PARALLEL | OPT_MSGCOUNT | OPT_CLIENTS | OPT_INTERVAL | OPT_VERSION | OPT_URL
  | OPT_HOST | OPT_PORT | OPT_PUB | OPT_SUB | OPT_TOPIC | OPT_QOS | OPT_RETAIN | OPT_USER | OPT_PASSWD
  | OPT_CLIENTID | OPT_KEEPALIVE | OPT_CLEAN_SESSION | OPT_WILL_MSG | OPT_WILL_QOS | OPT_WILL_RETAIN
  | OPT_WILL_TOPIC | OPT_WILL_PAYLOAD_FORMAT_INDICATOR | OPT_WILL_MESSAGE_EXPIRY_INTERVAL | OPT_WILL_CONTENT_TYPE
  | OPT_WILL_RESPONSE_TOPIC | OPT_WILL_CORRELATION_DATA | OPT_WILL_USER_PROPERTY | OPT_QUIC | OPT_SECURE
  | OPT_CACERT | OPT_CERTFILE | OPT_KEYFILE | OPT_KEYPASS | OPT_MSG | OPT_FILE | OPT_STDIN_LINE
  | OPT_PAYLOAD_FORMAT_INDICATOR | OPT_MESSAGE_EXPIRY_INTERVAL | OPT_CONTENT_TYPE | OPT_RESPONSE_TOPIC
  | OPT_CORRELATION_DATA | OPT_SESSION_EXPIRY_INTERVAL | OPT_ASSIGNED_CLIENT_IDENTIFIER | OPT_SERVER_KEEP_ALIVE
  | OPT_AUTHENTICATION_METHOD | OPT_AUTHENTICATION_DATA | OPT_REQUEST_PROBLEM_INFORMATION
  | OPT_WILL_DELAY_INTERVAL | OPT_REQUEST_RESPONSE_INFORMATION | OPT_RESPONSE_INFORMATION | OPT_SERVER_REFERENCE
  | OPT_REASON_STRING | OPT_RECEIVE_MAXIMUM | OPT_TOPIC_ALIAS_MAXIMUM | OPT_TOPIC_ALIAS | OPT_PUBLISH_MAXIMUM_QOS
  | OPT_RETAIN_AVAILABLE | OPT_USER_PROPERTY | OPT_MAXIMUM_PACKET_SIZE | OPT_WILDCARD_SUBSCRIPTION_AVAILABLE
  | OPT_SUBSCRIPTION_IDENTIFIER_AVAILABLE | OPT_SHARED_SUBSCRIPTION_AVAILABLE.

#[export] Instance options_eq_dec : EqDecision options.
Proof. solve_decision. Defined.

Definition all_options : list options :=
  [OPT_HELP; OPT_VERBOSE; OPT_PARALLEL; OPT_MSGCOUNT; OPT_CLIENTS; OPT_INTERVAL; OPT_VERSION; OPT_URL;
   OPT_HOST; OPT_PORT; OPT_PUB; OPT_SUB; OPT_TOPIC; OPT_QOS; OPT_RETAIN; OPT_USER; OPT_PASSWD; OPT_CLIENTID;
   OPT_KEEPALIVE; OPT_CLEAN_SESSION; OPT_WILL_MSG; OPT_WILL_QOS; OPT_WILL_RETAIN; OPT_WILL_TOPIC;
   OPT_WILL_PAYLOAD_FORMAT_INDICATOR; OPT_WILL_MESSAGE_EXPIRY_INTERVAL; OPT_WILL_CONTENT_TYPE;
   OPT_WILL_RESPONSE_TOPIC; OPT_WILL_CORRELATION_DATA; OPT_WILL_USER_PROPERTY; OPT_QUIC; OPT_SECURE;
   OPT_CACERT; OPT_CERTFILE; OPT_KEYFILE; OPT_KEYPASS; OPT_MSG; OPT_FILE; OPT_STDIN_LINE;
   OPT_PAYLOAD_FORMAT_INDICATOR; OPT_MESSAGE_EXPIRY_INTERVAL; OPT_CONTENT_TYPE; OPT_RESPONSE_TOPIC;
   OPT_CORRELATION_DATA; OPT_SESSION_EXPIRY_INTERVAL; OPT_ASSIGNED_CLIENT_IDENTIFIER; OPT_SERVER_KEEP_ALIVE;
   OPT_AUTHENTICATION_METHOD; OPT_AUTHENTICATION_DATA; OPT_REQUEST_PROBLEM_INFORMATION;
   OPT_WILL_DELAY_INTERVAL; OPT_REQUEST_RESPONSE_INFORMATION; OPT_RESPONSE_INFORMATION; OPT_SERVER_REFERENCE;
   OPT_REASON_STRING; OPT_RECEIVE_MAXIMUM; OPT_TOPIC_ALIAS_MAXIMUM; OPT_TOPIC_ALIAS; OPT_PUBLISH_MAXIMUM_QOS;
   OPT_RETAIN_AVAILABLE; OPT_USER_PROPERTY; OPT_MAXIMUM_PACKET_SIZE; OPT_WILDCARD_SUBSCRIPTION_AVAILABLE;
   OPT_SUBSCRIPTION_IDENTIFIER_AVAILABLE; OPT_SHARED_SUBSCRIPTION_AVAILABLE].

(** The values of the enumeration, from 1 on. *)
Fixpoint take_while_neq (o : options) (l : list options) : list options :=
  match l with
  | [] => []
  | x :: l => if decide (x = o) then [] else x :: take_while_neq o l
  end.

Definition opt_val (o : options) : Z :=
  1 + Z.of_nat (length (take_while_neq o all_options)).

Definition opt_of (v : Z) : option options := if 1 <=? v then all_options !! Z.to_nat (v - 1) else None.

Definition opt (name : string) (short : Z) (o : options) (arg : bool) : optspec :=
  OptSpec (lit name) short (opt_val o) arg.

Definition cmd_opts : list optspec :=
  [opt "help" 0 OPT_HELP false; opt "verbose" 118 OPT_VERBOSE false; opt "parallel" 110 OPT_PARALLEL true;
   opt "interval" 73 OPT_INTERVAL true; opt "limit" 76 OPT_MSGCOUNT true; opt "host" 104 OPT_HOST true;
   opt "port" 112 OPT_PORT true; opt "count" 67 OPT_CLIENTS true; opt "version" 86 OPT_VERSION true;
   opt "url" 0 OPT_URL true; opt "topic" 116 OPT_TOPIC true; opt "qos" 113 OPT_QOS true;
   opt "retain" 114 OPT_RETAIN false; opt "user" 117 OPT_USER true; opt "password" 80 OPT_PASSWD true;
   opt "id" 105 OPT_CLIENTID true; opt "keepalive" 107 OPT_KEEPALIVE true;
   opt "clean_session" 99 OPT_CLEAN_SESSION true; opt "will-msg" 0 OPT_WILL_MSG true;
   opt "will-qos" 0 OPT_WILL_QOS true; opt "will-retain" 0 OPT_WILL_RETAIN false;
   opt "will-topic" 0 OPT_WILL_TOPIC true;
   opt "will_payload_format_indicator" 0 OPT_WILL_PAYLOAD_FORMAT_INDICATOR true;
   opt "will_message_expiry_interval" 0 OPT_WILL_MESSAGE_EXPIRY_INTERVAL true;
   opt "will_content_type" 0 OPT_WILL_CONTENT_TYPE true;
   opt "will_response_topic" 0 OPT_WILL_RESPONSE_TOPIC true;
   opt "will_correlation_data" 0 OPT_WILL_CORRELATION_DATA true;
   opt "will_user_property" 0 OPT_WILL_USER_PROPERTY true; opt "secure" 115 OPT_SECURE false;
   opt "quic" 0 OPT_QUIC false; opt "cafile" 0 OPT_CACERT true; opt "key" 0 OPT_KEYFILE true;
   opt "keypass" 0 OPT_KEYPASS true; opt "cert" 69 OPT_CERTFILE true; opt "msg" 109 OPT_MSG true;
   opt "file" 102 OPT_FILE true; opt "stdin-line" 108 OPT_STDIN_LINE false;
   opt "payload_format_indicator" 0 OPT_PAYLOAD_FORMAT_INDICATOR true;
   opt "message_expiry_interval" 0 OPT_MESSAGE_EXPIRY_INTERVAL true;
   opt "content_type" 0 OPT_CONTENT_TYPE true; opt "response_topic" 0 OPT_RESPONSE_TOPIC true;
   opt "correlation_data" 0 OPT_CORRELATION_DATA true;
   opt "session_expiry_interval" 0 OPT_SESSION_EXPIRY_INTERVAL true;
   opt "assigned_client_identifier" 0 OPT_ASSIGNED_CLIENT_IDENTIFIER true;
   opt "server_keep_alive" 0 OPT_SERVER_KEEP_ALIVE true;
   opt "request_problem_information" 0 OPT_REQUEST_PROBLEM_INFORMATION true;
   opt "will_delay_interval" 0 OPT_WILL_DELAY_INTERVAL true;
   opt "request_response_information" 0 OPT_REQUEST_RESPONSE_INFORMATION true;
   opt "response_information" 0 OPT_RESPONSE_INFORMATION true;
   opt "server_reference" 0 OPT_SERVER_REFERENCE true; opt "reason_string" 0 OPT_REASON_STRING true;
   opt "receive_maximum" 0 OPT_RECEIVE_MAXIMUM true; opt "topic_alias_maximum" 0 OPT_TOPIC_ALIAS_MAXIMUM true;
   opt "topic_alias" 0 OPT_TOPIC_ALIAS true; opt "publish_maximum_qos" 0 OPT_PUBLISH_MAXIMUM_QOS true;
   opt "retain_available" 0 OPT_RETAIN_AVAILABLE true; opt "user_property" 0 OPT_USER_PROPERTY true;
   opt "maximum_packet_size" 0 OPT_MAXIMUM_PACKET_SIZE true;
   opt "wildcard_subscription_available" 0 OPT_WILDCARD_SUBSCRIPTION_AVAILABLE true;
   opt "subscription_identifier_available" 0 OPT_SUBSCRIPTION_IDENTIFIER_AVAILABLE true;
   opt "shared_subscription_available" 0 OPT_SHARED_SUBSCRIPTION_AVAILABLE true].

(** ** The settings *)

Inductive client_type := PUB | SUB | CONN.

#[export] Instance client_type_eq_dec : EqDecision client_type.
Proof. solve_decision. Defined.

(** The members of [struct client_opts] that are numbers, flags and strings. *)
Inductive num_field := parallel | total_msg_count | interval | version | clients | qos | keepalive | will_qos.
Inductive flag_field := verbose | retain | clean_session | stdin_line | will_retain | enable_ssl.
Inductive text_field :=
  url | user | passwd | client_id | msg | will_msg | will_topic | cacert | cafile | cert | certfile | key | keyfile | keypass.

#[export] Instance num_field_eq_dec : EqDecision num_field.
Proof. solve_decision. Defined.
#[export] Instance flag_field_eq_dec : EqDecision flag_field.
Proof. solve_decision. Defined.
#[export] Instance text_field_eq_dec : EqDecision text_field.
Proof. solve_decision. Defined.

Record client_opts := ClientOpts {
  co_type : client_type;
  co_num : num_field -> Z;
  co_flag : flag_field -> bool;
  co_text : text_field -> option bytes;
  co_topics : list bytes
}.

Definition upd {K V} `{EqDecision K} (f : K -> V) (k : K) (v : V) : K -> V := fun k' => if decide (k' = k) then v else f k'.

Definition set_num (k : num_field) (v : Z) (o : client_opts) : client_opts :=
  ClientOpts (co_type o) (upd (co_num o) k v) (co_flag o) (co_text o) (co_topics o).
Definition set_flag (k : flag_field) (v : bool) (o : client_opts) : client_opts :=
  ClientOpts (co_type o) (co_num o) (upd (co_flag o) k v) (co_text o) (co_topics o).
Definition set_text (k : text_field) (v : option bytes) (o : client_opts) : client_opts :=
  ClientOpts (co_type o) (co_num o) (co_flag o) (upd (co_text o) k v) (co_topics o).
Definition addtopic (s : bytes) (o : client_opts) : client_opts :=
  ClientOpts (co_type o) (co_num o) (co_flag o) (co_text o) (co_topics o ++ [s]).

Definition set_default_conf (type : client_type) : client_opts :=
  ClientOpts type
    (fun k => match k with
              | parallel => 1 | total_msg_count => 1 | interval => 10 | version => 4 | clients => 1
              | qos => if decide (type = SUB) then 2 else 0 | keepalive => 60 | will_qos => 0
              end)
    (fun k => bool_decide (k = clean_session)) (fun _ => None) [].

(** The end of a step: a value, [fatal], the exit of --help, or the use of a
    NULL pointer. *)
Inductive outcome (A : Type) := Ok (a : A) | Fatal | Exit0 | Null.
Arguments Ok {A}. Arguments Fatal {A}. Arguments Exit0 {A}. Arguments Null {A}.

Definition bind {A B} (m : outcome A) (f : A -> outcome B) : outcome B :=
  match m with Ok a => f a | Fatal => Fatal | Exit0 => Exit0 | Null => Null end.

Notation "x <- m ; f" := (bind m (fun x => f)) (at level 100, m at next level, right associativity) : nmq_scope.

(** ** Numbers *)

Fixpoint long_loop (val : bytes) (v minv maxv : Z) : outcome Z :=
  match val with
  | [] => if v <? 0 then Fatal else Ok v
  | c :: val =>
      if (48 <=? c) && (c <=? 57) then
        let v := v * 10 + (c - 48) in
        if maxv <? v then Fatal else if v <? minv then Fatal else long_loop val v minv maxv
      else Fatal
  end.

Definition long_arg (val : bytes) (minv maxv : Z) : outcome Z :=
  match val with [] => Fatal | _ => long_loop val 0 minv maxv end.

Section Options.

Context `{OP : OptsParse}.
Context (NNG_EINVAL NNG_EAMBIGUOUS NNG_ENOARG : Z).
Context (nng_strcasecmp : bytes -> bytes -> Z).
(** The content of a file; [None] ends the program. *)
Context (loadfile : bytes -> option bytes).

(** The variables of [client_parse_opts]. *)
Record parse_state := ParseState { pt_opts : client_opts; pt_proto : bytes; pt_host : bytes; pt_port : option bytes }.

Definition on_opts (f : client_opts -> client_opts) (s : parse_state) : parse_state :=
  ParseState (f (pt_opts s)) (pt_proto s) (pt_host s) (pt_port s).

(** ASSERT_NULL and nng_strdup *)
Definition set_once (k : text_field) (a : bytes) (s : parse_state) : outcome parse_state :=
  match co_text (pt_opts s) k with
  | Some _ => Fatal
  | None => Ok (on_opts (set_text k (Some a)) s)
  end.

(** ASSERT_NULL and loadfile, with the name of the file in [name]. *)
Definition load_once (k : text_field) (name : option text_field) (a : bytes) (s : parse_state) : outcome parse_state :=
  match co_text (pt_opts s) k with
  | Some _ => Fatal
  | None =>
      match loadfile a with
      | None => Fatal
      | Some d =>
          let s := on_opts (set_text k (Some d)) s in
          Ok (match name with Some n => on_opts (set_text n (Some a)) s | None => s end)
      end
  end.

Definition number (k : num_field) (a : bytes) (minv maxv : Z) (s : parse_state) : outcome parse_state :=
  v <- long_arg a minv maxv; Ok (on_opts (set_num k v) s).

(** The body of the loop of [client_parse_opts]. *)
Definition client_opt (o : options) (arg : option bytes) (s : parse_state) : outcome parse_state :=
  let flag k := Ok (on_opts (set_flag k true) s) in
  let with_arg (f : bytes -> outcome parse_state) := match arg with Some a => f a | None => Null end in
  match o with
  | OPT_HELP => Exit0
  | OPT_VERBOSE => flag verbose
  | OPT_PARALLEL => with_arg (fun a => number parallel a 1 1024000 s)
  | OPT_INTERVAL => with_arg (fun a => number interval a 1 10240000 s)
  | OPT_MSGCOUNT => with_arg (fun a => number total_msg_count a 1 10240000 s)
  | OPT_CLIENTS => with_arg (fun a => number clients a 1 10240000 s)
  | OPT_VERSION => with_arg (fun a => number version a 3 5 s)
  | OPT_URL => with_arg (fun a => set_once url a s)
  | OPT_HOST => with_arg (fun a => Ok (ParseState (pt_opts s) (pt_proto s) a (pt_port s)))
  | OPT_PORT => with_arg (fun a => Ok (ParseState (pt_opts s) (pt_proto s) (pt_host s) (Some a)))
  | OPT_TOPIC => with_arg (fun a => Ok (on_opts (addtopic a) s))
  | OPT_QOS => with_arg (fun a => number qos a 0 2 s)
  | OPT_RETAIN => flag retain
  | OPT_USER => with_arg (fun a => set_once user a s)
  | OPT_PASSWD => with_arg (fun a => set_once passwd a s)
  | OPT_CLIENTID => with_arg (fun a => set_once client_id a s)
  | OPT_KEEPALIVE => with_arg (fun a => number keepalive a 0 65535 s)
  | OPT_CLEAN_SESSION =>
      with_arg (fun a => Ok (on_opts (set_flag clean_session (nng_strcasecmp a (lit "true") =? 0)) s))
  | OPT_WILL_MSG => with_arg (fun a => set_once will_msg a s)
  | OPT_WILL_QOS => with_arg (fun a => number will_qos a 0 2 s)
  | OPT_WILL_RETAIN => flag retain
  | OPT_WILL_TOPIC => with_arg (fun a => set_once will_topic a s)
  | OPT_SECURE =>
      Ok (ParseState (set_flag enable_ssl true (pt_opts s)) (lit "tls+mqtt-tcp") (pt_host s)
            (Some (default (lit "8883") (pt_port s))))
  | OPT_QUIC =>
      Ok (ParseState (set_flag enable_ssl false (pt_opts s)) (lit "mqtt-quic") (pt_host s)
            (Some (default (lit "14567") (pt_port s))))
  | OPT_CACERT => with_arg (fun a => load_once cacert (Some cafile) a s)
  | OPT_CERTFILE => with_arg (fun a => load_once cert (Some certfile) a s)
  | OPT_KEYFILE => with_arg (fun a => load_once key (Some keyfile) a s)
  | OPT_KEYPASS => with_arg (fun a => set_once keypass a s)
  | OPT_MSG => with_arg (fun a => set_once msg a s)
  | OPT_FILE => with_arg (fun a => load_once msg None a s)
  | OPT_STDIN_LINE => flag stdin_line
  | _ => Ok s
  end.

(** A loop over the options from [argv + 1] on, its body changing [st].
    [None] as the result is that it did not end in [fuel] rounds. *)
Fixpoint opts_loop {A} (body : options -> option bytes -> A -> outcome A) (fuel : nat) (argv : list bytes) (idx : nat)
    (st : A) : option (outcome A) :=
  match fuel with
  | O => None
  | S fuel =>
      let p := nng_opts_parse cmd_opts argv idx in
      if pa_rv p =? 0 then
        match match opt_of (pa_val p) with Some o => body o (pa_arg p) st | None => Ok st end with
        | Ok st => opts_loop body fuel argv (pa_idx p) st
        | r => Some r
        end
      else if (pa_rv p =? NNG_EINVAL) || (pa_rv p =? NNG_EAMBIGUOUS) || (pa_rv p =? NNG_ENOARG) then Some Fatal
      else Some (Ok st)
  end.

(** [nng_opts_parse(argc - 1, argv + 1, ..)] with [idx = 1] *)
Definition for_options {A} (body : options -> option bytes -> A -> outcome A) (argv : list bytes) (st : A)
  : option (outcome A) := opts_loop body (S (length (tail argv))) (tail argv) 1 st.

(** [addr[128]] *)
Definition client_url (s : parse_state) : bytes :=
  take 127 (pt_proto s ++ lit "://" ++ pt_host s ++ lit ":" ++ default (lit "1883") (pt_port s)).

(** What [pub] and [sub] need. *)
Definition required (o : client_opts) : outcome client_opts :=
  match co_type o with
  | PUB =>
      if decide (co_topics o = []) then Fatal
      else if bool_decide (co_text o msg = None) && negb (co_flag o stdin_line) then Fatal else Ok o
  | SUB => if decide (co_topics o = []) then Fatal else Ok o
  | CONN => Ok o
  end.

Definition client_parse_opts (argv : list bytes) (o : client_opts) : option (outcome client_opts) :=
  r ← for_options client_opt argv (ParseState o (lit "mqtt-tcp") (lit "127.0.0.1") None);
  Some (s <- r; required (set_text url (Some (client_url s)) (pt_opts s))).

(** ** Properties *)

Inductive properties_type :=
  | PAYLOAD_FORMAT_INDICATOR | MESSAGE_EXPIRY_INTERVAL | CONTENT_TYPE | RESPONSE_TOPIC | CORRELATION_DATA
  | SUBSCRIPTION_IDENTIFIER | SESSION_EXPIRY_INTERVAL | ASSIGNED_CLIENT_IDENTIFIER | SERVER_KEEP_ALIVE
  | AUTHENTICATION_METHOD | AUTHENTICATION_DATA | REQUEST_PROBLEM_INFORMATION | WILL_DELAY_INTERVAL
  | REQUEST_RESPONSE_INFORMATION | RESPONSE_INFORMATION | SERVER_REFERENCE | REASON_STRING | RECEIVE_MAXIMUM
  | TOPIC_ALIAS_MAXIMUM | TOPIC_ALIAS | PUBLISH_MAXIMUM_QOS | RETAIN_AVAILABLE | USER_PROPERTY
  | MAXIMUM_PACKET_SIZE | WILDCARD_SUBSCRIPTION_AVAILABLE | SUBSCRIPTION_IDENTIFIER_AVAILABLE
  | SHARED_SUBSCRIPTION_AVAILABLE.

#[export] Instance properties_type_eq_dec : EqDecision properties_type.
Proof. solve_decision. Defined.

Inductive property_type_enum := U8 | U16 | U32 | VARINT | BINARY | STR | STR_PAIR | UNKNOWN.

Inductive property_value := NumVal (type : property_type_enum) (n : Z) | TextVal (type : property_type_enum) (s : bytes) | PairVal (k v : bytes).

(** The packets a property can be in: PUBLISH, SUBSCRIBE, CONNECT; the result
    0 is all [false]. *)
Definition property_id_type (id : properties_type) : bool * bool * bool :=
  match id with
  | PAYLOAD_FORMAT_INDICATOR | MESSAGE_EXPIRY_INTERVAL | CONTENT_TYPE | RESPONSE_TOPIC | CORRELATION_DATA =>
      (true, false, true)
  | SUBSCRIPTION_IDENTIFIER => (true, true, false)
  | SESSION_EXPIRY_INTERVAL | AUTHENTICATION_METHOD | AUTHENTICATION_DATA | REQUEST_PROBLEM_INFORMATION
  | WILL_DELAY_INTERVAL | REQUEST_RESPONSE_INFORMATION | RECEIVE_MAXIMUM | TOPIC_ALIAS_MAXIMUM => (false, false, true)
  | TOPIC_ALIAS => (true, false, false)
  | USER_PROPERTY => (true, true, true)
  | MAXIMUM_PACKET_SIZE => (false, false, true)
  | _ => (false, false, false)
  end.

Definition properties_type_parse (val : options) : option properties_type :=
  match val with
  | OPT_PAYLOAD_FORMAT_INDICATOR => Some PAYLOAD_FORMAT_INDICATOR
  | OPT_MESSAGE_EXPIRY_INTERVAL => Some MESSAGE_EXPIRY_INTERVAL
  | OPT_CONTENT_TYPE => Some CONTENT_TYPE
  | OPT_RESPONSE_TOPIC => Some RESPONSE_TOPIC
  | OPT_CORRELATION_DATA => Some CORRELATION_DATA
  | OPT_SESSION_EXPIRY_INTERVAL => Some SESSION_EXPIRY_INTERVAL
  | OPT_ASSIGNED_CLIENT_IDENTIFIER => Some ASSIGNED_CLIENT_IDENTIFIER
  | OPT_SERVER_KEEP_ALIVE => Some SERVER_KEEP_ALIVE
  | OPT_AUTHENTICATION_METHOD => Some AUTHENTICATION_METHOD
  | OPT_AUTHENTICATION_DATA => Some AUTHENTICATION_DATA
  | OPT_REQUEST_PROBLEM_INFORMATION => Some REQUEST_PROBLEM_INFORMATION
  | OPT_REQUEST_RESPONSE_INFORMATION => Some REQUEST_RESPONSE_INFORMATION
  | OPT_RESPONSE_INFORMATION => Some RESPONSE_INFORMATION
  | OPT_SERVER_REFERENCE => Some SERVER_REFERENCE
  | OPT_REASON_STRING => Some REASON_STRING
  | OPT_RECEIVE_MAXIMUM => Some RECEIVE_MAXIMUM
  | OPT_TOPIC_ALIAS_MAXIMUM => Some TOPIC_ALIAS_MAXIMUM
  | OPT_TOPIC_ALIAS => Some TOPIC_ALIAS
  | OPT_PUBLISH_MAXIMUM_QOS => Some PUBLISH_MAXIMUM_QOS
  | OPT_RETAIN_AVAILABLE => Some RETAIN_AVAILABLE
  | OPT_USER_PROPERTY => Some USER_PROPERTY
  | OPT_MAXIMUM_PACKET_SIZE => Some MAXIMUM_PACKET_SIZE
  | OPT_WILDCARD_SUBSCRIPTION_AVAILABLE => Some WILDCARD_SUBSCRIPTION_AVAILABLE
  | OPT_SUBSCRIPTION_IDENTIFIER_AVAILABLE => Some SUBSCRIPTION_IDENTIFIER_AVAILABLE
  | OPT_SHARED_SUBSCRIPTION_AVAILABLE => Some SHARED_SUBSCRIPTION_AVAILABLE
  | _ => None
  end.

Definition will_properties_type_parse (val : options) : option properties_type :=
  match val with
  | OPT_WILL_PAYLOAD_FORMAT_INDICATOR => Some PAYLOAD_FORMAT_INDICATOR
  | OPT_WILL_MESSAGE_EXPIRY_INTERVAL => Some MESSAGE_EXPIRY_INTERVAL
  | OPT_WILL_CONTENT_TYPE => Some CONTENT_TYPE
  | OPT_WILL_RESPONSE_TOPIC => Some RESPONSE_TOPIC
  | OPT_WILL_CORRELATION_DATA => Some CORRELATION_DATA
  | OPT_WILL_DELAY_INTERVAL => Some WILL_DELAY_INTERVAL
  | OPT_WILL_USER_PROPERTY => Some USER_PROPERTY
  | _ => None
  end.

(** Blanks of scanf. *)
Definition is_blank (c : Z) : bool := (c =? 32) || ((9 <=? c) && (c <=? 13)).

Fixpoint before (p : Z -> bool) (s : bytes) : bytes :=
  match s with [] => [] | c :: s' => if p c then [] else c :: before p s' end.
Fixpoint drop_blanks (s : bytes) : bytes :=
  match s with c :: s' => if is_blank c then drop_blanks s' else s | [] => [] end.

(** sscanf(arg, "%[^=]=%s", str, value) == 2 *)
Definition scan_pair (arg : bytes) : option (bytes * bytes) :=
  let str := before (fun c => c =? 61) arg in
  match str, drop (length str) arg with
  | _ :: _, _ :: rest =>
      match before is_blank (drop_blanks rest) with [] => None | value => Some (str, value) end
  | _, _ => None
  end.

Context (mqtt_property_get_value_type : properties_type -> property_type_enum).

(** The property an option sets. *)
Definition property_item (id : properties_type) (arg : bytes) : outcome (properties_type * property_value) :=
  let num t maxv := n <- long_arg arg 0 maxv; Ok (id, NumVal t n) in
  match mqtt_property_get_value_type id with
  | U8 => num U8 255
  | U16 => num U16 65535
  | U32 => num U32 4294967295
  | VARINT => num VARINT 4294967295
  | BINARY => Ok (id, TextVal BINARY arg)
  | STR => Ok (id, TextVal STR arg)
  | STR_PAIR => match scan_pair arg with Some (k, v) => Ok (id, PairVal k v) | None => Fatal end
  | UNKNOWN => Fatal
  end.

Abbreviation property := (list (properties_type * property_value)).

(** The body of the loops of [properties_parse] and [will_properties_parse]. *)
Definition add_property (id_of : options -> option properties_type) (o : options) (arg : option bytes) (l : property)
  : outcome property :=
  match id_of o, arg with
  | None, _ => Ok l
  | Some _, None => Null
  | Some id, Some a => p <- property_item id a; Ok (l ++ [p])
  end.

Definition properties_parse (argv : list bytes) : option (outcome property) :=
  for_options (add_property properties_type_parse) argv [].

(** [None] inside is a list that was never allocated. *)
Definition will_properties_parse (argv : list bytes) : option (outcome (option property)) :=
  for_options (fun o arg l =>
    match will_properties_type_parse o with
    | None => Ok l
    | Some _ => k <- add_property will_properties_type_parse o arg (default [] l); Ok (Some k)
    end) argv None.

(** The lists of properties of the packets; NULL as long as not allocated. *)
Record packet_props := PacketProps {
  pp_conn : option property;
  pp_sub : option property;
  pp_pub : option property
}.

Definition no_props : packet_props := PacketProps None None None.

(** [mqtt_property_append] to a list that may be NULL *)
Definition append_to (l : option property) (p : properties_type * property_value) : outcome (option property) :=
  match l with Some l => Ok (Some (l ++ [p])) | None => Null end.

Fixpoint classify_loop (l : property) (pp : packet_props) : outcome packet_props :=
  match l with
  | [] => Ok pp
  | p :: l =>
      let '(pub, sub, conn) := property_id_type (fst p) in
      if negb (pub || sub || conn) then Fatal
      else
        c <- (if conn then append_to (pp_conn pp) p else Ok (pp_conn pp));
        q <- (if pub then append_to (pp_pub pp) p else Ok (pp_pub pp));
        r <- (if sub then append_to (pp_sub pp) p else Ok (pp_sub pp));
        classify_loop l (PacketProps c r q)
  end.

Definition properties_classify (type : client_type) (l : property) : outcome packet_props :=
  classify_loop l
    (match type with
     | CONN => PacketProps (Some []) None None
     | PUB => PacketProps (Some []) None (Some [])
     | SUB => PacketProps (Some []) (Some []) None
     end).

(** ** The start of a client *)

Record client_setup := ClientSetup { st_opts : client_opts; st_props : packet_props; st_will : option property }.

(** [client] up to the creation of the clients, compiled without SUPP_QUIC. *)
Definition client_setup_of (argv : list bytes) (type : client_type) : option (outcome client_setup) :=
  r ← client_parse_opts argv (set_default_conf type);
  match r with
  | Ok o =>
      props ← (if co_num o version =? 5 then
                 l ← properties_parse argv;
                 w ← will_properties_parse argv;
                 Some (pp <- (k <- l; properties_classify type k); wl <- w; Ok (pp, wl))
               else Some (Ok (no_props, None)));
      Some (x <- props;
            let o := if (co_num o interval =? 0) && (0 <? co_num o total_msg_count) then set_num interval 1 o else o in
            let o := if co_num o total_msg_count <? co_num o parallel
                     then set_num parallel (co_num o total_msg_count) o else o in
            let o := if co_num o version =? 3 then set_num version 4 o else o in
            if match co_text o url with Some u => strncmp0 (lit "mqtt-quic") u 9 | None => false end then Fatal
            else Ok (ClientSetup o (fst x) (snd x)))
  | Fatal => Some Fatal
  | Exit0 => Some Exit0
  | Null => Some Null
  end.

(** ** Numbers are read in full *)

Lemma long_loop_sound val v minv maxv n :
  long_loop val v minv maxv = Ok n -> val <> [] -> minv <= n <= maxv /\ n = foldl (fun a c => a * 10 + (c - 48)) v val.
Proof.
  revert v. induction val as [|c val IH]; intros v H Hne; [done|]. cbn [long_loop] in H.
  destruct (_ && _); [|done]. destruct (Z.ltb_spec maxv (v * 10 + (c - 48))); [done|].
  destruct (Z.ltb_spec (v * 10 + (c - 48)) minv); [done|]. destruct val as [|c' val].
  - cbn in H. destruct (_ <? 0); [done|]. injection H as <-. cbn. lia.
  - apply IH in H; [|done]. done.
Qed.

Lemma digits_grow l v : Forall (fun c => 48 <= c <= 57) l -> 0 <= v ->
  v <= foldl (fun a c => a * 10 + (c - 48)) v l.
Proof.
  intros Hl. revert v. induction Hl as [|c l Hc Hl IH]; intros v Hv; cbn [foldl]; [lia|].
  specialize (IH (v * 10 + (c - 48)) ltac:(lia)). lia.
Qed.

Lemma long_loop_complete l v minv maxv :
  Forall (fun c => 48 <= c <= 57) l -> 0 <= v -> (minv <= v \/ l = [] \/ exists c l', l = c :: l' /\ minv <= v * 10 + (c - 48)) ->
  foldl (fun a c => a * 10 + (c - 48)) v l <= maxv ->
  long_loop l v minv maxv = Ok (foldl (fun a c => a * 10 + (c - 48)) v l).
Proof.
  intros Hl. revert v. induction Hl as [|c l Hc Hl IH]; intros v Hv Hmin Hmax; cbn [long_loop foldl] in *.
  - destruct (Z.ltb_spec v 0); [lia|done].
  - destruct (Z.leb_spec 48 c), (Z.leb_spec c 57); try lia. cbn [andb].
    pose proof (digits_grow l (v * 10 + (c - 48)) Hl ltac:(lia)).
    assert (minv <= v * 10 + (c - 48)) by (destruct Hmin as [?|[?|(c' & l' & [= <- <-] & ?)]]; [lia|done|done]).
    destruct (Z.ltb_spec maxv (v * 10 + (c - 48))); [lia|]. destruct (Z.ltb_spec (v * 10 + (c - 48)) minv); [lia|].
    apply IH; [lia|by left|done].
Qed.

Lemma long_loop_digits val v minv maxv n : long_loop val v minv maxv = Ok n -> Forall (fun c => 48 <= c <= 57) val.
Proof.
  revert v. induction val as [|c val IH]; intros v H; [constructor|]. cbn [long_loop] in H.
  destruct (Z.leb_spec 48 c), (Z.leb_spec c 57); try done. cbn [andb] in H.
  constructor; [done|]. destruct (_ <? _); [done|]. destruct (_ <? _); [done|]. by eapply IH.
Qed.

(** What is read is a number within the limits, and every number within the
    limits whose first digit is not below the lower one is read. *)
Theorem long_arg_correct val minv maxv :
  (forall n, long_arg val minv maxv = Ok n ->
     minv <= n <= maxv /\ Forall (fun c => 48 <= c <= 57) val /\ n = foldl (fun a c => a * 10 + (c - 48)) 0 val) /\
  (forall c l, val = c :: l -> Forall (fun c => 48 <= c <= 57) val -> minv <= c - 48 ->
     foldl (fun a c => a * 10 + (c - 48)) 0 val <= maxv ->
     long_arg val minv maxv = Ok (foldl (fun a c => a * 10 + (c - 48)) 0 val)).
Proof.
  split.
  - intros n H. destruct val as [|c l]; [done|]. cbn [long_arg] in H.
    destruct (long_loop_sound _ _ _ _ _ H) as [H1 H2]; [done|]. split; [done|]. split; [|done].
    by eapply long_loop_digits.
  - intros c l -> Hd Hc Hm. unfold long_arg. apply long_loop_complete; [done|lia| |done].
    right. right. exists c, l. split; [done|lia].
Qed.

(** ** The loops end, and what they keep *)

Context `{OL : !OptsParseLaws}.

Lemma client_loop_ends {A} (body : options -> option bytes -> A -> outcome A) k argv idx st :
  (length argv <= k + idx)%nat -> opts_loop body (S k) argv idx st <> None.
Proof.
  revert idx st. induction k as [|k IH]; intros idx st H; cbn [opts_loop].
  - rewrite (opts_stop cmd_opts argv idx) by lia. cbn. by destruct (_ || _).
  - destruct (Z.eqb_spec (pa_rv (nng_opts_parse cmd_opts argv idx)) 0) as [E|_]; [|by destruct (_ || _)].
    pose proof (opts_next _ _ _ E).
    destruct (match opt_of _ with Some o => _ | None => _ end) as [st'| | |]; try done. apply IH. lia.
Qed.

Lemma opts_loop_keeps {A} (body : options -> option bytes -> A -> outcome A) (I : A -> Prop) fuel argv idx st st' :
  (forall o arg st st', I st -> body o arg st = Ok st' -> I st') -> I st ->
  opts_loop body fuel argv idx st = Some (Ok st') -> I st'.
Proof.
  intros Hb. revert idx st. induction fuel as [|fuel IH]; intros idx st HI; cbn [opts_loop]; [done|].
  destruct (_ =? 0); [|destruct (_ || _); congruence].
  destruct (opt_of _) as [o|]; [|apply IH, HI].
  destruct (body o _ st) as [st1| | |] eqn:E; try done. apply IH. by eapply Hb.
Qed.

(** Every option of the table that needs an argument says so. *)
Definition takes_arg (o : options) : bool :=
  match o with
  | OPT_HELP | OPT_VERBOSE | OPT_PUB | OPT_SUB | OPT_RETAIN | OPT_WILL_RETAIN | OPT_QUIC | OPT_SECURE | OPT_STDIN_LINE => false
  | _ => true
  end.

Lemma table_args : Forall (fun s => exists o, opt_of (o_val s) = Some o /\ o_arg s = takes_arg o) cmd_opts.
Proof. unfold cmd_opts. repeat (constructor; [eexists; split; reflexivity|]). constructor. Qed.

Lemma opts_loop_not_null {A} (body : options -> option bytes -> A -> outcome A) fuel argv idx st :
  (forall o arg st, (takes_arg o = true -> is_Some arg) -> body o arg st <> Null) ->
  opts_loop body fuel argv idx st <> Some Null.
Proof.
  intros Hb. revert idx st. induction fuel as [|fuel IH]; intros idx st; cbn [opts_loop]; [done|].
  destruct (Z.eqb_spec (pa_rv (nng_opts_parse cmd_opts argv idx)) 0) as [E|_]; [|by destruct (_ || _)].
  destruct (opts_arg _ _ _ E) as (s & Hs & <- & Ha).
  destruct (proj1 (Forall_forall _ _) table_args s Hs) as (o & -> & Ho). rewrite Ho in Ha.
  specialize (Hb o (pa_arg (nng_opts_parse cmd_opts argv idx)) st Ha).
  destruct (body o _ st); done.
Qed.

Lemma long_arg_not_null val minv maxv : long_arg val minv maxv <> Null.
Proof.
  unfold long_arg. destruct val as [|c val]; [done|]. generalize 0 as v. generalize (c :: val) as l. clear.
  intros l. induction l as [|c l IH]; intros v; cbn [long_loop]; [by destruct (_ <? _)|].
  destruct (_ && _); [|done]. destruct (_ <? _); [done|]. destruct (_ <? _); [done|]. apply IH.
Qed.

Lemma bind_not_null {A B} (m : outcome A) (f : A -> outcome B) :
  m <> Null -> (forall a, f a <> Null) -> bind m f <> Null.
Proof. intros Hm Hf. by destruct m; cbn. Qed.

Lemma client_opt_not_null o arg s : (takes_arg o = true -> is_Some arg) -> client_opt o arg s <> Null.
Proof.
  intros Ha. destruct o; cbn in *; try done; destruct Ha as [a ->]; try done;
    first [apply bind_not_null; [apply long_arg_not_null|done] | unfold set_once, load_once; repeat case_match; done].
Qed.

(** Reading the options of the client ends, and every option has the argument
    it needs. *)
Theorem client_options_read argv o :
  exists r, client_parse_opts argv o = Some r /\ r <> Null.
Proof.
  unfold client_parse_opts, for_options.
  destruct (opts_loop _ _ _ _ _) as [r|] eqn:E; [|exfalso; by apply (client_loop_ends client_opt (length (tail argv)) (tail argv) 1
    (ParseState o (lit "mqtt-tcp") (lit "127.0.0.1") None)); [lia|]].
  cbn [mbind option_bind]. eexists. split; [done|]. apply bind_not_null.
  - intros ->. revert E. apply opts_loop_not_null. apply client_opt_not_null.
  - intros s. unfold required. repeat case_match; done.
Qed.

(** ** What the options set *)

(** The address is built from host and port, and nothing sets the flag of the
    will to be retained. *)
Definition parse_inv (s : parse_state) : Prop :=
  co_flag (pt_opts s) will_retain = false /\
  pt_proto s ∈ [lit "mqtt-tcp"; lit "tls+mqtt-tcp"; lit "mqtt-quic"].

Lemma client_opt_inv o arg s s' : parse_inv s -> client_opt o arg s = Ok s' -> parse_inv s'.
Proof.
  intros [H1 H2] H. destruct o, arg as [a|]; cbn in H; try done;
    try (injection H as <-; split; cbn; [done|set_solver]);
    try (unfold set_once, load_once in H; repeat case_match; try done; injection H as <-; by split);
    unfold number in H; destruct (long_arg _ _ _); try done; injection H as <-; by split.
Qed.

(** "--url" and "--will-retain" have no effect: the address is that of the
    options for host, port and transport, and the will is not retained. *)
Theorem options_ignored argv type o :
  client_parse_opts argv (set_default_conf type) = Some (Ok o) ->
  co_flag o will_retain = false /\
  exists proto host port, proto ∈ [lit "mqtt-tcp"; lit "tls+mqtt-tcp"; lit "mqtt-quic"] /\
    co_text o url = Some (take 127 (proto ++ lit "://" ++ host ++ lit ":" ++ port)).
Proof.
  unfold client_parse_opts, for_options. destruct (opts_loop _ _ _ _ _) as [r|] eqn:E; [|done].
  cbn [mbind option_bind]. destruct r as [s| | |]; try done. cbn [bind]. intros [= H].
  assert (parse_inv s) as [H1 H2].
  { eapply (opts_loop_keeps client_opt parse_inv); [apply client_opt_inv| |exact E]. split; [done|set_solver]. }
  unfold required in H. repeat case_match; try done; injection H as <-; (split; [done|]);
    exists (pt_proto s), (pt_host s), (default (lit "1883") (pt_port s)); done.
Qed.

(** ** Numbers in range *)

(** What each number may be; the bounds fit the width of the member. *)
Definition num_range (k : num_field) : Z * Z :=
  match k with
  | parallel => (1, 1024000)
  | total_msg_count | interval | clients => (1, 10240000)
  | version => (3, 5)
  | qos | will_qos => (0, 2)
  | keepalive => (0, 65535)
  end.

Definition nums_ok (o : client_opts) : Prop := forall k, fst (num_range k) <= co_num o k <= snd (num_range k).

Lemma set_num_ok k v o : nums_ok o -> fst (num_range k) <= v <= snd (num_range k) -> nums_ok (set_num k v o).
Proof. intros Ho Hv k'. unfold set_num, upd. cbn [co_num]. destruct (decide (k' = k)) as [->|]; [done|apply Ho]. Qed.

Lemma number_ok k a minv maxv s s' :
  nums_ok (pt_opts s) -> fst (num_range k) <= minv -> maxv <= snd (num_range k) ->
  number k a minv maxv s = Ok s' -> nums_ok (pt_opts s').
Proof.
  intros Ho Hlo Hhi. unfold number. destruct (long_arg a minv maxv) as [v| | |] eqn:E; try done. cbn [bind].
  intros [= <-]. cbn [pt_opts on_opts]. apply set_num_ok; [done|].
  unfold long_arg in E. destruct a as [|c a]; [done|]. apply long_loop_sound in E as [E _]; [|done]. lia.
Qed.

Lemma client_opt_nums o arg s s' : nums_ok (pt_opts s) -> client_opt o arg s = Ok s' -> nums_ok (pt_opts s').
Proof.
  intros Ho H. destruct o, arg as [a|]; cbn [client_opt] in H; try done;
    try (injection H as <-; exact Ho);
    try (unfold set_once, load_once in H; repeat case_match; try done; injection H as <-; exact Ho);
    (eapply number_ok; [exact Ho| | |exact H]; done).
Qed.

Lemma default_nums type : nums_ok (set_default_conf type).
Proof. intros k. destruct k; cbn; try lia. by case_decide. Qed.

Lemma client_parse_opts_nums argv type o :
  client_parse_opts argv (set_default_conf type) = Some (Ok o) -> nums_ok o.
Proof.
  unfold client_parse_opts, for_options. destruct (opts_loop _ _ _ _ _) as [r|] eqn:E; [|done].
  cbn [mbind option_bind]. destruct r as [s| | |]; try done. cbn [bind]. intros [= H].
  assert (nums_ok (pt_opts s)) as Hs.
  { eapply (opts_loop_keeps client_opt (fun s => nums_ok (pt_opts s))); [apply client_opt_nums| |exact E].
    apply default_nums. }
  unfold required in H. repeat case_match; try done; injection H as <-; exact Hs.
Qed.

(** When the client starts, every number is in its range and there are at least
    as many messages as workers, and as the protocol 4 or 5. *)
Lemma settings_in_range argv type s :
  client_setup_of argv type = Some (Ok s) ->
  nums_ok (st_opts s) /\ co_num (st_opts s) parallel <= co_num (st_opts s) total_msg_count /\
  4 <= co_num (st_opts s) version.
Proof.
  unfold client_setup_of. destruct (client_parse_opts argv (set_default_conf type)) as [[o| | |]|] eqn:E; try done.
  cbn [mbind option_bind]. apply client_parse_opts_nums in E as Ho.
  destruct (if co_num o version =? 5 then _ else _) as [[pr| | |]|]; try done. cbn [mbind option_bind bind].
  pose proof (Ho parallel) as H1. pose proof (Ho total_msg_count) as H2. pose proof (Ho interval) as H3.
  pose proof (Ho version) as H4. cbn [num_range fst snd] in H1, H2, H3, H4.
  destruct (Z.eqb_spec (co_num o interval) 0); [lia|]. cbn [andb].
  match goal with |- context [set_num parallel ?v o] => set (o1 := if co_num o total_msg_count <? co_num o parallel then set_num parallel v o else o) end.
  assert (nums_ok o1 /\ co_num o1 parallel <= co_num o1 total_msg_count /\ co_num o1 version = co_num o version) as (Ho1 & Hp & Hv).
  { subst o1. destruct (Z.ltb_spec (co_num o total_msg_count) (co_num o parallel)).
    - split_and!; [|unfold set_num, upd; cbn [co_num]; rewrite decide_True, decide_False by done; lia|done]. apply set_num_ok; [done|cbn; lia].
    - done. }
  destruct (match co_text _ url with Some _ => _ | None => _ end); [done|]. intros [= <-]. cbn [st_opts].
  destruct (Z.eqb_spec (co_num o1 version) 3) as [Hv3|Hv3].
  - split_and!; [|exact Hp|unfold set_num, upd; cbn [co_num]; rewrite decide_True by done; lia]. apply set_num_ok; [done|cbn; lia].
  - split_and!; [done..|lia].
Qed.

(** A user property of any client is appended to a list that was not
    allocated: it fits all three packets, and each client allocates at most
    two of the lists. *)
Theorem user_property_unallocated type pre kv post :
  Forall (fun p => property_id_type (fst p) = (false, false, true)) pre ->
  properties_classify type (pre ++ (USER_PROPERTY, kv) :: post) = Null.
Proof.
  intros Hpre. unfold properties_classify.
  assert (forall c s p, (s = None \/ p = None) ->
    classify_loop (pre ++ (USER_PROPERTY, kv) :: post) (PacketProps (Some c) s p) = Null) as H.
  { induction Hpre as [|x pre Hx Hp IH]; intros c s p Hn; cbn [app classify_loop].
    - cbn. destruct p; [|done]. cbn. destruct Hn as [->|?]; done.
    - rewrite Hx. cbn. by apply IH. }
  destruct type; apply H; auto.
Qed.

(** The value of a user property is cut at its first blank. *)
Theorem pair_value_cut k v rest :
  (61 ∉ k) -> k <> [] -> v <> [] -> Forall (fun c => is_blank c = false) v ->
  scan_pair (k ++ 61 :: v ++ 32 :: rest) = Some (k, v).
Proof.
  intros Hk Hk0 Hv0 Hv. unfold scan_pair.
  assert (before (fun c => c =? 61) (k ++ 61 :: v ++ 32 :: rest) = k) as ->.
  { clear - Hk. induction k as [|c k IH]; [done|]. apply not_elem_of_cons in Hk as [H1 H2]. cbn.
    destruct (Z.eqb_spec c 61); [done|]. by rewrite IH. }
  destruct k as [|c k]; [done|]. rewrite drop_app_length.
  assert (drop_blanks (v ++ 32 :: rest) = v ++ 32 :: rest) as ->.
  { destruct v as [|d v]; [done|]. inversion Hv as [|? ? Hd]; subst. cbn. by rewrite Hd. }
  assert (before is_blank (v ++ 32 :: rest) = v) as ->.
  { clear - Hv. induction Hv as [|d v Hd Hv IH]; [done|]. cbn. by rewrite Hd, IH. }
  by destruct v.
Qed.

End Options.

End CliOpts.
