(* ===== verification/CliClient.v ===== *)
(** * The client (nanomq_cli/client.c)

    After reading its options the client connects and runs [parallel] workers
    per connection, each the state machine [client_cb].  A callback is a function
    from the worker and what it observes to the worker and the calls it makes, as
    for the workers of the broker. *)

From S2P Require Import Prelude OptsApi CliOpts.

Module CliClient.

Import CliOpts.

#[local] Abbreviation property := (list (properties_type * property_value)).

(** ** Messages *)

(** What [publish_msg] sets.  The payload is the buffer and the length given
    with it. *)
Record pub_msg := PubMsg {
  pm_qos : Z;
  pm_retain : bool;
  pm_payload : option bytes;
  pm_len : Z;
  pm_topic : option bytes;
  pm_props : option (option property)
}.

(** nano_getline: the line with its end, or -1 at the end of the input; the
    length of the payload is one less. *)
Definition read_line (line : option bytes) : option bytes * Z :=
  match line with
  | Some l => (Some l, u64 (blen l - 1))
  | None => (None, u64 (u64 (-1) - 1))
  end.

(** The payload and its length are kept in the options. *)
Definition publish_msg (s : client_setup) (line : option bytes) : pub_msg :=
  let o := st_opts s in
  let '(payload, len) :=
    if co_flag o stdin_line then read_line line
    else (co_text o msg, match co_text o msg with Some m => blen m | None => 0 end) in
  PubMsg (co_num o qos) (co_flag o retain) payload len (head (co_topics o))
    (if co_num o version =? 5 then Some (pp_pub (st_props s)) else None).

(** What is set in the CONNECT message. *)
Record conn_msg := ConnMsg {
  cn_proto_version : Z;
  cn_keep_alive : Z;
  cn_clean_session : bool;
  cn_property : option property;
  cn_client_id : option bytes;
  cn_user_name : option bytes;
  cn_password : option bytes;
  cn_will_topic : option bytes;
  cn_will_qos : option Z;
  cn_will_msg : option bytes;
  cn_will_retain : option bool;
  cn_will_property : option property
}.

Definition connect_msg (s : client_setup) : conn_msg :=
  let o := st_opts s in
  ConnMsg (co_num o version) (co_num o keepalive) (co_flag o clean_session) (pp_conn (st_props s))
    (co_text o client_id) (co_text o user) (co_text o passwd) (co_text o will_topic)
    (if co_num o will_qos =? 0 then None else Some (co_num o will_qos)) (co_text o will_msg)
    (if co_flag o will_retain then Some true else None)
    (match co_text o will_topic with Some _ => st_will s | None => None end).

(** [connect_cb]: the SUBSCRIBE sent, topics with quality of service, no local,
    retain as published and retain handling, and the properties. *)
Definition connect_cb (s : client_setup) (reason : Z) : option (list (bytes * Z * Z * Z * Z) * option property) :=
  let o := st_opts s in
  if (reason =? 0) && bool_decide (co_type o = SUB) && (0 <? blen (co_topics o)) then
    Some (map (fun t => (t, co_num o qos, 1, 0, 0)) (co_topics o), pp_sub (st_props s))
  else None.

(** ** Printing a received message *)

Definition hex_digit (n : Z) : Z := if n <? 10 then 48 + n else 87 + n.

(** sprintf(&buf[pos], "%02x", ..) in a buffer of [size] bytes: two digits and
    the NUL.  [None] is a write behind it. *)
Fixpoint hex_loop (payload : bytes) (pos size : Z) : option bytes :=
  match payload with
  | [] => if pos + 2 <=? size then Some [10] else None
  | b :: payload =>
      if pos + 3 <=? size then
        rest ← hex_loop payload (pos + 2) size;
        Some (hex_digit (Z.shiftr (Z.land b 255) 4) :: hex_digit (Z.land b 15) :: rest)
      else None
  end.

(** The text after "HEX : "; the size is computed in 32 bits. *)
Definition hex_text (payload : bytes) : option bytes := hex_loop payload 0 (u32 (u32 (2 * blen payload) + 2)).

(** ** The worker *)

Inductive work_state := INIT | RECV | RECV_WAIT | SEND_WAIT | SEND.

Inductive work_msg := Outgoing (m : pub_msg) | Incoming (topic payload : bytes).

Record work := Work { wk_state : work_state; wk_msg : option work_msg; wk_msg_count : Z }.

(** What a callback observes: the result of the aio, the message it carries,
    the line of the standard input. *)
Record input := Input { in_result : Z; in_msg : option work_msg; in_line : option bytes }.

Inductive action :=
  | CloneMsg
  | FreeMsg
  | SendMsg
  | RecvMsg
  | SleepAio (ms : Z)
  | PrintMsg (topic payload hex : bytes)
  | CloseSocket
  | ExitWith (code : Z)
  | FatalError
  | Undefined.

#[export] Instance action_eq_dec : EqDecision action.
Proof. solve_decision. Defined.

Section Worker.

Context (NNG_ECONNSHUT NNG_EINTERNAL : Z) (s : client_setup).

Definition client_cb (w : work) (i : input) : work * list action :=
  let o := st_opts s in
  match wk_state w with
  | INIT =>
      match co_type o with
      | PUB => (Work SEND (Some (Outgoing (publish_msg s (in_line i)))) (wk_msg_count w), [CloneMsg; SendMsg])
      | SUB | CONN => (Work RECV (wk_msg w) (wk_msg_count w), [RecvMsg])
      end
  | RECV =>
      if negb (in_result i =? 0) then
        if in_result i =? NNG_ECONNSHUT then
          (Work INIT (in_msg i) (wk_msg_count w), [FreeMsg; SleepAio 1000])
        else if in_result i =? NNG_EINTERNAL then (w, [FatalError])
        else (Work INIT (wk_msg w) (wk_msg_count w), [SleepAio 1000])
      else (Work RECV_WAIT (in_msg i) (wk_msg_count w), [SleepAio 0])
  | RECV_WAIT =>
      match wk_msg w with
      | Some (Incoming topic payload) =>
          let prints :=
            if 0 <? blen topic then
              match hex_text payload with Some h => [PrintMsg topic payload h] | None => [Undefined] end
            else [] in
          (Work RECV None (wk_msg_count w), prints ++ [FreeMsg; RecvMsg])
      | _ => (w, [Undefined])
      end
  | SEND =>
      if negb (in_result i =? 0) then (w, [FreeMsg; FatalError])
      else if co_flag o stdin_line then (Work INIT (wk_msg w) (wk_msg_count w), [SleepAio 0])
      else
        let count := u64 (wk_msg_count w - 1) in
        if 0 <? count then (Work SEND_WAIT (wk_msg w) count, [CloneMsg; SleepAio (co_num o interval)])
        else (Work SEND (wk_msg w) count, [CloseSocket; ExitWith 1])
  | SEND_WAIT => (Work SEND (wk_msg w) (wk_msg_count w), [SendMsg])
  end.

(** A sequence of callbacks. *)
Fixpoint run (w : work) (ins : list input) : work * list action :=
  match ins with
  | [] => (w, [])
  | i :: ins => let '(w, l) := client_cb w i in let '(w, k) := run w ins in (w, l ++ k)
  end.

End Worker.

(** [average_msgs]: the number of messages of each worker. *)
Definition average_msgs (total parallel : Z) : list Z :=
  let remainder := total mod parallel in
  let average := total / parallel in
  imap (fun i a => if Z.of_nat i <? remainder then a + 1 else a) (replicate (Z.to_nat parallel) average).

(** ** Creating a client *)

Inductive client_call :=
  | OpenSocket (v5 : bool)
  | SetCallbacks
  | AllocWork
  | CreateDialer (url : option bytes)
  | DialerTls (cacert cert key pass : option bytes)
  | DialerConnMsg (m : conn_msg)
  | SocketConnMsg (m : conn_msg)
  | StartDialer
  | StartWork (count : Z).

(** [create_client] without QUIC. *)
Definition create_client (s : client_setup) : list client_call :=
  let o := st_opts s in
  [OpenSocket (co_num o version =? 5); SetCallbacks] ++
  replicate (Z.to_nat (co_num o parallel)) AllocWork ++
  [CreateDialer (co_text o url)] ++
  (if co_flag o enable_ssl then [DialerTls (co_text o cacert) (co_text o cert) (co_text o key) (co_text o keypass)] else []) ++
  [DialerConnMsg (connect_msg s); SocketConnMsg (connect_msg s); StartDialer] ++
  map StartWork (average_msgs (co_num o total_msg_count) (co_num o parallel)).

(** Workers of one process, by their turns; nothing runs after the exit. *)
Fixpoint run_workers (s : client_setup) (ws : list work) (turns : list nat) : list action :=
  match turns with
  | [] => []
  | t :: turns =>
      match ws !! t with
      | None => run_workers s ws turns
      | Some w =>
          let '(w, l) := client_cb 0 0 s w (Input 0 None None) in
          if bool_decide (ExitWith 1 ∈ l) then l else l ++ run_workers s (<[t := w]> ws) turns
      end
  end.

(** ** Shares *)

Lemma sum_shares (r : Z) (n : nat) (k a : Z) :
  Z.of_nat n = k -> 0 <= r <= k ->
  foldr Z.add 0 (imap (fun i x => if Z.of_nat i <? r then x + 1 else x) (replicate n a)) = k * a + r.
Proof.
  intros <-. revert r. induction n as [|n IH]; intros r Hr; [cbn; lia|].
  cbn [replicate imap foldr]. rewrite Nat2Z.inj_0.
  erewrite (imap_ext _ (fun i x => if Z.of_nat i <? r - 1 then x + 1 else x)).
  2: { intros i x _. cbn. destruct (Z.ltb_spec (Z.of_nat (S i)) r), (Z.ltb_spec (Z.of_nat i) (r - 1)); lia. }
  destruct (Z.ltb_spec 0 r).
  - rewrite (IH (r - 1)) by lia. lia.
  - replace r with 0 by lia.
    erewrite (imap_ext _ (fun i x => if Z.of_nat i <? 0 then x + 1 else x)).
    2: { intros i x _. destruct (Z.ltb_spec (Z.of_nat i) (0 - 1)), (Z.ltb_spec (Z.of_nat i) 0); lia. }
    rewrite (IH 0) by lia. lia.
Qed.

(** The shares of the workers add up to the messages asked for and differ by at
    most one. *)
Lemma average_msgs_fair total parallel :
  0 <= total -> 0 < parallel ->
  length (average_msgs total parallel) = Z.to_nat parallel /\
  foldr Z.add 0 (average_msgs total parallel) = total /\
  Forall (fun n => total / parallel <= n <= total / parallel + 1) (average_msgs total parallel).
Proof.
  intros Ht Hp. unfold average_msgs. split_and!.
  - rewrite length_imap, length_replicate. done.
  - rewrite sum_shares with (k := parallel).
    + symmetry. apply Z.div_mod. lia.
    + rewrite Z2Nat.id by lia. done.
    + pose proof (Z.mod_pos_bound total parallel Hp). lia.
  - apply Forall_lookup. intros i x. rewrite list_lookup_imap, fmap_Some.
    intros (y & Hy & ->). apply lookup_replicate in Hy as [-> _]. destruct (_ <? _); lia.
Qed.

(** Whatever the options, a client that starts has at least one worker, every
    worker has at least one message to send, the shares differ by at most one and
    together they are the number of messages asked for. *)
Theorem workers_share `{OP : OptsParse} (NNG_EINVAL NNG_EAMBIGUOUS NNG_ENOARG : Z) (nng_strcasecmp : bytes -> bytes -> Z)
    (loadfile : bytes -> option bytes) (value_type : properties_type -> property_type_enum) argv type s :
  client_setup_of NNG_EINVAL NNG_EAMBIGUOUS NNG_ENOARG nng_strcasecmp loadfile value_type argv type = Some (Ok s) ->
  let total := co_num (st_opts s) total_msg_count in
  let shares := average_msgs total (co_num (st_opts s) parallel) in
  Z.of_nat (length shares) = co_num (st_opts s) parallel /\ shares <> [] /\
  foldr Z.add 0 shares = total /\ Forall (fun n => 1 <= n <= total) shares /\
  (forall x y, x ∈ shares -> y ∈ shares -> x - y <= 1).
Proof.
  intros H total shares. apply settings_in_range in H as (Ho & Hp & _). fold total in Hp.
  pose proof (Ho parallel) as H1. cbn [num_range fst snd] in H1.
  set (par := co_num (st_opts s) parallel) in *.
  destruct (average_msgs_fair total par ltac:(lia) ltac:(lia)) as (Hl & Hs & Hf). fold shares in Hl, Hs, Hf.
  assert (1 <= total / par) by (apply Z.div_le_lower_bound; lia).
  assert (par = 1 \/ total / par + 1 <= total).
  { destruct (decide (par = 1)); [by left|right]. assert (total / par < total) by (apply Z.div_lt; lia). lia. }
  split_and!.
  - rewrite Hl, Z2Nat.id; lia.
  - intros E. rewrite E in Hl. cbn in Hl. lia.
  - done.
  - destruct (decide (par = 1)) as [E|]; [|eapply Forall_impl; [exact Hf|cbv beta; intros x Hx; lia]].
    subst shares. clearbody total par. unfold average_msgs. rewrite E, Z.mod_1_r, Z.div_1_r. cbn. constructor; [change (1 <= total <= total); lia|constructor].
  - rewrite Forall_forall in Hf. intros x y Hx%Hf Hy%Hf. lia.
Qed.

(** ** A publishing worker *)

Section Runs.

Context (NNG_ECONNSHUT NNG_EINTERNAL : Z) (s : client_setup).
#[local] Abbreviation cb := (client_cb NNG_ECONNSHUT NNG_EINTERNAL s).
#[local] Abbreviation runs := (run NNG_ECONNSHUT NNG_EINTERNAL s).

Definition ok_input (line : option bytes) : input := Input 0 None line.

Lemma run_app w ins js : runs w (ins ++ js) =
  let '(w1, l) := runs w ins in let '(w2, k) := runs w1 js in (w2, l ++ k).
Proof.
  revert w. induction ins as [|i ins IH]; intros w; cbn [app run].
  - destruct (runs w js). done.
  - destruct (cb w i) as [w1 l]. rewrite IH. destruct (runs w1 ins) as [w2 k]. destruct (runs w2 js). rewrite app_assoc. done.
Qed.

(** The rounds after the first message. *)
Lemma send_rounds n m :
  co_flag (st_opts s) stdin_line = false -> Z.of_nat n < 18446744073709551615 ->
  runs (Work SEND m (Z.of_nat (S n))) (replicate (S (2 * n)) (ok_input None)) =
  (Work SEND m 0, concat (replicate n [CloneMsg; SleepAio (co_num (st_opts s) interval); SendMsg]) ++ [CloseSocket; ExitWith 1]).
Proof.
  intros Hs. induction n as [|n IH]; intros Hn.
  - cbn. rewrite Hs. done.
  - replace (S (2 * S n)) with (2 + S (2 * n))%nat by lia. rewrite replicate_add, run_app.
    assert (runs (Work SEND m (Z.of_nat (S (S n)))) (replicate 2 (ok_input None)) =
            (Work SEND m (Z.of_nat (S n)), [CloneMsg; SleepAio (co_num (st_opts s) interval); SendMsg])) as ->.
    { cbn [replicate run client_cb wk_state wk_msg wk_msg_count in_result ok_input negb Z.eqb]. rewrite Hs.
      rewrite u64_small by lia. destruct (Z.ltb_spec 0 (Z.of_nat (S (S n)) - 1)); [|lia].
      cbn [app client_cb wk_state wk_msg wk_msg_count]. do 2 f_equal. lia. }
    rewrite IH by lia. done.
Qed.

End Runs.

(** A publishing worker that is given [n] messages sends its message exactly
    [n] times, waiting the interval between, and gives every send a reference
    of its own; then it closes the socket and ends the process, with the status
    1. *)
Theorem worker_publishes (NNG_ECONNSHUT NNG_EINTERNAL : Z) s n :
  co_type (st_opts s) = PUB -> co_flag (st_opts s) stdin_line = false -> Z.of_nat n < 18446744073709551615 ->
  run NNG_ECONNSHUT NNG_EINTERNAL s (Work INIT None (Z.of_nat (S n))) (replicate (2 * S n) (ok_input None)) =
  (Work SEND (Some (Outgoing (publish_msg s None))) 0,
   [CloneMsg; SendMsg] ++ concat (replicate n [CloneMsg; SleepAio (co_num (st_opts s) interval); SendMsg]) ++
   [CloseSocket; ExitWith 1]).
Proof.
  intros Ht Hs Hn. replace (2 * S n)%nat with (1 + S (2 * n))%nat by lia.
  rewrite replicate_add, run_app.
  assert (run NNG_ECONNSHUT NNG_EINTERNAL s (Work INIT None (Z.of_nat (S n))) (replicate 1 (ok_input None)) =
          (Work SEND (Some (Outgoing (publish_msg s None))) (Z.of_nat (S n)), [CloneMsg; SendMsg])) as ->.
  { cbn [replicate run client_cb wk_state]. rewrite Ht. done. }
  rewrite send_rounds by done. done.
Qed.

(** ** The printed message *)

Definition hex_of (b : Z) : bytes := [hex_digit (b / 16); hex_digit (b mod 16)].

Lemma hex_loop_ok payload pos size :
  Forall (fun b => 0 <= b < 256) payload -> pos + 2 * blen payload + 2 <= size ->
  hex_loop payload pos size = Some (concat (map hex_of payload) ++ [10]).
Proof.
  intros Hp. revert pos. induction Hp as [|b payload Hb Hp IH]; intros pos Hsz; cbn [hex_loop map concat app].
  - unfold blen in Hsz. cbn [length] in Hsz. destruct (Z.leb_spec (pos + 2) size); [done|lia].
  - rewrite blen_cons in Hsz. pose proof (blen_nonneg payload).
    destruct (Z.leb_spec (pos + 3) size); [|lia]. rewrite IH by lia. cbn [mbind option_bind].
    unfold hex_of. cbn [app]. do 2 f_equal.
    + change 255 with (Z.ones 8). rewrite Z.land_ones, Z.mod_small, Z.shiftr_div_pow2 by lia. done.
    + f_equal. change 15 with (Z.ones 4). rewrite Z.land_ones by lia. done.
Qed.

(** A received payload is printed as its hexadecimal digits within the buffer
    allocated for them, unless the size of the buffer overflows: at 2147483647
    bytes it is 0. *)
Theorem hex_text_correct payload :
  Forall (fun b => 0 <= b < 256) payload -> blen payload <= 2147483646 ->
  hex_text payload = Some (concat (map hex_of payload) ++ [10]).
Proof.
  intros Hp Hl. pose proof (blen_nonneg payload). unfold hex_text. apply hex_loop_ok; [done|].
  rewrite (u32_small (2 * blen payload)), u32_small by lia. lia.
Qed.

Theorem hex_text_overflow payload : blen payload = 2147483647 -> hex_text payload = None.
Proof.
  intros Hl. unfold hex_text. rewrite Hl. destruct payload as [|b payload]; [done|]. done.
Qed.

(** ** Lines of the standard input *)

(** A line that ends with a newline is sent without it. *)
Theorem line_published s l :
  co_flag (st_opts s) stdin_line = true -> blen l < 18446744073709551615 ->
  let m := publish_msg s (Some (l ++ [10])) in
  pm_payload m = Some (l ++ [10]) /\ pm_len m = blen l /\ pm_topic m = head (co_topics (st_opts s)).
Proof.
  intros Hs Hl m. subst m. unfold publish_msg. rewrite Hs. cbn. split_and!; [done| |done].
  rewrite blen_app. change (blen [10]) with 1. pose proof (blen_nonneg l). rewrite u64_small; lia.
Qed.

(** At the end of the input the message has no payload and the length 2^64 - 2;
    a last line without a newline loses its last byte. *)
Theorem input_end s l c :
  co_flag (st_opts s) stdin_line = true -> blen l < 18446744073709551615 ->
  (pm_payload (publish_msg s None) = None /\ pm_len (publish_msg s None) = 18446744073709551614) /\
  pm_len (publish_msg s (Some (l ++ [c]))) = blen l.
Proof.
  intros Hs Hl. unfold publish_msg. rewrite Hs. cbn. split; [done|].
  rewrite blen_app. change (blen [c]) with 1. pose proof (blen_nonneg l). rewrite u64_small; lia.
Qed.

(** ** Several workers *)

Definition two_workers : client_setup :=
  ClientSetup (ClientOpts PUB (co_num (set_num total_msg_count 4 (set_num parallel 2 (set_default_conf PUB))))
                 (fun _ => false) (fun _ => Some []) [lit "t"]) no_props None.

(** The first worker to finish ends the process: of the four messages of
    "-L 4 -n 2" three may be all that is sent. *)
Theorem early_exit :
  let l := run_workers two_workers (map (Work INIT None) (average_msgs 4 2)) [0; 1; 0; 0; 0; 1; 1; 1]%nat in
  length (filter (fun a => a = SendMsg) l) = 3%nat /\ last l = Some (ExitWith 1).
Proof. vm_compute. done. Qed.

(** ** Witnesses *)

Section Witness.

#[local] Existing Instance long_opts.

Definition five_by_two : list bytes :=
  [lit "nanomq_cli"; lit "pub"; lit "--topic"; lit "t"; lit "--msg"; lit "m"; lit "--limit"; lit "5"; lit "--parallel"; lit "2"].

Definition setup_of (argv : list bytes) : client_setup :=
  match client_setup_of 3 1000 1001 (fun _ _ => 0) (fun _ => None) (fun _ => STR) argv PUB with
  | Some (Ok s) => s
  | _ => two_workers
  end.

Lemma workers_share_witness :
  average_msgs (co_num (st_opts (setup_of five_by_two)) total_msg_count)
    (co_num (st_opts (setup_of five_by_two)) parallel) = [3; 2] /\
  Forall (fun n => 1 <= n <= 5) [3; 2].
Proof.
  split; [reflexivity|].
  exact (proj1 (proj2 (proj2 (proj2 (workers_share 3 1000 1001 (fun _ _ => 0) (fun _ => None) (fun _ => STR)
    five_by_two PUB (setup_of five_by_two) eq_refl))))).
Defined.

Lemma worker_publishes_witness :
  run 31 6 (setup_of five_by_two) (Work INIT None 2) (replicate 4 (ok_input None)) =
  (Work SEND (Some (Outgoing (publish_msg (setup_of five_by_two) None))) 0,
   [CloneMsg; SendMsg; CloneMsg; SleepAio 10; SendMsg; CloseSocket; ExitWith 1]).
Proof. exact (worker_publishes 31 6 (setup_of five_by_two) 1 eq_refl eq_refl eq_refl). Defined.

End Witness.

End CliClient.
