(* ===== verification/BenchOpts.v ===== *)
(** * The options of the benchmark (nanomq_cli/nnb_opt.c)

    "nanomq_cli bench conn|sub|pub": the settings and the options that change
    them, long ones by name and short ones by character.  getopt_long and the
    reading of files are parameters. *)

From S2P Require Import Prelude OptsApi CliOpts.

Module BenchOpts.

#[local] Abbreviation Ok := CliOpts.Ok.
#[local] Abbreviation Fatal := CliOpts.Fatal.
#[local] Abbreviation Null := CliOpts.Null.
#[local] Abbreviation outcome := CliOpts.outcome.
#[local] Abbreviation upd := CliOpts.upd.

(** ** Settings *)

Inductive num_field :=
  port | version | count | startnumber | interval | keepalive | qos | size | limit | interval_of_msg.
Inductive flag_field := clean | retain | tls_enable.
Inductive text_field := host | username | password | topic | cacert | cert | key | keypass.

#[export] Instance num_field_eq_dec : EqDecision num_field.
Proof. solve_decision. Defined.
#[export] Instance flag_field_eq_dec : EqDecision flag_field.
Proof. solve_decision. Defined.
#[export] Instance text_field_eq_dec : EqDecision text_field.
Proof. solve_decision. Defined.

(** [nnb_conn_opt], [nnb_sub_opt] and [nnb_pub_opt]; a number without a value is
    [None]. *)
Record bench_opt := BenchOpt {
  b_num : num_field -> option Z;
  b_flag : flag_field -> bool;
  b_text : text_field -> option bytes
}.

Definition set_num (k : num_field) (v : Z) (o : bench_opt) : bench_opt :=
  BenchOpt (upd (b_num o) k (Some v)) (b_flag o) (b_text o).
Definition set_flag (k : flag_field) (v : bool) (o : bench_opt) : bench_opt :=
  BenchOpt (b_num o) (upd (b_flag o) k v) (b_text o).
Definition set_text (k : text_field) (v : bytes) (o : bench_opt) : bench_opt :=
  BenchOpt (b_num o) (b_flag o) (upd (b_text o) k (Some v)).

Definition long_options : list longopt :=
  [LongOpt (lit "host") true; LongOpt (lit "port") true; LongOpt (lit "topic") true; LongOpt (lit "version") true;
   LongOpt (lit "count") true; LongOpt (lit "startnumber") true; LongOpt (lit "interval") true;
   LongOpt (lit "username") true; LongOpt (lit "password") true; LongOpt (lit "keepalive") true;
   LongOpt (lit "clean") true; LongOpt (lit "limit") true; LongOpt (lit "qos") true; LongOpt (lit "size") true;
   LongOpt (lit "retain") true; LongOpt (lit "interval_of_msg") true; LongOpt (lit "ssl") false;
   LongOpt (lit "cafile") true; LongOpt (lit "certfile") true; LongOpt (lit "keyfile") true;
   LongOpt (lit "keypass") true; LongOpt (lit "help") false].

Definition named (name : bytes) (s : string) : bool := bool_decide (name = lit s).

Section Options.

Context `{GL : GetoptLong}.
(** The content of a file; [None] ends the program. *)
Context (loadfile : bytes -> option bytes).

(** ** What an option sets *)

Section Option.

Context (arg : option bytes) (o : bench_opt).

Definition with_arg (f : bytes -> outcome bench_opt) : outcome bench_opt :=
  match arg with Some a => f a | None => Null end.

Definition num_arg (k : num_field) : outcome bench_opt := with_arg (fun a => Ok (set_num k (atoi a) o)).
Definition text_arg (k : text_field) : outcome bench_opt := with_arg (fun a => Ok (set_text k a o)).
Definition file_arg (k : text_field) : outcome bench_opt :=
  with_arg (fun a => match loadfile a with Some d => Ok (set_text k d o) | None => Fatal end).

Definition clean_arg : outcome bench_opt :=
  with_arg (fun a => if named a "true" then Ok (set_flag clean true o)
                     else if named a "false" then Ok (set_flag clean false o) else Fatal).

Definition retain_arg : outcome bench_opt :=
  with_arg (fun a => if named a "true" then Ok (set_flag retain true o)
                     else if named a "true" then Ok (set_flag retain false o) else Fatal).

Definition qos_arg : outcome bench_opt :=
  with_arg (fun a => if (atoi a <? 0) || (2 <? atoi a) then Fatal else Ok (set_num qos (atoi a) o)).

Definition limit_arg : outcome bench_opt :=
  with_arg (fun a => if atoi a <? 0 then Fatal else Ok (set_num limit (atoi a) o)).

Definition ssl : outcome bench_opt := Ok (set_flag tls_enable true o).

(** The names that all three commands know. *)
Definition common_long (name : bytes) : outcome bench_opt :=
  if named name "help" then Fatal
  else if named name "host" then text_arg host
  else if named name "port" then num_arg port
  else if named name "version" then num_arg version
  else if named name "count" then num_arg count
  else if named name "startnumber" then num_arg startnumber
  else if named name "interval" then num_arg interval
  else if named name "username" then text_arg username
  else if named name "password" then text_arg password
  else if named name "keepalive" then num_arg keepalive
  else if named name "ssl" then ssl
  else if named name "cafile" then file_arg cacert
  else if named name "certfile" then file_arg cert
  else if named name "keyfile" then file_arg key
  else if named name "keypass" then text_arg keypass
  else if named name "clean" then clean_arg
  else Ok o.

(** The characters that all three commands know; others end the program. *)
Definition common_short (c : Z) : outcome bench_opt :=
  if c =? 104 then text_arg host
  else if c =? 112 then num_arg port
  else if c =? 86 then num_arg version
  else if c =? 99 then num_arg count
  else if c =? 110 then num_arg startnumber
  else if c =? 105 then num_arg interval
  else if c =? 117 then text_arg username
  else if c =? 80 then text_arg password
  else if c =? 107 then num_arg keepalive
  else if c =? 67 then clean_arg
  else if c =? 83 then ssl
  else Fatal.

Definition conn_long (name : bytes) : outcome bench_opt := common_long name.
Definition conn_short (c : Z) : outcome bench_opt := common_short c.

Definition sub_long (name : bytes) : outcome bench_opt :=
  if named name "topic" then text_arg topic else if named name "qos" then qos_arg else common_long name.
Definition sub_short (c : Z) : outcome bench_opt :=
  if c =? 116 then text_arg topic else if c =? 113 then qos_arg else common_short c.

Definition pub_long (name : bytes) : outcome bench_opt :=
  if named name "topic" then text_arg topic
  else if named name "qos" then qos_arg
  else if named name "limit" then num_arg limit
  else if named name "retain" then retain_arg
  else if named name "size" then num_arg size
  else if named name "interval_of_msg" then num_arg interval_of_msg
  else common_long name.
Definition pub_short (c : Z) : outcome bench_opt :=
  if c =? 108 then num_arg limit
  else if c =? 116 then text_arg topic
  else if c =? 113 then qos_arg
  else if c =? 115 then num_arg size
  else if c =? 73 then num_arg interval_of_msg
  else if c =? 114 then retain_arg
  else if c =? 76 then limit_arg
  else common_short c.

End Option.

(** ** The commands *)

Section Loop.

Context (long : option bytes -> bench_opt -> bytes -> outcome bench_opt).
Context (short : option bytes -> bench_opt -> Z -> outcome bench_opt).

(** The switch on the result of getopt_long. *)
Definition opt_step (g : got) (o : bench_opt) : outcome bench_opt :=
  if g_c g =? 0 then
    match long_options !! g_index g with Some l => long (g_arg g) o (lo_name l) | None => Null end
  else short (g_arg g) o (g_c g).

Fixpoint opt_loop (gs : list got) (o : bench_opt) : outcome bench_opt :=
  match gs with
  | [] => Ok o
  | g :: gs => CliOpts.bind (opt_step g o) (opt_loop gs)
  end.

End Loop.

(** [argv] is [argv + 2] of the program. *)
Definition conn_opt_set (argv : list bytes) (o : bench_opt) : outcome bench_opt :=
  if (length argv <? 2)%nat then Fatal
  else opt_loop conn_long conn_short (fst (getopt_long (lit "h:p:V:c:n:i:u:P:k:C:S0") long_options argv)) o.

Definition sub_opt_set (argv : list bytes) (o : bench_opt) : outcome bench_opt :=
  if (length argv <? 2)%nat then Fatal
  else
    let '(gs, optind) := getopt_long (lit "q:t:h:p:V:c:n:i:u:P:k:C:S0") long_options argv in
    CliOpts.bind (opt_loop sub_long sub_short gs o) (fun o => if (optind <? length argv)%nat then Fatal else Ok o).

Definition pub_opt_set (argv : list bytes) (o : bench_opt) : outcome bench_opt :=
  if (length argv <? 2)%nat then Fatal
  else
    let '(gs, optind) := getopt_long (lit "q:l:r:s:t:I:h:p:V:c:n:i:u:P:k:C:L:S0") long_options argv in
    CliOpts.bind (opt_loop pub_long pub_short gs o) (fun o =>
      if (optind <? length argv)%nat then Fatal
      else match b_text o topic with None => Fatal | Some _ => Ok o end).

(** What all three commands start from. *)
Definition common_num (k : num_field) : option Z :=
  match k with
  | port => Some 1883 | version => Some 4 | count => Some 200 | startnumber => Some 0 | interval => Some 10
  | keepalive => Some 300 | _ => None
  end.

Definition initial (nums : num_field -> option Z) : bench_opt :=
  BenchOpt nums (fun k => bool_decide (k = clean)) (fun _ => None).

(** The defaults that are set after the options. *)
Definition late_defaults (o : bench_opt) : bench_opt :=
  let o := match b_text o host with None => set_text host (lit "localhost") o | Some _ => o end in
  if bool_decide (b_num o version = Some 3) then set_num version 4 o else o.

Definition nnb_conn_opt_init (argv : list bytes) : outcome bench_opt :=
  CliOpts.bind (conn_opt_set (drop 2 argv) (initial common_num)) (fun o => Ok (late_defaults o)).

Definition nnb_sub_opt_init (argv : list bytes) : outcome bench_opt :=
  CliOpts.bind (sub_opt_set (drop 2 argv) (initial (upd common_num qos (Some 0)))) (fun o =>
    match b_text o topic with None => Fatal | Some _ => Ok (late_defaults o) end).

Definition nnb_pub_opt_init (argv : list bytes) : outcome bench_opt :=
  CliOpts.bind (pub_opt_set (drop 2 argv)
    (initial (fun k => match k with size => Some 256 | limit => Some 0 | interval_of_msg => Some 1000 | _ => common_num k end)))
    (fun o => Ok (late_defaults o)).

(** ** Long and short options *)

Definition common_pairs : list (Z * string) :=
  [(104, "host"); (112, "port"); (86, "version"); (99, "count"); (110, "startnumber"); (105, "interval");
   (117, "username"); (80, "password"); (107, "keepalive"); (67, "clean"); (83, "ssl")]%string.

(** A short option does what the long one of the same meaning does. *)
Theorem short_long_agree arg o :
  Forall (fun '(c, n) => conn_short arg o c = conn_long arg o (lit n)) common_pairs /\
  Forall (fun '(c, n) => sub_short arg o c = sub_long arg o (lit n)) (common_pairs ++ [(116, "topic"); (113, "qos")]%string) /\
  Forall (fun '(c, n) => pub_short arg o c = pub_long arg o (lit n))
    (common_pairs ++ [(116, "topic"); (113, "qos"); (108, "limit"); (114, "retain"); (115, "size"); (73, "interval_of_msg")]%string).
Proof. split_and!; repeat (constructor; [reflexivity|]); constructor. Qed.

(** "-L" refuses a negative limit, "-l" and "--limit" do not. *)
Theorem negative_limit_accepted o :
  pub_short (Some (lit "-1")) o 76 = Fatal /\
  pub_short (Some (lit "-1")) o 108 = Ok (set_num limit (-1) o) /\
  pub_long (Some (lit "-1")) o (lit "limit") = Ok (set_num limit (-1) o).
Proof. done. Qed.

(** "--retain" can only be true; "--retain false" ends the program. *)
Theorem retain_false_refused a o :
  (forall o', retain_arg (Some a) o = Ok o' -> o' = set_flag retain true o) /\
  pub_long (Some (lit "false")) o (lit "retain") = Fatal /\ pub_short (Some (lit "false")) o 114 = Fatal.
Proof.
  split_and!; [|done|done]. intros o'. unfold retain_arg, with_arg. destruct (named a "true"); [|done]. by intros [= <-].
Qed.

(** ** Settings of a run *)

(** What every accepted set of options has. *)
Definition opt_inv (o : bench_opt) : Prop :=
  forall q, b_num o qos = Some q -> 0 <= q <= 2.

Lemma upd_eq {K V} `{EqDecision K} (f : K -> V) k v : upd f k v k = v.
Proof. unfold upd, CliOpts.upd. by rewrite decide_True. Qed.

Lemma upd_ne {K V} `{EqDecision K} (f : K -> V) k k' v : k' <> k -> upd f k v k' = f k'.
Proof. intros. unfold upd, CliOpts.upd. by rewrite decide_False. Qed.

(** How one option changes the settings: at most one of them, and the quality
    of service only within its range. *)
Inductive sets (o : bench_opt) : bench_opt -> Prop :=
  | sets_none : sets o o
  | sets_num k v : (k = qos -> 0 <= v <= 2) -> sets o (set_num k v o)
  | sets_flag k v : sets o (set_flag k v o)
  | sets_text k v : sets o (set_text k v o).

Lemma num_sets arg o k o' : k <> qos -> num_arg arg o k = Ok o' -> sets o o'.
Proof. intros Hk. unfold num_arg, with_arg. destruct arg; [|done]. intros [= <-]. by constructor. Qed.

Lemma text_sets arg o k o' : text_arg arg o k = Ok o' -> sets o o'.
Proof. unfold text_arg, with_arg. destruct arg; [|done]. intros [= <-]. constructor. Qed.

Lemma file_sets arg o k o' : file_arg arg o k = Ok o' -> sets o o'.
Proof.
  unfold file_arg, with_arg. destruct arg as [a|]; [|done]. destruct (loadfile a); [|done]. intros [= <-]. constructor.
Qed.

Lemma clean_sets arg o o' : clean_arg arg o = Ok o' -> sets o o'.
Proof.
  unfold clean_arg, with_arg. destruct arg as [a|]; [|done].
  destruct (named a "true"); [|destruct (named a "false")]; [| |done]; intros [= <-]; constructor.
Qed.

Lemma retain_sets arg o o' : retain_arg arg o = Ok o' -> sets o o'.
Proof.
  unfold retain_arg, with_arg. destruct arg as [a|]; [|done]. destruct (named a "true"); [|done]. intros [= <-]. constructor.
Qed.

Lemma qos_sets arg o o' : qos_arg arg o = Ok o' -> sets o o'.
Proof.
  unfold qos_arg, with_arg. destruct arg as [a|]; [|done].
  destruct (Z.ltb_spec (atoi a) 0), (Z.ltb_spec 2 (atoi a)); try done. intros [= <-]. constructor. lia.
Qed.

Lemma limit_sets arg o o' : limit_arg arg o = Ok o' -> sets o o'.
Proof.
  unfold limit_arg, with_arg. destruct arg as [a|]; [|done]. destruct (_ <? _); [done|]. intros [= <-]. by constructor.
Qed.

Lemma ssl_sets o o' : ssl o = Ok o' -> sets o o'.
Proof. intros [= <-]. constructor. Qed.

#[local] Ltac branch :=
  match goal with |- context [if ?b then _ else _] => destruct b end.
#[local] Ltac one_set :=
  first [done | apply num_sets; done | apply text_sets | apply file_sets | apply clean_sets | apply retain_sets
        | apply qos_sets | apply limit_sets | apply ssl_sets | by intros [= <-]; constructor].

Lemma common_long_sets arg o name o' : common_long arg o name = Ok o' -> sets o o'.
Proof. unfold common_long. repeat (branch; [one_set|]). one_set. Qed.

Lemma common_short_sets arg o c o' : common_short arg o c = Ok o' -> sets o o'.
Proof. unfold common_short. repeat (branch; [one_set|]). one_set. Qed.

Lemma sub_long_sets arg o name o' : sub_long arg o name = Ok o' -> sets o o'.
Proof. unfold sub_long. repeat (branch; [one_set|]). apply common_long_sets. Qed.

Lemma sub_short_sets arg o c o' : sub_short arg o c = Ok o' -> sets o o'.
Proof. unfold sub_short. repeat (branch; [one_set|]). apply common_short_sets. Qed.

Lemma pub_long_sets arg o name o' : pub_long arg o name = Ok o' -> sets o o'.
Proof. unfold pub_long. repeat (branch; [one_set|]). apply common_long_sets. Qed.

Lemma pub_short_sets arg o c o' : pub_short arg o c = Ok o' -> sets o o'.
Proof. unfold pub_short. repeat (branch; [one_set|]). apply common_short_sets. Qed.

Lemma sets_inv o o' : sets o o' -> opt_inv o -> opt_inv o'.
Proof.
  intros [|k v Hv|k v|k v] Hq; try done. intros q. cbn. destruct (decide (k = qos)) as [->|Hk].
  - rewrite upd_eq. intros [= <-]. auto.
  - rewrite upd_ne by done. apply Hq.
Qed.

Lemma opt_loop_inv long short gs o o' :
  (forall arg o n o', long arg o n = Ok o' -> sets o o') -> (forall arg o c o', short arg o c = Ok o' -> sets o o') ->
  opt_loop long short gs o = Ok o' -> opt_inv o -> opt_inv o'.
Proof.
  intros Hl Hs. revert o. induction gs as [|g gs IH]; intros o; cbn [opt_loop]; [by intros [= <-]|].
  destruct (opt_step long short g o) as [o1| | |] eqn:E; try done. cbn [CliOpts.bind]. intros H Hq.
  eapply IH; [exact H|]. eapply sets_inv; [|exact Hq]. unfold opt_step in E.
  destruct (_ =? 0); [destruct (long_options !! _); [|done]|]; eauto.
Qed.

Lemma late_inv o : opt_inv o -> opt_inv (late_defaults o) /\ is_Some (b_text (late_defaults o) host) /\
  b_num (late_defaults o) version <> Some 3 /\ (forall k, k <> host -> b_text (late_defaults o) k = b_text o k) /\
  (forall k, k <> version -> b_num (late_defaults o) k = b_num o k).
Proof.
  intros Hq. unfold late_defaults.
  set (o1 := match b_text o host with None => set_text host (lit "localhost") o | Some _ => o end).
  assert (b_num o1 = b_num o) as Hn by (subst o1; by destruct (b_text o host)).
  assert (is_Some (b_text o1 host) /\ forall k, k <> host -> b_text o1 k = b_text o k) as [Hh Ht].
  { subst o1. destruct (b_text o host) eqn:E; [by rewrite E|]. cbn. rewrite upd_eq. split; [done|]. intros. by apply upd_ne. }
  case_bool_decide as Hv.
  - split_and!; try done.
    + intros q. cbn. rewrite upd_ne, Hn by done. apply Hq.
    + intros k Hk. cbn. by rewrite upd_ne, Hn.
  - split_and!; try done; [|by rewrite Hn]. intros q. rewrite Hn. apply Hq.
Qed.

(** The options of a publishing run that is accepted name a topic; there is a
    host, the version is not 3, and the quality of service, if it was given, is
    0, 1 or 2. *)
Theorem pub_options_correct argv o :
  nnb_pub_opt_init argv = Ok o ->
  is_Some (b_text o topic) /\ is_Some (b_text o host) /\ b_num o version <> Some 3 /\ opt_inv o.
Proof.
  unfold nnb_pub_opt_init, pub_opt_set. destruct (_ <? _)%nat; [done|].
  destruct (getopt_long _ _ _) as [gs optind].
  match goal with |- context [opt_loop ?l ?s gs ?i] => destruct (opt_loop l s gs i) as [o1| | |] eqn:E end; try done.
  cbn [CliOpts.bind]. destruct (_ <? _)%nat; [done|]. destruct (b_text o1 topic) as [t|] eqn:Et; [|done]. intros [= <-].
  apply opt_loop_inv in E; [|apply pub_long_sets|apply pub_short_sets|done].
  destruct (late_inv o1 E) as (Hq & Hh & Hv & Ht & _). split_and!; try done. rewrite Ht by done. by rewrite Et.
Qed.

(** ** Arguments *)

Context `{GLL : !GetoptLongLaws}.

Lemma opt_loop_not_null long short s gs o :
  (forall l arg o, l ∈ long_options -> (lo_arg l = true -> is_Some arg) -> long arg o (lo_name l) <> Null) ->
  (forall c a arg o, short_opt s c = Some a -> (a = true -> is_Some arg) -> short arg o c <> Null) ->
  (forall arg o, short arg o 63 <> Null) ->
  (forall g, g ∈ gs ->
    (g_c g = 0 /\ exists l, long_options !! g_index g = Some l /\ (lo_arg l = true -> is_Some (g_arg g))) \/
    (g_c g <> 0 /\ g_c g = 63) \/
    (g_c g <> 0 /\ exists a, short_opt s (g_c g) = Some a /\ (a = true -> is_Some (g_arg g)))) ->
  opt_loop long short gs o <> Null.
Proof.
  intros Hl Hs Hq. revert o. induction gs as [|g gs IH]; intros o Hg; cbn [opt_loop]; [done|].
  apply CliOpts.bind_not_null; [|intros a; apply IH; intros; apply Hg; by right].
  unfold opt_step. destruct (Hg g ltac:(left)) as [(-> & l & E & Ha)|[[Hn Hc]|(Hn & a & E & Ha)]].
  - cbn. rewrite E. apply Hl; [by eapply list_elem_of_lookup_2|done].
  - rewrite Hc. cbn. apply Hq.
  - destruct (Z.eqb_spec (g_c g) 0); [done|]. by eapply Hs.
Qed.

Lemma with_arg_not_null arg f : is_Some arg -> (forall a, f a <> Null) -> with_arg arg f <> Null.
Proof. intros [a ->] Hf. apply Hf. Qed.

(** A long option of the table never uses a missing argument. *)
#[local] Ltac arg_ok Ha :=
  first [done | apply with_arg_not_null; [by apply Ha|]; intros a; repeat (branch || case_match); done].
#[local] Ltac long_ok Ha Hl :=
  repeat (apply elem_of_cons in Hl as [->|Hl]; [cbn in Ha |- *; arg_ok Ha|]); by apply elem_of_nil in Hl.
#[local] Ltac short_ok H Ha :=
  cbn [short_opt] in H;
  repeat match type of H with
    | (if ?b then _ else _) = _ =>
        let E := fresh "E" in
        destruct b eqn:E in H; [apply andb_prop in E as [E _]; apply Z.eqb_eq in E as <-; injection H as <-; cbn in Ha |- *; arg_ok Ha|clear E]
    end; done.

Lemma conn_long_args l arg o :
  l ∈ long_options -> (lo_arg l = true -> is_Some arg) -> conn_long arg o (lo_name l) <> Null.
Proof. intros Hl Ha. unfold long_options in Hl. long_ok Ha Hl. Qed.

Lemma sub_long_args l arg o :
  l ∈ long_options -> (lo_arg l = true -> is_Some arg) -> sub_long arg o (lo_name l) <> Null.
Proof. intros Hl Ha. unfold long_options in Hl. long_ok Ha Hl. Qed.

Lemma pub_long_args l arg o :
  l ∈ long_options -> (lo_arg l = true -> is_Some arg) -> pub_long arg o (lo_name l) <> Null.
Proof. intros Hl Ha. unfold long_options in Hl. long_ok Ha Hl. Qed.

Lemma conn_short_args c a arg o :
  short_opt (lit "h:p:V:c:n:i:u:P:k:C:S0") c = Some a -> (a = true -> is_Some arg) -> conn_short arg o c <> Null.
Proof. intros H Ha. change (lit _) with [104;58;112;58;86;58;99;58;110;58;105;58;117;58;80;58;107;58;67;58;83;48] in H. short_ok H Ha. Qed.

Lemma sub_short_args c a arg o :
  short_opt (lit "q:t:h:p:V:c:n:i:u:P:k:C:S0") c = Some a -> (a = true -> is_Some arg) -> sub_short arg o c <> Null.
Proof.
  intros H Ha. change (lit _) with [113;58;116;58;104;58;112;58;86;58;99;58;110;58;105;58;117;58;80;58;107;58;67;58;83;48] in H.
  short_ok H Ha.
Qed.

Lemma pub_short_args c a arg o :
  short_opt (lit "q:l:r:s:t:I:h:p:V:c:n:i:u:P:k:C:L:S0") c = Some a -> (a = true -> is_Some arg) -> pub_short arg o c <> Null.
Proof.
  intros H Ha.
  change (lit _) with [113;58;108;58;114;58;115;58;116;58;73;58;104;58;112;58;86;58;99;58;110;58;105;58;117;58;80;58;107;58;67;58;76;58;83;48] in H.
  short_ok H Ha.
Qed.

(** Whatever the arguments, the options are read without using a missing
    argument. *)
Theorem bench_options_safe argv :
  nnb_conn_opt_init argv <> Null /\ nnb_sub_opt_init argv <> Null /\ nnb_pub_opt_init argv <> Null.
Proof.
  unfold nnb_conn_opt_init, nnb_sub_opt_init, nnb_pub_opt_init, conn_opt_set, sub_opt_set, pub_opt_set.
  split_and!; (apply CliOpts.bind_not_null; [|intros o; try case_match; done]); (destruct (_ <? _)%nat; [done|]).
  - eapply opt_loop_not_null; [apply conn_long_args|apply conn_short_args|done|]. intros g. apply getopt_known.
  - destruct (getopt_long _ _ _) as [gs optind] eqn:E. apply CliOpts.bind_not_null; [|intros o; by destruct (_ <? _)%nat].
    eapply opt_loop_not_null; [apply sub_long_args|apply sub_short_args|done|]. intros g Hg. apply (getopt_known _ _ (drop 2 argv)).
    by rewrite E.
  - destruct (getopt_long _ _ _) as [gs optind] eqn:E.
    apply CliOpts.bind_not_null; [|intros o; destruct (_ <? _)%nat; [done|by destruct (b_text o topic)]].
    eapply opt_loop_not_null; [apply pub_long_args|apply pub_short_args|done|]. intros g Hg. apply (getopt_known _ _ (drop 2 argv)).
    by rewrite E.
Qed.

End Options.

(** ** Witnesses *)

Section Witness.

#[local] Existing Instance plain_getopt.

Definition pub_argv : list bytes := [lit "nanomq_cli"; lit "bench"; lit "pub"; lit "-t"; lit "t/%i"; lit "--count"; lit "3"].

Definition pub_opts : bench_opt :=
  match nnb_pub_opt_init (fun _ => None) pub_argv with CliOpts.Ok o => o | _ => initial common_num end.

(** Without an option for it, the quality of service of the published messages
    has no value. *)
Theorem pub_qos_unset :
  nnb_pub_opt_init (fun _ => None) pub_argv = CliOpts.Ok pub_opts /\ b_num pub_opts qos = None /\ b_num pub_opts count = Some 3.
Proof. split_and!; vm_compute; reflexivity. Qed.

Lemma pub_options_correct_witness : is_Some (b_text pub_opts topic) /\ b_text pub_opts host = Some (lit "localhost").
Proof.
  split; [|reflexivity]. exact (proj1 (pub_options_correct (fun _ => None) pub_argv pub_opts eq_refl)).
Defined.

End Witness.

End BenchOpts.
