(* ===== verification/BenchRun.v ===== *)
(** * The benchmark (nanomq_cli/bench.c)

    The topics and addresses of a run, the callbacks [sub_cb] and [pub_cb] of its
    workers and the counters they share.  Publishing workers count a message and
    then compare the count with the limit; other workers can count in between,
    so a callback is split there and the workers are interleaved. *)

From stdpp Require Import pretty.
From S2P Require Import Prelude OptsApi CliOpts RuleSql BenchOpts.

Module BenchRun.

Import BenchOpts.

(** ** Topics and addresses *)

(** The text before the placeholder [p]. *)
Definition before (s p : bytes) : option bytes :=
  (fun t => take (length s - length t) s) <$> strstr s p.

(** [nnb_opt_get_topic]: the topic and the counter of topics.  The number is
    written with at most five digits. *)
Definition nnb_opt_get_topic (opt_topic : bytes) (opt_username : option bytes) (client_id : bytes) (topic_cnt : Z) : bytes * Z :=
  match before opt_topic (lit "%c") with
  | Some t => (t ++ client_id, topic_cnt)
  | None =>
      match before opt_topic (lit "%u") with
      | Some t => (t ++ default (lit "undefined") opt_username, topic_cnt)
      | None =>
          match before opt_topic (lit "%i") with
          | Some t => (t ++ take 5 (RuleSql.dec topic_cnt), i32 (topic_cnt + 1))
          | None => (opt_topic, topic_cnt)
          end
      end
  end.

(** sprintf into [url[255]]; [None] is a write behind it or the use of a number
    without a value. *)
Definition url (o : bench_opt) : option bytes :=
  h ← b_text o host;
  p ← b_num o port;
  let u := (if b_flag o tls_enable then lit "tls+mqtt-tcp://" else lit "mqtt-tcp://") ++ h ++ lit ":" ++ RuleSql.dec p in
  if blen u + 1 <=? 255 then Some u else None.

(** ** Workers *)

Inductive nnb_state := INIT | RECV | WAIT | SEND.

#[export] Instance nnb_state_eq_dec : EqDecision nnb_state.
Proof. solve_decision. Defined.

Record work := Work { w_state : nnb_state; w_last_send_ts : Z }.

Inductive sub_action := Subscribe (topic : bytes) (qos : option Z) | Receive | FreeMsg | CountRecv | SubFatal.

(** [sub_cb]; [topic] is the result of [nnb_opt_get_topic]. *)
Definition sub_cb (o : bench_opt) (topic : bytes) (index_cnt : Z) (result : Z) (st : nnb_state) : nnb_state * list sub_action :=
  match st with
  | INIT =>
      if index_cnt =? 0 then (SEND, [Subscribe topic (b_num o qos)]) else (RECV, [Receive])
  | SEND => if negb (result =? 0) then (SEND, [FreeMsg; SubFatal]) else (RECV, [Receive])
  | RECV => if negb (result =? 0) then (RECV, [SubFatal]) else (RECV, [CountRecv; FreeMsg; Receive])
  | WAIT => (WAIT, [])
  end.

(** The PUBLISH that is built once and sent again and again. *)
Record bench_msg := BenchMsg { bm_topic : bytes; bm_qos : option Z; bm_retain : bool; bm_payload : bytes }.

Definition bench_publish (o : bench_opt) (topic : bytes) : bench_msg :=
  BenchMsg topic (b_num o qos) (b_flag o retain) (replicate (Z.to_nat (default 0 (b_num o size))) 65).

Definition i64 (z : Z) : Z := (z + 2 ^ 63) mod 2 ^ 64 - 2 ^ 63.

(** What a callback goes on with: counting a message, waiting for the sleep,
    the end of the program, or nothing. *)
Inductive next := Count | Sleep (ms : Z) | Fatal | Nothing.

(** [pub_cb] up to the counter.  [result] is that of the aio, [now] the clock. *)
Definition pub_begin (interval : Z) (result now : Z) (w : work) : work * next :=
  match w_state w with
  | INIT => (w, Count)
  | WAIT =>
      let w' := Work SEND (if 1 <=? interval then u64 (w_last_send_ts w + interval) else w_last_send_ts w) in
      if (1 <=? interval) && (i64 (now - w_last_send_ts w - interval) <? interval) then (w', Sleep interval)
      else if negb (result =? 0) then (w', Fatal) else (w', Count)
  | SEND => if negb (result =? 0) then (w, Fatal) else (w, Count)
  | RECV => (w, Nothing)
  end.

(** [pub_cb] from the comparison on: the worker, and whether it sends. *)
Definition pub_check (cnt send_limit now : Z) (w : work) : work * bool :=
  if send_limit <? cnt then (w, false)
  else (Work WAIT (match w_state w with INIT => now | _ => w_last_send_ts w end), true).

(** [pub_cb] without interruption: the worker, the counter and whether a
    message was sent. *)
Definition pub_cb (interval send_limit result now : Z) (w : work) (cnt : Z) : work * Z * bool :=
  match pub_begin interval result now w with
  | (w, Count) => let '(w, s) := pub_check (i32 (cnt + 1)) send_limit now w in (w, i32 (cnt + 1), s)
  | (w, _) => (w, cnt, false)
  end.

(** [bench_start]: the limit of a run. *)
Definition send_limit_of (limit : Z) : Z := if limit =? 0 then 2147483647 else limit.

(** What the main loop prints each second: the total and the rate. *)
Definition sent_report (send_cnt last count : Z) : option (Z * Z) :=
  if send_cnt =? last then None else Some (i32 (send_cnt - count), i32 (send_cnt - last)).

(** ** Connections *)

Inductive bench_call :=
  | OpenSocket (v5 : bool)
  | AllocWork
  | CreateDialer (url : bytes)
  | DialerTls (cacert cert key keypass : option bytes)
  | SetConnMsg (version keepalive : option Z) (clean : bool) (user password : option bytes)
  | StartDialer
  | CallSub (index_cnt : Z)
  | CallPub
  | Undef.

Definition PARALLEL : nat := 8.

(** What the three commands do up to starting the dialer; [works] is the number
    of workers allocated. *)
Definition open_calls (o : bench_opt) (works : nat) : list bench_call :=
  match url o with
  | None => [Undef]
  | Some u =>
      [OpenSocket (bool_decide (b_num o version = Some 5))] ++ replicate works AllocWork ++ [CreateDialer u] ++
      (if b_flag o tls_enable then [DialerTls (b_text o cacert) (b_text o cert) (b_text o key) (b_text o keypass)] else []) ++
      [SetConnMsg (b_num o version) (b_num o keepalive) (b_flag o clean) (b_text o username) (b_text o password); StartDialer]
  end.

Definition nnb_connect (o : bench_opt) : list bench_call := open_calls o 0.
Definition nnb_subscribe (o : bench_opt) : list bench_call :=
  open_calls o PARALLEL ++ map (fun i => CallSub (Z.of_nat i)) (seq 0 PARALLEL).
Definition nnb_publish (o : bench_opt) : list bench_call := open_calls o 1 ++ [CallPub].

(** The connections [bench_start] makes, and the limit it sets; [None] as the
    limit where there is none. *)
Definition bench_start `{GetoptLong} (loadfile : bytes -> option bytes) (argv : list bytes)
    : CliOpts.outcome (list bench_call * option Z) :=
  let times o f := concat (replicate (Z.to_nat (default 0 (b_num o count))) (f o : list bench_call)) in
  match argv !! 2%nat with
  | None => CliOpts.Fatal
  | Some cmd =>
      if bool_decide (cmd = lit "pub") then
        CliOpts.bind (nnb_pub_opt_init loadfile argv) (fun o =>
          CliOpts.Ok (times o nnb_publish, Some (send_limit_of (default 0 (b_num o limit)))))
      else if bool_decide (cmd = lit "sub") then
        CliOpts.bind (nnb_sub_opt_init loadfile argv) (fun o => CliOpts.Ok (times o nnb_subscribe, None))
      else if bool_decide (cmd = lit "conn") then
        CliOpts.bind (nnb_conn_opt_init loadfile argv) (fun o => CliOpts.Ok (times o nnb_connect, None))
      else CliOpts.Fatal
  end.

(** ** All workers of a run *)

(** A worker waits for an event, has counted a message, or is not called
    again. *)
Inductive status := Waiting | Counted | Stopped.

#[export] Instance status_eq_dec : EqDecision status.
Proof. solve_decision. Defined.

(** [run_sent] is the number of messages sent. *)
Record run := Run { run_works : list (work * status); run_cnt : Z; run_sent : Z }.

Section Run.

Context (interval limit : Z).

Inductive step : run -> run -> Prop :=
  | step_sleep i w w' ms result now ws cnt sent :
      ws !! i = Some (w, Waiting) -> pub_begin interval result now w = (w', Sleep ms) ->
      step (Run ws cnt sent) (Run (<[i := (w', Waiting)]> ws) cnt sent)
  | step_count i w w' result now ws cnt sent :
      ws !! i = Some (w, Waiting) -> pub_begin interval result now w = (w', Count) ->
      step (Run ws cnt sent) (Run (<[i := (w', Counted)]> ws) (i32 (cnt + 1)) sent)
  | step_send i w w' now ws cnt sent :
      ws !! i = Some (w, Counted) -> pub_check cnt limit now w = (w', true) ->
      step (Run ws cnt sent) (Run (<[i := (w', Waiting)]> ws) cnt (sent + 1))
  | step_stop i w w' now ws cnt sent :
      ws !! i = Some (w, Counted) -> pub_check cnt limit now w = (w', false) ->
      step (Run ws cnt sent) (Run (<[i := (w', Stopped)]> ws) cnt sent).

Definition fresh (n : nat) : run := Run (replicate n (Work INIT 0, Waiting)) 0 0.

Definition not_waiting (ws : list (work * status)) : Z := blen (filter (fun x => snd x <> Waiting) ws).

(** Every count is that of a message sent, of a worker about to decide, or of
    one that was stopped. *)
Definition run_inv (n : nat) (r : run) : Prop :=
  length (run_works r) = n /\ run_cnt r = run_sent r + not_waiting (run_works r) /\ 0 <= run_sent r <= Z.max 0 limit.

Lemma filter_insert_len (P : work * status -> Prop) `{forall x, Decision (P x)} ws i x y :
  ws !! i = Some x ->
  blen (filter P (<[i := y]> ws)) =
  blen (filter P ws) - (if decide (P x) then 1 else 0) + (if decide (P y) then 1 else 0).
Proof.
  revert i. induction ws as [|z ws IH]; intros [|i] Hi; try done.
  - injection Hi as ->. cbn [insert list_insert]. rewrite !filter_cons.
    destruct (decide (P x)), (decide (P y)); rewrite ?blen_cons; lia.
  - change (<[S i:=y]> (z :: ws)) with (z :: <[i:=y]> ws). rewrite !filter_cons.
    specialize (IH i Hi). destruct (decide (P z)); rewrite ?blen_cons; lia.
Qed.

Lemma not_waiting_le ws : 0 <= not_waiting ws <= blen ws.
Proof.
  unfold not_waiting, blen. split; [lia|]. apply inj_le. apply length_filter.
Qed.

Definition busy (st : status) : Z := match st with Waiting => 0 | _ => 1 end.

Lemma not_waiting_insert ws i w st y : ws !! i = Some (w, st) ->
  not_waiting (<[i := y]> ws) =
  not_waiting ws - busy st + busy (snd y).
Proof. intros Hi. unfold not_waiting. rewrite (filter_insert_len _ _ _ _ y Hi). by destruct y as [? []], st. Qed.

Lemma waiting_lt ws i w : ws !! i = Some (w, Waiting) -> not_waiting ws < Z.of_nat (length ws).
Proof.
  intros Hi. pose proof (not_waiting_le (<[i := (w, Stopped)]> ws)) as H. unfold blen in H.
  rewrite length_insert, (not_waiting_insert _ _ _ _ _ Hi) in H. cbn [busy snd] in H. lia.
Qed.

Lemma step_inv n r r' : Z.max 0 limit + Z.of_nat n < 2147483648 -> run_inv n r -> step r r' -> run_inv n r'.
Proof.
  intros Hn (Hl & Hc & Hs) Hstep. destruct Hstep as [i w w' ms ? ? ws cnt sent Hi Hb|i w w' ? ? ws cnt sent Hi Hb|
    i w w' ? ws cnt sent Hi Hb|i w w' ? ws cnt sent Hi Hb]; cbn [run_works run_cnt run_sent] in *;
    unfold run_inv; cbn [run_works run_cnt run_sent]; (split; [by rewrite length_insert|]);
    rewrite (not_waiting_insert _ _ _ _ _ Hi); cbn [busy snd]; pose proof (not_waiting_le ws).
  - lia.
  - apply waiting_lt in Hi. unfold blen in *. rewrite i32_small by lia. lia.
  - unfold pub_check in Hb. destruct (Z.ltb_spec limit cnt); [done|].
    assert (1 <= not_waiting ws); [|lia].
    assert (0 <= not_waiting (<[i := (w, Waiting)]> ws)) by apply not_waiting_le.
    rewrite (not_waiting_insert _ _ _ _ _ Hi) in *. cbn [busy snd] in *. lia.
  - lia.
Qed.

Lemma fresh_inv n : run_inv n (fresh n).
Proof.
  split; [apply length_replicate|]. cbn [fresh run_works run_cnt run_sent]. split; [|lia].
  unfold not_waiting. induction n as [|n IH]; [done|]. cbn [replicate]. rewrite filter_cons_False; [exact IH|]. by intros H.
Qed.

Lemma run_inv_reach n r : Z.max 0 limit + Z.of_nat n < 2147483648 -> rtc step (fresh n) r -> run_inv n r.
Proof.
  intros Hn Hr. pose proof (fresh_inv n) as H0. revert H0. generalize (fresh n) Hr. intros a Ha.
  induction Ha as [|a b c Hs Ha IH]; [done|]. eauto using step_inv.
Qed.

(** However the publishing workers of a run are interleaved, they never send
    more messages than the limit; the total that is printed is the number sent
    less one for every worker that can go on. *)
Theorem never_over_limit n r last :
  Z.max 0 limit + Z.of_nat n < 2147483648 -> rtc step (fresh n) r ->
  run_sent r <= Z.max 0 limit /\
  (run_cnt r <> last -> fst <$> sent_report (run_cnt r) last (Z.of_nat n) =
     Some (run_sent r - (Z.of_nat n - not_waiting (run_works r)))).
Proof.
  intros Hn Hr. destruct (run_inv_reach n r Hn Hr) as (Hl & Hc & Hs). split; [lia|].
  intros Hlast. unfold sent_report. destruct (Z.eqb_spec (run_cnt r) last); [done|]. cbn.
  pose proof (not_waiting_le (run_works r)) as Hw. unfold blen in Hw. rewrite i32_small by lia. f_equal. lia.
Qed.

(** ** Callbacks that are not interrupted *)

Inductive atomic : run -> run -> Prop :=
  | atomic_sleep i w w' ms result now ws cnt sent :
      ws !! i = Some (w, Waiting) -> pub_begin interval result now w = (w', Sleep ms) ->
      atomic (Run ws cnt sent) (Run (<[i := (w', Waiting)]> ws) cnt sent)
  | atomic_cb i w w' w1 result now ws cnt cnt' sent (s : bool) :
      ws !! i = Some (w, Waiting) -> pub_begin interval result now w = (w1, Count) ->
      pub_cb interval limit result now w cnt = (w', cnt', s) ->
      atomic (Run ws cnt sent) (Run (<[i := (w', if s then Waiting else Stopped)]> ws) cnt' (if s then sent + 1 else sent)).

Definition atomic_inv (n : nat) (r : run) : Prop :=
  run_inv n r /\ (0 < not_waiting (run_works r) -> run_sent r = Z.max 0 limit).

Lemma atomic_preserves n r r' :
  Z.max 0 limit + Z.of_nat n < 2147483648 -> atomic_inv n r -> atomic r r' -> atomic_inv n r'.
Proof.
  intros Hn [(Hl & Hc & Hs) Hf] Hstep.
  destruct Hstep as [i w w' ms ? ? ws cnt sent Hi Hb|i w w' w1 result now ws cnt cnt' sent s Hi Hb Hp];
    cbn [run_works run_cnt run_sent] in *; pose proof (not_waiting_le ws) as Hw; unfold blen in Hw.
  - unfold atomic_inv, run_inv; cbn [run_works run_cnt run_sent]. split; [split; [by rewrite length_insert|]|];
      rewrite (not_waiting_insert _ _ _ _ _ Hi); cbn [busy snd]; lia.
  - unfold pub_cb in Hp. rewrite Hb in Hp. unfold pub_check in Hp.
    pose proof (waiting_lt _ _ _ Hi) as Hlt.
    rewrite i32_small in Hp by lia.
    destruct (Z.ltb_spec limit (cnt + 1)); injection Hp as <- <- <-;
      unfold atomic_inv, run_inv; cbn [run_works run_cnt run_sent]; (split; [split; [by rewrite length_insert|]|]);
      rewrite (not_waiting_insert _ _ _ _ _ Hi); cbn [busy snd]; lia.
Qed.

(** When callbacks do not interrupt each other and all workers have stopped,
    exactly the limit was sent. *)
Theorem limit_reached n r :
  Z.max 0 limit + Z.of_nat n < 2147483648 -> (0 < n)%nat -> rtc atomic (fresh n) r ->
  Forall (fun x => snd x = Stopped) (run_works r) -> run_sent r = Z.max 0 limit.
Proof.
  intros Hn Hpos Hr Hst.
  assert (atomic_inv n r) as [(Hl & _) Hf].
  { assert (atomic_inv n (fresh n)) as H0 by (split; [apply fresh_inv|]; destruct (fresh_inv n) as (_ & H & _); cbn in *; lia).
    revert H0. clear Hst. generalize (fresh n) Hr. intros a Ha. induction Ha as [|a b c Hs Ha IH]; [done|].
    eauto using atomic_preserves. }
  apply Hf. unfold not_waiting, blen. destruct (run_works r) as [|x ws]; [cbn in Hl; lia|].
  apply Forall_cons in Hst as [Hx _]. rewrite filter_cons_True; [cbn; lia|]. by rewrite Hx.
Qed.

End Run.

(** ** Interleavings that miss the limit *)

Lemma step_count0 interval limit ws cnt i : ws !! i = Some (Work INIT 0, Waiting) ->
  step interval limit (Run ws cnt 0) (Run (<[i := (Work INIT 0, Counted)]> ws) (i32 (cnt + 1)) 0).
Proof. intros. by eapply (step_count _ _ _ _ _ 0 0). Qed.

Lemma step_stop0 interval limit ws cnt i : ws !! i = Some (Work INIT 0, Counted) -> limit < cnt ->
  step interval limit (Run ws cnt 0) (Run (<[i := (Work INIT 0, Stopped)]> ws) cnt 0).
Proof. intros. eapply (step_stop _ _ _ _ _ 0); [done|]. unfold pub_check. by destruct (Z.ltb_spec limit cnt); [|lia]. Qed.

(** Two workers that count before either compares stop without sending the one
    message of the limit. *)
Theorem limit_missed interval :
  exists r, rtc (step interval 1) (fresh 2) r /\ Forall (fun x => snd x = Stopped) (run_works r) /\ run_sent r = 0.
Proof.
  eexists. split.
  - eapply rtc_l; [by apply (step_count0 _ _ _ _ 0)|]. eapply rtc_l; [by apply (step_count0 _ _ _ _ 1)|].
    eapply rtc_l; [by apply (step_stop0 _ _ _ _ 0)|]. eapply rtc_l; [by apply (step_stop0 _ _ _ _ 1)|]. apply rtc_refl.
  - cbn. split; [|done]. by repeat constructor.
Qed.

(** ** Topics and addresses *)

Lemma strstr_before s p t : strstr s p = Some t -> take (length s - length t) s ++ t = s /\ exists post, t = p ++ post.
Proof.
  intros H. apply strstr_Some in H as (pre & post & -> & ->). split; [|by exists post].
  rewrite length_app, Nat.add_sub, take_app_length. done.
Qed.

(** A placeholder is replaced by the client id, and what follows it in the topic
    is lost. *)
Theorem topic_of_client pre post user cid n :
  strstr (pre ++ lit "%c" ++ post) (lit "%c") = Some (lit "%c" ++ post) ->
  nnb_opt_get_topic (pre ++ lit "%c" ++ post) user cid n = (pre ++ cid, n).
Proof.
  intros H. unfold nnb_opt_get_topic, before. rewrite H. cbn [fmap option_fmap option_map].
  rewrite length_app, Nat.add_sub, take_app_length. done.
Qed.

(** The numbered topics of a run: distinct up to 100000, cut behind. *)
Theorem topic_numbers :
  nnb_opt_get_topic (lit "t/%i") None [] 99999 = (lit "t/99999", 100000) /\
  nnb_opt_get_topic (lit "t/%i") None [] 100000 = (lit "t/10000", 100001) /\
  nnb_opt_get_topic (lit "t/%i") None [] 10000 = (lit "t/10000", 10001).
Proof. split_and!; vm_compute; reflexivity. Qed.

(** The buffer of the address is too small for a long host. *)
Theorem url_overflow o h p :
  b_text o host = Some h -> b_num o port = Some p -> 245 <= blen h -> url o = None.
Proof.
  intros Hh Hp Hl. unfold url. rewrite Hh, Hp. cbn [mbind option_bind].
  destruct (Z.leb_spec (blen ((if b_flag o tls_enable then lit "tls+mqtt-tcp://" else lit "mqtt-tcp://") ++ h ++ lit ":" ++ RuleSql.dec p) + 1) 255)
    as [H|]; [|done].
  rewrite !blen_app in H. pose proof (blen_nonneg (RuleSql.dec p)).
  assert (11 <= blen (if b_flag o tls_enable then lit "tls+mqtt-tcp://" else lit "mqtt-tcp://")) by (by destruct (b_flag o tls_enable)).
  change (blen (lit ":")) with 1 in H. lia.
Qed.

(** ** Connections *)

(** The action of the first callback of a subscribing worker. *)
Definition first_action (o : bench_opt) (topic : bytes) (c : bench_call) : list sub_action :=
  match c with CallSub i => snd (sub_cb o topic i 0 INIT) | _ => [] end.

(** A subscribing connection sends one SUBSCRIBE, and all its other workers
    receive. *)
Theorem subscribes_once o t :
  concat (map (first_action o t) (nnb_subscribe o)) = Subscribe t (b_num o qos) :: replicate 7 Receive.
Proof.
  unfold nnb_subscribe. rewrite map_app, concat_app.
  replace (concat (map (first_action o t) (open_calls o PARALLEL))) with ([] : list sub_action); [done|].
  unfold open_calls. destruct (url o); [|done]. by destruct (b_flag o tls_enable).
Qed.

(** Once it has subscribed, a worker counts every message and asks for the
    next. *)
Theorem receives_forever o t i n :
  snd (sub_cb o t i 0 SEND) = [Receive] /\
  foldl (fun '(st, l) r => let '(st', k) := sub_cb o t i r st in (st', l ++ k)) (RECV, []) (replicate n 0) =
  (RECV, concat (replicate n [CountRecv; FreeMsg; Receive])).
Proof.
  split; [done|].
  assert (forall l, foldl (fun '(st, l) r => let '(st', k) := sub_cb o t i r st in (st', l ++ k)) (RECV, l) (replicate n 0) =
    (RECV, l ++ concat (replicate n [CountRecv; FreeMsg; Receive]))) as H; [|apply H].
  induction n as [|n IH]; intros l; [cbn; by rewrite app_nil_r|]. cbn [replicate foldl]. cbn [sub_cb negb Z.eqb].
  rewrite IH, <- app_assoc. done.
Qed.

(** ** Witnesses *)

Lemma never_over_limit_witness :
  exists r, rtc (step 0 1) (fresh 2) r /\ run_sent r <= 1.
Proof.
  pose (r := Run (<[1%nat := (Work INIT 0, Counted)]> (replicate 2 (Work INIT 0, Waiting))) 1 0).
  assert (rtc (step 0 1) (fresh 2) r) as H by (apply rtc_once, step_count0; reflexivity).
  exists r. split; [exact H|]. exact (proj1 (never_over_limit 0 1 2 r 0 eq_refl H)).
Defined.

End BenchRun.
