(* ===== verification/DdsProxy.v ===== *)
(** * The DDS proxy (nanomq_cli/dds2mqtt/mqtt_client.c, dds_client.c)

    The proxy forwards messages between MQTT and DDS.  Each side has a thread
    with a queue ([NftpVec]); a receiver puts handles into the queue of its own
    side, the thread of that side moves them to the queue of the other, and that
    one converts and sends them.  A critical section is one turn; between taking
    a handle out and working on it a thread holds it.  A send of MQTT does not
    block and may fail; a [dds_write] that fails ends the program, so that no turn
    follows it.  The DDS library and the code generated from the IDL file are
    parameters; [None] is undefined behaviour. *)

From S2P Require Import Prelude NftpVec.

Module DdsProxy.

Import NftpVec.

Definition HANDLE_TO_DDS : Z := 1.
Definition HANDLE_TO_MQTT : Z := 2.

(** A rule of the configuration. *)
Record dds_gateway_topic := GatewayTopic { dt_from : bytes; dt_to : bytes; dt_struct_name : bytes }.

Record forward_conf := ForwardConf { mqtt2dds_rules : list dds_gateway_topic; dds2mqtt_rules : list dds_gateway_topic }.

Definition rule_for (key : dds_gateway_topic -> bytes) (t : bytes) (l : list dds_gateway_topic) : option dds_gateway_topic :=
  List.find (fun r => bool_decide (t = key r)) l.

Definition find_dds_topic (conf : forward_conf) (t : bytes) : option dds_gateway_topic := rule_for dt_from t (mqtt2dds_rules conf).
Definition find_mqtt_topic (conf : forward_conf) (t : bytes) : option dds_gateway_topic := rule_for dt_from t (dds2mqtt_rules conf).

Section Proxy.

(** Samples of DDS, the operations generated for a structure, and the entities
    the DDS library creates. *)
Context {sample handler : Type} `{EqDecision sample}.
Context (dds_struct_handler_map : list (bytes * handler)).
(** The payload of an MQTT message as a sample, and a sample as text; [None]
    is a text that cannot be printed. *)
Context (mqtt2dds : handler -> bytes -> sample) (dds2mqtt : handler -> sample -> option bytes).
Context (create_entity : bool -> bytes -> Z).
Context (conf : forward_conf).

Definition dds_get_handler (struct_name : bytes) : option handler :=
  snd <$> List.find (fun x => bool_decide (fst x = struct_name)) dds_struct_handler_map.

(** ** Handles *)

Inductive hdata := MqttMsg (payload : bytes) | DdsMsg (s : sample).

#[export] Instance hdata_eq_dec : EqDecision hdata.
Proof. solve_decision. Defined.

Record handle := Handle { hd_type : Z; hd_data : hdata; hd_topic : bytes }.

#[export] Instance handle_eq_dec : EqDecision handle.
Proof. solve_decision. Defined.

Definition mk_handle (type : Z) (data : hdata) (topic : bytes) : handle := Handle type data topic.

(** ** Readers and writers *)

Record dds_subcli := SubCli { sc_entity : Z; sc_topic : bytes; sc_handles : handler }.

(** [None] is the result -1. *)
Definition dds_subcli_init (isrd : bool) (topic : bytes) : option dds_subcli :=
  let '(key, rules) := if isrd then (dt_from, dds2mqtt_rules conf) else (dt_to, mqtt2dds_rules conf) in
  r ← rule_for key topic rules;
  h ← dds_get_handler (dt_struct_name r);
  Some (SubCli (create_entity isrd topic) topic h).

(** The clients of the rules; [cur] is the variable [scli], [None] while it is
    not a usable client. *)
Fixpoint init_clients (isrd : bool) (topics : list bytes) (cur : option dds_subcli) : list dds_subcli * option dds_subcli :=
  match topics with
  | [] => ([], cur)
  | t :: topics =>
      match dds_subcli_init isrd t with
      | Some sc => let '(l, cur) := init_clients isrd topics (Some sc) in (sc :: l, cur)
      | None => init_clients isrd topics None
      end
  end.

Definition readers : list dds_subcli := fst (init_clients true (map dt_from (dds2mqtt_rules conf)) None).
Definition writers : list dds_subcli :=
  fst (init_clients false (map dt_to (mqtt2dds_rules conf)) (snd (init_clients true (map dt_from (dds2mqtt_rules conf)) None))).
Definition first_cur : option dds_subcli :=
  snd (init_clients false (map dt_to (mqtt2dds_rules conf)) (snd (init_clients true (map dt_from (dds2mqtt_rules conf)) None))).

(** [dds_proxy]: a structure of a rule that is not known ends the program. *)
Definition structs_known : bool :=
  forallb (fun r => match dds_get_handler (dt_struct_name r) with Some _ => true | None => false end)
    (dds2mqtt_rules conf ++ mqtt2dds_rules conf).

(** ** The proxy *)

Record proxy := Proxy {
  p_mqttq : @nftp_vec handle;
  p_ddsq : @nftp_vec handle;
  p_mqtt_hd : option handle;
  p_dds_hd : option handle;
  p_scli : option dds_subcli
}.

(** What can be observed: a handle put into a queue that is full is lost, a
    sample is written, a message is published or its send has failed, a sample
    without a rule is skipped. *)
Inductive event :=
  | Lost (h : handle)
  | Written (h : handle) (topic : bytes) (s : sample)
  | Published (h : handle) (topic payload : bytes)
  | Unsent (h : handle) (topic payload : bytes)
  | Skipped (h : handle).

(** The turns of the threads; [rv] of [MqttWork] is the result of nng_sendmsg. *)
Inductive turn :=
  | RecvMqtt (rv : Z) (packet_type : Z) (topic payload : bytes)
  | DataAvailable (rd rc : Z) (valid : option bool) (s : sample)
  | MqttPop
  | MqttWork (rv : Z)
  | DdsPop
  | DdsWork.

Context (NNG_MQTT_CONNACK NNG_MQTT_PUBLISH : Z).

(** [nftp_vec_append]; its result is ignored. *)
Definition put (q : nftp_vec) (h : handle) : option (nftp_vec * list event) :=
  '(rv, q) ← nftp_vec_append q (Some h);
  Some (q, if rv =? 0 then [] else [Lost h]).

Definition client_recv2 (rv packet_type : Z) : Z :=
  if negb (rv =? 0) then -1
  else if packet_type =? NNG_MQTT_CONNACK then -2
  else if negb (packet_type =? NNG_MQTT_PUBLISH) then -3 else 0.

(** One round of [mqtt_recv_loop]. *)
Definition mqtt_recv (rv packet_type : Z) (topic payload : bytes) (p : proxy) : option (proxy * list event) :=
  if client_recv2 rv packet_type =? 0 then
    '(q, ev) ← put (p_mqttq p) (mk_handle HANDLE_TO_DDS (MqttMsg payload) topic);
    Some (Proxy q (p_ddsq p) (p_mqtt_hd p) (p_dds_hd p) (p_scli p), ev)
  else Some (p, []).

(** The callback of the readers; [rc] is unsigned, and [valid] is [None] when
    dds_take did not set it. *)
Definition dds_data_available (rd rc : Z) (valid : option bool) (s : sample) (p : proxy) : option (proxy * list event) :=
  match List.find (fun c => rd =? sc_entity c) readers with
  | None => Some (p, [])
  | Some c =>
      ok ← (if 0 <? u32 rc then valid else Some false);
      if ok : bool then
        '(q, ev) ← put (p_ddsq p) (mk_handle HANDLE_TO_MQTT (DdsMsg s) (sc_topic c));
        Some (Proxy (p_mqttq p) q (p_mqtt_hd p) (p_dds_hd p) (p_scli p), ev)
      else Some (p, [])
  end.

(** Waiting for a handle and taking it out, in both threads; a thread that holds
    one is not there. *)
Definition pop (q : nftp_vec) (hd : option handle) : option (nftp_vec * option handle) :=
  match hd with
  | Some _ => Some (q, hd)
  | None => if nftp_vec_len q =? 0 then Some (q, None) else '(_, h, q) ← nftp_vec_pop q NFTP_HEAD; Some (q, h)
  end.

(** What [mqtt_publish] ends in: client_publish logs a failure, and the caller ignores it. *)
Definition publish_result (rv : Z) (h : handle) (topic payload : bytes) : list event :=
  if negb (rv =? 0) then [Unsent h topic payload] else [Published h topic payload].

(** [mqtt_loop] from [work] on. *)
Definition mqtt_work (rv : Z) (p : proxy) : option (proxy * list event) :=
  match p_mqtt_hd p with
  | None => Some (p, [])
  | Some h =>
      if hd_type h =? HANDLE_TO_DDS then
        '(q, ev) ← put (p_ddsq p) h;
        Some (Proxy (p_mqttq p) q None (p_dds_hd p) (p_scli p), ev)
      else if hd_type h =? HANDLE_TO_MQTT then
        ev ← match find_mqtt_topic conf (hd_topic h), hd_data h with
             | Some dt, DdsMsg s =>
                 hs ← dds_get_handler (dt_struct_name dt);
                 payload ← dds2mqtt hs s;
                 Some (publish_result rv h (dt_to dt) payload)
             | Some _, MqttMsg _ => None
             | None, _ => Some [Skipped h]
             end;
        Some (Proxy (p_mqttq p) (p_ddsq p) None (p_dds_hd p) (p_scli p), ev)
      else Some (Proxy (p_mqttq p) (p_ddsq p) None (p_dds_hd p) (p_scli p), [])
  end.

(** The loop over the writers: the rule is used for each of them. *)
Fixpoint find_writer (dt : option dds_gateway_topic) (ws : list dds_subcli) (cur : option dds_subcli) : option (option dds_subcli) :=
  match ws with
  | [] => Some cur
  | w :: ws => d ← dt; find_writer dt ws (if bool_decide (dt_to d = sc_topic w) then Some w else cur)
  end.

(** [dds_client] from [work] on. *)
Definition dds_work (p : proxy) : option (proxy * list event) :=
  match p_dds_hd p with
  | None => Some (p, [])
  | Some h =>
      if hd_type h =? HANDLE_TO_DDS then
        cur ← find_writer (find_dds_topic conf (hd_topic h)) writers (p_scli p);
        w ← cur;
        match hd_data h with
        | MqttMsg payload =>
            Some (Proxy (p_mqttq p) (p_ddsq p) (p_mqtt_hd p) None cur, [Written h (sc_topic w) (mqtt2dds (sc_handles w) payload)])
        | DdsMsg _ => None
        end
      else if hd_type h =? HANDLE_TO_MQTT then
        '(q, ev) ← put (p_mqttq p) h;
        Some (Proxy q (p_ddsq p) (p_mqtt_hd p) None (p_scli p), ev)
      else Some (Proxy (p_mqttq p) (p_ddsq p) (p_mqtt_hd p) None (p_scli p), [])
  end.

Definition step (t : turn) (p : proxy) : option (proxy * list event) :=
  match t with
  | RecvMqtt rv type topic payload => mqtt_recv rv type topic payload p
  | DataAvailable rd rc valid s => dds_data_available rd rc valid s p
  | MqttPop => '(q, h) ← pop (p_mqttq p) (p_mqtt_hd p); Some (Proxy q (p_ddsq p) h (p_dds_hd p) (p_scli p), [])
  | MqttWork rv => mqtt_work rv p
  | DdsPop => '(q, h) ← pop (p_ddsq p) (p_dds_hd p); Some (Proxy (p_mqttq p) q (p_mqtt_hd p) h (p_scli p), [])
  | DdsWork => dds_work p
  end.

Fixpoint run (ts : list turn) (p : proxy) : option (proxy * list event) :=
  match ts with
  | [] => Some (p, [])
  | t :: ts => '(p, ev) ← step t p; '(p, evs) ← run ts p; Some (p, ev ++ evs)
  end.

(** [dds_client_init] and [mqtt_connect]; [mem] is what malloc returned. *)
Definition start (mem1 mem2 : list (option handle)) : proxy :=
  Proxy (nftp_vec_alloc mem1) (nftp_vec_alloc mem2) None None first_cur.

(** ** Order *)

(** The handles of one direction in a list of entries. *)
Definition to (k : Z) (l : list (option handle)) : list handle := filter (fun h => hd_type h = k) (omap id l).

(** What a thread holds and what waits in its queue. *)
Definition side (k : Z) (hd : option handle) (q : nftp_vec) : list handle := to k [hd] ++ to k (items q).

(** The handles on their way, the oldest first. *)
Definition to_dds (p : proxy) : list handle :=
  side HANDLE_TO_DDS (p_dds_hd p) (p_ddsq p) ++ side HANDLE_TO_DDS (p_mqtt_hd p) (p_mqttq p).
Definition to_mqtt (p : proxy) : list handle :=
  side HANDLE_TO_MQTT (p_mqtt_hd p) (p_mqttq p) ++ side HANDLE_TO_MQTT (p_dds_hd p) (p_ddsq p).

(** The messages received in a turn. *)
Definition from_mqtt (t : turn) : list handle :=
  match t with
  | RecvMqtt rv type topic payload =>
      if client_recv2 rv type =? 0 then [mk_handle HANDLE_TO_DDS (MqttMsg payload) topic] else []
  | _ => []
  end.
Definition from_dds (t : turn) : list handle :=
  match t with
  | DataAvailable rd rc valid s =>
      match List.find (fun c => rd =? sc_entity c) readers with
      | Some c => if (0 <? u32 rc) && bool_decide (valid = Some true) then [mk_handle HANDLE_TO_MQTT (DdsMsg s) (sc_topic c)] else []
      | None => []
      end
  | _ => []
  end.

Definition ended_dds (ev : list event) : list handle := omap (fun e => match e with Written h _ _ => Some h | _ => None end) ev.
Definition ended_mqtt (ev : list event) : list handle :=
  omap (fun e => match e with Published h _ _ | Unsent h _ _ | Skipped h => Some h | _ => None end) ev.
Definition unsent (ev : list event) : list handle := omap (fun e => match e with Unsent h _ _ => Some h | _ => None end) ev.
Definition lost (k : Z) (ev : list event) : list handle :=
  filter (fun h => hd_type h = k) (omap (fun e => match e with Lost h => Some h | _ => None end) ev).

(** The queue a turn puts a handle into. *)
Definition putting (t : turn) (p : proxy) : option (nftp_vec * handle) :=
  match t with
  | RecvMqtt _ _ _ _ => (fun h => (p_mqttq p, h)) <$> head (from_mqtt t)
  | DataAvailable _ _ _ _ => (fun h => (p_ddsq p, h)) <$> head (from_dds t)
  | MqttWork _ => h ← p_mqtt_hd p; if hd_type h =? HANDLE_TO_DDS then Some (p_ddsq p, h) else None
  | DdsWork => h ← p_dds_hd p; if hd_type h =? HANDLE_TO_MQTT then Some (p_mqttq p, h) else None
  | MqttPop | DdsPop => None
  end.

(** The handle of the direction [k] that finds a full queue in a turn. *)
Definition overflow (k : Z) (t : turn) (p : proxy) : list handle :=
  match putting t p with
  | Some (q, h) => if (blen (items q) =? NFTP_SIZE) && (hd_type h =? k) then [h] else []
  | None => []
  end.

(** The handle of a message whose send fails in a turn. *)
Definition refused (t : turn) (p : proxy) : list handle :=
  match t, p_mqtt_hd p with
  | MqttWork rv, Some h =>
      if negb (rv =? 0) && (hd_type h =? HANDLE_TO_MQTT) && bool_decide (is_Some (find_mqtt_topic conf (hd_topic h)))
      then [h] else []
  | _, _ => []
  end.

(** What [f] sees along a run. *)
Fixpoint along (f : turn -> proxy -> list handle) (ts : list turn) (p : proxy) : list handle :=
  match ts with
  | [] => []
  | t :: ts => f t p ++ match step t p with Some (p', _) => along f ts p' | None => [] end
  end.

(** From what was on its way ([a]) and received ([r]), what ended ([d]) and is
    on its way now ([b]) is in the same order, and exactly the lost handles ([l])
    are missing. *)
Definition flows (a r d l b : list handle) : Prop :=
  d ++ b `sublist_of` a ++ r /\ a ++ r ≡ₚ d ++ b ++ l.

Lemma flows_trans a r1 d1 l1 b r2 d2 l2 c :
  flows a r1 d1 l1 b -> flows b r2 d2 l2 c -> flows a (r1 ++ r2) (d1 ++ d2) (l1 ++ l2) c.
Proof.
  intros [H1 L1] [H2 L2]. split.
  - rewrite <- app_assoc. etrans; [apply sublist_app; [reflexivity|exact H2]|]. rewrite !app_assoc. by apply sublist_app.
  - rewrite app_assoc, L1. rewrite <- !app_assoc. apply Permutation_app_head.
    rewrite (Permutation_app_comm l1 r2), app_assoc, L2, <- !app_assoc. do 2 apply Permutation_app_head.
    apply Permutation_app_comm.
Qed.

Lemma flows_refl a : flows a [] [] [] a.
Proof. split; [by rewrite app_nil_r|by rewrite !app_nil_r]. Qed.

Lemma to_app k l1 l2 : to k (l1 ++ l2) = to k l1 ++ to k l2.
Proof. unfold to. by rewrite omap_app, filter_app. Qed.

Lemma to_None k : to k [None] = [].
Proof. done. Qed.

Lemma to_hit k h : hd_type h = k -> to k [Some h] = [h].
Proof. intros H. unfold to. cbn. by rewrite decide_True. Qed.

Lemma to_miss k h : hd_type h <> k -> to k [Some h] = [].
Proof. intros H. unfold to. cbn. by rewrite decide_False. Qed.

Definition queue_ok (q : @nftp_vec handle) : Prop := vec_ok q /\ nv_cap q = NFTP_SIZE.
Definition queues_ok (p : proxy) : Prop := queue_ok (p_mqttq p) /\ queue_ok (p_ddsq p).

(** Putting a handle into a queue appends it, or it is lost, which it is exactly
    when the queue is full. *)
Lemma put_ok q h q' ev : queue_ok q -> put q h = Some (q', ev) ->
  queue_ok q' /\ ended_dds ev = [] /\ ended_mqtt ev = [] /\ unsent ev = [] /\
  (forall k, lost k ev = if (blen (items q) =? NFTP_SIZE) && (hd_type h =? k) then [h] else []) /\
  forall k hd, exists x, side k hd q' = side k hd q ++ x /\
    ((x = to k [Some h] /\ lost k ev = []) \/ (x = [] /\ lost k ev = to k [Some h])).
Proof.
  intros [Hq Hc]. unfold put, nftp_vec_append. pose proof (push_tail_ok q (Some h) Hq) as H.
  pose proof (items_length q Hq) as Hl. assert (nv_len q <= nv_cap q) by (unfold vec_ok in Hq; lia).
  rewrite Hl. destruct (Z.leb_spec (nv_cap q) (nv_len q)).
  - rewrite H. cbn. intros [= <- <-]. replace (nv_len q =? NFTP_SIZE) with true by lia.
    split_and!; [done..| |].
    + intros k. unfold lost. cbn. destruct (Z.eqb_spec (hd_type h) k); [by rewrite decide_True|by rewrite decide_False].
    + intros k hd. exists []. rewrite app_nil_r. split; [done|]. by right.
  - destruct H as (v & -> & Hv & Hcv & Hi). cbn. intros [= <- <-]. replace (nv_len q =? NFTP_SIZE) with false by lia.
    split_and!; [split; [done|congruence]|done..|]. intros k hd. exists (to k [Some h]).
    unfold side. rewrite Hi, to_app, app_assoc. split; [done|]. by left.
Qed.

(** Taking a handle out of a queue keeps the order. *)
Lemma pop_ok q hd q' hd' : queue_ok q -> pop q hd = Some (q', hd') ->
  queue_ok q' /\ forall k, side k hd' q' = side k hd q.
Proof.
  intros [Hq Hc]. unfold pop. destruct hd as [h|]; [by intros [= <- <-]|]. unfold nftp_vec_len.
  destruct (Z.eqb_spec (nv_len q) 0) as [E|E]; [by intros [= <- <-]|].
  pose proof (pop_head_ok q Hq) as H. pose proof (items_length q Hq) as Hl. destruct (items q) as [|e l] eqn:Ei.
  - unfold blen in Hl. cbn in Hl. lia.
  - destruct H as (v & -> & Hv & Hcv & Hi). cbn [mbind option_bind]. intros [= <- <-]. split; [split; congruence|]. intros k.
    unfold side. rewrite Hi, Ei. symmetry. apply (to_app k [e] l).
Qed.

(** The effect of a turn on both directions. *)
Definition turn_ok (t : turn) (p p' : proxy) (ev : list event) : Prop :=
  queues_ok p' /\
  flows (to_dds p) (from_mqtt t) (ended_dds ev) (overflow HANDLE_TO_DDS t p) (to_dds p') /\
  flows (to_mqtt p) (from_dds t) (ended_mqtt ev) (overflow HANDLE_TO_MQTT t p) (to_mqtt p') /\
  unsent ev = refused t p.

Lemma turn_idle t p : queues_ok p -> from_mqtt t = [] -> from_dds t = [] ->
  (forall k, overflow k t p = []) -> refused t p = [] -> turn_ok t p p [].
Proof. intros Hp Hm Hd Ho Hr. unfold turn_ok. rewrite Hm, Hd, !Ho, Hr. split_and!; [done|apply flows_refl..|done]. Qed.

(** A handle that is added behind everything on its way, or lost. *)
Lemma flows_put a x l z : (x = z /\ l = []) \/ (x = [] /\ l = z) -> flows a z [] l (a ++ x).
Proof.
  intros [[-> ->] | [-> ->]]; split; rewrite ?app_nil_r; cbn [app]; try done. by apply sublist_inserts_r.
Qed.

(** A handle that is moved from the front of [b] behind [a], or lost. *)
Lemma flows_move a b x l z : (x = z /\ l = []) \/ (x = [] /\ l = z) -> flows (a ++ z ++ b) [] [] l ((a ++ x) ++ b).
Proof.
  intros [[-> ->] | [-> ->]]; split; rewrite ?app_nil_r; cbn [app]; rewrite <- ?app_assoc; try done.
  - apply sublist_app; [done|]. by apply sublist_inserts_l.
  - apply Permutation_app_head, Permutation_app_comm.
Qed.

Lemma flows_end a h : flows (h :: a) [] [h] [] a.
Proof. split; by rewrite !app_nil_r. Qed.

Lemma side_cons k h q : side k (Some h) q = to k [Some h] ++ side k None q.
Proof. done. Qed.

Lemma recv_ok rv type topic payload p p' ev :
  queues_ok p -> mqtt_recv rv type topic payload p = Some (p', ev) -> turn_ok (RecvMqtt rv type topic payload) p p' ev.
Proof.
  intros Hp. pose proof Hp as [H1 H2]. unfold mqtt_recv. destruct (client_recv2 rv type =? 0) eqn:Er.
  2: { intros [= <- <-]. apply turn_idle; [done|cbn; by rewrite Er|done| |done].
       intros k. unfold overflow. cbn. by rewrite Er. }
  destruct (put _ _) as [[q e]|] eqn:E; [|done]. cbn [mbind option_bind]. intros [= <- <-].
  destruct (put_ok _ _ _ _ H1 E) as (Hq & Hd & Hm & Hu & Hlo & Hs). unfold turn_ok. rewrite Hd, Hm, Hu.
  assert (forall k, overflow k (RecvMqtt rv type topic payload) p = lost k e) as Ho
    by (intros k; rewrite Hlo; unfold overflow; cbn; by rewrite Er).
  rewrite !Ho. unfold from_mqtt, from_dds. rewrite Er.
  destruct (Hs HANDLE_TO_DDS (p_mqtt_hd p)) as (x & Ex & Cx). destruct (Hs HANDLE_TO_MQTT (p_mqtt_hd p)) as (y & Ey & Cy).
  rewrite to_hit in Cx by done. rewrite to_miss in Cy by done.
  split_and!; [done| | |done]; unfold to_dds, to_mqtt; cbn [p_mqttq p_ddsq p_mqtt_hd p_dds_hd]; rewrite ?Ex, ?Ey.
  - rewrite app_assoc. by apply flows_put.
  - assert (y = [] /\ lost HANDLE_TO_MQTT e = []) as [-> ->] by (by destruct Cy as [[-> ->] | [-> ->]]). rewrite app_nil_r. apply flows_refl.
Qed.

Lemma available_ok rd rc valid x p p' ev :
  queues_ok p -> dds_data_available rd rc valid x p = Some (p', ev) -> turn_ok (DataAvailable rd rc valid x) p p' ev.
Proof.
  intros Hp. pose proof Hp as [H1 H2]. unfold dds_data_available. set (t := DataAvailable rd rc valid x).
  assert (from_dds t = [] -> turn_ok t p p []) as Hidle.
  { intros Hf. apply turn_idle; [done|done|done| |done]. intros k. unfold overflow, putting. subst t. by rewrite Hf. }
  destruct (List.find (fun c => rd =? sc_entity c) readers) as [c|] eqn:Ec;
    [|intros [= <- <-]; apply Hidle; unfold from_dds, t; by rewrite Ec].
  destruct (0 <? u32 rc) eqn:Eu; [destruct valid as [[]|] eqn:Ev|]; cbn [mbind option_bind]; try done;
    try (intros [= <- <-]; apply Hidle; unfold from_dds, t; by rewrite Ec, Eu).
  destruct (put _ _) as [[q e]|] eqn:E; [|done]. cbn [mbind option_bind]. intros [= <- <-].
  destruct (put_ok _ _ _ _ H2 E) as (Hq & Hd & Hm & Hu & Hlo & Hs). unfold turn_ok. rewrite Hd, Hm, Hu.
  assert (from_dds t = [mk_handle HANDLE_TO_MQTT (DdsMsg x) (sc_topic c)]) as Hf by (unfold from_dds, t; by rewrite Ec, Eu).
  assert (forall k, overflow k t p = lost k e) as Ho
    by (intros k; rewrite Hlo; unfold overflow, putting; subst t; by rewrite Hf).
  rewrite !Ho, Hf. unfold from_mqtt, t.
  destruct (Hs HANDLE_TO_DDS (p_dds_hd p)) as (a & Ea & Ca). destruct (Hs HANDLE_TO_MQTT (p_dds_hd p)) as (b & Eb & Cb).
  rewrite to_miss in Ca by done. rewrite to_hit in Cb by done.
  split_and!; [done| | |done]; unfold to_dds, to_mqtt; cbn [p_mqttq p_ddsq p_mqtt_hd p_dds_hd]; rewrite ?Ea, ?Eb.
  - assert (a = [] /\ lost HANDLE_TO_DDS e = []) as [-> ->] by (by destruct Ca as [[-> ->] | [-> ->]]). rewrite app_nil_r. apply flows_refl.
  - rewrite app_assoc. by apply flows_put.
Qed.

(** A handle of another direction is not seen. *)
Lemma other_side k h q : hd_type h <> k -> side k (Some h) q = side k None q.
Proof. intros H. by rewrite side_cons, to_miss. Qed.

Lemma mqtt_work_ok rv p p' ev : queues_ok p -> mqtt_work rv p = Some (p', ev) -> turn_ok (MqttWork rv) p p' ev.
Proof.
  intros Hp. pose proof Hp as [H1 H2]. unfold mqtt_work. destruct (p_mqtt_hd p) as [h|] eqn:Eh.
  2: { intros [= <- <-]. apply turn_idle; try done; [intros k; unfold overflow|unfold refused]; cbn; by rewrite Eh. }
  unfold turn_ok, overflow, refused, putting, to_dds, to_mqtt, from_mqtt, from_dds. rewrite Eh. cbn [mbind option_bind].
  destruct (Z.eqb_spec (hd_type h) HANDLE_TO_DDS) as [Et|Et].
  - destruct (put _ _) as [[q e]|] eqn:E; [|done]. cbn [mbind option_bind]. intros [= <- <-].
    destruct (put_ok _ _ _ _ H2 E) as (Hq & Hd & Hm & Hu & Hlo & Hs). rewrite <- !Hlo, Hd, Hm, Hu.
    destruct (Hs HANDLE_TO_DDS (p_dds_hd p)) as (a & Ea & Ca). destruct (Hs HANDLE_TO_MQTT (p_dds_hd p)) as (b & Eb & Cb).
    rewrite to_miss in Cb by (by rewrite Et). cbn [p_mqttq p_ddsq p_mqtt_hd p_dds_hd].
    split_and!; [done| | |rewrite Et; by destruct (rv =? 0)]; rewrite ?Ea, ?Eb.
    + rewrite (side_cons _ h). by apply flows_move.
    + assert (b = [] /\ lost HANDLE_TO_MQTT e = []) as [-> ->] by (by destruct Cb as [[-> ->] | [-> ->]]).
      rewrite app_nil_r, (other_side _ h) by (by rewrite Et). apply flows_refl.
  - destruct (Z.eqb_spec (hd_type h) HANDLE_TO_MQTT) as [Em|Em].
    + destruct (match find_mqtt_topic conf (hd_topic h), hd_data h with Some _, _ => _ | None, _ => _ end) as [e|] eqn:E; [|done].
      cbn [mbind option_bind]. intros [= <- <-]. cbn [p_mqttq p_ddsq p_mqtt_hd p_dds_hd]. rewrite andb_true_r.
      assert (ended_dds e = [] /\ ended_mqtt e = [h] /\
        unsent e = if negb (rv =? 0) && bool_decide (is_Some (find_mqtt_topic conf (hd_topic h))) then [h] else []) as (-> & -> & ->).
      { destruct (find_mqtt_topic conf (hd_topic h)) as [dt|]; [|injection E as <-; by rewrite andb_false_r].
        destruct (hd_data h) as [|x]; [done|].
        destruct (dds_get_handler _) as [hs|]; [|done]. cbn in E. destruct (dds2mqtt hs x) as [pl|]; [|done]. cbn in E.
        injection E as <-. rewrite bool_decide_true by done. unfold publish_result. by destruct (rv =? 0). }
      split_and!; [done| | |done].
      * rewrite (other_side HANDLE_TO_DDS h) by done. apply flows_refl.
      * rewrite (side_cons _ h), to_hit by done. apply flows_end.
    + intros [= <- <-]. cbn [p_mqttq p_ddsq p_mqtt_hd p_dds_hd]. rewrite andb_false_r.
      split_and!; [done| | |done]; rewrite (other_side _ h) by done; apply flows_refl.
Qed.

Lemma dds_work_ok p p' ev : queues_ok p -> dds_work p = Some (p', ev) -> turn_ok DdsWork p p' ev.
Proof.
  intros Hp. pose proof Hp as [H1 H2]. unfold dds_work. destruct (p_dds_hd p) as [h|] eqn:Eh.
  2: { intros [= <- <-]. apply turn_idle; try done. intros k. unfold overflow. cbn. by rewrite Eh. }
  unfold turn_ok, overflow, refused, putting, to_dds, to_mqtt, from_mqtt, from_dds. rewrite Eh. cbn [mbind option_bind].
  destruct (Z.eqb_spec (hd_type h) HANDLE_TO_DDS) as [Et|Et].
  - destruct (find_writer _ writers (p_scli p)) as [[w|]|]; try done. cbn [mbind option_bind].
    destruct (hd_data h) as [pl|]; [|done]. intros [= <- <-]. cbn [p_mqttq p_ddsq p_mqtt_hd p_dds_hd].
    rewrite Et. split_and!; [done| | |done].
    + rewrite (side_cons _ h), to_hit by done. apply flows_end.
    + rewrite (other_side HANDLE_TO_MQTT h) by (by rewrite Et). apply flows_refl.
  - destruct (Z.eqb_spec (hd_type h) HANDLE_TO_MQTT) as [Em|Em].
    + destruct (put _ _) as [[q e]|] eqn:E; [|done]. cbn [mbind option_bind]. intros [= <- <-].
      destruct (put_ok _ _ _ _ H1 E) as (Hq & Hd & Hm & Hu & Hlo & Hs). rewrite <- !Hlo, Hd, Hm, Hu.
      destruct (Hs HANDLE_TO_DDS (p_mqtt_hd p)) as (a & Ea & Ca). destruct (Hs HANDLE_TO_MQTT (p_mqtt_hd p)) as (b & Eb & Cb).
      rewrite to_miss in Ca by (by rewrite Em). cbn [p_mqttq p_ddsq p_mqtt_hd p_dds_hd]. split_and!; [done| | |done]; rewrite ?Ea, ?Eb.
      * assert (a = [] /\ lost HANDLE_TO_DDS e = []) as [-> ->] by (by destruct Ca as [[-> ->] | [-> ->]]).
        rewrite app_nil_r, (other_side _ h) by done. apply flows_refl.
      * rewrite (side_cons _ h). by apply flows_move.
    + intros [= <- <-]. cbn [p_mqttq p_ddsq p_mqtt_hd p_dds_hd].
      split_and!; [done| | |done]; rewrite (other_side _ h) by done; apply flows_refl.
Qed.

Lemma step_ok t p p' ev : queues_ok p -> step t p = Some (p', ev) -> turn_ok t p p' ev.
Proof.
  intros Hp. destruct t; cbn [step].
  - by apply recv_ok.
  - by apply available_ok.
  - destruct (pop _ _) as [[q h]|] eqn:E; [|done]. cbn [mbind option_bind]. intros [= <- <-]. destruct Hp as [H1 H2].
    destruct (pop_ok _ _ _ _ H1 E) as [Hq Hs].
    split_and!; [done| | |done]; unfold to_dds, to_mqtt; cbn [p_mqttq p_ddsq p_mqtt_hd p_dds_hd]; rewrite Hs; apply flows_refl.
  - by apply mqtt_work_ok.
  - destruct (pop _ _) as [[q h]|] eqn:E; [|done]. cbn [mbind option_bind]. intros [= <- <-]. destruct Hp as [H1 H2].
    destruct (pop_ok _ _ _ _ H2 E) as [Hq Hs].
    split_and!; [done| | |done]; unfold to_dds, to_mqtt; cbn [p_mqttq p_ddsq p_mqtt_hd p_dds_hd]; rewrite Hs; apply flows_refl.
  - by apply dds_work_ok.
Qed.

Lemma run_ok ts p p' ev : queues_ok p -> run ts p = Some (p', ev) ->
  queues_ok p' /\
  flows (to_dds p) (concat (map from_mqtt ts)) (ended_dds ev) (along (overflow HANDLE_TO_DDS) ts p) (to_dds p') /\
  flows (to_mqtt p) (concat (map from_dds ts)) (ended_mqtt ev) (along (overflow HANDLE_TO_MQTT) ts p) (to_mqtt p') /\
  unsent ev = along refused ts p.
Proof.
  revert p ev. induction ts as [|t ts IH]; intros p ev Hp; cbn [run map concat along].
  { intros [= <- <-]. split_and!; [done|apply flows_refl..|done]. }
  destruct (step t p) as [[p1 e1]|] eqn:E1; [|done]. cbn [mbind option_bind].
  destruct (run ts p1) as [[p2 e2]|] eqn:E2; [|done]. cbn [mbind option_bind]. intros [= <- <-].
  destruct (step_ok t p p1 e1 Hp E1) as (Hp1 & Hd & Hm & Hu). destruct (IH p1 e2 Hp1 E2) as (Hp2 & Hd2 & Hm2 & Hu2).
  unfold ended_dds, ended_mqtt, unsent in *. rewrite !omap_app.
  split_and!; [done|by eapply flows_trans..|by rewrite Hu, Hu2].
Qed.

(** C35. Whatever the order of the threads, each direction of the proxy keeps the
    order of the messages and invents and duplicates none.  What has ended and
    what is on its way is a subsequence of what was received, and what is missing
    from it are exactly the messages that met a queue with NFTP_SIZE handles in
    it.  A message to DDS ends by being written; one to MQTT by being published,
    by a send that fails, which is exactly what happens to those whose
    nng_sendmsg returned an error, or by having no rule. *)
Theorem proxy_order ts mem1 mem2 p ev :
  blen mem1 = NFTP_SIZE -> blen mem2 = NFTP_SIZE -> run ts (start mem1 mem2) = Some (p, ev) ->
  flows [] (concat (map from_mqtt ts)) (ended_dds ev) (along (overflow HANDLE_TO_DDS) ts (start mem1 mem2)) (to_dds p) /\
  flows [] (concat (map from_dds ts)) (ended_mqtt ev) (along (overflow HANDLE_TO_MQTT) ts (start mem1 mem2)) (to_mqtt p) /\
  unsent ev = along refused ts (start mem1 mem2).
Proof.
  intros Hm1 Hm2 H. destruct (nftp_vec_alloc_ok mem1 Hm1) as [Ho1 _]. destruct (nftp_vec_alloc_ok mem2 Hm2) as [Ho2 _].
  assert (queues_ok (start mem1 mem2)) as Hq by (by repeat split).
  destruct (run_ok ts (start mem1 mem2) p ev Hq H) as (_ & Hd & Hm & Hu). split_and!; [exact Hd|exact Hm|exact Hu].
Qed.

(** ** Clients *)

Lemma rule_for_Some key t l r : rule_for key t l = Some r -> r ∈ l /\ key r = t.
Proof.
  unfold rule_for. intros H. apply find_some in H as [Hr Hk]. rewrite bool_decide_eq_true in Hk.
  split; [by apply list_elem_of_In|done].
Qed.

Lemma rule_for_elem key r l : r ∈ l -> exists r', rule_for key (key r) l = Some r'.
Proof.
  intros H. unfold rule_for. destruct (List.find _ l) as [r'|] eqn:E; [by exists r'|].
  eapply find_none in E; [|by apply list_elem_of_In]. by rewrite bool_decide_true in E.
Qed.

Lemma structs_known_handler r :
  structs_known = true -> r ∈ dds2mqtt_rules conf ++ mqtt2dds_rules conf -> is_Some (dds_get_handler (dt_struct_name r)).
Proof.
  unfold structs_known. rewrite forallb_forall. intros H Hr. apply list_elem_of_In in Hr. specialize (H r Hr).
  by destruct (dds_get_handler _).
Qed.

Lemma init_clients_all isrd topics cur :
  Forall (fun t => is_Some (dds_subcli_init isrd t)) topics ->
  fst (init_clients isrd topics cur) = omap (dds_subcli_init isrd) topics.
Proof.
  intros H. revert cur. induction H as [|t topics [sc Ht] H IH]; intros cur; [done|]. cbn. rewrite Ht.
  specialize (IH (Some sc)). destruct (init_clients isrd topics (Some sc)). cbn in *. by rewrite IH.
Qed.

Lemma writer_init r : structs_known = true -> r ∈ mqtt2dds_rules conf ->
  exists r' h, rule_for dt_to (dt_to r) (mqtt2dds_rules conf) = Some r' /\ dds_get_handler (dt_struct_name r') = Some h /\
    dds_subcli_init false (dt_to r) = Some (SubCli (create_entity false (dt_to r)) (dt_to r) h).
Proof.
  intros Hk Hr. destruct (rule_for_elem dt_to r _ Hr) as [r' E]. apply rule_for_Some in E as E'. destruct E' as [Hr' _].
  destruct (structs_known_handler r' Hk) as [h Hh]; [apply elem_of_app; by right|].
  exists r', h. split_and!; [done..|]. unfold dds_subcli_init. rewrite E. cbn. by rewrite Hh.
Qed.

Lemma writers_all : structs_known = true ->
  writers = omap (dds_subcli_init false) (map dt_to (mqtt2dds_rules conf)).
Proof.
  intros Hk. unfold writers. apply init_clients_all. apply Forall_forall. intros t Ht.
  apply list_elem_of_fmap in Ht as (r & -> & Hr). destruct (writer_init r Hk Hr) as (? & ? & _ & _ & ->). done.
Qed.

(** Every writer has the operations of the first rule for its topic. *)
Lemma writers_spec w : structs_known = true -> w ∈ writers ->
  exists r, rule_for dt_to (sc_topic w) (mqtt2dds_rules conf) = Some r /\ dds_get_handler (dt_struct_name r) = Some (sc_handles w).
Proof.
  intros Hk. rewrite (writers_all Hk), list_elem_of_omap. intros (t & Ht & Hw).
  apply list_elem_of_fmap in Ht as (r & -> & Hr). destruct (writer_init r Hk Hr) as (r' & h & E & Eh & Hi).
  rewrite Hi in Hw. injection Hw as <-. by exists r'.
Qed.

Lemma writer_exists r : structs_known = true -> r ∈ mqtt2dds_rules conf -> exists w, w ∈ writers /\ sc_topic w = dt_to r.
Proof.
  intros Hk Hr. destruct (writer_init r Hk Hr) as (r' & h & _ & _ & Hi).
  exists (SubCli (create_entity false (dt_to r)) (dt_to r) h). split; [|done].
  rewrite (writers_all Hk), list_elem_of_omap. exists (dt_to r). split; [by apply list_elem_of_fmap_2|exact Hi].
Qed.

Lemma find_writer_spec d ws cur : exists c, find_writer (Some d) ws cur = Some c /\
  ((exists w, c = Some w /\ w ∈ ws /\ sc_topic w = dt_to d) \/ (c = cur /\ forall w, w ∈ ws -> sc_topic w <> dt_to d)).
Proof.
  revert cur. induction ws as [|w ws IH]; intros cur; cbn [find_writer mbind option_bind].
  { exists cur. split; [done|]. right. split; [done|]. intros w H. by apply elem_of_nil in H. }
  destruct (IH (if bool_decide (dt_to d = sc_topic w) then Some w else cur)) as (c & E & H). exists c. split; [exact E|].
  destruct H as [(w' & -> & Hw & Ht)|[-> Hn]]; [left; exists w'; split_and!; [done|by right|done]|].
  case_bool_decide as Hd; [left; exists w; split_and!; [done|left|done]|].
  right. split; [done|]. intros w' [->|Hw']%elem_of_cons; [congruence|by apply Hn].
Qed.

(** ** What is sent *)

(** Rules for the same DDS topic name the same structure. *)
Definition consistent : Prop :=
  forall r1 r2, r1 ∈ mqtt2dds_rules conf -> r2 ∈ mqtt2dds_rules conf -> dt_to r1 = dt_to r2 -> dt_struct_name r1 = dt_struct_name r2.

Definition event_ok (e : event) : Prop :=
  match e with
  | Written h t x => exists d hs pl, hd_data h = MqttMsg pl /\ find_dds_topic conf (hd_topic h) = Some d /\ t = dt_to d /\
      dds_get_handler (dt_struct_name d) = Some hs /\ x = mqtt2dds hs pl
  | Published h t pl | Unsent h t pl => exists d hs x, hd_data h = DdsMsg x /\ find_mqtt_topic conf (hd_topic h) = Some d /\ t = dt_to d /\
      dds_get_handler (dt_struct_name d) = Some hs /\ dds2mqtt hs x = Some pl
  | Skipped h => find_mqtt_topic conf (hd_topic h) = None
  | Lost _ => True
  end.

Lemma put_events q h q' ev : put q h = Some (q', ev) -> Forall event_ok ev.
Proof.
  unfold put. destruct (nftp_vec_append q (Some h)) as [[rv v]|]; [|done]. cbn. intros [= <- <-].
  destruct (rv =? 0); repeat constructor.
Qed.

(** The writer used for a rule has the topic and the structure of the rule. *)
Lemma writer_of_rule d cur : structs_known = true -> consistent -> d ∈ mqtt2dds_rules conf ->
  exists w, find_writer (Some d) writers cur = Some (Some w) /\ sc_topic w = dt_to d /\
    dds_get_handler (dt_struct_name d) = Some (sc_handles w).
Proof.
  intros Hk Hc Hd. destruct (find_writer_spec d writers cur) as (c & E & [(w & -> & Hw & Ht)|[-> Hn]]).
  - exists w. split_and!; [done..|]. destruct (writers_spec w Hk Hw) as (r & Hr & Hh).
    apply rule_for_Some in Hr as [Hr Hrt]. rewrite (Hc d r Hd Hr); [done|congruence].
  - destruct (writer_exists d Hk Hd) as (w & Hw & Ht). by destruct (Hn w Hw).
Qed.

Lemma step_events t p p' ev :
  structs_known = true -> consistent -> mqtt2dds_rules conf <> [] -> step t p = Some (p', ev) -> Forall event_ok ev.
Proof.
  intros Hk Hc Hne. destruct t; cbn [step].
  - unfold mqtt_recv. destruct (_ =? 0); [|by intros [= <- <-]]. destruct (put _ _) as [[q e]|] eqn:E; [|done].
    cbn [mbind option_bind]. intros [= <- <-]. by eapply put_events.
  - unfold dds_data_available. destruct (List.find _ _); [|by intros [= <- <-]].
    destruct (if 0 <? u32 rc then valid else Some false) as [[]|]; cbn [mbind option_bind]; [|by intros [= <- <-]|done].
    destruct (put _ _) as [[q e]|] eqn:E; [|done]. cbn [mbind option_bind]. intros [= <- <-]. by eapply put_events.
  - destruct (pop _ _) as [[q h]|]; [|done]. cbn [mbind option_bind]. by intros [= <- <-].
  - unfold mqtt_work. destruct (p_mqtt_hd p) as [h|]; [|by intros [= <- <-]]. destruct (_ =? HANDLE_TO_DDS).
    { destruct (put _ _) as [[q e]|] eqn:E; [|done]. cbn [mbind option_bind]. intros [= <- <-]. by eapply put_events. }
    destruct (_ =? HANDLE_TO_MQTT); [|by intros [= <- <-]].
    destruct (find_mqtt_topic conf (hd_topic h)) as [d|] eqn:Ed.
    + destruct (hd_data h) as [|x] eqn:Ex; [done|]. destruct (dds_get_handler _) as [hs|] eqn:Eh; [|done]. cbn [mbind option_bind].
      destruct (dds2mqtt hs x) as [pl|] eqn:Ep; [|done]. cbn [mbind option_bind]. intros [= <- <-].
      unfold publish_result. destruct (negb _); (constructor; [|constructor]); exists d, hs, x; done.
    + cbn [mbind option_bind]. intros [= <- <-]. constructor; [exact Ed|constructor].
  - destruct (pop _ _) as [[q h]|]; [|done]. cbn [mbind option_bind]. by intros [= <- <-].
  - unfold dds_work. destruct (p_dds_hd p) as [h|]; [|by intros [= <- <-]]. destruct (_ =? HANDLE_TO_DDS).
    2: { destruct (_ =? HANDLE_TO_MQTT); [|by intros [= <- <-]]. destruct (put _ _) as [[q e]|] eqn:E; [|done].
         cbn [mbind option_bind]. intros [= <- <-]. by eapply put_events. }
    destruct (find_dds_topic conf (hd_topic h)) as [d|] eqn:Ed.
    2: { destruct (mqtt2dds_rules conf) as [|r l] eqn:El; [done|].
         destruct (writer_exists r Hk) as (w & Hw & _); [rewrite El; left|]. by destruct writers; [apply elem_of_nil in Hw|]. }
    apply rule_for_Some in Ed as Ed'. destruct Ed' as [Hd _].
    destruct (writer_of_rule d (p_scli p) Hk Hc Hd) as (w & -> & Hw & Hh). cbn [mbind option_bind].
    destruct (hd_data h) as [pl|] eqn:Ex; [|done]. intros [= <- <-]. constructor; [|constructor].
    exists d, (sc_handles w), pl. done.
Qed.

(** Whatever is sent on was converted with the structure of the first rule for
    its topic and goes to the topic of that rule; a sample is skipped only when
    there is no rule for its topic. *)
Theorem proxy_forwards ts p p' ev :
  structs_known = true -> consistent -> mqtt2dds_rules conf <> [] -> run ts p = Some (p', ev) -> Forall event_ok ev.
Proof.
  intros Hk Hc Hne. revert p ev. induction ts as [|t ts IH]; intros p ev; cbn [run]; [by intros [= <- <-]|].
  destruct (step t p) as [[p1 e1]|] eqn:E1; [|done]. cbn [mbind option_bind].
  destruct (run ts p1) as [[p2 e2]|] eqn:E2; [|done]. cbn [mbind option_bind]. intros [= <- <-].
  apply Forall_app. split; [by eapply step_events|by eapply IH].
Qed.

(** ** Defined runs *)

(** A message received that can be handled: its topic is that of a rule, or a
    sample that can be printed; dds_take did not fail. *)
Definition turn_defined (t : turn) : Prop :=
  match t with
  | RecvMqtt _ _ topic _ => is_Some (find_dds_topic conf topic)
  | DataAvailable _ rc valid x => 0 <= rc < 2 ^ 31 /\ (0 < rc -> is_Some valid) /\ forall hs, is_Some (dds2mqtt hs x)
  | _ => True
  end.

Definition good_dds (h : handle) : Prop := (exists pl, hd_data h = MqttMsg pl) /\ is_Some (find_dds_topic conf (hd_topic h)).
Definition good_mqtt (h : handle) : Prop :=
  exists x, hd_data h = DdsMsg x /\ forall hs, is_Some (dds2mqtt hs x).

Lemma handle_put_total q h : queue_ok q -> is_Some (put q h).
Proof.
  intros [Hq _]. unfold put, nftp_vec_append. pose proof (push_tail_ok q (Some h) Hq) as H.
  destruct (nv_cap q <=? nv_len q); [by rewrite H|]. by destruct H as (v & -> & _).
Qed.

Lemma pop_total q hd : queue_ok q -> is_Some (pop q hd).
Proof.
  intros [Hq _]. unfold pop. destruct hd; [done|]. destruct (_ =? 0); [done|]. pose proof (pop_head_ok q Hq) as H.
  destruct (items q); [by rewrite H|]. by destruct H as (v & -> & _).
Qed.

Lemma held k h q : hd_type h = k -> h ∈ side k (Some h) q.
Proof. intros H. rewrite side_cons, to_hit by done. by left. Qed.

Lemma put_bind q h (f : nftp_vec * list event -> option (proxy * list event)) :
  queue_ok q -> (forall x, is_Some (f x)) -> is_Some (put q h ≫= f).
Proof. intros Hq Hf. destruct (handle_put_total q h Hq) as [x ->]. apply Hf. Qed.

Lemma step_defined t p :
  structs_known = true -> consistent -> queues_ok p -> Forall good_dds (to_dds p) -> Forall good_mqtt (to_mqtt p) ->
  turn_defined t -> is_Some (step t p).
Proof.
  intros Hk Hc [H1 H2] Gd Gm Ht. rewrite Forall_forall in Gd, Gm. destruct t as [rv ty topic pl|rd rc valid x| | | |]; cbn [step].
  - unfold mqtt_recv. destruct (_ =? 0); [|done]. apply put_bind; [done|]. by intros [].
  - unfold dds_data_available. destruct (List.find _ _); [|done]. destruct Ht as (Hrc & Hv & _).
    destruct (Z.ltb_spec 0 (u32 rc)) as [Hp|]; [|done].
    rewrite u32_small in Hp by lia. destruct (Hv Hp) as [b ->]. cbn [mbind option_bind]. destruct b; [|done].
    apply put_bind; [done|]. by intros [].
  - destruct (pop_total (p_mqttq p) (p_mqtt_hd p) H1) as [[q h] ->]. done.
  - unfold mqtt_work. destruct (p_mqtt_hd p) as [h|] eqn:Eh; [|done]. destruct (_ =? HANDLE_TO_DDS); [apply put_bind; [done|by intros []]|].
    destruct (Z.eqb_spec (hd_type h) HANDLE_TO_MQTT) as [Em|]; [|done].
    destruct (Gm h) as (x & -> & Hx); [unfold to_mqtt; rewrite Eh; apply elem_of_app; left; by apply held|].
    destruct (find_mqtt_topic conf (hd_topic h)) as [d|] eqn:Ed; [|done].
    apply rule_for_Some in Ed as [Hd _]. destruct (structs_known_handler d Hk) as [hs ->]; [apply elem_of_app; by left|].
    cbn [mbind option_bind]. by destruct (Hx hs) as [pl ->].
  - destruct (pop_total (p_ddsq p) (p_dds_hd p) H2) as [[q h] ->]. done.
  - unfold dds_work. destruct (p_dds_hd p) as [h|] eqn:Eh; [|done]. destruct (Z.eqb_spec (hd_type h) HANDLE_TO_DDS) as [Ed|].
    2: { destruct (_ =? HANDLE_TO_MQTT); [|done]. apply put_bind; [done|by intros []]. }
    destruct (Gd h) as ((pl & ->) & d & Hd); [unfold to_dds; rewrite Eh; apply elem_of_app; left; by apply held|].
    rewrite Hd. apply rule_for_Some in Hd as [Hd _]. destruct (writer_of_rule d (p_scli p) Hk Hc Hd) as (w & -> & _). done.
Qed.

Lemma received_good t : turn_defined t -> Forall good_dds (from_mqtt t) /\ Forall good_mqtt (from_dds t).
Proof.
  intros Ht. destruct t as [rv ty topic pl|rd rc valid x| | | |]; try done; cbn [from_mqtt from_dds].
  - split; [|done]. destruct (_ =? 0); [|done]. constructor; [|constructor]. split; [by exists pl|exact Ht].
  - split; [done|]. destruct (List.find _ _); [|done]. destruct (_ && _); [|done]. constructor; [|constructor].
    exists x. split; [done|]. apply Ht.
Qed.

Lemma sublist_Forall (P : handle -> Prop) l k : l `sublist_of` k -> Forall P k -> Forall P l.
Proof.
  induction 1 as [|x l k H IH|x l k H IH]; [done|..]; intros [Hx Hk]%Forall_cons; [constructor|]; auto.
Qed.

Lemma flows_good (P : handle -> Prop) a r d l b : flows a r d l b -> Forall P a -> Forall P r -> Forall P b.
Proof.
  intros [Hs _] Ha Hr. apply (sublist_Forall P) in Hs; [|by apply Forall_app_2]. apply Forall_app in Hs as [_ Hs]; exact Hs.
Qed.

Lemma run_defined ts p :
  structs_known = true -> consistent -> queues_ok p -> Forall good_dds (to_dds p) -> Forall good_mqtt (to_mqtt p) ->
  Forall turn_defined ts -> is_Some (run ts p).
Proof.
  intros Hk Hc Hp Gd Gm Hts. revert p Hp Gd Gm. induction Hts as [|t ts Ht Hts IH]; intros p Hp Gd Gm; cbn [run]; [done|].
  destruct (step_defined t p Hk Hc Hp Gd Gm Ht) as [[p1 e1] E1]. rewrite E1. cbn [mbind option_bind].
  destruct (step_ok t p p1 e1 Hp E1) as (Hp1 & Fd & Fm & _). destruct (received_good t Ht) as [Rd Rm].
  destruct (IH p1) as [[p2 e2] ->]; [done|by eapply flows_good|by eapply flows_good|done].
Qed.

(** When every message received has a topic with a rule, every sample can be
    printed and dds_take does not fail, no interleaving of the threads has
    undefined behaviour. *)
Theorem proxy_defined ts mem1 mem2 :
  structs_known = true -> consistent -> blen mem1 = NFTP_SIZE -> blen mem2 = NFTP_SIZE -> Forall turn_defined ts ->
  is_Some (run ts (start mem1 mem2)).
Proof.
  intros Hk Hc Hm1 Hm2 Hts. destruct (nftp_vec_alloc_ok mem1 Hm1) as [Ho1 _]. destruct (nftp_vec_alloc_ok mem2 Hm2) as [Ho2 _].
  apply run_defined; try done; by repeat constructor.
Qed.

End Proxy.

(** ** Witnesses *)

Section Witness.

(** One structure, whose samples are the payloads. *)
Definition text_map : list (bytes * unit) := [(lit "text", tt)].
Definition text_in (_ : unit) (payload : bytes) : bytes := payload.
Definition text_out (_ : unit) (x : bytes) : option bytes := Some x.
Definition entity (isrd : bool) (t : bytes) : Z := if isrd then blen t else 1000 + blen t.
Definition two_rules : forward_conf :=
  ForwardConf [GatewayTopic (lit "m/in") (lit "d/in") (lit "text")] [GatewayTopic (lit "d/out") (lit "m/out") (lit "text")].

#[local] Abbreviation runs c := (run text_map text_in text_out entity c 2 3).
Definition no_handles : list (option (@handle bytes)) := replicate 128 None.
#[local] Abbreviation starts c := (start text_map entity c no_handles no_handles).

Definition both_ways : list (@turn bytes) :=
  [RecvMqtt 0 3 (lit "m/in") (lit "a"); DataAvailable 5 1 (Some true) (lit "x"); MqttPop; DdsPop; MqttWork 0; DdsWork;
   DdsPop; MqttPop; DdsWork; MqttWork 0].

Definition both_end : option (@proxy bytes unit * list (@event bytes)) := runs two_rules both_ways (starts two_rules).

Lemma two_rules_consistent : consistent two_rules.
Proof. intros r1 r2 H1%list_elem_of_singleton H2%list_elem_of_singleton _. by subst. Qed.

Lemma both_ways_defined : Forall (turn_defined text_out two_rules) both_ways.
Proof.
  constructor; [by exists (GatewayTopic (lit "m/in") (lit "d/in") (lit "text"))|].
  constructor; [cbn; split_and!; [lia|lia|done|]; intros; by exists (lit "x")|].
  repeat (constructor; [exact I|]). constructor.
Qed.

Lemma proxy_defined_witness : is_Some both_end.
Proof.
  exact (proxy_defined text_map text_in text_out entity two_rules 2 3 both_ways no_handles no_handles eq_refl two_rules_consistent eq_refl eq_refl both_ways_defined).
Defined.

Definition end_state : @proxy bytes unit := match both_end with Some (p, _) => p | None => starts two_rules end.
Definition end_events : list (@event bytes) :=
  [Written (Handle 1 (MqttMsg (lit "a")) (lit "m/in")) (lit "d/in") (lit "a");
   Published (Handle 2 (DdsMsg (lit "x")) (lit "d/out")) (lit "m/out") (lit "x")].

Lemma both_run : runs two_rules both_ways (starts two_rules) = Some (end_state, end_events).
Proof. vm_compute. reflexivity. Qed.

(** A sample whose message cannot be sent, and one message more than the queue
    holds. *)
Definition busy : list (@turn bytes) :=
  [DataAvailable 5 1 (Some true) (lit "x"); DdsPop; DdsWork; MqttPop; MqttWork 8] ++
  replicate 128 (RecvMqtt 0 3 (lit "m/in") (lit "a")) ++ [RecvMqtt 0 3 (lit "m/in") (lit "b")].

Definition busy_state : @proxy bytes unit := match runs two_rules busy (starts two_rules) with Some (p, _) => p | None => starts two_rules end.
Definition busy_events : list (@event bytes) :=
  [Unsent (Handle 2 (DdsMsg (lit "x")) (lit "d/out")) (lit "m/out") (lit "x");
   Lost (Handle 1 (MqttMsg (lit "b")) (lit "m/in"))].

Lemma busy_run : runs two_rules busy (starts two_rules) = Some (busy_state, busy_events).
Proof. vm_compute. reflexivity. Qed.

Lemma proxy_order_witness :
  flows [] (replicate 128 (Handle 1 (MqttMsg (lit "a")) (lit "m/in")) ++ [Handle 1 (MqttMsg (lit "b")) (lit "m/in")]) []
    [Handle 1 (MqttMsg (lit "b")) (lit "m/in")] (to_dds busy_state) /\
  flows [] [Handle 2 (DdsMsg (lit "x")) (lit "d/out")] [Handle 2 (DdsMsg (lit "x")) (lit "d/out")] [] (to_mqtt busy_state) /\
  unsent busy_events = [Handle 2 (DdsMsg (lit "x")) (lit "d/out")].
Proof.
  pose proof (proxy_order text_map text_in text_out entity two_rules 2 3 busy no_handles no_handles busy_state busy_events
    eq_refl eq_refl busy_run) as (Hd & Hm & Hu). split; [|split; [|reflexivity]].
  - vm_compute in Hd. vm_compute. exact Hd.
  - vm_compute in Hm. vm_compute. exact Hm.
Defined.

Lemma proxy_forwards_witness : Forall (event_ok text_map text_in text_out two_rules) end_events.
Proof.
  exact (proxy_forwards text_map text_in text_out entity two_rules 2 3 both_ways (starts two_rules) end_state end_events
    eq_refl two_rules_consistent ltac:(discriminate) both_run).
Defined.

(** A rule whose MQTT topic has a wildcard subscribes to topics that no rule is
    found for: the first message is undefined behaviour. *)
Theorem wildcard_rule_undefined :
  let c := ForwardConf [GatewayTopic (lit "m/#") (lit "d/in") (lit "text")] [] in
  runs c [RecvMqtt 0 3 (lit "m/a") (lit "a"); MqttPop; MqttWork 0; DdsPop; DdsWork] (starts c) = None.
Proof. vm_compute. reflexivity. Qed.

(** An error of dds_take is not recognised, since its result is stored without a
    sign; the validity of the sample is then read without a value. *)
Theorem take_error_undefined :
  runs two_rules [DataAvailable 5 (-1) None (lit "x")] (starts two_rules) = None.
Proof. vm_compute. reflexivity. Qed.

(** Two rules for one DDS topic with different structures: the second converts
    with the structure of the first. *)
Theorem structure_of_first_rule :
  let c := ForwardConf [GatewayTopic (lit "m/1") (lit "d") (lit "text"); GatewayTopic (lit "m/2") (lit "d") (lit "other")] [] in
  map (sc_handles) (writers [(lit "text", false); (lit "other", true)] entity c) = [false; false].
Proof. vm_compute. reflexivity. Qed.

End Witness.

End DdsProxy.
