(* ===== verification/DdsOpts.v ===== *)
(** * The commands of the DDS proxy (nanomq_cli/dds2mqtt/dds_utils.c, dds_client.c)

    "nanomq_cli dds sub|pub|proxy": the options of the two clients and of the
    proxy, the checks behind them, and the start of the proxy up to its threads
    ([DdsProxy]).  The parsers of options, of JSON and of the configuration file
    are parameters. *)

From S2P Require Import Prelude OptsApi NftpVec DdsProxy.

Module DdsOpts.

Import DdsProxy.

(** ** The options of [dds sub] and [dds pub] *)

Definition OPT_DDS_HELP : Z := 1.
Definition OPT_DDS_DOMAIN_ID : Z := 2.
Definition OPT_DDS_TOPIC : Z := 3.
Definition OPT_DDS_STRUCT_NAME : Z := 4.
Definition OPT_DDS_MSG : Z := 5.
Definition OPT_DDS_SHM_MODE : Z := 6.
Definition OPT_DDS_SHM_LOG_LEVEL : Z := 7.
Definition OPT_DDS_PARTITION : Z := 8.

Definition dds_cmd_opts : list optspec :=
  [OptSpec (lit "help") 104 OPT_DDS_HELP false; OptSpec (lit "domain_id") 100 OPT_DDS_DOMAIN_ID true;
   OptSpec (lit "struct") 110 OPT_DDS_STRUCT_NAME true; OptSpec (lit "msg") 109 OPT_DDS_MSG true;
   OptSpec (lit "topic") 116 OPT_DDS_TOPIC true; OptSpec (lit "shm_mode") 115 OPT_DDS_SHM_MODE false;
   OptSpec (lit "shm_log_level") 108 OPT_DDS_SHM_LOG_LEVEL true; OptSpec (lit "partition") 112 OPT_DDS_PARTITION true].

Inductive dds_client_type := DDS_PUB | DDS_SUB.

#[export] Instance dds_client_type_eq_dec : EqDecision dds_client_type.
Proof. solve_decision. Defined.

Section Commands.

Context {json : Type}.
Context `{OP : OptsParse}.
(** cJSON_Parse, [None] unless the text is an object. *)
Context (parse_object : bytes -> option json).

Record dds_client_opts := DdsClientOpts {
  do_cli_type : dds_client_type;
  do_domain_id : Z;
  do_topic : option bytes;
  do_struct_name : option bytes;
  do_msg : option json;
  do_shm_mode : bool;
  do_shm_log_level : option bytes;
  do_partition : option bytes
}.

(** atol, as uint32_t *)
Definition domain_of (a : bytes) : Z :=
  u32 (match read_number a with
       | None => 0
       | Some (neg, n) => if neg then Z.max (- 2 ^ 63) (- n) else Z.min (2 ^ 63 - 1) n
       end).

(** The switch of [dds_cmd_parse_opts]. *)
Definition dds_opt (val : Z) (arg : option bytes) (o : dds_client_opts) : dds_client_opts + stop :=
  let with_arg (f : bytes -> dds_client_opts + stop) := match arg with Some a => f a | None => inr UseNull end in
  let '(DdsClientOpts ty dom topic st msg shm lvl part) := o in
  if val =? OPT_DDS_HELP then inr (ExitWith 0)
  else if val =? OPT_DDS_DOMAIN_ID then with_arg (fun a => inl (DdsClientOpts ty (domain_of a) topic st msg shm lvl part))
  else if val =? OPT_DDS_TOPIC then with_arg (fun a => inl (DdsClientOpts ty dom (Some a) st msg shm lvl part))
  else if val =? OPT_DDS_STRUCT_NAME then with_arg (fun a => inl (DdsClientOpts ty dom topic (Some a) msg shm lvl part))
  else if val =? OPT_DDS_MSG then
    with_arg (fun a => match parse_object a with
                       | Some j => inl (DdsClientOpts ty dom topic st (Some j) shm lvl part)
                       | None => inr (ExitWith 1)
                       end)
  else if val =? OPT_DDS_SHM_MODE then inl (DdsClientOpts ty dom topic st msg true lvl part)
  else if val =? OPT_DDS_SHM_LOG_LEVEL then with_arg (fun a => inl (DdsClientOpts ty dom topic st msg shm (Some a) part))
  else if val =? OPT_DDS_PARTITION then with_arg (fun a => inl (DdsClientOpts ty dom topic st msg shm lvl (Some a)))
  else inl o.

(** [nng_opts_parse(argc - 1, argv + 1, ..)] from [idx = 2] on; the settings, and
    whether the options ended without an error. *)
Definition dds_cmd_parse_opts (argv : list bytes) (o : dds_client_opts) : option (dds_client_opts * bool + stop) :=
  r ← parse_loop dds_cmd_opts dds_opt (S (length (tail argv))) (tail argv) 2 o;
  Some (match r with inl (o, rv) => inl (o, rv =? -1) | inr e => inr e end).

(** [dds_handle_cmd] with the settings of [dds_subscriber] and [dds_publisher];
    the last part of the result is the domain created for shared memory. *)
Definition dds_handle_cmd (argv : list bytes) (ty : dds_client_type) : option (dds_client_opts + stop) :=
  r ← dds_cmd_parse_opts argv (DdsClientOpts ty 0 None None None false None None);
  Some (match r with
        | inr e => inr e
        | inl (o, ended) =>
            if negb ended then inr (ExitWith 1)
            else match do_topic o, do_struct_name o with
                 | Some _, Some _ =>
                     if bool_decide (ty = DDS_PUB) && (match do_msg o with None => true | Some _ => false end)
                     then inr (ExitWith 1) else inl o
                 | _, _ => inr (ExitWith 1)
                 end
        end).

(** The partition a client uses. *)
Definition client_partition (o : dds_client_opts) : bytes := default (lit "partition") (do_partition o).

Definition dds_shm_xml (enable : bool) (log_level : option bytes) : bytes :=
  lit "${CYCLONEDDS_URI}${CYCLONEDDS_URI:+,}<SharedMemory><Enable>" ++ (if enable then lit "true" else lit "false") ++
  lit "</Enable><LogLevel>" ++ default (lit "info") log_level ++ lit "</LogLevel></SharedMemory>".

(** ** The proxy *)

Definition OPT_HELP : Z := 1.
Definition OPT_CONFIG_PATH : Z := 2.

Definition proxy_cmd_opts : list optspec :=
  [OptSpec (lit "help") 104 OPT_HELP false; OptSpec (lit "conf") 0 OPT_CONFIG_PATH true].

Definition proxy_opt (val : Z) (arg : option bytes) (path : option bytes) : option bytes + stop :=
  if val =? OPT_HELP then inr (ExitWith 0)
  else if val =? OPT_CONFIG_PATH then match arg with Some a => inl (Some a) | None => inr UseNull end
  else inl path.

Definition cmd_parse_opts (argv : list bytes) (path : option bytes) : option (option bytes * bool + stop) :=
  r ← parse_loop proxy_cmd_opts proxy_opt (S (length (tail argv))) (tail argv) 2 path;
  Some (match r with inl (p, rv) => inl (p, rv =? -1) | inr e => inr e end).

(** What [dds_proxy] uses of the configuration. *)
Record dds_gateway_conf := GatewayConf {
  gc_subscriber_partition : option bytes;
  gc_publisher_partition : option bytes;
  gc_shm_mode : bool;
  gc_domain_default : bool;
  gc_forward : forward_conf
}.

(** [dds_proxy] and [dds_inner_config] up to the threads: the configuration
    with its partitions.  [parse] is the configuration of a file. *)
Definition dds_proxy {handler} (map : list (bytes * handler)) (parse : option bytes -> dds_gateway_conf) (argv : list bytes)
    : option (dds_gateway_conf + stop) :=
  r ← cmd_parse_opts argv None;
  Some (match r with
        | inr e => inr e
        | inl (path, ended) =>
            if negb ended then inr (ExitWith 1)
            else
              let c := parse path in
              match path with
              | None => inr (ExitWith 1)
              | Some _ =>
                  let c := GatewayConf (Some (default (lit "partition") (gc_subscriber_partition c)))
                             (Some (default (lit "partition") (gc_publisher_partition c)))
                             (gc_shm_mode c) (gc_domain_default c) (gc_forward c) in
                  if negb (structs_known map (gc_forward c)) then inr (ExitWith 0)
                  else if gc_shm_mode c && gc_domain_default c then inr (ExitWith 1)
                  else inl c
              end
        end).

(** ** Theorems *)

Context `{OL : !OptsParseLaws}.

(** Reading the options ends and uses no argument that is not there; a client
    that goes on has a topic and a structure, and a publisher a message. *)
Theorem dds_options_checked argv ty :
  exists r, dds_handle_cmd argv ty = Some r /\
    match r with
    | inl o => is_Some (do_topic o) /\ is_Some (do_struct_name o) /\ (ty = DDS_PUB -> is_Some (do_msg o)) /\
        0 <= do_domain_id o < 2 ^ 32
    | inr e => e <> UseNull
    end.
Proof.
  unfold dds_handle_cmd, dds_cmd_parse_opts.
  destruct (parse_loop_ends dds_cmd_opts dds_opt (length (tail argv)) (tail argv) 2
    (DdsClientOpts ty 0 None None None false None None)) as [r E]; [lia|].
  rewrite E. cbn [mbind option_bind]. eexists. split; [done|]. destruct r as [[o rv]|e].
  - assert (0 <= do_domain_id o < 2 ^ 32) as Hd.
    { eapply (parse_loop_keeps dds_cmd_opts dds_opt (fun o => 0 <= do_domain_id o < 2 ^ 32)); [| |exact E].
      - intros v a [] st' Hdom. unfold dds_opt, domain_of. repeat case_match; intros [= <-]; cbn in *; solve [done|apply u32_range].
      - cbn. lia. }
    destruct (rv =? -1); [|done]. cbn [negb]. destruct (do_topic o) eqn:Et; [|done]. destruct (do_struct_name o) eqn:Es; [|done].
    destruct (do_msg o) as [m|] eqn:Em.
    + rewrite andb_false_r. rewrite Et, Es, Em. done.
    + destruct (bool_decide (ty = DDS_PUB)) eqn:Ep; [done|]. cbn [andb]. apply bool_decide_eq_false in Ep. by rewrite Et, Es.
  - intros ->. revert E. refine (parse_loop_args _ _ _ _ _ _ _). intros s a [] Hs Ha. unfold dds_cmd_opts in Hs.
    repeat (apply elem_of_cons in Hs as [->|Hs]; [cbn in Ha |- *; try done; destruct Ha as [b ->]; try done; by destruct (parse_object b)|]).
    by apply elem_of_nil in Hs.
Qed.

(** The proxy starts its threads only with a configuration file, with known
    structures in all its rules and with both partitions set. *)
Theorem dds_proxy_checked {handler} (map : list (bytes * handler)) parse argv c :
  dds_proxy map parse argv = Some (inl c) ->
  (exists path, gc_forward c = gc_forward (parse (Some path))) /\ structs_known map (gc_forward c) = true /\
  is_Some (gc_subscriber_partition c) /\ is_Some (gc_publisher_partition c).
Proof.
  unfold dds_proxy. destruct (cmd_parse_opts argv None) as [[[path ended]|e]|]; cbn [mbind option_bind]; [|done..].
  destruct ended; [|done]. cbn [negb]. destruct path as [path|]; [|done]. cbn [gc_forward gc_shm_mode gc_domain_default].
  destruct (structs_known map (gc_forward (parse (Some path)))) eqn:E; [|done]. cbn [negb].
  destruct (_ && _); [done|]. intros [= <-]. cbn. split_and!; [by exists path|done..].
Qed.

End Commands.

End DdsOpts.
