(* ===== verification/DdsStart.v ===== *)
(** * The start of the DDS proxy (nanomq_cli/dds2mqtt)

    [dds_proxy] initialises the DDS side, connects the MQTT side, which starts
    its two threads, and runs the DDS side.  The functions are lists of calls in
    the order they are made; what the forwarding does afterwards is in
    [DdsProxy], the TLS configuration in [ToolTls]. *)

From S2P Require Import Prelude DdsProxy ToolTls.

Module DdsStart.

Import DdsProxy.

(** What is read of dds_gateway_mqtt. *)
Record mqtt_conf := MqttConf {
  mc_address : bytes;
  mc_proto_ver : Z;
  mc_clean_start : bool;
  mc_username : option bytes;
  mc_password : option bytes;
  mc_tls_enable : bool;
  mc_ca : option bytes;
  mc_cert : option bytes;
  mc_key : option bytes;
  mc_key_password : option bytes
}.

(** The CONNECT message. *)
Record connect_msg := ConnectMsg {
  cm_proto_ver : Z; cm_keep_alive : Z; cm_user : option bytes; cm_password : option bytes;
  cm_will_msg : bytes; cm_will_topic : bytes; cm_clean_session : bool
}.

Inductive mqtt_call :=
  | OpenClient (v5 : bool)
  | CreateDialer (address : bytes)
  | AllocClient
  | SetCallbacks
  | InitTls (acts : list ToolTls.tls_call)
  | SetConnMsg (m : connect_msg)
  | StartDialer.

(** The results of the library; errors of the first two are only logged. *)
Record mqtt_env := MqttEnv { me_open : Z; me_create : Z; me_tls_alloc : Z; me_tls : ToolTls.tls_call -> Z; me_start : Z }.

Inductive ending := Returns | Exits.

Definition connmsg (c : mqtt_conf) : connect_msg :=
  ConnectMsg (mc_proto_ver c) 60 (mc_username c) (mc_password c) (lit "bye-bye") (lit "will_topic") (mc_clean_start c).

Definition client_connect (e : mqtt_env) (c : mqtt_conf) : list mqtt_call * ending :=
  let head := [OpenClient (mc_proto_ver c =? 5); CreateDialer (mc_address c); AllocClient; SetCallbacks] in
  let tail := [SetConnMsg (connmsg c); StartDialer] in
  let fin := if negb (me_start e =? 0) then Exits else Returns in
  if mc_tls_enable c then
    let '(rv, acts) := ToolTls.dds_init_dialer_tls (me_tls_alloc e) (me_tls e) (mc_ca c) (mc_cert c) (mc_key c) (mc_key_password c) in
    if negb (rv =? 0) then (head ++ [InitTls acts], Exits) else (head ++ [InitTls acts] ++ tail, fin)
  else (head ++ tail, fin).

(** ** Subscribing and publishing *)

(** The topics and their quality of service. *)
Definition mqtt_subscribe (conf : forward_conf) : list (bytes * Z) := map (fun r => (dt_from r, 0)) (mqtt2dds_rules conf).

(** The reason of the broker is read and not used. *)
Definition connect_cb (reason : Z) (conf : forward_conf) : list (bytes * Z) := mqtt_subscribe conf.

Record publish := Publish { pm_dup : bool; pm_qos : Z; pm_retain : bool; pm_topic : bytes; pm_payload : bytes }.

Definition client_publish (topic : bytes) (payload : bytes) (payload_len qos : Z) : publish :=
  Publish false qos false topic (take (Z.to_nat payload_len) payload).

(** [len] is an int and becomes a uint32_t. *)
Definition mqtt_publish (topic : bytes) (qos : Z) (data : bytes) (len : Z) : publish := client_publish topic data (u32 len) qos.

(** What the completion of a request logs; the message is freed. *)
Definition send_callback (NNG_MQTT_SUBACK NNG_MQTT_UNSUBACK : Z) (msg : option (Z * list Z)) : list Z * bool :=
  match msg with
  | None => ([], false)
  | Some (type, codes) => (if (type =? NNG_MQTT_SUBACK) || (type =? NNG_MQTT_UNSUBACK) then codes else [], true)
  end.

(** ** The threads *)

Inductive thread := MqttRecvLoop | MqttLoop.

(** mqtt_cli: what the threads need. *)
Record mqtt_cli := MqttCli {
  ml_running : bool; ml_handleq : bool; ml_locks : bool; ml_ddscli : bool; ml_rmsgq : bool; ml_threads : list thread
}.

Definition no_cli : mqtt_cli := MqttCli false false false false false [].

(** The steps of mqtt_connect after client_connect, the result being the states
    of the structure one after the other. *)
Definition mqtt_connect (c : mqtt_cli) : list mqtt_cli :=
  let c1 := MqttCli true (ml_handleq c) (ml_locks c) (ml_ddscli c) (ml_rmsgq c) (ml_threads c) in
  let c2 := MqttCli true true (ml_locks c) (ml_ddscli c) (ml_rmsgq c) (ml_threads c) in
  let c3 := MqttCli true true true (ml_ddscli c) (ml_rmsgq c) (ml_threads c) in
  let c4 := MqttCli true true true true (ml_rmsgq c) (ml_threads c) in
  let c5 := MqttCli true true true true true (ml_threads c) in
  let c6 := MqttCli true true true true true (ml_threads c ++ [MqttRecvLoop]) in
  let c7 := MqttCli true true true true true (ml_threads c ++ [MqttRecvLoop; MqttLoop]) in
  [c1; c2; c3; c4; c5; c6; c7].

(** The queues and locks are gone, the threads are not waited for. *)
Definition mqtt_disconnect (c : mqtt_cli) : mqtt_cli := MqttCli false false false (ml_ddscli c) false (ml_threads c).

(** ** The DDS side *)

Inductive dds_call :=
  | InnerConfig
  | CreateParticipant
  | CreateListener
  | CreateWaitset
  | CreateSubscriber (partition : bytes)
  | AttachWaitset
  | CreatePublisher (partition : bytes)
  | CreateClient (isrd : bool) (topic : bytes).

(** Which results below zero are fatal: that of the wait set is stored in a
    uint32_t and never below zero. *)
Definition dds_fatal (c : dds_call) (rc : Z) : bool :=
  match c with
  | CreateParticipant | CreateSubscriber _ | CreatePublisher _ => rc <? 0
  | AttachWaitset => u32 rc <? 0
  | _ => false
  end.

Fixpoint dds_exec (rc : dds_call -> Z) (l : list dds_call) : list dds_call * bool :=
  match l with
  | [] => ([], true)
  | c :: l => if dds_fatal c (rc c) then ([c], false) else let '(k, ok) := dds_exec rc l in (c :: k, ok)
  end.

(** dds_client up to its loop *)
Definition dds_client (subscriber_partition publisher_partition : bytes) (conf : forward_conf) (rc : dds_call -> Z) : list dds_call * bool :=
  dds_exec rc
    ([InnerConfig; CreateParticipant; CreateListener; CreateWaitset; CreateSubscriber subscriber_partition; AttachWaitset;
      CreatePublisher publisher_partition] ++
     map (fun r => CreateClient true (dt_from r)) (dds2mqtt_rules conf) ++
     map (fun r => CreateClient false (dt_to r)) (mqtt2dds_rules conf)).

(** dds_proxy_start: the command, and the result. *)
Inductive dds_command := DdsSub | DdsPub | DdsProxyCmd | DdsUsage.

Definition dds_proxy_start (argv : list bytes) : dds_command * Z :=
  match argv with
  | _ :: _ :: cmd :: _ =>
      if strcmp0 cmd (lit "sub") then (DdsSub, 0)
      else if strcmp0 cmd (lit "pub") then (DdsPub, 0)
      else if strcmp0 cmd (lit "proxy") then (DdsProxyCmd, 0)
      else if strcmp0 cmd (lit "--help") || strcmp0 cmd (lit "-h") then (DdsUsage, 0)
      else (DdsUsage, 1)
  | _ => (DdsUsage, 1)
  end.

(** ** Properties *)

(** Every topic that is subscribed has the rule that the forwarding looks up. *)
Theorem subscribed_has_rule conf t q : (t, q) ∈ mqtt_subscribe conf -> is_Some (find_dds_topic conf t).
Proof.
  unfold mqtt_subscribe, find_dds_topic, rule_for. intros (r & [= -> ->] & Hr)%list_elem_of_fmap.
  destruct (List.find _ _) as [r'|] eqn:E; [done|]. exfalso.
  pose proof (find_none _ _ E r) as Hn. cbn beta in Hn. rewrite bool_decide_eq_true_2 in Hn by done.
  by discriminate Hn; apply list_elem_of_In.
Qed.

(** A thread never runs before its queue, its locks and its peer are there. *)
Theorem threads_start_ready c s :
  ml_threads c = [] -> s ∈ mqtt_connect c -> ml_threads s <> [] ->
  ml_running s = true /\ ml_handleq s = true /\ ml_locks s = true /\ ml_ddscli s = true.
Proof.
  intros Hc Hin Ht. unfold mqtt_connect in Hin. rewrite Hc in Hin.
  repeat (apply elem_of_cons in Hin as [-> |Hin]; [cbn in *; done|]). by apply elem_of_nil in Hin.
Qed.

(** Disconnecting frees the queue under the threads, which may still use it. *)
Theorem disconnect_frees_queue c : let s := mqtt_disconnect c in ml_handleq s = false /\ ml_locks s = false /\ ml_threads s = ml_threads c.
Proof. done. Qed.

(** With TLS the CONNECT message, which has the password, goes out only after a
    configuration was attached. *)
Theorem dds_tls_before_password e c l en :
  client_connect e c = (l, en) -> mc_tls_enable c = true -> StartDialer ∈ l ->
  exists acts, InitTls acts ∈ l /\ ToolTls.Attach ∈ acts.
Proof.
  unfold client_connect. intros H Ht Hs. rewrite Ht in H.
  destruct (ToolTls.dds_init_dialer_tls _ _ _ _ _ _) as [rv acts] eqn:E.
  destruct (Z.eqb_spec rv 0) as [-> |]; cbn [negb] in H; injection H as <- _.
  - exists acts. split; [set_solver|]. unfold ToolTls.dds_init_dialer_tls in E.
    destruct (Z.eqb_spec (me_tls_alloc e) 0); cbn [negb] in E; [|injection E as E0 _; done].
    apply ToolTls.tls_exec_all in E as ->. rewrite !elem_of_app. right. right. by left.
  - set_solver.
Qed.

(** A client that could not be opened is dialed all the same. *)
Theorem dds_unopened_dialed e c :
  mc_tls_enable c = false -> StartDialer ∈ fst (client_connect e c).
Proof. intros H. unfold client_connect. rewrite H. cbn [fst]. set_solver. Qed.

Lemma dds_exec_prefix rc l k ok : dds_exec rc l = (k, ok) -> exists rest, l = k ++ rest.
Proof.
  revert k ok. induction l as [|c l IH]; intros k ok; cbn [dds_exec]; [intros [= <- <-]; by exists []|].
  destruct (dds_fatal c (rc c)); [intros [= <- <-]; by exists l|].
  destruct (dds_exec rc l) as [k' ok'] eqn:E. intros [= <- <-]. destruct (IH k' ok' eq_refl) as [rest ->]. by exists rest.
Qed.

Lemma dds_exec_ok rc l k : dds_exec rc l = (k, true) -> k = l.
Proof.
  revert k. induction l as [|c l IH]; intros k; cbn [dds_exec]; [by intros [= <-]|].
  destruct (dds_fatal c (rc c)); [done|]. destruct (dds_exec rc l) as [k' ok']. intros [= <- ->]. by rewrite (IH k').
Qed.

(** When the DDS side reaches its loop, it has a reader for each rule to MQTT and
    a writer for each rule to DDS, whatever attaching the wait set returned. *)
Theorem dds_side_ready sp pp conf rc k :
  dds_client sp pp conf rc = (k, true) ->
  (forall r, r ∈ dds2mqtt_rules conf -> CreateClient true (dt_from r) ∈ k) /\
  (forall r, r ∈ mqtt2dds_rules conf -> CreateClient false (dt_to r) ∈ k) /\
  0 <= rc CreateParticipant /\ 0 <= rc (CreateSubscriber sp) /\ 0 <= rc (CreatePublisher pp).
Proof.
  unfold dds_client. intros H. pose proof (dds_exec_ok _ _ _ H) as ->. split_and!.
  - intros r Hr. rewrite !elem_of_app. right. left. apply list_elem_of_fmap. by exists r.
  - intros r Hr. rewrite !elem_of_app. right. right. apply list_elem_of_fmap. by exists r.
  - cbn [app dds_exec dds_fatal] in H. destruct (Z.ltb_spec (rc CreateParticipant) 0); [done|lia].
  - cbn [app dds_exec dds_fatal] in H. destruct (rc CreateParticipant <? 0); [done|].
    destruct (Z.ltb_spec (rc (CreateSubscriber sp)) 0); [done|lia].
  - cbn [app dds_exec dds_fatal] in H. destruct (rc CreateParticipant <? 0); [done|].
    destruct (rc (CreateSubscriber sp) <? 0); [done|]. destruct (u32 _ <? 0); [done|].
    destruct (Z.ltb_spec (rc (CreatePublisher pp)) 0); [done|lia].
Qed.

(** An error of the wait set is never noticed. *)
Theorem waitset_error_ignored rc : dds_fatal AttachWaitset rc = false.
Proof. cbn. pose proof (u32_range rc). destruct (Z.ltb_spec (u32 rc) 0); [lia|done]. Qed.

End DdsStart.
