(* ===== verification/DdsTools.v ===== *)
(** * "dds sub" and "dds pub" (nanomq_cli/dds2mqtt/subscriber.c, publisher.c)

    The subscriber prints the samples of a topic, the publisher waits for a
    reader and writes one sample.  Both first create their entities, where a
    result below zero ends the program; after that they are loops over what the
    DDS library returns.  The library and the conversions generated from the IDL
    file are parameters; the options are those of [DdsOpts]. *)

From S2P Require Import Prelude OptsApi NftpVec DdsProxy DdsOpts.

Module DdsTools.

Inductive entity_call :=
  | CreateParticipant (domain : Z)
  | CreateTopic (topic : option bytes)
  | CreateGroup (partition : bytes)               (* the subscriber or the publisher *)
  | CreateEnd                                     (* the reliable reader or writer *)
  | SetStatusMask.

Fixpoint entities (rc : entity_call -> Z) (l : list entity_call) : list entity_call * bool :=
  match l with
  | [] => ([], true)
  | c :: l =>
      let bad := match c with SetStatusMask => negb (rc c =? 0) | _ => rc c <? 0 end in
      if bad then ([c], false) else let '(k, ok) := entities rc l in (c :: k, ok)
  end.

Section Tools.

Context {json : Type} {sample handler : Type} (handlers : list (bytes * handler)).
Context (print : json -> bytes).
Context (dds2mqtt : handler -> sample -> json) (mqtt2dds : handler -> json -> option sample).
Context (MATCHED : Z).

(** The conversions of the structure that the options name. *)
Definition handler_of (c : DdsOpts.dds_client_opts (json := json)) : option handler :=
  n ← DdsOpts.do_struct_name c; DdsProxy.dds_get_handler handlers n.

Definition convert (h : handler) (c : DdsOpts.dds_client_opts (json := json)) : option sample := m ← DdsOpts.do_msg c; mqtt2dds h m.

(** ** The subscriber *)

Inductive sub_act := AllocSample | Take | Print (text : bytes) | Sleep | FreeSample | SubFatal.

Definition print_dds_msg (h : handler) (s : sample) : bytes := print (dds2mqtt h s) ++ [10].

(** One round: what dds_take returns, whether the data is valid, the sample. *)
Definition sub_round (h : handler) (r : Z * bool * sample) : list sub_act * bool :=
  let '(rc, valid, s) := r in
  if rc <? 0 then ([AllocSample; Take; SubFatal], false)
  else ([AllocSample; Take; if (0 <? rc) && valid then Print (print_dds_msg h s) else Sleep; FreeSample], true).

Fixpoint sub_loop (h : handler) (rs : list (Z * bool * sample)) : list sub_act :=
  match rs with
  | [] => []
  | r :: rs => let '(l, ok) := sub_round h r in if ok then l ++ sub_loop h rs else l
  end.

(** [None]: the structure is not known, which ends the program. *)
Definition dds_subscriber (c : DdsOpts.dds_client_opts (json := json)) (rc : entity_call -> Z) (rs : list (Z * bool * sample))
  : option (list entity_call * list sub_act) :=
  h ← handler_of c;
  let '(l, ok) := entities rc [CreateParticipant (DdsOpts.do_domain_id c); CreateTopic (DdsOpts.do_topic c); CreateGroup (DdsOpts.client_partition c); CreateEnd] in
  Some (l, if ok then sub_loop h rs else []).

(** ** The publisher *)

(** The loop that waits for a reader, over the results and the status: [None]
    while it waits, else whether a reader was found. *)
Fixpoint wait_loop (rs : list (Z * Z)) : option bool :=
  match rs with
  | [] => None
  | (rc, status) :: rs =>
      if negb (rc =? 0) then Some false
      else if Z.land status MATCHED =? 0 then wait_loop rs else Some true
  end.

Inductive pub_end := Waiting | PubFatal | Done (written : option sample).

(** The status starts as 0.  A message that cannot be converted is not written,
    and the result is success. *)
Definition dds_publisher (c : DdsOpts.dds_client_opts (json := json)) (rc : entity_call -> Z) (rs : list (Z * Z)) (write delete : Z) : option pub_end :=
  h ← handler_of c;
  let '(_, ok) := entities rc [CreateParticipant (DdsOpts.do_domain_id c); CreateTopic (DdsOpts.do_topic c); CreateGroup (DdsOpts.client_partition c); CreateEnd;
                               SetStatusMask] in
  Some (if negb ok then PubFatal
        else match wait_loop rs with
             | None => Waiting
             | Some false => PubFatal
             | Some true =>
                 match convert h c with
                 | None => if negb (delete =? 0) then PubFatal else Done None
                 | Some s => if negb (write =? 0) then PubFatal else if negb (delete =? 0) then PubFatal else Done (Some s)
                 end
             end).

(** ** Properties *)

Definition printed (l : list sub_act) : list bytes := omap (fun a => match a with Print t => Some t | _ => None end) l.

Definition count (p : sub_act -> bool) (l : list sub_act) : nat := length (List.filter p l).
Definition is_alloc (a : sub_act) : bool := match a with AllocSample => true | _ => false end.
Definition is_free (a : sub_act) : bool := match a with FreeSample => true | _ => false end.

(** The subscriber prints exactly the valid samples, in order, and frees every
    sample it has allocated. *)
Theorem subscriber_prints h rs :
  Forall (fun r => 0 <= fst (fst r)) rs ->
  printed (sub_loop h rs) = omap (fun '(rc, valid, s) => if (0 <? rc) && valid then Some (print_dds_msg h s) else None) rs /\
  count is_alloc (sub_loop h rs) = count is_free (sub_loop h rs).
Proof.
  induction 1 as [|[[rc valid] s] rs Hr Hrs [IH1 IH2]]; [done|]. cbn [sub_loop sub_round fst] in *.
  destruct (Z.ltb_spec rc 0); [lia|]. cbn [omap list_omap]. unfold printed, count in *.
  destruct ((0 <? rc) && valid); cbn; rewrite IH1; (split; [done|by rewrite IH2]).
Qed.

(** The publisher writes the converted message once, after a reader was found. *)
Theorem publisher_writes c rc rs write delete s :
  dds_publisher c rc rs write delete = Some (Done (Some s)) ->
  exists h pre st post, handler_of c = Some h /\ convert h c = Some s /\
    rs = pre ++ (0, st) :: post /\ Z.land st MATCHED <> 0 /\ Forall (fun r => fst r = 0 /\ Z.land (snd r) MATCHED = 0) pre.
Proof.
  unfold dds_publisher. destruct (handler_of c) as [h|]; [|done]. cbn [mbind option_bind].
  destruct (entities rc _) as [l ok]. destruct ok; cbn [negb]; [|done].
  destruct (wait_loop rs) as [[]|] eqn:Ew; [|done..]. destruct (convert h c) as [s'|] eqn:Em; [|by destruct (negb _)].
  destruct (negb (write =? 0)); [done|]. destruct (negb (delete =? 0)); [done|]. intros [= <-].
  assert (exists pre st post, rs = pre ++ (0, st) :: post /\ Z.land st MATCHED <> 0 /\
    Forall (fun r => fst r = 0 /\ Z.land (snd r) MATCHED = 0) pre) as (pre & st & post & H).
  { clear -Ew. induction rs as [|[r st] rs IH]; [done|]. cbn [wait_loop] in Ew. destruct (Z.eqb_spec r 0) as [-> |]; [|done].
    cbn [negb] in Ew. destruct (Z.eqb_spec (Z.land st MATCHED) 0) as [E|E].
    - destruct (IH Ew) as (pre & st' & post & -> & H1 & H2). exists ((0, st) :: pre), st', post. split_and!; [done..|]. by constructor.
    - exists [], st, rs. split_and!; [done..|constructor]. }
  exists h, pre, st, post. by rewrite Em.
Qed.

(** A message that cannot be converted is reported as success. *)
Theorem publisher_unconverted c rc rs write h :
  handler_of c = Some h -> convert h c = None -> wait_loop rs = Some true ->
  (forall e, rc e = 0) -> dds_publisher c rc rs write 0 = Some (Done None).
Proof.
  intros Hh Hm Hw Hr. unfold dds_publisher. rewrite Hh. cbn [mbind option_bind].
  cbn [entities]. rewrite !Hr. cbn [Z.ltb Z.compare Z.eqb negb]. by rewrite Hw, Hm.
Qed.

End Tools.

End DdsTools.
