(* ===== verification/CliProxy.v ===== *)
(** * The NNG proxy of the command line (nanomq_cli/nng_proxy.c)

    "nanomq_cli nngproxy sub0|pub0|pair0|pair1": conveys messages between a socket
    of NNG and an MQTT broker.  Its options, and its workers, each the state
    machine [nng_client_cb]. *)

From S2P Require Import Prelude OptsApi.

Module CliProxy.

(** ** Options *)

Inductive options :=
  | OPT_HELP | OPT_VERBOSE | OPT_PARALLEL | OPT_MSGCOUNT | OPT_CLIENTS | OPT_INTERVAL | OPT_VERSION | OPT_MQTT_URL
  | OPT_DIAL | OPT_LISTEN | OPT_PUB | OPT_SUB | OPT_TOPIC | OPT_QOS | OPT_RETAIN | OPT_USER | OPT_PASSWD
  | OPT_CLIENTID | OPT_KEEPALIVE | OPT_CLEAN_SESSION | OPT_WILL_MSG | OPT_WILL_QOS | OPT_WILL_RETAIN
  | OPT_WILL_TOPIC | OPT_SECURE | OPT_CACERT | OPT_CERTFILE | OPT_KEYFILE | OPT_KEYPASS | OPT_MSG | OPT_FILE.

#[export] Instance options_eq_dec : EqDecision options.
Proof. solve_decision. Defined.

Definition all_options : list options :=
  [OPT_HELP; OPT_VERBOSE; OPT_PARALLEL; OPT_MSGCOUNT; OPT_CLIENTS; OPT_INTERVAL; OPT_VERSION; OPT_MQTT_URL; OPT_DIAL;
   OPT_LISTEN; OPT_PUB; OPT_SUB; OPT_TOPIC; OPT_QOS; OPT_RETAIN; OPT_USER; OPT_PASSWD; OPT_CLIENTID; OPT_KEEPALIVE;
   OPT_CLEAN_SESSION; OPT_WILL_MSG; OPT_WILL_QOS; OPT_WILL_RETAIN; OPT_WILL_TOPIC; OPT_SECURE; OPT_CACERT;
   OPT_CERTFILE; OPT_KEYFILE; OPT_KEYPASS; OPT_MSG; OPT_FILE].

Definition opt (name : string) (short : Z) (o : options) (arg : bool) : optspec :=
  OptSpec (lit name) short (enum_val all_options o) arg.

Definition cmd_opts : list optspec :=
  [opt "help" 104 OPT_HELP false; opt "verbose" 118 OPT_VERBOSE false; opt "parallel" 110 OPT_PARALLEL true;
   opt "interval" 105 OPT_INTERVAL true; opt "limit" 76 OPT_MSGCOUNT true; opt "count" 67 OPT_CLIENTS true;
   opt "version" 86 OPT_VERSION false; opt "mqtt_url" 0 OPT_MQTT_URL true; opt "dial" 100 OPT_DIAL true;
   opt "listen" 108 OPT_LISTEN true; opt "topic" 116 OPT_TOPIC true; opt "qos" 113 OPT_QOS true;
   opt "retain" 114 OPT_RETAIN false; opt "user" 117 OPT_USER true; opt "password" 112 OPT_PASSWD true;
   opt "id" 73 OPT_CLIENTID true; opt "keepalive" 107 OPT_KEEPALIVE true; opt "clean_session" 99 OPT_CLEAN_SESSION true;
   opt "will-msg" 0 OPT_WILL_MSG true; opt "will-qos" 0 OPT_WILL_QOS true; opt "will-retain" 0 OPT_WILL_RETAIN false;
   opt "will-topic" 0 OPT_WILL_TOPIC true; opt "secure" 115 OPT_SECURE false; opt "cacert" 0 OPT_CACERT true;
   opt "key" 0 OPT_KEYFILE true; opt "keypass" 0 OPT_KEYPASS true; opt "cert" 69 OPT_CERTFILE true;
   opt "msg" 109 OPT_MSG true; opt "file" 102 OPT_FILE true].

(** The values of [enum nng_proto] that the commands use. *)
Inductive nng_proto := PUB0 | SUB0 | PAIR0 | PAIR1.

#[export] Instance nng_proto_eq_dec : EqDecision nng_proto.
Proof. solve_decision. Defined.

Definition is_pair_type (p : nng_proto) : bool := match p with PAIR0 | PAIR1 => true | _ => false end.

Inductive num_field := parallel | version | qos | keepalive | will_qos.
Inductive flag_field := verbose | retain | clean_session | will_retain | enable_ssl | dials.
Inductive text_field :=
  nng_url | mqtt_url | user | passwd | client_id | msg | will_msg | will_topic | cacert | cert | key | keypass.

#[export] Instance num_field_eq_dec : EqDecision num_field.
Proof. solve_decision. Defined.
#[export] Instance flag_field_eq_dec : EqDecision flag_field.
Proof. solve_decision. Defined.
#[export] Instance text_field_eq_dec : EqDecision text_field.
Proof. solve_decision. Defined.

(** [struct nng_proxy_opts]; [dials] is [nng_mode == OPT_DIAL]. *)
Record nng_proxy_opts := ProxyOpts {
  po_type : nng_proto;
  po_num : num_field -> Z;
  po_flag : flag_field -> bool;
  po_text : text_field -> option bytes;
  po_topics : list bytes
}.

Definition upd {K V} `{EqDecision K} (f : K -> V) (k : K) (v : V) : K -> V := fun k' => if decide (k' = k) then v else f k'.

Definition set_num (k : num_field) (v : Z) (o : nng_proxy_opts) : nng_proxy_opts :=
  ProxyOpts (po_type o) (upd (po_num o) k v) (po_flag o) (po_text o) (po_topics o).
Definition set_flag (k : flag_field) (v : bool) (o : nng_proxy_opts) : nng_proxy_opts :=
  ProxyOpts (po_type o) (po_num o) (upd (po_flag o) k v) (po_text o) (po_topics o).
Definition set_text (k : text_field) (v : bytes) (o : nng_proxy_opts) : nng_proxy_opts :=
  ProxyOpts (po_type o) (po_num o) (po_flag o) (upd (po_text o) k (Some v)) (po_topics o).
Definition add_topic (t : bytes) (o : nng_proxy_opts) : nng_proxy_opts :=
  ProxyOpts (po_type o) (po_num o) (po_flag o) (po_text o) (po_topics o ++ [t]).

Definition set_default_conf (type : nng_proto) : nng_proxy_opts :=
  ProxyOpts type
    (fun k => match k with parallel => 1 | version => 4 | qos => 0 | keepalive => 60 | will_qos => 0 end)
    (fun k => bool_decide (k = clean_session)) (fun _ => None) [].

Section Options.

Context `{OP : OptsParse}.
Context (NNG_EINVAL NNG_EAMBIGUOUS NNG_ENOARG : Z).
Context (nng_strcasecmp : bytes -> bytes -> Z).
Context (loadfile : bytes -> option bytes).

(** ASSERT_NULL, and the copy of the argument. *)
Definition set_once (k : text_field) (a : bytes) (o : nng_proxy_opts) : nng_proxy_opts + stop :=
  match po_text o k with Some _ => inr (ExitWith 1) | None => inl (set_text k a o) end.
Definition load_once (k : text_field) (a : bytes) (o : nng_proxy_opts) : nng_proxy_opts + stop :=
  match po_text o k, loadfile a with None, Some d => inl (set_text k d o) | _, _ => inr (ExitWith 1) end.
Definition number (k : num_field) (a : bytes) (maxv : Z) (o : nng_proxy_opts) : nng_proxy_opts + stop :=
  match intarg a maxv with inl v => inl (set_num k v o) | inr e => inr e end.

(** The switch of [nng_client_parse_opts]. *)
Definition proxy_opt (opt : options) (arg : option bytes) (o : nng_proxy_opts) : nng_proxy_opts + stop :=
  let with_arg (f : bytes -> nng_proxy_opts + stop) := match arg with Some a => f a | None => inr UseNull end in
  match opt with
  | OPT_HELP => inr (ExitWith 0)
  | OPT_VERBOSE => inl (set_flag verbose true o)
  | OPT_PARALLEL => with_arg (fun a => number parallel a 1024000 o)
  | OPT_VERSION => with_arg (fun a => number version a 4 o)
  | OPT_MQTT_URL => with_arg (fun a => set_once mqtt_url a o)
  | OPT_DIAL => with_arg (fun a => set_once nng_url a (set_flag dials true o))
  | OPT_LISTEN => with_arg (fun a => set_once nng_url a (set_flag dials false o))
  | OPT_TOPIC => with_arg (fun a => inl (add_topic a o))
  | OPT_QOS => with_arg (fun a => number qos a 2 o)
  | OPT_RETAIN => inl (set_flag retain true o)
  | OPT_USER => with_arg (fun a => set_once user a o)
  | OPT_PASSWD => with_arg (fun a => set_once passwd a o)
  | OPT_CLIENTID => with_arg (fun a => set_once client_id a o)
  | OPT_KEEPALIVE => with_arg (fun a => number keepalive a 65535 o)
  | OPT_CLEAN_SESSION => with_arg (fun a => inl (set_flag clean_session (nng_strcasecmp a (lit "true") =? 0) o))
  | OPT_WILL_MSG => with_arg (fun a => set_once will_msg a o)
  | OPT_WILL_QOS => with_arg (fun a => number will_qos a 2 o)
  | OPT_WILL_RETAIN => inl (set_flag retain true o)
  | OPT_WILL_TOPIC => with_arg (fun a => set_once will_topic a o)
  | OPT_SECURE => inl (set_flag enable_ssl true o)
  | OPT_CACERT => with_arg (fun a => load_once cacert a o)
  | OPT_CERTFILE => with_arg (fun a => load_once cert a o)
  | OPT_KEYFILE => with_arg (fun a => load_once key a o)
  | OPT_KEYPASS => with_arg (fun a => set_once keypass a o)
  | OPT_MSG => with_arg (fun a => set_once msg a o)
  | OPT_FILE => with_arg (fun a => load_once msg a o)
  | OPT_MSGCOUNT | OPT_CLIENTS | OPT_INTERVAL | OPT_PUB | OPT_SUB => inl o
  end.

(** The checks after the options. *)
Definition required (o : nng_proxy_opts) : nng_proxy_opts + stop :=
  let o := match po_text o mqtt_url with None => set_text mqtt_url (lit "mqtt-tcp://127.0.0.1:1883") o | Some _ => o end in
  match po_text o nng_url, po_type o, po_topics o with
  | None, _, _ => inr (ExitWith 1)
  | Some _, (PUB0 | SUB0), [] => inr (ExitWith 1)
  | Some _, _, _ => inl o
  end.

Definition nng_client_parse_opts (argv : list bytes) (o : nng_proxy_opts) : option (nng_proxy_opts + stop) :=
  r ← parse_loop cmd_opts (switch all_options proxy_opt) (S (length (tail argv))) (tail argv) 2 o;
  Some (match r with
        | inr e => inr e
        | inl (o, rv) =>
            if (rv =? NNG_EINVAL) || (rv =? NNG_EAMBIGUOUS) || (rv =? NNG_ENOARG) then inr (ExitWith 1) else required o
        end).

(** [nng_proxy_start]: the socket of NNG from the first bytes of the command. *)
Definition proto_of (cmd : bytes) : option nng_proto :=
  if strncmp0 cmd (lit "sub0") 3 then Some SUB0
  else if strncmp0 cmd (lit "pub0") 3 then Some PUB0
  else if strncmp0 cmd (lit "pair1") 5 then Some PAIR1
  else if strncmp0 cmd (lit "pair0") 3 then Some PAIR0 else None.

(** ** What the options set *)

Definition num_max (k : num_field) : Z :=
  match k with parallel => 1024000 | version => 4 | qos | will_qos => 2 | keepalive => 65535 end.

Definition nums_ok (o : nng_proxy_opts) : Prop := forall k, 0 <= po_num o k <= num_max k.

Lemma proxy_number_ok k a o o' : nums_ok o -> number k a (num_max k) o = inl o' -> nums_ok o'.
Proof.
  intros Ho. unfold number. destruct (intarg a (num_max k)) as [v|] eqn:E; [|done]. intros [= <-] k'. cbn [po_num set_num].
  unfold upd. case_decide as Hk; [subst k'|apply Ho]. apply (intarg_range a); [|exact E]. by destruct k.
Qed.

Lemma proxy_opt_nums opt arg o o' : nums_ok o -> proxy_opt opt arg o = inl o' -> nums_ok o'.
Proof.
  intros Ho H. destruct opt, arg as [a|]; cbn [proxy_opt] in H; try done;
    try (injection H as <-; exact Ho);
    try (unfold set_once, load_once in H; repeat case_match; try done; injection H as <-; exact Ho);
    (eapply proxy_number_ok; [exact Ho|exact H]).
Qed.

Lemma proxy_default_nums type : nums_ok (set_default_conf type).
Proof. intros k. by destruct k. Qed.

Context `{OL : !OptsParseLaws}.

(** Reading the options ends.  When they are accepted, all numbers are in their
    range, both addresses are known, and the two one-way proxies have a topic. *)
Theorem proxy_options_read argv type :
  exists r, nng_client_parse_opts argv (set_default_conf type) = Some r /\
    forall o, r = inl o ->
      nums_ok o /\ is_Some (po_text o nng_url) /\ is_Some (po_text o mqtt_url) /\ (is_pair_type (po_type o) = false -> po_topics o <> []).
Proof.
  unfold nng_client_parse_opts.
  destruct (parse_loop_ends cmd_opts (switch all_options proxy_opt) (length (tail argv)) (tail argv) 2 (set_default_conf type)) as [r E]; [lia|].
  rewrite E. cbn [mbind option_bind]. eexists. split; [done|]. destruct r as [[o rv]|e]; [|done].
  assert (nums_ok o) as Hn.
  { eapply (parse_loop_keeps cmd_opts (switch all_options proxy_opt) nums_ok); [| |exact E]; [|apply proxy_default_nums].
    intros v a st st' Hst. unfold switch. destruct (enum_of _ _); [by apply proxy_opt_nums|by intros [= <-]]. }
  destruct (_ || _); [done|]. intros o' H. unfold required in H.
  set (o1 := match po_text o mqtt_url with None => set_text mqtt_url (lit "mqtt-tcp://127.0.0.1:1883") o | Some _ => o end) in *.
  assert (nums_ok o1 /\ is_Some (po_text o1 mqtt_url)) as [H1 H2].
  { subst o1. destruct (po_text o mqtt_url) eqn:Em; [by rewrite Em|]. split; [exact Hn|]. cbn. by eexists. }
  destruct (po_text o1 nng_url) eqn:Eu; [|done].
  destruct (po_type o1) eqn:Et, (po_topics o1) eqn:Ep; try done; injection H as <-; rewrite Eu, Et, Ep; done.
Qed.

(** "--version" is declared without an argument and read as a number: whatever
    its position, a pointer without a value is used. *)
Theorem version_without_argument o :
  In (opt "version" 86 OPT_VERSION false) cmd_opts /\ proxy_opt OPT_VERSION None o = inr UseNull.
Proof. split; [|done]. unfold cmd_opts. cbn. tauto. Qed.

(** "--limit", "--count" and "--interval" take an argument and change nothing. *)
Theorem proxy_options_ignored a o :
  proxy_opt OPT_MSGCOUNT (Some a) o = inl o /\ proxy_opt OPT_CLIENTS (Some a) o = inl o /\ proxy_opt OPT_INTERVAL (Some a) o = inl o.
Proof. done. Qed.

End Options.

(** ** Workers *)

Inductive work_state := INIT | RECV_MQTT | RECV_NNG | SEND_MQTT | SEND_NNG.

(** [work->msg]: a message for MQTT or for NNG. *)
Inductive out_msg := MqttPublish (topic : bytes) (qos : Z) (retain : bool) (payload : bytes) | NngMsg (body : bytes).

Record work := Work { w_state : work_state; w_mode : Z; w_msg : option out_msg }.

(** What a callback sees: the result of the aio and the body or payload of the
    message it carries. *)
Record input := Input { in_result : Z; in_body : bytes }.

Inductive action := RecvMqtt | RecvNngCtx | RecvNngSocket | SendMqtt (m : out_msg) | SendNng (m : out_msg) | FreeMsg | Fatal | Undefined.

Section Worker.

Context (o : nng_proxy_opts).

(** [nng_publish_msg]; [None] is a topic that was not given. *)
Definition nng_publish_msg (body : bytes) : option out_msg :=
  t ← head (po_topics o); Some (MqttPublish t (po_num o qos) (po_flag o retain) body).

Definition is_pair : bool := is_pair_type (po_type o).

Definition nng_client_cb (w : work) (i : input) : work * list action :=
  match w_state w with
  | INIT =>
      match po_type o with
      | PUB0 => (Work RECV_MQTT (w_mode w) (w_msg w), [RecvMqtt])
      | SUB0 => (Work RECV_NNG (w_mode w) (w_msg w), [RecvNngCtx])
      | PAIR0 | PAIR1 =>
          if w_mode w =? 1 then (Work RECV_NNG (w_mode w) (w_msg w), [RecvNngSocket])
          else if w_mode w =? 0 then (Work RECV_MQTT (w_mode w) (w_msg w), [RecvMqtt])
          else (w, [])
      end
  | RECV_NNG =>
      if negb (in_result i =? 0) then (w, [Fatal])
      else match nng_publish_msg (in_body i) with
           | Some m => (Work SEND_MQTT (w_mode w) (Some m), [FreeMsg; SendMqtt m])
           | None => (w, [Undefined])
           end
  | RECV_MQTT =>
      if negb (in_result i =? 0) then (w, [Fatal])
      else (Work SEND_NNG (w_mode w) (Some (NngMsg (in_body i))), [FreeMsg; SendNng (NngMsg (in_body i))])
  | SEND_MQTT =>
      if negb (in_result i =? 0) then (w, [FreeMsg; Fatal])
      else (Work RECV_NNG (w_mode w) (w_msg w), [if is_pair then RecvNngSocket else RecvNngCtx])
  | SEND_NNG => (Work RECV_MQTT (w_mode w) (w_msg w), [RecvMqtt])
  end.

Fixpoint run (w : work) (ins : list input) : work * list action :=
  match ins with
  | [] => (w, [])
  | i :: ins => let '(w, l) := nng_client_cb w i in let '(w, k) := run w ins in (w, l ++ k)
  end.

End Worker.

(** ** Starting the proxy *)

Inductive start_call :=
  | OpenNng (p : nng_proto)
  | DialNng (url : bytes)
  | ListenNng (url : bytes)
  | OpenMqtt
  | AllocWork (mode : Z)
  | DialMqtt (url : option bytes) (tls : bool)
  | SubscribeMqtt (topics : list bytes) (qos : Z)
  | StartWork (mode : Z).

(** [create_client] *)
Definition create_client (o : nng_proxy_opts) : list start_call :=
  [OpenMqtt] ++ replicate (Z.to_nat (po_num o parallel)) (AllocWork 0) ++
  [DialMqtt (po_text o mqtt_url) (po_flag o enable_ssl)] ++
  (if 0 <? blen (po_topics o) then [SubscribeMqtt (po_topics o) (po_num o qos)] else []).

(** [nng_proxy_client] after the options. *)
Definition nng_proxy_client (o : nng_proxy_opts) : list start_call :=
  let n := Z.to_nat (po_num o parallel) in
  let u := default [] (po_text o nng_url) in
  [OpenNng (po_type o); if po_flag o dials then DialNng u else ListenNng u] ++ create_client o ++ replicate n (StartWork 0) ++
  (if is_pair o then replicate n (AllocWork 1) ++ replicate n (StartWork 1) else []).

(** ** Conveying *)

(** The callbacks of a message: it is received, and its sending ends with
    [result]. *)
Definition message (x : bytes * Z) : list input := [Input 0 (fst x); Input (snd x) []].

(** Every message from MQTT is sent to NNG with its payload, in order and once,
    and then the next one is asked for; the result of sending is not looked
    at. *)
Lemma to_nng o m msg0 xs :
  run o (Work RECV_MQTT m msg0) (concat (map message xs)) =
  (Work RECV_MQTT m (last (msg0 :: map (fun x => Some (NngMsg (fst x))) xs) ≫= id),
   concat (map (fun x => [FreeMsg; SendNng (NngMsg (fst x)); RecvMqtt]) xs)).
Proof.
  revert msg0. induction xs as [|[p r] xs IH]; intros msg0; [done|].
  cbn [map concat message app run nng_client_cb w_state w_mode w_msg in_result in_body fst snd negb Z.eqb].
  rewrite IH. done.
Qed.

(** Every message from NNG is published with its body, in order and once, as
    long as publishing succeeds. *)
Lemma to_mqtt o m msg0 t ps :
  head (po_topics o) = Some t ->
  snd (run o (Work RECV_NNG m msg0) (concat (map (fun p => message (p, 0)) ps))) =
  concat (map (fun p => [FreeMsg; SendMqtt (MqttPublish t (po_num o qos) (po_flag o retain) p);
                         if is_pair o then RecvNngSocket else RecvNngCtx]) ps).
Proof.
  intros Ht. revert msg0. induction ps as [|p ps IH]; intros msg0; [done|].
  cbn [map concat message app run nng_client_cb w_state w_mode w_msg in_result in_body fst snd negb Z.eqb].
  unfold nng_publish_msg. rewrite Ht. cbn [mbind option_bind app run nng_client_cb w_state w_mode w_msg in_result negb Z.eqb].
  specialize (IH (Some (MqttPublish t (po_num o qos) (po_flag o retain) p))).
  destruct (run o _ (concat (map _ ps))) as [w l]. cbn [snd] in *. rewrite IH. done.
Qed.

(** A worker of each kind of proxy conveys the messages it receives: to NNG with
    their payload, to MQTT with the first topic, each once and in order. *)
Theorem proxy_conveys o t ps :
  head (po_topics o) = Some t ->
  let up := concat (map (fun p => message (p, 0)) ps) in
  let sends := map (fun p => MqttPublish t (po_num o qos) (po_flag o retain) p) ps in
  let sent := fun l => omap (fun a => match a with SendMqtt m | SendNng m => Some m | _ => None end) l in
  (po_type o = PUB0 -> sent (snd (run o (Work INIT 0 None) (Input 0 [] :: up))) = map NngMsg ps) /\
  (po_type o = SUB0 -> sent (snd (run o (Work INIT 0 None) (Input 0 [] :: up))) = sends) /\
  (is_pair o = true -> sent (snd (run o (Work INIT 0 None) (Input 0 [] :: up))) = map NngMsg ps /\
     sent (snd (run o (Work INIT 1 None) (Input 0 [] :: up))) = sends).
Proof.
  intros Ht up sends sent. subst up sends sent. cbv beta zeta.
  assert (forall m, omap (fun a => match a with SendMqtt m | SendNng m => Some m | _ => None end)
    (snd (run o (Work RECV_MQTT m None) (concat (map (fun p => message (p, 0)) ps)))) = map NngMsg ps) as Hn.
  { intros m. replace (map (fun p => message (p, 0)) ps) with (map message (map (fun p => (p, 0)) ps)) by (by rewrite map_map).
    rewrite to_nng. cbn [snd]. rewrite map_map. clear. induction ps as [|p ps IH]; [done|]. cbn. by rewrite <- IH. }
  assert (forall m, omap (fun a => match a with SendMqtt m | SendNng m => Some m | _ => None end)
    (snd (run o (Work RECV_NNG m None) (concat (map (fun p => message (p, 0)) ps)))) =
    map (fun p => MqttPublish t (po_num o qos) (po_flag o retain) p) ps) as Hm.
  { intros m. rewrite (to_mqtt o m None t ps Ht). clear. induction ps as [|p ps IH]; [done|].
    cbn [map concat]. rewrite omap_app, IH. by destruct (is_pair o). }
  specialize (Hn 0) as Hn0. specialize (Hm 0) as Hm0. specialize (Hm 1) as Hm1.
  cbn [run nng_client_cb w_state w_mode w_msg Z.eqb Pos.eqb]. split_and!.
  - intros ->. destruct (run o (Work RECV_MQTT 0 None) _) as [w l]. exact Hn0.
  - intros ->. destruct (run o (Work RECV_NNG 0 None) _) as [w l]. exact Hm0.
  - unfold is_pair. intros Hp. destruct (po_type o); try done;
      (split; [destruct (run o (Work RECV_MQTT 0 None) _) as [w l]; exact Hn0|
               destruct (run o (Work RECV_NNG 1 None) _) as [w l]; exact Hm1]).
Qed.

(** ** Witnesses *)

Section Witness.

#[local] Existing Instance long_opts.

Definition proxy_argv (cmd : string) (args : list string) : list bytes :=
  [lit "nanomq_cli"; lit "nngproxy"; lit cmd] ++ map lit args.

Definition proxy_of (cmd : string) (args : list string) : nng_proxy_opts :=
  match nng_client_parse_opts 3 1000 1001 (fun _ _ => 0) (fun _ => None) (proxy_argv cmd args)
    (set_default_conf (default SUB0 (proto_of (lit cmd)))) with
  | Some (inl o) => o
  | _ => set_default_conf SUB0
  end.

Lemma proxy_conveys_witness :
  omap (fun a => match a with SendMqtt m | SendNng m => Some m | _ => None end)
    (snd (run (proxy_of "pub0" ["--listen"; "tcp://h:1"; "--topic"; "t"]%string) (Work INIT 0 None)
      (Input 0 [] :: concat (map (fun p => message (p, 0)) [lit "a"; lit "b"])))) = [NngMsg (lit "a"); NngMsg (lit "b")].
Proof.
  exact (proj1 (proxy_conveys (proxy_of "pub0" ["--listen"; "tcp://h:1"; "--topic"; "t"]%string) (lit "t") [lit "a"; lit "b"] eq_refl) eq_refl).
Defined.

(** A pair proxy is accepted without a topic, and its first message from NNG is
    undefined behaviour. *)
Theorem pair_without_topic :
  let o := proxy_of "pair1" ["--listen"; "tcp://h:1"]%string in
  po_type o = PAIR1 /\ po_text o nng_url = Some (lit "tcp://h:1") /\
  snd (run o (Work INIT 1 None) [Input 0 []; Input 0 (lit "a")]) = [RecvNngSocket; Undefined].
Proof. vm_compute. done. Qed.

End Witness.

End CliProxy.
