(* ===== verification/CliProxyRun.v ===== *)
(** * Connection, workers and end of the command line NNG proxy
      (nanomq_cli/nng_proxy.c)

    Beside the options and the conveying of messages ([CliProxy]): the CONNECT
    message, what a worker is given, and the objects that are freed when the
    proxy ends. *)

From S2P Require Import Prelude CliProxy.

Module CliProxyRun.

Import CliProxy.

(** ** The CONNECT message *)

Record connect := Connect {
  ct_version : Z; ct_keepalive : Z; ct_clean_session : bool; ct_client_id : option bytes; ct_user : option bytes;
  ct_password : option bytes; ct_will_topic : option bytes; ct_will_qos : option Z; ct_will_msg : option bytes;
  ct_will_retain : bool
}.

(** A quality of service of 0 is not set. *)
Definition connect_msg (o : nng_proxy_opts) : connect :=
  Connect (po_num o version) (po_num o keepalive) (po_flag o clean_session) (po_text o client_id) (po_text o user)
    (po_text o passwd) (po_text o will_topic) (if po_num o will_qos =? 0 then None else Some (po_num o will_qos))
    (po_text o will_msg) (po_flag o will_retain).

(** ** Workers *)

(** What a worker can receive and send on. *)
Record channels := Channels { ch_ctx : bool; ch_proxy_ctx : bool; ch_nsocket : bool }.

(** [None] ends the program: [ctx] and [proxy] are the results of nng_ctx_open. *)
Definition nng_alloc_work (ctx proxy : Z) (o : nng_proxy_opts) (mode : Z) : option (work * channels) :=
  if negb (ctx =? 0) then None
  else
    match po_type o with
    | SUB0 => if negb (proxy =? 0) then None else Some (Work INIT mode None, Channels true true false)
    | PUB0 | PAIR0 | PAIR1 => Some (Work INIT mode None, Channels true false true)
    end.

(** Whether an operation has its channel. *)
Definition has_channel (c : channels) (a : action) : bool :=
  match a with
  | RecvMqtt | SendMqtt _ => ch_ctx c
  | RecvNngCtx => ch_proxy_ctx c
  | RecvNngSocket | SendNng _ => ch_nsocket c
  | FreeMsg | Fatal | Undefined => true
  end.

(** ** The end *)

(** Objects that are freed: the parameter and the socket that main uses, the
    parts of worker [k], the arrays, the options. *)
Inductive object :=
  | Param | Socket | Aio (k : nat) | Msg (k : nat) | WorkOf (k : nat) | Works | Text (f : text_field) | Topics | Opts.

#[export] Instance object_eq_dec : EqDecision object.
Proof. solve_decision. Defined.

(** freetopic and the texts that are set, but not the URL of NNG *)
Definition nng_client0_stop (o : nng_proxy_opts) : list object :=
  let text f := match po_text o f with Some _ => [Text f] | None => [] end in
  text mqtt_url ++ (match po_topics o with [] => [] | _ => [Topics] end) ++ text user ++ text passwd ++ text client_id ++
  text msg ++ text will_msg ++ text will_topic ++ text cacert ++ text cert ++ text key ++ text keypass ++ [Opts].

(** The frees of nng_proxy_client after its loop; [msgs] says which workers
    hold a message. *)
Definition teardown (o : nng_proxy_opts) (msgs : list bool) : list object :=
  [Param; Socket] ++
  concat (imap (fun k (m : bool) => [Aio k] ++ (if m then [Msg k] else []) ++ [WorkOf k]) msgs) ++
  [Works; Param; Socket] ++ nng_client0_stop o.

(** ** Properties *)

(** Whatever it goes through, a worker only uses channels it was given. *)
Theorem worker_channels o mode c w0 ins w' l :
  nng_alloc_work 0 0 o mode = Some (w0, c) -> run o w0 ins = (w', l) -> Forall (fun a => has_channel c a = true) l.
Proof.
  intros Ha Hr.
  assert (forall w, (po_type o = SUB0 -> w_state w <> RECV_MQTT /\ w_state w <> SEND_NNG) ->
    (po_type o = PUB0 -> w_state w <> RECV_NNG /\ w_state w <> SEND_MQTT) ->
    forall ins w' l, run o w ins = (w', l) -> Forall (fun a => has_channel c a = true) l) as H.
  { clear Hr. intros w1 Hs Hp ins1. revert w1 Hs Hp. induction ins1 as [|i ins1 IH]; intros w1 Hs Hp w2 l2; cbn [run].
    - intros [= <- <-]. constructor.
    - destruct (nng_client_cb o w1 i) as [w3 l3] eqn:E. destruct (run o w3 ins1) as [w4 l4] eqn:E4. intros [= <- <-].
      assert (Forall (fun a => has_channel c a = true) l3 /\
        (po_type o = SUB0 -> w_state w3 <> RECV_MQTT /\ w_state w3 <> SEND_NNG) /\
        (po_type o = PUB0 -> w_state w3 <> RECV_NNG /\ w_state w3 <> SEND_MQTT)) as (H3 & Hs3 & Hp3).
      { revert E. unfold nng_alloc_work in Ha. unfold nng_client_cb, nng_publish_msg, is_pair, is_pair_type.
        destruct (po_type o) eqn:Et, (w_state w1) eqn:Ew; cbn in Ha; injection Ha as <- <-;
          repeat case_match; intros [= <- <-]; cbn;
          try (by destruct (Hs eq_refl)); try (by destruct (Hp eq_refl));
          (split; [repeat constructor|split; intros ?; try done; cbn; rewrite ?Ew; done]). }
      apply Forall_app. split; [done|]. by apply (IH w3 Hs3 Hp3 w4 l4). }
  apply (H w0) with ins w'; [..|done]; unfold nng_alloc_work in Ha; destruct (po_type o); cbn in Ha; injection Ha as <- <-; done.
Qed.

(** The end of the proxy frees its parameter and its socket twice; it is not
    reached, since nothing sets the signal its loop waits for. *)
Theorem teardown_double_free o msgs : ~ NoDup (teardown o msgs).
Proof.
  unfold teardown. intros (_ & H & _)%NoDup_app. apply (H Param); [by left|]. rewrite !elem_of_app. right. left. set_solver.
Qed.

End CliProxyRun.
