(* ===== verification/NngCat.v ===== *)
(** * nngcat (nanomq_cli/nngcat.c)

    "nanomq_cli nngcat": sends and receives messages of NNG.  Its options and the
    checks behind them, the formats in which it prints messages, and its loops,
    which are functions of what the socket and the clock return. *)

From S2P Require Import Prelude OptsApi.

Module NngCat.

(** ** Options *)

Inductive options :=
  | OPT_HELP | OPT_VERBOSE | OPT_SILENT | OPT_REP0 | OPT_REQ0 | OPT_PUSH0 | OPT_PULL0 | OPT_PUB0 | OPT_SUB0
  | OPT_SURVEY0 | OPT_RESPOND0 | OPT_PAIR0 | OPT_PAIR1 | OPT_PAIR | OPT_BUS0 | OPT_DIAL | OPT_LISTEN | OPT_DATA
  | OPT_FILE | OPT_SUBSCRIBE | OPT_INTERVAL | OPT_DELAY | OPT_COUNT | OPT_FORMAT | OPT_RAW | OPT_ASCII | OPT_QUOTED
  | OPT_MSGPACK | OPT_HEX | OPT_BLANK | OPT_COMPAT | OPT_ASYNC | OPT_RCV_TIMEO | OPT_SND_TIMEO | OPT_SOCK_NAME
  | OPT_LISTEN_IPC | OPT_DIAL_IPC | OPT_LISTEN_LOCAL | OPT_DIAL_LOCAL | OPT_INSECURE | OPT_CACERT | OPT_KEYFILE
  | OPT_CERTFILE | OPT_VERSION | OPT_RECVMAXSZ | OPT_ZTHOME.

#[export] Instance options_eq_dec : EqDecision options.
Proof. solve_decision. Defined.

Definition all_options : list options :=
  [OPT_HELP; OPT_VERBOSE; OPT_SILENT; OPT_REP0; OPT_REQ0; OPT_PUSH0; OPT_PULL0; OPT_PUB0; OPT_SUB0; OPT_SURVEY0;
   OPT_RESPOND0; OPT_PAIR0; OPT_PAIR1; OPT_PAIR; OPT_BUS0; OPT_DIAL; OPT_LISTEN; OPT_DATA; OPT_FILE; OPT_SUBSCRIBE;
   OPT_INTERVAL; OPT_DELAY; OPT_COUNT; OPT_FORMAT; OPT_RAW; OPT_ASCII; OPT_QUOTED; OPT_MSGPACK; OPT_HEX; OPT_BLANK;
   OPT_COMPAT; OPT_ASYNC; OPT_RCV_TIMEO; OPT_SND_TIMEO; OPT_SOCK_NAME; OPT_LISTEN_IPC; OPT_DIAL_IPC;
   OPT_LISTEN_LOCAL; OPT_DIAL_LOCAL; OPT_INSECURE; OPT_CACERT; OPT_KEYFILE; OPT_CERTFILE; OPT_VERSION;
   OPT_RECVMAXSZ; OPT_ZTHOME].

Definition opt (name : string) (short : Z) (o : options) (arg : bool) : optspec :=
  OptSpec (lit name) short (enum_val all_options o) arg.

Definition opts : list optspec :=
  [opt "help" 104 OPT_HELP false; opt "verbose" 118 OPT_VERBOSE false; opt "silent" 113 OPT_SILENT false;
   opt "req0" 0 OPT_REQ0 false; opt "rep0" 0 OPT_REP0 false; opt "push0" 0 OPT_PUSH0 false;
   opt "pull0" 0 OPT_PULL0 false; opt "pub0" 0 OPT_PUB0 false; opt "sub" 0 OPT_SUB0 false; opt "sub0" 0 OPT_SUB0 false;
   opt "surveyor0" 0 OPT_SURVEY0 false; opt "respondent0" 0 OPT_RESPOND0 false; opt "pair" 0 OPT_PAIR false;
   opt "pair0" 0 OPT_PAIR0 false; opt "pair1" 0 OPT_PAIR1 false; opt "bus0" 0 OPT_BUS0 false;
   opt "dial" 0 OPT_DIAL true; opt "listen" 0 OPT_LISTEN true; opt "data" 68 OPT_DATA true; opt "file" 70 OPT_FILE true;
   opt "subscribe" 0 OPT_SUBSCRIBE true; opt "format" 0 OPT_FORMAT true; opt "ascii" 65 OPT_ASCII false;
   opt "quoted" 81 OPT_QUOTED false; opt "raw" 0 OPT_RAW false; opt "hex" 0 OPT_HEX false;
   opt "compat" 0 OPT_COMPAT false; opt "async" 0 OPT_ASYNC false; opt "msgpack" 0 OPT_MSGPACK false;
   opt "recv-maxsz" 90 OPT_RECVMAXSZ true; opt "count" 67 OPT_COUNT true; opt "delay" 100 OPT_DELAY true;
   opt "interval" 105 OPT_INTERVAL true; opt "recv-timeout" 0 OPT_RCV_TIMEO true;
   opt "send-timeout" 0 OPT_SND_TIMEO true; opt "socket-name" 0 OPT_SOCK_NAME true; opt "bind" 0 OPT_LISTEN true;
   opt "connect" 0 OPT_DIAL true; opt "bind-ipc" 88 OPT_LISTEN_IPC true; opt "connect-ipc" 120 OPT_DIAL_IPC true;
   opt "bind-local" 76 OPT_LISTEN_LOCAL true; opt "connect-local" 108 OPT_DIAL_LOCAL true;
   opt "insecure" 107 OPT_INSECURE false; opt "cacert" 0 OPT_CACERT true; opt "key" 0 OPT_KEYFILE true;
   opt "cert" 69 OPT_CERTFILE true; opt "zt-home" 0 OPT_ZTHOME true; opt "version" 86 OPT_VERSION false].

(** ** Settings *)

Inductive num_field := delay | interval | sendtimeo | recvtimeo | count | recvmaxsz.
Inductive choice_field := format | proto | verbose.
Inductive flag_field := compat | async | insecure.
Inductive text_field := data | cacert | keyfile | certfile | zthome.

#[export] Instance num_field_eq_dec : EqDecision num_field.
Proof. solve_decision. Defined.
#[export] Instance choice_field_eq_dec : EqDecision choice_field.
Proof. solve_decision. Defined.
#[export] Instance flag_field_eq_dec : EqDecision flag_field.
Proof. solve_decision. Defined.
#[export] Instance text_field_eq_dec : EqDecision text_field.
Proof. solve_decision. Defined.

(** The globals and the lists of [nng_cat_dflt]; a choice that was not made is
    0. *)
Record cat := Cat {
  c_num : num_field -> Z;
  c_choice : choice_field -> option options;
  c_flag : flag_field -> bool;
  c_text : text_field -> option bytes;
  c_addrs : list (options * bytes);
  c_topics : list bytes
}.

Definition upd {K V} `{EqDecision K} (f : K -> V) (k : K) (v : V) : K -> V := fun k' => if decide (k' = k) then v else f k'.

Definition set_num (k : num_field) (v : Z) (c : cat) : cat :=
  Cat (upd (c_num c) k v) (c_choice c) (c_flag c) (c_text c) (c_addrs c) (c_topics c).
Definition set_choice (k : choice_field) (v : options) (c : cat) : cat :=
  Cat (c_num c) (upd (c_choice c) k (Some v)) (c_flag c) (c_text c) (c_addrs c) (c_topics c).
Definition set_flag (k : flag_field) (c : cat) : cat :=
  Cat (c_num c) (c_choice c) (upd (c_flag c) k true) (c_text c) (c_addrs c) (c_topics c).
Definition set_text (k : text_field) (v : bytes) (c : cat) : cat :=
  Cat (c_num c) (c_choice c) (c_flag c) (upd (c_text c) k (Some v)) (c_addrs c) (c_topics c).
Definition addaddr (mode : options) (a : bytes) (c : cat) : cat :=
  Cat (c_num c) (c_choice c) (c_flag c) (c_text c) (c_addrs c ++ [(mode, a)]) (c_topics c).
Definition nng_addtopic (t : bytes) (c : cat) : cat :=
  Cat (c_num c) (c_choice c) (c_flag c) (c_text c) (c_addrs c) (c_topics c ++ [t]).

(** NNG_DURATION_INFINITE is -1. *)
Definition initial : cat :=
  Cat (fun k => match k with delay | count => 0 | _ => -1 end) (fun _ => None) (fun _ => false) (fun _ => None) [] [].

Definition fatal {A} : A + stop := inr (ExitWith 1).

Section Options.

Context `{OP : OptsParse}.
Context (NNG_EINVAL NNG_EAMBIGUOUS NNG_ENOARG : Z).
Context (loadfile : bytes -> option bytes).
Context (dec : Z -> bytes).

Definition number (a : bytes) (maxv : Z) (f : Z -> cat) : cat + stop :=
  match intarg a maxv with inl v => inl (f v) | inr e => inr e end.

Definition choose_once (k : choice_field) (v : options) (c : cat) : cat + stop :=
  match c_choice c k with Some _ => fatal | None => inl (set_choice k v c) end.

Definition load_once (k : text_field) (a : bytes) (c : cat) : cat + stop :=
  match c_text c k, loadfile a with None, Some d => inl (set_text k d c) | _, _ => fatal end.

Definition format_of (a : bytes) : option options :=
  if bool_decide (a = lit "no") then Some OPT_BLANK
  else if bool_decide (a = lit "ascii") then Some OPT_ASCII
  else if bool_decide (a = lit "hex") then Some OPT_HEX
  else if bool_decide (a = lit "quoted") then Some OPT_QUOTED
  else if bool_decide (a = lit "raw") then Some OPT_RAW
  else if bool_decide (a = lit "msgpack") then Some OPT_MSGPACK else None.

(** [scratch[512]] *)
Definition scratch (s : bytes) : bytes := take 511 s.

(** The switch over the options. *)
Definition cat_opt (o : options) (arg : option bytes) (c : cat) : cat + stop :=
  let with_arg (f : bytes -> cat + stop) := match arg with Some a => f a | None => inr UseNull end in
  match o with
  | OPT_HELP => fatal
  | OPT_REQ0 | OPT_REP0 | OPT_SUB0 | OPT_PUB0 | OPT_BUS0 | OPT_SURVEY0 | OPT_RESPOND0 | OPT_PAIR0 | OPT_PAIR1
  | OPT_PUSH0 | OPT_PULL0 => choose_once proto o c
  | OPT_DIAL | OPT_LISTEN => with_arg (fun a => inl (addaddr o a c))
  | OPT_DIAL_LOCAL | OPT_LISTEN_LOCAL =>
      with_arg (fun a => number a 65536 (fun p => addaddr o (scratch (lit "tcp://127.0.0.1:" ++ dec p)) c))
  | OPT_DIAL_IPC | OPT_LISTEN_IPC => with_arg (fun a => inl (addaddr o (scratch (lit "ipc:///" ++ a)) c))
  | OPT_COUNT => with_arg (fun a => number a 2147483647 (fun v => set_num count v c))
  | OPT_SUBSCRIBE => with_arg (fun a => inl (nng_addtopic a c))
  | OPT_VERBOSE | OPT_SILENT => inl (set_choice verbose o c)
  | OPT_DELAY => with_arg (fun a => number a 86400 (fun v => set_num delay (v * 1000) c))
  | OPT_INTERVAL => with_arg (fun a => number a 86400 (fun v => set_num interval (v * 1000) c))
  | OPT_SND_TIMEO => with_arg (fun a => number a 86400 (fun v => set_num sendtimeo (v * 1000) c))
  | OPT_RCV_TIMEO => with_arg (fun a => number a 86400 (fun v => set_num recvtimeo (v * 1000) c))
  | OPT_RECVMAXSZ =>
      with_arg (fun a => number a 2147483647 (fun v => set_num recvmaxsz (if v =? 0 then 2147483647 else v) c))
  | OPT_COMPAT => inl (set_flag compat c)
  | OPT_ASYNC => inl (set_flag async c)
  | OPT_ASCII | OPT_RAW | OPT_QUOTED | OPT_MSGPACK | OPT_HEX => choose_once format o c
  | OPT_FORMAT =>
      match c_choice c format with
      | Some _ => fatal
      | None => with_arg (fun a => match format_of a with Some f => inl (set_choice format f c) | None => fatal end)
      end
  | OPT_FILE => with_arg (fun a => load_once data a c)
  | OPT_DATA => with_arg (fun a => match c_text c data with Some _ => fatal | None => inl (set_text data a c) end)
  | OPT_CACERT => with_arg (fun a => load_once cacert a c)
  | OPT_KEYFILE => with_arg (fun a => load_once keyfile a c)
  | OPT_CERTFILE => with_arg (fun a => load_once certfile a c)
  | OPT_ZTHOME => with_arg (fun a => inl (set_text zthome a c))
  | OPT_INSECURE => inl (set_flag insecure c)
  | OPT_VERSION => inr (ExitWith 0)
  | OPT_PAIR | OPT_BLANK | OPT_SOCK_NAME => inl c
  end.

(** ** Checks *)

(** --compat, and the two versions of the pair protocol. *)
Definition check_compat (c : cat) : cat + stop :=
  let is_proto o := bool_decide (c_choice c proto = Some o) in
  if c_flag c compat then
    if c_flag c async then fatal
    else if negb (c_num c count =? 0) then fatal
    else
      let c := if is_proto OPT_PAIR then set_choice proto OPT_PAIR0 c else c in
      if is_proto OPT_PAIR1 then fatal else inl (set_flag async c)
  else inl (if is_proto OPT_PAIR then set_choice proto OPT_PAIR1 c else c).

Definition check_topics (c : cat) : cat + stop :=
  if bool_decide (c_choice c proto = Some OPT_SUB0) then
    inl (match c_topics c with [] => nng_addtopic [] c | _ => c end)
  else match c_topics c with [] => inl c | _ => fatal end.

(** What a protocol supports; a protocol must have been chosen. *)
Definition check_proto (c : cat) : cat + stop :=
  let has_data := match c_text c data with Some _ => true | None => false end in
  match c_choice c proto with
  | Some (OPT_PULL0 | OPT_SUB0) => if has_data then fatal else if 0 <=? c_num c interval then fatal else inl c
  | Some (OPT_PUSH0 | OPT_PUB0) =>
      match c_choice c format with Some _ => fatal | None => if has_data then inl c else fatal end
  | Some (OPT_SURVEY0 | OPT_REQ0) => if has_data then inl c else fatal
  | Some (OPT_REP0 | OPT_RESPOND0) => if 0 <=? c_num c interval then fatal else inl c
  | Some (OPT_PAIR0 | OPT_PAIR1 | OPT_BUS0) => if (0 <=? c_num c interval) && negb has_data then fatal else inl c
  | _ => fatal
  end.

(** What is run on the socket. *)
Inductive job := Recv | Resp (reply : bytes) | Send (msg : bytes) | SendRecv (msg : bytes).

Definition job_of (c : cat) : option job :=
  match c_choice c proto, c_text c data with
  | Some (OPT_SUB0 | OPT_PULL0), _ => Some Recv
  | Some (OPT_REP0 | OPT_RESPOND0), None => Some Recv
  | Some (OPT_REP0 | OPT_RESPOND0), Some d => Some (Resp d)
  | Some (OPT_PUSH0 | OPT_PUB0), Some d => Some (Send d)
  | Some (OPT_BUS0 | OPT_PAIR0 | OPT_PAIR1), Some d => Some (SendRecv d)
  | Some (OPT_BUS0 | OPT_PAIR0 | OPT_PAIR1), None => Some Recv
  | Some (OPT_REQ0 | OPT_SURVEY0), Some d => Some (SendRecv d)
  | _, _ => None
  end.

Definition and_then (m : cat + stop) (f : cat -> cat + stop) : cat + stop := match m with inl c => f c | inr e => inr e end.

(** [nng_cat_dflt] up to the socket. *)
Definition nng_cat_dflt (av : list bytes) : option (cat + stop) :=
  r ← parse_loop opts (switch all_options cat_opt) (S (length (tail av))) (tail av) 1 initial;
  Some (match r with
        | inr e => inr e
        | inl (c, rv) =>
            if (rv =? NNG_EINVAL) || (rv =? NNG_EAMBIGUOUS) || (rv =? NNG_ENOARG) then fatal
            else match c_addrs c with
                 | [] => fatal
                 | _ => and_then (and_then (check_compat c) check_topics) check_proto
                 end
        end).

(** ** Accepted options *)

Lemma check_proto_job c c' : check_proto c = inl c' -> c' = c /\ is_Some (job_of c).
Proof.
  unfold check_proto, job_of. destruct (c_choice c proto) as [[]|]; try done;
    destruct (c_text c data) as [d|]; repeat case_match; try done; intros [= <-]; done.
Qed.

Lemma check_topics_sub c c' : check_topics c = inl c' ->
  c_addrs c' = c_addrs c /\ (c_choice c' proto = Some OPT_SUB0 <-> c_topics c' <> []).
Proof.
  unfold check_topics. case_bool_decide as H; destruct (c_topics c) as [|t ts] eqn:E; intros [= <-]; cbn; rewrite ?H, ?E; done.
Qed.

Lemma check_compat_addrs c c' : check_compat c = inl c' -> c_addrs c' = c_addrs c.
Proof. unfold check_compat. repeat case_match; intros [= <-]; done. Qed.

Context `{OL : !OptsParseLaws}.

(** Reading the options ends.  What is accepted has an address, a protocol with
    the data it needs, and topics exactly for the sub protocol. *)
Theorem cat_accepted av :
  exists r, nng_cat_dflt av = Some r /\
    forall c, r = inl c -> c_addrs c <> [] /\ is_Some (job_of c) /\ (c_choice c proto = Some OPT_SUB0 <-> c_topics c <> []).
Proof.
  unfold nng_cat_dflt.
  destruct (parse_loop_ends opts (switch all_options cat_opt) (length (tail av)) (tail av) 1 initial) as [r E]; [lia|].
  rewrite E. cbn [mbind option_bind]. eexists. split; [done|]. destruct r as [[c rv]|e]; [|done].
  destruct (_ || _); [done|]. intros c'. destruct (c_addrs c) as [|a l] eqn:Ea; [done|].
  unfold and_then. destruct (check_compat c) as [c1|] eqn:E1; [|done]. destruct (check_topics c1) as [c2|] eqn:E2; [|done].
  intros H. apply check_proto_job in H as [-> Hj]. apply check_topics_sub in E2 as [E2 Ht]. apply check_compat_addrs in E1.
  split_and!; [congruence|done|done].
Qed.

End Options.

(** ** Formats *)

Definition isprint (c : Z) : bool := (32 <=? c) && (c <=? 126).

Definition hex_digit (n : Z) : Z := if n <? 10 then 48 + n else 87 + n.
Definition hex2 (c : Z) : bytes := [hex_digit (c / 16); hex_digit (c mod 16)].
Definition hex_escape (c : Z) : bytes := [92; 120] ++ hex2 c.

Definition quote_char (c : Z) : bytes :=
  if c =? 10 then [92; 110]
  else if c =? 13 then [92; 114]
  else if c =? 9 then [92; 116]
  else if (c =? 34) || (c =? 92) then [92; c]
  else if isprint c then [c] else hex_escape c.

Definition msgpack_head (len : Z) : bytes :=
  if len <? 256 then [196; Z.land len 255]
  else if len <? 65536 then [197; Z.land (Z.shiftr len 8) 255; Z.land len 255]
  else [198; Z.land (Z.shiftr len 24) 255; Z.land (Z.shiftr len 16) 255; Z.land (Z.shiftr len 8) 255; Z.land len 255].

(** [printmsg]: the text printed. *)
Definition printmsg (format : option options) (buf : bytes) : bytes :=
  match format with
  | Some OPT_RAW => buf
  | Some OPT_ASCII => map (fun c => if isprint c then c else 46) buf
  | Some OPT_QUOTED => [34] ++ concat (map quote_char buf) ++ [34; 10]
  | Some OPT_MSGPACK => msgpack_head (blen buf) ++ buf
  | Some OPT_HEX => [34] ++ concat (map hex_escape buf) ++ [34; 10]
  | _ => []
  end.

(** ** Loops *)

(** How a loop ends: normally, with [fatal], or not within the given inputs. *)
Inductive ending := Done | Fatal | Waiting.

Section Loops.

Context (NNG_ETIMEDOUT NNG_ESTATE : Z).
Context (c : cat).

(** A round of receiving: the result, and the body of the message. *)
Fixpoint recvloop (iters : Z) (rs : list (Z * bytes)) : list bytes * ending :=
  if (0 <? c_num c count) && (c_num c count <=? iters) then ([], Done)
  else match rs with
       | [] => ([], Waiting)
       | (rv, body) :: rs =>
           if (rv =? NNG_ETIMEDOUT) || (rv =? NNG_ESTATE) then ([], Done)
           else if rv =? 0 then
             let '(l, e) := recvloop (iters + 1) rs in (printmsg (c_choice c format) body :: l, e)
           else ([], Fatal)
       end.

(** A round of answering: what is printed and what is sent. *)
Fixpoint resploop (reply : bytes) (iters : Z) (rs : list (Z * bytes * Z)) : list (bytes * bytes) * ending :=
  match rs with
  | [] => ([], Waiting)
  | (rv, body, srv) :: rs =>
      if negb (rv =? 0) then ([], Fatal)
      else if negb (srv =? 0) then ([(printmsg (c_choice c format) body, [])], Fatal)
      else
        let one := (printmsg (c_choice c format) body, reply) in
        if (0 <? c_num c count) && (c_num c count <=? iters + 1) then ([one], Done)
        else let '(l, e) := resploop reply (iters + 1) rs in (one :: l, e)
  end.

(** nng_duration is 32 bits wide. *)
Definition elapsed (start fin : Z) : Z := i32 (fin - start).
Definition pause (delta : Z) : Z := if (0 <=? delta) && (delta <? c_num c interval) then c_num c interval - delta else 0.

(** The rounds of [sendloop]: the result of sending and the clock before and
    after; the pauses between the messages. *)
Fixpoint sendloop (iters : Z) (rs : list (Z * Z * Z)) : list Z * ending :=
  match rs with
  | [] => ([], Waiting)
  | (rv, start, fin) :: rs =>
      if negb (rv =? 0) then ([], Fatal)
      else if ((c_num c interval <? 0) && (c_num c count =? 0)) || ((0 <? c_num c count) && (c_num c count <=? iters + 1))
      then ([0], Done)
      else let '(l, e) := sendloop (iters + 1) rs in (pause (elapsed start fin) :: l, e)
  end.

(** The timeout [sendrecv] sets before it receives. *)
Definition recv_timeout (delta : Z) : Z :=
  let expire := i32 (c_num c interval - delta) in
  if (0 <=? c_num c recvtimeo) && (c_num c recvtimeo <? expire) then c_num c recvtimeo else expire.

(** The inner loop of [sendrecv]: a clock and a result for each message. *)
Fixpoint recv_rest (start : Z) (rs : list (Z * Z * bytes)) : list (Z * bytes) * ending :=
  match rs with
  | [] => ([], Waiting)
  | (now, rv, body) :: rs =>
      let t := recv_timeout (elapsed start now) in
      if rv =? 0 then let '(l, e) := recv_rest start rs in ((t, printmsg (c_choice c format) body) :: l, e)
      else if (rv =? NNG_ETIMEDOUT) || (rv =? NNG_ESTATE) then ([(t, [])], Done)
      else ([(t, [])], Fatal)
  end.

(** A round of [sendrecv]: the result of sending, the clock, the answers, the
    clock at the end. *)
Fixpoint sendrecv (iters : Z) (rs : list (Z * Z * list (Z * Z * bytes) * Z)) : list (list (Z * bytes)) * ending :=
  match rs with
  | [] => ([], Waiting)
  | (rv, start, answers, fin) :: rs =>
      if negb (rv =? 0) then ([], Fatal)
      else if (c_num c interval <? 0) && (c_num c count =? 0) then
        let '(l, e) := recvloop 0 (map (fun '(_, r, b) => (r, b)) answers) in ([map (pair (-1)) l], e)
      else
        match recv_rest start answers with
        | (l, Done) =>
            if (0 <? c_num c count) && (c_num c count <=? iters + 1) then ([l], Done)
            else let '(k, e) := sendrecv (iters + 1) rs in (l :: k, e)
        | (l, e) => ([l], e)
        end
  end.

(** ** Counts *)

(** With a count, that many messages are received and printed, whatever follows
    them. *)
Theorem recvloop_count bodies rest :
  0 < c_num c count -> Z.of_nat (length bodies) = c_num c count -> NNG_ETIMEDOUT <> 0 -> NNG_ESTATE <> 0 ->
  recvloop 0 (map (pair 0) bodies ++ rest) = (map (printmsg (c_choice c format)) bodies, Done).
Proof.
  intros Hc Hl Ht Hs.
  enough (forall i, i + Z.of_nat (length bodies) = c_num c count ->
    recvloop i (map (pair 0) bodies ++ rest) = (map (printmsg (c_choice c format)) bodies, Done)) as H by (apply H; lia).
  clear Hl. induction bodies as [|b bodies IH]; intros i Hi; cbn [map app length] in *.
  - assert ((0 <? c_num c count) && (c_num c count <=? i) = true) as E by lia. by destruct rest; cbn [recvloop]; rewrite E.
  - cbn [recvloop]. assert ((0 <? c_num c count) && (c_num c count <=? i) = false) as -> by lia.
    assert ((0 =? NNG_ETIMEDOUT) || (0 =? NNG_ESTATE) = false) as -> by lia.
    cbn [Z.eqb]. rewrite IH by lia. done.
Qed.

(** A sender that nothing fails for sends once, without a count and an interval,
    or as often as the count says; between two messages it pauses at most for
    the interval. *)
Theorem sendloop_count rs :
  Forall (fun r => fst (fst r) = 0) rs ->
  (c_num c interval < 0 -> c_num c count = 0 -> rs <> [] -> sendloop 0 rs = ([0], Done)) /\
  (0 < c_num c count -> c_num c count <= Z.of_nat (length rs) ->
     snd (sendloop 0 rs) = Done /\ Z.of_nat (length (fst (sendloop 0 rs))) = c_num c count) /\
  Forall (fun p => 0 <= p <= Z.max 0 (c_num c interval)) (fst (sendloop 0 rs)).
Proof.
  intros Hr. split_and!.
  - intros Hi Hc Hne. destruct Hr as [|[[rv a] b] rs E Hr]; [done|]. cbn in E. subst rv. cbn [sendloop negb Z.eqb].
    assert ((c_num c interval <? 0) && (c_num c count =? 0) = true) as -> by lia. done.
  - enough (forall i, 0 <= i < c_num c count -> c_num c count <= i + Z.of_nat (length rs) ->
      snd (sendloop i rs) = Done /\ i + Z.of_nat (length (fst (sendloop i rs))) = c_num c count) as H.
    { intros H1 H2. destruct (H 0) as [H3 H4]; [lia|lia|]. split; [done|lia]. }
    induction Hr as [|[[rv a] b] rs E Hr IH]; intros i Hi Hl; cbn [length] in Hl; [lia|]. cbn in E. subst rv.
    cbn [sendloop negb Z.eqb]. assert ((c_num c interval <? 0) && (c_num c count =? 0) = false) as -> by lia. cbn [orb].
    destruct (Z.ltb_spec 0 (c_num c count)); [|lia]. cbn [andb].
    destruct (Z.leb_spec (c_num c count) (i + 1)); [split; [done|cbn [fst length]; lia]|].
    destruct (IH (i + 1)) as [H1 H2]; [lia|lia|]. destruct (sendloop (i + 1) rs) as [l e]. cbn [fst snd length] in *. split; [done|lia].
  - enough (forall i, Forall (fun p => 0 <= p <= Z.max 0 (c_num c interval)) (fst (sendloop i rs))) by done.
    induction Hr as [|[[rv a] b] rs E Hr IH]; intros i; cbn [sendloop]; [constructor|].
    cbn in E. subst rv. cbn [negb Z.eqb]. destruct (_ || _); [repeat constructor; lia|].
    specialize (IH (i + 1)). destruct (sendloop (i + 1) rs) as [l e]. cbn [fst] in *. constructor; [|exact IH].
    unfold pause. destruct (Z.leb_spec 0 (elapsed a b)); cbn [andb]; [|lia].
    destruct (Z.ltb_spec (elapsed a b) (c_num c interval)); lia.
Qed.

(** A replier with a count answers that many requests with its data. *)
Theorem resploop_count reply bodies rest :
  0 < c_num c count -> Z.of_nat (length bodies) = c_num c count ->
  resploop reply 0 (map (fun b => (0, b, 0)) bodies ++ rest) =
  (map (fun b => (printmsg (c_choice c format) b, reply)) bodies, Done).
Proof.
  intros Hc Hl.
  enough (forall i, bodies <> [] -> i + Z.of_nat (length bodies) = c_num c count ->
    resploop reply i (map (fun b => (0, b, 0)) bodies ++ rest) =
    (map (fun b => (printmsg (c_choice c format) b, reply)) bodies, Done)) as H.
  { apply H; [|lia]. intros ->. cbn in Hl. lia. }
  clear Hl. induction bodies as [|b bodies IH]; intros i Hne Hi; [done|]. cbn [map app length resploop negb Z.eqb] in *.
  destruct (Z.ltb_spec 0 (c_num c count)); [|lia]. cbn [andb].
  destruct (Z.leb_spec (c_num c count) (i + 1)).
  - destruct bodies; [done|]. cbn [length] in Hi. lia.
  - rewrite IH; [done| |lia]. intros ->. cbn [length] in Hi. lia.
Qed.

End Loops.

(** ** Formats can be read back *)

Definition hex_value (d : Z) : Z := if d <? 58 then d - 48 else d - 87.

(** A reader of the quoted formats, up to the closing quote. *)
Fixpoint unquote (s : bytes) : option bytes :=
  match s with
  | [] => None
  | c :: s =>
      if c =? 34 then Some []
      else if c =? 92 then
        match s with
        | e :: s' =>
            if e =? 120 then match s' with a :: b :: s'' => cons (hex_value a * 16 + hex_value b) <$> unquote s'' | _ => None end
            else cons (if e =? 110 then 10 else if e =? 114 then 13 else if e =? 116 then 9 else e) <$> unquote s'
        | [] => None
        end
      else cons c <$> unquote s
  end.

Lemma hex_digit_value n : 0 <= n < 16 -> hex_value (hex_digit n) = n.
Proof.
  intros H. unfold hex_digit, hex_value. destruct (Z.ltb_spec n 10).
  - destruct (Z.ltb_spec (48 + n) 58); lia.
  - destruct (Z.ltb_spec (87 + n) 58); lia.
Qed.

Lemma unquote_hex c s : 0 <= c < 256 -> unquote (hex_escape c ++ s) = cons c <$> unquote s.
Proof.
  intros H. unfold hex_escape, hex2. cbn [app unquote Z.eqb Pos.eqb].
  rewrite !hex_digit_value by (pose proof (Z.mod_pos_bound c 16); pose proof (Z.div_le_lower_bound c 16 0);
    pose proof (Z.div_lt_upper_bound c 16 16); lia).
  replace (c / 16 * 16 + c mod 16) with c; [done|]. pose proof (Z.div_mod c 16). lia.
Qed.

Lemma unquote_char c s : 0 <= c < 256 -> unquote (quote_char c ++ s) = cons c <$> unquote s.
Proof.
  intros H. unfold quote_char. destruct (Z.eqb_spec c 10) as [->|N1]; [done|]. destruct (Z.eqb_spec c 13) as [->|N2]; [done|].
  destruct (Z.eqb_spec c 9) as [->|N3]; [done|]. destruct (Z.eqb_spec c 34) as [->|N4]; [done|].
  destruct (Z.eqb_spec c 92) as [->|N5]; [done|]. cbn [orb].
  destruct (isprint c) eqn:E; [|by apply unquote_hex]. cbn [app unquote].
  destruct (Z.eqb_spec c 34); [done|]. destruct (Z.eqb_spec c 92); [done|]. done.
Qed.

(** The quoted and the hexadecimal format are read back to the message. *)
Theorem formats_read_back buf :
  Forall (fun c => 0 <= c < 256) buf ->
  unquote (tail (printmsg (Some OPT_QUOTED) buf)) = Some buf /\ unquote (tail (printmsg (Some OPT_HEX) buf)) = Some buf.
Proof.
  intros Hb. cbn [printmsg app tail].
  split; induction Hb as [|c buf Hc Hb IH]; try done; cbn [map concat]; rewrite <- app_assoc.
  - rewrite unquote_char, IH by done. done.
  - rewrite unquote_hex, IH by done. done.
Qed.

(** A reader of the MessagePack format. *)
Definition msgpack_len (s : bytes) : option (Z * bytes) :=
  match s with
  | t :: s =>
      if t =? 196 then match s with a :: s => Some (a, s) | _ => None end
      else if t =? 197 then match s with a :: b :: s => Some (a * 256 + b, s) | _ => None end
      else if t =? 198 then match s with a :: b :: d :: e :: s => Some (((a * 256 + b) * 256 + d) * 256 + e, s) | _ => None end
      else None
  | [] => None
  end.

Lemma byte_of z k : 0 <= k -> Z.land (Z.shiftr z k) 255 = (z / 2 ^ k) mod 256.
Proof. intros Hk. change 255 with (Z.ones 8). rewrite Z.land_ones, Z.shiftr_div_pow2 by lia. done. Qed.

(** A message of less than 4 GiB is packed with its length; a longer one is
    packed with a length that is too small. *)
Theorem msgpack_read_back buf :
  msgpack_len (printmsg (Some OPT_MSGPACK) buf) = Some (blen buf mod 2 ^ 32, buf).
Proof.
  cbn [printmsg]. pose proof (blen_nonneg buf) as H0. unfold msgpack_head.
  assert (forall z, Z.land z 255 = z mod 256) as L0 by (intros z; change 255 with (Z.ones 8); by rewrite Z.land_ones by lia).
  destruct (Z.ltb_spec (blen buf) 256).
  { cbn. rewrite L0, !Z.mod_small by lia. done. }
  destruct (Z.ltb_spec (blen buf) 65536).
  { cbn. rewrite byte_of, L0 by lia. rewrite (Z.mod_small (blen buf) (2 ^ 32)) by lia. change (2 ^ 8) with 256.
    rewrite (Z.mod_small (blen buf / 256)) by (split; [apply Z.div_pos; lia|apply Z.div_lt_upper_bound; lia]).
    do 2 f_equal. pose proof (Z.div_mod (blen buf) 256). lia. }
  cbn. rewrite !byte_of, L0 by lia. do 2 f_equal.
  change (2 ^ 24) with (256 * 256 * 256). change (2 ^ 16) with (256 * 256). change (2 ^ 8) with 256.
  change (2 ^ 32) with (256 * (256 * (256 * 256))).
  rewrite !Z.rem_mul_r by lia. rewrite !Z.div_div by lia. lia.
Qed.

(** ** Witnesses *)

Section Witness.

#[local] Existing Instance long_opts.

Definition cat_of (args : list string) : option (cat + stop) :=
  nng_cat_dflt 3 1000 1001 (fun _ => None) (fun _ => []) ([lit "nanomq_cli"; lit "nngcat"] ++ map lit args).

(** "--pair" is read and forgotten: no protocol is known then. *)
Theorem pair_refused :
  cat_of ["--pair"; "--dial"; "tcp://h:1"]%string = Some (inr (ExitWith 1)) /\
  is_Some (cat_of ["--pair1"; "--dial"; "tcp://h:1"]%string ≫= (fun r => match r with inl c => job_of c | inr _ => None end)).
Proof. vm_compute. by split; [|eexists]. Qed.

(** A count that does not fit overflows before it is compared with the bound. *)
Theorem count_overflows : cat_of ["--count"; "4294967297"]%string = Some (inr Overflow).
Proof. vm_compute. done. Qed.

End Witness.

End NngCat.
