(* ===== verification/NngCatSock.v ===== *)
(** * The socket of nngcat (nanomq_cli/nngcat.c)

    When its options are checked ([NngCat]), nngcat opens the socket, subscribes,
    sets time-outs and the maximal size, and dials or listens on each address;
    an address of a transport with TLS is configured before ([ToolTls]).  Every
    failure ends the program, so the setup is a list of calls, each with the
    results the code accepts, of which a run makes those up to the first that
    fails. *)

From S2P Require Import Prelude OptsApi NngCat ToolTls.

Module NngCatSock.

Import NngCat.

Inductive sock_call :=
  | OpenSock (proto : options)
  | NoProtocol                                    (* fatal *)
  | Subscribe (topic : bytes)
  | SetSendTimeo (ms : Z)
  | SetRecvTimeo (ms : Z)
  | SetRecvMaxSz (n : Z)
  | DialerCreate (url : bytes)
  | ListenerCreate (url : bytes)
  | GetTls (url : bytes)
  | Tls (url : bytes) (c : ToolTls.tls_call)
  | SetZtHome (url home : bytes)
  | DialerStart (url : bytes) (async : bool)
  | ListenerStart (url : bytes) (async : bool)
  | BadMode (url : bytes).                        (* fatal *)

Section Setup.

(** The results of the library. *)
Context (NNG_ENOTSUP : Z) (env : sock_call -> Z).

(** Whether a result lets the program go on. *)
Definition accepts (c : sock_call) : bool :=
  match c with
  | NoProtocol | BadMode _ => false
  | GetTls _ | SetZtHome _ _ => (env c =? 0) || (env c =? NNG_ENOTSUP)
  | _ => env c =? 0
  end.

Fixpoint exec (l : list sock_call) : list sock_call * bool :=
  match l with
  | [] => ([], true)
  | c :: l => if accepts c then let '(k, ok) := exec l in (c :: k, ok) else ([c], false)
  end.

Definition open_call (c : cat) : sock_call :=
  match c_choice c proto with
  | Some ((OPT_REQ0 | OPT_REP0 | OPT_SUB0 | OPT_PUB0 | OPT_PAIR0 | OPT_PAIR1 | OPT_BUS0 | OPT_PUSH0 | OPT_PULL0
          | OPT_SURVEY0 | OPT_RESPOND0) as p) => OpenSock p
  | _ => NoProtocol
  end.

Definition option_calls (c : cat) : list sock_call :=
  (if 0 <? c_num c sendtimeo then [SetSendTimeo (c_num c sendtimeo)] else []) ++
  (if 0 <? c_num c recvtimeo then [SetRecvTimeo (c_num c recvtimeo)] else []) ++
  (if 0 <=? c_num c recvmaxsz then [SetRecvMaxSz (c_num c recvmaxsz)] else []).

(** configtls, when the transport has a TLS configuration *)
Definition tls_calls (c : cat) (url : bytes) : list sock_call :=
  if env (GetTls url) =? 0 then
    map (Tls url)
      ((if c_flag c insecure then [ToolTls.AuthMode ToolTls.NNG_TLS_AUTH_MODE_NONE] else []) ++
       match c_text c certfile with
       | Some crt => [ToolTls.OwnCert crt (default crt (c_text c keyfile)) None]
       | None => []
       end ++
       ToolTls.ca_chain (c_text c cacert))
  else [].

Definition zthome_calls (c : cat) (url : bytes) : list sock_call :=
  match c_text c zthome with Some h => [SetZtHome url h] | None => [] end.

(** One round of the loop over the addresses. *)
Definition addr_calls (c : cat) (a : options * bytes) : list sock_call :=
  let '(mode, url) := a in
  match mode with
  | OPT_DIAL | OPT_DIAL_IPC | OPT_DIAL_LOCAL =>
      [DialerCreate url; GetTls url] ++ tls_calls c url ++ zthome_calls c url ++ [DialerStart url (c_flag c async)]
  | OPT_LISTEN | OPT_LISTEN_IPC | OPT_LISTEN_LOCAL =>
      [ListenerCreate url; GetTls url] ++ tls_calls c url ++ zthome_calls c url ++ [ListenerStart url (c_flag c async)]
  | _ => [BadMode url]
  end.

Definition setup_calls (c : cat) : list sock_call :=
  [open_call c] ++ map Subscribe (c_topics c) ++ option_calls c ++ concat (map (addr_calls c) (c_addrs c)).

(** The calls made, and whether the socket is ready. *)
Definition setup (c : cat) : list sock_call * bool := exec (setup_calls c).

(** ** Properties *)

Lemma exec_app l k : exec (l ++ k) = (if snd (exec l) then let '(b, ok) := exec k in (fst (exec l) ++ b, ok) else exec l).
Proof.
  induction l as [|c l IH]; cbn [app exec]; [by destruct (exec k)|]. destruct (accepts c); [|done]. rewrite IH.
  destruct (exec l) as [a []]; cbn [fst snd]; [|done]. by destruct (exec k).
Qed.

(** All calls were made and accepted, or the last one made was not. *)
Lemma exec_spec l :
  match exec l with
  | (k, true) => k = l /\ Forall (fun c => accepts c = true) l
  | (k, false) => exists pre c rest, k = pre ++ [c] /\ l = pre ++ c :: rest /\ Forall (fun c => accepts c = true) pre /\ accepts c = false
  end.
Proof.
  induction l as [|c l IH]; cbn [exec]; [by split|]. destruct (accepts c) eqn:E.
  - destruct (exec l) as [k []].
    + destruct IH as [-> H]. split; [done|by constructor].
    + destruct IH as (pre & d & rest & -> & -> & H & Hd). exists (c :: pre), d, rest. split_and!; [done..| |done]. by constructor.
  - exists [], c, l. split_and!; [done..| |done]. constructor.
Qed.

Definition starts (l : list sock_call) : list (bool * bytes) :=
  omap (fun c => match c with DialerStart u _ => Some (true, u) | ListenerStart u _ => Some (false, u) | _ => None end) l.

Definition addr_start (a : options * bytes) : option (bool * bytes) :=
  match fst a with
  | OPT_DIAL | OPT_DIAL_IPC | OPT_DIAL_LOCAL => Some (true, snd a)
  | OPT_LISTEN | OPT_LISTEN_IPC | OPT_LISTEN_LOCAL => Some (false, snd a)
  | _ => None
  end.

Lemma starts_app l k : starts (l ++ k) = starts l ++ starts k.
Proof. apply omap_app. Qed.

Lemma starts_tls c url : starts (tls_calls c url) = [].
Proof. unfold tls_calls. destruct (_ =? 0); [|done]. by destruct (c_flag c insecure), (c_text c certfile), (c_text c cacert). Qed.

Lemma starts_addrs c l : starts (concat (map (addr_calls c) l)) = omap addr_start l.
Proof.
  induction l as [|[mode url] l IH]; [done|]. cbn [map concat]. rewrite starts_app, IH. cbn [omap list_omap]. unfold addr_start.
  cbn [fst snd].
  assert (starts (zthome_calls c url) = []) as Hz by (unfold zthome_calls; by destruct (c_text c zthome)).
  destruct mode; cbn [addr_calls]; try done; rewrite !starts_app, starts_tls, Hz; done.
Qed.

Lemma starts_head c : starts ([open_call c] ++ map Subscribe (c_topics c) ++ option_calls c) = [].
Proof.
  rewrite !starts_app. assert (starts [open_call c] = []) as ->.
  { unfold open_call. destruct (c_choice c proto) as [[]|]; done. }
  assert (starts (map Subscribe (c_topics c)) = []) as -> by (induction (c_topics c); done).
  unfold option_calls. by destruct (0 <? _), (0 <? _), (0 <=? _).
Qed.

(** A socket that is ready has every topic subscribed before any address is
    started, and every address started once, in the order of the options. *)
Theorem socket_ready c k :
  setup c = (k, true) ->
  exists pre post, k = pre ++ post /\ starts pre = [] /\ starts post = omap addr_start (c_addrs c) /\
    (forall t, t ∈ c_topics c -> Subscribe t ∈ pre) /\ length (starts k) = length (c_addrs c).
Proof.
  unfold setup. pose proof (exec_spec (setup_calls c)) as H. intros E. rewrite E in H. destruct H as [-> H].
  exists ([open_call c] ++ map Subscribe (c_topics c) ++ option_calls c), (concat (map (addr_calls c) (c_addrs c))).
  split_and!; [unfold setup_calls; by rewrite <- !app_assoc|apply starts_head|apply starts_addrs| |].
  - intros t Ht. apply elem_of_app. right. apply elem_of_app. left. apply list_elem_of_fmap. by exists t.
  - unfold setup_calls. rewrite (app_assoc (map _ _)), (app_assoc [_]), starts_app, starts_head, starts_addrs. cbn [app].
    assert (forall a, a ∈ c_addrs c -> is_Some (addr_start a)) as Ha.
    { intros [mode url] Hin. unfold addr_start. cbn [fst snd].
      assert (addr_calls c (mode, url) <> [BadMode url]) as Hb; [|by destruct mode].
      intros Eb. rewrite Forall_forall in H. specialize (H (BadMode url)). cbn [accepts] in H. discriminate H.
      unfold setup_calls. rewrite !elem_of_app. do 3 right. apply list_elem_of_In, in_concat.
      exists (addr_calls c (mode, url)). split; [|rewrite Eb; by left]. by apply in_map, list_elem_of_In. }
    revert Ha. generalize (c_addrs c) as l. clear. intros l Ha. induction l as [|a l IH]; [done|]. cbn [omap list_omap].
    destruct (Ha a) as [x Hx]; [by left|]. rewrite Hx. cbn [length]. f_equal. apply IH. intros b Hb. apply Ha. by right.
Qed.

(** A failure stops the setup at the call that failed. *)
Theorem setup_stops c k :
  setup c = (k, false) -> exists pre x rest, k = pre ++ [x] /\ accepts x = false /\ setup_calls c = pre ++ x :: rest.
Proof.
  unfold setup. pose proof (exec_spec (setup_calls c)) as H. intros E. rewrite E in H.
  destruct H as (pre & x & rest & -> & -> & _ & Hx). by exists pre, x, rest.
Qed.

End Setup.

End NngCatSock.
