(* ===== verification/WebServer.v ===== *)
(** * The HTTP server (nanomq/web_server.c, nanomq_cli/web_server.c)

    [rest_handle] turns an HTTP request into a job, which sends it over a
    context of a REQ socket to the workers; a worker answers with what
    [process_request] returns, and the job gives the reply to the HTTP server.
    Jobs that are done wait in a list to be used again.

    The jobs, the list and the open contexts are one state, the callbacks are
    functions on it, and a step relation runs requests, jobs and workers in any
    order.  The REQ and REP sockets are NNG's: a context receives replies to the
    request it sent, and a request may be sent again to another worker.  A NULL
    pointer that is used is [None]. *)

From S2P Require Import Prelude RuleSql.

Module WebServer.

Lemma omap_insert_perm {A B} (f : A -> option B) l j y x : l !! j = Some y ->
  option_list (f y) ++ omap f (<[j := x]> l) ≡ₚ option_list (f x) ++ omap f l.
Proof.
  intros E. rewrite <- (take_drop_middle l j y E) at 2. rewrite insert_take_drop by by eapply lookup_lt_Some.
  rewrite !omap_app. cbn [omap list_omap]. destruct (f x), (f y); cbn; solve_Permutation.
Qed.

Lemma insert_cases {A} (l : list A) j x i y :
  <[j := x]> l !! i = Some y -> (i = j /\ y = x) \/ (i <> j /\ l !! i = Some y).
Proof.
  intros H. destruct (decide (i = j)) as [->|Hij].
  - pose proof (lookup_lt_Some _ _ _ H) as Hlt. rewrite length_insert in Hlt.
    rewrite list_lookup_insert_eq in H by done. left. split; congruence.
  - rewrite list_lookup_insert_ne in H by done. by right.
Qed.

Lemma elem_of_fst {A B} (l : list (A * B)) a b : (a, b) ∈ l -> a ∈ map fst l.
Proof. intros H. apply list_elem_of_fmap. by exists (a, b). Qed.

(** ** Messages *)

(** http_msg; a string that is NULL is [None]. *)
Record http_msg := HttpMsg {
  ms_status : Z;
  ms_content_type : option bytes;
  ms_method : option bytes;
  ms_uri : option bytes;
  ms_token : option bytes;
  ms_data : option bytes
}.

Definition no_msg : http_msg := HttpMsg 0 None None None None None.

(** [if (x != NULL) msg->x = nng_strdup(x)] *)
Definition put_str (x old : option bytes) : option bytes := match x with Some s => Some s | None => old end.

Definition put_http_msg (msg : http_msg) (content_type method uri token data : option bytes) : http_msg :=
  HttpMsg (ms_status msg) (put_str content_type (ms_content_type msg)) (put_str method (ms_method msg))
    (put_str uri (ms_uri msg)) (put_str token (ms_token msg)) (put_str data (ms_data msg)).

(** The strings that destory_http_msg frees: those with a length above 0. *)
Definition destory_http_msg (msg : http_msg) : list bytes :=
  filter (fun s => 0 < blen s)
    (omap id [ms_content_type msg; ms_method msg; ms_token msg; ms_data msg; ms_uri msg]).

(** ** Jobs *)

Inductive job_state := SEND_REQ | RECV_REP.

(** What job->aio does: nothing, or a send or receive on a context. *)
Inductive job_op := Idle | Sending (ctx : Z) (m : http_msg) | Receiving (ctx : Z).

(** rest_job; [job_http_res] is whether the pointer is not NULL, [job_ctx] the
    id of the context, 0 before the first. *)
Record rest_job := RestJob {
  job_http_aio : option nat;
  job_http_res : bool;
  job_st : job_state;
  job_msg : option http_msg;
  job_ctx : Z;
  job_aio : job_op
}.

(** What the HTTP server gets for a request: an error, or a response with its
    status, header fields and data; the error texts of rest_http_fatal are told
    apart by their number. *)
Inductive answer :=
  | Failed (rv : Z)
  | Internal (fmt : nat) (rv : Z)
  | Response (status : Z) (content_type cookies : option bytes) (data : option bytes).

(** The jobs by their number, the list of free ones, the contexts that are open
    and the answers given so far. *)
Record web := Web {
  web_jobs : list rest_job;
  job_freelist : list nat;
  web_ctxs : gset Z;
  web_answers : list (nat * answer)
}.

Definition set_job (j : nat) (job : rest_job) (w : web) : web :=
  Web (<[j := job]> (web_jobs w)) (job_freelist w) (web_ctxs w) (web_answers w).

(** nng_aio_finish on the aio of a request *)
Definition finish (aio : nat) (a : answer) (w : web) : web :=
  Web (web_jobs w) (job_freelist w) (web_ctxs w) (web_answers w ++ [(aio, a)]).

(** The job is put on the list as it is; its context is closed, its id stays. *)
Definition rest_recycle_job (j : nat) (job : rest_job) (w : web) : web :=
  Web (<[j := RestJob (job_http_aio job) false (job_st job) None (job_ctx job) Idle]> (web_jobs w))
    (j :: job_freelist w)
    (if negb (job_ctx job =? 0) then web_ctxs w ∖ {[job_ctx job]} else web_ctxs w)
    (web_answers w).

(** [alloc] is whether calloc and nng_aio_alloc succeed. *)
Definition rest_get_job (alloc : bool) (w : web) : option nat * web :=
  match job_freelist w with
  | j :: l => (Some j, Web (web_jobs w) l (web_ctxs w) (web_answers w))
  | [] =>
      if alloc then
        (Some (length (web_jobs w)),
         Web (web_jobs w ++ [RestJob None false SEND_REQ None 0 Idle]) [] (web_ctxs w) (web_answers w))
      else (None, w)
  end.

Definition rest_http_fatal (j : nat) (job : rest_job) (fmt : nat) (rv : Z) (w : web) : option web :=
  match job_http_aio job, job_http_res job with
  | Some aio, true =>
      let job := RestJob None false (job_st job) (job_msg job) (job_ctx job) (job_aio job) in
      Some (rest_recycle_job j job (finish aio (Internal fmt rv) w))
  | _, _ => None
  end.

(** A header field is set when the string has a length. *)
Definition nonempty (s : option bytes) : option bytes :=
  match s with Some s => if 0 <? blen s then Some s else None | None => None end.

Definition response_of (res : http_msg) : answer :=
  Response (ms_status res) (nonempty (ms_content_type res)) (nonempty (ms_token res)) (ms_data res).

(** [result] is nng_aio_result, [reply] the message of the aio and [copy] what
    nng_http_res_copy_data returns. *)
Definition rest_job_cb (j : nat) (result : Z) (reply : option http_msg) (copy : Z) (w : web) : option web :=
  job ← web_jobs w !! j;
  let job := RestJob (job_http_aio job) (job_http_res job) (job_st job) (job_msg job) (job_ctx job) Idle in
  match job_st job with
  | SEND_REQ =>
      if negb (result =? 0) then rest_http_fatal j job 0 result w
      else
        Some (set_job j (RestJob (job_http_aio job) (job_http_res job) RECV_REP None (job_ctx job)
          (Receiving (job_ctx job))) w)
  | RECV_REP =>
      if negb (result =? 0) then rest_http_fatal j job 1 result w
      else
        res_msg ← reply;
        let job := RestJob (job_http_aio job) (job_http_res job) RECV_REP (Some res_msg) (job_ctx job) Idle in
        if negb (copy =? 0) then rest_http_fatal j job 2 copy w
        else
          aio ← job_http_aio job;
          if job_http_res job then
            Some (rest_recycle_job j (RestJob None false RECV_REP (Some res_msg) (job_ctx job) Idle)
              (finish aio (response_of res_msg) w))
          else None
  end.

(** An HTTP request: its URI and method, header fields and data. *)
Record http_req := HttpReq {
  rq_uri : option bytes;
  rq_method : option bytes;
  rq_content_type : option bytes;
  rq_authorization : option bytes;
  rq_data : option bytes
}.

(** What the allocations of rest_handle return: for the job, for the response,
    for the context its id or an error, for the message. *)
Record handle_env := HandleEnv { he_job : bool; he_res : Z; he_ctx : Z + Z; he_msg : Z }.

(** The message that goes to the workers. *)
Definition req_msg (req : http_req) : http_msg :=
  put_http_msg no_msg (rq_content_type req) (rq_method req) (rq_uri req) (rq_authorization req) (rq_data req).

Section Server.

Context (NNG_ENOMEM : Z).

Definition rest_handle (aio : nat) (req : http_req) (e : handle_env) (w : web) : option web :=
  match rest_get_job (he_job e) w with
  | (None, w) => Some (finish aio (Failed NNG_ENOMEM) w)
  | (Some j, w) =>
      job ← web_jobs w !! j;
      if negb (he_res e =? 0) then Some (finish aio (Failed (he_res e)) (rest_recycle_job j job w))
      else
        let job := RestJob (job_http_aio job) true (job_st job) (job_msg job) (job_ctx job) (job_aio job) in
        match he_ctx e with
        | inr rv => Some (finish aio (Failed rv) (rest_recycle_job j job w))
        | inl ctx =>
            let w := Web (web_jobs w) (job_freelist w) ({[ctx]} ∪ web_ctxs w) (web_answers w) in
            let job := RestJob (Some aio) true (job_st job) (job_msg job) ctx (job_aio job) in
            if negb (he_msg e =? 0) then rest_http_fatal j job 3 (he_msg e) w
            else
              Some (set_job j (RestJob (Some aio) true SEND_REQ (Some (req_msg req)) ctx
                (Sending ctx (req_msg req))) w)
        end
  end.

(** ** Workers *)

Inductive srv_state := SRV_INIT | SRV_RECV | SRV_WAIT | SRV_SEND.

(** What a worker does next with its context; [Fatal] ends the program. *)
Inductive srv_call := CtxRecv | CtxSend (res : http_msg) | Fatal.

(** [res] is what process_request returns for the message received.  The message
    of the answer is allocated: the source does not check nng_msg_alloc, and there
    is no step for its failure. *)
Definition inproc_cb (st : srv_state) (result : Z) (res : http_msg) : srv_state * list srv_call :=
  match st with
  | SRV_INIT => (SRV_RECV, [CtxRecv])
  | SRV_RECV => if negb (result =? 0) then (SRV_RECV, [Fatal]) else (SRV_SEND, [CtxSend res])
  | SRV_SEND => if negb (result =? 0) then (SRV_SEND, [Fatal]) else (SRV_RECV, [CtxRecv])
  | SRV_WAIT => (SRV_WAIT, [Fatal])
  end.

(** ** The whole server *)

(** [served m res]: process_request may return [res] for [m]. *)
Context (served : http_msg -> http_msg -> Prop).

(** What the context of a worker does. *)
Inductive work_op := WReceiving | WSending (ctx : Z) (res : http_msg).

(** Besides the jobs and the workers: the requests that contexts have sent, the
    replies that workers have sent to them, all HTTP requests, and the ids that
    contexts were opened with. *)
Record system := System {
  sy_web : web;
  sy_works : list (srv_state * work_op);
  sy_sent : list (Z * http_msg);
  sy_replied : list (Z * http_msg);
  sy_reqs : list (nat * http_msg);
  sy_opened : list Z
}.

(** nng_ctx_open gives a positive id that was not used before. *)
Definition fresh_ctx (opened : list Z) (e : handle_env) : Prop :=
  match he_ctx e with inl c => 0 < c /\ c ∉ opened | inr _ => True end.

Definition opened_by (e : handle_env) : list Z := match he_ctx e with inl c => [c] | inr _ => [] end.

Inductive step : system -> system -> Prop :=
  | step_request aio req e w w' ws sent replied reqs opened :
      aio ∉ map fst reqs -> fresh_ctx opened e -> rest_handle aio req e w = Some w' ->
      step (System w ws sent replied reqs opened)
        (System w' ws sent replied (reqs ++ [(aio, req_msg req)]) (opened_by e ++ opened))
  | step_sent j job ctx m result w w' ws sent replied reqs opened :
      web_jobs w !! j = Some job -> job_aio job = Sending ctx m -> rest_job_cb j result None 0 w = Some w' ->
      step (System w ws sent replied reqs opened)
        (System w' ws (if result =? 0 then (ctx, m) :: sent else sent) replied reqs opened)
  | step_lost j job ctx result w w' ws sent replied reqs opened :
      web_jobs w !! j = Some job -> job_aio job = Receiving ctx -> result <> 0 ->
      rest_job_cb j result None 0 w = Some w' ->
      step (System w ws sent replied reqs opened) (System w' ws sent replied reqs opened)
  | step_reply j job ctx res copy w w' ws sent replied reqs opened :
      web_jobs w !! j = Some job -> job_aio job = Receiving ctx -> (ctx, res) ∈ replied ->
      rest_job_cb j 0 (Some res) copy w = Some w' ->
      step (System w ws sent replied reqs opened) (System w' ws sent replied reqs opened)
  | step_work i st st' ctx m res r w ws sent replied reqs opened :
      ws !! i = Some (st, WReceiving) -> (ctx, m) ∈ sent -> served m res ->
      inproc_cb st 0 res = (st', [CtxSend r]) ->
      step (System w ws sent replied reqs opened)
        (System w (<[i := (st', WSending ctx r)]> ws) sent replied reqs opened)
  | step_replied i st st' ctx r w ws sent replied reqs opened :
      ws !! i = Some (st, WSending ctx r) -> inproc_cb st 0 no_msg = (st', [CtxRecv]) ->
      step (System w ws sent replied reqs opened)
        (System w (<[i := (st', WReceiving)]> ws) sent ((ctx, r) :: replied) reqs opened).

(** After inproc_server has called inproc_cb for each of [n] workers. *)
Definition start (n : nat) : system :=
  System (Web [] [] ∅ []) (replicate n (fst (inproc_cb SRV_INIT 0 no_msg), WReceiving)) [] [] [] [].

(** ** The invariant *)

Section Invariant.

Context (reqs : list (nat * http_msg)) (sent : list (Z * http_msg)) (opened : list Z).

(** A busy job holds the aio and the response of its request and an open
    context. *)
Definition busy_ok (w : web) (ctx : Z) (job : rest_job) (m : http_msg) : Prop :=
  job_http_res job = true /\ job_ctx job = ctx /\ ctx ∈ web_ctxs w /\
  exists a, job_http_aio job = Some a /\ (a, m) ∈ reqs.

Definition job_ok (w : web) (job : rest_job) : Prop :=
  match job_aio job with
  | Idle =>
      job_http_aio job = None /\ job_http_res job = false /\ job_msg job = None /\
      (job_ctx job ∉ web_ctxs w) /\ (job_ctx job = 0 \/ job_ctx job ∈ opened)
  | Sending c m => job_st job = SEND_REQ /\ job_msg job = Some m /\ busy_ok w c job m /\ c ∉ map fst sent
  | Receiving c => job_st job = RECV_REP /\ job_msg job = None /\ exists m, busy_ok w c job m /\ (c, m) ∈ sent
  end.

Definition answer_ok (x : nat * answer) : Prop :=
  match snd x with
  | Response _ _ _ _ => exists m res, (fst x, m) ∈ reqs /\ served m res /\ snd x = response_of res
  | _ => True
  end.

Record web_ok (w : web) : Prop := WebOk {
  wo_pos : Forall (fun c => 0 < c) opened;
  wo_sent c m : (c, m) ∈ sent -> c ∈ opened /\ forall m', (c, m') ∈ sent -> m' = m;
  wo_jobs j job : web_jobs w !! j = Some job -> job_ok w job;
  wo_free_nodup : NoDup (job_freelist w);
  wo_free j : j ∈ job_freelist w <-> exists job, web_jobs w !! j = Some job /\ job_aio job = Idle;
  wo_ctx c : c ∈ web_ctxs w -> c ∈ opened /\ exists j job, web_jobs w !! j = Some job /\ job_aio job <> Idle /\ job_ctx job = c;
  wo_distinct i j x y : web_jobs w !! i = Some x -> web_jobs w !! j = Some y ->
    job_aio x <> Idle -> job_aio y <> Idle -> job_ctx x = job_ctx y -> i = j;
  wo_answers : Forall answer_ok (web_answers w);
  wo_reqs : map fst reqs ≡ₚ map fst (web_answers w) ++ omap job_http_aio (web_jobs w)
}.

(** ** Transitions of a job *)

Lemma busy_ctx w job : job_ok w job -> job_aio job <> Idle -> job_ctx job ∈ web_ctxs w.
Proof.
  unfold job_ok, busy_ok. destruct (job_aio job); [done|..].
  - by intros (_ & _ & (_ & <- & ? & _) & _) _.
  - by intros (_ & _ & m & (_ & <- & ? & _) & _) _.
Qed.

Lemma job_ok_ctxs w w' job : job_ok w job ->
  (job_ctx job ∈ web_ctxs w <-> job_ctx job ∈ web_ctxs w') -> job_ok w' job.
Proof.
  unfold job_ok, busy_ok. intros H E. destruct (job_aio job); [naive_solver|..].
  - destruct H as (? & ? & (? & <- & ? & ?) & ?). naive_solver.
  - destruct H as (? & ? & m' & (? & <- & ? & ?) & ?). naive_solver.
Qed.

(** A busy job that answers its request becomes free. *)
Lemma finish_ok w j job a ans st m :
  web_ok w -> web_jobs w !! j = Some job -> job_aio job <> Idle -> job_http_aio job = Some a -> answer_ok (a, ans) ->
  web_ok (rest_recycle_job j (RestJob None false st m (job_ctx job) Idle) (finish a ans w)).
Proof.
  intros [Hpos Hsent Hj Hnd Hf Hc Hd Ha Hr] Ej Hb Ea Hans.
  pose proof (busy_ctx w job (Hj _ _ Ej) Hb) as Hin. destruct (Hc _ Hin) as [Ho _].
  pose proof (proj1 (Forall_forall _ _) Hpos _ Ho) as Hp. cbn in Hp.
  pose proof (lookup_lt_Some _ _ _ Ej) as Hlt.
  set (x := RestJob None false st None (job_ctx job) Idle).
  assert (forall i y, i <> j -> web_jobs w !! i = Some y -> job_aio y <> Idle -> job_ctx y <> job_ctx job) as Hne.
  { intros i y Hij Ey Hy E. apply Hij. by eapply Hd. }
  unfold rest_recycle_job, finish. cbn [job_http_aio job_st job_ctx web_jobs job_freelist web_ctxs web_answers].
  rewrite (proj2 (Z.eqb_neq (job_ctx job) 0)) by lia. cbn [negb]. fold x.
  pose proof (insert_cases (web_jobs w) j x) as Hl.
  split; cbn [web_jobs job_freelist web_ctxs web_answers]; try done.
  - intros i y Ei. destruct (Hl i y Ei) as [[-> ->]|[Hij Ey]].
    + unfold job_ok, x. cbn. split_and!; [done..|set_solver|by right].
    + eapply job_ok_ctxs; [by apply Hj in Ey|]. cbn. rewrite elem_of_difference, elem_of_singleton.
      split; [|naive_solver]. intros Hy. split; [done|]. intros E.
      assert (job_aio y = Idle) as Hi by (destruct (job_aio y) eqn:Ey'; [done|exfalso..]; eapply (Hne i y); try done; by rewrite Ey').
      pose proof (Hj _ _ Ey) as Hy'. unfold job_ok in Hy'. rewrite Hi in Hy'. naive_solver.
  - constructor; [|done]. intros (y & Ey & Hi)%Hf. congruence.
  - intros i. rewrite elem_of_cons. split.
    + intros [->|(y & Ey & Hy)%Hf]; [exists x; by rewrite list_lookup_insert_eq|].
      exists y. rewrite list_lookup_insert_ne; [done|]. intros ->. congruence.
    + intros (y & Ey & Hy). destruct (Hl i y Ey) as [[-> ->]|[Hij Ey']]; [by left|]. right. apply Hf. eauto.
  - intros c. rewrite elem_of_difference, elem_of_singleton. intros [Hc' Hcn]. destruct (Hc c Hc') as (? & i & y & Ey & Hy & Ec).
    split; [done|]. exists i, y. rewrite list_lookup_insert_ne by (intros <-; congruence). done.
  - intros i k y z Ey Ez Hy Hz. destruct (Hl i y Ey) as [[-> ->]|[? Ey']]; [done|].
    destruct (Hl k z Ez) as [[-> ->]|[? Ez']]; [done|]. by eapply Hd.
  - apply Forall_app_2; [done|by constructor].
  - rewrite Hr, map_app. cbn [map fst]. rewrite <- app_assoc. apply Permutation_app_head.
    pose proof (omap_insert_perm job_http_aio (web_jobs w) j job x Ej) as Hp'. rewrite Ea in Hp'. cbn in Hp'. symmetry. exact Hp'.
Qed.

End Invariant.

Lemma busy_ok_mono reqs reqs' w ctx job m :
  (forall x, x ∈ reqs -> x ∈ reqs') -> busy_ok reqs w ctx job m -> busy_ok reqs' w ctx job m.
Proof. unfold busy_ok. naive_solver. Qed.

(** More requests and more contexts. *)
Lemma job_ok_mono reqs reqs' sent opened opened' w job :
  (forall x, x ∈ reqs -> x ∈ reqs') -> (forall c, c ∈ opened -> c ∈ opened') ->
  job_ok reqs sent opened w job -> job_ok reqs' sent opened' w job.
Proof.
  unfold job_ok. intros Hr Ho. destruct (job_aio job); [naive_solver|..].
  - intros (? & ? & ? & ?). eauto using busy_ok_mono.
  - intros (? & ? & m & ? & ?). eauto 6 using busy_ok_mono.
Qed.

Lemma answer_ok_mono reqs reqs' x :
  (forall x, x ∈ reqs -> x ∈ reqs') -> answer_ok reqs x -> answer_ok reqs' x.
Proof. unfold answer_ok. intros Hr. destruct (snd x); naive_solver. Qed.

Lemma opened_ok reqs sent opened new w :
  Forall (fun c => 0 < c) new -> web_ok reqs sent opened w -> web_ok reqs sent (new ++ opened) w.
Proof.
  intros Hn [Hpos Hsent Hj Hnd Hf Hc Hd Ha Hr]. split; try done.
  - by apply Forall_app_2.
  - intros c m H. destruct (Hsent c m H). split; [rewrite elem_of_app; by right|done].
  - intros i y Ey. eapply job_ok_mono; [done|intros c ?; rewrite elem_of_app; by right|]. by eapply Hj.
  - intros c H. destruct (Hc c H) as [? ?]. split; [rewrite elem_of_app; by right|done].
Qed.

(** A request that is refused at once. *)
Lemma refuse_ok reqs sent opened w a m rv :
  web_ok reqs sent opened w -> web_ok (reqs ++ [(a, m)]) sent opened (finish a (Failed rv) w).
Proof.
  intros [Hpos Hsent Hj Hnd Hf Hc Hd Ha Hr].
  assert (forall x, x ∈ reqs -> x ∈ reqs ++ [(a, m)]) as Hin by (intros x ?; rewrite elem_of_app; by left).
  split; cbn; try done.
  - intros i y Ey. eapply job_ok_mono; [exact Hin|done|]. by eapply Hj.
  - apply Forall_app_2; [|by constructor]. eapply Forall_impl; [exact Ha|]. intros x. by apply answer_ok_mono.
  - rewrite !map_app, Hr. cbn. solve_Permutation.
Qed.

(** A free job takes a request. *)
Lemma begin_ok reqs sent opened w j l job a m c :
  web_ok reqs sent opened w -> job_freelist w = j :: l -> web_jobs w !! j = Some job -> 0 < c -> (c ∉ opened) ->
  web_ok (reqs ++ [(a, m)]) sent (c :: opened)
    (Web (<[j := RestJob (Some a) true SEND_REQ (Some m) c (Sending c m)]> (web_jobs w)) l ({[c]} ∪ web_ctxs w) (web_answers w)).
Proof.
  intros [Hpos Hsent Hj Hnd Hf Hc Hd Ha Hr] El Ej Hp Hn.
  assert (forall x, x ∈ reqs -> x ∈ reqs ++ [(a, m)]) as Hin by (intros x ?; rewrite elem_of_app; by left).
  assert (job_aio job = Idle) as Hidle.
  { destruct (proj1 (Hf j)) as (y & Ey & Hy); [rewrite El; by left|congruence]. }
  pose proof (lookup_lt_Some _ _ _ Ej) as Hlt. set (x := RestJob (Some a) true SEND_REQ (Some m) c (Sending c m)).
  pose proof (insert_cases (web_jobs w) j x) as Hl.
  assert (forall i y, web_jobs w !! i = Some y -> job_aio y <> Idle -> job_ctx y <> c) as Hne.
  { intros i y Ey Hy <-. apply Hn. eapply Hc, busy_ctx; [by eapply Hj|done]. }
  rewrite El in Hnd, Hf. apply NoDup_cons in Hnd as [Hjl Hnd].
  split; cbn [web_jobs job_freelist web_ctxs web_answers].
  - by constructor.
  - intros c' m' H. destruct (Hsent c' m' H). split; [by right|done].
  - intros i y Ei. destruct (Hl i y Ei) as [[-> ->]|[Hij Ey]].
    + unfold job_ok, x, busy_ok. cbn. split_and!; try done; [set_solver|..].
      * exists a. split; [done|]. rewrite elem_of_app. right. by left.
      * intros ((c' & m') & E & Hs)%list_elem_of_fmap. cbn in E. subst c'. destruct (Hsent c m' Hs). done.
    + pose proof (Hj i y Ey) as Hy. eapply job_ok_ctxs; [eapply job_ok_mono; [exact Hin|intros z ?; by right|exact Hy]|]. cbn.
      rewrite elem_of_union, elem_of_singleton. split; [by right|]. intros [E|?]; [|done]. exfalso.
      unfold job_ok in Hy. destruct (job_aio y) eqn:Ea; [destruct Hy as (_ & _ & _ & _ & [?|?]); [lia|congruence]|..];
        by eapply (Hne i y); [|rewrite Ea|].
  - done.
  - intros i. split.
    + intros Hi. destruct (proj1 (Hf i)) as (y & Ey & Hy); [by right|]. exists y. rewrite list_lookup_insert_ne; [done|].
      by intros ->.
    + intros (y & Ey & Hy). destruct (Hl i y Ey) as [[-> ->]|[Hij Ey']]; [done|].
      assert (i ∈ j :: l) as [->|?]%elem_of_cons by (apply Hf; eauto); done.
  - intros c'. rewrite elem_of_union, elem_of_singleton. intros [->|H].
    + split; [by left|]. exists j, x. by rewrite list_lookup_insert_eq.
    + destruct (Hc c' H) as (? & i & y & Ey & Hy & Ec). split; [by right|]. exists i, y.
      rewrite list_lookup_insert_ne; [done|]. intros <-. congruence.
  - intros i k y z Ey Ez Hy Hz. destruct (Hl i y Ey) as [[-> ->]|[? Ey']], (Hl k z Ez) as [[-> ->]|[? Ez']]; try done.
    + intros E. symmetry in E. by destruct (Hne k z Ez' Hz).
    + intros E. by destruct (Hne i y Ey' Hy).
    + by eapply Hd.
  - eapply Forall_impl; [exact Ha|]. intros y. by apply answer_ok_mono.
  - rewrite map_app, Hr. cbn [map fst]. pose proof (omap_insert_perm job_http_aio (web_jobs w) j job x Ej) as Hp'.
    assert (job_http_aio job = None) as Hna by (pose proof (Hj _ _ Ej) as H; unfold job_ok in H; rewrite Hidle in H; naive_solver).
    rewrite Hna in Hp'. cbn in Hp'. rewrite Hp'. solve_Permutation.
Qed.

(** The request of a job has been sent. *)
Lemma sent_ok reqs sent opened w j job c m :
  web_ok reqs sent opened w -> web_jobs w !! j = Some job -> job_aio job = Sending c m ->
  web_ok reqs ((c, m) :: sent) opened
    (set_job j (RestJob (job_http_aio job) (job_http_res job) RECV_REP None (job_ctx job) (Receiving (job_ctx job))) w).
Proof.
  intros [Hpos Hsent Hj Hnd Hf Hc Hd Ha Hr] Ej Eo.
  pose proof (Hj _ _ Ej) as Hok. unfold job_ok in Hok. rewrite Eo in Hok. destruct Hok as (Hst & Hm & (Hres & Hctx & Hin & Hreq) & Hns).
  subst c. pose proof (lookup_lt_Some _ _ _ Ej) as Hlt.
  set (x := RestJob (job_http_aio job) (job_http_res job) RECV_REP None (job_ctx job) (Receiving (job_ctx job))).
  pose proof (insert_cases (web_jobs w) j x) as Hl.
  split; cbn [set_job web_jobs job_freelist web_ctxs web_answers]; try done.
  - intros c' m' [[= -> ->]|H]%elem_of_cons.
    + split; [by apply Hc|]. intros m'' [[= ->]|H]%elem_of_cons; [done|]. destruct Hns. by eapply elem_of_fst.
    + destruct (Hsent c' m' H) as [? Hu]. split; [done|]. intros m'' [[= -> ->]|H']%elem_of_cons; [|by apply Hu].
      destruct Hns. by eapply elem_of_fst.
  - intros i y Ei. destruct (Hl i y Ei) as [[-> ->]|[Hij Ey]].
    + unfold job_ok, x. cbn. split_and!; try done. exists m. split; [done|by left].
    + pose proof (Hj i y Ey) as Hy. unfold job_ok in *. destruct (job_aio y) as [|c' m'|c'] eqn:Eo'; [done|..].
      * destruct Hy as (? & ? & Hb & Hn). split_and!; try done. cbn. intros [E|?]%elem_of_cons; [|done].
        apply Hij. destruct Hb as (_ & Hc' & _). eapply Hd; [exact Ey|exact Ej|by rewrite Eo'|by rewrite Eo|congruence].
      * destruct Hy as (? & ? & m' & ? & ?). split_and!; try done. exists m'. split; [done|by right].
  - intros i. rewrite Hf. split; intros (y & Ey & Hy).
    + exists y. rewrite list_lookup_insert_ne; [done|]. intros <-. congruence.
    + destruct (Hl i y Ey) as [[-> ->]|[Hij Ey']]; [done|eauto].
  - intros c H. destruct (Hc c H) as (? & i & y & Ey & Hy & Ec). split; [done|].
    destruct (decide (i = j)) as [->|Hij]; [exists j, x|exists i, y].
    + rewrite list_lookup_insert_eq by done. split_and!; [done..|]. cbn. congruence.
    + by rewrite list_lookup_insert_ne.
  - intros i k y z Ey Ez Hy Hz. destruct (Hl i y Ey) as [[-> ->]|[? Ey']], (Hl k z Ez) as [[-> ->]|[? Ez']]; try done.
    + intros E. eapply (Hd j k job z); try done. by rewrite Eo.
    + intros E. eapply (Hd i j y job); try done. by rewrite Eo.
    + by eapply Hd.
  - rewrite Hr. apply Permutation_app_head. pose proof (omap_insert_perm job_http_aio (web_jobs w) j job x Ej) as Hp'.
    cbn [x job_http_aio] in Hp'. by apply Permutation_app_inv_l in Hp'.
Qed.

(** ** The operations *)

(** A job that is taken from the list and given back at once. *)
Lemma recycle_free reqs sent opened w j l job b :
  web_ok reqs sent opened w -> job_freelist w = j :: l -> web_jobs w !! j = Some job ->
  rest_recycle_job j (RestJob (job_http_aio job) b (job_st job) (job_msg job) (job_ctx job) (job_aio job))
    (Web (web_jobs w) l (web_ctxs w) (web_answers w)) = w.
Proof.
  intros H El Ej. destruct (proj1 (wo_free _ _ _ _ H j)) as (y & Ey & Hy); [rewrite El; by left|].
  assert (y = job) as -> by congruence. pose proof (wo_jobs _ _ _ _ H j job Ej) as Hok. unfold job_ok in Hok. rewrite Hy in Hok.
  destruct Hok as (H1 & H2 & H3 & H4 & _), w as [js fl cs ans]. unfold rest_recycle_job. cbn in *. subst fl.
  f_equal.
  - apply list_insert_id. rewrite Ej. f_equal. destruct job. cbn in *. by subst.
  - destruct (negb _); [|done]. apply leibniz_equiv. set_solver.
Qed.

Lemma new_job_ok reqs sent opened w :
  web_ok reqs sent opened w -> job_freelist w = [] ->
  web_ok reqs sent opened
    (Web (web_jobs w ++ [RestJob None false SEND_REQ None 0 Idle]) [length (web_jobs w)] (web_ctxs w) (web_answers w)).
Proof.
  intros [Hpos Hsent Hj Hnd Hf Hc Hd Ha Hr] El. rewrite El in Hf.
  set (x := RestJob None false SEND_REQ None 0 Idle).
  assert (forall i y, (web_jobs w ++ [x]) !! i = Some y -> web_jobs w !! i = Some y \/ (i = length (web_jobs w) /\ y = x)) as Hl.
  { intros i y H. apply lookup_app_Some in H as [H|[Hlt H]]; [by left|right].
    apply list_lookup_singleton_Some in H as [E <-]. split; [lia|done]. }
  assert (forall i y, web_jobs w !! i = Some y -> job_aio y <> Idle) as Hb.
  { intros i y Ey Hy. assert (i ∈ @nil nat) as Hi by (apply Hf; eauto). by apply elem_of_nil in Hi. }
  split; cbn [web_jobs job_freelist web_ctxs web_answers]; try done.
  - intros i y [Ey|[-> ->]]%Hl; [eapply job_ok_ctxs; [by eapply Hj|done]|].
    unfold job_ok, x. cbn. split_and!; try done; [|by left]. intros H0. destruct (Hc 0 H0) as [H _].
    by pose proof (proj1 (Forall_forall _ _) Hpos 0 H).
  - apply NoDup_singleton.
  - intros i. rewrite list_elem_of_singleton. split.
    + intros ->. exists x. split; [|done]. rewrite lookup_app_r by done. by rewrite Nat.sub_diag.
    + intros (y & [Ey|[-> ->]]%Hl & Hy); [|done]. by destruct (Hb i y Ey).
  - intros c H. destruct (Hc c H) as (? & i & y & Ey & Hy & Ec). split; [done|]. exists i, y. by rewrite (lookup_app_l_Some _ _ _ _ Ey).
  - intros i k y z [Ey|[-> ->]]%Hl [Ez|[-> ->]]%Hl Hy Hz; try done. by eapply Hd.
  - rewrite omap_app. cbn. by rewrite app_nil_r.
Qed.

Lemma handle_free_ok reqs sent opened w a req e j l :
  web_ok reqs sent opened w -> fresh_ctx opened e -> job_freelist w = j :: l ->
  exists w', rest_handle a req e w = Some w' /\ web_ok (reqs ++ [(a, req_msg req)]) sent (opened_by e ++ opened) w'.
Proof.
  intros H Hfr El. destruct (proj1 (wo_free _ _ _ _ H j)) as (job & Ej & _); [rewrite El; by left|].
  assert (Forall (fun c => 0 < c) (opened_by e)) as Hop.
  { unfold opened_by, fresh_ctx in *. destruct (he_ctx e); [|constructor]. constructor; [by destruct Hfr|constructor]. }
  unfold rest_handle, rest_get_job. rewrite El. cbn [mbind option_bind web_jobs]. rewrite Ej. cbn [mbind option_bind].
  destruct (negb (he_res e =? 0)).
  { pose proof (recycle_free reqs sent opened w j l job (job_http_res job) H El Ej) as E.
    destruct job as [ha hr st m c o]. cbn in E. rewrite E. eexists. split; [done|]. by apply refuse_ok, opened_ok. }
  unfold fresh_ctx, opened_by in *. destruct (he_ctx e) as [c|rv]; cbn [job_http_aio job_st job_msg job_ctx job_aio web_jobs job_freelist web_ctxs web_answers].
  2:{ rewrite (recycle_free reqs sent opened w j l job true H El Ej). eexists. split; [done|]. by apply refuse_ok. }
  destruct Hfr as [Hp Hn]. pose proof (begin_ok reqs sent opened w j l job a (req_msg req) c H El Ej Hp Hn) as Hb.
  destruct (negb (he_msg e =? 0)); [|by eexists].
  unfold rest_http_fatal. cbn [job_http_aio job_http_res job_st job_msg job_ctx job_aio]. eexists. split; [done|].
  eapply (finish_ok _ _ _ _ j _ a (Internal 3 (he_msg e)) (job_st job) (job_msg job)) in Hb;
    [|cbn; by apply list_lookup_insert_eq, (lookup_lt_Some _ _ _ Ej)|done|done|done].
  unfold rest_recycle_job, finish in *. cbn in *. by rewrite list_insert_insert_eq in Hb.
Qed.

Lemma handle_ok reqs sent opened w a req e :
  web_ok reqs sent opened w -> fresh_ctx opened e ->
  exists w', rest_handle a req e w = Some w' /\ web_ok (reqs ++ [(a, req_msg req)]) sent (opened_by e ++ opened) w'.
Proof.
  intros H Hfr. destruct (job_freelist w) as [|j l] eqn:El; [|by eapply handle_free_ok].
  assert (Forall (fun c => 0 < c) (opened_by e)) as Hop.
  { unfold opened_by, fresh_ctx in *. destruct (he_ctx e); [|constructor]. constructor; [by destruct Hfr|constructor]. }
  destruct (he_job e) eqn:Ee.
  - destruct (handle_free_ok reqs sent opened _ a req e (length (web_jobs w)) [] (new_job_ok _ _ _ _ H El) Hfr eq_refl) as (w' & E & Hw).
    exists w'. split; [|done]. rewrite <- E. unfold rest_handle, rest_get_job. by rewrite El, Ee.
  - unfold rest_handle, rest_get_job. rewrite El, Ee. eexists. split; [done|]. by apply refuse_ok, opened_ok.
Qed.

Lemma fatal_ok reqs sent opened w j job a m fmt rv st msg :
  web_ok reqs sent opened w -> web_jobs w !! j = Some job -> job_aio job <> Idle -> busy_ok reqs w (job_ctx job) job m ->
  job_http_aio job = Some a ->
  exists w', rest_http_fatal j (RestJob (job_http_aio job) (job_http_res job) st msg (job_ctx job) Idle) fmt rv w = Some w' /\
    web_ok reqs sent opened w'.
Proof.
  intros H Ej Hb (Hres & _ & _ & _) Ha. unfold rest_http_fatal. cbn. rewrite Ha, Hres. eexists. split; [done|].
  by eapply finish_ok.
Qed.

Lemma job_sent_ok reqs sent opened w j job c m result :
  web_ok reqs sent opened w -> web_jobs w !! j = Some job -> job_aio job = Sending c m ->
  exists w', rest_job_cb j result None 0 w = Some w' /\ web_ok reqs (if result =? 0 then (c, m) :: sent else sent) opened w'.
Proof.
  intros H Ej Eo. pose proof (wo_jobs _ _ _ _ H j job Ej) as Hok. unfold job_ok in Hok. rewrite Eo in Hok.
  destruct Hok as (Hst & Hm & Hb & _). assert (job_ctx job = c) as Hc by apply Hb. subst c. destruct Hb as (? & ? & ? & a & Ha & Hr).
  unfold rest_job_cb. rewrite Ej. cbn [mbind option_bind job_st]. rewrite Hst.
  destruct (Z.eqb_spec result 0) as [->|Hne]; cbn [negb].
  - eexists. split; [done|]. cbn [job_http_aio job_http_res job_ctx]. by apply sent_ok.
  - eapply (fatal_ok reqs sent opened w j job a m); try done; [by rewrite Eo|]. unfold busy_ok. eauto 6.
Qed.

Lemma job_reply_ok reqs sent opened w j job c result reply copy :
  web_ok reqs sent opened w -> web_jobs w !! j = Some job -> job_aio job = Receiving c ->
  (result = 0 -> exists m res, reply = Some res /\ (c, m) ∈ sent /\ served m res) ->
  exists w', rest_job_cb j result reply copy w = Some w' /\ web_ok reqs sent opened w'.
Proof.
  intros H Ej Eo Hrep. pose proof (wo_jobs _ _ _ _ H j job Ej) as Hok. unfold job_ok in Hok. rewrite Eo in Hok.
  destruct Hok as (Hst & Hm & m & (Hres & Hc & Hin & a & Ha & Hr) & Hs). subst c.
  assert (job_aio job <> Idle) as Hb by by rewrite Eo.
  unfold rest_job_cb. rewrite Ej. cbn [mbind option_bind job_st]. rewrite Hst.
  destruct (Z.eqb_spec result 0) as [E|Hne]; cbn [negb].
  - destruct (Hrep E) as (m' & res & -> & Hs' & Hsv). cbn [mbind option_bind job_http_aio job_http_res job_ctx].
    destruct (negb (copy =? 0)); [eapply (fatal_ok reqs sent opened w j job a m); try done; unfold busy_ok; eauto 6|].
    rewrite Ha, Hres. cbn. eexists. split; [done|]. eapply finish_ok; try done.
    unfold answer_ok, response_of. cbn. exists m, res. split_and!; try done.
    destruct (wo_sent _ _ _ _ H _ _ Hs) as [_ Hu]. by rewrite <- (Hu m' Hs').
  - eapply (fatal_ok reqs sent opened w j job a m); try done. unfold busy_ok. eauto 6.
Qed.

(** ** Reachable states *)

Definition reply_ok (sent : list (Z * http_msg)) (x : Z * http_msg) : Prop :=
  exists m, (fst x, m) ∈ sent /\ served m (snd x).

Definition work_ok (sent : list (Z * http_msg)) (x : srv_state * work_op) : Prop :=
  match x with
  | (SRV_RECV, WReceiving) => True
  | (SRV_SEND, WSending c r) => reply_ok sent (c, r)
  | _ => False
  end.

Definition sys_ok (s : system) : Prop :=
  web_ok (sy_reqs s) (sy_sent s) (sy_opened s) (sy_web s) /\ NoDup (map fst (sy_reqs s)) /\
  Forall (reply_ok (sy_sent s)) (sy_replied s) /\ Forall (work_ok (sy_sent s)) (sy_works s).

Lemma reply_ok_mono sent x y : reply_ok sent y -> reply_ok (x :: sent) y.
Proof. intros (m & ? & ?). exists m. split; [by right|done]. Qed.

Lemma work_ok_mono sent x y : work_ok sent y -> work_ok (x :: sent) y.
Proof. destruct y as [[] []]; try done. apply reply_ok_mono. Qed.

Lemma start_ok n : sys_ok (start n).
Proof.
  split_and!; cbn; [|constructor..|by apply Forall_replicate].
  split; cbn; try done; try apply Forall_nil_2.
  - intros c m H. by apply elem_of_nil in H.
  - apply NoDup_nil_2.
  - intros j. split; [by intros H%elem_of_nil|by intros (? & ? & _)].
Qed.

Lemma web_step_ok s s' : sys_ok s -> step s s' -> sys_ok s'.
Proof.
  intros (Hw & Hnd & Hrep & Hwk) Hs. destruct Hs as
    [aio req e w w' ws sent replied reqs opened Ha Hf E|j job ctx m result w w' ws sent replied reqs opened Ej Eo E|
     j job ctx result w w' ws sent replied reqs opened Ej Eo Hne E|j job ctx res copy w w' ws sent replied reqs opened Ej Eo Hr E|
     i st st' ctx m res r w ws sent replied reqs opened Ei Hc Hsv E|i st st' ctx r w ws sent replied reqs opened Ei E];
    unfold sys_ok in *; cbn [sy_web sy_works sy_sent sy_replied sy_reqs sy_opened] in *.
  - destruct (handle_ok reqs sent opened w aio req e Hw Hf) as (w1 & E1 & Hok). assert (w1 = w') as -> by congruence.
    split_and!; try done. rewrite map_app. apply NoDup_app. split_and!; [done| |apply NoDup_singleton].
    intros x Hx Hx'. apply list_elem_of_singleton in Hx' as ->. done.
  - destruct (job_sent_ok reqs sent opened w j job ctx m result Hw Ej Eo) as (w1 & E1 & Hok). assert (w1 = w') as -> by congruence.
    split_and!; try done; destruct (result =? 0); try done; (eapply Forall_impl; [eassumption|]); intros x;
      [apply reply_ok_mono|apply work_ok_mono].
  - destruct (job_reply_ok reqs sent opened w j job ctx result None 0 Hw Ej Eo) as (w1 & E1 & Hok); [done|].
    by assert (w1 = w') as -> by congruence.
  - destruct (job_reply_ok reqs sent opened w j job ctx 0 (Some res) copy Hw Ej Eo) as (w1 & E1 & Hok).
    { intros _. destruct (proj1 (Forall_forall _ _) Hrep _ Hr) as (m & ? & ?). by exists m, res. }
    by assert (w1 = w') as -> by congruence.
  - split_and!; try done. apply Forall_insert; [done|]. pose proof (Forall_lookup_1 _ _ _ _ Hwk Ei) as Hi.
    destruct st; try done. cbn in E. injection E as <- <-. exists m. done.
  - pose proof (Forall_lookup_1 _ _ _ _ Hwk Ei) as Hi. destruct st; try done. cbn in E. injection E as <-.
    split_and!; try done; [by constructor|by apply Forall_insert].
Qed.

Lemma reach_ok n s : rtc step (start n) s -> sys_ok s.
Proof.
  intros H. pose proof (start_ok n) as H0. revert H0. induction H as [|s s1 s2 Hs _ IH]; [done|]. eauto using web_step_ok.
Qed.

(** C33. Whatever the order of the callbacks and whichever allocations and
    operations fail, every HTTP request is either held by one job or was
    answered exactly once, and an answer other than an error is a response of
    the request handler to that very request. *)
Theorem answered_once n s :
  rtc step (start n) s ->
  NoDup (map fst (web_answers (sy_web s)) ++ omap job_http_aio (web_jobs (sy_web s))) /\
  (forall a, a ∈ map fst (sy_reqs s) <->
     a ∈ map fst (web_answers (sy_web s)) \/ exists j job, web_jobs (sy_web s) !! j = Some job /\ job_http_aio job = Some a) /\
  (forall a st ct ck d, (a, Response st ct ck d) ∈ web_answers (sy_web s) ->
     exists m res, (a, m) ∈ sy_reqs s /\ served m res /\ Response st ct ck d = response_of res).
Proof.
  intros (Hw & Hnd & _ & _)%reach_ok. destruct Hw as [_ _ _ _ _ _ _ Ha Hr]. split_and!.
  - by rewrite <- Hr.
  - intros a. rewrite Hr, elem_of_app, list_elem_of_omap. apply or_iff_compat_l. split.
    + intros (job & [j Ej]%list_elem_of_lookup & E). eauto.
    + intros (j & job & Ej & E). exists job. split; [by eapply list_elem_of_lookup_2|done].
  - intros a st ct ck d H. by pose proof (proj1 (Forall_forall _ _) Ha _ H).
Qed.

(** No callback of a reachable server uses a NULL pointer, and a worker is
    never in a state that ends the program. *)
Theorem callbacks_defined n s :
  rtc step (start n) s ->
  (forall aio req e, fresh_ctx (sy_opened s) e -> is_Some (rest_handle aio req e (sy_web s))) /\
  (forall j job c m result, web_jobs (sy_web s) !! j = Some job -> job_aio job = Sending c m ->
     is_Some (rest_job_cb j result None 0 (sy_web s))) /\
  (forall j job c result res copy, web_jobs (sy_web s) !! j = Some job -> job_aio job = Receiving c ->
     (result = 0 -> (c, res) ∈ sy_replied s) -> is_Some (rest_job_cb j result (Some res) copy (sy_web s))) /\
  (forall i st op res, sy_works s !! i = Some (st, op) -> snd (inproc_cb st 0 res) <> [Fatal]).
Proof.
  intros (Hw & _ & Hrep & Hwk)%reach_ok. split_and!.
  - intros aio req e Hf. destruct (handle_ok _ _ _ _ aio req e Hw Hf) as (w' & -> & _). done.
  - intros j job c m result Ej Eo. destruct (job_sent_ok _ _ _ _ j job c m result Hw Ej Eo) as (w' & -> & _). done.
  - intros j job c result res copy Ej Eo Hr.
    destruct (job_reply_ok _ _ _ _ j job c result (Some res) copy Hw Ej Eo) as (w' & -> & _); [|done].
    intros E. destruct (proj1 (Forall_forall _ _) Hrep _ (Hr E)) as (m & ? & ?). by exists m, res.
  - intros i st op res Ei. pose proof (Forall_lookup_1 _ _ _ _ Hwk Ei) as Hi. by destruct st, op.
Qed.

(** The open contexts are those of the busy jobs, one each: none is lost, and a
    job is on the list exactly when it is not in use. *)
Theorem contexts_of_jobs n s :
  rtc step (start n) s ->
  (forall c, c ∈ web_ctxs (sy_web s) <-> exists j job, web_jobs (sy_web s) !! j = Some job /\ job_aio job <> Idle /\ job_ctx job = c) /\
  NoDup (job_freelist (sy_web s)) /\
  (forall j, j ∈ job_freelist (sy_web s) <-> exists job, web_jobs (sy_web s) !! j = Some job /\ job_aio job = Idle).
Proof.
  intros (Hw & _ & _ & _)%reach_ok. destruct Hw as [_ _ Hj Hnd Hf Hc _ _ _]. split_and!; try done.
  intros c. split; [apply Hc|]. intros (j & job & Ej & Hb & <-). eapply busy_ctx; [by eapply Hj|done].
Qed.

(** ** Progress *)

Lemma job_replied j job c a res w :
  web_jobs w !! j = Some job -> job_aio job = Receiving c -> job_st job = RECV_REP -> job_http_res job = true ->
  job_http_aio job = Some a ->
  exists w', rest_job_cb j 0 (Some res) 0 w = Some w' /\ (a, response_of res) ∈ web_answers w'.
Proof.
  intros Ej Eo Hst Hres Ha. unfold rest_job_cb. rewrite Ej. cbn [mbind option_bind job_st]. rewrite Hst. cbn.
  rewrite Ha, Hres. cbn. eexists. split; [done|]. cbn. rewrite elem_of_app. right. by left.
Qed.

(** A job that waits for a reply can have it. *)
Lemma waiting_answered n s j job c a :
  (0 < n)%nat -> (forall m, exists res, served m res) -> rtc step (start n) s -> (0 < length (sy_works s))%nat ->
  web_jobs (sy_web s) !! j = Some job -> job_aio job = Receiving c -> job_http_aio job = Some a ->
  exists s' res, rtc step s s' /\ (a, response_of res) ∈ web_answers (sy_web s').
Proof.
  intros Hn Hsv Hs Hl Ej Eo Ha. pose proof (reach_ok n s Hs) as (Hw & _ & _ & Hwk).
  pose proof (wo_jobs _ _ _ _ Hw j job Ej) as Hok. unfold job_ok in Hok. rewrite Eo in Hok.
  destruct Hok as (Hst & _ & m & (Hres & _) & Hs').
  destruct (lookup_lt_is_Some_2 _ _ Hl) as [[st op] E0]. pose proof (Forall_lookup_1 _ _ _ _ Hwk E0) as Hw0.
  assert (exists ws rep, rtc step s (System (sy_web s) ws (sy_sent s) rep (sy_reqs s) (sy_opened s)) /\
    ws !! 0%nat = Some (SRV_RECV, WReceiving)) as (ws & rep & H1 & Hws).
  { destruct s as [w ws sent rep reqs op']. cbn in *. destruct st, op as [|c' r]; try done.
    - by exists ws, rep.
    - exists (<[0%nat := (SRV_RECV, WReceiving)]> ws), ((c', r) :: rep). split; [|by apply list_lookup_insert_eq].
      apply rtc_once. by eapply step_replied. }
  destruct (Hsv m) as [res Hr]. destruct (job_replied j job c a res (sy_web s) Ej Eo Hst Hres Ha) as (w' & Ew & Hin).
  eexists (System w' _ _ _ _ _), res. split; [|exact Hin]. etrans; [exact H1|].
  eapply rtc_l; [eapply (step_work 0 SRV_RECV SRV_SEND c m res res); done|].
  eapply rtc_l; [eapply (step_replied 0 SRV_SEND SRV_RECV c res); [apply list_lookup_insert_eq, (lookup_lt_Some _ _ _ Hws)|done]|].
  apply rtc_once. eapply (step_reply j job c res 0); try done. by left.
Qed.

Lemma works_length s s' : rtc step s s' -> length (sy_works s') = length (sy_works s).
Proof. induction 1 as [|s s1 s2 Hs _ IH]; [done|]. rewrite IH. destruct Hs; cbn; by rewrite ?length_insert. Qed.

(** C34. No state is a dead end for a request: as long as the request handler
    returns, every request that a job holds can still be answered with its
    response. *)
Theorem held_request_answered n s j job a :
  (0 < n)%nat -> (forall m, exists res, served m res) -> rtc step (start n) s ->
  web_jobs (sy_web s) !! j = Some job -> job_http_aio job = Some a ->
  exists s' res, rtc step s s' /\ (a, response_of res) ∈ web_answers (sy_web s').
Proof.
  intros Hn Hsv Hs Ej Ha. pose proof (reach_ok n s Hs) as (Hw & _ & _ & _).
  assert (0 < length (sy_works s))%nat as Hl by (rewrite (works_length _ _ Hs); cbn; by rewrite length_replicate).
  pose proof (wo_jobs _ _ _ _ Hw j job Ej) as Hok. unfold job_ok in Hok. destruct (job_aio job) as [|c m|c] eqn:Eo.
  - destruct Hok as (? & _). congruence.
  - destruct Hok as (Hst & _ & (_ & Hc & _) & _).
    set (job' := RestJob (job_http_aio job) (job_http_res job) RECV_REP None (job_ctx job) (Receiving (job_ctx job))).
    assert (rest_job_cb j 0 None 0 (sy_web s) = Some (set_job j job' (sy_web s))) as E.
    { unfold rest_job_cb. rewrite Ej. cbn [mbind option_bind job_st]. by rewrite Hst. }
    assert (step s (System (set_job j job' (sy_web s)) (sy_works s) ((c, m) :: sy_sent s) (sy_replied s) (sy_reqs s) (sy_opened s))) as H1.
    { destruct s. by eapply (step_sent j job c m 0). }
    destruct (waiting_answered n _ j job' (job_ctx job) a Hn Hsv (rtc_r _ _ _ Hs H1)) as (s' & res & H2 & Hin); try done.
    + cbn. by apply list_lookup_insert_eq, (lookup_lt_Some _ _ _ Ej).
    + exists s', res. split; [|done]. by eapply rtc_l.
  - by eapply (waiting_answered n).
Qed.

End Server.

(** ** Starting the server *)

Definition INPROC_URL : bytes := lit "inproc://rest".
Definition HTTP_DEFAULT_USER : bytes := lit "admin".
Definition HTTP_DEFAULT_PASSWORD : bytes := lit "public".
Definition HTTP_DEFAULT_PORT : Z := 8081.
Definition HTTP_DEFAULT_ADDR : bytes := lit "0.0.0.0".

(** snprintf of REST_URL into rest_addr[128] *)
Definition rest_url (addr : bytes) (port : Z) : bytes :=
  take 127 (lit "http://" ++ addr ++ lit ":" ++ RuleSql.dec port ++ lit "/api/v4").

(** The two handlers: rest_handle and the files below ./dist. *)
Inductive handler := RestHandler | FileHandler.

Inductive rest_call :=
  | MtxAlloc | UrlParse (url : bytes) | Req0Open | DialReq (url : bytes) | ServerHold | HandlerAlloc
  | SetTree | SetMethod (h : handler) (method : option bytes) | CollectBody (h : handler) (max : Z)
  | AllocDirectory (dir : bytes) | AddHandler (h : handler) | ServerStart | UrlFree.

Definition rest_start_calls (port : Z) (addr : bytes) (max_body : Z) : list rest_call :=
  [MtxAlloc; UrlParse (rest_url addr port); Req0Open; DialReq INPROC_URL; ServerHold; HandlerAlloc; SetTree;
   SetMethod RestHandler None; CollectBody RestHandler max_body; AllocDirectory (lit "./dist");
   SetMethod FileHandler (Some (lit "GET")); CollectBody FileHandler 1024; AddHandler FileHandler;
   AddHandler RestHandler; ServerStart; UrlFree].

(** How it ends: with the server running, by a return before it, or the program
    ends. *)
Inductive rest_end := Running | NotStarted | FatalEnd.

(** Makes the calls; [rv n] is the result of the [n]-th. *)
Fixpoint rest_exec (rv : nat -> Z) (n : nat) (l : list rest_call) : list rest_call * rest_end :=
  match l with
  | [] => ([], Running)
  | a :: l' =>
      let go := let '(k, r) := rest_exec rv (S n) l' in (a :: k, r) in
      match a with
      | UrlFree => go
      | UrlParse _ => if negb (rv n =? 0) then ([a], NotStarted) else go
      | _ => if negb (rv n =? 0) then ([a], FatalEnd) else go
      end
  end.

Definition rest_start (rv : nat -> Z) (port : Z) (addr : bytes) (max_body : Z) : list rest_call * rest_end :=
  rest_exec rv 0 (rest_start_calls port addr max_body).

(** ** The cache of access decisions *)

(** conf_auth_http: [cache_ttl], acl_cache_map and whether acl_cache_reset_aio
    is allocated, with the time of the timer it runs. *)
Record acl_cache := AclCache {
  ac_ttl : Z;
  ac_map : option (gmap Z Z);
  ac_timer : option Z
}.

(** nng_id_map_foreach2 with nmq_acl_cache_reset_cb *)
Definition nmq_acl_cache_reset_cb (m : gmap Z Z) (k : Z) : gmap Z Z := delete k m.
Definition reset_map (m : gmap Z Z) : gmap Z Z :=
  if 0 <? Z.of_nat (size m) then foldl nmq_acl_cache_reset_cb m (map fst (map_to_list m)) else m.

(** [None] is a map that is NULL. *)
Definition nmq_acl_cache_reset_timer_cb (c : acl_cache) : option acl_cache :=
  m ← ac_map c; Some (AclCache (ac_ttl c) (Some (reset_map m)) (Some (i32 (ac_ttl c * 1000)))).

Definition nmq_acl_cache_init (rv_map rv_aio : Z) (c : acl_cache) : Z * acl_cache :=
  if negb (rv_map =? 0) then (rv_map, c)
  else if negb (rv_aio =? 0) then (rv_aio, AclCache (ac_ttl c) None (ac_timer c))
  else (0, AclCache (ac_ttl c) (Some ∅) (Some (i32 (ac_ttl c * 1000)))).

(** The map is emptied and freed, the timer stopped; the pointers stay. *)
Definition nmq_acl_cache_finit (c : acl_cache) : option (gmap Z Z) := m ← ac_map c; Some (reset_map m).

(** ** start_rest_server *)

(** conf_http_server, what the start reads of it *)
Record server_conf := ServerConf {
  sv_port : Z;
  sv_ip_addr : option bytes;
  sv_username : option bytes;
  sv_password : option bytes;
  sv_max_body : Z
}.

Definition set_http_server_conf (c : server_conf) : server_conf :=
  ServerConf (sv_port c) (sv_ip_addr c)
    (Some (default HTTP_DEFAULT_USER (sv_username c))) (Some (default HTTP_DEFAULT_PASSWORD (sv_password c))) (sv_max_body c).

(** The result of nng_thread_create is not 0: the program ends, [None].
    Otherwise: the configuration that requests are checked with, the calls and
    the end of rest_start, and the cache. *)
Definition start_rest_server (thread : Z) (rv : nat -> Z) (rv_map rv_aio : Z) (c : server_conf) (cache : acl_cache)
  : option (server_conf * (list rest_call * rest_end) * acl_cache) :=
  if negb (thread =? 0) then None
  else
    let port := if sv_port c =? 0 then HTTP_DEFAULT_PORT else sv_port c in
    let c := set_http_server_conf c in
    let addr := default HTTP_DEFAULT_ADDR (sv_ip_addr c) in
    let started := rest_start rv port addr (sv_max_body c) in
    match started with
    | (_, FatalEnd) => None
    | _ =>
        let cache :=
          match ac_map cache with
          | None => if 0 <? ac_ttl cache then snd (nmq_acl_cache_init rv_map rv_aio cache) else cache
          | Some _ => cache
          end in
        Some (c, started, cache)
    end.

(** stop_rest_server: [None] is a NULL map passed on. *)
Definition stop_rest_server (cache : acl_cache) : option (gmap Z Z) := nmq_acl_cache_finit cache.

Lemma rest_exec_running rv n l : snd (rest_exec rv n l) = Running <->
  forall i a, l !! i = Some a -> a <> UrlFree -> rv (n + i)%nat = 0.
Proof.
  revert n. induction l as [|a l IH]; intros n; cbn [rest_exec]; [done|].
  assert (snd (let '(k, r) := rest_exec rv (S n) l in (a :: k, r)) = snd (rest_exec rv (S n) l)) as Es by by destruct (rest_exec rv (S n) l).
  assert ((forall i x, (a :: l) !! i = Some x -> x <> UrlFree -> rv (n + i)%nat = 0) <->
    (a <> UrlFree -> rv n = 0) /\ snd (rest_exec rv (S n) l) = Running) as ->.
  { rewrite IH. split.
    - intros H. split; [intros Ha; specialize (H 0%nat a eq_refl Ha); by rewrite Nat.add_0_r in H|].
      intros i x Ex Hx. specialize (H (S i) x Ex Hx). by rewrite Nat.add_succ_r in H.
    - intros [H0 H] [|i] x Ex Hx; [injection Ex as ->; rewrite Nat.add_0_r; by apply H0|].
      rewrite Nat.add_succ_r. by apply (H i x). }
  destruct a; try (by rewrite Es; naive_solver); destruct (Z.eqb_spec (rv n) 0); cbn [negb]; rewrite ?Es; naive_solver.
Qed.

Lemma rest_exec_calls rv n l : snd (rest_exec rv n l) = Running -> fst (rest_exec rv n l) = l.
Proof.
  revert n. induction l as [|a l IH]; intros n; cbn [rest_exec]; [done|].
  specialize (IH (S n)). destruct (rest_exec rv (S n) l) as [k r]. cbn in IH.
  destruct a; cbn; try (by intros H; rewrite IH); destruct (negb (rv n =? 0)); cbn; try done; intros H; by rewrite IH.
Qed.

Lemma rest_url_whole addr port : blen addr <= 106 -> 0 <= port < 65536 ->
  rest_url addr port = lit "http://" ++ addr ++ lit ":" ++ RuleSql.dec port ++ lit "/api/v4".
Proof.
  intros Ha Hp. unfold rest_url. apply take_ge. rewrite !length_app.
  pose proof (RuleSql.dec_length 5 port ltac:(lia) ltac:(cbn; lia)) as Hd. unfold blen in *.
  change (length (lit "http://")) with 7%nat. change (length (lit ":")) with 1%nat. change (length (lit "/api/v4")) with 7%nat. lia.
Qed.

(** When the start of the server reports success, it listens at the configured
    or the default address and port with the limit on the size of a request,
    both handlers were added before it was started, and requests are checked
    with a user name and a password, "admin" and "public" unless others are
    configured. *)
Theorem server_started thread rv rv_map rv_aio c cache c' calls cache' :
  start_rest_server thread rv rv_map rv_aio c cache = Some (c', (calls, Running), cache') ->
  0 <= sv_port c < 65536 -> blen (default HTTP_DEFAULT_ADDR (sv_ip_addr c)) <= 106 ->
  let port := if sv_port c =? 0 then HTTP_DEFAULT_PORT else sv_port c in
  let url := lit "http://" ++ default HTTP_DEFAULT_ADDR (sv_ip_addr c) ++ lit ":" ++ RuleSql.dec port ++ lit "/api/v4" in
  (exists pre post, calls = pre ++ ServerStart :: post /\ UrlParse url ∈ pre /\ DialReq INPROC_URL ∈ pre /\
     CollectBody RestHandler (sv_max_body c) ∈ pre /\ AddHandler RestHandler ∈ pre /\ AddHandler FileHandler ∈ pre /\
     forall i a, pre !! i = Some a -> rv i = 0) /\
  sv_username c' = Some (default HTTP_DEFAULT_USER (sv_username c)) /\
  sv_password c' = Some (default HTTP_DEFAULT_PASSWORD (sv_password c)).
Proof.
  unfold start_rest_server, rest_start. cbv zeta. set (port := if sv_port c =? 0 then HTTP_DEFAULT_PORT else sv_port c).
  intros E Hp Ha. destruct (negb (thread =? 0)); [done|].
  change (sv_ip_addr (set_http_server_conf c)) with (sv_ip_addr c) in E.
  change (sv_max_body (set_http_server_conf c)) with (sv_max_body c) in E.
  set (l := rest_start_calls port (default HTTP_DEFAULT_ADDR (sv_ip_addr c)) (sv_max_body c)) in *.
  pose proof (rest_exec_running rv 0 l) as Hr. pose proof (rest_exec_calls rv 0 l) as Hc.
  destruct (rest_exec rv 0 l) as [k r]. cbn [fst snd] in *.
  assert (c' = set_http_server_conf c /\ k = calls /\ r = Running) as (-> & -> & ->) by (destruct r; naive_solver).
  rewrite (Hc eq_refl). split; [|done].
  assert (rest_url (default HTTP_DEFAULT_ADDR (sv_ip_addr c)) port =
    lit "http://" ++ default HTTP_DEFAULT_ADDR (sv_ip_addr c) ++ lit ":" ++ RuleSql.dec port ++ lit "/api/v4") as Hu.
  { apply rest_url_whole; [done|]. unfold port, HTTP_DEFAULT_PORT. destruct (Z.eqb_spec (sv_port c) 0); lia. }
  unfold l, rest_start_calls in *. rewrite Hu in *. clear Hu l.
  match goal with |- context [?l = _ ++ ServerStart :: _] => exists (take 14 l), [UrlFree] end. split; [reflexivity|]. cbn [take].
  split_and!; try (rewrite !elem_of_cons; tauto).
  intros i a Hi. refine (proj1 Hr eq_refl i a _ _).
  - by do 14 (destruct i as [|i]; [exact Hi|]).
  - by do 14 (destruct i as [|i]; [injection Hi as <-; discriminate|]).
Qed.

Lemma reset_loop l m : dom m ⊆ list_to_set l -> foldl nmq_acl_cache_reset_cb m l = ∅.
Proof.
  revert m. induction l as [|k l IH]; intros m H; cbn.
  - apply dom_empty_inv_L. set_solver.
  - apply IH. unfold nmq_acl_cache_reset_cb. rewrite dom_delete_L. set_solver.
Qed.

Lemma reset_map_empty m : reset_map m = ∅.
Proof.
  unfold reset_map. destruct (Z.ltb_spec 0 (Z.of_nat (size m))) as [H|H].
  - apply reset_loop. intros k Hk. apply elem_of_dom in Hk as [v Hv]. apply elem_of_list_to_set, list_elem_of_fmap.
    exists (k, v). split; [done|]. by apply elem_of_map_to_list.
  - apply map_size_empty_inv. lia.
Qed.

(** Every period of the timer empties the cache, so that no decision is used
    longer than the configured time, and runs the timer again; the cache
    starts empty. *)
Theorem cache_expires rv_map rv_aio c c' m :
  (ac_map c = Some m -> nmq_acl_cache_reset_timer_cb c = Some (AclCache (ac_ttl c) (Some ∅) (Some (i32 (ac_ttl c * 1000))))) /\
  (nmq_acl_cache_init rv_map rv_aio c = (0, c') -> ac_map c' = Some ∅ /\ ac_timer c' = Some (i32 (ac_ttl c * 1000)) /\
     is_Some (stop_rest_server c')) /\
  (fst (nmq_acl_cache_init rv_map rv_aio c) <> 0 -> ac_map c = None -> ac_map (snd (nmq_acl_cache_init rv_map rv_aio c)) = None).
Proof.
  split_and!.
  - intros E. unfold nmq_acl_cache_reset_timer_cb. rewrite E. cbn. by rewrite reset_map_empty.
  - unfold nmq_acl_cache_init. destruct (Z.eqb_spec rv_map 0); cbn; [|congruence]. destruct (Z.eqb_spec rv_aio 0); cbn; [|congruence].
    intros [= <-]. done.
  - unfold nmq_acl_cache_init. destruct (Z.eqb_spec rv_map 0); cbn; [|done]. by destruct (Z.eqb_spec rv_aio 0).
Qed.

(** ** Examples and witnesses *)

Section Witness.

Definition get_nodes : http_req := HttpReq (Some (lit "/api/v4/nodes")) (Some (lit "GET")) None None None.
Definition opens (c : Z) : handle_env := HandleEnv true 0 (inl c) 0.
Definition ok_reply : http_msg := HttpMsg 200 (Some (lit "application/json")) None None None (Some (lit "{}")).
Definition serve_ok (m res : http_msg) : Prop := res = ok_reply.

(** The server while one request is sent. *)
Definition one_sending : system :=
  System (Web [RestJob (Some 7%nat) true SEND_REQ (Some (req_msg get_nodes)) 1 (Sending 1 (req_msg get_nodes))] [] {[1]} [])
    [(SRV_RECV, WReceiving)] [] [] [(7%nat, req_msg get_nodes)] [1].

Lemma one_sending_reached : rtc (step 2 serve_ok) (start 1) one_sending.
Proof.
  apply rtc_once. eapply (step_request 2 serve_ok 7 get_nodes (opens 1)); [by apply not_elem_of_nil| |vm_compute; reflexivity].
  split; [lia|by apply not_elem_of_nil].
Qed.

Lemma held_request_answered_witness :
  exists s' res, rtc (step 2 serve_ok) one_sending s' /\ (7%nat, response_of res) ∈ web_answers (sy_web s').
Proof.
  refine (held_request_answered 2 serve_ok 1 one_sending 0 _ 7 _ _ one_sending_reached eq_refl eq_refl); [lia|].
  intros m. by exists ok_reply.
Defined.

(** The same request after its reply. *)
Definition one_answered : system :=
  System (Web [RestJob None false RECV_REP None 1 Idle] [0%nat] ∅ [(7%nat, response_of ok_reply)])
    [(SRV_RECV, WReceiving)] [(1, req_msg get_nodes)] [(1, ok_reply)] [(7%nat, req_msg get_nodes)] [1].

Lemma one_answered_reached : rtc (step 2 serve_ok) (start 1) one_answered.
Proof.
  etrans; [exact one_sending_reached|]. unfold one_sending, one_answered.
  eapply rtc_l; [by eapply (step_sent 2 serve_ok 0 _ 1 (req_msg get_nodes) 0)|].
  eapply rtc_l; [eapply (step_work 2 serve_ok 0 SRV_RECV SRV_SEND 1 (req_msg get_nodes) ok_reply ok_reply); [done|by left|done|done]|].
  eapply rtc_l; [by eapply (step_replied 2 serve_ok 0 SRV_SEND SRV_RECV 1 ok_reply)|].
  apply rtc_once. eapply (step_reply 2 serve_ok 0 _ 1 ok_reply 0); [reflexivity..|by left|vm_compute; reflexivity].
Qed.

Lemma answered_once_witness :
  NoDup (map fst (web_answers (sy_web one_answered)) ++ omap job_http_aio (web_jobs (sy_web one_answered))).
Proof. exact (proj1 (answered_once 2 serve_ok 1 one_answered one_answered_reached)). Defined.

(** A job that waits on the list keeps the id of its closed context, and closes
    it again when the next request fails before a context is opened.  When the
    socket gives ids again, that closes the context of another request. *)
Theorem stale_context_closed :
  exists w, foldl (fun w f => w ≫= f) (Some (Web [] [] ∅ []))
      [rest_handle 2 1 get_nodes (opens 5); rest_handle 2 2 get_nodes (opens 6);
       rest_job_cb 0 0 None 0; rest_job_cb 0 0 (Some ok_reply) 0; rest_job_cb 1 0 None 0; rest_job_cb 1 0 (Some ok_reply) 0;
       rest_handle 2 3 get_nodes (opens 5); rest_handle 2 4 get_nodes (HandleEnv true 2 (inr 0) 0)] = Some w /\
    web_answers w = [(1%nat, response_of ok_reply); (2%nat, response_of ok_reply); (4%nat, Failed 2)] /\
    web_jobs w !! 1%nat = Some (RestJob (Some 3%nat) true SEND_REQ (Some (req_msg get_nodes)) 5 (Sending 5 (req_msg get_nodes))) /\
    web_ctxs w = ∅.
Proof. eexists. split; [vm_compute; reflexivity|]. split_and!; vm_compute; reflexivity. Qed.

(** Without a cache, stop_rest_server passes a NULL map to the library. *)
Theorem stop_without_cache :
  exists c calls cache, start_rest_server 0 (fun _ => 0) 0 0 (ServerConf 0 None None None 4096) (AclCache 0 None None) =
    Some (c, (calls, Running), cache) /\ stop_rest_server cache = None.
Proof. eexists _, _, _. split; [vm_compute; reflexivity|reflexivity]. Qed.

End Witness.

End WebServer.
