(* ===== verification/GatewayRest.v ===== *)
(** * The HTTP interface of the gateways (nanomq_cli/rest_api.c)

    A gateway of nanomq_cli serves requests that show and replace its
    configuration file and that stop or restart it.  The parser of URIs is that
    of the broker below another root; authorization, routing and the handlers
    are its own.  Memory that is read before it is written is a parameter, about
    which the theorems assume nothing. *)

From S2P Require Import Prelude RestApi RestEndpoints.

Module GatewayRest.

Import RestApi.
Import RestEndpoints (lower, strcasecmp_eqb, casecmp).

(** ** URIs *)

Definition REST_URI_ROOT : bytes := lit "/api/v4/proxy".

Definition uri_parse_tree (path : bytes) : option (list tree) :=
  match strstr path REST_URI_ROOT with
  | None => Some []
  | Some str =>
      let str := drop (length REST_URI_ROOT) str in
      '(pieces, str) ← split_loop 47 (length str) str [];
      let root := map (fun p => Tree p false) pieces in
      match pieces with
      | [] => Some root
      | _ =>
          if 0 <? blen str then Some (root ++ [Tree str true])
          else Some (removelast root ++ [Tree (tr_node (List.last root (Tree [] false))) true])
      end
  end.

Definition uri_parse (uri : bytes) : option uri_content :=
  if bool_decide (uri = REST_URI_ROOT) || bool_decide (uri = REST_URI_ROOT ++ [47]) then Some (UriContent [] [])
  else
    match strchr uri 63 with
    | Some p =>
        let param := tail p in
        params ← (if 3 <=? blen param then uri_param_parse param else Some []);
        sub_tree ← uri_parse_tree (take (length uri - length p) uri);
        Some (UriContent sub_tree params)
    | None => sub_tree ← uri_parse_tree uri; Some (UriContent sub_tree [])
    end.

(** ** The gateway *)

(** proxy_info; [px_argv] are the arguments of the program. *)
Record proxy_info := ProxyInfo {
  px_conf_path : bytes;
  px_name : bytes;
  px_username : bytes;
  px_password : bytes;
  px_argv : list bytes
}.

(** Answers: the status, the type and the data.  [Json code] stands for the text
    that cJSON prints for an object with the member "code". *)
Inductive body := Json (code : Z) | Text (s : bytes).
Record reply := Reply { re_status : Z; re_type : option bytes; re_body : option body }.

Definition RPC_ERROR : Z := 101.
Definition NNG_HTTP_STATUS_NO_CONTENT : Z := 204.
Definition NNG_HTTP_STATUS_INTERNAL_SERVER_ERROR : Z := 500.

(** What post_ctrl starts: a thread that stops or restarts the program. *)
Inductive ctrl_cmd := CMD_STOP | CMD_RESTART.

Section Requests.

(** Of the libraries: base64_decode, nng_strcasecmp, and file_load_data, which
    returns the data with a NUL behind it. *)
Context (base64_decode : bytes -> bytes) (nng_strcasecmp : bytes -> bytes -> Z) (file_load_data : bytes -> bytes).

(** [memory n]: the [n] bytes that nng_alloc returns. *)
Context (memory : nat -> bytes).

(** ** Authorization *)

Definition is_space (c : Z) : bool := (c =? 32) || ((9 <=? c) && (c <=? 13)).

Fixpoint skip_space (s : bytes) : bytes :=
  match s with c :: s' => if is_space c then skip_space s' else s | [] => [] end.

Fixpoint word (s : bytes) : bytes :=
  match s with c :: s' => if is_space c then [] else c :: word s' | [] => [] end.

(** [sscanf(s, "Basic %s", s)]: the word behind "Basic", which replaces [s]. *)
Definition scan_basic (s : bytes) : option bytes :=
  if is_prefix (lit "Basic") s then
    match word (skip_space (drop 5 s)) with [] => None | w => Some w end
  else None.

(** [decode]: the bytes of the allocation with the last three, or the first,
    set to 0, and what base64_decode writes over them. *)
Definition zeroed (b : bytes) : bytes :=
  if (3 <=? length b)%nat then take (length b - 3) b ++ [0; 0; 0] else <[0%nat := 0]> b.

Definition decoded (token : bytes) : bytes :=
  let b := zeroed (memory (length token * 6 / 8 + 1)) in
  let d := base64_decode token in
  d ++ drop (length d) b.

Definition basic_authorize (token : option bytes) (config : proxy_info) : Z :=
  match token with
  | None => EMPTY_USERNAME_OR_PASSWORD
  | Some t =>
      if blen t <=? 0 then EMPTY_USERNAME_OR_PASSWORD
      else
        match scan_basic t with
        | None => EMPTY_USERNAME_OR_PASSWORD
        | Some t =>
            if blen t =? 0 then EMPTY_USERNAME_OR_PASSWORD
            else
              let auth := px_username config ++ [58] ++ px_password config in
              if negb (strcmp0 auth (c_str (decoded t))) then WRONG_USERNAME_OR_PASSWORD else SUCCEED
        end
  end.

(** ** Handlers *)

Definition error_response (content_type : option bytes) (status code : Z) : reply :=
  Reply status content_type (Some (Json code)).

Definition get_config (content_type : option bytes) (proxy : proxy_info) (name : bytes) : reply :=
  if nng_strcasecmp name (px_name proxy) =? 0 then
    let file_data := file_load_data (px_conf_path proxy) in
    if 0 <? blen file_data then
      Reply NNG_HTTP_STATUS_OK (Some (lit "text/plain")) (Some (Text (take (length file_data - 1) file_data)))
    else error_response content_type NNG_HTTP_STATUS_NO_CONTENT UNKNOWN_MISTAKE
  else error_response content_type NNG_HTTP_STATUS_NOT_FOUND REQ_PARAM_ERROR.

(** [put] is what nng_file_put returns; the file written, if one is. *)
Definition post_config (content_type : option bytes) (data : bytes) (proxy : proxy_info) (name : bytes) (put : Z)
  : reply * option (bytes * bytes) :=
  if nng_strcasecmp name (px_name proxy) =? 0 then
    (if put =? 0 then Reply NNG_HTTP_STATUS_OK (Some (lit "application/json")) (Some (Json SUCCEED))
     else error_response content_type NNG_HTTP_STATUS_INTERNAL_SERVER_ERROR UNKNOWN_MISTAKE,
     Some (px_conf_path proxy, data))
  else (error_response content_type NNG_HTTP_STATUS_NOT_FOUND REQ_PARAM_ERROR, None).

(** ctrl_cb after its sleep: the program that replaces this one, or the end.
    [execv] is whether the call succeeds. *)
Definition ctrl_cb (cmd : ctrl_cmd) (argv : list bytes) (execv : bool) : option (list bytes) :=
  match cmd with
  | CMD_RESTART => if execv then Some argv else None
  | CMD_STOP => None
  end.

Definition post_ctrl (type : bytes) : reply * option ctrl_cmd :=
  let answer status code := Reply status (Some (lit "application/json")) (Some (Json code)) in
  if nng_strcasecmp type (lit "stop") =? 0 then (answer NNG_HTTP_STATUS_OK SUCCEED, Some CMD_STOP)
  else if nng_strcasecmp type (lit "restart") =? 0 then (answer NNG_HTTP_STATUS_OK SUCCEED, Some CMD_RESTART)
  else (answer NNG_HTTP_STATUS_NOT_FOUND RPC_ERROR, None).

(** ** Requests *)

(** What a request does besides its answer. *)
Inductive effect := NoEffect | WriteFile (path data : bytes) | Control (cmd : ctrl_cmd).

(** The answer when nothing matches: all members are 0. *)
Definition no_reply : reply := Reply 0 None None.

Record request := Request {
  rq_method : bytes;
  rq_uri : bytes;
  rq_type : option bytes;
  rq_token : option bytes;
  rq_data : bytes
}.

Definition process_request_cli (msg : request) (proxy : proxy_info) (put : Z) : option (reply * effect) :=
  let code := basic_authorize (rq_token msg) proxy in
  if negb (code =? SUCCEED) then Some (error_response (rq_type msg) NNG_HTTP_STATUS_UNAUTHORIZED code, NoEffect)
  else
    u ← uri_parse (rq_uri msg);
    let t := uc_sub_tree u in
    if nng_strcasecmp (rq_method msg) (lit "GET") =? 0 then
      if ends_at t 3 && node_is t 1 (lit "configuration") then
        Some (get_config (rq_type msg) proxy (node_at t 2), NoEffect)
      else Some (no_reply, NoEffect)
    else if nng_strcasecmp (rq_method msg) (lit "POST") =? 0 then
      if ends_at t 3 && node_is t 1 (lit "configuration") then
        let '(r, f) := post_config (rq_type msg) (rq_data msg) proxy (node_at t 2) put in
        Some (r, match f with Some (p, d) => WriteFile p d | None => NoEffect end)
      else if ends_at t 3 && node_is t 1 (lit "ctrl") then
        let '(r, c) := post_ctrl (node_at t 2) in
        Some (r, match c with Some c => Control c | None => NoEffect end)
      else Some (no_reply, NoEffect)
    else Some (error_response (rq_type msg) NNG_HTTP_STATUS_METHOD_NOT_ALLOWED UNKNOWN_MISTAKE, NoEffect).

(** ** Properties *)

Lemma gw_tree_total path : exists t, uri_parse_tree path = Some t.
Proof.
  unfold uri_parse_tree. destruct (strstr path REST_URI_ROOT) as [s|]; [|by eexists].
  destruct (split_loop_total 47 (length (drop (length REST_URI_ROOT) s)) (drop (length REST_URI_ROOT) s) []) as (ps & r & E); [done|].
  rewrite E. cbn [mbind option_bind app]. destruct ps; [by eexists|]. destruct (0 <? blen r); by eexists.
Qed.

Lemma gw_uri_total uri : exists u, uri_parse uri = Some u.
Proof.
  unfold uri_parse. destruct (_ || _); [by eexists|]. destruct (strchr uri 63) as [p|].
  - destruct (uri_param_parse_total (tail p)) as [ps Ep].
    destruct (gw_tree_total (take (length uri - length p) uri)) as [t Et].
    destruct (3 <=? blen (tail p)); rewrite ?Ep; cbn [mbind option_bind]; rewrite Et; by eexists.
  - destruct (gw_tree_total uri) as [t ->]. by eexists.
Qed.

Lemma gw_tree_print segs : segs <> [] -> Forall seg_ok segs ->
  uri_parse_tree (REST_URI_ROOT ++ concat (map (fun s => [47] ++ s) segs)) = Some (nodes_of segs).
Proof.
  intros Hne Hok. unfold uri_parse_tree.
  assert (is_prefix REST_URI_ROOT (REST_URI_ROOT ++ concat (map (fun s => [47] ++ s) segs)) = true) as Hp
    by (apply is_prefix_spec; by eexists).
  assert (strstr (REST_URI_ROOT ++ concat (map (fun s => [47] ++ s) segs)) REST_URI_ROOT
    = Some (REST_URI_ROOT ++ concat (map (fun s => [47] ++ s) segs))) as ->.
  { revert Hp. generalize (REST_URI_ROOT ++ concat (map (fun s => [47] ++ s) segs)). intros l Hp.
    destruct l; cbn [strstr]; by rewrite Hp. }
  rewrite drop_app_length, segs_pieces by done.
  destruct (last_Forall seg_ok segs [] Hok Hne) as (Hl1 & Hl2 & _).
  rewrite split_loop_pieces; [| |done|].
  - cbn [mbind option_bind app]. unfold blen. destruct (List.last segs []) as [|c l] eqn:El; [done|].
    unfold nodes_of. by rewrite El.
  - constructor; [apply not_elem_of_nil|]. apply removelast_Forall. eapply Forall_impl; [exact Hok|]. by intros s (_ & ? & _).
  - rewrite length_app. pose proof (pieces_length 47 ([] :: removelast segs)). lia.
Qed.

(** The URI of a resource of the gateway. *)
Definition gw_uri (segs : list bytes) : bytes := REST_URI_ROOT ++ concat (map (fun s => [47] ++ s) segs).

Lemma gw_uri_parse s x : seg_ok s -> seg_ok x -> uri_parse (gw_uri [s; x]) = Some (UriContent (nodes_of [s; x]) []).
Proof.
  intros Hs Hx. unfold uri_parse.
  assert (forall y, blen y <= 14 -> bool_decide (gw_uri [s; x] = y) = false) as Hno.
  { intros y Hy. apply bool_decide_eq_false. intros <-. destruct Hs as [Hs _], Hx as [Hx _].
    unfold gw_uri in Hy. cbn [map concat] in Hy. rewrite !blen_app in Hy. change (blen REST_URI_ROOT) with 13 in Hy.
    change (blen [47]) with 1 in Hy. change (blen (A := Z) []) with 0 in Hy.
    destruct s as [|? s], x as [|? x]; try done. rewrite !blen_cons in Hy. pose proof (blen_nonneg s). pose proof (blen_nonneg x). lia. }
  rewrite !Hno by done. cbn [orb].
  assert (63 ∉ gw_uri [s; x]) as Hq.
  { destruct Hs as (_ & _ & Hs), Hx as (_ & _ & Hx). unfold gw_uri. cbn [map concat]. rewrite !not_elem_of_app.
    split_and!; try done; apply (bool_decide_unpack _); vm_compute; exact I. }
  rewrite (proj2 (strchr_None _ 63) Hq). unfold gw_uri. rewrite gw_tree_print; [done|done|]. apply Forall_cons_2; [done|]. apply Forall_cons_2; [done|]. apply Forall_nil_2.
Qed.

(** Every request is answered. *)
Theorem gateway_total msg proxy put : is_Some (process_request_cli msg proxy put).
Proof.
  unfold process_request_cli. destruct (negb _); [done|]. destruct (gw_uri_total (rq_uri msg)) as [u ->]. cbn [mbind option_bind].
  destruct (_ =? 0); [by destruct (_ && _)|]. destruct (_ =? 0); [|done].
  destruct (_ && _); [by destruct (post_config _ _ _ _ _)|]. destruct (_ && _); [by destruct (post_ctrl _)|done].
Qed.

Lemma gw_authorize_succeeds token proxy :
  basic_authorize token proxy = SUCCEED ->
  exists t w, token = Some t /\ scan_basic t = Some w /\
    c_str (decoded w) = px_username proxy ++ [58] ++ px_password proxy.
Proof.
  unfold basic_authorize. intros Ha. destruct token as [t|]; [|done].
  destruct (blen t <=? 0); [done|]. destruct (scan_basic t) as [w|] eqn:Ew; [|done]. destruct (blen w =? 0); [done|].
  destruct (strcmp0 _ _) eqn:Hs; [|done]. apply bool_decide_eq_true in Hs. by exists t, w.
Qed.

(** The file is replaced, shown, and the program stopped or restarted only for a
    request whose token decodes to the configured user name and password. *)
Theorem gateway_authorized msg proxy put r e :
  process_request_cli msg proxy put = Some (r, e) ->
  (e <> NoEffect \/ exists s, re_body r = Some (Text s)) ->
  exists t w, rq_token msg = Some t /\ scan_basic t = Some w /\
    c_str (decoded w) = px_username proxy ++ [58] ++ px_password proxy.
Proof.
  unfold process_request_cli. destruct (Z.eqb_spec (basic_authorize (rq_token msg) proxy) SUCCEED) as [Ha|Ha]; cbn [negb].
  - intros _ _. by apply gw_authorize_succeeds.
  - intros [= <- <-] [He|[s Hs]]; done.
Qed.

Section Client.

(** A gateway and a text in Base64 that decodes to its user name and password:
    without white space, and of the length that the encoding has. *)
Context (proxy : proxy_info) (b64 : bytes).
Context (b64_decodes : base64_decode b64 = px_username proxy ++ [58] ++ px_password proxy)
  (b64_words : Forall (fun c => is_space c = false) b64)
  (b64_room : (length b64 * 6 / 8 - 2 <= length (base64_decode b64) <= length b64 * 6 / 8)%nat)
  (b64_four : 4 <= blen b64)
  (auth_text : 0 ∉ px_username proxy ++ [58] ++ px_password proxy)
  (memory_length : forall n, length (memory n) = n).

Lemma word_all s : Forall (fun c => is_space c = false) s -> word s = s.
Proof. induction 1 as [|c s Hc _ IH]; [done|]. cbn. by rewrite Hc, IH. Qed.

Lemma skip_space_none s : Forall (fun c => is_space c = false) s -> skip_space s = s.
Proof. destruct 1 as [|c s Hc _]; [done|]. cbn. by rewrite Hc. Qed.

Lemma drop_zeroed b k : (4 <= length b)%nat -> (length b - 3 <= k < length b)%nat -> exists l, drop k (zeroed b) = 0 :: l.
Proof.
  intros Hb Hk. unfold zeroed. rewrite (proj2 (Nat.leb_le 3 (length b))) by lia.
  rewrite drop_app_ge by (rewrite length_take; lia). rewrite length_take, Nat.min_l by lia.
  destruct (k - (length b - 3))%nat as [|[|[|n]]] eqn:E; [by eexists..|lia].
Qed.

(** The right user name and password are accepted, whatever the memory holds
    that the token is decoded to. *)
Lemma right_token : basic_authorize (Some (lit "Basic " ++ b64)) proxy = SUCCEED.
Proof.
  unfold basic_authorize. rewrite blen_app. change (blen (lit "Basic ")) with 6.
  replace (6 + blen b64 <=? 0) with false by lia.
  assert (scan_basic (lit "Basic " ++ b64) = Some b64) as ->.
  { unfold scan_basic. change (is_prefix (lit "Basic") (lit "Basic " ++ b64)) with true.
    change (drop 5 (lit "Basic " ++ b64)) with (32 :: b64). change (skip_space (32 :: b64)) with (skip_space b64).
    rewrite skip_space_none, word_all by apply b64_words. by destruct b64. }
  replace (blen b64 =? 0) with false by lia.
  assert (c_str (decoded b64) = px_username proxy ++ [58] ++ px_password proxy) as ->.
  { unfold decoded. set (n := (length b64 * 6 / 8)%nat) in *.
    assert (3 <= n)%nat as H3 by (unfold n; apply Nat.div_le_lower_bound; unfold blen in b64_four; lia).
    destruct (drop_zeroed (memory (n + 1)) (length (base64_decode b64))) as [l ->]; [rewrite memory_length; lia|rewrite memory_length; lia|].
    rewrite b64_decodes. by apply c_str_app. }
  unfold strcmp0. by rewrite bool_decide_eq_true_2.
Qed.

Context (cmp_eq : forall a b, nng_strcasecmp a b = 0 <-> map lower a = map lower b).

Lemma cmp_refl a : (nng_strcasecmp a a =? 0) = true.
Proof. rewrite (strcasecmp_eqb _ cmp_eq). by apply bool_decide_eq_true_2. Qed.

Lemma cmp_post_get : (nng_strcasecmp (lit "POST") (lit "GET") =? 0) = false.
Proof. rewrite (strcasecmp_eqb _ cmp_eq). done. Qed.

(** An authorized client replaces the configuration file of the gateway, and
    reads back what it wrote. *)
Theorem gateway_config_round_trip type data :
  let token := Some (lit "Basic " ++ b64) in
  let uri := gw_uri [lit "configuration"; px_name proxy] in
  seg_ok (px_name proxy) ->
  process_request_cli (Request (lit "POST") uri type token data) proxy 0 =
    Some (Reply NNG_HTTP_STATUS_OK (Some (lit "application/json")) (Some (Json SUCCEED)), WriteFile (px_conf_path proxy) data) /\
  (file_load_data (px_conf_path proxy) = data ++ [0] ->
   process_request_cli (Request (lit "GET") uri type token []) proxy 0 =
     Some (Reply NNG_HTTP_STATUS_OK (Some (lit "text/plain")) (Some (Text data)), NoEffect)).
Proof.
  intros token uri Hs.
  assert (seg_ok (lit "configuration")) as Hc.
  { split; [done|]. split; apply (bool_decide_unpack _); vm_compute; exact I. }
  unfold process_request_cli, token, uri. cbn [rq_token rq_type rq_method rq_data rq_uri].
  rewrite right_token, gw_uri_parse by done. cbn [negb Z.eqb SUCCEED mbind option_bind uc_sub_tree].
  change (ends_at (nodes_of [lit "configuration"; px_name proxy]) 3) with true.
  change (node_is (nodes_of [lit "configuration"; px_name proxy]) 1 (lit "configuration")) with true. cbn [andb].
  change (node_at (nodes_of [lit "configuration"; px_name proxy]) 2) with (px_name proxy).
  unfold post_config, get_config. rewrite !cmp_refl, cmp_post_get. split; [done|].
  intros ->. rewrite blen_app. change (blen [0]) with 1. pose proof (blen_nonneg data).
  replace (0 <? blen data + 1) with true by lia. rewrite length_app, Nat.add_sub, take_app_length. done.
Qed.

(** A request that matches no resource is answered with the status 0. *)
Theorem gateway_unknown_resource x type :
  seg_ok x ->
  process_request_cli (Request (lit "GET") (gw_uri [lit "nodes"; x]) type (Some (lit "Basic " ++ b64)) []) proxy 0 =
    Some (no_reply, NoEffect).
Proof.
  intros Hs. assert (seg_ok (lit "nodes")) as Hc.
  { split; [done|]. split; apply (bool_decide_unpack _); vm_compute; exact I. }
  unfold process_request_cli. cbn [rq_token rq_method rq_uri].
  rewrite right_token, gw_uri_parse by done. cbn [negb Z.eqb SUCCEED mbind option_bind uc_sub_tree]. rewrite cmp_refl.
  change (ends_at (nodes_of [lit "nodes"; x]) 3) with true. done.
Qed.

End Client.

End Requests.

(** ** Witnesses *)

Section Witness.

Definition decode_admin (t : bytes) : bytes := lit "admin:public".
Definition garbage (n : nat) : bytes := repeat 120 n.
Definition zmq : proxy_info := ProxyInfo (lit "/etc/gw.conf") (lit "zmq") (lit "admin") (lit "public") [lit "nanomq_cli"].

Lemma gateway_authorized_witness :
  exists t w, Some (lit "Basic YWRtaW46cHVibGlj") = Some t /\ scan_basic t = Some w /\
    c_str (decoded decode_admin garbage w) = lit "admin:public".
Proof.
  refine (gateway_authorized decode_admin casecmp (fun _ => []) garbage
    (Request (lit "POST") (lit "/api/v4/proxy/ctrl/stop") None (Some (lit "Basic YWRtaW46cHVibGlj")) []) zmq 0
    (Reply NNG_HTTP_STATUS_OK (Some (lit "application/json")) (Some (Json SUCCEED))) (Control CMD_STOP) _ _).
  - vm_compute. reflexivity.
  - left. discriminate.
Defined.

Lemma gateway_config_round_trip_witness :
  process_request_cli decode_admin casecmp (fun _ => lit "x=1" ++ [0]) garbage
    (Request (lit "GET") (lit "/api/v4/proxy/configuration/zmq") None (Some (lit "Basic YWRtaW46cHVibGlj")) []) zmq 0 =
  Some (Reply NNG_HTTP_STATUS_OK (Some (lit "text/plain")) (Some (Text (lit "x=1"))), NoEffect).
Proof.
  refine (proj2 (gateway_config_round_trip decode_admin casecmp (fun _ => lit "x=1" ++ [0]) garbage zmq (lit "YWRtaW46cHVibGlj")
    eq_refl _ _ _ _ _ _ None (lit "x=1") _) eq_refl).
  - repeat (apply Forall_cons_2; [reflexivity|]). apply Forall_nil_2.
  - vm_compute. lia.
  - vm_compute. discriminate.
  - apply (bool_decide_unpack _). vm_compute. exact I.
  - intros n. apply repeat_length.
  - intros a b. unfold casecmp. by destruct (decide (map lower a = map lower b)).
  - split; [discriminate|]. split; apply (bool_decide_unpack _); vm_compute; exact I.
Defined.

End Witness.

End GatewayRest.
