(* ===== verification/GatewayParams.v ===== *)
(** * Parameters and messages of the gateways (nanomq_cli/rest_api.c)

    The functions that nanomq_cli/rest_api.c has in a copy of its own: the
    parameters of a URI, with the failures of the allocator, and filling and
    freeing HTTP messages. *)

From S2P Require Import Prelude RestApi WebServer.

Module GatewayParams.

Import RestApi.

(** The loop over the pairs: [alloc] says for each pair whether its parameter
    can be allocated; [params] is [None] once the array was freed.  [None] as
    the result is a write through NULL. *)
Fixpoint param_loop (kv_str : list bytes) (alloc : nat -> bool) (i : nat) (params : option (list kv)) : option (option (list kv)) :=
  match kv_str with
  | [] => Some params
  | s :: kv_str =>
      match strchr s 61 with
      | None => param_loop kv_str alloc (S i) params
      | Some eq =>
          if bool_decide (length eq = length s) || bool_decide (tail eq = []) then param_loop kv_str alloc (S i) params
          else
            match params with
            | None => None
            | Some l =>
                if negb (alloc i) then param_loop kv_str alloc (S i) None
                else param_loop kv_str alloc (S i) (Some (l ++ [Kv (take (length s - length eq) s) (tail eq)]))
            end
      end
  end.

(** The result, NULL being no parameters. *)
Definition uri_param_parse (alloc : nat -> bool) (path : bytes) : option (list kv) :=
  '(pieces, str) ← split_loop 38 (length path) path [];
  match pieces, strchr str 61 with
  | [], None => Some []
  | _, _ => r ← param_loop (pieces ++ [str]) alloc 0 (Some []); Some (match r with Some l => l | None => [] end)
  end.

Definition put_http_msg : WebServer.http_msg -> option bytes -> option bytes -> option bytes -> option bytes -> option bytes -> WebServer.http_msg :=
  WebServer.put_http_msg.

(** What is freed; the pointers stay. *)
Definition destory_http_msg : WebServer.http_msg -> list bytes := WebServer.destory_http_msg.

(** ** Properties *)

Lemma param_loop_ok kv_str alloc i l :
  (forall k, alloc k = true) -> param_loop kv_str alloc i (Some l) = Some (Some (l ++ params_loop kv_str)).
Proof.
  intros Ha. revert i l. induction kv_str as [|s kv_str IH]; intros i l; cbn [param_loop params_loop]; [by rewrite app_nil_r|].
  destruct (strchr s 61) as [eq|]; [|apply IH]. destruct (_ || _); [apply IH|]. rewrite Ha. cbn [negb]. rewrite IH. by rewrite <- app_assoc.
Qed.

(** With memory the copy computes what that of the broker computes. *)
Theorem params_agree alloc path : (forall k, alloc k = true) -> uri_param_parse alloc path = RestApi.uri_param_parse path.
Proof.
  intros Ha. unfold uri_param_parse, RestApi.uri_param_parse. destruct (split_loop 38 (length path) path []) as [[pieces str]|]; [|done].
  cbn [mbind option_bind]. destruct pieces as [|p pieces], (strchr str 61); [|done|..]; rewrite param_loop_ok by done; done.
Qed.

(** After a failed allocation the array is gone, but the loop goes on: the next
    pair is stored through NULL. *)
Theorem param_loop_null s1 s2 alloc :
  alloc 0%nat = false ->
  (forall s, s = s1 \/ s = s2 -> exists eq, strchr s 61 = Some eq /\ length eq <> length s /\ tail eq <> []) ->
  param_loop [s1; s2] alloc 0 (Some []) = None.
Proof.
  intros Ha H. cbn [param_loop]. destruct (H s1) as (e1 & -> & L1 & T1); [by left|].
  rewrite !bool_decide_eq_false_2 by done. cbn [orb]. rewrite Ha. cbn [negb].
  destruct (H s2) as (e2 & -> & L2 & T2); [by right|]. by rewrite !bool_decide_eq_false_2 by done.
Qed.

End GatewayParams.
