(* ===== verification/ZmqGateway.v ===== *)
(** * The ZeroMQ gateway (nanomq_cli/zmq_gateway.c)

    The gateway connects to a broker and to ZeroMQ sockets.  Workers hand the
    messages of a subscription to ZeroMQ, behind a prefix if one is configured;
    a loop publishes what ZeroMQ receives.  The parser of the configuration file
    is nanolib's and a parameter, as is the memory that is allocated for the
    configuration and not set. *)

From S2P Require Import Prelude OptsApi.

Module ZmqGateway.

(** ** Configuration *)

Inductive zmq_type := PUB_SUB | REQ_REP.

#[export] Instance zmq_type_eq_dec : EqDecision zmq_type.
Proof. solve_decision. Defined.

(** zmq_gateway_conf *)
Record zmq_gateway_conf := ZmqConf {
  zc_mqtt_url : option bytes;
  zc_zmq_pub_url : option bytes;
  zc_zmq_sub_url : option bytes;
  zc_pub_topic : option bytes;
  zc_sub_topic : option bytes;
  zc_zmq_sub_pre : option bytes;
  zc_zmq_pub_pre : option bytes;
  zc_type : zmq_type;
  zc_username : option bytes;
  zc_password : option bytes;
  zc_proto_ver : Z;
  zc_keepalive : Z;
  zc_clean_start : bool;
  zc_parallel : Z;
  zc_path : option bytes;
  zc_http_enable : bool
}.

(** Four members keep what the memory held. *)
Definition gateway_conf_init (c : zmq_gateway_conf) : zmq_gateway_conf :=
  ZmqConf None None None None None None None PUB_SUB None None 4 60
    (zc_clean_start c) (zc_parallel c) (zc_path c) (zc_http_enable c).

Definition with_path (c : zmq_gateway_conf) (p : option bytes) : zmq_gateway_conf :=
  ZmqConf (zc_mqtt_url c) (zc_zmq_pub_url c) (zc_zmq_sub_url c) (zc_pub_topic c) (zc_sub_topic c) (zc_zmq_sub_pre c)
    (zc_zmq_pub_pre c) (zc_type c) (zc_username c) (zc_password c) (zc_proto_ver c) (zc_keepalive c) (zc_clean_start c)
    (zc_parallel c) p (zc_http_enable c).

(** -1 without the topics.  The defaults that are meant for the URLs are values
    of expressions that nothing takes: the URLs stay NULL. *)
Definition gateway_conf_check_and_set (c : zmq_gateway_conf) : option zmq_gateway_conf :=
  match zc_sub_topic c, zc_pub_topic c with
  | Some _, Some _ => Some c
  | _, _ => None
  end.

(** ** Options *)

Definition OPT_HELP : Z := 1.
Definition OPT_CONFFILE : Z := 2.

Definition gateway_cmd_opts : list optspec :=
  [OptSpec (lit "help") 104 OPT_HELP false; OptSpec (lit "conf") 0 OPT_CONFFILE true].

Definition gateway_opt (val : Z) (arg : option bytes) (c : zmq_gateway_conf) : zmq_gateway_conf + stop :=
  if val =? OPT_HELP then inr (ExitWith 0)
  else if val =? OPT_CONFFILE then
    match arg with Some a => inl (with_path c (Some a)) | None => inr UseNull end
  else inl c.

Section Gateway.

Context `{OP : OptsParse}.

(** The result says whether the options ended without an error; the caller does
    not look at it. *)
Definition gateway_parse_opts (argv : list bytes) (c : zmq_gateway_conf) : option (zmq_gateway_conf * bool + stop) :=
  r ← parse_loop gateway_cmd_opts gateway_opt (S (length argv)) (drop 1 argv) 1 c;
  Some (match r with inl (c, rv) => inl (c, rv =? -1) | inr e => inr e end).

(** ** Messages to ZeroMQ *)

(** [zmq_send(sender, data, len, flags)] *)
Record frame := Frame { fr_data : bytes; fr_more : bool }.

Definition check_recv (c : zmq_gateway_conf) (payload : bytes) : list frame :=
  match zc_zmq_pub_pre c with Some p => [Frame p true] | None => [] end ++ [Frame payload false].

Inductive work_state := INIT | RECV | WAIT | SEND.

(** What a worker does; [FreeUnset] frees a pointer that was not set and
    [UseNoMsg] reads a message that is not there: both are undefined. *)
Inductive gateway_call := CtxRecv | ZmqSend (f : frame) | FreeUnset | UseNoMsg | BadState.

#[export] Instance frame_eq_dec : EqDecision frame.
Proof. solve_decision. Defined.

#[export] Instance gateway_call_eq_dec : EqDecision gateway_call.
Proof. solve_decision. Defined.

(** gateway_sub_cb: [result] is nng_aio_result, [msg] the payload of the message
    of the aio if there is one.  The member [msg] of a worker is never set. *)
Definition gateway_sub_cb (c : zmq_gateway_conf) (st : work_state) (result : Z) (msg : option bytes)
  : work_state * list gateway_call :=
  match st with
  | INIT => (RECV, [CtxRecv])
  | RECV =>
      let pre := if negb (result =? 0) then [FreeUnset] else [] in
      match msg with
      | Some payload => (RECV, pre ++ map ZmqSend (check_recv c payload) ++ [CtxRecv])
      | None => (RECV, pre ++ [UseNoMsg])
      end
  | WAIT | SEND => (st, [BadState])
  end.

(** The calls of a worker for the results and messages of its aio. *)
Fixpoint work_run (c : zmq_gateway_conf) (st : work_state) (l : list (Z * option bytes)) : list gateway_call :=
  match l with
  | [] => []
  | (rv, m) :: l => let '(st, k) := gateway_sub_cb c st rv m in k ++ work_run c st l
  end.

(** ** The start *)

Inductive gateway_action :=
  | ZmqSocket (sub req : bool)
  | ZmqConnectReceiver (url : option bytes) | ZmqSubscribe (prefix : bytes) | ZmqConnectSender (url : option bytes)
  | OpenMqtt | AllocWorks (n : Z)
  | SetConnect (proto keepalive : Z) (clean : bool) (user pass : option bytes)
  | CreateDialer (url : option bytes) | StartDialer | StartWorks (n : Z)
  | Publish (topic : option bytes) (payload : bytes).

(** client(): nothing more when the socket cannot be opened. *)
Definition client (c : zmq_gateway_conf) (opened : Z) : list gateway_action :=
  OpenMqtt ::
  if negb (opened =? 0) then []
  else
    [AllocWorks (zc_parallel c);
     SetConnect (zc_proto_ver c) (zc_keepalive c) (zc_clean_start c) (zc_username c) (zc_password c);
     CreateDialer (zc_mqtt_url c); StartDialer; StartWorks (zc_parallel c)].

(** zmq_gateway: the start, and the messages received from ZeroMQ. *)
Definition zmq_gateway (c : zmq_gateway_conf) (opened : Z) (received : list bytes) : list gateway_action :=
  [ZmqSocket true (bool_decide (zc_type c = REQ_REP)); ZmqSocket false (bool_decide (zc_type c = REQ_REP));
   ZmqConnectReceiver (zc_zmq_sub_url c); ZmqSubscribe (default [] (zc_zmq_sub_pre c));
   ZmqConnectSender (zc_zmq_pub_url c)] ++ client c opened ++
  map (fun m => Publish (zc_pub_topic c) m) received.

(** conf_gateway_parse_ver2 reads the file at the path of the configuration. *)
Context (conf_gateway_parse_ver2 : zmq_gateway_conf -> zmq_gateway_conf).

(** gateway_start with the [memory] of its configuration: the program ends, or
    whether the HTTP server is started, and the actions of the gateway. *)
Definition gateway_start (memory : zmq_gateway_conf) (argv : list bytes) (opened : Z) (received : list bytes)
  : option (bool * list gateway_action + stop) :=
  r ← gateway_parse_opts argv (gateway_conf_init memory);
  Some (match r with
        | inr e => inr e
        | inl (c, _) =>
            let c := conf_gateway_parse_ver2 c in
            inl (zc_http_enable c,
                 match gateway_conf_check_and_set c with Some c => zmq_gateway c opened received | None => [] end)
        end).

(** ** Properties *)

(** The frames a worker sends for a message: the prefix, if there is one, with
    the payload as the last part. *)
Definition frames_of (k : list gateway_call) : list frame :=
  omap (fun a => match a with ZmqSend f => Some f | _ => None end) k.

Lemma frames_of_sends l : frames_of (map ZmqSend l) = l.
Proof. induction l as [|f l IH]; [done|]. cbn. by rewrite <- IH at 2. Qed.

Lemma frames_app k l : frames_of (k ++ l) = frames_of k ++ frames_of l.
Proof. apply omap_app. Qed.

(** A worker hands every message of the subscription to ZeroMQ once and in
    order, and receives again after each. *)
Theorem gateway_forwards_mqtt c ps :
  let run := work_run c INIT ((0, None) :: map (fun p => (0, Some p)) ps) in
  frames_of run = concat (map (check_recv c) ps) /\
  length (filter (fun a => a = CtxRecv) run) = S (length ps).
Proof.
  cbv zeta. cbn [work_run gateway_sub_cb].
  change (frames_of ([CtxRecv] ++ work_run c RECV (map (fun p => (0, Some p)) ps)))
    with (frames_of (work_run c RECV (map (fun p => (0, Some p)) ps))).
  assert (forall k, length (filter (fun a => a = CtxRecv) ([CtxRecv] ++ k)) = S (length (filter (fun a => a = CtxRecv) k))) as Hf
    by (intros k; cbn [app]; by rewrite filter_cons_True).
  rewrite Hf. clear Hf.
  enough (frames_of (work_run c RECV (map (fun p => (0, Some p)) ps)) = concat (map (check_recv c) ps) /\
    length (filter (fun a => a = CtxRecv) (work_run c RECV (map (fun p => (0, Some p)) ps))) = length ps) as [-> ->] by done.
  assert (forall p, filter (fun a => a = CtxRecv) (map ZmqSend (check_recv c p)) = []) as Hs
    by (intros p; unfold check_recv; by destruct (zc_zmq_pub_pre c)).
  induction ps as [|p ps [IH1 IH2]]; [done|]. cbn [map work_run gateway_sub_cb negb Z.eqb app concat length].
  rewrite !frames_app, !filter_app, frames_of_sends, Hs, IH1, !length_app, IH2. split; [|done].
  by rewrite app_nil_r.
Qed.

(** A failed receive frees a pointer that was never set and goes on with the
    message of the aio, which there is none of. *)
Theorem gateway_receive_error c rv :
  rv <> 0 -> snd (gateway_sub_cb c RECV rv None) = [FreeUnset; UseNoMsg].
Proof. intros H. cbn. by rewrite (proj2 (Z.eqb_neq rv 0) H). Qed.

(** The loop publishes every part that ZeroMQ receives to the configured topic,
    in order, after the client is connected to the configured broker. *)
Theorem gateway_forwards_zmq c received :
  exists start, zmq_gateway c 0 received = start ++ map (fun m => Publish (zc_pub_topic c) m) received /\
    CreateDialer (zc_mqtt_url c) ∈ start /\ StartWorks (zc_parallel c) ∈ start /\
    ZmqSubscribe (default [] (zc_zmq_sub_pre c)) ∈ start.
Proof.
  unfold zmq_gateway, client. cbn [negb Z.eqb]. eexists. split; [by rewrite app_assoc|].
  clear conf_gateway_parse_ver2. rewrite !elem_of_app, !elem_of_cons. tauto.
Qed.

(** A configuration without URLs is accepted, and the gateway connects to NULL
    where the defaults were meant. *)
Theorem gateway_defaults_lost c : zc_mqtt_url c = None -> zc_zmq_pub_url c = None -> zc_zmq_sub_url c = None ->
  is_Some (zc_sub_topic c) -> is_Some (zc_pub_topic c) ->
  exists c', gateway_conf_check_and_set c = Some c' /\
    CreateDialer None ∈ zmq_gateway c' 0 [] /\ ZmqConnectReceiver None ∈ zmq_gateway c' 0 [] /\
    ZmqConnectSender None ∈ zmq_gateway c' 0 [].
Proof.
  intros H1 H2 H3 [s Hs] [p Hp]. exists c. unfold gateway_conf_check_and_set. rewrite Hs, Hp. split; [done|].
  unfold zmq_gateway, client. rewrite H1, H2, H3. cbn.
  clear conf_gateway_parse_ver2. rewrite !elem_of_cons. tauto.
Qed.

Context `{OL : !OptsParseLaws}.

(** The options are read whatever they are, without the use of a NULL pointer;
    without --conf the path of the file is what the memory held. *)
Theorem gateway_options argv memory :
  (exists r, gateway_parse_opts argv (gateway_conf_init memory) = Some r /\ r <> inr UseNull) /\
  (forall c ok, gateway_parse_opts argv (gateway_conf_init memory) = Some (inl (c, ok)) ->
     zc_path c = zc_path memory \/ is_Some (zc_path c)).
Proof.
  unfold gateway_parse_opts. split.
  - destruct (parse_loop_ends gateway_cmd_opts gateway_opt (length argv) (drop 1 argv) 1 (gateway_conf_init memory)) as [r E].
    { rewrite length_drop. lia. }
    rewrite E. cbn [mbind option_bind]. eexists. split; [done|].
    pose proof (parse_loop_args gateway_cmd_opts gateway_opt (S (length argv)) (drop 1 argv) 1 (gateway_conf_init memory)) as Ha.
    destruct r as [[c rv]|e]; [done|]. intros [= ->]. apply Ha; [|done].
    intros o a st Ho Harg. unfold gateway_cmd_opts in Ho. rewrite !elem_of_cons, elem_of_nil in Ho.
    destruct Ho as [->|[->|[]]]; cbn; [done|]. destruct (Harg eq_refl) as [v ->]. done.
  - intros c ok. destruct (parse_loop _ _ _ _ _ _) as [[[c1 rv]|e]|] eqn:E; cbn; try done. intros [= <- _].
    eapply (parse_loop_keeps _ _ (fun c => zc_path c = zc_path memory \/ is_Some (zc_path c))) in E as [H _]; [done| |by left].
    intros v a st st' Hst. unfold gateway_opt. destruct (v =? OPT_HELP); [done|]. destruct (v =? OPT_CONFFILE).
    + destruct a; [|done]. intros [= <-]. right. by eexists.
    + by intros [= <-].
Qed.

End Gateway.

(** ** Witnesses *)

Definition unset : zmq_gateway_conf :=
  ZmqConf None None None None None None None PUB_SUB None None 0 0 true 0 None false.

Definition with_topics : zmq_gateway_conf :=
  ZmqConf None None None (Some (lit "a")) (Some (lit "b")) None (Some (lit "p")) PUB_SUB None None 4 60 true 2 None false.

Lemma gateway_defaults_lost_witness :
  exists c', gateway_conf_check_and_set with_topics = Some c' /\
    CreateDialer None ∈ zmq_gateway c' 0 [] /\ ZmqConnectReceiver None ∈ zmq_gateway c' 0 [] /\
    ZmqConnectSender None ∈ zmq_gateway c' 0 [].
Proof. refine (gateway_defaults_lost with_topics eq_refl eq_refl eq_refl _ _); by eexists. Defined.

(** An option that does not exist does not keep the gateway from starting. *)
Theorem bad_option_ignored :
  gateway_start (OP := long_opts) (fun c => with_topics) unset [lit "nanomq_cli"; lit "gateway"; lit "--nope"] 0 [] =
    Some (inl (false, zmq_gateway with_topics 0 [])).
Proof. vm_compute. reflexivity. Qed.

End ZmqGateway.
