(* ===== verification/RuleCtrl.v ===== *)
(** * The command "rules" (nanomq_cli/rule_ctrl.c)

    The command creates, changes, deletes and shows rules of a broker on the
    same host with requests to its HTTP interface.  Options are read into two
    buffers of fixed size; the request is sent and its answer printed.  cJSON
    and the HTTP client are parameters. *)

From S2P Require Import Prelude OptsApi RuleSql RestApi.

Module RuleCtrl.

Import RestApi.

(** ** Options *)

Inductive rule_opt := OPT_HELP | OPT_CREATE | OPT_UPDATE | OPT_LIST | OPT_SHOW | OPT_DELETE | OPT_ID | OPT_SQL | OPT_ENABLED | OPT_ACTIONS.

#[export] Instance rule_opt_eq_dec : EqDecision rule_opt.
Proof. solve_decision. Defined.

(** In the order of the enumeration, which starts at 1. *)
Definition rule_options : list rule_opt :=
  [OPT_HELP; OPT_CREATE; OPT_UPDATE; OPT_LIST; OPT_SHOW; OPT_DELETE; OPT_ID; OPT_SQL; OPT_ENABLED; OPT_ACTIONS].

Definition rule_cmd_opts : list optspec :=
  let o n s v a := OptSpec (lit n) s (enum_val rule_options v) a in
  [o "help" 104 OPT_HELP false; o "list" 108 OPT_LIST false; o "show" 115 OPT_SHOW false;
   o "create" 99 OPT_CREATE false; o "update" 117 OPT_UPDATE false; o "delete" 100 OPT_DELETE false;
   o "id" 105 OPT_ID true; o "sql" 0 OPT_SQL true; o "actions" 0 OPT_ACTIONS true; o "enabled" 101 OPT_ENABLED true]%string.

Inductive rule_cmd := RULE_CREATE | RULE_DELETE | RULE_UPDATE | RULE_SHOW | RULE_LIST | RULE_NONE.

(** The local variables of rules_parse_opts *)
Record rule_args := RuleArgs {
  ra_cmd : rule_cmd;
  ra_id : Z;
  ra_enabled : Z;
  ra_sql : bytes;
  ra_actions : bytes
}.

Definition no_args : rule_args := RuleArgs RULE_NONE 0 0 [] [].

Definition set_cmd (c : rule_cmd) (a : rule_args) : rule_args :=
  RuleArgs c (ra_id a) (ra_enabled a) (ra_sql a) (ra_actions a).

(** snprintf into a buffer of [n] bytes *)
Definition snprintf (n : nat) (s : bytes) : bytes := take (n - 1) s.

Definition rules_opt (o : rule_opt) (arg : option bytes) (a : rule_args) : rule_args + stop :=
  match o with
  | OPT_HELP => inr (ExitWith 0)
  | OPT_CREATE => inl (set_cmd RULE_CREATE a)
  | OPT_UPDATE => inl (set_cmd RULE_UPDATE a)
  | OPT_LIST => inl (set_cmd RULE_LIST a)
  | OPT_SHOW => inl (set_cmd RULE_SHOW a)
  | OPT_DELETE => inl (set_cmd RULE_DELETE a)
  | OPT_ID =>
      match arg with
      | Some v => inl (RuleArgs (ra_cmd a) (u32 (atoi v)) (ra_enabled a) (ra_sql a) (ra_actions a))
      | None => inr UseNull
      end
  | OPT_SQL =>
      match arg with
      | Some v => inl (RuleArgs (ra_cmd a) (ra_id a) (ra_enabled a) (snprintf 128 v) (ra_actions a))
      | None => inr UseNull
      end
  | OPT_ENABLED =>
      match arg with
      | Some v =>
          let e := if strcmp0 (lit "true") v then 2 else if strcmp0 (lit "false") v then 1 else ra_enabled a in
          inl (RuleArgs (ra_cmd a) (ra_id a) e (ra_sql a) (ra_actions a))
      | None => inr UseNull
      end
  | OPT_ACTIONS =>
      match arg with
      | Some v =>
          inl (RuleArgs (ra_cmd a) (ra_id a) (ra_enabled a) (ra_sql a)
            (snprintf 512 (lit "{ " ++ [34] ++ lit "actions" ++ [34] ++ lit ":" ++ v ++ lit " }")))
      | None => inr UseNull
      end
  end.

(** ** Requests *)

(** The JSON object that is sent: what [actions] parses to, or an empty object,
    with the members that are added. *)
Record rule_body := RuleBody { rb_actions : option bytes; rb_enabled : option bool; rb_sql : option bytes }.

Inductive method := GET | POST | PUT | DELETE.

(** A call of send_http; [rq_body] is [None] for NULL. *)
Record rule_request := RuleRequest { rq_method : method; rq_id : Z; rq_body : option rule_body }.

(** Two messages are printed without a request, or with one. *)
Record outcome := Outcome { oc_errors : nat; oc_request : option rule_request; oc_return : bool }.

(** [cJSON_Parse]: whether the text is JSON, and an object. *)
Section Command.

Context (parses is_object : bytes -> bool).

Definition enabled_of (a : rule_args) : option bool :=
  if negb (ra_enabled a =? 0) then Some (negb (ra_enabled a - 1 =? 0)) else None.

Definition sql_of (a : rule_args) : option bytes := if negb (blen (ra_sql a) =? 0) then Some (ra_sql a) else None.

Definition request (m : method) (id : Z) (b : option rule_body) : option rule_request := Some (RuleRequest m (i32 id) b).

(** The switch over the command; [oc_return] is that the function returns -1
    there. *)
Definition run_cmd (a : rule_args) : outcome :=
  match ra_cmd a with
  | RULE_CREATE =>
      if negb (blen (ra_actions a) =? 0) then
        if negb (is_object (ra_actions a)) then Outcome 1 None true
        else
          Outcome (match sql_of a with Some _ => 0 | None => 1 end)
            (request POST 0 (Some (RuleBody (Some (ra_actions a)) (enabled_of a) (sql_of a)))) false
      else Outcome 1 None true
  | RULE_UPDATE =>
      if ra_id a =? 0 then Outcome 1 None true
      else if (blen (ra_actions a) =? 0) && (ra_enabled a =? 0) && (blen (ra_sql a) =? 0) then Outcome 1 None true
      else if negb (blen (ra_actions a) =? 0) then
        Outcome 0 (request PUT (ra_id a)
          (if parses (ra_actions a) then Some (RuleBody (Some (ra_actions a)) (enabled_of a) (sql_of a)) else None)) false
      else Outcome 0 (request PUT (ra_id a) (Some (RuleBody None (enabled_of a) (sql_of a)))) false
  | RULE_DELETE => if ra_id a =? 0 then Outcome 1 None true else Outcome 0 (request DELETE (ra_id a) None) false
  | RULE_SHOW => if ra_id a =? 0 then Outcome 1 None true else Outcome 0 (request GET (ra_id a) None) false
  | RULE_LIST => Outcome 0 (request GET 0 None) false
  | RULE_NONE => Outcome 1 None false
  end.

Context `{OP : OptsParse}.

Definition rules_parse_opts (argv : list bytes) : option (outcome * Z + stop) :=
  r ← parse_loop rule_cmd_opts (switch rule_options rules_opt) (S (length argv)) (drop 1 argv) 1 no_args;
  Some (match r with inl (a, rv) => inl (run_cmd a, rv) | inr e => inr e end).

End Command.

(** The request line: new_url[64] *)
Definition request_path (id : Z) : bytes :=
  snprintf 64 (lit "http://localhost:8081/api/v4/rules" ++ if negb (id =? 0) then lit "/rule:" ++ RuleSql.dec id else []).

(** ** send_http *)

(** What the calls return: the five allocations, connecting, writing, reading,
    the header Content-Length, and reading the data. *)
Record http_env := HttpEnv {
  ev_init : Z; ev_connect : Z; ev_write : Z; ev_read : Z; ev_length : option bytes; ev_body : Z; ev_data : bytes
}.

(** How it ends: the unset pointer [data] is freed, the program ends, nothing is
    printed, a negative length, or the lines that are printed. *)
Inductive http_end := FreeUnset | Ends | Empty | BadLength | Shown (lines : list bytes).

Section Http.

Context {J : Type} (parse : bytes -> option J) (item : J -> bytes -> option J) (is_object : J -> bool)
  (elements : J -> list J) (print : J -> bytes).

Definition show (data : bytes) : list bytes :=
  match parse data ≫= fun j => item j (lit "data") with
  | Some e => if is_object e then [print e] else map print (elements e)
  | None => [data]
  end.

Definition send_http (e : http_env) : http_end :=
  if negb (ev_init e =? 0) || negb (ev_connect e =? 0) || negb (ev_write e =? 0) then FreeUnset
  else if negb (ev_read e =? 0) then Ends
  else
    match ev_length e with
    | None => Ends
    | Some h =>
        let len := atoi h in
        if len =? 0 then Empty
        else if len <? 0 then BadLength
        else if negb (ev_body e =? 0) then Ends
        else Shown (show (take (Z.to_nat len) (ev_data e)))
    end.

(** A request that cannot be sent ends with a pointer freed that was never
    set. *)
Theorem send_error_undefined e :
  ev_init e <> 0 \/ ev_connect e <> 0 \/ ev_write e <> 0 -> send_http e = FreeUnset.
Proof.
  unfold send_http. destruct (Z.eqb_spec (ev_init e) 0), (Z.eqb_spec (ev_connect e) 0), (Z.eqb_spec (ev_write e) 0); cbn; tauto.
Qed.

End Http.

(** ** Properties *)

(** The address of a rule fits its buffer, and the broker routes it to the
    handler for that rule. *)
Theorem request_path_whole id : 0 < id < 2147483648 ->
  request_path id = lit "http://localhost:8081" ++ print_uri [lit "rules"; lit "rule:" ++ RuleSql.dec id] [].
Proof.
  intros Hid. unfold request_path. rewrite (proj2 (Z.eqb_neq id 0)) by lia. cbn [negb].
  pose proof (RuleSql.dec_length 10 id ltac:(lia) ltac:(cbn; lia)) as Hd. unfold blen in Hd. unfold snprintf. rewrite take_ge.
  - unfold print_uri. cbn [map concat]. rewrite !app_nil_r, !app_assoc. reflexivity.
  - rewrite !length_app. change (length (lit "http://localhost:8081/api/v4/rules")) with 34%nat. change (length (lit "/rule:")) with 6%nat. lia.
Qed.

Section Checked.

Context (parses is_object : bytes -> bool).

(** A request that names no rule is sent only to create one, with an object for
    its actions, or to list them; one that changes, deletes or shows a rule has
    its number, and a change has something to change. *)
Theorem rule_request_checked a r :
  0 <= ra_id a < 2147483648 -> oc_request (run_cmd parses is_object a) = Some r ->
  match rq_method r with
  | POST => rq_id r = 0 /\ is_object (ra_actions a) = true /\ exists b, rq_body r = Some b /\ rb_actions b = Some (ra_actions a)
  | PUT => rq_id r = ra_id a /\ 0 < rq_id r /\ (ra_actions a <> [] \/ ra_enabled a <> 0 \/ ra_sql a <> [])
  | DELETE => rq_id r = ra_id a /\ 0 < rq_id r /\ rq_body r = None
  | GET => rq_body r = None /\ ((ra_cmd a = RULE_LIST /\ rq_id r = 0) \/ (ra_cmd a = RULE_SHOW /\ rq_id r = ra_id a /\ 0 < rq_id r))
  end.
Proof.
  intros Hid. unfold run_cmd, request.
  assert (forall s : bytes, (blen s =? 0) = false -> s <> []) as Hb by (intros s H ->; done).
  destruct (ra_cmd a); cbn.
  - destruct (blen (ra_actions a) =? 0); [done|]. cbn. destruct (is_object (ra_actions a)) eqn:Eo; [|done]. intros [= <-]. cbn. eauto.
  - destruct (Z.eqb_spec (ra_id a) 0); [done|]. intros [= <-]. cbn. rewrite i32_small by lia. split_and!; [done|lia|done].
  - destruct (Z.eqb_spec (ra_id a) 0); [done|].
    destruct (blen (ra_actions a) =? 0) eqn:Ea.
    + destruct (Z.eqb_spec (ra_enabled a) 0), (blen (ra_sql a) =? 0) eqn:Es; cbn; try done; intros [= <-]; cbn;
        rewrite i32_small by lia; (split; [done|]); split; try lia; auto.
    + cbn. intros [= <-]. cbn. rewrite i32_small by lia. split; [done|]. split; [lia|]. left. by apply Hb.
  - destruct (Z.eqb_spec (ra_id a) 0); [done|]. intros [= <-]. cbn. rewrite i32_small by lia. split; [done|]. right. split; [done|lia].
  - intros [= <-]. cbn. split; [done|]. by left.
  - done.
Qed.

Context `{OP : OptsParse} `{OL : !OptsParseLaws}.

(** Reading the options ends and uses no NULL pointer. *)
Theorem rule_options_read argv : exists r, rules_parse_opts parses is_object argv = Some r /\ r <> inr UseNull.
Proof.
  unfold rules_parse_opts.
  destruct (parse_loop_ends rule_cmd_opts (switch rule_options rules_opt) (length argv) (drop 1 argv) 1 no_args) as [r E].
  { rewrite length_drop. lia. }
  rewrite E. cbn [mbind option_bind]. eexists. split; [done|].
  pose proof (parse_loop_args rule_cmd_opts (switch rule_options rules_opt) (S (length argv)) (drop 1 argv) 1 no_args) as Ha.
  destruct r as [[c rv]|e]; [done|]. intros [= ->]. apply Ha; [|done].
  intros o a st Ho Harg. unfold rule_cmd_opts in Ho. rewrite !elem_of_cons, elem_of_nil in Ho.
  repeat (destruct Ho as [->|Ho]; [first [done|destruct (Harg eq_refl) as [v ->]; done]|]). done.
Qed.

End Checked.

(** ** Examples and witnesses *)

Lemma rule_request_checked_witness :
  let a := RuleArgs RULE_DELETE 7 0 [] [] in
  rq_id (RuleRequest DELETE 7 None) = ra_id a /\ 0 < rq_id (RuleRequest DELETE 7 None) /\ rq_body (RuleRequest DELETE 7 None) = None.
Proof.
  refine (rule_request_checked (fun _ => true) (fun _ => true) (RuleArgs RULE_DELETE 7 0 [] []) (RuleRequest DELETE 7 None) _ eq_refl).
  cbn. lia.
Defined.

(** "create" without --sql prints an error and sends the request all the same. *)
Theorem create_without_sql :
  rules_parse_opts (OP := long_opts) (fun _ => true) (fun _ => true)
    [lit "nanomq_cli"; lit "rules"; lit "--create"; lit "--actions"; lit "[]"] =
  Some (inl (Outcome 1 (Some (RuleRequest POST 0 (Some (RuleBody
    (Some (lit "{ " ++ [34] ++ lit "actions" ++ [34] ++ lit ":[] }")) None None)))) false, -1)).
Proof. vm_compute. reflexivity. Qed.

(** The actions are cut off at the size of the buffer: the closing brace is
    lost. *)
Theorem actions_truncated v : (499 <= length v)%nat ->
  exists a, rules_opt OPT_ACTIONS (Some v) no_args = inl a /\
    ra_actions a = lit "{ " ++ [34] ++ lit "actions" ++ [34] ++ lit ":" ++ take 499 v.
Proof.
  intros Hv. eexists. split; [reflexivity|]. cbn [ra_actions]. unfold snprintf.
  rewrite !app_assoc. rewrite <- (app_assoc _ v). rewrite take_app_ge by (cbn; lia).
  f_equal. change (512 - 1 - _)%nat with 499%nat. by rewrite take_app_le.
Qed.

End RuleCtrl.
