(* ===== verification/Nftp.v ===== *)
(** * File transfer over MQTT (nanomq_cli/nftp_client.c)

    The sender greets the receiver, waits for its acknowledgement and publishes
    the blocks of a file; the receiver stores them and asks for the first block
    that it waits for in vain.  The protocol library NFTP is external: the
    results of its functions are arguments, and for the whole transfer its
    receiver is the set of blocks that it has stored. *)

From S2P Require Import Prelude OptsApi.

Module Nftp.

Definition NFTP_TYPE_HELLO : Z := 1.
Definition NFTP_TYPE_ACK : Z := 2.
Definition NFTP_TYPE_FILE : Z := 3.
Definition NFTP_TYPE_END : Z := 4.
Definition NFTP_TYPE_GIVEME : Z := 5.

Definition FTOPIC_ALLINONE : bytes := lit "file/file-123".
Definition FURL : bytes := lit "mqtt-tcp://127.0.0.1:1883".
Definition FSENDERCLIENTID : bytes := lit "file-123-sender".
Definition FRECVERCLIENTID : bytes := lit "file-123-recver".

(** ** The stack of values *)

Definition STN : nat := 5.

(** [stcnt] and [stats] *)
Record stat := Stat { stcnt : nat; stats : list Z }.

Definition no_stat : stat := Stat 0 (repeat 0 STN).

(** The loop of stats_push; at most STN rounds, since stcnt is at most STN. *)
Fixpoint stats_loop (fuel i : nat) (v : Z) (s : stat) : stat :=
  match fuel with
  | O => s
  | S fuel =>
      if (i <? stcnt s)%nat then
        if negb (nth i (stats s) 0 =? v) then stats_loop fuel (S i) v (Stat 1 (<[0%nat := v]> (stats s)))
        else stats_loop fuel (S i) v s
      else s
  end.

(** The value when the stack was full of it, otherwise -1. *)
Definition stats_push (v : Z) (s : stat) : Z * stat :=
  let s := stats_loop (S STN) 0 v s in
  if bool_decide (stcnt s = STN) then (v, Stat 0 (stats s))
  else (-1, Stat (S (stcnt s)) (<[stcnt s := v]> (stats s))).

(** ** The client *)

Inductive client_type := SEND | RECV.

#[export] Instance client_type_eq_dec : EqDecision client_type.
Proof. solve_decision. Defined.

Record nftp_opts := NftpOpts { no_url : bytes; no_path_to_file : option bytes; no_dir : option bytes }.

Definition set_default_opts : nftp_opts := NftpOpts FURL None None.

Inductive nftp_option := OPT_HELP | OPT_MQTT_URL | OPT_PATH_TO_FILE | OPT_DIR.

#[export] Instance nftp_option_eq_dec : EqDecision nftp_option.
Proof. solve_decision. Defined.

Definition nftp_options : list nftp_option := [OPT_HELP; OPT_MQTT_URL; OPT_PATH_TO_FILE; OPT_DIR].

Definition nftp_cmd_opts : list optspec :=
  let o n s v a := OptSpec (lit n) s (enum_val nftp_options v) a in
  [o "help" 104 OPT_HELP false; o "url" 0 OPT_MQTT_URL true; o "file" 102 OPT_PATH_TO_FILE true; o "dir" 100 OPT_DIR true]%string.

(** An option other than "help"; [None] is an argument that is NULL. *)
Definition nftp_opt (o : nftp_option) (arg : option bytes) (n : nftp_opts) : option nftp_opts :=
  a ← arg;
  Some (match o with
        | OPT_HELP => n
        | OPT_MQTT_URL => NftpOpts a (no_path_to_file n) (no_dir n)
        | OPT_PATH_TO_FILE => NftpOpts (no_url n) (Some a) (no_dir n)
        | OPT_DIR => NftpOpts (no_url n) (no_path_to_file n) (Some a)
        end).

(** The loop of client_parse_opts; "help" ends it, and the client goes on with
    the options read so far.  The outer [None] is that [fuel] rounds were not
    enough. *)
Fixpoint nftp_loop `{OptsParse} (fuel : nat) (argv : list bytes) (idx : nat) (n : nftp_opts) : option (option nftp_opts) :=
  match fuel with
  | O => None
  | S fuel =>
      let p := nng_opts_parse nftp_cmd_opts argv idx in
      if pa_rv p =? 0 then
        match enum_of nftp_options (pa_val p) with
        | Some OPT_HELP => Some (Some n)
        | Some o => match nftp_opt o (pa_arg p) n with Some n => nftp_loop fuel argv (pa_idx p) n | None => Some None end
        | None => nftp_loop fuel argv (pa_idx p) n
        end
      else Some (Some n)
  end.

Definition client_parse_opts `{OptsParse} (argv : list bytes) : option (option nftp_opts) :=
  nftp_loop (S (length argv)) (drop 2 argv) 1 set_default_opts.

(** The connection: MQTT 5, a clean session, a last will, the client id of the
    role. *)
Record connect_msg := ConnectMsg {
  cm_proto : Z; cm_keep_alive : Z; cm_client_id : bytes; cm_user : bytes; cm_password : bytes;
  cm_will_topic : bytes; cm_will_msg : bytes; cm_clean : bool
}.

Definition client_connect (type : client_type) : connect_msg :=
  match type with
  | SEND => ConnectMsg 5 60 FSENDERCLIENTID (lit "nng_mqtt_client") (lit "secrets") (lit "will_topic") (lit "bye-bye") true
  | RECV => ConnectMsg 5 60 FRECVERCLIENTID (lit "aaa") (lit "secrets") (lit "will_topic") (lit "bye-bye") true
  end.

(** nng_mqtt_topic_qos of the one subscription *)
Record subscription := Subscription { su_topic : bytes; su_qos : Z; su_nolocal : bool }.
Definition subscriptions : list subscription := [Subscription FTOPIC_ALLINONE 0 true].

(** A message of the protocol: its type and the block. *)
Record nftp_msg := NftpMsg { nm_type : Z; nm_id : Z }.

(** *** The sender *)

(** The loop over the blocks: every tenth is left out.  [None] when the file has
    no blocks: the bound wraps around and the loop does not end. *)
Definition send_file (blocks : nat) : option (list nftp_msg) :=
  match blocks with
  | O => None
  | S n =>
      Some (omap (fun i => if bool_decide (i mod 10 = 0)%nat then None else Some (NftpMsg NFTP_TYPE_FILE (Z.of_nat i))) (seq 0 n) ++
            [NftpMsg NFTP_TYPE_END (Z.of_nat n)])
  end.

(** What a thread does with a message: a reply to publish, the wait for the
    acknowledgement ended, or nothing; [Undefined] reads the first byte of an
    empty payload. *)
Inductive sender_act := AckReceived | Reply (msg : bytes) | Ignored | Undefined.

(** wait_ack_and_giveme on a PUBLISH; [handler] is nftp_proto_handler. *)
Definition wait_ack_and_giveme (handler : bytes -> option bytes) (payload : bytes) : sender_act :=
  match payload with
  | [] => Undefined
  | t :: _ =>
      if t =? NFTP_TYPE_ACK then AckReceived
      else if negb (t =? NFTP_TYPE_GIVEME) then Ignored
      else match handler payload with Some m => Reply m | None => Ignored end
  end.

(** *** The receiver *)

(** One round of the receive loop: the new file name, and the acknowledgement
    that is published.  [hello] is what nftp_proto_hello_get_fname gives,
    [reply] the message of nftp_proto_handler. *)
Definition recv_msg (hello : bytes -> bytes) (reply : bytes -> bytes) (fname : option bytes) (payload : bytes)
  : option (option bytes * list bytes) :=
  match payload with
  | [] => None
  | t :: _ => if t =? NFTP_TYPE_HELLO then Some (Some (hello payload), [reply payload]) else Some (fname, [])
  end.

(** One round of ask_nextid.  [status] is nftp_proto_recv_status: nothing when
    the file is done, otherwise its blocks and the next one; [maker] is whether
    nftp_proto_maker succeeds.  The block that is asked for. *)
Definition ask_nextid (fname : option bytes) (status : option (Z * Z)) (maker : bool) (s : stat)
  : option bytes * stat * option Z :=
  match fname with
  | None => (None, s, None)
  | Some f =>
      match status with
      | None => (None, s, None)
      | Some (blocks, nextid) =>
          if blocks - 1 <? nextid then (Some f, s, None)
          else
            let '(r, s) := stats_push nextid s in
            if r <? 0 then (Some f, s, None)
            else (Some f, s, if maker then Some nextid else None)
      end
  end.

(** ** The stack *)

(** The used part of the stack holds one value. *)
Definition stat_ok (s : stat) : Prop :=
  (stcnt s <= STN)%nat /\ length (stats s) = STN /\ exists v, forall i, (i < stcnt s)%nat -> nth i (stats s) 0 = v.

(** How many copies of [v] lie on the stack before it is pushed. *)
Definition copies (v : Z) (s : stat) : nat :=
  if decide (stcnt s = 0%nat) then 0 else if nth 0 (stats s) 0 =? v then stcnt s else 1.

Lemma stats_loop_same fuel i v s : (forall k, (i <= k < stcnt s)%nat -> nth k (stats s) 0 = v) -> stats_loop fuel i v s = s.
Proof.
  revert i. induction fuel as [|fuel IH]; intros i H; [done|]. cbn [stats_loop]. destruct (Nat.ltb_spec i (stcnt s)); [|done].
  rewrite H by lia. rewrite Z.eqb_refl. cbn [negb]. apply IH. intros k Hk. apply H. lia.
Qed.

Lemma stats_loop_spec v s : stat_ok s ->
  let s' := stats_loop (S STN) 0 v s in
  stcnt s' = copies v s /\ (stcnt s' <= STN)%nat /\ length (stats s') = STN /\
  (forall i, (i < stcnt s')%nat -> nth i (stats s') 0 = v).
Proof.
  intros (Hc & Hl & x & Hx). cbv zeta. unfold copies.
  destruct (decide (stcnt s = 0%nat)) as [E|E].
  - rewrite stats_loop_same by lia. rewrite E. split_and!; [done|lia|done|lia].
  - destruct (Z.eqb_spec (nth 0 (stats s) 0) v) as [Ev|Ev].
    + rewrite Hx in Ev by lia. subst x. rewrite stats_loop_same by (intros; apply Hx; lia). by split_and!.
    + unfold STN. cbn [stats_loop]. destruct (Nat.ltb_spec 0 (stcnt s)); [|lia].
      rewrite (proj2 (Z.eqb_neq _ _) Ev). cbn [negb].
      assert (length (<[0%nat := v]> (stats s)) = STN) as Hl' by by rewrite length_insert.
      assert (nth 0 (<[0%nat := v]> (stats s)) 0 = v) as Hn by (destruct (stats s); [done|reflexivity]).
      cbn. split_and!; try done; [lia|]. intros i Hi. assert (i = 0%nat) as -> by lia. done.
Qed.

(** The stack stays within its array, and the value is reported when five
    copies of it lie there, which the call before made or one that changed the
    value and counted it twice. *)
Theorem stats_push_correct v s : stat_ok s -> let '(r, s') := stats_push v s in
  stat_ok s' /\
  (copies v s = STN -> r = v /\ stcnt s' = 0%nat) /\
  (copies v s <> STN -> r = -1 /\ stcnt s' = S (copies v s) /\ copies v s' = S (copies v s)).
Proof.
  intros H. unfold stats_push. destruct (stats_loop_spec v s H) as (E1 & E2 & E3 & E4).
  set (s1 := stats_loop (S STN) 0 v s) in *. rewrite E1 in *. destruct (decide (copies v s = STN)) as [E|E].
  - rewrite bool_decide_eq_true_2 by done. split_and!; [|done|done]. split; [cbn; lia|]. split; [done|]. exists v. cbn. lia.
  - rewrite bool_decide_eq_false_2 by done.
    assert (forall i, (i < S (copies v s))%nat -> nth i (<[copies v s := v]> (stats s1)) 0 = v) as Hn.
    { intros i Hi. rewrite nth_lookup. destruct (decide (i = copies v s)) as [->|].
      - rewrite list_lookup_insert_eq by (rewrite E3; lia). done.
      - rewrite list_lookup_insert_ne by done. specialize (E4 i ltac:(lia)). by rewrite nth_lookup in E4. }
    split_and!; [|done|].
    + split; [cbn; lia|]. split; [cbn; by rewrite length_insert|]. exists v. cbn. apply Hn.
    + intros _. split_and!; [done|cbn; congruence|]. unfold copies at 1. cbn [stcnt stats]. rewrite decide_False by done.
      rewrite Hn by lia. by rewrite Z.eqb_refl.
Qed.

(** ** The transfer *)

(** The sender publishes each block below the last whose number is not a multiple
    of ten, and the last one with the end. *)
Theorem blocks_sent n l : send_file (S n) = Some l ->
  (forall i, NftpMsg NFTP_TYPE_FILE (Z.of_nat i) ∈ l <-> (i < n)%nat /\ (i mod 10 <> 0)%nat) /\
  last l = Some (NftpMsg NFTP_TYPE_END (Z.of_nat n)).
Proof.
  unfold send_file. intros [= <-]. split; [|by rewrite last_snoc].
  intros i. rewrite elem_of_app, list_elem_of_singleton, list_elem_of_omap. split.
  - intros [(j & Hj & E)|[=]]. apply elem_of_seq in Hj. case_bool_decide; [done|]. injection E as E.
    assert (j = i) as -> by lia. split; [lia|done].
  - intros [Hi Hm]. left. exists i. split; [apply elem_of_seq; lia|]. by rewrite bool_decide_eq_false_2.
Qed.

(** What the receiver has stored of each block, the first that is missing, and
    what nftp_proto_recv_status says of it: the file is forgotten when it is
    complete. *)
Definition next_missing (l : list bool) : option nat := fst <$> list_find (fun b => b = false) l.
Definition missing (l : list bool) : nat := length (filter (fun b => b = false) l).
Definition status_of (l : list bool) : option (Z * Z) :=
  i ← next_missing l; Some (Z.of_nat (length l), Z.of_nat i).

Section Transfer.

(** The messages of the library: a request for a block, a block and its number,
    and the sender's handler. *)
Context (giveme block : Z -> bytes) (block_id : bytes -> option Z) (handler : bytes -> option bytes).
Context (giveme_type : forall i, head (giveme i) = Some NFTP_TYPE_GIVEME)
  (handler_block : forall i, handler (giveme i) = Some (block i))
  (block_number : forall i, block_id (block i) = Some i).

(** A round of ask_nextid; a request reaches the sender, and its answer the
    receiver. *)
Definition transfer_round (fname : bytes) (x : list bool * stat) : list bool * stat :=
  let '(l, s) := x in
  let '(_, s, ask) := ask_nextid (Some fname) (status_of l) true s in
  match ask with
  | Some i =>
      match wait_ack_and_giveme handler (giveme i) with
      | Reply m => match block_id m with Some i => (<[Z.to_nat i := true]> l, s) | None => (l, s) end
      | _ => (l, s)
      end
  | None => (l, s)
  end.

Lemma giveme_answered i : wait_ack_and_giveme handler (giveme i) = Reply (block i).
Proof.
  unfold wait_ack_and_giveme. specialize (giveme_type i). pose proof (handler_block i) as Hh.
  destruct (giveme i) as [|t r] eqn:E; [done|]. injection giveme_type as ->. cbn. by rewrite Hh.
Qed.

Lemma next_missing_Some l i : next_missing l = Some i -> (i < length l)%nat /\ missing l = S (missing (<[i := true]> l)).
Proof.
  unfold next_missing, missing. destruct (list_find _ l) as [[j b]|] eqn:E; [|done]. cbn. intros [= ->].
  apply list_find_Some in E as (E & -> & _). split; [by eapply lookup_lt_Some|].
  rewrite <- (take_drop_middle l i false E) at 1. rewrite insert_take_drop by by eapply lookup_lt_Some.
  rewrite !filter_app, !length_app, (filter_cons_True _ false), (filter_cons_False _ true) by done. cbn. lia.
Qed.

Lemma next_missing_None l : next_missing l = None -> Forall (fun b => b = true) l.
Proof.
  unfold next_missing. destruct (list_find _ l) as [|] eqn:E; [done|]. intros _. apply list_find_None in E.
  eapply Forall_impl; [exact E|]. by intros [].
Qed.

(** The rounds that are needed at most: six for each missing block, less those
    that have counted for the first. *)
Definition rounds (x : list bool * stat) : nat :=
  match next_missing (fst x) with None => 0 | Some i => 6 * missing (fst x) - copies (Z.of_nat i) (snd x) end.

Lemma copies_le v s : stat_ok s -> (copies v s <= STN)%nat.
Proof. intros (H & _). unfold copies. destruct (decide _); [unfold STN; lia|]. destruct (_ =? _); unfold STN in *; lia. Qed.

Lemma rounds_le l s : (rounds (l, s) <= 6 * missing l)%nat.
Proof. unfold rounds. cbn [fst snd]. destruct (next_missing l); lia. Qed.

Lemma round_decreases fname l s : stat_ok s ->
  stat_ok (snd (transfer_round fname (l, s))) /\ (rounds (transfer_round fname (l, s)) <= rounds (l, s) - 1)%nat.
Proof.
  intros Hs. unfold transfer_round, ask_nextid, status_of. unfold rounds at 2. cbn [fst snd].
  destruct (next_missing l) as [i|] eqn:E; cbn [mbind option_bind].
  2:{ split; [done|]. unfold rounds. cbn [fst snd]. by rewrite E. }
  destruct (next_missing_Some l i E) as [Hi Hm].
  destruct (Z.ltb_spec (Z.of_nat (length l) - 1) (Z.of_nat i)); [lia|].
  pose proof (stats_push_correct (Z.of_nat i) s Hs) as Hp. destruct (stats_push (Z.of_nat i) s) as [r s'].
  destruct Hp as (Hs' & Hfull & Hmore). pose proof (copies_le (Z.of_nat i) s Hs) as Hc.
  destruct (decide (copies (Z.of_nat i) s = STN)) as [Ec|Ec].
  - destruct (Hfull Ec) as [-> _]. destruct (Z.ltb_spec (Z.of_nat i) 0); [lia|].
    rewrite giveme_answered, block_number, Nat2Z.id. split; [done|].
    pose proof (rounds_le (<[i := true]> l) s'). rewrite Ec. unfold STN. lia.
  - destruct (Hmore Ec) as (-> & _ & Hcp). cbn [Z.ltb Z.compare]. split; [done|].
    unfold rounds. cbn [fst snd]. rewrite E, Hcp. lia.
Qed.

(** Whatever blocks the receiver has and whatever it counted before, six rounds
    for each missing block complete the file, when requests and answers
    arrive. *)
Theorem file_completed fname l s n : stat_ok s -> (6 * missing l <= n)%nat ->
  Forall (fun b => b = true) (fst (Nat.iter n (transfer_round fname) (l, s))).
Proof.
  intros Hs Hn. enough (forall n x, stat_ok (snd x) -> (rounds x <= n)%nat ->
    Forall (fun b => b = true) (fst (Nat.iter n (transfer_round fname) x))) as H.
  { apply H; [done|]. pose proof (rounds_le l s). lia. }
  clear -giveme_type handler_block block_number. intros n. induction n as [|n IH]; intros [l s] Hs Hr.
  - cbn. apply next_missing_None. unfold rounds in Hr. cbn [fst snd] in Hr. destruct (next_missing l) as [i|] eqn:E; [|done].
    destruct (next_missing_Some l i E) as [_ Hm]. pose proof (copies_le (Z.of_nat i) s Hs). unfold STN in *. lia.
  - rewrite Nat.iter_succ_r. destruct (round_decreases fname l s Hs) as [Hs' Hd]. apply IH; [done|]. lia.
Qed.

End Transfer.

(** *** The command *)

Section Command.

Context `{OP : OptsParse} `{OL : !OptsParseLaws}.

Lemma nftp_loop_reads k argv idx n : (length argv <= k + idx)%nat -> exists n', nftp_loop (S k) argv idx n = Some (Some n').
Proof.
  revert idx n. induction k as [|k IH]; intros idx n Hl; cbn [nftp_loop].
  - rewrite (opts_stop nftp_cmd_opts argv idx) by lia. by eexists.
  - destruct (Z.eqb_spec (pa_rv (nng_opts_parse nftp_cmd_opts argv idx)) 0) as [E|E]; [|by eexists].
    pose proof (opts_next _ _ _ E) as Hn. destruct (opts_arg _ _ _ E) as (o & Ho & <- & Ha).
    assert (forall n, exists n', nftp_loop (S k) argv (pa_idx (nng_opts_parse nftp_cmd_opts argv idx)) n = Some (Some n')) as Hi
      by (intros m; apply IH; lia).
    unfold nftp_cmd_opts in Ho. rewrite !elem_of_cons, elem_of_nil in Ho. cbn [nftp_loop] in Hi.
    repeat (destruct Ho as [->|Ho]; [first [by eexists|destruct (Ha eq_refl) as [v ->]; apply Hi]|]). done.
Qed.

(** Reading the options ends and uses no NULL pointer. *)
Theorem nftp_options_read argv : exists n, client_parse_opts argv = Some (Some n).
Proof. unfold client_parse_opts. apply nftp_loop_reads. rewrite length_drop. lia. Qed.

End Command.

(** ** Examples and witnesses *)

Lemma file_completed_witness :
  Forall (fun b => b = true)
    (fst (Nat.iter 12 (transfer_round (fun i => [5; i]) (fun m => m !! 1%nat) (fun m => Some [3; nth 1 m 0]) (lit "f"))
      ([false; true; false], no_stat))).
Proof.
  refine (file_completed (fun i => [5; i]) (fun i => [3; i]) (fun m => m !! 1%nat) (fun m => Some [3; nth 1 m 0]) _ _ _ (lit "f")
    [false; true; false] no_stat 12 _ _); try reflexivity.
  - split; [cbn; lia|]. split; [reflexivity|]. exists 0. cbn. lia.
Defined.

End Nftp.
