(* ===== verification/Process.v ===== *)
(** * Processes and logging (nanomq/process.c, log_init in nanomq/mqtt_api.c)

    The system calls are a record of what they return; the definitions say which
    of them are made, with which arguments, and what the functions return. *)

From S2P Require Import Prelude.

Module Process.

(** A system call that changes something. *)
Inductive sys_call :=
  | Kill (pid signal : Z) | Fork | Setsid | Chdir (dir : bytes) | OpenNull | Dup2 (fd target : Z) | Close (fd : Z)
  | Exit (status : Z) | RunChild.

(** ** Signals *)

(** [kill] is what the call returns. *)
Definition process_is_alive (kill : Z) (pid : Z) : Z * list sys_call :=
  if pid <? 1 then (0, []) else (if kill =? 0 then 1 else 0, [Kill pid 0]).

Definition process_send_signal (kill : Z) (pid signal : Z) : Z * list sys_call :=
  if pid <? 1 then (0, []) else (kill, [Kill pid signal]).

(** [gpid] is what getpgid returns. *)
Definition pidgrp_send_signal (gpid kill : Z) (pid signal : Z) : Z * list sys_call :=
  if pid <? 1 then (0, [])
  else if gpid <? 0 then (0, [])
  else (kill, [Kill (- gpid) signal]).

(** A signal goes to the process that is named, never to a group or to all
    processes, whatever number was read for it. *)
Theorem signal_one_process kill pid signal p g :
  Kill p g ∈ snd (process_send_signal kill pid signal) \/ Kill p g ∈ snd (process_is_alive kill pid) -> p = pid /\ 1 <= p.
Proof.
  unfold process_send_signal, process_is_alive. destruct (Z.ltb_spec pid 1); cbn [snd];
    rewrite ?elem_of_nil, ?list_elem_of_singleton; [tauto|]. intros [[= -> ->]|[= -> ->]]; by split.
Qed.

(** A process of group 1 makes the signal go to every process. *)
Theorem group_one_signals_all kill pid signal : 1 <= pid ->
  snd (pidgrp_send_signal 1 kill pid signal) = [Kill (-1) signal].
Proof. intros H. unfold pidgrp_send_signal. by destruct (Z.ltb_spec pid 1); [lia|]. Qed.

(** ** Daemons *)

(** process_daemonize: [fork1] and [fork2] are what fork returns in the process
    that is looked at, [setsid] and [fd] the results of setsid and open.  The
    value it returns, or [None] when the process ends. *)
Definition process_daemonize (fork1 setsid fork2 fd : Z) : option Z * list sys_call :=
  if fork1 =? -1 then (Some (-1), [Fork])
  else if negb (fork1 =? 0) then (None, [Fork; Exit 0])
  else if setsid =? -1 then (Some 1, [Fork; Setsid])
  else if negb (fork2 =? 0) then (None, [Fork; Setsid; Fork; Exit 0])
  else
    (Some 0, [Fork; Setsid; Fork; Chdir (lit "/"); OpenNull] ++
      if negb (fd =? -1) then [Dup2 fd 0; Dup2 fd 1; Dup2 fd 2] ++ (if 2 <? fd then [Close fd] else []) else []).

(** The process that goes on as a daemon with 0 is a child of a child without a
    terminal: it forked, became the leader of a session and forked again. *)
Theorem daemon_detached fork1 setsid fork2 fd calls :
  process_daemonize fork1 setsid fork2 fd = (Some 0, calls) ->
  fork1 = 0 /\ setsid <> -1 /\ fork2 = 0 /\ take 4 calls = [Fork; Setsid; Fork; Chdir (lit "/")] /\
  (fd <> -1 -> forall t, 0 <= t <= 2 -> Dup2 fd t ∈ calls) /\
  (forall t, Close t ∈ calls -> t = fd /\ 2 < t).
Proof.
  unfold process_daemonize. destruct (Z.eqb_spec fork1 (-1)); [done|]. destruct (Z.eqb_spec fork1 0); [|done].
  cbn [negb]. destruct (Z.eqb_spec setsid (-1)); [done|]. destruct (Z.eqb_spec fork2 0); [|done]. cbn [negb].
  intros [= <-]. split_and!; try done.
  - intros Hfd t Ht. rewrite (proj2 (Z.eqb_neq fd (-1)) Hfd). cbn [negb app]. rewrite !elem_of_cons.
    assert (t = 0 \/ t = 1 \/ t = 2) as [->|[->| ->]] by lia; tauto.
  - intros t. destruct (Z.eqb_spec fd (-1)), (Z.ltb_spec 2 fd); cbn; rewrite !elem_of_cons, ?elem_of_nil; naive_solver.
Qed.

(** When the second fork fails, the process ends as if it had a child: there is
    no daemon, and the caller sees success. *)
Theorem second_fork_fails setsid fd : setsid <> -1 ->
  process_daemonize 0 setsid (-1) fd = (None, [Fork; Setsid; Fork; Exit 0]).
Proof. intros H. unfold process_daemonize. cbn. by rewrite (proj2 (Z.eqb_neq setsid (-1)) H). Qed.

(** [fork] and the status of child_run in the child *)
Definition process_create_child (fork status : Z) : option Z * list sys_call :=
  if fork =? -1 then (Some (-1), [Fork])
  else if fork =? 0 then (None, [Fork; RunChild; Exit status])
  else (Some fork, [Fork]).

(** The child runs the function and ends with its result; the parent gets the
    number of the child, or -1. *)
Theorem child_created fork status : -1 <= fork ->
  (fst (process_create_child fork status) = None <-> fork = 0) /\
  (forall r, fst (process_create_child fork status) = Some r -> r = fork /\ RunChild ∉ snd (process_create_child fork status)).
Proof.
  intros H. unfold process_create_child. destruct (Z.eqb_spec fork (-1)) as [->|]; cbn [fst snd].
  - split; [done|]. intros r [= <-]. split; [done|]. by rewrite list_elem_of_singleton.
  - destruct (Z.eqb_spec fork 0); cbn [fst snd]; [done|]. split; [done|]. intros r [= <-]. split; [done|]. by rewrite list_elem_of_singleton.
Qed.

(** ** Logging *)

(** The bits of conf_log.type are flags here. *)
Record conf_log := ConfLog {
  lg_level : Z;
  lg_console : bool;
  lg_to_file : bool;
  lg_syslog : bool;
  lg_dir : option bytes;
  lg_file : option bytes
}.

(** What the file system says: whether a path is a directory, the results of
    making directories, of access and of opening a file for appending. *)
Record log_env := LogEnv {
  le_is_dir : bytes -> bool;
  le_make : bytes -> Z;
  le_access : option bytes -> Z;
  le_open : bytes -> bool;
  le_mtx : Z
}.

Inductive log_target := Console (level : Z) | File (path : bytes) (level : Z) | Syslog (level : Z).

Section Log.

Context (NNG_EINVAL : Z) (nano_concat_path : bytes -> bytes -> bytes) (supp_syslog : bool).

(** The result and the file that is opened; not for Windows or Zephyr. *)
Definition log_file_init (e : log_env) (l : conf_log) : Z * option bytes :=
  let failed :=
    match lg_dir l with Some d => negb (le_is_dir e d) && negb (le_make e d =? 0) | None => false end in
  if failed then (NNG_EINVAL, None)
  else if le_access e (lg_dir l) <? 0 then (NNG_EINVAL, None)
  else
    let path := nano_concat_path (default (lit "./") (lg_dir l)) (default (lit "nanomq.log") (lg_file l)) in
    if le_open e path then (0, Some path) else (NNG_EINVAL, None).

(** The result and the targets that messages go to. *)
Definition log_init (e : log_env) (l : conf_log) : Z * list log_target :=
  let console := if lg_console l then [Console (lg_level l)] else [] in
  let syslog := if supp_syslog && lg_syslog l then [Syslog (lg_level l)] else [] in
  if lg_to_file l then
    match log_file_init e l with
    | (0, Some path) =>
        if negb (le_mtx e =? 0) then (le_mtx e, console) else (0, console ++ [File path (lg_level l)] ++ syslog)
    | (rv, _) => (rv, console)
    end
  else (0, console ++ syslog).

(** The path of the file of a configuration. *)
Definition log_path (l : conf_log) : bytes :=
  nano_concat_path (default (lit "./") (lg_dir l)) (default (lit "nanomq.log") (lg_file l)).

Lemma log_init_done e l ts : NNG_EINVAL <> 0 -> log_init e l = (0, ts) ->
  ts = (if lg_console l then [Console (lg_level l)] else []) ++
       (if lg_to_file l then [File (log_path l) (lg_level l)] else []) ++
       (if supp_syslog && lg_syslog l then [Syslog (lg_level l)] else []) /\
  (lg_to_file l = true -> le_open e (log_path l) = true).
Proof.
  intros Hn. unfold log_init. destruct (lg_to_file l); [|by intros [= <-]].
  unfold log_file_init. destruct (match lg_dir l with Some d => _ | None => _ end); [by destruct NNG_EINVAL|].
  destruct (le_access e (lg_dir l) <? 0); [by destruct NNG_EINVAL|]. cbv zeta. fold (log_path l).
  destruct (le_open e (log_path l)) eqn:Eo; [|by destruct NNG_EINVAL].
  destruct (Z.eqb_spec (le_mtx e) 0); cbn [negb]; [|by intros [= ? _]]. by intros [= <-].
Qed.

(** log_fini: whether the mutex of the file is freed; no target is left. *)
Definition log_fini (l : conf_log) : bool * list log_target := (lg_to_file l, []).

(** reload_log_config exchanges the configurations, ends the log of the old one
    and starts that of the new; [None] is that the program ends. *)
Definition reload_log_config (e : log_env) (old new : conf_log) : option (conf_log * conf_log * list log_target) :=
  let '(_, ts) := log_fini old in
  let '(rc, ts') := log_init e new in
  if negb (rc =? 0) then None else Some (new, old, ts ++ ts').

(** A reload that does not end the program leaves the targets of the new
    configuration, each once, and none of the old. *)
Theorem log_reloaded e old new o n ts :
  NNG_EINVAL <> 0 -> reload_log_config e old new = Some (o, n, ts) ->
  o = new /\ n = old /\ NoDup ts /\
  (Console (lg_level new) ∈ ts <-> lg_console new = true) /\
  (Syslog (lg_level new) ∈ ts <-> supp_syslog && lg_syslog new = true) /\
  (forall p, File p (lg_level new) ∈ ts <-> lg_to_file new = true /\ p = log_path new) /\
  (lg_to_file new = true -> le_open e (log_path new) = true).
Proof.
  intros Hn. unfold reload_log_config. cbn [log_fini]. destruct (log_init e new) as [rc ts'] eqn:E.
  destruct (Z.eqb_spec rc 0) as [->|]; [|done]. cbn [negb app]. intros [= <- <- <-].
  destruct (log_init_done e new ts' Hn E) as [-> Ho]. split_and!; try done.
  all: destruct (lg_console new), (lg_to_file new), (supp_syslog && lg_syslog new); cbn [app].
  all: try (repeat (apply NoDup_cons_2; [set_solver|]); apply NoDup_nil_2).
  all: set_solver.
Qed.

(** A file in no directory is not logged to, although "./" is meant: access is
    called without a path before the default is set. *)
Theorem default_dir_unused e l :
  le_access e None < 0 -> lg_to_file l = true -> lg_dir l = None -> NNG_EINVAL <> 0 ->
  fst (log_init e l) = NNG_EINVAL.
Proof.
  intros Ha Hf Hd Hn. unfold log_init, log_file_init. rewrite Hf, Hd. rewrite (proj2 (Z.ltb_lt _ _) Ha). by destruct NNG_EINVAL.
Qed.

End Log.

(** ** Witnesses *)

Lemma daemon_detached_witness :
  take 4 (snd (process_daemonize 0 7 0 3)) = [Fork; Setsid; Fork; Chdir (lit "/")].
Proof. exact (proj1 (proj2 (proj2 (proj2 (daemon_detached 0 7 0 3 _ eq_refl))))). Defined.

End Process.
