(* ===== verification/ZephyrClock.v ===== *)
(** * The clock of the Zephyr ports (demo/*/src/main.c)

    Zephyr starts with its wall clock at 1970.  The port for the PC reads the
    CMOS clock through its index and data ports and converts the date to
    seconds with [days_from_civil]; the port for the ESP32-S3 asks SNTP servers.

    The code for the CMOS clock is in both mains; only [cmos_read] differs.  The
    functions that use it take it as an argument.

    The day count is compared with the Gregorian calendar, the registers of a
    clock that runs while it is read with the instants it shows. *)

From S2P Require Import Prelude.

Module ZephyrClock.

(** ** The ports of the CMOS clock *)

Definition CMOS_PORT_IDX : Z := 112.
Definition CMOS_PORT_DAT : Z := 113.
Definition CMOS_REG_SEC : Z := 0.
Definition CMOS_REG_MIN : Z := 2.
Definition CMOS_REG_HOUR : Z := 4.
Definition CMOS_REG_DAY : Z := 7.
Definition CMOS_REG_MON : Z := 8.
Definition CMOS_REG_YEAR : Z := 9.
Definition CMOS_REG_STAT_A : Z := 10.
Definition CMOS_REG_STAT_B : Z := 11.
Definition CMOS_UIP_BIT : Z := 128.
Definition CMOS_24H_BIT : Z := 2.
Definition CMOS_BIN_BIT : Z := 4.

(** The byte that was written to the index port last, and the number of bytes
    read from the data port. *)
Record io := Io { io_index : Z; io_reads : nat }.

(** ** Dates *)

(** The registers of date and time, in the order of the parameters of
    cmos_read_datetime. *)
Record regs := Regs { r_sec : Z; r_min : Z; r_hour : Z; r_day : Z; r_mon : Z; r_year : Z }.

Definition cmos_bcd2bin (v : Z) : Z := u8 (u32 (Z.land (Z.shiftr v 4) 15 * 10 + Z.land v 15)).

(** [y] is an int64_t, [m] and [d] are unsigned; division of signed integers
    truncates.  The signed additions and products overflow 64 bits only for years
    beyond 10^16; the callers have 2000 to 2099. *)
Definition days_from_civil (y m d : Z) : Z :=
  let y := y - (if m <=? 2 then 1 else 0) in
  let era := Z.quot (if 0 <=? y then y else y - 399) 400 in
  let yoe := u32 (y - era * 400) in
  let doy := u32 (u32 (153 * u32 (m + (if 2 <? m then u32 (-3) else 9)) + 2) / 5 + d - 1) in
  let doe := u32 (u32 (yoe * 365) + yoe / 4 - yoe / 100 + doy) in
  era * 146097 + doe - 719468.

(** What the seeding of the clock ends with: the argument of
    sys_clock_settime, or the reason why there is no such call. *)
Record timespec := Timespec { tv_sec : Z; tv_nsec : Z }.
Inductive seeded := Seeded (ts : timespec) | Straddled | OutOfRange | NoServer.

Section Cmos.

(** The device: the value of a register at the [n]-th read. *)
Context (rtc : nat -> Z -> Z).

Definition sys_out8 (v port : Z) (st : io) : io :=
  if port =? CMOS_PORT_IDX then Io v (io_reads st) else st.

(** Bit 7 of the index does not belong to the register's number. *)
Definition sys_in8 (port : Z) (st : io) : Z * io :=
  if port =? CMOS_PORT_DAT then (rtc (io_reads st) (Z.land (io_index st) 127), Io (io_index st) (S (io_reads st)))
  else (255, st).

(** ESP32-S3's main.c *)
Definition cmos_read (reg : Z) (st : io) : Z * io :=
  let st := sys_out8 (u8 (Z.lor reg 128)) CMOS_PORT_IDX st in
  sys_in8 CMOS_PORT_DAT st.

(** qemu_x86's main.c *)
Definition qemu_cmos_read (reg : Z) (st : io) : Z * io :=
  let st := sys_out8 (u8 (Z.lor reg 128)) CMOS_PORT_IDX st in
  let '(v, st) := sys_in8 CMOS_PORT_DAT st in
  let st := sys_out8 reg CMOS_PORT_IDX st in
  (v, st).

End Cmos.

Section Seed.

Context (read : Z -> io -> Z * io).

(** One round of the loop: the seconds before and after, and the registers. *)
Definition read_once (st : io) : Z * Z * regs * io :=
  let '(s1, st) := read CMOS_REG_SEC st in
  let '(min, st) := read CMOS_REG_MIN st in
  let '(hour, st) := read CMOS_REG_HOUR st in
  let '(day, st) := read CMOS_REG_DAY st in
  let '(mon, st) := read CMOS_REG_MON st in
  let '(year, st) := read CMOS_REG_YEAR st in
  let '(s2, st) := read CMOS_REG_SEC st in
  (s1, s2, Regs s1 min hour day mon year, st).

Fixpoint read_rounds (n : nat) (st : io) : option regs * io :=
  match n with
  | O => (None, st)
  | S n =>
      let '(s1, s2, r, st) := read_once st in
      if s1 =? s2 then (Some r, st) else read_rounds n st
  end.

Definition cmos_read_datetime (st : io) : option regs * io := read_rounds 8 st.

(** [for (tries = 0; tries < 1000; tries++)]: waits for the end of an update. *)
Fixpoint wait_uip (tries : nat) (st : io) : io :=
  match tries with
  | O => st
  | S tries =>
      let '(a, st) := read CMOS_REG_STAT_A st in
      if Z.land a CMOS_UIP_BIT =? 0 then st else wait_uip tries st
  end.

(** The registers in binary and in 24 hours. *)
Definition decode_regs (stat_b : Z) (r : regs) : regs :=
  let binary := negb (Z.land stat_b CMOS_BIN_BIT =? 0) in
  let h24 := negb (Z.land stat_b CMOS_24H_BIT =? 0) in
  let '(pm, hour) :=
    if h24 then (false, r_hour r) else (negb (Z.land (r_hour r) 128 =? 0), Z.land (r_hour r) 127) in
  let r := Regs (r_sec r) (r_min r) hour (r_day r) (r_mon r) (r_year r) in
  let r :=
    if binary then r
    else Regs (cmos_bcd2bin (r_sec r)) (cmos_bcd2bin (r_min r)) (cmos_bcd2bin (r_hour r))
           (cmos_bcd2bin (r_day r)) (cmos_bcd2bin (r_mon r)) (cmos_bcd2bin (r_year r)) in
  let hour :=
    if h24 then r_hour r
    else if pm then (if r_hour r =? 12 then r_hour r else u8 (r_hour r + 12))
    else if r_hour r =? 12 then 0 else r_hour r in
  Regs (r_sec r) (r_min r) hour (r_day r) (r_mon r) (r_year r).

Definition y_full (year : Z) : Z := if 70 <=? year then 1900 + year else 2000 + year.

Definition out_of_range (r : regs) : bool :=
  (y_full (r_year r) <? 2000) || (2099 <? y_full (r_year r)) || (r_mon r <? 1) || (12 <? r_mon r) ||
  (r_day r <? 1) || (31 <? r_day r) || (23 <? r_hour r) || (59 <? r_min r) || (59 <? r_sec r).

Definition seed_realtime_from_cmos (st : io) : seeded * io :=
  let st := wait_uip 1000 st in
  match cmos_read_datetime st with
  | (None, st) => (Straddled, st)
  | (Some r, st) =>
      let '(stat_b, st) := read CMOS_REG_STAT_B st in
      let r := decode_regs stat_b r in
      if out_of_range r then (OutOfRange, st)
      else
        let epoch := days_from_civil (y_full (r_year r)) (r_mon r) (r_day r) * 86400 +
                     r_hour r * 3600 + r_min r * 60 + r_sec r in
        (Seeded (Timespec epoch 0), st)
  end.

End Seed.

Definition qemu_seed_realtime_from_cmos (rtc : nat -> Z -> Z) : io -> seeded * io :=
  seed_realtime_from_cmos (qemu_cmos_read rtc).

(** ** SNTP *)

(** struct sntp_time *)
Record sntp_time := SntpTime { sntp_seconds : Z; sntp_fraction : Z }.

Definition NSEC_PER_SEC : Z := 1000000000.

Definition sntp_servers : list bytes := [c!"ntp.aliyun.com"; c!"cn.pool.ntp.org"].

Section Sntp.

(** What [sntp_simple] answers in a pass for a server; [None] is an error. *)
Context (sntp_simple : nat -> bytes -> option sntp_time).

Inductive sntp_act := Ask (pass : nat) (server : bytes) | Sleep (ms : Z).

(** [time_t] has 64 bits, and seconds is a uint64_t. *)
Definition to_timespec (ts : sntp_time) : timespec :=
  Timespec ((sntp_seconds ts + 9223372036854775808) mod 18446744073709551616 - 9223372036854775808)
    (Z.shiftr (u64 (sntp_fraction ts * NSEC_PER_SEC)) 32).

Fixpoint try_servers (pass : nat) (l : list bytes) : option timespec * list sntp_act :=
  match l with
  | [] => (None, [])
  | s :: l =>
      match sntp_simple pass s with
      | Some ts => (Some (to_timespec ts), [Ask pass s])
      | None => let '(r, k) := try_servers pass l in (r, Ask pass s :: k)
      end
  end.

Definition seed_realtime_from_sntp : seeded * list sntp_act :=
  match try_servers 0 sntp_servers with
  | (Some ts, k) => (Seeded ts, k)
  | (None, k) =>
      let '(r, k') := try_servers 1 sntp_servers in
      (match r with Some ts => Seeded ts | None => NoServer end, k ++ Sleep 1000 :: k')
  end.

End Sntp.

(** ** The Gregorian calendar *)

Definition leap (y : Z) : bool := (y mod 4 =? 0) && (negb (y mod 100 =? 0) || (y mod 400 =? 0)).

Definition month_length (y m : Z) : Z :=
  if m =? 2 then (if leap y then 29 else 28)
  else if (m =? 4) || (m =? 6) || (m =? 9) || (m =? 11) then 30 else 31.

Record date := Date { d_year : Z; d_mon : Z; d_day : Z }.

Definition valid_date (d : date) : Prop :=
  1 <= d_mon d <= 12 /\ 1 <= d_day d <= month_length (d_year d) (d_mon d).

Definition tomorrow (d : date) : date :=
  if d_day d <? month_length (d_year d) (d_mon d) then Date (d_year d) (d_mon d) (d_day d + 1)
  else if d_mon d <? 12 then Date (d_year d) (d_mon d + 1) 1
  else Date (d_year d + 1) 1 1.

Definition days (d : date) : Z := days_from_civil (d_year d) (d_mon d) (d_day d).

(** The day count, without the width of the integers: years that begin in
    March, and the days of a year before a month. *)
Definition march_year (d : date) : Z := if d_mon d <=? 2 then d_year d - 1 else d_year d.
Definition year_start (y : Z) : Z := 365 * y + y / 4 - y / 100 + y / 400 - 719468.
Definition month_start (m : Z) : Z := (153 * (if 2 <? m then m - 3 else m + 9) + 2) / 5.

Lemma era_floor y : Z.quot (if 0 <=? y then y else y - 399) 400 = y / 400.
Proof.
  destruct (Z.leb_spec 0 y).
  - by rewrite Z.quot_div_nonneg by lia.
  - pose proof (Z.quot_opp_l (399 - y) 400). replace (- (399 - y)) with (y - 399) in * by lia.
    rewrite H0, Z.quot_div_nonneg by lia. Z.to_euclidean_division_equations. lia.
Qed.

Lemma days_spec y m d :
  1 <= m <= 12 -> 1 <= d <= 31 ->
  days_from_civil y m d = year_start (if m <=? 2 then y - 1 else y) + month_start m + d - 1.
Proof.
  intros Hm Hd. unfold days_from_civil, year_start, month_start.
  set (z := y - (if m <=? 2 then 1 else 0)). replace (if m <=? 2 then y - 1 else y) with z by (unfold z; case_match; lia).
  clearbody z. rewrite era_floor.
  assert (0 <= z - z / 400 * 400 < 400) as Hyoe by (Z.to_euclidean_division_equations; lia).
  rewrite (u32_small (z - _)) by lia. set (yoe := z - z / 400 * 400) in *.
  assert (u32 (m + (if 2 <? m then u32 (-3) else 9)) = if 2 <? m then m - 3 else m + 9) as ->.
  { change (u32 (-3)) with 4294967293. unfold u32. destruct (Z.ltb_spec 2 m); Z.to_euclidean_division_equations; lia. }
  set (mp := if 2 <? m then m - 3 else m + 9). assert (0 <= mp <= 11) by (unfold mp; destruct (Z.ltb_spec 2 m); lia).
  clearbody mp. rewrite (u32_small (153 * mp + 2)) by lia.
  assert (0 <= (153 * mp + 2) / 5 <= 337) by (Z.to_euclidean_division_equations; lia).
  rewrite (u32_small (_ + d - 1)), (u32_small (yoe * 365)) by lia.
  assert (0 <= yoe / 4 <= 99 /\ 0 <= yoe / 100 <= yoe) by (Z.to_euclidean_division_equations; lia).
  assert (yoe / 4 - yoe / 100 = z / 4 - z / 100 - 96 * (z / 400)) as E
    by (unfold yoe; Z.to_euclidean_division_equations; lia).
  assert (yoe = z - z / 400 * 400) as Ey by done. clearbody yoe.
  rewrite u32_small; lia.
Qed.

Lemma month_length_bound y m : 28 <= month_length y m <= 31.
Proof. unfold month_length. repeat case_match; lia. Qed.

Lemma days_valid d :
  valid_date d -> days d = year_start (march_year d) + month_start (d_mon d) + d_day d - 1.
Proof.
  intros [Hm Hd]. pose proof (month_length_bound (d_year d) (d_mon d)). unfold days. by rewrite days_spec by lia.
Qed.

(** A year from March on has 366 days when the February that ends it is one of
    a leap year. *)
Lemma year_start_next y : year_start (y + 1) = year_start y + (if leap (y + 1) then 366 else 365).
Proof.
  unfold year_start, leap.
  destruct (Z.eqb_spec ((y + 1) mod 4) 0), (Z.eqb_spec ((y + 1) mod 100) 0), (Z.eqb_spec ((y + 1) mod 400) 0);
    cbn [andb orb negb]; Z.to_euclidean_division_equations; lia.
Qed.

Lemma twelve m : 1 <= m <= 12 -> m = 1 \/ m = 2 \/ m = 3 \/ m = 4 \/ m = 5 \/ m = 6 \/ m = 7 \/ m = 8 \/ m = 9 \/
  m = 10 \/ m = 11 \/ m = 12.
Proof. lia. Qed.

Ltac each_month H := destruct (twelve _ H) as [-> |[-> |[-> |[-> |[-> |[-> |[-> |[-> |[-> |[-> |[-> | ->]]]]]]]]]]].

(** The constants of a month. *)
Ltac calendar :=
  repeat match goal with
  | |- context [month_start ?x] => let v := eval vm_compute in (month_start x) in change (month_start x) with v
  | |- context [month_length ?y 2] => change (month_length y 2) with (if leap y then 29 else 28)
  | |- context [month_length ?y ?x] => let v := eval vm_compute in (month_length y x) in progress change (month_length y x) with v
  end.

Lemma valid_tomorrow d : valid_date d -> valid_date (tomorrow d).
Proof.
  intros [Hm Hd]. pose proof (month_length_bound (d_year d) (d_mon d)). unfold tomorrow.
  destruct (Z.ltb_spec (d_day d) (month_length (d_year d) (d_mon d))); [split; cbn; lia|].
  destruct (Z.ltb_spec (d_mon d) 12); split; cbn [d_mon d_year d_day]; try lia.
  - pose proof (month_length_bound (d_year d) (d_mon d + 1)). lia.
  - pose proof (month_length_bound (d_year d + 1) 1). lia.
Qed.

(** The day before the first of a month, by the month. *)
Lemma month_turn y m :
  1 <= m < 12 ->
  year_start (march_year (Date y (m + 1) 1)) + month_start (m + 1)
    = year_start (march_year (Date y m 1)) + month_start m + month_length y m.
Proof.
  intros Hm. assert (m = 2 \/ m <> 2) as [->|Hne] by lia.
  - unfold march_year. cbn [d_mon d_year Z.leb]. change (month_start (2 + 1)) with 0. change (month_start 2) with 337.
    change (month_length y 2) with (if leap y then 29 else 28).
    pose proof (year_start_next (y - 1)) as E. replace (y - 1 + 1) with y in E by lia.
    change (2 <=? 2) with true. change (2 + 1 <=? 2) with false. cbv iota. rewrite E.
    destruct (leap y); lia.
  - assert (march_year (Date y (m + 1) 1) = march_year (Date y m 1)) as ->
      by (unfold march_year; cbn; destruct (Z.leb_spec m 2), (Z.leb_spec (m + 1) 2); lia).
    assert (1 <= m <= 12) as Hm' by lia. each_month Hm'; try lia; calendar; lia.
Qed.

Lemma year_turn y : year_start (march_year (Date (y + 1) 1 1)) + month_start 1
  = year_start (march_year (Date y 12 1)) + month_start 12 + month_length y 12.
Proof.
  unfold march_year. cbn [d_mon d_year]. change (1 <=? 2) with true. change (12 <=? 2) with false. cbv iota.
  replace (y + 1 - 1) with y by lia. calendar. lia.
Qed.

(** The successor of a day has the next number. *)
Lemma days_tomorrow d : valid_date d -> days (tomorrow d) = days d + 1.
Proof.
  intros Hv. rewrite (days_valid _ Hv), (days_valid _ (valid_tomorrow _ Hv)). destruct Hv as [Hm Hd].
  unfold tomorrow. destruct (Z.ltb_spec (d_day d) (month_length (d_year d) (d_mon d))) as [|Hl].
  { unfold march_year. cbn. lia. }
  pose proof (month_turn (d_year d) (d_mon d)) as M. pose proof (year_turn (d_year d)) as Y.
  unfold march_year in *. cbn [d_mon d_year d_day] in *.
  destruct (Z.ltb_spec (d_mon d) 12); cbn [d_mon d_year d_day]; [lia|].
  assert (d_mon d = 12) as E by lia. rewrite E in *. lia.
Qed.

(** ** The order of the dates *)

Definition date_lt (a b : date) : Prop :=
  d_year a < d_year b \/ (d_year a = d_year b /\ (d_mon a < d_mon b \/ (d_mon a = d_mon b /\ d_day a < d_day b))).

Lemma year_start_le a b : a <= b -> year_start a + 365 * (b - a) <= year_start b.
Proof. intros. unfold year_start. Z.to_euclidean_division_equations. lia. Qed.

(** The days of a date's year from March on. *)
Lemma doy_bound d :
  valid_date d ->
  0 <= month_start (d_mon d) + d_day d - 1 < year_start (march_year d + 1) - year_start (march_year d).
Proof.
  intros [Hm Hd]. rewrite year_start_next, Z.add_simpl_l. unfold march_year.
  destruct d as [y m d]. cbn [d_mon d_day d_year] in *. revert Hd.
  each_month Hm; calendar; cbn [Z.leb Z.compare Pos.compare Pos.compare_cont]; try replace (y - 1 + 1) with y by lia;
    destruct (leap y), (leap (y + 1)); lia.
Qed.

Lemma march_order a b : valid_date a -> valid_date b -> march_year a < march_year b -> days a < days b.
Proof.
  intros Ha Hb H. rewrite !days_valid by done. pose proof (doy_bound a Ha). pose proof (doy_bound b Hb).
  pose proof (year_start_le (march_year a + 1) (march_year b)). lia.
Qed.

(** Months in the order of such a year. *)
Lemma month_start_lt a b y :
  1 <= a <= 12 -> 1 <= b <= 12 -> (if 2 <? a then a - 3 else a + 9) < (if 2 <? b then b - 3 else b + 9) ->
  month_start a + month_length y a <= month_start b.
Proof. intros Ha Hb. each_month Ha; each_month Hb; intros H; try (vm_compute in H; discriminate H); calendar; lia. Qed.

(** The numbers order the days as the calendar does. *)
Lemma days_lt a b : valid_date a -> valid_date b -> date_lt a b -> days a < days b.
Proof.
  intros Ha Hb H.
  assert (march_year a < march_year b \/ march_year a = march_year b) as [|E]; [|by apply march_order|].
  { unfold march_year, date_lt in *. destruct (Z.leb_spec (d_mon a) 2), (Z.leb_spec (d_mon b) 2); lia. }
  rewrite !days_valid, E by done. destruct Ha as [Ma Da], Hb as [Mb Db].
  assert (d_mon a = d_mon b /\ d_day a < d_day b \/
    (if 2 <? d_mon a then d_mon a - 3 else d_mon a + 9) < (if 2 <? d_mon b then d_mon b - 3 else d_mon b + 9)) as [[<- ?]|Hlt].
  { unfold march_year, date_lt in *.
    destruct (Z.leb_spec (d_mon a) 2), (Z.leb_spec (d_mon b) 2), (Z.ltb_spec 2 (d_mon a)), (Z.ltb_spec 2 (d_mon b)); lia. }
  - lia.
  - pose proof (month_start_lt _ _ (d_year a) Ma Mb Hlt). lia.
Qed.

Lemma date_lt_trichotomy a b : date_lt a b \/ a = b \/ date_lt b a.
Proof.
  destruct a as [y m d], b as [y' m' d']. unfold date_lt. cbn [d_year d_mon d_day].
  assert (y < y' \/ y' < y \/ y = y') as [|[|<-]] by lia; [tauto..|].
  assert (m < m' \/ m' < m \/ m = m') as [|[|<-]] by lia; [tauto..|].
  assert (d < d' \/ d' < d \/ d = d') as [|[|<-]] by lia; tauto.
Qed.

Lemma days_inj a b : valid_date a -> valid_date b -> days a = days b -> a = b.
Proof.
  intros Ha Hb H. destruct (date_lt_trichotomy a b) as [L|[L|L]]; [|done|].
  - pose proof (days_lt a b Ha Hb L). lia.
  - pose proof (days_lt b a Hb Ha L). lia.
Qed.

(** ** A clock that runs *)

Record instant := Instant { i_date : date; i_hour : Z; i_min : Z; i_sec : Z }.

Definition valid_instant (i : instant) : Prop :=
  valid_date (i_date i) /\ 0 <= i_hour i < 24 /\ 0 <= i_min i < 60 /\ 0 <= i_sec i < 60.

(** Seconds since 1970, by the calendar. *)
Definition epoch (i : instant) : Z := days (i_date i) * 86400 + i_hour i * 3600 + i_min i * 60 + i_sec i.

Lemma epoch_inj a b : valid_instant a -> valid_instant b -> epoch a = epoch b -> a = b.
Proof.
  destruct a as [da ha ma sa], b as [db hb mb sb]. intros (Va & ? & ? & ?) (Vb & ? & ? & ?) E. unfold epoch in E.
  cbn [i_date i_hour i_min i_sec] in *.
  assert (da = db) as -> by (apply days_inj; [done..|lia]). f_equal; lia.
Qed.

(** How the clock shows a number, an hour and an instant; [b] is its status
    register B. *)
Definition shown_num (b v : Z) : Z := if Z.testbit b 2 then v else 16 * (v / 10) + v mod 10.

Definition shown_hour (b h : Z) : Z :=
  if Z.testbit b 1 then shown_num b h
  else Z.lor (shown_num b (if h mod 12 =? 0 then 12 else h mod 12)) (if 12 <=? h then 128 else 0).

Definition shown_regs (b : Z) (i : instant) : regs :=
  Regs (shown_num b (i_sec i)) (shown_num b (i_min i)) (shown_hour b (i_hour i))
    (shown_num b (d_day (i_date i))) (shown_num b (d_mon (i_date i))) (shown_num b (d_year (i_date i) - 2000)).

(** The registers by number; [a] is the status register A. *)
Definition shown (b a : Z) (i : instant) (reg : Z) : Z :=
  let r := shown_regs b i in
  if reg =? CMOS_REG_SEC then r_sec r
  else if reg =? CMOS_REG_MIN then r_min r
  else if reg =? CMOS_REG_HOUR then r_hour r
  else if reg =? CMOS_REG_DAY then r_day r
  else if reg =? CMOS_REG_MON then r_mon r
  else if reg =? CMOS_REG_YEAR then r_year r
  else if reg =? CMOS_REG_STAT_A then a
  else if reg =? CMOS_REG_STAT_B then b
  else 0.

(** A property of the numbers below [n] is one of the elements of a list. *)
Lemma below_forallb (P : Z -> bool) n v : forallb P (seqZ 0 n) = true -> 0 <= v < n -> P v = true.
Proof.
  intros H Hv. rewrite forallb_forall in H. apply H, list_elem_of_In, elem_of_seqZ. lia.
Qed.

Lemma bcd_round_trip v : 0 <= v < 100 -> cmos_bcd2bin (16 * (v / 10) + v mod 10) = v.
Proof.
  intros H. apply Z.eqb_eq. revert H. apply (below_forallb (fun v => cmos_bcd2bin (16 * (v / 10) + v mod 10) =? v)).
  by vm_compute.
Qed.

Lemma testbit_land b n : (negb (Z.land b (2 ^ n) =? 0)) = Z.testbit b n \/ n < 0.
Proof.
  destruct (Z.le_gt_cases 0 n) as [Hn|]; [left|by right].
  assert (Z.land b (2 ^ n) = if Z.testbit b n then 2 ^ n else 0) as ->.
  { apply Z.bits_inj'. intros m Hm. rewrite Z.land_spec, Z.pow2_bits_eqb by done.
    destruct (Z.testbit b n) eqn:E; rewrite ?Z.pow2_bits_eqb, ?Z.bits_0 by done;
      destruct (Z.eqb_spec n m) as [<-|]; rewrite ?E, ?andb_false_r; done. }
  destruct (Z.testbit b n); [|done]. destruct (Z.eqb_spec (2 ^ n) 0) as [E|]; [|done].
  pose proof (Z.pow_pos_nonneg 2 n). lia.
Qed.

(** The decoding of the hour. *)
Definition hour_of (binary h24 : bool) (v : Z) : Z :=
  let '(pm, h) := if h24 then (false, v) else (negb (Z.land v 128 =? 0), Z.land v 127) in
  let h := if binary then h else cmos_bcd2bin h in
  if h24 then h else if pm then (if h =? 12 then h else u8 (h + 12)) else if h =? 12 then 0 else h.

Lemma hour_round_trip b h : 0 <= h < 24 -> hour_of (Z.testbit b 2) (Z.testbit b 1) (shown_hour b h) = h.
Proof.
  unfold shown_hour, shown_num. intros H. apply Z.eqb_eq. revert H.
  destruct (Z.testbit b 2), (Z.testbit b 1).
  - apply (below_forallb (fun h => hour_of true true h =? h)). by vm_compute.
  - apply (below_forallb (fun h => hour_of true false (Z.lor (if h mod 12 =? 0 then 12 else h mod 12)
      (if 12 <=? h then 128 else 0)) =? h)). by vm_compute.
  - apply (below_forallb (fun h => hour_of false true (16 * (h / 10) + h mod 10) =? h)). by vm_compute.
  - apply (below_forallb (fun h => hour_of false false (Z.lor
      (16 * ((if h mod 12 =? 0 then 12 else h mod 12) / 10) + (if h mod 12 =? 0 then 12 else h mod 12) mod 10)
      (if 12 <=? h then 128 else 0)) =? h)). by vm_compute.
Qed.

Lemma shown_num_decoded b v :
  0 <= v < 100 -> (if Z.testbit b 2 then shown_num b v else cmos_bcd2bin (shown_num b v)) = v.
Proof. intros. unfold shown_num. destruct (Z.testbit b 2); [done|]. by apply bcd_round_trip. Qed.

Lemma shown_num_inj b v w : 0 <= v < 100 -> 0 <= w < 100 -> shown_num b v = shown_num b w -> v = w.
Proof. intros Hv Hw E. by rewrite <- (shown_num_decoded b v Hv), E, shown_num_decoded. Qed.

Lemma decode_shown b i :
  valid_instant i -> 2000 <= d_year (i_date i) < 2070 ->
  decode_regs b (shown_regs b i)
    = Regs (i_sec i) (i_min i) (i_hour i) (d_day (i_date i)) (d_mon (i_date i)) (d_year (i_date i) - 2000).
Proof.
  intros ((Hm & Hd) & Hh & Hmi & Hs) Hy. pose proof (month_length_bound (d_year (i_date i)) (d_mon (i_date i))).
  pose proof (hour_round_trip b (i_hour i) Hh) as Eh.
  unfold decode_regs. change CMOS_BIN_BIT with (2 ^ 2). change CMOS_24H_BIT with (2 ^ 1).
  destruct (testbit_land b 2) as [->|]; [|lia]. destruct (testbit_land b 1) as [->|]; [|lia].
  unfold hour_of in Eh. unfold shown_regs. cbn [r_sec r_min r_hour r_day r_mon r_year].
  pose proof (shown_num_decoded b (i_sec i)) as E1. pose proof (shown_num_decoded b (i_min i)) as E2.
  pose proof (shown_num_decoded b (d_day (i_date i))) as E3. pose proof (shown_num_decoded b (d_mon (i_date i))) as E4.
  pose proof (shown_num_decoded b (d_year (i_date i) - 2000)) as E5.
  destruct (Z.testbit b 2), (Z.testbit b 1); cbn [r_sec r_min r_hour r_day r_mon r_year];
    rewrite E1, E2, E3, E4, E5 by lia; f_equal; exact Eh.
Qed.

(** ** Reading the clock *)

(** What a way to read a register promises: the value of that moment, with one
    read of the data port. *)
Class CmosReader (rtc : nat -> Z -> Z) (read : Z -> io -> Z * io) : Prop :=
  cmos_reads : forall reg st, 0 <= reg <= 11 -> exists idx, read reg st = (rtc (io_reads st) reg, Io idx (S (io_reads st))).

Lemma index_register reg : 0 <= reg <= 11 -> Z.land (u8 (Z.lor reg 128)) 127 = reg.
Proof.
  intros H. apply Z.eqb_eq. assert (0 <= reg < 12) as H' by lia. revert H'.
  apply (below_forallb (fun reg => Z.land (u8 (Z.lor reg 128)) 127 =? reg)). by vm_compute.
Qed.

#[export] Instance cmos_reader rtc : CmosReader rtc (cmos_read rtc).
Proof.
  intros reg st H. unfold cmos_read, sys_out8, sys_in8. cbn. rewrite index_register by done. by eexists.
Qed.

#[export] Instance qemu_cmos_reader rtc : CmosReader rtc (qemu_cmos_read rtc).
Proof.
  intros reg st H. unfold qemu_cmos_read, sys_out8, sys_in8. cbn. rewrite index_register by done. by eexists.
Qed.

Section Clock.

(** Register B, register A at each read, and the instant that the clock shows at
    each read. *)
Context (b : Z) (a : nat -> Z) (clk : nat -> instant).
Context (read : Z -> io -> Z * io).

Definition clock_rtc : nat -> Z -> Z := fun n reg => shown b (a n) (clk n) reg.

Context `{!CmosReader clock_rtc read}.

Hypothesis clk_valid : forall n, valid_instant (clk n).
Hypothesis clk_years : forall n, 2000 <= d_year (i_date (clk n)) < 2070.
Hypothesis clk_mono : forall n, epoch (clk n) <= epoch (clk (S n)).

Lemma clk_le n m : (n <= m)%nat -> epoch (clk n) <= epoch (clk m).
Proof. induction 1 as [|m _ IH]; [lia|]. specialize (clk_mono m). lia. Qed.

Lemma clk_between n k m : (n <= k <= m)%nat -> epoch (clk n) = epoch (clk m) -> clk k = clk n.
Proof.
  intros H E. apply epoch_inj; [done..|]. pose proof (clk_le n k). pose proof (clk_le k m). lia.
Qed.

Lemma read_once_eq st :
  let n := io_reads st in
  exists idx, read_once read st =
    (shown_num b (i_sec (clk n)), shown_num b (i_sec (clk (n + 6))),
     Regs (shown_num b (i_sec (clk n))) (shown_num b (i_min (clk (n + 1)))) (shown_hour b (i_hour (clk (n + 2))))
       (shown_num b (d_day (i_date (clk (n + 3))))) (shown_num b (d_mon (i_date (clk (n + 4)))))
       (shown_num b (d_year (i_date (clk (n + 5))) - 2000)),
     Io idx (n + 7)).
Proof.
  intros n. unfold read_once.
  repeat match goal with
  | |- context [read ?r ?s] =>
      destruct (cmos_reads r s ltac:(vm_compute; split; discriminate)) as [? ->]; cbn [io_reads]
  end.
  eexists. unfold clock_rtc, shown. cbn [Z.eqb CMOS_REG_SEC CMOS_REG_MIN CMOS_REG_HOUR CMOS_REG_DAY CMOS_REG_MON CMOS_REG_YEAR].
  subst n. rewrite !Nat.add_succ_r, Nat.add_0_r. reflexivity.
Qed.

(** A round in which the seconds are the same before and after did not see the
    clock move. *)
Lemma round_whole n :
  epoch (clk (n + 6)) < epoch (clk n) + 60 -> i_sec (clk n) = i_sec (clk (n + 6)) ->
  forall k, (k <= 6)%nat -> clk (n + k) = clk n.
Proof.
  intros H E k Hk. apply (clk_between n (n + k) (n + 6)); [lia|].
  assert (epoch (clk n) <= epoch (clk (n + 6))) as L by (apply clk_le; lia).
  revert H L. unfold epoch. rewrite E. clear. intros H L. lia.
Qed.

Lemma read_rounds_whole m st :
  (m <= 8)%nat -> epoch (clk (io_reads st + 7 * m)) < epoch (clk (io_reads st)) + Z.of_nat m ->
  exists k st', read_rounds read m st = (Some (shown_regs b (clk k)), st') /\ (io_reads st <= k < io_reads st')%nat.
Proof.
  revert st. induction m as [|m IH]; intros st Hm H.
  { rewrite Nat.mul_0_r, Nat.add_0_r in H. lia. }
  set (n := io_reads st) in *. cbn [read_rounds].
  destruct (read_once_eq st) as [idx ->]. fold n.
  assert (i_sec (clk n) = i_sec (clk (n + 6)) \/ i_sec (clk n) <> i_sec (clk (n + 6))) as [E|E] by lia.
  - rewrite E, Z.eqb_refl. exists n, (Io idx (n + 7)). split; [|cbn [io_reads]; lia].
    pose proof (clk_le (n + 6) (n + 7 * S m)).
    assert (forall k, (k <= 6)%nat -> clk (n + k) = clk n) as W by (apply round_whole; [lia|done]).
    rewrite <- E. unfold shown_regs. by rewrite !W by lia.
  - destruct (Z.eqb_spec (shown_num b (i_sec (clk n))) (shown_num b (i_sec (clk (n + 6))))) as [E'|_].
    { apply shown_num_inj in E'; [done| |]; [destruct (clk_valid n) as (_ & _ & _ & ?)
        |destruct (clk_valid (n + 6)) as (_ & _ & _ & ?)]; lia. }
    assert (epoch (clk n) <> epoch (clk (n + 6))) as Ne by (intros Q%epoch_inj; [congruence|done..]).
    destruct (IH (Io idx (n + 7))) as (k & st' & -> & Hk); [lia| |].
    + cbn [io_reads]. replace (n + 7 + 7 * m)%nat with (n + 7 * S m)%nat by lia.
      pose proof (clk_le n (n + 6)). pose proof (clk_le (n + 6) (n + 7)). lia.
    + exists k, st'. split; [done|]. cbn [io_reads] in Hk. lia.
Qed.

Lemma wait_uip_reads tries st : (io_reads st <= io_reads (wait_uip read tries st))%nat.
Proof.
  revert st. induction tries as [|tries IH]; intros st; cbn [wait_uip]; [lia|].
  destruct (cmos_reads CMOS_REG_STAT_A st ltac:(vm_compute; split; discriminate)) as [idx ->].
  destruct (_ =? 0); cbn; [lia|]. specialize (IH (Io idx (S (io_reads st)))). cbn in IH. lia.
Qed.

Lemma in_range i :
  valid_instant i -> 2000 <= d_year (i_date i) < 2070 ->
  out_of_range (Regs (i_sec i) (i_min i) (i_hour i) (d_day (i_date i)) (d_mon (i_date i)) (d_year (i_date i) - 2000)) = false
  /\ y_full (d_year (i_date i) - 2000) = d_year (i_date i).
Proof.
  intros ((Hm & Hd) & Hh & Hmi & Hs) Hy. pose proof (month_length_bound (d_year (i_date i)) (d_mon (i_date i))).
  assert (y_full (d_year (i_date i) - 2000) = d_year (i_date i)) as E
    by (unfold y_full; destruct (Z.leb_spec 70 (d_year (i_date i) - 2000)); lia).
  split; [|done]. unfold out_of_range. cbn [r_sec r_min r_hour r_day r_mon r_year]. rewrite E.
  rewrite !orb_false_iff, !Z.ltb_ge. lia.
Qed.

(** The clock is set to an instant that the CMOS clock showed while it was read. *)
Lemma seed_shown st :
  (forall n, epoch (clk (n + 56)) < epoch (clk n) + 8) ->
  exists k st', seed_realtime_from_cmos read st = (Seeded (Timespec (epoch (clk k)) 0), st') /\
    (io_reads st <= k < io_reads st')%nat.
Proof.
  intros Hfast. unfold seed_realtime_from_cmos, cmos_read_datetime.
  pose proof (wait_uip_reads 1000 st). set (st1 := wait_uip read 1000 st) in *.
  destruct (read_rounds_whole 8 st1) as (k & st2 & -> & Hk); [lia|apply Hfast|].
  destruct (cmos_reads CMOS_REG_STAT_B st2 ltac:(vm_compute; split; discriminate)) as [idx ->].
  change (clock_rtc (io_reads st2) CMOS_REG_STAT_B) with b.
  rewrite decode_shown by done. destruct (in_range (clk k)) as [-> Ey]; [done..|].
  cbn [r_sec r_min r_hour r_day r_mon r_year]. rewrite Ey.
  eexists k, _. split; [reflexivity|]. cbn. lia.
Qed.

End Clock.

(** ** The theorems *)

Definition day_zero : date := Date 1970 1 1.

Lemma iter_tomorrow n : valid_date (Nat.iter n tomorrow day_zero) /\ days (Nat.iter n tomorrow day_zero) = Z.of_nat n.
Proof.
  induction n as [|n [IHv IHd]]; [split; [by vm_compute|reflexivity]|].
  cbn [Nat.iter nat_rect]. fold (Nat.iter n tomorrow day_zero). split; [by apply valid_tomorrow|].
  rewrite days_tomorrow by done. lia.
Qed.

(** C39. The day that the calendar reaches [n] days after the first of January
    1970 is a date for which [days_from_civil] returns [n], and it is the only
    date with that number. *)
Theorem civil_days_count n :
  let d := Nat.iter n tomorrow day_zero in
  days_from_civil (d_year d) (d_mon d) (d_day d) = Z.of_nat n /\
  forall d', valid_date d' -> days_from_civil (d_year d') (d_mon d') (d_day d') = Z.of_nat n -> d' = d.
Proof.
  intros d. destruct (iter_tomorrow n) as [V E]. fold d in V, E. split; [exact E|].
  intros d' V' E'. apply days_inj; [done..|]. unfold days at 1. congruence.
Qed.

(** C38. A CMOS clock that shows dates of 2000 to 2069, in BCD or binary and in
    12 or 24 hours, and that advances less than 8 seconds during 56 reads: the
    wall clock is set to the seconds since 1970 of one instant that the clock
    showed while it was read, never to a mixture of two, and the setting does
    happen.  [read] is either of the two ways to read a register. *)
Theorem cmos_clock_seeded (b : Z) (a : nat -> Z) (clk : nat -> instant) (read : Z -> io -> Z * io) (st : io) :
  CmosReader (clock_rtc b a clk) read ->
  (forall n, valid_instant (clk n)) -> (forall n, 2000 <= d_year (i_date (clk n)) < 2070) ->
  (forall n, epoch (clk n) <= epoch (clk (S n))) -> (forall n : nat, epoch (clk (n + 56)%nat) < epoch (clk n) + 8) ->
  exists k st', seed_realtime_from_cmos read st = (Seeded (Timespec (epoch (clk k)) 0), st') /\
    (io_reads st <= k < io_reads st')%nat.
Proof. intros R V Y M F. by apply (seed_shown b a). Qed.

(** A clock in BCD and 12 hours that goes from 23:59:59 to the next year at the
    fourth read. *)
Definition new_year (n : nat) : instant :=
  if (n <? 4)%nat then Instant (Date 2023 12 31) 23 59 59 else Instant (Date 2024 1 1) 0 0 0.

Lemma new_year_valid n : valid_instant (new_year n) /\ 2000 <= d_year (i_date (new_year n)) < 2070.
Proof. unfold new_year. destruct (n <? 4)%nat; vm_compute; repeat split; discriminate. Qed.

Lemma new_year_epoch n : epoch (new_year n) = 1704067200 - (if (n <? 4)%nat then 1 else 0).
Proof. unfold new_year. by destruct (n <? 4)%nat. Qed.

Lemma cmos_clock_seeded_witness :
  exists k st', seed_realtime_from_cmos (qemu_cmos_read (clock_rtc 0 (fun _ => 0) new_year)) (Io 0 0)
    = (Seeded (Timespec (epoch (new_year k)) 0), st') /\ (0 <= k < io_reads st')%nat.
Proof.
  refine (cmos_clock_seeded 0 (fun _ => 0) new_year _ (Io 0 0) (qemu_cmos_reader _)
    (fun n => proj1 (new_year_valid n)) (fun n => proj2 (new_year_valid n)) _ _).
  - intros n. rewrite !new_year_epoch. destruct (Nat.ltb_spec n 4), (Nat.ltb_spec (S n) 4); lia.
  - intros n. rewrite !new_year_epoch. destruct (Nat.ltb_spec n 4), (Nat.ltb_spec (n + 56) 4); lia.
Defined.

(** The first round is torn, the second one is whole. *)
Example new_year_seeded :
  seed_realtime_from_cmos (qemu_cmos_read (clock_rtc 0 (fun _ => 0) new_year)) (Io 0 0)
    = (Seeded (Timespec 1704067200 0), Io CMOS_REG_STAT_B 16).
Proof. by vm_compute. Qed.

(** *** The index port is left with the non-maskable interrupt enabled *)

Definition nmi_masked (st : io) : bool := Z.testbit (io_index st) 7.

Section Nmi.

Context (read : Z -> io -> Z * io) (m : bool).
Hypothesis read_masks : forall reg st, 0 <= reg <= 11 -> nmi_masked (snd (read reg st)) = m.

Lemma read_rounds_masks n st : (0 < n)%nat -> nmi_masked (snd (read_rounds read n st)) = m.
Proof.
  revert st. induction n as [|n IH]; intros st Hn; [lia|]. cbn [read_rounds]. unfold read_once.
  repeat match goal with
  | |- context [read ?r ?s] =>
      lazymatch r with CMOS_REG_SEC => idtac | _ => idtac end;
      pose proof (read_masks r s ltac:(vm_compute; split; discriminate)); destruct (read r s) as [? ?]; cbn [snd] in *
  end.
  destruct (_ =? _); [done|]. destruct n as [|n]; [done|]. apply IH. lia.
Qed.

Lemma seed_masks st : nmi_masked (snd (seed_realtime_from_cmos read st)) = m.
Proof.
  unfold seed_realtime_from_cmos, cmos_read_datetime.
  pose proof (read_rounds_masks 8 (wait_uip read 1000 st) ltac:(lia)) as H.
  destruct (read_rounds read 8 _) as [[r|] st1]; [|exact H].
  pose proof (read_masks CMOS_REG_STAT_B st1 ltac:(vm_compute; split; discriminate)) as Hb.
  destruct (read CMOS_REG_STAT_B st1) as [bb st2]. by destruct (out_of_range _).
Qed.

End Nmi.

Lemma read_mask rtc reg st :
  0 <= reg <= 11 ->
  nmi_masked (snd (cmos_read rtc reg st)) = true /\ nmi_masked (snd (qemu_cmos_read rtc reg st)) = false.
Proof.
  intros H. unfold nmi_masked, cmos_read, qemu_cmos_read, sys_out8, sys_in8. cbn [Z.eqb CMOS_PORT_IDX CMOS_PORT_DAT snd io_index].
  assert (0 <= reg < 12) as H' by lia.
  pose proof (below_forallb (fun reg => Z.testbit (u8 (Z.lor reg 128)) 7 && negb (Z.testbit reg 7)) 12 reg
    ltac:(by vm_compute) H') as E. apply andb_true_iff in E as [E1 E2]. cbn [CMOS_PORT_DAT CMOS_PORT_IDX]. split; [exact E1|].
  by apply negb_true_iff.
Qed.

(** Seeding the clock leaves the interrupt enabled in the main of qemu_x86 and
    disabled in that of the ESP32-S3. *)
Lemma seed_nmi rtc st :
  nmi_masked (snd (qemu_seed_realtime_from_cmos rtc st)) = false /\
  nmi_masked (snd (seed_realtime_from_cmos (cmos_read rtc) st)) = true.
Proof. split; apply seed_masks; intros reg st' H; by apply (read_mask rtc reg st'). Qed.

(** *** SNTP *)

Lemma fraction_bound f :
  0 <= f < 4294967296 ->
  let ns := Z.shiftr (u64 (f * NSEC_PER_SEC)) 32 in
  0 <= ns < NSEC_PER_SEC /\ ns * 4294967296 <= f * NSEC_PER_SEC < (ns + 1) * 4294967296.
Proof.
  intros H. unfold NSEC_PER_SEC. rewrite u64_small by lia. rewrite Z.shiftr_div_pow2 by lia.
  change (2 ^ 32) with 4294967296. cbv zeta. Z.to_euclidean_division_equations. lia.
Qed.

(** The tries in their order. *)
Definition sntp_tries : list (nat * bytes) := map (pair 0%nat) sntp_servers ++ map (pair 1%nat) sntp_servers.

Definition first_answer (sntp_simple : nat -> bytes -> option sntp_time) (l : list (nat * bytes)) : option sntp_time :=
  head (omap (fun '(p, s) => sntp_simple p s) l).

Lemma try_servers_first sntp pass l :
  fst (try_servers sntp pass l) = to_timespec <$> first_answer sntp (map (pair pass) l).
Proof.
  induction l as [|s l IH]; [done|]. unfold first_answer in *. cbn. destruct (sntp pass s) as [ts|]; [done|].
  by destruct (try_servers sntp pass l).
Qed.

Lemma first_answer_app sntp l k :
  first_answer sntp (l ++ k) = match first_answer sntp l with Some ts => Some ts | None => first_answer sntp k end.
Proof. unfold first_answer. rewrite omap_app. by destruct (omap _ l). Qed.

(** The wall clock is set from the first answer among the tries (each
    server, then after a second each server again) and only when there is one;
    the nanoseconds are those of the answer's binary fraction, rounded down,
    and are fewer than a second. *)
Theorem sntp_clock_seeded sntp_simple :
  (forall pass s ts, sntp_simple pass s = Some ts ->
    0 <= sntp_seconds ts < 9223372036854775808 /\ 0 <= sntp_fraction ts < 4294967296) ->
  match first_answer sntp_simple sntp_tries with
  | None => fst (seed_realtime_from_sntp sntp_simple) = NoServer
  | Some t => exists ns, fst (seed_realtime_from_sntp sntp_simple) = Seeded (Timespec (sntp_seconds t) ns) /\
      0 <= ns < NSEC_PER_SEC /\ ns * 4294967296 <= sntp_fraction t * NSEC_PER_SEC < (ns + 1) * 4294967296
  end.
Proof.
  intros H. unfold sntp_tries. rewrite first_answer_app. unfold seed_realtime_from_sntp.
  pose proof (try_servers_first sntp_simple 0 sntp_servers) as E0.
  pose proof (try_servers_first sntp_simple 1 sntp_servers) as E1.
  assert (forall p t, first_answer sntp_simple (map (pair p) sntp_servers) = Some t ->
    to_timespec t = Timespec (sntp_seconds t) (tv_nsec (to_timespec t)) /\ 0 <= sntp_fraction t < 4294967296) as T.
  { intros p t Ht. assert (exists s, sntp_simple p s = Some t) as [s Hs].
    { unfold first_answer in Ht. apply head_Some_elem_of, list_elem_of_omap in Ht as ([p' s] & Hin & Hs).
      apply list_elem_of_fmap in Hin as (? & [= -> <-] & _). by exists s. }
    destruct (H _ _ _ Hs). split; [|done]. unfold to_timespec at 1. f_equal. rewrite Z.mod_small; lia. }
  destruct (try_servers sntp_simple 0 sntp_servers) as [[ts|] k]; cbn [fst] in E0;
    destruct (first_answer sntp_simple (map (pair 0%nat) sntp_servers)) as [t|] eqn:F0; try discriminate E0.
  - injection E0 as ->. destruct (T 0%nat t F0) as [-> Hf]. eexists. split; [reflexivity|]. by apply fraction_bound.
  - destruct (try_servers sntp_simple 1 sntp_servers) as [[ts|] k']; cbn [fst] in E1;
      destruct (first_answer sntp_simple (map (pair 1%nat) sntp_servers)) as [t|] eqn:F1; try discriminate E1; [|done].
    injection E1 as ->. destruct (T 1%nat t F1) as [-> Hf]. eexists. split; [reflexivity|]. by apply fraction_bound.
Qed.

(** A server that answers half a second past an instant, in the second pass. *)
Definition late_server (pass : nat) (s : bytes) : option sntp_time :=
  if (pass =? 1)%nat && strcmp0 s c!"cn.pool.ntp.org" then Some (SntpTime 1704067200 2147483648) else None.

Lemma sntp_clock_seeded_witness :
  exists ns, fst (seed_realtime_from_sntp late_server) = Seeded (Timespec 1704067200 ns) /\
    0 <= ns < NSEC_PER_SEC /\ ns * 4294967296 <= 2147483648 * NSEC_PER_SEC < (ns + 1) * 4294967296.
Proof.
  refine (sntp_clock_seeded late_server _).
  intros pass s ts. unfold late_server. destruct (_ && _); [|discriminate]. intros [= <-]. cbn. lia.
Defined.

Example late_server_asked :
  seed_realtime_from_sntp late_server =
    (Seeded (Timespec 1704067200 500000000),
     [Ask 0 c!"ntp.aliyun.com"; Ask 0 c!"cn.pool.ntp.org"; Sleep 1000; Ask 1 c!"ntp.aliyun.com"; Ask 1 c!"cn.pool.ntp.org"]).
Proof. by vm_compute. Qed.

End ZephyrClock.
