(* ===== verification/ZephyrMain.v ===== *)
(** * The entry points of the Zephyr ports (demo/*/src/main.c)

    Zephyr has no files, so these mains build the configuration themselves and
    call [broker] directly.  The one for the ESP32-S3 first brings up the Wi-Fi
    link and the address, and sets the clock ([ZephyrClock]).

    [CONFIG_*] are the fields of [kconfig].  An environment says which
    allocations succeed and which events of the network arrive while a
    semaphore is waited for.  The waiting for the link has no bound: its result
    is [None] while no attempt of the environment has succeeded. *)

From S2P Require Import Prelude NngApi NngModel SubHandler Delivery ServerCb ConfApi RestApi WebhookEvents BrokerStart.
From S2P Require Import WebServer ZephyrClock.

Module ZephyrMain.

Import BrokerStart.

(** ** Wi-Fi and DHCP *)

Inductive wifi_event := NET_EVENT_WIFI_CONNECT_RESULT (status : option Z) | NET_EVENT_IPV4_DHCP_BOUND | OTHER_EVENT.
Inductive event_mask := WifiMask | DhcpMask.

#[export] Instance event_mask_eq_dec : EqDecision event_mask.
Proof. solve_decision. Defined.

(** The two semaphores and the callbacks that are registered. *)
Record wifi := Wifi { wifi_connected_sem : Z; dhcp_bound_sem : Z; w_cbs : list event_mask }.

(** A semaphore with the limit 1. *)
Definition k_sem_give (count : Z) : Z := Z.min (count + 1) 1.

Definition wifi_mgmt_event_handler (mgmt_event : wifi_event) (w : wifi) : wifi :=
  match mgmt_event with
  | NET_EVENT_WIFI_CONNECT_RESULT st =>
      match st with
      | Some status => if status =? 0 then Wifi (k_sem_give (wifi_connected_sem w)) (dhcp_bound_sem w) (w_cbs w) else w
      | None => w
      end
  | NET_EVENT_IPV4_DHCP_BOUND => Wifi (wifi_connected_sem w) (k_sem_give (dhcp_bound_sem w)) (w_cbs w)
  | OTHER_EVENT => w
  end.

(** An event is delivered to the callback whose mask it has. *)
Definition event_dispatch (e : wifi_event) (w : wifi) : wifi :=
  let registered m := bool_decide (m ∈ w_cbs w) in
  match e with
  | NET_EVENT_WIFI_CONNECT_RESULT _ => if registered WifiMask then wifi_mgmt_event_handler e w else w
  | NET_EVENT_IPV4_DHCP_BOUND => if registered DhcpMask then wifi_mgmt_event_handler e w else w
  | OTHER_EVENT => w
  end.

Definition net_mgmt_add_event_callback (m : event_mask) (w : wifi) : wifi :=
  Wifi (wifi_connected_sem w) (dhcp_bound_sem w) (m :: w_cbs w).
Definition net_mgmt_del_event_callback (m : event_mask) (w : wifi) : wifi :=
  Wifi (wifi_connected_sem w) (dhcp_bound_sem w) (filter (fun m' => m' <> m) (w_cbs w)).

Inductive sem := ConnectedSem | BoundSem.

Definition sem_count (s : sem) (w : wifi) : Z :=
  match s with ConnectedSem => wifi_connected_sem w | BoundSem => dhcp_bound_sem w end.
Definition sem_dec (s : sem) (w : wifi) : wifi :=
  match s with
  | ConnectedSem => Wifi (wifi_connected_sem w - 1) (dhcp_bound_sem w) (w_cbs w)
  | BoundSem => Wifi (wifi_connected_sem w) (dhcp_bound_sem w - 1) (w_cbs w)
  end.

(** [k_sem_take(s, K_SECONDS(30)) == 0], with the events of these 30 seconds;
    those that are left arrive after it has returned. *)
Fixpoint k_sem_take (s : sem) (events : list wifi_event) (w : wifi) : bool * wifi * list wifi_event :=
  if 0 <? sem_count s w then (true, sem_dec s w, events)
  else match events with
       | [] => (false, w, [])
       | e :: events => k_sem_take s events (event_dispatch e w)
       end.

(** An attempt: what net_mgmt returns, and the events of the next 30 seconds. *)
Record attempt := Attempt { at_ret : Z; at_events : list wifi_event }.

(** [for (int tries = 1;; tries++)]; the result has the number of attempts made. *)
Fixpoint connect_loop (tries : nat) (l : list attempt) (w : wifi) : option (nat * wifi * list wifi_event) :=
  match l with
  | [] => None
  | a :: l =>
      match k_sem_take ConnectedSem (at_events a) w with
      | (true, w, later) => Some (tries, w, later)
      | (false, w, _) => connect_loop (S tries) l w
      end
  end.

(** What is compiled in, and the strings of the configuration. *)
Record kconfig := Kconfig {
  CONFIG_X86 : bool;
  CONFIG_WIFI_ESP32 : bool;
  CONFIG_NET_DHCPV4 : bool;
  CONFIG_SNTP : bool;
  ENABLE_LOG : bool;
  CONFIG_BROKER_LOG_DEBUG : bool;
  CONFIG_BROKER_REST_API : bool;
  CONFIG_BROKER_REST_USER : bytes;
  CONFIG_BROKER_REST_PASS : bytes;
  CONFIG_BROKER_WS : bool;
  CONFIG_BROKER_WEBHOOK : bool;
  CONFIG_BROKER_WEBHOOK_URL : bytes;
  CONFIG_BROKER_WIFI_SSID : bytes;
  CONFIG_BROKER_WIFI_PSK : bytes
}.

Inductive wifi_security := WIFI_SECURITY_TYPE_NONE | WIFI_SECURITY_TYPE_PSK.

(** struct wifi_connect_req_params, as far as it is set. *)
Record wifi_connect_req_params := ConnectParams {
  cnx_ssid : bytes;
  cnx_ssid_length : Z;
  cnx_security : wifi_security;
  cnx_psk : bytes;
  cnx_psk_length : Z;
  cnx_timeout : Z
}.

Definition connect_params (k : kconfig) : wifi_connect_req_params :=
  ConnectParams (CONFIG_BROKER_WIFI_SSID k) (blen (CONFIG_BROKER_WIFI_SSID k))
    (match CONFIG_BROKER_WIFI_PSK k with [] => WIFI_SECURITY_TYPE_NONE | _ => WIFI_SECURITY_TYPE_PSK end)
    (CONFIG_BROKER_WIFI_PSK k) (blen (CONFIG_BROKER_WIFI_PSK k)) 30000.

(** The network as [wifi_sta_connect] meets it; the events of the wait for an
    address are those left of the last attempt and [net_dhcp]. *)
Record network := Network { net_iface : bool; net_attempts : list attempt; net_dhcp : list wifi_event }.

(** The result with the state of semaphores and callbacks, and whether an
    address was bound in time. *)
Definition wifi_sta_connect (k : kconfig) (n : network) (w : wifi) : option (Z * wifi * bool) :=
  match CONFIG_BROKER_WIFI_SSID k with
  | [] => Some (-1, w, false)
  | _ =>
      if negb (net_iface n) then Some (-1, w, false)
      else
        let w := net_mgmt_add_event_callback WifiMask w in
        let w := if CONFIG_NET_DHCPV4 k then net_mgmt_add_event_callback DhcpMask w else w in
        match connect_loop 1 (net_attempts n) w with
        | None => None
        | Some (_, w, later) =>
            let '(bound, w, _) :=
              if CONFIG_NET_DHCPV4 k then k_sem_take BoundSem (later ++ net_dhcp n) w else (false, w, later) in
            let w := net_mgmt_del_event_callback WifiMask w in
            let w := if CONFIG_NET_DHCPV4 k then net_mgmt_del_event_callback DhcpMask w else w in
            Some (0, w, bound)
        end
  end.

(** ** The stand-in for nanomq/process.c (process_stub.c) *)

Module Stub.

Definition process_is_alive (pid : Z) : Z := -1.
Definition process_send_signal (pid signal : Z) : Z := -1.
Definition pidgrp_send_signal (pid signal : Z) : Z := -1.
Definition process_daemonize : Z := -1.
Definition process_create_child {A} (child_run : A -> Z) (data : A) : Z := -1.

End Stub.

(** ** The configuration *)

(** The fields of [conf] that the mains set. *)
Record zconf := Zconf {
  z_url : option bytes;
  z_ipc_internal : bool;
  z_daemon : bool;
  z_qos_duration : Z;
  z_max_topic_alias : Z;
  z_log_level : Z;
  z_http_enable : bool;
  z_auth_type : RestApi.http_auth_type;
  z_username : option bytes;
  z_password : option bytes;
  z_ws_enable : bool;
  z_ws_url : option bytes;
  z_hook_enable : bool;
  z_hook_url : option bytes;
  z_hook_ipc_url : option bytes;
  z_hook_rules : list WebhookEvents.conf_web_hook_rule
}.

(** Blocks of memory that a main allocates. *)
Inductive block := ConfBlock | UserBlock | PassBlock | HookMsg | HookConn | HookRules | HookTopic | HookUrl | HookIpcUrl.

#[export] Instance block_eq_dec : EqDecision block.
Proof. solve_decision. Defined.

Inductive act :=
  | SeedCmos
  | ConfInit
  | WifiConnect (r : Z)
  | SeedSntp
  | DumpIfaces
  | Alloc (b : block)
  | Free (b : block)
  | LogInit (level : Z)
  | PrintConf
  | Broker (c : zconf).

Section Main.

(** nanolib's log levels, and the configuration that conf_init makes. *)
Context (NNG_LOG_INFO NNG_LOG_DEBUG : Z).
Context (conf_init : zconf).

(** Which allocations succeed. *)
Context (alloc : block -> bool).

Definition allocated (b : block) : list act := if alloc b then [Alloc b] else [].
Definition nng_strdup (b : block) (s : bytes) : option bytes := if alloc b then Some s else None.

(** nng_free does nothing for NULL. *)
Definition nng_free (b : block) : list act := if alloc b then [Free b] else [].

Definition minimal_conf (k : kconfig) (c : zconf) : zconf :=
  Zconf (Some c!"nmq-tcp://0.0.0.0:1883") false false 1 1024
    (if CONFIG_BROKER_LOG_DEBUG k then NNG_LOG_DEBUG else z_log_level c)
    (z_http_enable c) (z_auth_type c) (z_username c) (z_password c) (z_ws_enable c) (z_ws_url c)
    (z_hook_enable c) (z_hook_url c) (z_hook_ipc_url c) (z_hook_rules c).

(** The guard of the REST API. *)
Definition own_credentials (k : kconfig) : bool :=
  (0 <? blen (CONFIG_BROKER_REST_USER k)) && (0 <? blen (CONFIG_BROKER_REST_PASS k)) &&
  negb (strcmp0 (CONFIG_BROKER_REST_USER k) c!"admin" && strcmp0 (CONFIG_BROKER_REST_PASS k) c!"public").

Definition rest_conf (k : kconfig) (c : zconf) : zconf * list act :=
  if CONFIG_BROKER_REST_API k then
    if own_credentials k then
      (Zconf (z_url c) (z_ipc_internal c) (z_daemon c) (z_qos_duration c) (z_max_topic_alias c) (z_log_level c)
         true RestApi.BASIC (nng_strdup UserBlock (CONFIG_BROKER_REST_USER k))
         (nng_strdup PassBlock (CONFIG_BROKER_REST_PASS k)) (z_ws_enable c) (z_ws_url c)
         (z_hook_enable c) (z_hook_url c) (z_hook_ipc_url c) (z_hook_rules c),
       allocated UserBlock ++ allocated PassBlock)
    else (c, [])
  else (c, []).

Definition ws_conf (k : kconfig) (c : zconf) : zconf :=
  if CONFIG_BROKER_WS k then
    Zconf (z_url c) (z_ipc_internal c) (z_daemon c) (z_qos_duration c) (z_max_topic_alias c) (z_log_level c)
      (z_http_enable c) (z_auth_type c) (z_username c) (z_password c) true (Some c!"nmq-ws://0.0.0.0:8083/mqtt")
      (z_hook_enable c) (z_hook_url c) (z_hook_ipc_url c) (z_hook_rules c)
  else c.

Definition hook_rules : list WebhookEvents.conf_web_hook_rule :=
  [WebhookEvents.HookRule WebhookEvents.MESSAGE_PUBLISH (Some c!"hook/#");
   WebhookEvents.HookRule WebhookEvents.CLIENT_CONNACK None].

Definition webhook_conf (k : kconfig) (c : zconf) : zconf * list act :=
  if CONFIG_BROKER_WEBHOOK k then
    if 0 <? blen (CONFIG_BROKER_WEBHOOK_URL k) then
      let first := allocated HookMsg ++ allocated HookConn ++ allocated HookRules ++ allocated HookTopic in
      if alloc HookMsg && alloc HookConn && alloc HookRules && alloc HookTopic then
        (Zconf (z_url c) (z_ipc_internal c) (z_daemon c) (z_qos_duration c) (z_max_topic_alias c) (z_log_level c)
           (z_http_enable c) (z_auth_type c) (z_username c) (z_password c) (z_ws_enable c) (z_ws_url c)
           true (nng_strdup HookUrl (CONFIG_BROKER_WEBHOOK_URL k)) (nng_strdup HookIpcUrl c!"inproc://nanomq_hook")
           hook_rules,
         first ++ allocated HookUrl ++ allocated HookIpcUrl)
      else (c, first ++ nng_free HookMsg ++ nng_free HookConn ++ nng_free HookRules ++ nng_free HookTopic)
    else (c, [])
  else (c, []).

Definition set_level (level : Z) (c : zconf) : zconf :=
  Zconf (z_url c) (z_ipc_internal c) (z_daemon c) (z_qos_duration c) (z_max_topic_alias c) level
    (z_http_enable c) (z_auth_type c) (z_username c) (z_password c) (z_ws_enable c) (z_ws_url c)
    (z_hook_enable c) (z_hook_url c) (z_hook_ipc_url c) (z_hook_rules c).

Definition log_conf (k : kconfig) (c : zconf) : zconf * list act :=
  if ENABLE_LOG k then
    let c := set_level NNG_LOG_INFO c in
    let c := if CONFIG_BROKER_LOG_DEBUG k then set_level NNG_LOG_DEBUG c else c in
    (c, LogInit (z_log_level c) :: if CONFIG_BROKER_LOG_DEBUG k then [PrintConf] else [])
  else (c, []).

Definition qemu_log_conf (k : kconfig) (c : zconf) : zconf * list act :=
  if ENABLE_LOG k then (c, [LogInit (z_log_level c)]) else (c, []).

(** The settings between the start of the network and the log. *)
Definition overrides (k : kconfig) (c : zconf) : zconf * list act :=
  let c := minimal_conf k c in
  let '(c, k1) := rest_conf k c in
  let c := ws_conf k c in
  let '(c, k2) := webhook_conf k c in
  (c, k1 ++ k2).

Definition esp_conf (k : kconfig) : zconf := fst (log_conf k (fst (overrides k conf_init))).
Definition qemu_conf (k : kconfig) : zconf := fst (qemu_log_conf k (fst (overrides k conf_init))).

(** main of the ESP32-S3 *)
Definition main (k : kconfig) (n : network) : option (list act) :=
  let clock := if CONFIG_X86 k then [SeedCmos] else [] in
  if negb (alloc ConfBlock) then Some clock
  else
    match (if CONFIG_WIFI_ESP32 k then
             match wifi_sta_connect k n (Wifi 0 0 []) with Some (r, _, _) => Some [WifiConnect r] | None => None end
           else Some [])
    with
    | None => None
    | Some net =>
        let '(c, k1) := overrides k conf_init in
        let '(c, k2) := log_conf k c in
        Some (clock ++ [Alloc ConfBlock; ConfInit] ++ net ++ (if CONFIG_SNTP k then [SeedSntp] else []) ++
              [DumpIfaces] ++ k1 ++ k2 ++ [Broker c])
    end.

(** main of qemu_x86 *)
Definition qemu_main (k : kconfig) : list act :=
  let clock := if CONFIG_X86 k then [SeedCmos] else [] in
  if negb (alloc ConfBlock) then clock
  else
    let '(c, k1) := overrides k conf_init in
    let '(c, k2) := qemu_log_conf k c in
    clock ++ [Alloc ConfBlock; ConfInit; DumpIfaces] ++ k1 ++ k2 ++ [Broker c].

End Main.

(** ** The link comes up *)

Definition linked (events : list wifi_event) : bool :=
  existsb (fun e => match e with NET_EVENT_WIFI_CONNECT_RESULT (Some st) => st =? 0 | _ => false end) events.

Lemma dispatch_cbs e w : w_cbs (event_dispatch e w) = w_cbs w.
Proof. destruct e as [[st|]| |]; cbn; repeat case_match; done. Qed.

Lemma k_sem_take_cbs s events w : w_cbs (snd (fst (k_sem_take s events w))) = w_cbs w.
Proof.
  revert w. induction events as [|e events IH]; intros w; cbn [k_sem_take]; destruct (0 <? sem_count s w);
    try (by destruct s). rewrite IH. apply dispatch_cbs.
Qed.

Lemma take_connected events w :
  WifiMask ∈ w_cbs w -> wifi_connected_sem w = 0 ->
  exists w' later, k_sem_take ConnectedSem events w = (linked events, w', later) /\ wifi_connected_sem w' = 0 /\ w_cbs w' = w_cbs w.
Proof.
  revert w. induction events as [|e events IH]; intros w Hm Hz; cbn [k_sem_take sem_count]; rewrite Hz; cbn [Z.ltb Z.compare].
  { by exists w, []. }
  assert (wifi_connected_sem (event_dispatch e w) = 0 /\ linked (e :: events) = linked events \/
    wifi_connected_sem (event_dispatch e w) = 1 /\ linked (e :: events) = true) as H.
  { destruct e as [[st|]| |]; cbn [event_dispatch linked existsb wifi_mgmt_event_handler];
      [rewrite (bool_decide_true _ Hm)| | |].
    - destruct (Z.eqb_spec st 0); cbn; [right|left]; by rewrite ?Hz.
    - left. by destruct (bool_decide _).
    - left. by destruct (bool_decide _).
    - by left. }
  destruct H as [[H ->]|[H ->]].
  - destruct (IH (event_dispatch e w)) as (w' & later & E & Hw); [by rewrite dispatch_cbs|done|].
    exists w', later. by rewrite E, <- (dispatch_cbs e w).
  - exists (sem_dec ConnectedSem (event_dispatch e w)), events.
    split_and!; [|cbn; by rewrite H|cbn; by rewrite dispatch_cbs].
    destruct events; cbn [k_sem_take sem_count]; by rewrite H.
Qed.

(** The loop ends with the first attempt that succeeds. *)
Lemma connect_loop_spec tries l w :
  WifiMask ∈ w_cbs w -> wifi_connected_sem w = 0 ->
  match list_find (fun a => linked (at_events a) = true) l with
  | Some (i, _) => exists w' later, connect_loop tries l w = Some ((tries + i)%nat, w', later) /\ w_cbs w' = w_cbs w
  | None => connect_loop tries l w = None
  end.
Proof.
  revert tries w. induction l as [|a l IH]; intros tries w Hm Hz; [done|]. cbn [connect_loop list_find].
  destruct (take_connected (at_events a) w Hm Hz) as (w1 & later & E & Hz1 & Hc). rewrite E.
  destruct (linked (at_events a)) eqn:Ha.
  - rewrite decide_True by done. eexists _, _. by rewrite Nat.add_0_r.
  - rewrite decide_False by done. specialize (IH (S tries) w1). rewrite Hc in IH. specialize (IH Hm Hz1).
    destruct (list_find _ l) as [[i a']|]; cbn [fmap option_fmap option_map prod_map]; [|done].
    destruct IH as (w' & later' & -> & Hw'). eexists _, _. split; [by rewrite Nat.add_succ_r|done].
Qed.

(** With a name and an interface [wifi_sta_connect] returns exactly when an
    attempt succeeds; it returns 0, and its callbacks, which are on its stack,
    are registered no longer. *)
Lemma wifi_returns k n :
  CONFIG_BROKER_WIFI_SSID k <> [] -> net_iface n = true ->
  if existsb (fun a => linked (at_events a)) (net_attempts n)
  then exists w bound, wifi_sta_connect k n (Wifi 0 0 []) = Some (0, w, bound) /\ w_cbs w = []
  else wifi_sta_connect k n (Wifi 0 0 []) = None.
Proof.
  intros Hs Hi. unfold wifi_sta_connect. destruct (CONFIG_BROKER_WIFI_SSID k) as [|ch ssid]; [done|]. rewrite Hi. cbn [negb].
  set (w0 := if CONFIG_NET_DHCPV4 k then _ else _).
  assert (WifiMask ∈ w_cbs w0 /\ wifi_connected_sem w0 = 0) as [Hm Hz]
    by (unfold w0; destruct (CONFIG_NET_DHCPV4 k); cbn; (split; [set_solver|done])).
  pose proof (connect_loop_spec 1 (net_attempts n) w0 Hm Hz) as H.
  destruct (list_find _ (net_attempts n)) as [[i a]|] eqn:F.
  - apply list_find_Some in F as (Hl & Ha & _).
    replace (existsb _ _) with true.
    2: { symmetry. apply existsb_exists. exists a. split; [|done]. apply list_elem_of_In. by eapply list_elem_of_lookup_2. }
    destruct H as (w1 & later & -> & Hc). subst w0.
    destruct (CONFIG_NET_DHCPV4 k).
    + pose proof (k_sem_take_cbs BoundSem (later ++ net_dhcp n) w1) as Hk.
      destruct (k_sem_take BoundSem _ w1) as [[bound w2] later2]. cbn [fst snd] in Hk.
      eexists _, _. split; [reflexivity|]. cbn [w_cbs net_mgmt_del_event_callback]. by rewrite Hk, Hc.
    + eexists _, _. split; [reflexivity|]. cbn [w_cbs net_mgmt_del_event_callback]. by rewrite Hc.
  - replace (existsb _ _) with false; [by rewrite H|].
    symmetry. apply not_true_is_false. intros (a & Ha & La)%existsb_exists. apply list_find_None in F.
    apply list_elem_of_In in Ha. by apply (proj1 (Forall_forall _ _) F a Ha).
Qed.

(** ** The broker that the mains start *)

Section Started.

Context `{C : MqttConst}.
Context (HOOK_IPC_URL CMD_IPC_URL INPROC_SERVER_URL : bytes).
Context (NNG_LOG_INFO NNG_LOG_DEBUG : Z) (conf_init : zconf) (alloc : block -> bool).

(** The rest of [conf], which the mains leave as conf_init made it. *)
Context (base : start_conf).

(** What [broker] reads of the configuration. *)
Definition start_of (c : zconf) : start_conf :=
  StartConf (z_url c) (sc_enable base) (sc_tcp_list base) (sc_parallel base) (sc_tls base) (sc_tls_list base)
    (ConfApi.ConfWebsocket (z_ws_enable c) (ConfApi.cw_tls_enable (sc_websocket base)) (z_ws_url c)
       (ConfApi.cw_tls_url (sc_websocket base)))
    (z_http_enable c) (sc_bridge_mode base) (sc_bridges base) (z_hook_enable c) (sc_exchange_count base)
    (sc_sub_enable base) (sc_snodes base) (sc_pub_enable base) (sc_pnodes base) (sc_pre_sessions base)
    (z_ipc_internal c) (z_hook_ipc_url c) (sc_cmd_ipc_url base) (sc_rules base).

(** conf_init turns on the listener and nothing else. *)
Record conf_defaults : Prop := ConfDefaults {
  cd_http : z_http_enable conf_init = false;
  cd_ws : z_ws_enable conf_init = false;
  cd_hook : z_hook_enable conf_init = false;
  cd_enable : sc_enable base = true;
  cd_tcp : sc_tcp_list base = [];
  cd_tls_list : sc_tls_list base = [];
  cd_tls : ConfApi.ct_enable (sc_tls base) = false;
  cd_bridge : sc_bridge_mode base = false;
  cd_bridges : sc_bridges base = [];
  cd_sub : sc_sub_enable base = false;
  cd_pub : sc_pub_enable base = false;
  cd_sessions : sc_pre_sessions base = [];
  cd_rules : sc_rules base = StartRules false false false false false [];
  cd_parallel : 0 <= sc_parallel base < 2147483644
}.

Context (D : conf_defaults).

Abbreviation esp_conf := (esp_conf NNG_LOG_INFO NNG_LOG_DEBUG conf_init alloc).
Abbreviation qemu_conf := (qemu_conf NNG_LOG_DEBUG conf_init alloc).
Abbreviation main := (main NNG_LOG_INFO NNG_LOG_DEBUG conf_init alloc).
Abbreviation overrides := (overrides NNG_LOG_DEBUG alloc).

(** What the settings make of the fields. *)
Record configured (k : kconfig) (c : zconf) : Prop := Configured {
  co_url : z_url c = Some c!"nmq-tcp://0.0.0.0:1883";
  co_ipc : z_ipc_internal c = false;
  co_http : z_http_enable c = CONFIG_BROKER_REST_API k && own_credentials k;
  co_auth : z_http_enable c = true -> z_auth_type c = RestApi.BASIC /\
    z_username c = nng_strdup alloc UserBlock (CONFIG_BROKER_REST_USER k) /\
    z_password c = nng_strdup alloc PassBlock (CONFIG_BROKER_REST_PASS k);
  co_ws : z_ws_enable c = CONFIG_BROKER_WS k;
  co_ws_url : z_ws_enable c = true -> z_ws_url c = Some c!"nmq-ws://0.0.0.0:8083/mqtt";
  co_hook : z_hook_enable c = CONFIG_BROKER_WEBHOOK k && (0 <? blen (CONFIG_BROKER_WEBHOOK_URL k)) &&
    (alloc HookMsg && alloc HookConn && alloc HookRules && alloc HookTopic);
  co_hook_rules : z_hook_enable c = true -> z_hook_rules c = hook_rules /\
    z_hook_url c = nng_strdup alloc HookUrl (CONFIG_BROKER_WEBHOOK_URL k) /\
    z_hook_ipc_url c = nng_strdup alloc HookIpcUrl c!"inproc://nanomq_hook"
}.

Lemma overrides_configured k : configured k (fst (overrides k conf_init)).
Proof.
  destruct D. unfold ZephyrMain.overrides, rest_conf, ws_conf, webhook_conf.
  destruct (CONFIG_BROKER_REST_API k) eqn:E1, (own_credentials k) eqn:E2, (CONFIG_BROKER_WS k) eqn:E3,
    (CONFIG_BROKER_WEBHOOK k) eqn:E4, (0 <? blen (CONFIG_BROKER_WEBHOOK_URL k)) eqn:E5,
    (alloc HookMsg && alloc HookConn && alloc HookRules && alloc HookTopic) eqn:E6;
    constructor; cbn [fst z_url z_ipc_internal z_http_enable z_auth_type z_username z_password z_ws_enable z_ws_url
      z_hook_enable z_hook_url z_hook_ipc_url z_hook_rules minimal_conf]; rewrite ?E1, ?E2, ?E3, ?E4, ?E5, ?E6;
    first [done|intros; congruence].
Qed.

Lemma set_level_configured k level c : configured k c -> configured k (set_level level c).
Proof. intros []. by constructor. Qed.

Lemma esp_configured k : configured k (esp_conf k).
Proof.
  unfold ZephyrMain.esp_conf, log_conf. destruct (ENABLE_LOG k); [|apply overrides_configured].
  destruct (CONFIG_BROKER_LOG_DEBUG k); cbn [fst]; repeat apply set_level_configured; apply overrides_configured.
Qed.

Lemma qemu_configured k : configured k (qemu_conf k).
Proof. unfold ZephyrMain.qemu_conf, qemu_log_conf. destruct (ENABLE_LOG k); apply overrides_configured. Qed.

(** *** The calls *)

(** The addresses that are listened on from outside, and the calls that start
    the REST server or the command server. *)
Definition opened (l : list start_call) : list bytes :=
  omap (fun a => match a with
    | NanoListen false u | CreateListener u | ListenProxy u | ListenCmd u => Some u | _ => None end) l.

Definition admin (a : start_call) : bool :=
  match a with StartRestServer | OpenCmdSock | AllocCmdWork | DeleteFile _ | ListenCmd _ | StartCmdWork => true | _ => false end.
Definition admins (l : list start_call) : list start_call := omap (fun a => if admin a then Some a else None) l.

(** Calls that do neither. *)
Definition inner (a : start_call) : Prop :=
  match a with NanoListen false _ | CreateListener _ | ListenProxy _ => False | _ => admin a = false end.

Lemma inner_silent l : Forall inner l -> opened l = [] /\ admins l = [].
Proof.
  induction 1 as [|a l Ha _ [IH1 IH2]]; [done|]. unfold opened, admins in *. cbn. rewrite IH1, IH2.
  destruct a as [| | | | | | | | | | | | | | |[]| | | | | | | | | | | | |]; done.
Qed.

Lemma fill_inner fuel next i bound mk calls works :
  (forall i, Forall inner (calls i)) -> Forall inner (snd (fill fuel next i bound mk calls (fun _ => []) works)).
Proof.
  intros H. revert i works. induction fuel as [|fuel IH]; intros i works; [by repeat constructor|].
  rewrite fill_S. destruct (_ <? _); [|constructor]. destruct (set_work _ _ _) as [works'|].
  - specialize (IH (next i) works'). destruct (fill fuel _ _ _ _ _ _ works') as [? l]. cbn in *. by apply Forall_app.
  - cbn. apply Forall_app. split; [done|]. by repeat constructor.
Qed.

Lemma init_inner c proto s i : Forall inner (init_calls HOOK_IPC_URL c proto s i).
Proof. unfold init_calls. destruct (extra_ctx c proto s), (hooks c); by repeat constructor. Qed.

Lemma start_works_inner l : Forall inner (concat (map start_work l)).
Proof. induction l as [|[w|] l IH]; [constructor|..]; constructor; done. Qed.

Lemma fill_broker_inner c works tmp : Forall inner (snd (fill_broker HOOK_IPC_URL c works tmp)).
Proof.
  unfold fill_broker. pose proof (fill_inner (S (Z.to_nat (sc_parallel c))) int_next 0 (sc_parallel c)
    (new_slot ServerCb.MQTT_BROKER None) (init_calls HOOK_IPC_URL c ServerCb.MQTT_BROKER InprocSock) works
    (init_inner _ _ _)) as H.
  by destruct (fill _ _ _ _ _ _ _ _).
Qed.

Lemma fill_int_inner c n proto sk node works tmp : Forall inner (snd (fill_int HOOK_IPC_URL c n proto sk node works tmp)).
Proof.
  unfold fill_int. pose proof (fill_inner (S (Z.to_nat n)) int_next (i32 tmp) (u64 (tmp + n))
    (new_slot proto node) (init_calls HOOK_IPC_URL c proto sk) works (init_inner _ _ _)) as H.
  by destruct (fill _ _ _ _ _ _ _ _).
Qed.

Lemma fill_works_inner c e works :
  sc_bridge_mode c = false -> sc_sub_enable c = false -> Forall inner (snd (fill_works HOOK_IPC_URL c e works 0)).
Proof.
  intros Hb Hs. unfold fill_works. rewrite Hb, Hs. unfold and_then, skip.
  pose proof (fill_broker_inner c works 0) as H1. destruct (fill_broker _ c works 0) as [[w1 t1] k1]. cbn [snd] in H1.
  destruct (sc_http_enable c); cbn [snd app]; [|by rewrite app_nil_r].
  pose proof (fill_int_inner c HTTP_CTX_NUM ServerCb.HTTP_SERVER InprocSock None w1 t1) as H2.
  destruct (fill_int _ _ _ _ _ _ w1 t1) as [[w2 t2] k2]. cbn [snd app] in *. rewrite app_nil_r. by apply Forall_app.
Qed.

Lemma opened_app l m : opened (l ++ m) = opened l ++ opened m.
Proof. apply omap_app. Qed.

Lemma admins_app l m : admins (l ++ m) = admins l ++ admins m.
Proof. apply omap_app. Qed.

Abbreviation calls c e := (snd (broker_calls HOOK_IPC_URL CMD_IPC_URL INPROC_SERVER_URL (start_of c) e)).

(** The addresses, and the one server besides the broker that may run. *)
Lemma calls_configured k c e :
  configured k c -> en_alloc e = true ->
  opened (calls c e) = c!"nmq-tcp://0.0.0.0:1883" :: (if CONFIG_BROKER_WS k then [c!"nmq-ws://0.0.0.0:8083/mqtt"] else []) /\
  admins (calls c e) = (if CONFIG_BROKER_REST_API k && own_credentials k then [StartRestServer] else []).
Proof.
  intros [Hu Hi Hh _ Hw Hwu _ _] Ha. destruct D. unfold broker_calls. rewrite Ha.
  destruct (count_ctx _) as [total num].
  pose proof (fill_works_inner (start_of c) e (replicate (Z.to_nat num) None) cd_bridge0 cd_sub0) as Hf.
  destruct (fill_works _ _ _ _ _) as [[works tmp] fills]. cbn [snd] in *.
  apply inner_silent in Hf as [Hf1 Hf2]. destruct (inner_silent _ (start_works_inner works)) as [Hs1 Hs2].
  unfold bridge_calls, proxy_calls, preset_calls, cmd_calls, listeners, hooks.
  cbn [start_of sc_rules sc_http_enable sc_bridge_mode sc_web_hook sc_exchange_count sc_pub_enable sc_enable sc_url
    sc_tcp_list sc_websocket sc_tls_list sc_tls sc_pre_sessions sc_ipc_internal ConfApi.cw_enable ConfApi.cw_url].
  rewrite cd_rules0, cd_bridge0, cd_pub0, cd_enable0, cd_tcp0, cd_tls_list0, cd_tls0, cd_sessions0, Hu, Hi.
  rewrite !opened_app, !admins_app, Hf1, Hf2, Hs1, Hs2. rewrite <- Hh, <- Hw.
  destruct (z_ws_enable c); [rewrite (Hwu eq_refl)|]; destruct (z_http_enable c), (z_hook_enable c || _); done.
Qed.

Lemma start_fits c : conf_fits (start_of c).
Proof.
  destruct D. constructor; cbn [start_of sc_parallel sc_bridges]; [lia|by rewrite cd_bridges0|].
  unfold asked_ctx. cbn [start_of sc_parallel sc_http_enable sc_bridge_mode sc_sub_enable]. rewrite cd_bridge0, cd_sub0.
  unfold HTTP_CTX_NUM. destruct (z_http_enable c); lia.
Qed.

Lemma start_urls k c : configured k c -> urls_ok CMD_IPC_URL (start_of c).
Proof.
  intros [Hu Hi _ _ Hw Hwu _ _]. destruct D.
  constructor; cbn [start_of sc_enable sc_tcp_list sc_tls_list sc_websocket sc_tls sc_ipc_internal ConfApi.cw_enable ConfApi.cw_url].
  - by rewrite cd_tcp0.
  - by rewrite cd_tls_list0.
  - intros E. by rewrite (Hwu E).
  - by rewrite cd_tls0.
  - by rewrite Hi.
Qed.

Lemma start_configured k c e rv :
  configured k c -> en_alloc e = true -> (forall n, rv n = 0) ->
  broker HOOK_IPC_URL CMD_IPC_URL INPROC_SERVER_URL rv (start_of c) e = (calls c e, Started).
Proof.
  intros Hc Ha Hr. unfold broker. apply exec_defined; [done|].
  apply calls_defined; [apply start_fits|by eapply start_urls|done].
Qed.

(** No link is wanted, it is given up at once, or an attempt succeeds. *)
Definition link_comes (k : kconfig) (n : network) : bool :=
  negb (CONFIG_WIFI_ESP32 k) || bool_decide (CONFIG_BROKER_WIFI_SSID k = []) || negb (net_iface n) ||
  existsb (fun a => linked (at_events a)) (net_attempts n).

Definition not_broker (a : act) : Prop := match a with Broker _ => False | _ => True end.

Lemma allocated_not_broker b : Forall not_broker (allocated alloc b).
Proof. unfold allocated. destruct (alloc b); by repeat constructor. Qed.

Lemma nng_free_not_broker b : Forall not_broker (nng_free alloc b).
Proof. unfold nng_free. destruct (alloc b); by repeat constructor. Qed.

Lemma overrides_not_broker k c : Forall not_broker (snd (overrides k c)).
Proof.
  unfold ZephyrMain.overrides, rest_conf, webhook_conf. repeat case_match; simplify_eq; cbn [snd app];
    rewrite ?Forall_app; split_and?; first [apply allocated_not_broker | apply nng_free_not_broker | constructor].
Qed.

(** The main of the ESP32-S3 waits for the link, and then its last act, and no
    other, is the start of the broker. *)
Lemma main_ends k n : alloc ConfBlock = true ->
  if link_comes k n then exists pre, main k n = Some (pre ++ [Broker (esp_conf k)]) /\ Forall not_broker pre
  else main k n = None.
Proof.
  intros Ha. unfold ZephyrMain.main, ZephyrMain.esp_conf. rewrite Ha. cbn [negb].
  pose proof (overrides_not_broker k conf_init) as Ho.
  destruct (ZephyrMain.overrides _ _ _ _) as [c k1]. cbn [fst snd] in *.
  assert (Forall not_broker (snd (log_conf NNG_LOG_INFO NNG_LOG_DEBUG k c))) as Hl
    by (unfold log_conf; repeat case_match; by repeat constructor).
  destruct (log_conf _ _ k c) as [c2 k2]. cbn [fst snd] in *.
  assert (forall net, Forall not_broker net -> exists pre, Some ((if CONFIG_X86 k then [SeedCmos] else []) ++
     [Alloc ConfBlock; ConfInit] ++ net ++ (if CONFIG_SNTP k then [SeedSntp] else []) ++ [DumpIfaces] ++ k1 ++ k2 ++ [Broker c2])
     = Some (pre ++ [Broker c2]) /\ Forall not_broker pre) as Hrun.
  { intros net Hn. eexists ((if CONFIG_X86 k then [SeedCmos] else []) ++ [Alloc ConfBlock; ConfInit] ++ net ++
      (if CONFIG_SNTP k then [SeedSntp] else []) ++ [DumpIfaces] ++ k1 ++ k2). split; [by rewrite <- !app_assoc|].
    rewrite !Forall_app. split_and!; try done; [destruct (CONFIG_X86 k)| |destruct (CONFIG_SNTP k)|]; by repeat constructor. }
  unfold link_comes. destruct (CONFIG_WIFI_ESP32 k); cbn [negb orb]; [|by apply Hrun].
  destruct (decide (CONFIG_BROKER_WIFI_SSID k = [])) as [Es|Es].
  { rewrite bool_decide_true by done. unfold wifi_sta_connect. rewrite Es. cbn [orb]. apply Hrun. by repeat constructor. }
  rewrite bool_decide_false by done. destruct (net_iface n) eqn:Ei; cbn [negb orb].
  - pose proof (wifi_returns k n Es Ei) as Hw. destruct (existsb _ _); [|by rewrite Hw].
    destruct Hw as (w & bound & -> & _). apply Hrun. by repeat constructor.
  - unfold wifi_sta_connect. rewrite Ei. destruct (CONFIG_BROKER_WIFI_SSID k); [done|]. apply Hrun. by repeat constructor.
Qed.

Lemma qemu_main_ends k : alloc ConfBlock = true ->
  exists pre, qemu_main NNG_LOG_DEBUG conf_init alloc k = pre ++ [Broker (qemu_conf k)] /\ Forall not_broker pre.
Proof.
  intros Ha. unfold qemu_main, ZephyrMain.qemu_conf. rewrite Ha. cbn [negb].
  pose proof (overrides_not_broker k conf_init) as Ho.
  destruct (ZephyrMain.overrides _ _ _ _) as [c k1]. cbn [fst snd] in *.
  assert (Forall not_broker (snd (qemu_log_conf k c))) as Hl
    by (unfold qemu_log_conf; destruct (ENABLE_LOG k); by repeat constructor).
  destruct (qemu_log_conf k c) as [c2 k2]. cbn [fst snd] in *.
  eexists ((if CONFIG_X86 k then [SeedCmos] else []) ++ [Alloc ConfBlock; ConfInit; DumpIfaces] ++ k1 ++ k2).
  split; [by rewrite <- !app_assoc|]. rewrite !Forall_app.
  split_and!; try done; [destruct (CONFIG_X86 k)|]; by repeat constructor.
Qed.

(** The broker of the configuration [c] comes up with the addresses and the
    servers that the build [k] asks for. *)
Definition comes_up (rv : nat -> Z) (e : start_env) (k : kconfig) (c : zconf) : Prop :=
  let '(calls, r) := broker HOOK_IPC_URL CMD_IPC_URL INPROC_SERVER_URL rv (start_of c) e in
  r = Started /\
  opened calls = c!"nmq-tcp://0.0.0.0:1883" :: (if CONFIG_BROKER_WS k then [c!"nmq-ws://0.0.0.0:8083/mqtt"] else []) /\
  admins calls = (if CONFIG_BROKER_REST_API k && own_credentials k then [StartRestServer] else []) /\
  (StartRestServer ∈ calls -> z_auth_type c = RestApi.BASIC /\ forall port addr max_body,
     let server := WebServer.set_http_server_conf (WebServer.ServerConf port addr (z_username c) (z_password c) max_body) in
     WebServer.sv_username server = Some (if alloc UserBlock then CONFIG_BROKER_REST_USER k else c!"admin") /\
     WebServer.sv_password server = Some (if alloc PassBlock then CONFIG_BROKER_REST_PASS k else c!"public")).

Lemma configured_comes_up k c e rv :
  configured k c -> en_alloc e = true -> (forall n, rv n = 0) -> comes_up rv e k c.
Proof.
  intros Hc He Hr. unfold comes_up. rewrite (start_configured k c e rv Hc He Hr).
  destruct (calls_configured k c e Hc He) as [H1 H2]. split_and!; [done..|]. intros Hin. destruct Hc.
  assert (z_http_enable c = true) as Hh.
  { rewrite co_http0. assert (StartRestServer ∈ admins (calls c e)) as Hin'
      by (apply list_elem_of_omap; by exists StartRestServer).
    rewrite H2 in Hin'. destruct (_ && _); [done|]. by apply elem_of_nil in Hin'. }
  destruct (co_auth0 Hh) as (Ha & Hu & Hp). split; [done|]. intros port addr max_body. cbn. rewrite Hu, Hp.
  unfold nng_strdup. by destruct (alloc UserBlock), (alloc PassBlock).
Qed.

End Started.


(** ** Witness and details *)

Import Model.

Definition default_conf : zconf :=
  Zconf None true false 10 0 3 false RestApi.BASIC None None false None false None None [].
Definition default_base : start_conf :=
  StartConf None true [] 32 plain_tls [] (ConfApi.ConfWebsocket false false None None) false false [] false 0 false [] false []
    [] true None None no_rules.
Definition board : kconfig :=
  Kconfig false true true true true false true c!"ops" c!"secret" true true c!"http://192.168.1.5:18080/" c!"lab" c!"pass".

(** The second attempt succeeds, with the address soon after. *)
Definition lab : network :=
  Network true
    [Attempt 0 [NET_EVENT_WIFI_CONNECT_RESULT (Some 1)];
     Attempt 0 [OTHER_EVENT; NET_EVENT_WIFI_CONNECT_RESULT (Some 0); NET_EVENT_IPV4_DHCP_BOUND]] [].

Lemma default_ok : conf_defaults default_conf default_base.
Proof. by constructor. Qed.


(** The forwarder is on with both rules, or it is off and the blocks that were
    allocated for it are freed. *)
Lemma webhook_all_or_nothing alloc k c :
  z_hook_enable c = false ->
  let '(c', l) := webhook_conf alloc k c in
  (z_hook_enable c' = true /\ z_hook_rules c' = hook_rules) \/
  (z_hook_enable c' = false /\ forall b, Alloc b ∈ l -> Free b ∈ l).
Proof.
  intros Hc. unfold webhook_conf. destruct (CONFIG_BROKER_WEBHOOK k); [|right; split; [done|by intros b ?%elem_of_nil]].
  destruct (0 <? _); [|right; split; [done|by intros b ?%elem_of_nil]].
  destruct (_ && _ && _ && _); [by left|right; split; [done|]].
  intros b. unfold allocated, nng_free. rewrite !elem_of_app. intros H.
  destruct (alloc HookMsg), (alloc HookConn), (alloc HookRules), (alloc HookTopic); set_solver.
Qed.

(** The two addresses are allocated after that: without memory for them the
    forwarder is on without a URL. *)
Lemma webhook_without_url :
  exists alloc, let c := esp_conf 3 4 default_conf alloc board in
  z_hook_enable c = true /\ z_hook_url c = None /\ z_hook_ipc_url c = None.
Proof.
  exists (fun b => negb (bool_decide (b = HookUrl)) && negb (bool_decide (b = HookIpcUrl))). by vm_compute.
Qed.

(** Neither are the copies of the credentials checked: the REST server may be
    started without a user name. *)
Lemma rest_without_user :
  exists alloc, let c := esp_conf 3 4 default_conf alloc board in
  z_http_enable c = true /\ z_auth_type c = RestApi.BASIC /\ z_username c = None.
Proof. exists (fun b => negb (bool_decide (b = UserBlock))). by vm_compute. Qed.

(** The published pair is refused, and so is a name without a password. *)
Lemma published_refused k :
  CONFIG_BROKER_REST_USER k = c!"admin" /\ CONFIG_BROKER_REST_PASS k = c!"public" \/ CONFIG_BROKER_REST_PASS k = [] ->
  own_credentials k = false.
Proof. unfold own_credentials. intros [[-> ->]| ->]; [done|]. by rewrite andb_false_r. Qed.

End ZephyrMain.
