(* ===== verification/AwsBridge.v ===== *)
(** * The AWS bridge (nanomq/aws_bridge.c)

    A thread per node keeps an MQTT session over TLS with AWS IoT: it connects
    with retries, subscribes, and runs the library's loop, whose callback hands
    received publishes to the broker.  The workers of the broker forward
    publishes to the nodes.

    coreMQTT, the TLS transport and the back-off algorithm are libraries that
    the sources only call: they are the class [AwsLib], which changes a [world].
    A function returns the calls it made, the new world and its result; [true]
    is EXIT_SUCCESS, MQTTSuccess or OPENSSL_SUCCESS. *)

From S2P Require Import Prelude NngApi NngModel MqttApi Bridge.

(** ServerInfo_t and OpensslCredentials_t *)
Record server_info := ServerInfo { si_host : bytes; si_host_len : Z; si_port : Z }.
Record ssl_credentials := SslCredentials {
  sc_root_ca : option bytes;
  sc_client_cert : option bytes;
  sc_private_key : option bytes;
  sc_sni : bytes;
  sc_alpn : option bytes
}.

(** MQTTConnectInfo_t; a string has its length. *)
Record connect_info := ConnectInfo {
  ci_clean : bool;
  ci_clientid : option bytes * Z;
  ci_keepalive : Z;
  ci_username : option bytes * Z;
  ci_password : option bytes * Z
}.

(** MQTTSubscribeInfo_t and MQTTPublishInfo_t *)
Record subscribe_info := SubscribeInfo { su_qos : Z; su_topic : bytes; su_len : Z }.
Record publish_info := PublishInfo {
  pu_qos : Z;
  pu_retain : bool;
  pu_dup : bool;
  pu_topic : bytes;
  pu_topic_len : Z;
  pu_payload : bytes;
  pu_payload_len : Z
}.

(** A packet that the library passes to the callback. *)
Record packet := Packet { pk_type : Z; pk_publish : publish_info; pk_suback : bool }.

Inductive backoff_status := BackoffAlgorithmSuccess | BackoffAlgorithmRetriesExhausted.

Class AwsLib := {
  world : Type;
  backoff_ctx : Type;
  Openssl_Connect : server_info -> ssl_credentials -> world -> bool * world;
  Openssl_Disconnect : world -> world;
  MQTT_Connect : connect_info -> world -> bool * world;
  MQTT_GetPacketId : world -> Z * world;
  MQTT_Subscribe : list subscribe_info -> Z -> world -> bool * world;
  MQTT_Publish : publish_info -> Z -> world -> bool * world;
  (* the packets the callback was called with *)
  MQTT_ProcessLoop : world -> bool * list packet * world;
  rand : world -> Z * world;
  (* base and maximal delay, attempts *)
  BackoffAlgorithm_InitializeParams : Z -> Z -> Z -> backoff_ctx;
  BackoffAlgorithm_GetNextBackoff : backoff_ctx -> Z -> backoff_status * Z * backoff_ctx
}.

(** The algorithm counts the attempts that were made and bounds the delay. *)
Class BackoffLaws `{AwsLib} := {
  attempts_left : backoff_ctx -> nat;
  max_backoff : backoff_ctx -> Z;
  init_left base max n : attempts_left (BackoffAlgorithm_InitializeParams base max n) = Z.to_nat n;
  init_max base max n : max_backoff (BackoffAlgorithm_InitializeParams base max n) = max;
  next_exhausted c r : attempts_left c = O ->
    fst (fst (BackoffAlgorithm_GetNextBackoff c r)) = BackoffAlgorithmRetriesExhausted;
  next_success c r : attempts_left c <> O -> 0 <= max_backoff c ->
    exists delay c', BackoffAlgorithm_GetNextBackoff c r = (BackoffAlgorithmSuccess, delay, c') /\
      0 <= delay <= max_backoff c /\ attempts_left c' = pred (attempts_left c) /\ max_backoff c' = max_backoff c
}.

Module AwsBridge.

Import MqttApi.

Definition AWS_IOT_MQTT_ALPN : bytes := 14 :: c!"x-amzn-mqtt-ca".
Definition CONNECTION_RETRY_MAX_ATTEMPTS : Z := 5.
Definition CONNECTION_RETRY_MAX_BACKOFF_DELAY_MS : Z := 5000.
Definition CONNECTION_RETRY_BACKOFF_BASE_MS : Z := 500.
Definition MQTT_PROCESS_LOOP_TIMEOUT_MS : Z := 500.
Definition MQTT_SUBPUB_LOOP_DELAY_SECONDS : Z := 5.
Definition MQTT_PACKET_TYPE_PUBLISH : Z := 0x30.

(** What the bridge uses of conf_bridge_node; [an_sub_list] has qos and
    remote_topic of each topic. *)
Record aws_node := AwsNode {
  an_enable : bool;
  an_host : bytes;
  an_port : Z;
  an_cafile : option bytes;
  an_certfile : option bytes;
  an_keyfile : option bytes;
  an_clientid : option bytes;
  an_username : option bytes;
  an_password : option bytes;
  an_keepalive : Z;
  an_clean_start : bool;
  an_proto_ver : Z;
  an_sub_list : list (Z * bytes);
  an_forwards_list : list topics
}.

Section Aws.

Context `{C : MqttConst} `{M : NngMsg} `{MN : !NngMsgNew} `{CA : !CommonApi} `{TF : TopicFilter} `{L : AwsLib}.

(** The calls, with their results; [ToBroker] is a message given to the broker
    and [Crash] a use of NULL: what follows it in a list does not happen. *)
Inductive call :=
  | TlsConnect (ok : bool)
  | TlsDisconnect
  | SessionConnect (info : connect_info) (ok : bool)
  | SleepMs (ms : Z)
  | SubscribeCall (l : list subscribe_info) (id : Z)
  | PublishCall (p : publish_info) (id : Z)
  | ProcessLoop
  | ToBroker (m : nng_msg)
  | FreeMsg (m : option nng_msg)
  | Crash.

(** ** Connecting *)

Definition with_len (s : option bytes) : option bytes * Z :=
  (s, match s with Some s => blen s | None => 0 end).

Definition establish_mqtt_session (clean_session : bool) (node : aws_node) (w : world) : bool * list call * world :=
  let conn_info := ConnectInfo clean_session (with_len (an_clientid node)) (an_keepalive node)
                     (with_len (an_username node)) (with_len (an_password node)) in
  let '(ok, w) := MQTT_Connect conn_info w in
  (ok, [SessionConnect conn_info ok], w).

Definition node_server (node : aws_node) : server_info := ServerInfo (an_host node) (blen (an_host node)) (an_port node).

Definition node_credentials (node : aws_node) : ssl_credentials :=
  SslCredentials (an_cafile node) (an_certfile node) (an_keyfile node) (an_host node)
    (if an_port node =? 443 then Some AWS_IOT_MQTT_ALPN else None).

(** A round of the loop without the back-off. *)
Definition try_connect (node : aws_node) (w : world) : bool * list call * world :=
  let '(tls, w) := Openssl_Connect (node_server node) (node_credentials node) w in
  if tls then
    let '(ok, k, w) := establish_mqtt_session (an_clean_start node) node w in
    if ok then (true, TlsConnect true :: k, w)
    else (false, TlsConnect true :: k ++ [TlsDisconnect], Openssl_Disconnect w)
  else (false, [TlsConnect false], w).

(** The do-while loop; [None] is one that has not ended after [fuel] rounds. *)
Fixpoint connect_loop (fuel : nat) (reconnect_ctx : backoff_ctx) (node : aws_node) (w : world)
  : option (bool * list call * world) :=
  match fuel with
  | O => None
  | S fuel =>
      let '(ok, k, w) := try_connect node w in
      if ok then Some (true, k, w)
      else
        let '(r, w) := rand w in
        match BackoffAlgorithm_GetNextBackoff reconnect_ctx r with
        | (BackoffAlgorithmRetriesExhausted, _, _) => Some (false, k, w)
        | (BackoffAlgorithmSuccess, next_retry_back_off, reconnect_ctx) =>
            '(ok, k', w) ← connect_loop fuel reconnect_ctx node w;
            Some (ok, k ++ SleepMs next_retry_back_off :: k', w)
        end
  end.

Definition connect_retries (fuel : nat) (node : aws_node) (w : world) : option (bool * list call * world) :=
  connect_loop fuel
    (BackoffAlgorithm_InitializeParams CONNECTION_RETRY_BACKOFF_BASE_MS CONNECTION_RETRY_MAX_BACKOFF_DELAY_MS
       CONNECTION_RETRY_MAX_ATTEMPTS) node w.

(** ** Receiving *)

(** The message with the fields of a publish set, and the results of
    nng_msg_alloc and nng_sendmsg. *)
Context (publish_msg : publish_info -> nng_msg) (alloc_rv send_rv : Z).

Definition handle_recv_publish (pub_info : publish_info) (node : aws_node) : list call :=
  let pub_msg := publish_msg pub_info in
  match an_clientid node with
  | None => [Crash]
  | Some clientid =>
      match encode_common_mqtt_msg alloc_rv pub_msg clientid (an_proto_ver node) with
      | (rv, msg) =>
          if negb (rv =? 0) then [FreeMsg msg]
          else match msg with
               | None => [Crash]
               | Some m => if negb (send_rv =? 0) then [FreeMsg (Some m)] else [ToBroker m]
               end
      end
  end.

Definition event_cb (p : packet) (node : aws_node) : list call :=
  if Z.land (pk_type p) 0xF0 =? MQTT_PACKET_TYPE_PUBLISH then handle_recv_publish (pk_publish p) node else [].

(** A call of MQTT_ProcessLoop with the calls of the callback. *)
Definition process_loop (node : aws_node) (w : world) : bool * list call * world :=
  let '(ok, packets, w) := MQTT_ProcessLoop w in
  (ok, ProcessLoop :: concat (map (fun p => event_cb p node) packets), w).

Definition subscribe_list (node : aws_node) : list subscribe_info :=
  map (fun '(qos, topic) => SubscribeInfo qos topic (blen topic)) (an_sub_list node).

Definition subscribe_to_topic (node : aws_node) (w : world) : bool * list call * world :=
  let '(id, w) := MQTT_GetPacketId w in
  let '(ok, w) := MQTT_Subscribe (subscribe_list node) id w in
  if ok then
    let '(ok, k, w) := process_loop node w in (ok, SubscribeCall (subscribe_list node) id :: k, w)
  else (false, [SubscribeCall (subscribe_list node) id], w).

(** ** The thread *)

(** [while (rv == EXIT_SUCCESS)]; [None] is a loop that is still running. *)
Fixpoint run_session (fuel : nat) (rv : bool) (node : aws_node) (w : world) : option (list call * world) :=
  if rv then
    match fuel with
    | O => None
    | S fuel =>
        let '(rv, k, w) := process_loop node w in
        '(k', w) ← run_session fuel rv node w;
        Some (k ++ SleepMs MQTT_PROCESS_LOOP_TIMEOUT_MS :: k', w)
    end
  else Some ([], w).

(** A round of [while (true)] *)
Definition thread_round (fuel : nat) (rv : bool) (node : aws_node) (w : world) : option (bool * list call * world) :=
  if rv then
    '(rv, k1, w) ← connect_retries fuel node w;
    if rv : bool then
      let '(rv, k2, w) := subscribe_to_topic node w in
      '(k3, w) ← run_session fuel rv node w;
      Some (false, k1 ++ k2 ++ k3 ++ [SleepMs (MQTT_SUBPUB_LOOP_DELAY_SECONDS * 1000)], w)
    else Some (false, k1, w)
  else Some (false, [], w).

(** [n] rounds, from the result of initialize_mqtt on, which exits the process
    when it fails. *)
Fixpoint thread_rounds (fuel n : nat) (rv : bool) (node : aws_node) (w : world) : option (list call * world) :=
  match n with
  | O => Some ([], w)
  | S n =>
      '(rv, k, w) ← thread_round fuel rv node w;
      '(k', w) ← thread_rounds fuel n rv node w;
      Some (k ++ k', w)
  end.

Definition mqtt_thread (fuel n : nat) (init_ok : bool) (node : aws_node) (w : world) : option (list call * world) :=
  if init_ok then thread_rounds fuel n true node w else Some ([], w).

(** client_init starts the thread and ends without a return statement: its
    value, which aws_bridge_client returns, is undetermined. *)
Definition client_init : option Z := None.
Definition aws_bridge_client : option Z := client_init.

(** ** Forwarding *)

Definition aws_bridge_publish_msg (topic payload : bytes) (len : Z) (dup : bool) (qos : Z) (retain : bool) : publish_info :=
  PublishInfo (if 2 <=? qos then 1 else qos) retain false topic (blen topic) payload len.

(** The publish of a worker. *)
Record aws_pub := AwsPub {
  ap_topic : bytes;
  ap_payload : bytes;
  ap_dup : bool;
  ap_qos : Z;
  ap_retain : bool
}.

(** [None] is the use of a topic that is NULL. *)
Definition publish_topic (f : topics) (p : aws_pub) : option bytes :=
  if tp_remote_topic_len f =? 0 then Some (ap_topic p) else tp_remote_topic f.

(** The loop over the topics of a node; a failed MQTT_ProcessLoop ends it. *)
Fixpoint forwards_loop (l : list topics) (p : aws_pub) (node : aws_node) (w : world) : list call * world :=
  match l with
  | [] => ([], w)
  | f :: l =>
      match tp_local_topic f with
      | None => ([Crash], w)
      | Some local_topic =>
          if topic_filter local_topic (ap_topic p) then
            let '(packet_id, w) := MQTT_GetPacketId w in
            match publish_topic f p with
            | None => ([Crash], w)
            | Some topic =>
                let pub_info := aws_bridge_publish_msg topic (ap_payload p) (blen (ap_payload p)) (ap_dup p) (ap_qos p)
                                  (ap_retain p) in
                let '(_, w) := MQTT_Publish pub_info packet_id w in
                let '(ok, k, w) := process_loop node w in
                if negb ok then (PublishCall pub_info packet_id :: k, w)
                else
                  let '(k', w) := forwards_loop l p node w in
                  (PublishCall pub_info packet_id :: k ++ k', w)
            end
          else forwards_loop l p node w
      end
  end.

Fixpoint aws_bridge_forward (nodes : list aws_node) (p : aws_pub) (w : world) : list call * world :=
  match nodes with
  | [] => ([], w)
  | node :: nodes =>
      let '(k, w) := if an_enable node then forwards_loop (an_forwards_list node) p node w else ([], w) in
      let '(k', w) := aws_bridge_forward nodes p w in
      (k ++ k', w)
  end.

(** ** The connection *)

(** What the calls do to the TLS session: [None] is a session that is opened
    twice, closed when there is none, or used when there is none. *)
Definition tls_step (opened : bool) (c : call) : option bool :=
  match c with
  | TlsConnect true => if opened then None else Some true
  | TlsDisconnect => if opened then Some false else None
  | SessionConnect _ _ => if opened then Some true else None
  | _ => Some opened
  end.

Fixpoint tls_run (opened : bool) (l : list call) : option bool :=
  match l with [] => Some opened | c :: l => opened ← tls_step opened c; tls_run opened l end.

Lemma tls_run_app o l k : tls_run o (l ++ k) = (o' ← tls_run o l; tls_run o' k).
Proof. revert o. induction l as [|c l IH]; intros o; cbn; [done|]. destruct (tls_step o c) as [o'|]; cbn; [apply IH|done]. Qed.

Definition tries (l : list call) : nat := length (omap (fun c => match c with TlsConnect _ => Some tt | _ => None end) l).
Definition pauses (l : list call) : list Z := omap (fun c => match c with SleepMs ms => Some ms | _ => None end) l.

Lemma try_connect_calls node w ok k w' :
  try_connect node w = (ok, k, w') -> tls_run false k = Some ok /\ tries k = 1%nat /\ pauses k = [].
Proof.
  unfold try_connect, establish_mqtt_session. destruct (Openssl_Connect _ _ w) as [[] w1].
  - destruct (MQTT_Connect _ w1) as [[] w2]; intros E; injection E as <- <- <-; by split_and!.
  - intros E. injection E as <- <- <-. by split_and!.
Qed.

Context `{BL : !BackoffLaws}.

Lemma connect_loop_ends ctx node w fuel :
  (attempts_left ctx < fuel)%nat -> 0 <= max_backoff ctx ->
  exists ok k w', connect_loop fuel ctx node w = Some (ok, k, w') /\ tls_run false k = Some ok /\
    (1 <= tries k <= S (attempts_left ctx))%nat /\ (ok = false -> tries k = S (attempts_left ctx)) /\
    length (pauses k) = pred (tries k) /\ Forall (fun ms => 0 <= ms <= max_backoff ctx) (pauses k).
Proof.
  revert ctx w. induction fuel as [|fuel IH]; intros ctx w Hf H0; [lia|]. cbn [connect_loop].
  destruct (try_connect node w) as [[ok k] w1] eqn:T. destruct (try_connect_calls _ _ _ _ _ T) as (H1 & H2 & H3).
  destruct ok.
  { exists true, k, w1. rewrite H2, H3. split_and!; [done|done|lia|lia|done|done|constructor]. }
  destruct (rand w1) as [r w2].
  assert (attempts_left ctx = O \/ attempts_left ctx <> O) as [E|E] by lia.
  - pose proof (next_exhausted ctx r E) as Hn. destruct (BackoffAlgorithm_GetNextBackoff ctx r) as [[st d] ctx'].
    cbn [fst] in Hn. subst st. exists false, k, w2. rewrite H2, H3, E. split_and!; [done|done|lia|lia|done|done|constructor].
  - destruct (next_success ctx r E H0) as (d & ctx' & -> & Hd & Ha & Hm).
    destruct (IH ctx' w2) as (ok & k' & w' & -> & I1 & I2 & I3 & I4 & I5); [lia|lia|].
    exists ok, (k ++ SleepMs d :: k'), w'. cbn [mbind option_bind].
    assert (tries (k ++ SleepMs d :: k') = S (tries k')) as Ht
      by (unfold tries in *; rewrite omap_app, length_app; cbn; lia).
    assert (pauses (k ++ SleepMs d :: k') = d :: pauses k') as Hp
      by (unfold pauses in *; rewrite omap_app, H3; done).
    rewrite Ht, Hp, tls_run_app, H1. cbn [mbind option_bind tls_run tls_step length].
    split_and!; [done|done|lia|lia|intros Hk; rewrite (I3 Hk); lia|lia|].
    constructor; [lia|]. by rewrite <- Hm.
Qed.

(** ** The thread *)

Lemma rounds_failed fuel n node w : thread_rounds fuel n false node w = Some ([], w).
Proof. induction n as [|n IH]; [done|]. cbn [thread_rounds thread_round mbind option_bind]. by rewrite IH. Qed.

(** After the first round the thread does nothing any more. *)
Lemma round_last fuel n node w : thread_rounds fuel (S n) true node w = thread_rounds fuel 1 true node w.
Proof.
  assert (forall rv k w', thread_round fuel true node w = Some (rv, k, w') -> rv = false) as H.
  { intros rv k w' E. unfold thread_round in E. destruct (connect_retries fuel node w) as [[[[] k1] w1]|]; cbn in E; try done.
    - destruct (subscribe_to_topic node w1) as [[rv2 k2] w2].
      destruct (run_session fuel rv2 node w2) as [[k3 w3]|]; cbn in E; [|done]. congruence.
    - congruence. }
  cbn [thread_rounds]. destruct (thread_round fuel true node w) as [[[rv k] w']|] eqn:E; cbn [mbind option_bind]; [|done].
  rewrite (H _ _ _ eq_refl), rounds_failed. reflexivity.
Qed.

(** ** Forwarding *)

Definition published (l : list call) : list publish_info :=
  omap (fun c => match c with PublishCall p _ => Some p | _ => None end) l.

Lemma published_app l k : published (l ++ k) = published l ++ published k.
Proof. apply omap_app. Qed.

Lemma event_cb_published p node : published (event_cb p node) = [].
Proof.
  unfold event_cb, handle_recv_publish. destruct (_ =? _); [|done]. destruct (an_clientid node) as [c|]; [|done].
  destruct (encode_common_mqtt_msg _ _ _ _) as [rv [m|]]; destruct (negb (rv =? 0)); try done.
  by destruct (negb (send_rv =? 0)).
Qed.

Lemma process_loop_published node w : published (snd (fst (process_loop node w))) = [].
Proof.
  unfold process_loop. destruct (MQTT_ProcessLoop w) as [[ok l] w']. cbn [fst snd].
  unfold published. cbn. fold (published (concat (map (fun p => event_cb p node) l))).
  induction l as [|p l IH]; [done|]. cbn [map concat]. by rewrite published_app, event_cb_published, IH.
Qed.

(** What a node is to be sent. *)
Definition to_node (p : aws_pub) (node : aws_node) : list publish_info :=
  if an_enable node then
    omap (fun f => filter ← tp_local_topic f;
      if topic_filter filter (ap_topic p) then
        topic ← publish_topic f p;
        Some (aws_bridge_publish_msg topic (ap_payload p) (blen (ap_payload p)) (ap_dup p) (ap_qos p) (ap_retain p))
      else None) (an_forwards_list node)
  else [].

(** The topics of the configuration are there. *)
Definition topics_ok (f : topics) : Prop := is_Some (tp_local_topic f) /\ (tp_remote_topic_len f <> 0 -> is_Some (tp_remote_topic f)).

Lemma forwards_prefix l p node w :
  Forall topics_ok l ->
  let all := omap (fun f => filter ← tp_local_topic f;
      if topic_filter filter (ap_topic p) then
        topic ← publish_topic f p;
        Some (aws_bridge_publish_msg topic (ap_payload p) (blen (ap_payload p)) (ap_dup p) (ap_qos p) (ap_retain p))
      else None) l in
  published (fst (forwards_loop l p node w)) `prefix_of` all /\
  ((forall w, fst (fst (MQTT_ProcessLoop w)) = true) -> published (fst (forwards_loop l p node w)) = all).
Proof.
  intros Hl. revert w. induction Hl as [|f l [[lt Hlt] Hrt] Hl IH]; intros w; [done|].
  cbn [forwards_loop omap list_omap]. rewrite Hlt. cbn [mbind option_bind].
  destruct (topic_filter lt (ap_topic p)); [|apply IH].
  destruct (MQTT_GetPacketId w) as [id w1].
  assert (is_Some (publish_topic f p)) as [topic ->].
  { unfold publish_topic. destruct (Z.eqb_spec (tp_remote_topic_len f) 0); [done|]. by apply Hrt. }
  cbn [mbind option_bind]. destruct (MQTT_Publish _ _ w1) as [r w2].
  pose proof (process_loop_published node w2) as Hp.
  assert (fst (fst (process_loop node w2)) = fst (fst (MQTT_ProcessLoop w2))) as Hok
    by (unfold process_loop; by destruct (MQTT_ProcessLoop w2) as [[]]).
  destruct (process_loop node w2) as [[ok k] w3]. cbn [fst snd] in *.
  set (pi := aws_bridge_publish_msg _ _ _ _ _ _). destruct ok; cbn [negb].
  - destruct (IH w3) as [I1 I2]. destruct (forwards_loop l p node w3) as [k' w4]. cbn [fst] in *.
    assert (published (PublishCall pi id :: k ++ k') = pi :: published k') as ->
      by (change (PublishCall pi id :: k ++ k') with ([PublishCall pi id] ++ k ++ k'); by rewrite !published_app, Hp).
    split; [by apply prefix_cons|]. intros H. by rewrite I2.
  - cbn [fst]. assert (published (PublishCall pi id :: k) = [pi]) as ->
      by (change (PublishCall pi id :: k) with ([PublishCall pi id] ++ k); by rewrite published_app, Hp).
    split; [apply prefix_cons, prefix_nil|]. intros H. by rewrite H in Hok.
Qed.

Lemma to_node_qos p node : Forall (fun i => pu_qos i <= 1 \/ pu_qos i = ap_qos p /\ ap_qos p < 2) (to_node p node).
Proof.
  unfold to_node. destruct (an_enable node); [|constructor]. apply Forall_forall. intros i Hi.
  apply list_elem_of_omap in Hi as (f & _ & Hf). destruct (tp_local_topic f) as [lt|]; [|done]. cbn in Hf.
  destruct (topic_filter _ _); [|done]. destruct (publish_topic f p); [|done]. cbn in Hf. injection Hf as <-.
  cbn. destruct (Z.leb_spec 2 (ap_qos p)); [left; lia|right; lia].
Qed.

(** The publishes that a worker hands to AWS: nothing but what the enabled
    nodes ask for by their topics, in the order of the configuration, with
    quality of service at most 1; and all of that when the loop of the library
    does not fail. *)
Theorem aws_forward_correct nodes p w :
  Forall (fun n => Forall topics_ok (an_forwards_list n)) nodes ->
  let out := published (fst (aws_bridge_forward nodes p w)) in
  out `sublist_of` concat (map (to_node p) nodes) /\
  Forall (fun i => pu_qos i <= 1) out /\
  ((forall w, fst (fst (MQTT_ProcessLoop w)) = true) -> out = concat (map (to_node p) nodes)).
Proof.
  intros Hn out.
  assert (out `sublist_of` concat (map (to_node p) nodes) /\
    ((forall w, fst (fst (MQTT_ProcessLoop w)) = true) -> out = concat (map (to_node p) nodes))) as [H1 H2].
  { subst out. revert w. induction Hn as [|n nodes Hf Hn IH]; intros w; [done|]. cbn [aws_bridge_forward map concat].
    assert (exists k w1, (if an_enable n then forwards_loop (an_forwards_list n) p n w else ([], w)) = (k, w1) /\
      published k `prefix_of` to_node p n /\
      ((forall w, fst (fst (MQTT_ProcessLoop w)) = true) -> published k = to_node p n)) as (k & w1 & -> & K1 & K2).
    { unfold to_node. destruct (an_enable n); [|by eexists _, _].
      pose proof (forwards_prefix (an_forwards_list n) p n w Hf) as F.
      destruct (forwards_loop _ p n w) as [k w1]. by exists k, w1. }
    destruct (IH w1) as [I1 I2]. destruct (aws_bridge_forward nodes p w1) as [k' w2]. cbn [fst] in *.
    rewrite published_app. split.
    { apply sublist_app; [|done]. destruct K1 as [rest ->]. by apply sublist_inserts_r. }
    intros H. by rewrite K2, I2. }
  split_and!; [done| |done]. apply Forall_forall. intros i Hi.
  pose proof (elem_of_submseteq _ _ _ Hi (sublist_submseteq _ _ H1)) as Hin.
  apply list_elem_of_In, in_concat in Hin as (l & (n & <- & _)%in_map_iff & Hl%list_elem_of_In).
  pose proof (proj1 (Forall_forall _ _) (to_node_qos p n) i Hl). cbn in *. lia.
Qed.

(** C40. [connect_retries] returns within six attempts: it pauses between two
    attempts, never more than five seconds, opens a session only over a TLS
    connection, closes that connection when the session fails, and ends with
    one connection when it succeeded and with none when all attempts failed. *)
Theorem connect_retries_ends node w :
  exists ok k w', connect_retries 6 node w = Some (ok, k, w') /\ tls_run false k = Some ok /\
    (1 <= tries k <= 6)%nat /\ (ok = false -> tries k = 6%nat) /\ length (pauses k) = pred (tries k) /\
    Forall (fun ms => 0 <= ms <= CONNECTION_RETRY_MAX_BACKOFF_DELAY_MS) (pauses k).
Proof.
  unfold connect_retries.
  set (ctx := BackoffAlgorithm_InitializeParams _ _ _).
  assert (attempts_left ctx = 5%nat) as Hl by (unfold ctx; by rewrite init_left).
  assert (max_backoff ctx = CONNECTION_RETRY_MAX_BACKOFF_DELAY_MS) as Hm by apply init_max.
  destruct (connect_loop_ends ctx node w 6) as (ok & k & w' & H);
    [lia|by rewrite Hm|]. rewrite Hl, Hm in H. by exists ok, k, w'.
Qed.

(** The thread connects at most once: whether its attempts are exhausted or the
    session it had is lost, every further round of its loop makes no call. *)
Theorem aws_never_reconnects fuel n node w :
  mqtt_thread fuel (S n) true node w = mqtt_thread fuel 1 true node w.
Proof. apply round_last. Qed.

(** ** What the broker receives *)

Context `{ML : !NngMsgLaws} `{MA : !NngMsgAlloc} `{NL : !NngMsgNewLaws} `{CL : !CommonApiLaws}.

(** A received publish reaches the broker: the message that is sent decodes to
    the packet, the node's client id and its version. *)
Theorem recv_publish_decoded pub_info node clientid :
  alloc_rv = 0 -> send_rv = 0 -> an_clientid node = Some clientid ->
  nng_msg_body new_msg = [] -> nng_msg_header new_msg = [] ->
  let src := if an_proto_ver node =? MQTT_PROTOCOL_VERSION_v5 then nng_mqttv5_msg_encode (publish_msg pub_info)
             else nng_mqtt_msg_encode (publish_msg pub_info) in
  blen (nng_msg_header src) < 4294967296 -> blen (nng_msg_body src) < 4294967296 -> blen clientid < 4294967296 ->
  exists m msg cparam, handle_recv_publish pub_info node = [ToBroker m] /\
    decode_common_mqtt_msg 0 m = Some (0, Some (msg, cparam)) /\
    nng_msg_header msg = nng_msg_header src /\ nng_msg_body msg = nng_msg_body src /\
    conn_param_get_clientid cparam = Some (c_str clientid) /\ conn_param_proto_ver cparam = an_proto_ver node.
Proof.
  intros Ha Hs Hc Hb Hh src H1 H2 H3. unfold handle_recv_publish. rewrite Hc, Ha, Hs.
  destruct (encode_common_mqtt_msg 0 (publish_msg pub_info) clientid (an_proto_ver node)) as [rv [m|]] eqn:E.
  - assert (rv = 0) as -> by (unfold encode_common_mqtt_msg in E; cbn [negb Z.eqb] in E; congruence).
    destruct (common_msg_decoded (publish_msg pub_info) clientid (an_proto_ver node) m Hb Hh H1 H2 H3 E) as (msg & cparam & D).
    exists m, msg, cparam. by cbn.
  - unfold encode_common_mqtt_msg in E. cbn [negb Z.eqb] in E. congruence.
Qed.

(** A node may have no client id for AWS, but a publish that it receives then
    uses the string. *)
Theorem recv_without_clientid pub_info node :
  an_clientid node = None -> handle_recv_publish pub_info node = [Crash].
Proof. intros H. unfold handle_recv_publish. by rewrite H. Qed.

End Aws.

(** ** Witness *)

Section Witness.

Import Model.

#[local] Existing Instance common_api.

(** A network where the connections of a list succeed or fail in turn and the
    loop always does. *)
#[local] Instance sample_lib : AwsLib := {|
  world := list bool;
  backoff_ctx := nat * Z;
  Openssl_Connect _ _ w := (hd false w, tl w);
  Openssl_Disconnect w := w;
  MQTT_Connect _ w := (true, w);
  MQTT_GetPacketId w := (7, w);
  MQTT_Subscribe _ _ w := (true, w);
  MQTT_Publish _ _ w := (true, w);
  MQTT_ProcessLoop w := (true, [], w);
  rand w := (4, w);
  BackoffAlgorithm_InitializeParams _ max n := (Z.to_nat n, max);
  BackoffAlgorithm_GetNextBackoff c _ :=
    match fst c with O => (BackoffAlgorithmRetriesExhausted, 0, c) | S k => (BackoffAlgorithmSuccess, 0, (k, snd c)) end
|}.

Definition cloud_topic : topics :=
  Topics (Some c!"cloud") 5 (Some c!"t") 1 None 0 None 0 0 0 0 0.
Definition cloud_node : aws_node :=
  AwsNode true c!"iot" 443 None None None (Some c!"c") None None 60 true 4 [] [cloud_topic].

Lemma cloud_topics : Forall (fun n => Forall topics_ok (an_forwards_list n)) [cloud_node].
Proof. repeat constructor; by eexists. Qed.

Definition sample_pub : aws_pub := AwsPub c!"t" [1; 2] true 2 false.

Definition no_msg (p : publish_info) : @nng_msg msgs := new_msg.

Lemma aws_forward_correct_witness :
  published (fst (aws_bridge_forward no_msg 0 0 [cloud_node] sample_pub []))
    = [PublishInfo 1 false false c!"cloud" 5 [1; 2] 2].
Proof. refine (proj2 (proj2 (aws_forward_correct no_msg 0 0 [cloud_node] sample_pub [] cloud_topics)) (fun _ => eq_refl)). Defined.

#[local] Instance sample_backoff : BackoffLaws.
Proof.
  unshelve refine {| attempts_left := fst : backoff_ctx -> nat; max_backoff := snd : backoff_ctx -> Z |}.
  - done.
  - done.
  - intros c r E. cbn in *. by rewrite E.
  - intros c r E H. cbn in *. destruct (fst c) as [|k]; [done|]. by eexists 0, (k, snd c).
Defined.

(** The third attempt succeeds; and no attempt does. *)
Example third_attempt :
  (fun '(ok, k, _) => (ok, tries k, pauses k)) <$> connect_retries 6 cloud_node [false; false; true]
    = Some (true, 3%nat, [0; 0]).
Proof. by vm_compute. Qed.

Lemma connect_retries_ends_witness :
  exists ok k w', connect_retries 6 cloud_node [false; false; true] = Some (ok, k, w') /\ tls_run false k = Some ok /\
    (1 <= tries k <= 6)%nat /\ (ok = false -> tries k = 6%nat) /\ length (pauses k) = pred (tries k) /\
    Forall (fun ms => 0 <= ms <= CONNECTION_RETRY_MAX_BACKOFF_DELAY_MS) (pauses k).
Proof. exact (connect_retries_ends cloud_node [false; false; true]). Defined.

Example exhausted : (fun '(ok, k, _) => (ok, tries k)) <$> connect_retries 6 cloud_node [] = Some (false, 6%nat).
Proof. by vm_compute. Qed.

End Witness.

End AwsBridge.
