(* ===== verification/HttpService.v ===== *)
(** * The REST API behind its HTTP server (nanomq/web_server.c with
    nanomq/rest_api.c)

    [WebServer] is the server for any request handler, [RestApi] the handler's
    authorization and routing.  Here the workers of the server call
    [process_request]; what a routed handler returns is a relation, since it
    depends on the broker.  The theorem is about the answers that HTTP clients
    get. *)

From S2P Require Import Prelude RuleSql RestApi WebServer WebhookEvents ZephyrMain.

Module HttpService.

Import WebServer.

(** The text of {"code": code} *)
Definition code_json (code : Z) : bytes := [123; 34] ++ lit "code" ++ [34; 58] ++ RuleSql.dec code ++ [125].

Definition error_response (msg : http_msg) (status code : Z) : http_msg :=
  put_http_msg (HttpMsg status None None None None None) (ms_content_type msg) None None None (Some (code_json code)).

Section Service.

Context (NNG_ENOMEM : Z).
Context (base64_decode : bytes -> bytes) (nng_strcasecmp : bytes -> bytes -> Z).
Context (hconfig : RestApi.conf_http_server).

(** [handle h m res]: the handler [h] may return [res] for the request [m]. *)
Context (handle : RestApi.handler -> http_msg -> http_msg -> Prop).

Definition to_rest (m : http_msg) (method : bytes) : RestApi.http_msg := RestApi.HttpMsg method (ms_uri m) (ms_token m).

(** What a worker sends back. *)
Definition responds (m : http_msg) (r : RestApi.response) (res : http_msg) : Prop :=
  match r with
  | RestApi.Handled h => handle h m res
  | RestApi.Empty => res = no_msg
  | RestApi.Error status code => res = error_response m status code
  end.

Definition served (m res : http_msg) : Prop :=
  exists method r, ms_method m = Some method /\
    RestApi.process_request base64_decode nng_strcasecmp (to_rest m method) hconfig = Some r /\ responds m r res.

(** The token of a request that gets past basic authentication. *)
Definition authorized (m : http_msg) : Prop :=
  exists b64, ms_token m = Some (lit "Basic " ++ b64) /\ 4 <= blen b64 /\
    c_str (RestApi.decode_buffer base64_decode b64) = RestApi.hs_username hconfig ++ [58] ++ RestApi.hs_password hconfig.

Lemma served_guarded m res :
  RestApi.hs_auth_type hconfig = RestApi.BASIC -> served m res ->
  authorized m \/ exists code, code <> RestApi.SUCCEED /\ res = error_response m RestApi.NNG_HTTP_STATUS_UNAUTHORIZED code.
Proof.
  intros Hb (method & r & Hm & E & Hr). unfold RestApi.process_request in E. rewrite Hb in E.
  destruct (Z.eqb_spec (RestApi.basic_authorize base64_decode (to_rest m method) hconfig) RestApi.SUCCEED) as [Ha|Ha].
  - left. by apply RestApi.basic_authorize_succeeds in Ha.
  - right. cbn [negb] in E. injection E as <-. by eexists.
Qed.

(** An answer with a response is one that the handler gave to that request. *)
Lemma answer_served n s a st ct ck d :
  rtc (step NNG_ENOMEM served) (start n) s -> (a, Response st ct ck d) ∈ web_answers (sy_web s) ->
  exists m res, (a, m) ∈ sy_reqs s /\ served m res /\ Response st ct ck d = response_of res.
Proof.
  intros (Hw & _)%reach_ok Hin. destruct Hw as [_ _ _ _ _ _ _ Ha _]. by pose proof (proj1 (Forall_forall _ _) Ha _ Hin).
Qed.

(** C36. Over HTTP, with basic authentication and whatever the order of the
    callbacks: a client whose token does not decode to the configured user name
    and password gets no response but status 401 with the code of the error. *)
Theorem http_guarded n s a st ct ck d :
  RestApi.hs_auth_type hconfig = RestApi.BASIC -> rtc (step NNG_ENOMEM served) (start n) s ->
  (a, Response st ct ck d) ∈ web_answers (sy_web s) ->
  exists m, (a, m) ∈ sy_reqs s /\
    (authorized m \/ (st = 401 /\ ck = None /\ exists code, code <> 0 /\ d = Some (code_json code))).
Proof.
  intros Hb Hr Hin. destruct (answer_served n s a st ct ck d Hr Hin) as (m & res & Hm & Hs & E).
  exists m. split; [done|]. destruct (served_guarded m res Hb Hs) as [Ha|(code & Hc & ->)]; [by left|right].
  injection E as -> _ -> ->. split_and!; [done|done|]. by exists code.
Qed.

End Service.

(** ** The pair that is published does not open a board *)

Lemma colon_split u p : u ++ [58] ++ p = lit "admin:public" -> u = lit "admin" /\ p = lit "public".
Proof.
  intros E. change (lit "admin:public") with [97; 100; 109; 105; 110; 58; 112; 117; 98; 108; 105; 99] in E.
  do 6 (destruct u as [|? u]; [cbn in E; try discriminate E; by injection E as ->|injection E as -> E]).
  exfalso. do 6 (destruct u as [|? u]; [cbn in E; discriminate E|injection E as -> E]). by destruct u.
Qed.

(** With the configuration that the main of a Zephyr port makes, the REST API
    answers the published name and password with status 401. *)
Theorem published_pair_rejected NNG_ENOMEM base64_decode nng_strcasecmp handle k alloc user pass n s a st ct ck d m b64 :
  ZephyrMain.own_credentials k = true ->
  ZephyrMain.nng_strdup alloc ZephyrMain.UserBlock (ZephyrMain.CONFIG_BROKER_REST_USER k) = Some user ->
  ZephyrMain.nng_strdup alloc ZephyrMain.PassBlock (ZephyrMain.CONFIG_BROKER_REST_PASS k) = Some pass ->
  let hconfig := RestApi.ConfHttpServer RestApi.BASIC user pass in
  rtc (step NNG_ENOMEM (served base64_decode nng_strcasecmp hconfig handle)) (start n) s ->
  (a, Response st ct ck d) ∈ web_answers (sy_web s) -> (a, m) ∈ sy_reqs s ->
  ms_token m = Some (lit "Basic " ++ b64) -> c_str (RestApi.decode_buffer base64_decode b64) = lit "admin:public" ->
  st = 401.
Proof.
  intros Ho Hu Hp hconfig Hr Hin Hm Ht Hd.
  destruct (answer_served _ _ _ _ _ n s a st ct ck d Hr Hin) as (m' & res & Hm' & Hs & E).
  assert (m' = m) as ->.
  { destruct (reach_ok _ _ n s Hr) as (_ & Hnd & _).
    assert (forall l : list (nat * http_msg), NoDup (map fst l) -> (a, m') ∈ l -> (a, m) ∈ l -> m' = m) as U; [|by eapply U].
    intros l. induction l as [|[a0 m0] l IH]; cbn; [intros _ H; by apply elem_of_nil in H|].
    intros [H1 H2]%NoDup_cons [E1|H3]%elem_of_cons [E2|H4]%elem_of_cons; [congruence| | |by apply IH].
    - injection E1 as <- <-. apply elem_of_fst in H4. done.
    - injection E2 as <- <-. apply elem_of_fst in H3. done. }
  destruct (served_guarded _ _ hconfig handle m res eq_refl Hs) as [(b & Hb & _ & Ha)|(code & _ & ->)];
    [|by injection E as ->].
  rewrite Ht in Hb. injection Hb as <-. rewrite Hd in Ha. cbn [RestApi.hs_username RestApi.hs_password hconfig] in Ha.
  symmetry in Ha. apply colon_split in Ha as [-> ->].
  unfold ZephyrMain.nng_strdup in Hu, Hp. destruct (alloc _); [|done]. destruct (alloc _); [|done].
  injection Hu as Hu. injection Hp as Hp. rewrite ZephyrMain.published_refused in Ho; [done|by left].
Qed.

(** The copies of the credentials are not checked, and the start of the server
    puts the published pair in the place of those that are missing: without
    memory for them a board with credentials of its own is opened by the pair. *)
Theorem published_pair_without_memory :
  exists alloc k, ZephyrMain.own_credentials k = true /\
  let c := ZephyrMain.esp_conf 3 4 ZephyrMain.default_conf alloc k in
  ZephyrMain.z_http_enable c = true /\
  let server := set_http_server_conf (ServerConf 8081 None (ZephyrMain.z_username c) (ZephyrMain.z_password c) 4096) in
  sv_username server = Some (lit "admin") /\ sv_password server = Some (lit "public").
Proof.
  exists (fun b => match b with ZephyrMain.UserBlock | ZephyrMain.PassBlock => false | _ => true end), ZephyrMain.board.
  by vm_compute.
Qed.

(** ** Witness: a request without a token *)

Definition same_word : bytes -> bytes -> Z := RestApi.same_word.
Definition any_handler (h : RestApi.handler) (m res : http_msg) : Prop := res = ok_reply.
Definition admin_served : http_msg -> http_msg -> Prop := served RestApi.pad_decode same_word RestApi.admin any_handler.
Definition refusal : http_msg := error_response (req_msg get_nodes) 401 104.

Definition refused : system :=
  System (Web [RestJob None false RECV_REP None 1 Idle] [0%nat] ∅ [(7%nat, response_of refusal)])
    [(SRV_RECV, WReceiving)] [(1, req_msg get_nodes)] [(1, refusal)] [(7%nat, req_msg get_nodes)] [1].

Lemma refused_reached : rtc (step 2 admin_served) (start 1) refused.
Proof.
  eapply rtc_l.
  { eapply (step_request 2 admin_served 7 get_nodes (opens 1)); [by apply not_elem_of_nil| |vm_compute; reflexivity].
    split; [lia|by apply not_elem_of_nil]. }
  eapply rtc_l; [by eapply (step_sent 2 admin_served 0 _ 1 (req_msg get_nodes) 0)|].
  eapply rtc_l.
  { eapply (step_work 2 admin_served 0 SRV_RECV SRV_SEND 1 (req_msg get_nodes) refusal refusal); [done|by left| |done].
    exists (lit "GET"), (RestApi.Error 401 104). by split_and!. }
  eapply rtc_l; [by eapply (step_replied 2 admin_served 0 SRV_SEND SRV_RECV 1 refusal)|].
  apply rtc_once. eapply (step_reply 2 admin_served 0 _ 1 refusal 0); [reflexivity..|by left|vm_compute; reflexivity].
Qed.

Lemma http_guarded_witness :
  exists m, (7%nat, m) ∈ sy_reqs refused /\
    (authorized RestApi.pad_decode RestApi.admin m \/
     (401 = 401 /\ None = None :> option bytes /\ exists code, code <> 0 /\ ms_data refusal = Some (code_json code))).
Proof.
  refine (http_guarded 2 RestApi.pad_decode same_word RestApi.admin any_handler 1 refused 7 401 None None (ms_data refusal)
    eq_refl refused_reached _).
  left.
Defined.

End HttpService.
