(* ===== verification/CliWeb.v ===== *)
(** * The HTTP server of the gateways (nanomq_cli/web_server.c)

    A copy of nanomq/web_server.c whose workers call process_request_cli: the
    jobs and callbacks are textually those of [WebServer], of which the
    definitions here are instances, and the start differs.  The theorem composes
    the server with [GatewayRest]. *)

From S2P Require Import Prelude RuleSql RestApi GatewayRest WebServer HttpService.

Module CliWeb.

Import WebServer.

Definition rest_recycle_job : nat -> rest_job -> web -> web := WebServer.rest_recycle_job.
Definition rest_get_job : bool -> web -> option nat * web := WebServer.rest_get_job.
Definition rest_http_fatal : nat -> rest_job -> nat -> Z -> web -> option web := WebServer.rest_http_fatal.
Definition rest_job_cb : nat -> Z -> option http_msg -> Z -> web -> option web := WebServer.rest_job_cb.
Definition rest_handle : Z -> nat -> http_req -> handle_env -> web -> option web := WebServer.rest_handle.
Definition inproc_cb : srv_state -> Z -> http_msg -> srv_state * list srv_call := WebServer.inproc_cb.

(** ** Starting *)

Definition INPROC_URL : bytes := lit "inproc://cli_rest".

Definition rest_url (port : Z) : bytes := take 127 (lit "http://0.0.0.0:" ++ RuleSql.dec port ++ GatewayRest.REST_URI_ROOT).

Definition rest_start_calls (port : Z) : list rest_call :=
  [MtxAlloc; UrlParse (rest_url port); Req0Open; DialReq INPROC_URL; ServerHold; HandlerAlloc; SetTree;
   SetMethod RestHandler None; CollectBody RestHandler (1024 * 128); AllocDirectory (lit "./dist");
   SetMethod FileHandler (Some (lit "GET")); CollectBody FileHandler 1024; AddHandler FileHandler;
   AddHandler RestHandler; ServerStart; UrlFree].

(** Every failure ends the program: the result is the calls made and whether the
    server runs. *)
Fixpoint rest_exec (rv : nat -> Z) (n : nat) (l : list rest_call) : list rest_call * bool :=
  match l with
  | [] => ([], true)
  | UrlFree :: l => let '(k, r) := rest_exec rv (S n) l in (UrlFree :: k, r)
  | a :: l => if negb (rv n =? 0) then ([a], false) else let '(k, r) := rest_exec rv (S n) l in (a :: k, r)
  end.

Definition rest_start (rv : nat -> Z) (port : Z) : list rest_call * bool := rest_exec rv 0 (rest_start_calls port).

(** [None] is the end of the program. *)
Definition start_rest_server (thread : Z) (rv : nat -> Z) (port : Z) : option (list rest_call) :=
  if negb (thread =? 0) then None
  else match rest_start rv port with (k, true) => Some k | (_, false) => None end.

(** The calls of inproc_server up to its endless loop, [parallel] workers being
    wanted; [Cb i] sets worker [i] going. *)
Inductive inproc_call := Rep0Open | AllocWork (i : nat) | ListenInproc (url : bytes) | Cb (i : nat).

Definition inproc_server (parallel : nat) : list inproc_call :=
  [Rep0Open] ++ map AllocWork (seq 0 parallel) ++ [ListenInproc INPROC_URL] ++ map Cb (seq 0 parallel).

Definition checked (c : inproc_call) : bool := match c with Cb _ => false | _ => true end.

Lemma rest_exec_ok rv n l : (forall k, rv k = 0) -> rest_exec rv n l = (l, true).
Proof.
  intros H. revert n. induction l as [|a l IH]; intros n; [done|].
  destruct a; cbn [rest_exec]; rewrite ?H; cbn [Z.eqb negb]; by rewrite IH.
Qed.

(** The address holds whatever the port is, and a start in which nothing fails
    adds both handlers before the server is started. *)
Lemma rest_url_holds port :
  0 <= port < 65536 -> rest_url port = lit "http://0.0.0.0:" ++ RuleSql.dec port ++ GatewayRest.REST_URI_ROOT.
Proof.
  intros Hp. unfold rest_url. apply take_ge. rewrite !length_app.
  pose proof (RuleSql.dec_length 5 port ltac:(lia) ltac:(cbn; lia)) as Hd. unfold blen in *.
  change (length (lit "http://0.0.0.0:")) with 15%nat. change (length GatewayRest.REST_URI_ROOT) with 13%nat. lia.
Qed.

Theorem gateway_server_started rv port k :
  (forall n, rv n = 0) -> 0 <= port < 65536 -> start_rest_server 0 rv port = Some k ->
  exists pre, k = pre ++ [ServerStart; UrlFree] /\ AddHandler RestHandler ∈ pre /\ AddHandler FileHandler ∈ pre /\
    UrlParse (lit "http://0.0.0.0:" ++ RuleSql.dec port ++ GatewayRest.REST_URI_ROOT) ∈ pre.
Proof.
  intros Hr Hp E. unfold start_rest_server, rest_start in E. rewrite rest_exec_ok in E by done. injection E as <-.
  unfold rest_start_calls. rewrite rest_url_holds by done.
  match goal with |- exists pre, ?l = _ /\ _ => exists (take 14 l) end. cbn [take].
  split; [reflexivity|]. rewrite !elem_of_cons. tauto.
Qed.

(** ** The answers *)

Section Service.

Context (NNG_ENOMEM : Z).
Context (base64_decode : bytes -> bytes) (nng_strcasecmp : bytes -> bytes -> Z) (file_load_data : bytes -> bytes).
Context (memory : nat -> bytes) (proxy : GatewayRest.proxy_info).

(** The text of an answer. *)
Definition body_text (b : GatewayRest.body) : bytes :=
  match b with GatewayRest.Json code => HttpService.code_json code | GatewayRest.Text s => s end.

Definition http_of (r : GatewayRest.reply) : http_msg :=
  HttpMsg (GatewayRest.re_status r) (GatewayRest.re_type r) None None None (body_text <$> GatewayRest.re_body r).

(** What a worker of the gateway returns, and what it does; the result of
    writing the file is any. *)
Definition serves (m res : http_msg) (e : GatewayRest.effect) : Prop :=
  exists method uri put r, ms_method m = Some method /\ ms_uri m = Some uri /\
    GatewayRest.process_request_cli base64_decode nng_strcasecmp file_load_data memory
      (GatewayRest.Request method uri (ms_content_type m) (ms_token m) (default [] (ms_data m))) proxy put = Some (r, e) /\
    res = http_of r.

Definition served (m res : http_msg) : Prop := exists e, serves m res e.

(** The token of a request that is let in. *)
Definition authorized (m : http_msg) : Prop :=
  exists t w, ms_token m = Some t /\ GatewayRest.scan_basic t = Some w /\
    c_str (GatewayRest.decoded base64_decode memory w) = GatewayRest.px_username proxy ++ [58] ++ GatewayRest.px_password proxy.

Lemma serves_guarded m res e : serves m res e -> authorized m \/ (e = GatewayRest.NoEffect /\ ms_status res = 401).
Proof.
  intros (method & uri & put & r & _ & _ & E & ->). unfold GatewayRest.process_request_cli in E.
  cbn [GatewayRest.rq_token GatewayRest.rq_type] in E.
  destruct (Z.eqb_spec (GatewayRest.basic_authorize base64_decode memory (ms_token m) proxy) RestApi.SUCCEED) as [Ha|Ha].
  - left. by apply GatewayRest.gw_authorize_succeeds.
  - right. cbn [negb] in E. by injection E as <- <-.
Qed.

(** Over HTTP, a gateway gives a client without the right token no response but
    status 401, and does nothing for it. *)
Theorem gateway_http_guarded n s a st ct ck d :
  rtc (step NNG_ENOMEM served) (start n) s -> (a, Response st ct ck d) ∈ web_answers (sy_web s) ->
  exists m res e, (a, m) ∈ sy_reqs s /\ serves m res e /\ Response st ct ck d = response_of res /\
    (authorized m \/ (e = GatewayRest.NoEffect /\ st = 401)).
Proof.
  intros (Hw & _)%reach_ok Hin. destruct Hw as [_ _ _ _ _ _ _ Ha _].
  pose proof (proj1 (Forall_forall _ _) Ha _ Hin) as (m & res & Hm & [e He] & E). cbn [fst snd] in *.
  exists m, res, e. split_and!; [done..|]. destruct (serves_guarded m res e He) as [H|[H1 H2]]; [by left|right].
  injection E as -> _ _ _. done.
Qed.

End Service.

End CliWeb.
