(* ===== verification/Vsomeip.v ===== *)
(** * The SOME/IP gateway (nanomq_cli/vsomeip_gateway.cc)

    The gateway subscribes at a broker and sends the payloads it receives to a
    SOME/IP service; responses and notifications of the service are published.
    vSomeIP is a library the sources only call: its callbacks are the events of
    a step function, which keep the order the program gives them: none before
    the application was created.  The parser of the configuration file is
    nanolib's and a parameter. *)

From S2P Require Import Prelude OptsApi.

Module Vsomeip.

(** vsomeip_gateway_conf *)
Record vsomeip_gateway_conf := VsomeipConf {
  vc_mqtt_url : option bytes;
  vc_pub_topic : option bytes;
  vc_sub_topic : option bytes;
  vc_username : option bytes;
  vc_password : option bytes;
  vc_clientid : option bytes;
  vc_proto_ver : Z;
  vc_keepalive : Z;
  vc_service_id : Z;
  vc_service_instance_id : Z;
  vc_service_method_id : Z;
  vc_service_event_id : Z;
  vc_service_eventgroup_id : Z;
  vc_conf_path : option bytes;
  vc_clean_start : bool;
  vc_parallel : Z;
  vc_path : option bytes;
  vc_http_enable : bool
}.

(** Four members keep what the memory held. *)
Definition vsomeip_gateway_conf_init (c : vsomeip_gateway_conf) : vsomeip_gateway_conf :=
  VsomeipConf None None None None None None 4 60 0 0 0 0 0 None
    (vc_clean_start c) (vc_parallel c) (vc_path c) (vc_http_enable c).

Definition with_path (c : vsomeip_gateway_conf) (p : option bytes) : vsomeip_gateway_conf :=
  VsomeipConf (vc_mqtt_url c) (vc_pub_topic c) (vc_sub_topic c) (vc_username c) (vc_password c) (vc_clientid c)
    (vc_proto_ver c) (vc_keepalive c) (vc_service_id c) (vc_service_instance_id c) (vc_service_method_id c)
    (vc_service_event_id c) (vc_service_eventgroup_id c) (vc_conf_path c) (vc_clean_start c) (vc_parallel c) p
    (vc_http_enable c).

(** The variable that is put into the environment; it is an array on the stack
    of the function. *)
Definition config_variable (c : vsomeip_gateway_conf) : option bytes :=
  p ← vc_conf_path c; Some (take 127 (lit "VSOMEIP_CONFIGURATION=" ++ p)).

(** -1 without the topics.  The default for the URL is the value of an
    expression that nothing takes. *)
Definition vsomeip_gateway_conf_check_and_set (c : vsomeip_gateway_conf) : option vsomeip_gateway_conf :=
  match vc_sub_topic c, vc_pub_topic c with
  | Some _, Some _ => Some c
  | _, _ => None
  end.

(** ** Options *)

Definition OPT_HELP : Z := 1.
Definition OPT_CONFFILE : Z := 2.

Definition cmd_opts : list optspec :=
  [OptSpec (lit "help") 104 OPT_HELP false; OptSpec (lit "conf") 0 OPT_CONFFILE true].

Definition vsomeip_opt (val : Z) (arg : option bytes) (c : vsomeip_gateway_conf) : vsomeip_gateway_conf + stop :=
  if val =? OPT_HELP then inr (ExitWith 0)
  else if val =? OPT_CONFFILE then
    match arg with Some a => inl (with_path c (Some a)) | None => inr UseNull end
  else inl c.

(** ** The running gateway *)

(** The type and result of a SOME/IP message. *)
Inductive message_type := MT_RESPONSE | MT_NOTIFICATION | MT_OTHER (t : Z).
Record message := Message { me_service : Z; me_instance : Z; me_ok : bool; me_type : message_type; me_payload : bytes }.

(** What the gateway does. *)
Inductive action :=
  | SendRequest (service instance method : Z) (payload : bytes)
  | Publish (topic : option bytes) (payload : bytes) (qos : Z)
  | RequestService (service instance : Z)
  | CtxRecv
  | SendSubscribe (topic : option bytes) (qos : Z)
  | UseNull.

Inductive work_state := INIT | RECV | WAIT | SEND.

(** is_available, and whether vc_ptr is set. *)
Record gateway := Gateway { is_available : bool; vc_ptr : bool }.

(** The calls of the library and of the workers of the subscription, which are
    in RECV after client() has called each once; [None] of a message is one that
    is not there. *)
Inductive event :=
  | Created
  | StateRegistered
  | Availability (service instance : Z) (available : bool)
  | OnMessage (m : message)
  | Connected
  | Worker (result : Z) (payload : option bytes).

Section Gateway.

Context (c : vsomeip_gateway_conf).

Definition on_state_cbk : list action := [RequestService (vc_service_id c) (vc_service_instance_id c)].

Definition on_availability_cbk (service instance : Z) (available : bool) (g : gateway) : gateway :=
  if (vc_service_id c =? service) && (vc_service_instance_id c =? instance) && available
  then Gateway true (vc_ptr g) else g.

Definition send_message (payload : bytes) : list action :=
  [SendRequest (vc_service_id c) (vc_service_instance_id c) (vc_service_method_id c) payload].

Definition on_message_cbk (m : message) : list action :=
  if (vc_service_id c =? me_service m) && (vc_service_instance_id c =? me_instance m) && me_ok m then
    match me_type m with
    | MT_RESPONSE | MT_NOTIFICATION => [Publish (vc_pub_topic c) (me_payload m) 0]
    | MT_OTHER _ => []
    end
  else [].

Definition connect_cb : list action :=
  match vc_sub_topic c with None => [UseNull] | Some t => [SendSubscribe (Some t) 0] end.

Definition check_recv (payload : bytes) (g : gateway) : list action :=
  if 0 <? blen payload then
    if is_available g then if vc_ptr g then send_message payload else [UseNull] else []
  else [].

(** The callback of a worker; an error is only logged. *)
Definition vsomeip_gateway_sub_cb (st : work_state) (result : Z) (payload : option bytes) (g : gateway)
  : work_state * list action :=
  match st with
  | INIT => (RECV, [CtxRecv])
  | RECV =>
      match payload with
      | None => (RECV, [UseNull])
      | Some p => (RECV, check_recv p g ++ [CtxRecv])
      end
  | WAIT | SEND => (st, [])
  end.

Definition on_event (e : event) (g : gateway) : gateway * list action :=
  match e with
  | Created => (Gateway (is_available g) true, [])
  | StateRegistered => (g, on_state_cbk)
  | Availability s i a => (on_availability_cbk s i a g, [])
  | OnMessage m => (g, on_message_cbk m)
  | Connected => (g, connect_cb)
  | Worker r p => (g, snd (vsomeip_gateway_sub_cb RECV r p g))
  end.

Fixpoint run (l : list event) (g : gateway) : list action :=
  match l with [] => [] | e :: l => let '(g, k) := on_event e g in k ++ run l g end.

(** The callbacks of the library come after the application was created; the
    workers of the subscription are started before that. *)
Fixpoint ordered (created : bool) (l : list event) : bool :=
  match l with
  | [] => true
  | Created :: l => negb created && ordered true l
  | (StateRegistered | Availability _ _ _ | OnMessage _) :: l => created && ordered created l
  | _ :: l => ordered created l
  end.

(** ** Properties *)

Definition requests (k : list action) : list bytes :=
  omap (fun a => match a with SendRequest _ _ _ p => Some p | _ => None end) k.
Definition publishes (k : list action) : list bytes :=
  omap (fun a => match a with Publish _ p _ => Some p | _ => None end) k.

(** What a service is to be sent: the payloads that are not empty and arrive
    after it was reported available. *)
Fixpoint wanted_requests (available : bool) (l : list event) : list bytes :=
  match l with
  | [] => []
  | Availability s i a :: l =>
      wanted_requests (available || ((vc_service_id c =? s) && (vc_service_instance_id c =? i) && a)) l
  | Worker _ (Some p) :: l => (if available && (0 <? blen p) then [p] else []) ++ wanted_requests available l
  | _ :: l => wanted_requests available l
  end.

Definition wanted_publishes (l : list event) : list bytes :=
  omap (fun e => match e with
    | OnMessage m =>
        if (vc_service_id c =? me_service m) && (vc_service_instance_id c =? me_instance m) && me_ok m then
          match me_type m with MT_OTHER _ => None | _ => Some (me_payload m) end
        else None
    | _ => None end) l.

Lemma requests_app k l : requests (k ++ l) = requests k ++ requests l.
Proof. apply omap_app. Qed.

Lemma publishes_app k l : publishes (k ++ l) = publishes k ++ publishes l.
Proof. apply omap_app. Qed.

Lemma run_spec l g :
  ordered (vc_ptr g) l = true -> (is_available g = true -> vc_ptr g = true) -> is_Some (vc_sub_topic c) ->
  (forall r p, Worker r p ∈ l -> is_Some p) ->
  (UseNull ∉ run l g) /\ requests (run l g) = wanted_requests (is_available g) l /\ publishes (run l g) = wanted_publishes l.
Proof.
  intros Ho Hi [t Ht] Hw. revert g Ho Hi. induction l as [|e l IH]; intros g Ho Hi; [split_and!; [apply not_elem_of_nil|done..]|].
  assert (forall r p, Worker r p ∈ l -> is_Some p) as Hw' by (intros r p H; apply (Hw r p); by right).
  specialize (IH Hw'). cbn [run]. destruct g as [av ptr]. cbn [is_available vc_ptr] in *.
  destruct e as [| |s i a|m| |r p]; cbn [on_event ordered] in *.
  - apply andb_true_iff in Ho as [_ Ho]. by apply (IH (Gateway av true)).
  - apply andb_true_iff in Ho as [-> Ho]. destruct (IH (Gateway av true) Ho Hi) as (I1 & I2 & I3).
    unfold on_state_cbk. rewrite requests_app, publishes_app, I2, I3. split_and!; [|done..]. set_solver.
  - apply andb_true_iff in Ho as [-> Ho]. unfold on_availability_cbk. cbn [app wanted_requests].
    destruct (_ && _ && a) eqn:Ea.
    + rewrite orb_true_r. by apply (IH (Gateway true true)).
    + rewrite orb_false_r. by apply (IH (Gateway av true)).
  - apply andb_true_iff in Ho as [-> Ho]. destruct (IH (Gateway av true) Ho Hi) as (I1 & I2 & I3).
    rewrite requests_app, publishes_app, I2, I3. unfold on_message_cbk, wanted_publishes. cbn [omap list_omap].
    destruct (_ && _ && me_ok m); [|done]. destruct (me_type m); (split_and!; [|done..]); set_solver.
  - destruct (IH (Gateway av ptr) Ho Hi) as (I1 & I2 & I3). unfold connect_cb. rewrite Ht.
    rewrite requests_app, publishes_app, I2, I3. split_and!; [|done..]. set_solver.
  - destruct (Hw r p) as [q ->]; [by left|]. destruct (IH (Gateway av ptr) Ho Hi) as (I1 & I2 & I3).
    unfold vsomeip_gateway_sub_cb, check_recv. cbn [is_available vc_ptr wanted_requests snd].
    rewrite !requests_app, !publishes_app, I2, I3.
    destruct (0 <? blen q), av; cbn [andb]; [rewrite (Hi eq_refl)| | |]; (split_and!; [set_solver|done..]).
Qed.

(** The gateway hands over what it should, in order: to the service the payloads
    that arrive once it was available, to the broker the responses and
    notifications of the service; and it never uses an application that is not
    there, although its workers run before the application is created. *)
Theorem gateway_forwards l :
  ordered false l = true -> is_Some (vc_sub_topic c) -> (forall r p, Worker r p ∈ l -> is_Some p) ->
  let k := run l (Gateway false false) in
  (UseNull ∉ k) /\ requests k = wanted_requests false l /\ publishes k = wanted_publishes l.
Proof. intros. by apply run_spec. Qed.

(** A service that becomes unavailable stays available for the gateway. *)
Theorem unavailable_ignored p :
  0 < blen p ->
  let s := vc_service_id c in let i := vc_service_instance_id c in
  run [Created; Availability s i true; Availability s i false; Worker 0 (Some p)] (Gateway false false)
    = send_message p ++ [CtxRecv].
Proof.
  intros Hp s i. cbn [run on_event]. unfold on_availability_cbk. fold s i. rewrite !Z.eqb_refl, andb_false_r. cbn [andb vc_ptr].
  unfold vsomeip_gateway_sub_cb, check_recv. cbn [is_available vc_ptr snd]. rewrite (proj2 (Z.ltb_lt 0 (blen p)) Hp). cbn. done.
Qed.

(** A failed receive has no message, which is used all the same. *)
Theorem vsomeip_receive_error rv g : vsomeip_gateway_sub_cb RECV rv None g = (RECV, [UseNull]).
Proof. done. Qed.

(** Without a URL in the file the gateway dials NULL: the default is lost. *)
Theorem vsomeip_default_lost c' :
  vsomeip_gateway_conf_check_and_set c = Some c' -> vc_mqtt_url c = None -> vc_mqtt_url c' = None.
Proof. unfold vsomeip_gateway_conf_check_and_set. destruct (vc_sub_topic c), (vc_pub_topic c); congruence. Qed.

End Gateway.

(** ** The start *)

Section Start.

Context `{OP : OptsParse}.

Definition vsomeip_gateway_parse_opts (argv : list bytes) (c : vsomeip_gateway_conf)
  : option (vsomeip_gateway_conf * bool + stop) :=
  r ← parse_loop cmd_opts vsomeip_opt (S (length argv)) (drop 1 argv) 1 c;
  Some (match r with inl (c, rv) => inl (c, rv =? -1) | inr e => inr e end).

(** What client() and vsomeip_gateway() do. *)
Inductive start_action :=
  | OpenMqtt | AllocWorks (n : Z)
  | SetConnect (proto keepalive : Z) (clean : bool) (user pass : option bytes)
  | CreateDialer (url : option bytes) | StartDialer | StartWorks (n : Z)
  | CreateApplication | InitApplication | StartApplication.

Definition client (c : vsomeip_gateway_conf) (opened : Z) : list start_action :=
  OpenMqtt ::
  if negb (opened =? 0) then []
  else
    [AllocWorks (vc_parallel c);
     SetConnect (vc_proto_ver c) (vc_keepalive c) (vc_clean_start c) (vc_username c) (vc_password c);
     CreateDialer (vc_mqtt_url c); StartDialer; StartWorks (vc_parallel c)].

(** The result of client is not looked at. *)
Definition vsomeip_gateway (c : vsomeip_gateway_conf) (opened : Z) (init : bool) : Z * list start_action :=
  (if init then 0 else 1,
   client c opened ++ [CreateApplication; InitApplication] ++ if init then [StartApplication] else []).

Context (conf_vsomeip_gateway_parse_ver2 : vsomeip_gateway_conf -> vsomeip_gateway_conf).

(** Whether the HTTP server is started, and the actions. *)
Definition vsomeip_gateway_start (memory : vsomeip_gateway_conf) (argv : list bytes) (opened : Z) (init : bool)
  : option (bool * list start_action + stop) :=
  r ← vsomeip_gateway_parse_opts argv (vsomeip_gateway_conf_init memory);
  Some (match r with
        | inr e => inr e
        | inl (c, _) =>
            let c := conf_vsomeip_gateway_parse_ver2 c in
            inl (vc_http_enable c,
                 match vsomeip_gateway_conf_check_and_set c with
                 | Some c => snd (vsomeip_gateway c opened init)
                 | None => []
                 end)
        end).

(** A failed connection of the subscription is not noticed: the application is
    started without a socket to publish on. *)
Theorem vsomeip_starts_unconnected c opened :
  opened <> 0 -> vsomeip_gateway c opened true = (0, [OpenMqtt; CreateApplication; InitApplication; StartApplication]).
Proof. intros H. unfold vsomeip_gateway, client. by rewrite (proj2 (Z.eqb_neq _ _) H). Qed.

End Start.

End Vsomeip.
