(* ===== verification/CliMain.v ===== *)
(** * The entry of the command line tools (nanomq_cli/main.c, proxy.c)

    nanomq_cli runs the tool that its first argument names.  Which tools the
    table has depends on the options of the build. *)

From S2P Require Import Prelude GatewayRest.

Module CliMain.

(** The functions of the table. *)
Inductive app_func :=
  publish_start | subscribe_start | connect_start | bench_start | nng_proxy_start | nng_cat_dflt | gateway_start
| vsomeip_gateway_start | dds_proxy_start | rules_start | nftp_start | iceoryx_start.

(** SUPP_CLIENT, SUPP_BENCH (and not Windows), ... *)
Record build := Build {
  supp_client : bool; supp_bench : bool; supp_nng_proxy : bool; supp_zmq_gateway : bool; supp_vsomeip_gateway : bool;
  supp_dds_proxy : bool; supp_rule_engine : bool; supp_nftp : bool; supp_iceoryx : bool
}.

Definition when {A} (b : bool) (l : list A) : list A := if b then l else [].

Definition apps (b : build) : list (bytes * app_func) :=
  when (supp_client b) [(lit "pub", publish_start); (lit "sub", subscribe_start); (lit "conn", connect_start)] ++
  when (supp_bench b) [(lit "bench", bench_start)] ++
  when (supp_nng_proxy b) [(lit "nngproxy", nng_proxy_start); (lit "nngcat", nng_cat_dflt)] ++
  when (supp_zmq_gateway b) [(lit "zmq_gateway", gateway_start)] ++
  when (supp_vsomeip_gateway b) [(lit "vsomeip_gateway", vsomeip_gateway_start)] ++
  when (supp_dds_proxy b) [(lit "dds", dds_proxy_start)] ++
  when (supp_rule_engine b) [(lit "rules", rules_start)] ++
  when (supp_nftp b) [(lit "nftp", nftp_start)] ++
  when (supp_iceoryx b) [(lit "iceoryx", iceoryx_start)].

Fixpoint names_loop (l : list (bytes * app_func)) : bytes :=
  match l with
  | [] => []
  | [(n, _)] => lit " " ++ n
  | (n, _) :: l => lit " " ++ n ++ lit " |" ++ names_loop l
  end.

Definition newline : bytes := [10].

Definition print_avail_apps (b : build) : bytes :=
  lit "nanomq_cli {" ++ names_loop (apps b) ++ lit " } [--help]" ++ newline ++ newline ++ lit "available tools:" ++ newline ++
  concat (map (fun a => lit "   * " ++ fst a ++ newline) (apps b)) ++ newline ++
  lit "Copyright 2022 EMQ Edge Computing Team" ++ newline ++ newline.

(** The tool that is called with all arguments, or the usage that is printed. *)
Fixpoint app_loop (name : bytes) (l : list (bytes * app_func)) : option app_func :=
  match l with
  | [] => None
  | (n, f) :: l => if strcmp0 name n then Some f else app_loop name l
  end.

Definition main (b : build) (argv : list bytes) : app_func * list bytes + bytes :=
  match argv with
  | _ :: app_name :: _ =>
      match app_loop app_name (apps b) with
      | Some f => inl (f, argv)
      | None => inr (print_avail_apps b)
      end
  | _ => inr (print_avail_apps b)
  end.

(** What the HTTP interface of a gateway is told ([GatewayRest]); user, password
    and name are read through the pointers. *)
Definition proxy_info_alloc (name conf_path username password : bytes) (argv : list bytes) : GatewayRest.proxy_info :=
  GatewayRest.ProxyInfo conf_path name username password argv.

(** ** Properties *)

Lemma app_loop_names name l f : app_loop name l = Some f -> (name, f) ∈ l.
Proof.
  induction l as [|[n g] l IH]; [done|]. cbn [app_loop]. destruct (strcmp0 name n) eqn:E.
  - intros [= <-]. apply bool_decide_eq_true in E as ->. by left.
  - intros H. right. by apply IH.
Qed.

Lemma app_loop_found name l f : NoDup (map fst l) -> (name, f) ∈ l -> app_loop name l = Some f.
Proof.
  induction l as [|[n g] l IH]; [by intros _ ?%not_elem_of_nil|]. cbn [map fst]. intros [Hn Hd]%NoDup_cons Hin. cbn [app_loop].
  apply elem_of_cons in Hin as [[= -> ->]|Hin]; [unfold strcmp0; by rewrite bool_decide_eq_true_2|].
  destruct (strcmp0 name n) eqn:E; [|by apply IH]. apply bool_decide_eq_true in E as ->. destruct Hn.
  apply list_elem_of_fmap. by exists (n, f).
Qed.

Lemma apps_distinct b : NoDup (map fst (apps b)).
Proof.
  destruct b as [c1 c2 c3 c4 c5 c6 c7 c8 c9]. apply (bool_decide_unpack _).
  destruct c1, c2, c3, c4, c5, c6, c7, c8, c9; vm_compute; exact I.
Qed.

(** In every build each tool of the table is the one its name calls, and no
    other name calls one. *)
Theorem tool_dispatch b prog name rest f :
  main b (prog :: name :: rest) = inl (f, prog :: name :: rest) <-> (name, f) ∈ apps b.
Proof.
  cbn [main]. split.
  - destruct (app_loop name (apps b)) as [g|] eqn:E; [|done]. intros [= <-]. by apply app_loop_names.
  - intros H. by rewrite (app_loop_found name (apps b) f (apps_distinct b) H).
Qed.

End CliMain.
